(* ===== verification/_CoqProject ===== *)
-Q . S2P
Prelude.v
KoreNet.v
WebsocketFrame.v
RandomId.v
LibUv.v
UvCallback.v
ListLib.v
EventEmitter.v
Jansson.v
Soup.v
LibPq.v
Pgsql.v
PgsqlVersions.v
KoreHttp.v
Auth2.v
Sse.v
Boss.v
Janus.v
HandleSdp.v
Gateway.v
GatewayConf.v
Watchdog.v
Messages.v
EchoTest.v
EchoSessions.v
EchoPlugin.v
EchoMedia.v
Exchange.v
Client.v
MediaRooms.v
RoomEcho.v
RoomPlugin.v
Listen.v
Events.v
JanusServer.v
JanusRequests.v
JanusSummary.v
JanusAdmin.v
JanusPlugins.v
JanusCounted.v
JanusKept.v
JanusModel.v
JanusLife.v
JanusAnswers.v
JanusConfig.v
SampleEvents.v
JanusMain.v
JanusStart.v
