(* ===== verification/Prelude.v ===== *)
(** * kore.io_websocket: a verification development

    The repository collects servers written for the kore framework: websocket rooms, HTTP
    sessions looked up in PostgreSQL, server-sent events, a database job queue, notifications
    of a database for browsers, a client of the mediasoup media worker, rooms of media with
    reference counts, a WebRTC gateway on Janus with its echo plug-in, the Janus server itself
    behind kore's websockets with a sample event handler, a message exchange over
    sockets, and the libraries they share (an event emitter, calls between threads over libuv,
    kore's PostgreSQL layer).  This library models their C code and proves what makes it
    correct, and where it is not, what it does instead.

    ** How the program is put together, and which file models which part

    A handler of a server is called by kore on a connection or a request and returns a
    code; what it starts comes back as a callback: a timer, a database result, a message of
    another thread.

    - [WebsocketFrame] (websocket_9/src/helper.c): frames and room broadcasts.
    - [RandomId] (mediasoup/src/mediasoup.c and room.c, mediasoup_1/src/soup_utils.c): the
      identifiers of requests and rooms.
    - [UvCallback], Module [Uv] (uv2/src/uv_callback.c): calls from any thread to a loop's
      thread, asynchronous and synchronous.  [Uv.sys] and [sys_step] are the system of
      sender and loop threads.
    - [EventEmitter], Module [EE] (mediasoup/src/globi_ee.c): the event emitter, over a heap.
    - [Soup], Module [Soup] (mediasoup/src/channel.c, soup_server.c, room.c, mediasoup.c):
      requests to the media worker and their answers.  Calls [RandomId] for identifiers and
      [EE] for room events.
    - [MediaRooms], Module [Media] (mediasoup_1/src/kore_media.c, ref_counter.h,
      mediasoup_1.c): media and rooms with reference counts, and the handlers that use them.
    - [Pgsql], Module [Pg] (pgsql.c): connection pool, queue of waiters, state machine of a
      query, results.  Its clients' state is a parameter of its world, their callback is
      [run_cb].  The repository has three versions of the layer, which are the class
      [PgVersion] (pgsql.c, auth2/pgsql.c, websocket_13/pgsql.c); theorems hold of each unless
      they say which.  [PgsqlVersions], Module [Versions], is about the differences.
    - [Auth2], Module [Auth] (auth2/src/auth2.c), [Boss], Module [Boss]
      (websocket_13/src/websocket_13.c) and [Events], Module [Events]
      (websocket_11/src/websocket_11.c): three clients of [Pg].  [Listen], Module [Listen], is
      the task of websocket_11.c, whose channel [Events.pipe_data_available] reads.
    - [Sse], Module [Sse] (sse/src/sse.c): server-sent events.
    - [RoomEcho], Module [App] (websocket_9/src/websocket_9.c) and [RoomPlugin], Module
      [Plugin] (websocket_9/plugin): the room echo application on [WebsocketFrame], and its
      plug-in with a thread of its own, as a step relation.
    - The WebRTC gateway (websocket_10).  [Janus] (src/incoming.c, trickle.c): an SDP or a
      candidate in a client's message.  [HandleSdp], Module [Sdp] (src/handle_sdp.c): the SDP
      of a plug-in.  [Gateway], Module [Gw] (src/websocket_10.c, helper.c): sessions, messages
      and callbacks; [Watchdog] and [Messages] are theorems about it.  [GatewayConf], Module
      [Conf] (src/helper.c, dlsym.c): configuration, start and end.
    - The gateway's echo plug-in (websocket_10/plugins/janus_echotest.c): [EchoTest], Module
      [Echo], has the operations; [EchoSessions] the invariant; [EchoPlugin] the system of all
      operations; [EchoMedia] settings and packets.
    - The WebRTC gateway server (janus/src/pjanus.c, janus.c, janus.h).  [JanusServer], Module
      [Srv]: sessions, handles, their reference counters, tables, answers and the watchdog.
      [JanusRequests], Module [Req]: a client's requests.  [JanusSummary], Module [Sum], and
      [JanusAdmin], Module [Adm]: the administrator's, and the websocket's handlers.
      [JanusPlugins], Module [Plug]: the callbacks of the plug-ins.  [JanusMain], Module
      [Start]: [Janusmain], from the command line to the end, over [JanusConfig].  The
      theorems: [JanusCounted] states the invariant of the reference counts, [JanusKept] has
      every operation keep it, [JanusLife] puts them together into the system [server_step] of
      all that can happen to a server, [JanusAnswers] is what a client is answered, and
      [JanusStart] what a start leaves and an end takes down.  [JanusModel] is the small Janus
      of their witnesses.
    - [SampleEvents], Module [Evh] (janus/event/kore_msg.c): the event handler.
    - [Exchange], Module [Mq] (mmap/seq/message.h, server.c) and [Client] (client.c): messages
      of fixed size between peers over non-blocking sockets.

    Libraries outside the repository are classes, each with its operations and, as laws, the
    documented behaviour the code rests on: [KoreNet] (buffers, byte order, timers),
    [KoreHttp] (requests, cookies, per-request memory), [LibUv], [ListLib] (clibs/list),
    [Jansson], [LibPq] and [PqAsync] (in [Listen]), [JsonRefs] (in [MediaRooms]), the socket
    calls of [Exchange], and Janus: [JanusCore], [SdpCore], [GatewayCore], [GatewayBoot],
    [EchoCore] and [EchoSdp] for the gateway, and for the server [ServerCore], [ServerInfo],
    [SummaryCore], [AdminCore], [BootCore], [JanusConfig] and [EvhCore], with the laws
    [CountedLaws] (a call of ICE hands out and takes back references as it says), [AdminLaws],
    [PluginLaws] and [BootLaws], each in the file that uses it first.  Every class has a concrete
    instance on which the theorems are applied (the lemmas named after the theorem, with
    [_witness]).

    ** How the code is modelled

    A function is a computation of the monad [M] over the record of its component's state;
    heaps are finite maps, a freed address leaves its map, and every access of a null or
    freed pointer, every misuse of a mutex and kore's [fatal] end in [Crash].  [wp m Q s] is
    total correctness: [m] does not crash from [s] and [Q] holds behind it; [triple] and
    [preserves] are its partial forms, for invariants.  Fixed-width integers wrap where the
    code's do ([u8], [u16], [u32], [u64]); the counters of media and rooms are mathematical
    integers, 2^31 references being out of reach.  Threads are step relations or lists of
    steps, a step being what happens between two operations on what is shared.

    Loops without a structural bound take fuel, and a run that uses it up ends in
    [Crash Fuel], so that a theorem that concludes [Done] proves that the loop ends.  The
    bounds asked for are: two for the result loop of one query ([Pg.drain]), the number of
    handlers for [EE.ee_emit], 31 for the wait for a cleaning session and the number of
    pending trickles for their drain ([Janus]), 128 rounds for a retransmission number
    ([Sdp.next_rtx]), the draws of a session number, which nothing bounds ([Gw]), the
    messages in the queue for the plug-ins' threads, the bytes to receive or to send
    ([Exchange], [Client]), the polls of a connection, and
    more than libpq has results and notifications ([Listen]); for
    connections and lists walked by the code, the recursion is on the list.  What a loop
    waits for (select, a sleep, a signal) is a list of what happens, and with its end the
    loop still waits.  Callbacks that may call their caller back ([run_cb] of [Auth2], [Boss]
    and [Events]) have a depth; two calls deep is enough for the first two, and a third is not
    made by the code; three are in the crash of [Events].

    ** What the theorems show

    - Protocol: a frame is read back by an RFC 6455 receiver (roundtrip), its size, and the
      recipients of a broadcast; a peer's messages arrive whole and in the order they were
      taken for sending, however the socket cuts them; a line typed at a client arrives at
      the server's handler.
    - Concurrency: no call fired at a loop is lost under any interleaving, and the loop
      makes them all in order and comes to rest; a synchronous call returns the answer; the
      plug-ins' threads serve every message once, and end when they are told to.
    - Tables, queues and memory: invariants of the request table, the queue of database
      waiters, the ping timers, the peers' buffers, the gateway's sessions and the plug-in's,
      kept by every operation; each request answered, refused or timed out exactly once;
      emitters run handlers in order; every reference of a media or room is owned by somebody
      and without owners nothing is left.
    - Databases and sessions: from a request to the verdict, both halves: the query sent
      with the cookie as its parameter, and the result deciding exactly; a request's state
      machine answers when it completes and not before; a notification reaches every browser
      that hears it, from libpq's socket to the queues of the connections.
    - Gateway: one answer for every message, the mutex free behind every path; the handlers
      refine a directory of sessions; an idle session is freed, once; configuration values
      have their types' ranges; what is started is stopped.
    - Server: whatever clients, administrators, plug-ins, the watchdog and ICE's threads do,
      each session and handle counts exactly the references to it and what was lost, so that
      the only leak is that of a client that leaves; the table of sessions is exact; a secret
      is asked for; the command line wins over the file; told to stop, the server stops.
    - What goes wrong: each of the theorems named for a crash, a leak, starvation or a
      dangling pointer states the inputs and the state under which the code does it.

    ** What is not modelled

    Logging; the frees of strings that are not used again; response bodies that are assets;
    JSON reference counts, except those of the gateway's request, of the server's errors, of
    [MediaRooms] and of [SampleEvents]; the worker start-up code; signals, except where a
    handler of the program runs on them.  Vendored C++ (the mediasoup worker); demos that only
    call libraries; copies and earlier versions of the modelled files.  Of the server: the
    interface of Janus's transport plug-ins, which nothing registers. *)

From stdpp Require Export base tactics list gmap strings fin_maps.
From Stdlib Require Export ZArith Lia.

#[global] Set Default Goal Selector "!".

(** ** Outcomes: what running a piece of C can end in

    [Done a] is a normal return.  [Crash f] is a run the C standard gives no
    meaning to (a null or dangling pointer is used, an array is left, a string is
    read to the end of its array and finds no terminator, a variable is read that was never
    written, a mutex is unlocked that is not held) or waits for ever (a held mutex is locked again), or that stops the process
    ([Fatal], kore's [fatal()]); [Fuel] is no behaviour of the program, it marks
    that the bound given to an executable loop was too small. *)

Inductive fault : Type :=
| NullDeref
| UseAfterFree
| DivByZero
| OutOfBounds
| Unterminated
| Indeterminate
| LockMisuse
| Fatal (msg : string)
| Fuel.

Inductive outcome (A : Type) : Type :=
| Done (a : A)
| Crash (f : fault).
Arguments Done {A} a.
Arguments Crash {A} f.

#[export] Instance fault_eq_dec : EqDecision fault.
Proof. solve_decision. Defined.

#[export] Instance outcome_eq_dec {A : Type} `{EqDecision A} : EqDecision (outcome A).
Proof. solve_decision. Defined.

(** Addresses of heap and stack objects.  Heaps are finite maps; an address that is
    freed leaves the map and is not given out again, so that a use after free
    shows as a lookup that fails. *)
Abbreviation loc := nat (only parsing).

(** ** The state and fault monad the handlers are written in *)

Definition M (S A : Type) : Type := S -> outcome (A * S).

#[export] Instance M_ret (S : Type) : MRet (M S) := fun A a s => Done (a, s).

#[export] Instance M_bind (S : Type) : MBind (M S) :=
  fun A B k m s =>
    match m s with
    | Done (a, s') => k a s'
    | Crash f => Crash f
    end.

Definition gets {S A : Type} (f : S -> A) : M S A := fun s => Done (f s, s).
Definition modify {S : Type} (f : S -> S) : M S unit := fun s => Done (tt, f s).
Definition crash {S A : Type} (f : fault) : M S A := fun _ => Crash f.

(** [*p]: a pointer that may be null, and one into a heap of live objects. *)
Definition deref {S A : Type} (o : option A) : M S A :=
  match o with Some a => mret a | None => crash NullDeref end.
Definition live {S A : Type} (o : option A) : M S A :=
  match o with Some a => mret a | None => crash UseAfterFree end.

Definition whenM {S : Type} (b : bool) (m : M S unit) : M S unit :=
  if b then m else mret tt.

Declare Scope c_scope.
Delimit Scope c_scope with C.
Notation "'if!' b 'then' m" := (whenM b m) (at level 19, b at level 200, m at level 100) : c_scope.

(** The state a run that ends normally leaves, and the value it returns. *)
Definition result_state {S A : Type} (o : outcome (A * S)) : option S :=
  match o with Done (_, s) => Some s | Crash _ => None end.
Definition result_value {S A : Type} (o : outcome (A * S)) : option A :=
  match o with Done (a, _) => Some a | Crash _ => None end.

(** ** Total correctness

    [wp m Q s]: run from [s], [m] ends normally and [Q] holds of the value and
    the state it leaves.  In particular [m] does not crash. *)
Definition wp {S A : Type} (m : M S A) (Q : A -> S -> Prop) (s : S) : Prop :=
  match m s with Done (a, s') => Q a s' | Crash _ => False end.

(** [preserves I m]: no run of [m] from a state of [I] that ends normally leaves [I]. *)
Definition preserves {S A : Type} (I : S -> Prop) (m : M S A) : Prop :=
  forall s a s', I s -> m s = Done (a, s') -> I s'.

(** [triple P m Q]: a run of [m] from a state of [P] that ends normally ends in [Q]. *)
Definition triple {S A : Type} (P : S -> Prop) (m : M S A) (Q : A -> S -> Prop) : Prop :=
  forall s a s', P s -> m s = Done (a, s') -> Q a s'.

(** ** Machine integers: the bits of an unsigned [w]-bit integer *)
Definition wrap (w z : Z) : Z := (z mod 2 ^ w)%Z.
Definition u8 (z : Z) : Z := wrap 8 z.
Definition u16 (z : Z) : Z := wrap 16 z.
Definition u32 (z : Z) : Z := wrap 32 z.
Definition u64 (z : Z) : Z := wrap 64 z.

(** ** Strings *)

(** The bytes of a string, without the zero behind it. *)
Fixpoint string_bytes (s : string) : list Z :=
  match s with EmptyString => [] | String c s => Z.of_nat (Ascii.nat_of_ascii c) :: string_bytes s end.

(** [snprintf] into [n] bytes, one of them for the zero. *)
Definition snprintf (n : nat) (s : string) : string := String.substring 0 (n - 1) s.

(** [strstr(hay, needle) != NULL] *)
Definition strstr (hay needle : string) : bool := bool_decide (is_Some (String.index 0 needle hay)).

(** [atoi]: blanks, a sign and the digits behind it. *)
Definition is_space (c : Ascii.ascii) : bool :=
  let n := Ascii.nat_of_ascii c in (n =? 32) || ((9 <=? n) && (n <=? 13)).
Fixpoint digits_value (acc : Z) (s : string) : Z :=
  match s with
  | EmptyString => acc
  | String c s =>
      let n := Ascii.nat_of_ascii c in
      if (48 <=? n) && (n <=? 57) then digits_value (10 * acc + (Z.of_nat n - 48)) s else acc
  end.
Fixpoint atoi (s : string) : Z :=
  match s with
  | EmptyString => 0%Z
  | String c r =>
      if is_space c then atoi r
      else if (Ascii.nat_of_ascii c =? 45) then (- digits_value 0 r)%Z
      else if (Ascii.nat_of_ascii c =? 43) then digits_value 0 r
      else digits_value 0 s
  end.

(** ** Lemmas on the monad *)

Section MonadLemmas.
Context {S : Type}.
Implicit Types s : S.

Lemma ret_bind {A B : Type} (a : A) (k : A -> M S B) s : (mret a ≫= k) s = k a s.
Proof. reflexivity. Qed.

Lemma bind_Done {A B : Type} (m : M S A) (k : A -> M S B) s b s' :
  (m ≫= k) s = Done (b, s') <-> exists a s1, m s = Done (a, s1) /\ k a s1 = Done (b, s').
Proof.
  unfold mbind, M_bind. destruct (m s) as [[a s1]|f]; split.
  - eauto.
  - intros (a' & s2 & [= -> ->] & H). done.
  - done.
  - intros (a' & s2 & [=] & _).
Qed.

Lemma bind_step {A B : Type} (m : M S A) (k : A -> M S B) s a s1 :
  m s = Done (a, s1) -> (m ≫= k) s = k a s1.
Proof. unfold mbind, M_bind. by intros ->. Qed.

Lemma bind_crash {A B : Type} (m : M S A) (k : A -> M S B) s f :
  m s = Crash f -> (m ≫= k) s = Crash f.
Proof. unfold mbind, M_bind. by intros ->. Qed.

Lemma bind_assoc {A B C : Type} (m : M S A) (k : A -> M S B) (h : B -> M S C) s :
  ((m ≫= k) ≫= h) s = (m ≫= fun a => k a ≫= h) s.
Proof. unfold mbind, M_bind. by destruct (m s) as [[a s1]|f]. Qed.

Lemma wp_ret {A : Type} (a : A) (Q : A -> S -> Prop) s : Q a s -> wp (mret a) Q s.
Proof. done. Qed.

Lemma wp_bind {A B : Type} (m : M S A) (k : A -> M S B) Q s :
  wp m (fun a => wp (k a) Q) s -> wp (m ≫= k) Q s.
Proof. unfold wp, mbind, M_bind. by destruct (m s) as [[a s1]|f]. Qed.

Lemma wp_gets {A : Type} (f : S -> A) (Q : A -> S -> Prop) s : Q (f s) s -> wp (gets f) Q s.
Proof. done. Qed.

Lemma wp_modify (f : S -> S) (Q : unit -> S -> Prop) s : Q tt (f s) -> wp (modify f) Q s.
Proof. done. Qed.

Lemma wp_live {A : Type} (o : option A) (Q : A -> S -> Prop) a s :
  o = Some a -> Q a s -> wp (live o) Q s.
Proof. by intros ->. Qed.

Lemma wp_deref {A : Type} (o : option A) (Q : A -> S -> Prop) a s :
  o = Some a -> Q a s -> wp (deref o) Q s.
Proof. by intros ->. Qed.

Lemma wp_when (b : bool) (m : M S unit) (Q : unit -> S -> Prop) s :
  (b = true -> wp m Q s) -> (b = false -> Q tt s) -> wp (whenM b m) Q s.
Proof. destruct b; naive_solver. Qed.

Lemma wp_mono {A : Type} (m : M S A) (Q R : A -> S -> Prop) s :
  wp m Q s -> (forall a s', Q a s' -> R a s') -> wp m R s.
Proof. unfold wp. destruct (m s) as [[a s1]|f]; naive_solver. Qed.

Lemma wp_and {A : Type} (m : M S A) (Q R : A -> S -> Prop) s :
  wp m Q s -> wp m R s -> wp m (fun a s' => Q a s' /\ R a s') s.
Proof. unfold wp. by destruct (m s) as [[a s1]|f]. Qed.

Lemma wp_run {A : Type} (m : M S A) (Q : A -> S -> Prop) s :
  wp m Q s -> exists a s', m s = Done (a, s') /\ Q a s'.
Proof. unfold wp. destruct (m s) as [[a s1]|f]; naive_solver. Qed.

Lemma run_wp {A : Type} (m : M S A) (Q : A -> S -> Prop) s a s' :
  m s = Done (a, s') -> Q a s' -> wp m Q s.
Proof. unfold wp. by intros ->. Qed.

(** *** Invariants, composed *)

Lemma preserves_ret {A : Type} (I : S -> Prop) (a : A) : preserves I (mret a : M S A).
Proof. intros s b s' HI [= <- <-]. done. Qed.

Lemma preserves_bind {A B : Type} (I : S -> Prop) (m : M S A) (k : A -> M S B) :
  preserves I m -> (forall a, preserves I (k a)) -> preserves I (m ≫= k).
Proof.
  intros Hm Hk s b s' HI (a & s1 & H1 & H2)%bind_Done.
  eapply Hk; [|done]. by eapply Hm.
Qed.

Lemma preserves_gets {A : Type} (I : S -> Prop) (f : S -> A) : preserves I (gets f).
Proof. intros s b s' HI [= <- <-]. done. Qed.

(** Read, then act on what was read: the state read from is at hand. *)
Lemma preserves_gets_bind {A B : Type} (I : S -> Prop) (f : S -> A) (k : A -> M S B) :
  (forall s, I s -> forall b s', k (f s) s = Done (b, s') -> I s') ->
  preserves I (gets f ≫= k).
Proof. intros H s b s' HI Hr. by eapply H. Qed.

Lemma preserves_modify (I : S -> Prop) (f : S -> S) :
  (forall s, I s -> I (f s)) -> preserves I (modify f).
Proof. intros Hf s b s' HI [= <- <-]. auto. Qed.

Lemma preserves_crash {A : Type} (I : S -> Prop) f : preserves I (crash f : M S A).
Proof. by intros s b s' HI [=]. Qed.

Lemma preserves_live {A : Type} (I : S -> Prop) (o : option A) : preserves I (live o : M S A).
Proof. destruct o; [apply preserves_ret|apply preserves_crash]. Qed.

Lemma preserves_deref {A : Type} (I : S -> Prop) (o : option A) : preserves I (deref o : M S A).
Proof. destruct o; [apply preserves_ret|apply preserves_crash]. Qed.

Lemma triple_bind {A B : Type} (P : S -> Prop) (Q : A -> S -> Prop) (R : B -> S -> Prop) (m : M S A) (k : A -> M S B) :
  triple P m Q -> (forall a, triple (Q a) (k a) R) -> triple P (m ≫= k) R.
Proof. intros Hm Hk s b s' HP (a & s1 & H1 & H2)%bind_Done. eapply Hk; [|done]. by eapply Hm. Qed.

Lemma triple_keep {A B : Type} (P : S -> Prop) (R : B -> S -> Prop) (m : M S A) (k : A -> M S B) :
  preserves P m -> (forall a, triple P (k a) R) -> triple P (m ≫= k) R.
Proof. intros Hm. by apply triple_bind. Qed.

Lemma triple_ret {A : Type} (P : S -> Prop) (Q : A -> S -> Prop) (a : A) : (forall s, P s -> Q a s) -> triple P (mret a) Q.
Proof. intros Hq s b s' HP [= <- <-]. auto. Qed.

Lemma triple_mono {A : Type} (P : S -> Prop) (Q R : A -> S -> Prop) (m : M S A) :
  triple P m Q -> (forall a s, Q a s -> R a s) -> triple P m R.
Proof. intros Hm Hqr s a s' HP Hr. apply Hqr. by eapply Hm. Qed.

Lemma triple_gets {A B : Type} (P : S -> Prop) (f : S -> A) (k : A -> M S B) (R : B -> S -> Prop) :
  (forall a, triple (fun s => P s /\ a = f s) (k a) R) -> triple P (gets f ≫= k) R.
Proof. intros Hk s b s' HP Hr. by eapply (Hk (f s) s b s'). Qed.

Lemma triple_pure {A : Type} (P : S -> Prop) (F : Prop) (Q : A -> S -> Prop) (m : M S A) :
  (F -> triple P m Q) -> triple (fun s => P s /\ F) m Q.
Proof. intros Hm s a s' [HP HF]. by apply Hm. Qed.

Lemma triple_modify (P : S -> Prop) (f : S -> S) (Q : unit -> S -> Prop) :
  (forall s, P s -> Q tt (f s)) -> triple P (modify f) Q.
Proof. intros Hf s [] s' HP [= <-]. auto. Qed.

Lemma preserves_when (I : S -> Prop) b (m : M S unit) :
  preserves I m -> preserves I (whenM b m).
Proof. destruct b; [done|intros _; apply preserves_ret]. Qed.
End MonadLemmas.

Create HintDb pres.
#[export] Hint Resolve preserves_ret preserves_gets preserves_crash preserves_live
  preserves_deref preserves_when : pres.
#[export] Hint Extern 4 (preserves _ (_ ≫= _)) => apply preserves_bind; [|intros ?] : pres.
#[export] Hint Extern 5 (preserves _ (match ?x with _ => _ end)) => destruct x : pres.

(** ** Tactics *)

(** Split a hypothesis saying that a [bind] ended normally. *)
Ltac inv_bind H :=
  let a := fresh "a" in let s := fresh "s" in let H1 := fresh "Hrun" in
  apply bind_Done in H as (a & s & H1 & H).

(** Read the result off a hypothesis about a primitive step. *)
Ltac inv_step H :=
  first [ injection H as <- <- | injection H as -> -> | discriminate H ].

(** Run the first step of a [bind] by an equation about it. *)
Tactic Notation "run" open_constr(H) := rewrite (bind_step _ _ _ _ _ H).
Tactic Notation "run" open_constr(H) "in" hyp(Hr) := rewrite (bind_step _ _ _ _ _ H) in Hr.

(** Push a [wp] goal through the monad's constructors. *)
Ltac wp_step :=
  match goal with
  | |- wp (_ ≫= _) _ _ => apply wp_bind
  | |- wp (mret _) _ _ => apply wp_ret
  | |- wp (gets _) _ _ => apply wp_gets
  | |- wp (modify _) _ _ => apply wp_modify
  end.
Ltac wp_steps := repeat (wp_step; cbn beta).

(** One step of a [bind], by a [wp] lemma about it. *)
Tactic Notation "hstep" open_constr(L) := apply wp_bind; eapply wp_mono; [eapply L; eauto|cbn beta; intros ? ? ?].
Tactic Notation "hstep" open_constr(L) "as" simple_intropattern(a) simple_intropattern(w) simple_intropattern(H) :=
  apply wp_bind; eapply wp_mono; [eapply L; eauto|cbn beta; intros a w H].

(** Close an invariant goal from the [pres] lemmas. *)
Ltac solve_preserves := intros; eauto 20 with pres.

(** ** Lemmas on integers *)

Section Integers.
Local Open Scope Z_scope.

Lemma wrap_range w z : 0 <= w -> 0 <= wrap w z < 2 ^ w.
Proof. intros. apply Z.mod_pos_bound. by apply Z.pow_pos_nonneg. Qed.

Lemma wrap_small w z : 0 <= z < 2 ^ w -> wrap w z = z.
Proof. apply Z.mod_small. Qed.

Lemma u8_small z : 0 <= z < 256 -> u8 z = z.
Proof. apply (wrap_small 8). Qed.

Lemma u8_range z : 0 <= u8 z < 256.
Proof. by apply (wrap_range 8). Qed.

Lemma u16_small z : 0 <= z < 65536 -> u16 z = z.
Proof. apply (wrap_small 16). Qed.

Lemma u32_small z : 0 <= z < 4294967296 -> u32 z = z.
Proof. apply (wrap_small 32). Qed.

Lemma u32_range z : 0 <= u32 z < 4294967296.
Proof. by apply (wrap_range 32). Qed.

Lemma u64_small z : 0 <= z < 2 ^ 64 -> u64 z = z.
Proof. apply (wrap_small 64). Qed.
End Integers.

(** ** Lemmas on lists *)

Section Lists.
Context {A : Type}.
Implicit Types l : list A.

Lemma filter_neq_not_in `{EqDecision A} (x : A) l :
  x ∉ l -> filter (fun y => y <> x) l = l.
Proof.
  induction l as [|y l IH]; intros Hx; [done|].
  apply not_elem_of_cons in Hx as [Hne Hx].
  rewrite filter_cons_True by congruence. by rewrite IH.
Qed.

Lemma NoDup_filter_split `{EqDecision A} (x : A) l1 l2 :
  NoDup (l1 ++ x :: l2) -> filter (fun y => y <> x) (l1 ++ x :: l2) = l1 ++ l2.
Proof.
  intros (Hnd1 & Hdisj & [Hx Hnd2]%NoDup_cons)%NoDup_app.
  rewrite filter_app, filter_cons_False by naive_solver.
  rewrite !filter_neq_not_in; [done|done|].
  intros H. eapply Hdisj; [done|by left].
Qed.
End Lists.
