(* ===== verification/KoreNet.v ===== *)
(** * The kore library as the repository's code relies on it

    Kore itself (the framework under every application of the repository) is not
    part of the repository: its buffers and byte-order helpers are a parameter of
    the model, a class of operations with the behaviour kore documents as laws.
    [koreBufBytes] and [koreNetBE] are concrete instances, so that every theorem
    proved against the classes can be run. *)

From S2P Require Import Prelude.

Local Open Scope Z_scope.

(** ** Big-endian byte strings *)

Fixpoint be_bytes (k : nat) (n : Z) : list Z :=
  match k with
  | O => []
  | S k => be_bytes k (n / 256) ++ [n mod 256]
  end.

Definition be_value (bs : list Z) : Z := fold_left (fun acc b => acc * 256 + b) bs 0.

(** ** [kore_buf]: a byte buffer that grows at its end *)

Class KoreBuf (B : Type) := {
  kore_buf_alloc : Z -> B;
  kore_buf_append : B -> list Z -> B;
  kore_buf_data : B -> list Z  (* the [offset] bytes at [data] *)
}.

Class KoreBufLaws (B : Type) `{KoreBuf B} := {
  kore_buf_alloc_data : forall n, kore_buf_data (kore_buf_alloc n) = [];
  kore_buf_append_data : forall b bs, kore_buf_data (kore_buf_append b bs) = kore_buf_data b ++ bs
}.

(** ** [net_write16], [net_write64]: integers in network byte order *)

Class KoreNet := {
  net_write16 : Z -> list Z;
  net_write64 : Z -> list Z
}.

Class KoreNetLaws `{KoreNet} := {
  net_write16_be : forall n, 0 <= n < 2 ^ 16 -> net_write16 n = be_bytes 2 n;
  net_write64_be : forall n, 0 <= n < 2 ^ 64 -> net_write64 n = be_bytes 8 n
}.

(** ** [kore_timer_add], [kore_timer_remove]: timers, one-shot or repeating, named by a number, each with
    its argument *)

Class KoreTimers (T : Type) := {
  timer_armed : T -> gmap nat loc;  (* the timers that will still fire, with their argument *)
  timer_add : loc -> T -> nat * T;
  timer_remove : nat -> T -> T;
  timer_expire : nat -> T -> T      (* the timer is taken to be fired *)
}.

Class KoreTimersLaws (T : Type) `{KoreTimers T} := {
  timer_add_law : forall arg t n t', timer_add arg t = (n, t') ->
    timer_armed t !! n = None /\ timer_armed t' = <[n := arg]> (timer_armed t);
  timer_remove_law : forall n t, timer_armed (timer_remove n t) = delete n (timer_armed t);
  timer_expire_law : forall n t, timer_armed (timer_expire n t) = delete n (timer_armed t)
}.

(** ** Concrete instances *)

#[export] Instance koreBufBytes : KoreBuf (list Z) := {|
  kore_buf_alloc := fun _ => [];
  kore_buf_append := fun b bs => b ++ bs;
  kore_buf_data := fun b => b
|}.

#[export] Instance koreBufBytes_laws : KoreBufLaws (list Z).
Proof. by split. Qed.

#[export] Instance koreNetBE : KoreNet := {|
  net_write16 := be_bytes 2;
  net_write64 := be_bytes 8
|}.

#[export] Instance koreNetBE_laws : KoreNetLaws.
Proof. by split. Qed.

#[export] Instance koreTimersMap : KoreTimers (gmap nat loc) := {|
  timer_armed := fun t => t;
  timer_add := fun arg t => let n := fresh (dom t) in (n, <[n := arg]> t);
  timer_remove := fun n t => delete n t;
  timer_expire := fun n t => delete n t
|}.

#[export] Instance koreTimersMap_laws : KoreTimersLaws (gmap nat loc).
Proof.
  split; try done. intros arg t n t' [= <- <-]. split; [|done].
  apply not_elem_of_dom, is_fresh.
Qed.

(** ** Facts on byte strings *)

Lemma length_be_bytes k n : length (be_bytes k n) = k.
Proof. revert n. induction k as [|k IH]; intros n; simpl; [done|]. rewrite length_app, IH. simpl. lia. Qed.

Lemma be_value_app bs b : be_value (bs ++ [b]) = be_value bs * 256 + b.
Proof. unfold be_value. by rewrite fold_left_app. Qed.

Lemma be_value_bytes k n : 0 <= n < 256 ^ Z.of_nat k -> be_value (be_bytes k n) = n.
Proof.
  revert n. induction k as [|k IH]; intros n Hn.
  { simpl in *. unfold be_value. simpl. lia. }
  cbn [be_bytes]. rewrite be_value_app, IH.
  { pose proof (Z.div_mod n 256). lia. }
  rewrite Nat2Z.inj_succ, Z.pow_succ_r in Hn by lia.
  split; [apply Z.div_pos; lia|apply Z.div_lt_upper_bound; lia].
Qed.

Lemma be_bytes_range k n : Forall (fun b => 0 <= b < 256) (be_bytes k n).
Proof.
  revert n. induction k as [|k IH]; intros n; simpl; [done|].
  apply Forall_app. split; [apply IH|].
  constructor; [|done]. by apply Z.mod_pos_bound.
Qed.
