(* ===== verification/WebsocketFrame.v ===== *)
(** * Websocket frames and room broadcasts (websocket_9/src/helper.c)

    [websocket_frame_build] writes the frame a server sends (RFC 6455, section
    5.2: FIN set, no mask, 7-bit, 16-bit or 64-bit payload length); the two
    [kore_websocket_broadcast_room] functions send one frame to the connections
    of a room, where a room is the value of a connection's [hdlr_extra].
    [parse_frame] is the receiver of RFC 6455 and serves as specification. *)

From S2P Require Import Prelude KoreNet.

Local Open Scope Z_scope.

Definition WEBSOCKET_PAYLOAD_SINGLE : Z := 125.
Definition WEBSOCKET_PAYLOAD_EXTEND_1 : Z := 126.
Definition WEBSOCKET_PAYLOAD_EXTEND_2 : Z := 127.
Definition USHRT_MAX : Z := 65535.

Section Build.
Context {B : Type} `{KoreBuf B} `{KoreNet}.

(** [op] and [len_1] are [u_int8_t], [len] is a [size_t]; [data] points to at
    least [len] bytes, of which [len] are appended. *)
Definition websocket_frame_build (frame : B) (op : Z) (data : list Z) (len : Z) : B :=
  let len_1 :=
    if WEBSOCKET_PAYLOAD_SINGLE <? len
    then if len <? USHRT_MAX then WEBSOCKET_PAYLOAD_EXTEND_1 else WEBSOCKET_PAYLOAD_EXTEND_2
    else u8 len in
  let op := u8 (Z.lor op (Z.shiftl 1 7)) in
  let frame := kore_buf_append frame [op] in
  let len_1 := u8 (Z.land len_1 (Z.lnot (Z.shiftl 1 7))) in
  let frame := kore_buf_append frame [len_1] in
  let frame :=
    if WEBSOCKET_PAYLOAD_SINGLE <? len_1
    then if len_1 =? WEBSOCKET_PAYLOAD_EXTEND_1 then kore_buf_append frame (net_write16 (u16 len))
         else if len_1 =? WEBSOCKET_PAYLOAD_EXTEND_2 then kore_buf_append frame (net_write64 (u64 len))
         else frame
    else frame in
  kore_buf_append frame (take (Z.to_nat len) data).

(** The bytes of a frame built in a fresh buffer, as the broadcasts build it. *)
Definition frame_bytes (op : Z) (data : list Z) (len : Z) : list Z :=
  kore_buf_data (websocket_frame_build (kore_buf_alloc len) op data len).
End Build.

(** ** The receiver *)

Record ws_frame := {
  f_fin : bool;
  f_opcode : Z;
  f_payload : list Z
}.

(** Cut [n] bytes off the front of [bs]. *)
Definition cut (n : Z) (bs : list Z) : option (list Z * list Z) :=
  if n <=? Z.of_nat (length bs) then Some (take (Z.to_nat n) bs, drop (Z.to_nat n) bs) else None.

Definition parse_length (l7 : Z) (bs : list Z) : option (Z * list Z) :=
  if l7 <? 126 then Some (l7, bs)
  else
    '(ext, bs) ← cut (if l7 =? 126 then 2 else 8) bs;
    Some (be_value ext, bs).

Definition parse_frame (bs : list Z) : option (ws_frame * list Z) :=
  match bs with
  | b0 :: b1 :: bs =>
    if Z.testbit b1 7 then None  (* a server does not mask *)
    else
      '(n, bs) ← parse_length (Z.land b1 127) bs;
      '(payload, bs) ← cut n bs;
      Some ({| f_fin := Z.testbit b0 7; f_opcode := Z.land b0 15; f_payload := payload |}, bs)
  | _ => None
  end.

(** The header RFC 6455 requires for [n] bytes of payload: the fewest bytes that
    can say [n]. *)
Definition minimal_header (n : Z) : Z :=
  if n <? 126 then 2 else if n <? 65536 then 4 else 10.

(** ** Connections and broadcasts *)

Inductive conn_proto := CONN_PROTO_WEBSOCKET | CONN_PROTO_OTHER.

#[export] Instance conn_proto_eq_dec : EqDecision conn_proto.
Proof. solve_decision. Defined.

(** [hdlr_extra] is a [void *]: 0 is the null pointer. *)
Record connection := {
  c_id : nat;
  hdlr_extra : Z;
  c_proto : conn_proto
}.

(** What a handler asks of kore's network layer, in order. *)
Inductive net_event :=
| NetSendQueue (c : nat) (bytes : list Z)
| NetSendFlush (c : nat)
| KoreMsgSend (bytes : list Z)  (* to every worker, as KORE_MSG_WEBSOCKET *)
| WebsocketSend (c : nat) (op : Z) (bytes : list Z).

Section Broadcast.
Context {B : Type} `{KoreBuf B} `{KoreNet}.
Context (WEBSOCKET_BROADCAST_GLOBAL : Z).

(** TAILQ_FOREACH over [connections]: queue and flush where [sel] holds. *)
Fixpoint foreach_send (sel : connection -> bool) (frame : list Z) (conns : list connection) : list net_event :=
  match conns with
  | [] => []
  | c :: conns =>
    if sel c
    then NetSendQueue (c_id c) frame :: NetSendFlush (c_id c) :: foreach_send sel frame conns
    else foreach_send sel frame conns
  end.

Definition broadcast_global (scope : Z) (frame : list Z) : list net_event :=
  if scope =? WEBSOCKET_BROADCAST_GLOBAL then [KoreMsgSend frame] else [].

Definition same_room (extra : Z) (c : connection) : bool :=
  (hdlr_extra c =? extra) && bool_decide (c_proto c = CONN_PROTO_WEBSOCKET).

Definition kore_websocket_broadcast_room (connections : list connection)
    (src : connection) (op : Z) (data : list Z) (len scope : Z) : list net_event :=
  let frame := frame_bytes op data len in
  foreach_send (same_room (hdlr_extra src)) frame connections ++ broadcast_global scope frame.

(** The variant that names the room itself, [src] being the room's pointer. *)
Definition kore_websocket_broadcast_room_char (connections : list connection)
    (src : Z) (op : Z) (data : list Z) (len scope : Z) : list net_event :=
  let frame := frame_bytes op data len in
  foreach_send (same_room src) frame connections ++ broadcast_global scope frame.
End Broadcast.

(** Who receives what of a list of network events. *)
Definition recipients (evs : list net_event) : list nat :=
  omap (fun e => match e with NetSendQueue c _ => Some c | _ => None end) evs.
Definition queued_bytes (evs : list net_event) : list (list Z) :=
  omap (fun e => match e with NetSendQueue _ bs => Some bs | _ => None end) evs.

(** ** Bits *)

Lemma testbit_small k z n : 0 <= z < 2 ^ k -> k <= n -> Z.testbit z n = false.
Proof.
  intros Hz Hn. destruct (decide (z = 0)) as [->|]; [by rewrite Z.bits_0|].
  apply Z.bits_above_log2; [lia|]. apply Z.log2_lt_pow2; [lia|].
  apply Z.lt_le_trans with (2 ^ k); [lia|]. apply Z.pow_le_mono_r; lia.
Qed.

Lemma clear_bit_small k z : 0 <= k -> 0 <= z < 2 ^ k -> Z.land z (Z.lnot (Z.shiftl 1 k)) = z.
Proof.
  intros Hk Hz. apply Z.bits_inj'. intros n Hn.
  rewrite Z.land_spec, Z.lnot_spec, Z.shiftl_1_l, Z.pow2_bits_eqb by lia.
  destruct (Z.eqb_spec k n) as [<-|]; simpl; [|by rewrite andb_true_r].
  by rewrite (testbit_small k) by lia.
Qed.

Lemma set_bit_small k z : 0 <= k -> 0 <= z < 2 ^ k -> Z.lor z (Z.shiftl 1 k) = z + 2 ^ k.
Proof.
  intros Hk Hz. rewrite Z.shiftl_1_l. symmetry. rewrite <- Z.lxor_lor, Z.add_nocarry_lxor; [done| |];
  apply Z.bits_inj'; intros n Hn; rewrite Z.land_spec, Z.pow2_bits_eqb, Z.bits_0 by lia;
  destruct (Z.eqb_spec k n) as [<-|]; rewrite ?andb_false_r, ?(testbit_small k) by lia; done.
Qed.

Lemma land_low k z : 0 <= k -> Z.land z (2 ^ k - 1) = z mod 2 ^ k.
Proof. intros. rewrite <- Z.land_ones, Z.ones_equiv by done. by rewrite Z.sub_1_r. Qed.

(** ** What the frame is, byte by byte *)

Section BuildFacts.
Context {B : Type} `{KoreBufLaws B} `{KoreNetLaws}.

Definition length_field (len : Z) : list Z :=
  if len <=? 125 then [len]
  else if len <? 65535 then 126 :: be_bytes 2 len else 127 :: be_bytes 8 len.

Lemma websocket_frame_build_data (frame : B) op data len :
  0 <= op < 128 -> 0 <= len < 2 ^ 64 ->
  kore_buf_data (websocket_frame_build frame op data len)
  = kore_buf_data frame ++ (op + 128) :: length_field len ++ take (Z.to_nat len) data.
Proof.
  intros Hop Hlen. unfold websocket_frame_build, length_field,
    WEBSOCKET_PAYLOAD_SINGLE, WEBSOCKET_PAYLOAD_EXTEND_1, WEBSOCKET_PAYLOAD_EXTEND_2, USHRT_MAX.
  rewrite (set_bit_small 7), (u8_small (op + 2 ^ 7)) by lia.
  destruct (Z.ltb_spec 125 len), (Z.leb_spec len 125); try lia; [destruct (Z.ltb_spec len 65535)|].
  - rewrite (clear_bit_small 7), !u8_small by lia. cbn -[net_write16 be_bytes take].
    rewrite !kore_buf_append_data, u16_small, net_write16_be by lia.
    by rewrite <- !app_assoc.
  - rewrite (clear_bit_small 7), !u8_small by lia. cbn -[net_write64 be_bytes take].
    rewrite !kore_buf_append_data, u64_small, net_write64_be by lia.
    by rewrite <- !app_assoc.
  - rewrite (u8_small len), (clear_bit_small 7), u8_small by lia.
    destruct (Z.ltb_spec 125 len); [lia|]. rewrite !kore_buf_append_data.
    by rewrite <- !app_assoc.
Qed.

Lemma frame_bytes_eq op data len :
  0 <= op < 128 -> 0 <= len < 2 ^ 64 ->
  frame_bytes (B := B) op data len = (op + 128) :: length_field len ++ take (Z.to_nat len) data.
Proof.
  intros. unfold frame_bytes.
  by rewrite websocket_frame_build_data, kore_buf_alloc_data by done.
Qed.

Lemma length_length_field len :
  Z.of_nat (length (length_field len)) + 1 =
  if len <=? 125 then 2 else if len <? 65535 then 4 else 10.
Proof.
  unfold length_field. destruct (len <=? 125), (len <? 65535); cbn [length];
    rewrite ?length_be_bytes; done.
Qed.
End BuildFacts.

(** ** The receiver reads what the length field says *)

Lemma cut_app n xs ys : Z.of_nat (length xs) = n -> cut n (xs ++ ys) = Some (xs, ys).
Proof.
  intros <-. unfold cut. rewrite length_app, Nat2Z.id, take_app_length, drop_app_length.
  destruct (Z.leb_spec (Z.of_nat (length xs)) (Z.of_nat (length xs + length ys))); [done|lia].
Qed.

(** The first byte of a length field never has the mask bit, and what follows is [len]. *)
Lemma length_field_parse len bs :
  0 <= len < 2 ^ 64 ->
  exists b1 ext, length_field len ++ bs = b1 :: ext ++ bs /\ Z.testbit b1 7 = false /\
    parse_length (Z.land b1 127) (ext ++ bs) = Some (len, bs).
Proof.
  intros Hlen. unfold length_field.
  destruct (Z.leb_spec len 125); [|destruct (Z.ltb_spec len 65535)].
  - exists len, []. split_and!; [done|by rewrite (testbit_small 7) by lia|].
    rewrite (land_low 7), Z.mod_small by lia. unfold parse_length.
    by destruct (Z.ltb_spec len 126); [|lia].
  - exists 126, (be_bytes 2 len). split_and!; [done|done|].
    unfold parse_length. cbn -[be_bytes cut]. rewrite cut_app by (by rewrite length_be_bytes).
    cbn -[be_bytes]. by rewrite be_value_bytes by lia.
  - exists 127, (be_bytes 8 len). split_and!; [done|done|].
    unfold parse_length. cbn -[be_bytes cut]. rewrite cut_app by (by rewrite length_be_bytes).
    cbn -[be_bytes]. by rewrite be_value_bytes by lia.
Qed.

(** ** Broadcasts *)

Lemma recipients_app e1 e2 : recipients (e1 ++ e2) = recipients e1 ++ recipients e2.
Proof. apply omap_app. Qed.

Lemma recipients_foreach sel frame conns :
  recipients (foreach_send sel frame conns) = c_id <$> filter (fun c => sel c = true) conns.
Proof.
  induction conns as [|c conns IH]; [done|]. simpl.
  destruct (sel c) eqn:Hs.
  - rewrite filter_cons_True by done. cbn. by f_equal.
  - by rewrite filter_cons_False by (by rewrite Hs).
Qed.

Lemma queued_foreach sel frame conns bs :
  bs ∈ queued_bytes (foreach_send sel frame conns) -> bs = frame.
Proof.
  induction conns as [|c conns IH]; simpl; [by intros ?%elem_of_nil|].
  destruct (sel c); [|done]. cbn. intros [->|?]%elem_of_cons; auto.
Qed.

(** ** Properties *)

(** C1: a frame built from [op] and [data] is read back by an RFC 6455 receiver
    as one final, unmasked frame with that opcode and exactly that payload,
    whatever bytes follow it, for every payload length a [size_t] can hold. *)
Theorem frame_roundtrip {B : Type} `{KoreBufLaws B} `{KoreNetLaws} (op : Z) (data rest : list Z) :
  0 <= op < 16 -> Z.of_nat (length data) < 2 ^ 64 ->
  parse_frame (frame_bytes (B := B) op data (Z.of_nat (length data)) ++ rest)
  = Some ({| f_fin := true; f_opcode := op; f_payload := data |}, rest).
Proof.
  intros Hop Hlen. rewrite frame_bytes_eq by lia.
  rewrite Nat2Z.id, firstn_all. cbn [app]. rewrite <- app_assoc.
  destruct (length_field_parse (Z.of_nat (length data)) (data ++ rest)) as (b1 & ext & -> & Hb1 & Hp); [lia|].
  unfold parse_frame. rewrite Hb1, Hp. cbn -[cut Z.land Z.testbit]. rewrite cut_app by done.
  cbn -[Z.land Z.testbit]. do 3 f_equal.
  - rewrite <- (set_bit_small 7), Z.lor_spec by lia. by rewrite orb_true_r.
  - rewrite (land_low 4) by lia. rewrite <- Zplus_mod_idemp_r. change (128 mod 2 ^ 4) with 0.
    rewrite Z.add_0_r. by apply Z.mod_small.
Qed.

Lemma frame_roundtrip_witness :
  parse_frame (frame_bytes (B := list Z) 1 [104; 105] 2 ++ [7])
  = Some ({| f_fin := true; f_opcode := 1; f_payload := [104; 105] |}, [7]).
Proof. apply (frame_roundtrip (B := list Z) 1 [104; 105] [7]); done. Defined.

(** the frame of [n] payload bytes is the minimal header RFC 6455 asks for plus
    the payload, except at [n] = 65535, where the code's test [len < USHRT_MAX]
    spends the 64-bit length on a length that fits in 16 bits. *)
Theorem frame_header_size {B : Type} `{KoreBufLaws B} `{KoreNetLaws} (op : Z) (data : list Z) :
  0 <= op < 16 -> Z.of_nat (length data) < 2 ^ 64 ->
  let n := Z.of_nat (length data) in
  Z.of_nat (length (frame_bytes (B := B) op data n)) =
  minimal_header n + n + (if n =? 65535 then 6 else 0).
Proof.
  intros Hop Hlen n. rewrite frame_bytes_eq by lia. unfold n.
  rewrite Nat2Z.id, firstn_all. cbn [length]. rewrite length_app.
  pose proof (length_length_field (Z.of_nat (length data))) as Hl. unfold minimal_header.
  destruct (Z.leb_spec (Z.of_nat (length data)) 125), (Z.ltb_spec (Z.of_nat (length data)) 126),
    (Z.ltb_spec (Z.of_nat (length data)) 65535), (Z.ltb_spec (Z.of_nat (length data)) 65536),
    (Z.eqb_spec (Z.of_nat (length data)) 65535); lia.
Qed.

Lemma frame_header_size_witness :
  Z.of_nat (length (frame_bytes (B := list Z) 1 (replicate (Z.to_nat 65535) 0) 65535)) = 65545.
Proof.
  change 65535 with (Z.of_nat (length (replicate (Z.to_nat 65535) 0))) at 2.
  etransitivity; [apply (frame_header_size (B := list Z) 1 (replicate (Z.to_nat 65535) 0)); by vm_compute|].
  by vm_compute.
Defined.

(** a room broadcast queues the same frame once on every websocket connection
    whose [hdlr_extra] is the source's, the source included, in the order of the
    connection list, and on no other connection. *)
Theorem broadcast_room_recipients {B : Type} `{KoreBuf B} `{KoreNet} (glob : Z)
    (connections : list connection) (src : connection) (op len scope : Z) (data : list Z) :
  let evs := kore_websocket_broadcast_room (B := B) glob connections src op data len scope in
  recipients evs = c_id <$> filter (fun c => hdlr_extra c = hdlr_extra src /\ c_proto c = CONN_PROTO_WEBSOCKET) connections /\
  (forall bs, bs ∈ queued_bytes evs -> bs = frame_bytes (B := B) op data len) /\
  (KoreMsgSend (frame_bytes (B := B) op data len) ∈ evs <-> scope = glob).
Proof.
  intros evs. unfold evs, kore_websocket_broadcast_room. split_and!.
  - rewrite recipients_app, recipients_foreach.
    replace (recipients (broadcast_global _ _ _)) with (@nil nat)
      by (unfold broadcast_global; by destruct (_ =? _)).
    rewrite app_nil_r. f_equal. apply list_filter_iff. intros c. unfold same_room.
    rewrite andb_true_iff, Z.eqb_eq, bool_decide_eq_true. done.
  - intros bs. unfold queued_bytes. rewrite omap_app. intros [Hb|Hb]%elem_of_app.
    + by eapply queued_foreach.
    + revert Hb. unfold broadcast_global. destruct (_ =? _); by intros ?%elem_of_nil.
  - unfold broadcast_global. rewrite elem_of_app. split.
    + intros [Hin|Hin]; [exfalso|].
      * revert Hin. induction connections as [|c l IH]; simpl; [by intros ?%elem_of_nil|].
        destruct (same_room _ _); [|done]. by intros [[=]|[[=]|?]%elem_of_cons]%elem_of_cons; auto.
      * destruct (Z.eqb_spec scope glob); [done|by apply elem_of_nil in Hin].
    + intros ->. rewrite Z.eqb_refl. right. by left.
Qed.
