(* ===== verification/RandomId.v ===== *)
(** * Random identifiers and their printed names

    [rand32] and [random_u32] (mediasoup/src/mediasoup.c) draw the request and room
    identifiers; mediasoup_1/src/soup_utils.c has a second copy of [rand32] that
    differs in one sign.  [rand()] is the C library's: a computation consumes a list
    of its results, the draws to come.  [snprintf_u32] is the formatted print
    [snprintf(buf, size, "%" PRIu32, n)] that turns an identifier into the name of
    an event. *)

From S2P Require Import Prelude.

Local Open Scope Z_scope.

(** ** rand32, random_u32 *)

Section Rand.
(** The C library's [RAND_MAX]: at least 32767 by the standard, and in a 32-bit [int]. *)
Context (RAND_MAX : Z).

Definition rand_range (begin end_ : Z) : Z := u32 (u32 (end_ - begin) + 1).

(** [limit] in mediasoup.c: the largest multiple of [range] up to [RAND_MAX + 1]. *)
Definition rand_limit (range : Z) : Z :=
  u32 (u64 (u64 (RAND_MAX + 1) - u64 (RAND_MAX + 1) mod range)).

(** [limit] in soup_utils.c. *)
Definition rand_limit_1 (range : Z) : Z :=
  u32 (u64 (u64 (RAND_MAX + 1) + u64 (RAND_MAX + 1) mod range)).

(** [randVal = rand(); while (randVal >= limit) randVal = rand();] *)
Fixpoint rand_below (limit : Z) (draws : list Z) : outcome (Z * list Z) :=
  match draws with
  | [] => Crash Fuel
  | r :: draws => if limit <=? u32 r then rand_below limit draws else Done (u32 r, draws)
  end.

Definition rand32_with (limit_of : Z -> Z) (begin end_ : Z) : M (list Z) Z := fun draws =>
  let range := rand_range begin end_ in
  if range =? 0 then Crash DivByZero
  else match rand_below (limit_of range) draws with
       | Done (randVal, draws) => Done (u32 (randVal mod range + begin), draws)
       | Crash f => Crash f
       end.

(** mediasoup/src/mediasoup.c *)
Definition rand32 (begin end_ : Z) : M (list Z) Z := rand32_with rand_limit begin end_.
Definition random_u32 : M (list Z) Z := rand32 10000000 99999999.

(** mediasoup_1/src/soup_utils.c *)
Definition rand32_1 (begin end_ : Z) : M (list Z) Z := rand32_with rand_limit_1 begin end_.
Definition random_u32_1 : M (list Z) Z := rand32_1 10000000 99999999.
End Rand.

(** ** snprintf(buf, size, "%" PRIu32, n) *)

(** The decimal digits of [n], most significant first; [k] bounds their number. *)
Fixpoint digits (k : nat) (n : Z) : list Z :=
  match k with
  | O => []
  | S k => if n <? 10 then [n] else digits k (n / 10) ++ [n mod 10]
  end.

Definition digit_char (d : Z) : Ascii.ascii := Ascii.ascii_of_nat (Z.to_nat (48 + d)).

(** A [u_int32_t] has at most 10 digits; at most [size - 1] characters are written. *)
Definition snprintf_u32 (size : nat) (n : Z) : string :=
  String.string_of_list_ascii (digit_char <$> take (size - 1) (digits 10 (u32 n))).

(** [char stri_uint[9]] in room.c and channel.c. *)
Definition id_name (n : Z) : string := snprintf_u32 9 n.

(** ** Facts on rand32 *)

Section RandFacts.
Context (RAND_MAX : Z).
Hypothesis RAND_MAX_bounds : 32767 <= RAND_MAX < 2 ^ 31.

Definition is_draw (r : Z) : Prop := 0 <= r <= RAND_MAX.

Lemma rand_range_eq begin end_ :
  0 <= begin <= end_ -> end_ - begin < 2 ^ 32 - 1 -> rand_range begin end_ = end_ - begin + 1.
Proof. intros. unfold rand_range. rewrite (u32_small (end_ - begin)) by lia. apply u32_small; lia. Qed.

Lemma rand_limit_eq range :
  0 < range <= RAND_MAX + 1 -> rand_limit RAND_MAX range = (RAND_MAX + 1) / range * range.
Proof.
  intros Hr. unfold rand_limit. pose proof (Z.mod_pos_bound (RAND_MAX + 1) range) as Hm.
  pose proof (Z.mod_le (RAND_MAX + 1) range) as Hle.
  rewrite (u64_small (RAND_MAX + 1)), u64_small, u32_small by lia.
  rewrite (Z.div_mod (RAND_MAX + 1) range) at 1 by lia. lia.
Qed.

Lemma rand_limit_pos range : 0 < range <= RAND_MAX + 1 -> 0 < rand_limit RAND_MAX range.
Proof.
  intros Hr. rewrite rand_limit_eq by done.
  apply Z.mul_pos_pos; [|lia]. apply Z.div_str_pos. lia.
Qed.

Lemma rand_limit_1_above range :
  0 < range <= RAND_MAX + 1 -> RAND_MAX < rand_limit_1 RAND_MAX range.
Proof.
  intros Hr. unfold rand_limit_1. pose proof (Z.mod_pos_bound (RAND_MAX + 1) range) as Hm.
  rewrite (u64_small (RAND_MAX + 1)), u64_small, u32_small by lia. lia.
Qed.

Lemma rand_below_spec limit draws r rest :
  Forall is_draw draws -> rand_below limit draws = Done (r, rest) ->
  is_draw r /\ r < limit /\ exists skipped, draws = skipped ++ r :: rest /\ Forall (fun s => limit <= s) skipped.
Proof.
  induction 1 as [|d draws Hd Hds IH]; simpl; [done|].
  unfold is_draw in Hd. rewrite (u32_small d) by lia.
  destruct (Z.leb_spec limit d).
  - intros (Hr & Hlt & skipped & -> & Hsk)%IH. split_and!; [done|done|].
    exists (d :: skipped). split; [done|by constructor].
  - intros [= <- <-]. split_and!; [done|done|]. by exists [].
Qed.

Lemma rand_below_total limit draws :
  Forall is_draw draws -> Exists (fun r => r < limit) draws -> exists r rest, rand_below limit draws = Done (r, rest).
Proof.
  intros Hall Hex. induction Hall as [|d draws Hd Hds IH]; [by inversion Hex|].
  simpl. unfold is_draw in Hd. rewrite (u32_small d) by lia.
  destruct (Z.leb_spec limit d); [|eauto]. apply IH.
  inversion Hex; subst; [lia|done].
Qed.

Lemma rand32_with_value limit_of begin end_ draws :
  0 <= begin <= end_ -> end_ < 2 ^ 32 -> end_ - begin <= RAND_MAX ->
  rand32_with limit_of begin end_ draws =
  match rand_below (limit_of (end_ - begin + 1)) draws with
  | Done (r, rest) => Done (u32 (r mod (end_ - begin + 1) + begin), rest)
  | Crash f => Crash f
  end.
Proof.
  intros. unfold rand32_with. rewrite rand_range_eq by lia.
  by destruct (Z.eqb_spec (end_ - begin + 1) 0); [lia|].
Qed.

Lemma mod_range_value begin end_ r :
  0 <= begin <= end_ -> end_ < 2 ^ 32 ->
  u32 (r mod (end_ - begin + 1) + begin) = r mod (end_ - begin + 1) + begin /\
  begin <= r mod (end_ - begin + 1) + begin <= end_.
Proof.
  intros. pose proof (Z.mod_pos_bound r (end_ - begin + 1)). rewrite u32_small by lia. lia.
Qed.
End RandFacts.

(** ** Facts on printed identifiers *)

Definition dec_value (ds : list Z) : Z := fold_left (fun acc d => acc * 10 + d) ds 0.

Lemma dec_value_snoc ds d : dec_value (ds ++ [d]) = dec_value ds * 10 + d.
Proof. unfold dec_value. by rewrite fold_left_app. Qed.

Lemma dec_value_digits k n : 0 <= n < 10 ^ Z.of_nat k -> dec_value (digits k n) = n.
Proof.
  revert n. induction k as [|k IH]; intros n Hn; [simpl in *; unfold dec_value; simpl; lia|].
  cbn [digits]. destruct (Z.ltb_spec n 10); [unfold dec_value; simpl; lia|].
  rewrite Nat2Z.inj_succ, Z.pow_succ_r in Hn by lia.
  rewrite dec_value_snoc, IH; [pose proof (Z.div_mod n 10); lia|].
  split; [apply Z.div_pos; lia|apply Z.div_lt_upper_bound; lia].
Qed.

Lemma digits_range k n : 0 <= n -> Forall (fun d => 0 <= d < 10) (digits k n).
Proof.
  revert n. induction k as [|k IH]; intros n Hn; cbn [digits]; [done|].
  destruct (Z.ltb_spec n 10); [by repeat constructor|].
  apply Forall_app. split; [apply IH, Z.div_pos; lia|].
  constructor; [apply Z.mod_pos_bound; lia|done].
Qed.

Lemma length_digits m k n :
  (m < k)%nat -> 10 ^ Z.of_nat m <= n < 10 ^ Z.of_nat (S m) -> length (digits k n) = S m.
Proof.
  revert k n. induction m as [|m IH]; intros [|k] n Hk Hn; try lia; cbn [digits].
  - destruct (Z.ltb_spec n 10); [done|]. change (10 ^ Z.of_nat 1) with 10 in Hn. lia.
  - rewrite Nat2Z.inj_succ, Z.pow_succ_r in Hn by lia.
    pose proof (Z.pow_pos_nonneg 10 (Z.of_nat m)). destruct (Z.ltb_spec n 10); [lia|].
    rewrite length_app, (IH k); [simpl; lia|lia|].
    rewrite (Nat2Z.inj_succ (S m)), Z.pow_succ_r in Hn by lia.
    split; [apply Z.div_le_lower_bound|apply Z.div_lt_upper_bound]; lia.
Qed.

Lemma digits_fuel k k' n :
  0 <= n < 10 ^ Z.of_nat k -> n < 10 ^ Z.of_nat k' -> (0 < k)%nat -> (0 < k')%nat ->
  digits k n = digits k' n.
Proof.
  revert k' n. induction k as [|k IH]; intros [|k'] n Hn Hn' Hk Hk'; try lia.
  cbn [digits]. destruct (Z.ltb_spec n 10); [done|].
  rewrite !Nat2Z.inj_succ, Z.pow_succ_r in * by lia.
  assert (n / 10 < 10 ^ Z.of_nat k) by (apply Z.div_lt_upper_bound; lia).
  assert (n / 10 < 10 ^ Z.of_nat k') by (apply Z.div_lt_upper_bound; lia).
  assert (1 <= n / 10) by (apply Z.div_le_lower_bound; lia).
  destruct k; [simpl in *; lia|]. destruct k'; [simpl in *; lia|].
  rewrite (IH (S k')); [done| |done|lia|lia]. split; [lia|done].
Qed.

Lemma digits_snoc k m d :
  1 <= m < 10 ^ Z.of_nat k -> 0 <= d < 10 -> digits (S k) (10 * m + d) = digits k m ++ [d].
Proof.
  intros Hm Hd. cbn [digits]. destruct (Z.ltb_spec (10 * m + d) 10); [lia|].
  replace ((10 * m + d) / 10) with m by (rewrite Z.mul_comm, Z.div_add_l, Z.div_small; lia).
  replace ((10 * m + d) mod 10) with d; [done|].
  rewrite Z.add_comm, Z.mul_comm, Z_mod_plus_full. by rewrite Z.mod_small.
Qed.

Lemma digit_char_inj d d' : 0 <= d < 10 -> 0 <= d' < 10 -> digit_char d = digit_char d' -> d = d'.
Proof.
  intros Hd Hd' H%(f_equal Ascii.nat_of_ascii). unfold digit_char in H.
  rewrite !Ascii.nat_ascii_embedding in H by lia. lia.
Qed.

Lemma digit_chars_inj ds ds' :
  Forall (fun d => 0 <= d < 10) ds -> Forall (fun d => 0 <= d < 10) ds' ->
  digit_char <$> ds = digit_char <$> ds' -> ds = ds'.
Proof.
  intros Hds. revert ds'. induction Hds as [|d ds Hd Hds IH]; intros [|d' ds'] Hds'; try done.
  apply Forall_cons in Hds' as [Hd' Hds']. intros Heq. injection Heq as Hc Hcs.
  f_equal; [by apply digit_char_inj|by apply IH].
Qed.

(** An identifier of 8 digits is printed whole by [id_name]. *)
Definition eight_digits (n : Z) : Prop := 10000000 <= n <= 99999999.

Lemma id_digits_eight n : eight_digits n -> take (9 - 1) (digits 10 (u32 n)) = digits 10 n.
Proof.
  intros Hn. unfold eight_digits in Hn. rewrite u32_small by lia.
  apply take_ge. rewrite (length_digits 7) by (simpl; lia). done.
Qed.

(** ** Properties *)

(** [rand32] stays between its bounds and consumes draws only up to the first one
    below [limit]; it terminates as soon as one such draw comes. *)
Theorem rand32_in_range (RAND_MAX begin end_ : Z) (draws : list Z) :
  32767 <= RAND_MAX < 2 ^ 31 ->
  0 <= begin <= end_ -> end_ < 2 ^ 32 -> end_ - begin <= RAND_MAX ->
  Forall (is_draw RAND_MAX) draws ->
  Exists (fun r => r < rand_limit RAND_MAX (end_ - begin + 1)) draws ->
  exists v rest, rand32 RAND_MAX begin end_ draws = Done (v, rest) /\
    begin <= v <= end_ /\ rest `suffix_of` draws.
Proof.
  intros Hm Hb He Hr Hall Hex. unfold rand32. rewrite (rand32_with_value RAND_MAX) by done.
  destruct (rand_below_total RAND_MAX Hm _ _ Hall Hex) as (r & rest & Hrun).
  destruct (rand_below_spec RAND_MAX Hm _ _ _ _ Hall Hrun) as (_ & _ & sk & -> & _).
  rewrite Hrun. destruct (mod_range_value begin end_ r) as [-> Hv]; [done|done|].
  eexists _, rest. split_and!; [done|lia|lia|]. exists (sk ++ [r]). by rewrite <- app_assoc.
Qed.

Lemma rand32_in_range_witness :
  exists v rest, rand32 2147483647 10000000 99999999 [2147483640; 5] = Done (v, rest) /\
    10000000 <= v <= 99999999 /\ rest `suffix_of` [2147483640; 5].
Proof.
  apply (rand32_in_range 2147483647); try lia.
  - repeat constructor; unfold is_draw; lia.
  - apply Exists_cons_tl, Exists_cons_hd. by vm_compute.
Defined.

(** [rand32] is uniform: a value [v] is drawn from exactly the [rand()] results
    [k * range + (v - begin)] for [k] below [limit / range], the same number for every [v]. *)
Theorem rand32_uniform (RAND_MAX begin end_ r v : Z) (rest : list Z) :
  32767 <= RAND_MAX < 2 ^ 31 ->
  0 <= begin <= end_ -> end_ < 2 ^ 32 -> end_ - begin <= RAND_MAX ->
  is_draw RAND_MAX r -> begin <= v <= end_ ->
  let range := end_ - begin + 1 in
  (r < rand_limit RAND_MAX range /\ rand32 RAND_MAX begin end_ (r :: rest) = Done (v, rest)) <->
  exists k, 0 <= k < (RAND_MAX + 1) / range /\ r = k * range + (v - begin).
Proof.
  intros Hm Hb He Hr Hdraw Hv range. unfold rand32, is_draw in *.
  rewrite (rand32_with_value RAND_MAX) by done.
  assert (Hlim : rand_limit RAND_MAX range = (RAND_MAX + 1) / range * range)
    by (apply rand_limit_eq; unfold range; lia).
  cbn [rand_below]. rewrite (u32_small r) by lia.
  destruct (mod_range_value begin end_ r) as [Hmod _]; [done|done|].
  assert (0 < range) by (unfold range; lia).
  assert (v - begin < range) by (unfold range; lia).
  fold range in Hmod |- *. clearbody range. rewrite !Hlim.
  set (q := (RAND_MAX + 1) / range). clearbody q.
  destruct (Z.leb_spec (q * range) r) as [Hge|Hlt]; split.
  - lia.
  - intros (k & Hk & ->). nia.
  - intros [_ Hrun]. injection Hrun as Hv'. exists (r / range).
    pose proof (Z.div_mod r range). split; [|nia].
    split; [apply Z.div_pos; lia|apply Z.div_lt_upper_bound; nia].
  - intros (k & Hk & Hrk). split; [done|]. rewrite Hmod, Hrk.
    rewrite Z.add_comm, Z.add_comm, (Z.add_comm (k * range)), Z_mod_plus_full, Z.mod_small by lia.
    do 2 f_equal. lia.
Qed.

Lemma rand32_uniform_witness :
  (95 < rand_limit 32767 (19 - 10 + 1) /\ rand32 32767 10 19 (95 :: []) = Done (15, [])) <->
  exists k, 0 <= k < (32767 + 1) / (19 - 10 + 1) /\ 95 = k * (19 - 10 + 1) + (15 - 10).
Proof. apply (rand32_uniform 32767 10 19 95 15 []); unfold is_draw; lia. Defined.

(** the copy of [rand32] in soup_utils.c adds where the other subtracts, so its
    [limit] is above every draw: it never rejects, always returns the first draw's
    residue, and therefore some value has one draw more than another. *)
Theorem rand32_1_never_rejects (RAND_MAX begin end_ r : Z) (rest : list Z) :
  32767 <= RAND_MAX < 2 ^ 31 ->
  0 <= begin <= end_ -> end_ < 2 ^ 32 -> end_ - begin <= RAND_MAX ->
  is_draw RAND_MAX r ->
  rand32_1 RAND_MAX begin end_ (r :: rest) = Done (r mod (end_ - begin + 1) + begin, rest).
Proof.
  intros Hm Hb He Hr Hdraw. unfold rand32_1, is_draw in *.
  rewrite (rand32_with_value RAND_MAX) by done. cbn [rand_below].
  pose proof (rand_limit_1_above RAND_MAX Hm (end_ - begin + 1)).
  rewrite (u32_small r) by lia. destruct (Z.leb_spec (rand_limit_1 RAND_MAX (end_ - begin + 1)) r); [lia|].
  by destruct (mod_range_value begin end_ r) as [-> _].
Qed.

Lemma rand32_1_never_rejects_witness :
  rand32_1 2147483647 10000000 99999999 [2147483647] = Done (2147483647 mod 90000000 + 10000000, []) /\
  rand32 2147483647 10000000 99999999 [2147483647] = Crash Fuel.
Proof.
  split; [|by vm_compute].
  apply (rand32_1_never_rejects 2147483647 10000000 99999999 2147483647 []); unfold is_draw; lia.
Defined.

(** The identifiers [random_u32] draws have 8 digits, and on identifiers of 8 digits
    the 9-byte buffer of room.c and channel.c loses nothing: different identifiers
    get different event names. *)
Theorem id_name_injective (a b : Z) :
  eight_digits a -> eight_digits b -> id_name a = id_name b -> a = b.
Proof.
  intros Ha Hb H. unfold id_name, snprintf_u32 in H.
  rewrite !id_digits_eight in H by done.
  apply (f_equal String.list_ascii_of_string) in H.
  rewrite !String.list_ascii_of_string_of_list_ascii in H. unfold eight_digits in *.
  apply digit_chars_inj in H; [|by apply digits_range; lia..].
  apply (f_equal dec_value) in H. by rewrite !dec_value_digits in H by lia.
Qed.

Lemma id_name_injective_witness : 12345678 = 12345678.
Proof. apply id_name_injective; unfold eight_digits; [lia|lia|done]. Defined.

(** An identifier of 9 digits, which a peer can send as [targetId], has its last
    digit cut off and names the same event as the 8-digit identifier before it. *)
Theorem id_name_truncates (m d : Z) :
  eight_digits m -> 0 <= d < 10 -> id_name (10 * m + d) = id_name m.
Proof.
  intros Hm Hd. unfold id_name, snprintf_u32. rewrite (id_digits_eight m) by done.
  unfold eight_digits in Hm. rewrite u32_small by lia. do 2 f_equal.
  rewrite (digits_snoc 9), (digits_fuel 10 9) by lia.
  pose proof (length_digits 7 9 m). rewrite take_app_le; [apply take_ge|]; simpl in *; lia.
Qed.

Lemma id_name_truncates_witness : id_name 123456789 = id_name 12345678.
Proof. apply (id_name_truncates 12345678 9); unfold eight_digits; lia. Defined.
