(* ===== verification/LibUv.v ===== *)
(** * libuv as the repository's code relies on it

    libuv is not part of the repository.  The class gives the functions that
    uv_callback.c calls; [uv_view] is what their documentation lets a client see
    of the library's state: the asynchronous handles of each loop in the order
    [uv_walk] visits them, the handles whose [uv_async_send] has not been delivered
    yet, and the handles whose idle watcher runs.  The laws say how each call moves
    the view; [uv_view] itself is the instance the witnesses run on. *)

From S2P Require Import Prelude.

Abbreviation loop := nat (only parsing).

Record uv_view : Type := UvView {
  v_async : list (loop * loc);
  v_pending : gset loc;
  v_idle : gset loc
}.

Definition UV_EINVAL : Z := -22.
Definition UV_ENOMEM : Z := -12.
Definition UV_ETIMEDOUT : Z := -110.
Definition UV_UNKNOWN : Z := -4094.

Definition view_send (l : loc) (v : uv_view) : uv_view :=
  UvView (v_async v) ({[l]} ∪ v_pending v) (v_idle v).
Definition view_deliver (l : loc) (v : uv_view) : uv_view :=
  UvView (v_async v) (v_pending v ∖ {[l]}) (v_idle v).
Definition view_idle_start (l : loc) (v : uv_view) : uv_view :=
  UvView (v_async v) (v_pending v) ({[l]} ∪ v_idle v).
Definition view_idle_stop (l : loc) (v : uv_view) : uv_view :=
  UvView (v_async v) (v_pending v) (v_idle v ∖ {[l]}).
Definition view_close (l : loc) (v : uv_view) : uv_view :=
  UvView (filter (fun h => h.2 <> l) (v_async v)) (v_pending v ∖ {[l]}) (v_idle v ∖ {[l]}).

(** The handles [uv_walk(loop, ...)] visits. *)
Definition walk_handles (lp : loop) (v : uv_view) : list loc :=
  snd <$> filter (fun h => h.1 = lp) (v_async v).

Class Uv (U : Type) := {
  uv_see : U -> uv_view;
  uv_async_init : loop -> loc -> U -> Z * U;
  uv_idle_init : loop -> loc -> U -> Z * U;
  uv_async_send : loc -> U -> Z * U;
  uv_deliver : loc -> U -> U;  (* the loop takes a pending send, about to call back *)
  uv_idle_start : loc -> U -> U;
  uv_idle_stop : loc -> U -> U;
  uv_close : loc -> U -> U
}.

Class UvLaws (U : Type) `{Uv U} := {
  uv_async_init_law : forall lp l u rc u', uv_async_init lp l u = (rc, u') ->
    (rc <> 0%Z /\ uv_see u' = uv_see u) \/
    (rc = 0%Z /\ v_async (uv_see u') ≡ₚ (lp, l) :: v_async (uv_see u) /\
     v_pending (uv_see u') = v_pending (uv_see u) /\ v_idle (uv_see u') = v_idle (uv_see u));
  uv_idle_init_law : forall lp l u rc u', uv_idle_init lp l u = (rc, u') -> uv_see u' = uv_see u;
  uv_async_send_law : forall lp l u, (lp, l) ∈ v_async (uv_see u) ->
    exists u', uv_async_send l u = (0%Z, u') /\ uv_see u' = view_send l (uv_see u);
  uv_deliver_law : forall l u, uv_see (uv_deliver l u) = view_deliver l (uv_see u);
  uv_idle_start_law : forall l u, uv_see (uv_idle_start l u) = view_idle_start l (uv_see u);
  uv_idle_stop_law : forall l u, uv_see (uv_idle_stop l u) = view_idle_stop l (uv_see u);
  uv_close_law : forall l u, uv_see (uv_close l u) = view_close l (uv_see u)
}.

#[export] Instance uvConcrete : Uv uv_view := {|
  uv_see := fun v => v;
  uv_async_init := fun lp l v => (0%Z, UvView ((lp, l) :: v_async v) (v_pending v) (v_idle v));
  uv_idle_init := fun _ _ v => (0%Z, v);
  uv_async_send := fun l v =>
    if decide (l ∈ (v_async v).*2) then (0%Z, view_send l v) else (UV_EINVAL, v);
  uv_deliver := view_deliver;
  uv_idle_start := view_idle_start;
  uv_idle_stop := view_idle_stop;
  uv_close := view_close
|}.

#[export] Instance uvConcrete_laws : UvLaws uv_view.
Proof.
  split; try done.
  - intros lp l u rc u' [= <- <-]. by right.
  - by intros lp l u rc u' [= <- <-].
  - intros lp l u Hin. exists (view_send l u). split; [|done]. simpl.
    rewrite decide_True; [done|]. apply list_elem_of_fmap. by exists (lp, l).
Qed.
