(* ===== verification/UvCallback.v ===== *)
(** * uv_callback: calls from any thread to functions on a loop's thread

    uv2/src/uv_callback.{c,h}.  A callback of type [UV_DEFAULT] keeps a queue of the
    calls fired at it (a linked list, newest first, taken from at its tail), one
    master per loop owning the queue and the asynchronous handle; a callback of type
    [UV_COALESCE] keeps the argument of the last call only.  [Module Uv] holds the data
    and the functions; the second part is the system of sender threads and loop
    threads, whose atomic steps are the code's critical sections. *)

From S2P Require Import Prelude LibUv.

Local Open Scope c_scope.

Module Uv.

(** ** Data *)

Inductive func : Type :=
| on_call_result_f         (* uv_callback_fire_sync's own *)
| User (n : nat).          (* a function of the program *)

#[export] Instance func_eq_dec : EqDecision func.
Proof. solve_decision. Defined.

Record uv_call_t : Type := Call {
  c_callback : loc;
  c_data : Z;
  c_notify : option loc
}.

Record uv_callback_t : Type := Callback {
  usequeue : bool;
  queue : list uv_call_t;    (* the chain from [queue] along [next] *)
  function : func;
  arg : Z;
  idle_active : bool;
  master : option loc;
  cb_loop : option loop      (* [((uv_handle_t* )callback)->loop] *)
}.

Record call_result : Type := CallResult { timed_out : bool; called : bool; r_data : Z }.

Record world (U : Type) : Type := World {
  uv : U;
  callbacks : gmap loc uv_callback_t;
  loop_data : gmap loop call_result;  (* [loop.data], of the loops of uv_callback_fire_sync *)
  stopped : gset loop;                (* loops [uv_stop] was called on *)
  mallocs : nat;                      (* allocations that still succeed *)
  trace : list (func * loc * Z)       (* functions called, oldest first *)
}.
Arguments World {U}.
Arguments uv {U}.
Arguments callbacks {U}.
Arguments loop_data {U}.
Arguments stopped {U}.
Arguments mallocs {U}.
Arguments trace {U}.

Definition UV_DEFAULT : Z := 0.
Definition UV_COALESCE : Z := 1.

Definition set_queue (q : list uv_call_t) (c : uv_callback_t) : uv_callback_t :=
  Callback (usequeue c) q (function c) (arg c) (idle_active c) (master c) (cb_loop c).
Definition set_arg (a : Z) (c : uv_callback_t) : uv_callback_t :=
  Callback (usequeue c) (queue c) (function c) a (idle_active c) (master c) (cb_loop c).
Definition set_idle_active (b : bool) (c : uv_callback_t) : uv_callback_t :=
  Callback (usequeue c) (queue c) (function c) (arg c) b (master c) (cb_loop c).

Section Code.
Context {U : Type} `{Uv U}.
Implicit Types w : world U.

(** *** Access to the state *)

Definition set_uv (f : U -> U) w : world U :=
  World (f (uv w)) (callbacks w) (loop_data w) (stopped w) (mallocs w) (trace w).
Definition set_callbacks (f : gmap loc uv_callback_t -> gmap loc uv_callback_t) w : world U :=
  World (uv w) (f (callbacks w)) (loop_data w) (stopped w) (mallocs w) (trace w).
Definition set_loop_data (f : gmap loop call_result -> gmap loop call_result) w : world U :=
  World (uv w) (callbacks w) (f (loop_data w)) (stopped w) (mallocs w) (trace w).
Definition set_stopped (f : gset loop -> gset loop) w : world U :=
  World (uv w) (callbacks w) (loop_data w) (f (stopped w)) (mallocs w) (trace w).
Definition set_mallocs (n : nat) w : world U :=
  World (uv w) (callbacks w) (loop_data w) (stopped w) n (trace w).
Definition log_call (f : func) (l : loc) (d : Z) w : world U :=
  World (uv w) (callbacks w) (loop_data w) (stopped w) (mallocs w) (trace w ++ [(f, l, d)]).

(** A call of libuv that returns a code. *)
Definition uv_rc (f : U -> Z * U) : M (world U) Z := fun w =>
  let '(rc, u) := f (uv w) in Done (rc, set_uv (fun _ => u) w).
Definition uv_do (f : U -> U) : M (world U) unit := modify (set_uv f).

(** [callback->...], read and written. *)
Definition get_callback (l : loc) : M (world U) uv_callback_t :=
  m ← gets callbacks; live (m !! l).
Definition update_callback (l : loc) (f : uv_callback_t -> uv_callback_t) : M (world U) unit :=
  c ← get_callback l; modify (set_callbacks <[l := f c]>).

(** [malloc(sizeof(uv_call_t))] succeeded. *)
Definition malloc_call : M (world U) bool :=
  n ← gets mallocs;
  match n with O => mret false | S n => modify (set_mallocs n);; mret true end.
Definition free_call : M (world U) unit := modify (fun w => set_mallocs (S (mallocs w)) w).

(** *** Initialization *)

(** [uv_walk(loop, master_on_walk, &callback)]: the last handle of the walk that uses a queue. *)
Definition master_on_walk w (acc : option loc) (l : loc) : option loc :=
  match callbacks w !! l with
  | Some c => if usequeue c then Some l else acc
  | None => acc
  end.

Definition get_master_callback (lp : loop) : M (world U) (option loc) :=
  gets (fun w => fold_left (master_on_walk w) (walk_handles lp (uv_see (uv w))) None).

Definition zero_callback (f : func) : uv_callback_t := Callback false [] f 0 false None None.

(** The [return uv_async_init(...)] both cases end in. *)
Definition init_async (lp : loop) (l : loc) : M (world U) Z :=
  rc ← uv_rc (uv_async_init lp l);
  (if! (rc =? 0)%Z then
    update_callback l (fun c => Callback (usequeue c) (queue c) (function c) (arg c)
                                  (idle_active c) (master c) (Some lp)));;
  mret rc.

Definition uv_callback_init (lp : option loop) (callback : option loc) (f : option func)
    (callback_type : Z) : M (world U) Z :=
  match lp, callback, f with
  | Some lp, Some l, Some f =>
      modify (set_callbacks <[l := zero_callback f]>);;
      if (callback_type =? UV_DEFAULT)%Z then
        update_callback l (fun c => Callback true (queue c) (function c) (arg c)
                                      (idle_active c) (master c) (cb_loop c));;
        m ← get_master_callback lp;
        update_callback l (fun c => Callback (usequeue c) (queue c) (function c) (arg c)
                                      (idle_active c) m (cb_loop c));;
        match m with
        | Some _ => mret 0%Z
        | None =>
            rc ← uv_rc (uv_idle_init lp l);
            if negb (rc =? 0)%Z then mret rc else init_async lp l
        end
      else if (callback_type =? UV_COALESCE)%Z then init_async lp l
      else mret UV_EINVAL
  | _, _, _ => mret UV_EINVAL
  end.

(** *** Dequeue *)

(** The walk of [dequeue_call] to the node whose [next] is null: what stays in the
    chain and the node taken. *)
Fixpoint dequeue_last (q : list uv_call_t) : list uv_call_t * option uv_call_t :=
  match q with
  | [] => ([], None)
  | [c] => ([], Some c)
  | c :: q => let '(q', r) := dequeue_last q in (c :: q', r)
  end.

Definition dequeue_call (l : loc) : M (world U) (option uv_call_t) :=
  c ← get_callback l;
  let '(q, r) := dequeue_last (queue c) in
  update_callback l (set_queue q);; mret r.

(** *** Asynchronous callback firing *)

(** Everything of [uv_callback_fire] up to its last line: the error code, or the
    handle to send on.  The part between lock and unlock is the one write of the queue. *)
Definition uv_callback_enqueue (callback : option loc) (data : Z) (notify : option loc) :
    M (world U) (Z + loc) :=
  match callback with
  | None => mret (inl UV_EINVAL)
  | Some l =>
      c ← get_callback l;
      if bool_decide (notify <> None) && negb (usequeue c) then mret (inl UV_EINVAL)
      else if usequeue c then
        ok ← malloc_call;
        if negb ok then mret (inl UV_ENOMEM)
        else
          let l' := default l (master c) in
          update_callback l' (fun m => set_queue (Call l data notify :: queue m) m);;
          mret (inr l')
      else
        update_callback l (set_arg data);; mret (inr l)
  end.

Definition uv_callback_fire (callback : option loc) (data : Z) (notify : option loc) :
    M (world U) Z :=
  r ← uv_callback_enqueue callback data notify;
  match r with
  | inl rc => mret rc
  | inr l => uv_rc (uv_async_send l)
  end.

(** *** Callback function call *)

(** The program's functions, by number: what a call does and returns. *)
Context (call_user : nat -> loc -> Z -> M (world U) Z).

(** It has no [return]: the value is indeterminate, and never used because a call to
    it carries no [notify]. *)
Definition on_call_result (l : loc) (data : Z) : M (world U) Z :=
  c ← get_callback l;
  lp ← deref (cb_loop c);
  m ← gets loop_data;
  r ← live (m !! lp);
  modify (set_loop_data <[lp := CallResult (timed_out r) true data]>);;
  modify (set_stopped (union {[lp]}));;
  mret 0%Z.

Definition on_timer (lp : loop) : M (world U) unit :=
  m ← gets loop_data;
  r ← live (m !! lp);
  modify (set_loop_data <[lp := CallResult true (called r) (r_data r)]>);;
  modify (set_stopped (union {[lp]})).

Definition call_function (f : func) (l : loc) (d : Z) : M (world U) Z :=
  modify (log_call f l d);;
  match f with
  | on_call_result_f => on_call_result l d
  | User n => call_user n l d
  end.

(** [uv_callback_async_cb] after its [dequeue_call]. *)
Definition async_cb_call (l : loc) (call : option uv_call_t) : M (world U) unit :=
  match call with
  | Some call =>
      f ← get_callback (c_callback call);
      result ← call_function (function f) (c_callback call) (c_data call);
      (match c_notify call with
       | Some n => uv_callback_fire (Some n) result None;; mret tt
       | None => mret tt
       end);;
      free_call;;
      c ← get_callback l;
      if! negb (idle_active c) then
        (uv_do (uv_idle_start l);; update_callback l (set_idle_active true))
  | None => uv_do (uv_idle_stop l);; update_callback l (set_idle_active false)
  end.

Definition uv_callback_async_cb (l : loc) : M (world U) unit :=
  c ← get_callback l;
  if usequeue c then
    call ← dequeue_call l;
    async_cb_call l call
  else
    call_function (function c) l (arg c);; mret tt.

Definition uv_callback_idle_cb (l : loc) : M (world U) unit := uv_callback_async_cb l.

(** One turn of a loop for the handle [l]: a pending send is delivered, else an idle
    watcher that runs is called. *)
Definition loop_turn (l : loc) : M (world U) unit :=
  v ← gets (fun w => uv_see (uv w));
  if decide (l ∈ v_pending v) then uv_do (uv_deliver l);; uv_callback_async_cb l
  else if decide (l ∈ v_idle v) then uv_callback_idle_cb l
  else mret tt.

(** *** Synchronous callback firing *)

(** What the waiting loop sees, in order: a turn of the loop that owns a handle (the
    other thread's, or its own for [notify]), or its timer. *)
Inductive sched : Type :=
| Turn (l : loc)
| TimerFires.

(** [uv_run(&loop, UV_RUN_DEFAULT)] up to [uv_stop]; a schedule that ends before the
    stop is one the call still waits in. *)
Fixpoint uv_run_until_stop (lp : loop) (timer : bool) (es : list sched) : M (world U) unit :=
  st ← gets stopped;
  if decide (lp ∈ st) then mret tt
  else match es with
       | [] => crash Fuel
       | Turn l :: es => loop_turn l;; uv_run_until_stop lp timer es
       | TimerFires :: es =>
           (if! timer then on_timer lp);; uv_run_until_stop lp timer es
       end.

(** The end of [uv_callback_fire_sync]: the loop is closed, the frame's objects die, and
    the code and [*presult] come from the result. *)
Definition fire_sync_exit (lp : loop) (notify : loc) (rc : Z) : M (world U) (Z * option Z) :=
  uv_do (uv_close notify);;
  m ← gets loop_data;
  result ← live (m !! lp);
  modify (set_callbacks (delete notify));;
  modify (set_loop_data (delete lp));;
  let rc := if (rc =? 0)%Z && timed_out result then UV_ETIMEDOUT else rc in
  let rc := if (rc =? 0)%Z && negb (called result) then UV_UNKNOWN else rc in
  mret (rc, Some (r_data result)).

(** [lp], [notify] are the addresses of the locals [loop], [notify]; both die on return.
    The second component is [*presult]. *)
Definition uv_callback_fire_sync (lp : loop) (notify : loc) (callback : option loc) (data : Z)
    (timeout : Z) (es : list sched) : M (world U) (Z * option Z) :=
  match callback with
  | None => mret (UV_EINVAL, None)
  | Some l =>
      c ← get_callback l;
      if negb (usequeue c) then mret (UV_EINVAL, None)
      else
        uv_callback_init (Some lp) (Some notify) (Some on_call_result_f) UV_DEFAULT;;
        modify (set_loop_data <[lp := CallResult false false 0]>);;
        rc ← uv_callback_fire callback data (Some notify);
        (if! (rc =? 0)%Z then uv_run_until_stop lp (0 <? timeout)%Z es);;
        fire_sync_exit lp notify rc
  end.
End Code.

(** ** Running the primitives *)

Section Facts.
Context {U : Type} `{UvLaws U}.
Implicit Types w : world U.

Lemma get_callback_run w l c : callbacks w !! l = Some c -> get_callback l w = Done (c, w).
Proof. intros Hc. unfold get_callback. run eq_refl. rewrite Hc. done. Qed.

Lemma get_callback_dead w l : callbacks w !! l = None -> get_callback l w = Crash UseAfterFree.
Proof. intros Hc. unfold get_callback. run eq_refl. rewrite Hc. done. Qed.

Lemma update_callback_run w l c f :
  callbacks w !! l = Some c -> update_callback l f w = Done (tt, set_callbacks <[l := f c]> w).
Proof. intros Hc. unfold update_callback. by run (get_callback_run _ _ _ Hc). Qed.

Lemma malloc_call_run w n : mallocs w = S n -> malloc_call w = Done (true, set_mallocs n w).
Proof. intros Hn. unfold malloc_call. run eq_refl. rewrite Hn. done. Qed.

Lemma uv_rc_send_run w lp l :
  (lp, l) ∈ v_async (uv_see (uv w)) ->
  exists u', uv_rc (uv_async_send l) w = Done (0%Z, set_uv (fun _ => u') w) /\
    uv_see u' = view_send l (uv_see (uv w)).
Proof.
  intros Hin. destruct (uv_async_send_law lp l (uv w) Hin) as (u' & Hs & Hv).
  exists u'. split; [|done]. unfold uv_rc. by rewrite Hs.
Qed.

(** *** The queue, oldest call first *)

Definition calls (c : uv_callback_t) : list uv_call_t := rev (queue c).

Lemma dequeue_last_rev q :
  dequeue_last q = match rev q with [] => ([], None) | c :: cs => (rev cs, Some c) end.
Proof.
  induction q as [|c q IH]; [done|]. destruct q as [|c' q]; [done|].
  remember (c' :: q) as q' eqn:Hq. cbn [dequeue_last]. rewrite Hq. cbv iota. rewrite <- Hq, IH.
  cbn [rev]. destruct (rev q') as [|d ds] eqn:E.
  - apply (f_equal (@rev uv_call_t)) in E. rewrite rev_involutive in E. by subst.
  - cbn. by rewrite rev_app_distr.
Qed.

Lemma dequeue_call_run w l c :
  callbacks w !! l = Some c ->
  dequeue_call l w =
  match calls c with
  | [] => Done (None, set_callbacks <[l := set_queue [] c]> w)
  | call :: cs => Done (Some call, set_callbacks <[l := set_queue (rev cs) c]> w)
  end.
Proof.
  intros Hc. unfold dequeue_call, calls.
  run (get_callback_run _ _ _ Hc). rewrite dequeue_last_rev.
  destruct (rev (queue c)); by run (update_callback_run _ _ _ _ Hc).
Qed.

(** A call is fired at [l], through [l']'s queue. *)
Definition fires_through w (l l' : loc) (c m : uv_callback_t) : Prop :=
  callbacks w !! l = Some c /\ usequeue c = true /\ l' = default l (master c) /\
  callbacks w !! l' = Some m.

Lemma enqueue_run w l l' c m data notify n :
  fires_through w l l' c m -> mallocs w = S n ->
  uv_callback_enqueue (Some l) data notify w =
  Done (inr l', set_callbacks <[l' := set_queue (Call l data notify :: queue m) m]> (set_mallocs n w)).
Proof.
  intros (Hc & Hq & Hl' & Hm) Hn. unfold uv_callback_enqueue.
  run (get_callback_run _ _ _ Hc). rewrite Hq, andb_false_r.
  run (malloc_call_run _ _ Hn). cbn [negb]. cbv iota. rewrite <- Hl'.
  run (update_callback_run (set_mallocs n w) l' m _ Hm). done.
Qed.

Lemma fire_run w l l' c m lp data notify n :
  fires_through w l l' c m -> mallocs w = S n -> (lp, l') ∈ v_async (uv_see (uv w)) ->
  exists u', uv_callback_fire (Some l) data notify w =
    Done (0%Z, set_uv (fun _ => u')
      (set_callbacks <[l' := set_queue (Call l data notify :: queue m) m]> (set_mallocs n w))) /\
    uv_see u' = view_send l' (uv_see (uv w)).
Proof.
  intros Hf Hn Hin. unfold uv_callback_fire.
  run (enqueue_run _ _ _ _ _ data notify _ Hf Hn).
  apply (uv_rc_send_run
    (set_callbacks <[l' := set_queue (Call l data notify :: queue m) m]> (set_mallocs n w)) lp l').
  done.
Qed.

(** *** One turn of the loop *)

Context (call_user : nat -> loc -> Z -> M (world U) Z).

(** The loop of [l] has something to do for it. *)
Definition awake w (l : loc) : Prop :=
  l ∈ v_pending (uv_see (uv w)) \/ l ∈ v_idle (uv_see (uv w)).

Definition idle_coherent w (l : loc) (m : uv_callback_t) : Prop :=
  idle_active m = true <-> l ∈ v_idle (uv_see (uv w)).

Definition callable w (call : uv_call_t) (n : nat) : Prop :=
  exists f, callbacks w !! c_callback call = Some f /\ function f = User n.

(** A turn is one run of the callback, with the send taken if there was one. *)
Lemma loop_turn_awake w l :
  awake w l -> exists u',
    loop_turn call_user l w = uv_callback_async_cb call_user l (set_uv (fun _ => u') w) /\
    v_async (uv_see u') = v_async (uv_see (uv w)) /\
    v_pending (uv_see u') = v_pending (uv_see (uv w)) ∖ {[l]} /\
    v_idle (uv_see u') = v_idle (uv_see (uv w)).
Proof.
  intros Haw. unfold loop_turn. run eq_refl. destruct (decide (l ∈ v_pending _)) as [Hp|Hp].
  - exists (uv_deliver l (uv w)). rewrite uv_deliver_law. done.
  - destruct Haw as [?|Hi]; [done|]. rewrite decide_True by done.
    exists (uv w). split_and!; [by destruct w|done|set_solver|done].
Qed.

Lemma async_cb_run w l m :
  callbacks w !! l = Some m -> usequeue m = true ->
  uv_callback_async_cb call_user l w =
  match calls m with
  | [] => async_cb_call call_user l None (set_callbacks <[l := set_queue [] m]> w)
  | c :: cs => async_cb_call call_user l (Some c) (set_callbacks <[l := set_queue (rev cs) m]> w)
  end.
Proof.
  intros Hm Hq. unfold uv_callback_async_cb. run (get_callback_run _ _ _ Hm). rewrite Hq.
  pose proof (dequeue_call_run _ _ _ Hm) as Hd. by destruct (calls m); run Hd.
Qed.

Context (ret : nat -> loc -> Z -> Z).

(** The program's functions return a value and leave this state alone. *)
Definition functions_return : Prop := forall n l d w, call_user n l d w = Done (ret n l d, w).

(** The state of the handle [l] and what it may do next. *)
Definition master_at w (l : loc) (m : uv_callback_t) : Prop :=
  callbacks w !! l = Some m /\ usequeue m = true /\ idle_coherent w l m.

(** What is logged when [call] is made. *)
Definition call_event (n : uv_call_t -> nat) (c : uv_call_t) : func * loc * Z :=
  (User (n c), c_callback c, c_data c).

(** A turn that finds no call stops the idle watcher. *)
Lemma loop_turn_empty w l m :
  master_at w l m -> awake w l -> calls m = [] ->
  exists w', loop_turn call_user l w = Done (tt, w') /\
    callbacks w' = <[l := set_idle_active false (set_queue [] m)]> (callbacks w) /\
    trace w' = trace w /\ mallocs w' = mallocs w /\
    v_pending (uv_see (uv w')) = v_pending (uv_see (uv w)) ∖ {[l]} /\
    v_idle (uv_see (uv w')) = v_idle (uv_see (uv w)) ∖ {[l]}.
Proof.
  intros (Hm & Hq & Hidle) Haw Hcs. destruct (loop_turn_awake w l Haw) as (u & -> & Ha & Hp & Hi).
  rewrite (async_cb_run _ l m), Hcs by done. unfold async_cb_call. run eq_refl.
  erewrite update_callback_run by (cbn; apply lookup_insert_eq).
  eexists. split; [done|]. cbn. rewrite insert_insert_eq, uv_idle_stop_law. cbn.
  by rewrite Hp, Hi.
Qed.

(** A turn that finds a call without [notify] makes it and leaves the watcher running. *)
Lemma loop_turn_call w l m call cs n :
  functions_return -> master_at w l m -> awake w l -> calls m = call :: cs ->
  callable w call n -> c_notify call = None ->
  exists w', loop_turn call_user l w = Done (tt, w') /\
    callbacks w' = <[l := set_idle_active true (set_queue (rev cs) m)]> (callbacks w) /\
    trace w' = trace w ++ [call_event (fun _ => n) call] /\ mallocs w' = S (mallocs w) /\
    v_pending (uv_see (uv w')) = v_pending (uv_see (uv w)) ∖ {[l]} /\
    v_idle (uv_see (uv w')) = {[l]} ∪ v_idle (uv_see (uv w)).
Proof.
  intros Hret (Hm & Hq & Hidle) Haw Hcs (f & Hf & Hn) Hno.
  destruct (loop_turn_awake w l Haw) as (u & -> & Ha & Hp & Hi).
  rewrite (async_cb_run _ l m), Hcs by done. unfold async_cb_call.
  set (w1 := set_callbacks _ _).
  assert (exists f1, callbacks w1 !! c_callback call = Some f1 /\ function f1 = User n) as (f1 & Hf1 & Hn1).
  { cbn. destruct (decide (c_callback call = l)) as [He|Hne].
    - rewrite He in Hf |- *. rewrite lookup_insert_eq. eexists. split; [done|]. cbn. congruence.
    - rewrite lookup_insert_ne by done. eauto. }
  run (get_callback_run _ _ _ Hf1). rewrite Hn1, Hno. unfold call_function.
  rewrite bind_assoc. run eq_refl. run (Hret _ _ _ _). run eq_refl. run eq_refl.
  run (get_callback_run _ _ _ (lookup_insert_eq _ _ _)).
  cbn [idle_active set_queue]. destruct (idle_active m) eqn:Hact; cbn [negb whenM].
  - eexists. split; [done|]. cbn. split_and!; try done.
    + f_equal. by destruct m; cbn in *; subst.
    + rewrite Hi. destruct Hidle as [Hidle _]. specialize (Hidle Hact). set_solver.
  - run eq_refl. erewrite update_callback_run by (cbn; apply lookup_insert_eq).
    eexists. split; [done|]. cbn. rewrite insert_insert_eq, uv_idle_start_law. cbn.
    by rewrite Hp, Hi.
Qed.

(** [k] turns of the loop for one handle. *)
Fixpoint turns (k : nat) (l : loc) : M (world U) unit :=
  match k with
  | O => mret tt
  | S k => loop_turn call_user l;; turns k l
  end.

Definition drainable w (num : uv_call_t -> nat) (c : uv_call_t) : Prop :=
  callable w c (num c) /\ c_notify c = None.

Lemma drainable_update w w' l m m' num c :
  callbacks w !! l = Some m -> callbacks w' = <[l := m']> (callbacks w) ->
  function m' = function m -> drainable w num c -> drainable w' num c.
Proof.
  intros Hm Hw' Hfun ((f & Hf & Hn) & Hno). split; [|done]. unfold callable. rewrite Hw'.
  destruct (decide (c_callback c = l)) as [He|Hne].
  - rewrite He in Hf |- *. rewrite lookup_insert_eq. eexists. split; [done|]. congruence.
  - rewrite lookup_insert_ne by done. eauto.
Qed.

(** C19: sends coalesce (one pending send stands for any number of fired calls), but no call
    is lost or reordered: a loop that is awake makes the queued calls one a turn in
    the order they were fired, frees each call record, and after one more turn has
    an empty queue, no pending send and a stopped idle watcher. *)
Theorem loop_drains_queue (w : world U) (l : loc) (m : uv_callback_t) (num : uv_call_t -> nat) :
  functions_return -> master_at w l m -> awake w l ->
  Forall (drainable w num) (calls m) ->
  exists w', turns (S (length (calls m))) l w = Done (tt, w') /\
    trace w' = trace w ++ (call_event num <$> calls m) /\
    callbacks w' = <[l := set_idle_active false (set_queue [] m)]> (callbacks w) /\
    mallocs w' = mallocs w + length (calls m) /\ ~ awake w' l.
Proof.
  intros Hret. remember (calls m) as cs eqn:Hcs. symmetry in Hcs. revert w m Hcs.
  induction cs as [|c cs IH]; intros w m Hcs Hat Haw Hall.
  - destruct (loop_turn_empty w l m Hat Haw Hcs) as (w' & Hrun & Hcb & Htr & Hm & Hp & Hi).
    exists w'. cbn [turns length]. run Hrun. unfold awake. rewrite Hp, Hi, Htr, Hm, app_nil_r.
    split_and!; [done|done|done|lia|set_solver].
  - apply Forall_cons in Hall as [[Hc Hno] Hall].
    destruct (loop_turn_call w l m c cs (num c) Hret Hat Haw Hcs Hc Hno)
      as (w1 & Hrun & Hcb & Htr & Hm & Hp & Hi).
    destruct Hat as (Hl & Hq & Hidle).
    set (m1 := set_idle_active true (set_queue (rev cs) m)).
    destruct (IH w1 m1) as (w' & Hrun' & Htr' & Hcb' & Hm' & Hna).
    + unfold m1, calls. cbn. apply rev_involutive.
    + split_and!; [rewrite Hcb; apply lookup_insert_eq|done|].
      unfold idle_coherent. rewrite Hi. unfold m1. set_solver.
    + right. rewrite Hi. set_solver.
    + eapply Forall_impl; [exact Hall|]. intros c' Hc'. by eapply (drainable_update w w1 l m m1).
    + exists w'. cbn [length]. change (turns (S (S (length cs))) l w) with
        ((loop_turn call_user l;; turns (S (length cs)) l) w). run Hrun.
      rewrite Hrun', Htr', Htr, Hcb', Hcb, insert_insert_eq, <- app_assoc, Hm', Hm.
      split_and!; [done|done|done|lia|done].
Qed.
End Facts.

(** ** Threads: senders and loops interleaved

    A sender is in flight between its unlock and its [uv_async_send]; a loop is waiting,
    about to dequeue, or about to make the call it dequeued. *)

Inductive pc : Type :=
| Waiting
| Dequeuing
| Calling (call : option uv_call_t).

Record sys (U : Type) : Type := Sys {
  s_world : world U;
  inflight : list loc;
  pcs : gmap loc pc
}.
Arguments Sys {U}.
Arguments s_world {U}.
Arguments inflight {U}.
Arguments pcs {U}.

Section Threads.
Context {U : Type} `{UvLaws U}.
Context (call_user : nat -> loc -> Z -> M (world U) Z) (ret : nat -> loc -> Z -> Z).
Implicit Types (w : world U) (s : sys U).

Definition pc_of s (l : loc) : pc := default Waiting (pcs s !! l).

Inductive sys_step : sys U -> sys U -> Prop :=
| step_enqueue w w' fl p callback data notify l :
    uv_callback_enqueue callback data notify w = Done (inr l, w') ->
    sys_step (Sys w fl p) (Sys w' (l :: fl) p)
| step_send w w' fl1 fl2 p l rc :
    uv_rc (uv_async_send l) w = Done (rc, w') ->
    sys_step (Sys w (fl1 ++ l :: fl2) p) (Sys w' (fl1 ++ fl2) p)
| step_wake w fl p l :
    default Waiting (p !! l) = Waiting -> l ∈ v_pending (uv_see (uv w)) ->
    sys_step (Sys w fl p) (Sys (set_uv (uv_deliver l) w) fl (<[l := Dequeuing]> p))
| step_idle w fl p l :
    default Waiting (p !! l) = Waiting -> l ∈ v_idle (uv_see (uv w)) ->
    sys_step (Sys w fl p) (Sys w fl (<[l := Dequeuing]> p))
| step_dequeue w w' fl p l call :
    p !! l = Some Dequeuing -> dequeue_call l w = Done (call, w') ->
    sys_step (Sys w fl p) (Sys w' fl (<[l := Calling call]> p))
| step_call w w' fl p l call :
    p !! l = Some (Calling call) -> async_cb_call call_user l call w = Done (tt, w') ->
    sys_step (Sys w fl p) (Sys w' fl (<[l := Waiting]> p)).

Definition registered w (l : loc) : Prop := exists lp, (lp, l) ∈ v_async (uv_see (uv w)).

(** The thread of [l] will look at its queue again. *)
Definition will_look s (l : loc) : Prop :=
  l ∈ v_pending (uv_see (uv (s_world s))) \/ l ∈ inflight s \/
  match pc_of s l with
  | Waiting => l ∈ v_idle (uv_see (uv (s_world s)))
  | Dequeuing | Calling (Some _) => True
  | Calling None => False
  end.

Definition callback_ok s (l : loc) (c : uv_callback_t) : Prop :=
  registered (s_world s) (default l (if usequeue c then master c else None)) /\
  (idle_active c = true -> l ∈ v_idle (uv_see (uv (s_world s)))) /\
  (queue c <> [] -> will_look s l).

Definition sys_ok s : Prop :=
  (forall l c, callbacks (s_world s) !! l = Some c -> callback_ok s l c) /\
  Forall (registered (s_world s)) (inflight s).

Lemma get_callback_inv w l c w' :
  get_callback l w = Done (c, w') -> w' = w /\ callbacks w !! l = Some c.
Proof.
  unfold get_callback. run eq_refl. destruct (callbacks w !! l); [|done].
  by intros [= <- <-].
Qed.

Lemma update_callback_inv w l f u w' :
  update_callback l f w = Done (u, w') ->
  exists c, callbacks w !! l = Some c /\ w' = set_callbacks <[l := f c]> w.
Proof.
  intros Hr. inv_bind Hr. apply get_callback_inv in Hrun as [-> Hc].
  injection Hr as _ <-. eauto.
Qed.

(** What an enqueue that does not fail changes: one callback's queue or argument. *)
Lemma enqueue_inv w callback data notify l w' :
  uv_callback_enqueue callback data notify w = Done (inr l, w') ->
  (exists k c, callbacks w !! k = Some c /\ l = default k (if usequeue c then master c else None)) /\
  exists m m' n, callbacks w !! l = Some m /\ w' = set_callbacks <[l := m']> (set_mallocs n w) /\
    master m' = master m /\ idle_active m' = idle_active m /\ usequeue m' = usequeue m.
Proof.
  destruct callback as [k|]; [|done]. intros Hr. unfold uv_callback_enqueue in Hr.
  inv_bind Hr. apply get_callback_inv in Hrun as [-> Hc]. destruct (_ && _); [done|].
  destruct (usequeue a) eqn:Hq.
  - inv_bind Hr. unfold malloc_call in Hrun. inv_bind Hrun. injection Hrun0 as <- <-.
    destruct (mallocs w) as [|n]; [by injection Hrun as <- <-|].
    inv_bind Hrun. injection Hrun0 as _ <-. injection Hrun as <- <-. cbn [negb] in Hr.
    inv_bind Hr. apply update_callback_inv in Hrun as (m & Hm & ->). injection Hr as <- <-.
    split; [exists k, a; by rewrite Hq|]. by eexists m, _, n.
  - inv_bind Hr. apply update_callback_inv in Hrun as (m & Hm & ->). injection Hr as <- <-.
    split; [exists k, a; by rewrite Hq|]. exists m, (set_arg data m), (mallocs w). split_and!; [done| |done|done|done].
    by destruct w.
Qed.

Lemma will_look_mono s s' l :
  (l ∈ v_pending (uv_see (uv (s_world s))) -> l ∈ v_pending (uv_see (uv (s_world s')))) ->
  (l ∈ v_idle (uv_see (uv (s_world s))) -> l ∈ v_idle (uv_see (uv (s_world s')))) ->
  (l ∈ inflight s -> l ∈ inflight s' \/ l ∈ v_pending (uv_see (uv (s_world s')))) ->
  pc_of s' l = pc_of s l -> will_look s l -> will_look s' l.
Proof. intros Hp Hi Hf Hpc. unfold will_look. rewrite Hpc. destruct (pc_of s l) as [| |[?|]]; naive_solver. Qed.

Lemma sys_ok_enqueue w fl p callback data notify l w' :
  sys_ok (Sys w fl p) -> uv_callback_enqueue callback data notify w = Done (inr l, w') ->
  sys_ok (Sys w' (l :: fl) p).
Proof.
  intros [Hcb Hfl] Hr.
  apply enqueue_inv in Hr as ((k & c & Hk & ->) & m & m' & n & Hm & -> & Hma & Hid & Hu).
  split; cbn in *.
  - intros k' c' Hk'. apply lookup_insert_Some in Hk' as [[<- <-]|[Hne Hk']].
    + destruct (Hcb _ _ Hm) as (Hreg & Hidle & _). rewrite <- Hma, <- Hu in Hreg.
      split_and!; [done|by rewrite Hid|]. intros _. right; left. by left.
    + destruct (Hcb _ _ Hk') as (Hreg & Hidle & Hlook). split_and!; [done|done|].
      intros Hq. eapply will_look_mono; [..|by apply Hlook]; cbn; [done|done| |done].
      intros Hin. left. by right.
  - constructor; [|done]. by destruct (Hcb _ _ Hk).
Qed.

Lemma sys_ok_send w fl1 fl2 p l rc w' :
  sys_ok (Sys w (fl1 ++ l :: fl2) p) -> uv_rc (uv_async_send l) w = Done (rc, w') ->
  sys_ok (Sys w' (fl1 ++ fl2) p).
Proof.
  intros [Hcb Hfl] Hr. cbn in *.
  assert (registered w l) as [lp Hlp] by (rewrite Forall_forall in Hfl; apply Hfl; set_solver).
  destruct (uv_rc_send_run w lp l Hlp) as (u' & Hr' & Hv). rewrite Hr' in Hr.
  injection Hr as _ <-.
  assert (Hreg : forall k, registered w k -> registered (set_uv (fun _ => u') w) k)
    by (unfold registered; cbn; by rewrite Hv).
  split; cbn.
  - intros k c Hk. destruct (Hcb _ _ Hk) as (Hr & Hidle & Hlook).
    split_and!; [by apply Hreg|cbn; by rewrite Hv|].
    intros Hq. eapply will_look_mono; [..|by apply Hlook]; cbn; rewrite ?Hv; cbn; [set_solver|done| |done].
    set_solver.
  - eapply Forall_impl; [|exact Hreg]. rewrite Forall_app, Forall_cons in Hfl.
    apply Forall_app. tauto.
Qed.

(** Steps that only move the program counter of one loop. *)
Lemma sys_ok_pc w w' fl p l q :
  sys_ok (Sys w fl p) -> callbacks w' = callbacks w ->
  v_async (uv_see (uv w')) = v_async (uv_see (uv w)) ->
  v_idle (uv_see (uv w')) = v_idle (uv_see (uv w)) ->
  (forall k, k <> l -> k ∈ v_pending (uv_see (uv w)) -> k ∈ v_pending (uv_see (uv w'))) ->
  (forall c, callbacks w !! l = Some c -> queue c <> [] -> will_look (Sys w' fl (<[l := q]> p)) l) ->
  sys_ok (Sys w' fl (<[l := q]> p)).
Proof.
  intros [Hcb Hfl] Hc Ha Hi Hp Hl. unfold sys_ok, callback_ok, registered in *. cbn in *.
  rewrite Ha, Hi, Hc. split; [|done].
  intros k c Hk. destruct (Hcb _ _ Hk) as (Hr & Hidle & Hlook).
  split_and!; [done|done|]. destruct (decide (k = l)) as [->|Hne]; [by eauto|].
  intros Hq. eapply will_look_mono; [..|by apply Hlook]; cbn; [by apply Hp|by rewrite Hi|by left|].
  unfold pc_of. cbn. by rewrite lookup_insert_ne.
Qed.

Lemma sys_ok_dequeue w fl p l call w' :
  sys_ok (Sys w fl p) -> dequeue_call l w = Done (call, w') ->
  sys_ok (Sys w' fl (<[l := Calling call]> p)).
Proof.
  intros [Hcb Hfl] Hr. unfold dequeue_call in Hr. inv_bind Hr.
  apply get_callback_inv in Hrun as [-> Hl]. rewrite dequeue_last_rev in Hr.
  assert (Hout : forall q, (call = None -> q = []) ->
    update_callback l (set_queue q) w = Done (tt, w') -> sys_ok (Sys w' fl (<[l := Calling call]> p))).
  { intros q Hq Hu. apply update_callback_inv in Hu as (c & Hc & ->).
    split; [|done]. cbn. intros k c' Hk. apply lookup_insert_Some in Hk as [[<- <-]|[Hne Hk]].
    - destruct (Hcb _ _ Hc) as (Hr1 & Hidle & _). split_and!; [done|done|].
      intros Hne. right; right. unfold pc_of. cbn. rewrite lookup_insert_eq. cbn.
      destruct call; [done|]. cbn in Hne. by rewrite Hq in Hne.
    - destruct (Hcb _ _ Hk) as (Hr1 & Hidle & Hlook). split_and!; [done|done|].
      intros Hq'. eapply will_look_mono; [..|by apply Hlook]; cbn; [done|done|by left|].
      unfold pc_of. cbn. by rewrite lookup_insert_ne. }
  destruct (rev (queue a)) as [|c cs]; inv_bind Hr; injection Hr as <- <-; destruct a0.
  - by apply (Hout []).
  - by apply (Hout (rev cs)).
Qed.

Lemma call_function_inv w f l d r w' :
  functions_return call_user ret -> call_function call_user f l d w = Done (r, w') ->
  callbacks w' = callbacks w /\ uv w' = uv w.
Proof.
  intros Hret Hr. unfold call_function in Hr. inv_bind Hr. injection Hrun as <- <-.
  destruct f as [|n]; [|rewrite Hret in Hr; by injection Hr as <- <-].
  unfold on_call_result in Hr. inv_bind Hr. apply get_callback_inv in Hrun as [-> Hc].
  inv_bind Hr. destruct (cb_loop a) as [lp|]; [|done]. injection Hrun as <- <-.
  inv_bind Hr. injection Hrun as <- <-. inv_bind Hr.
  destruct (_ !! lp); [|done]. injection Hrun as <- <-.
  by injection Hr as <- <-.
Qed.

Lemma fire_ok w fl p n d o rc w' :
  sys_ok (Sys w fl p) -> uv_callback_fire n d o w = Done (rc, w') -> sys_ok (Sys w' fl p).
Proof.
  intros Hok Hr. unfold uv_callback_fire in Hr. inv_bind Hr. destruct a as [rc'|l].
  - injection Hr as <- <-. destruct n as [k|]; [|by injection Hrun as <- <-].
    unfold uv_callback_enqueue in Hrun. inv_bind Hrun. apply get_callback_inv in Hrun0 as [-> _].
    destruct (_ && _); [by injection Hrun as <- <-|]. destruct (usequeue a).
    + inv_bind Hrun. unfold malloc_call in Hrun0. inv_bind Hrun0. injection Hrun1 as <- <-.
      destruct (mallocs w); [injection Hrun0 as <- <-; by injection Hrun as <- <-|].
      inv_bind Hrun0. injection Hrun0 as <- <-. cbn in Hrun. inv_bind Hrun. done.
    + inv_bind Hrun. done.
  - apply (sys_ok_send s [] fl p l rc w'); [|done]. by eapply sys_ok_enqueue.
Qed.

Lemma sys_ok_same w w' fl p :
  callbacks w' = callbacks w -> uv w' = uv w -> sys_ok (Sys w fl p) -> sys_ok (Sys w' fl p).
Proof.
  unfold sys_ok, callback_ok, will_look, registered, pc_of. cbn. by intros -> ->.
Qed.

(** The watcher of [l] is set, and the thread goes back to wait. *)
Lemma sys_ok_idle w fl p l (b : bool) c o :
  sys_ok (Sys w fl p) -> p !! l = Some (Calling o) -> callbacks w !! l = Some c ->
  (o = None -> b = false) -> (o <> None -> b = true) ->
  sys_ok (Sys (set_callbacks <[l := set_idle_active b c]>
                 (set_uv (if b then uv_idle_start l else uv_idle_stop l) w)) fl (<[l := Waiting]> p)).
Proof.
  intros [Hcb Hfl] Hpc Hc Hb1 Hb2. cbn in *.
  set (u := (if b then uv_idle_start l else uv_idle_stop l) (uv w)).
  assert (Hv : uv_see u = (if b then view_idle_start l else view_idle_stop l) (uv_see (uv w)))
    by (unfold u; destruct b; [apply uv_idle_start_law|apply uv_idle_stop_law]).
  assert (Ha : v_async (uv_see u) = v_async (uv_see (uv w))) by (rewrite Hv; by destruct b).
  assert (Hp : v_pending (uv_see u) = v_pending (uv_see (uv w))) by (rewrite Hv; by destruct b).
  assert (Hi : forall k, k <> l -> k ∈ v_idle (uv_see (uv w)) -> k ∈ v_idle (uv_see u))
    by (intros; rewrite Hv; destruct b; cbn; set_solver).
  assert (Hl : b = true -> l ∈ v_idle (uv_see u)) by (intros ->; rewrite Hv; cbn; set_solver).
  unfold sys_ok, callback_ok, registered. cbn. fold u. rewrite Ha. split; [|done].
  intros k c' Hk. apply lookup_insert_Some in Hk as [[<- <-]|[Hne Hk]].
  - destruct (Hcb _ _ Hc) as (Hr & Hidle & Hlook). split_and!; [done|exact Hl|].
    intros Hq. specialize (Hlook Hq). unfold will_look, pc_of in *. cbn in *. fold u.
    rewrite lookup_insert_eq, Hp. rewrite Hpc in Hlook. cbn in *.
    destruct o; [right; right; apply Hl; by apply Hb2|tauto].
  - destruct (Hcb _ _ Hk) as (Hr & Hidle & Hlook). split_and!; [done|auto|].
    intros Hq. eapply will_look_mono; [..|by apply Hlook]; cbn; fold u;
      [by rewrite Hp|by apply Hi|by left|]. unfold pc_of. cbn. by rewrite lookup_insert_ne.
Qed.

Lemma async_cb_call_ok w fl p l call w' :
  functions_return call_user ret -> sys_ok (Sys w fl p) -> p !! l = Some (Calling call) ->
  async_cb_call call_user l call w = Done (tt, w') -> sys_ok (Sys w' fl (<[l := Waiting]> p)).
Proof.
  intros Hret Hok Hpc Hr. unfold async_cb_call in Hr. destruct call as [call|].
  - inv_bind Hr. apply get_callback_inv in Hrun as [-> _].
    inv_bind Hr. apply call_function_inv in Hrun as [Hc Hu]; [|done].
    apply (sys_ok_same _ s fl p) in Hok; [|done..].
    inv_bind Hr. assert (sys_ok (Sys s0 fl p)) as Hok1.
    { destruct (c_notify call) as [n|]; [|by injection Hrun as _ <-].
      inv_bind Hrun. injection Hrun as _ <-. by eapply fire_ok. }
    inv_bind Hr. injection Hrun0 as _ <-. inv_bind Hr. apply get_callback_inv in Hrun0 as [-> Hl].
    apply (sys_ok_same _ (set_mallocs (S (mallocs s0)) s0) fl p) in Hok1; [|done..].
    destruct (idle_active a3) eqn:Hact; cbn [negb whenM] in Hr.
    + injection Hr as <-. apply (sys_ok_pc (set_mallocs (S (mallocs s0)) s0)); try done.
      intros c Hc1 _. right; right. unfold pc_of. cbn. rewrite lookup_insert_eq. cbn.
      by destruct (proj1 Hok1 _ _ Hl) as (_ & Hidle & _); apply Hidle.
    + inv_bind Hr. injection Hrun0 as _ <-. apply update_callback_inv in Hr as (c & Hc1 & ->).
      by apply (sys_ok_idle _ fl p l true c (Some call)).
  - inv_bind Hr. injection Hrun as _ <-. apply update_callback_inv in Hr as (c & Hc1 & ->).
    by apply (sys_ok_idle _ fl p l false c None).
Qed.

Lemma sys_step_ok s s' : functions_return call_user ret -> sys_ok s -> sys_step s s' -> sys_ok s'.
Proof.
  intros Hret Hok Hs. destruct Hs as [w w' fl p callback data notify l Hr|w w' fl1 fl2 p l rc Hr
    |w fl p l Hw Hp|w fl p l Hw Hi|w w' fl p l call Hpc Hr|w w' fl p l call Hpc Hr].
  - by eapply sys_ok_enqueue.
  - by eapply sys_ok_send.
  - apply (sys_ok_pc w); try done; cbn; rewrite ?uv_deliver_law; cbn; [done|done|set_solver|].
    intros c _ _. right; right. unfold pc_of. cbn. by rewrite lookup_insert_eq.
  - apply (sys_ok_pc w); try done.
    intros c _ _. right; right. unfold pc_of. cbn. by rewrite lookup_insert_eq.
  - by eapply sys_ok_dequeue.
  - by eapply async_cb_call_ok.
Qed.

(** C11: no lost wake-up.  Whatever the interleaving of senders (which enqueue under the
    lock and send after it) with loop threads (which take the pending send, dequeue
    under the lock, and make the call), a queue that holds a call has a send pending
    or about to be made, a running idle watcher, or a thread about to look at it
    again; so once the senders are done and the loop waits, it is awake. *)
Theorem no_lost_call (s s' : sys U) (l : loc) (c : uv_callback_t) :
  functions_return call_user ret -> sys_ok s -> rtc sys_step s s' ->
  callbacks (s_world s') !! l = Some c -> queue c <> [] ->
  will_look s' l /\ (inflight s' = [] -> pc_of s' l = Waiting -> awake (s_world s') l).
Proof.
  intros Hret Hok Hsteps Hl Hq.
  assert (Hok' : sys_ok s') by (induction Hsteps; [done|eauto using sys_step_ok]).
  destruct (proj1 Hok' _ _ Hl) as (_ & _ & Hlook). specialize (Hlook Hq). split; [done|].
  intros Hfl Hpc. unfold will_look in Hlook. rewrite Hfl, Hpc in Hlook.
  destruct Hlook as [?|[[]%not_elem_of_nil|?]]; [by left|by right].
Qed.

End Threads.

(** ** Initialization and synchronous calls *)

Section Init.
Context {U : Type} `{UvLaws U}.
Implicit Types w : world U.

Definition one_master w : Prop :=
  forall lp k1 k2 c1 c2,
    (lp, k1) ∈ v_async (uv_see (uv w)) -> (lp, k2) ∈ v_async (uv_see (uv w)) ->
    callbacks w !! k1 = Some c1 -> usequeue c1 = true ->
    callbacks w !! k2 = Some c2 -> usequeue c2 = true -> k1 = k2.

Definition queue_handle w (lp : loop) (k : loc) : Prop :=
  (lp, k) ∈ v_async (uv_see (uv w)) /\
  exists c, callbacks w !! k = Some c /\ usequeue c = true.

Lemma master_walk w ls acc :
  match fold_left (master_on_walk w) ls acc with
  | Some k => acc = Some k \/ k ∈ ls /\ exists c, callbacks w !! k = Some c /\ usequeue c = true
  | None => acc = None /\ forall k c, k ∈ ls -> callbacks w !! k = Some c -> usequeue c = false
  end.
Proof.
  revert acc. induction ls as [|l ls IH]; intros acc; cbn [fold_left].
  { destruct acc; [by left|]. split; [done|]. by intros k c Hk%not_elem_of_nil. }
  specialize (IH (master_on_walk w acc l)). destruct (fold_left _ _ _) as [k|].
  - destruct IH as [Hk|(Hk & Hc)]; [|right; split; [by right|done]].
    unfold master_on_walk in Hk. destruct (callbacks w !! l) as [c|] eqn:Hl; [|by left].
    destruct (usequeue c) eqn:Hq; [|by left]. injection Hk as <-. right. split; [by left|eauto].
  - destruct IH as [Hacc Hall]. unfold master_on_walk in Hacc. split.
    + destruct (callbacks w !! l) as [c|]; [|done]. by destruct (usequeue c).
    + intros k c [->|Hk]%elem_of_cons Hc; [|by eapply Hall].
      rewrite Hc in Hacc. by destruct (usequeue c).
Qed.

Lemma elem_of_walk lp k (v : uv_view) : k ∈ walk_handles lp v <-> (lp, k) ∈ v_async v.
Proof.
  unfold walk_handles. rewrite list_elem_of_fmap. split.
  - intros ([lp' k'] & -> & Hin%list_elem_of_filter). by destruct Hin as [<- ?].
  - intros Hin. exists (lp, k). split; [done|]. apply list_elem_of_filter. done.
Qed.

Lemma get_master_spec w lp :
  exists o, get_master_callback lp w = Done (o, w) /\
    match o with
    | Some k => queue_handle w lp k
    | None => forall k, ~ queue_handle w lp k
    end.
Proof.
  eexists. split; [done|]. pose proof (master_walk w (walk_handles lp (uv_see (uv w))) None) as Hm.
  destruct (fold_left _ _ _) as [k|].
  - destruct Hm as [?|(Hk & Hc)]; [done|]. split; [by apply elem_of_walk|done].
  - intros k (Hk & c & Hc & Hq). destruct Hm as [_ Hall].
    rewrite (Hall k c) in Hq; [done|by apply elem_of_walk|done].
Qed.

Lemma init_async_spec w lp l c rc w' :
  callbacks w !! l = Some c -> init_async lp l w = Done (rc, w') ->
  (rc <> 0%Z /\ callbacks w' = callbacks w /\ uv_see (uv w') = uv_see (uv w)) \/
  (rc = 0%Z /\ v_async (uv_see (uv w')) ≡ₚ (lp, l) :: v_async (uv_see (uv w)) /\
   callbacks w' = <[l := Callback (usequeue c) (queue c) (function c) (arg c)
                           (idle_active c) (master c) (Some lp)]> (callbacks w)).
Proof.
  intros Hc Hr. unfold init_async in Hr. inv_bind Hr. unfold uv_rc in Hrun.
  destruct (uv_async_init lp l (uv w)) as [rc1 u] eqn:Hu. injection Hrun as <- <-.
  destruct (uv_async_init_law _ _ _ _ _ Hu) as [(Hne & Hv)|(-> & Hp & _)].
  - destruct (Z.eqb_spec rc1 0); [done|]. injection Hr as <- <-. left. by cbn; rewrite Hv.
  - cbn [whenM Z.eqb] in Hr. inv_bind Hr. apply update_callback_inv in Hrun as (c' & Hc' & ->).
    cbn in Hc'. simplify_eq. injection Hr as <- <-. by right.
Qed.

Lemma one_master_add w w' lp l :
  one_master w ->
  (forall c, callbacks w' !! l = Some c -> usequeue c = true -> forall k, ~ queue_handle w lp k) ->
  v_async (uv_see (uv w')) ≡ₚ (lp, l) :: v_async (uv_see (uv w)) ->
  (forall k, k <> l -> callbacks w' !! k = callbacks w !! k) ->
  (forall lp', (lp', l) ∉ v_async (uv_see (uv w))) -> one_master w'.
Proof.
  intros Hone Hnone Hperm Hcb Hfresh lp' k1 k2 c1 c2 H1 H2 Hc1 Hq1 Hc2 Hq2.
  rewrite Hperm in H1, H2. apply elem_of_cons in H1, H2.
  destruct (decide (k1 = l)) as [->|Hne1], (decide (k2 = l)) as [->|Hne2]; [done| | |].
  - destruct H1 as [[= ->]|H1]; [|by apply Hfresh in H1]. destruct H2 as [?|H2]; [naive_solver|].
    destruct (Hnone _ Hc1 Hq1 k2). split; [done|]. rewrite Hcb in Hc2 by done. eauto.
  - destruct H2 as [[= ->]|H2]; [|by apply Hfresh in H2]. destruct H1 as [?|H1]; [naive_solver|].
    destruct (Hnone _ Hc2 Hq2 k1). split; [done|]. rewrite Hcb in Hc1 by done. eauto.
  - rewrite Hcb in Hc1, Hc2 by done. eapply Hone; [| |exact Hc1|done|exact Hc2|done].
    + by destruct H1 as [[= -> ->]|H1]; [|exact H1].
    + by destruct H2 as [[= -> ->]|H2]; [|exact H2].
Qed.

Lemma one_master_same w w' l :
  one_master w -> v_async (uv_see (uv w')) = v_async (uv_see (uv w)) ->
  (forall k, k <> l -> callbacks w' !! k = callbacks w !! k) ->
  (forall lp', (lp', l) ∉ v_async (uv_see (uv w))) -> one_master w'.
Proof.
  intros Hone Ha Hcb Hfresh lp' k1 k2 c1 c2 H1 H2 Hc1 Hq1 Hc2 Hq2. rewrite Ha in H1, H2.
  assert (k1 <> l) by (intros ->; by apply Hfresh in H1).
  assert (k2 <> l) by (intros ->; by apply Hfresh in H2).
  rewrite Hcb in Hc1, Hc2 by done. by eapply (Hone lp' k1 k2).
Qed.

(** a loop has at most one master, the callback whose handle carries the sends and whose
    queue carries the calls.  Initialising a callback at an address no loop has a handle
    for keeps it so: a queueing callback becomes the loop's master when the loop has
    none, and otherwise is linked to the one there is, without a handle of its own. *)
Theorem uv_callback_init_one_master w lp l f ty rc w' :
  one_master w -> (forall lp', (lp', l) ∉ v_async (uv_see (uv w))) ->
  uv_callback_init (Some lp) (Some l) (Some f) ty w = Done (rc, w') ->
  one_master w' /\
  (rc = 0%Z -> ty = UV_DEFAULT -> exists c,
    callbacks w' !! l = Some c /\ usequeue c = true /\ function c = f /\ queue c = [] /\
    queue_handle w' lp (default l (master c))).
Proof.
  intros Hone Hfresh Hr. unfold uv_callback_init in Hr. run eq_refl in Hr.
  destruct (Z.eqb_spec ty UV_DEFAULT) as [Hty|Hty].
  - run (update_callback_run _ _ _ _ (lookup_insert_eq _ _ _)) in Hr. cbn in Hr.
    set (w1 := set_callbacks _ _) in Hr.
    assert (Hcb : forall k, k <> l -> callbacks w1 !! k = callbacks w !! k)
      by (intros; cbn; by rewrite !lookup_insert_ne).
    destruct (get_master_spec w1 lp) as (o & Hg & Ho). run Hg in Hr.
    run (update_callback_run w1 l _ _ (lookup_insert_eq _ _ _)) in Hr. destruct o as [k|].
    + injection Hr as <- <-. split.
      { apply (one_master_same w _ l); try done. intros k' ?. cbn. by rewrite !lookup_insert_ne. }
      intros _ _. eexists. split; [cbn; apply lookup_insert_eq|]. cbn. split_and!; [done..|].
      destruct Ho as (Hin & c & Hc & Hq). split; [done|]. exists c.
      assert (k <> l) by (intros ->; by apply Hfresh in Hin).
      cbn in *. rewrite !lookup_insert_ne in * by done. done.
    + inv_bind Hr. unfold uv_rc in Hrun. destruct (uv_idle_init lp l _) as [rc1 u] eqn:Hu.
      apply uv_idle_init_law in Hu. injection Hrun as <- <-. cbn in Hu.
      destruct (Z.eqb_spec rc1 0) as [->|Hne]; cbn [negb] in Hr.
      * set (w2 := set_uv _ _) in Hr.
        assert (Hl : callbacks w2 !! l = Some (Callback true [] f 0 false None None))
          by (cbn; apply lookup_insert_eq).
        destruct (init_async_spec _ _ _ _ _ _ Hl Hr) as [(Hne & Hc & Hv)|(-> & Hp & Hc)].
        { split; [|done]. apply (one_master_same w _ l); try done; [by rewrite Hv; cbn; rewrite Hu|].
          intros. rewrite Hc. cbn. by rewrite !lookup_insert_ne. }
        cbn in Hp. rewrite Hu in Hp. split.
        { apply (one_master_add w w' lp l); try done.
          - intros _ _ _ k (Hin & c & Hk & Hq). apply (Ho k). split; [done|]. exists c.
            assert (k <> l) by (intros ->; by apply Hfresh in Hin). by rewrite Hcb.
          - intros. rewrite Hc. cbn. by rewrite !lookup_insert_ne. }
        intros _ _. eexists. split; [rewrite Hc; apply lookup_insert_eq|]. cbn. split_and!; [done..|].
        split; [rewrite Hp; by left|]. rewrite Hc. eexists. split; [apply lookup_insert_eq|done].
      * injection Hr as <- <-. split; [|by intros ?].
        apply (one_master_same w _ l); try done; [cbn; by rewrite Hu|].
        intros. cbn. by rewrite !lookup_insert_ne.
  - split; [|done]. destruct (Z.eqb_spec ty UV_COALESCE).
    + eapply init_async_spec in Hr; [|cbn; apply lookup_insert_eq]. cbn in Hr.
      destruct Hr as [(_ & Hc & Hv)|(_ & Hp & Hc)].
      * apply (one_master_same w _ l); try done; [by rewrite Hv|].
        intros. rewrite Hc. by rewrite lookup_insert_ne.
      * apply (one_master_add w w' lp l); try done; rewrite Hc; [|intros; by rewrite !lookup_insert_ne].
        intros c. rewrite lookup_insert_eq. by intros [= <-].
    + injection Hr as <- <-. apply (one_master_same w _ l); try done.
      intros. cbn. by rewrite lookup_insert_ne.
Qed.
(** firing.  A call on a queueing callback is appended behind the calls of its master's
    queue, or refused with [UV_ENOMEM] when no record can be allocated; firing at a
    coalescing callback replaces the argument, so the last one fired is the one
    delivered; a missing callback, or a [notify] where there is no queue, is [UV_EINVAL]
    and changes nothing. *)
Theorem uv_callback_fire_spec w (l l' : loc) (c m : uv_callback_t) (data : Z) (notify : option loc) :
  callbacks w !! l = Some c -> registered w (default l (master c)) ->
  l' = default l (master c) -> callbacks w !! l' = Some m ->
  uv_callback_fire None data notify w = Done (UV_EINVAL, w) /\
  match usequeue c, mallocs w, notify with
  | true, O, _ => uv_callback_fire (Some l) data notify w = Done (UV_ENOMEM, w)
  | true, S n, _ => exists w', uv_callback_fire (Some l) data notify w = Done (0%Z, w') /\
      callbacks w' = <[l' := set_queue (rev (calls m ++ [Call l data notify])) m]> (callbacks w) /\
      mallocs w' = n /\ v_pending (uv_see (uv w')) = {[l']} ∪ v_pending (uv_see (uv w))
  | false, _, Some _ => uv_callback_fire (Some l) data notify w = Done (UV_EINVAL, w)
  | false, _, None => master c = None ->
      exists w', uv_callback_fire (Some l) data None w = Done (0%Z, w') /\
      callbacks w' = <[l := set_arg data c]> (callbacks w) /\
      mallocs w' = mallocs w /\ v_pending (uv_see (uv w')) = {[l]} ∪ v_pending (uv_see (uv w))
  end.
Proof.
  intros Hc [lp Hreg] Hl' Hm. split; [done|].
  destruct (usequeue c) eqn:Hq; [destruct (mallocs w) as [|n] eqn:Hn|destruct notify as [k|]].
  - unfold uv_callback_fire, uv_callback_enqueue. rewrite bind_assoc. run (get_callback_run _ _ _ Hc).
    rewrite Hq, andb_false_r. unfold malloc_call. rewrite !bind_assoc. run eq_refl. by rewrite Hn.
  - rewrite <- Hl' in Hreg.
    destruct (fire_run w l l' c m lp data notify n) as (u' & Hr & Hv); [by split_and!|done|done|].
    eexists. split; [done|]. cbn. rewrite Hv. split_and!; try done.
    unfold calls. by rewrite rev_app_distr, rev_involutive.
  - unfold uv_callback_fire, uv_callback_enqueue. rewrite bind_assoc. run (get_callback_run _ _ _ Hc).
    rewrite Hq. by rewrite bool_decide_true by done.
  - intros Hma. rewrite Hma in Hreg. unfold uv_callback_fire, uv_callback_enqueue.
    rewrite bind_assoc. run (get_callback_run _ _ _ Hc).
    rewrite Hq, bool_decide_false by naive_solver. cbn [andb]. cbv iota. rewrite bind_assoc.
    run (update_callback_run _ _ _ _ Hc). rewrite ret_bind.
    destruct (uv_rc_send_run (set_callbacks <[l := set_arg data c]> w) lp l) as (u' & -> & Hv); [done|].
    eexists. split; [done|]. cbn. by rewrite Hv.
Qed.
End Init.

Section Sync.
Context {U : Type} `{UvLaws U}.
Context (call_user : nat -> loc -> Z -> M (world U) Z) (ret : nat -> loc -> Z -> Z).
Implicit Types w : world U.

Definition inits_succeed : Prop :=
  forall lp k u, fst (uv_idle_init lp k u) = 0%Z /\ fst (uv_async_init lp k u) = 0%Z.

Definition notify_callback (lp : loop) : uv_callback_t :=
  Callback true [] on_call_result_f 0 false None (Some lp).

(** Two worlds that differ in libuv's state and the callbacks only. *)
Definition same_rest w w' : Prop :=
  loop_data w' = loop_data w /\ stopped w' = stopped w /\ mallocs w' = mallocs w /\ trace w' = trace w.

Lemma uv_rc_run w f rc u : f (uv w) = (rc, u) -> uv_rc f w = Done (rc, set_uv (fun _ => u) w).
Proof. intros Hf. unfold uv_rc. by rewrite Hf. Qed.

Lemma init_notify_run w lp l :
  inits_succeed -> (forall k, ~ queue_handle w lp k) -> (forall lp', (lp', l) ∉ v_async (uv_see (uv w))) ->
  exists w', uv_callback_init (Some lp) (Some l) (Some on_call_result_f) UV_DEFAULT w = Done (0%Z, w') /\
    callbacks w' = <[l := notify_callback lp]> (callbacks w) /\ same_rest w w' /\
    v_async (uv_see (uv w')) ≡ₚ (lp, l) :: v_async (uv_see (uv w)) /\
    v_pending (uv_see (uv w')) = v_pending (uv_see (uv w)) /\
    v_idle (uv_see (uv w')) = v_idle (uv_see (uv w)).
Proof.
  intros Hini Hnone Hfresh. unfold uv_callback_init. run eq_refl. cbn [Z.eqb UV_DEFAULT].
  run (update_callback_run _ _ _ _ (lookup_insert_eq _ _ _)). set (w1 := set_callbacks _ _).
  destruct (get_master_spec w1 lp) as (o & Hg & Ho). run Hg. destruct o as [k|].
  { destruct Ho as (Hin & c & Hc & Hq). cbn in Hin.
    assert (k <> l) by (intros ->; by apply Hfresh in Hin). destruct (Hnone k). split; [done|].
    exists c. cbn in Hc. rewrite !lookup_insert_ne in Hc by done. done. }
  run (update_callback_run w1 l _ _ (lookup_insert_eq _ _ _)).
  destruct (uv_idle_init lp l (uv w)) as [rc u] eqn:Hu.
  pose proof (proj1 (Hini lp l (uv w))) as Hz. rewrite Hu in Hz. cbn in Hz. subst rc.
  set (w2 := set_callbacks _ w1). run (uv_rc_run w2 _ _ _ Hu).
  apply uv_idle_init_law in Hu. cbn [Z.eqb negb]. unfold init_async.
  destruct (uv_async_init lp l u) as [rc u1] eqn:Hu1.
  pose proof (proj2 (Hini lp l u)) as Hz. rewrite Hu1 in Hz. cbn in Hz. subst rc.
  run (uv_rc_run (set_uv (fun _ => u) w2) _ _ _ Hu1). cbn [Z.eqb whenM].
  run (update_callback_run _ _ _ _ (lookup_insert_eq _ _ _)).
  apply uv_async_init_law in Hu1 as [[? _]|(_ & Hp & Hpe & Hid)]; [done|].
  eexists. split; [done|]. cbn. rewrite !insert_insert_eq, Hp, Hpe, Hid, Hu. done.
Qed.

(** The call of [fire_sync] is queued and its loop about to run. *)
Definition sync_started w w1 (lp : loop) (notify l l' : loc) (m : uv_callback_t) (data : Z) : Prop :=
  callbacks w1 = <[l' := set_queue [Call l data (Some notify)] m]>
                   (<[notify := notify_callback lp]> (callbacks w)) /\
  loop_data w1 = <[lp := CallResult false false 0]> (loop_data w) /\
  stopped w1 = stopped w /\ S (mallocs w1) = mallocs w /\ trace w1 = trace w /\
  v_pending (uv_see (uv w1)) = {[l']} ∪ v_pending (uv_see (uv w)) /\
  v_idle (uv_see (uv w1)) = v_idle (uv_see (uv w)) /\
  (lp, notify) ∈ v_async (uv_see (uv w1)).

(** The callback [l] takes calls through the idle handle [l'], and the frame's own
    objects [lp], [notify] are new. *)
Definition sync_ready w (lp : loop) (notify l l' : loc) (c m : uv_callback_t) : Prop :=
  fires_through w l l' c m /\ registered w l' /\ usequeue m = true /\ queue m = [] /\
  2 <= mallocs w /\ callbacks w !! notify = None /\
  (forall k, ~ queue_handle w lp k) /\ (forall lp', (lp', notify) ∉ v_async (uv_see (uv w))) /\
  lp ∉ stopped w.

Lemma fire_sync_started w lp notify l l' c m data timeout es :
  inits_succeed -> sync_ready w lp notify l l' c m ->
  exists w1, sync_started w w1 lp notify l l' m data /\
    uv_callback_fire_sync call_user lp notify (Some l) data timeout es w =
    (uv_run_until_stop call_user lp (0 <? timeout)%Z es;; fire_sync_exit lp notify 0%Z) w1.
Proof.
  intros Hini ((Hc & Hq & Hl' & Hm) & [lp' Hreg] & Hqm & Hqe & Hn & Hdead & Hnone & Hfresh & Hst).
  unfold uv_callback_fire_sync. run (get_callback_run _ _ _ Hc). rewrite Hq. cbn [negb]. cbv iota.
  destruct (init_notify_run w lp notify Hini Hnone Hfresh)
    as (w1 & Hr & Hcb & (Hld & Hsp & Hma & Htr) & Ha & Hp & Hi).
  run Hr. run eq_refl. set (w2 := set_loop_data _ _).
  destruct (mallocs w) as [|n] eqn:Hmw; [lia|].
  assert (notify <> l /\ notify <> l') as [Hne1 Hne2] by (split; intros ->; simplify_eq).
  destruct (fire_run w2 l l' c m lp' data (Some notify) n) as (u' & Hf & Hv).
  - split_and!; [|done|done|]; cbn; rewrite Hcb; by rewrite lookup_insert_ne.
  - done.
  - cbn. rewrite Ha. by right.
  - run Hf. eexists. split; [|cbn [Z.eqb whenM]; reflexivity].
    unfold sync_started. cbn. rewrite Hcb, Hld, Hsp, Htr, Hv, Hqe. cbn. rewrite Hp, Hi, Ha.
    split_and!; try done. by left.
Qed.

(** What is left of a turn once the function of a call with [notify] has returned [r]. *)
Definition notify_tail (l k : loc) (r : Z) : M (world U) unit :=
  (uv_callback_fire (Some k) r None;; mret tt);;
  free_call;;
  c ← get_callback l;
  if! negb (idle_active c) then
    (uv_do (uv_idle_start l);; update_callback l (set_idle_active true)).

Lemma turn_to_notify w l m call cs n k :
  functions_return call_user ret -> callbacks w !! l = Some m -> usequeue m = true ->
  awake w l -> calls m = call :: cs -> callable w call n -> c_notify call = Some k ->
  exists w', loop_turn call_user l w =
      notify_tail l k (ret n (c_callback call) (c_data call)) w' /\
    callbacks w' = <[l := set_queue (rev cs) m]> (callbacks w) /\
    trace w' = trace w ++ [(User n, c_callback call, c_data call)] /\
    loop_data w' = loop_data w /\ stopped w' = stopped w /\ mallocs w' = mallocs w /\
    v_async (uv_see (uv w')) = v_async (uv_see (uv w)).
Proof.
  intros Hret Hm Hq Haw Hcs (f & Hf & Hn) Hk.
  destruct (loop_turn_awake call_user w l Haw) as (u & -> & Ha & Hp & Hi).
  rewrite (async_cb_run call_user _ l m), Hcs by done. unfold async_cb_call.
  set (w1 := set_callbacks _ _).
  assert (exists f1, callbacks w1 !! c_callback call = Some f1 /\ function f1 = User n) as (f1 & Hf1 & Hn1).
  { cbn. destruct (decide (c_callback call = l)) as [He|Hne].
    - rewrite He in Hf |- *. rewrite lookup_insert_eq. eexists. split; [done|]. cbn. congruence.
    - rewrite lookup_insert_ne by done. eauto. }
  run (get_callback_run _ _ _ Hf1). rewrite Hn1, Hk. unfold call_function.
  rewrite bind_assoc. run eq_refl. run (Hret _ _ _ _).
  exists (log_call (User n) (c_callback call) (c_data call) w1). by split_and!.
Qed.

Lemma notify_tail_run w l k r m c lp n :
  callbacks w !! k = Some c -> usequeue c = true -> master c = None -> queue c = [] -> l <> k ->
  callbacks w !! l = Some m -> mallocs w = S n -> (lp, k) ∈ v_async (uv_see (uv w)) ->
  exists w', notify_tail l k r w = Done (tt, w') /\
    callbacks w' !! k = Some (set_queue [Call k r None] c) /\
    k ∈ v_pending (uv_see (uv w')) /\ trace w' = trace w /\
    loop_data w' = loop_data w /\ stopped w' = stopped w.
Proof.
  intros Hk Hq Hma Hqe Hne Hl Hn Hin. unfold notify_tail. rewrite bind_assoc.
  destruct (fire_run w k k c c lp r None n) as (u' & Hr & Hv); [|done|done|].
  { split_and!; try done. by rewrite Hma. }
  run Hr. run eq_refl. run eq_refl.
  assert (Hl' : callbacks (set_mallocs (S n) (set_uv (fun _ => u') (set_callbacks
    <[k := set_queue (Call k r None :: queue c) c]> (set_mallocs n w)))) !! l = Some m)
    by (cbn; by rewrite lookup_insert_ne).
  run (get_callback_run _ _ _ Hl'). rewrite Hqe. destruct (idle_active m); cbn [negb whenM].
  - eexists. split; [done|]. cbn. rewrite lookup_insert_eq, Hv. cbn. split_and!; [done|set_solver|done..].
  - run eq_refl. rewrite Hqe in Hl'. rewrite (update_callback_run _ l m) by exact Hl'. eexists. split; [done|]. cbn.
    rewrite lookup_insert_ne, lookup_insert_eq by done. rewrite uv_idle_start_law. cbn. rewrite Hv. cbn.
    split_and!; [done|set_solver|done..].
Qed.

Lemma on_call_result_run w lp k c r res :
  callbacks w !! k = Some c -> cb_loop c = Some lp -> loop_data w !! lp = Some res ->
  on_call_result k r w = Done (0%Z, set_stopped (union {[lp]})
    (set_loop_data <[lp := CallResult (timed_out res) true r]> w)).
Proof.
  intros Hk Hlp Hres. unfold on_call_result. run (get_callback_run _ _ _ Hk). rewrite Hlp.
  run eq_refl. run eq_refl. rewrite Hres. done.
Qed.

(** The turn of the caller's own loop that delivers the answer and stops it. *)
Lemma turn_result w lp k c r res :
  callbacks w !! k = Some (set_queue [Call k r None] c) -> usequeue c = true ->
  function c = on_call_result_f -> cb_loop c = Some lp -> k ∈ v_pending (uv_see (uv w)) ->
  loop_data w !! lp = Some res ->
  exists w', loop_turn call_user k w = Done (tt, w') /\ lp ∈ stopped w' /\
    loop_data w' !! lp = Some (CallResult (timed_out res) true r) /\
    trace w' = trace w ++ [(on_call_result_f, k, r)].
Proof.
  intros Hk Hq Hf Hlp Hp Hres.
  destruct (loop_turn_awake call_user w k) as (u & -> & _); [by left|].
  rewrite (async_cb_run call_user _ k (set_queue [Call k r None] c)) by done.
  change (calls (set_queue [Call k r None] c)) with [Call k r None]. unfold async_cb_call.
  run (get_callback_run _ _ _ (lookup_insert_eq _ _ _)).
  cbn [c_callback c_data c_notify function set_queue]. rewrite Hf.
  set (w1 := set_callbacks _ _). unfold call_function. rewrite bind_assoc. run eq_refl.
  set (c1 := set_queue (rev []) (set_queue [Call k r None] c)).
  assert (Hk1 : callbacks (log_call on_call_result_f k r w1) !! k = Some c1) by apply lookup_insert_eq.
  run (on_call_result_run _ lp k c1 r res Hk1 Hlp Hres).
  run eq_refl. run eq_refl. erewrite bind_step; [|apply get_callback_run; exact Hk1].
  destruct (idle_active c1); cbn [negb whenM].
  - eexists. split; [done|]. cbn. rewrite lookup_insert_eq. split_and!; [set_solver|done..].
  - run eq_refl. erewrite (update_callback_run _ k c1) by done. eexists. split; [done|]. cbn.
    rewrite lookup_insert_eq. split_and!; [set_solver|done..].
Qed.

Lemma uv_run_step lp timer k es w w' :
  lp ∉ stopped w -> loop_turn call_user k w = Done (tt, w') ->
  uv_run_until_stop call_user lp timer (Turn k :: es) w = uv_run_until_stop call_user lp timer es w'.
Proof.
  intros Hst Hr. cbn [uv_run_until_stop]. run eq_refl. rewrite decide_False by done.
  by run Hr.
Qed.

Lemma uv_run_stopped lp timer es w :
  lp ∈ stopped w -> uv_run_until_stop call_user lp timer es w = Done (tt, w).
Proof. intros Hst. destruct es; cbn [uv_run_until_stop]; run eq_refl; by rewrite decide_True. Qed.

(** The call as it stands in the started world. *)
Lemma started_call w w1 lp notify l l' c m data n :
  sync_ready w lp notify l l' c m -> sync_started w w1 lp notify l l' m data -> function c = User n ->
  let call := Call l data (Some notify) in
  callbacks w1 !! l' = Some (set_queue [call] m) /\ callbacks w1 !! notify = Some (notify_callback lp) /\
  l' <> notify /\ awake w1 l' /\ callable w1 call n.
Proof.
  intros ((Hc & Hq & Hl' & Hm) & _ & _ & _ & _ & Hdead & _) (Hcb & _ & _ & _ & _ & Hp & _) Hfun call.
  assert (l' <> notify) by (intros ->; congruence).
  assert (l <> notify) by (intros ->; congruence).
  rewrite Hcb. split_and!; [apply lookup_insert_eq| |done|left; rewrite Hp; set_solver|].
  - by rewrite lookup_insert_ne, lookup_insert_eq.
  - unfold callable. rewrite Hcb. destruct (decide (l = l')) as [<-|Hne]; cbn.
    + rewrite lookup_insert_eq. eexists. split; [done|]. cbn. congruence.
    + rewrite !lookup_insert_ne by done. eauto.
Qed.

(** a synchronous call that is answered: once the other thread's loop turns for the
    callback and the caller's own loop for [notify], the call returns 0 and stores what
    the function returned, having called the function once with the data given. *)
Theorem uv_callback_fire_sync_answer w lp notify l l' c m data timeout es n :
  inits_succeed -> functions_return call_user ret -> sync_ready w lp notify l l' c m ->
  function c = User n ->
  exists w',
    uv_callback_fire_sync call_user lp notify (Some l) data timeout (Turn l' :: Turn notify :: es) w =
      Done ((0%Z, Some (ret n l data)), w') /\
    trace w' = trace w ++ [(User n, l, data); (on_call_result_f, notify, ret n l data)].
Proof.
  intros Hini Hret Hready Hfun.
  destruct (fire_sync_started w lp notify l l' c m data timeout (Turn l' :: Turn notify :: es))
    as (w1 & Hs & ->); [done..|].
  destruct (started_call _ _ _ _ _ _ _ _ _ n Hready Hs Hfun) as (Hl' & Hno & Hne & Haw & Hcall).
  destruct Hs as (Hcb & Hld & Hst & Hma & Htr & Hp & Hi & Ha).
  destruct Hready as (_ & _ & Hqm & _ & H2 & _ & _ & _ & Hns). rewrite <- Hst in Hns.
  destruct (turn_to_notify w1 l' (set_queue [Call l data (Some notify)] m) (Call l data (Some notify))
    [] n notify) as (w2 & Hturn & Hcb2 & Htr2 & Hld2 & Hst2 & Hma2 & Ha2); [done..|].
  destruct (mallocs w1) as [|k] eqn:Hk; [lia|].
  destruct (notify_tail_run w2 l' notify (ret n l data) (set_queue (rev [])
      (set_queue [Call l data (Some notify)] m)) (notify_callback lp) lp k)
    as (w3 & Htail & Hno3 & Hp3 & Htr3 & Hld3 & Hst3); try done.
  { rewrite Hcb2. by rewrite lookup_insert_ne. }
  { rewrite Hcb2. apply lookup_insert_eq. }
  { by rewrite Ha2. }
  destruct (turn_result w3 lp notify (notify_callback lp) (ret n l data) (CallResult false false 0))
    as (w4 & Hturn4 & Hst4 & Hld4 & Htr4); try done.
  { rewrite Hld3, Hld2, Hld. apply lookup_insert_eq. }
  assert (Hrun : uv_run_until_stop call_user lp (0 <? timeout)%Z (Turn l' :: Turn notify :: es) w1
                 = Done (tt, w4)).
  { rewrite (uv_run_step _ _ _ _ _ w3); [|done|by rewrite Hturn].
    rewrite (uv_run_step _ _ _ _ _ w4); [by apply uv_run_stopped|by rewrite Hst3, Hst2|done]. }
  run Hrun. unfold fire_sync_exit. run eq_refl. run eq_refl. cbn. rewrite Hld4.
  eexists. split; [done|]. cbn. by rewrite Htr4, Htr3, Htr2, Htr, <- app_assoc.
Qed.

(** a synchronous call that times out returns [UV_ETIMEDOUT] and leaves its call in the
    queue with [notify] pointing into the frame it has just left: when the other
    thread then makes the call, it uses the dead [notify]. *)
Theorem uv_callback_fire_sync_timeout w lp notify l l' c m data timeout es n :
  inits_succeed -> functions_return call_user ret -> sync_ready w lp notify l l' c m ->
  function c = User n -> (0 < timeout)%Z ->
  exists w',
    uv_callback_fire_sync call_user lp notify (Some l) data timeout (TimerFires :: es) w =
      Done ((UV_ETIMEDOUT, Some 0%Z), w') /\
    callbacks w' !! l' = Some (set_queue [Call l data (Some notify)] m) /\
    callbacks w' !! notify = None /\
    loop_turn call_user l' w' = Crash UseAfterFree.
Proof.
  intros Hini Hret Hready Hfun Ht.
  destruct (fire_sync_started w lp notify l l' c m data timeout (TimerFires :: es))
    as (w1 & Hs & ->); [done..|].
  destruct (started_call _ _ _ _ _ _ _ _ _ n Hready Hs Hfun) as (Hl' & Hno & Hne & Haw & Hcall).
  destruct Hs as (Hcb & Hld & Hst & Hma & Htr & Hp & Hi & Ha).
  destruct Hready as ((Hc & _) & _ & Hqm & _ & _ & Hdead & _ & _ & Hns). rewrite <- Hst in Hns.
  cbn [uv_run_until_stop]. rewrite bind_assoc. run eq_refl. rewrite decide_False by done.
  destruct (Z.ltb_spec 0 timeout); [|lia]. cbn [whenM]. unfold on_timer.
  rewrite !bind_assoc. run eq_refl. rewrite Hld, lookup_insert_eq, !bind_assoc. run eq_refl.
  run eq_refl. set (w2 := set_stopped _ _).
  run (uv_run_stopped lp true es w2 ltac:(cbn; set_solver)).
  unfold fire_sync_exit. run eq_refl. run eq_refl.
  cbn [loop_data w2 set_uv set_stopped set_loop_data]. rewrite lookup_insert_eq. run eq_refl.
  run eq_refl. run eq_refl. cbn [timed_out called r_data Z.eqb andb negb UV_ETIMEDOUT].
  eexists. split; [done|]. cbn.
  assert (Hl2 : delete notify (callbacks w1) !! l' = Some (set_queue [Call l data (Some notify)] m))
    by (by rewrite lookup_delete_ne).
  split; [done|]. split; [apply lookup_delete_eq|].
  match goal with |- loop_turn _ _ ?w = _ => set (w3 := w) end.
  destruct (turn_to_notify w3 l' (set_queue [Call l data (Some notify)] m) (Call l data (Some notify))
    [] n notify) as (w4 & -> & Hcb4 & _); try done.
  - left. cbn. rewrite uv_close_law. cbn. rewrite Hp. set_solver.
  - destruct Hcall as (f & Hf & Hfn). exists f. split; [|done]. cbn in *.
    rewrite lookup_delete_ne; [done|]. intros <-. congruence.
  - unfold notify_tail, uv_callback_fire, uv_callback_enqueue. rewrite !bind_assoc.
    rewrite (bind_crash _ _ _ UseAfterFree); [done|]. apply get_callback_dead.
    rewrite Hcb4, lookup_insert_ne by done. apply lookup_delete_eq.
Qed.
End Sync.

(** ** The theorems at a concrete state: one queueing callback at address 1, on loop 0 *)

Definition ex_user (n : nat) (l : loc) (d : Z) : M (world uv_view) Z := mret (2 * d)%Z.
Definition ex_ret (n : nat) (l : loc) (d : Z) : Z := (2 * d)%Z.
Definition ex_callback (q : list uv_call_t) : uv_callback_t := Callback true q (User 7) 0 false None (Some 0).
Definition ex_world (q : list uv_call_t) (pending : gset loc) : world uv_view :=
  World (UvView [(0, 1)] pending ∅) {[1 := ex_callback q]} ∅ ∅ 5 [].

Lemma loop_drains_queue_witness :
  exists w', turns ex_user 3 1 (ex_world [Call 1 20 None; Call 1 10 None] {[1]}) = Done (tt, w') /\
    trace w' = [(User 7, 1, 10%Z); (User 7, 1, 20%Z)].
Proof.
  destruct (loop_drains_queue ex_user ex_ret (ex_world [Call 1 20 None; Call 1 10 None] {[1]}) 1
    (ex_callback [Call 1 20 None; Call 1 10 None]) (fun _ => 7)) as (w' & Hr & Ht & _).
  - done.
  - split_and!; [done|done|]. split; [done|]. cbn. set_solver.
  - left. cbn. set_solver.
  - repeat constructor; by eexists.
  - by exists w'.
Defined.

Lemma ex_sys_ok : sys_ok (Sys (ex_world [] ∅) [] ∅).
Proof.
  split; [|constructor]. intros l c Hl. cbn in Hl. apply lookup_singleton_Some in Hl as [<- <-].
  split_and!; [exists 0; by apply list_elem_of_singleton|done|done].
Qed.

Lemma no_lost_call_witness :
  will_look (Sys (set_callbacks <[1 := ex_callback [Call 1 10 None]]> (set_mallocs 4 (ex_world [] ∅))) [1] ∅) 1.
Proof.
  eapply (no_lost_call ex_user ex_ret (Sys (ex_world [] ∅) [] ∅)
    (Sys (set_callbacks <[1 := ex_callback [Call 1 10 None]]> (set_mallocs 4 (ex_world [] ∅))) [1] ∅) 1
    (ex_callback [Call 1 10 None])).
  - done.
  - exact ex_sys_ok.
  - apply rtc_once, (step_enqueue _ _ _ _ _ (Some 1) 10 None). done.
  - done.
  - done.
Defined.

Lemma uv_callback_fire_spec_witness :
  exists w', uv_callback_fire (Some 1) 20 None (ex_world [Call 1 10 None] ∅) = Done (0%Z, w') /\
    callbacks w' = {[1 := ex_callback [Call 1 20 None; Call 1 10 None]]}.
Proof.
  destruct (uv_callback_fire_spec (ex_world [Call 1 10 None] ∅) 1 1
    (ex_callback [Call 1 10 None]) (ex_callback [Call 1 10 None]) 20 None)
    as (_ & w' & Hr & Hc & _); [done|exists 0; by apply list_elem_of_singleton|done|done|].
  exists w'. split; [exact Hr|]. rewrite Hc. by vm_compute.
Defined.

Lemma uv_callback_init_one_master_witness :
  exists w', uv_callback_init (Some 0) (Some 2) (Some (User 8)) UV_DEFAULT (ex_world [] ∅) = Done (0%Z, w') /\
    one_master w'.
Proof.
  destruct (uv_callback_init (Some 0) (Some 2) (Some (User 8)) UV_DEFAULT (ex_world [] ∅))
    as [[rc w']|f] eqn:Hr; [|by vm_compute in Hr].
  exists w'. split; [vm_compute in Hr |- *; congruence|].
  apply (uv_callback_init_one_master (ex_world [] ∅) 0 2 (User 8) UV_DEFAULT rc w'); [| |exact Hr].
  - by intros lp k1 k2 c1 c2 [= -> ->]%list_elem_of_singleton [= ->]%list_elem_of_singleton _ _ _ _.
  - by intros lp [=]%list_elem_of_singleton.
Defined.

Lemma ex_inits_succeed : @inits_succeed uv_view _.
Proof. done. Qed.

Lemma ex_sync_ready : sync_ready (ex_world [] ∅) 9 100 1 1 (ex_callback []) (ex_callback []).
Proof.
  unfold sync_ready. split_and!; try done.
  - exists 0. by apply list_elem_of_singleton.
  - cbn. lia.
  - by intros k [[=]%list_elem_of_singleton _].
  - by intros lp [=]%list_elem_of_singleton.
Qed.

Lemma uv_callback_fire_sync_answer_witness :
  exists w', uv_callback_fire_sync ex_user 9 100 (Some 1) 21 0 [Turn 1; Turn 100] (ex_world [] ∅) =
    Done ((0%Z, Some 42%Z), w').
Proof.
  destruct (uv_callback_fire_sync_answer ex_user ex_ret (ex_world [] ∅) 9 100 1 1
    (ex_callback []) (ex_callback []) 21 0 [] 7) as (w' & Hr & _);
    [exact ex_inits_succeed|done|exact ex_sync_ready|done|].
  exists w'. exact Hr.
Defined.

Lemma uv_callback_fire_sync_timeout_witness :
  exists w', uv_callback_fire_sync ex_user 9 100 (Some 1) 21 50 [TimerFires] (ex_world [] ∅) =
    Done ((UV_ETIMEDOUT, Some 0%Z), w') /\ loop_turn ex_user 1 w' = Crash UseAfterFree.
Proof.
  destruct (uv_callback_fire_sync_timeout ex_user ex_ret (ex_world [] ∅) 9 100 1 1
    (ex_callback []) (ex_callback []) 21 50 [] 7) as (w' & Hr & _ & _ & Hc);
    [exact ex_inits_succeed|done|exact ex_sync_ready|done|lia|].
  exists w'. split; [exact Hr|exact Hc].
Defined.
End Uv.
