(* ===== verification/ListLib.v ===== *)
(** * clibs/list as the repository's code relies on it

    globi_ee.c is written against [list.h] of clibs, a doubly linked list of [void *]
    values, which is not part of the repository.  A value is pushed in a node of its
    own and both are freed by [list_remove], so a node is named by the value it
    holds.  [list_vals] is the sequence of values from head to tail; the laws are the
    documented behaviour of each call on it. *)

From S2P Require Import Prelude.

Class ClibsList (L : Type) := {
  list_vals : L -> list loc;
  list_new : L;
  list_rpush : L -> loc -> L;
  list_remove : L -> loc -> L;
  list_find : (loc -> bool) -> L -> option loc;  (* first node from the head that matches *)
  list_head : L -> option loc;
  list_next : L -> loc -> option loc;            (* [node->next] *)
  list_len : L -> nat
}.

Fixpoint first_match (p : loc -> bool) (ls : list loc) : option loc :=
  match ls with
  | [] => None
  | l :: ls => if p l then Some l else first_match p ls
  end.

Class ClibsListLaws (L : Type) `{ClibsList L} := {
  list_new_law : list_vals list_new = [];
  list_rpush_law : forall l v, list_vals (list_rpush l v) = list_vals l ++ [v];
  list_remove_law : forall l v, NoDup (list_vals l) ->
    list_vals (list_remove l v) = filter (fun x => x <> v) (list_vals l);
  list_find_law : forall p l, list_find p l = first_match p (list_vals l);
  list_head_law : forall l, list_head l = head (list_vals l);
  list_next_law : forall l l1 v l2, NoDup (list_vals l) -> list_vals l = l1 ++ v :: l2 ->
    list_next l v = head l2;
  list_len_law : forall l, list_len l = length (list_vals l)
}.

(** The instance of the witnesses: the sequence itself. *)

Fixpoint next_after (v : loc) (ls : list loc) : option loc :=
  match ls with
  | [] => None
  | x :: ls => if decide (x = v) then head ls else next_after v ls
  end.

#[export] Instance listConcrete : ClibsList (list loc) := {|
  list_vals := fun l => l;
  list_new := [];
  list_rpush := fun l v => l ++ [v];
  list_remove := fun l v => filter (fun x => x <> v) l;
  list_find := first_match;
  list_head := head;
  list_next := fun l v => next_after v l;
  list_len := length
|}.

#[export] Instance listConcrete_laws : ClibsListLaws (list loc).
Proof.
  split; try done. cbn. intros l l1 v l2 Hnd ->. induction l1 as [|x l1 IH]; cbn.
  - by rewrite decide_True.
  - apply NoDup_cons in Hnd as [Hx Hnd].
    rewrite decide_False by (intros ->; apply Hx; set_solver). by apply IH.
Qed.

Lemma first_match_Some p ls l : first_match p ls = Some l -> l ∈ ls /\ p l = true.
Proof.
  induction ls as [|x ls IH]; cbn; [done|]. destruct (p x) eqn:Hx.
  - intros [= <-]. split; [by left|done].
  - intros [Hin Hp]%IH. split; [by right|done].
Qed.

Lemma first_match_None p ls : first_match p ls = None -> forall l, l ∈ ls -> p l = false.
Proof.
  induction ls as [|x ls IH]; cbn; [intros _ l []%not_elem_of_nil|].
  destruct (p x) eqn:Hx; [done|]. intros Hn l [->|Hl]%elem_of_cons; [done|by apply IH].
Qed.

Lemma first_match_ext p q ls : (forall l, l ∈ ls -> p l = q l) -> first_match p ls = first_match q ls.
Proof.
  induction ls as [|x ls IH]; intros Hpq; cbn; [done|].
  rewrite (Hpq x) by (by left). destruct (q x); [done|]. apply IH. intros l Hl. apply Hpq. by right.
Qed.
