(* ===== verification/EventEmitter.v ===== *)
(** * The event emitter

    mediasoup/src/globi_ee.{c,h}: named events, each with a list of handlers in the
    order they were registered.  Emitters, events and handlers live in a heap
    ([ee_store]) that the world [W] of the program holds ([EEWorld]), so that a handler
    that changes the emitter it is called from is seen for what it does.  A handler's
    function is a name of type [C]; [run_cb] runs it. *)

From S2P Require Import Prelude ListLib.

Local Open Scope c_scope.

Module EE.

(** ** Data *)

Record ee_handler_t (C X : Type) : Type := Handler { cb : C; extraArg : X; once : bool }.
Arguments Handler {C X}.
Arguments cb {C X}.
Arguments extraArg {C X}.
Arguments once {C X}.

Record ee__event_t (L : Type) : Type := Event { name : string; handlers : L }.
Arguments Event {L}.
Arguments name {L}.
Arguments handlers {L}.

(** The heap: [ee_t] objects (their [events] list), events, handlers; [next_addr] is above
    every address given out. *)
Record ee_store (L C X : Type) : Type := Store {
  emitters : gmap loc L;
  event_heap : gmap loc (ee__event_t L);
  handler_heap : gmap loc (ee_handler_t C X);
  next_addr : loc
}.
Arguments Store {L C X}.
Arguments emitters {L C X}.
Arguments event_heap {L C X}.
Arguments handler_heap {L C X}.
Arguments next_addr {L C X}.

Definition empty_store {L C X : Type} : ee_store L C X := Store ∅ ∅ ∅ 1.

(** The program's state contains the heap. *)
Class EEWorld (W L C X : Type) := {
  ee_get : W -> ee_store L C X;
  ee_set : ee_store L C X -> W -> W
}.

Class EEWorldLaws (W L C X : Type) `{EEWorld W L C X} := {
  ee_get_set : forall s w, ee_get (ee_set s w) = s;
  ee_set_set : forall s s' w, ee_set s (ee_set s' w) = ee_set s w;
  ee_set_get : forall w, ee_set (ee_get w) w = w
}.

Definition EE_NEW_LISTENER : string := "new_listener".
Definition EE_MAX_LISTENERS : nat := 10.

Section Code.
Context {W L C A X : Type} `{EEWorld W L C X} `{ClibsList L} `{EqDecision C}.
(** [&listener] of type [ee_new_listener_t], as the argument of an emit. *)
Context (new_listener_arg : string -> C -> A).
(** [handler->cb(arg, extraArg)]. *)
Context (run_cb : C -> A -> X -> M W unit).
(** The bound on the steps of one emit. *)
Context (fuel : nat).

Definition modify_ee (f : ee_store L C X -> ee_store L C X) : M W unit :=
  modify (fun w => ee_set (f (ee_get w)) w).

Definition set_emitters (f : gmap loc L -> gmap loc L) (s : ee_store L C X) : ee_store L C X :=
  Store (f (emitters s)) (event_heap s) (handler_heap s) (next_addr s).
Definition set_events (f : gmap loc (ee__event_t L) -> gmap loc (ee__event_t L)) (s : ee_store L C X) :
    ee_store L C X :=
  Store (emitters s) (f (event_heap s)) (handler_heap s) (next_addr s).
Definition set_handlers (f : gmap loc (ee_handler_t C X) -> gmap loc (ee_handler_t C X))
    (s : ee_store L C X) : ee_store L C X :=
  Store (emitters s) (event_heap s) (f (handler_heap s)) (next_addr s).

(** [malloc]: an address not given out before. *)
Definition ee_malloc : M W loc :=
  a ← gets (fun w => next_addr (ee_get w));
  modify_ee (fun s => Store (emitters s) (event_heap s) (handler_heap s) (S a));;
  mret a.

Definition get_emitter (self : loc) : M W L :=
  s ← gets ee_get; live (emitters s !! self).
Definition get_event (e : loc) : M W (ee__event_t L) :=
  s ← gets ee_get; live (event_heap s !! e).
Definition get_handler (h : loc) : M W (ee_handler_t C X) :=
  s ← gets ee_get; live (handler_heap s !! h).

(** [ee__match_events] against the prototype with this name. *)
Definition ee__match_events (s : ee_store L C X) (nm : string) (e : loc) : bool :=
  match event_heap s !! e with
  | Some ev => bool_decide (name ev = nm)
  | None => false
  end.

Definition ee__match_handlers (s : ee_store L C X) (c : C) (h : loc) : bool :=
  match handler_heap s !! h with
  | Some hd => bool_decide (cb hd = c)
  | None => false
  end.

Definition ee__find (self : loc) (nm : string) : M W (option loc) :=
  evs ← get_emitter self;
  s ← gets ee_get;
  mret (list_find (ee__match_events s nm) evs).

Definition ee__event_new (nm : string) : M W loc :=
  e ← ee_malloc;
  modify_ee (set_events <[e := Event nm list_new]>);;
  mret e.

(** [list_remove(event->handlers, node)]: the node goes, and the list's [free] frees the handler. *)
Definition remove_handler (e h : loc) : M W unit :=
  ev ← get_event e;
  modify_ee (set_events <[e := Event (name ev) (list_remove (handlers ev) h)]>);;
  modify_ee (set_handlers (delete h)).

(** The loop of [ee_emit]: [it] is the iterator's next node; [list_iterator_next] reads the
    node's successor before the handler runs. *)
Fixpoint emit_loop (n : nat) (e : loc) (it : option loc) (arg : A) : M W unit :=
  match it with
  | None => mret tt
  | Some node =>
      match n with
      | O => crash Fuel
      | S n =>
          handler ← get_handler node;
          ev ← get_event e;
          let it := list_next (handlers ev) node in
          run_cb (cb handler) arg (extraArg handler);;
          handler ← get_handler node;
          (if! once handler then remove_handler e node);;
          emit_loop n e it arg
      end
  end.

Definition ee_emit (self : loc) (nm : string) (arg : A) : M W unit :=
  e ← ee__find self nm;
  match e with
  | None => mret tt
  | Some e => ev ← get_event e; emit_loop fuel e (list_head (handlers ev)) arg
  end.

(** The registration proper of [ee__on]: find or make the event, push the handler. *)
Definition push_handler (self : loc) (nm : string) (is_once : bool) (c : C) (eArg : X) : M W loc :=
  found ← ee__find self nm;
  e ← match found with
      | Some e => mret e
      | None =>
          e ← ee__event_new nm;
          evs ← get_emitter self;
          modify_ee (set_emitters <[self := list_rpush evs e]>);;
          mret e
      end;
  h ← ee_malloc;
  modify_ee (set_handlers <[h := Handler c eArg is_once]>);;
  ev ← get_event e;
  modify_ee (set_events <[e := Event (name ev) (list_rpush (handlers ev) h)]>);;
  mret e.

(** [event->handlers->len] is read last; the two lines printed past [EE_MAX_LISTENERS] are
    the only effect left out. *)
Definition ee__on (self : loc) (nm : string) (is_once : bool) (c : C) (eArg : X) : M W unit :=
  e ← push_handler self nm is_once c eArg;
  (if! negb (bool_decide (nm = EE_NEW_LISTENER)) then
    ee_emit self EE_NEW_LISTENER (new_listener_arg nm c));;
  get_event e;; mret tt.

Definition ee_new : M W loc :=
  self ← ee_malloc;
  modify_ee (set_emitters <[self := list_new]>);;
  mret self.

Definition ee_on (self : loc) (nm : string) (c : C) (eArg : X) : M W unit := ee__on self nm false c eArg.
Definition ee_add_listener (self : loc) (nm : string) (c : C) (eArg : X) : M W unit := ee_on self nm c eArg.
Definition ee_once (self : loc) (nm : string) (c : C) (eArg : X) : M W unit := ee__on self nm true c eArg.

Definition ee_remove_listener (self : loc) (nm : string) (c : C) : M W unit :=
  found ← ee__find self nm;
  match found with
  | None => mret tt
  | Some e =>
      ev ← get_event e;
      s ← gets ee_get;
      match list_find (ee__match_handlers s c) (handlers ev) with
      | None => mret tt
      | Some node => remove_handler e node
      end
  end.

Fixpoint remove_all_loop (n : nat) (e : loc) (it : option loc) : M W unit :=
  match it with
  | None => mret tt
  | Some node =>
      match n with
      | O => crash Fuel
      | S n =>
          ev ← get_event e;
          let it := list_next (handlers ev) node in
          remove_handler e node;;
          remove_all_loop n e it
      end
  end.

(** [event->handlers] is read without a test of [event]. *)
Definition ee_remove_all_listeners (self : loc) (nm : string) : M W unit :=
  found ← ee__find self nm;
  e ← deref found;
  ev ← get_event e;
  remove_all_loop (list_len (handlers ev)) e (list_head (handlers ev)).

Definition ee_listeners (self : loc) (nm : string) : M W (option L) :=
  found ← ee__find self nm;
  match found with
  | Some e => ev ← get_event e; mret (Some (handlers ev))
  | None => mret None
  end.

Definition ee_listener_count (self : loc) (nm : string) : M W nat :=
  hs ← ee_listeners self nm;
  mret (match hs with Some hs => list_len hs | None => 0 end).

(** [ee__free_event], the [free] of the event list. *)
Definition ee__free_event (e : loc) : M W unit :=
  ev ← get_event e;
  modify_ee (set_handlers (fun hp => foldr delete hp (list_vals (handlers ev))));;
  modify_ee (set_events (delete e)).

Fixpoint free_events (es : list loc) : M W unit :=
  match es with
  | [] => mret tt
  | e :: es => ee__free_event e;; free_events es
  end.

Definition ee_destroy (self : loc) : M W unit :=
  evs ← get_emitter self;
  free_events (list_vals evs);;
  modify_ee (set_emitters (delete self)).
End Code.

(** ** The emitter a client sees

    An emitter is a sequence of named events, each with its handlers in order.
    [ee_rep s self evs]: in the heap [s] the emitter [self] is [evs]. *)

Record ev_rep (C X : Type) : Type := EvRep {
  e_addr : loc;
  e_name : string;
  e_handlers : list (loc * ee_handler_t C X)
}.
Arguments EvRep {C X}.
Arguments e_addr {C X}.
Arguments e_name {C X}.
Arguments e_handlers {C X}.

Section Spec.
Context {W L C X : Type} `{EEWorldLaws W L C X} `{ClibsListLaws L} `{EqDecision C}.
Implicit Types (w : W) (s : ee_store L C X) (e : ev_rep C X) (evs : list (ev_rep C X)).

Definition handler_addrs evs : list loc := concat ((fun e => (e_handlers e).*1) <$> evs).

Definition ev_ok s e : Prop :=
  exists HL, event_heap s !! e_addr e = Some (Event (e_name e) HL) /\
    list_vals HL = (e_handlers e).*1 /\
    Forall (fun ah => handler_heap s !! ah.1 = Some ah.2) (e_handlers e).

Definition ee_rep s (self : loc) evs : Prop :=
  (exists EL, emitters s !! self = Some EL /\ list_vals EL = e_addr <$> evs) /\
  Forall (ev_ok s) evs /\ NoDup (e_name <$> evs) /\ NoDup (e_addr <$> evs) /\
  NoDup (handler_addrs evs) /\
  Forall (fun a => a < next_addr s) (self :: (e_addr <$> evs) ++ handler_addrs evs).

(** The handlers registered under a name, in order. *)
Fixpoint listeners_of evs (nm : string) : list (ee_handler_t C X) :=
  match evs with
  | [] => []
  | e :: evs => if decide (e_name e = nm) then (e_handlers e).*2 else listeners_of evs nm
  end.

Lemma handler_addrs_app E1 E2 : handler_addrs (E1 ++ E2) = handler_addrs E1 ++ handler_addrs E2.
Proof. unfold handler_addrs. by rewrite fmap_app, concat_app. Qed.

Lemma handler_addrs_cons e E : handler_addrs (e :: E) = (e_handlers e).*1 ++ handler_addrs E.
Proof. done. Qed.

Lemma elem_of_handler_addrs h evs : h ∈ handler_addrs evs <-> exists e, e ∈ evs /\ h ∈ (e_handlers e).*1.
Proof.
  unfold handler_addrs. rewrite list_elem_of_In, in_concat. split.
  - intros (hs & Hin & Hh). apply list_elem_of_In, list_elem_of_fmap in Hin as (e & -> & He).
    exists e. split; [done|]. by apply list_elem_of_In.
  - intros (e & He & Hh). exists (e_handlers e).*1. rewrite <- !list_elem_of_In.
    split; [|done]. apply list_elem_of_fmap. by exists e.
Qed.

Lemma listeners_of_split E1 e E2 nm :
  NoDup (e_name <$> E1 ++ e :: E2) ->
  listeners_of (E1 ++ e :: E2) nm =
  if decide (e_name e = nm) then (e_handlers e).*2 else listeners_of (E1 ++ E2) nm.
Proof.
  induction E1 as [|d E1 IH]; cbn; intros Hnd; [done|].
  apply NoDup_cons in Hnd as [Hd Hnd]. rewrite IH by done.
  destruct (decide (e_name d = nm)) as [Hdn|Hdn], (decide (e_name e = nm)) as [Hen|Hen]; try done.
  destruct Hd. rewrite fmap_app, fmap_cons, Hdn, Hen. set_solver.
Qed.

(** An event seen through [first_match]. *)
Lemma find_event s self evs nm :
  ee_rep s self evs ->
  match first_match (ee__match_events s nm) (e_addr <$> evs) with
  | Some a => exists E1 e E2, evs = E1 ++ e :: E2 /\ e_addr e = a /\ e_name e = nm
  | None => nm ∉ e_name <$> evs
  end.
Proof.
  intros (_ & Hok & _). induction evs as [|e evs IH]; cbn; [set_solver|].
  apply Forall_cons in Hok as [(HL & He & _) Hok]. unfold ee__match_events at 1. rewrite He. cbn.
  destruct (decide (e_name e = nm)) as [Hn|Hn].
  - rewrite bool_decide_true by done. by exists [], e, evs.
  - rewrite bool_decide_false by done. specialize (IH Hok).
    destruct (first_match _ _) as [a|].
    + destruct IH as (E1 & e' & E2 & -> & Ha & Hn'). by exists (e :: E1), e', E2.
    + set_solver.
Qed.

(** One event replaced, the rest of the heap the emitter sees left as it was. *)
Lemma ee_rep_replace s s' self E1 e e' E2 :
  ee_rep s self (E1 ++ e :: E2) ->
  e_addr e' = e_addr e -> e_name e' = e_name e -> ev_ok s' e' ->
  emitters s' = emitters s ->
  (forall a, a <> e_addr e -> event_heap s' !! a = event_heap s !! a) ->
  (forall h, h ∈ handler_addrs (E1 ++ E2) -> handler_heap s' !! h = handler_heap s !! h) ->
  NoDup (handler_addrs (E1 ++ e' :: E2)) -> next_addr s <= next_addr s' ->
  Forall (fun a => a < next_addr s') (e_handlers e').*1 ->
  ee_rep s' self (E1 ++ e' :: E2).
Proof.
  intros ((EL & HEL & Hv) & Hok & Hnn & Hna & Hnh & Hlt) Ha Hn Hok' Hem Hev Hhh Hnd Hle Hlt'.
  assert (Haddr : e_addr <$> E1 ++ e' :: E2 = e_addr <$> E1 ++ e :: E2)
    by (by rewrite !fmap_app, !fmap_cons, Ha).
  assert (Hname : e_name <$> E1 ++ e' :: E2 = e_name <$> E1 ++ e :: E2)
    by (by rewrite !fmap_app, !fmap_cons, Hn).
  unfold ee_rep. rewrite Haddr, Hname, Hem. split_and!; try done; [by exists EL| |].
  - assert (Hrest : forall d, d ∈ E1 ++ E2 -> ev_ok s d -> e_addr d <> e_addr e -> ev_ok s' d).
    { intros d Hd (HL & Hd1 & Hd2 & Hd3) Hne. exists HL. rewrite Hev by done.
      split_and!; [done|done|]. rewrite Forall_forall in Hd3 |- *. intros [a h] Hah.
      rewrite Hhh; [by apply Hd3|]. apply elem_of_handler_addrs. exists d. split; [done|].
      apply list_elem_of_fmap. by exists (a, h). }
    rewrite fmap_app, fmap_cons in Hna. apply NoDup_app in Hna as (Hna1 & Hdis & Hna2).
    apply NoDup_cons in Hna2 as [Hne2 _].
    rewrite Forall_forall in Hok |- *. intros d Hd.
    apply elem_of_app in Hd as [Hd|[->|Hd]%elem_of_cons]; [|done|].
    + apply Hrest; [set_solver|apply Hok; set_solver|]. intros Heq. apply (Hdis (e_addr d)).
      * apply list_elem_of_fmap. by exists d.
      * rewrite Heq. by left.
    + apply Hrest; [set_solver|apply Hok; set_solver|]. intros Heq. apply Hne2. rewrite <- Heq.
      apply list_elem_of_fmap. by exists d.
  - rewrite handler_addrs_app, handler_addrs_cons in Hlt |- *.
    rewrite Forall_cons, !Forall_app in Hlt |- *.
    assert (Hmono : forall P, Forall (fun a => a < next_addr s) P -> Forall (fun a => a < next_addr s') P)
      by (intros P HP; eapply Forall_impl; [exact HP|]; cbn; lia).
    destruct Hlt as (Hs & Hb & Hc & _ & Hd). split_and!; [lia|by apply Hmono..| |by apply Hmono]. done.
Qed.

(** *** Runs of the operations *)

Lemma get_event_run w e :
  ev_ok (ee_get w) e ->
  exists HL, get_event (e_addr e) w = Done (Event (e_name e) HL, w) /\ list_vals HL = (e_handlers e).*1.
Proof.
  intros (HL & He & Hv & _). exists HL. split; [|done]. unfold get_event. run eq_refl. by rewrite He.
Qed.

Lemma get_handler_run w e h hd :
  ev_ok (ee_get w) e -> (h, hd) ∈ e_handlers e -> get_handler h w = Done (hd, w).
Proof.
  intros (_ & _ & _ & Hh) Hin. unfold get_handler. run eq_refl.
  rewrite Forall_forall in Hh. pose proof (Hh _ Hin) as Hl. cbn in Hl. by rewrite Hl.
Qed.

Lemma ee_find_run w self evs nm :
  ee_rep (ee_get w) self evs ->
  ee__find self nm w = Done (first_match (ee__match_events (ee_get w) nm) (e_addr <$> evs), w).
Proof.
  intros ((EL & HEL & Hv) & _). unfold ee__find, get_emitter. rewrite bind_assoc. run eq_refl.
  rewrite HEL. run eq_refl. run eq_refl. by rewrite list_find_law, Hv.
Qed.

Lemma find_hit s self E1 e E2 :
  ee_rep s self (E1 ++ e :: E2) ->
  first_match (ee__match_events s (e_name e)) (e_addr <$> E1 ++ e :: E2) = Some (e_addr e).
Proof.
  intros Hrep. pose proof (find_event s self _ (e_name e) Hrep) as Hf.
  destruct (first_match _ _) as [a|].
  - destruct Hf as (E1' & e' & E2' & Heq & <- & Hn). f_equal. f_equal.
    destruct Hrep as (_ & _ & Hnd & _). rewrite Heq in Hnd.
    assert (He : e ∈ E1' ++ e' :: E2') by (rewrite <- Heq; set_solver).
    rewrite fmap_app, fmap_cons, Hn in Hnd. apply NoDup_app in Hnd as (_ & Hd & Hnd2).
    apply NoDup_cons in Hnd2 as [Hnd2 _].
    apply elem_of_app in He as [He|[->|He]%elem_of_cons]; [|done|].
    + destruct (Hd (e_name e)); [|by left]. apply list_elem_of_fmap. by exists e.
    + destruct Hnd2. apply list_elem_of_fmap. by exists e.
  - destruct Hf. rewrite fmap_app, fmap_cons. set_solver.
Qed.

Lemma ee_find_hit w self E1 e E2 :
  ee_rep (ee_get w) self (E1 ++ e :: E2) -> ee__find self (e_name e) w = Done (Some (e_addr e), w).
Proof. intros Hrep. by rewrite (ee_find_run _ _ _ _ Hrep), (find_hit _ _ _ _ _ Hrep). Qed.

Lemma ee_find_miss w self evs nm :
  ee_rep (ee_get w) self evs -> nm ∉ e_name <$> evs -> ee__find self nm w = Done (None, w).
Proof.
  intros Hrep Hn. rewrite (ee_find_run _ _ _ _ Hrep).
  pose proof (find_event _ _ _ nm Hrep) as Hf. destruct (first_match _ _); [|done].
  destruct Hf as (E1 & e & E2 & -> & _ & <-). destruct Hn. rewrite fmap_app, fmap_cons. set_solver.
Qed.

Lemma rep_split s self E1 e E2 :
  ee_rep s self (E1 ++ e :: E2) -> ev_ok s e /\ NoDup (e_handlers e).*1.
Proof.
  intros (_ & Hok & _ & _ & Hnd & _). rewrite Forall_app, Forall_cons in Hok. split; [tauto|].
  rewrite handler_addrs_app, handler_addrs_cons in Hnd.
  apply NoDup_app in Hnd as (_ & _ & Hnd). by apply NoDup_app in Hnd as (Hnd & _).
Qed.

(** One handler taken out of one event. *)
Definition without (e : ev_rep C X) (hs1 hs2 : list (loc * ee_handler_t C X)) : ev_rep C X :=
  EvRep (e_addr e) (e_name e) (hs1 ++ hs2).

Lemma remove_handler_run w self E1 e E2 hs1 h hd hs2 :
  ee_rep (ee_get w) self (E1 ++ e :: E2) -> e_handlers e = hs1 ++ (h, hd) :: hs2 ->
  exists s', remove_handler (e_addr e) h w = Done (tt, ee_set s' w) /\
    handler_heap s' = delete h (handler_heap (ee_get w)) /\
    ee_rep s' self (E1 ++ without e hs1 hs2 :: E2).
Proof.
  intros Hrep Heq. destruct (rep_split _ _ _ _ _ Hrep) as [Hok Hndh].
  destruct (get_event_run _ _ Hok) as (HL & Hrun & Hv).
  unfold remove_handler. run Hrun. run eq_refl. unfold modify_ee, modify. cbn.
  rewrite ee_set_set, ee_get_set. eexists. split; [done|]. split; [done|].
  assert (Hnd := proj1 (proj2 (proj2 (proj2 (proj2 Hrep))))).
  rewrite handler_addrs_app, handler_addrs_cons, Heq, fmap_app, fmap_cons in Hnd. cbn in Hnd.
  rewrite Heq, fmap_app, fmap_cons in Hndh. cbn in Hndh.
  assert (Hperm : handler_addrs (E1 ++ without e hs1 hs2 :: E2) ++ [h] ≡ₚ
                  handler_addrs E1 ++ (hs1.*1 ++ h :: hs2.*1) ++ handler_addrs E2).
  { rewrite handler_addrs_app, handler_addrs_cons. cbn. rewrite fmap_app. solve_Permutation. }
  rewrite <- Hperm in Hnd. apply NoDup_app in Hnd as (Hnd & Hdis & _).
  assert (Hnh : forall a, a ∈ handler_addrs (E1 ++ without e hs1 hs2 :: E2) -> a <> h)
    by (intros a Ha ->; apply (Hdis h Ha); by left).
  eapply (ee_rep_replace (ee_get w) _ self E1 e); [done..| | | | | | |].
  - destruct Hok as (_ & _ & _ & Hh). exists (list_remove HL h). cbn.
    rewrite lookup_insert_eq. split; [done|]. rewrite list_remove_law, Hv, Heq by
      (by rewrite Hv, Heq, fmap_app, fmap_cons).
    rewrite fmap_app, fmap_cons, fmap_app. split; [by apply NoDup_filter_split|].
    assert (Hne : forall ah, ah ∈ hs1 ++ hs2 -> ah.1 <> h).
    { intros ah Hah. apply Hnh. rewrite handler_addrs_app, handler_addrs_cons.
      apply elem_of_app; right. apply elem_of_app; left. cbn. apply list_elem_of_fmap. by exists ah. }
    rewrite Heq in Hh. rewrite Forall_forall in Hh |- *. intros ah Hah.
    rewrite lookup_delete_ne by (intros Hx; by apply (Hne ah)). apply Hh. set_solver.
  - done.
  - intros a Ha. cbn. by rewrite lookup_insert_ne.
  - intros a Ha. cbn. rewrite lookup_delete_ne; [done|]. intros <-. apply (Hnh h); [|done].
    rewrite handler_addrs_app in Ha |- *. rewrite handler_addrs_cons. set_solver.
  - done.
  - cbn. lia.
  - destruct Hrep as (_ & _ & _ & _ & _ & Hlt). cbn.
    rewrite Forall_forall in Hlt |- *. intros a Ha. apply Hlt.
    rewrite handler_addrs_app, handler_addrs_cons, Heq, (fmap_app fst), (fmap_cons fst).
    apply elem_of_cons; right. apply elem_of_app; right. apply elem_of_app; right.
    apply elem_of_app; left. rewrite fmap_app in Ha. set_solver.
Qed.

Lemma handlers_below s self E1 e E2 a :
  ee_rep s self (E1 ++ e :: E2) -> a ∈ (e_handlers e).*1 -> a < next_addr s.
Proof.
  intros (_ & _ & _ & _ & _ & Hlt) Ha. rewrite Forall_forall in Hlt. apply Hlt.
  rewrite handler_addrs_app, handler_addrs_cons. set_solver.
Qed.

Lemma rep_fresh s self evs a :
  ee_rep s self evs -> next_addr s <= a -> a <> self /\ a ∉ e_addr <$> evs /\ a ∉ handler_addrs evs.
Proof.
  intros (_ & _ & _ & _ & _ & Hlt) Ha. rewrite Forall_forall in Hlt.
  assert (Hn : a ∉ self :: (e_addr <$> evs) ++ handler_addrs evs) by (intros Hin; apply Hlt in Hin; lia).
  set_solver.
Qed.

(** The event [e] with a handler pushed at its end. *)
Definition with_handler (e : ev_rep C X) (h : loc) (hd : ee_handler_t C X) : ev_rep C X :=
  EvRep (e_addr e) (e_name e) (e_handlers e ++ [(h, hd)]).

(** What [push_handler] does once it has the event. *)
Definition push_to (e : loc) (hd : ee_handler_t C X) : M W loc :=
  h ← ee_malloc;
  modify_ee (set_handlers <[h := hd]>);;
  ev ← get_event e;
  modify_ee (set_events <[e := Event (name ev) (list_rpush (handlers ev) h)]>);;
  mret e.

Lemma push_to_run w self E1 e E2 hd :
  ee_rep (ee_get w) self (E1 ++ e :: E2) ->
  exists s' h, push_to (e_addr e) hd w = Done (e_addr e, ee_set s' w) /\
    ee_rep s' self (E1 ++ with_handler e h hd :: E2).
Proof.
  intros Hrep. set (s := ee_get w) in *. set (h := next_addr s).
  destruct (rep_split _ _ _ _ _ Hrep) as [(HL & He & Hv & Hh) Hndh].
  destruct (rep_fresh s self _ h Hrep ltac:(lia)) as (_ & _ & Hfr).
  unfold push_to, ee_malloc. rewrite bind_assoc. run eq_refl. fold s h. rewrite bind_assoc.
  unfold modify_ee. run eq_refl. fold s. run eq_refl. run eq_refl.
  rewrite ee_set_set, ee_get_set. unfold get_event. rewrite bind_assoc. run eq_refl.
  rewrite ee_get_set. cbn. rewrite He. run eq_refl. run eq_refl. rewrite ee_set_set, ee_get_set.
  eexists _, h. split; [done|]. cbn.
  eapply (ee_rep_replace s _ self E1 e); [done..| | | | | | |].
  - exists (list_rpush HL h). cbn. rewrite lookup_insert_eq. split; [done|].
    rewrite list_rpush_law, Hv, fmap_app. split; [done|]. rewrite Forall_app. split.
    + rewrite Forall_forall in Hh |- *. intros ah Hah. rewrite lookup_insert_ne; [by apply Hh|].
      intros Heq. apply Hfr. rewrite Heq, handler_addrs_app, handler_addrs_cons.
      apply elem_of_app; right. apply elem_of_app; left. apply list_elem_of_fmap. by exists ah.
    + constructor; [|done]. cbn. apply lookup_insert_eq.
  - done.
  - intros a Ha. cbn. by rewrite lookup_insert_ne.
  - intros a Ha. cbn. rewrite lookup_insert_ne; [done|]. intros <-. apply Hfr.
    rewrite handler_addrs_app in Ha |- *. rewrite handler_addrs_cons. set_solver.
  - assert (Hperm : handler_addrs (E1 ++ with_handler e h hd :: E2) ≡ₚ h :: handler_addrs (E1 ++ e :: E2)).
    { rewrite !handler_addrs_app, !handler_addrs_cons. cbn. rewrite fmap_app. cbn. solve_Permutation. }
    rewrite Hperm. constructor; [done|]. apply Hrep.
  - cbn. lia.
  - cbn. rewrite fmap_app, Forall_app. split; [|constructor; [cbn; lia|done]].
    rewrite Forall_forall. intros a Ha. pose proof (handlers_below _ _ _ _ _ _ Hrep Ha). lia.
Qed.

Lemma event_new_run w self evs nm :
  ee_rep (ee_get w) self evs -> nm ∉ e_name <$> evs ->
  exists s' a,
    (e ← ee__event_new nm;
     l ← get_emitter self;
     modify_ee (set_emitters <[self := list_rpush l e]>);;
     mret e) w = Done (a, ee_set s' w) /\
    ee_rep s' self (evs ++ [EvRep a nm []]).
Proof.
  intros Hrep Hnm. set (s := ee_get w) in *. set (a := next_addr s).
  destruct (rep_fresh s self _ a Hrep ltac:(lia)) as (Hne & Hfe & Hfh).
  destruct Hrep as ((EL & HEL & Hv) & Hok & Hnn & Hna & Hnh & Hlt).
  unfold ee__event_new, ee_malloc. rewrite !bind_assoc. run eq_refl. fold s a. rewrite !bind_assoc.
  unfold modify_ee. run eq_refl. fold s. run eq_refl. rewrite bind_assoc. run eq_refl. run eq_refl.
  rewrite ee_set_set, ee_get_set. unfold get_emitter. rewrite bind_assoc. run eq_refl.
  rewrite ee_get_set. cbn. rewrite HEL. run eq_refl. run eq_refl. rewrite ee_set_set, ee_get_set.
  eexists _, a. split; [done|]. unfold ee_rep. cbn. split_and!.
  - exists (list_rpush EL a). rewrite lookup_insert_eq, list_rpush_law, Hv, fmap_app. done.
  - apply Forall_app. split.
    + rewrite Forall_forall in Hok |- *. intros e He. destruct (Hok e He) as (HL & H1' & H2' & H3').
      exists HL. cbn. rewrite lookup_insert_ne; [done|]. intros Heq. apply Hfe.
      rewrite Heq. apply list_elem_of_fmap. by exists e.
    + constructor; [|done]. exists list_new. cbn. rewrite lookup_insert_eq, list_new_law. done.
  - rewrite fmap_app. cbn. apply NoDup_app. split_and!; [done| |apply NoDup_singleton]. set_solver.
  - rewrite fmap_app. cbn. apply NoDup_app. split_and!; [done| |apply NoDup_singleton]. set_solver.
  - rewrite handler_addrs_app. cbn. by rewrite app_nil_r.
  - rewrite handler_addrs_app, fmap_app, app_nil_r. cbn. rewrite Forall_forall in Hlt |- *.
    intros x Hx. assert (x = a \/ x ∈ self :: (e_addr <$> evs) ++ handler_addrs evs) as [->|Hx'] by set_solver.
    + unfold a. lia.
    + apply Hlt in Hx'. unfold a. lia.
Qed.

(** The events after a handler is registered under [nm]. *)
Lemma push_handler_run w self evs nm is_once (c : C) (x : X) :
  ee_rep (ee_get w) self evs ->
  exists s' (e : loc) evs', push_handler self nm is_once c x w = Done (e, ee_set s' w) /\
    ee_rep s' self evs' /\ (exists d, d ∈ evs' /\ e_addr d = e) /\
    forall n, listeners_of evs' n =
      if decide (nm = n) then listeners_of evs n ++ [Handler c x is_once] else listeners_of evs n.
Proof.
  intros Hrep. unfold push_handler. rewrite (bind_step _ _ _ _ _ (ee_find_run _ _ _ nm Hrep)).
  pose proof (find_event _ _ _ nm Hrep) as Hf. destruct (first_match _ _) as [a|].
  - destruct Hf as (E1 & e & E2 & -> & <- & <-). run eq_refl.
    destruct (push_to_run w self E1 e E2 (Handler c x is_once) Hrep) as (s' & h & Hrun & Hrep').
    exists s', (e_addr e), (E1 ++ with_handler e h (Handler c x is_once) :: E2).
    split_and!; [exact Hrun|done|exists (with_handler e h (Handler c x is_once)); split; [set_solver|done]|].
    intros n. rewrite !listeners_of_split; [|apply Hrep|apply Hrep']. cbn.
    destruct (decide (e_name e = n)); [by rewrite fmap_app|done].
  - destruct (event_new_run w self evs nm Hrep Hf) as (s1 & a & Hrun1 & Hrep1).
    rewrite (bind_step _ _ _ _ _ Hrun1). assert (Hrep1' : ee_rep (ee_get (ee_set s1 w)) self (evs ++ [EvRep a nm []]))
      by (by rewrite ee_get_set).
    destruct (push_to_run _ self evs (EvRep a nm []) [] (Handler c x is_once) Hrep1') as (s' & h & Hrun & Hrep').
    rewrite ee_set_set in Hrun. eexists s', a, _. split_and!; [exact Hrun|exact Hrep'| |].
    + eexists. split; [apply elem_of_app; right; by left|done].
    + intros n. rewrite listeners_of_split by apply Hrep'. cbn. rewrite app_nil_r.
      destruct (decide (nm = n)) as [<-|]; [|done].
      assert (Hnil : listeners_of evs nm = []); [|by rewrite Hnil].
      clear -Hf. induction evs as [|d evs IH]; cbn; [done|].
      rewrite decide_False by set_solver. apply IH. set_solver.
Qed.

(** *** Removing *)

Lemma head_fmap (B D : Type) (f : B -> D) (l : list B) : head (f <$> l) = f <$> head l.
Proof. by destruct l. Qed.

Definition with_handlers e hs : ev_rep C X := EvRep (e_addr e) (e_name e) hs.


Lemma remove_all_loop_run self E1 e E2 todo n w :
  length todo <= n -> ee_rep (ee_get w) self (E1 ++ with_handlers e todo :: E2) ->
  exists s', remove_all_loop n (e_addr e) (fst <$> head todo) w = Done (tt, ee_set s' w) /\
    ee_rep s' self (E1 ++ with_handlers e [] :: E2) /\
    forall h, h ∈ todo.*1 \/ handler_heap (ee_get w) !! h = None -> handler_heap s' !! h = None.
Proof.
  revert n w. induction todo as [|[h hd] todo IH]; intros n w Hn Hrep.
  { exists (ee_get w). destruct n; cbn; rewrite ee_set_get; (split_and!; [done|done|]); set_solver. }
  destruct n as [|n]; [cbn in Hn; lia|].
  cbn [remove_all_loop head fmap option_fmap option_map fst].
  destruct (rep_split _ _ _ _ _ Hrep) as [Hok Hnd]. cbn in Hnd.
  destruct (get_event_run _ _ Hok) as (HL & Hget & Hv). run Hget. cbn [handlers].
  cbn in Hv. rewrite (list_next_law HL [] h todo.*1) by (rewrite ?Hv; done). rewrite head_fmap.
  destruct (remove_handler_run w self E1 _ E2 [] h hd todo Hrep eq_refl) as (s1 & Hrem & Hdel & Hrep1).
  cbn in Hrem. run Hrem. destruct (IH n (ee_set s1 w)) as (s' & Hloop & Hrep' & Hgone).
  - cbn in Hn. lia.
  - by rewrite ee_get_set.
  - exists s'. rewrite Hloop, ee_set_set. split_and!; [done|done|]. intros k Hk.
    apply Hgone. rewrite ee_get_set, Hdel. destruct (decide (h = k)) as [->|Hne].
    + right. apply lookup_delete_eq.
    + rewrite lookup_delete_ne by done. cbn in Hk. set_solver.
Qed.

Lemma remove_all_hit w self E1 e E2 :
  ee_rep (ee_get w) self (E1 ++ e :: E2) ->
  exists s', ee_remove_all_listeners self (e_name e) w = Done (tt, ee_set s' w) /\
    ee_rep s' self (E1 ++ with_handlers e [] :: E2) /\
    forall h, h ∈ (e_handlers e).*1 -> handler_heap s' !! h = None.
Proof.
  intros Hrep. unfold ee_remove_all_listeners. rewrite (bind_step _ _ _ _ _ (ee_find_hit _ _ _ _ _ Hrep)).
  destruct (rep_split _ _ _ _ _ Hrep) as [Hok _]. run eq_refl.
  destruct (get_event_run _ _ Hok) as (HL & Hrun & Hv). run Hrun. cbn [handlers].
  rewrite list_len_law, list_head_law, Hv, length_fmap, head_fmap.
  destruct e as [a nm hs]. cbn in *.
  destruct (remove_all_loop_run self E1 (EvRep a nm hs) E2 hs (length hs) w) as (s' & Hloop & Hrep' & Hgone);
    [lia|done|]. exists s'. split_and!; [done|done|]. intros h Hh. apply Hgone. by left.
Qed.

Lemma listeners_miss evs nm : nm ∉ e_name <$> evs -> listeners_of evs nm = [].
Proof.
  clear. intros Hf. induction evs as [|d evs IH]; cbn; [done|].
  rewrite decide_False by set_solver. apply IH. set_solver.
Qed.

(** [ee_remove_all_listeners] empties the event it is given, if there is one, and leaves the
    others; on a name nothing was ever registered under, where globi_ee.h promises that
    nothing is done, it dereferences the null event. *)
Theorem ee_remove_all_spec w self evs nm :
  ee_rep (ee_get w) self evs ->
  (nm ∈ e_name <$> evs -> exists s' evs', ee_remove_all_listeners self nm w = Done (tt, ee_set s' w) /\
     ee_rep s' self evs' /\
     forall n, listeners_of evs' n = if decide (nm = n) then [] else listeners_of evs n) /\
  (nm ∉ e_name <$> evs -> ee_remove_all_listeners self nm w = Crash NullDeref).
Proof.
  intros Hrep. split.
  - intros (e & -> & He)%list_elem_of_fmap. apply list_elem_of_split in He as (E1 & E2 & ->).
    destruct (remove_all_hit _ _ _ _ _ Hrep) as (s' & Hrun & Hrep' & _).
    eexists s', _. split_and!; [done|exact Hrep'|]. intros n.
    rewrite !listeners_of_split by (apply Hrep || apply Hrep'). cbn. by destruct (decide (e_name e = n)).
  - intros Hn. unfold ee_remove_all_listeners. by run (ee_find_miss _ _ _ _ Hrep Hn).
Qed.

(** The handlers left when the first one with function [c] is removed. *)
Fixpoint drop_first (c : C) (hs : list (ee_handler_t C X)) : list (ee_handler_t C X) :=
  match hs with
  | [] => []
  | h :: hs => if decide (cb h = c) then hs else h :: drop_first c hs
  end.

Lemma match_handlers_split s hs c :
  Forall (fun ah => handler_heap s !! ah.1 = Some ah.2) hs ->
  match first_match (ee__match_handlers s c) hs.*1 with
  | Some h => exists hs1 hd hs2, hs = hs1 ++ (h, hd) :: hs2 /\ drop_first c hs.*2 = (hs1 ++ hs2).*2
  | None => drop_first c hs.*2 = hs.*2
  end.
Proof.
  induction hs as [|[h hd] hs IH]; intros Hall; cbn; [done|].
  apply Forall_cons in Hall as [Hh Hall]. cbn in Hh. unfold ee__match_handlers at 1. rewrite Hh.
  destruct (decide (cb hd = c)) as [He|He].
  - rewrite bool_decide_true by done. by exists [], hd, hs.
  - rewrite bool_decide_false by done. specialize (IH Hall). destruct (first_match _ _) as [k|].
    + destruct IH as (hs1 & hd' & hs2 & -> & Hd). exists ((h, hd) :: hs1), hd', hs2.
      split; [done|]. cbn. by rewrite Hd.
    + by rewrite IH.
Qed.

(** [ee_remove_listener] removes the first handler registered with the function under the
    name and nothing else; with no such handler it does nothing.  [ee_listener_count]
    is the number of handlers. *)
Theorem ee_remove_listener_spec w self evs nm c :
  ee_rep (ee_get w) self evs ->
  exists s' evs', ee_remove_listener self nm c w = Done (tt, ee_set s' w) /\
    ee_rep s' self evs' /\
    (forall n, listeners_of evs' n =
      if decide (nm = n) then drop_first c (listeners_of evs n) else listeners_of evs n) /\
    ee_listener_count self nm w = Done (length (listeners_of evs nm), w).
Proof.
  intros Hrep. unfold ee_remove_listener, ee_listener_count, ee_listeners.
  pose proof (find_event _ _ _ nm Hrep) as Hf. rewrite bind_assoc.
  destruct (first_match (ee__match_events _ _) _) as [a|].
  - destruct Hf as (E1 & e & E2 & -> & _ & <-).
    rewrite !(bind_step _ _ _ _ _ (ee_find_hit _ _ _ _ _ Hrep)).
    destruct (rep_split _ _ _ _ _ Hrep) as [Hok _].
    destruct (get_event_run _ _ Hok) as (HL & Hget & Hv). rewrite bind_assoc.
    rewrite !(bind_step _ _ _ _ _ Hget). cbn [handlers]. run eq_refl. run eq_refl.
    rewrite list_find_law, list_len_law, Hv, length_fmap.
    rewrite listeners_of_split, decide_True, length_fmap by (done || apply Hrep).
    destruct Hok as (_ & _ & _ & Hh). pose proof (match_handlers_split _ _ c Hh) as Hm.
    destruct (first_match _ _) as [h|].
    + destruct Hm as (hs1 & hd & hs2 & Heq & Hd).
      destruct (remove_handler_run w self E1 e E2 hs1 h hd hs2 Hrep Heq) as (s' & Hrun & _ & Hrep').
      eexists s', _. split_and!; [done|exact Hrep'| |done]. intros n.
      rewrite !listeners_of_split by (apply Hrep || apply Hrep'). cbn.
      by destruct (decide (e_name e = n)).
    + exists (ee_get w), (E1 ++ e :: E2). rewrite ee_set_get. split_and!; [done|done| |done].
      intros n. rewrite !listeners_of_split by apply Hrep. by destruct (decide (e_name e = n)).
  - rewrite !(bind_step _ _ _ _ _ (ee_find_miss _ _ _ _ Hrep Hf)).
    exists (ee_get w), evs. rewrite ee_set_get, (listeners_miss _ _ Hf). split_and!; [done|done| |done].
    intros n. destruct (decide (nm = n)) as [<-|]; [|done]. by rewrite (listeners_miss _ _ Hf).
Qed.

(** *** Emitting *)

Context {A : Type} (new_listener_arg : string -> C -> A) (run_cb : C -> A -> X -> M W unit) (fuel : nat).

Lemma emit_hit w self E1 e E2 arg :
  ee_rep (ee_get w) self (E1 ++ e :: E2) ->
  ee_emit run_cb fuel self (e_name e) arg w =
  emit_loop run_cb fuel (e_addr e) (fst <$> head (e_handlers e)) arg w.
Proof.
  intros Hrep. unfold ee_emit. rewrite (bind_step _ _ _ _ _ (ee_find_hit _ _ _ _ _ Hrep)).
  destruct (rep_split _ _ _ _ _ Hrep) as [Hok _].
  destruct (get_event_run _ _ Hok) as (HL & Hrun & Hv). run Hrun. cbn.
  by rewrite list_head_law, Hv, head_fmap.
Qed.

(** An emit nobody listens to does nothing. *)
Lemma emit_nobody w self evs nm arg :
  ee_rep (ee_get w) self evs -> listeners_of evs nm = [] ->
  ee_emit run_cb fuel self nm arg w = Done (tt, w).
Proof.
  intros Hrep Hno. pose proof (find_event _ _ _ nm Hrep) as Hf.
  destruct (first_match _ _) as [a|] eqn:Ha.
  - destruct Hf as (E1 & e & E2 & -> & _ & <-). rewrite (emit_hit _ _ _ _ _ _ Hrep).
    rewrite listeners_of_split, decide_True in Hno by (done || apply Hrep).
    destruct (e_handlers e); [|done]. by destruct fuel.
  - unfold ee_emit. by rewrite (bind_step _ _ _ _ _ (ee_find_miss _ _ _ _ Hrep Hf)).
Qed.

Lemma ee_on_run w self evs nm is_once c x :
  ee_rep (ee_get w) self evs -> listeners_of evs EE_NEW_LISTENER = [] ->
  exists s' evs', ee__on new_listener_arg run_cb fuel self nm is_once c x w = Done (tt, ee_set s' w) /\
    ee_rep s' self evs' /\
    forall n, listeners_of evs' n =
      if decide (nm = n) then listeners_of evs n ++ [Handler c x is_once] else listeners_of evs n.
Proof.
  intros Hrep Hno. destruct (push_handler_run w self evs nm is_once c x Hrep)
    as (s' & a & evs' & Hrun & Hrep' & (d & Hd & <-) & Hl).
  exists s', evs'. split; [|done]. unfold ee__on. run Hrun.
  assert (Hrep1 : ee_rep (ee_get (ee_set s' w)) self evs') by (by rewrite ee_get_set).
  assert (Hemit : (if! negb (bool_decide (nm = EE_NEW_LISTENER)) then
    ee_emit run_cb fuel self EE_NEW_LISTENER (new_listener_arg nm c)) (ee_set s' w) = Done (tt, ee_set s' w)).
  { case_bool_decide as Hnm; [done|]. cbn [negb whenM]. apply (emit_nobody _ _ _ _ _ Hrep1).
    rewrite Hl. by rewrite decide_False. }
  run Hemit. assert (Hok : ev_ok (ee_get (ee_set s' w)) d).
  { destruct Hrep1 as (_ & Hok & _). rewrite Forall_forall in Hok. by apply Hok. }
  destruct (get_event_run _ _ Hok) as (HL & Hget & _). by run Hget.
Qed.

(** registering.  [ee_on] and [ee_once] put the handler behind those registered under the
    name, make the event if there is none, and leave every other name as it was (with
    nobody listening for [new_listener], the state changes in nothing else). *)
Theorem ee_on_registers w self evs nm is_once c x :
  ee_rep (ee_get w) self evs -> listeners_of evs EE_NEW_LISTENER = [] ->
  exists s' evs', ee__on new_listener_arg run_cb fuel self nm is_once c x w = Done (tt, ee_set s' w) /\
    ee_rep s' self evs' /\
    forall n, listeners_of evs' n =
      if decide (nm = n) then listeners_of evs n ++ [Handler c x is_once] else listeners_of evs n.
Proof. apply ee_on_run. Qed.

(** Handlers that do not use the emitter: they return, and commute with changes to it. *)
Definition handlers_quiet (eff : C -> A -> X -> W -> W) : Prop :=
  forall c a x w, run_cb c a x w = Done (tt, eff c a x w) /\ ee_get (eff c a x w) = ee_get w /\
    forall s, eff c a x (ee_set s w) = ee_set s (eff c a x w).

(** The handlers run on the world, in order. *)
Definition run_handlers (eff : C -> A -> X -> W -> W) (arg : A) (hs : list (ee_handler_t C X)) w : W :=
  fold_left (fun w h => eff (cb h) arg (extraArg h) w) hs w.

Lemma run_handlers_set eff arg hs s w :
  handlers_quiet eff -> run_handlers eff arg hs (ee_set s w) = ee_set s (run_handlers eff arg hs w).
Proof.
  intros Hq. unfold run_handlers. revert w. induction hs as [|h hs IH]; intros w; [done|]. cbn.
  rewrite (proj2 (proj2 (Hq _ _ _ _))). apply IH.
Qed.

Definition keeps_listening (ah : loc * ee_handler_t C X) : bool := negb (once ah.2).

Lemma emit_loop_run eff arg self E1 e E2 todo n w kept :
  handlers_quiet eff -> length todo <= n ->
  ee_rep (ee_get w) self (E1 ++ with_handlers e (kept ++ todo) :: E2) ->
  exists s', emit_loop run_cb n (e_addr e) (fst <$> head todo) arg w =
      Done (tt, ee_set s' (run_handlers eff arg todo.*2 w)) /\
    ee_rep s' self (E1 ++ with_handlers e (kept ++ List.filter keeps_listening todo) :: E2).
Proof.
  intros Hq. revert n w kept. induction todo as [|[h hd] todo IH]; intros n w kept Hn Hrep.
  { exists (ee_get w). destruct n; cbn; by rewrite ee_set_get, app_nil_r in *. }
  destruct n as [|n]; [cbn in Hn; lia|]. cbn [emit_loop head fmap option_fmap option_map fst].
  destruct (rep_split _ _ _ _ _ Hrep) as [Hok Hnd]. cbn in Hnd.
  assert (Hin : (h, hd) ∈ e_handlers (with_handlers e (kept ++ (h, hd) :: todo))) by (cbn; set_solver).
  run (get_handler_run _ _ _ _ Hok Hin).
  destruct (get_event_run _ _ Hok) as (HL & Hget & Hv). run Hget. cbn [handlers].
  destruct (Hq (cb hd) arg (extraArg hd) w) as (Hrun & Heg & Hset). run Hrun.
  set (w1 := eff (cb hd) arg (extraArg hd) w) in *. rewrite <- Heg in Hok, Hrep.
  run (get_handler_run _ _ _ _ Hok Hin). cbn in Hv. rewrite fmap_app, fmap_cons in Hv, Hnd. cbn in Hv.
  rewrite (list_next_law HL kept.*1 h todo.*1) by (rewrite ?Hv; done). rewrite head_fmap.
  unfold keeps_listening at 1. cbn [List.filter snd negb]. destruct (once hd); cbn [whenM negb].
  - destruct (remove_handler_run w1 self E1 _ E2 kept h hd todo Hrep eq_refl) as (s1 & Hrem & _ & Hrep1).
    cbn in Hrem. run Hrem. destruct (IH n (ee_set s1 w1) kept) as (s' & Hloop & Hrep').
    + cbn in Hn. lia.
    + by rewrite ee_get_set.
    + exists s'. rewrite Hloop, run_handlers_set, ee_set_set by done. done.
  - run eq_refl. destruct (IH n w1 (kept ++ [(h, hd)])) as (s' & Hloop & Hrep').
    + cbn in Hn. lia.
    + by rewrite <- app_assoc.
    + exists s'. rewrite <- app_assoc in Hrep'. done.
Qed.


Lemma ee_emit_remove_all_uaf w w' w1 w2 self evs nm arg h hs :
  ee_rep (ee_get w) self evs -> listeners_of evs nm = h :: hs -> 0 < fuel ->
  ee_get w1 = ee_get w -> ee_remove_all_listeners self nm w1 = Done (tt, w2) ->
  run_cb (cb h) arg (extraArg h) w = Done (tt, w') -> ee_get w' = ee_get w2 ->
  ee_emit run_cb fuel self nm arg w = Crash UseAfterFree.
Proof.
  intros Hrep Hls Hfuel Heff Hrem Hcb Hw'. pose proof (find_event _ _ _ nm Hrep) as Hf.
  destruct (first_match _ _) as [a|]; [|by rewrite (listeners_miss _ _ Hf) in Hls].
  destruct Hf as (E1 & e & E2 & -> & _ & <-).
  rewrite listeners_of_split, decide_True in Hls by (done || apply Hrep).
  rewrite (emit_hit _ _ _ _ _ _ Hrep). destruct fuel as [|n]; [lia|].
  destruct (e_handlers e) as [|[k hd] todo] eqn:Hhs; [done|]. injection Hls as -> _.
  destruct (rep_split _ _ _ _ _ Hrep) as [Hok _].
  cbn [emit_loop head fmap option_fmap option_map fst].
  assert (Hin : (k, h) ∈ e_handlers e) by (rewrite Hhs; by left).
  run (get_handler_run _ _ _ _ Hok Hin).
  destruct (get_event_run _ _ Hok) as (HL & Hget & Hv). run Hget. run Hcb.
  assert (Hrep1 : ee_rep (ee_get w1) self (E1 ++ e :: E2)) by (by rewrite Heff).
  destruct (remove_all_hit _ _ _ _ _ Hrep1) as (s' & Hrun & _ & Hgone).
  rewrite Hrun in Hrem. injection Hrem as <-.
  unfold get_handler. rewrite bind_assoc. run eq_refl. rewrite Hw', ee_get_set.
  rewrite Hgone; [done|]. rewrite Hhs. by left.
Qed.

(** A handler that removes all listeners of the event being emitted frees its own
    record, and the emit that called it then reads [handler->once] in it. *)
Theorem ee_emit_remove_all_crashes w w' w1 w2 self evs nm arg h hs :
  ee_rep (ee_get w) self evs -> listeners_of evs nm = h :: hs -> 0 < fuel ->
  ee_get w1 = ee_get w -> ee_remove_all_listeners self nm w1 = Done (tt, w2) ->
  run_cb (cb h) arg (extraArg h) w = Done (tt, w') -> ee_get w' = ee_get w2 ->
  ee_emit run_cb fuel self nm arg w = Crash UseAfterFree.
Proof. apply ee_emit_remove_all_uaf. Qed.

(** A new emitter has no events. *)
Lemma ee_new_run w :
  exists s', ee_new w = Done (next_addr (ee_get w), ee_set s' w) /\ ee_rep s' (next_addr (ee_get w)) [].
Proof.
  unfold ee_new, ee_malloc. rewrite bind_assoc. run eq_refl. rewrite bind_assoc. unfold modify_ee.
  run eq_refl. run eq_refl. run eq_refl. rewrite ee_set_set, ee_get_set. eexists. split; [done|].
  split_and!; cbn; [|done|constructor..|constructor; [lia|done]].
  exists list_new. rewrite lookup_insert_eq, list_new_law. done.
Qed.
End Spec.

(** ** The theorems at a concrete program: functions are numbers, and log themselves *)

Definition ex_world : Type := (ee_store (list loc) nat nat * list nat)%type.

#[export] Instance ex_EEWorld : EEWorld ex_world (list loc) nat nat := {|
  ee_get := fst;
  ee_set := fun s w => (s, w.2)
|}.

#[export] Instance ex_EEWorldLaws : EEWorldLaws ex_world (list loc) nat nat.
Proof. split; [done|done|by intros []]. Qed.

(** Function 9 removes all listeners of "e" from the emitter at address 1. *)
Definition ex_run (c a x : nat) : M ex_world unit :=
  if decide (c = 9) then ee_remove_all_listeners 1 "e" else modify (fun w => (w.1, w.2 ++ [c])).
Definition ex_log (c a x : nat) : M ex_world unit := modify (fun w => (w.1, w.2 ++ [c])).
Definition ex_eff (c a x : nat) (w : ex_world) : ex_world := (w.1, w.2 ++ [c]).

Definition ex_start : ex_world :=
  (Store {[1 := [2]]} {[2 := Event "e" [3; 4; 5]]}
     {[3 := Handler 7 0 false; 4 := Handler 8 0 true; 5 := Handler 7 0 false]} 6, []).
Definition ex_evs : list (ev_rep nat nat) :=
  [EvRep 2 "e" [(3, Handler 7 0 false); (4, Handler 8 0 true); (5, Handler 7 0 false)]].

Lemma ex_rep : ee_rep (ee_get ex_start) 1 ex_evs.
Proof.
  split_and!.
  - by exists [2].
  - constructor; [|done]. exists [3; 4; 5]. split_and!; [done|done|]. by repeat constructor.
  - apply NoDup_singleton.
  - apply NoDup_singleton.
  - cbn. by apply (bool_decide_unpack _).
  - repeat constructor; cbn; lia.
Qed.

Lemma ex_quiet : handlers_quiet ex_log ex_eff.
Proof. done. Qed.

Lemma ee_on_registers_witness :
  exists s' evs', ee__on (fun _ c => c) ex_log 10 1 "f" true 5 0 ex_start = Done (tt, ee_set s' ex_start) /\
    listeners_of evs' "f" = [Handler 5 0 true].
Proof.
  destruct (ee_on_registers (fun _ c => c) ex_log 10 ex_start 1 ex_evs "f" true 5 0 ex_rep)
    as (s' & evs' & Hr & _ & Hl); [done|].
  exists s', evs'. split; [exact Hr|]. rewrite Hl. done.
Defined.


Lemma ee_remove_all_spec_witness :
  ee_remove_all_listeners 1 "nobody" ex_start = Crash NullDeref.
Proof.
  apply (ee_remove_all_spec ex_start 1 ex_evs "nobody" ex_rep). cbn. set_solver.
Defined.

Lemma ee_remove_listener_spec_witness :
  ee_listener_count 1 "e" ex_start = Done (3, ex_start).
Proof.
  destruct (ee_remove_listener_spec ex_start 1 ex_evs "e" 7 ex_rep) as (s' & evs' & _ & _ & _ & Hc).
  exact Hc.
Defined.

Definition ex_start9 : ex_world :=
  (Store {[1 := [2]]} {[2 := Event "e" [3]]} {[3 := Handler 9 0 false]} 6, []).

Lemma ex_rep9 : ee_rep (ee_get ex_start9) 1 [EvRep 2 "e" [(3, Handler 9 0 false)]].
Proof.
  split_and!.
  - by exists [2].
  - constructor; [|done]. exists [3]. split_and!; [done|done|]. by repeat constructor.
  - apply NoDup_singleton.
  - apply NoDup_singleton.
  - apply NoDup_singleton.
  - repeat constructor; cbn; lia.
Qed.

Lemma ee_emit_remove_all_crashes_witness : ee_emit ex_run 10 1 "e" 0 ex_start9 = Crash UseAfterFree.
Proof.
  destruct (ee_remove_all_listeners 1 "e" ex_start9) as [[[] w2]|f] eqn:Hr; [|by vm_compute in Hr].
  apply (ee_emit_remove_all_crashes ex_run 10 ex_start9 w2 ex_start9 w2 1
    [EvRep 2 "e" [(3, Handler 9 0 false)]] "e" 0 (Handler 9 0 false) []);
    [exact ex_rep9|done|lia|done|exact Hr|exact Hr|done].
Defined.
End EE.
