(* ===== verification/Jansson.v ===== *)
(** * jansson as the repository's code relies on it

    The JSON library is not part of the repository.  A JSON value is a [J]; the class
    gives the accessors and constructors the code calls, without their reference
    counts, and the laws say what an object built of given members answers. *)

From S2P Require Import Prelude.

Class Jansson (J : Type) := {
  json_object_get : J -> string -> option J;
  json_integer_value : J -> option Z;   (* [None]: not an integer *)
  json_string_value : J -> option string;
  json_is_object : J -> bool;
  json_is_true : J -> bool;
  json_array_items : J -> option (list J);  (* [None]: not an array *)
  json_object : list (string * J) -> J;
  json_integer : Z -> J;
  json_string : string -> J;
  json_true : J;
  json_dumps : J -> option string;      (* [None]: cannot be printed *)
  json_loads : string -> option J
}.

(** Booleans, for the code that writes and tests them. *)
Class JanssonBool (J : Type) := {
  json_is_boolean : J -> bool;
  json_false : J
}.

(** Arrays, for the code that builds them. *)
Class JanssonArray (J : Type) := { json_array : list J -> J }.

(** [json_object_get(object, key)] of an object that may be null. *)
Definition json_get {J : Type} `{Jansson J} (o : option J) (k : string) : option J := o ≫= fun j => json_object_get j k.
(** [json_is_integer], [json_is_string], and the value of an integer, 0 of all others. *)
Definition json_is_integer {J : Type} `{Jansson J} (j : J) : bool := bool_decide (is_Some (json_integer_value j)).
Definition json_is_string {J : Type} `{Jansson J} (j : J) : bool := bool_decide (is_Some (json_string_value j)).
Definition json_int {J : Type} `{Jansson J} (j : J) : Z := default 0%Z (json_integer_value j).

Fixpoint assoc {V : Type} (k : string) (kvs : list (string * V)) : option V :=
  match kvs with
  | [] => None
  | (k', v) :: kvs => if decide (k = k') then Some v else assoc k kvs
  end.

Class JanssonLaws (J : Type) `{Jansson J} := {
  json_get_object_law : forall kvs k, NoDup kvs.*1 -> json_object_get (json_object kvs) k = assoc k kvs;
  json_integer_law : forall n, json_integer_value (json_integer n) = Some n;
  json_string_law : forall s, json_string_value (json_string s) = Some s
}.

(** The instance of the witnesses: JSON trees; it prints strings and reads the empty
    object only. *)

Inductive json : Type :=
| JObject (kvs : list (string * json))
| JInteger (n : Z)
| JString (s : string)
| JTrue
| JFalse
| JArray (js : list json).

#[export] Instance janssonTree : Jansson json := {|
  json_object_get := fun j k => match j with JObject kvs => assoc k kvs | _ => None end;
  json_integer_value := fun j => match j with JInteger n => Some n | _ => None end;
  json_string_value := fun j => match j with JString s => Some s | _ => None end;
  json_is_object := fun j => match j with JObject _ => true | _ => false end;
  json_is_true := fun j => match j with JTrue => true | _ => false end;
  json_array_items := fun j => match j with JArray js => Some js | _ => None end;
  json_object := JObject;
  json_integer := JInteger;
  json_string := JString;
  json_true := JTrue;
  json_dumps := fun j => match j with JString s => Some s | _ => Some "{}" end;
  json_loads := fun s => if decide (s = "{}") then Some (JObject []) else None
|}.

#[export] Instance janssonTree_bool : JanssonBool json := {|
  json_is_boolean := fun j => match j with JTrue | JFalse => true | _ => false end;
  json_false := JFalse
|}.

#[export] Instance janssonTree_array : JanssonArray json := {| json_array := JArray |}.

#[export] Instance janssonTree_laws : JanssonLaws json.
Proof. by split. Qed.
