(* ===== verification/Soup.v ===== *)
(** * The mediasoup client: requests, answers, rooms

    mediasoup/src/channel.c, soup_server.c, room.c and the websocket handlers of
    mediasoup.c.  A websocket connection owns a [soup], the record of a request to
    the media worker; each request waits as a [postman] in the list [letters] with a
    one-shot timer, until an answer with its identifier, the timeout, or the shutdown
    takes it out.  An accepted answer makes a room, which listens on the channel's
    emitter for the event named by its identifier.  JSON values carry no reference
    counts here; strings owned by a soup say whether they were freed. *)

From S2P Require Import Prelude KoreNet RandomId ListLib EventEmitter Jansson.

Local Open Scope c_scope.

Module Soup.

(** ** Data *)

Inductive ee_fn : Type := on_room_targetId_f.
#[export] Instance ee_fn_eq_dec : EqDecision ee_fn.
Proof. solve_decision. Defined.

(** What is passed to [ee_emit]. *)
Inductive ee_arg : Type :=
| Msg (s : string)
| NewListener (nm : string) (c : ee_fn).

Inductive soup_cb : Type := we_can_work_it_out_f.

(** A [char *] the soup owns. *)
Inductive cstr : Type := NULL | Str (s : string) | Freed.

Inductive soup_state : Type :=
| SOUP_STATE_ZERO  (* memory of kore_calloc *)
| SOUP_STATE_INIT | SOUP_STATE_WAIT | SOUP_STATE_RESULT
| SOUP_STATE_ERROR | SOUP_STATE_DONE | SOUP_STATE_COMPLETE.

Record channel : Type := Channel { ch_ee : option loc }.
Record server : Type := Server { sv_ee : option loc; sv_ch : option loc }.

Record soup : Type := MkSoup {
  conn : option loc;
  state : soup_state;
  s_id : Z;
  in_id : Z;
  error : cstr;
  s_name : cstr;
  s_arg : loc;
  s_cb : option soup_cb;
  result : cstr
}.

Record postman : Type := Postman { p_id : Z; p_soupi : option loc; p_timer : option nat }.
Record room : Type := MkRoom { roomId : Z; r_ch : option loc }.
Record passData : Type := PassData { pd_ch : loc; pd_r : loc; pd_str : string }.

Record soup_world (L : Type) (T : Type) : Type := SoupWorld {
  ee_st : EE.ee_store L ee_fn loc;  (* the heap of the event emitters *)
  channels : gmap loc channel;
  servers : gmap loc server;
  soups : gmap loc soup;
  rooms : gmap loc room;
  passes : gmap loc passData;
  letters : list postman;  (* from LIST_FIRST on *)
  timers : T;
  conns : gmap loc (option loc);  (* connections and their hdlr_extra *)
  md_server : option loc;
  tmp_room : option loc;
  soup_unavailable : bool;
  draws : list Z;  (* results of rand() to come *)
  to_cpp : list (option string);  (* fired to the other thread, newest first *)
  sent : list (loc * string);  (* sent on websockets, newest first *)
  heap_next : loc  (* above every address given out here *)
}.
Arguments SoupWorld {L T}.
Arguments ee_st {L T}.
Arguments channels {L T}.
Arguments servers {L T}.
Arguments soups {L T}.
Arguments rooms {L T}.
Arguments passes {L T}.
Arguments letters {L T}.
Arguments timers {L T}.
Arguments conns {L T}.
Arguments md_server {L T}.
Arguments tmp_room {L T}.
Arguments soup_unavailable {L T}.
Arguments draws {L T}.
Arguments to_cpp {L T}.
Arguments sent {L T}.
Arguments heap_next {L T}.

Definition set_ee_st {L : Type} {T : Type} (f : EE.ee_store L ee_fn loc -> EE.ee_store L ee_fn loc) (w : soup_world L T) : soup_world L T :=
  SoupWorld (f (ee_st w)) (channels w) (servers w) (soups w) (rooms w) (passes w) (letters w) (timers w) (conns w) (md_server w) (tmp_room w) (soup_unavailable w) (draws w) (to_cpp w) (sent w) (heap_next w).
Definition set_channels {L : Type} {T : Type} (f : gmap loc channel -> gmap loc channel) (w : soup_world L T) : soup_world L T :=
  SoupWorld (ee_st w) (f (channels w)) (servers w) (soups w) (rooms w) (passes w) (letters w) (timers w) (conns w) (md_server w) (tmp_room w) (soup_unavailable w) (draws w) (to_cpp w) (sent w) (heap_next w).
Definition set_servers {L : Type} {T : Type} (f : gmap loc server -> gmap loc server) (w : soup_world L T) : soup_world L T :=
  SoupWorld (ee_st w) (channels w) (f (servers w)) (soups w) (rooms w) (passes w) (letters w) (timers w) (conns w) (md_server w) (tmp_room w) (soup_unavailable w) (draws w) (to_cpp w) (sent w) (heap_next w).
Definition set_soups {L : Type} {T : Type} (f : gmap loc soup -> gmap loc soup) (w : soup_world L T) : soup_world L T :=
  SoupWorld (ee_st w) (channels w) (servers w) (f (soups w)) (rooms w) (passes w) (letters w) (timers w) (conns w) (md_server w) (tmp_room w) (soup_unavailable w) (draws w) (to_cpp w) (sent w) (heap_next w).
Definition set_rooms {L : Type} {T : Type} (f : gmap loc room -> gmap loc room) (w : soup_world L T) : soup_world L T :=
  SoupWorld (ee_st w) (channels w) (servers w) (soups w) (f (rooms w)) (passes w) (letters w) (timers w) (conns w) (md_server w) (tmp_room w) (soup_unavailable w) (draws w) (to_cpp w) (sent w) (heap_next w).
Definition set_passes {L : Type} {T : Type} (f : gmap loc passData -> gmap loc passData) (w : soup_world L T) : soup_world L T :=
  SoupWorld (ee_st w) (channels w) (servers w) (soups w) (rooms w) (f (passes w)) (letters w) (timers w) (conns w) (md_server w) (tmp_room w) (soup_unavailable w) (draws w) (to_cpp w) (sent w) (heap_next w).
Definition set_letters {L : Type} {T : Type} (f : list postman -> list postman) (w : soup_world L T) : soup_world L T :=
  SoupWorld (ee_st w) (channels w) (servers w) (soups w) (rooms w) (passes w) (f (letters w)) (timers w) (conns w) (md_server w) (tmp_room w) (soup_unavailable w) (draws w) (to_cpp w) (sent w) (heap_next w).
Definition set_timers {L : Type} {T : Type} (f : T -> T) (w : soup_world L T) : soup_world L T :=
  SoupWorld (ee_st w) (channels w) (servers w) (soups w) (rooms w) (passes w) (letters w) (f (timers w)) (conns w) (md_server w) (tmp_room w) (soup_unavailable w) (draws w) (to_cpp w) (sent w) (heap_next w).
Definition set_conns {L : Type} {T : Type} (f : gmap loc (option loc) -> gmap loc (option loc)) (w : soup_world L T) : soup_world L T :=
  SoupWorld (ee_st w) (channels w) (servers w) (soups w) (rooms w) (passes w) (letters w) (timers w) (f (conns w)) (md_server w) (tmp_room w) (soup_unavailable w) (draws w) (to_cpp w) (sent w) (heap_next w).
Definition set_md_server {L : Type} {T : Type} (f : option loc -> option loc) (w : soup_world L T) : soup_world L T :=
  SoupWorld (ee_st w) (channels w) (servers w) (soups w) (rooms w) (passes w) (letters w) (timers w) (conns w) (f (md_server w)) (tmp_room w) (soup_unavailable w) (draws w) (to_cpp w) (sent w) (heap_next w).
Definition set_tmp_room {L : Type} {T : Type} (f : option loc -> option loc) (w : soup_world L T) : soup_world L T :=
  SoupWorld (ee_st w) (channels w) (servers w) (soups w) (rooms w) (passes w) (letters w) (timers w) (conns w) (md_server w) (f (tmp_room w)) (soup_unavailable w) (draws w) (to_cpp w) (sent w) (heap_next w).
Definition set_soup_unavailable {L : Type} {T : Type} (f : bool -> bool) (w : soup_world L T) : soup_world L T :=
  SoupWorld (ee_st w) (channels w) (servers w) (soups w) (rooms w) (passes w) (letters w) (timers w) (conns w) (md_server w) (tmp_room w) (f (soup_unavailable w)) (draws w) (to_cpp w) (sent w) (heap_next w).
Definition set_draws {L : Type} {T : Type} (f : list Z -> list Z) (w : soup_world L T) : soup_world L T :=
  SoupWorld (ee_st w) (channels w) (servers w) (soups w) (rooms w) (passes w) (letters w) (timers w) (conns w) (md_server w) (tmp_room w) (soup_unavailable w) (f (draws w)) (to_cpp w) (sent w) (heap_next w).
Definition set_to_cpp {L : Type} {T : Type} (f : list (option string) -> list (option string)) (w : soup_world L T) : soup_world L T :=
  SoupWorld (ee_st w) (channels w) (servers w) (soups w) (rooms w) (passes w) (letters w) (timers w) (conns w) (md_server w) (tmp_room w) (soup_unavailable w) (draws w) (f (to_cpp w)) (sent w) (heap_next w).
Definition set_sent {L : Type} {T : Type} (f : list (loc * string) -> list (loc * string)) (w : soup_world L T) : soup_world L T :=
  SoupWorld (ee_st w) (channels w) (servers w) (soups w) (rooms w) (passes w) (letters w) (timers w) (conns w) (md_server w) (tmp_room w) (soup_unavailable w) (draws w) (to_cpp w) (f (sent w)) (heap_next w).
Definition set_heap_next {L : Type} {T : Type} (f : loc -> loc) (w : soup_world L T) : soup_world L T :=
  SoupWorld (ee_st w) (channels w) (servers w) (soups w) (rooms w) (passes w) (letters w) (timers w) (conns w) (md_server w) (tmp_room w) (soup_unavailable w) (draws w) (to_cpp w) (sent w) (f (heap_next w)).

#[export] Instance soup_EEWorld {L T} : EE.EEWorld (soup_world L T) L ee_fn loc := {|
  EE.ee_get := ee_st;
  EE.ee_set := fun s => set_ee_st (fun _ => s)
|}.

#[export] Instance soup_EEWorldLaws {L T} : EE.EEWorldLaws (soup_world L T) L ee_fn loc.
Proof. split; [done|done|by intros []]. Qed.

Section Code.
Context {L T J : Type} `{ClibsList L} `{KoreTimers T} `{Jansson J}.
Implicit Types w : soup_world L T.
Context (RAND_MAX : Z).
(** The code [uv_callback_fire(&to_cpp, ...)] returns. *)
Context (fire_rc : soup_world L T -> Z).
(** The bound on the steps of one emit, and on the identifiers drawn for one request. *)
Context (fuel : nat).

Abbreviation m := (M (soup_world L T)).

(** *** Heaps *)

Definition get_channel (l : loc) : m channel := h ← gets channels; live (h !! l).
Definition get_server (l : loc) : m server := h ← gets servers; live (h !! l).
Definition get_soup (l : loc) : m soup := h ← gets soups; live (h !! l).
Definition get_room (l : loc) : m room := h ← gets rooms; live (h !! l).
Definition get_pass (l : loc) : m passData := h ← gets passes; live (h !! l).
Definition update_soup (l : loc) (f : soup -> soup) : m unit :=
  s ← get_soup l; modify (set_soups <[l := f s]>).

Definition malloc : m loc :=
  l ← gets heap_next; modify (set_heap_next S);; mret l.

Definition set_conn v s := MkSoup v (state s) (s_id s) (in_id s) (error s) (s_name s) (s_arg s) (s_cb s) (result s).
Definition set_state v s := MkSoup (conn s) v (s_id s) (in_id s) (error s) (s_name s) (s_arg s) (s_cb s) (result s).
Definition set_id v s := MkSoup (conn s) (state s) v (in_id s) (error s) (s_name s) (s_arg s) (s_cb s) (result s).
Definition set_in_id v s := MkSoup (conn s) (state s) (s_id s) v (error s) (s_name s) (s_arg s) (s_cb s) (result s).
Definition set_error v s := MkSoup (conn s) (state s) (s_id s) (in_id s) v (s_name s) (s_arg s) (s_cb s) (result s).
Definition set_name v s := MkSoup (conn s) (state s) (s_id s) (in_id s) (error s) v (s_arg s) (s_cb s) (result s).
Definition set_result v s := MkSoup (conn s) (state s) (s_id s) (in_id s) (error s) (s_name s) (s_arg s) (s_cb s) v.

(** Reading a string, and [kore_free] of one that is not null. *)
Definition cstr_read (p : cstr) : m string :=
  match p with NULL => crash NullDeref | Str s => mret s | Freed => crash UseAfterFree end.
Definition cstr_free (p : cstr) : m unit :=
  match p with Freed => crash UseAfterFree | _ => mret tt end.
Definition is_null (p : cstr) : bool := match p with NULL => true | _ => false end.

Definition kore_websocket_send (c : loc) (s : string) : m unit :=
  cs ← gets conns; live (cs !! c);; modify (set_sent (cons (c, s))).

Definition kore_timer_add (arg : loc) : m nat := fun w =>
  let '(n, t) := timer_add arg (timers w) in Done (n, set_timers (fun _ => t) w).
Definition kore_timer_remove (n : nat) : m unit := modify (set_timers (timer_remove n)).

Definition to_cpp_fire (msg : option string) : m Z :=
  rc ← gets fire_rc;
  (if! (rc =? 0)%Z then modify (set_to_cpp (cons msg)));;
  mret rc.

Definition random_id : m Z := fun w =>
  match random_u32 RAND_MAX (draws w) with
  | Done (v, ds) => Done (v, set_draws (fun _ => ds) w)
  | Crash f => Crash f
  end.

(** *** room.c *)

Definition room_close (r : loc) : m unit :=
  get_room r;; modify (set_rooms (delete r)).

(** [ObjThis] is the room's [passData]. *)
Definition on_room_targetId (rdata : ee_arg) (ObjThis : loc) : m unit :=
  data ← get_pass ObjThis;
  ch ← get_channel (pd_ch data);
  ee ← deref (ch_ee ch);
  EE.ee_remove_all_listeners ee (pd_str data);;
  room_close (pd_r data);;
  modify (set_passes (delete ObjThis)).

Definition run_cb (f : ee_fn) (arg : ee_arg) (x : loc) : m unit :=
  match f with on_room_targetId_f => on_room_targetId arg x end.

Definition room_new (room_id : Z) (ch : option loc) : m (option loc) :=
  match ch with
  | None => mret None
  | Some ch =>
      r ← malloc;
      modify (set_rooms <[r := MkRoom room_id (Some ch)]>);;
      let stri_uint := id_name room_id in
      pass ← malloc;
      modify (set_passes <[pass := PassData ch r stri_uint]>);;
      c ← get_channel ch;
      ee ← deref (ch_ee c);
      EE.ee_on NewListener run_cb fuel ee stri_uint on_room_targetId_f pass;;
      mret (Some r)
  end.

(** *** The soup's state *)

Definition soup_set_error (s : loc) (msg : string) : m unit :=
  v ← get_soup s;
  (if! negb (is_null (error v)) then cstr_free (error v));;
  update_soup s (fun v => set_state SOUP_STATE_ERROR (set_error (Str msg) v)).

Definition soup_handle (s : loc) : m unit := mret tt.
Definition soup_release (s : loc) : m unit := mret tt.

Definition soup_continue (soupi : loc) : m unit :=
  v ← get_soup soupi;
  (if! negb (is_null (error v)) then (cstr_free (error v);; update_soup soupi (set_error NULL)));;
  v ← get_soup soupi;
  (if! negb (is_null (result v)) then (cstr_free (result v);; update_soup soupi (set_result NULL)));;
  v ← get_soup soupi;
  (if! negb (is_null (s_name v)) then (cstr_free (s_name v);; update_soup soupi (set_name NULL)));;
  v ← get_soup soupi;
  match state v with
  | SOUP_STATE_INIT | SOUP_STATE_WAIT => mret tt
  | SOUP_STATE_DONE => soup_release soupi
  | SOUP_STATE_RESULT | SOUP_STATE_ERROR => soup_handle soupi
  | _ => mret tt
  end.

(** *** mediasoup.c: the soup's callback *)

(** The branch of an accepted answer. *)
Definition work_result (soupi : loc) (v : soup) (c : loc) : m unit :=
  r ← cstr_read (result v);
  kore_websocket_send c r;;
  nm ← cstr_read (s_name v);
  (if! bool_decide (nm = "worker.createRoom") then
    (srv ← gets md_server;
     srv ← deref srv;
     srv ← get_server srv;
     sroom ← room_new (in_id v) (sv_ch srv);
     modify (set_tmp_room (fun t => match t with None => sroom | Some _ => t end))));;
  update_soup soupi (set_state SOUP_STATE_DONE).

Definition we_can_work_it_out (soupi : loc) (c : loc) : m unit :=
  v ← get_soup soupi;
  match state v with
  | SOUP_STATE_RESULT => work_result soupi v c
  | SOUP_STATE_ERROR =>
      (if! negb (is_null (error v)) then
        (e ← cstr_read (error v); kore_websocket_send c e));;
      update_soup soupi (set_state SOUP_STATE_DONE)
  | _ => mret tt
  end;;
  soup_continue soupi.

(** [s->cb(s, s->arg)] *)
Definition call_cb (s : loc) : m unit :=
  v ← get_soup s;
  cb ← deref (s_cb v);
  match cb with we_can_work_it_out_f => we_can_work_it_out s (s_arg v) end.

(** *** channel.c *)

Definition remove_letter (k : nat) : m unit := modify (set_letters (delete k)).

(** The first letter of the walk from [LIST_FIRST] with this identifier: its place and itself. *)
Fixpoint letter_from (id : Z) (k : nat) (ls : list postman) : option (nat * postman) :=
  match ls with
  | [] => None
  | du :: ls => if (p_id du =? id)%Z then Some (k, du) else letter_from id (S k) ls
  end.

Definition find_letter (id : Z) : m (option (nat * postman)) :=
  ls ← gets letters; mret (letter_from id 0 ls).

Definition on_timeout (s : loc) : m unit :=
  soup_set_error s "***TIMEOUT!***";;
  call_cb s;;
  v ← get_soup s;
  du ← find_letter (s_id v);
  match du with
  | None => mret tt
  | Some (k, _) => remove_letter k;; update_soup s (set_id 0)
  end.

Definition id_lookup (z_id : Z) : m Z :=
  ls ← gets letters;
  mret (if existsb (fun p => p_id p =? z_id)%Z ls then -1 else 0)%Z.

(** [while (req_id == 0) ...] *)
Fixpoint draw_req_id (n : nat) : m Z :=
  match n with
  | O => crash Fuel
  | S n =>
      req_id ← random_id;
      found ← id_lookup req_id;
      let req_id := if (found =? 0)%Z then req_id else 0%Z in
      if (req_id =? 0)%Z then draw_req_id n else mret req_id
  end.

Definition request_object (name : string) (req_id : Z) (internal : J) (data : option J) : J :=
  json_object ([("method", json_string name); ("id", json_integer req_id); ("internal", internal)] ++
               match data with Some d => [("data", d)] | None => [] end).

(** globikCommon.c: null when the text is no JSON. *)
Definition load_json_str (text : string) : option J := json_loads text.
Definition load_json_buf (text : string) : option J := json_loads text.

(** [soupi] is not tested before its fields are used. *)
Definition channel_send (ch : loc) (soupi : option loc) (options : string) (jso_internal : J) : m unit :=
  s ← deref soupi;
  v ← get_soup s;
  req_id ← (if (s_id v =? 0)%Z then draw_req_id fuel else mret 0%Z);
  nm ← cstr_read (s_name v);
  let req_string := json_dumps (request_object nm req_id jso_internal (load_json_str options)) in
  update_soup s (fun v => set_state SOUP_STATE_WAIT (set_id req_id v));;
  timer ← kore_timer_add s;
  modify (set_letters (cons (Postman req_id (Some s) (Some timer))));;
  rc ← to_cpp_fire req_string;
  if! negb (rc =? 0)%Z then
    (remove_letter 0;;
     kore_timer_remove timer;;
     soup_set_error s "data to send failed.";;
     call_cb s;;
     update_soup s (set_id 0)).

Definition if_exist_key (root : J) (key : string) : bool :=
  match json_object_get root key with Some _ => true | None => false end.

Definition js_get_uint32 (root : J) (key : string) : Z :=
  match json_object_get root key with
  | Some res_id => match json_integer_value res_id with Some n => u32 n | None => 0%Z end
  | None => 0%Z
  end.

(** The answer is [accepted]: the printed data becomes the result. *)
Definition answer_accepted (root : J) (s : loc) : m unit :=
  v ← get_soup s;
  (if! negb (is_null (result v)) then cstr_free (result v));;
  let tmp_data :=
    match json_object_get root "data" with
    | Some d => default "some data if any" (json_dumps d)
    | None => "some data if any"
    end in
  update_soup s (fun v => set_state SOUP_STATE_RESULT (set_result (Str tmp_data) v));;
  v ← get_soup s;
  match s_cb v with
  | Some _ => call_cb s
  | None => update_soup s (set_result Freed)  (* freed, the pointer kept *)
  end.

Definition answer_rejected (s : loc) : m unit :=
  update_soup s (set_state SOUP_STATE_ERROR);;
  soup_set_error s "some_error";;
  v ← get_soup s;
  match s_cb v with Some _ => call_cb s | None => mret tt end.

(** What is done with the letter an answer is for. *)
Definition answer_letter (root : J) (k : nat) (du : postman) : m unit :=
  match p_soupi du with
  | None => mret tt
  | Some s =>
      (if if_exist_key root "accepted" then answer_accepted root s
       else if if_exist_key root "rejected" then answer_rejected s
       else mret tt);;
      timer ← deref (p_timer du);
      kore_timer_remove timer;;
      update_soup s (set_id 0);;
      remove_letter k
  end.

Definition invoke_for_dummy (ch : loc) (root : J) : m unit :=
  if if_exist_key root "id" then
    du ← find_letter (js_get_uint32 root "id");
    match du with
    | Some (k, du) => answer_letter root k du
    | None => mret tt
    end
  else if if_exist_key root "targetId" && if_exist_key root "event" then
    c ← get_channel ch;
    ee ← deref (ch_ee c);
    EE.ee_emit run_cb fuel ee (id_name (js_get_uint32 root "targetId"))
      (Msg "message from invoke for dummy")
  else mret tt.

(** [while (!LIST_EMPTY(&letters))] *)
Fixpoint pending_close_loop (ls : list postman) : m unit :=
  match ls with
  | [] => mret tt
  | du :: ls =>
      remove_letter 0;;
      (match p_timer du with Some t => kore_timer_remove t | None => mret tt end);;
      pending_close_loop ls
  end.

Definition pending_close : m Z := (ls ← gets letters; pending_close_loop ls);; mret 0%Z.

Definition channel_close (ch : loc) : m unit :=
  pending_close;;
  c ← get_channel ch;
  (match ch_ee c with Some ee => EE.ee_destroy ee | None => mret tt end);;
  modify (set_channels (delete ch)).

Definition channel_new : m (option loc) :=
  modify (set_letters (fun _ => []));;
  ch ← malloc;
  ee ← EE.ee_new;
  modify (set_channels <[ch := Channel (Some ee)]>);;
  mret (Some ch).

Definition on_from_cpp (data : option string) : m unit :=
  match data with
  | None => mret tt
  | Some data =>
      soup_client ← gets md_server;
      match soup_client with
      | None => mret tt
      | Some srv =>
          match load_json_str data with
          | Some cpp_json =>
              v ← get_server srv;
              match sv_ch v with Some ch => invoke_for_dummy ch cpp_json | None => mret tt end
          | None => mret tt
          end
      end
  end.

(** *** soup_server.c *)

Definition create_room (serv : loc) (soupi : loc) (options : string) : m Z :=
  room_id ← random_id;
  let jso_internal := json_object [("roomId", json_integer room_id)] in
  update_soup soupi (set_in_id room_id);;
  v ← get_server serv;
  ch ← deref (sv_ch v);
  get_channel ch;;
  channel_send ch (Some soupi) options jso_internal;;
  mret 0%Z.

Definition emiti (serv : loc) (str : string) (data : ee_arg) : m unit :=
  v ← get_server serv;
  ee ← deref (sv_ee v);
  EE.ee_emit run_cb fuel ee str data.

Definition closi (obj : loc) : m unit := emiti obj "close" (Msg "someone closes the server.").

Definition md_destroy (serv : option loc) : m unit :=
  match serv with
  | None => mret tt
  | Some serv =>
      v ← get_server serv;
      (match sv_ch v with Some ch => channel_close ch | None => mret tt end);;
      (match sv_ee v with Some ee => EE.ee_destroy ee | None => mret tt end);;
      modify (set_servers (delete serv))
  end.

Definition server_new : m (option loc) :=
  obj ← malloc;
  ee ← EE.ee_new;
  ch ← channel_new;
  modify (set_servers <[obj := Server (Some ee) ch]>);;
  mret (Some obj).

Definition soup_init (s : loc) (serv : option loc) : m unit :=
  update_soup s (fun _ => MkSoup serv SOUP_STATE_INIT 0 0 NULL NULL 0 None NULL).

Definition soup_bind_callback (s : loc) (cb : soup_cb) (arg : loc) : m unit :=
  update_soup s (fun v => MkSoup (conn v) (state v) (s_id v) (in_id v) (error v) (s_name v) arg (Some cb) (result v)).

Definition make_room (soupi : option loc) (room_options : string) : m Z :=
  match soupi with
  | None => mret 0%Z
  | Some s =>
      v ← get_soup s;
      match conn v with
      | None => mret 0%Z
      | Some serv =>
          update_soup s (set_name (Str "worker.createRoom"));;
          create_room serv s room_options;;
          mret 1%Z
      end
  end.

(** *** mediasoup.c: the websocket handlers, start and shutdown *)

(** [greeting] is the printed {"type":"ack","msg":"hello!"}, [room_options] the constant of that name. *)
Definition websocket_connect (greeting : option string) (room_options : string) (c : loc) : m unit :=
  match greeting with
  | None => mret tt
  | Some buf =>
      kore_websocket_send c buf;;
      soupi ← malloc;
      modify (set_soups <[soupi := MkSoup None SOUP_STATE_ZERO 0 0 NULL NULL 0 None NULL]>);;
      srv ← gets md_server;
      soup_init soupi srv;;
      soup_bind_callback soupi we_can_work_it_out_f c;;
      modify (set_conns <[c := Some soupi]>);;
      make_room (Some soupi) room_options;;
      mret tt
  end.

(** The requests a client can have fired by name; what is fired is not kept in the table. *)
Definition create_room_request : J :=
  json_object [("id", json_integer 344444433); ("method", json_string "worker.createRoom");
    ("internal", json_object [("roomId", json_integer 35); ("sister", json_string "sister_1")]);
    ("data", json_object [("a", json_integer 1)])].

(** [delete_room_str], [room_dump_str] are the two literals. *)
Definition websocket_message (delete_room_str room_dump_str : string) (c : loc) (data : option string) : m unit :=
  match data with
  | None => mret tt
  | Some data =>
      match load_json_buf data with
      | None => mret tt
      | Some root =>
          type_str ← deref (json_object_get root "type" ≫= json_string_value);
          if bool_decide (type_str = "message") then kore_websocket_send c data
          else if bool_decide (type_str = "create_room") then
            match json_dumps create_room_request with
            | None => mret tt
            | Some buf => to_cpp_fire (Some buf);; mret tt
            end
          else if bool_decide (type_str = "delete_room") then to_cpp_fire (Some delete_room_str);; mret tt
          else if bool_decide (type_str = "room_dump") then to_cpp_fire (Some room_dump_str);; mret tt
          else mret tt
      end
  end.

Definition websocket_disconnect (c : loc) : m unit :=
  cs ← gets conns;
  extra ← live (cs !! c);
  match extra with
  | Some s =>
      update_soup s (set_conn None);;
      modify (set_soups (delete s));;
      modify (set_conns <[c := None]>)
  | None => mret tt
  end.

Definition libuv_task_init : m unit :=
  srv ← server_new; modify (set_md_server (fun _ => srv)).

Definition get_soup_client : m (option loc) := gets md_server.

Definition han : m unit :=
  srv ← gets md_server;
  match srv with
  | Some srv => md_destroy (Some srv);; modify (set_md_server (fun _ => None))
  | None => mret tt
  end.

(** kore fires a timer that is armed: it is one-shot. *)
Definition timer_fires (n : nat) : m unit :=
  t ← gets timers;
  match timer_armed t !! n with
  | Some arg => modify (set_timers (timer_expire n));; on_timeout arg
  | None => mret tt
  end.
End Code.

(** ** Runs of the operations *)

Section Facts.
Context {L T : Type} `{ClibsListLaws L} `{KoreTimersLaws T}.
Implicit Types w : soup_world L T.

Lemma soups_twice s a b w : set_soups <[s := a]> (set_soups <[s := b]> w) = set_soups <[s := a]> w.
Proof. unfold set_soups. cbn. by rewrite insert_insert_eq. Qed.

Lemma get_soup_run w s v : soups w !! s = Some v -> get_soup s w = Done (v, w).
Proof. intros Hs. unfold get_soup. run eq_refl. by rewrite Hs. Qed.

Lemma get_soup_freed w s : soups w !! s = None -> get_soup s w = Crash UseAfterFree.
Proof. intros Hs. unfold get_soup. run eq_refl. by rewrite Hs. Qed.

Lemma update_soup_run w s v f :
  soups w !! s = Some v -> update_soup s f w = Done (tt, set_soups <[s := f v]> w).
Proof. intros Hs. unfold update_soup. by run (get_soup_run _ _ _ Hs). Qed.

Lemma update_soup_again w s v f :
  update_soup s f (set_soups <[s := v]> w) = Done (tt, set_soups <[s := f v]> w).
Proof.
  rewrite (update_soup_run _ s v) by (cbn; apply lookup_insert_eq). by rewrite soups_twice.
Qed.

Lemma get_soup_again w s v : get_soup s (set_soups <[s := v]> w) = Done (v, set_soups <[s := v]> w).
Proof. apply get_soup_run. cbn. apply lookup_insert_eq. Qed.

Lemma soups_same w s v : soups w !! s = Some v -> set_soups <[s := v]> w = w.
Proof. intros Hs. destruct w. unfold set_soups. cbn in *. by rewrite insert_id. Qed.

Definition not_freed (p : cstr) : Prop := p <> Freed.

(** No string of the soup was freed. *)
Definition strings_ok (v : soup) : Prop := not_freed (error v) /\ not_freed (s_name v) /\ not_freed (result v).

Lemma cstr_free_run p w : not_freed p -> cstr_free p w = Done (tt, w).
Proof. by destruct p. Qed.

Lemma soup_set_error_run w s v msg :
  soups w !! s = Some v -> not_freed (error v) ->
  soup_set_error s msg w =
    Done (tt, set_soups <[s := set_state SOUP_STATE_ERROR (set_error (Str msg) v)]> w).
Proof.
  intros Hs He. unfold soup_set_error. run (get_soup_run _ _ _ Hs).
  assert (Hf : (if! negb (is_null (error v)) then cstr_free (error v)) w = Done (tt, w))
    by (destruct (error v); done).
  run Hf. by rewrite (update_soup_run _ _ _ _ Hs).
Qed.

(** The soup after [soup_continue]. *)
Definition continued (v : soup) : soup := set_name NULL (set_result NULL (set_error NULL v)).

Lemma soup_continue_again w s v :
  strings_ok v -> soup_continue s (set_soups <[s := v]> w) = Done (tt, set_soups <[s := continued v]> w).
Proof.
  intros (He & Hn & Hr). unfold soup_continue.
  assert (Hone : forall p upd (v0 : soup), not_freed p -> (p = NULL -> upd v0 = v0) ->
    (if! negb (is_null p) then (cstr_free p;; update_soup s upd)) (set_soups <[s := v0]> w)
    = Done (tt, set_soups <[s := upd v0]> w)).
  { intros p upd v0 Hp Hid. destruct p; [|cbn [is_null negb whenM]|done].
    - cbn. by rewrite Hid.
    - run eq_refl. apply update_soup_again. }
  assert (E1 : error v = NULL -> set_error NULL v = v) by (destruct v; cbn; by intros ->).
  assert (E2 : result v = NULL -> set_result NULL (set_error NULL v) = set_error NULL v)
    by (destruct v; cbn; by intros ->).
  assert (E3 : s_name v = NULL -> continued v = set_result NULL (set_error NULL v))
    by (unfold continued; destruct v; cbn; by intros ->).
  run (get_soup_again _ _ _). run (Hone _ _ _ He E1).
  run (get_soup_again _ _ _). run (Hone (result v) (set_result NULL) (set_error NULL v) Hr E2).
  run (get_soup_again _ _ _). run (Hone (s_name v) (set_name NULL) (set_result NULL (set_error NULL v)) Hn E3).
  run (get_soup_again _ _ _). by destruct (state _).
Qed.

Lemma send_run w c cl s :
  conns w !! c = Some cl -> kore_websocket_send c s w = Done (tt, set_sent (cons (c, s)) w).
Proof. intros Hc. unfold kore_websocket_send. run eq_refl. rewrite Hc. by run eq_refl. Qed.

Context (fuel : nat).

(** The callback on an error: the error is sent and the soup is done. *)
Lemma work_error_run w s v c cl msg :
  conns w !! c = Some cl -> strings_ok v -> state v = SOUP_STATE_ERROR -> error v = Str msg ->
  we_can_work_it_out fuel s c (set_soups <[s := v]> w) =
    Done (tt, set_sent (cons (c, msg)) (set_soups <[s := continued (set_state SOUP_STATE_DONE v)]> w)).
Proof.
  intros Hc Hok Hst He. unfold we_can_work_it_out. run (get_soup_again _ _ _). rewrite Hst, He.
  cbn [is_null negb whenM cstr_read]. rewrite !bind_assoc. rewrite ret_bind.
  run (send_run (set_soups <[s := v]> w) c cl msg Hc).
  change (set_sent (cons (c, msg)) (set_soups <[s := v]> w)) with
    (set_soups <[s := v]> (set_sent (cons (c, msg)) w)).
  run (update_soup_again _ _ _ _). apply soup_continue_again.
  destruct Hok as (? & ? & ?). by destruct v.
Qed.

(** *** The letters *)

Lemma letter_from_hit k l1 p l2 :
  NoDup (p_id <$> l1 ++ p :: l2) -> letter_from (p_id p) k (l1 ++ p :: l2) = Some (k + length l1, p).
Proof.
  revert k. induction l1 as [|q l1 IH]; intros k Hnd; cbn.
  - rewrite Z.eqb_refl. do 2 f_equal. lia.
  - cbn in Hnd. apply NoDup_cons in Hnd as [Hq Hnd]. rewrite fmap_app in Hq. cbn in Hq.
    destruct (Z.eqb_spec (p_id q) (p_id p)) as [Heq|]; [destruct Hq; rewrite Heq; set_solver|].
    rewrite IH by done. do 2 f_equal. lia.
Qed.

Lemma letter_from_miss id k ls : id ∉ p_id <$> ls -> letter_from id k ls = None.
Proof.
  revert k. induction ls as [|q ls IH]; intros k Hid; cbn; [done|]. cbn in Hid.
  destruct (Z.eqb_spec (p_id q) id); [set_solver|]. apply IH. set_solver.
Qed.

Definition armed w : gmap nat loc := timer_armed (timers w).

(** A letter belongs to a live soup that bears its identifier, and its timer is armed for that soup. *)
Definition letter_ok w (p : postman) : Prop :=
  exists s v t, p = Postman (s_id v) (Some s) (Some t) /\ s_id v <> 0%Z /\
    soups w !! s = Some v /\ armed w !! t = Some s.

(** The invariant of the request table: distinct identifiers, distinct timers, and a
    timer is armed exactly for each letter. *)
Definition letters_ok w : Prop :=
  NoDup (p_id <$> letters w) /\ NoDup (p_timer <$> letters w) /\ Forall (letter_ok w) (letters w) /\
  forall t s, armed w !! t = Some s -> Some t ∈ p_timer <$> letters w.

Lemma letters_ok_remove w w' l1 l2 s v v' t :
  letters_ok w -> letters w = l1 ++ Postman (s_id v) (Some s) (Some t) :: l2 ->
  soups w !! s = Some v -> letters w' = l1 ++ l2 -> armed w' = delete t (armed w) ->
  soups w' = <[s := v']> (soups w) -> letters_ok w'.
Proof.
  intros (Hid & Htm & Hall & Hex) Hls Hs Hls' Ha Hs'.
  rewrite Hls in Hid, Htm, Hall, Hex.
  rewrite fmap_app, fmap_cons in Hid. cbn in Hid. rewrite fmap_app, fmap_cons in Htm. cbn in Htm.
  rewrite Forall_app, Forall_cons in Hall. destruct Hall as (Hall1 & _ & Hall2).
  assert (Hidn : s_id v ∉ (p_id <$> l1) ++ (p_id <$> l2) /\ NoDup ((p_id <$> l1) ++ (p_id <$> l2))).
  { rewrite <- Permutation_middle in Hid. by apply NoDup_cons in Hid. }
  assert (Htmn : Some t ∉ (p_timer <$> l1) ++ (p_timer <$> l2) /\
                 NoDup ((p_timer <$> l1) ++ (p_timer <$> l2))).
  { rewrite <- Permutation_middle in Htm. by apply NoDup_cons in Htm. }
  unfold letters_ok. rewrite Hls', !fmap_app. split_and!; [apply Hidn|apply Htmn| |].
  - assert (Hk : Forall (letter_ok w) (l1 ++ l2)) by (by apply Forall_app).
    rewrite Forall_forall in Hk |- *. intros p Hp. destruct (Hk p Hp) as (s1 & v1 & t1 & -> & Hn & Hs1 & Ht1).
    assert (s <> s1).
    { intros <-. rewrite Hs in Hs1. injection Hs1 as <-. apply (proj1 Hidn). rewrite <- (fmap_app p_id).
      apply list_elem_of_fmap. by exists (Postman (s_id v) (Some s) (Some t1)). }
    assert (t <> t1).
    { intros <-. apply (proj1 Htmn). rewrite <- (fmap_app p_timer).
      apply list_elem_of_fmap. by exists (Postman (s_id v1) (Some s1) (Some t)). }
    exists s1, v1, t1. rewrite Hs', Ha, !lookup_insert_ne, lookup_delete_ne by done. done.
  - intros t1 s1. rewrite Ha. intros (Hne & Ht1)%lookup_delete_Some. apply Hex in Ht1. rewrite !fmap_app in Ht1. cbn in Ht1. set_solver.
Qed.

(** The client of a soup: its callback is bound and its connection is open. *)
Definition client_ok w (v : soup) : Prop :=
  strings_ok v /\ s_cb v = Some we_can_work_it_out_f /\ is_Some (conns w !! s_arg v).

(** A soup that got an error, after its callback. *)
Definition failed (msg : string) (v : soup) : soup :=
  continued (set_state SOUP_STATE_DONE (set_state SOUP_STATE_ERROR (set_error (Str msg) v))).

Lemma fail_run w s v msg :
  soups w !! s = Some v -> client_ok w v ->
  (soup_set_error s msg;; call_cb fuel s) w =
    Done (tt, set_sent (cons (s_arg v, msg)) (set_soups <[s := failed msg v]> w)).
Proof.
  intros Hs (Hstr & Hcb & [cl Hc]). run (soup_set_error_run _ _ _ _ Hs (proj1 Hstr)).
  unfold call_cb. run (get_soup_again _ _ _). cbn [s_cb set_state set_error]. rewrite Hcb. run eq_refl.
  rewrite (work_error_run w s _ _ cl msg); [done|exact Hc| |done|done].
  destruct Hstr as (? & ? & ?). by split_and!.
Qed.

Lemma find_letter_hit w l1 p l2 :
  NoDup (p_id <$> letters w) -> letters w = l1 ++ p :: l2 ->
  find_letter (p_id p) w = Done (Some (length l1, p), w).
Proof.
  intros Hnd Hls. unfold find_letter. run eq_refl. rewrite Hls in Hnd |- *.
  by rewrite letter_from_hit.
Qed.

(** the timeout of a request sends the error to its client, takes the request's letter out
    of the table and no other, and leaves the table sound: the letters left have distinct
    identifiers, live soups and exactly the armed timers. *)
Theorem on_timeout_removes_letter w l1 l2 s v t :
  letters_ok w -> letters w = l1 ++ Postman (s_id v) (Some s) (Some t) :: l2 ->
  soups w !! s = Some v -> client_ok w v ->
  exists w', timer_fires fuel t w = Done (tt, w') /\ letters_ok w' /\ letters w' = l1 ++ l2 /\
    sent w' = (s_arg v, "***TIMEOUT!***") :: sent w /\ armed w' = delete t (armed w) /\
    soups w' = <[s := set_id 0 (failed "***TIMEOUT!***" v)]> (soups w).
Proof.
  intros Hok Hls Hs Hcl. pose proof Hok as (Hid & _ & Hall & _).
  assert (Ht : armed w !! t = Some s).
  { rewrite Hls, Forall_app, Forall_cons in Hall. destruct Hall as (_ & (s1 & v1 & t1 & [= _ <- <-] & _ & _ & Ha) & _).
    done. }
  unfold timer_fires. run eq_refl. fold (armed w). rewrite Ht. run eq_refl.
  set (w1 := set_timers (timer_expire t) w). unfold on_timeout.
  assert (Hf := fail_run w1 s v "***TIMEOUT!***" Hs Hcl). rewrite <- bind_assoc. run Hf.
  set (w2 := set_sent _ _). run (get_soup_run w2 s _ (lookup_insert_eq _ _ _)).
  change (s_id (failed "***TIMEOUT!***" v)) with (p_id (Postman (s_id v) (Some s) (Some t))).
  run (find_letter_hit w2 l1 _ l2 Hid Hls). run eq_refl.
  rewrite (update_soup_run _ s (failed "***TIMEOUT!***" v)) by (cbn; apply lookup_insert_eq).
  eexists. split; [done|]. cbn. rewrite insert_insert_eq, Hls, delete_middle.
  assert (Ha : timer_armed (timer_expire t (timers w)) = delete t (armed w)) by apply timer_expire_law.
  split_and!; [|done|done|exact Ha|done].
  eapply (letters_ok_remove w _ l1 l2 s v _ t Hok Hls Hs); [cbn; by rewrite Hls, delete_middle|exact Ha|].
  cbn. by rewrite insert_insert_eq.
Qed.

Context {J : Type} `{JanssonLaws J}.

(** a client that disconnects while its request is pending leaves the letter and the timer
    behind, pointing to the freed soup: the timeout, and an answer too, then use it. *)
Theorem disconnect_pending_crashes w l1 l2 s v t c root ch w' :
  letters_ok w -> letters w = l1 ++ Postman (s_id v) (Some s) (Some t) :: l2 ->
  soups w !! s = Some v -> conns w !! c = Some (Some s) ->
  websocket_disconnect c w = Done (tt, w') ->
  timer_fires fuel t w' = Crash UseAfterFree /\
  (if_exist_key root "id" = true -> js_get_uint32 root "id" = s_id v ->
   if_exist_key root "accepted" = true -> invoke_for_dummy fuel ch root w' = Crash UseAfterFree).
Proof.
  intros Hok Hls Hs Hc Hr. pose proof Hok as (Hid & _ & Hall & _).
  assert (Ht : armed w !! t = Some s).
  { rewrite Hls, Forall_app, Forall_cons in Hall. destruct Hall as (_ & (s1 & v1 & t1 & [= _ <- <-] & _ & _ & Ha) & _).
    done. }
  unfold websocket_disconnect in Hr. run eq_refl in Hr. rewrite Hc in Hr. run eq_refl in Hr.
  run (update_soup_run w s v _ Hs) in Hr. run eq_refl in Hr. injection Hr as <-.
  set (w' := set_conns _ _).
  assert (Hgone : soups w' !! s = None) by (cbn; apply lookup_delete_eq). split.
  - unfold timer_fires. run eq_refl. cbn. fold (armed w). rewrite Ht. run eq_refl. cbn.
    unfold on_timeout, soup_set_error. rewrite bind_assoc. rewrite (bind_crash _ _ _ UseAfterFree); [done|].
    by apply get_soup_freed.
  - intros Hk1 Hk2 Hk3. unfold invoke_for_dummy. rewrite Hk1, Hk2.
    run (find_letter_hit w' l1 (Postman (s_id v) (Some s) (Some t)) l2 Hid Hls).
    unfold answer_letter. cbn [p_soupi]. rewrite Hk3. unfold answer_accepted. rewrite bind_assoc.
    rewrite (bind_crash _ _ _ UseAfterFree); [done|]. by apply get_soup_freed.
Qed.

(** *** Identifiers of requests *)

Context (RAND_MAX : Z).

Definition id_of_draw (r : Z) : Z := (r mod 90000000 + 10000000)%Z.

(** A result of [rand()] that gives an identifier no letter has. *)
Definition good_draw w (r : Z) : Prop :=
  (r < rand_limit RAND_MAX 90000000)%Z /\ id_of_draw r ∉ p_id <$> letters w.

Definition draws_ok w : Prop :=
  (89999999 <= RAND_MAX < 2 ^ 31)%Z /\ Forall (is_draw RAND_MAX) (draws w) /\ Exists (good_draw w) (draws w).

Lemma random_id_run w ds r rest :
  (89999999 <= RAND_MAX < 2 ^ 31)%Z -> draws w = ds ->
  rand_below (rand_limit RAND_MAX 90000000) ds = Done (r, rest) ->
  random_id RAND_MAX w = Done (id_of_draw r, set_draws (fun _ => rest) w) /\
  (10000000 <= id_of_draw r <= 99999999)%Z.
Proof.
  intros HR Hds Hrun. unfold random_id, random_u32, rand32. rewrite Hds.
  rewrite (rand32_with_value RAND_MAX) by lia. change (99999999 - 10000000 + 1)%Z with 90000000%Z.
  rewrite Hrun. destruct (mod_range_value 10000000 99999999 r) as [He Hb]; [lia|lia|].
  change (99999999 - 10000000 + 1)%Z with 90000000%Z in *. by rewrite He.
Qed.

Lemma id_lookup_run w id :
  id_lookup id w = Done ((if decide (id ∈ p_id <$> letters w) then -1 else 0)%Z, w).
Proof.
  unfold id_lookup. run eq_refl. destruct (existsb _ _) eqn:He.
  - rewrite decide_True; [done|]. apply existsb_exists in He as (p & Hp & Hid).
    apply list_elem_of_fmap. exists p. split; [lia|by apply list_elem_of_In].
  - rewrite decide_False; [done|]. intros (p & -> & Hp)%list_elem_of_fmap.
    assert (existsb (fun q => p_id q =? p_id p)%Z (letters w) = true); [|congruence].
    apply existsb_exists. exists p. split; [by apply list_elem_of_In|lia].
Qed.

Lemma draw_req_id_run n w :
  draws_ok w -> length (draws w) <= n ->
  exists id ds, draw_req_id RAND_MAX n w = Done (id, set_draws (fun _ => ds) w) /\
    (10000000 <= id <= 99999999)%Z /\ id ∉ p_id <$> letters w.
Proof.
  revert w. induction n as [|n IH]; intros w (HR & Hall & Hex) Hn.
  { destruct (draws w); [by inversion Hex|]. cbn in Hn. lia. }
  assert (Hex1 : Exists (fun r => (r < rand_limit RAND_MAX 90000000)%Z) (draws w))
    by (eapply Exists_impl; [exact Hex|]; by intros r [? _]).
  destruct (rand_below_total RAND_MAX ltac:(lia) _ _ Hall Hex1) as (r & rest & Hrun).
  destruct (rand_below_spec RAND_MAX ltac:(lia) _ _ _ _ Hall Hrun) as (_ & _ & sk & Hds & Hsk).
  destruct (random_id_run w _ r rest HR eq_refl Hrun) as [Hid Hb]. cbn [draw_req_id]. run Hid.
  run (id_lookup_run _ _). cbn [letters set_draws].
  destruct (decide (id_of_draw r ∈ p_id <$> letters w)) as [Hin|Hin]; cbn [Z.eqb].
  - destruct (IH (set_draws (fun _ => rest) w)) as (id & ds & Hrun' & Hb' & Hn').
    + split; [done|]. cbn. rewrite Hds in Hall, Hex. apply Forall_app in Hall as [_ Hall].
      apply Forall_cons in Hall as [_ Hall]. split; [done|].
      apply Exists_app in Hex as [Hex|Hex].
      { rewrite Forall_forall in Hsk. apply Exists_exists in Hex as (x & Hx & Hlt & _).
        apply Hsk in Hx. lia. }
      apply Exists_cons in Hex as [[_ Hno]|Hex]; [done|exact Hex].
    + cbn. rewrite Hds, length_app in Hn. cbn in Hn. lia.
    + exists id, ds. split; [exact Hrun'|done].
  - destruct (Z.eqb_spec (id_of_draw r) 0) as [Hz|Hz]; [lia|]. exists (id_of_draw r), rest. done.
Qed.

(** *** Sending a request *)

Context (fire_rc : soup_world L T -> Z).

(** A soup whose request can be sent: named, with no request pending. *)
Definition sendable w (s : loc) (v : soup) (nm : string) : Prop :=
  soups w !! s = Some v /\ s_id v = 0%Z /\ s_name v = Str nm /\ client_ok w v.

Definition waiting (id : Z) (v : soup) : soup := set_state SOUP_STATE_WAIT (set_id id v).

(** The world once the letter is in the table. *)
Lemma channel_send_posted w ch s v nm options internal :
  draws_ok w -> length (draws w) <= fuel -> sendable w s v nm ->
  exists id t w1, letters w1 = Postman id (Some s) (Some t) :: letters w /\
    (10000000 <= id <= 99999999)%Z /\ id ∉ p_id <$> letters w /\
    armed w !! t = None /\ armed w1 = <[t := s]> (armed w) /\
    soups w1 = <[s := waiting id v]> (soups w) /\ conns w1 = conns w /\ sent w1 = sent w /\ to_cpp w1 = to_cpp w /\
    channel_send RAND_MAX fire_rc fuel ch (Some s) options internal w =
    (rc ← to_cpp_fire fire_rc (json_dumps (request_object nm id internal (load_json_str options)));
     if! negb (rc =? 0)%Z then
       (remove_letter 0;;
        kore_timer_remove t;;
        soup_set_error s "data to send failed.";;
        call_cb fuel s;;
        update_soup s (set_id 0))) w1.
Proof.
  intros Hd Hn (Hs & Hz & Hnm & _). destruct (draw_req_id_run fuel w Hd Hn) as (id & ds & Hid & Hb & Hni).
  unfold channel_send. run eq_refl. run (get_soup_run _ _ _ Hs). rewrite Hz. cbn [Z.eqb].
  run Hid. rewrite Hnm. run eq_refl. run (update_soup_run (set_draws (fun _ => ds) w) s v _ Hs).
  set (w2 := set_soups _ _). destruct (timer_add s (timers w2)) as [t ti] eqn:Ht.
  assert (Hadd : kore_timer_add s w2 = Done (t, set_timers (fun _ => ti) w2))
    by (unfold kore_timer_add; by rewrite Ht).
  run Hadd. run eq_refl. apply timer_add_law in Ht as [Ht1 Ht2].
  eexists id, t, _. split_and!; [..|reflexivity]; try done; lia.
Qed.

Lemma letters_ok_add w w1 s v id t :
  letters_ok w -> soups w !! s = Some v -> s_id v = 0%Z -> id <> 0%Z -> id ∉ p_id <$> letters w ->
  letters w1 = Postman id (Some s) (Some t) :: letters w ->
  armed w !! t = None -> armed w1 = <[t := s]> (armed w) ->
  soups w1 = <[s := waiting id v]> (soups w) -> letters_ok w1.
Proof.
  intros (Hid & Htm & Hall & Hex) Hs Hz Hne Hni Hls Hta Ha Hs1.
  unfold letters_ok. rewrite Hls, !fmap_cons. cbn. rewrite Forall_forall in Hall.
  assert (Hnt : Some t ∉ p_timer <$> letters w).
  { intros (p & Hpt & Hp)%list_elem_of_fmap. destruct (Hall p Hp) as (s1 & v1 & t1 & -> & _ & _ & Ht1).
    cbn in Hpt. congruence. }
  split_and!; [by constructor|by constructor| |].
  - apply Forall_cons. split.
    + exists s, (waiting id v), t. rewrite Hs1, Ha, !lookup_insert_eq. by split_and!.
    + rewrite Forall_forall. intros p Hp. destruct (Hall p Hp) as (s1 & v1 & t1 & -> & Hn1 & Hv1 & Ht1).
      exists s1, v1, t1. rewrite Hs1, Ha, !lookup_insert_ne; [done| |]; intros <-; congruence.
  - intros t1 s1. rewrite Ha. intros [[<- <-]|[_ Ht1]]%lookup_insert_Some; [by left|].
    right. by eapply Hex.
Qed.

(** sending a request.  When the other thread takes it, the request waits in the table
    under an identifier of 8 digits that no pending request has, with its own timer, and
    what is sent is the request with that identifier, the soup's name and the internal
    data; the table stays sound. *)
Theorem channel_send_queues w ch s v nm options internal :
  letters_ok w -> draws_ok w -> length (draws w) <= fuel -> sendable w s v nm ->
  (forall w1, fire_rc w1 = 0%Z) ->
  exists id t w', channel_send RAND_MAX fire_rc fuel ch (Some s) options internal w = Done (tt, w') /\
    letters_ok w' /\ letters w' = Postman id (Some s) (Some t) :: letters w /\
    (10000000 <= id <= 99999999)%Z /\ id ∉ p_id <$> letters w /\ armed w' = <[t := s]> (armed w) /\
    soups w' = <[s := waiting id v]> (soups w) /\
    to_cpp w' = json_dumps (request_object nm id internal (load_json_str options)) :: to_cpp w.
Proof.
  intros Hok Hd Hn Hse Hrc. destruct (channel_send_posted w ch s v nm options internal Hd Hn Hse)
    as (id & t & w1 & Hls & Hb & Hni & Hta & Ha & Hs1 & _ & _ & Hcpp & ->).
  unfold to_cpp_fire. rewrite bind_assoc. run eq_refl. rewrite Hrc. cbn [Z.eqb whenM].
  exists id, t. eexists. split; [reflexivity|]. cbn. rewrite Hcpp.
  destruct Hse as (Hs & Hz & _). split_and!; try done; [|lia..].
  eapply (letters_ok_add w _ s v id t Hok Hs Hz); try done. lia.
Qed.

(** a request the other thread does not take is undone: the table and the timers are as
    before, and the client is sent the error. *)
Theorem channel_send_refused w ch s v nm options internal rc :
  letters_ok w -> draws_ok w -> length (draws w) <= fuel -> sendable w s v nm ->
  (forall w1, fire_rc w1 = rc) -> rc <> 0%Z ->
  exists w', channel_send RAND_MAX fire_rc fuel ch (Some s) options internal w = Done (tt, w') /\
    letters w' = letters w /\ armed w' = armed w /\ to_cpp w' = to_cpp w /\
    sent w' = (s_arg v, "data to send failed.") :: sent w /\
    (exists v', soups w' = <[s := v']> (soups w) /\ s_id v' = 0%Z /\ state v' = SOUP_STATE_DONE).
Proof.
  intros Hok Hd Hn Hse Hrc Hne. destruct (channel_send_posted w ch s v nm options internal Hd Hn Hse)
    as (id & t & w1 & Hls & Hb & Hni & Hta & Ha & Hs1 & Hc & Hse1 & Hcpp & ->).
  unfold to_cpp_fire. rewrite bind_assoc. run eq_refl. rewrite Hrc.
  assert (Hz : (rc =? 0)%Z = false) by lia. rewrite Hz, bind_assoc. run eq_refl. rewrite ret_bind, Hz.
  cbn [negb whenM]. run eq_refl. run eq_refl. set (w2 := set_timers _ _). destruct Hse as (Hs & _ & _ & Hcl).
  assert (Hs2 : soups w2 !! s = Some (waiting id v)) by (cbn; rewrite Hs1; apply lookup_insert_eq).
  assert (Hcl2 : client_ok w2 (waiting id v)).
  { destruct Hcl as (Hstr & Hcb & Hco). split_and!; [done|done|]. cbn. by rewrite Hc. }
  assert (Hf := fail_run w2 s _ "data to send failed." Hs2 Hcl2). rewrite <- bind_assoc. run Hf.
  set (w3 := set_sent _ _).
  rewrite (update_soup_run w3 s (failed "data to send failed." (waiting id v))) by (cbn; apply lookup_insert_eq).
  eexists. split; [done|]. cbn. rewrite Hls, Hse1, Hcpp, Hs1. split_and!; [done| |done|done|].
  - unfold armed. cbn. rewrite timer_remove_law. fold (armed w1). by rewrite Ha, delete_insert_id.
  - eexists. rewrite !insert_insert_eq. split; [done|done].
Qed.

(** *** Answers *)

(** The channel [ch] of the client's server, and what its emitter holds. *)
Definition serving w (srv ch ee : loc) (evs : list (EE.ev_rep ee_fn loc)) : Prop :=
  md_server w = Some srv /\ (exists e, servers w !! srv = Some (Server e (Some ch))) /\
  channels w !! ch = Some (Channel (Some ee)) /\ EE.ee_rep (ee_st w) ee evs /\
  EE.listeners_of evs EE.EE_NEW_LISTENER = [].

(** The listener a room puts on the channel's emitter. *)
Definition room_listener (pass : loc) : EE.ee_handler_t ee_fn loc :=
  EE.Handler on_room_targetId_f pass false.

Lemma room_new_run w srv ch ee evs room_id :
  serving w srv ch ee evs ->
  exists r pass s' evs', room_new fuel room_id (Some ch) w =
      Done (Some r, set_ee_st (fun _ => s') (set_passes <[pass := PassData ch r (id_name room_id)]>
        (set_heap_next (fun _ => S pass) (set_rooms <[r := MkRoom room_id (Some ch)]> w)))) /\
    EE.ee_rep s' ee evs' /\
    forall n, EE.listeners_of evs' n =
      if decide (id_name room_id = n) then EE.listeners_of evs n ++ [room_listener pass]
      else EE.listeners_of evs n.
Proof.
  intros (_ & _ & Hch & Hrep & Hno). set (r := heap_next w).
  set (w1 := set_passes <[S r := PassData ch r (id_name room_id)]>
      (set_heap_next (fun _ => S (S r)) (set_rooms <[r := MkRoom room_id (Some ch)]> w))).
  assert (Hrep1 : EE.ee_rep (EE.ee_get w1) ee evs) by exact Hrep.
  destruct (EE.ee_on_run NewListener (run_cb (L := L) (T := T)) fuel w1
    ee evs (id_name room_id) false on_room_targetId_f (S r) Hrep1 Hno) as (s' & evs' & Hrun & Hrep' & Hl).
  exists r, (S r), s', evs'. split; [|done]. unfold room_new, malloc. rewrite bind_assoc. run eq_refl.
  rewrite bind_assoc. run eq_refl. run eq_refl. run eq_refl. rewrite bind_assoc. run eq_refl.
  rewrite bind_assoc. run eq_refl. run eq_refl. run eq_refl. unfold get_channel at 1. rewrite bind_assoc.
  run eq_refl. cbn [channels set_passes set_heap_next set_rooms]. rewrite Hch. run eq_refl. run eq_refl.
  fold r. unfold EE.ee_on. by run Hrun.
Qed.

(** The callback on an accepted answer to "worker.createRoom". *)
Lemma work_result_run w srv ch ee evs s v c cl data :
  serving w srv ch ee evs -> conns w !! c = Some cl -> state v = SOUP_STATE_RESULT ->
  result v = Str data -> s_name v = Str "worker.createRoom" -> not_freed (error v) ->
  exists r pass w' evs', we_can_work_it_out fuel s c (set_soups <[s := v]> w) = Done (tt, w') /\
    sent w' = (c, data) :: sent w /\ rooms w' = <[r := MkRoom (in_id v) (Some ch)]> (rooms w) /\
    passes w' = <[pass := PassData ch r (id_name (in_id v))]> (passes w) /\
    soups w' = <[s := continued (set_state SOUP_STATE_DONE v)]> (soups w) /\
    letters w' = letters w /\ timers w' = timers w /\ EE.ee_rep (ee_st w') ee evs' /\
    forall n, EE.listeners_of evs' n =
      if decide (id_name (in_id v) = n) then EE.listeners_of evs n ++ [room_listener pass]
      else EE.listeners_of evs n.
Proof.
  intros Hse Hc Hst Hre Hnm He. pose proof Hse as (Hmd & (e & Hsrv) & Hch & Hrep & Hno).
  unfold we_can_work_it_out. run (get_soup_again _ _ _). rewrite Hst. unfold work_result.
  rewrite Hre, Hnm. cbn [cstr_read]. rewrite !bind_assoc, ret_bind.
  rewrite bind_assoc. run (send_run (set_soups <[s := v]> w) c cl data Hc).
  set (w1 := set_sent (cons (c, data)) (set_soups <[s := v]> w)). rewrite bind_assoc, ret_bind.
  rewrite bool_decide_true by done. cbn [whenM]. rewrite !bind_assoc. run eq_refl.
  cbn [md_server w1 set_sent set_soups]. rewrite Hmd, bind_assoc. run eq_refl.
  unfold get_server. rewrite !bind_assoc. run eq_refl.
  cbn [servers w1 set_sent set_soups]. rewrite Hsrv. run eq_refl. cbn [sv_ch].
  destruct (room_new_run w1 srv ch ee evs (in_id v)) as (r & pass & s' & evs' & Hrun & Hrep' & Hl);
    [by split_and!; try done; exists e|].
  rewrite !bind_assoc. run Hrun. run eq_refl.
  set (w2 := set_tmp_room _ _).
  assert (Hs2 : soups w2 !! s = Some v) by apply lookup_insert_eq.
  run (update_soup_run w2 s v _ Hs2). rewrite soup_continue_again; [|by destruct v; cbn in *; subst].
  exists r, pass. eexists _, evs'. split; [reflexivity|].
  cbn [sent rooms passes soups letters timers ee_st set_soups w2 set_tmp_room set_ee_st set_passes
       set_heap_next set_rooms w1 set_sent]. rewrite insert_insert_eq. by split_and!.
Qed.

(** The string the client gets for an accepted answer. *)
Definition answer_data (root : J) : string :=
  match json_object_get root "data" with
  | Some d => default "some data if any" (json_dumps d)
  | None => "some data if any"
  end.

(** C25: an accepted answer to a pending room request goes to the client that asked, whose
    room is then registered on the channel's emitter under its identifier's name; the
    request's letter leaves the table with its timer, every other letter stays. *)
Theorem answer_completes_request w srv ch ee evs l1 l2 s v t root :
  letters_ok w -> letters w = l1 ++ Postman (s_id v) (Some s) (Some t) :: l2 ->
  soups w !! s = Some v -> client_ok w v -> s_name v = Str "worker.createRoom" ->
  serving w srv ch ee evs ->
  if_exist_key root "id" = true -> js_get_uint32 root "id" = s_id v ->
  if_exist_key root "accepted" = true ->
  exists w' r pass evs', invoke_for_dummy fuel ch root w = Done (tt, w') /\
    letters_ok w' /\ letters w' = l1 ++ l2 /\ armed w' = delete t (armed w) /\
    sent w' = (s_arg v, answer_data root) :: sent w /\
    rooms w' = <[r := MkRoom (in_id v) (Some ch)]> (rooms w) /\
    passes w' !! pass = Some (PassData ch r (id_name (in_id v))) /\
    EE.ee_rep (ee_st w') ee evs' /\
    EE.listeners_of evs' (id_name (in_id v)) =
      EE.listeners_of evs (id_name (in_id v)) ++ [room_listener pass].
Proof.
  intros Hok Hls Hs (Hstr & Hcb & [cl Hc]) Hnm Hse Hk1 Hk2 Hk3. pose proof Hok as (Hid & _).
  set (v1 := set_state SOUP_STATE_RESULT (set_result (Str (answer_data root)) v)).
  assert (Hacc : answer_accepted fuel root s w = we_can_work_it_out fuel s (s_arg v) (set_soups <[s := v1]> w)).
  { unfold answer_accepted. run (get_soup_run _ _ _ Hs).
    assert (Hf : (if! negb (is_null (result v)) then cstr_free (result v)) w = Done (tt, w))
      by (destruct Hstr as (_ & _ & Hr); by destruct (result v)).
    run Hf. fold (answer_data root). run (update_soup_run _ _ _ _ Hs). fold v1.
    run (get_soup_again _ _ _). cbn [s_cb v1 set_state set_result]. rewrite Hcb. unfold call_cb.
    run (get_soup_again _ _ _). cbn [s_cb v1 set_state set_result]. rewrite Hcb. run eq_refl. done. }
  destruct (work_result_run w srv ch ee evs s v1 (s_arg v) cl (answer_data root))
    as (r & pass & w1 & evs' & Hrun & Hse1 & Hro & Hpa & Hso & Hle & Hti & Hrep & Hl); try done;
    [apply Hstr|].
  unfold invoke_for_dummy. rewrite Hk1, Hk2.
  run (find_letter_hit w l1 (Postman (s_id v) (Some s) (Some t)) l2 Hid Hls).
  unfold answer_letter. cbn [p_soupi p_timer]. rewrite Hk3. rewrite Hrun in Hacc. run Hacc. run eq_refl. run eq_refl.
  set (w2 := set_timers _ _).
  assert (Hs2 : soups w2 !! s = Some (continued (set_state SOUP_STATE_DONE v1)))
    by (cbn; rewrite Hso; apply lookup_insert_eq).
  run (update_soup_run _ _ _ _ Hs2). eexists _, r, pass, evs'. split; [done|]. cbn.
  assert (Ha : timer_armed (timer_remove t (timers w1)) = delete t (armed w))
    by (rewrite timer_remove_law, Hti; done).
  assert (Hlw : delete (length l1) (letters w1) = l1 ++ l2) by (by rewrite Hle, Hls, delete_middle).
  split_and!; [|exact Hlw|exact Ha|done|exact Hro| |exact Hrep|].
  - eapply (letters_ok_remove w _ l1 l2 s v _ t Hok Hls Hs); [exact Hlw|exact Ha|].
    cbn. by rewrite Hso, insert_insert_eq.
  - rewrite Hpa. apply lookup_insert_eq.
  - rewrite Hl. cbn. by rewrite decide_True.
Qed.

(** An answer nobody waits for changes nothing. *)
Theorem answer_unknown_ignored w ch root :
  if_exist_key root "id" = true -> js_get_uint32 root "id" ∉ p_id <$> letters w ->
  invoke_for_dummy fuel ch root w = Done (tt, w).
Proof.
  intros Hk Hn. unfold invoke_for_dummy, find_letter. rewrite Hk, bind_assoc. run eq_refl.
  by rewrite letter_from_miss.
Qed.

(** the event that ends a room: the room's handler removes all listeners of the event
    being emitted, itself included, and the emit uses the freed handler. *)
Theorem room_event_crashes w srv ch ee evs root pass r nm hs :
  serving w srv ch ee evs -> 0 < fuel ->
  if_exist_key root "id" = false -> if_exist_key root "targetId" = true ->
  if_exist_key root "event" = true -> id_name (js_get_uint32 root "targetId") = nm ->
  passes w !! pass = Some (PassData ch r nm) -> is_Some (rooms w !! r) ->
  EE.listeners_of evs nm = room_listener pass :: hs ->
  invoke_for_dummy fuel ch root w = Crash UseAfterFree.
Proof.
  intros (_ & _ & Hch & Hrep & _) Hfu Hk1 Hk2 Hk3 Hnm Hpa [rm Hr] Hls.
  unfold invoke_for_dummy. rewrite Hk1, Hk2, Hk3, Hnm. cbn [andb]. unfold get_channel.
  rewrite bind_assoc. run eq_refl. rewrite Hch. run eq_refl. run eq_refl.
  assert (Hin : nm ∈ EE.e_name <$> evs).
  { destruct (decide (nm ∈ EE.e_name <$> evs)) as [?|Hn]; [done|].
    by rewrite (EE.listeners_miss _ _ Hn) in Hls. }
  apply list_elem_of_fmap in Hin as (e & -> & He). apply list_elem_of_split in He as (E1 & E2 & ->).
  assert (Hrep1 : EE.ee_rep (EE.ee_get w) ee (E1 ++ e :: E2)) by exact Hrep.
  destruct (EE.remove_all_hit w ee E1 e E2 Hrep1) as (s' & Hrem & _).
  eapply (EE.ee_emit_remove_all_uaf (run_cb (L := L) (T := T)) fuel w _ w); [exact Hrep1|exact Hls|done|done|exact Hrem| |].
  - cbn [EE.cb EE.extraArg room_listener run_cb]. unfold on_room_targetId, get_pass, get_channel.
    rewrite bind_assoc. run eq_refl. rewrite Hpa. run eq_refl. rewrite bind_assoc. run eq_refl.
    cbn [pd_ch pd_str pd_r]. rewrite Hch. run eq_refl. run eq_refl. run Hrem.
    unfold room_close, get_room. rewrite !bind_assoc. run eq_refl. cbn. rewrite Hr. reflexivity.
  - done.
Qed.

(** A client's message that is JSON without a string member "type" stops the worker:
    [json_string_value] gives null and [strcmp] reads it. *)
Theorem websocket_message_untyped_crashes w c data root d1 d2 :
  load_json_buf data = Some root -> json_object_get root "type" ≫= json_string_value = None ->
  websocket_message fire_rc d1 d2 c (Some data) w = Crash NullDeref.
Proof. intros Hl Ht. unfold websocket_message. by rewrite Hl, Ht. Qed.

(** *** Shutdown *)

Lemma pending_close_loop_run w ls rest :
  letters w = ls ++ rest ->
  exists w', pending_close_loop ls w = Done (tt, w') /\ letters w' = rest /\
    armed w' = foldl (fun a p => match p_timer p with Some t => delete t a | None => a end) (armed w) ls.
Proof.
  revert w. induction ls as [|[id so ti] ls IH]; intros w Hls; [by exists w|].
  cbn [pending_close_loop p_timer]. run eq_refl. destruct ti as [t|].
  - run eq_refl. destruct (IH (set_timers (timer_remove t) (set_letters (delete 0) w))) as (w' & Hrun & Hl & Ha).
    { cbn. by rewrite Hls. }
    exists w'. split_and!; [done|done|]. rewrite Ha. unfold armed. cbn. by rewrite timer_remove_law.
  - run eq_refl. destruct (IH (set_letters (delete 0) w)) as (w' & Hrun & Hl & Ha).
    { cbn. by rewrite Hls. }
    exists w'. by split_and!.
Qed.

(** closing the channel: every pending request is dropped and every timer disarmed, so no
    timeout fires into a soup after the shutdown. *)
Theorem pending_close_disarms w :
  letters_ok w ->
  exists w', pending_close w = Done (0%Z, w') /\ letters w' = [] /\ armed w' = ∅ /\ letters_ok w'.
Proof.
  intros (_ & _ & _ & Hex). destruct (pending_close_loop_run w (letters w) []) as (w' & Hrun & Hl & Ha);
    [by rewrite app_nil_r|].
  assert (Hemp : armed w' = ∅).
  { rewrite Ha. clear -Hex. revert Hex. generalize (armed w). induction (letters w) as [|p ls IH]; intros a Hex; cbn.
    - apply map_empty. intros t. destruct (a !! t) as [s|] eqn:Ht; [|done].
      by apply Hex, not_elem_of_nil in Ht.
    - apply IH. intros t s. destruct p as [id so [t'|]]; cbn in *.
      + intros (Hne & Ht)%lookup_delete_Some. apply Hex in Ht. set_solver.
      + intros Ht%Hex. set_solver. }
  exists w'. split_and!; [|done|done|].
  - unfold pending_close. rewrite bind_assoc. run eq_refl. by run Hrun.
  - unfold letters_ok. rewrite Hl, Hemp. split_and!; [constructor..|done].
Qed.
End Facts.

(** ** The theorems at a concrete state: one client with a pending room request *)

Abbreviation ex_W := (soup_world (list loc) (gmap nat loc)).

Definition ex_soup (id : Z) : soup :=
  MkSoup (Some 1) SOUP_STATE_WAIT id 20000000 NULL (Str "worker.createRoom") 9
    (Some we_can_work_it_out_f) NULL.
Definition ex_ee : EE.ee_store (list loc) ee_fn loc := EE.Store {[1 := []]} ∅ ∅ 2.
Definition ex_world (id : Z) (ls : list postman) (ts : gmap nat loc) (ds : list Z) : ex_W :=
  SoupWorld ex_ee {[2 := Channel (Some 1)]} {[1 := Server None (Some 2)]} {[5 := ex_soup id]} ∅ ∅
    ls ts {[9 := Some 5]} (Some 1) None false ds [] [] 50.
Definition ex_pending : ex_W :=
  ex_world 12345678 [Postman 12345678 (Some 5) (Some 0)] {[0 := 5]} [].

Lemma ex_letters_ok : letters_ok ex_pending.
Proof.
  split_and!; [apply NoDup_singleton|apply NoDup_singleton| |].
  - constructor; [|done]. by exists 5, (ex_soup 12345678), 0.
  - intros t s Ht. change (armed ex_pending) with ({[0 := 5]} : gmap nat loc) in Ht.
    apply lookup_singleton_Some in Ht as [<- _]. by left.
Qed.

Lemma ex_client_ok id ls ts ds : client_ok (ex_world id ls ts ds) (ex_soup id).
Proof. by split_and!. Qed.

Lemma ex_serving id ls ts ds : serving (ex_world id ls ts ds) 1 2 1 [].
Proof.
  split_and!; try done; [by exists None|]. split_and!; cbn; [by exists []|done|constructor..|].
  constructor; [lia|done].
Qed.

Lemma on_timeout_removes_letter_witness :
  exists w', timer_fires 10 0 ex_pending = Done (tt, w') /\ letters w' = [] /\
    sent w' = [(9, "***TIMEOUT!***")].
Proof.
  destruct (on_timeout_removes_letter 10 ex_pending [] [] 5 (ex_soup 12345678) 0 ex_letters_ok
    eq_refl eq_refl (ex_client_ok _ _ _ _)) as (w' & Hr & _ & Hl & Hs & _).
  exists w'. split_and!; [exact Hr|exact Hl|exact Hs].
Defined.

Lemma disconnect_pending_crashes_witness :
  exists w', websocket_disconnect 9 ex_pending = Done (tt, w') /\ timer_fires 10 0 w' = Crash UseAfterFree.
Proof.
  destruct (websocket_disconnect 9 ex_pending) as [[[] w']|f] eqn:Hr; [|by vm_compute in Hr].
  exists w'. split; [done|].
  apply (disconnect_pending_crashes 10 ex_pending [] [] 5 (ex_soup 12345678) 0 9 (JInteger 0) 2 w'
    ex_letters_ok eq_refl eq_refl eq_refl Hr).
Defined.

Definition ex_idle : ex_W := ex_world 0 [] ∅ [7%Z].

Lemma ex_idle_letters : letters_ok ex_idle.
Proof. split_and!; [constructor..|]. by intros t s Ht. Qed.

Lemma ex_idle_draws : draws_ok 2147483647 ex_idle.
Proof.
  split_and!; [lia|lia| |].
  - constructor; [unfold is_draw; lia|done].
  - constructor. split; [by vm_compute|]. cbn. set_solver.
Qed.

Lemma ex_idle_sendable : sendable ex_idle 5 (ex_soup 0) "worker.createRoom".
Proof. split_and!; try done; apply ex_client_ok. Qed.

Lemma channel_send_queues_witness :
  exists id t w', channel_send 2147483647 (fun _ => 0%Z) 10 2 (Some 5) "{}" (JInteger 1) ex_idle = Done (tt, w') /\
    letters w' = [Postman id (Some 5) (Some t)].
Proof.
  destruct (channel_send_queues 10 2147483647 (fun _ => 0%Z) ex_idle 2 5 (ex_soup 0) "worker.createRoom"
    "{}" (JInteger 1) ex_idle_letters ex_idle_draws ltac:(cbn; lia) ex_idle_sendable ltac:(done))
    as (id & t & w' & Hr & _ & Hl & _).
  exists id, t, w'. split; [exact Hr|exact Hl].
Defined.

Lemma channel_send_refused_witness :
  exists w', channel_send 2147483647 (fun _ => (-12)%Z) 10 2 (Some 5) "{}" (JInteger 1) ex_idle = Done (tt, w') /\
    letters w' = [] /\ sent w' = [(9, "data to send failed.")].
Proof.
  destruct (channel_send_refused 10 2147483647 (fun _ => (-12)%Z) ex_idle 2 5 (ex_soup 0) "worker.createRoom"
    "{}" (JInteger 1) (-12)%Z ex_idle_letters ex_idle_draws ltac:(cbn; lia) ex_idle_sendable ltac:(done) ltac:(done))
    as (w' & Hr & Hl & _ & _ & Hs & _).
  exists w'. split_and!; [exact Hr|exact Hl|exact Hs].
Defined.

Definition ex_answer : json := JObject [("id", JInteger 12345678); ("accepted", JInteger 1); ("data", JString "room")].

Lemma answer_completes_request_witness :
  exists w', invoke_for_dummy 10 2 ex_answer ex_pending = Done (tt, w') /\ letters w' = [] /\
    sent w' = [(9, "room")].
Proof.
  destruct (answer_completes_request 10 ex_pending 1 2 1 [] [] [] 5 (ex_soup 12345678) 0 ex_answer
    ex_letters_ok eq_refl eq_refl (ex_client_ok _ _ _ _) eq_refl (ex_serving _ _ _ _)
    ltac:(by vm_compute) ltac:(by vm_compute) ltac:(by vm_compute))
    as (w' & r & pass & evs' & Hr & _ & Hl & _ & Hs & _).
  exists w'. split_and!; [exact Hr|exact Hl|exact Hs].
Defined.

Lemma answer_unknown_ignored_witness :
  invoke_for_dummy 10 2 (JObject [("id", JInteger 3)]) ex_pending = Done (tt, ex_pending).
Proof.
  apply (answer_unknown_ignored 10 ex_pending 2 (JObject [("id", JInteger 3)]) ltac:(by vm_compute)).
  intros Hin%list_elem_of_singleton. by vm_compute in Hin.
Defined.

(** A room 20000000 that listens, and the event that ends it. *)
Definition ex_room_world : ex_W :=
  SoupWorld (EE.Store {[1 := [2]]} {[2 := EE.Event "20000000" [3]]} {[3 := room_listener 51]} 4)
    {[2 := Channel (Some 1)]} {[1 := Server None (Some 2)]} ∅
    {[50 := MkRoom 20000000 (Some 2)]} {[51 := PassData 2 50 "20000000"]}
    [] ∅ ∅ (Some 1) None false [] [] [] 52.

Lemma ex_room_serving : serving ex_room_world 1 2 1 [EE.EvRep 2 "20000000" [(3, room_listener 51)]].
Proof.
  split_and!; try done; [by exists None|]. split_and!; cbn.
  - by exists [2].
  - constructor; [|done]. exists [3]. split_and!; [done|done|]. by repeat constructor.
  - apply NoDup_singleton.
  - apply NoDup_singleton.
  - apply NoDup_singleton.
  - repeat constructor; lia.
Qed.

Lemma room_event_crashes_witness :
  invoke_for_dummy 10 2 (JObject [("targetId", JInteger 20000000); ("event", JString "close")]) ex_room_world
    = Crash UseAfterFree.
Proof.
  apply (room_event_crashes 10 ex_room_world 1 2 1 [EE.EvRep 2 "20000000" [(3, room_listener 51)]]
    (JObject [("targetId", JInteger 20000000); ("event", JString "close")]) 51 50 "20000000" []
    ex_room_serving ltac:(lia) ltac:(by vm_compute) ltac:(by vm_compute) ltac:(by vm_compute)
    ltac:(by vm_compute) eq_refl ltac:(by eexists) ltac:(by vm_compute)).
Defined.

Lemma websocket_message_untyped_crashes_witness :
  websocket_message (fun _ => 0%Z) "d" "r" 9 (Some "{}") ex_idle = Crash NullDeref.
Proof.
  apply (websocket_message_untyped_crashes (fun _ => 0%Z) ex_idle 9 "{}" (JObject []) "d" "r" ltac:(by vm_compute) ltac:(by vm_compute)).
Defined.

Lemma pending_close_disarms_witness :
  exists w', pending_close ex_pending = Done (0%Z, w') /\ letters w' = [] /\ armed w' = ∅.
Proof.
  destruct (pending_close_disarms ex_pending ex_letters_ok) as (w' & Hr & Hl & Ha & _).
  exists w'. split_and!; [exact Hr|exact Hl|exact Ha].
Defined.
End Soup.
