(* ===== verification/LibPq.v ===== *)
(** * libpq as pgsql.c relies on it

    The client library of PostgreSQL is not part of the repository.  [P] is its state, [R]
    a query result; a connection handle is a number.  The laws are the facts its
    documentation gives and the code's loops rest on: [PQgetResult] and [PQnotifies] called
    again and again come to return null, and [select] leaves nothing in a set that was not
    there, and waits for ever for the empty set. *)

From S2P Require Import Prelude.

Inductive exec_status : Type :=
| PGRES_EMPTY_QUERY | PGRES_COMMAND_OK | PGRES_TUPLES_OK | PGRES_COPY_OUT | PGRES_COPY_IN
| PGRES_BAD_RESPONSE | PGRES_NONFATAL_ERROR | PGRES_FATAL_ERROR | PGRES_COPY_BOTH | PGRES_SINGLE_TUPLE.

Inductive trans_status : Type :=
| PQTRANS_IDLE | PQTRANS_ACTIVE | PQTRANS_INTRANS | PQTRANS_INERROR | PQTRANS_UNKNOWN.

#[export] Instance exec_status_eq_dec : EqDecision exec_status.
Proof. solve_decision. Defined.
#[export] Instance trans_status_eq_dec : EqDecision trans_status.
Proof. solve_decision. Defined.

(** What [PQconnectPoll] asks for. *)
Inductive polling : Type :=
| PGRES_POLLING_FAILED | PGRES_POLLING_READING | PGRES_POLLING_WRITING | PGRES_POLLING_OK.

Class LibPq (P R : Type) := {
  PQconnectdb : string -> P -> option nat * P;
  PQconnectStart : string -> P -> option nat * P;
  PQstatus_bad : nat -> P -> bool;           (* PQstatus(...) == CONNECTION_BAD *)
  PQconnectPoll : nat -> P -> polling * P;
  (* select(2) for reading on the sockets of connections, without a timeout: what it leaves in
     the set; [None]: nothing of the set ever becomes readable *)
  select_read : gset Z -> P -> option (gset Z) * P;
  PQstatus_ok : nat -> P -> bool;            (* PQstatus(...) == CONNECTION_OK *)
  PQfinish : nat -> P -> P;
  PQerrorMessage : option nat -> P -> string;
  PQtransactionStatus : nat -> P -> trans_status;
  PQexec : nat -> string -> P -> option R * P;
  PQexecParams : nat -> string -> list (string * Z * Z) -> Z -> P -> option R * P;
  PQsendQuery : nat -> string -> P -> bool * P;
  PQsendQueryParams : nat -> string -> list (string * Z * Z) -> Z -> P -> bool * P;
  PQsocket : nat -> P -> Z;
  PQconsumeInput : nat -> P -> bool * P;
  PQisBusy : nat -> P -> bool;
  PQnotifies : nat -> P -> option (string * string) * P;  (* extra, relname *)
  PQgetResult : nat -> P -> option R * P;
  PQresultStatus : option R -> exec_status;  (* of null: PGRES_FATAL_ERROR *)
  PQresultErrorMessage : R -> string;
  PQcancel_request : nat -> P -> P;          (* PQgetCancel, PQcancel, PQfreeCancel *)
  PQntuples : R -> Z;
  PQnfields : R -> Z;
  PQgetlength : R -> Z -> Z -> Z;
  PQfname : R -> Z -> option string;
  PQgetvalue : R -> Z -> Z -> string
}.

Class LibPqLaws (P R : Type) `{LibPq P R} := {
  results_left : nat -> P -> nat;
  notifies_left : nat -> P -> nat;
  PQgetResult_law : forall h p r p', PQgetResult h p = (Some r, p') -> results_left h p' < results_left h p;
  PQnotifies_law : forall h p n p', PQnotifies h p = (Some n, p') ->
    notifies_left h p' < notifies_left h p /\ results_left h p' <= results_left h p;
  select_read_law : forall s p s' p', select_read s p = (Some s', p') -> s' ⊆ s;
  select_read_empty : forall p, (select_read ∅ p).1 = None
}.

(** The instance of the witnesses: a server with one list of results and notifications to
    hand out, that accepts connections or does not. *)

Record pq_server : Type := PqServer {
  accepts : bool;
  next_handle : nat;
  to_send : list exec_status;
  to_notify : list (string * string);
  busy : bool
}.

#[export] Instance libPqServer : LibPq pq_server exec_status := {|
  PQconnectdb := fun _ p => (Some (next_handle p), PqServer (accepts p) (S (next_handle p)) (to_send p) (to_notify p) (busy p));
  PQconnectStart := fun _ p => (Some (next_handle p), PqServer (accepts p) (S (next_handle p)) (to_send p) (to_notify p) (busy p));
  PQstatus_bad := fun _ p => negb (accepts p);
  PQconnectPoll := fun _ p =>
    if busy p then
      match to_send p with
      | [] => (PGRES_POLLING_WRITING, p)
      | _ => (PGRES_POLLING_READING, PqServer (accepts p) (next_handle p) (to_send p) (to_notify p) false)
      end
    else (PGRES_POLLING_OK, p);
  select_read := fun s p => (if decide (s = ∅) then None else Some s, p);
  PQstatus_ok := fun _ p => accepts p;
  PQfinish := fun _ p => p;
  PQerrorMessage := fun _ _ => "error";
  PQtransactionStatus := fun _ _ => PQTRANS_IDLE;
  PQexec := fun _ _ p => (Some PGRES_COMMAND_OK, p);
  PQexecParams := fun _ _ _ _ p => (Some PGRES_COMMAND_OK, p);
  PQsendQuery := fun _ _ p => (true, p);
  PQsendQueryParams := fun _ _ _ _ p => (true, p);
  PQsocket := fun h _ => Z.of_nat h;
  PQconsumeInput := fun _ p => (true, p);
  PQisBusy := fun _ p => busy p;
  PQnotifies := fun _ p =>
    match to_notify p with
    | [] => (None, p)
    | n :: ns => (Some n, PqServer (accepts p) (next_handle p) (to_send p) ns (busy p))
    end;
  PQgetResult := fun _ p =>
    match to_send p with
    | [] => (None, p)
    | r :: rs => (Some r, PqServer (accepts p) (next_handle p) rs (to_notify p) (busy p))
    end;
  PQresultStatus := fun r => match r with Some s => s | None => PGRES_FATAL_ERROR end;
  PQresultErrorMessage := fun _ => "failed";
  PQcancel_request := fun _ p => p;
  PQntuples := fun _ => 0%Z;
  PQnfields := fun _ => 0%Z;
  PQgetlength := fun _ _ _ => 0%Z;
  PQfname := fun _ _ => None;
  PQgetvalue := fun _ _ _ => EmptyString
|}.

#[export] Instance libPqServer_laws : LibPqLaws pq_server exec_status.
Proof.
  apply (Build_LibPqLaws _ _ _ (fun _ p => length (to_send p)) (fun _ p => length (to_notify p))).
  - intros h [a n s t b] r p'. cbn. destruct s; [done|]. intros [= _ <-]. cbn. lia.
  - intros h [a n s t b] r p'. cbn. destruct t; [done|]. intros [= _ <-]. cbn. lia.
  - intros s p s' p'. cbn. case_decide; [done|]. by intros [= <- _].
  - done.
Defined.

(** A second one: a server with one table of one column, whose every parametrised query asks for
    the rows equal to its first parameter. *)

Record pq_table : Type := PqTable { table : list string; answers_left : list (list string) }.

Definition table_lookup (ps : list (string * Z * Z)) (p : pq_table) : list string :=
  match ps with [] => [] | (v, _, _) :: _ => filter (fun row => row = v) (table p) end.

#[export] Instance libPqTable : LibPq pq_table (list string) := {|
  PQconnectdb := fun _ p => (Some 0, p);
  PQconnectStart := fun _ p => (Some 0, p);
  PQstatus_bad := fun _ _ => false;
  PQconnectPoll := fun _ p => (PGRES_POLLING_OK, p);
  select_read := fun s p => (if decide (s = ∅) then None else Some s, p);
  PQstatus_ok := fun _ _ => true;
  PQfinish := fun _ p => p;
  PQerrorMessage := fun _ _ => "error";
  PQtransactionStatus := fun _ _ => PQTRANS_IDLE;
  PQexec := fun _ _ p => (Some [], p);
  PQexecParams := fun _ _ ps _ p => (Some (table_lookup ps p), p);
  PQsendQuery := fun _ _ p => (true, p);
  PQsendQueryParams := fun _ _ ps _ p => (true, PqTable (table p) [table_lookup ps p]);
  PQsocket := fun h _ => Z.of_nat h;
  PQconsumeInput := fun _ p => (true, p);
  PQisBusy := fun _ _ => false;
  PQnotifies := fun _ p => (None, p);
  PQgetResult := fun _ p =>
    match answers_left p with
    | [] => (None, p)
    | r :: rs => (Some r, PqTable (table p) rs)
    end;
  PQresultStatus := fun r => match r with Some _ => PGRES_TUPLES_OK | None => PGRES_FATAL_ERROR end;
  PQresultErrorMessage := fun _ => "failed";
  PQcancel_request := fun _ p => p;
  PQntuples := fun r => Z.of_nat (length r);
  PQnfields := fun _ => 1%Z;
  PQgetlength := fun r row _ => Z.of_nat (String.length (nth (Z.to_nat row) r EmptyString));
  PQfname := fun _ _ => Some "alt";
  PQgetvalue := fun r row _ => nth (Z.to_nat row) r EmptyString
|}.

#[export] Instance libPqTable_laws : LibPqLaws pq_table (list string).
Proof.
  apply (Build_LibPqLaws _ _ _ (fun _ p => length (answers_left p)) (fun _ _ => 0)).
  - intros h [t rs] r p'. cbn. destruct rs; [done|]. intros [= _ <-]. cbn. lia.
  - done.
  - intros s p s' p'. cbn. case_decide; [done|]. by intros [= <- _].
  - done.
Defined.
