(* ===== verification/Pgsql.v ===== *)
(** * The PostgreSQL layer

    pgsql.c: a pool of connections per database, the queue of requests that wait for one,
    and the state machine of a query.  A [kore_pgsql] is the record of one query, in a heap
    of its own; a connection sits in the free list or serves one query; a waiter in the
    queue points to its query.  Whoever made the query is told through a callback or by
    waking its HTTP request: [run_cb] runs the callback with a given name, which may use
    any part of the layer again.  pgsql.h is kore's and not part of the repository; its flag
    values are named as it names them. *)

From S2P Require Import Prelude LibPq.

Local Open Scope c_scope.

Module Pg.

(** ** Data *)

Inductive pg_state : Type :=
| KORE_PGSQL_STATE_ZERO
| KORE_PGSQL_STATE_INIT | KORE_PGSQL_STATE_WAIT | KORE_PGSQL_STATE_RESULT | KORE_PGSQL_STATE_ERROR
| KORE_PGSQL_STATE_DONE | KORE_PGSQL_STATE_COMPLETE | KORE_PGSQL_STATE_NOTIFY
| KORE_PGSQL_STATE_COMMANDOK.

#[export] Instance pg_state_eq_dec : EqDecision pg_state.
Proof. solve_decision. Defined.

Definition KORE_RESULT_ERROR : Z := 0.
Definition KORE_RESULT_OK : Z := 1.
Definition KORE_PGSQL_SYNC : Z := 1.
Definition KORE_PGSQL_ASYNC : Z := 2.
Definition KORE_PGSQL_SCHEDULED : Z := 4.
Definition PGSQL_CONN_MAX : Z := 2.
Definition PGSQL_CONN_FREE : Z := 1.
Definition PGSQL_LIST_INSERTED : Z := 256.
Definition PGSQL_QUEUE_LIMIT : Z := 1000.

(** [flags & bit], [flags |= bit], [flags &= ~bit]. *)
Definition has (flags bit : Z) : bool := negb (Z.land flags bit =? 0)%Z.
Definition clear_flag (bit flags : Z) : Z := Z.ldiff flags bit.

Record pgsql_db : Type := PgsqlDb {
  db_name : string;
  conn_string : option string;
  conn_max : Z;
  conn_count : Z
}.

Record http_request : Type := HttpRequest {
  req_delete : bool;       (* HTTP_REQUEST_DELETE *)
  req_pgsqls : list loc    (* [req->pgsqls] *)
}.

Record kore_pgsql (R : Type) : Type := KorePgsql {
  state : pg_state;
  flags : Z;
  error : option string;
  result : option R;
  conn : option loc;
  req : option loc;
  cb : option nat;  (* the callback's name *)
  arg : loc;
  notify : option (string * string)  (* extra, channel *)
}.
Arguments KorePgsql {R}.
Arguments state {R}.
Arguments flags {R}.
Arguments error {R}.
Arguments result {R}.
Arguments conn {R}.
Arguments req {R}.
Arguments cb {R}.
Arguments arg {R}.
Arguments notify {R}.

Definition pg_set_state {R : Type} (f : pg_state -> pg_state) (w : kore_pgsql R) : kore_pgsql R :=
  KorePgsql (f (state w)) (flags w) (error w) (result w) (conn w) (req w) (cb w) (arg w) (notify w).
Definition pg_set_flags {R : Type} (f : Z -> Z) (w : kore_pgsql R) : kore_pgsql R :=
  KorePgsql (state w) (f (flags w)) (error w) (result w) (conn w) (req w) (cb w) (arg w) (notify w).
Definition pg_set_error {R : Type} (f : option string -> option string) (w : kore_pgsql R) : kore_pgsql R :=
  KorePgsql (state w) (flags w) (f (error w)) (result w) (conn w) (req w) (cb w) (arg w) (notify w).
Definition pg_set_result {R : Type} (f : option R -> option R) (w : kore_pgsql R) : kore_pgsql R :=
  KorePgsql (state w) (flags w) (error w) (f (result w)) (conn w) (req w) (cb w) (arg w) (notify w).
Definition pg_set_conn {R : Type} (f : option loc -> option loc) (w : kore_pgsql R) : kore_pgsql R :=
  KorePgsql (state w) (flags w) (error w) (result w) (f (conn w)) (req w) (cb w) (arg w) (notify w).
Definition pg_set_req {R : Type} (f : option loc -> option loc) (w : kore_pgsql R) : kore_pgsql R :=
  KorePgsql (state w) (flags w) (error w) (result w) (conn w) (f (req w)) (cb w) (arg w) (notify w).
Definition pg_set_cb {R : Type} (f : option nat -> option nat) (w : kore_pgsql R) : kore_pgsql R :=
  KorePgsql (state w) (flags w) (error w) (result w) (conn w) (req w) (f (cb w)) (arg w) (notify w).
Definition pg_set_arg {R : Type} (f : loc -> loc) (w : kore_pgsql R) : kore_pgsql R :=
  KorePgsql (state w) (flags w) (error w) (result w) (conn w) (req w) (cb w) (f (arg w)) (notify w).
Definition pg_set_notify {R : Type} (f : option (string * string) -> option (string * string)) (w : kore_pgsql R) : kore_pgsql R :=
  KorePgsql (state w) (flags w) (error w) (result w) (conn w) (req w) (cb w) (arg w) (f (notify w)).

Record pgsql_conn : Type := PgsqlConn {
  c_flags : Z;
  c_name : string;
  c_db : option nat;  (* the PGconn *)
  c_job : option loc  (* job->pgsql *)
}.

Definition conn_set_c_flags (f : Z -> Z) (w : pgsql_conn) : pgsql_conn :=
  PgsqlConn (f (c_flags w)) (c_name w) (c_db w) (c_job w).
Definition conn_set_c_name (f : string -> string) (w : pgsql_conn) : pgsql_conn :=
  PgsqlConn (c_flags w) (f (c_name w)) (c_db w) (c_job w).
Definition conn_set_c_db (f : option nat -> option nat) (w : pgsql_conn) : pgsql_conn :=
  PgsqlConn (c_flags w) (c_name w) (f (c_db w)) (c_job w).
Definition conn_set_c_job (f : option loc -> option loc) (w : pgsql_conn) : pgsql_conn :=
  PgsqlConn (c_flags w) (c_name w) (c_db w) (f (c_job w)).

Record pg_world (P : Type) (R : Type) (A : Type) : Type := PgWorld {
  pq : P;  (* libpq's state *)
  pgsqls : gmap loc (kore_pgsql R);
  conns : gmap loc pgsql_conn;
  pgsql_conn_free : list loc;  (* from TAILQ_FIRST on *)
  pgsql_wait_queue : list (nat * loc);  (* waiters and their pgsql *)
  pgsql_queue_count : Z;
  pgsql_db_conn_strings : list pgsql_db;  (* from LIST_FIRST on *)
  requests : gmap loc http_request;
  reads : gset Z;  (* descriptors scheduled for reading *)
  awake_reqs : list (loc * bool);  (* http_request_wakeup (true) and sleep, newest first *)
  fresh_addr : nat;  (* above every address given out *)
  app : A  (* the application's own state *)
}.
Arguments PgWorld {P R A}.
Arguments pq {P R A}.
Arguments pgsqls {P R A}.
Arguments conns {P R A}.
Arguments pgsql_conn_free {P R A}.
Arguments pgsql_wait_queue {P R A}.
Arguments pgsql_queue_count {P R A}.
Arguments pgsql_db_conn_strings {P R A}.
Arguments requests {P R A}.
Arguments reads {P R A}.
Arguments awake_reqs {P R A}.
Arguments fresh_addr {P R A}.
Arguments app {P R A}.

Definition set_pq {P : Type} {R : Type} {A : Type} (f : P -> P) (w : pg_world P R A) : pg_world P R A :=
  PgWorld (f (pq w)) (pgsqls w) (conns w) (pgsql_conn_free w) (pgsql_wait_queue w) (pgsql_queue_count w) (pgsql_db_conn_strings w) (requests w) (reads w) (awake_reqs w) (fresh_addr w) (app w).
Definition set_pgsqls {P : Type} {R : Type} {A : Type} (f : gmap loc (kore_pgsql R) -> gmap loc (kore_pgsql R)) (w : pg_world P R A) : pg_world P R A :=
  PgWorld (pq w) (f (pgsqls w)) (conns w) (pgsql_conn_free w) (pgsql_wait_queue w) (pgsql_queue_count w) (pgsql_db_conn_strings w) (requests w) (reads w) (awake_reqs w) (fresh_addr w) (app w).
Definition set_conns {P : Type} {R : Type} {A : Type} (f : gmap loc pgsql_conn -> gmap loc pgsql_conn) (w : pg_world P R A) : pg_world P R A :=
  PgWorld (pq w) (pgsqls w) (f (conns w)) (pgsql_conn_free w) (pgsql_wait_queue w) (pgsql_queue_count w) (pgsql_db_conn_strings w) (requests w) (reads w) (awake_reqs w) (fresh_addr w) (app w).
Definition set_pgsql_conn_free {P : Type} {R : Type} {A : Type} (f : list loc -> list loc) (w : pg_world P R A) : pg_world P R A :=
  PgWorld (pq w) (pgsqls w) (conns w) (f (pgsql_conn_free w)) (pgsql_wait_queue w) (pgsql_queue_count w) (pgsql_db_conn_strings w) (requests w) (reads w) (awake_reqs w) (fresh_addr w) (app w).
Definition set_pgsql_wait_queue {P : Type} {R : Type} {A : Type} (f : list (nat * loc) -> list (nat * loc)) (w : pg_world P R A) : pg_world P R A :=
  PgWorld (pq w) (pgsqls w) (conns w) (pgsql_conn_free w) (f (pgsql_wait_queue w)) (pgsql_queue_count w) (pgsql_db_conn_strings w) (requests w) (reads w) (awake_reqs w) (fresh_addr w) (app w).
Definition set_pgsql_queue_count {P : Type} {R : Type} {A : Type} (f : Z -> Z) (w : pg_world P R A) : pg_world P R A :=
  PgWorld (pq w) (pgsqls w) (conns w) (pgsql_conn_free w) (pgsql_wait_queue w) (f (pgsql_queue_count w)) (pgsql_db_conn_strings w) (requests w) (reads w) (awake_reqs w) (fresh_addr w) (app w).
Definition set_pgsql_db_conn_strings {P : Type} {R : Type} {A : Type} (f : list pgsql_db -> list pgsql_db) (w : pg_world P R A) : pg_world P R A :=
  PgWorld (pq w) (pgsqls w) (conns w) (pgsql_conn_free w) (pgsql_wait_queue w) (pgsql_queue_count w) (f (pgsql_db_conn_strings w)) (requests w) (reads w) (awake_reqs w) (fresh_addr w) (app w).
Definition set_requests {P : Type} {R : Type} {A : Type} (f : gmap loc http_request -> gmap loc http_request) (w : pg_world P R A) : pg_world P R A :=
  PgWorld (pq w) (pgsqls w) (conns w) (pgsql_conn_free w) (pgsql_wait_queue w) (pgsql_queue_count w) (pgsql_db_conn_strings w) (f (requests w)) (reads w) (awake_reqs w) (fresh_addr w) (app w).
Definition set_reads {P : Type} {R : Type} {A : Type} (f : gset Z -> gset Z) (w : pg_world P R A) : pg_world P R A :=
  PgWorld (pq w) (pgsqls w) (conns w) (pgsql_conn_free w) (pgsql_wait_queue w) (pgsql_queue_count w) (pgsql_db_conn_strings w) (requests w) (f (reads w)) (awake_reqs w) (fresh_addr w) (app w).
Definition set_awake_reqs {P : Type} {R : Type} {A : Type} (f : list (loc * bool) -> list (loc * bool)) (w : pg_world P R A) : pg_world P R A :=
  PgWorld (pq w) (pgsqls w) (conns w) (pgsql_conn_free w) (pgsql_wait_queue w) (pgsql_queue_count w) (pgsql_db_conn_strings w) (requests w) (reads w) (f (awake_reqs w)) (fresh_addr w) (app w).
Definition set_fresh_addr {P : Type} {R : Type} {A : Type} (f : nat -> nat) (w : pg_world P R A) : pg_world P R A :=
  PgWorld (pq w) (pgsqls w) (conns w) (pgsql_conn_free w) (pgsql_wait_queue w) (pgsql_queue_count w) (pgsql_db_conn_strings w) (requests w) (reads w) (awake_reqs w) (f (fresh_addr w)) (app w).
Definition set_app {P : Type} {R : Type} {A : Type} (f : A -> A) (w : pg_world P R A) : pg_world P R A :=
  PgWorld (pq w) (pgsqls w) (conns w) (pgsql_conn_free w) (pgsql_wait_queue w) (pgsql_queue_count w) (pgsql_db_conn_strings w) (requests w) (reads w) (awake_reqs w) (fresh_addr w) (f (app w)).

(** The repository has the file three times: its own, and one beside each of two applications.
    They differ in how a connection is made, in whether a callback is told of an error, and in
    a test of the connection.  [stack_rfds] is what the memory of a set of descriptors on the
    stack holds before it is written. *)
Inductive pg_version : Type := root_pgsql | auth2_pgsql | websocket_13_pgsql.
Class PgVersion := { the_version : pg_version; stack_rfds : gset Z }.

Section Code.
Context {P R A : Type} `{LibPq P R} `{PgVersion}.
Abbreviation m := (M (pg_world P R A)).
(** [pgsql->cb(pgsql, pgsql->arg)]: the callback's name, the query, the argument. *)
Context (run_cb : nat -> loc -> loc -> m unit).
(** The width of [conn_count], a field of kore's [struct pgsql_db]. *)
Context (count_bits : Z).
(** The bound on the steps of a loop. *)
Context (fuel : nat).

(** *** Access *)

Definition get_pgsql (l : loc) : m (kore_pgsql R) := h ← gets pgsqls; live (h !! l).
Definition update_pgsql (l : loc) (f : kore_pgsql R -> kore_pgsql R) : m unit :=
  v ← get_pgsql l; modify (set_pgsqls <[l := f v]>).
Definition get_conn (c : loc) : m pgsql_conn := h ← gets conns; live (h !! c).
Definition update_conn (c : loc) (f : pgsql_conn -> pgsql_conn) : m unit :=
  v ← get_conn c; modify (set_conns <[c := f v]>).
Definition new_addr : m loc := n ← gets fresh_addr; modify (set_fresh_addr S);; mret n.
Definition pq_call {B : Type} (f : P -> B * P) : m B := fun w =>
  let '(b, p) := f (pq w) in Done (b, set_pq (fun _ => p) w).
Definition pq_read {B : Type} (f : P -> B) : m B := gets (fun w => f (pq w)).
Definition set_state (s : pg_state) (l : loc) : m unit := update_pgsql l (pg_set_state (fun _ => s)).

Definition http_request_wakeup (r : loc) : m unit := modify (set_awake_reqs (cons (r, true))).
Definition http_request_sleep (r : loc) : m unit := modify (set_awake_reqs (cons (r, false))).
Definition with_req (f : loc -> m unit) (v : kore_pgsql R) : m unit :=
  match req v with Some r => f r | None => mret tt end.

(** [if (pgsql->cb != NULL) pgsql->cb(pgsql, pgsql->arg);] *)
Definition call_cb (l : loc) : m unit :=
  v ← get_pgsql l;
  match cb v with Some c => run_cb c l (arg v) | None => mret tt end.

(** [TAILQ_REMOVE]: the element is in the queue, or memory is corrupted. *)
Definition free_remove (c : loc) : m unit :=
  l ← gets pgsql_conn_free;
  if decide (c ∈ l) then modify (set_pgsql_conn_free (filter (fun x => x <> c)))
  else crash UseAfterFree.

Definition wait_remove (pgw : nat) : m unit :=
  q ← gets pgsql_wait_queue;
  if decide (pgw ∈ q.*1) then
    modify (set_pgsql_queue_count (fun n => u32 (n - 1)));;
    modify (set_pgsql_wait_queue (filter (fun x => x.1 <> pgw)))
  else crash UseAfterFree.

(** *** Errors and the queue of waiters *)

Definition pgsql_set_error (l : loc) (msg : string) : m unit :=
  update_pgsql l (fun v => pg_set_state (fun _ => KORE_PGSQL_STATE_ERROR) (pg_set_error (fun _ => Some msg) v)).

Definition pgsql_queue_add (l : loc) : m unit :=
  v ← get_pgsql l;
  with_req http_request_sleep v;;
  pgw ← new_addr;
  modify (set_pgsql_queue_count (fun n => u32 (n + 1)));;
  modify (set_pgsql_wait_queue (fun q => q ++ [(pgw, l)])).

(** The first waiter of this query, if it has one. *)
Fixpoint waiter_of (l : loc) (q : list (nat * loc)) : option nat :=
  match q with
  | [] => None
  | (pgw, l') :: q => if decide (l' = l) then Some pgw else waiter_of l q
  end.

Definition pgsql_queue_remove (l : loc) : m unit :=
  q ← gets pgsql_wait_queue;
  match waiter_of l q with
  | Some pgw => wait_remove pgw
  | None => mret tt
  end.

(** The walk of [pgsql_queue_wakeup] over the waiters as they stood: a waiter whose request
    is being deleted is dropped; the first other one is told, then removed. *)
Fixpoint wakeup_loop (q : list (nat * loc)) : m unit :=
  match q with
  | [] => mret tt
  | (pgw, l) :: q =>
      v ← get_pgsql l;
      deleted ← match req v with
                | Some r => rs ← gets requests; rq ← live (rs !! r); mret (req_delete rq)
                | None => mret false
                end;
      if (deleted : bool) then wait_remove pgw;; wakeup_loop q
      else
        with_req http_request_wakeup v;;
        call_cb l;;
        wait_remove pgw
  end.

Definition pgsql_queue_wakeup : m unit := q ← gets pgsql_wait_queue; wakeup_loop q.

(** *** Connections *)

Definition db_handle (c : loc) : m nat := v ← get_conn c; deref (c_db v).

Definition pgsql_cancel (l : loc) : m unit :=
  v ← get_pgsql l;
  c ← deref (conn v);
  h ← db_handle c;
  modify (set_pq (PQcancel_request h)).

(** The loop over the databases: the test is [strcmp(...)], not [!strcmp(...)], so it stops
    at the first database with another name. *)
Fixpoint count_down (nm : string) (dbs : list pgsql_db) : list pgsql_db :=
  match dbs with
  | [] => []
  | d :: dbs =>
      if bool_decide (db_name d <> nm) then
        PgsqlDb (db_name d) (conn_string d) (conn_max d) (wrap count_bits (conn_count d - 1)) :: dbs
      else d :: count_down nm dbs
  end.

Definition pgsql_conn_cleanup (c : loc) : m unit :=
  v ← get_conn c;
  (if! has (c_flags v) PGSQL_CONN_FREE then free_remove c);;
  (match c_job v with
   | Some l =>
       pg ← get_pgsql l;
       with_req http_request_wakeup pg;;
       update_pgsql l (pg_set_conn (fun _ => None));;
       msg ← pq_read (PQerrorMessage (c_db v));
       pgsql_set_error l msg;;
       update_conn c (conn_set_c_job (fun _ => None))
   | None => mret tt
   end);;
  (match c_db v with Some h => modify (set_pq (PQfinish h)) | None => mret tt end);;
  modify (set_pgsql_db_conn_strings (count_down (c_name v)));;
  modify (set_conns (delete c)).

(** [while ((result = PQgetResult(...)) != NULL) PQclear(result);] *)
Fixpoint drain (n : nat) (h : nat) : m unit :=
  match n with
  | O => crash Fuel
  | S n => r ← pq_call (PQgetResult h); match r with Some _ => drain n h | None => mret tt end
  end.

Definition pgsql_conn_release (l : loc) : m unit :=
  v ← get_pgsql l;
  match conn v with
  | None => mret tt
  | Some c =>
      h ← db_handle c;
      (if! has (flags v) KORE_PGSQL_ASYNC && has (flags v) KORE_PGSQL_SCHEDULED then
        (fd ← pq_read (PQsocket h);
         modify (set_reads (fun s => s ∖ {[fd]}));;
         if! negb (bool_decide (state v = KORE_PGSQL_STATE_DONE)) then pgsql_cancel l));;
      drain fuel h;;
      update_conn c (fun x => conn_set_c_job (fun _ => None) (conn_set_c_flags (Z.lor PGSQL_CONN_FREE) x));;
      modify (set_pgsql_conn_free (fun q => q ++ [c]));;
      update_pgsql l (fun v => pg_set_state (fun _ => KORE_PGSQL_STATE_COMPLETE) (pg_set_conn (fun _ => None) v));;
      call_cb l;;
      pgsql_queue_wakeup
  end.

Definition pgsql_schedule (l : loc) : m unit :=
  v ← get_pgsql l;
  c ← deref (conn v);
  h ← db_handle c;
  fd ← pq_read (PQsocket h);
  if (fd <? 0)%Z then crash (Fatal "PQsocket returned < 0 fd on open connection")
  else
    modify (set_reads (union {[fd]}));;
    update_pgsql l (fun v => pg_set_flags (Z.lor KORE_PGSQL_SCHEDULED)
                               (pg_set_state (fun _ => KORE_PGSQL_STATE_WAIT) v));;
    with_req http_request_sleep v;;
    call_cb l.

(** *** Queries *)

Definition status_ok (r : option R) : bool :=
  bool_decide (PQresultStatus r = PGRES_TUPLES_OK) || bool_decide (PQresultStatus r = PGRES_COMMAND_OK).

(** The part [kore_pgsql_query] and [kore_pgsql_v_query_params] share: run it now and look at the
    result, or send it and wait. *)
Definition run_query (l : loc) (h : nat) (exec : P -> option R * P) (send : P -> bool * P) : m Z :=
  v ← get_pgsql l;
  if has (flags v) KORE_PGSQL_SYNC then
    r ← pq_call exec;
    update_pgsql l (pg_set_result (fun _ => r));;
    if negb (status_ok r) then
      msg ← pq_read (PQerrorMessage (Some h)); pgsql_set_error l msg;; mret KORE_RESULT_ERROR
    else set_state KORE_PGSQL_STATE_DONE l;; mret KORE_RESULT_OK
  else
    ok ← pq_call send;
    if negb ok then
      msg ← pq_read (PQerrorMessage (Some h)); pgsql_set_error l msg;; mret KORE_RESULT_ERROR
    else pgsql_schedule l;; mret KORE_RESULT_OK.

Definition kore_pgsql_query (l : loc) (query : string) : m Z :=
  v ← get_pgsql l;
  match conn v with
  | None => pgsql_set_error l "no connection was set before query";; mret KORE_RESULT_ERROR
  | Some c => h ← db_handle c; run_query l h (PQexec h query) (PQsendQuery h query)
  end.

(** [for (i = 0; i < count; i++)] with [u_int8_t i]: the arguments are taken off [args] in turn and
    stored at [i]. *)
Fixpoint params_loop (n : nat) (i : Z) (count : Z) (args : list (string * Z * Z)) (values : gmap Z (string * Z * Z)) :
    outcome (gmap Z (string * Z * Z)) :=
  match n with
  | O => Crash Fuel
  | S n =>
      if (i <? count)%Z then
        match args with
        | a :: args => params_loop n (u8 (i + 1)) count args (<[i := a]> values)
        | [] => params_loop n (u8 (i + 1)) count [] values  (* va_arg past the last: any value *)
        end
      else Done values
  end.

(** The array [values[0 .. count - 1]], as handed to libpq. *)
Definition params_list (count : Z) (values : gmap Z (string * Z * Z)) : list (string * Z * Z) :=
  (fun i => default (EmptyString, 0, 0)%Z (values !! Z.of_nat i)) <$> seq 0 (Z.to_nat count).

Definition kore_pgsql_v_query_params (l : loc) (query : string) (result_fmt : Z) (count : Z)
    (args : list (string * Z * Z)) : m Z :=
  v ← get_pgsql l;
  match conn v with
  | None => pgsql_set_error l "no connection was set before query";; mret KORE_RESULT_ERROR
  | Some c =>
      values ← (fun w => match params_loop fuel 0 count args ∅ with
                         | Done vs => Done (vs, w) | Crash f => Crash f end);
      h ← db_handle c;
      let ps := params_list count values in
      run_query l h (PQexecParams h query ps result_fmt) (PQsendQueryParams h query ps result_fmt)
  end.

Definition kore_pgsql_query_params (l : loc) (query : string) (result_fmt : Z) (args : list (string * Z * Z)) : m Z :=
  kore_pgsql_v_query_params l query result_fmt (Z.of_nat (length args)) args.

(** *** Life of a query record *)

Definition zero_pgsql : kore_pgsql R := KorePgsql KORE_PGSQL_STATE_ZERO 0 None None None None None 0 None.

Definition kore_pgsql_init (l : loc) : m unit :=
  modify (set_pgsqls <[l := pg_set_state (fun _ => KORE_PGSQL_STATE_INIT) zero_pgsql]>).

Definition req_unlink (l : loc) (v : kore_pgsql R) : m unit :=
  match req v with
  | Some r =>
      modify (set_requests (alter (fun q => HttpRequest (req_delete q) (filter (fun x => x <> l) (req_pgsqls q))) r))
  | None => mret tt
  end.

Definition kore_pgsql_cleanup (l : loc) : m unit :=
  pgsql_queue_remove l;;
  v ← get_pgsql l;
  (if! bool_decide (conn v <> None) then pgsql_conn_release l);;
  update_pgsql l (fun v => pg_set_conn (fun _ => None) (pg_set_error (fun _ => None) (pg_set_result (fun _ => None) v)));;
  v ← get_pgsql l;
  if! has (flags v) PGSQL_LIST_INSERTED then
    (req_unlink l v;; update_pgsql l (pg_set_flags (clear_flag PGSQL_LIST_INSERTED))).

Definition kore_pgsql_bind_request (l : loc) (r : loc) : m unit :=
  v ← get_pgsql l;
  if bool_decide (req v <> None) || bool_decide (cb v <> None)
  then crash (Fatal "kore_pgsql_bind_request: already bound")
  else
    update_pgsql l (fun v => pg_set_flags (Z.lor PGSQL_LIST_INSERTED) (pg_set_req (fun _ => Some r) v));;
    modify (set_requests (alter (fun q => HttpRequest (req_delete q) (l :: req_pgsqls q)) r)).

Definition kore_pgsql_bind_callback (l : loc) (c : nat) (a : loc) : m unit :=
  v ← get_pgsql l;
  if bool_decide (req v <> None) then crash (Fatal "kore_pgsql_bind_callback: already bound")
  else if bool_decide (cb v <> None) then crash (Fatal "kore_pgsql_bind_callback: already bound")
  else update_pgsql l (fun v => pg_set_arg (fun _ => a) (pg_set_cb (fun _ => Some c) v)).

Definition kore_pgsql_logerror (l : loc) : m string :=
  v ← get_pgsql l; mret (default "unknown" (error v)).

(** *** Getting a connection *)

Definition find_db (nm : string) (dbs : list pgsql_db) : option pgsql_db :=
  head (filter (fun d => db_name d = nm) dbs).

Definition count_up (nm : string) (dbs : list pgsql_db) : list pgsql_db :=
  (fun d => if bool_decide (db_name d = nm)
            then PgsqlDb (db_name d) (conn_string d) (conn_max d) (wrap count_bits (conn_count d + 1)) else d) <$> dbs.

(** [pgsql_set_error(pgsql, PQerrorMessage(conn->db)); pgsql_conn_cleanup(conn);] *)
Definition connect_failed (l c : loc) (h : option nat) : m bool :=
  msg ← pq_read (PQerrorMessage h);
  pgsql_set_error l msg;;
  pgsql_conn_cleanup c;;
  mret false.

(** pgsql.c: the connection is made by a call that waits. *)
Definition connect_wait (l c : loc) (s : string) : m bool :=
  h ← pq_call (PQconnectdb s);
  update_conn c (conn_set_c_db (fun _ => h));;
  ok ← match h with Some h => pq_read (PQstatus_ok h) | None => mret false end;
  if (ok : bool) then mret true else connect_failed l c h.

(** [FD_SET(fd,&rfds)], for a socket that is no descriptor outside the set. *)
Definition watch (st : polling) (fd : Z) (rfds : gset Z) : m (gset Z) :=
  match st with
  | PGRES_POLLING_READING => if (fd <? 0)%Z then crash OutOfBounds else mret ({[fd]} ∪ rfds)
  | _ => mret rfds
  end.

(** auth2/pgsql.c and websocket_13/pgsql.c: [while(!bdone)]. *)
Fixpoint poll_loop (n : nat) (l c : loc) (h : nat) (fd : Z) (rfds : gset Z) : m bool :=
  match n with
  | O => crash Fuel
  | S n =>
      st ← pq_call (PQconnectPoll h);
      match st with
      | PGRES_POLLING_FAILED => connect_failed l c (Some h)
      | PGRES_POLLING_OK => mret true
      | PGRES_POLLING_WRITING | PGRES_POLLING_READING =>
          rfds ← watch st fd rfds;
          retval ← pq_call (select_read rfds);
          match retval with
          | None => crash Fuel
          | Some rfds => poll_loop n l c h fd rfds
          end
      end
  end.

Definition connect_poll (l c : loc) (s : string) : m bool :=
  h ← pq_call (PQconnectStart s);
  update_conn c (conn_set_c_db (fun _ => h));;
  bad ← match h with Some h => pq_read (PQstatus_bad h) | None => mret true end;
  if (bad : bool) then connect_failed l c h
  else
    h ← deref h;
    fd ← pq_read (PQsocket h);
    poll_loop fuel l c h fd stack_rfds.

(** websocket_13/pgsql.c tests the handle once more behind the loop. *)
Definition connect_poll_13 (l c : loc) (s : string) : m bool :=
  ok ← connect_poll l c s;
  if negb ok then mret false
  else
    v ← get_conn c;
    if bool_decide (c_db v = None) then connect_failed l c None else mret true.

Definition pgsql_conn_create (l : loc) (d : pgsql_db) : m (option loc) :=
  match conn_string d with
  | None => crash (Fatal "pgsql_conn_create: no connection string")
  | Some s =>
      modify (set_pgsql_db_conn_strings (count_up (db_name d)));;
      c ← new_addr;
      modify (set_conns <[c := PgsqlConn PGSQL_CONN_FREE (db_name d) None None]>);;
      modify (set_pgsql_conn_free (fun q => q ++ [c]));;
      ok ← match the_version with
           | root_pgsql => connect_wait l c s
           | auth2_pgsql => connect_poll l c s
           | websocket_13_pgsql => connect_poll_13 l c s
           end;
      mret (if (ok : bool) then Some c else None)
  end.

(** The walk over the free list: a connection in it that is not marked free is fatal. *)
Fixpoint free_conn_for (nm : string) (q : list loc) : m (option loc) :=
  match q with
  | [] => mret None
  | c :: q =>
      v ← get_conn c;
      if negb (has (c_flags v) PGSQL_CONN_FREE) then crash (Fatal "got a pgsql connection that was not free?")
      else if bool_decide (c_name v = nm) then mret (Some c)
      else free_conn_for nm q
  end.

(** [conn->flags &= ~PGSQL_CONN_FREE; TAILQ_REMOVE(&pgsql_conn_free, conn, list);] *)
Definition take_conn (c : loc) : m unit :=
  update_conn c (conn_set_c_flags (clear_flag PGSQL_CONN_FREE));; free_remove c.

(** A free connection left in a failed transaction is rolled back, with a record on the stack. *)
Definition rollback_conn (c : loc) : m unit :=
  take_conn c;;
  rollback ← new_addr;
  kore_pgsql_init rollback;;
  update_pgsql rollback (fun v => pg_set_flags (fun _ => KORE_PGSQL_SYNC) (pg_set_conn (fun _ => Some c) v));;
  ok ← kore_pgsql_query rollback "ROLLBACK";
  (if (ok =? 0)%Z then
    kore_pgsql_logerror rollback;; kore_pgsql_cleanup rollback;; pgsql_conn_cleanup c
   else kore_pgsql_cleanup rollback);;
  modify (set_pgsqls (delete rollback)).

(** No free connection: wait, fail, or make one. *)
Definition conn_next_create (l : loc) (d : pgsql_db) (queue_limit : Z) : m (option loc) :=
  v ← get_pgsql l;
  if negb (conn_max d =? 0)%Z && (conn_max d <=? conn_count d)%Z then
    count ← gets pgsql_queue_count;
    (if has (flags v) KORE_PGSQL_ASYNC && (count <? queue_limit)%Z then pgsql_queue_add l
     else pgsql_set_error l "no available connection");;
    mret None
  else
    c ← pgsql_conn_create l d;
    match c with
    | None => mret None
    | Some c => take_conn c;; mret (Some c)
    end.

Definition pgsql_queue_limit : Z := PGSQL_QUEUE_LIMIT.
Definition pgsql_conn_max : Z := PGSQL_CONN_MAX.

(** The [rescan] loop; [db] is read afresh each time. *)
Fixpoint pgsql_conn_next (n : nat) (l : loc) (nm : string) : m (option loc) :=
  match n with
  | O => crash Fuel
  | S n =>
      q ← gets pgsql_conn_free;
      c ← free_conn_for nm q;
      match c with
      | Some c =>
          h ← db_handle c;
          st ← pq_read (PQtransactionStatus h);
          if bool_decide (st = PQTRANS_INERROR) then rollback_conn c;; pgsql_conn_next n l nm
          else take_conn c;; mret (Some c)
      | None =>
          dbs ← gets pgsql_db_conn_strings;
          d ← deref (find_db nm dbs);
          conn_next_create l d pgsql_queue_limit
      end
  end.

Definition kore_pgsql_setup (l : loc) (dbname : string) (fl : Z) : m Z :=
  v ← get_pgsql l;
  if has fl KORE_PGSQL_ASYNC && has fl KORE_PGSQL_SYNC then
    pgsql_set_error l "invalid query init parameters";; mret KORE_RESULT_ERROR
  else if has fl KORE_PGSQL_ASYNC && bool_decide (req v = None) && bool_decide (cb v = None) then
    pgsql_set_error l "nothing was bound";; mret KORE_RESULT_ERROR
  else
    update_pgsql l (pg_set_flags (fun f => Z.lor f fl));;
    dbs ← gets pgsql_db_conn_strings;
    match find_db dbname dbs with
    | None => pgsql_set_error l "no database found";; mret KORE_RESULT_ERROR
    | Some d =>
        c ← pgsql_conn_next fuel l dbname;
        update_pgsql l (pg_set_conn (fun _ => c));;
        match c with
        | None => mret KORE_RESULT_ERROR
        | Some c =>
            v ← get_pgsql l;
            (if! has (flags v) KORE_PGSQL_ASYNC then update_conn c (conn_set_c_job (fun _ => Some l)));;
            mret KORE_RESULT_OK
        end
    end.

Definition kore_pgsql_register (dbname connstring : string) : m Z :=
  dbs ← gets pgsql_db_conn_strings;
  if bool_decide (dbname ∈ db_name <$> dbs) then mret KORE_RESULT_ERROR
  else
    modify (set_pgsql_db_conn_strings (cons (PgsqlDb dbname (Some connstring) pgsql_conn_max 0)));;
    mret KORE_RESULT_OK.

(** *** Results *)

(** [while ((notify = PQnotifies(...)) != NULL)] *)
Fixpoint notify_loop (n : nat) (l : loc) : m unit :=
  match n with
  | O => crash Fuel
  | S n =>
      v ← get_pgsql l;
      c ← deref (conn v);
      h ← db_handle c;
      nt ← pq_call (PQnotifies h);
      match nt with
      | None => mret tt
      | Some nt =>
          update_pgsql l (fun v => pg_set_notify (fun _ => Some nt) (pg_set_state (fun _ => KORE_PGSQL_STATE_NOTIFY) v));;
          call_cb l;;
          notify_loop n l
      end
  end.

(** [if (pgsql->cb != NULL) pgsql->cb(pgsql, pgsql->arg);] on an error is commented out in pgsql.c. *)
Definition tells_errors : bool := match the_version with root_pgsql => false | _ => true end.

(** The [switch] on one result; [true] when the function returns from inside it. *)
Definition one_result (l : loc) (r : R) : m bool :=
  match PQresultStatus (Some r) with
  | PGRES_COPY_OUT | PGRES_COPY_IN | PGRES_NONFATAL_ERROR | PGRES_COPY_BOTH => mret false
  | PGRES_COMMAND_OK =>
      set_state KORE_PGSQL_STATE_COMMANDOK l;;
      v ← get_pgsql l;
      if bool_decide (req v <> None) then mret true else call_cb l;; mret false
  | PGRES_TUPLES_OK | PGRES_SINGLE_TUPLE =>
      set_state KORE_PGSQL_STATE_RESULT l;;
      v ← get_pgsql l;
      if bool_decide (req v <> None) then mret true
      else call_cb l;; update_pgsql l (pg_set_result (fun _ => None));; mret false
  | PGRES_EMPTY_QUERY | PGRES_BAD_RESPONSE | PGRES_FATAL_ERROR =>
      pgsql_set_error l (PQresultErrorMessage r);;
      (if! tells_errors then call_cb l);;
      v ← get_pgsql l;
      mret (bool_decide (req v <> None))
  end.

(** The loop over the results; [true] when the function returned from inside it. *)
Fixpoint result_loop (n : nat) (l : loc) : m bool :=
  match n with
  | O => crash Fuel
  | S n =>
      v ← get_pgsql l;
      c ← deref (conn v);
      h ← db_handle c;
      r ← pq_call (PQgetResult h);
      update_pgsql l (pg_set_result (fun _ => r));;
      match r with
      | None => mret false
      | Some r =>
          ret ← one_result l r;
          if (ret : bool) then mret true else result_loop n l
      end
  end.

(** The body of [pgsql_read_result]. *)
Definition read_results (l c : loc) : m unit :=
  h ← db_handle c;
  is_busy ← pq_read (PQisBusy h);
  if (is_busy : bool) then set_state KORE_PGSQL_STATE_WAIT l
  else
    notify_loop fuel l;;
    returned ← result_loop fuel l;
    if (returned : bool) then mret tt
    else
      v ← get_pgsql l;
      if bool_decide (state v = KORE_PGSQL_STATE_COMMANDOK) then set_state KORE_PGSQL_STATE_DONE l
      else if bool_decide (result v = None) then set_state KORE_PGSQL_STATE_DONE l
      else mret tt.

(** websocket_13/pgsql.c returns when there is no connection. *)
Definition checks_conn : bool := match the_version with websocket_13_pgsql => true | _ => false end.

Definition pgsql_read_result (l : loc) : m unit :=
  v ← get_pgsql l;
  if checks_conn && bool_decide (conn v = None) then mret tt
  else c ← deref (conn v); read_results l c.

Definition kore_pgsql_handle (c : loc) (err : bool) : m unit :=
  if err then pgsql_conn_cleanup c
  else
    v ← get_conn c;
    l ← deref (c_job v);
    h ← deref (c_db v);
    ok ← pq_call (PQconsumeInput h);
    (if negb ok then
      msg ← pq_read (PQerrorMessage (Some h));
      update_pgsql l (fun p => pg_set_error (fun _ => Some msg) (pg_set_state (fun _ => KORE_PGSQL_STATE_ERROR) p))
     else pgsql_read_result l);;
    p ← get_pgsql l;
    (if bool_decide (state p = KORE_PGSQL_STATE_WAIT) then with_req http_request_sleep p
     else with_req http_request_wakeup p);;
    call_cb l.

Definition kore_pgsql_continue (l : loc) : m unit :=
  update_pgsql l (fun v => pg_set_result (fun _ => None) (pg_set_error (fun _ => None) v));;
  v ← get_pgsql l;
  match state v with
  | KORE_PGSQL_STATE_INIT | KORE_PGSQL_STATE_WAIT => mret tt
  | KORE_PGSQL_STATE_DONE => with_req http_request_wakeup v;; pgsql_conn_release l
  | KORE_PGSQL_STATE_ERROR | KORE_PGSQL_STATE_RESULT
  | KORE_PGSQL_STATE_NOTIFY | KORE_PGSQL_STATE_COMMANDOK => c ← deref (conn v); kore_pgsql_handle c false
  | _ => crash (Fatal "*** Unknown pgsql state_3 ***")
  end.

Definition kore_pgsql_ntuples (l : loc) : m Z := v ← get_pgsql l; r ← deref (result v); mret (PQntuples r).
Definition kore_pgsql_nfields (l : loc) : m Z := v ← get_pgsql l; r ← deref (result v); mret (PQnfields r).
Definition kore_pgsql_getlength (l : loc) (row col : Z) : m Z :=
  v ← get_pgsql l; r ← deref (result v); mret (PQgetlength r row col).
Definition kore_pgsql_fieldname (l : loc) (field : Z) : m (option string) :=
  v ← get_pgsql l; r ← deref (result v); mret (PQfname r field).
Definition kore_pgsql_getvalue (l : loc) (row col : Z) : m string :=
  v ← get_pgsql l; r ← deref (result v); mret (PQgetvalue r row col).

(** *** Start and shutdown *)

Definition kore_pgsql_sys_init : m unit :=
  modify (set_pgsql_conn_free (fun _ => []));;
  modify (set_pgsql_wait_queue (fun _ => []));;
  modify (set_pgsql_db_conn_strings (fun _ => [])).

Fixpoint cleanup_conns (q : list loc) : m unit :=
  match q with
  | [] => mret tt
  | c :: q => pgsql_conn_cleanup c;; cleanup_conns q
  end.

Definition kore_pgsql_sys_cleanup : m unit := q ← gets pgsql_conn_free; cleanup_conns q.
End Code.

(** ** The queue of waiters stays sound

    Whatever the application does through the layer, as long as its callbacks use the
    layer too. *)

Section Queue.
Context {P R A : Type} `{LibPq P R} `{PgVersion}.
Implicit Types w : pg_world P R A.
Context (run_cb : nat -> loc -> loc -> M (pg_world P R A) unit).
Context (count_bits : Z) (fuel : nat).

(** The counter counts, the queue is within its limit, waiters are distinct. *)
Definition queue_ok w : Prop :=
  pgsql_queue_count w = Z.of_nat (length (pgsql_wait_queue w)) /\
  (Z.of_nat (length (pgsql_wait_queue w)) <= PGSQL_QUEUE_LIMIT)%Z /\
  NoDup (pgsql_wait_queue w).*1 /\ Forall (fun x => x.1 < fresh_addr w) (pgsql_wait_queue w).

Lemma queue_ok_new_addr : preserves queue_ok new_addr.
Proof.
  intros w a w' (Hc & Hl & Hn & Hf) [= <- <-]. split_and!; [done|done|done|].
  cbn. eapply Forall_impl; [exact Hf|]. cbn. lia.
Qed.

Lemma length_filter_waiter pgw (q : list (nat * loc)) :
  NoDup q.*1 -> pgw ∈ q.*1 -> S (length (filter (fun x => x.1 <> pgw) q)) = length q.
Proof.
  intros Hnd Hin. induction q as [|[k l] q IH]; [by apply not_elem_of_nil in Hin|].
  apply NoDup_cons in Hnd as [Hk Hnd]. cbn in Hk, Hin.
  destruct (decide (k = pgw)) as [->|Hne].
  - rewrite filter_cons_False by (cbn; naive_solver). cbn. f_equal. f_equal.
    clear -Hk. induction q as [|[k l'] q IH]; [done|]. cbn in Hk.
    rewrite filter_cons_True by (cbn; set_solver). f_equal. apply IH. set_solver.
  - rewrite filter_cons_True by done. cbn. f_equal. apply IH; [done|set_solver].
Qed.

Lemma queue_ok_wait_remove pgw : preserves queue_ok (wait_remove pgw).
Proof.
  intros w a w' (Hc & Hl & Hn & Hf) Hr. unfold wait_remove in Hr. run eq_refl in Hr.
  destruct (decide _) as [Hin|]; [|done]. run eq_refl in Hr. injection Hr as <- <-.
  pose proof (length_filter_waiter pgw _ Hn Hin) as Hlen. unfold PGSQL_QUEUE_LIMIT in *.
  unfold queue_ok. cbn. split_and!.
  - rewrite Hc, u32_small by lia. lia.
  - unfold PGSQL_QUEUE_LIMIT. lia.
  - eapply sublist_NoDup; [exact Hn|]. apply fmap_sublist, sublist_filter.
  - rewrite Forall_forall in Hf |- *. intros x [_ Hx]%list_elem_of_filter. by apply Hf.
Qed.

Lemma queue_ok_queue_add w l a w' :
  queue_ok w -> (pgsql_queue_count w < PGSQL_QUEUE_LIMIT)%Z ->
  pgsql_queue_add l w = Done (a, w') -> queue_ok w'.
Proof.
  intros (Hc & Hl & Hn & Hf) Hlt Hr. unfold pgsql_queue_add in Hr. inv_bind Hr.
  unfold get_pgsql in Hrun. run eq_refl in Hrun. destruct (pgsqls w !! l) as [v|]; [|done].
  injection Hrun as <- <-. inv_bind Hr.
  assert (Hs : pgsql_wait_queue s = pgsql_wait_queue w /\ pgsql_queue_count s = pgsql_queue_count w /\
               fresh_addr s = fresh_addr w)
    by (unfold with_req in Hrun; destruct (req v); by injection Hrun as _ <-).
  destruct Hs as (Hq & Hqc & Hfa). unfold new_addr in Hr. rewrite bind_assoc in Hr. run eq_refl in Hr.
  rewrite bind_assoc in Hr. run eq_refl in Hr. run eq_refl in Hr. run eq_refl in Hr. injection Hr as <- <-.
  unfold queue_ok, PGSQL_QUEUE_LIMIT in *. cbn. rewrite Hq, Hqc, Hfa, Hc, length_app, u32_small by lia. cbn.
  assert (Hnew : fresh_addr w ∉ (pgsql_wait_queue w).*1).
  { intros (x & Hx & Hin)%list_elem_of_fmap. rewrite Forall_forall in Hf. apply Hf in Hin. lia. }
  split_and!; [lia|lia| |].
  - rewrite fmap_app. apply NoDup_app. split_and!; [done| |apply NoDup_singleton]. cbn. set_solver.
  - apply Forall_app. split; [eapply Forall_impl; [exact Hf|]; cbn; lia|]. by repeat constructor; cbn; lia.
Qed.

(** *** Every operation keeps the queue sound *)

Create HintDb qok.
#[local] Hint Resolve preserves_ret preserves_gets preserves_crash preserves_live preserves_deref
  preserves_when queue_ok_new_addr queue_ok_wait_remove : qok.
#[local] Hint Extern 2 (preserves queue_ok (modify _)) =>
  (apply preserves_modify; intros ? Hqk; exact Hqk) : qok.
#[local] Hint Extern 4 (preserves _ (_ ≫= _)) => (apply preserves_bind; [|intros ?]) : qok.
#[local] Hint Extern 5 (preserves _ (match ?x with _ => _ end)) => destruct x : qok.

Ltac qok := intros; eauto 60 with qok.

Lemma queue_ok_pq_call {B : Type} (f : P -> B * P) : preserves queue_ok (pq_call (A := A) f).
Proof.
  intros w b w' Hw. unfold pq_call. destruct (f (pq w)). intros [= <- <-]. exact Hw.
Qed.

Lemma queue_ok_pq_read {B : Type} (f : P -> B) : preserves queue_ok (pq_read (R := R) (A := A) f).
Proof. unfold pq_read. qok. Qed.

Lemma queue_ok_get_pgsql l : preserves queue_ok (get_pgsql l).
Proof. unfold get_pgsql. qok. Qed.

Lemma queue_ok_get_conn c : preserves queue_ok (get_conn c).
Proof. unfold get_conn. qok. Qed.
#[local] Hint Resolve queue_ok_pq_call queue_ok_pq_read queue_ok_get_pgsql queue_ok_get_conn : qok.

Lemma queue_ok_update_pgsql l f : preserves queue_ok (update_pgsql l f).
Proof. unfold update_pgsql. qok. Qed.

Lemma queue_ok_update_conn c f : preserves queue_ok (update_conn c f).
Proof. unfold update_conn. qok. Qed.

Lemma queue_ok_db_handle c : preserves queue_ok (db_handle c).
Proof. unfold db_handle. qok. Qed.

Lemma queue_ok_with_req (f : loc -> M (pg_world P R A) unit) v :
  (forall r, preserves queue_ok (f r)) -> preserves queue_ok (with_req f v).
Proof. unfold with_req. qok. Qed.

Lemma queue_ok_free_remove c : preserves queue_ok (free_remove c).
Proof. unfold free_remove. qok. Qed.
#[local] Hint Resolve queue_ok_update_pgsql queue_ok_update_conn queue_ok_db_handle queue_ok_free_remove : qok.
#[local] Hint Extern 3 (preserves _ (with_req _ _)) =>
  (apply queue_ok_with_req; intros ?; unfold http_request_wakeup, http_request_sleep) : qok.

Hypothesis callbacks_keep_queue : forall c l a, preserves queue_ok (run_cb c l a).

Lemma queue_ok_call_cb l : preserves queue_ok (call_cb run_cb l).
Proof. unfold call_cb. qok. Qed.
#[local] Hint Resolve queue_ok_call_cb : qok.

Lemma queue_ok_wakeup : preserves queue_ok (pgsql_queue_wakeup run_cb).
Proof.
  unfold pgsql_queue_wakeup. apply preserves_bind; [qok|]. intros q.
  induction q as [|[pgw l] q IH]; cbn [wakeup_loop]; qok.
Qed.

Lemma queue_ok_drain n h : preserves queue_ok (drain (R := R) (A := A) n h).
Proof. induction n as [|n IH]; cbn [drain]; qok. Qed.
#[local] Hint Resolve queue_ok_wakeup queue_ok_drain : qok.

Lemma queue_ok_release l : preserves queue_ok (pgsql_conn_release run_cb fuel l).
Proof. unfold pgsql_conn_release, pgsql_cancel. qok. Qed.

Lemma queue_ok_set_error l msg : preserves queue_ok (pgsql_set_error l msg).
Proof. unfold pgsql_set_error. qok. Qed.
#[local] Hint Resolve queue_ok_release queue_ok_set_error : qok.

Lemma queue_ok_conn_cleanup c : preserves queue_ok (pgsql_conn_cleanup count_bits c).
Proof. unfold pgsql_conn_cleanup. qok. Qed.

Lemma queue_ok_schedule l : preserves queue_ok (pgsql_schedule run_cb l).
Proof. unfold pgsql_schedule. qok. Qed.
#[local] Hint Resolve queue_ok_conn_cleanup queue_ok_schedule : qok.

Lemma queue_ok_run_query l h exec send : preserves queue_ok (run_query run_cb l h exec send).
Proof. unfold run_query, set_state. qok. Qed.
#[local] Hint Resolve queue_ok_run_query : qok.

Lemma queue_ok_query l q : preserves queue_ok (kore_pgsql_query run_cb l q).
Proof. unfold kore_pgsql_query. qok. Qed.

Lemma queue_ok_query_params l q f n args : preserves queue_ok (kore_pgsql_v_query_params run_cb fuel l q f n args).
Proof.
  unfold kore_pgsql_v_query_params. apply preserves_bind; [qok|]. intros v. destruct (conn v); [|qok].
  apply preserves_bind; [|qok]. intros w b w' Hw. destruct (params_loop _ _ _ _ _); [|done].
  by intros [= <- <-].
Qed.

Lemma queue_ok_queue_remove l : preserves queue_ok (pgsql_queue_remove l).
Proof. unfold pgsql_queue_remove. qok. Qed.
#[local] Hint Resolve queue_ok_query queue_ok_query_params queue_ok_queue_remove : qok.

Lemma queue_ok_cleanup l : preserves queue_ok (kore_pgsql_cleanup run_cb fuel l).
Proof. unfold kore_pgsql_cleanup, req_unlink. qok. Qed.
#[local] Hint Resolve queue_ok_cleanup : qok.

Lemma queue_ok_take_conn c : preserves queue_ok (take_conn c).
Proof. unfold take_conn. qok. Qed.

Lemma queue_ok_connect_failed l c h : preserves queue_ok (connect_failed count_bits l c h).
Proof. unfold connect_failed. qok. Qed.
#[local] Hint Resolve queue_ok_connect_failed : qok.
Lemma queue_ok_poll_loop n l c h fd s : preserves queue_ok (poll_loop count_bits n l c h fd s).
Proof. revert s. induction n as [|n IH]; intros; cbn [poll_loop]; unfold watch; qok. Qed.
#[local] Hint Resolve queue_ok_poll_loop : qok.

Lemma queue_ok_conn_create l d : preserves queue_ok (pgsql_conn_create count_bits fuel l d).
Proof. unfold pgsql_conn_create, connect_wait, connect_poll_13, connect_poll. qok. Qed.
#[local] Hint Resolve queue_ok_take_conn queue_ok_conn_create : qok.

Lemma queue_ok_rollback c : preserves queue_ok (rollback_conn run_cb count_bits fuel c).
Proof. unfold rollback_conn, kore_pgsql_init, kore_pgsql_logerror. qok. Qed.

Lemma queue_ok_free_conn nm q : preserves queue_ok (free_conn_for nm q).
Proof. induction q as [|c q IH]; cbn [free_conn_for]; qok. Qed.
#[local] Hint Resolve queue_ok_rollback queue_ok_free_conn : qok.

Lemma queue_ok_conn_next_create l d : preserves queue_ok (conn_next_create count_bits fuel l d PGSQL_QUEUE_LIMIT).
Proof.
  unfold conn_next_create. apply preserves_bind; [qok|]. intros v. destruct (negb _ && _); [|qok].
  apply preserves_gets_bind. intros w Hw b w' Hr. inv_bind Hr. injection Hr as <- <-.
  destruct (has _ _ && _) eqn:Hlt.
  - apply andb_true_iff in Hlt as [_ Hlt]. eapply queue_ok_queue_add; [exact Hw|lia|exact Hrun].
  - eapply queue_ok_set_error; eauto.
Qed.
#[local] Hint Resolve queue_ok_conn_next_create : qok.

Lemma queue_ok_conn_next n l nm : preserves queue_ok (pgsql_conn_next run_cb count_bits fuel n l nm).
Proof. induction n as [|n IH]; cbn [pgsql_conn_next]; unfold pgsql_queue_limit; qok. Qed.

Lemma queue_ok_notify_loop n l : preserves queue_ok (notify_loop run_cb n l).
Proof. induction n as [|n IH]; cbn [notify_loop]; qok. Qed.

Lemma queue_ok_one_result l r : preserves queue_ok (one_result run_cb l r).
Proof. unfold one_result, set_state. qok. Qed.
#[local] Hint Resolve queue_ok_conn_next queue_ok_notify_loop queue_ok_one_result : qok.

Lemma queue_ok_result_loop n l : preserves queue_ok (result_loop run_cb n l).
Proof. induction n as [|n IH]; cbn [result_loop]; qok. Qed.
#[local] Hint Resolve queue_ok_result_loop : qok.

Lemma queue_ok_read_result l : preserves queue_ok (pgsql_read_result run_cb fuel l).
Proof. unfold pgsql_read_result, read_results, set_state. qok. Qed.
#[local] Hint Resolve queue_ok_read_result : qok.

Lemma queue_ok_handle c err : preserves queue_ok (kore_pgsql_handle run_cb count_bits fuel c err).
Proof. unfold kore_pgsql_handle. qok. Qed.
#[local] Hint Resolve queue_ok_handle : qok.

(** What an application can do with a query. *)
Inductive pg_op : Type :=
| OpSetup (l : loc) (db : string) (fl : Z)
| OpQuery (l : loc) (q : string)
| OpQueryParams (l : loc) (q : string) (fmt count : Z) (args : list (string * Z * Z))
| OpHandle (c : loc) (err : bool)
| OpContinue (l : loc)
| OpCleanup (l : loc).

Definition run_op (op : pg_op) : M (pg_world P R A) unit :=
  match op with
  | OpSetup l db fl => kore_pgsql_setup run_cb count_bits fuel l db fl;; mret tt
  | OpQuery l q => kore_pgsql_query run_cb l q;; mret tt
  | OpQueryParams l q fmt count args => kore_pgsql_v_query_params run_cb fuel l q fmt count args;; mret tt
  | OpHandle c err => kore_pgsql_handle run_cb count_bits fuel c err
  | OpContinue l => kore_pgsql_continue run_cb count_bits fuel l
  | OpCleanup l => kore_pgsql_cleanup run_cb fuel l
  end.

Definition run_ops (ops : list pg_op) : M (pg_world P R A) unit := foldr (fun op k => run_op op;; k) (mret tt) ops.

(** C20: over any sequence of the layer's operations, and with callbacks that only use the layer,
    the wait queue's counter is its length, the length stays within [PGSQL_QUEUE_LIMIT], and
    no waiter is queued twice. *)
Theorem pgsql_queue_invariant (ops : list pg_op) w w' u :
  queue_ok w -> run_ops ops w = Done (u, w') -> queue_ok w'.
Proof.
  intros Hw Hr. assert (Hp : preserves queue_ok (run_ops ops)); [|by eapply Hp].
  clear Hw Hr. induction ops as [|op ops IH]; [apply preserves_ret|].
  cbn. apply preserves_bind; [|intros ?; exact IH].
  destruct op; cbn; unfold kore_pgsql_setup, kore_pgsql_continue; qok.
Qed.
End Queue.

(** ** Parameters of a query *)

Section Params.
Local Open Scope Z_scope.

Lemma params_loop_run n (done todo : list (string * Z * Z)) (vs : gmap Z (string * Z * Z)) :
  (length todo < n)%nat -> Z.of_nat (length (done ++ todo)) <= 255 ->
  (forall i, (i < length done)%nat -> vs !! Z.of_nat i = done !! i) ->
  exists vs', params_loop n (Z.of_nat (length done)) (Z.of_nat (length (done ++ todo))) todo vs = Done vs' /\
    forall i, (i < length (done ++ todo))%nat -> vs' !! Z.of_nat i = (done ++ todo) !! i.
Proof.
  revert done todo vs. induction n as [|n IH]; intros done todo vs Hn Hc Hvs; [lia|]. cbn [params_loop].
  destruct todo as [|a todo].
  - rewrite app_nil_r in *. destruct (Z.ltb_spec (Z.of_nat (length done)) (Z.of_nat (length done))); [lia|].
    by exists vs.
  - rewrite length_app in Hc |- *. cbn [length] in *.
    destruct (Z.ltb_spec (Z.of_nat (length done)) (Z.of_nat (length done + S (length todo)))); [|lia].
    rewrite u8_small by lia. destruct (IH (done ++ [a]) todo (<[Z.of_nat (length done) := a]> vs)) as (vs' & Hr & Hv).
    + cbn in Hn. lia.
    + rewrite !length_app. cbn. lia.
    + intros i Hi. rewrite length_app in Hi. cbn in Hi. destruct (decide (i = length done)) as [->|Hne].
      * rewrite lookup_insert_eq, lookup_app_r by lia. by rewrite Nat.sub_diag.
      * rewrite lookup_insert_ne, lookup_app_l by lia. apply Hvs. lia.
    + exists vs'. rewrite <- app_assoc in Hr, Hv. cbn in Hr, Hv. rewrite !length_app in Hr. cbn in Hr.
      replace (Z.of_nat (length done) + 1) with (Z.of_nat (length done + 1)) by lia.
      split; [exact Hr|]. intros i Hi. apply Hv. rewrite length_app. cbn. lia.
Qed.

Lemma query_params_values (n : nat) (args : list (string * Z * Z)) :
  (length args < n)%nat -> Z.of_nat (length args) <= 255 ->
  exists vs, params_loop n 0 (Z.of_nat (length args)) args ∅ = Done vs /\
    params_list (Z.of_nat (length args)) vs = args.
Proof.
  intros Hn Hc. destruct (params_loop_run n [] args ∅) as (vs & Hr & Hv); [done|done|by intros i Hi|].
  exists vs. split; [exact Hr|]. unfold params_list. rewrite Nat2Z.id. apply list_eq. intros i.
  rewrite list_lookup_fmap. destruct (decide (i < length args)%nat) as [Hi|Hi].
  - rewrite lookup_seq_lt by done. cbn. rewrite Hv by done. cbn. by destruct (lookup_lt_is_Some_2 _ _ Hi) as [x ->].
  - rewrite lookup_seq_ge, lookup_ge_None_2 by lia. done.
Qed.

(** Up to 255 parameters reach libpq as given, in order. *)
Theorem query_params_complete (n : nat) (args : list (string * Z * Z)) :
  (length args < n)%nat -> Z.of_nat (length args) <= 255 ->
  exists vs, params_loop n 0 (Z.of_nat (length args)) args ∅ = Done vs /\
    params_list (Z.of_nat (length args)) vs = args.
Proof. apply query_params_values. Qed.

(** with 256 parameters or more the 8-bit index never reaches the count: the loop that
    collects them does not end, whatever the bound on its steps. *)
Theorem query_params_never_end (n : nat) (count : Z) (args : list (string * Z * Z)) (vs : gmap Z (string * Z * Z)) :
  256 <= count -> params_loop n 0 count args vs = Crash Fuel.
Proof.
  intros Hc. assert (Hgen : forall i, 0 <= i < 256 -> params_loop n i count args vs = Crash Fuel); [|apply Hgen; lia].
  revert args vs. induction n as [|n IH]; intros args vs i Hi; [done|]. cbn [params_loop].
  destruct (Z.ltb_spec i count); [|lia]. destruct args; apply IH, u8_range.
Qed.

Lemma query_params_complete_witness :
  exists vs, params_loop 5 0 2 [("one", 3, 0); ("three", 5, 0)] ∅ = Done vs /\ params_list 2 vs = [("one", 3, 0); ("three", 5, 0)].
Proof. apply (query_params_complete 5 [("one", 3, 0); ("three", 5, 0)]); cbn; lia. Defined.

Lemma query_params_never_end_witness : params_loop 1000 0 256 [] ∅ = Crash Fuel.
Proof. apply (query_params_never_end 1000 256 [] ∅). lia. Defined.
End Params.

(** ** Behaviour of the operations *)

Section Behaviour.
Context {P R A : Type} `{LibPqLaws P R} `{PgVersion}.
Implicit Types w : pg_world P R A.
Context (count_bits : Z).

Lemma get_pgsql_run w l v : pgsqls w !! l = Some v -> get_pgsql l w = Done (v, w).
Proof. intros Hl. unfold get_pgsql. run eq_refl. by rewrite Hl. Qed.

Lemma update_pgsql_run w l v f :
  pgsqls w !! l = Some v -> update_pgsql l f w = Done (tt, set_pgsqls <[l := f v]> w).
Proof. intros Hl. unfold update_pgsql. by run (get_pgsql_run _ _ _ Hl). Qed.

Lemma get_pgsql_again w l v : get_pgsql l (set_pgsqls <[l := v]> w) = Done (v, set_pgsqls <[l := v]> w).
Proof. apply get_pgsql_run, lookup_insert_eq. Qed.

Lemma update_pgsql_again w l v f :
  update_pgsql l f (set_pgsqls <[l := v]> w) = Done (tt, set_pgsqls <[l := f v]> w).
Proof.
  rewrite (update_pgsql_run _ l v) by apply lookup_insert_eq.
  unfold set_pgsqls. cbn. by rewrite insert_insert_eq.
Qed.

(** The record with an error set. *)
Definition failed (msg : string) (v : kore_pgsql R) : kore_pgsql R :=
  pg_set_state (fun _ => KORE_PGSQL_STATE_ERROR) (pg_set_error (fun _ => Some msg) v).

Lemma set_error_run w l v msg :
  pgsqls w !! l = Some v -> pgsql_set_error l msg w = Done (tt, set_pgsqls <[l := failed msg v]> w).
Proof. apply update_pgsql_run. Qed.

Lemma get_conn_run w c v : conns w !! c = Some v -> get_conn c w = Done (v, w).
Proof. intros Hc. unfold get_conn. run eq_refl. by rewrite Hc. Qed.

Lemma update_conn_run w c v f :
  conns w !! c = Some v -> update_conn c f w = Done (tt, set_conns <[c := f v]> w).
Proof. intros Hc. unfold update_conn. by run (get_conn_run _ _ _ Hc). Qed.

Lemma db_handle_run w c v h : conns w !! c = Some v -> c_db v = Some h -> db_handle c w = Done (h, w).
Proof. intros Hc Hh. unfold db_handle. run (get_conn_run _ _ _ Hc). by rewrite Hh. Qed.

Lemma free_remove_run w c :
  c ∈ pgsql_conn_free w -> free_remove c w = Done (tt, set_pgsql_conn_free (filter (fun x => x <> c)) w).
Proof. intros Hc. unfold free_remove. run eq_refl. by rewrite decide_True. Qed.

(** *** Setting a query up *)

(** The errors of [kore_pgsql_setup]: both modes at once, an asynchronous query nobody is bound
    to, or a database that was not registered are refused with the error set, and no
    connection is touched. *)
Theorem setup_errors run_cb fuel w l v dbname fl :
  pgsqls w !! l = Some v ->
  (has fl KORE_PGSQL_ASYNC = true -> has fl KORE_PGSQL_SYNC = true ->
     kore_pgsql_setup run_cb count_bits fuel l dbname fl w =
     Done (KORE_RESULT_ERROR, set_pgsqls <[l := failed "invalid query init parameters" v]> w)) /\
  (has fl KORE_PGSQL_ASYNC = true -> has fl KORE_PGSQL_SYNC = false -> req v = None -> cb v = None ->
     kore_pgsql_setup run_cb count_bits fuel l dbname fl w =
     Done (KORE_RESULT_ERROR, set_pgsqls <[l := failed "nothing was bound" v]> w)) /\
  (has fl KORE_PGSQL_ASYNC && has fl KORE_PGSQL_SYNC = false ->
   has fl KORE_PGSQL_ASYNC = false \/ req v <> None \/ cb v <> None ->
   dbname ∉ db_name <$> pgsql_db_conn_strings w ->
     exists w', kore_pgsql_setup run_cb count_bits fuel l dbname fl w = Done (KORE_RESULT_ERROR, w') /\
       (exists v', pgsqls w' = <[l := v']> (pgsqls w) /\ state v' = KORE_PGSQL_STATE_ERROR /\
          error v' = Some "no database found" /\ conn v' = conn v) /\
       pgsql_conn_free w' = pgsql_conn_free w /\ pgsql_wait_queue w' = pgsql_wait_queue w).
Proof.
  intros Hl. unfold kore_pgsql_setup. split_and!.
  - intros Ha Hs. run (get_pgsql_run _ _ _ Hl). rewrite Ha, Hs. cbn [andb]. cbv iota.
    by run (set_error_run _ _ _ _ Hl).
  - intros Ha Hs Hr Hc. run (get_pgsql_run _ _ _ Hl). rewrite Ha, Hs, Hr, Hc. cbn [andb].
    rewrite !bool_decide_true by done. cbn [andb]. cbv iota. by run (set_error_run _ _ _ _ Hl).
  - intros Has Hb Hdb. run (get_pgsql_run _ _ _ Hl). rewrite Has.
    assert (Hg : has fl KORE_PGSQL_ASYNC && bool_decide (req v = None) && bool_decide (cb v = None) = false).
    { destruct Hb as [->|[Hb|Hb]]; [done| |].
      - by rewrite (bool_decide_false (req v = None)), andb_false_r.
      - by rewrite (bool_decide_false (cb v = None)), andb_false_r. }
    rewrite Hg. run (update_pgsql_run _ _ _ _ Hl). run eq_refl.
    assert (Hf : find_db dbname (pgsql_db_conn_strings w) = None).
    { unfold find_db. destruct (filter _ _) as [|d ds] eqn:E; [done|]. destruct Hdb.
      assert (Hd : d ∈ filter (fun d => db_name d = dbname) (pgsql_db_conn_strings w)) by (rewrite E; by left).
      apply list_elem_of_filter in Hd as [<- Hd]. apply list_elem_of_fmap. by exists d. }
    cbn. rewrite Hf. run (set_error_run _ _ _ _ (lookup_insert_eq _ _ _)).
    eexists. split; [done|]. cbn. rewrite insert_insert_eq. split_and!; [|done|done].
    eexists. split; [done|]. done.
Qed.

(** *** The pool *)

Definition free_conn w (c : loc) (v : pgsql_conn) : Prop :=
  conns w !! c = Some v /\ has (c_flags v) PGSQL_CONN_FREE = true.

Lemma free_conn_for_hit w nm q1 c q2 v :
  Forall (fun d => exists u, free_conn w d u /\ c_name u <> nm) q1 -> free_conn w c v -> c_name v = nm ->
  free_conn_for nm (q1 ++ c :: q2) w = Done (Some c, w).
Proof.
  intros Hq1 [Hc Hf] Hn. induction Hq1 as [|d q1 (u & [Hd Hdf] & Hdn) Hq1 IH];
    rewrite ?app_nil_l, <- ?app_comm_cons; cbn [free_conn_for].
  - run (get_conn_run _ _ _ Hc). rewrite Hf. cbn [negb]. cbv iota. by rewrite bool_decide_true.
  - run (get_conn_run _ _ _ Hd). rewrite Hdf. cbn [negb]. cbv iota. by rewrite bool_decide_false.
Qed.

Lemma free_conn_for_miss w nm q :
  Forall (fun d => exists u, free_conn w d u /\ c_name u <> nm) q -> free_conn_for nm q w = Done (None, w).
Proof.
  intros Hq. induction Hq as [|d q (u & [Hd Hdf] & Hdn) Hq IH]; cbn [free_conn_for]; [done|].
  run (get_conn_run _ _ _ Hd). rewrite Hdf. cbn [negb]. cbv iota. by rewrite bool_decide_false.
Qed.

Lemma conn_next_run run_cb fuel n w l nm q1 c q2 v h :
  pgsql_conn_free w = q1 ++ c :: q2 -> NoDup (pgsql_conn_free w) ->
  Forall (fun d => exists u, free_conn w d u /\ c_name u <> nm) q1 ->
  free_conn w c v -> c_name v = nm -> c_db v = Some h -> PQtransactionStatus h (pq w) <> PQTRANS_INERROR ->
  pgsql_conn_next run_cb count_bits fuel (S n) l nm w =
  Done (Some c, set_pgsql_conn_free (fun _ => q1 ++ q2)
    (set_conns <[c := conn_set_c_flags (clear_flag PGSQL_CONN_FREE) v]> w)) /\
  has (c_flags (conn_set_c_flags (clear_flag PGSQL_CONN_FREE) v)) PGSQL_CONN_FREE = false.
Proof.
  intros Hq Hnd Hq1 Hfc Hn Hh Ht. pose proof Hfc as [Hc _]. split.
  - cbn [pgsql_conn_next]. run eq_refl. rewrite Hq. run (free_conn_for_hit w nm q1 c q2 v Hq1 Hfc Hn).
    run (db_handle_run _ _ _ _ Hc Hh). run eq_refl. rewrite bool_decide_false by done.
    unfold take_conn. rewrite bind_assoc. run (update_conn_run _ _ _ _ Hc).
    run (free_remove_run (set_conns _ w) c ltac:(cbn; rewrite Hq; set_solver)).
    unfold set_pgsql_conn_free. cbn. rewrite Hq in Hnd |- *. by rewrite (NoDup_filter_split c q1 q2).
  - unfold has, clear_flag. cbn. by rewrite Z.land_ldiff.
Qed.

(** A query gets the first free connection to its database, and no new one is opened: the
    connection leaves the free list, is no longer marked free, and all else is as it was. *)
Theorem conn_next_reuses run_cb fuel n w l nm q1 c q2 v h :
  pgsql_conn_free w = q1 ++ c :: q2 -> NoDup (pgsql_conn_free w) ->
  Forall (fun d => exists u, free_conn w d u /\ c_name u <> nm) q1 ->
  free_conn w c v -> c_name v = nm -> c_db v = Some h -> PQtransactionStatus h (pq w) <> PQTRANS_INERROR ->
  pgsql_conn_next run_cb count_bits fuel (S n) l nm w =
  Done (Some c, set_pgsql_conn_free (fun _ => q1 ++ q2)
    (set_conns <[c := conn_set_c_flags (clear_flag PGSQL_CONN_FREE) v]> w)) /\
  has (c_flags (conn_set_c_flags (clear_flag PGSQL_CONN_FREE) v)) PGSQL_CONN_FREE = false.
Proof. apply conn_next_run. Qed.

Lemma queue_add_run w l v :
  pgsqls w !! l = Some v ->
  exists aw, pgsql_queue_add l w = Done (tt,
    set_pgsql_wait_queue (fun q => q ++ [(fresh_addr w, l)])
      (set_pgsql_queue_count (fun n => u32 (n + 1)) (set_fresh_addr S (set_awake_reqs (fun _ => aw) w)))) /\
    aw = match req v with Some r => (r, false) :: awake_reqs w | None => awake_reqs w end.
Proof.
  intros Hl. unfold pgsql_queue_add. run (get_pgsql_run _ _ _ Hl). unfold with_req.
  destruct (req v) as [r|]; (eexists; split; [|reflexivity]).
  - by run eq_refl.
  - run eq_refl. by destruct w.
Qed.

(** when the database's connections are all in use, an asynchronous query goes to the end of the
    wait queue, with its request put to sleep, as long as the queue is below its limit;
    otherwise it gets the error "no available connection". *)
Theorem conn_next_exhausted run_cb fuel n w l v nm d :
  pgsqls w !! l = Some v ->
  Forall (fun c => exists u, free_conn w c u /\ c_name u <> nm) (pgsql_conn_free w) ->
  find_db nm (pgsql_db_conn_strings w) = Some d -> conn_max d <> 0%Z -> (conn_max d <= conn_count d)%Z ->
  exists w', pgsql_conn_next run_cb count_bits fuel (S n) l nm w = Done (None, w') /\
    conns w' = conns w /\ pgsql_conn_free w' = pgsql_conn_free w /\ pq w' = pq w /\
    if has (flags v) KORE_PGSQL_ASYNC && (pgsql_queue_count w <? PGSQL_QUEUE_LIMIT)%Z then
      pgsql_wait_queue w' = pgsql_wait_queue w ++ [(fresh_addr w, l)] /\ pgsqls w' = pgsqls w /\
      awake_reqs w' = match req v with Some r => (r, false) :: awake_reqs w | None => awake_reqs w end
    else
      pgsql_wait_queue w' = pgsql_wait_queue w /\
      pgsqls w' = <[l := failed "no available connection" v]> (pgsqls w).
Proof.
  intros Hl Hq Hd Hm Hc. cbn [pgsql_conn_next]. run eq_refl. run (free_conn_for_miss _ _ _ Hq).
  run eq_refl. rewrite Hd. run eq_refl. unfold conn_next_create. run (get_pgsql_run _ _ _ Hl).
  assert (Hg : negb (conn_max d =? 0)%Z && (conn_max d <=? conn_count d)%Z = true) by lia.
  rewrite Hg. run eq_refl. unfold pgsql_queue_limit. destruct (has _ _ && _).
  - destruct (queue_add_run w l v Hl) as (aw & Hr & ->). run Hr. eexists. split; [done|]. cbn. by split_and!.
  - run (set_error_run _ _ _ _ Hl). eexists. split; [done|]. cbn. by split_and!.
Qed.

(** *** The count of connections *)

Lemma count_down_same nm dbs : Forall (fun d => db_name d = nm) dbs -> count_down count_bits nm dbs = dbs.
Proof.
  induction 1 as [|d dbs Hd Hall IH]; cbn; [done|].
  rewrite bool_decide_false by (by intros []). by rewrite IH.
Qed.

Definition counted (d : pgsql_db) (n : Z) : pgsql_db := PgsqlDb (db_name d) (conn_string d) (conn_max d) n.

(** The connection is dropped; the databases are counted down as [count_down] does. *)
Lemma conn_cleanup_run w c v :
  conns w !! c = Some v -> c_job v = None ->
  (has (c_flags v) PGSQL_CONN_FREE = true -> c ∈ pgsql_conn_free w) ->
  exists w', pgsql_conn_cleanup count_bits c w = Done (tt, w') /\
    conns w' = delete c (conns w) /\
    pgsql_conn_free w' = (if has (c_flags v) PGSQL_CONN_FREE then filter (fun x => x <> c) (pgsql_conn_free w)
                          else pgsql_conn_free w) /\
    pgsql_db_conn_strings w' = count_down count_bits (c_name v) (pgsql_db_conn_strings w) /\
    pgsqls w' = pgsqls w.
Proof.
  intros Hc Hj Hin. unfold pgsql_conn_cleanup. run (get_conn_run _ _ _ Hc). rewrite Hj.
  destruct (has (c_flags v) PGSQL_CONN_FREE) eqn:Hf; cbn [whenM].
  - run (free_remove_run w c (Hin eq_refl)). run eq_refl.
    destruct (c_db v); run eq_refl; run eq_refl; (eexists; split; [done|]; by split_and!).
  - run eq_refl. run eq_refl. destruct (c_db v); run eq_refl; run eq_refl; (eexists; split; [done|]; by split_and!).
Qed.

(** Dropping a connection does not give its place back.  The test in [pgsql_conn_cleanup] lets
    the loop stop at the first database with another name: with one database
    registered no count goes down, and with another one in front that one's does. *)
Theorem conn_cleanup_miscounts w c v :
  conns w !! c = Some v -> c_job v = None ->
  (has (c_flags v) PGSQL_CONN_FREE = true -> c ∈ pgsql_conn_free w) ->
  exists w', pgsql_conn_cleanup count_bits c w = Done (tt, w') /\
    (Forall (fun d => db_name d = c_name v) (pgsql_db_conn_strings w) ->
       pgsql_db_conn_strings w' = pgsql_db_conn_strings w) /\
    (forall d ds, pgsql_db_conn_strings w = d :: ds -> db_name d <> c_name v ->
       pgsql_db_conn_strings w' = counted d (wrap count_bits (conn_count d - 1)) :: ds).
Proof.
  intros Hc Hj Hin. destruct (conn_cleanup_run w c v Hc Hj Hin) as (w' & Hr & _ & _ & Hd & _).
  exists w'. split_and!; [done| |].
  - intros Hall. by rewrite Hd, count_down_same.
  - intros d ds Hds Hne. rewrite Hd, Hds. cbn. by rewrite bool_decide_true.
Qed.

(** The server refuses a connection, as the version of the layer finds out. *)
Definition refused (s : string) (p : P) (h : nat) (p1 : P) : Prop :=
  match the_version with
  | root_pgsql => PQconnectdb s p = (Some h, p1) /\ PQstatus_ok h p1 = false
  | _ => PQconnectStart s p = (Some h, p1) /\ PQstatus_bad h p1 = true
  end.

Lemma connect_refused fuel w l c x s h p1 w' :
  conns w !! c = Some x -> refused s (pq w) h p1 ->
  connect_failed count_bits l c (Some h)
    (set_conns <[c := conn_set_c_db (fun _ => Some h) x]> (set_pq (fun _ => p1) w)) = Done (false, w') ->
  match the_version with
  | root_pgsql => connect_wait count_bits l c s
  | auth2_pgsql => connect_poll count_bits fuel l c s
  | websocket_13_pgsql => connect_poll_13 count_bits fuel l c s
  end w = Done (false, w').
Proof.
  unfold refused. intros Hx Hr Hf.
  assert (Hpoll : forall p1', PQconnectStart s (pq w) = (Some h, p1) -> PQstatus_bad h p1 = true -> p1' = p1 ->
    connect_poll count_bits fuel l c s w = Done (false, w')).
  { intros p1' Hs Hb _. unfold connect_poll.
    assert (Hcall : pq_call (PQconnectStart s) w = Done (Some h, set_pq (fun _ => p1) w)) by (unfold pq_call; by rewrite Hs).
    run Hcall. run (update_conn_run (set_pq (fun _ => p1) w) c x _ Hx). run eq_refl. change (pq _) with p1. by rewrite Hb. }
  destruct the_version; destruct Hr as [Hs Hb].
  - unfold connect_wait.
    assert (Hcall : pq_call (PQconnectdb s) w = Done (Some h, set_pq (fun _ => p1) w)) by (unfold pq_call; by rewrite Hs).
    run Hcall. run (update_conn_run (set_pq (fun _ => p1) w) c x _ Hx). run eq_refl. change (pq _) with p1. by rewrite Hb.
  - by apply (Hpoll p1).
  - unfold connect_poll_13. run (Hpoll p1 Hs Hb eq_refl). done.
Qed.

(** so a server that refuses connections uses the pool up, in each version of the layer: each
    refused attempt leaves the one database's count higher by one, with no connection to show
    for it. *)
Theorem refused_connection_leaks fuel w l v d s h p1 :
  pgsqls w !! l = Some v -> pgsql_db_conn_strings w = [d] -> conn_string d = Some s ->
  refused s (pq w) h p1 ->
  fresh_addr w ∉ pgsql_conn_free w -> conns w !! fresh_addr w = None ->
  exists w', pgsql_conn_create count_bits fuel l d w = Done (None, w') /\
    conns w' = conns w /\ pgsql_conn_free w' = pgsql_conn_free w /\
    pgsql_db_conn_strings w' = [counted d (wrap count_bits (conn_count d + 1))] /\
    pgsqls w' = <[l := failed (PQerrorMessage (Some h) p1) v]> (pgsqls w).
Proof.
  intros Hl Hd Hs Href Hnf Hnc. unfold pgsql_conn_create. rewrite Hs. run eq_refl. unfold new_addr.
  rewrite bind_assoc. run eq_refl. rewrite bind_assoc. run eq_refl. run eq_refl. run eq_refl. run eq_refl.
  set (c := fresh_addr w). set (w1 := set_pgsql_conn_free _ _).
  set (w3 := set_conns <[c := conn_set_c_db (fun _ => Some h) (PgsqlConn PGSQL_CONN_FREE (db_name d) None None)]> (set_pq (fun _ => p1) w1)).
  set (w4 := set_pgsqls <[l := failed (PQerrorMessage (Some h) p1) v]> w3).
  destruct (conn_cleanup_run w4 c (PgsqlConn PGSQL_CONN_FREE (db_name d) (Some h) None))
    as (w' & Hr & Hcs & Hfr & Hdb & Hpg); [apply lookup_insert_eq|done|cbn; set_solver|].
  assert (Hfail : connect_failed count_bits l c (Some h) w3 = Done (false, w')).
  { unfold connect_failed. run eq_refl. run (set_error_run w3 l v _ Hl). change (pq w3) with p1. by run Hr. }
  run (connect_refused fuel w1 l c _ s h p1 w' (lookup_insert_eq _ _ _) Href Hfail).
  exists w'. split; [done|]. rewrite Hcs, Hfr, Hdb, Hpg. cbn. split_and!.
  - rewrite insert_insert_eq. by apply delete_insert_id.
  - rewrite filter_app, filter_cons_False, filter_nil, app_nil_r by naive_solver.
    by apply filter_neq_not_in.
  - rewrite Hd. assert (Hup : count_up count_bits (db_name d) [d] = [counted d (wrap count_bits (conn_count d + 1))])
      by (unfold count_up; cbn; by rewrite bool_decide_true).
    rewrite Hup. apply count_down_same. by repeat constructor.
  - done.
Qed.

(** *** Giving a connection back *)

Context (run_cb : nat -> loc -> loc -> M (pg_world P R A) unit) (fuel : nat).

(** Callbacks that change nothing but the application's own state. *)
Definition callbacks_quiet : Prop :=
  forall c l a w, exists f, run_cb c l a w = Done (tt, set_app f w).

Lemma call_cb_quiet w l v :
  callbacks_quiet -> pgsqls w !! l = Some v -> exists f, call_cb run_cb l w = Done (tt, set_app f w).
Proof.
  intros Hq Hl. unfold call_cb. run (get_pgsql_run _ _ _ Hl). destruct (cb v) as [c|].
  - apply Hq.
  - exists (fun a => a). by destruct w.
Qed.

(** The drain loop ends: libpq runs out of results. *)
Lemma drain_run n h w :
  results_left h (pq w) < n -> exists p, drain n h w = Done (tt, set_pq (fun _ => p) w).
Proof.
  revert w. induction n as [|n IH]; intros w Hn; [lia|]. cbn [drain].
  destruct (PQgetResult h (pq w)) as [r p] eqn:Hg.
  assert (Hcall : pq_call (PQgetResult h) w = Done (r, set_pq (fun _ => p) w))
    by (unfold pq_call; by rewrite Hg).
  run Hcall. destruct r as [r|]; [|by exists p].
  apply PQgetResult_law in Hg. destruct (IH (set_pq (fun _ => p) w)) as (p' & Hr); [cbn; lia|].
  by exists p'.
Qed.

(** releasing.  Once the pending results are drained (which ends), the connection is at the end
    of the free list, marked free and without a job, the query is COMPLETE and holds no
    connection, its descriptor is no longer watched, its callback has run, and then the
    waiters are served. *)
Theorem conn_release_returns w l v c x h :
  callbacks_quiet -> pgsqls w !! l = Some v -> conn v = Some c -> conns w !! c = Some x -> c_db x = Some h ->
  results_left h (pq w) < fuel -> results_left h (PQcancel_request h (pq w)) < fuel ->
  exists w1, pgsql_conn_release run_cb fuel l w = pgsql_queue_wakeup run_cb w1 /\
    pgsql_conn_free w1 = pgsql_conn_free w ++ [c] /\
    (exists x1, conns w1 = <[c := x1]> (conns w) /\ has (c_flags x1) PGSQL_CONN_FREE = true /\ c_job x1 = None) /\
    (exists v1, pgsqls w1 = <[l := v1]> (pgsqls w) /\ conn v1 = None /\ state v1 = KORE_PGSQL_STATE_COMPLETE) /\
    pgsql_wait_queue w1 = pgsql_wait_queue w /\
    reads w1 = if has (flags v) KORE_PGSQL_ASYNC && has (flags v) KORE_PGSQL_SCHEDULED
               then reads w ∖ {[PQsocket h (pq w)]} else reads w.
Proof.
  intros Hq Hl Hcv Hc Hh Hf1 Hf2. unfold pgsql_conn_release. run (get_pgsql_run _ _ _ Hl). rewrite Hcv.
  run (db_handle_run _ _ _ _ Hc Hh). set (act := has _ _ && _).
  assert (Hpre : exists p, results_left h p < fuel /\
    (if! act then (fd ← pq_read (PQsocket h); modify (set_reads (fun s => s ∖ {[fd]}));;
       if! negb (bool_decide (state v = KORE_PGSQL_STATE_DONE)) then pgsql_cancel l)) w =
    Done (tt, set_pq (fun _ => p) (set_reads (fun s => if act then s ∖ {[PQsocket h (pq w)]} else s) w))).
  { destruct act; cbn [whenM]; [|exists (pq w); split; [done|by destruct w]]. run eq_refl. run eq_refl.
    destruct (negb _); cbn [whenM]; [|exists (pq w); split; [done|by destruct w]].
    exists (PQcancel_request h (pq w)). split; [done|]. unfold pgsql_cancel.
    run (get_pgsql_run (set_reads _ w) _ _ Hl). rewrite Hcv. run eq_refl.
    run (db_handle_run (set_reads _ w) _ _ _ Hc Hh). done. }
  destruct Hpre as (p & Hp & Hpre). run Hpre. set (w1 := set_pq _ _).
  destruct (drain_run fuel h w1) as (p' & Hd); [done|]. run Hd. set (w2 := set_pq _ w1).
  run (update_conn_run w2 _ _ _ Hc). run eq_refl. set (w3 := set_pgsql_conn_free _ _).
  run (update_pgsql_run w3 _ _ _ Hl). set (w4 := set_pgsqls _ w3).
  destruct (call_cb_quiet w4 l _ Hq (lookup_insert_eq _ _ _)) as (f & Hcb). run Hcb.
  eexists. split; [reflexivity|]. cbn. split_and!; [done| |by eexists|done|done].
  eexists. split; [reflexivity|]. cbn. split; [|done]. unfold has.
  destruct (Z.eqb_spec (Z.land (Z.lor PGSQL_CONN_FREE (c_flags x)) PGSQL_CONN_FREE) 0) as [Hz|]; [|done].
  rewrite Z.land_lor_distr_l in Hz. apply Z.lor_eq_0_iff in Hz as [Hz _]. by vm_compute in Hz.
Qed.

(** *** Serving the waiters *)

Definition deleted w (l : loc) : Prop :=
  exists v r q, pgsqls w !! l = Some v /\ req v = Some r /\ requests w !! r = Some q /\ req_delete q = true.

Definition waits w (l : loc) (v : kore_pgsql R) : Prop :=
  pgsqls w !! l = Some v /\
  match req v with Some r => exists q, requests w !! r = Some q /\ req_delete q = false | None => True end.

Lemma wait_remove_head w pgw l q :
  pgsql_wait_queue w = (pgw, l) :: q -> NoDup (pgsql_wait_queue w).*1 ->
  wait_remove pgw w = Done (tt, set_pgsql_wait_queue (fun _ => q) (set_pgsql_queue_count (fun n => u32 (n - 1)) w)).
Proof using Type.
  clear run_cb fuel.
  intros Hq Hnd. unfold wait_remove. run eq_refl. rewrite Hq. rewrite decide_True by (cbn; by left).
  run eq_refl. unfold set_pgsql_wait_queue, modify. cbn. do 3 f_equal. rewrite Hq in Hnd |- *.
  rewrite filter_cons_False by (cbn; naive_solver). cbn in Hnd. apply NoDup_cons in Hnd as [Hn _].
  clear -Hn. induction q as [|[k l'] q IH]; [done|]. cbn in Hn.
  rewrite filter_cons_True by (cbn; set_solver). f_equal. apply IH. set_solver.
Qed.

(** The deleted waiters in front are dropped. *)
Lemma wakeup_drops w q1 q :
  pgsql_wait_queue w = q1 ++ q -> NoDup (pgsql_wait_queue w).*1 -> Forall (fun x => deleted w x.2) q1 ->
  exists w1, wakeup_loop run_cb (q1 ++ q) w = wakeup_loop run_cb q w1 /\ pgsql_wait_queue w1 = q /\
    pgsqls w1 = pgsqls w /\ requests w1 = requests w /\ awake_reqs w1 = awake_reqs w.
Proof.
  revert w. induction q1 as [|[pgw l] q1 IH]; intros w Hq Hnd Hall; [by exists w|].
  apply Forall_cons in Hall as [(v & r & rq & Hl & Hr & Hrq & Hd) Hall].
  rewrite <- app_comm_cons in Hq |- *. cbn [wakeup_loop]. run (get_pgsql_run _ _ _ Hl). rewrite Hr, bind_assoc.
  run eq_refl. rewrite Hrq. run (bind_step _ _ _ _ _ eq_refl). rewrite Hd. cbv iota.
  run (wait_remove_head w pgw l _ Hq Hnd).
  destruct (IH (set_pgsql_wait_queue (fun _ => q1 ++ q) (set_pgsql_queue_count (fun n => u32 (n - 1)) w)))
    as (w1 & Hrun & Hw); [done| |done|by exists w1].
  cbn. rewrite Hq in Hnd. cbn in Hnd. by apply NoDup_cons in Hnd as [_ Hnd].
Qed.

(** a wake-up serves the waiters in order of arrival: those whose request is being deleted are
    dropped, the first other one is told (its request woken, its callback run) and leaves
    the queue, the rest keep waiting. *)
Theorem wakeup_serves_first w q1 pgw l q2 v :
  callbacks_quiet -> pgsql_wait_queue w = q1 ++ (pgw, l) :: q2 -> NoDup (pgsql_wait_queue w).*1 ->
  Forall (fun x => deleted w x.2) q1 -> waits w l v ->
  exists w', pgsql_queue_wakeup run_cb w = Done (tt, w') /\ pgsql_wait_queue w' = q2 /\
    pgsqls w' = pgsqls w /\
    awake_reqs w' = match req v with Some r => (r, true) :: awake_reqs w | None => awake_reqs w end.
Proof.
  intros Hqu Hq Hnd Hall [Hl Hv]. unfold pgsql_queue_wakeup. run eq_refl. rewrite Hq.
  destruct (wakeup_drops w q1 ((pgw, l) :: q2) Hq Hnd Hall) as (w1 & -> & Hq1 & Hp1 & Hr1 & Ha1).
  rewrite <- Hp1 in Hl. cbn [wakeup_loop]. run (get_pgsql_run _ _ _ Hl).
  assert (Hnd1 : NoDup (pgsql_wait_queue w1).*1)
    by (rewrite Hq, fmap_app in Hnd; rewrite Hq1; by apply NoDup_app in Hnd as (_ & _ & Hnd)).
  assert (Hdel : (match req v with
    | Some r => rs ← gets requests; rq ← live (rs !! r); mret (req_delete rq)
    | None => mret false end) w1 = Done (false, w1)).
  { destruct (req v) as [r|]; [|done]. destruct Hv as (rq & Hrq & Hd). run eq_refl. rewrite Hr1, Hrq.
    run eq_refl. by rewrite Hd. }
  run Hdel. cbv iota.
  assert (Hwr : with_req http_request_wakeup v w1 = Done (tt, set_awake_reqs (fun a =>
    match req v with Some r => (r, true) :: a | None => a end) w1))
    by (unfold with_req; destruct (req v); by destruct w1).
  run Hwr. set (w2 := set_awake_reqs _ w1).
  destruct (call_cb_quiet w2 l v Hqu Hl) as (f & Hcb). run Hcb.
  rewrite (wait_remove_head (set_app f w2) pgw l q2) by done.
  eexists. split; [done|]. cbn. by rewrite Ha1.
Qed.

(** the callback of a waiter runs before its entry is removed: a callback that takes its own
    entry out, as [kore_pgsql_cleanup] does, makes the wake-up remove it a second time. *)
Theorem wakeup_reentrant_crashes w w1 pgw l q v c :
  pgsql_wait_queue w = (pgw, l) :: q -> pgsqls w !! l = Some v -> req v = None -> cb v = Some c ->
  run_cb c l (arg v) w = Done (tt, w1) -> pgw ∉ (pgsql_wait_queue w1).*1 ->
  pgsql_queue_wakeup run_cb w = Crash UseAfterFree.
Proof.
  intros Hq Hl Hr Hc Hrun Hgone. unfold pgsql_queue_wakeup. run eq_refl. rewrite Hq. cbn [wakeup_loop].
  run (get_pgsql_run _ _ _ Hl). rewrite Hr. run eq_refl. cbv iota. unfold with_req. rewrite Hr. run eq_refl.
  unfold call_cb. rewrite bind_assoc. run (get_pgsql_run _ _ _ Hl). rewrite Hc. run Hrun.
  unfold wait_remove. run eq_refl. by rewrite decide_False.
Qed.

(** *** Reading results *)

Definition serves w (l : loc) (v : kore_pgsql R) (c : loc) (h : nat) : Prop :=
  pgsqls w !! l = Some v /\ conn v = Some c /\ exists x, conns w !! c = Some x /\ c_db x = Some h.

Lemma pq_call_run {B : Type} (f : P -> B * P) w b p :
  f (pq w) = (b, p) -> pq_call f w = Done (b, set_pq (fun _ => p) w).
Proof. intros Hf. unfold pq_call. by rewrite Hf. Qed.

Lemma result_loop_step n w l v c h r p :
  serves w l v c h -> PQgetResult h (pq w) = (r, p) ->
  result_loop run_cb (S n) l w =
  (match r with
   | None => mret false
   | Some r => ret ← one_result run_cb l r; if (ret : bool) then mret true else result_loop run_cb n l
   end) (set_pgsqls <[l := pg_set_result (fun _ => r) v]> (set_pq (fun _ => p) w)).
Proof.
  intros (Hl & Hc & x & Hx & Hh) Hg. cbn [result_loop]. run (get_pgsql_run _ _ _ Hl). rewrite Hc. run eq_refl.
  run (db_handle_run _ _ _ _ Hx Hh). run (pq_call_run _ _ _ _ Hg).
  by run (update_pgsql_run (set_pq _ w) _ _ _ Hl).
Qed.

Lemma read_result_run w l v c :
  pgsqls w !! l = Some v -> conn v = Some c -> pgsql_read_result run_cb fuel l w = read_results run_cb fuel l c w.
Proof.
  intros Hl Hc. unfold pgsql_read_result. run (get_pgsql_run _ _ _ Hl). rewrite Hc, bool_decide_false by done.
  by rewrite andb_false_r.
Qed.
Lemma read_result_bind {B : Type} w l v c (k : unit -> M (pg_world P R A) B) :
  pgsqls w !! l = Some v -> conn v = Some c ->
  (pgsql_read_result run_cb fuel l ≫= k) w = (read_results run_cb fuel l c ≫= k) w.
Proof. intros Hl Hc. unfold mbind, M_bind. by rewrite (read_result_run w l v c Hl Hc). Qed.

Definition fatal_status (r : R) : Prop :=
  PQresultStatus (Some r) = PGRES_EMPTY_QUERY \/ PQresultStatus (Some r) = PGRES_BAD_RESPONSE \/
  PQresultStatus (Some r) = PGRES_FATAL_ERROR.

Lemma one_result_fatal w l v r :
  the_version = root_pgsql -> pgsqls w !! l = Some v -> fatal_status r ->
  one_result run_cb l r w =
  Done (bool_decide (req v <> None), set_pgsqls <[l := failed (PQresultErrorMessage r) v]> w).
Proof.
  intros Hver Hl Hst. unfold one_result, tells_errors. rewrite Hver.
  destruct Hst as [-> |[-> | ->]]; run (set_error_run _ _ _ _ Hl); run eq_refl;
    by run (get_pgsql_again _ _ _).
Qed.

Lemma notify_loop_none n w l v c h p :
  serves w l v c h -> PQnotifies h (pq w) = (None, p) ->
  notify_loop run_cb (S n) l w = Done (tt, set_pq (fun _ => p) w).
Proof.
  intros (Hl & Hc & x & Hx & Hh) Hg. cbn [notify_loop]. run (get_pgsql_run _ _ _ Hl). rewrite Hc. run eq_refl.
  run (db_handle_run _ _ _ _ Hx Hh). by run (pq_call_run _ _ _ _ Hg).
Qed.

(** a query that fails, in pgsql.c.  Bound to a request, it ends in state ERROR with the server's
    message.  Bound to a callback, the end of [pgsql_read_result] overwrites ERROR with DONE, the state of
    a query that succeeded; only the message is left to tell. *)
Theorem read_result_error_state w l v c h p1 r p2 p3 :
  the_version = root_pgsql -> serves w l v c h -> PQisBusy h (pq w) = false -> PQnotifies h (pq w) = (None, p1) ->
  PQgetResult h p1 = (Some r, p2) -> fatal_status r -> PQgetResult h p2 = (None, p3) -> 2 <= fuel ->
  exists w' v', pgsql_read_result run_cb fuel l w = Done (tt, w') /\ pgsqls w' = <[l := v']> (pgsqls w) /\
    error v' = Some (PQresultErrorMessage r) /\
    state v' = (if decide (req v = None) then KORE_PGSQL_STATE_DONE else KORE_PGSQL_STATE_ERROR).
Proof.
  intros Hver Hse Hb Hn Hg1 Hst Hg2 Hf. pose proof Hse as (Hl & Hc & x & Hx & Hh).
  rewrite (read_result_run w l v c Hl Hc). unfold read_results. destruct fuel as [|[|n]]; [lia|lia|].
  run (db_handle_run _ _ _ _ Hx Hh). run eq_refl. rewrite Hb. cbv iota.
  run (notify_loop_none _ _ _ _ _ _ _ Hse Hn). set (w1 := set_pq _ w).
  assert (Hse1 : serves w1 l v c h) by (split_and!; [done|done|by exists x]).
  rewrite (bind_step _ _ _ (bool_decide (req v <> None)) (if decide (req v = None)
    then set_pgsqls <[l := pg_set_result (fun _ => None) (failed (PQresultErrorMessage r) v)]> (set_pq (fun _ => p3) w)
    else set_pgsqls <[l := failed (PQresultErrorMessage r) (pg_set_result (fun _ => Some r) v)]> (set_pq (fun _ => p2) w))).
  2: { rewrite (result_loop_step _ _ _ _ _ _ _ _ Hse1 Hg1).
       set (w2 := set_pgsqls _ _). rewrite (bind_step _ _ _ _ _ (one_result_fatal w2 l _ r Hver (lookup_insert_eq _ _ _) Hst)).
       cbn [req pg_set_result]. destruct (decide (req v = None)) as [Hr|Hr].
       - rewrite bool_decide_false by (by intros []). set (w3 := set_pgsqls _ w2).
         rewrite (result_loop_step n w3 l (failed (PQresultErrorMessage r) (pg_set_result (fun _ => Some r) v)) c h None p3);
           [|split_and!; [apply lookup_insert_eq|done|by exists x]|done].
         unfold mret, M_ret. unfold set_pgsqls, set_pq. cbn. by rewrite !insert_insert_eq.
       - rewrite bool_decide_true by done. unfold mret, M_ret, set_pgsqls, set_pq. cbn. by rewrite insert_insert_eq. }
  destruct (decide (req v = None)) as [Hr|Hr].
  - rewrite bool_decide_false by (by intros []). run (get_pgsql_again _ _ _).
    cbn. rewrite bool_decide_false by done.
    unfold set_state. rewrite update_pgsql_again. eexists _, _. split; [done|]. done.
  - rewrite bool_decide_true by done. eexists _, _. split; [done|]. done.
Qed.

(** A query whose answer is not complete stays in state WAIT, and nothing is read. *)
Lemma read_result_busy w l v c h :
  serves w l v c h -> PQisBusy h (pq w) = true ->
  pgsql_read_result run_cb fuel l w =
  Done (tt, set_pgsqls <[l := pg_set_state (fun _ => KORE_PGSQL_STATE_WAIT) v]> w).
Proof.
  intros (Hl & Hc & x & Hx & Hh) Hb. rewrite (read_result_run w l v c Hl Hc). unfold read_results.
  run (db_handle_run _ _ _ _ Hx Hh). run eq_refl. rewrite Hb. by apply update_pgsql_run.
Qed.
(** Rows for a callback: it is told once, in state RESULT with the result at hand; then the
    query is DONE. *)
Lemma read_result_tuples w l v c h p1 r p2 p3 k f :
  serves w l v c h -> PQisBusy h (pq w) = false -> PQnotifies h (pq w) = (None, p1) ->
  PQgetResult h p1 = (Some r, p2) -> PQresultStatus (Some r) = PGRES_TUPLES_OK ->
  PQgetResult h p2 = (None, p3) -> 2 <= fuel -> req v = None -> cb v = Some k ->
  let v1 := pg_set_state (fun _ => KORE_PGSQL_STATE_RESULT) (pg_set_result (fun _ => Some r) v) in
  let w1 := set_pgsqls <[l := v1]> (set_pq (fun _ => p2) w) in
  run_cb k l (arg v) w1 = Done (tt, set_app f w1) ->
  pgsql_read_result run_cb fuel l w = Done (tt, set_app f (set_pgsqls
    <[l := pg_set_state (fun _ => KORE_PGSQL_STATE_DONE) (pg_set_result (fun _ => None) v)]> (set_pq (fun _ => p3) w))).
Proof.
  intros Hse Hb Hn Hg1 Hst Hg2 Hf Hreq Hk v1 w1 Hcb. pose proof Hse as (Hl & Hc & x & Hx & Hh).
  rewrite (read_result_run w l v c Hl Hc). unfold read_results. destruct fuel as [|[|n]]; [lia|lia|].
  run (db_handle_run _ _ _ _ Hx Hh). run eq_refl. rewrite Hb. cbv iota.
  run (notify_loop_none _ _ _ _ _ _ _ Hse Hn). set (w0 := set_pq _ w).
  assert (Hse0 : serves w0 l v c h) by (split_and!; [done|done|by exists x]).
  assert (Hloop : result_loop run_cb (S (S n)) l w0 = Done (false, set_app f (set_pgsqls
    <[l := pg_set_state (fun _ => KORE_PGSQL_STATE_RESULT) (pg_set_result (fun _ => None) v)]> (set_pq (fun _ => p3) w)))).
  { rewrite (result_loop_step _ _ _ _ _ _ _ _ Hse0 Hg1). unfold one_result. rewrite Hst. unfold set_state.
    rewrite bind_assoc. run (update_pgsql_again _ _ _ _). rewrite bind_assoc. run (get_pgsql_again _ _ _).
    cbn [req pg_set_state pg_set_result]. rewrite Hreq, bool_decide_false by (by intros []). rewrite bind_assoc.
    assert (Hcall : call_cb run_cb l w1 = Done (tt, set_app f w1)).
    { unfold call_cb. run (get_pgsql_run w1 l v1 (lookup_insert_eq _ _ _)). subst v1. cbn [cb pg_set_state pg_set_result arg]. by rewrite Hk. }
    change (set_pgsqls _ (set_pq _ w0)) with w1. run Hcall. rewrite bind_assoc. run (update_pgsql_run (set_app f w1) l v1 _ (lookup_insert_eq _ _ _)).
    run eq_refl. cbv iota. set (w2 := set_pgsqls _ (set_app f w1)).
    rewrite (result_loop_step n w2 l (pg_set_result (fun _ => None) v1) c h None p3);
      [|split_and!; [apply lookup_insert_eq|done|by exists x]|done].
    unfold mret, M_ret, set_pgsqls, set_pq, set_app. cbn. by rewrite !insert_insert_eq. }
  run Hloop. cbv iota. set (w3 := set_app f _). run (get_pgsql_run w3 l _ (lookup_insert_eq _ _ _)).
  cbn [state result pg_set_state pg_set_result]. rewrite bool_decide_false by done. rewrite bool_decide_true by done.
  unfold set_state. rewrite (update_pgsql_run w3 l _ _ (lookup_insert_eq _ _ _)).
  unfold set_pgsqls, set_pq, set_app. cbn. by rewrite insert_insert_eq.
Qed.

(** A finished query gives its connection back, tells its callback, and wakes who waits. *)
Lemma release_done_run w l v c x h p k :
  pgsqls w !! l = Some v -> conn v = Some c -> conns w !! c = Some x -> c_db x = Some h ->
  state v = KORE_PGSQL_STATE_DONE -> PQgetResult h (pq w) = (None, p) -> 1 <= fuel -> cb v = Some k ->
  let v1 := pg_set_state (fun _ => KORE_PGSQL_STATE_COMPLETE) (pg_set_conn (fun _ => None) v) in
  exists s, pgsql_conn_release run_cb fuel l w = (run_cb k l (arg v);; pgsql_queue_wakeup run_cb) (set_pgsqls <[l := v1]>
    (set_pgsql_conn_free (fun q => q ++ [c])
      (set_conns <[c := conn_set_c_job (fun _ => None) (conn_set_c_flags (Z.lor PGSQL_CONN_FREE) x)]>
        (set_pq (fun _ => p) (set_reads (fun _ => s) w))))).
Proof.
  intros Hl Hc Hx Hh Hst Hg Hf Hk v1. unfold pgsql_conn_release. run (get_pgsql_run _ _ _ Hl). rewrite Hc.
  run (db_handle_run _ _ _ _ Hx Hh).
  assert (Hpre : exists s, (if! has (flags v) KORE_PGSQL_ASYNC && has (flags v) KORE_PGSQL_SCHEDULED
    then (fd ← pq_read (PQsocket h); modify (set_reads (fun s => s ∖ {[fd]}));;
       if! negb (bool_decide (state v = KORE_PGSQL_STATE_DONE)) then pgsql_cancel l)) w =
    Done (tt, set_reads (fun _ => s) w)).
  { destruct (has _ _ && _); [|exists (reads w); by destruct w]. cbn [whenM]. run eq_refl. run eq_refl.
    rewrite bool_decide_true by done. by eexists. }
  destruct Hpre as (s & Hpre). exists s. run Hpre. destruct fuel as [|n]; [lia|]. cbn [drain].
  rewrite bind_assoc. run (pq_call_run _ (set_reads _ w) _ _ Hg). run eq_refl.
  set (w2 := set_pq _ _). run (update_conn_run w2 _ _ _ Hx). run eq_refl. set (w3 := set_pgsql_conn_free _ _).
  run (update_pgsql_run w3 _ _ _ Hl). fold v1. unfold call_cb. rewrite bind_assoc. run (get_pgsql_again _ _ _).
  subst v1. cbn [cb pg_set_state pg_set_conn arg]. by rewrite Hk.
Qed.
Lemma waiter_of_none l (q : list (nat * loc)) : l ∉ q.*2 -> waiter_of l q = None.
Proof using Type.
  induction q as [|[pgw l'] q IH]; [done|]. cbn. intros [Hne Hq]%not_elem_of_cons.
  rewrite decide_False by done. by apply IH.
Qed.

(** Cleaning up a query that neither waits nor holds a connection only resets its record. *)
Lemma cleanup_idle_run w l v :
  pgsqls w !! l = Some v -> conn v = None -> req v = None -> l ∉ (pgsql_wait_queue w).*2 ->
  exists v', kore_pgsql_cleanup run_cb fuel l w = Done (tt, set_pgsqls <[l := v']> w) /\
    conn v' = None /\ error v' = None /\ result v' = None /\ has (flags v') PGSQL_LIST_INSERTED = false.
Proof.
  intros Hl Hc Hr Hq. unfold kore_pgsql_cleanup. unfold pgsql_queue_remove. rewrite bind_assoc. run eq_refl.
  rewrite waiter_of_none by done. run eq_refl. run (get_pgsql_run _ _ _ Hl).
  rewrite Hc, bool_decide_false by (by intros []). cbn [whenM]. run eq_refl.
  run (update_pgsql_run _ _ _ _ Hl). run (get_pgsql_again _ _ _). set (v1 := pg_set_conn _ _).
  destruct (has (flags v1) PGSQL_LIST_INSERTED) eqn:Hf; cbn [whenM].
  - unfold req_unlink. change (req v1) with (req v). rewrite Hr. run eq_refl. rewrite update_pgsql_again.
    eexists. split; [done|]. split_and!; [done|done|done|]. unfold has, clear_flag. cbn. by rewrite Z.land_ldiff.
  - eexists. split; [done|]. by split_and!.
Qed.
Lemma setup_reuses_run w l v nm d q1 c q2 x h :
  pgsqls w !! l = Some v -> req v <> None \/ cb v <> None -> find_db nm (pgsql_db_conn_strings w) = Some d ->
  pgsql_conn_free w = q1 ++ c :: q2 -> NoDup (pgsql_conn_free w) ->
  Forall (fun d => exists u, free_conn w d u /\ c_name u <> nm) q1 ->
  free_conn w c x -> c_name x = nm -> c_db x = Some h -> PQtransactionStatus h (pq w) <> PQTRANS_INERROR -> 1 <= fuel ->
  has (Z.lor (flags v) KORE_PGSQL_ASYNC) KORE_PGSQL_ASYNC = true ->
  kore_pgsql_setup run_cb count_bits fuel l nm KORE_PGSQL_ASYNC w =
  Done (KORE_RESULT_OK, set_conns <[c := conn_set_c_job (fun _ => Some l) (conn_set_c_flags (clear_flag PGSQL_CONN_FREE) x)]>
    (set_pgsqls <[l := pg_set_conn (fun _ => Some c) (pg_set_flags (fun f => Z.lor f KORE_PGSQL_ASYNC) v)]>
      (set_pgsql_conn_free (fun _ => q1 ++ q2) w))).
Proof.
  intros Hl Hb Hd Hq Hnd Hq1 Hfc Hn Hh Ht Hf Hfl. destruct fuel as [|n] eqn:Ef; [lia|]. unfold kore_pgsql_setup.
  run (get_pgsql_run _ _ _ Hl).
  change (has KORE_PGSQL_ASYNC KORE_PGSQL_ASYNC) with true. change (has KORE_PGSQL_ASYNC KORE_PGSQL_SYNC) with false.
  cbn [andb]. cbv iota.
  assert (Hg : bool_decide (req v = None) && bool_decide (cb v = None) = false).
  { destruct Hb as [Hb|Hb]; [by rewrite (bool_decide_false (req v = None))|].
    by rewrite (bool_decide_false (cb v = None)), andb_false_r. }
  rewrite Hg. run (update_pgsql_run _ _ _ _ Hl). set (v1 := pg_set_flags _ v). set (w1 := set_pgsqls _ w).
  run eq_refl. cbn [pgsql_db_conn_strings set_pgsqls w1]. rewrite Hd.
  destruct (conn_next_run run_cb (S n) n w1 l nm q1 c q2 x h) as [Hnx _]; try done. run Hnx.
  set (w2 := set_pgsql_conn_free _ _). run (update_pgsql_run w2 l v1 _ (lookup_insert_eq _ _ _)).
  set (v2 := pg_set_conn _ v1). set (w3 := set_pgsqls _ w2). run (get_pgsql_run w3 l v2 (lookup_insert_eq _ _ _)).
  change (flags v2) with (Z.lor (flags v) KORE_PGSQL_ASYNC). rewrite Hfl. cbn [whenM].
  run (update_conn_run w3 c _ _ (lookup_insert_eq _ _ _)).
  unfold mret, M_ret, set_conns, set_pgsqls, set_pgsql_conn_free. cbn. by rewrite !insert_insert_eq.
Qed.

(** A query sent: its descriptor is watched and it waits. *)
Lemma run_query_sent w l v c x h exec send p k :
  pgsqls w !! l = Some v -> conn v = Some c -> conns w !! c = Some x -> c_db x = Some h ->
  has (flags v) KORE_PGSQL_SYNC = false -> send (pq w) = (true, p) -> (0 <= PQsocket h p)%Z ->
  req v = None -> cb v = Some k ->
  let v1 := pg_set_flags (Z.lor KORE_PGSQL_SCHEDULED) (pg_set_state (fun _ => KORE_PGSQL_STATE_WAIT) v) in
  let w1 := set_pgsqls <[l := v1]> (set_reads (union {[PQsocket h p]}) (set_pq (fun _ => p) w)) in
  run_cb k l (arg v) w1 = Done (tt, w1) ->
  run_query run_cb l h exec send w = Done (KORE_RESULT_OK, w1).
Proof.
  intros Hl Hc Hx Hh Hs Hsend Hso Hr Hk v1 w1 Hcb. unfold run_query. run (get_pgsql_run _ _ _ Hl). rewrite Hs.
  run (pq_call_run _ _ _ _ Hsend). cbn [negb]. cbv iota. unfold pgsql_schedule. rewrite bind_assoc.
  set (w0 := set_pq _ w). run (get_pgsql_run w0 _ _ Hl). rewrite Hc, bind_assoc. run eq_refl. rewrite bind_assoc.
  run (db_handle_run w0 _ _ _ Hx Hh). rewrite bind_assoc. run eq_refl.
  change (pq w0) with p. rewrite (proj2 (Z.ltb_ge _ _)) by done. rewrite bind_assoc. run eq_refl.
  rewrite bind_assoc. run (update_pgsql_run (set_reads _ w0) l v _ Hl). unfold with_req. rewrite Hr, bind_assoc.
  run eq_refl. fold v1. change (set_pgsqls _ _) with w1. unfold call_cb. rewrite bind_assoc.
  run (get_pgsql_run w1 l v1 (lookup_insert_eq _ _ _)). change (cb v1) with (cb v). rewrite Hk.
  change (arg v1) with (arg v). by run Hcb.
Qed.

Lemma query_sent w l v c x h q p k :
  pgsqls w !! l = Some v -> conn v = Some c -> conns w !! c = Some x -> c_db x = Some h ->
  has (flags v) KORE_PGSQL_SYNC = false -> PQsendQuery h q (pq w) = (true, p) -> (0 <= PQsocket h p)%Z ->
  req v = None -> cb v = Some k ->
  let v1 := pg_set_flags (Z.lor KORE_PGSQL_SCHEDULED) (pg_set_state (fun _ => KORE_PGSQL_STATE_WAIT) v) in
  let w1 := set_pgsqls <[l := v1]> (set_reads (union {[PQsocket h p]}) (set_pq (fun _ => p) w)) in
  run_cb k l (arg v) w1 = Done (tt, w1) ->
  kore_pgsql_query run_cb l q w = Done (KORE_RESULT_OK, w1).
Proof.
  intros Hl Hc Hx Hh Hs Hsend Hso Hr Hk v1 w1 Hcb. unfold kore_pgsql_query. run (get_pgsql_run _ _ _ Hl). rewrite Hc.
  run (db_handle_run _ _ _ _ Hx Hh). by eapply run_query_sent.
Qed.

Lemma query_params_sent w l v c x h q fmt args p k :
  pgsqls w !! l = Some v -> conn v = Some c -> conns w !! c = Some x -> c_db x = Some h ->
  has (flags v) KORE_PGSQL_SYNC = false -> PQsendQueryParams h q args fmt (pq w) = (true, p) ->
  (0 <= PQsocket h p)%Z -> length args < fuel -> (Z.of_nat (length args) <= 255)%Z -> req v = None -> cb v = Some k ->
  let v1 := pg_set_flags (Z.lor KORE_PGSQL_SCHEDULED) (pg_set_state (fun _ => KORE_PGSQL_STATE_WAIT) v) in
  let w1 := set_pgsqls <[l := v1]> (set_reads (union {[PQsocket h p]}) (set_pq (fun _ => p) w)) in
  run_cb k l (arg v) w1 = Done (tt, w1) ->
  kore_pgsql_v_query_params run_cb fuel l q fmt (Z.of_nat (length args)) args w = Done (KORE_RESULT_OK, w1).
Proof.
  intros Hl Hc Hx Hh Hs Hsend Hso Hf Hlen Hr Hk v1 w1 Hcb.
  unfold kore_pgsql_v_query_params. run (get_pgsql_run _ _ _ Hl). rewrite Hc.
  destruct (query_params_values fuel args) as (vs & Hvs & Hps); [lia|lia|].
  rewrite Hvs. run eq_refl. run (db_handle_run _ _ _ _ Hx Hh). cbn zeta. rewrite Hps.
  by eapply run_query_sent.
Qed.
End Behaviour.

(** ** The application's own state

    The layer touches it through callbacks only: what they preserve of it, every operation
    preserves. *)

Section AppState.
Context {P R A : Type} `{LibPq P R} `{PgVersion}.
Context (I : A -> Prop) (run_cb : nat -> loc -> loc -> M (pg_world P R A) unit).
Context (count_bits : Z) (fuel : nat).
Abbreviation keeps := (preserves (fun w : pg_world P R A => I (app w))).
Context (Hcbs : forall k l a, keeps (run_cb k l a)).

Create HintDb keep.
#[local] Hint Resolve preserves_ret preserves_gets preserves_crash preserves_live preserves_deref
  preserves_when Hcbs : keep.
#[local] Hint Extern 2 (preserves _ (modify _)) => (apply preserves_modify; intros [] ?; assumption) : keep.
#[local] Hint Extern 4 (preserves _ (_ ≫= _)) => (apply preserves_bind; [|intros ?]) : keep.
#[local] Hint Extern 5 (preserves _ (match ?x with _ => _ end)) => destruct x : keep.
Ltac kp := intros; eauto 60 with keep.

Lemma keeps_pq_call {B : Type} (f : P -> B * P) : keeps (pq_call f).
Proof. intros w b w' Hw Hr. unfold pq_call in Hr. destruct (f (pq w)). by injection Hr as <- <-. Qed.

Lemma keeps_pq_read {B : Type} (f : P -> B) : keeps (pq_read f).
Proof. unfold pq_read. kp. Qed.

Lemma keeps_get_pgsql l : keeps (get_pgsql l).
Proof. unfold get_pgsql. kp. Qed.

Lemma keeps_get_conn c : keeps (get_conn c).
Proof. unfold get_conn. kp. Qed.

Lemma keeps_new_addr : keeps new_addr.
Proof. unfold new_addr. kp. Qed.
#[local] Hint Resolve keeps_pq_call keeps_pq_read keeps_get_pgsql keeps_get_conn keeps_new_addr : keep.

Lemma keeps_update_pgsql l f : keeps (update_pgsql l f).
Proof. unfold update_pgsql. kp. Qed.

Lemma keeps_update_conn c f : keeps (update_conn c f).
Proof. unfold update_conn. kp. Qed.

Lemma keeps_set_error l msg : keeps (pgsql_set_error l msg).
Proof. unfold pgsql_set_error. apply keeps_update_pgsql. Qed.

Lemma keeps_db_handle c : keeps (db_handle c).
Proof. unfold db_handle. kp. Qed.

Lemma keeps_free_remove c : keeps (free_remove c).
Proof. unfold free_remove. kp. Qed.

Lemma keeps_wait_remove pgw : keeps (wait_remove pgw).
Proof. unfold wait_remove. kp. Qed.

Lemma keeps_wakeup v : keeps (with_req http_request_wakeup v).
Proof. unfold with_req, http_request_wakeup. kp. Qed.

Lemma keeps_sleep v : keeps (with_req http_request_sleep v).
Proof. unfold with_req, http_request_sleep. kp. Qed.
#[local] Hint Resolve keeps_update_pgsql keeps_update_conn keeps_set_error keeps_db_handle keeps_free_remove
  keeps_wait_remove keeps_wakeup keeps_sleep : keep.

Lemma keeps_call_cb l : keeps (call_cb run_cb l).
Proof. unfold call_cb. kp. Qed.
#[local] Hint Resolve keeps_call_cb : keep.

Lemma keeps_queue_wakeup : keeps (pgsql_queue_wakeup run_cb).
Proof.
  unfold pgsql_queue_wakeup. apply preserves_bind; [kp|]. intros q.
  induction q as [|[pgw l] q IH]; cbn [wakeup_loop]; kp.
Qed.

Lemma keeps_drain n h : keeps (drain n h).
Proof. induction n; cbn [drain]; kp. Qed.

Lemma keeps_cancel l : keeps (pgsql_cancel l).
Proof. unfold pgsql_cancel. kp. Qed.
#[local] Hint Resolve keeps_queue_wakeup keeps_drain keeps_cancel : keep.

Lemma keeps_release l : keeps (pgsql_conn_release run_cb fuel l).
Proof. unfold pgsql_conn_release. kp. Qed.

Lemma keeps_conn_cleanup c : keeps (pgsql_conn_cleanup count_bits c).
Proof. unfold pgsql_conn_cleanup. kp. Qed.

Lemma keeps_schedule l : keeps (pgsql_schedule run_cb l).
Proof. unfold pgsql_schedule. kp. Qed.

Lemma keeps_queue_remove l : keeps (pgsql_queue_remove l).
Proof. unfold pgsql_queue_remove. kp. Qed.
#[local] Hint Resolve keeps_release keeps_conn_cleanup keeps_schedule keeps_queue_remove : keep.

Lemma keeps_cleanup l : keeps (kore_pgsql_cleanup run_cb fuel l).
Proof. unfold kore_pgsql_cleanup, req_unlink. kp. Qed.

Lemma keeps_run_query l h exec send : keeps (run_query run_cb l h exec send).
Proof. unfold run_query, set_state. kp. Qed.
#[local] Hint Resolve keeps_cleanup keeps_run_query : keep.

Lemma keeps_query l q : keeps (kore_pgsql_query run_cb l q).
Proof. unfold kore_pgsql_query. kp. Qed.

Lemma keeps_v_query_params l q f n args : keeps (kore_pgsql_v_query_params run_cb fuel l q f n args).
Proof.
  unfold kore_pgsql_v_query_params. apply preserves_bind; [kp|]. intros v. destruct (conn v); [|kp].
  apply preserves_bind; [|kp]. intros w b w' Hw. destruct (params_loop _ _ _ _ _); [|done].
  by intros [= <- <-].
Qed.

Lemma keeps_init l : keeps (kore_pgsql_init l).
Proof. unfold kore_pgsql_init. kp. Qed.

Lemma keeps_bind_callback l k a : keeps (kore_pgsql_bind_callback l k a).
Proof. unfold kore_pgsql_bind_callback. kp. Qed.

Lemma keeps_logerror l : keeps (kore_pgsql_logerror l).
Proof. unfold kore_pgsql_logerror. kp. Qed.
#[local] Hint Resolve keeps_query keeps_v_query_params keeps_init keeps_logerror : keep.

Lemma keeps_free_conn_for nm q : keeps (free_conn_for nm q).
Proof. induction q; cbn [free_conn_for]; kp. Qed.

Lemma keeps_take_conn c : keeps (take_conn c).
Proof. unfold take_conn. kp. Qed.
#[local] Hint Resolve keeps_free_conn_for keeps_take_conn : keep.

Lemma keeps_rollback c : keeps (rollback_conn run_cb count_bits fuel c).
Proof. unfold rollback_conn. kp. Qed.

Lemma keeps_connect_failed l c h : keeps (connect_failed count_bits l c h).
Proof. unfold connect_failed. kp. Qed.
#[local] Hint Resolve keeps_connect_failed : keep.
Lemma keeps_poll_loop n l c h fd s : keeps (poll_loop count_bits n l c h fd s).
Proof. revert s. induction n as [|n IH]; intros; cbn [poll_loop]; unfold watch; kp. Qed.
#[local] Hint Resolve keeps_poll_loop : keep.
Lemma keeps_conn_create l d : keeps (pgsql_conn_create count_bits fuel l d).
Proof. unfold pgsql_conn_create, connect_wait, connect_poll_13, connect_poll. kp. Qed.

Lemma keeps_queue_add l : keeps (pgsql_queue_add l).
Proof. unfold pgsql_queue_add. kp. Qed.
#[local] Hint Resolve keeps_rollback keeps_conn_create keeps_queue_add : keep.

Lemma keeps_conn_next n l nm : keeps (pgsql_conn_next run_cb count_bits fuel n l nm).
Proof. induction n; cbn [pgsql_conn_next]; unfold conn_next_create; kp. Qed.
#[local] Hint Resolve keeps_conn_next : keep.

Lemma keeps_setup l nm fl : keeps (kore_pgsql_setup run_cb count_bits fuel l nm fl).
Proof. unfold kore_pgsql_setup. kp. Qed.

Lemma keeps_notify_loop n l : keeps (notify_loop run_cb n l).
Proof. induction n; cbn [notify_loop]; kp. Qed.

Lemma keeps_result_loop n l : keeps (result_loop run_cb n l).
Proof. induction n; cbn [result_loop]; unfold one_result, set_state; kp. Qed.
#[local] Hint Resolve keeps_notify_loop keeps_result_loop : keep.

Lemma keeps_handle c err : keeps (kore_pgsql_handle run_cb count_bits fuel c err).
Proof. unfold kore_pgsql_handle, pgsql_read_result, read_results, set_state. kp. Qed.
#[local] Hint Resolve keeps_handle : keep.

Lemma keeps_continue l : keeps (kore_pgsql_continue run_cb count_bits fuel l).
Proof. unfold kore_pgsql_continue. kp. Qed.
End AppState.

#[export] Hint Resolve keeps_get_pgsql keeps_get_conn keeps_new_addr keeps_wakeup keeps_sleep keeps_call_cb
  keeps_cleanup keeps_query keeps_v_query_params keeps_init keeps_bind_callback keeps_logerror keeps_setup
  keeps_handle keeps_continue : keep.

(** ** The theorems at a concrete state: one database "db", one query at address 1 *)

Abbreviation ex_W := (pg_world pq_server exec_status unit).

#[local] Instance ex_version : PgVersion := {| the_version := root_pgsql; stack_rfds := ∅ |}.

Definition ex_quiet (c l a : nat) : M ex_W unit := mret tt.
Definition ex_server (acc : bool) (rs : list exec_status) : pq_server := PqServer acc 0 rs [] false.
Definition ex_query (c : option loc) (r : option loc) : kore_pgsql exec_status :=
  KorePgsql KORE_PGSQL_STATE_WAIT KORE_PGSQL_ASYNC None None c r (Some 3) 0 None.
Definition ex_conn (fl : Z) (job : option loc) : pgsql_conn := PgsqlConn fl "db" (Some 0) job.
Definition ex_db (n : Z) : pgsql_db := PgsqlDb "db" (Some "host=localhost") 2 n.
Definition ex_world (srv : pq_server) (q : kore_pgsql exec_status) (cs : gmap loc pgsql_conn)
    (free : list loc) (waitq : list (nat * loc)) (n : Z) : ex_W :=
  PgWorld srv {[1 := q]} cs free waitq (Z.of_nat (length waitq)) [ex_db n] ∅ ∅ [] 100 tt.

Lemma ex_callbacks_quiet : callbacks_quiet ex_quiet.
Proof. intros c l a []. by exists (fun x => x). Qed.

Definition ex_used : ex_W :=
  ex_world (ex_server true []) (ex_query None None) ∅ [] [] 2.

Lemma pgsql_queue_invariant_witness :
  exists w', run_ops ex_quiet 16 10 [OpSetup 1 "db" KORE_PGSQL_ASYNC; OpCleanup 1] ex_used = Done (tt, w') /\
    queue_ok w'.
Proof.
  destruct (run_ops ex_quiet 16 10 [OpSetup 1 "db" KORE_PGSQL_ASYNC; OpCleanup 1] ex_used) as [[[] w']|f] eqn:Hr;
    [|by vm_compute in Hr].
  exists w'. split; [done|].
  apply (pgsql_queue_invariant ex_quiet 16 10 ltac:(intros; apply preserves_ret)
    [OpSetup 1 "db" KORE_PGSQL_ASYNC; OpCleanup 1] ex_used w' tt); [|exact Hr].
  split_and!; [done|by vm_compute|constructor|constructor].
Defined.

Lemma setup_errors_witness :
  kore_pgsql_setup ex_quiet 16 10 1 "db" 3 ex_used =
  Done (KORE_RESULT_ERROR, set_pgsqls <[1 := failed "invalid query init parameters" (ex_query None None)]> ex_used).
Proof.
  apply (setup_errors 16 ex_quiet 10 ex_used 1 (ex_query None None) "db" 3); by vm_compute.
Defined.

Lemma conn_next_reuses_witness :
  exists w', pgsql_conn_next ex_quiet 16 10 5 1 "db"
    (ex_world (ex_server true []) (ex_query None None) {[20 := ex_conn 1 None]} [20] [] 1) = Done (Some 20, w').
Proof.
  destruct (conn_next_reuses 16 ex_quiet 10 4
    (ex_world (ex_server true []) (ex_query None None) {[20 := ex_conn 1 None]} [20] [] 1) 1 "db" [] 20 []
    (ex_conn 1 None) 0) as [Hr _];
    [done|apply NoDup_singleton|constructor|by split; vm_compute|done|done|done|].
  eexists. exact Hr.
Defined.

Lemma conn_next_exhausted_witness :
  exists w', pgsql_conn_next ex_quiet 16 10 5 1 "db" ex_used = Done (None, w') /\
    pgsql_wait_queue w' = [(100, 1)].
Proof.
  destruct (conn_next_exhausted 16 ex_quiet 10 4 ex_used 1 (ex_query None None) "db" (ex_db 2))
    as (w' & Hr & _ & _ & _ & Hq & _); [done|constructor|by vm_compute|done|done|].
  exists w'. split; [exact Hr|exact Hq].
Defined.

Lemma conn_cleanup_miscounts_witness :
  exists w', pgsql_conn_cleanup 16 20
    (ex_world (ex_server true []) (ex_query None None) {[20 := ex_conn 0 None]} [] [] 1) = Done (tt, w') /\
    pgsql_db_conn_strings w' = [ex_db 1].
Proof.
  destruct (conn_cleanup_miscounts 16
    (ex_world (ex_server true []) (ex_query None None) {[20 := ex_conn 0 None]} [] [] 1) 20 (ex_conn 0 None))
    as (w' & Hr & Hs & _); [done|done|done|].
  exists w'. split; [exact Hr|]. rewrite Hs; [done|]. by repeat constructor.
Defined.

Lemma refused_connection_leaks_witness :
  exists w', pgsql_conn_create 16 10 1 (ex_db 0)
    (ex_world (ex_server false []) (ex_query None None) ∅ [] [] 0) = Done (None, w') /\
    pgsql_db_conn_strings w' = [ex_db 1].
Proof.
  destruct (refused_connection_leaks 16 10 (ex_world (ex_server false []) (ex_query None None) ∅ [] [] 0) 1
    (ex_query None None) (ex_db 0) "host=localhost" 0 (PqServer false 1 [] [] false))
    as (w' & Hr & _ & _ & Hd & _); [done|done|done|by split|apply not_elem_of_nil|done|].
  exists w'. split; [exact Hr|exact Hd].
Defined.

Definition ex_busy (rs : list exec_status) : ex_W :=
  ex_world (ex_server true rs) (ex_query (Some 20) None) {[20 := ex_conn 0 (Some 1)]} [] [] 1.

Lemma conn_release_returns_witness :
  exists w1, pgsql_conn_release ex_quiet 10 1 (ex_busy [PGRES_TUPLES_OK]) = pgsql_queue_wakeup ex_quiet w1 /\
    pgsql_conn_free w1 = [20].
Proof.
  destruct (conn_release_returns ex_quiet 10 (ex_busy [PGRES_TUPLES_OK]) 1 (ex_query (Some 20) None) 20
    (ex_conn 0 (Some 1)) 0 ex_callbacks_quiet) as (w1 & Hr & Hf & _); [done|done|done|done|cbn; lia|cbn; lia|].
  exists w1. split; [exact Hr|exact Hf].
Defined.

Lemma wakeup_serves_first_witness :
  exists w', pgsql_queue_wakeup ex_quiet
    (ex_world (ex_server true []) (ex_query None None) ∅ [] [(50, 1); (51, 1)] 2) = Done (tt, w') /\
    pgsql_wait_queue w' = [(51, 1)].
Proof.
  destruct (wakeup_serves_first ex_quiet
    (ex_world (ex_server true []) (ex_query None None) ∅ [] [(50, 1); (51, 1)] 2) [] 50 1 [(51, 1)]
    (ex_query None None) ex_callbacks_quiet) as (w' & Hr & Hq & _);
    [done|by apply (bool_decide_unpack _)|constructor|done|].
  exists w'. split; [exact Hr|exact Hq].
Defined.

(** A callback that cleans its query up. *)
Definition ex_cleaning (c l a : nat) : M ex_W unit := kore_pgsql_cleanup ex_quiet 10 l.

Lemma wakeup_reentrant_crashes_witness :
  pgsql_queue_wakeup ex_cleaning
    (ex_world (ex_server true []) (ex_query None None) ∅ [] [(50, 1)] 2) = Crash UseAfterFree.
Proof.
  destruct (ex_cleaning 3 1 0 (ex_world (ex_server true []) (ex_query None None) ∅ [] [(50, 1)] 2))
    as [[[] w1]|f] eqn:Hr; [|by vm_compute in Hr].
  apply (wakeup_reentrant_crashes ex_cleaning
    (ex_world (ex_server true []) (ex_query None None) ∅ [] [(50, 1)] 2) w1 50 1 [] (ex_query None None) 3);
    [done|done|done|done|exact Hr|].
  assert (Hw : w1 = ex_world (ex_server true []) (ex_query None None) ∅ [] [] 2)
    by (vm_compute in Hr; injection Hr as <-; by vm_compute).
  rewrite Hw. apply not_elem_of_nil.
Defined.

Lemma read_result_error_state_witness :
  exists w' v', pgsql_read_result ex_quiet 10 1 (ex_busy [PGRES_FATAL_ERROR]) = Done (tt, w') /\
    pgsqls w' !! 1 = Some v' /\ state v' = KORE_PGSQL_STATE_DONE /\ error v' = Some "failed".
Proof.
  destruct (read_result_error_state ex_quiet 10 (ex_busy [PGRES_FATAL_ERROR]) 1 (ex_query (Some 20) None) 20 0
    (ex_server true [PGRES_FATAL_ERROR]) PGRES_FATAL_ERROR (ex_server true []) (ex_server true []))
    as (w' & v' & Hr & Hp & He & Hs);
    [done|split_and!; [done|done|by eexists]|done|done|done|by right; right|done|lia|].
  exists w', v'. split; [exact Hr|]. rewrite Hp. split; [apply lookup_insert_eq|]. split; [exact Hs|exact He].
Defined.
End Pg.
