(* ===== verification/PgsqlVersions.v ===== *)
(** * The versions of the PostgreSQL layer: pgsql.c, auth2/pgsql.c, websocket_13/pgsql.c

    Theorems about what the versions of [Pgsql] do differently: how a connection is made, and
    what becomes of a query the database refuses. *)

From S2P Require Import Prelude LibPq Pgsql.
Import Pg.

Local Open Scope c_scope.

Module Versions.

Section Versions.
Context {P R A : Type} `{LibPqLaws P R} `{PgVersion}.
Implicit Types w : pg_world P R A.
Context (count_bits : Z).

(** ** Connections *)

(** The connection [h] is made after [n] polls, if the sets given to select are those of the
    code: [rfds] is what the set holds before the first of them. *)
Inductive polled (h : nat) (fd : Z) : nat -> gset Z -> P -> P -> Prop :=
| polled_ok rfds p p' : PQconnectPoll h p = (PGRES_POLLING_OK, p') -> polled h fd 1 rfds p p'
| polled_read n rfds p p1 s p2 p' :
    PQconnectPoll h p = (PGRES_POLLING_READING, p1) -> (0 <= fd)%Z ->
    select_read ({[fd]} ∪ rfds) p1 = (Some s, p2) -> polled h fd n s p2 p' -> polled h fd (S n) rfds p p'
| polled_write n rfds p p1 s p2 p' :
    PQconnectPoll h p = (PGRES_POLLING_WRITING, p1) ->
    select_read rfds p1 = (Some s, p2) -> polled h fd n s p2 p' -> polled h fd (S n) rfds p p'.

Lemma poll_loop_made l c h fd n k rfds p p' w :
  polled h fd n rfds p p' -> n <= k -> pq w = p ->
  poll_loop count_bits k l c h fd rfds w = Done (true, set_pq (fun _ => p') w).
Proof.
  intros Hp. revert k w. induction Hp as [rfds p p' Hpoll|n rfds p p1 s p2 p' Hpoll Hfd Hsel Hp IH|n rfds p p1 s p2 p' Hpoll Hsel Hp IH];
    intros k w Hk Hw; (destruct k as [|k]; [lia|]); cbn [poll_loop]; subst p; run (pq_call_run _ w _ _ Hpoll).
  - done.
  - cbn [watch]. destruct (Z.ltb_spec fd 0); [lia|]. run eq_refl. run (pq_call_run _ (set_pq (fun _ => p1) w) _ _ Hsel).
    by rewrite (IH k) by (lia || done).
  - cbn [watch]. run eq_refl. run (pq_call_run _ (set_pq (fun _ => p1) w) _ _ Hsel). by rewrite (IH k) by (lia || done).
Qed.

(** The server accepts a connection, after at most [n] polls where the version polls. *)
Definition accepted (n : nat) (s : string) (p : P) (h : nat) (p' : P) : Prop :=
  match the_version with
  | root_pgsql => PQconnectdb s p = (Some h, p') /\ PQstatus_ok h p' = true
  | _ => exists k p1, PQconnectStart s p = (Some h, p1) /\ PQstatus_bad h p1 = false /\ k <= n /\
           polled h (PQsocket h p1) k stack_rfds p1 p'
  end.

Lemma connect_made fuel w l c x s h p' :
  conns w !! c = Some x -> accepted fuel s (pq w) h p' ->
  match the_version with
  | root_pgsql => connect_wait count_bits l c s
  | auth2_pgsql => connect_poll count_bits fuel l c s
  | websocket_13_pgsql => connect_poll_13 count_bits fuel l c s
  end w = Done (true, set_conns <[c := conn_set_c_db (fun _ => Some h) x]> (set_pq (fun _ => p') w)).
Proof.
  unfold accepted. intros Hx Hacc.
  assert (Hpoll : forall k p1, PQconnectStart s (pq w) = (Some h, p1) -> PQstatus_bad h p1 = false -> k <= fuel ->
    polled h (PQsocket h p1) k stack_rfds p1 p' ->
    connect_poll count_bits fuel l c s w = Done (true, set_conns <[c := conn_set_c_db (fun _ => Some h) x]> (set_pq (fun _ => p') w))).
  { intros k p1 Hs Hb Hk Hp. unfold connect_poll. run (pq_call_run _ w _ _ Hs).
    run (update_conn_run (set_pq (fun _ => p1) w) c x _ Hx). run eq_refl. change (pq _) with p1. rewrite Hb. cbv iota.
    run eq_refl. run eq_refl. set (w2 := set_conns _ _). change (pq _) with p1. by rewrite (poll_loop_made l c h _ k fuel _ p1 p' w2 Hp Hk eq_refl). }
  destruct the_version.
  - destruct Hacc as [Hs Hb]. unfold connect_wait. run (pq_call_run _ w _ _ Hs).
    run (update_conn_run (set_pq (fun _ => p') w) c x _ Hx). run eq_refl. change (pq _) with p'. by rewrite Hb.
  - destruct Hacc as (k & p1 & Hs & Hb & Hk & Hp). by apply (Hpoll k p1).
  - destruct Hacc as (k & p1 & Hs & Hb & Hk & Hp). unfold connect_poll_13. run (Hpoll k p1 Hs Hb Hk Hp).
    cbn [negb]. cbv iota. erewrite bind_step; [|apply get_conn_run, lookup_insert_eq]. by rewrite bool_decide_false by done.
Qed.

(** In each version of the layer a connection the server accepts is counted, is known under its
    database's name, and is put behind the free ones; nothing else changes. *)
Theorem conn_created fuel w l d s h p' :
  conn_string d = Some s -> accepted fuel s (pq w) h p' ->
  pgsql_conn_create count_bits fuel l d w = Done (Some (fresh_addr w),
    set_conns <[fresh_addr w := PgsqlConn PGSQL_CONN_FREE (db_name d) (Some h) None]>
      (set_pq (fun _ => p') (set_pgsql_conn_free (fun q => q ++ [fresh_addr w])
        (set_fresh_addr S (set_pgsql_db_conn_strings (count_up count_bits (db_name d)) w))))).
Proof.
  intros Hs Hacc. unfold pgsql_conn_create. rewrite Hs. run eq_refl. unfold new_addr.
  rewrite bind_assoc. run eq_refl. rewrite bind_assoc. run eq_refl. run eq_refl. run eq_refl. run eq_refl.
  set (w1 := set_pgsql_conn_free _ _).
  run (connect_made fuel w1 l (fresh_addr w) _ s h p' (lookup_insert_eq _ _ _) Hacc).
  unfold mret, M_ret, w1, set_conns, set_pq, set_pgsql_conn_free. cbn. by rewrite insert_insert_eq.
Qed.

(** The versions that poll select for reading only: when the first poll asks to wait until the
    socket can be written, and the set on the stack happens to be empty, the worker waits for
    ever, whatever the server does. *)
Theorem polling_waits_for_ever fuel w l d s h p1 p2 :
  the_version <> root_pgsql -> stack_rfds = ∅ -> conn_string d = Some s ->
  PQconnectStart s (pq w) = (Some h, p1) -> PQstatus_bad h p1 = false ->
  PQconnectPoll h p1 = (PGRES_POLLING_WRITING, p2) ->
  pgsql_conn_create count_bits fuel l d w = Crash Fuel.
Proof.
  intros Hver Hst Hs Hco Hb Hpoll. unfold pgsql_conn_create. rewrite Hs. run eq_refl. unfold new_addr.
  rewrite bind_assoc. run eq_refl. rewrite bind_assoc. run eq_refl. run eq_refl. run eq_refl. run eq_refl.
  set (w1 := set_pgsql_conn_free _ _).
  assert (Hc : connect_poll count_bits fuel l (fresh_addr w) s w1 = Crash Fuel).
  { unfold connect_poll. run (pq_call_run _ w1 _ _ Hco). set (w2 := set_pq _ w1).
    run (update_conn_run w2 (fresh_addr w) _ _ (lookup_insert_eq _ _ _)). run eq_refl. change (pq _) with p1. rewrite Hb.
    cbv iota. run eq_refl. run eq_refl. destruct fuel as [|k]; [done|]. cbn [poll_loop].
    set (w3 := set_conns _ w2). run (pq_call_run _ w3 _ _ Hpoll). cbn [watch]. run eq_refl. rewrite Hst.
    pose proof (select_read_empty p2) as Hsel. destruct (select_read ∅ p2) as [o p3] eqn:He. cbn in Hsel. subst o.
    by run (pq_call_run _ (set_pq (fun _ => p2) w3) _ _ He). }
  destruct the_version; [done| |].
  - by apply bind_crash.
  - apply bind_crash. unfold connect_poll_13. by apply bind_crash.
Qed.

(** ** A query the database refuses *)

Context (run_cb : nat -> loc -> loc -> M (pg_world P R A) unit) (fuel : nat).

(** What the callback of a refused query does to the application's state: in pgsql.c it is not
    called. *)
Definition told (f : A -> A) : A -> A := match the_version with root_pgsql => fun a => a | _ => f end.

Lemma one_result_told w l v r k f :
  pgsqls w !! l = Some v -> fatal_status r -> req v = None -> cb v = Some k ->
  let w1 := set_pgsqls <[l := failed (PQresultErrorMessage r) v]> w in
  run_cb k l (arg v) w1 = Done (tt, set_app f w1) ->
  one_result run_cb l r w = Done (false, set_app (told f) w1).
Proof.
  intros Hl Hst Hreq Hk w1 Hcb. assert (Hl1 : pgsqls w1 !! l = Some (failed (PQresultErrorMessage r) v)) by apply lookup_insert_eq.
  assert (Htell : (if! tells_errors then call_cb run_cb l) w1 = Done (tt, set_app (told f) w1)).
  { unfold tells_errors, told, call_cb. destruct the_version; cbn [whenM]; [by destruct w1| |];
      (run (get_pgsql_run _ _ _ Hl1); cbn [cb failed pg_set_state pg_set_error arg]; by rewrite Hk). }
  unfold one_result.
  destruct Hst as [-> |[-> | ->]]; run (set_error_run _ _ _ _ Hl); fold w1; run Htell;
    run (get_pgsql_run (set_app (told f) w1) _ _ Hl1); cbn [req failed pg_set_state pg_set_error];
    by rewrite bool_decide_false by (intros Hne; by apply Hne).
Qed.

(** A refused query with a callback: the versions beside the applications tell the callback, in
    state ERROR; in all of them the query then counts as DONE, with the server's message. *)
Lemma read_result_told w l v c h p1 r p2 p3 k f :
  serves w l v c h -> PQisBusy h (pq w) = false -> PQnotifies h (pq w) = (None, p1) ->
  PQgetResult h p1 = (Some r, p2) -> fatal_status r -> PQgetResult h p2 = (None, p3) -> 2 <= fuel ->
  req v = None -> cb v = Some k ->
  let v1 := failed (PQresultErrorMessage r) (pg_set_result (fun _ => Some r) v) in
  let w1 := set_pgsqls <[l := v1]> (set_pq (fun _ => p2) w) in
  run_cb k l (arg v) w1 = Done (tt, set_app f w1) ->
  pgsql_read_result run_cb fuel l w = Done (tt, set_app (told f) (set_pgsqls
    <[l := pg_set_state (fun _ => KORE_PGSQL_STATE_DONE) (pg_set_result (fun _ => None) v1)]> (set_pq (fun _ => p3) w))).
Proof.
  intros Hse Hb Hn Hg1 Hst Hg2 Hf Hreq Hk v1 w1 Hcb. pose proof Hse as (Hl & Hc & x & Hx & Hh).
  rewrite (read_result_run run_cb fuel w l v c Hl Hc). unfold read_results. destruct fuel as [|[|n]]; [lia|lia|].
  run (db_handle_run _ _ _ _ Hx Hh). run eq_refl. rewrite Hb. cbv iota.
  run (notify_loop_none run_cb (S n) w l v c h p1 Hse Hn). set (w0 := set_pq _ w).
  assert (Hse0 : serves w0 l v c h) by (split_and!; [done|done|by exists x]).
  assert (Hloop : result_loop run_cb (S (S n)) l w0 = Done (false, set_app (told f) (set_pgsqls
    <[l := pg_set_result (fun _ => None) v1]> (set_pq (fun _ => p3) w)))).
  { rewrite (result_loop_step run_cb (S n) w0 l v c h (Some r) p2 Hse0 Hg1). set (w2 := set_pgsqls _ _).
    assert (Hw1 : set_pgsqls <[l := v1]> w2 = w1) by (unfold w2, w1, w0, set_pgsqls, set_pq; cbn; by rewrite insert_insert_eq).
    run (one_result_told w2 l (pg_set_result (fun _ => Some r) v) r k f (lookup_insert_eq _ _ _) Hst Hreq Hk
      ltac:(cbn [arg pg_set_result]; fold v1; rewrite Hw1; exact Hcb)).
    fold v1. rewrite Hw1.
    rewrite (result_loop_step run_cb n (set_app (told f) w1) l v1 c h None p3);
      [|split_and!; [apply lookup_insert_eq|done|by exists x]|done].
    unfold mret, M_ret, w1, set_pgsqls, set_pq, set_app. cbn. by rewrite insert_insert_eq. }
  run Hloop. cbv iota. set (w3 := set_app (told f) _). run (get_pgsql_run w3 l _ (lookup_insert_eq _ _ _)).
  cbn [state result pg_set_state pg_set_result v1 failed pg_set_error]. rewrite bool_decide_false by done. rewrite bool_decide_true by done.
  unfold set_state. rewrite (update_pgsql_run w3 l _ _ (lookup_insert_eq _ _ _)).
  unfold w3, set_pgsqls, set_pq, set_app. cbn. by rewrite insert_insert_eq.
Qed.
End Versions.

(** ** The theorems at a concrete state: the layer of auth2, and a server that is busy *)

#[local] Instance ex_version : PgVersion := {| the_version := auth2_pgsql; stack_rfds := ∅ |}.
Abbreviation ex_W := (pg_world pq_server exec_status unit).

Definition ex_db : pgsql_db := PgsqlDb "db" (Some "dbname=postgres") 2 0.
Definition ex_server (rs : list exec_status) : pq_server := PqServer true 5 rs [] true.
Definition ex_world (rs : list exec_status) : ex_W := PgWorld (ex_server rs) ∅ ∅ [] [] 0 [ex_db] ∅ ∅ [] 100 tt.

Lemma conn_created_witness :
  exists w', pgsql_conn_create 16 10 1 ex_db (ex_world [PGRES_COMMAND_OK]) = Done (Some 100, w') /\
    conns w' !! 100 = Some (PgsqlConn PGSQL_CONN_FREE "db" (Some 5) None).
Proof.
  eexists. split.
  - apply (conn_created 16 10 (ex_world [PGRES_COMMAND_OK]) 1 ex_db "dbname=postgres" 5
      (PqServer true 6 [PGRES_COMMAND_OK] [] false)); [reflexivity|].
    exists 2, (PqServer true 6 [PGRES_COMMAND_OK] [] true). split_and!; [reflexivity|reflexivity|lia|].
    eapply polled_read; [reflexivity|done|reflexivity|]. by apply polled_ok.
  - apply lookup_insert_eq.
Defined.

Lemma polling_waits_for_ever_witness : pgsql_conn_create 16 10 1 ex_db (ex_world []) = Crash Fuel.
Proof.
  apply (polling_waits_for_ever 16 10 (ex_world []) 1 ex_db "dbname=postgres" 5 (PqServer true 6 [] [] true) (PqServer true 6 [] [] true));
    done.
Defined.
End Versions.
