(* ===== verification/KoreHttp.v ===== *)
(** * The HTTP side of kore the handlers rely on

    kore's http.c is not part of the repository.  [H] is its state, a request an address.
    What a handler reads of a request (arguments, cookies, headers) is a parameter; so is
    the memory [http_state_create] attaches to a request, of which the laws say what kore's
    documentation does: it is there until it is cleaned up, and it is the request's own.
    What a handler sends is recorded as the list of calls it makes. *)

From S2P Require Import Prelude.

Inductive http_method : Type :=
| HTTP_METHOD_GET | HTTP_METHOD_POST | HTTP_METHOD_PUT | HTTP_METHOD_DELETE | HTTP_METHOD_HEAD.

#[export] Instance http_method_eq_dec : EqDecision http_method.
Proof. solve_decision. Defined.

Definition KORE_RESULT_RETRY : Z := 2.
Definition HTTP_STATUS_FOUND : Z := 302.

(** The bytes of a response: none, a literal, or an asset compiled into the program. *)
Inductive body : Type := NoBody | Text (s : string) | Asset (file : string).

Inductive http_call : Type :=
| Response (code : Z) (b : body)
| ResponseHeader (name value : string)
| ResponseCookie (name value path : string) (http_only secure : bool).

#[export] Instance body_eq_dec : EqDecision body.
Proof. solve_decision. Defined.
#[export] Instance http_call_eq_dec : EqDecision http_call.
Proof. solve_decision. Defined.

Definition is_response (c : http_call) : bool := match c with Response _ _ => true | _ => false end.

Class KoreHttp (H : Type) := {
  http_populate_get : loc -> H -> H;
  http_populate_post : loc -> H -> H;
  http_populate_cookies : loc -> H -> H;
  http_request_cookie : loc -> string -> H -> option string;
  http_argument_get_string : loc -> string -> H -> option string;
  http_argument_get_uint16 : loc -> string -> H -> option Z;
  http_request_header : loc -> string -> H -> option string;
  http_state_get : loc -> H -> option loc;  (* null when [http_state_exists] is false *)
  http_state_create : loc -> loc -> H -> H;  (* the memory attached is at the second address *)
  http_state_cleanup : loc -> H -> H
}.

Class KoreHttpLaws (H : Type) `{KoreHttp H} := {
  state_create_get : forall r l h r',
    http_state_get r' (http_state_create r l h) = if decide (r' = r) then Some l else http_state_get r' h;
  state_cleanup_get : forall r h r',
    http_state_get r' (http_state_cleanup r h) = if decide (r' = r) then None else http_state_get r' h;
  populate_get_get : forall r h r', http_state_get r' (http_populate_get r h) = http_state_get r' h;
  populate_post_get : forall r h r', http_state_get r' (http_populate_post r h) = http_state_get r' h;
  populate_cookies_get : forall r h r', http_state_get r' (http_populate_cookies r h) = http_state_get r' h
}.

(** The instance of the witnesses: a request's arguments, cookies and headers are readable
    from the start, each in one association list. *)
Record http_store : Type := HttpStore {
  st_args : loc -> list (string * string);
  st_cookies : loc -> list (string * string);
  st_headers : loc -> list (string * string);
  st_state : gmap loc loc
}.

Definition assoc (k : string) (l : list (string * string)) : option string :=
  snd <$> head (filter (fun x => x.1 = k) l).

#[export] Instance koreHttpStore : KoreHttp http_store := {|
  http_populate_get := fun _ h => h;
  http_populate_post := fun _ h => h;
  http_populate_cookies := fun _ h => h;
  http_request_cookie := fun r k h => assoc k (st_cookies h r);
  http_argument_get_string := fun r k h => assoc k (st_args h r);
  http_argument_get_uint16 := fun _ _ _ => None;
  http_request_header := fun r k h => assoc k (st_headers h r);
  http_state_get := fun r h => st_state h !! r;
  http_state_create := fun r l h => HttpStore (st_args h) (st_cookies h) (st_headers h) (<[r := l]> (st_state h));
  http_state_cleanup := fun r h => HttpStore (st_args h) (st_cookies h) (st_headers h) (delete r (st_state h))
|}.

#[export] Instance koreHttpStore_laws : KoreHttpLaws http_store.
Proof.
  split; try done.
  - intros r l h r'. cbn. case_decide; subst; [by rewrite lookup_insert_eq|by rewrite lookup_insert_ne].
  - intros r h r'. cbn. case_decide; subst; [by rewrite lookup_delete_eq|by rewrite lookup_delete_ne].
Qed.
