(* ===== verification/Auth2.v ===== *)
(** * Sessions looked up in the database: auth2/src/auth2.c

    A request handler here runs a query through the PostgreSQL layer and is called again
    until it is done.  The memory kore attaches to a request is a [ustate] (the session
    lookup) or an [rstate] (the query run by the table [mystates]); the [struct kore_pgsql]
    inside it has the same address, in the layer's own heap.  Strings are values: what
    [kore_free] does to one that is not used again is not modelled, nor is logging.  The
    layer calls back [db_state_change], which calls the layer: [run_cb] ties the knot, to a
    depth its argument bounds. *)

From S2P Require Import Prelude LibPq Pgsql PgsqlVersions KoreHttp.
Import Pg.

Local Open Scope c_scope.

Module Auth.

(** ** Data *)

Record ustate : Type := UState {
  result_name : option string;
  mu : option Z  (* [union { int a; int b; }]: one cell *)
}.

Definition us_result_name (f : option string -> option string) (w : ustate) : ustate :=
  UState (f (result_name w)) (mu w).
Definition us_mu (f : option Z -> option Z) (w : ustate) : ustate :=
  UState (result_name w) (f (mu w)).

Record rstate : Type := RState {
  cnt : Z;
  query : option string;
  q_name : option string
}.

Definition rs_cnt (f : Z -> Z) (w : rstate) : rstate :=
  RState (f (cnt w)) (query w) (q_name w).
Definition rs_query (f : option string -> option string) (w : rstate) : rstate :=
  RState (cnt w) (f (query w)) (q_name w).
Definition rs_q_name (f : option string -> option string) (w : rstate) : rstate :=
  RState (cnt w) (query w) (f (q_name w)).

Record hreq : Type := HReq {
  method : http_method;
  fsm_state : Z
}.

Definition hr_method (f : http_method -> http_method) (w : hreq) : hreq :=
  HReq (f (method w)) (fsm_state w).
Definition hr_fsm_state (f : Z -> Z) (w : hreq) : hreq :=
  HReq (method w) (f (fsm_state w)).

Record web (H : Type) : Type := Web {
  http : H;  (* kore's state *)
  hreqs : gmap loc hreq;
  ustates : gmap loc ustate;
  rstates : gmap loc rstate;
  sent : list (loc * http_call)  (* newest first *)
}.
Arguments Web {H}.
Arguments http {H}.
Arguments hreqs {H}.
Arguments ustates {H}.
Arguments rstates {H}.
Arguments sent {H}.

Definition web_http {H : Type} (f : H -> H) (w : web H) : web H :=
  Web (f (http w)) (hreqs w) (ustates w) (rstates w) (sent w).
Definition web_hreqs {H : Type} (f : gmap loc hreq -> gmap loc hreq) (w : web H) : web H :=
  Web (http w) (f (hreqs w)) (ustates w) (rstates w) (sent w).
Definition web_ustates {H : Type} (f : gmap loc ustate -> gmap loc ustate) (w : web H) : web H :=
  Web (http w) (hreqs w) (f (ustates w)) (rstates w) (sent w).
Definition web_rstates {H : Type} (f : gmap loc rstate -> gmap loc rstate) (w : web H) : web H :=
  Web (http w) (hreqs w) (ustates w) (f (rstates w)) (sent w).
Definition web_sent {H : Type} (f : list (loc * http_call) -> list (loc * http_call)) (w : web H) : web H :=
  Web (http w) (hreqs w) (ustates w) (rstates w) (f (sent w)).

Inductive http_state_result : Type := HTTP_STATE_CONTINUE | HTTP_STATE_COMPLETE | HTTP_STATE_RETRY.

#[export] Instance http_state_result_eq_dec : EqDecision http_state_result.
Proof. solve_decision. Defined.

Definition REQ_STATE_INIT : Z := 0.
Definition REQ_STATE_QUERY : Z := 1.
Definition REQ_STATE_DB_WAIT : Z := 2.
Definition REQ_STATE_DB_READ : Z := 3.
Definition REQ_STATE_ERROR : Z := 4.
Definition REQ_STATE_DONE : Z := 5.

Definition dbc : string := "db".
Definition sessi : string := "sess_auth".
Definition q_fucker : string := "fucky".

Section Code.
Context {P R H : Type} `{LibPq P R} `{KoreHttp H} `{PgVersion}.
Abbreviation m := (M (pg_world P R (web H))).
Context (run_cb : nat -> loc -> loc -> m unit).
Context (count_bits : Z) (fuel : nat).

(** *** Access *)

Definition web_get {A : Type} (f : web H -> A) : m A := gets (fun w => f (app w)).
Definition web_mod (f : web H -> web H) : m unit := modify (set_app f).
Definition get_hreq (r : loc) : m hreq := q ← web_get hreqs; live (q !! r).
Definition update_hreq (r : loc) (f : hreq -> hreq) : m unit :=
  v ← get_hreq r; web_mod (web_hreqs <[r := f v]>).
Definition send (r : loc) (c : http_call) : m unit := web_mod (web_sent (cons (r, c))).
Definition http_response (r : loc) (code : Z) (b : body) : m unit := send r (Response code b).
Definition http_response_header (r : loc) (name value : string) : m unit := send r (ResponseHeader name value).
Definition set_fsm (r : loc) (s : Z) : m unit := update_hreq r (hr_fsm_state (fun _ => s)).
Definition is_method (r : loc) (mt : http_method) : m bool := q ← get_hreq r; mret (bool_decide (method q = mt)).

(** [state = http_state_get(req)], then a field of it is used. *)
Definition state_addr (r : loc) : m loc := o ← web_get (fun h => http_state_get r (http h)); deref o.
Definition get_ustate (l : loc) : m ustate := u ← web_get ustates; live (u !! l).
Definition update_ustate (l : loc) (f : ustate -> ustate) : m unit :=
  v ← get_ustate l; web_mod (web_ustates <[l := f v]>).
Definition get_rstate (l : loc) : m rstate := u ← web_get rstates; live (u !! l).

(** [http_state_create] of a [ustate], whose memory is not initialised; and the end of either. *)
Definition ustate_create (r : loc) : m loc :=
  l ← new_addr;
  web_mod (web_http (http_state_create r l));;
  web_mod (web_ustates <[l := UState None None]>);;
  mret l.
Definition state_cleanup (r l : loc) : m unit :=
  web_mod (web_http (http_state_cleanup r));;
  web_mod (web_ustates (delete l));;
  web_mod (web_rstates (delete l));;
  modify (set_pgsqls (delete l)).

Definition conn_name (l : loc) : m string :=
  v ← get_pgsql l; c ← deref (conn v); cv ← get_conn c; mret (c_name cv).

(** *** The callback *)

(** [for (i = 0; i < rows; i++) name = kore_pgsql_getvalue(p, i, 0);]: what [name] ends as. *)
Fixpoint last_name (l : loc) (i : Z) (rows : nat) (name : option string) : m (option string) :=
  match rows with
  | O => mret name
  | S rows => v ← kore_pgsql_getvalue l i 0; last_name l (i + 1) rows (Some v)
  end.

Definition db_results (l r : loc) : m unit :=
  nm ← conn_name l;
  if bool_decide (nm = sessi) then
    rows ← kore_pgsql_ntuples l;
    if (rows =? 0)%Z then mret tt
    else
      name ← last_name l 0 (Z.to_nat rows) None;
      st ← state_addr r;
      u ← get_ustate st;
      if bool_decide (result_name u = None) then
        n ← deref name;
        update_ustate st (us_result_name (fun _ => Some n));;
        update_ustate st (us_mu (fun _ => Some 3%Z));;
        update_ustate st (us_mu (fun _ => Some 4%Z))
      else mret tt
  else mret tt.

(** What is logged. *)
Definition on_notify (l : loc) : m (option (string * string)) := v ← get_pgsql l; mret (notify v).

Definition db_state_change (l d : loc) : m unit :=
  v ← get_pgsql l;
  match state v with
  | KORE_PGSQL_STATE_INIT | KORE_PGSQL_STATE_WAIT => mret tt
  | KORE_PGSQL_STATE_DONE =>
      nm ← conn_name l;
      if bool_decide (nm = q_fucker) then mret tt
      else kore_pgsql_continue run_cb count_bits fuel l
  | KORE_PGSQL_STATE_COMMANDOK => mret tt
  | KORE_PGSQL_STATE_NOTIFY =>
      nm ← conn_name l;
      if bool_decide (nm = q_fucker) then on_notify l;; mret tt else mret tt
  | KORE_PGSQL_STATE_COMPLETE => mret tt
  | KORE_PGSQL_STATE_ERROR => conn_name l;; kore_pgsql_logerror l;; mret tt
  | KORE_PGSQL_STATE_RESULT => db_results l d
  | _ => kore_pgsql_continue run_cb count_bits fuel l
  end.

Definition db_query (l : loc) (qname str_query : string) : m unit :=
  ok ← kore_pgsql_setup run_cb count_bits fuel l qname KORE_PGSQL_ASYNC;
  if (ok =? 0)%Z then
    v ← get_pgsql l;
    if bool_decide (state v = KORE_PGSQL_STATE_INIT) then mret tt
    else kore_pgsql_logerror l;; mret tt
  else
    ok ← kore_pgsql_query run_cb l str_query;
    if (ok =? 0)%Z then kore_pgsql_logerror l;; mret tt else mret tt.

Definition db_query_params (l : loc) (qname str_query : string) (result : Z) (counts : Z)
    (args : list (string * Z * Z)) : m unit :=
  ok ← kore_pgsql_setup run_cb count_bits fuel l qname KORE_PGSQL_ASYNC;
  if (ok =? 0)%Z then
    v ← get_pgsql l;
    if bool_decide (state v = KORE_PGSQL_STATE_INIT) then mret tt
    else kore_pgsql_logerror l;; mret tt
  else
    ret ← kore_pgsql_v_query_params run_cb fuel l str_query result counts args;
    if negb (ret =? 1)%Z then kore_pgsql_logerror l;; mret tt else mret tt.

(** *** The table of request states *)

Definition request_perform_init (r : loc) : m http_state_result :=
  st ← state_addr r;
  s ← get_rstate st;
  nm ← deref (q_name s);
  ok ← kore_pgsql_setup run_cb count_bits fuel st nm KORE_PGSQL_ASYNC;
  if (ok =? 0)%Z then
    v ← get_pgsql st;
    if bool_decide (state v = KORE_PGSQL_STATE_INIT) then
      set_fsm r REQ_STATE_INIT;; mret HTTP_STATE_RETRY
    else kore_pgsql_logerror st;; set_fsm r REQ_STATE_ERROR;; mret HTTP_STATE_CONTINUE
  else set_fsm r REQ_STATE_QUERY;; mret HTTP_STATE_CONTINUE.

Definition request_perform_query (r : loc) : m http_state_result :=
  st ← state_addr r;
  set_fsm r REQ_STATE_DB_WAIT;;
  s ← get_rstate st;
  q ← deref (query s);
  ok ← kore_pgsql_query run_cb st q;
  if (ok =? 0)%Z then mret HTTP_STATE_CONTINUE else mret HTTP_STATE_RETRY.

Definition request_db_wait (r : loc) : m http_state_result :=
  st ← state_addr r;
  v ← get_pgsql st;
  match state v with
  | KORE_PGSQL_STATE_WAIT => mret HTTP_STATE_RETRY
  | KORE_PGSQL_STATE_COMPLETE => set_fsm r REQ_STATE_DONE;; mret HTTP_STATE_CONTINUE
  | KORE_PGSQL_STATE_COMMANDOK => kore_pgsql_continue run_cb count_bits fuel st;; mret HTTP_STATE_CONTINUE
  | KORE_PGSQL_STATE_ERROR =>
      set_fsm r REQ_STATE_ERROR;; kore_pgsql_logerror st;; mret HTTP_STATE_CONTINUE
  | KORE_PGSQL_STATE_RESULT => set_fsm r REQ_STATE_DB_READ;; mret HTTP_STATE_CONTINUE
  | _ => kore_pgsql_continue run_cb count_bits fuel st;; mret HTTP_STATE_CONTINUE
  end.

Definition request_db_read (r : loc) : m http_state_result :=
  st ← state_addr r;
  rows ← kore_pgsql_ntuples st;
  last_name st 0 (Z.to_nat rows) None;;
  kore_pgsql_continue run_cb count_bits fuel st;;
  set_fsm r REQ_STATE_DB_WAIT;;
  mret HTTP_STATE_CONTINUE.

(** [strlen] of the error: null is used if there is none. *)
Definition request_error (r : loc) : m http_state_result :=
  st ← state_addr r;
  v ← get_pgsql st;
  e ← deref (error v);
  http_response r 500 (Text e);;
  kore_pgsql_cleanup run_cb fuel st;;
  state_cleanup r st;;
  mret HTTP_STATE_COMPLETE.

Definition request_done (r : loc) : m http_state_result :=
  st ← state_addr r;
  kore_pgsql_cleanup run_cb fuel st;;
  state_cleanup r st;;
  http_response_header r "content-type" "text/html";;
  http_response r 200 (Asset "page.html");;
  mret HTTP_STATE_COMPLETE.

Definition mystates : list (loc -> m http_state_result) :=
  [request_perform_init; request_perform_query; request_db_wait; request_db_read; request_error; request_done].

(** *** The pages *)

(** The guard every page starts with. *)
Definition only_get (r : loc) (k : m Z) : m Z :=
  ok ← is_method r HTTP_METHOD_GET;
  if negb ok then http_response_header r "allow" "get";; http_response r 405 NoBody;; mret KORE_RESULT_OK
  else k.

Definition serve (r : loc) (file : string) : m Z :=
  http_response_header r "content-type" "text/html";; http_response r 200 (Asset file);; mret KORE_RESULT_OK.

(** The end of a page that finds a finished lookup. *)
Definition drop_lookup (r : loc) : m unit :=
  o ← web_get (fun h => http_state_get r (http h));
  match o with
  | Some st => get_ustate st;; kore_pgsql_cleanup run_cb fuel st;; state_cleanup r st
  | None => mret tt
  end.

Definition page (r : loc) : m Z := only_get r (drop_lookup r;; serve r "page.html").
Definition dashboard (r : loc) : m Z := only_get r (drop_lookup r;; serve r "dashboard.html").

Definition login (r : loc) : m Z :=
  only_get r (web_mod (web_http (http_populate_cookies r));; serve r "login.html").

Definition redirect (r : loc) : m Z :=
  http_response_header r "location" "/";; http_response r HTTP_STATUS_FOUND NoBody;; mret KORE_RESULT_OK.

Definition auth_logout (r : loc) : m Z :=
  only_get r
    (http_response_header r "set-cookie" "hicookie=null; path=/; expires=Thu, 01 Jan 1970 00:00:00 GMT";;
     redirect r;; mret KORE_RESULT_OK).

(** A wrong name or password: the login page again, as if it had been asked for. *)
Definition login_again (r : loc) : m Z :=
  update_hreq r (hr_method (fun _ => HTTP_METHOD_GET));; serve r "login.html".

Definition auth_login (r : loc) : m Z :=
  post ← is_method r HTTP_METHOD_POST;
  if negb post then
    http_response_header r "allow" "post";; http_response r 405 (Text "po");; mret KORE_RESULT_OK
  else
    web_mod (web_http (http_populate_post r));;
    vuser ← web_get (fun h => http_argument_get_string r "user" (http h));
    match vuser with
    | None => http_response r 200 (Text "nouser");; mret KORE_RESULT_OK
    | Some vuser =>
        pass ← web_get (fun h => http_argument_get_string r "passphrase" (http h));
        match pass with
        | None => http_response r 200 (Text "nopwd");; mret KORE_RESULT_OK
        | Some pass =>
            if negb (bool_decide (vuser = "globi")) then login_again r
            else if negb (bool_decide (pass = "globi")) then login_again r
            else
              web_mod (web_http (http_populate_cookies r));;
              http_response_header r "location" "/dashboard/";;
              send r (ResponseCookie "hicookie" "user_sess" "/" false false);;
              http_response r HTTP_STATUS_FOUND (Text "NULL");;
              mret KORE_RESULT_OK
        end
    end.

Definition auth_user_exists (user : option string) : Z :=
  match user with
  | None => KORE_RESULT_ERROR
  | Some u => if bool_decide (u = "globi") then KORE_RESULT_OK else KORE_RESULT_ERROR
  end.

(** *** The session lookup *)

Definition session_query : string := "select alt from banners where alt=$1".

Definition start_lookup (r : loc) (cookie : string) : m Z :=
  st ← ustate_create r;
  update_ustate st (us_result_name (fun _ => None));;
  kore_pgsql_init st;;
  kore_pgsql_bind_callback st 0 r;;
  db_query_params st sessi session_query 0 1 [(cookie, Z.of_nat (String.length cookie), 0%Z)];;
  mret KORE_RESULT_RETRY.

(** The end of a lookup that is refused. *)
Definition end_lookup (r st : loc) : m unit :=
  kore_pgsql_cleanup run_cb fuel st;; state_cleanup r st.

(** [state->result_name] compared with the cookie; one that differs is dropped. *)
Definition name_matches (st : loc) (cookie : string) : m bool :=
  u ← get_ustate st;
  match result_name u with
  | None => mret false
  | Some n =>
      if bool_decide (n = cookie) then mret true
      else update_ustate st (us_result_name (fun _ => None));; mret false
  end.

Definition auth_session (r : loc) (cookie : option string) : m Z :=
  match cookie with
  | None => mret KORE_RESULT_ERROR
  | Some cookie =>
      o ← web_get (fun h => http_state_get r (http h));
      match o with
      | None => start_lookup r cookie
      | Some st =>
          v ← get_pgsql st;
          match state v with
          | KORE_PGSQL_STATE_COMPLETE =>
              ok ← name_matches st cookie;
              if (ok : bool) then mret KORE_RESULT_OK
              else end_lookup r st;; mret KORE_RESULT_ERROR
          | KORE_PGSQL_STATE_ERROR =>
              http_request_wakeup r;; end_lookup r st;; mret KORE_RESULT_ERROR
          | _ => mret KORE_RESULT_RETRY
          end
      end
  end.

(** The same for a page that is served without a session too: it never refuses. *)
Definition auth_session_user (r : loc) : m Z :=
  web_mod (web_http (http_populate_cookies r));;
  cookie ← web_get (fun h => http_request_cookie r "hicookie" (http h));
  match cookie with
  | None => mret KORE_RESULT_OK
  | Some cookie =>
      o ← web_get (fun h => http_state_get r (http h));
      match o with
      | None => start_lookup r cookie
      | Some st =>
          v ← get_pgsql st;
          match state v with
          | KORE_PGSQL_STATE_COMPLETE =>
              http_request_wakeup r;;
              ok ← name_matches st cookie;
              if (ok : bool) then mret KORE_RESULT_OK
              else end_lookup r st;; mret KORE_RESULT_OK
          | KORE_PGSQL_STATE_ERROR =>
              http_request_wakeup r;; end_lookup r st;; mret KORE_RESULT_OK
          | _ => http_request_sleep r;; mret KORE_RESULT_RETRY
          end
      end
  end.

Definition init : m Z :=
  kore_pgsql_register dbc "dbname=postgres";;
  kore_pgsql_register sessi "dbname=postgres";;
  kore_pgsql_register q_fucker "dbname=postgres";;
  mret KORE_RESULT_OK.
End Code.

(** ** The knot: callback 0 is [db_state_change] *)

Section Knot.
Context {P R H : Type} `{LibPq P R} `{KoreHttp H} `{PgVersion}.
Context (count_bits : Z) (fuel : nat).

Fixpoint run_cb (depth : nat) (c : nat) (l d : loc) : M (pg_world P R (web H)) unit :=
  match depth with
  | O => crash Fuel
  | S depth => db_state_change (run_cb depth) count_bits fuel l d
  end.
End Knot.

(** ** Steps of the handlers *)

Section Steps.
Context {P R H : Type} `{LibPq P R} `{KoreHttp H} `{PgVersion}.
Implicit Types w : pg_world P R (web H).

Lemma get_hreq_run w r q : hreqs (app w) !! r = Some q -> get_hreq r w = Done (q, w).
Proof. intros Hr. unfold get_hreq. run eq_refl. by rewrite Hr. Qed.

Lemma is_method_run w r q mt :
  hreqs (app w) !! r = Some q -> is_method r mt w = Done (bool_decide (method q = mt), w).
Proof. intros Hr. unfold is_method. by run (get_hreq_run _ _ _ Hr). Qed.

Lemma update_hreq_run w r q f :
  hreqs (app w) !! r = Some q -> update_hreq r f w = Done (tt, set_app (web_hreqs <[r := f q]>) w).
Proof. intros Hr. unfold update_hreq. by run (get_hreq_run _ _ _ Hr). Qed.

Lemma state_addr_run w r st : http_state_get r (http (app w)) = Some st -> state_addr r w = Done (st, w).
Proof. intros Hr. unfold state_addr. run eq_refl. by rewrite Hr. Qed.

Lemma get_ustate_run w l u : ustates (app w) !! l = Some u -> get_ustate l w = Done (u, w).
Proof. intros Hl. unfold get_ustate. run eq_refl. by rewrite Hl. Qed.

Lemma update_ustate_run w l u f :
  ustates (app w) !! l = Some u -> update_ustate l f w = Done (tt, set_app (web_ustates <[l := f u]>) w).
Proof. intros Hl. unfold update_ustate. by run (get_ustate_run _ _ _ Hl). Qed.

Lemma conn_name_run w l v c x :
  pgsqls w !! l = Some v -> conn v = Some c -> conns w !! c = Some x -> conn_name l w = Done (c_name x, w).
Proof.
  intros Hl Hc Hx. unfold conn_name. run (get_pgsql_run _ _ _ Hl). rewrite Hc. run eq_refl.
  by run (get_conn_run _ _ _ Hx).
Qed.
End Steps.

(** ** Logging in *)

Section Login.
Context {P R H : Type} `{LibPq P R} `{KoreHttp H} `{PgVersion}.
Implicit Types w : pg_world P R (web H).

(** The calls a run added to what was sent, oldest first, all for this request. *)
Definition answers (r : loc) w w' (calls : list http_call) : Prop :=
  sent (app w') = reverse ((fun c => (r, c)) <$> calls) ++ sent (app w).

Definition login_answer (mt : http_method) (user pass : option string) : list http_call :=
  if decide (mt = HTTP_METHOD_POST) then
    match user, pass with
    | None, _ => [Response 200 (Text "nouser")]
    | Some _, None => [Response 200 (Text "nopwd")]
    | Some u, Some p =>
        if decide (u = "globi" /\ p = "globi") then
          [ResponseHeader "location" "/dashboard/"; ResponseCookie "hicookie" "user_sess" "/" false false;
           Response HTTP_STATUS_FOUND (Text "NULL")]
        else [ResponseHeader "content-type" "text/html"; Response 200 (Asset "login.html")]
    end
  else [ResponseHeader "allow" "post"; Response 405 (Text "po")].

Lemma auth_login_run w r q :
  hreqs (app w) !! r = Some q ->
  let h := http_populate_post r (http (app w)) in
  exists w', auth_login r w = Done (KORE_RESULT_OK, w') /\
    answers r w w' (login_answer (method q) (http_argument_get_string r "user" h)
                      (http_argument_get_string r "passphrase" h)) /\
    pgsqls w' = pgsqls w /\ conns w' = conns w.
Proof.
  intros Hr h. unfold auth_login. run (is_method_run _ _ _ _ Hr). unfold login_answer.
  destruct (decide (method q = HTTP_METHOD_POST)) as [Hm|Hm].
  2: { rewrite bool_decide_false by done. cbn [negb]. cbv iota. run eq_refl. run eq_refl. by eexists. }
  rewrite bool_decide_true by done. cbn [negb]. cbv iota. run eq_refl. run eq_refl.
  set (w1 := set_app _ w). change (http (app w1)) with h.
  destruct (http_argument_get_string r "user" h) as [u|]; [|run eq_refl; by eexists].
  run eq_refl. change (http (app w1)) with h.
  destruct (http_argument_get_string r "passphrase" h) as [p|]; [|run eq_refl; by eexists].
  assert (Hagain : exists w', login_again r w1 = Done (KORE_RESULT_OK, w') /\
    answers r w w' [ResponseHeader "content-type" "text/html"; Response 200 (Asset "login.html")] /\
    pgsqls w' = pgsqls w /\ conns w' = conns w).
  { unfold login_again. run (update_hreq_run w1 r q _ Hr). unfold serve. run eq_refl. run eq_refl. by eexists. }
  destruct (decide (u = "globi")) as [->|Hu].
  2: { rewrite bool_decide_false by done. cbn [negb]. cbv iota. by rewrite decide_False by naive_solver. }
  rewrite bool_decide_true by done. cbn [negb]. cbv iota. destruct (decide (p = "globi")) as [->|Hp].
  2: { rewrite bool_decide_false by done. cbn [negb]. cbv iota. by rewrite decide_False by naive_solver. }
  rewrite bool_decide_true, decide_True by done. cbn [negb]. cbv iota.
  run eq_refl. run eq_refl. run eq_refl. run eq_refl. by eexists.
Qed.

(** a login is answered exactly once, and it sets the session cookie exactly when it is a POST
    with the one known user and password; the database is not asked. *)
Theorem auth_login_grants w r q :
  hreqs (app w) !! r = Some q ->
  let h := http_populate_post r (http (app w)) in
  exists w' calls, auth_login r w = Done (KORE_RESULT_OK, w') /\ answers r w w' calls /\
    (exists code b, filter (fun c => is_response c) calls = [Response code b]) /\
    ((exists n v path a b, ResponseCookie n v path a b ∈ calls) <->
       method q = HTTP_METHOD_POST /\ http_argument_get_string r "user" h = Some "globi" /\
       http_argument_get_string r "passphrase" h = Some "globi") /\
    pgsqls w' = pgsqls w /\ conns w' = conns w.
Proof.
  intros Hr h. destruct (auth_login_run w r q Hr) as (w' & Hrun & Hans & Hp & Hc).
  exists w', (login_answer (method q) (http_argument_get_string r "user" h) (http_argument_get_string r "passphrase" h)).
  split_and!; [done|done| | |done|done]; unfold login_answer;
    destruct (decide _) as [Hm|Hm]; [|by eexists _, _| |];
    repeat match goal with |- context [match ?x with Some _ => _ | None => _ end] => destruct x eqn:? end;
    try case_decide; try (by eexists _, _); set_solver.
Qed.
End Login.

(** ** The session lookup *)

Section Session.
Context {P R H : Type} `{LibPq P R} `{KoreHttp H} `{PgVersion}.
Implicit Types w : pg_world P R (web H).
Context (count_bits : Z) (fuel : nat).

(** C31: [auth_session] lets a request through exactly when its lookup is complete and the database
    returned the very cookie; it then changes nothing. *)
Theorem auth_session_grants_iff (cbs : nat -> loc -> loc -> M (pg_world P R (web H)) unit) w w' r cookie :
  auth_session cbs count_bits fuel r cookie w = Done (KORE_RESULT_OK, w') <->
  w' = w /\ exists ck st v u, cookie = Some ck /\ http_state_get r (http (app w)) = Some st /\
    pgsqls w !! st = Some v /\ state v = KORE_PGSQL_STATE_COMPLETE /\
    ustates (app w) !! st = Some u /\ result_name u = Some ck.
Proof.
  split.
  - intros Hrun. destruct cookie as [ck|]; [|done]. cbn [auth_session] in Hrun.
    run eq_refl in Hrun. destruct (http_state_get r (http (app w))) as [st|] eqn:Hst.
    2: { unfold start_lookup in Hrun. repeat (apply bind_Done in Hrun as (? & ? & _ & Hrun)). done. }
    inv_bind Hrun. unfold get_pgsql in Hrun0. run eq_refl in Hrun0.
    destruct (pgsqls w !! st) as [v|] eqn:Hv; [|done]. injection Hrun0 as <- <-.
    destruct (state v) eqn:Hs; try done; try (repeat (apply bind_Done in Hrun as (? & ? & _ & Hrun)); done).
    unfold name_matches in Hrun. rewrite bind_assoc in Hrun.
    unfold get_ustate in Hrun. rewrite bind_assoc in Hrun. run eq_refl in Hrun.
    destruct (ustates (app w) !! st) as [u|] eqn:Hu; [|done]. run eq_refl in Hrun.
    destruct (result_name u) as [n|] eqn:Hn.
    2: { run eq_refl in Hrun. cbv iota in Hrun. repeat (apply bind_Done in Hrun as (? & ? & _ & Hrun)). done. }
    case_bool_decide as Heq.
    + run eq_refl in Hrun. injection Hrun as <-. split; [done|]. subst n. eauto 10.
    + rewrite bind_assoc in Hrun. apply bind_Done in Hrun as (? & ? & _ & Hrun). run eq_refl in Hrun.
      cbv iota in Hrun. repeat (apply bind_Done in Hrun as (? & ? & _ & Hrun)). done.
  - intros (-> & ck & st & v & u & -> & Hst & Hv & Hs & Hu & Hn). cbn [auth_session]. run eq_refl. rewrite Hst.
    run (get_pgsql_run _ _ _ Hv). rewrite Hs. unfold name_matches. rewrite bind_assoc.
    run (get_ustate_run _ _ _ Hu). rewrite Hn, bool_decide_true by done. done.
Qed.

(** In these states the callback does nothing. *)
Lemma run_cb_idle d k w l a v :
  pgsqls w !! l = Some v ->
  state v = KORE_PGSQL_STATE_INIT \/ state v = KORE_PGSQL_STATE_WAIT \/ state v = KORE_PGSQL_STATE_COMPLETE ->
  run_cb count_bits fuel (S d) k l a w = Done (tt, w).
Proof.
  intros Hl Hs. cbn [run_cb]. unfold db_state_change. run (get_pgsql_run _ _ _ Hl).
  by destruct Hs as [-> |[-> | ->]].
Qed.

(** Lookups that wait for a connection, as [db_query_params] leaves them. *)
Definition waiters_idle w : Prop :=
  NoDup (pgsql_wait_queue w).*1 /\
  Forall (fun x => exists v, pgsqls w !! x.2 = Some v /\ req v = None /\ state v = KORE_PGSQL_STATE_INIT)
    (pgsql_wait_queue w).

Lemma waiters_idle_insert w w' st v :
  waiters_idle w -> st ∉ (pgsql_wait_queue w).*2 -> pgsql_wait_queue w' = pgsql_wait_queue w ->
  pgsqls w' = <[st := v]> (pgsqls w) -> waiters_idle w'.
Proof.
  intros [Hnd Hall] Hnin Hq Hp. unfold waiters_idle. rewrite Hq, Hp. split; [done|]. apply Forall_forall.
  intros y Hy. destruct (proj1 (Forall_forall _ _) Hall y Hy) as (vy & Hvy & Hry). exists vy. split; [|done].
  rewrite lookup_insert_ne; [done|]. intros ->. apply Hnin, list_elem_of_fmap. by exists y.
Qed.

Lemma wakeup_idle d w :
  waiters_idle w ->
  exists n, pgsql_queue_wakeup (run_cb count_bits fuel (S d)) w =
    Done (tt, set_pgsql_wait_queue tail (set_pgsql_queue_count (fun _ => n) w)).
Proof.
  intros [Hnd Hall]. unfold pgsql_queue_wakeup. run eq_refl.
  destruct (pgsql_wait_queue w) as [|[pgw l] q] eqn:Hq.
  { exists (pgsql_queue_count w). cbn. destruct w; cbn in Hq; by subst. }
  apply Forall_cons in Hall as [(v & Hl & Hr & Hs) Hall]. cbn [snd] in Hl. cbn [wakeup_loop].
  run (get_pgsql_run _ _ _ Hl). rewrite Hr. run eq_refl. cbv iota. unfold with_req. rewrite Hr. run eq_refl.
  assert (Hcb : call_cb (run_cb count_bits fuel (S d)) l w = Done (tt, w)).
  { unfold call_cb. run (get_pgsql_run _ _ _ Hl). destruct (cb v) as [k|]; [|done].
    apply (run_cb_idle _ _ _ _ _ v); auto. }
  run Hcb. rewrite (wait_remove_head w pgw l q Hq) by (by rewrite Hq). eexists.
  unfold set_pgsql_wait_queue, set_pgsql_queue_count. cbn. by rewrite Hq.
Qed.

(** a lookup that had to wait for a connection is lost.  When one is free its callback is told,
    in state INIT, and does nothing; it is taken off the queue, and from then on
    [auth_session] answers RETRY and changes nothing, whatever the cookie. *)
Theorem waiting_lookup_starves d w r st v pgw q :
  waiters_idle w -> pgsql_wait_queue w = (pgw, st) :: q -> http_state_get r (http (app w)) = Some st ->
  pgsqls w !! st = Some v -> st ∉ q.*2 ->
  exists w', pgsql_queue_wakeup (run_cb count_bits fuel (S d)) w = Done (tt, w') /\
    st ∉ (pgsql_wait_queue w').*2 /\ pgsqls w' = pgsqls w /\ app w' = app w /\
    forall cbs ck, auth_session cbs count_bits fuel r (Some ck) w' = Done (KORE_RESULT_RETRY, w').
Proof.
  intros Hw Hq Hst Hv Hnin. destruct (wakeup_idle d w Hw) as (n & Hrun). eexists. split; [exact Hrun|].
  set (w' := set_pgsql_wait_queue _ _). split_and!; [cbn; by rewrite Hq|done|done|]. intros cbs ck.
  cbn [auth_session]. run eq_refl. change (app w') with (app w). rewrite Hst. run (get_pgsql_run w' st v Hv).
  destruct Hw as [_ Hall]. rewrite Hq in Hall. apply Forall_cons in Hall as [(v' & Hv' & _ & Hs) _].
  cbn in Hv'. rewrite Hv in Hv'. injection Hv' as <-. by rewrite Hs.
Qed.

(** A lookup whose query has been sent: [st] is the request's memory, [c] the connection that
    serves it. *)
Definition in_flight w (r st c : loc) (h : nat) : Prop :=
  http_state_get r (http (app w)) = Some st /\
  (exists u, ustates (app w) !! st = Some u /\ result_name u = None) /\
  (exists v, pgsqls w !! st = Some v /\ conn v = Some c /\ cb v = Some 0 /\ arg v = r /\ req v = None) /\
  (exists x, conns w !! c = Some x /\ c_name x = sessi /\ c_db x = Some h /\ c_job x = Some st).

Lemma last_name_run w l v res rows i name :
  pgsqls w !! l = Some v -> result v = Some res ->
  last_name l i rows name w = Done (match rows with
    | O => name | S n => Some (PQgetvalue res (i + Z.of_nat n) 0) end, w).
Proof.
  intros Hl Hres. revert i name. induction rows as [|rows IH]; intros i name; [done|]. cbn [last_name].
  unfold kore_pgsql_getvalue. rewrite bind_assoc. run (get_pgsql_run _ _ _ Hl). rewrite Hres, bind_assoc.
  run eq_refl. run eq_refl. rewrite IH. destruct rows as [|n]; do 4 f_equal; lia.
Qed.

(** The name the lookup ends with: the first column of the last row. *)
Definition found_name (res : R) : option string :=
  if (0 <? PQntuples res)%Z then Some (PQgetvalue res (PQntuples res - 1) 0) else None.

Lemma db_results_run w l r st c x v u res :
  pgsqls w !! l = Some v -> conn v = Some c -> conns w !! c = Some x -> c_name x = sessi ->
  result v = Some res -> (0 <= PQntuples res)%Z -> http_state_get r (http (app w)) = Some st ->
  ustates (app w) !! st = Some u -> result_name u = None ->
  exists u', db_results l r w = Done (tt, set_app (web_ustates <[st := u']>) w) /\
    result_name u' = found_name res.
Proof.
  intros Hl Hc Hx Hn Hres Hrows Hst Hu Hun. unfold db_results. run (conn_name_run _ _ _ _ _ Hl Hc Hx).
  rewrite Hn, bool_decide_true by done. unfold kore_pgsql_ntuples. rewrite bind_assoc.
  run (get_pgsql_run _ _ _ Hl). rewrite Hres, bind_assoc. run eq_refl. run eq_refl. unfold found_name.
  destruct (Z.eqb_spec (PQntuples res) 0) as [Hz|Hz].
  - exists u. rewrite Hz. split; [|done]. unfold mret, M_ret, set_app, web_ustates.
    rewrite insert_id by done. by destruct w as [? ? ? ? ? ? ? ? ? ? ? []].
  - rewrite (proj2 (Z.ltb_lt _ _)) by lia. run (last_name_run _ _ _ _ _ _ _ Hl Hres).
    destruct (Z.to_nat (PQntuples res)) as [|n] eqn:En; [lia|].
    run (state_addr_run _ _ _ Hst). run (get_ustate_run _ _ _ Hu). rewrite Hun, bool_decide_true by done.
    run eq_refl. run (update_ustate_run _ _ _ _ Hu). set (w1 := set_app _ w).
    run (update_ustate_run w1 st _ _ (lookup_insert_eq _ _ _)).
    set (w2 := set_app _ w1). rewrite (update_ustate_run w2 st _ _ (lookup_insert_eq _ _ _)).
    eexists. split; [unfold set_app, web_ustates; cbn; rewrite !insert_insert_eq; reflexivity|].
    cbn. do 2 f_equal. lia.
Qed.

(** The query is finished: its connection goes back, and the first waiter is told. *)
Lemma continue_done_run d w st v c x h p :
  pgsqls w !! st = Some v -> conn v = Some c -> conns w !! c = Some x -> c_db x = Some h ->
  state v = KORE_PGSQL_STATE_DONE -> req v = None -> cb v = Some 0 ->
  PQgetResult h (pq w) = (None, p) -> 1 <= fuel -> waiters_idle w -> st ∉ (pgsql_wait_queue w).*2 ->
  exists w', kore_pgsql_continue (run_cb count_bits fuel (S d)) count_bits fuel st w = Done (tt, w') /\
    app w' = app w /\ pgsql_conn_free w' = pgsql_conn_free w ++ [c] /\
    pgsql_wait_queue w' = tail (pgsql_wait_queue w) /\
    exists v', pgsqls w' !! st = Some v' /\ state v' = KORE_PGSQL_STATE_COMPLETE /\ conn v' = None /\ req v' = None.
Proof.
  intros Hl Hc Hx Hh Hs Hreq Hcb Hg Hf Hidle Hnin. unfold kore_pgsql_continue.
  run (update_pgsql_run _ _ _ _ Hl). set (v0 := pg_set_result _ _). set (w0 := set_pgsqls _ w).
  run (get_pgsql_run w0 st v0 (lookup_insert_eq _ _ _)). subst v0. cbn [state pg_set_result pg_set_error]. rewrite Hs.
  unfold with_req. cbn [req pg_set_result pg_set_error]. rewrite Hreq. run eq_refl.
  destruct (release_done_run (run_cb count_bits fuel (S d)) fuel w0 st _ c x h p 0 (lookup_insert_eq _ _ _) Hc Hx Hh
    Hs Hg Hf Hcb) as (rs & ->).
  erewrite bind_step; [|by eapply run_cb_idle; [apply lookup_insert_eq|auto]].
  set (w1 := set_pgsqls _ _).
  destruct (wakeup_idle d w1) as (n & Hw).
  { eapply (waiters_idle_insert w); [done|exact Hnin|done|]. cbn. by rewrite insert_insert_eq. }
  rewrite Hw. eexists. split; [done|]. split_and!; [done|done|done|]. eexists. split; [apply lookup_insert_eq|]. by split_and!.
Qed.

(** The socket is readable and the server's answer is there: the name is kept in the request's
    memory and the query is over. *)
Lemma lookup_answered d w r st c h p1 p2 res p3 p4 p5 :
  in_flight w r st c h -> waiters_idle w -> st ∉ (pgsql_wait_queue w).*2 ->
  PQconsumeInput h (pq w) = (true, p1) -> PQisBusy h p1 = false -> PQnotifies h p1 = (None, p2) ->
  PQgetResult h p2 = (Some res, p3) -> PQresultStatus (Some res) = PGRES_TUPLES_OK -> (0 <= PQntuples res)%Z ->
  PQgetResult h p3 = (None, p4) -> PQgetResult h p4 = (None, p5) -> 2 <= fuel ->
  exists w', kore_pgsql_handle (run_cb count_bits fuel (S (S d))) count_bits fuel c false w = Done (tt, w') /\
    http_state_get r (http (app w')) = Some st /\ pgsql_conn_free w' = pgsql_conn_free w ++ [c] /\
    pgsql_wait_queue w' = tail (pgsql_wait_queue w) /\
    (exists v', pgsqls w' !! st = Some v' /\ state v' = KORE_PGSQL_STATE_COMPLETE /\ conn v' = None /\ req v' = None) /\
    (exists u', ustates (app w') !! st = Some u' /\ result_name u' = found_name res).
Proof.
  intros (Hst & (u & Hu & Hun) & (v & Hl & Hc & Hcb & Harg & Hreq) & (x & Hx & Hn & Hh & Hj)) Hw Hnin
    Hci Hb Hno Hg1 Hts Hrows Hg2 Hg3 Hf.
  unfold kore_pgsql_handle. run (get_conn_run _ _ _ Hx). rewrite Hj. run eq_refl. rewrite Hh. run eq_refl.
  run (pq_call_run _ _ _ _ Hci). cbn [negb]. cbv iota. set (w1 := set_pq _ w).
  set (vr := pg_set_state (fun _ => KORE_PGSQL_STATE_RESULT) (pg_set_result (fun _ => Some res) v)).
  destruct (db_results_run (set_pgsqls <[st := vr]> (set_pq (fun _ => p3) w1)) st r st c x vr u res)
    as (u' & Hres & Hu'); try done; [apply lookup_insert_eq|].
  run (read_result_tuples (run_cb count_bits fuel (S (S d))) fuel w1 st v c h p2 res p3 p4 0
    (web_ustates <[st := u']>) ltac:(split_and!; [done|done|by exists x]) Hb Hno Hg1 Hts Hg2 Hf Hreq Hcb
    ltac:(rewrite Harg; cbn [run_cb]; unfold db_state_change; run (get_pgsql_again _ _ _); exact Hres)).
  set (vd := pg_set_state _ _). set (w2 := set_app _ _).
  run (get_pgsql_run w2 st vd (lookup_insert_eq _ _ _)).
  change (state vd) with KORE_PGSQL_STATE_DONE. rewrite bool_decide_false by done.
  unfold with_req. change (req vd) with (req v). rewrite Hreq. run eq_refl.
  unfold call_cb. run (get_pgsql_run w2 st vd (lookup_insert_eq _ _ _)). change (cb vd) with (cb v). rewrite Hcb.
  change (arg vd) with (arg v). rewrite Harg. cbn [run_cb]. unfold db_state_change at 1.
  run (get_pgsql_run w2 st vd (lookup_insert_eq _ _ _)). change (state vd) with KORE_PGSQL_STATE_DONE. cbv iota.
  run (conn_name_run w2 st vd c x (lookup_insert_eq _ _ _) Hc Hx). rewrite Hn, bool_decide_false by done.
  destruct (continue_done_run d w2 st vd c x h p5) as (w' & Hrun & Ha & Hfr & Hq & Hv'); try done;
    [apply lookup_insert_eq|lia| |].
  { by eapply (waiters_idle_insert w). }
  exists w'. split; [exact Hrun|]. rewrite Ha. split_and!; [done|done|done|done|].
  exists u'. split; [apply lookup_insert_eq|done].
Qed.

Lemma told_id (w : pg_world P R (web H)) : set_app (Versions.told (fun a => a)) w = w.
Proof. unfold Versions.told. destruct w. by destruct the_version. Qed.

(** The socket is readable and the server has refused the query: it is over, and there is no name. *)
Lemma lookup_failed d w r st c h p1 p2 res p3 p4 p5 :
  in_flight w r st c h -> waiters_idle w -> st ∉ (pgsql_wait_queue w).*2 ->
  PQconsumeInput h (pq w) = (true, p1) -> PQisBusy h p1 = false -> PQnotifies h p1 = (None, p2) ->
  PQgetResult h p2 = (Some res, p3) -> fatal_status res ->
  PQgetResult h p3 = (None, p4) -> PQgetResult h p4 = (None, p5) -> 2 <= fuel ->
  exists w', kore_pgsql_handle (run_cb count_bits fuel (S (S d))) count_bits fuel c false w = Done (tt, w') /\
    http_state_get r (http (app w')) = Some st /\ pgsql_conn_free w' = pgsql_conn_free w ++ [c] /\
    pgsql_wait_queue w' = tail (pgsql_wait_queue w) /\
    (exists v', pgsqls w' !! st = Some v' /\ state v' = KORE_PGSQL_STATE_COMPLETE /\ conn v' = None /\ req v' = None) /\
    (exists u', ustates (app w') !! st = Some u' /\ result_name u' = None).
Proof.
  intros (Hst & (u & Hu & Hun) & (v & Hl & Hc & Hcb & Harg & Hreq) & (x & Hx & Hn & Hh & Hj)) Hw Hnin
    Hci Hb Hno Hg1 Hfs Hg2 Hg3 Hf.
  unfold kore_pgsql_handle. run (get_conn_run _ _ _ Hx). rewrite Hj. run eq_refl. rewrite Hh. run eq_refl.
  run (pq_call_run _ _ _ _ Hci). cbn [negb]. cbv iota. set (w1 := set_pq _ w).
  set (ve := failed (PQresultErrorMessage res) (pg_set_result (fun _ => Some res) v)).
  set (we := set_pgsqls <[st := ve]> (set_pq (fun _ => p3) w1)).
  assert (Herr : run_cb count_bits fuel (S (S d)) 0 st (arg v) we = Done (tt, set_app (fun a => a) we)).
  { cbn [run_cb]. unfold db_state_change. run (get_pgsql_again (set_pq (fun _ => p3) w1) st ve).
    change (state ve) with KORE_PGSQL_STATE_ERROR. cbv iota.
    run (conn_name_run we st ve c x (lookup_insert_eq _ _ _) Hc Hx). unfold kore_pgsql_logerror. rewrite bind_assoc.
    run (get_pgsql_run we st ve (lookup_insert_eq _ _ _)). run eq_refl. by destruct we. }
  run (Versions.read_result_told (run_cb count_bits fuel (S (S d))) fuel w1 st v c h p2 res p3 p4 0 (fun a => a)
    ltac:(split_and!; [done|done|by exists x]) Hb Hno Hg1 Hfs Hg2 Hf Hreq Hcb Herr).
  rewrite told_id. set (vd := pg_set_state _ _). set (w2 := set_pgsqls _ _).
  run (get_pgsql_run w2 st vd (lookup_insert_eq _ _ _)).
  change (state vd) with KORE_PGSQL_STATE_DONE. rewrite bool_decide_false by done.
  unfold with_req. change (req vd) with (req v). rewrite Hreq. run eq_refl.
  unfold call_cb. run (get_pgsql_run w2 st vd (lookup_insert_eq _ _ _)). change (cb vd) with (cb v). rewrite Hcb.
  change (arg vd) with (arg v). rewrite Harg. cbn [run_cb]. unfold db_state_change at 1.
  run (get_pgsql_run w2 st vd (lookup_insert_eq _ _ _)). change (state vd) with KORE_PGSQL_STATE_DONE. cbv iota.
  run (conn_name_run w2 st vd c x (lookup_insert_eq _ _ _) Hc Hx). rewrite Hn, bool_decide_false by done.
  destruct (continue_done_run d w2 st vd c x h p5) as (w' & Hrun & Ha & Hfr & Hq & Hv'); try done;
    [apply lookup_insert_eq|lia| |].
  { by eapply (waiters_idle_insert w). }
  exists w'. split; [exact Hrun|]. rewrite Ha. split_and!; [done|done|done|done|]. exists u. by split.
Qed.

Context {Hlaws : KoreHttpLaws H}.

(** A complete lookup whose name is not the cookie is refused, and forgotten. *)
Lemma auth_session_refuses cbs w r st v u ck :
  http_state_get r (http (app w)) = Some st -> pgsqls w !! st = Some v -> state v = KORE_PGSQL_STATE_COMPLETE ->
  conn v = None -> req v = None -> st ∉ (pgsql_wait_queue w).*2 ->
  ustates (app w) !! st = Some u -> result_name u <> Some ck ->
  exists w', auth_session cbs count_bits fuel r (Some ck) w = Done (KORE_RESULT_ERROR, w') /\
    http_state_get r (http (app w')) = None /\ ustates (app w') !! st = None /\ pgsqls w' !! st = None.
Proof.
  intros Hst Hv Hs Hc Hreq Hq Hu Hn. cbn [auth_session]. run eq_refl. rewrite Hst. run (get_pgsql_run _ _ _ Hv).
  rewrite Hs. cbv iota.
  assert (Hnm : exists f, name_matches st ck w = Done (false, set_app (web_ustates f) w)).
  { unfold name_matches. run (get_ustate_run _ _ _ Hu). destruct (result_name u) as [n|].
    - rewrite bool_decide_false by congruence. run (update_ustate_run _ _ _ _ Hu). by eexists.
    - exists (fun x => x). by destruct w as [? ? ? ? ? ? ? ? ? ? ? []]. }
  destruct Hnm as (f & Hnm). run Hnm. cbv iota. unfold end_lookup. rewrite bind_assoc.
  destruct (cleanup_idle_run cbs fuel (set_app (web_ustates f) w) st v Hv Hc Hreq Hq) as (v' & Hcl & _).
  run Hcl. unfold state_cleanup. rewrite !bind_assoc. run eq_refl. rewrite bind_assoc. run eq_refl.
  rewrite bind_assoc. run eq_refl. run eq_refl. eexists. split; [done|]. cbn.
  rewrite state_cleanup_get, decide_True by done. by rewrite !lookup_delete_eq.
Qed.

(** C12: the lookup, from the sent query to the verdict.  When the server's answer is there, the
    layer's handler ends the query and gives its connection back; asked again,
    [auth_session] lets the request through if and only if the last row returned is the
    cookie, and otherwise refuses it and forgets the lookup. *)
Theorem session_decided d cbs w r st c h p1 p2 res p3 p4 p5 ck :
  in_flight w r st c h -> waiters_idle w -> st ∉ (pgsql_wait_queue w).*2 ->
  PQconsumeInput h (pq w) = (true, p1) -> PQisBusy h p1 = false -> PQnotifies h p1 = (None, p2) ->
  PQgetResult h p2 = (Some res, p3) -> PQresultStatus (Some res) = PGRES_TUPLES_OK -> (0 <= PQntuples res)%Z ->
  PQgetResult h p3 = (None, p4) -> PQgetResult h p4 = (None, p5) -> 2 <= fuel ->
  exists w', kore_pgsql_handle (run_cb count_bits fuel (S (S d))) count_bits fuel c false w = Done (tt, w') /\
    pgsql_conn_free w' = pgsql_conn_free w ++ [c] /\
    if decide ((0 < PQntuples res)%Z /\ PQgetvalue res (PQntuples res - 1) 0 = ck)
    then auth_session cbs count_bits fuel r (Some ck) w' = Done (KORE_RESULT_OK, w')
    else exists w'', auth_session cbs count_bits fuel r (Some ck) w' = Done (KORE_RESULT_ERROR, w'') /\
           http_state_get r (http (app w'')) = None /\ pgsqls w'' !! st = None.
Proof.
  intros Hfl Hw Hnin Hci Hb Hno Hg1 Hts Hrows Hg2 Hg3 Hf.
  destruct (lookup_answered d w r st c h p1 p2 res p3 p4 p5) as
    (w' & Hrun & Hst & Hfr & Hq & (v & Hv & Hs & Hc & Hreq) & (u & Hu & Hn)); try done.
  exists w'. split_and!; [done|done|].
  assert (Hfound : found_name res = Some ck <-> (0 < PQntuples res)%Z /\ PQgetvalue res (PQntuples res - 1) 0 = ck).
  { unfold found_name. destruct (Z.ltb_spec 0 (PQntuples res)); split; intros; naive_solver lia. }
  case_decide as Hdec.
  - apply Hfound in Hdec. rewrite <- Hn in Hdec. cbn [auth_session]. run eq_refl. rewrite Hst.
    run (get_pgsql_run _ _ _ Hv). rewrite Hs. unfold name_matches. rewrite bind_assoc.
    run (get_ustate_run _ _ _ Hu). by rewrite Hdec, bool_decide_true by done.
  - destruct (auth_session_refuses cbs w' r st v u ck) as (w'' & Hr' & Hg' & _ & Hp'); try done.
    + rewrite Hq. destruct (pgsql_wait_queue w); set_solver.
    + rewrite Hn. intros He. by apply Hdec, Hfound.
    + by exists w''.
Qed.

(** a lookup the database refuses: the query ends as if it had succeeded, its connection goes
    back, and the request is refused and the lookup forgotten, whatever the cookie. *)
Theorem failed_lookup_refuses d cbs w r st c h p1 p2 res p3 p4 p5 ck :
  in_flight w r st c h -> waiters_idle w -> st ∉ (pgsql_wait_queue w).*2 ->
  PQconsumeInput h (pq w) = (true, p1) -> PQisBusy h p1 = false -> PQnotifies h p1 = (None, p2) ->
  PQgetResult h p2 = (Some res, p3) -> fatal_status res ->
  PQgetResult h p3 = (None, p4) -> PQgetResult h p4 = (None, p5) -> 2 <= fuel ->
  exists w' w'', kore_pgsql_handle (run_cb count_bits fuel (S (S d))) count_bits fuel c false w = Done (tt, w') /\
    pgsql_conn_free w' = pgsql_conn_free w ++ [c] /\
    auth_session cbs count_bits fuel r (Some ck) w' = Done (KORE_RESULT_ERROR, w'') /\
    http_state_get r (http (app w'')) = None /\ pgsqls w'' !! st = None.
Proof.
  intros Hfl Hw Hnin Hci Hb Hno Hg1 Hfs Hg2 Hg3 Hf.
  destruct (lookup_failed d w r st c h p1 p2 res p3 p4 p5) as
    (w' & Hrun & Hst & Hfr & Hq & (v & Hv & Hs & Hc & Hreq) & (u & Hu & Hn)); try done.
  destruct (auth_session_refuses cbs w' r st v u ck) as (w'' & Hr' & Hg' & _ & Hp'); try done.
  - rewrite Hq. destruct (pgsql_wait_queue w); set_solver.
  - by rewrite Hn.
  - by exists w', w''.
Qed.

(** the lookup, from the first call to the sent query.  With a free connection to the session
    database, [auth_session] sends it the one query with the cookie as its only parameter,
    asks to be called again, and leaves a lookup in flight on that connection. *)
Theorem session_starts d w r ck db q1 c q2 x h p :
  http_state_get r (http (app w)) = None -> find_db sessi (pgsql_db_conn_strings w) = Some db ->
  pgsql_conn_free w = q1 ++ c :: q2 -> NoDup (pgsql_conn_free w) ->
  Forall (fun d => exists u, free_conn w d u /\ c_name u <> sessi) q1 ->
  free_conn w c x -> c_name x = sessi -> c_db x = Some h -> PQtransactionStatus h (pq w) <> PQTRANS_INERROR ->
  PQsendQueryParams h session_query [(ck, Z.of_nat (String.length ck), 0%Z)] 0 (pq w) = (true, p) ->
  (0 <= PQsocket h p)%Z -> 2 <= fuel ->
  exists w', auth_session (run_cb count_bits fuel (S d)) count_bits fuel r (Some ck) w = Done (KORE_RESULT_RETRY, w') /\
    in_flight w' r (fresh_addr w) c h /\ pq w' = p /\ pgsql_conn_free w' = q1 ++ q2 /\
    pgsql_wait_queue w' = pgsql_wait_queue w /\ (forall r', r' <> r -> http_state_get r' (http (app w')) = http_state_get r' (http (app w))).
Proof.
  intros Hst Hdb Hq Hnd Hq1 Hfc Hn Hh Ht Hsend Hso Hf. cbn [auth_session]. run eq_refl. rewrite Hst.
  unfold start_lookup, ustate_create, new_addr. rewrite !bind_assoc. run eq_refl. rewrite bind_assoc. run eq_refl.
  run eq_refl. rewrite bind_assoc. run eq_refl. rewrite bind_assoc. run eq_refl. run eq_refl.
  set (st := fresh_addr w). set (w0 := set_app (web_ustates _) _).
  run (update_ustate_run w0 st _ _ (lookup_insert_eq _ _ _)). set (w1 := set_app _ w0). run eq_refl.
  set (v0 := pg_set_state _ zero_pgsql). set (w2 := set_pgsqls _ w1). unfold kore_pgsql_bind_callback at 1.
  rewrite bind_assoc. run (get_pgsql_run w2 st v0 (lookup_insert_eq _ _ _)).
  rewrite !bool_decide_false by (cbn; by intros []). run (update_pgsql_run w2 st v0 _ (lookup_insert_eq _ _ _)).
  set (v1 := pg_set_arg _ _). set (w3 := set_pgsqls _ w2). unfold db_query_params. rewrite bind_assoc.
  run (setup_reuses_run count_bits (run_cb count_bits fuel (S d)) fuel w3 st v1 sessi db q1 c q2 x h
    (lookup_insert_eq _ _ _) ltac:(by right) Hdb Hq Hnd Hq1 Hfc Hn Hh Ht ltac:(lia) eq_refl).
  cbn [Z.eqb KORE_RESULT_OK]. cbv iota. set (v2 := pg_set_conn _ _). set (w4 := set_conns _ _).
  rewrite bind_assoc.
  run (query_params_sent (run_cb count_bits fuel (S d)) fuel w4 st v2 c _ h session_query 0 [_] p 0
    (lookup_insert_eq _ _ _) eq_refl (lookup_insert_eq _ _ _) Hh eq_refl Hsend Hso ltac:(cbn; lia) ltac:(done) eq_refl eq_refl
    ltac:(eapply run_cb_idle; [apply lookup_insert_eq|by right; left])).
  cbn [Z.eqb KORE_RESULT_OK negb]. cbv iota. run eq_refl. eexists. split; [done|]. unfold in_flight. split_and!; try done.
  - cbn. by rewrite state_create_get, decide_True.
  - eexists. split; [apply lookup_insert_eq|done].
  - eexists. split; [apply lookup_insert_eq|done].
  - eexists. split; [apply lookup_insert_eq|done].
  - intros r' Hr'. cbn. by rewrite state_create_get, decide_False.
Qed.
End Session.

(** ** The table of request states *)

Section Table.
Context {P R H : Type} `{LibPq P R} `{KoreHttp H} `{PgVersion}.
Context (count_bits : Z) (fuel : nat).

(** Every request's state names an entry of [mystates]. *)
Definition in_table (a : web H) : Prop :=
  map_Forall (fun _ q => 0 <= fsm_state q < 6)%Z (hreqs a).

Abbreviation keeps_table := (preserves (fun w : pg_world P R (web H) => in_table (app w))).

#[local] Hint Resolve preserves_ret preserves_gets preserves_crash preserves_live preserves_deref preserves_when : keep.
#[local] Hint Extern 2 (preserves _ (modify _)) => (apply preserves_modify; intros [] ?; assumption) : keep.
#[local] Hint Extern 4 (preserves _ (_ ≫= _)) => (apply preserves_bind; [|intros ?]) : keep.
#[local] Hint Extern 5 (preserves _ (match ?x with _ => _ end)) => destruct x : keep.

Lemma table_web_mod f : (forall a, hreqs (f a) = hreqs a) -> keeps_table (web_mod f).
Proof. intros Hf. apply preserves_modify. intros w Hw. unfold in_table. cbn. by rewrite Hf. Qed.
#[local] Hint Extern 2 (preserves _ (web_mod _)) => (apply table_web_mod; intros []; reflexivity) : keep.

Lemma table_set_fsm r s : (0 <= s < 6)%Z -> keeps_table (set_fsm r s).
Proof.
  intros Hs. unfold set_fsm, update_hreq, get_hreq, web_get. intros w a w' Hw Hr.
  rewrite bind_assoc in Hr. run eq_refl in Hr. destruct (hreqs (app w) !! r) as [q|] eqn:Hq; [|done].
  injection Hr as <- <-. cbn. by apply map_Forall_insert_2.
Qed.

#[local] Hint Extern 1 (preserves _ (set_fsm _ _)) => (apply table_set_fsm; done) : keep.

Section Callbacks.
Context (cbs : nat -> loc -> loc -> M (pg_world P R (web H)) unit) (Hcbs : forall k l a, keeps_table (cbs k l a)).
#[local] Hint Resolve Hcbs : keep.

Lemma table_last_name l i rows name : keeps_table (last_name l i rows name).
Proof.
  revert i name. induction rows as [|rows IH]; intros; cbn [last_name]; [eauto with keep|].
  unfold kore_pgsql_getvalue. eauto 20 with keep.
Qed.
#[local] Hint Resolve table_last_name : keep.

Lemma table_state_change l d : keeps_table (db_state_change cbs count_bits fuel l d).
Proof.
  unfold db_state_change, conn_name, on_notify, db_results, conn_name, kore_pgsql_ntuples, state_addr, web_get,
    update_ustate, get_ustate, web_get. eauto 60 with keep.
Qed.

Lemma table_step n step r : mystates cbs count_bits fuel !! n = Some step -> keeps_table (step r).
Proof.
  intros Hn. apply list_elem_of_lookup_2 in Hn. unfold mystates in Hn.
  repeat (apply elem_of_cons in Hn as [->|Hn]); [| | | | | |by apply not_elem_of_nil in Hn];
  unfold request_perform_init, request_perform_query, request_db_wait, request_db_read, request_error, request_done,
    state_addr, get_rstate, kore_pgsql_ntuples, http_response, http_response_header, send, state_cleanup, web_get;
  eauto 60 with keep.
Qed.
End Callbacks.

Lemma table_run_cb depth k l a : keeps_table (run_cb count_bits fuel depth k l a).
Proof. revert k l a. induction depth as [|d IH]; intros; cbn [run_cb]; [apply preserves_crash|by apply table_state_change]. Qed.

(** whatever a step of the table does, and whatever callbacks run under it, every request's
    state still names an entry of the table. *)
Theorem fsm_stays_in_table depth n step r w w' res :
  mystates (run_cb count_bits fuel depth) count_bits fuel !! n = Some step ->
  in_table (app w) -> step r w = Done (res, w') ->
  map_Forall (fun _ q => exists next, (0 <= fsm_state q)%Z /\
    mystates (run_cb count_bits fuel depth) count_bits fuel !! Z.to_nat (fsm_state q) = Some next) (hreqs (app w')).
Proof.
  intros Hn Hw Hr. eapply map_Forall_impl; [exact (table_step _ (table_run_cb depth) n step r Hn w res w' Hw Hr)|].
  intros i q Hq. cbn in Hq.
  destruct (lookup_lt_is_Some_2 (mystates (run_cb count_bits fuel depth) count_bits fuel) (Z.to_nat (fsm_state q)))
    as [next Hnext]; [cbn; lia|]. exists next. split; [lia|done].
Qed.
End Table.

(** ** The theorems at a concrete state: request 1, a table with one session, one free connection *)

Abbreviation ex_W := (pg_world pq_table (list string) (web http_store)).

#[local] Instance ex_version : PgVersion := {| the_version := auth2_pgsql; stack_rfds := ∅ |}.

Definition ex_http (st : gmap loc loc) : http_store :=
  HttpStore (fun _ => [("user", "globi"); ("passphrase", "globi")]) (fun _ => [("hicookie", "user_sess")]) (fun _ => []) st.
Definition ex_web (mt : http_method) (st : gmap loc loc) (us : gmap loc ustate) : web http_store :=
  Web (ex_http st) {[1 := HReq mt 0]} us ∅ [].
Definition ex_conn (fl : Z) (job : option loc) : pgsql_conn := PgsqlConn fl sessi (Some 0) job.
Definition ex_dbs : list pgsql_db := [PgsqlDb sessi (Some "dbname=postgres") 2 1].
Definition ex_start : ex_W :=
  PgWorld (PqTable ["user_sess"] []) ∅ {[20 := ex_conn 1 None]} [20] [] 0 ex_dbs ∅ ∅ [] 100
    (ex_web HTTP_METHOD_POST ∅ ∅).

Lemma auth_login_grants_witness :
  exists w' calls, auth_login 1 ex_start = Done (KORE_RESULT_OK, w') /\
    ResponseCookie "hicookie" "user_sess" "/" false false ∈ calls /\ answers 1 ex_start w' calls.
Proof.
  destruct (auth_login_grants ex_start 1 (HReq HTTP_METHOD_POST 0)) as (w' & calls & Hr & Ha & _); [done|].
  exists w', calls. split; [exact Hr|]. split; [|exact Ha].
  assert (Hs : sent (app w') = reverse ((fun c => (1, c)) <$> [ResponseHeader "location" "/dashboard/";
     ResponseCookie "hicookie" "user_sess" "/" false false; Response HTTP_STATUS_FOUND (Text "NULL")]))
    by (vm_compute in Hr; injection Hr as <-; by vm_compute).
  unfold answers in Ha. cbn [sent app ex_start ex_web] in Ha. rewrite app_nil_r, Hs in Ha.
  apply (inj reverse), (inj (fmap _)) in Ha. rewrite <- Ha. set_solver.
Defined.

Definition ex_flying (rows : list string) : ex_W :=
  PgWorld (PqTable ["user_sess"] [rows])
    {[100 := KorePgsql KORE_PGSQL_STATE_WAIT 6 None None (Some 20) None (Some 0) 1 None]}
    {[20 := ex_conn 0 (Some 100)]} [] [] 0 ex_dbs ∅ ∅ [] 101
    (ex_web HTTP_METHOD_GET {[1 := 100]} {[100 := UState None None]}).

Lemma session_starts_witness :
  exists w', auth_session (run_cb 16 10 1) 16 10 1 (Some "user_sess") ex_start = Done (KORE_RESULT_RETRY, w') /\
    in_flight w' 1 100 20 0.
Proof.
  destruct (session_starts 16 10 0 ex_start 1 "user_sess" (PgsqlDb sessi (Some "dbname=postgres") 2 1) [] 20 []
    (ex_conn 1 None) 0 (PqTable ["user_sess"] [["user_sess"]])) as (w' & Hr & Hf & _);
    [done|by vm_compute|done|apply NoDup_singleton|constructor|by split; vm_compute|done|done|done|by vm_compute|done|lia|].
  exists w'. split; [exact Hr|exact Hf].
Defined.

Lemma ex_in_flight rows : in_flight (ex_flying rows) 1 100 20 0.
Proof. split_and!; [done|by eexists|by eexists|by eexists]. Qed.

Lemma session_decided_witness :
  exists w', kore_pgsql_handle (run_cb 16 10 2) 16 10 20 false (ex_flying ["user_sess"]) = Done (tt, w') /\
    auth_session (run_cb 16 10 2) 16 10 1 (Some "user_sess") w' = Done (KORE_RESULT_OK, w').
Proof.
  destruct (session_decided 16 10 0 (run_cb 16 10 2) (ex_flying ["user_sess"]) 1 100 20 0
    (PqTable ["user_sess"] [["user_sess"]]) (PqTable ["user_sess"] [["user_sess"]]) ["user_sess"]
    (PqTable ["user_sess"] []) (PqTable ["user_sess"] []) (PqTable ["user_sess"] []) "user_sess")
    as (w' & Hr & _ & Hs);
    [apply ex_in_flight|split; constructor|apply not_elem_of_nil|done|done|done|done|done|done|done|done|lia|].
  exists w'. split; [exact Hr|]. by rewrite decide_True in Hs.
Defined.

(** The lookup of [ex_flying], refused by the server. *)
Definition ex_refused : pg_world pq_server exec_status (web http_store) :=
  PgWorld (PqServer true 1 [PGRES_FATAL_ERROR] [] false)
    {[100 := KorePgsql KORE_PGSQL_STATE_WAIT 6 None None (Some 20) None (Some 0) 1 None]}
    {[20 := ex_conn 0 (Some 100)]} [] [] 0 ex_dbs ∅ ∅ [] 101
    (ex_web HTTP_METHOD_GET {[1 := 100]} {[100 := UState None None]}).

Lemma failed_lookup_refuses_witness :
  exists w' w'', kore_pgsql_handle (run_cb 16 10 2) 16 10 20 false ex_refused = Done (tt, w') /\
    auth_session (run_cb 16 10 2) 16 10 1 (Some "user_sess") w' = Done (KORE_RESULT_ERROR, w'').
Proof.
  destruct (failed_lookup_refuses 16 10 0 (run_cb 16 10 2) ex_refused 1 100 20 0
    (PqServer true 1 [PGRES_FATAL_ERROR] [] false) (PqServer true 1 [PGRES_FATAL_ERROR] [] false) PGRES_FATAL_ERROR
    (PqServer true 1 [] [] false) (PqServer true 1 [] [] false) (PqServer true 1 [] [] false) "user_sess")
    as (w' & w'' & Hr & _ & Hs & _).
  - split_and!; [done|by eexists|by eexists|by eexists].
  - split; constructor.
  - apply not_elem_of_nil.
  - done.
  - done.
  - done.
  - done.
  - by right; right.
  - done.
  - done.
  - lia.
  - exists w', w''. split; [exact Hr|exact Hs].
Defined.

Definition ex_waiting : ex_W :=
  PgWorld (PqTable [] []) {[100 := KorePgsql KORE_PGSQL_STATE_INIT 2 None None None None (Some 0) 1 None]}
    ∅ [] [(50, 100)] 1 ex_dbs ∅ ∅ [] 101 (ex_web HTTP_METHOD_GET {[1 := 100]} {[100 := UState None None]}).

Lemma waiting_lookup_starves_witness :
  exists w', pgsql_queue_wakeup (run_cb 16 10 1) ex_waiting = Done (tt, w') /\
    auth_session (run_cb 16 10 1) 16 10 1 (Some "user_sess") w' = Done (KORE_RESULT_RETRY, w').
Proof.
  destruct (waiting_lookup_starves 16 10 0 ex_waiting 1 100
    (KorePgsql KORE_PGSQL_STATE_INIT 2 None None None None (Some 0) 1 None) 50 []) as (w' & Hr & _ & _ & _ & Hs);
    [split; [apply NoDup_singleton|by repeat econstructor]|done|done|done|apply not_elem_of_nil|].
  exists w'. split; [exact Hr|apply Hs].
Defined.

Lemma fsm_stays_in_table_witness :
  exists w', request_db_wait (run_cb 16 10 1) 16 10 1 (ex_flying []) = Done (HTTP_STATE_RETRY, w') /\
    exists next, mystates (run_cb 16 10 1) 16 10 !! Z.to_nat 0 = Some next.
Proof.
  destruct (request_db_wait (run_cb 16 10 1) 16 10 1 (ex_flying [])) as [[res w']|f] eqn:Hr; [|by vm_compute in Hr].
  pose proof (fsm_stays_in_table 16 10 1 2 _ 1 (ex_flying []) w' res eq_refl
    ltac:(by apply map_Forall_singleton) Hr) as Ht.
  assert (Hw : w' = ex_flying [] /\ res = HTTP_STATE_RETRY) by (vm_compute in Hr; injection Hr as <- <-; by vm_compute).
  destruct Hw as [-> ->]. exists (ex_flying []). split; [reflexivity|].
  destruct (Ht 1 (HReq HTTP_METHOD_GET 0) eq_refl) as (next & _ & Hn). exists next. exact Hn.
Defined.
End Auth.
