(* ===== verification/Sse.v ===== *)
(** * Server-sent events: sse/src/sse.c

    A client that subscribes gets a state with a ping timer; joining and leaving are told to
    every other subscribed connection.  Connections, their list, requests, timers and HTTP
    are kore's: a connection has the fields the code uses; timers and HTTP are parameters;
    what is queued on a connection with [net_send_queue] is recorded in order. *)

From S2P Require Import Prelude KoreNet KoreHttp.
From stdpp Require Import pretty.

Local Open Scope c_scope.

Module Sse.

(** ** Data *)

Record connection : Type := Connection {
  hdlr_extra : option loc;  (* the [sse_state], null when not subscribed *)
  disconnect : bool;  (* [sse_disconnect] is set *)
  read_block : bool  (* CONN_READ_BLOCK *)
}.

Definition c_hdlr_extra (f : option loc -> option loc) (w : connection) : connection :=
  Connection (f (hdlr_extra w)) (disconnect w) (read_block w).
Definition c_disconnect (f : bool -> bool) (w : connection) : connection :=
  Connection (hdlr_extra w) (f (disconnect w)) (read_block w).
Definition c_read_block (f : bool -> bool) (w : connection) : connection :=
  Connection (hdlr_extra w) (disconnect w) (f (read_block w)).

Record request : Type := Request {
  method : http_method;
  owner : loc;
  req_extra : option loc;  (* [req->hdlr_extra] *)
  no_length : bool  (* HTTP_REQUEST_NO_CONTENT_LENGTH *)
}.

Definition r_method (f : http_method -> http_method) (w : request) : request :=
  Request (f (method w)) (owner w) (req_extra w) (no_length w).
Definition r_owner (f : loc -> loc) (w : request) : request :=
  Request (method w) (f (owner w)) (req_extra w) (no_length w).
Definition r_req_extra (f : option loc -> option loc) (w : request) : request :=
  Request (method w) (owner w) (f (req_extra w)) (no_length w).
Definition r_no_length (f : bool -> bool) (w : request) : request :=
  Request (method w) (owner w) (req_extra w) (f (no_length w)).

Record sse_world (T H : Type) : Type := SseWorld {
  conns : gmap loc connection;
  connections : list loc;  (* kore's list, from TAILQ_FIRST on *)
  requests : gmap loc request;
  states : gmap loc nat;  (* each [sse_state]'s timer *)
  timers : T;
  http : H;
  out : list (loc * string);  (* what was queued on connections, in order *)
  sent : list (loc * http_call);  (* newest first *)
  fresh_addr : nat
}.
Arguments SseWorld {T H}.
Arguments conns {T H}.
Arguments connections {T H}.
Arguments requests {T H}.
Arguments states {T H}.
Arguments timers {T H}.
Arguments http {T H}.
Arguments out {T H}.
Arguments sent {T H}.
Arguments fresh_addr {T H}.

Definition set_conns {T H : Type} (f : gmap loc connection -> gmap loc connection) (w : sse_world T H) : sse_world T H :=
  SseWorld (f (conns w)) (connections w) (requests w) (states w) (timers w) (http w) (out w) (sent w) (fresh_addr w).
Definition set_connections {T H : Type} (f : list loc -> list loc) (w : sse_world T H) : sse_world T H :=
  SseWorld (conns w) (f (connections w)) (requests w) (states w) (timers w) (http w) (out w) (sent w) (fresh_addr w).
Definition set_requests {T H : Type} (f : gmap loc request -> gmap loc request) (w : sse_world T H) : sse_world T H :=
  SseWorld (conns w) (connections w) (f (requests w)) (states w) (timers w) (http w) (out w) (sent w) (fresh_addr w).
Definition set_states {T H : Type} (f : gmap loc nat -> gmap loc nat) (w : sse_world T H) : sse_world T H :=
  SseWorld (conns w) (connections w) (requests w) (f (states w)) (timers w) (http w) (out w) (sent w) (fresh_addr w).
Definition set_timers {T H : Type} (f : T -> T) (w : sse_world T H) : sse_world T H :=
  SseWorld (conns w) (connections w) (requests w) (states w) (f (timers w)) (http w) (out w) (sent w) (fresh_addr w).
Definition set_http {T H : Type} (f : H -> H) (w : sse_world T H) : sse_world T H :=
  SseWorld (conns w) (connections w) (requests w) (states w) (timers w) (f (http w)) (out w) (sent w) (fresh_addr w).
Definition set_out {T H : Type} (f : list (loc * string) -> list (loc * string)) (w : sse_world T H) : sse_world T H :=
  SseWorld (conns w) (connections w) (requests w) (states w) (timers w) (http w) (f (out w)) (sent w) (fresh_addr w).
Definition set_sent {T H : Type} (f : list (loc * http_call) -> list (loc * http_call)) (w : sse_world T H) : sse_world T H :=
  SseWorld (conns w) (connections w) (requests w) (states w) (timers w) (http w) (out w) (f (sent w)) (fresh_addr w).
Definition set_fresh_addr {T H : Type} (f : nat -> nat) (w : sse_world T H) : sse_world T H :=
  SseWorld (conns w) (connections w) (requests w) (states w) (timers w) (http w) (out w) (sent w) (f (fresh_addr w)).

Definition KORE_RESULT_ERROR : Z := 0.
Definition KORE_RESULT_OK : Z := 1.

Definition nl : string := String (Ascii.ascii_of_nat 10) EmptyString.
Definition hello : string := "event:join" ++ nl ++ "data: client" ++ nl ++ nl.
Definition ping : string := "event:ping" ++ nl ++ "data:" ++ nl ++ nl.
Definition leaving : string := "event: leave" ++ nl ++ "data: client" ++ nl ++ nl.

Section Code.
Context {T H : Type} `{KoreTimers T} `{KoreHttp H}.
Abbreviation m := (M (sse_world T H)).

(** *** Access *)

Definition get_conn (c : loc) : m connection := h ← gets conns; live (h !! c).
Definition update_conn (c : loc) (f : connection -> connection) : m unit :=
  v ← get_conn c; modify (set_conns <[c := f v]>).
Definition get_req (r : loc) : m request := h ← gets requests; live (h !! r).
Definition update_req (r : loc) (f : request -> request) : m unit :=
  v ← get_req r; modify (set_requests <[r := f v]>).
Definition http_response (r : loc) (code : Z) (b : body) : m unit := modify (set_sent (cons (r, Response code b))).
Definition http_response_header (r : loc) (n v : string) : m unit := modify (set_sent (cons (r, ResponseHeader n v))).
Definition new_addr : m loc := n ← gets fresh_addr; modify (set_fresh_addr S);; mret n.
Definition kore_timer_add (arg : loc) : m nat := fun w =>
  let '(t, ts) := timer_add arg (timers w) in Done (t, set_timers (fun _ => ts) w).

(** *** Sending *)

Definition sse_send (c : loc) (data : string) : m unit :=
  v ← get_conn c;
  match hdlr_extra v with
  | None => mret tt
  | Some _ => modify (set_out (fun o => o ++ [(c, data)]))
  end.

Fixpoint broadcast_loop (src : loc) (data : string) (cs : list loc) : m unit :=
  match cs with
  | [] => mret tt
  | c :: cs =>
      (if decide (c = src) then mret tt else sse_send c data);; broadcast_loop src data cs
  end.

Definition sse_broadcast (src : loc) (data : string) : m unit :=
  cs ← gets connections; broadcast_loop src data cs.

Definition sse_ping (c : loc) : m unit := sse_send c ping.

Definition sse_disconnect (c : loc) : m unit :=
  v ← get_conn c;
  sse_broadcast c leaving;;
  st ← deref (hdlr_extra v);
  ss ← gets states;
  t ← live (ss !! st);
  modify (set_timers (timer_remove t));;
  modify (set_states (delete st));;
  update_conn c (fun v => c_disconnect (fun _ => false) (c_hdlr_extra (fun _ => None) v)).

(** *** Handlers *)

Definition only_get (r : loc) (k : m Z) : m Z :=
  q ← get_req r;
  if decide (method q = HTTP_METHOD_GET) then k
  else http_response_header r "allow" "get";; http_response r 405 NoBody;; mret KORE_RESULT_OK.

Definition page (r : loc) : m Z :=
  only_get r (http_response_header r "content-type" "text/html";;
              http_response r 200 (Asset "index.html");; mret KORE_RESULT_OK).

Definition check_header (r : loc) (name value : string) : m Z :=
  h ← gets http;
  match http_request_header r name h with
  | None => http_response r 400 NoBody;; mret KORE_RESULT_ERROR
  | Some hdr =>
      if decide (hdr = value) then mret KORE_RESULT_OK
      else http_response r 400 NoBody;; mret KORE_RESULT_ERROR
  end.

Definition open_channel (r c : loc) : m Z :=
  update_req r (r_no_length (fun _ => true));;
  sse_broadcast c hello;;
  update_conn c (c_disconnect (fun _ => true));;
  update_conn c (c_read_block (fun _ => true));;
  st ← new_addr;
  update_conn c (c_hdlr_extra (fun _ => Some st));;
  t ← kore_timer_add c;
  modify (set_states <[st := t]>);;
  http_response_header r "content-type" "text/event-stream";;
  http_response r 200 NoBody;;
  mret KORE_RESULT_OK.

Definition subscribe (r : loc) : m Z :=
  q ← get_req r;
  if bool_decide (req_extra q <> None) then http_response r 500 NoBody;; mret KORE_RESULT_OK
  else
    only_get r
      (ok ← check_header r "accept" "text/event-stream";
       if (ok =? 0)%Z then mret KORE_RESULT_OK else open_channel r (owner q)).

Definition ranger (r : loc) : m Z :=
  q ← get_req r;
  sse_broadcast (owner q) hello;;
  modify (set_http (http_populate_get r));;
  h ← gets http;
  let b1 := match http_argument_get_string r "id" h with
            | Some sid => ("id as a string: '" ++ sid ++ "'" ++ nl)%string | None => EmptyString end in
  let b2 := match http_argument_get_uint16 r "id" h with
            | Some id => ("id as an u_int16_t: " ++ pretty id ++ nl)%string | None => EmptyString end in
  http_response r 200 (Text (b1 ++ b2)%string);;
  mret KORE_RESULT_OK.

(** *** What kore does around them *)

(** A new connection, with nothing attached. *)
Definition accept : m loc :=
  c ← new_addr;
  modify (set_conns <[c := Connection None false false]>);;
  modify (set_connections (fun l => l ++ [c]));;
  mret c.

(** A connection goes away: its disconnect function runs if it is set, then it is freed. *)
Definition close (c : loc) : m unit :=
  v ← get_conn c;
  (if! disconnect v then sse_disconnect c);;
  modify (set_connections (filter (fun x => x <> c)));;
  modify (set_conns (delete c)).

(** A timer fires: its argument is pinged. *)
Definition fire (t : nat) : m unit :=
  ts ← gets timers;
  match timer_armed ts !! t with Some c => sse_ping c | None => mret tt end.
End Code.

(** ** Steps *)

Section Steps.
Context {T H : Type} `{KoreTimers T} `{KoreHttp H}.
Implicit Types w : sse_world T H.

Lemma sse_get_conn_run w c v : conns w !! c = Some v -> get_conn c w = Done (v, w).
Proof. intros Hc. unfold get_conn. run eq_refl. by rewrite Hc. Qed.

Lemma sse_update_conn_run w c v f :
  conns w !! c = Some v -> update_conn c f w = Done (tt, set_conns <[c := f v]> w).
Proof. intros Hc. unfold update_conn. by run (sse_get_conn_run _ _ _ Hc). Qed.

Lemma update_conn_again w c v f :
  update_conn c f (set_conns <[c := v]> w) = Done (tt, set_conns <[c := f v]> w).
Proof.
  rewrite (sse_update_conn_run _ c v) by apply lookup_insert_eq. unfold set_conns. cbn. by rewrite insert_insert_eq.
Qed.

Lemma get_req_run w r q : requests w !! r = Some q -> get_req r w = Done (q, w).
Proof. intros Hr. unfold get_req. run eq_refl. by rewrite Hr. Qed.

Lemma update_req_run w r q f :
  requests w !! r = Some q -> update_req r f w = Done (tt, set_requests <[r := f q]> w).
Proof. intros Hr. unfold update_req. by run (get_req_run _ _ _ Hr). Qed.

(** The connections a broadcast from [src] reaches, in order. *)
Definition subscribed w (c : loc) : bool :=
  match conns w !! c with Some v => bool_decide (hdlr_extra v <> None) | None => false end.
Definition recipients w (src : loc) : list loc :=
  filter (fun c => c <> src /\ subscribed w c) (connections w).

Lemma sse_send_run w c v data :
  conns w !! c = Some v ->
  sse_send c data w = Done (tt, set_out (fun o => o ++ if subscribed w c then [(c, data)] else []) w).
Proof.
  intros Hc. unfold sse_send. run (sse_get_conn_run _ _ _ Hc). unfold subscribed. rewrite Hc.
  destruct (hdlr_extra v); [by rewrite bool_decide_true|]. rewrite bool_decide_false by (by intros []).
  unfold mret, M_ret, set_out. rewrite app_nil_r. by destruct w.
Qed.

Lemma sse_broadcast_run w src data :
  Forall (fun c => is_Some (conns w !! c)) (connections w) ->
  sse_broadcast src data w = Done (tt, set_out (fun o => o ++ ((fun c => (c, data)) <$> recipients w src)) w).
Proof.
  intros Hall. unfold sse_broadcast. run eq_refl. unfold recipients. revert Hall. generalize (connections w) as cs.
  intros cs Hall. assert (Hgen : forall o, broadcast_loop src data cs (set_out (fun _ => o) w) =
    Done (tt, set_out (fun _ => o ++ ((fun c => (c, data)) <$> filter (fun c => c <> src /\ subscribed w c) cs)) w)).
  { induction Hall as [|c cs [v Hc] Hall IH]; intros o; cbn [broadcast_loop]; [cbn; by rewrite app_nil_r|].
    destruct (decide (c = src)) as [->|Hne].
    - run eq_refl. rewrite IH. by rewrite filter_cons_False by naive_solver.
    - run (sse_send_run (set_out (fun _ => o) w) c v data Hc).
      change (set_out _ (set_out _ w)) with (set_out (fun _ => o ++ if subscribed w c then [(c, data)] else []) w).
      rewrite IH. destruct (subscribed w c) eqn:Hs.
      + rewrite (filter_cons_True _ c) by (split; [done|by rewrite Hs]). cbn [fmap list_fmap]. by rewrite <- app_assoc.
      + rewrite (filter_cons_False _ c) by (rewrite Hs; naive_solver). by rewrite app_nil_r. }
  specialize (Hgen (out w)). destruct w. exact Hgen.
Qed.

Lemma open_channel_run w r q c v t ts :
  requests w !! r = Some q -> conns w !! c = Some v -> Forall (fun c => is_Some (conns w !! c)) (connections w) ->
  timer_add c (timers w) = (t, ts) ->
  open_channel r c w = Done (KORE_RESULT_OK,
    SseWorld (<[c := Connection (Some (fresh_addr w)) true true]> (conns w)) (connections w)
      (<[r := r_no_length (fun _ => true) q]> (requests w)) (<[fresh_addr w := t]> (states w)) ts (http w)
      (out w ++ ((fun x => (x, hello)) <$> recipients w c))
      ((r, Response 200 NoBody) :: (r, ResponseHeader "content-type" "text/event-stream") :: sent w) (S (fresh_addr w))).
Proof.
  intros Hr Hc Hall Ht. unfold open_channel. run (update_req_run _ _ _ _ Hr).
  run (sse_broadcast_run (set_requests _ w) c hello Hall).
  set (w0 := set_out _ _). run (sse_update_conn_run w0 c v _ Hc).
  run (update_conn_again _ _ _ _). unfold new_addr. rewrite bind_assoc. run eq_refl. rewrite bind_assoc.
  run eq_refl. run eq_refl. set (w1 := set_fresh_addr _ _).
  run (sse_update_conn_run w1 c _ _ (lookup_insert_eq _ _ _)). set (w2 := set_conns _ w1).
  assert (Hadd : kore_timer_add c w2 = Done (t, set_timers (fun _ => ts) w2)) by (unfold kore_timer_add; cbn; by rewrite Ht).
  run Hadd. run eq_refl. run eq_refl. run eq_refl. unfold mret, M_ret. subst w2 w1 w0.
  cbv [set_conns set_requests set_out set_fresh_addr set_timers set_states set_sent
    conns connections requests states timers http out sent fresh_addr c_disconnect c_read_block c_hdlr_extra hdlr_extra
    disconnect read_block].
  by rewrite insert_insert_eq.
Qed.

Lemma sse_disconnect_run w c v st t :
  conns w !! c = Some v -> hdlr_extra v = Some st -> states w !! st = Some t ->
  Forall (fun c => is_Some (conns w !! c)) (connections w) ->
  sse_disconnect c w = Done (tt,
    SseWorld (<[c := Connection None false (read_block v)]> (conns w)) (connections w) (requests w)
      (delete st (states w)) (timer_remove t (timers w)) (http w)
      (out w ++ ((fun x => (x, leaving)) <$> recipients w c)) (sent w) (fresh_addr w)).
Proof.
  intros Hc He Hs Hall. unfold sse_disconnect. run (sse_get_conn_run _ _ _ Hc). run (sse_broadcast_run w c leaving Hall).
  rewrite He. run eq_refl. run eq_refl. cbn [states set_out]. rewrite Hs. run eq_refl. run eq_refl. run eq_refl.
  set (w1 := set_states _ _). by rewrite (sse_update_conn_run w1 c v _ Hc).
Qed.
End Steps.

(** ** Subscribing *)

Section Subscribe.
Context {T H : Type} `{KoreTimersLaws T} `{KoreHttp H}.
Implicit Types w : sse_world T H.

Definition accepts_events w (r : loc) (q : request) : Prop :=
  req_extra q = None /\ method q = HTTP_METHOD_GET /\ http_request_header r "accept" (http w) = Some "text/event-stream".

(** What a refused subscription is answered. *)
Definition refusal w (r : loc) (q : request) : list (loc * http_call) :=
  if decide (req_extra q = None) then
    if decide (method q = HTTP_METHOD_GET) then [(r, Response 400 NoBody)]
    else [(r, Response 405 NoBody); (r, ResponseHeader "allow" "get")]
  else [(r, Response 500 NoBody)].

Lemma subscribe_run w r q v t ts :
  requests w !! r = Some q -> conns w !! owner q = Some v ->
  Forall (fun c => is_Some (conns w !! c)) (connections w) -> timer_add (owner q) (timers w) = (t, ts) ->
  (accepts_events w r q -> subscribe r w = open_channel r (owner q) w) /\
  (~ accepts_events w r q -> subscribe r w = Done (KORE_RESULT_OK, set_sent (fun s => refusal w r q ++ s) w)).
Proof.
  intros Hr Hc Hall Ht. unfold subscribe. split.
  - intros (He & Hm & Hh). run (get_req_run _ _ _ Hr). rewrite He, bool_decide_false by (by intros []).
    unfold only_get. run (get_req_run _ _ _ Hr). rewrite decide_True by done. unfold check_header.
    rewrite bind_assoc. run eq_refl. by rewrite Hh, decide_True by done.
  - intros Hn. run (get_req_run _ _ _ Hr). unfold refusal. destruct (decide (req_extra q = None)) as [He|He].
    2: { rewrite bool_decide_true by done. by run eq_refl. }
    rewrite He, bool_decide_false by (by intros []). unfold only_get. run (get_req_run _ _ _ Hr).
    destruct (decide (method q = HTTP_METHOD_GET)) as [Hm|Hm]; [|run eq_refl; by run eq_refl].
    unfold check_header. rewrite bind_assoc. run eq_refl.
    destruct (http_request_header r "accept" (http w)) as [hdr|] eqn:Hh; [|rewrite bind_assoc; by run eq_refl].
    rewrite decide_False by (intros ->; by apply Hn). rewrite bind_assoc. by run eq_refl.
Qed.

(** subscribing.  A request that asks for an event stream in the way the code wants is told 200,
    its connection gets a state and a ping timer of its own, and every other subscribed
    connection is sent one join event, nobody else any; any other request is answered
    500, 405 or 400, and nothing else happens. *)
Theorem subscribe_joins w r q v :
  requests w !! r = Some q -> conns w !! owner q = Some v ->
  Forall (fun c => is_Some (conns w !! c)) (connections w) ->
  exists w', subscribe r w = Done (KORE_RESULT_OK, w') /\
    (accepts_events w r q ->
       (exists t, timer_armed (timers w) !! t = None /\ timer_armed (timers w') = <[t := owner q]> (timer_armed (timers w)) /\
          states w' = <[fresh_addr w := t]> (states w) /\
          conns w' = <[owner q := Connection (Some (fresh_addr w)) true true]> (conns w)) /\
       out w' = out w ++ ((fun c => (c, hello)) <$> recipients w (owner q)) /\
       sent w' = (r, Response 200 NoBody) :: (r, ResponseHeader "content-type" "text/event-stream") :: sent w) /\
    (~ accepts_events w r q -> w' = set_sent (fun s => refusal w r q ++ s) w).
Proof.
  intros Hr Hc Hall. destruct (timer_add (owner q) (timers w)) as [t ts] eqn:Ht.
  destruct (subscribe_run w r q v t ts Hr Hc Hall Ht) as [Hyes Hno].
  assert (Hdec : accepts_events w r q \/ ~ accepts_events w r q).
  { unfold accepts_events. destruct (decide (req_extra q = None)), (decide (method q = HTTP_METHOD_GET)),
      (decide (http_request_header r "accept" (http w) = Some "text/event-stream")); naive_solver. }
  destruct Hdec as [Ha|Ha].
  - rewrite (Hyes Ha), (open_channel_run w r q (owner q) v t ts Hr Hc Hall Ht). eexists. split; [done|].
    split; [|done]. intros _. cbn. apply timer_add_law in Ht as [Hf ->]. split_and!; [|done|done]. by exists t.
  - rewrite (Hno Ha). eexists. split; [done|]. by split.
Qed.
End Subscribe.

(** ** States, timers and connections belong together *)

Section Sound.
Context {T H : Type} `{KoreTimersLaws T} `{KoreHttp H}.
Implicit Types w : sse_world T H.

(** The list of connections is the live ones; a connection is subscribed exactly when its
    disconnect function is set; its state's timer pings it; and every armed timer is such
    a one. *)
Record sse_ok w : Prop := SseOk {
  ok_nodup : NoDup (connections w);
  ok_live : forall c, c ∈ connections w <-> is_Some (conns w !! c);
  ok_disconnect : forall c v, conns w !! c = Some v -> disconnect v = bool_decide (hdlr_extra v <> None);
  ok_timer : forall c v st, conns w !! c = Some v -> hdlr_extra v = Some st ->
    exists t, states w !! st = Some t /\ timer_armed (timers w) !! t = Some c;
  ok_armed : forall t c, timer_armed (timers w) !! t = Some c ->
    exists v st, conns w !! c = Some v /\ hdlr_extra v = Some st /\ states w !! st = Some t;
  ok_fresh : (forall c, is_Some (conns w !! c) -> c < fresh_addr w) /\
    (forall st, is_Some (states w !! st) -> st < fresh_addr w)
}.

Lemma sse_ok_all w : sse_ok w -> Forall (fun c => is_Some (conns w !! c)) (connections w).
Proof. intros Hok. apply Forall_forall. intros c Hc. by apply (ok_live w Hok). Qed.

(** What does not touch these parts keeps them so. *)
Lemma sse_ok_same w w' :
  conns w' = conns w -> connections w' = connections w -> states w' = states w -> timers w' = timers w ->
  fresh_addr w' = fresh_addr w -> sse_ok w -> sse_ok w'.
Proof. intros E1 E2 E3 E4 E5 []. by split; rewrite ?E1, ?E2, ?E3, ?E4, ?E5. Qed.

Lemma sse_ok_accept w c w' : sse_ok w -> accept w = Done (c, w') -> sse_ok w'.
Proof.
  intros [Hnd Hli Hdi Hti Har [Hfc Hfs]] Hr. unfold accept, new_addr in Hr. rewrite bind_assoc in Hr. run eq_refl in Hr.
  rewrite bind_assoc in Hr. run eq_refl in Hr. run eq_refl in Hr. run eq_refl in Hr. run eq_refl in Hr.
  injection Hr as <- <-. set (n := fresh_addr w) in *.
  assert (Hn : conns w !! n = None) by (destruct (conns w !! n) eqn:E; [specialize (Hfc n ltac:(eauto)); lia|done]).
  split; cbn.
  - apply NoDup_app. split_and!; [done| |apply NoDup_singleton]. intros x Hx ->%list_elem_of_singleton.
    apply Hli in Hx. rewrite Hn in Hx. by destruct Hx.
  - intros x. rewrite elem_of_app, list_elem_of_singleton, Hli. destruct (decide (x = n)) as [->|Hx].
    + rewrite lookup_insert_eq. naive_solver.
    + rewrite lookup_insert_ne by done. naive_solver.
  - intros x v [[<- <-]|[_ Hv]]%lookup_insert_Some; [done|by eapply Hdi].
  - intros x v st [[<- <-]|[_ Hv]]%lookup_insert_Some; [done|by eapply Hti].
  - intros t x Ht. destruct (Har t x Ht) as (v & st & Hv & ?). exists v, st. split; [|done].
    rewrite lookup_insert_ne; [done|]. intros <-. by rewrite Hn in Hv.
  - split; [|intros st Hst; specialize (Hfs st Hst); lia]. intros x [v [[<- _]|[_ Hv]]%lookup_insert_Some]; [lia|].
    specialize (Hfc x ltac:(eauto)). lia.
Qed.

Lemma sse_ok_open w r q c v x w' :
  sse_ok w -> requests w !! r = Some q -> conns w !! c = Some v -> hdlr_extra v = None ->
  open_channel r c w = Done (x, w') -> sse_ok w'.
Proof.
  intros Hok Hr Hc He Hrun. destruct (timer_add c (timers w)) as [t ts] eqn:Ht.
  rewrite (open_channel_run w r q c v t ts Hr Hc (sse_ok_all w Hok) Ht) in Hrun. injection Hrun as <- <-.
  destruct Hok as [Hnd Hli Hdi Hti Har [Hfc Hfs]]. apply timer_add_law in Ht as [Htn Hts]. set (n := fresh_addr w) in *.
  assert (Hn : states w !! n = None) by (destruct (states w !! n) eqn:E; [specialize (Hfs n ltac:(eauto)); lia|done]).
  split; cbn; rewrite ?Hts.
  - done.
  - intros y. rewrite Hli. destruct (decide (y = c)) as [->|Hy]; [by rewrite lookup_insert_eq, Hc|by rewrite lookup_insert_ne].
  - intros y u [[<- <-]|[_ Hv]]%lookup_insert_Some; [by rewrite bool_decide_true|by eapply Hdi].
  - intros y u st [[<- <-]|[Hy Hv]]%lookup_insert_Some Hst.
    + injection Hst as <-. exists t. by rewrite !lookup_insert_eq.
    + destruct (Hti y u st Hv Hst) as (t' & Hs' & Ha'). exists t'. rewrite !lookup_insert_ne; [done|congruence|congruence].
  - intros t' y [[<- <-]|[Hy Hv]]%lookup_insert_Some.
    + eexists _, n. by rewrite !lookup_insert_eq.
    + destruct (Har t' y Hv) as (u & st & Hu & Hst & Hs). exists u, st.
      rewrite !lookup_insert_ne; [done|congruence|congruence].
  - split.
    + intros y [u [[<- _]|[_ Hv]]%lookup_insert_Some]; [specialize (Hfc c ltac:(eauto))|specialize (Hfc y ltac:(eauto))]; lia.
    + intros y [u [[<- _]|[_ Hv]]%lookup_insert_Some]; [lia|specialize (Hfs y ltac:(eauto)); lia].
Qed.

(** The connection's state and timer are gone: it can be freed. *)
Lemma sse_ok_drop w c v ts ss :
  sse_ok w -> conns w !! c = Some v ->
  timer_armed ts = match hdlr_extra v with
    | Some st => match states w !! st with Some t => delete t (timer_armed (timers w)) | None => timer_armed (timers w) end
    | None => timer_armed (timers w) end ->
  ss = match hdlr_extra v with Some st => delete st (states w) | None => states w end ->
  forall o, sse_ok (SseWorld (delete c (conns w)) (filter (fun x => x <> c) (connections w)) (requests w) ss ts
    (http w) o (sent w) (fresh_addr w)) /\ forall t, timer_armed ts !! t <> Some c.
Proof.
  intros [Hnd Hli Hdi Hti Har [Hfc Hfs]] Hc Hts Hss o.
  (* an armed timer of the new state was one of another connection *)
  assert (Hold : forall t y, timer_armed ts !! t = Some y -> timer_armed (timers w) !! t = Some y /\ y <> c).
  { intros t y Hy. rewrite Hts in Hy. destruct (hdlr_extra v) as [st|] eqn:He.
    - destruct (Hti c v st Hc He) as (t' & Hs' & Ha'). rewrite Hs' in Hy.
      apply lookup_delete_Some in Hy as [Hne Hy]. split; [done|]. intros ->.
      destruct (Har t c Hy) as (u & st' & Hu & Hst' & Hs''). congruence.
    - split; [done|]. intros ->. destruct (Har t c Hy) as (u & st' & Hu & Hst' & _). congruence. }
  (* the state of another connection is another state *)
  assert (Hother : forall y u st t, conns w !! y = Some u -> hdlr_extra u = Some st -> y <> c -> states w !! st = Some t ->
    timer_armed (timers w) !! t = Some y -> ss !! st = Some t /\ timer_armed ts !! t = Some y).
  { intros y u st t Hy Hst Hne Hs Ha. rewrite Hss, Hts. destruct (hdlr_extra v) as [st'|] eqn:He; [|done].
    destruct (Hti c v st' Hc He) as (t' & Hs' & Ha'). rewrite Hs'.
    rewrite !lookup_delete_ne; [done|congruence|]. intros ->. congruence. }
  split; [|intros t Ht; by destruct (Hold t c Ht)]. split; cbn.
  - by apply NoDup_filter.
  - intros y. rewrite list_elem_of_filter, Hli. destruct (decide (y = c)) as [->|Hy].
    + rewrite lookup_delete_eq. split; [naive_solver|by intros []].
    + rewrite lookup_delete_ne by done. naive_solver.
  - intros y u [Hy Hu]%lookup_delete_Some. by eapply Hdi.
  - intros y u st [Hy Hu]%lookup_delete_Some Hst. destruct (Hti y u st Hu Hst) as (t & Hs & Ha).
    exists t. by eapply Hother.
  - intros t y Ht. destruct (Hold t y Ht) as [Ha Hne]. destruct (Har t y Ha) as (u & st & Hu & Hst & Hs).
    exists u, st. rewrite lookup_delete_ne by done. split_and!; [done|done|]. by destruct (Hother y u st t Hu Hst Hne Hs Ha).
  - split; [intros y [u [_ Hu]%lookup_delete_Some]; apply Hfc; eauto|]. intros st Hst. apply Hfs. rewrite Hss in Hst.
    destruct (hdlr_extra v); [|done]. destruct Hst as [u [_ Hu]%lookup_delete_Some]. eauto.
Qed.

Lemma close_run w c v :
  sse_ok w -> conns w !! c = Some v ->
  exists w', close c w = Done (tt, w') /\ sse_ok w' /\ (forall t, timer_armed (timers w') !! t <> Some c) /\
    conns w' = delete c (conns w) /\
    out w' = out w ++ if subscribed w c then (fun x => (x, leaving)) <$> recipients w c else [].
Proof.
  intros Hok Hc. unfold close. run (sse_get_conn_run _ _ _ Hc). rewrite (ok_disconnect w Hok c v Hc).
  unfold subscribed. rewrite Hc. destruct (hdlr_extra v) as [st|] eqn:He.
  - destruct (ok_timer w Hok c v st Hc He) as (t & Hs & Ha). rewrite bool_decide_true by done. cbn [whenM].
    run (sse_disconnect_run w c v st t Hc He Hs (sse_ok_all w Hok)). run eq_refl. eexists. split; [done|].
    set (o := out w ++ _). unfold set_conns, set_connections. cbn. rewrite delete_insert_eq.
    destruct (sse_ok_drop w c v (timer_remove t (timers w)) (delete st (states w)) Hok Hc) with (o := o) as [Hw Ht];
      [by rewrite He, Hs, timer_remove_law|by rewrite He|]. by split_and!.
  - rewrite bool_decide_false by (by intros []). cbn [whenM]. run eq_refl. run eq_refl. eexists. split; [done|].
    destruct (sse_ok_drop w c v (timers w) (states w) Hok Hc) with (o := out w) as [Hw Ht]; [by rewrite He|by rewrite He|].
    cbn. rewrite app_nil_r. by split_and!.
Qed.

Lemma sse_fire_run w t : sse_ok w -> exists w', fire t w = Done (tt, w') /\ sse_ok w'.
Proof.
  intros Hok. unfold fire. run eq_refl. destruct (timer_armed (timers w) !! t) as [c|] eqn:Ht; [|by eexists].
  destruct (ok_armed w Hok t c Ht) as (v & st & Hc & _). unfold sse_ping. rewrite (sse_send_run w c v ping Hc).
  eexists. split; [done|]. by apply (sse_ok_same w).
Qed.

(** *** Every run of the server *)

(** A connection subscribes at most once: [subscribe] is called for a connection that has no
    state yet. *)
Inductive sse_step : sse_world T H -> sse_world T H -> Prop :=
| StepAccept w c w' : accept w = Done (c, w') -> sse_step w w'
| StepRequest w r q : is_Some (conns w !! owner q) -> sse_step w (set_requests <[r := q]> w)
| StepSubscribe w r q v x w' : requests w !! r = Some q -> conns w !! owner q = Some v -> hdlr_extra v = None ->
    subscribe r w = Done (x, w') -> sse_step w w'
| StepRanger w r x w' : ranger r w = Done (x, w') -> sse_step w w'
| StepPage w r x w' : page r w = Done (x, w') -> sse_step w w'
| StepFire w t w' : fire t w = Done (tt, w') -> sse_step w w'
| StepClose w c v w' : conns w !! c = Some v -> close c w = Done (tt, w') -> sse_step w w'.

Lemma sse_ok_ranger w r x w' : sse_ok w -> ranger r w = Done (x, w') -> sse_ok w'.
Proof.
  intros Hok Hr. unfold ranger in Hr. inv_bind Hr. unfold get_req in Hrun. run eq_refl in Hrun.
  destruct (requests w !! r); [|done]. injection Hrun as <- <-.
  run (sse_broadcast_run w _ hello (sse_ok_all w Hok)) in Hr. run eq_refl in Hr. run eq_refl in Hr. run eq_refl in Hr.
  injection Hr as _ <-. by apply (sse_ok_same w).
Qed.

Lemma sse_ok_page w r x w' : sse_ok w -> page r w = Done (x, w') -> sse_ok w'.
Proof.
  intros Hok Hr. unfold page, only_get in Hr. inv_bind Hr. unfold get_req in Hrun. run eq_refl in Hrun.
  destruct (requests w !! r); [|done]. injection Hrun as <- <-.
  case_decide; run eq_refl in Hr; run eq_refl in Hr; injection Hr as _ <-; by apply (sse_ok_same w).
Qed.

Lemma sse_ok_subscribe w r q v x w' :
  sse_ok w -> requests w !! r = Some q -> conns w !! owner q = Some v -> hdlr_extra v = None ->
  subscribe r w = Done (x, w') -> sse_ok w'.
Proof.
  intros Hok Hr Hc He Hrun. destruct (timer_add (owner q) (timers w)) as [t ts] eqn:Ht.
  destruct (subscribe_run w r q v t ts Hr Hc (sse_ok_all w Hok) Ht) as [Hyes Hno].
  destruct (decide (req_extra q = None)) as [?|Hn1]; [|rewrite Hno in Hrun by (by intros []); injection Hrun as _ <-; by apply (sse_ok_same w)].
  destruct (decide (method q = HTTP_METHOD_GET)) as [?|Hn2];
    [|rewrite Hno in Hrun by (by intros (_ & ? & _)); injection Hrun as _ <-; by apply (sse_ok_same w)].
  destruct (decide (http_request_header r "accept" (http w) = Some "text/event-stream")) as [?|Hn3];
    [|rewrite Hno in Hrun by (by intros (_ & _ & ?)); injection Hrun as _ <-; by apply (sse_ok_same w)].
  rewrite Hyes in Hrun by done. by eapply sse_ok_open.
Qed.

Lemma sse_ok_step w w' : sse_ok w -> sse_step w w' -> sse_ok w'.
Proof.
  intros Hok Hs. destruct Hs as [w c w' Hr|w r q _|w r q v x w' Hq Hc He Hr|w r x w' Hr|w r x w' Hr|w t w' Hr|w c v w' Hc Hr].
  - by eapply sse_ok_accept.
  - by apply (sse_ok_same w).
  - by eapply sse_ok_subscribe.
  - by eapply sse_ok_ranger.
  - by eapply sse_ok_page.
  - destruct (sse_fire_run w t Hok) as (w1 & Hr1 & Hok1). rewrite Hr in Hr1. by injection Hr1 as <-.
  - destruct (close_run w c v Hok Hc) as (w1 & Hr1 & Hok1 & _). rewrite Hr in Hr1. by injection Hr1 as <-.
Qed.

(** Before the first connection: no timers either. *)
Definition sse_start w : Prop :=
  conns w = ∅ /\ connections w = [] /\ states w = ∅ /\ timer_armed (timers w) = ∅.

Lemma sse_ok_start w : sse_start w -> sse_ok w.
Proof.
  intros (E1 & E2 & E3 & E4). split; rewrite ?E1, ?E2, ?E3, ?E4.
  - constructor.
  - intros c. rewrite lookup_empty. split; [by intros ?%elem_of_nil|by intros []].
  - done.
  - done.
  - done.
  - split; intros ? []; done.
Qed.

(** C24: in every run in which a connection subscribes at most once, a timer that fires pings a live,
    subscribed connection; and closing a connection always ends normally, sends the leave
    event to every other subscriber if it was one itself, and leaves no timer for it. *)
Theorem sse_never_pings_closed w w' :
  sse_start w -> rtc sse_step w w' ->
  (forall t c, timer_armed (timers w') !! t = Some c ->
     subscribed w' c = true /\ fire t w' = Done (tt, set_out (fun o => o ++ [(c, ping)]) w')) /\
  (forall c, is_Some (conns w' !! c) ->
     exists w'', close c w' = Done (tt, w'') /\ conns w'' !! c = None /\
       (forall t, timer_armed (timers w'') !! t <> Some c) /\
       out w'' = out w' ++ if subscribed w' c then (fun x => (x, leaving)) <$> recipients w' c else []).
Proof.
  intros Hst Hrun. assert (Hok : sse_ok w').
  { apply sse_ok_start in Hst. induction Hrun as [w|w w1 w' Hs _ IH]; [done|]. by apply IH, (sse_ok_step w). }
  split.
  - intros t c Ht. destruct (ok_armed w' Hok t c Ht) as (v & st & Hc & Hst' & _).
    assert (Hsub : subscribed w' c = true) by (unfold subscribed; by rewrite Hc, Hst', bool_decide_true).
    split; [done|]. unfold fire. run eq_refl. rewrite Ht. unfold sse_ping. by rewrite (sse_send_run w' c v ping Hc), Hsub.
  - intros c [v Hc]. destruct (close_run w' c v Hok Hc) as (w'' & Hr & _ & Ht & Hcs & Ho).
    exists w''. split_and!; [done|by rewrite Hcs, lookup_delete_eq|done|done].
Qed.

(** the guard "already subscribed" does not hold a second subscription back: it looks at the
    request, and the state hangs on the connection.  A second subscription of one
    connection is accepted, its state replaces the first one, and when the connection is
    closed the first timer stays armed: its next ping uses a freed connection. *)
Theorem second_subscribe_dangles w r q v st t :
  sse_ok w -> requests w !! r = Some q -> accepts_events w r q -> conns w !! owner q = Some v ->
  hdlr_extra v = Some st -> states w !! st = Some t ->
  exists w1 w2, subscribe r w = Done (KORE_RESULT_OK, w1) /\ close (owner q) w1 = Done (tt, w2) /\
    fire t w2 = Crash UseAfterFree.
Proof.
  intros Hok Hr Ha Hc He Hs. remember (owner q) as c eqn:Hcq. pose proof (sse_ok_all w Hok) as Hall.
  destruct (timer_add c (timers w)) as [t' ts] eqn:Ht.
  destruct (subscribe_run w r q v t' ts Hr ltac:(by subst c) Hall ltac:(by subst c)) as [Hyes _].
  rewrite (Hyes Ha), <- Hcq, (open_channel_run w r q c v t' ts Hr Hc Hall Ht). apply timer_add_law in Ht as [Hfree Hts].
  destruct (ok_timer w Hok c v st Hc He) as (t0 & Hs0 & Harm). assert (t0 = t) as -> by congruence.
  eexists _. set (w1 := SseWorld _ _ _ _ _ _ _ _ _). unfold close.
  set (v1 := Connection (Some (fresh_addr w)) true true).
  assert (Hc1 : conns w1 !! c = Some v1) by apply lookup_insert_eq.
  rewrite (bind_step _ _ _ _ _ (sse_get_conn_run w1 c v1 Hc1)). cbn [disconnect v1 whenM].
  assert (Hall1 : Forall (fun y => is_Some (conns w1 !! y)) (connections w1)).
  { eapply Forall_impl; [exact Hall|]. intros y Hy. cbn. rewrite lookup_insert. by case_decide. }
  rewrite (bind_step _ _ _ _ _ (sse_disconnect_run w1 c v1 (fresh_addr w) t' Hc1 eq_refl (lookup_insert_eq _ _ _) Hall1)).
  eexists. split; [done|]. split; [done|]. unfold fire. run eq_refl. cbn. rewrite timer_remove_law, Hts.
  rewrite lookup_delete_ne, lookup_insert_ne, Harm by congruence. unfold sse_ping, sse_send, get_conn.
  cbn. unfold mbind, M_bind, gets. cbn. by rewrite lookup_delete_eq.
Qed.
End Sound.

(** ** The theorems at a concrete state: subscribed connection 5, new connection 6, request 1 *)

Definition ex_http : http_store :=
  HttpStore (fun _ => []) (fun _ => []) (fun _ => [("accept", "text/event-stream")]) ∅.
Definition ex_req (c : loc) : request := Request HTTP_METHOD_GET c None false.
Definition ex_world (r : request) : sse_world (gmap nat loc) http_store :=
  SseWorld {[5 := Connection (Some 7) true true; 6 := Connection None false false]} [5; 6] {[1 := r]} {[7 := 3]}
    {[3 := 5]} ex_http [] [] 10.

Lemma ex_all r : Forall (fun c => is_Some (conns (ex_world r) !! c)) (connections (ex_world r)).
Proof. repeat constructor; by eexists. Qed.

Lemma subscribe_joins_witness :
  exists w', subscribe 1 (ex_world (ex_req 6)) = Done (KORE_RESULT_OK, w') /\ out w' = [(5, hello)].
Proof.
  destruct (subscribe_joins (ex_world (ex_req 6)) 1 (ex_req 6) (Connection None false false) eq_refl eq_refl (ex_all _))
    as (w' & Hr & Hyes & _).
  exists w'. split; [exact Hr|]. destruct Hyes as (_ & Ho & _); [done|]. rewrite Ho. by vm_compute.
Defined.

Definition ex_empty : sse_world (gmap nat loc) http_store := SseWorld ∅ [] ∅ ∅ ∅ ex_http [] [] 10.

Lemma sse_never_pings_closed_witness :
  exists w', rtc sse_step ex_empty w' /\ fire 0 w' = Done (tt, set_out (fun o => o ++ [(10, ping)]) w').
Proof.
  destruct (accept ex_empty) as [[c w1]|f] eqn:Hacc; [|by vm_compute in Hacc].
  assert (Hc : c = 10 /\ conns w1 !! 10 = Some (Connection None false false))
    by (vm_compute in Hacc; injection Hacc as <- <-; by vm_compute).
  destruct Hc as [-> Hc]. pose (w2 := set_requests <[1 := ex_req 10]> w1).
  destruct (subscribe 1 w2) as [[x w3]|f] eqn:Hsub.
  2: { subst w2. vm_compute in Hacc. injection Hacc as <-. by vm_compute in Hsub. }
  assert (Hrun : rtc sse_step ex_empty w3).
  { eapply rtc_l; [by eapply StepAccept|]. eapply rtc_l; [apply (StepRequest w1 1 (ex_req 10)); by eexists|].
    apply rtc_once. apply (StepSubscribe w2 1 (ex_req 10) (Connection None false false) x w3);
      [apply lookup_insert_eq|done|done|done]. }
  exists w3. split; [exact Hrun|].
  destruct (sse_never_pings_closed ex_empty w3 ltac:(done) Hrun) as [Hfire _]. apply (Hfire 0 10).
  subst w2. vm_compute in Hacc. injection Hacc as <-. vm_compute in Hsub. injection Hsub as _ <-. by vm_compute.
Defined.

Lemma ex_ok : sse_ok (ex_world (ex_req 5)).
Proof.
  split; cbn.
  - by apply (bool_decide_unpack _).
  - intros c. rewrite !list_elem_of_In. cbn. destruct (decide (c = 5)) as [->|H5]; [split; [by eexists|by left]|].
    destruct (decide (c = 6)) as [->|H6]; [split; [by eexists|by right; left]|].
    rewrite lookup_insert_ne, lookup_singleton_ne by done. split; [lia|by intros []].
  - intros c v [[<- <-]|[_ [<- <-]%lookup_singleton_Some]]%lookup_insert_Some; done.
  - intros c v st [[<- <-]|[_ [<- <-]%lookup_singleton_Some]]%lookup_insert_Some; [|done].
    intros [= <-]. by exists 3.
  - intros t c [<- <-]%lookup_singleton_Some. by eexists _, 7.
  - split.
    + intros c [v [[<- _]|[_ [<- _]%lookup_singleton_Some]]%lookup_insert_Some]; lia.
    + intros st [t [<- _]%lookup_singleton_Some]; lia.
Qed.

Lemma second_subscribe_dangles_witness :
  exists w1 w2, subscribe 1 (ex_world (ex_req 5)) = Done (KORE_RESULT_OK, w1) /\ close 5 w1 = Done (tt, w2) /\
    fire 3 w2 = Crash UseAfterFree.
Proof.
  apply (second_subscribe_dangles (ex_world (ex_req 5)) 1 (ex_req 5) (Connection (Some 7) true true) 7 3 ex_ok);
    [done|by split_and!|done|done|done].
Defined.
End Sse.
