(* ===== verification/Boss.v ===== *)
(** * A job queue in the database: websocket_13/src/websocket_13.c

    A timer asks the database for a job every five seconds; a job that is returned is marked
    completed with a second query.  Every websocket connection has a query of its own, told
    through the same callback [db_state_change].  The application's state is kept beside the
    PostgreSQL layer's; a null argument of a query is the address 0, at which nothing lives.
    Logging is not modelled. *)

From Stdlib Require Import Ascii.
From S2P Require Import Prelude KoreNet LibPq Pgsql KoreHttp.
Import Pg.

Local Open Scope c_scope.

Module Boss.

(** ** Data *)

Record boss_fail : Type := BossFail {
  jobid : option string;
  name : option string;
  data : option string
}.

Definition bf_jobid (f : option string -> option string) (w : boss_fail) : boss_fail :=
  BossFail (f (jobid w)) (name w) (data w).
Definition bf_name (f : option string -> option string) (w : boss_fail) : boss_fail :=
  BossFail (jobid w) (f (name w)) (data w).
Definition bf_data (f : option string -> option string) (w : boss_fail) : boss_fail :=
  BossFail (jobid w) (name w) (f (data w)).

Record ws_conn : Type := WsConn {
  hdlr_extra : option loc;  (* the connection's [kore_pgsql] *)
  del_on_disconnect : bool  (* [c->disconnect] is [connection_del] *)
}.

Definition ws_hdlr_extra (f : option loc -> option loc) (w : ws_conn) : ws_conn :=
  WsConn (f (hdlr_extra w)) (del_on_disconnect w).
Definition ws_del_on_disconnect (f : bool -> bool) (w : ws_conn) : ws_conn :=
  WsConn (hdlr_extra w) (f (del_on_disconnect w)).

Record boss_app (T : Type) : Type := BossApp {
  boss : option loc;
  bosses : gmap loc boss_fail;
  for_fucker : option loc;
  pgsql1 : option loc;
  tim : option nat;
  timers : T;
  ws_conns : gmap loc ws_conn;
  ws_out : list (loc * string);  (* [kore_websocket_send], newest first *)
  broadcasts : list string;  (* [kore_websocket_broadcast], newest first *)
  methods : gmap loc http_method;  (* of the live requests *)
  sent : list (loc * http_call)  (* newest first *)
}.
Arguments BossApp {T}.
Arguments boss {T}.
Arguments bosses {T}.
Arguments for_fucker {T}.
Arguments pgsql1 {T}.
Arguments tim {T}.
Arguments timers {T}.
Arguments ws_conns {T}.
Arguments ws_out {T}.
Arguments broadcasts {T}.
Arguments methods {T}.
Arguments sent {T}.

Definition ba_boss {T : Type} (f : option loc -> option loc) (w : boss_app T) : boss_app T :=
  BossApp (f (boss w)) (bosses w) (for_fucker w) (pgsql1 w) (tim w) (timers w) (ws_conns w) (ws_out w) (broadcasts w) (methods w) (sent w).
Definition ba_bosses {T : Type} (f : gmap loc boss_fail -> gmap loc boss_fail) (w : boss_app T) : boss_app T :=
  BossApp (boss w) (f (bosses w)) (for_fucker w) (pgsql1 w) (tim w) (timers w) (ws_conns w) (ws_out w) (broadcasts w) (methods w) (sent w).
Definition ba_for_fucker {T : Type} (f : option loc -> option loc) (w : boss_app T) : boss_app T :=
  BossApp (boss w) (bosses w) (f (for_fucker w)) (pgsql1 w) (tim w) (timers w) (ws_conns w) (ws_out w) (broadcasts w) (methods w) (sent w).
Definition ba_pgsql1 {T : Type} (f : option loc -> option loc) (w : boss_app T) : boss_app T :=
  BossApp (boss w) (bosses w) (for_fucker w) (f (pgsql1 w)) (tim w) (timers w) (ws_conns w) (ws_out w) (broadcasts w) (methods w) (sent w).
Definition ba_tim {T : Type} (f : option nat -> option nat) (w : boss_app T) : boss_app T :=
  BossApp (boss w) (bosses w) (for_fucker w) (pgsql1 w) (f (tim w)) (timers w) (ws_conns w) (ws_out w) (broadcasts w) (methods w) (sent w).
Definition ba_timers {T : Type} (f : T -> T) (w : boss_app T) : boss_app T :=
  BossApp (boss w) (bosses w) (for_fucker w) (pgsql1 w) (tim w) (f (timers w)) (ws_conns w) (ws_out w) (broadcasts w) (methods w) (sent w).
Definition ba_ws_conns {T : Type} (f : gmap loc ws_conn -> gmap loc ws_conn) (w : boss_app T) : boss_app T :=
  BossApp (boss w) (bosses w) (for_fucker w) (pgsql1 w) (tim w) (timers w) (f (ws_conns w)) (ws_out w) (broadcasts w) (methods w) (sent w).
Definition ba_ws_out {T : Type} (f : list (loc * string) -> list (loc * string)) (w : boss_app T) : boss_app T :=
  BossApp (boss w) (bosses w) (for_fucker w) (pgsql1 w) (tim w) (timers w) (ws_conns w) (f (ws_out w)) (broadcasts w) (methods w) (sent w).
Definition ba_broadcasts {T : Type} (f : list string -> list string) (w : boss_app T) : boss_app T :=
  BossApp (boss w) (bosses w) (for_fucker w) (pgsql1 w) (tim w) (timers w) (ws_conns w) (ws_out w) (f (broadcasts w)) (methods w) (sent w).
Definition ba_methods {T : Type} (f : gmap loc http_method -> gmap loc http_method) (w : boss_app T) : boss_app T :=
  BossApp (boss w) (bosses w) (for_fucker w) (pgsql1 w) (tim w) (timers w) (ws_conns w) (ws_out w) (broadcasts w) (f (methods w)) (sent w).
Definition ba_sent {T : Type} (f : list (loc * http_call) -> list (loc * http_call)) (w : boss_app T) : boss_app T :=
  BossApp (boss w) (bosses w) (for_fucker w) (pgsql1 w) (tim w) (timers w) (ws_conns w) (ws_out w) (broadcasts w) (methods w) (f (sent w)).

Section Strings.
Local Open Scope string_scope.

Definition q_name : string := "db".
Definition q_fucker : string := "fucker".
Definition q_subscribe : string := "subscribe".
Definition q_on_boss_job_fail : string := "job_fails".
Definition q_event1 : string := "q_event1".
Definition q_event2 : string := "q_event2".
Definition q_event3 : string := "q_event3".
Definition q_event4 : string := "q_event4".
Definition db_url : string := "dbname=postgres".

Definition das_nextJob_query : string :=
  "WITH nextJob as (SELECT id FROM pgboss.job WHERE state < 'active' AND name = ANY($1) AND" ++
  " startAfter < now() ORDER BY priority desc,createdOn,id LIMIT $2 FOR UPDATE SKIP LOCKED)" ++
  " UPDATE pgboss.job j SET state='active', startedOn=now(),retryCount=CASE WHEN state='ret" ++
  "ry' THEN retryCount + 1 ELSE retryCount END FROM nextJob WHERE j.id=nextJob.id RETURNING" ++
  " j.id, name, to_json(data::text)".

Definition completion_format : string :=
  "jsonb_build_object( 'request', jsonb_build_object('id', id, 'name', name, 'data', data)," ++
  " 'response', %s,'state', state, 'retryCount', retryCount, 'createdOn', createdOn,'starte" ++
  "dOn', startedOn,'completedOn', completedOn, 'failed',CASE WHEN state='completed' THEN fa" ++
  "lse ELSE true END)".

Definition retryCompletedOnCase : string :=
  "CASE WHEN retryCount < retryLimit THEN NULL ELSE now() END".

Definition retryStartAfterCase : string :=
  "CASE WHEN retryCount = retryLimit THEN startAfter WHEN NOT retryBackoff THEN now() + ret" ++
  "ryDelay * interval '1' ELSE now() + (retryDelay * 2 ^ LEAST(16, retryCount + 1) / 2 + re" ++
  "tryDelay * 2 ^ LEAST(16, retryCount + 1) / 2 * random() ) * interval '1' END".

Definition fail_format : string :=
  "WITH results AS (UPDATE pgboss.job SET state = CASE WHEN retryCount < retryLimit THEN 'r" ++
  "etry'::pgboss.job_state ELSE 'failed'::pgboss.job_state END,completedOn = %s ,startAfter" ++
  " = %s WHERE id = ANY($1) AND state < 'completed' RETURNING *) INSERT INTO pgboss.job (na" ++
  "me, data) SELECT name || '__state__completed', %s FROM results WHERE state = 'failed' AN" ++
  "D NOT name LIKE '%__state__completed' RETURNING 1".

Definition complete_format : string :=
  "WITH results AS (UPDATE pgboss.job SET completedOn = now(), state = 'completed' WHERE id" ++
  " = ANY($1) AND state = 'active'       RETURNING *) INSERT INTO pgboss.job (name, data)  " ++
  "   SELECT name || '__state__completed',%s FROM results WHERE name NOT LIKE '%__state__co" ++
  "mpleted' RETURNING 1".

(** [kore_buf_appendf(buf, fmt, ...)] with string arguments: each [%s] takes the next one.  A
    [%] before anything else has no meaning in C; like glibc, the model copies it. *)
Fixpoint appendf (fmt : string) (args : list string) : string :=
  match fmt with
  | EmptyString => EmptyString
  | String "%"%char (String "s"%char rest) =>
      match args with
      | a :: args => a ++ appendf rest args
      | [] => appendf rest []
      end
  | String c rest => String c (appendf rest args)
  end.

(** The conversions of a format are all defined. *)
Fixpoint defined_format (fmt : string) : bool :=
  match fmt with
  | EmptyString => true
  | String "%"%char (String "s"%char rest) => defined_format rest
  | String "%"%char _ => false
  | String _ rest => defined_format rest
  end.

Definition buildJsonCompletionObject (g : bool) : string :=
  appendf completion_format [if g then "$2::jsonb" else "null"].

Definition das_boss_fail_query : string :=
  appendf fail_format [retryCompletedOnCase; retryStartAfterCase; buildJsonCompletionObject true].

Definition completeJobsCommand : string := appendf complete_format [buildJsonCompletionObject true].

(** The text of a one-element array, and of the JSON object with one member. *)
Definition dq : string := String (Ascii.ascii_of_nat 34) EmptyString.
Definition array_of (s : string) : string := appendf ("{" ++ dq ++ "%s" ++ dq ++ "}") [s].
Definition value_of (s : string) : string := appendf ("{" ++ dq ++ "value" ++ dq ++ ": " ++ dq ++ "%s" ++ dq ++ "}") [s].
End Strings.

Section Code.
Context {P R T : Type} `{LibPq P R} `{KoreTimers T} `{PgVersion}.
Abbreviation m := (M (pg_world P R (boss_app T))).
Context (run_cb : nat -> loc -> loc -> m unit).
Context (count_bits : Z) (fuel : nat).
(** The bytes at an address, read as a C string. *)
Context (bytes_at : loc -> string).

(** *** Access *)

Definition app_get {A : Type} (f : boss_app T -> A) : m A := gets (fun w => f (app w)).
Definition app_mod (f : boss_app T -> boss_app T) : m unit := modify (set_app f).
Definition get_boss (d : loc) : m boss_fail := b ← app_get bosses; deref (b !! d).
Definition get_ws (c : loc) : m ws_conn := h ← app_get ws_conns; deref (h !! c).
Definition update_ws (c : loc) (f : ws_conn -> ws_conn) : m unit :=
  v ← get_ws c; app_mod (ba_ws_conns <[c := f v]>).
Definition kore_websocket_send (c : loc) (msg : string) : m unit := app_mod (ba_ws_out (cons (c, msg))).
Definition kore_timer_add (arg : loc) : m nat := fun w =>
  let '(t, ts) := timer_add arg (timers (app w)) in Done (t, set_app (ba_timers (fun _ => ts)) w).
Definition conn_name (l : loc) : m string :=
  v ← get_pgsql l; c ← deref (conn v); cv ← get_conn c; mret (c_name cv).

(** [kore_calloc], [kore_pgsql_init], [kore_pgsql_bind_callback(..., db_state_change, arg)] *)
Definition new_pgsql (a : loc) : m loc :=
  l ← new_addr; kore_pgsql_init l;; kore_pgsql_bind_callback l 0 a;; mret l.

(** *** Queries *)

Definition db_query (l : loc) (qname str_query : string) : m unit :=
  ok ← kore_pgsql_setup run_cb count_bits fuel l qname KORE_PGSQL_ASYNC;
  if (ok =? 0)%Z then
    v ← get_pgsql l;
    if bool_decide (state v = KORE_PGSQL_STATE_INIT) then mret tt
    else kore_pgsql_logerror l;; mret tt
  else
    ok ← kore_pgsql_query run_cb l str_query;
    if (ok =? 0)%Z then kore_pgsql_logerror l;; mret tt else mret tt.

Definition db_query_params (l : loc) (qname str_query : string) (result counts : Z) (args : list (string * Z * Z)) : m unit :=
  ok ← kore_pgsql_setup run_cb count_bits fuel l qname KORE_PGSQL_ASYNC;
  if (ok =? 0)%Z then
    v ← get_pgsql l;
    if bool_decide (state v = KORE_PGSQL_STATE_INIT) then mret tt
    else kore_pgsql_logerror l;; mret tt
  else
    ret ← kore_pgsql_v_query_params run_cb fuel l str_query result counts args;
    if negb (ret =? 1)%Z then kore_pgsql_logerror l;; mret tt else mret tt.

(** A text parameter: the value, its length, its format. *)
Definition text (s : string) : string * Z * Z := (s, Z.of_nat (String.length s), 0%Z).

(** *** Jobs *)

Definition boss_job_fails (jobid fail : string) : m unit :=
  l ← new_pgsql 0;
  db_query_params l q_on_boss_job_fail das_boss_fail_query 0 2 [text (array_of jobid); text (value_of fail)].

Definition boss_job_complete (jobid success : string) : m unit :=
  l ← new_pgsql 0;
  db_query_params l q_on_boss_job_fail completeJobsCommand 0 2 [text (array_of jobid); text (value_of success)].

Definition boss_done (jobid name data : option string) : m unit :=
  match jobid with
  | None => mret tt
  | Some jobid => boss_job_complete jobid "some success info"
  end.

(** *** Results *)

Fixpoint last_name (l : loc) (i : Z) (rows : nat) (nm : option string) : m (option string) :=
  match rows with
  | O => mret nm
  | S rows => v ← kore_pgsql_getvalue l i 0; last_name l (i + 1) rows (Some v)
  end.

(** A job was returned: it is marked completed, and noted; [bos->data] is copied from the
    callback's argument, not from the row. *)
Definition subscribe_results (l d : loc) : m unit :=
  rows ← kore_pgsql_ntuples l;
  if (rows =? 1)%Z then
    name2 ← kore_pgsql_getvalue l 0 1;
    jobid2 ← kore_pgsql_getvalue l 0 0;
    jdata ← kore_pgsql_getvalue l 0 2;
    boss_done (Some jobid2) (Some name2) (Some jdata);;
    get_boss d;;
    app_mod (ba_bosses <[d := BossFail (Some jobid2) (Some name2) (Some (bytes_at d))]>)
  else mret tt.

(** The rows of a websocket's query: the last one's first column is sent.  With no row the
    variable it is read from was never set. *)
Definition ws_results (l c : loc) : m unit :=
  get_ws c;;
  rows ← kore_pgsql_ntuples l;
  nm ← last_name l 0 (Z.to_nat rows) None;
  nm ← deref nm;
  kore_websocket_send c nm.

Definition db_results (l d : loc) : m unit :=
  nm ← conn_name l;
  if bool_decide (nm = q_subscribe) then subscribe_results l d
  else if bool_decide (nm = q_on_boss_job_fail) then kore_pgsql_ntuples l;; mret tt
  else if bool_decide (nm ∈ [q_event1; q_event2; q_event3; q_event4]) then mret tt
  else ws_results l d.

Definition on_db_cb_done (l d : loc) : m unit :=
  nm ← conn_name l;
  if bool_decide (nm = "subscribe") then
    get_boss d;; app_mod (ba_bosses <[d := BossFail None None None]>)
  else mret tt.

Definition on_notify (l : loc) : m unit :=
  v ← get_pgsql l;
  nt ← deref (notify v);
  app_mod (ba_broadcasts (cons nt.1)).

Definition db_state_change (l d : loc) : m unit :=
  v ← get_pgsql l;
  match state v with
  | KORE_PGSQL_STATE_INIT | KORE_PGSQL_STATE_WAIT => mret tt
  | KORE_PGSQL_STATE_DONE =>
      nm ← conn_name l;
      if bool_decide (nm = q_fucker) then mret tt
      else on_db_cb_done l d;; kore_pgsql_continue run_cb count_bits fuel l
  | KORE_PGSQL_STATE_COMMANDOK => conn_name l;; mret tt
  | KORE_PGSQL_STATE_NOTIFY => conn_name l;; on_notify l
  | KORE_PGSQL_STATE_COMPLETE => kore_pgsql_cleanup run_cb fuel l
  | KORE_PGSQL_STATE_ERROR => conn_name l;; kore_pgsql_logerror l;; mret tt
  | KORE_PGSQL_STATE_RESULT => conn_name l;; db_results l d
  | _ => conn_name l;; kore_pgsql_continue run_cb count_bits fuel l
  end.

(** *** Timers *)

Definition tick (p : option loc) : m unit :=
  match p with
  | None => mret tt
  | Some l => db_query_params l q_subscribe das_nextJob_query 0 2 [text (array_of "jobbi"); text "1"]
  end.

Definition tick_event (q_event : string) (p : option loc) : m unit :=
  match p with
  | None => mret tt
  | Some l => db_query l q_event "select*from coders"
  end.
Definition tick1 : option loc -> m unit := tick_event q_event1.
Definition tick2 : option loc -> m unit := tick_event q_event2.
Definition tick3 : option loc -> m unit := tick_event q_event3.
Definition tick4 : option loc -> m unit := tick_event q_event4.

(** *** Start and end of a worker *)

Definition kore_worker_configure : m unit :=
  kore_pgsql_register q_name db_url;;
  kore_pgsql_register q_fucker db_url;;
  kore_pgsql_register q_subscribe db_url;;
  kore_pgsql_register q_on_boss_job_fail db_url;;
  l ← new_pgsql 0;
  db_query l q_fucker "LISTEN revents;LISTEN on_coders";;
  app_mod (ba_for_fucker (fun _ => Some l));;
  b ← new_addr;
  app_mod (ba_boss (fun _ => Some b));;
  app_mod (ba_bosses <[b := BossFail None None None]>);;
  p ← new_pgsql b;
  app_mod (ba_pgsql1 (fun _ => Some p));;
  t ← kore_timer_add p;
  app_mod (ba_tim (fun _ => Some t)).

Definition han : m unit :=
  b ← app_get boss;
  app_mod (ba_bosses (fun h => match b with Some b => delete b h | None => h end));;
  t ← app_get tim;
  (match t with
   | Some t => app_mod (ba_timers (timer_remove t));; app_mod (ba_tim (fun _ => None))
   | None => mret tt
   end);;
  f ← app_get for_fucker;
  (match f with
   | Some f => kore_pgsql_continue run_cb count_bits fuel f;; app_mod (ba_for_fucker (fun _ => None))
   | None => mret tt
   end);;
  p ← app_get pgsql1;
  match p with
  | Some p => kore_pgsql_cleanup run_cb fuel p;; app_mod (ba_pgsql1 (fun _ => None))
  | None => mret tt
  end.

(** *** Connections and pages *)

Definition connection_new (c : loc) : m unit :=
  update_ws c (ws_del_on_disconnect (fun _ => true));;
  l ← new_pgsql c;
  update_ws c (ws_hdlr_extra (fun _ => Some l)).

Definition connection_del (c : loc) : m unit :=
  v ← get_ws c;
  (match hdlr_extra v with
   | Some l => kore_pgsql_cleanup run_cb fuel l;; modify (set_pgsqls (delete l))
   | None => mret tt
   end);;
  update_ws c (ws_hdlr_extra (fun _ => None)).

Definition websocket_connect (c : loc) : m unit :=
  connection_new c;;
  v ← get_ws c;
  match hdlr_extra v with
  | Some l => db_query l q_name "update banners set alt='Chicago Bulls'"
  | None => mret tt
  end.

Definition websocket_disconnect (c : loc) : m unit := connection_del c.

Definition websocket_message (c : loc) (data : string) : m unit :=
  kore_websocket_send c data;;
  v ← get_ws c;
  match hdlr_extra v with
  | Some l => db_query l q_name "select*from coders;update banners set alt='fucky'"
  | None => mret tt
  end.

Definition respond (r : loc) (c : http_call) : m unit := app_mod (ba_sent (cons (r, c))).

Definition page (r : loc) : m Z :=
  mt ← app_get methods;
  mt ← live (mt !! r);
  if negb (bool_decide (mt = HTTP_METHOD_GET)) then
    respond r (ResponseHeader "allow" "get");; respond r (Response 405 NoBody);; mret KORE_RESULT_OK
  else
    l ← new_addr;
    kore_pgsql_init l;;
    ok ← kore_pgsql_setup run_cb count_bits fuel l q_name KORE_PGSQL_SYNC;
    (if (ok =? 0)%Z then kore_pgsql_logerror l;; mret tt else mret tt);;
    ok ← kore_pgsql_query run_cb l "update banners set alt='Amazons'";
    (if (ok =? 0)%Z then kore_pgsql_logerror l;; mret tt else mret tt);;
    respond r (ResponseHeader "content-type" "text/html");;
    respond r (Response 200 (Asset "index.html"));;
    kore_pgsql_cleanup run_cb fuel l;;
    modify (set_pgsqls (delete l));;
    mret KORE_RESULT_OK.
End Code.

(** ** The knot: callback 0 is [db_state_change] *)

Section Knot.
Context {P R T : Type} `{LibPq P R} `{KoreTimers T} `{PgVersion}.
Context (count_bits : Z) (fuel : nat) (bytes_at : loc -> string).

Fixpoint run_cb (depth : nat) (k : nat) (l d : loc) : M (pg_world P R (boss_app T)) unit :=
  match depth with
  | O => crash Fuel
  | S depth => db_state_change (run_cb depth) count_bits fuel bytes_at l d
  end.
End Knot.

(** ** Behaviour *)

Section Behaviour.
Context {P R T : Type} `{LibPq P R} `{KoreTimers T} `{PgVersion}.
Implicit Types w : pg_world P R (boss_app T).
Context (count_bits : Z) (fuel : nat) (bytes_at : loc -> string).
Abbreviation cbs := (run_cb count_bits fuel bytes_at).

Lemma run_cb_waits d k w l a v :
  pgsqls w !! l = Some v -> state v = KORE_PGSQL_STATE_WAIT -> cbs (S d) k l a w = Done (tt, w).
Proof. intros Hl Hs. cbn [run_cb]. unfold db_state_change. run (get_pgsql_run _ _ _ Hl). by rewrite Hs. Qed.

Lemma boss_conn_name_run w l v c x :
  pgsqls w !! l = Some v -> conn v = Some c -> conns w !! c = Some x -> conn_name l w = Done (c_name x, w).
Proof.
  intros Hl Hc Hx. unfold conn_name. run (get_pgsql_run _ _ _ Hl). rewrite Hc. run eq_refl.
  by run (get_conn_run _ _ _ Hx).
Qed.

Lemma getvalue_run w l v res i j :
  pgsqls w !! l = Some v -> result v = Some res -> kore_pgsql_getvalue l i j w = Done (PQgetvalue res i j, w).
Proof. intros Hl Hr. unfold kore_pgsql_getvalue. run (get_pgsql_run _ _ _ Hl). by rewrite Hr. Qed.

Lemma ntuples_run w l v res :
  pgsqls w !! l = Some v -> result v = Some res -> kore_pgsql_ntuples l w = Done (PQntuples res, w).
Proof. intros Hl Hr. unfold kore_pgsql_ntuples. run (get_pgsql_run _ _ _ Hl). by rewrite Hr. Qed.

(** A free connection to a database, the first one in the list. *)
Definition pool_offers w (nm : string) (q1 : list loc) (c : loc) (q2 : list loc) (x : pgsql_conn) (h : nat) : Prop :=
  is_Some (find_db nm (pgsql_db_conn_strings w)) /\ pgsql_conn_free w = q1 ++ c :: q2 /\ NoDup (pgsql_conn_free w) /\
  Forall (fun d => exists u, free_conn w d u /\ c_name u <> nm) q1 /\
  free_conn w c x /\ c_name x = nm /\ c_db x = Some h /\ PQtransactionStatus h (pq w) <> PQTRANS_INERROR.

(** The record of a query sent on connection [c]. *)
Definition sent_on (c : loc) (v : kore_pgsql R) : kore_pgsql R :=
  pg_set_flags (Z.lor KORE_PGSQL_SCHEDULED) (pg_set_state (fun _ => KORE_PGSQL_STATE_WAIT)
    (pg_set_conn (fun _ => Some c) (pg_set_flags (fun f => Z.lor f KORE_PGSQL_ASYNC) v))).

Lemma has_async f : has (Z.lor f KORE_PGSQL_ASYNC) KORE_PGSQL_ASYNC = true.
Proof.
  unfold has. destruct (Z.eqb_spec (Z.land (Z.lor f KORE_PGSQL_ASYNC) KORE_PGSQL_ASYNC) 0) as [Hz|]; [|done].
  rewrite Z.land_lor_distr_l in Hz. apply Z.lor_eq_0_iff in Hz as [_ Hz]. by vm_compute in Hz.
Qed.

Lemma db_query_run d w l v nm q q1 c q2 x h p :
  pgsqls w !! l = Some v -> req v = None -> cb v = Some 0 -> has (Z.lor (flags v) KORE_PGSQL_ASYNC) KORE_PGSQL_SYNC = false ->
  pool_offers w nm q1 c q2 x h -> PQsendQuery h q (pq w) = (true, p) -> (0 <= PQsocket h p)%Z -> 1 <= fuel ->
  exists rs, db_query (cbs (S d)) count_bits fuel l nm q w =
    Done (tt, set_pgsqls <[l := sent_on c v]> (set_reads (fun _ => rs) (set_pq (fun _ => p)
      (set_conns <[c := conn_set_c_job (fun _ => Some l) (conn_set_c_flags (clear_flag PGSQL_CONN_FREE) x)]>
        (set_pgsql_conn_free (fun _ => q1 ++ q2) w))))).
Proof.
  intros Hl Hr Hcb Hfl ([db Hdb] & Hq & Hnd & Hq1 & Hfc & Hn & Hh & Ht) Hsend Hso Hf. unfold db_query.
  run (setup_reuses_run count_bits (cbs (S d)) fuel w l v nm db q1 c q2 x h Hl ltac:(right; by rewrite Hcb) Hdb Hq Hnd
    Hq1 Hfc Hn Hh Ht Hf (has_async _)).
  cbn [Z.eqb KORE_RESULT_OK]. cbv iota. set (v2 := pg_set_conn _ _). set (w2 := set_conns _ _).
  run (query_sent (cbs (S d)) w2 l v2 c _ h q p 0 (lookup_insert_eq _ _ _) eq_refl (lookup_insert_eq _ _ _) Hh Hfl
    Hsend Hso Hr Hcb ltac:(eapply run_cb_waits; [apply lookup_insert_eq|done])).
  cbn [Z.eqb KORE_RESULT_OK]. cbv iota. eexists. unfold mret, M_ret. do 2 f_equal.
  unfold set_pgsqls, set_reads, set_pq. cbn. rewrite insert_insert_eq. reflexivity.
Qed.

Lemma db_query_params_run d w l v nm q args q1 c q2 x h p :
  pgsqls w !! l = Some v -> req v = None -> cb v = Some 0 -> has (Z.lor (flags v) KORE_PGSQL_ASYNC) KORE_PGSQL_SYNC = false ->
  pool_offers w nm q1 c q2 x h -> PQsendQueryParams h q args 0 (pq w) = (true, p) -> (0 <= PQsocket h p)%Z ->
  length args < fuel -> (Z.of_nat (length args) <= 255)%Z ->
  exists rs, db_query_params (cbs (S d)) count_bits fuel l nm q 0 (Z.of_nat (length args)) args w =
    Done (tt, set_pgsqls <[l := sent_on c v]> (set_reads (fun _ => rs) (set_pq (fun _ => p)
      (set_conns <[c := conn_set_c_job (fun _ => Some l) (conn_set_c_flags (clear_flag PGSQL_CONN_FREE) x)]>
        (set_pgsql_conn_free (fun _ => q1 ++ q2) w))))).
Proof.
  intros Hl Hr Hcb Hfl ([db Hdb] & Hq & Hnd & Hq1 & Hfc & Hn & Hh & Ht) Hsend Hso Hf Hlen. unfold db_query_params.
  run (setup_reuses_run count_bits (cbs (S d)) fuel w l v nm db q1 c q2 x h Hl ltac:(right; by rewrite Hcb) Hdb Hq Hnd
    Hq1 Hfc Hn Hh Ht ltac:(lia) (has_async _)).
  cbn [Z.eqb KORE_RESULT_OK]. cbv iota. set (v2 := pg_set_conn _ _). set (w2 := set_conns _ _).
  run (query_params_sent (cbs (S d)) fuel w2 l v2 c _ h q 0 args p 0 (lookup_insert_eq _ _ _) eq_refl (lookup_insert_eq _ _ _) Hh
    Hfl Hsend Hso Hf Hlen Hr Hcb ltac:(eapply run_cb_waits; [apply lookup_insert_eq|done])).
  cbn [Z.eqb KORE_RESULT_OK negb]. cbv iota. eexists. unfold mret, M_ret. do 2 f_equal.
  unfold set_pgsqls, set_reads, set_pq. cbn. rewrite insert_insert_eq. reflexivity.
Qed.

(** *** A job comes in *)

Definition completion_params (res : R) : list (string * Z * Z) :=
  [text (array_of (PQgetvalue res 0 0)); text (value_of "some success info")].

Lemma new_pgsql_run w a :
  new_pgsql a w = Done (fresh_addr w, set_pgsqls <[fresh_addr w :=
    pg_set_arg (fun _ => a) (pg_set_cb (fun _ => Some 0) (pg_set_state (fun _ => KORE_PGSQL_STATE_INIT) zero_pgsql))]>
    (set_fresh_addr S w)).
Proof.
  unfold new_pgsql, new_addr. rewrite bind_assoc. run eq_refl. rewrite bind_assoc. run eq_refl. run eq_refl.
  run eq_refl. set (w1 := set_pgsqls _ _). unfold kore_pgsql_bind_callback. rewrite bind_assoc.
  run (get_pgsql_run w1 _ _ (lookup_insert_eq _ _ _)). rewrite !bool_decide_false by (cbn; by intros []).
  run (update_pgsql_run w1 _ _ _ (lookup_insert_eq _ _ _)). unfold mret, M_ret. do 2 f_equal.
  unfold w1, set_pgsqls. cbn. by rewrite insert_insert_eq.
Qed.

(** a job the database returns is marked completed: the completion query goes out on a free
    connection, with the job's identifier and the fixed success text as its two parameters,
    under a query record of its own.  The job is also noted in the worker's record, its
    identifier and name rightly; but the field [data] gets the bytes of the record itself,
    not the job's data. *)
Theorem job_completed d w l dd v c x res b q1 c2 q2 x2 h2 p :
  pgsqls w !! l = Some v -> state v = KORE_PGSQL_STATE_RESULT -> conn v = Some c -> conns w !! c = Some x ->
  c_name x = q_subscribe -> result v = Some res -> PQntuples res = 1%Z -> bosses (app w) !! dd = Some b ->
  l <> fresh_addr w -> pool_offers w q_on_boss_job_fail q1 c2 q2 x2 h2 ->
  PQsendQueryParams h2 completeJobsCommand (completion_params res) 0 (pq w) = (true, p) -> (0 <= PQsocket h2 p)%Z ->
  3 <= fuel ->
  exists w' v', db_state_change (cbs (S d)) count_bits fuel bytes_at l dd w = Done (tt, w') /\ pq w' = p /\
    pgsqls w' = <[fresh_addr w := v']> (pgsqls w) /\ conn v' = Some c2 /\ state v' = KORE_PGSQL_STATE_WAIT /\
    pgsql_conn_free w' = q1 ++ q2 /\
    bosses (app w') = <[dd := BossFail (Some (PQgetvalue res 0 0)) (Some (PQgetvalue res 0 1)) (Some (bytes_at dd))]>
      (bosses (app w)).
Proof.
  intros Hl Hs Hc Hx Hn Hres Hrows Hb Hne Hpool Hsend Hso Hf. unfold db_state_change. run (get_pgsql_run _ _ _ Hl).
  rewrite Hs. run (boss_conn_name_run _ _ _ _ _ Hl Hc Hx). unfold db_results. run (boss_conn_name_run _ _ _ _ _ Hl Hc Hx).
  rewrite Hn, bool_decide_true by done. unfold subscribe_results. run (ntuples_run _ _ _ _ Hl Hres). rewrite Hrows.
  cbn [Z.eqb Pos.eqb]. cbv iota.
  run (getvalue_run _ _ _ _ 0 1 Hl Hres). run (getvalue_run _ _ _ _ 0 0 Hl Hres). run (getvalue_run _ _ _ _ 0 2 Hl Hres).
  unfold boss_done, boss_job_complete. rewrite bind_assoc. run (new_pgsql_run w 0). set (v0 := pg_set_arg _ _).
  set (w1 := set_pgsqls _ _).
  destruct (db_query_params_run d w1 (fresh_addr w) v0 q_on_boss_job_fail completeJobsCommand (completion_params res)
    q1 c2 q2 x2 h2 p) as (rs & Hq); [apply lookup_insert_eq|done|done|done|exact Hpool|exact Hsend|done|cbn; lia|done|].
  change (Z.of_nat (length (completion_params res))) with 2%Z in Hq. unfold completion_params in Hq. run Hq.
  set (w2 := set_pgsqls _ _). unfold get_boss. rewrite bind_assoc. run eq_refl. cbn [app w2 w1 set_pgsqls set_reads set_pq set_conns
    set_pgsql_conn_free set_fresh_addr]. rewrite Hb. run eq_refl.
  eexists _, _. split; [reflexivity|]. cbn. rewrite insert_insert_eq. by split_and!.
Qed.

(** *** One query at a time *)

(** a client that sends a second message before the first one's query is done takes its
    connection out of the pool for good: the query record is given another free
    connection, and the one it held is open, not in the free list and known to no query. *)
Theorem second_message_orphans d w cl data u l v c1 q1 c q2 x h p :
  ws_conns (app w) !! cl = Some u -> hdlr_extra u = Some l -> pgsqls w !! l = Some v -> conn v = Some c1 ->
  (forall l' v', pgsqls w !! l' = Some v' -> conn v' = Some c1 -> l' = l) -> c1 ∉ pgsql_conn_free w ->
  req v = None -> cb v = Some 0 -> has (Z.lor (flags v) KORE_PGSQL_ASYNC) KORE_PGSQL_SYNC = false ->
  pool_offers w q_name q1 c q2 x h ->
  PQsendQuery h "select*from coders;update banners set alt='fucky'" (pq w) = (true, p) -> (0 <= PQsocket h p)%Z -> 1 <= fuel ->
  exists w', websocket_message (cbs (S d)) count_bits fuel cl data w = Done (tt, w') /\
    ws_out (app w') = (cl, data) :: ws_out (app w) /\
    conns w' !! c1 = conns w !! c1 /\ c1 ∉ pgsql_conn_free w' /\
    (forall l' v', pgsqls w' !! l' = Some v' -> conn v' <> Some c1).
Proof.
  intros Hu Hx Hl Hc1 Honly Hnf Hr Hcb Hfl Hpool Hsend Hso Hf. unfold websocket_message, kore_websocket_send. run eq_refl.
  set (w1 := set_app _ w). unfold get_ws. rewrite bind_assoc. run eq_refl. change (ws_conns (app w1)) with (ws_conns (app w)).
  rewrite Hu. run eq_refl. rewrite Hx.
  destruct (db_query_run d w1 l v q_name "select*from coders;update banners set alt='fucky'" q1 c q2 x h p)
    as (rs & ->); [done|done|done|done|exact Hpool|done|done|done|].
  destruct Hpool as (_ & Hq & _). assert (Hne : c1 <> c) by (intros ->; apply Hnf; rewrite Hq; set_solver).
  eexists. split; [done|]. cbn. split_and!; [done|by rewrite lookup_insert_ne|rewrite Hq in Hnf; set_solver|].
  intros l' v' [[<- <-]|[Hll Hl']]%lookup_insert_Some Hcv.
  - cbn in Hcv. congruence.
  - by apply Hll, eq_sym, (Honly l' v').
Qed.

(** A client's select that finds no row: the callback sends the client a value it never read,
    through a pointer that was never set. *)
Theorem empty_select_crashes d w l cl v c x res u :
  pgsqls w !! l = Some v -> state v = KORE_PGSQL_STATE_RESULT -> conn v = Some c -> conns w !! c = Some x ->
  c_name x = q_name -> result v = Some res -> PQntuples res = 0%Z -> ws_conns (app w) !! cl = Some u ->
  db_state_change (cbs d) count_bits fuel bytes_at l cl w = Crash NullDeref.
Proof.
  intros Hl Hs Hc Hx Hn Hres Hrows Hu. unfold db_state_change. run (get_pgsql_run _ _ _ Hl).
  rewrite Hs. run (boss_conn_name_run _ _ _ _ _ Hl Hc Hx). unfold db_results. run (boss_conn_name_run _ _ _ _ _ Hl Hc Hx).
  rewrite Hn. rewrite !bool_decide_false by (try done; by apply (bool_decide_unpack _)).
  unfold ws_results, get_ws. rewrite bind_assoc. run eq_refl. rewrite Hu. run eq_refl.
  run (ntuples_run _ _ _ _ Hl Hres). rewrite Hrows. by run eq_refl.
Qed.
End Behaviour.

(** The formats of the two job queries are not formats of C: a LIKE pattern in them starts a
    conversion nothing defines. *)
Lemma job_formats_undefined :
  defined_format fail_format = false /\ defined_format complete_format = false /\ defined_format completion_format = true.
Proof. by vm_compute. Qed.

(** ** The theorems at a concrete state: the worker's query at 1, connections 20 and 21 *)

#[local] Instance ex_version : PgVersion := {| the_version := websocket_13_pgsql; stack_rfds := ∅ |}.

Definition ex_app : boss_app (gmap nat loc) :=
  BossApp (Some 2) {[2 := BossFail None None None]} None (Some 1) None ∅ {[7 := WsConn (Some 1) true]} [] [] ∅ [].
Definition ex_query (st : pg_state) (res : option (list string)) : kore_pgsql (list string) :=
  KorePgsql st 6 None res (Some 20) None (Some 0) 2 None.
Definition ex_world (st : pg_state) (res : option (list string)) (nm1 nm2 : string) :
    pg_world pq_table (list string) (boss_app (gmap nat loc)) :=
  PgWorld (PqTable [] []) {[1 := ex_query st res]}
    {[20 := PgsqlConn 0 nm1 (Some 0) (Some 1); 21 := PgsqlConn 1 nm2 (Some 1) None]} [21] [] 0
    [PgsqlDb nm2 (Some db_url) 2 1] ∅ ∅ [] 100 ex_app.
Definition ex_bytes (l : loc) : string := "?".

Lemma ex_pool st res nm1 nm2 :
  nm2 <> nm1 -> pool_offers (ex_world st res nm1 nm2) nm2 [] 21 [] (PgsqlConn 1 nm2 (Some 1) None) 1.
Proof.
  intros Hne. split_and!; try done.
  - unfold find_db. cbn. by rewrite decide_True.
  - apply NoDup_singleton.
Qed.

Lemma job_completed_witness :
  exists w', db_state_change (run_cb 16 10 ex_bytes 1) 16 10 ex_bytes 1 2
    (ex_world KORE_PGSQL_STATE_RESULT (Some ["42"]) q_subscribe q_on_boss_job_fail) = Done (tt, w') /\
    bosses (app w') = {[2 := BossFail (Some "42") (Some "42") (Some "?")]}.
Proof.
  destruct (job_completed 16 10 ex_bytes 0 (ex_world KORE_PGSQL_STATE_RESULT (Some ["42"]) q_subscribe q_on_boss_job_fail)
    1 2 (ex_query KORE_PGSQL_STATE_RESULT (Some ["42"])) 20 (PgsqlConn 0 q_subscribe (Some 0) (Some 1)) ["42"]
    (BossFail None None None) [] 21 [] (PgsqlConn 1 q_on_boss_job_fail (Some 1) None) 1 (PqTable [] [[]]))
    as (w' & v' & Hr & _ & _ & _ & _ & _ & Hb);
    [done|done|done|done|done|done|done|done|done|by apply ex_pool|done|done|lia|].
  exists w'. split; [exact Hr|]. rewrite Hb. by vm_compute.
Defined.

Lemma second_message_orphans_witness :
  exists w', websocket_message (run_cb 16 10 ex_bytes 1) 16 10 7 "hello"
    (ex_world KORE_PGSQL_STATE_WAIT None "x" q_name) = Done (tt, w') /\
    20 ∉ pgsql_conn_free w' /\ (forall l' v', pgsqls w' !! l' = Some v' -> conn v' <> Some 20).
Proof.
  destruct (second_message_orphans 16 10 ex_bytes 0 (ex_world KORE_PGSQL_STATE_WAIT None "x" q_name) 7 "hello"
    (WsConn (Some 1) true) 1 (ex_query KORE_PGSQL_STATE_WAIT None) 20 [] 21 [] (PgsqlConn 1 q_name (Some 1) None) 1
    (PqTable [] [])) as (w' & Hr & _ & _ & Hf & Hn);
    [done|done|done|done| |by apply (bool_decide_unpack _)|done|done|done|by apply ex_pool|done|done|lia|].
  - intros l' v' Hl' _. cbn in Hl'. by apply lookup_singleton_Some in Hl' as [<- _].
  - exists w'. split; [exact Hr|]. split; [exact Hf|exact Hn].
Defined.

Lemma empty_select_crashes_witness :
  db_state_change (run_cb 16 10 ex_bytes 1) 16 10 ex_bytes 1 7
    (ex_world KORE_PGSQL_STATE_RESULT (Some []) q_name "x") = Crash NullDeref.
Proof.
  apply (empty_select_crashes 16 10 ex_bytes 1 (ex_world KORE_PGSQL_STATE_RESULT (Some []) q_name "x") 1 7
    (ex_query KORE_PGSQL_STATE_RESULT (Some [])) 20 (PgsqlConn 0 q_name (Some 0) (Some 1)) [] (WsConn (Some 1) true));
    done.
Defined.
End Boss.
