(* ===== verification/Janus.v ===== *)
(** * Requests to the WebRTC gateway: websocket_10/src/incoming.c and trickle.c

    A client's message may carry an SDP offer or answer, which is applied to its handle under
    the handle's mutex, and is then given to the handle's plugin; a trickle message carries
    ICE candidates.  The gateway's own functions (SDP, ICE, plugins) are Janus's and
    parameters here; each gets the handle and may change it.  A handle's flags are the set of
    those that are set.  The request's reference count is kept, [json_auto_t] replies and
    freed strings are not. *)

From S2P Require Import Prelude Jansson.
From Stdlib Require Import Ascii.

Local Open Scope c_scope.

Module Janus.

(** ** Data *)

Inductive webrtc_flag : Type :=
| WEBRTC_CLEANING | WEBRTC_PROCESSING_OFFER | WEBRTC_GOT_OFFER | WEBRTC_GOT_ANSWER | WEBRTC_READY | WEBRTC_ALERT
| WEBRTC_TRICKLE | WEBRTC_ALL_TRICKLES | WEBRTC_START | WEBRTC_ICE_RESTART | WEBRTC_RESEND_TRICKLES
| WEBRTC_DATA_CHANNELS | WEBRTC_HAS_VIDEO | WEBRTC_STOP | WEBRTC_RFC4588_RTX
| WEBRTC_HAS_AUDIO | WEBRTC_TRICKLE_SYNCED | WEBRTC_NEW_DATACHAN_SDP.

#[export] Instance webrtc_flag_eq_dec : EqDecision webrtc_flag.
Proof. solve_decision. Defined.

Definition flag_number (f : webrtc_flag) : nat :=
  match f with
  | WEBRTC_CLEANING => 0 | WEBRTC_PROCESSING_OFFER => 1 | WEBRTC_GOT_OFFER => 2 | WEBRTC_GOT_ANSWER => 3
  | WEBRTC_READY => 4 | WEBRTC_ALERT => 5 | WEBRTC_TRICKLE => 6 | WEBRTC_ALL_TRICKLES => 7 | WEBRTC_START => 8
  | WEBRTC_ICE_RESTART => 9 | WEBRTC_RESEND_TRICKLES => 10 | WEBRTC_DATA_CHANNELS => 11 | WEBRTC_HAS_VIDEO => 12
  | WEBRTC_STOP => 13 | WEBRTC_RFC4588_RTX => 14
  | WEBRTC_HAS_AUDIO => 15 | WEBRTC_TRICKLE_SYNCED => 16 | WEBRTC_NEW_DATACHAN_SDP => 17
  end.
Definition number_flag (n : nat) : webrtc_flag :=
  nth n [WEBRTC_CLEANING; WEBRTC_PROCESSING_OFFER; WEBRTC_GOT_OFFER; WEBRTC_GOT_ANSWER; WEBRTC_READY; WEBRTC_ALERT;
    WEBRTC_TRICKLE; WEBRTC_ALL_TRICKLES; WEBRTC_START; WEBRTC_ICE_RESTART; WEBRTC_RESEND_TRICKLES;
    WEBRTC_DATA_CHANNELS; WEBRTC_HAS_VIDEO; WEBRTC_STOP; WEBRTC_RFC4588_RTX;
    WEBRTC_HAS_AUDIO; WEBRTC_TRICKLE_SYNCED; WEBRTC_NEW_DATACHAN_SDP] WEBRTC_STOP.

#[export] Instance webrtc_flag_countable : Countable webrtc_flag.
Proof. apply (inj_countable' flag_number number_flag). by intros []. Defined.

Record ice_stream : Type := IceStream {
  s_id : Z;
  do_transport_wide_cc : bool;
  transport_wide_cc_ext_id : Z;
  video_ssrc_peer : Z * Z * Z;
  rtx_payload_types : option (gmap Z Z)  (* null until there is an SDP to make them for *)
}.

Definition st_s_id (f : Z -> Z) (w : ice_stream) : ice_stream :=
  IceStream (f (s_id w)) (do_transport_wide_cc w) (transport_wide_cc_ext_id w) (video_ssrc_peer w) (rtx_payload_types w).
Definition st_do_transport_wide_cc (f : bool -> bool) (w : ice_stream) : ice_stream :=
  IceStream (s_id w) (f (do_transport_wide_cc w)) (transport_wide_cc_ext_id w) (video_ssrc_peer w) (rtx_payload_types w).
Definition st_transport_wide_cc_ext_id (f : Z -> Z) (w : ice_stream) : ice_stream :=
  IceStream (s_id w) (do_transport_wide_cc w) (f (transport_wide_cc_ext_id w)) (video_ssrc_peer w) (rtx_payload_types w).
Definition st_video_ssrc_peer (f : Z * Z * Z -> Z * Z * Z) (w : ice_stream) : ice_stream :=
  IceStream (s_id w) (do_transport_wide_cc w) (transport_wide_cc_ext_id w) (f (video_ssrc_peer w)) (rtx_payload_types w).
Definition st_rtx_payload_types (f : option (gmap Z Z) -> option (gmap Z Z)) (w : ice_stream) : ice_stream :=
  IceStream (s_id w) (do_transport_wide_cc w) (transport_wide_cc_ext_id w) (video_ssrc_peer w) (f (rtx_payload_types w)).

Record ice_trickle (J : Type) : Type := IceTrickle { received : Z; candidate : option J }.
Arguments IceTrickle {J}.
Arguments received {J}.
Arguments candidate {J}.

Record ice_handle (J : Type) : Type := IceHandle {
  handle_id : Z;
  session : option loc;
  app : option loc;  (* the plugin *)
  app_handle : option loc;  (* its session *)
  webrtc_flags : gset webrtc_flag;
  locked : bool;  (* [mutex] is held *)
  agent : bool;  (* not null *)
  stream : option ice_stream;
  stream_id : Z;
  cdone : Z;  (* candidates gathered, negative: failed *)
  pending_trickles : list (option (ice_trickle J));
  local_sdp : option string;
  remote_sdp : option string
}.
Arguments IceHandle {J}.
Arguments handle_id {J}.
Arguments session {J}.
Arguments app {J}.
Arguments app_handle {J}.
Arguments webrtc_flags {J}.
Arguments locked {J}.
Arguments agent {J}.
Arguments stream {J}.
Arguments stream_id {J}.
Arguments cdone {J}.
Arguments pending_trickles {J}.
Arguments local_sdp {J}.
Arguments remote_sdp {J}.

Definition h_handle_id {J : Type} (f : Z -> Z) (w : ice_handle J) : ice_handle J :=
  IceHandle (f (handle_id w)) (session w) (app w) (app_handle w) (webrtc_flags w) (locked w) (agent w) (stream w) (stream_id w) (cdone w) (pending_trickles w) (local_sdp w) (remote_sdp w).
Definition h_session {J : Type} (f : option loc -> option loc) (w : ice_handle J) : ice_handle J :=
  IceHandle (handle_id w) (f (session w)) (app w) (app_handle w) (webrtc_flags w) (locked w) (agent w) (stream w) (stream_id w) (cdone w) (pending_trickles w) (local_sdp w) (remote_sdp w).
Definition h_app {J : Type} (f : option loc -> option loc) (w : ice_handle J) : ice_handle J :=
  IceHandle (handle_id w) (session w) (f (app w)) (app_handle w) (webrtc_flags w) (locked w) (agent w) (stream w) (stream_id w) (cdone w) (pending_trickles w) (local_sdp w) (remote_sdp w).
Definition h_app_handle {J : Type} (f : option loc -> option loc) (w : ice_handle J) : ice_handle J :=
  IceHandle (handle_id w) (session w) (app w) (f (app_handle w)) (webrtc_flags w) (locked w) (agent w) (stream w) (stream_id w) (cdone w) (pending_trickles w) (local_sdp w) (remote_sdp w).
Definition h_webrtc_flags {J : Type} (f : gset webrtc_flag -> gset webrtc_flag) (w : ice_handle J) : ice_handle J :=
  IceHandle (handle_id w) (session w) (app w) (app_handle w) (f (webrtc_flags w)) (locked w) (agent w) (stream w) (stream_id w) (cdone w) (pending_trickles w) (local_sdp w) (remote_sdp w).
Definition h_locked {J : Type} (f : bool -> bool) (w : ice_handle J) : ice_handle J :=
  IceHandle (handle_id w) (session w) (app w) (app_handle w) (webrtc_flags w) (f (locked w)) (agent w) (stream w) (stream_id w) (cdone w) (pending_trickles w) (local_sdp w) (remote_sdp w).
Definition h_agent {J : Type} (f : bool -> bool) (w : ice_handle J) : ice_handle J :=
  IceHandle (handle_id w) (session w) (app w) (app_handle w) (webrtc_flags w) (locked w) (f (agent w)) (stream w) (stream_id w) (cdone w) (pending_trickles w) (local_sdp w) (remote_sdp w).
Definition h_stream {J : Type} (f : option ice_stream -> option ice_stream) (w : ice_handle J) : ice_handle J :=
  IceHandle (handle_id w) (session w) (app w) (app_handle w) (webrtc_flags w) (locked w) (agent w) (f (stream w)) (stream_id w) (cdone w) (pending_trickles w) (local_sdp w) (remote_sdp w).
Definition h_stream_id {J : Type} (f : Z -> Z) (w : ice_handle J) : ice_handle J :=
  IceHandle (handle_id w) (session w) (app w) (app_handle w) (webrtc_flags w) (locked w) (agent w) (stream w) (f (stream_id w)) (cdone w) (pending_trickles w) (local_sdp w) (remote_sdp w).
Definition h_cdone {J : Type} (f : Z -> Z) (w : ice_handle J) : ice_handle J :=
  IceHandle (handle_id w) (session w) (app w) (app_handle w) (webrtc_flags w) (locked w) (agent w) (stream w) (stream_id w) (f (cdone w)) (pending_trickles w) (local_sdp w) (remote_sdp w).
Definition h_pending_trickles {J : Type} (f : list (option (ice_trickle J)) -> list (option (ice_trickle J))) (w : ice_handle J) : ice_handle J :=
  IceHandle (handle_id w) (session w) (app w) (app_handle w) (webrtc_flags w) (locked w) (agent w) (stream w) (stream_id w) (cdone w) (f (pending_trickles w)) (local_sdp w) (remote_sdp w).
Definition h_local_sdp {J : Type} (f : option string -> option string) (w : ice_handle J) : ice_handle J :=
  IceHandle (handle_id w) (session w) (app w) (app_handle w) (webrtc_flags w) (locked w) (agent w) (stream w) (stream_id w) (cdone w) (pending_trickles w) (f (local_sdp w)) (remote_sdp w).
Definition h_remote_sdp {J : Type} (f : option string -> option string) (w : ice_handle J) : ice_handle J :=
  IceHandle (handle_id w) (session w) (app w) (app_handle w) (webrtc_flags w) (locked w) (agent w) (stream w) (stream_id w) (cdone w) (pending_trickles w) (local_sdp w) (f (remote_sdp w)).

Record jworld (X J : Type) : Type := JWorld {
  handles : gmap loc (ice_handle J);
  core : X;  (* the rest of the gateway *)
  root_refs : Z;  (* references to the request, 0: freed *)
  sent : list (loc * J)  (* to the client, newest first *)
}.
Arguments JWorld {X J}.
Arguments handles {X J}.
Arguments core {X J}.
Arguments root_refs {X J}.
Arguments sent {X J}.

Definition w_handles {X J : Type} (f : gmap loc (ice_handle J) -> gmap loc (ice_handle J)) (w : jworld X J) : jworld X J :=
  JWorld (f (handles w)) (core w) (root_refs w) (sent w).
Definition w_core {X J : Type} (f : X -> X) (w : jworld X J) : jworld X J :=
  JWorld (handles w) (f (core w)) (root_refs w) (sent w).
Definition w_root_refs {X J : Type} (f : Z -> Z) (w : jworld X J) : jworld X J :=
  JWorld (handles w) (core w) (f (root_refs w)) (sent w).
Definition w_sent {X J : Type} (f : list (loc * J) -> list (loc * J)) (w : jworld X J) : jworld X J :=
  JWorld (handles w) (core w) (root_refs w) (f (sent w)).

Inductive result_type : Type := JANUS_PLUGIN_OK | JANUS_PLUGIN_OK_WAIT | JANUS_PLUGIN_ERROR.
Record plugin_result (J : Type) : Type := PluginResult { r_type : result_type; r_text : option string; r_content : option J }.
Arguments PluginResult {J}.
Arguments r_type {J}.
Arguments r_text {J}.
Arguments r_content {J}.

(** [strcasecmp(a, b) == 0] *)
Definition tolower (c : ascii) : ascii :=
  let n := nat_of_ascii c in if (65 <=? n) && (n <=? 90) then ascii_of_nat (n + 32) else c.
Fixpoint lower (s : string) : string :=
  match s with EmptyString => EmptyString | String c s => String (tolower c) (lower s) end.
Definition strcasecmp_eq (a b : string) : bool := bool_decide (lower a = lower b).

(** ** The gateway's functions *)

(** [X] is the gateway's state, [D] a parsed SDP. *)
Class JanusCore (X D J : Type) := {
  janus_plugin_session_is_alive : loc -> X -> bool;
  janus_get_monotonic_time : X -> Z;
  other_threads : ice_handle J -> X -> ice_handle J * X;  (* what happens during a sleep *)
  janus_sdp_preparse : option string -> X -> string + D * (Z * Z * Z);
  janus_ice_setup_local : bool -> Z * Z * Z -> bool -> ice_handle J -> X -> Z * (ice_handle J * X);
  janus_sdp_process : D -> bool -> ice_handle J -> X -> Z * (ice_handle J * X);
  janus_ice_trickle_new : ice_handle J -> option J -> X -> option (ice_trickle J);
  janus_ice_trickle_parse : J -> ice_handle J -> X -> Z * (ice_handle J * X);
  janus_ice_setup_remote_candidates : ice_handle J -> X -> unit * (ice_handle J * X);
  janus_rtp_header_extension_get_id : option string -> Z;
  nice_agent_set_remote_credentials : ice_handle J -> X -> unit * (ice_handle J * X);
  janus_ice_restart : ice_handle J -> X -> unit * (ice_handle J * X);
  janus_ice_is_full_trickle_enabled : X -> bool;
  create_datachannels : ice_handle J -> X -> unit * (ice_handle J * X);  (* with SCTP, when there are none yet *)
  janus_sdp_anonymize : D -> Z * D;
  janus_sdp_write : D -> string;
  get_package : loc -> string;
  handle_message : loc -> loc -> option J -> option J -> X -> option (plugin_result J) * X
}.

Section Code.
Context {X D J : Type} `{JanusCore X D J} `{Jansson J}.
Abbreviation m := (M (jworld X J)).

(** *** Access *)

Definition get_handle (h : loc) : m (ice_handle J) := hs ← gets handles; live (hs !! h).
Definition update_handle (h : loc) (f : ice_handle J -> ice_handle J) : m unit :=
  v ← get_handle h; modify (w_handles <[h := f v]>).
Definition core_call {B : Type} (h : loc) (f : ice_handle J -> X -> B * (ice_handle J * X)) : m B :=
  v ← get_handle h;
  x ← gets core;
  let '(b, (v', x')) := f v x in
  modify (w_handles <[h := v']>);; modify (w_core (fun _ => x'));; mret b.
Definition janus_flags_is_set (h : loc) (f : webrtc_flag) : m bool :=
  v ← get_handle h; mret (bool_decide (f ∈ webrtc_flags v)).
Definition janus_flags_set (h : loc) (f : webrtc_flag) : m unit := update_handle h (h_webrtc_flags (union {[f]})).
Definition janus_flags_clear (h : loc) (f : webrtc_flag) : m unit :=
  update_handle h (h_webrtc_flags (fun s => s ∖ {[f]})).
Definition janus_mutex_lock (h : loc) : m unit :=
  v ← get_handle h; if locked v then crash LockMisuse else update_handle h (h_locked (fun _ => true)).
Definition janus_mutex_unlock (h : loc) : m unit :=
  v ← get_handle h; if locked v then update_handle h (h_locked (fun _ => false)) else crash LockMisuse.

Definition root_decref : m unit :=
  n ← gets root_refs; if (n <=? 0)%Z then crash UseAfterFree else modify (w_root_refs (fun n => n - 1)%Z).
(** A use of the request or of a member of it. *)
Definition use_root : m unit := n ← gets root_refs; if (n <=? 0)%Z then crash UseAfterFree else mret tt.
Definition root_get (root : J) (k : string) : m (option J) := use_root;; mret (json_object_get root k).

(** The end of every answer: printed and sent; [false] when it cannot be printed, and the
    request is dropped. *)
Definition send_reply (cl : loc) (reply : J) : m bool :=
  match json_dumps reply with
  | None => root_decref;; mret false
  | Some _ => modify (w_sent (cons (cl, reply)));; mret true
  end.

Definition error_reply (grund : string) : J :=
  json_object [("type", json_string "janus_error"); ("janus_err_msg", json_string grund)].

Definition janus_process_e (cl : loc) (grund : string) : m unit :=
  ok ← send_reply cl (error_reply grund); if (ok : bool) then root_decref else mret tt.

(** *** An SDP in a message *)

(** [while(CLEANING) { g_usleep(100000); waited += 100000; if(waited >= 3 s) ... }]; [false]: gave up. *)
Fixpoint wait_cleaning (n : nat) (h : loc) (waited : Z) : m bool :=
  match n with
  | O => crash Fuel
  | S n =>
      cleaning ← janus_flags_is_set h WEBRTC_CLEANING;
      if negb cleaning then mret true
      else
        core_call h (fun v x => (tt, other_threads v x));;
        let waited := (waited + 100000)%Z in
        if (3000000 <=? waited)%Z then mret false else wait_cleaning n h waited
  end.

(** What the error paths under the mutex do, in the two orders they do it. *)
Definition fail_reply_first (h cl : loc) (grund : string) : m unit :=
  janus_process_e cl grund;; janus_flags_clear h WEBRTC_PROCESSING_OFFER;; janus_mutex_unlock h.
Definition fail_clear_first (h cl : loc) (grund : string) : m unit :=
  janus_flags_clear h WEBRTC_PROCESSING_OFFER;; janus_process_e cl grund;; janus_mutex_unlock h.

(** The type of the SDP, with the flags it sets: [None] is neither offer nor answer. *)
Definition jsep_kind (h : loc) (jsep_type : string) : m (option bool) :=
  if strcasecmp_eq jsep_type "offer" then
    janus_flags_set h WEBRTC_PROCESSING_OFFER;; janus_flags_set h WEBRTC_GOT_OFFER;;
    janus_flags_clear h WEBRTC_GOT_ANSWER;; mret (Some true)
  else if strcasecmp_eq jsep_type "answer" then
    janus_flags_set h WEBRTC_GOT_ANSWER;; mret (Some false)
  else mret None.

Fixpoint parse_all (h : loc) (cs : list J) : m unit :=
  match cs with
  | [] => mret tt
  | c :: cs => core_call h (janus_ice_trickle_parse c);; parse_all h cs
  end.

(** One pending trickle: dropped if it is too old or empty, else parsed. *)
Definition one_trickle (h : loc) (t : option (ice_trickle J)) : m unit :=
  match t with
  | None => mret tt
  | Some t =>
      x ← gets core;
      if (45000000 <? janus_get_monotonic_time x - received t)%Z then mret tt
      else
        match candidate t with
        | None => mret tt
        | Some c =>
            if json_is_object c then core_call h (janus_ice_trickle_parse c);; mret tt
            else match json_array_items c with Some cs => parse_all h cs | None => mret tt end
        end
  end.

(** [while(handle->pending_trickles) { temp = g_list_first(...); ... }] *)
Fixpoint drain_trickles (n : nat) (h : loc) : m unit :=
  match n with
  | O => crash Fuel
  | S n =>
      v ← get_handle h;
      match pending_trickles v with
      | [] => mret tt
      | t :: ts =>
          update_handle h (h_pending_trickles (fun _ => ts));; one_trickle h t;; drain_trickles n h
      end
  end.

(** The first SDP of a handle; [false]: it failed, the answer is sent and the mutex released. *)
Definition new_session (fuel : nat) (h cl : loc) (offer : bool) (jsep_sdp : option string) (sdp : D) (avd : Z * Z * Z)
    (do_trickle : bool) : m bool :=
  v ← get_handle h;
  ok ← (if offer then
          rc ← core_call h (janus_ice_setup_local offer avd do_trickle);
          if (rc <? 0)%Z then fail_clear_first h cl "Error setting ICE locally";; mret false else mret true
        else if negb (agent v) then fail_clear_first h cl "Unexpected ANSWER (did we offer?)";; mret false
        else mret true);
  if negb ok then mret false
  else
    rc ← core_call h (janus_sdp_process sdp false);
    if (rc <? 0)%Z then fail_clear_first h cl "Error processing SDP";; mret false
    else if negb offer then
      janus_flags_set h WEBRTC_TRICKLE;;
      janus_flags_clear h WEBRTC_PROCESSING_OFFER;;
      drain_trickles fuel h;;
      trickle ← janus_flags_is_set h WEBRTC_TRICKLE;
      all ← janus_flags_is_set h WEBRTC_ALL_TRICKLES;
      (if trickle && negb all then janus_flags_set h WEBRTC_START
       else
         v ← get_handle h;
         if (0 <? stream_id v)%Z then core_call h janus_ice_setup_remote_candidates;; mret tt else mret tt);;
      mret true
    else
      v ← get_handle h;
      s ← deref (stream v);
      update_handle h (h_stream (fun _ =>
        Some (st_transport_wide_cc_ext_id (fun _ => janus_rtp_header_extension_get_id jsep_sdp)
               (st_do_transport_wide_cc (fun _ => true) s))));;
      mret true.

(** A later one. *)
Definition renegotiate (have_sctp : bool) (h cl : loc) (offer : bool) (sdp : D) : m bool :=
  rc ← core_call h (janus_sdp_process sdp true);
  if (rc <? 0)%Z then fail_clear_first h cl "Error processing SDP";; mret false
  else
    restart ← janus_flags_is_set h WEBRTC_ICE_RESTART;
    (if (restart : bool) then
       v ← get_handle h;
       (if bool_decide (stream v <> None) then core_call h nice_agent_set_remote_credentials;; mret tt else mret tt);;
       (if offer then core_call h janus_ice_restart;; mret tt else janus_flags_clear h WEBRTC_ICE_RESTART);;
       full ← gets (fun w => janus_ice_is_full_trickle_enabled (core w));
       if! full then janus_flags_set h WEBRTC_RESEND_TRICKLES
     else mret tt);;
    (if have_sctp && negb offer then
       dc ← janus_flags_is_set h WEBRTC_DATA_CHANNELS;
       if (dc : bool) then core_call h create_datachannels;; mret tt else mret tt
     else mret tt);;
    mret true.

(** What a message's SDP comes to. *)
Record jsep_ok : Type := JsepOk { jsep_type : string; jsep_sdp_stripped : string; renegotiation : bool }.

(** [None]: [goto jsondone]. *)
Definition apply_jsep (fuel : nat) (have_sctp : bool) (h cl : loc) (jsep : J) : m (option jsep_ok) :=
  if negb (json_is_object jsep) then janus_process_e cl "Invalid jsep object";; mret None
  else
    let jt := json_object_get jsep "type" ≫= json_string_value in
    let do_trickle := match json_object_get jsep "trickle" with Some t => json_is_true t | None => true end in
    ready ← wait_cleaning 31 h 0;
    if negb ready then janus_process_e cl "Still cleaning a previous session";; mret None
    else
      janus_mutex_lock h;;
      jt ← deref jt;
      kind ← jsep_kind h jt;
      match kind with
      | None => fail_reply_first h cl "JSEP error: unknown message type,not offer,nor answer.";; mret None
      | Some offer =>
          let jsep_sdp := json_object_get jsep "sdp" ≫= json_string_value in
          x ← gets core;
          match janus_sdp_preparse jsep_sdp x with
          | inl error_str => fail_reply_first h cl error_str;; mret None
          | inr (sdp, avd) =>
              webrtc_ready ← janus_flags_is_set h WEBRTC_READY;
              alert ← janus_flags_is_set h WEBRTC_ALERT;
              let fresh := negb webrtc_ready || alert in
              ok ← (if fresh then new_session fuel h cl offer jsep_sdp sdp avd do_trickle
                    else renegotiate have_sctp h cl offer sdp);
              if negb ok then mret None
              else
                update_handle h (h_remote_sdp (fun _ => jsep_sdp));;
                janus_mutex_unlock h;;
                let '(rc, sdp) := janus_sdp_anonymize sdp in
                if (rc <? 0)%Z then
                  janus_process_e cl "JSEP error: invalid SDP";;
                  janus_flags_clear h WEBRTC_PROCESSING_OFFER;; mret None
                else
                  janus_flags_clear h WEBRTC_PROCESSING_OFFER;;
                  mret (Some (JsepOk jt (janus_sdp_write sdp) (negb fresh)))
          end
      end.

(** *** The plugin *)

(** The SDP as the plugin gets it. *)
Definition body_jsep (v : ice_handle J) (j : jsep_ok) : J :=
  let simulcast :=
    match stream v with
    | Some s =>
        let '(s0, s1, s2) := video_ssrc_peer s in
        if bool_decide (WEBRTC_HAS_VIDEO ∈ webrtc_flags v) && negb (s1 =? 0)%Z then
          [("simulcast", json_object ([("ssrc-0", json_integer s0); ("ssrc-1", json_integer s1)] ++
             if negb (s2 =? 0)%Z then [("ssrc-2", json_integer s2)] else []))]
        else []
    | None => []
    end in
  json_object ([("type", json_string (jsep_type j)); ("sdp", json_string (jsep_sdp_stripped j))] ++ simulcast ++
    if renegotiation j then [("update", json_true)] else []).

Definition success_reply (session_id sender : Z) (package : string) (content : J) : J :=
  json_object [("janus", json_string "janus_success"); ("session_id", json_integer session_id);
    ("sender", json_integer sender); ("transaction", json_string "transaction_text");
    ("plugindata", json_object [("plugin", json_string package); ("data", content)])].

Definition ack_reply (session_id : Z) (hint : option string) : J :=
  json_object ([("type", json_string "janus_ack"); ("session_id", json_integer session_id)] ++
    match hint with Some t => [("hint", json_string t)] | None => [] end ++
    [("transaction", json_string "transaction_text")]).

(** The plugin's result, answered. *)
Definition answer_result (cl : loc) (session : option Z) (session_id : Z) (v : ice_handle J) (plugin : loc)
    (result : option (plugin_result J)) : m unit :=
  match result with
  | None => janus_process_e cl "Plugin didn't give a result is NULL."
  | Some res =>
      match r_type res with
      | JANUS_PLUGIN_OK =>
          match r_content res with
          | Some content =>
              if json_is_object content then
                sid ← deref session;
                send_reply cl (success_reply sid (handle_id v) (get_package plugin) content);; mret tt
              else janus_process_e cl "Plugin didn't provide any content for this synchronous response Plugin returned an invalid JSON response"
          | None => janus_process_e cl "Plugin didn't provide any content for this synchronous response Plugin returned an invalid JSON response"
          end
      | JANUS_PLUGIN_OK_WAIT => send_reply cl (ack_reply session_id (r_text res));; mret tt
      | JANUS_PLUGIN_ERROR => janus_process_e cl "Plugin returned a severe (unknown) error"
      end
  end.

Definition to_plugin (h cl : loc) (session : option Z) (session_id : Z) (plugin : loc) (body : option J)
    (j : option jsep_ok) : m unit :=
  v ← get_handle h;
  x ← gets core;
  match app v, app_handle v with
  | Some _, Some ah =>
      if negb (janus_plugin_session_is_alive ah x) then
        janus_process_e cl "No plugin to handle this message";; janus_flags_clear h WEBRTC_PROCESSING_OFFER
      else
        let '(result, x') := handle_message plugin ah body (body_jsep v <$> j) x in
        modify (w_core (fun _ => x'));;
        answer_result cl session session_id v plugin result
  | _, _ => janus_process_e cl "No plugin to handle this message";; janus_flags_clear h WEBRTC_PROCESSING_OFFER
  end.

Definition incoming_message (fuel : nat) (have_sctp : bool) (handle : option loc) (session : option Z) (root : J)
    (session_id : Z) (cl : loc) : m unit :=
  match handle with
  | None => janus_process_e cl "Unhandled request at this path. Hndle is null."
  | Some h =>
      v ← get_handle h;
      match app v, app_handle v with
      | Some plugin, Some _ =>
          body ← root_get root "body";
          jsep ← root_get root "jsep";
          match jsep with
          | None => to_plugin h cl session session_id plugin body None
          | Some jsep =>
              j ← apply_jsep fuel have_sctp h cl jsep;
              match j with
              | None => mret tt
              | Some j => to_plugin h cl session session_id plugin body (Some j)
              end
          end
      | _, _ => janus_process_e cl "No plugin to handle this message"
      end
  end.

(** *** Trickle messages *)

(** trickle.c has its own copy. *)
Definition janus_process_er (cl : loc) (grund : string) : m unit :=
  ok ← send_reply cl (error_reply grund); if (ok : bool) then root_decref else mret tt.

(** The checks at the start: the jumps out of them are commented out, so each failed one is
    reported and the next one is made. *)
Definition trickle_checks (h : option loc) (root : J) (cl : loc) : m (option J * option J) :=
  (if! bool_decide (h = None) then janus_process_er cl "Unhandled request at this path: trickle. Handle is NULL");;
  h ← deref h;
  v ← get_handle h;
  x ← gets core;
  let alive := match app v, app_handle v with
               | Some _, Some ah => janus_plugin_session_is_alive ah x | _, _ => false end in
  (if! negb alive then janus_process_er cl "No plugin to handle this trickle candidate");;
  candidate ← root_get root "candidate";
  candidates ← root_get root "candidates";
  (if! bool_decide (candidate = None) && bool_decide (candidates = None)
   then janus_process_er cl "Missing mandatory element (candidate|candidates)");;
  (if! bool_decide (candidate <> None) && bool_decide (candidates <> None)
   then janus_process_er cl "Can't have both candidate and candidates");;
  cleaning ← janus_flags_is_set h WEBRTC_CLEANING;
  (if! cleaning then janus_process_er cl "Still cleaning a previous session");;
  mret (candidate, candidates).

Definition queue_trickle (h : loc) (c : option J) : m unit :=
  (if! bool_decide (is_Some c) then use_root);;
  v ← get_handle h;
  x ← gets core;
  update_handle h (h_pending_trickles (fun l => l ++ [janus_ice_trickle_new v c x])).

(** Here too the jumps to the end are commented out. *)
Definition trickle_now (h cl : loc) (candidate candidates : option J) : m unit :=
  match candidate, candidates with
  | Some c, _ =>
      use_root;;
      error ← core_call h (janus_ice_trickle_parse c);
      if negb (error =? 0)%Z then janus_process_er cl "error_string";; janus_mutex_unlock h else mret tt
  | None, None => janus_process_er cl "candidates is not an array";; janus_mutex_unlock h
  | None, Some cs =>
      use_root;;
      match json_array_items cs with
      | None => janus_process_er cl "candidates is not an array";; janus_mutex_unlock h;; use_root
      | Some cs => parse_all h cs
      end
  end.

Definition trickle_ack (session_id : Z) : J :=
  json_object [("type", json_string "janus_ack"); ("session_id", json_integer session_id);
    ("transaction", json_string "janus_trans")].

Definition support_trickle (h : loc) : m unit :=
  trickle ← janus_flags_is_set h WEBRTC_TRICKLE; if! negb trickle then janus_flags_set h WEBRTC_TRICKLE.

Definition do_trickle (handle : option loc) (root : J) (session_id : Z) (cl : loc) : m unit :=
  cc ← trickle_checks handle root cl;
  let '(candidate, candidates) := (cc : option J * option J) in
  h ← deref handle;
  janus_mutex_lock h;;
  support_trickle h;;
  v ← get_handle h;
  let busy := bool_decide (WEBRTC_PROCESSING_OFFER ∈ webrtc_flags v) || negb (bool_decide (WEBRTC_GOT_OFFER ∈ webrtc_flags v)) ||
              negb (bool_decide (WEBRTC_GOT_ANSWER ∈ webrtc_flags v)) in
  let either := match candidate with Some c => Some c | None => candidates end in
  (if bool_decide (stream v = None) || busy then queue_trickle h either
   else trickle_now h cl candidate candidates);;
  janus_mutex_unlock h;;
  send_reply cl (trickle_ack session_id);; mret tt.
End Code.

(** ** What the code relies on *)

(** The gateway's functions leave the handle's mutex, its PROCESSING_OFFER flag and its list
    of pending trickles alone, and do not take its stream away. *)
Definition core_keeps {J : Type} (v v' : ice_handle J) : Prop :=
  locked v' = locked v /\ (WEBRTC_PROCESSING_OFFER ∈ webrtc_flags v' <-> WEBRTC_PROCESSING_OFFER ∈ webrtc_flags v) /\
  pending_trickles v' = pending_trickles v /\ (stream v <> None -> stream v' <> None).

Class JanusCoreLaws (X D J : Type) `{JanusCore X D J} := {
  other_threads_keep : forall v x, core_keeps v (other_threads v x).1;
  setup_local_keeps : forall o a t v x, core_keeps v (janus_ice_setup_local o a t v x).2.1;
  setup_local_stream : forall o a t v x,
    (0 <= (janus_ice_setup_local o a t v x).1)%Z -> stream (janus_ice_setup_local o a t v x).2.1 <> None;
  sdp_process_keeps : forall d b v x, core_keeps v (janus_sdp_process d b v x).2.1;
  trickle_parse_keeps : forall c v x, core_keeps v (janus_ice_trickle_parse c v x).2.1;
  remote_candidates_keep : forall v x, core_keeps v (janus_ice_setup_remote_candidates v x).2.1;
  credentials_keep : forall v x, core_keeps v (nice_agent_set_remote_credentials v x).2.1;
  restart_keeps : forall v x, core_keeps v (janus_ice_restart v x).2.1;
  datachannels_keep : forall v x, core_keeps v (create_datachannels v x).2.1
}.

(** The replies can be printed. *)
Class PrintableReplies (J : Type) `{Jansson J} := {
  object_printable : forall kvs, json_dumps (json_object kvs) <> None
}.

(** ** A message is answered once, and the handle left in order *)

Section Incoming.
Context {X D J : Type} `{JanusCoreLaws X D J} `{!Jansson J} `{!PrintableReplies J}.
Implicit Types w : jworld X J.
Context (h cl : loc).

(** The handle's mutex is [lk], PROCESSING_OFFER is [po]; with [sn] there is a stream; the
    request has [rf] references; [k] was sent; at most [n] trickles are pending. *)
Definition hst (n : nat) (lk po sn : bool) (rf : Z) (k : list (loc * J)) w : Prop :=
  exists v, handles w !! h = Some v /\ locked v = lk /\ bool_decide (WEBRTC_PROCESSING_OFFER ∈ webrtc_flags v) = po /\
    (sn = true -> stream v <> None) /\ length (pending_trickles v) <= n /\ root_refs w = rf /\ sent w = k.

Lemma hst_update n f lk po sn rf k lk' po' sn' w :
  hst n lk po sn rf k w ->
  (forall v, locked v = lk -> bool_decide (WEBRTC_PROCESSING_OFFER ∈ webrtc_flags v) = po -> (sn = true -> stream v <> None) ->
     locked (f v) = lk' /\ bool_decide (WEBRTC_PROCESSING_OFFER ∈ webrtc_flags (f v)) = po' /\
     (sn' = true -> stream (f v) <> None) /\ length (pending_trickles (f v)) <= length (pending_trickles v)) ->
  wp (update_handle h f) (fun _ => hst n lk' po' sn' rf k) w.
Proof.
  intros (v & Hv & Hlk & Hpo & Hsn & Hpt & Hrf & Hk) Hf. unfold update_handle, get_handle. wp_steps.
  eapply wp_live; [done|]. cbn beta. wp_steps. destruct (Hf v Hlk Hpo Hsn) as (H1' & H2' & H3' & H4').
  exists (f v). cbn. rewrite lookup_insert_eq. split_and!; try done. lia.
Qed.

Lemma hst_set n f lk po sn rf k w :
  hst n lk po sn rf k w ->
  wp (janus_flags_set h f) (fun _ => hst n lk (po || bool_decide (f = WEBRTC_PROCESSING_OFFER)) sn rf k) w.
Proof using Type.
  clear PrintableReplies0 Jansson0 H0 H D. intros Hin. eapply hst_update; [done|]. intros v Hlk Hpo Hsn. cbn. split_and!; try done.
  rewrite <- Hpo. repeat case_bool_decide; set_solver.
Qed.

Lemma hst_clear n f lk po sn rf k w :
  hst n lk po sn rf k w ->
  wp (janus_flags_clear h f) (fun _ => hst n lk (po && negb (bool_decide (f = WEBRTC_PROCESSING_OFFER))) sn rf k) w.
Proof using Type.
  clear PrintableReplies0 Jansson0 H0 H D. intros Hin. eapply hst_update; [done|]. intros v Hlk Hpo Hsn. cbn. split_and!; try done.
  rewrite <- Hpo. repeat case_bool_decide; set_solver.
Qed.

Lemma hst_lock n po sn rf k w :
  hst n false po sn rf k w -> wp (janus_mutex_lock h) (fun _ => hst n true po sn rf k) w.
Proof.
  intros Hin. pose proof Hin as (v & Hv & Hlk & _). unfold janus_mutex_lock, get_handle. wp_steps.
  eapply wp_live; [done|]. cbn beta. rewrite Hlk. eapply hst_update; [done|]. intros. by split_and!.
Qed.

Lemma hst_unlock n po sn rf k w :
  hst n true po sn rf k w -> wp (janus_mutex_unlock h) (fun _ => hst n false po sn rf k) w.
Proof.
  intros Hin. pose proof Hin as (v & Hv & Hlk & _). unfold janus_mutex_unlock, get_handle. wp_steps.
  eapply wp_live; [done|]. cbn beta. rewrite Hlk. eapply hst_update; [done|]. intros. by split_and!.
Qed.

Lemma hst_get n lk po sn rf k w :
  hst n lk po sn rf k w -> wp (get_handle h) (fun v w' => w' = w /\ (sn = true -> stream v <> None)) w.
Proof.
  intros (v & Hv & Hlk & Hpo & Hsn & _). unfold get_handle. wp_steps. by eapply wp_live.
Qed.

Lemma hst_is_set n f lk po sn rf k w :
  hst n lk po sn rf k w -> wp (janus_flags_is_set h f) (fun _ => hst n lk po sn rf k) w.
Proof.
  intros Hin. unfold janus_flags_is_set. apply wp_bind. eapply wp_mono; [by eapply hst_get|]. by intros v w' [-> _].
Qed.

(** A call of the gateway. *)
Lemma hst_core {B : Type} n (f : ice_handle J -> X -> B * (ice_handle J * X)) lk po sn rf k w :
  hst n lk po sn rf k w -> (forall v x, core_keeps v (f v x).2.1) ->
  wp (core_call h f) (fun _ => hst n lk po sn rf k) w.
Proof.
  intros (v & Hv & Hlk & Hpo & Hsn & Hpt & Hrf & Hk) Hf. unfold core_call, get_handle. wp_steps.
  eapply wp_live; [done|]. cbn beta. wp_steps. specialize (Hf v (core w)).
  destruct (f v (core w)) as [b [v' x']]. cbn in Hf. destruct Hf as (H1' & H2' & H3' & H4').
  wp_steps. exists v'. cbn. rewrite lookup_insert_eq, H3'. split_and!; try done; [by rewrite H1'| |naive_solver].
  rewrite <- Hpo. by apply bool_decide_ext.
Qed.

Lemma hst_decref n lk po sn k w : hst n lk po sn 1 k w -> wp root_decref (fun _ => hst n lk po sn 0 k) w.
Proof.
  intros (v & Hv & Hlk & Hpo & Hsn & Hpt & Hrf & Hk). unfold root_decref. wp_steps. rewrite Hrf. cbn. wp_steps.
  exists v. cbn. rewrite Hrf. by split_and!.
Qed.

(** An answer. *)
Lemma hst_send n lk po sn rf k kvs w :
  hst n lk po sn rf k w ->
  wp (send_reply cl (json_object kvs)) (fun b w' => b = true /\ hst n lk po sn rf ((cl, json_object kvs) :: k) w') w.
Proof.
  intros (v & Hv & Hlk & Hpo & Hsn & Hpt & Hrf & Hk). unfold send_reply.
  destruct (json_dumps _) eqn:Hd; [|by apply object_printable in Hd]. wp_steps. split; [done|].
  exists v. cbn. rewrite Hk. by split_and!.
Qed.

Lemma hst_error n grund lk po sn k w :
  hst n lk po sn 1 k w -> wp (janus_process_e cl grund) (fun _ => hst n lk po sn 0 ((cl, error_reply grund) :: k)) w.
Proof.
  intros Hin. unfold janus_process_e. apply wp_bind. eapply wp_mono; [by apply hst_send|]. intros b w' [-> Hin'].
  by apply hst_decref.
Qed.

(** The answer to this message: one, and the mutex is free. *)
Definition answered (k : list (loc * J)) w : Prop :=
  exists n sn rf reply, hst n false false sn rf ((cl, reply) :: k) w.

Lemma hst_fail_reply n grund po sn k w :
  hst n true po sn 1 k w -> wp (fail_reply_first h cl grund) (fun _ => answered k) w.
Proof.
  intros Hin. unfold fail_reply_first. hstep hst_error. hstep (hst_clear _ WEBRTC_PROCESSING_OFFER).
  eapply wp_mono; [by apply hst_unlock|]. cbn beta. intros _ w' Hw. rewrite bool_decide_true, andb_false_r in Hw by done.
  by eexists _, _, _, _.
Qed.

Lemma hst_fail_clear n grund po sn k w :
  hst n true po sn 1 k w -> wp (fail_clear_first h cl grund) (fun _ => answered k) w.
Proof.
  intros Hin. unfold fail_clear_first. hstep (hst_clear _ WEBRTC_PROCESSING_OFFER). hstep hst_error.
  eapply wp_mono; [by apply hst_unlock|]. cbn beta. intros _ w' Hw. rewrite bool_decide_true, andb_false_r in Hw by done.
  by eexists _, _, _, _.
Qed.

Lemma hst_kind n jt po sn k w :
  hst n true po sn 1 k w ->
  wp (jsep_kind h jt) (fun o w' => exists po', hst n true po' sn 1 k w') w.
Proof.
  intros Hin. unfold jsep_kind. destruct (strcasecmp_eq jt "offer"); [|destruct (strcasecmp_eq jt "answer")].
  - hstep hst_set. hstep hst_set. hstep hst_clear. wp_steps. eauto.
  - hstep hst_set. wp_steps. eauto.
  - wp_steps. eauto.
Qed.

Lemma hst_parse_all n cs lk po sn rf k w :
  hst n lk po sn rf k w -> wp (parse_all h cs) (fun _ => hst n lk po sn rf k) w.
Proof.
  revert w. induction cs as [|c cs IH]; intros w Hin; cbn [parse_all]; [by wp_steps|].
  hstep @hst_core; [apply trickle_parse_keeps|]. by apply IH.
Qed.

Lemma hst_one_trickle n t lk po sn rf k w :
  hst n lk po sn rf k w -> wp (one_trickle h t) (fun _ => hst n lk po sn rf k) w.
Proof.
  intros Hin. unfold one_trickle. destruct t as [t|]; [|by wp_steps]. wp_steps. destruct (_ <? _)%Z; [by wp_steps|].
  destruct (candidate t) as [c|]; [|by wp_steps]. destruct (json_is_object c).
  - hstep @hst_core; [apply trickle_parse_keeps|]. by wp_steps.
  - destruct (json_array_items c); [by apply hst_parse_all|by wp_steps].
Qed.

(** The loop over the pending trickles ends, with none left: each turn takes one off. *)
Lemma hst_drain f n lk po sn rf k w :
  hst n lk po sn rf k w -> n < f -> wp (drain_trickles f h) (fun _ => hst 0 lk po sn rf k) w.
Proof.
  revert n w. induction f as [|f IH]; intros n w Hin Hn; [lia|].
  pose proof Hin as (v & Hv & Hlk & Hpo & Hsn & Hpt & Hrf & Hk). cbn [drain_trickles]. unfold get_handle. wp_steps.
  eapply wp_live; [done|]. cbn beta. destruct (pending_trickles v) as [|t ts] eqn:Hp.
  { wp_steps. exists v. rewrite Hp. by split_and!. }
  cbn in Hpt.
  destruct n as [|n]; [lia|]. set (w1 := w_handles <[h := h_pending_trickles (fun _ => ts) v]> w).
  apply wp_bind, (run_wp _ _ _ tt w1);
    [unfold update_handle, get_handle; rewrite bind_assoc; run eq_refl; by rewrite Hv|].
  assert (Hin1 : hst n lk po sn rf k w1).
  { exists (h_pending_trickles (fun _ => ts) v). cbn. rewrite lookup_insert_eq. split_and!; try done. lia. }
  hstep hst_one_trickle. apply (IH n); [done|lia].
Qed.

(** The wait for a cleaning session takes at most thirty sleeps. *)
Lemma hst_wait f n waited lk po sn rf k w :
  hst n lk po sn rf k w -> (waited < 3000000)%Z -> (3000000 - waited <= 100000 * Z.of_nat f)%Z ->
  wp (wait_cleaning f h waited) (fun _ => hst n lk po sn rf k) w.
Proof.
  revert waited w. induction f as [|f IH]; intros waited w Hin Hw Hf; [lia|]. cbn [wait_cleaning].
  hstep hst_is_set. destruct (negb _); [by wp_steps|]. hstep @hst_core; [intros; apply other_threads_keep|].
  destruct (Z.leb_spec 3000000 (waited + 100000)); [by wp_steps|]. apply IH; [done|lia|lia].
Qed.

(** Setting up ICE for an offer leaves a stream. *)
Lemma hst_setup_local n avd dt lk po sn rf k w :
  hst n lk po sn rf k w ->
  wp (core_call h (janus_ice_setup_local true avd dt))
    (fun rc w' => hst n lk po sn rf k w' /\ ((0 <= rc)%Z -> hst n lk po true rf k w')) w.
Proof.
  intros (v & Hv & Hlk & Hpo & Hsn & Hpt & Hrf & Hk). unfold core_call, get_handle. wp_steps.
  eapply wp_live; [done|]. cbn beta. wp_steps. pose proof (setup_local_keeps true avd dt v (core w)) as Hf.
  pose proof (setup_local_stream true avd dt v (core w)) as Hs.
  destruct (janus_ice_setup_local true avd dt v (core w)) as [b [v' x']]. cbn in Hf, Hs.
  destruct Hf as (H1' & H2' & H3' & H4'). assert (bool_decide (WEBRTC_PROCESSING_OFFER ∈ webrtc_flags v') = po) by
    (rewrite <- Hpo; by apply bool_decide_ext).
  wp_steps. split; [|intros Hb]; exists v'; cbn; rewrite lookup_insert_eq, H3', H1'; split_and!; try done; naive_solver.
Qed.

(** A piece of work on the SDP under the mutex: done, or answered and the mutex free. *)
Definition sdp_post (k : list (loc * J)) (ok : bool) w : Prop :=
  if ok then exists n po sn, hst n true po sn 1 k w else answered k w.

Lemma fail_clear_post n grund po sn k w :
  hst n true po sn 1 k w -> wp (fail_clear_first h cl grund;; mret false) (sdp_post k) w.
Proof. intros Hin. hstep hst_fail_clear. by wp_steps. Qed.
Lemma sdp_ok n po sn k w : hst n true po sn 1 k w -> sdp_post k true w.
Proof. by eexists _, _, _. Qed.
Lemma sdp_done n po sn k w : hst n true po sn 1 k w -> wp (mret true) (sdp_post k) w.
Proof. by eexists _, _, _. Qed.
Hint Resolve fail_clear_post sdp_ok sdp_done : core.

(** Behind an answer. *)
Lemma hst_start_ice n po sn k w :
  hst n true po sn 1 k w ->
  wp (trickle ← janus_flags_is_set h WEBRTC_TRICKLE;
      all ← janus_flags_is_set h WEBRTC_ALL_TRICKLES;
      (if trickle && negb all then janus_flags_set h WEBRTC_START
       else
         v ← get_handle h;
         if (0 <? stream_id v)%Z then core_call h janus_ice_setup_remote_candidates;; mret tt else mret tt);;
      mret true) (sdp_post k) w.
Proof.
  intros Hin. hstep hst_is_set. hstep hst_is_set. apply wp_bind. destruct (_ && _).
  - eapply wp_mono; [by apply hst_set|]. cbn beta. eauto.
  - hstep hst_get as v _ [-> _]. destruct (_ <? _)%Z; [|wp_steps; eauto].
    hstep @hst_core; [apply remote_candidates_keep|]. wp_steps. eauto.
Qed.

Lemma hst_new_session fuel n offer jsdp sdp avd dt po sn k w :
  hst n true po sn 1 k w -> n < fuel ->
  wp (new_session fuel h cl offer jsdp sdp avd dt) (sdp_post k) w.
Proof.
  intros Hin Hn. unfold new_session. hstep hst_get as v _ [-> _].
  apply wp_bind. apply (wp_mono _ (fun ok w' => if (ok : bool) then hst n true po (offer || sn) 1 k w' else answered k w')).
  - destruct offer.
    + hstep hst_setup_local as rc w1 [Hno Hyes]. destruct (Z.ltb_spec rc 0).
      * hstep hst_fail_clear. by wp_steps.
      * wp_steps. auto.
    + destruct (negb _); [|by wp_steps]. hstep hst_fail_clear. by wp_steps.
  - intros [] w1 Hw1; cbn [negb]; [|by wp_steps]. hstep @hst_core; [apply sdp_process_keeps|].
    destruct (_ <? _)%Z; [eauto|]. destruct offer; cbn [negb orb] in *.
    + hstep hst_get as v2 _ [-> Hs]. destruct (stream v2) as [s|] eqn:Es; [|by destruct Hs].
      apply wp_bind. eapply wp_deref; [done|]. cbn beta.
      apply wp_bind. eapply wp_mono; [eapply (hst_update _ _ _ _ _ _ _ true po true); [done|]|cbn beta; eauto].
      intros v3 Hlk Hpo _. by split_and!.
    + hstep hst_set. hstep hst_clear. hstep hst_drain. by eapply hst_start_ice.
Qed.

Lemma hst_renegotiate sctp n offer sdp po sn k w :
  hst n true po sn 1 k w -> wp (renegotiate sctp h cl offer sdp) (sdp_post k) w.
Proof.
  intros Hin. unfold renegotiate. hstep @hst_core; [apply sdp_process_keeps|]. destruct (_ <? _)%Z; [eauto|].
  hstep hst_is_set as restart w0 Hw0. apply wp_bind, (wp_mono _ (fun _ w' => exists po', hst n true po' sn 1 k w')).
  - destruct restart; [|wp_steps; eauto]. hstep hst_get as v _ [-> _]. apply wp_bind.
    apply (wp_mono _ (fun _ => hst n true po sn 1 k)).
    { case_bool_decide; [|by wp_steps]. hstep @hst_core; [apply credentials_keep|]. by wp_steps. }
    intros _ w1 Hw1. apply wp_bind, (wp_mono _ (fun _ w' => exists po', hst n true po' sn 1 k w')).
    { destruct offer; [|eapply wp_mono; [by apply hst_clear|]; cbn beta; eauto].
      hstep @hst_core; [apply restart_keeps|]. wp_steps. eauto. }
    intros _ w2 [po2 Hw2]. wp_steps. apply wp_when; [|eauto]. intros _. eapply wp_mono; [by apply hst_set|].
    cbn beta. eauto.
  - intros _ w1 [po1 Hw1]. apply wp_bind, (wp_mono _ (fun _ => hst n true po1 sn 1 k)); [|eauto].
    destruct (_ && _); [|by wp_steps]. hstep hst_is_set as dc w2 Hw2. destruct dc; [|by wp_steps].
    hstep @hst_core; [apply datachannels_keep|]. by wp_steps.
Qed.

Definition jsep_post (k : list (loc * J)) (j : option jsep_ok) w : Prop :=
  match j with None => answered k w | Some _ => exists n sn, hst n false false sn 1 k w end.

Lemma fail_reply_post n grund po sn k w :
  hst n true po sn 1 k w -> wp (fail_reply_first h cl grund;; mret None) (jsep_post k) w.
Proof. intros Hin. hstep hst_fail_reply. by wp_steps. Qed.

Lemma error_post n grund sn k w :
  hst n false false sn 1 k w -> wp (janus_process_e cl grund;; mret None) (jsep_post k) w.
Proof. intros Hin. hstep hst_error. wp_steps. by eexists _, _, _, _. Qed.

(** The end of the work on an SDP, behind the mutex. *)
Lemma hst_jsep_end n jsdp rc j po sn k w :
  hst n true po sn 1 k w ->
  wp (update_handle h (h_remote_sdp (fun _ => jsdp));; janus_mutex_unlock h;;
      if (rc <? 0)%Z then
        janus_process_e cl "JSEP error: invalid SDP";; janus_flags_clear h WEBRTC_PROCESSING_OFFER;; mret None
      else janus_flags_clear h WEBRTC_PROCESSING_OFFER;; mret (Some j)) (jsep_post k) w.
Proof.
  intros Hin. apply wp_bind. eapply wp_mono.
  { eapply (hst_update _ _ _ _ _ _ _ true po sn); [done|]. intros v Hlk Hpo Hsn. by split_and!. }
  cbn beta. intros _ w1 Hw1. hstep hst_unlock. destruct (_ <? _)%Z.
  - hstep hst_error. hstep (hst_clear _ WEBRTC_PROCESSING_OFFER) as ? w2 Hw2.
    rewrite bool_decide_true, andb_false_r in Hw2 by done. wp_steps. by eexists _, _, _, _.
  - hstep (hst_clear _ WEBRTC_PROCESSING_OFFER) as ? w2 Hw2.
    rewrite bool_decide_true, andb_false_r in Hw2 by done. wp_steps. by eexists _, _.
Qed.

Lemma hst_apply_jsep fuel sctp n jsep sn k w :
  hst n false false sn 1 k w -> n < fuel ->
  (json_is_object jsep = true -> is_Some (json_object_get jsep "type" ≫= json_string_value)) ->
  wp (apply_jsep fuel sctp h cl jsep) (jsep_post k) w.
Proof.
  intros Hin Hn Ht. unfold apply_jsep. destruct (json_is_object jsep); cbn [negb]; [|by eapply error_post].
  destruct (Ht eq_refl) as [jt ->].
  apply wp_bind. eapply wp_mono; [apply (hst_wait 31 n 0); [done|lia|lia]|]. cbn beta. intros ready w1 Hw1.
  destruct ready; cbn [negb]; [|by eapply error_post]. hstep hst_lock. apply wp_bind. eapply wp_deref; [done|].
  cbn beta. hstep hst_kind as kind w2 [po Hw2]. destruct kind as [offer|]; [|by eapply fail_reply_post].
  wp_steps. destruct (janus_sdp_preparse _ _) as [e|[sdp avd]]; [by eapply fail_reply_post|].
  hstep hst_is_set. hstep hst_is_set. apply wp_bind, (wp_mono _ (sdp_post k)).
  - destruct (_ || _); [by eapply hst_new_session|by eapply hst_renegotiate].
  - intros [] w3 Hw3; cbn [negb]; [|by wp_steps]. destruct Hw3 as (n3 & po3 & sn3 & Hw3).
    destruct (janus_sdp_anonymize sdp) as [rc sdp']. by eapply hst_jsep_end.
Qed.

Lemma hst_answer session sid v plugin result n sn k w :
  hst n false false sn 1 k w -> wp (answer_result cl (Some session) sid v plugin result) (fun _ => answered k) w.
Proof.
  assert (He : forall grund, hst n false false sn 1 k w -> wp (janus_process_e cl grund) (fun _ => answered k) w).
  { intros g Hin. eapply wp_mono; [by apply hst_error|]. cbn beta. intros _ w' Hw. by eexists _, _, _, _. }
  intros Hin. unfold answer_result. destruct result as [[[] text content]|]; cbn [r_type r_text r_content]; eauto.
  - destruct content as [c|]; eauto. destruct (json_is_object c); eauto. apply wp_bind. eapply wp_deref; [done|]. cbn beta.
    hstep hst_send as b w' [_ Hw]. wp_steps. by eexists _, _, _, _.
  - hstep hst_send as b w' [_ Hw]. wp_steps. by eexists _, _, _, _.
Qed.

Lemma hst_to_plugin session sid plugin body j n sn k w :
  hst n false false sn 1 k w -> wp (to_plugin h cl (Some session) sid plugin body j) (fun _ => answered k) w.
Proof.
  intros Hin. unfold to_plugin.
  assert (He : wp (janus_process_e cl "No plugin to handle this message";; janus_flags_clear h WEBRTC_PROCESSING_OFFER)
                 (fun _ => answered k) w).
  { hstep hst_error. eapply wp_mono; [by apply hst_clear|]. cbn beta. intros _ w' Hw. by eexists _, _, _, _. }
  hstep hst_get as v _ [-> _]. wp_steps. destruct (app v), (app_handle v); try done. destruct (negb _); [done|].
  destruct (handle_message _ _ _ _ _) as [result x']. wp_steps. eapply hst_answer.
  destruct Hin as (v1 & ?). by exists v1.
Qed.

(** The jsep of a message, if it is an object, says its type. *)
Definition typed_jsep (root : J) : Prop :=
  forall jsep, json_object_get root "jsep" = Some jsep -> json_is_object jsep = true ->
    is_Some (json_object_get jsep "type" ≫= json_string_value).

Lemma hst_incoming fuel sctp session root sid n sn k w :
  hst n false false sn 1 k w -> n < fuel -> typed_jsep root ->
  wp (incoming_message fuel sctp (Some h) (Some session) root sid cl) (fun _ => answered k) w.
Proof.
  intros Hin Hn Ht. unfold incoming_message.
  hstep hst_get as v _ [-> _]. 
  assert (He : wp (janus_process_e cl "No plugin to handle this message") (fun _ => answered k) w).
  { eapply wp_mono; [by apply hst_error|]. cbn beta. intros _ w' Hw. by eexists _, _, _, _. }
  destruct (app v) as [plugin|], (app_handle v); try done.
  assert (Hrf : root_refs w = 1%Z) by by destruct Hin as (? & ? & ? & ? & ? & ? & ? & ?).
  unfold root_get, use_root. wp_steps. rewrite Hrf. cbn. wp_steps. rewrite Hrf. cbn. wp_steps.
  destruct (json_object_get root "jsep") as [jsep|] eqn:Ej; [|by eapply hst_to_plugin].
  hstep hst_apply_jsep as j w1 Hw1. destruct j as [j|]; [|by wp_steps].
  destruct Hw1 as (n1 & sn1 & Hw1). by eapply hst_to_plugin.
Qed.
End Incoming.

(** ** Theorems *)

Section Theorems.
Context {X D J : Type} `{!JanusCore X D J} `{!Jansson J}.
Implicit Types w : jworld X J.


(** *** Single runs *)

Lemma get_handle_run h v w : handles w !! h = Some v -> get_handle h w = Done (v, w).
Proof. intros Hv. unfold get_handle. run eq_refl. by rewrite Hv. Qed.

Lemma update_handle_run h f v w :
  handles w !! h = Some v -> update_handle h f w = Done (tt, w_handles <[h := f v]> w).
Proof. intros Hv. unfold update_handle. by run (get_handle_run h v w Hv). Qed.

Lemma is_set_run h f v w :
  handles w !! h = Some v -> janus_flags_is_set h f w = Done (bool_decide (f ∈ webrtc_flags v), w).
Proof. intros Hv. unfold janus_flags_is_set. by run (get_handle_run h v w Hv). Qed.

Lemma lock_run h v w :
  handles w !! h = Some v -> locked v = false ->
  janus_mutex_lock h w = Done (tt, w_handles <[h := h_locked (fun _ => true) v]> w).
Proof.
  intros Hv Hlk. unfold janus_mutex_lock. run (get_handle_run h v w Hv). rewrite Hlk. by apply update_handle_run.
Qed.

Lemma unlock_run h v w :
  handles w !! h = Some v -> locked v = true ->
  janus_mutex_unlock h w = Done (tt, w_handles <[h := h_locked (fun _ => false) v]> w).
Proof.
  intros Hv Hlk. unfold janus_mutex_unlock. run (get_handle_run h v w Hv). rewrite Hlk. by apply update_handle_run.
Qed.

Lemma unlock_crash h v w :
  handles w !! h = Some v -> locked v = false -> janus_mutex_unlock h w = Crash LockMisuse.
Proof. intros Hv Hlk. unfold janus_mutex_unlock. run (get_handle_run h v w Hv). by rewrite Hlk. Qed.

Lemma use_root_run w : (0 < root_refs w)%Z -> use_root w = Done (tt, w).
Proof. intros Hrf. unfold use_root. run eq_refl. by destruct (Z.leb_spec (root_refs w) 0); [lia|]. Qed.

Lemma root_get_run root k w : (0 < root_refs w)%Z -> root_get root k w = Done (json_object_get root k, w).
Proof. intros Hrf. unfold root_get. by run (use_root_run w Hrf). Qed.

Lemma wait_cleaning_run n h z v w :
  handles w !! h = Some v -> WEBRTC_CLEANING ∉ webrtc_flags v -> wait_cleaning (S n) h z w = Done (true, w).
Proof.
  intros Hv Hcl. cbn [wait_cleaning]. run (is_set_run h WEBRTC_CLEANING v w Hv). by rewrite bool_decide_false.
Qed.

(** The type of a message's jsep goes to strcasecmp unchecked: without one, or with one
    that is not a string, the server dies of a null pointer, on any handle with a plugin. *)
Theorem untyped_jsep_crashes fuel sctp h session root sid cl v jsep w :
  handles w !! h = Some v -> is_Some (app v) -> is_Some (app_handle v) -> locked v = false ->
  WEBRTC_CLEANING ∉ webrtc_flags v -> (0 < root_refs w)%Z ->
  json_object_get root "jsep" = Some jsep -> json_is_object jsep = true ->
  json_object_get jsep "type" ≫= json_string_value = None ->
  incoming_message fuel sctp (Some h) session root sid cl w = Crash NullDeref.
Proof.
  intros Hv [p Hp] [ah Hah] Hlk Hcl Hrf Hj Hobj Ht. unfold incoming_message.
  run (get_handle_run h v w Hv). rewrite Hp, Hah. run (root_get_run _ _ w Hrf). run (root_get_run _ _ w Hrf). rewrite Hj.
  apply bind_crash. unfold apply_jsep. rewrite Hobj, Ht. cbn [negb]. run (wait_cleaning_run 30 h 0 v w Hv Hcl).
  cbn [negb]. by run (lock_run h v w Hv Hlk).
Qed.

(** The checks of a trickle message that has a plugin and one of the two elements. *)
Lemma trickle_checks_pass h root cl v ah w :
  handles w !! h = Some v -> is_Some (app v) -> app_handle v = Some ah ->
  janus_plugin_session_is_alive ah (core w) = true -> WEBRTC_CLEANING ∉ webrtc_flags v -> (0 < root_refs w)%Z ->
  (json_object_get root "candidate" = None <-> is_Some (json_object_get root "candidates")) ->
  trickle_checks (Some h) root cl w = Done ((json_object_get root "candidate", json_object_get root "candidates"), w).
Proof.
  intros Hv [p Hp] Hah Hal Hcl Hrf Hc. unfold trickle_checks. rewrite bool_decide_false by done.
  run eq_refl. cbn [deref]. run eq_refl. run (get_handle_run h v w Hv). run eq_refl. rewrite Hp, Hah, Hal.
  run eq_refl. run (root_get_run _ _ w Hrf). run (root_get_run _ _ w Hrf).
  destruct (json_object_get root "candidate") as [c|], (json_object_get root "candidates") as [cs|];
    [destruct Hc as [_ Hc]; naive_solver| | |destruct Hc as [[? [=]] _]; done];
    (run eq_refl; run eq_refl; run (is_set_run h _ v w Hv); rewrite bool_decide_false by done; by run eq_refl).
Qed.

Lemma support_trickle_run h v w :
  handles w !! h = Some v ->
  support_trickle h w = Done (tt, w_handles <[h := h_webrtc_flags (union {[WEBRTC_TRICKLE]}) v]> w).
Proof.
  intros Hv. unfold support_trickle. run (is_set_run h WEBRTC_TRICKLE v w Hv). case_bool_decide as Ht; cbn [negb whenM].
  - assert (h_webrtc_flags (union {[WEBRTC_TRICKLE]}) v = v) as ->.
    { destruct v. cbv [h_webrtc_flags webrtc_flags] in *. f_equal. cbn. set_solver. }
    destruct w. cbv [w_handles handles] in *. cbn. by rewrite insert_id.
  - by apply update_handle_run.
Qed.

Lemma process_er_run `{!PrintableReplies J} cl grund w :
  (0 < root_refs w)%Z ->
  janus_process_er cl grund w = Done (tt, w_root_refs (fun n => n - 1)%Z (w_sent (cons (cl, error_reply grund)) w)).
Proof.
  intros Hrf. unfold janus_process_er, send_reply, error_reply.
  destruct (json_dumps _) eqn:Hd; [|by apply object_printable in Hd]. rewrite bind_assoc. run eq_refl. run eq_refl.
  unfold root_decref. run eq_refl. cbn. by destruct (Z.leb_spec (root_refs w) 0); [lia|].
Qed.

(** The handle while a trickle message is worked on. *)
Definition trickling (v : ice_handle J) : ice_handle J :=
  h_webrtc_flags (union {[WEBRTC_TRICKLE]}) (h_locked (fun _ => true) v).

(** A candidate cannot be used yet. *)
Definition too_early (v : ice_handle J) : Prop :=
  stream v = None \/ WEBRTC_PROCESSING_OFFER ∈ webrtc_flags v \/ WEBRTC_GOT_OFFER ∉ webrtc_flags v \/
  WEBRTC_GOT_ANSWER ∉ webrtc_flags v.

Lemma trickle_start h root sid cl v ah w :
  handles w !! h = Some v -> locked v = false -> is_Some (app v) -> app_handle v = Some ah ->
  janus_plugin_session_is_alive ah (core w) = true -> WEBRTC_CLEANING ∉ webrtc_flags v -> (0 < root_refs w)%Z ->
  (json_object_get root "candidate" = None <-> is_Some (json_object_get root "candidates")) ->
  do_trickle (Some h) root sid cl w =
  ((if bool_decide (too_early v)
    then queue_trickle h (match json_object_get root "candidate" with
                          | Some c => Some c | None => json_object_get root "candidates" end)
    else trickle_now h cl (json_object_get root "candidate") (json_object_get root "candidates"));;
   janus_mutex_unlock h;; send_reply cl (trickle_ack sid);; mret tt) (w_handles <[h := trickling v]> w).
Proof.
  intros Hv Hlk Hp Hah Hal Hcl Hrf Hc. unfold do_trickle.
  run (trickle_checks_pass h root cl v ah w Hv Hp Hah Hal Hcl Hrf Hc). cbn [deref]. run eq_refl.
  run (lock_run h v w Hv Hlk). set (w1 := w_handles _ w).
  assert (Hv1 : handles w1 !! h = Some (h_locked (fun _ => true) v)) by apply lookup_insert_eq.
  run (support_trickle_run h _ w1 Hv1).
  assert (Hw2 : w_handles <[h := trickling v]> w1 = w_handles <[h := trickling v]> w)
    by (subst w1; cbv [w_handles handles]; cbn; by rewrite insert_insert_eq).
  fold (trickling v). rewrite Hw2. set (w2 := w_handles _ w).
  assert (Hv2 : handles w2 !! h = Some (trickling v)) by apply lookup_insert_eq.
  run (get_handle_run h _ w2 Hv2).
  assert (Hb : bool_decide (stream (trickling v) = None) || (bool_decide (WEBRTC_PROCESSING_OFFER ∈ webrtc_flags (trickling v))
     || negb (bool_decide (WEBRTC_GOT_OFFER ∈ webrtc_flags (trickling v)))
     || negb (bool_decide (WEBRTC_GOT_ANSWER ∈ webrtc_flags (trickling v)))) = bool_decide (too_early v)).
  { assert (Hf : forall f, f <> WEBRTC_TRICKLE -> bool_decide (f ∈ webrtc_flags (trickling v)) = bool_decide (f ∈ webrtc_flags v))
      by (intros f Hf; apply bool_decide_ext; cbn; set_solver).
    rewrite !Hf by done. unfold too_early. cbn [trickling h_webrtc_flags h_locked stream].
    repeat case_bool_decide; cbn; tauto. }
  cbv zeta. by rewrite Hb.
Qed.

(** A candidate that comes before the SDP it belongs to, while an offer is processed, or
    without both offer and answer, is appended to the handle's pending trickles, where the
    answer's drain finds it; the mutex is free again and the client gets one
    acknowledgement. *)
Theorem trickle_queued `{!PrintableReplies J} h root sid cl v ah w :
  handles w !! h = Some v -> locked v = false -> is_Some (app v) -> app_handle v = Some ah ->
  janus_plugin_session_is_alive ah (core w) = true -> WEBRTC_CLEANING ∉ webrtc_flags v -> (0 < root_refs w)%Z ->
  (json_object_get root "candidate" = None <-> is_Some (json_object_get root "candidates")) -> too_early v ->
  do_trickle (Some h) root sid cl w =
  Done (tt, w_sent (cons (cl, trickle_ack sid))
    (w_handles <[h :=
       h_pending_trickles (fun l => l ++ [janus_ice_trickle_new (trickling v)
         (match json_object_get root "candidate" with
          | Some c => Some c | None => json_object_get root "candidates" end) (core w)])
       (h_webrtc_flags (union {[WEBRTC_TRICKLE]}) v)]> w)).
Proof.
  intros Hv Hlk Hp Hah Hal Hcl Hrf Hc He.
  rewrite (trickle_start h root sid cl v ah w Hv Hlk Hp Hah Hal Hcl Hrf Hc), bool_decide_true by done.
  set (c := match json_object_get root "candidate" with Some _ => _ | None => _ end).
  set (w2 := w_handles _ w). assert (Hv2 : handles w2 !! h = Some (trickling v)) by apply lookup_insert_eq.
  unfold queue_trickle. rewrite bind_assoc.
  rewrite (bind_step _ _ w2 tt w2) by (case_bool_decide; [by apply use_root_run|done]).
  rewrite bind_assoc. run (get_handle_run h _ w2 Hv2). rewrite bind_assoc. run eq_refl.
  run (update_handle_run h _ _ w2 Hv2). set (w3 := w_handles _ w2).
  set (v3 := h_pending_trickles _ _) in w3. assert (Hv3 : handles w3 !! h = Some v3) by apply lookup_insert_eq.
  run (unlock_run h v3 w3 Hv3 eq_refl). unfold send_reply, trickle_ack.
  destruct (json_dumps _) eqn:Hd; [|by apply object_printable in Hd]. rewrite bind_assoc. run eq_refl. cbn.
  do 3 f_equal. subst w3 w2 v3. cbv [w_handles handles]. cbn. rewrite !insert_insert_eq.
  destruct v. cbn in Hlk. by subst.
Qed.

(** A candidate that does not parse unlocks the handle's mutex on its way and again at
    the end: the jump over the second unlock is commented out. *)
Theorem trickle_double_unlock `{!JanusCoreLaws X D J} `{!PrintableReplies J} h root sid cl v ah c w :
  handles w !! h = Some v -> locked v = false -> is_Some (app v) -> app_handle v = Some ah ->
  janus_plugin_session_is_alive ah (core w) = true -> WEBRTC_CLEANING ∉ webrtc_flags v -> (0 < root_refs w)%Z ->
  json_object_get root "candidate" = Some c -> json_object_get root "candidates" = None -> ~ too_early v ->
  (janus_ice_trickle_parse c (trickling v) (core w)).1 <> 0%Z ->
  do_trickle (Some h) root sid cl w = Crash LockMisuse.
Proof.
  intros Hv Hlk Hp Hah Hal Hcl Hrf Hc Hcs He Hparse.
  rewrite (trickle_start h root sid cl v ah w Hv Hlk Hp Hah Hal Hcl Hrf)
    by (rewrite Hc, Hcs; split; [done|by intros []]).
  rewrite bool_decide_false, Hc by done.
  set (w2 := w_handles _ w). assert (Hv2 : handles w2 !! h = Some (trickling v)) by apply lookup_insert_eq.
  unfold trickle_now. rewrite bind_assoc. run (use_root_run w2 Hrf). unfold core_call.
  rewrite !bind_assoc. run (get_handle_run h _ w2 Hv2). rewrite !bind_assoc. run eq_refl. change (core w2) with (core w).
  pose proof (trickle_parse_keeps c (trickling v) (core w)) as (Hl & _).
  destruct (janus_ice_trickle_parse c (trickling v) (core w)) as [e [v' x']]. cbn in Hl, Hparse.
  rewrite !bind_assoc. run eq_refl. rewrite !bind_assoc. run eq_refl. run eq_refl. rewrite (proj2 (Z.eqb_neq _ _) Hparse). cbn [negb].
  set (w3 := w_core _ _). assert (Hv3 : handles w3 !! h = Some v') by apply lookup_insert_eq.
  rewrite bind_assoc. run (process_er_run cl "error_string" w3 Hrf). set (w4 := w_root_refs _ _).
  run (unlock_run h v' w4 Hv3 Hl). apply bind_crash. eapply unlock_crash; [apply lookup_insert_eq|done].
Qed.
End Theorems.

(** ** A concrete gateway, for the witnesses: its state is the time; a candidate parses if it
    is an object *)

Section Witnesses.
Definition w_stream : ice_stream := IceStream 1 false 0 (0, 0, 0)%Z None.
Definition w_same (v : ice_handle json) (x : Z) : unit * (ice_handle json * Z) := (tt, (v, x)).

#[local] Instance w_core_instance : JanusCore Z string json := {|
  janus_plugin_session_is_alive := fun _ _ => true;
  janus_get_monotonic_time := fun x => x;
  other_threads := fun v x => (v, (x + 100000)%Z);
  janus_sdp_preparse := fun s _ => match s with Some s => inr (s, (1, 1, 0)%Z) | None => inl "no SDP" end;
  janus_ice_setup_local := fun _ _ _ v x => (0%Z, (h_stream (fun _ => Some w_stream) v, x));
  janus_sdp_process := fun _ _ v x => (0%Z, (v, x));
  janus_ice_trickle_new := fun _ c x => Some (IceTrickle x c);
  janus_ice_trickle_parse := fun c v x => ((if json_is_object c then 0 else -1)%Z, (v, x));
  janus_ice_setup_remote_candidates := w_same;
  janus_rtp_header_extension_get_id := fun _ => 5%Z;
  nice_agent_set_remote_credentials := w_same;
  janus_ice_restart := w_same;
  janus_ice_is_full_trickle_enabled := fun _ => false;
  create_datachannels := w_same;
  janus_sdp_anonymize := fun s => (0%Z, s);
  janus_sdp_write := fun s => s;
  get_package := fun _ => "janus.plugin.echotest";
  handle_message := fun _ _ _ _ x => (Some (PluginResult JANUS_PLUGIN_OK_WAIT (Some "I'm taking my time!") None), x)
|}.

#[local] Instance w_core_laws : JanusCoreLaws Z string json.
Proof. by split. Qed.
#[local] Instance w_printable : PrintableReplies json.
Proof. by split. Qed.

Definition w_handle (fl : gset webrtc_flag) (s : option ice_stream) : ice_handle json :=
  IceHandle 7 None (Some 3) (Some 4) fl false false s 1 0 [] None None.
Definition w_world (v : ice_handle json) : jworld Z json := JWorld {[2 := v]} 0%Z 1%Z [].
Definition w_offer : json := JObject [("jsep", JObject [("type", JString "offer"); ("sdp", JString "v=0")])].
Definition w_untyped : json := JObject [("jsep", JObject [("sdp", JString "v=0")])].
Definition w_candidate (c : json) : json := JObject [("candidate", c)].

(** An offer is acknowledged, with the plugin's hint, and leaves the stream with transport-wide
    congestion control. *)
Example offer_run :
  (fun o => (fun w => (sent w, fmap (fun v => (locked v, do_transport_wide_cc <$> stream v, remote_sdp v)) (handles w !! 2)))
     <$> result_state o) (incoming_message 1 false (Some 2) (Some 9%Z) w_offer 9 5 (w_world (w_handle ∅ None))) =
  Some ([(5, JObject [("type", JString "janus_ack"); ("session_id", JInteger 9); ("hint", JString "I'm taking my time!");
                      ("transaction", JString "transaction_text")])],
        Some (false, Some true, Some "v=0")).
Proof. vm_compute. reflexivity. Qed.


Lemma untyped_jsep_crashes_witness :
  incoming_message 1 false (Some 2) (Some 9%Z) w_untyped 9 5 (w_world (w_handle ∅ None)) = Crash NullDeref.
Proof.
  eapply (untyped_jsep_crashes 1 false 2 (Some 9%Z) w_untyped 9 5 (w_handle ∅ None)); try reflexivity.
  - by exists 3.
  - by exists 4.
  - apply not_elem_of_empty.
Defined.

Lemma trickle_queued_witness :
  (fun w => pending_trickles <$> handles w !! 2) <$>
    result_state (do_trickle (Some 2) (w_candidate (JObject [])) 9 5 (w_world (w_handle ∅ None))) =
  Some (Some [Some (IceTrickle 0 (Some (JObject [])))]).
Proof.
  rewrite (trickle_queued 2 (w_candidate (JObject [])) 9 5 (w_handle ∅ None) 4); try reflexivity.
  - by exists 3.
  - apply not_elem_of_empty.
  - split; [done|by intros []].
  - by left.
Defined.

Lemma trickle_double_unlock_witness :
  do_trickle (Some 2) (w_candidate (JInteger 1)) 9 5
    (w_world (w_handle {[WEBRTC_GOT_OFFER; WEBRTC_GOT_ANSWER]} (Some w_stream))) = Crash LockMisuse.
Proof.
  eapply (trickle_double_unlock 2 _ 9 5 (w_handle {[WEBRTC_GOT_OFFER; WEBRTC_GOT_ANSWER]} (Some w_stream)) 4);
    try reflexivity.
  - by exists 3.
  - vm_compute. set_solver.
  - intros [?|[?|[?|?]]]; set_solver.
  - done.
Defined.
End Witnesses.
End Janus.
