(* ===== verification/HandleSdp.v ===== *)
(** * The SDP of a plugin: websocket_10/src/handle_sdp.c

    What an event of a plugin carries as its SDP is completed with the handle's ICE
    details before it goes to the client: [janus_plugin_handle_sdp].  The requests' data and
    accessors are those of [Janus]; the session a plugin holds of a handle
    ([janus_plugin_session]) is Janus's, read through the class [SdpCore].  The numbers for
    retransmission are chosen by [next_rtx] and kept in the stream's table. *)

From S2P Require Import Prelude Jansson Janus.

Local Open Scope c_scope.

Module Sdp.
Import Janus.

(** ** Payload types for retransmission *)

Section Rtx.
Local Open Scope Z_scope.

(** [++], and round at 127. *)
Definition rtx_step (rtx_ptype : Z) : Z :=
  let rtx_ptype := rtx_ptype + 1 in if 127 <? rtx_ptype then 96 else rtx_ptype.

(** [while(g_list_find(m->ptypes, rtx_ptype) || g_list_find(rtx_ptypes, rtx_ptype))]; [-1]: a
    whole round. *)
Fixpoint next_rtx (fuel : nat) (ptypes rtx_ptypes : list Z) (ptype rtx_ptype : Z) : option Z :=
  match fuel with
  | O => None
  | S fuel =>
      if bool_decide (rtx_ptype ∈ ptypes) || bool_decide (rtx_ptype ∈ rtx_ptypes) then
        let rtx_ptype := rtx_step rtx_ptype in
        if rtx_ptype =? ptype then Some (-1) else next_rtx fuel ptypes rtx_ptypes ptype rtx_ptype
      else Some rtx_ptype
  end.

(** [g_hash_table_get_values(stream->rtx_payload_types)] *)
Definition rtx_values (tbl : gmap Z Z) : list Z := (map_to_list tbl).*2.

(** [while(tempP)] over the line's payload types. *)
Fixpoint rtx_table (fuel : nat) (ptypes todo : list Z) (tbl : gmap Z Z) : option (gmap Z Z) :=
  match todo with
  | [] => Some tbl
  | ptype :: todo =>
      rtx_ptype ← next_rtx fuel ptypes (rtx_values tbl) ptype (ptype + 1);
      rtx_table fuel ptypes todo (if 0 <? rtx_ptype then <[ptype := rtx_ptype]> tbl else tbl)
  end.

(** *** The search, as a search in a list *)

(** The numbers tried for a dynamic payload type (96 to 127), in order. *)
Definition rtx_candidates (ptype : Z) : list Z :=
  if ptype =? 127 then 128 :: seqZ 96 31 else seqZ (ptype + 1) (127 - ptype) ++ seqZ 96 (ptype - 96).

Definition rtx_free (ptypes rtx_ptypes : list Z) (r : Z) : Prop := r ∉ ptypes /\ r ∉ rtx_ptypes.
#[local] Instance rtx_free_dec ptypes rtx_ptypes r : Decision (rtx_free ptypes rtx_ptypes r).
Proof. unfold rtx_free. apply _. Defined.

(** [l] is walked by [rtx_step] and then comes to [ptype]. *)
Fixpoint rtx_round (ptype : Z) (l : list Z) : bool :=
  match l with
  | [] => false
  | r :: l =>
      match l with
      | [] => rtx_step r =? ptype
      | r' :: _ => (rtx_step r =? r') && negb (r' =? ptype) && rtx_round ptype l
      end
  end.

Lemma taken_spec ptypes rtx_ptypes r :
  bool_decide (r ∈ ptypes) || bool_decide (r ∈ rtx_ptypes) = negb (bool_decide (rtx_free ptypes rtx_ptypes r)).
Proof. unfold rtx_free. repeat case_bool_decide; naive_solver. Qed.

Lemma next_rtx_round ptypes rtx_ptypes ptype r l fuel :
  rtx_round ptype (r :: l) = true -> (length l < fuel)%nat ->
  next_rtx fuel ptypes rtx_ptypes ptype r =
  Some (match list_find (rtx_free ptypes rtx_ptypes) (r :: l) with Some (_, q) => q | None => -1 end).
Proof.
  revert r fuel. induction l as [|r' l IH]; intros r fuel Hround Hf; (destruct fuel as [|fuel]; [cbn in Hf; lia|]);
    cbn [next_rtx]; rewrite taken_spec; cbn [list_find];
    (destruct (decide (rtx_free ptypes rtx_ptypes r)) as [Hfr|Hfr];
      [by rewrite bool_decide_true|rewrite bool_decide_false by done]); cbn [negb]; cbv zeta; cbn [rtx_round] in Hround.
  - apply Z.eqb_eq in Hround. by rewrite Hround, Z.eqb_refl.
  - apply andb_prop in Hround as [[H1%Z.eqb_eq H2]%andb_prop H3]. rewrite H1.
    destruct (r' =? ptype); [done|]. rewrite (IH r' fuel) by first [done|cbn in *; lia].
    cbn [list_find]. destruct (decide _); [done|]. by destruct (list_find _ l) as [[]|].
Qed.

Lemma rtx_candidates_round ptype : 96 <= ptype <= 127 -> rtx_round ptype (rtx_candidates ptype) = true.
Proof.
  intros Hp. assert (Hall : forallb (fun p => rtx_round p (rtx_candidates p)) (seqZ 96 32) = true) by by vm_compute.
  rewrite forallb_forall in Hall. refine (Hall ptype _). apply list_elem_of_In, elem_of_seqZ. lia.
Qed.

Lemma rtx_candidates_start ptype :
  96 <= ptype <= 127 -> exists l, rtx_candidates ptype = (ptype + 1) :: l /\ (length l < 32)%nat.
Proof.
  intros Hp. unfold rtx_candidates. destruct (Z.eqb_spec ptype 127) as [->|]; [exists (seqZ 96 31); split; [done|rewrite length_seqZ; lia]|].
  rewrite (seqZ_cons (ptype + 1)) by lia. eexists. split; [done|]. rewrite length_app, !length_seqZ. lia.
Qed.

(** ** Where the search can end *)

Lemma next_rtx_some fuel ptypes rtx_ptypes ptype r q :
  next_rtx fuel ptypes rtx_ptypes ptype r = Some q -> 0 < r <= 128 ->
  q = -1 \/ (rtx_free ptypes rtx_ptypes q /\ 0 < q <= 128 /\ (q = 128 -> r = 128)).
Proof.
  revert r. induction fuel as [|fuel IH]; intros r Hq Hr; [done|]. cbn [next_rtx] in Hq. rewrite taken_spec in Hq.
  destruct (decide (rtx_free ptypes rtx_ptypes r)) as [Hfr|Hfr];
    [rewrite bool_decide_true in Hq by done|rewrite bool_decide_false in Hq by done]; cbn [negb] in Hq; cbv zeta in Hq.
  - injection Hq as <-. right. split; [done|lia].
  - unfold rtx_step in Hq. destruct (Z.ltb_spec 127 (r + 1)); (destruct (_ =? ptype); [by injection Hq as <-; left|]);
      (apply IH in Hq as [->|(Hfree & Hq & H128)]; [by left| |lia]); right; (split; [done|lia]).
Qed.

(** Below 96 the search only goes up, to 127 and round the dynamic numbers. *)
Lemma next_rtx_up ptypes rtx_ptypes ptype q r fuel :
  rtx_free ptypes rtx_ptypes q -> ptype < r <= q -> q <= 127 -> (Z.to_nat (q - r) < fuel)%nat ->
  exists q', next_rtx fuel ptypes rtx_ptypes ptype r = Some q' /\ 0 <= q' - r.
Proof.
  intros Hq. revert r. induction fuel as [|fuel IH]; intros r Hr Hq127 Hf; [lia|]. cbn [next_rtx]. rewrite taken_spec.
  destruct (decide (rtx_free ptypes rtx_ptypes r)) as [Hfr|Hfr];
    [rewrite bool_decide_true by done|rewrite bool_decide_false by done]; cbn [negb]; cbv zeta; [exists r; split; [done|lia]|].
  assert (r <> q) by (by intros ->). unfold rtx_step. destruct (Z.ltb_spec 127 (r + 1)); [lia|].
  destruct (Z.eqb_spec (r + 1) ptype); [lia|]. destruct (IH (r + 1)) as (q' & Hq' & Hle); [lia|lia|lia|].
  exists q'. split; [done|lia].
Qed.

(** A list longer than the numbers in use has a free one. *)
Lemma free_candidate (l ptypes rtx_ptypes : list Z) :
  NoDup l -> (length ptypes + length rtx_ptypes < length l)%nat -> exists q, q ∈ l /\ rtx_free ptypes rtx_ptypes q.
Proof.
  intros Hnd Hlen. destruct (decide (Exists (rtx_free ptypes rtx_ptypes) l)) as [Hex|Hno].
  { apply Exists_exists in Hex as (q & ? & ?). eauto. }
  exfalso. assert (Hsub : l ⊆+ ptypes ++ rtx_ptypes).
  { apply NoDup_submseteq; [done|]. intros q Hq. apply elem_of_app.
    destruct (decide (q ∈ ptypes)); [by left|]. destruct (decide (q ∈ rtx_ptypes)); [by right|].
    destruct Hno. apply Exists_exists. exists q. by repeat split. }
  apply submseteq_length in Hsub. rewrite length_app in Hsub. lia.
Qed.

Lemma rtx_candidates_NoDup ptype : 96 <= ptype <= 127 -> NoDup (rtx_candidates ptype) /\ (31 <= length (rtx_candidates ptype))%nat.
Proof.
  intros Hp. assert (Hall : forallb (fun p => bool_decide (NoDup (rtx_candidates p) /\ (31 <= length (rtx_candidates p))%nat))
    (seqZ 96 32) = true) by by vm_compute.
  rewrite forallb_forall in Hall. specialize (Hall ptype). rewrite bool_decide_eq_true in Hall.
  apply Hall. apply list_elem_of_In, elem_of_seqZ. lia.
Qed.

Lemma rtx_candidates_range ptype q : 96 <= ptype <= 127 -> q ∈ rtx_candidates ptype -> 0 < q.
Proof.
  intros Hp. unfold rtx_candidates. destruct (ptype =? 127).
  - intros [->|Hq%elem_of_seqZ]%elem_of_cons; lia.
  - intros [Hq%elem_of_seqZ|Hq%elem_of_seqZ]%elem_of_app; lia.
Qed.

(** With fewer than 31 numbers in use there is always one to find. *)
Lemma next_rtx_finds ptypes rtx_ptypes ptype :
  0 <= ptype <= 127 -> (length ptypes + length rtx_ptypes < 31)%nat ->
  exists q, next_rtx 128 ptypes rtx_ptypes ptype (ptype + 1) = Some q /\ 0 < q.
Proof.
  intros Hp Hlen. destruct (decide (ptype < 96)) as [Hlow|Hhigh].
  - destruct (free_candidate (seqZ 96 31) ptypes rtx_ptypes) as (q & Hq%elem_of_seqZ & Hfree);
      [apply NoDup_seqZ|by rewrite length_seqZ|].
    destruct (next_rtx_up ptypes rtx_ptypes ptype q (ptype + 1) 128) as (q' & -> & ?); [done|lia|lia|lia|].
    exists q'. split; [done|lia].
  - assert (Hr : 96 <= ptype <= 127) by lia. pose proof (rtx_candidates_NoDup ptype Hr) as [Hnd Hle].
    pose proof (rtx_candidates_round ptype Hr) as Hround.
    destruct (free_candidate _ ptypes rtx_ptypes Hnd) as (q & Hq & Hfree); [lia|].
    destruct (rtx_candidates_start ptype Hr) as (l & Hl & Hlen'). rewrite Hl in Hround, Hq.
    rewrite (next_rtx_round _ _ _ _ _ 128 Hround) by lia.
    destruct (list_find _ _) as [[i q']|] eqn:Hfind.
    + exists q'. split; [done|]. apply list_find_Some in Hfind as (Hq' & _ & _).
      apply (rtx_candidates_range ptype); [done|]. rewrite Hl. by eapply list_elem_of_lookup_2.
    + apply list_find_None in Hfind. rewrite Forall_forall in Hfind. by destruct (Hfind q).
Qed.

(** ** The table *)

(** Every number given is free of the line's payload types, and given once. *)
Definition rtx_ok (ptypes : list Z) (tbl : gmap Z Z) : Prop :=
  (forall p r, tbl !! p = Some r -> p ∈ ptypes /\ r ∉ ptypes /\ 0 < r <= 128 /\ (r = 128 -> p = 127)) /\
  (forall p1 p2 r, tbl !! p1 = Some r -> tbl !! p2 = Some r -> p1 = p2).

Lemma rtx_values_spec tbl r : r ∈ rtx_values tbl <-> exists p, tbl !! p = Some r.
Proof.
  unfold rtx_values. rewrite list_elem_of_fmap. split.
  - intros ([p r'] & -> & Hp%elem_of_map_to_list). by exists p.
  - intros [p Hp]. exists (p, r). by rewrite elem_of_map_to_list.
Qed.

Lemma rtx_values_length ptypes tbl : rtx_ok ptypes tbl -> (length (rtx_values tbl) <= length ptypes)%nat.
Proof.
  intros [Hok _]. unfold rtx_values. rewrite length_fmap, <- (length_fmap fst).
  apply submseteq_length, NoDup_submseteq; [apply NoDup_fst_map_to_list|].
  intros p. rewrite list_elem_of_fmap. intros ([p' r] & -> & Hp%elem_of_map_to_list). by apply Hok in Hp as [? _].
Qed.

Lemma rtx_insert ptypes tbl p r :
  rtx_ok ptypes tbl -> p ∈ ptypes -> rtx_free ptypes (rtx_values tbl) r -> 0 < r <= 128 -> (r = 128 -> p = 127) ->
  rtx_ok ptypes (<[p := r]> tbl).
Proof.
  intros [Hok Hinj] Hp [Hr1 Hr2] Hr H128. rewrite rtx_values_spec in Hr2. split.
  - intros p' r' [[<- <-]|[? Hp']]%lookup_insert_Some; [tauto|by apply Hok].
  - intros p1 p2 r' [[<- <-]|[? H1]]%lookup_insert_Some [[<- Heq]|[? H2]]%lookup_insert_Some; [done| | |by eapply Hinj].
    + destruct Hr2. by exists p2.
    + subst. destruct Hr2. by exists p1.
Qed.

Lemma rtx_table_runs ptypes todo tbl :
  (length ptypes <= 15)%nat -> Forall (fun p => 0 <= p <= 127) ptypes -> todo ⊆ ptypes -> rtx_ok ptypes tbl ->
  exists tbl', rtx_table 128 ptypes todo tbl = Some tbl' /\ rtx_ok ptypes tbl' /\
    dom tbl' = dom tbl ∪ list_to_set todo.
Proof.
  intros Hlen Hall. revert tbl. induction todo as [|p todo IH]; intros tbl Htodo Hok; cbn [rtx_table].
  { exists tbl. split_and!; [done|done|cbn; set_solver]. }
  assert (Hp : p ∈ ptypes) by set_solver. assert (Hr : 0 <= p <= 127) by (by rewrite Forall_forall in Hall; apply Hall).
  pose proof (rtx_values_length ptypes tbl Hok) as Hv.
  destruct (next_rtx_finds ptypes (rtx_values tbl) p Hr) as (q & Hq & Hpos); [lia|]. rewrite Hq. cbn [mbind option_bind].
  destruct (Z.ltb_spec 0 q); [|lia]. apply next_rtx_some in Hq as [->|(Hfree & Hrange & H128)]; [lia| |lia].
  destruct (IH (<[p := q]> tbl)) as (tbl' & -> & Hok' & Hdom).
  - set_solver.
  - apply rtx_insert; try done. intros ->. specialize (H128 eq_refl). lia.
  - exists tbl'. split_and!; [done|done|]. rewrite Hdom, dom_insert_L. cbn. set_solver.
Qed.

(** C32: With up to 15 payload types on the line, the loops end and every one gets a number for
    its retransmissions, which is no other payload type's and nobody else's; it is within the
    seven bits of RTP except for payload type 127, whose number is 128. *)
Theorem rtx_table_total (ptypes : list Z) :
  (length ptypes <= 15)%nat -> Forall (fun p => 0 <= p <= 127) ptypes ->
  exists tbl, rtx_table 128 ptypes ptypes ∅ = Some tbl /\ dom tbl = list_to_set ptypes /\
    (forall p r, tbl !! p = Some r -> r ∉ ptypes /\ 0 < r <= 128 /\ (r = 128 -> p = 127)) /\
    (forall p1 p2 r, tbl !! p1 = Some r -> tbl !! p2 = Some r -> p1 = p2).
Proof.
  intros Hlen Hall. destruct (rtx_table_runs ptypes ptypes ∅) as (tbl & Hrun & [Hok Hinj] & Hdom); [done|done|done| |].
  { split; intros *; by rewrite lookup_empty. }
  exists tbl. split_and!; [done| |by intros p r []%Hok|done]. rewrite Hdom. set_solver.
Qed.

(** The search is the first free number in the order of the candidates, for every dynamic
    payload type. *)
Theorem next_rtx_first_free (ptypes rtx_ptypes : list Z) (ptype : Z) :
  96 <= ptype <= 127 ->
  next_rtx 32 ptypes rtx_ptypes ptype (ptype + 1) =
  Some (match list_find (rtx_free ptypes rtx_ptypes) (rtx_candidates ptype) with Some (_, q) => q | None => -1 end).
Proof.
  intros Hp. destruct (rtx_candidates_start ptype Hp) as (l & Hl & Hlen).
  pose proof (rtx_candidates_round ptype Hp) as Hround. rewrite Hl in *. by apply next_rtx_round.
Qed.

(** Below 96 the round never comes back to the payload type: if all numbers above it are
    taken, the search does not end. *)
Theorem next_rtx_hangs (ptypes rtx_ptypes : list Z) (ptype r : Z) (fuel : nat) :
  ptype < 96 -> (forall q, ptype < q <= 127 -> ~ rtx_free ptypes rtx_ptypes q) -> ptype < r <= 127 ->
  next_rtx fuel ptypes rtx_ptypes ptype r = None.
Proof.
  intros Hp Htaken. revert r. induction fuel as [|fuel IH]; intros r Hr; [done|]. cbn [next_rtx].
  rewrite taken_spec, bool_decide_false by (apply Htaken; lia). cbn [negb]. cbv zeta. unfold rtx_step.
  destruct (Z.ltb_spec 127 (r + 1)).
  - destruct (Z.eqb_spec 96 ptype); [lia|]. apply IH. lia.
  - destruct (Z.eqb_spec (r + 1) ptype); [lia|]. apply IH. lia.
Qed.
End Rtx.

(** ** The plugin's session of a handle, and Janus's SDP functions *)

Record janus_plugin_session : Type := PluginSession { stopped : bool; gateway_handle : option loc }.

Class SdpCore (X D J : Type) := {
  plugin_session_at : loc -> X -> option janus_plugin_session;  (* [None]: no such memory *)
  janus_is_rfc4588_enabled : X -> bool;
  video_ptypes : D -> list Z;  (* of the video line; without one, none *)
  janus_sdp_merge : D -> bool -> ice_handle J -> X -> option string * (ice_handle J * X)
}.

Section Code.
Context {X D J : Type} `{JanusCore X D J} `{SdpCore X D J} `{Jansson J}.
Abbreviation m := (M (jworld X J)).

(** [plugin_session < 0x1000], null included. *)
Definition bad_pointer (ps : loc) : bool := ps <? 4096.

Definition is_stopped (ps : loc) : m bool :=
  x ← gets core; s ← live (plugin_session_at ps x); mret (stopped s).
Definition handle_of (ps : loc) : m (option loc) :=
  x ← gets core; s ← live (plugin_session_at ps x); mret (gateway_handle s).

(** [plugin_session >= 0x1000 && janus_plugin_session_is_alive(plugin_session) && !plugin_session->stopped] *)
Definition in_use (ps : loc) : m bool :=
  x ← gets core;
  if bad_pointer ps || negb (janus_plugin_session_is_alive ps x) then mret false
  else s ← is_stopped ps; mret (negb s).

Definition sdp_kind (h : loc) (sdp_type : string) : m (option bool) :=
  if strcasecmp_eq sdp_type "offer" then
    janus_flags_set h WEBRTC_GOT_OFFER;; janus_flags_clear h WEBRTC_GOT_ANSWER;; mret (Some true)
  else if strcasecmp_eq sdp_type "answer" then janus_flags_set h WEBRTC_GOT_ANSWER;; mret (Some false)
  else mret None.

(** The offer's half; [None]: give up, else whether ICE was set up before. *)
Definition offer_setup (h : loc) (avd : Z * Z * Z) : m (option bool) :=
  ready ← wait_cleaning 31 h 0;
  if negb ready then mret None
  else
    v ← get_handle h;
    if agent v then mret (Some true)
    else
      x ← gets core;
      (if! janus_is_rfc4588_enabled x then janus_flags_set h WEBRTC_RFC4588_RTX);;
      rc ← core_call h (janus_ice_setup_local false avd true);
      mret (if (rc <? 0)%Z then None else Some false).

Definition answer_setup (h : loc) (sdp : string) : m (option bool) :=
  v ← get_handle h;
  s ← deref (stream v);
  update_handle h (h_stream (fun _ =>
    Some (st_transport_wide_cc_ext_id (fun _ => janus_rtp_header_extension_get_id (Some sdp))
           (st_do_transport_wide_cc (fun _ => true) s))));;
  mret (Some false).

(** The wait for the candidates-done callback; [false]: given up, or they failed. *)
Fixpoint wait_candidates (fuel : nat) (h : loc) : m bool :=
  match fuel with
  | O => crash Fuel
  | S fuel =>
      v ← get_handle h;
      if (1 <=? cdone v)%Z then mret true
      else if bool_decide (WEBRTC_STOP ∈ webrtc_flags v) || bool_decide (WEBRTC_ALERT ∈ webrtc_flags v) then mret false
      else
        core_call h (fun v x => (tt, other_threads v x));;
        v ← get_handle h;
        if (cdone v <? 0)%Z then mret false else wait_candidates fuel h
  end.

Definition make_rtx (rounds : nat) (h : loc) (sdp : D) : m unit :=
  rtx ← janus_flags_is_set h WEBRTC_RFC4588_RTX;
  v ← get_handle h;
  match stream v with
  | Some s =>
      if (rtx : bool) && bool_decide (rtx_payload_types s = None) && negb (bool_decide (video_ptypes sdp = [])) then
        match rtx_table rounds (video_ptypes sdp) (video_ptypes sdp) ∅ with
        | Some tbl => update_handle h (h_stream (fun _ => Some (st_rtx_payload_types (fun _ => Some tbl) s)))
        | None => crash Fuel
        end
      else mret tt
  | None => mret tt
  end.

(** The plugin's answer: what waited for it goes on. *)
Definition got_answer (fuel : nat) (h : loc) : m unit :=
  janus_mutex_lock h;;
  janus_flags_clear h WEBRTC_PROCESSING_OFFER;;
  drain_trickles fuel h;;
  trickle ← janus_flags_is_set h WEBRTC_TRICKLE;
  all ← janus_flags_is_set h WEBRTC_ALL_TRICKLES;
  (if trickle && negb all then janus_flags_set h WEBRTC_START
   else
     v ← get_handle h;
     if (0 <? stream_id v)%Z then core_call h janus_ice_setup_remote_candidates;; mret tt else mret tt);;
  janus_mutex_unlock h.

Definition late_datachannels (have_sctp : bool) (h : loc) (offer : bool) : m unit :=
  ready ← janus_flags_is_set h WEBRTC_READY;
  dc ← janus_flags_is_set h WEBRTC_DATA_CHANNELS;
  if have_sctp && negb offer && ready && dc then core_call h create_datachannels else mret tt.

(** Behind the waits: the SDP completed, the flags set, the event's jsep made. *)
Definition merge_sdp (fuel rounds : nat) (have_sctp : bool) (h : loc) (offer updating restart : bool) (sdp_type : string)
    (sdp : D) : m (option J) :=
  let '(rc, sdp) := janus_sdp_anonymize sdp in
  if (rc <? 0)%Z then mret None
  else
    (if! offer && restart then core_call h janus_ice_restart);;
    make_rtx rounds h sdp;;
    merged ← core_call h (janus_sdp_merge sdp offer);
    match merged with
    | None => mret None
    | Some sdp_merged =>
        (if updating then mret tt
         else if offer then janus_flags_set h WEBRTC_PROCESSING_OFFER else got_answer fuel h);;
        late_datachannels have_sctp h offer;;
        update_handle h (h_local_sdp (fun _ => Some sdp_merged));;
        mret (Some (json_object [("type", json_string sdp_type); ("sdp", json_string sdp_merged)]))
    end.

Definition janus_plugin_handle_sdp (fuel waits rounds : nat) (have_sctp : bool) (ps : loc) (plugin : option loc)
    (sdp_type sdp : option string) (restart : bool) : m (option J) :=
  ok ← in_use ps;
  match (ok : bool), plugin, sdp_type, sdp with
  | true, Some _, Some sdp_type, Some sdp =>
      ice_handle ← handle_of ps;
      match ice_handle with
      | None => mret None
      | Some h =>
          kind ← sdp_kind h sdp_type;
          x ← gets core;
          match (kind : option bool), janus_sdp_preparse (Some sdp) x with
          | Some offer, inr (parsed_sdp, avd) =>
              updating ← (if offer then offer_setup h avd else answer_setup h sdp);
              match (updating : option bool) with
              | None => mret None
              | Some updating =>
                  done ← (if updating then mret true else wait_candidates waits h);
                  if negb done then mret None
                  else merge_sdp fuel rounds have_sctp h offer updating restart sdp_type parsed_sdp
              end
          | _, _ => mret None
          end
      end
  | _, _, _, _ => mret None
  end.
End Code.

(** ** What the code relies on *)

Class SdpCoreLaws (X D J : Type) `{SdpCore X D J} := {
  sdp_merge_keeps : forall d o v x, core_keeps v (janus_sdp_merge d o v x).2.1
}.

(** Candidates are gathered, or given up, within [n] sleeps. *)
Fixpoint gathers {X D J : Type} `{JanusCore X D J} (n : nat) (v : ice_handle J) (x : X) : Prop :=
  (1 <= cdone v)%Z \/ WEBRTC_STOP ∈ webrtc_flags v \/ WEBRTC_ALERT ∈ webrtc_flags v \/
  match n with
  | O => False
  | S n => let '(v, x) := other_threads v x in (cdone v < 0)%Z \/ gathers n v x
  end.

(** ** An SDP is served *)

Section Served.
Context {X D J : Type} `{JanusCoreLaws X D J} `{!SdpCore X D J} `{!SdpCoreLaws X D J} `{!Jansson J}.
Implicit Types w : jworld X J.
Context (h : loc).

Lemma hst_gather waits n lk po sn rf k w :
  hst h n lk po sn rf k w -> (forall v, handles w !! h = Some v -> gathers waits v (core w)) ->
  wp (wait_candidates (S waits) h) (fun _ => hst h n lk po sn rf k) w.
Proof.
  revert w. induction waits as [|waits IH]; intros w Hin Hg;
    (pose proof Hin as (v & Hv & Hlk & Hpo & Hsn & Hpt & Hrf & Hk); specialize (Hg v Hv); cbn [gathers] in Hg;
     cbn [wait_candidates]; apply wp_bind, (run_wp _ _ _ _ _ (get_handle_run h v w Hv));
     destruct (Z.leb_spec 1 (cdone v)); [by wp_steps|];
     destruct (bool_decide (WEBRTC_STOP ∈ webrtc_flags v)) eqn:Es; cbn [orb]; [by wp_steps|];
     destruct (bool_decide (WEBRTC_ALERT ∈ webrtc_flags v)) eqn:Ea; [by wp_steps|];
     apply bool_decide_eq_false in Es, Ea; destruct Hg as [?|[?|[?|Hg]]]; try done).
  - lia.
  - lia.
  - pose proof (other_threads_keep v (core w)) as (Hk1 & Hk2 & Hk3 & Hk4).
    destruct (other_threads v (core w)) as [v' x'] eqn:Eo. set (w1 := w_core (fun _ => x') (w_handles <[h := v']> w)).
    assert (Hv1 : handles w1 !! h = Some v') by apply lookup_insert_eq.
    assert (Hin1 : hst h n lk po sn rf k w1).
    { exists v'. cbn in Hk1, Hk2, Hk3, Hk4. rewrite Hk3. split_and!; try done; [by rewrite Hk1| |naive_solver].
      rewrite <- Hpo. by apply bool_decide_ext. }
    assert (Hrun : core_call h (fun v x => (tt, other_threads v x)) w = Done (tt, w1)).
    { unfold core_call. run (get_handle_run h v w Hv). run eq_refl. by rewrite Eo. }
    apply wp_bind, (run_wp _ _ _ _ _ Hrun). apply wp_bind, (run_wp _ _ _ _ _ (get_handle_run h v' w1 Hv1)).
    destruct (Z.ltb_spec (cdone v') 0); [by wp_steps|]. destruct Hg as [?|Hg]; [lia|]. apply IH; [done|].
    intros v2 Hv2. rewrite Hv1 in Hv2. by injection Hv2 as <-.
Qed.

Lemma hst_make_rtx sdp n lk po sn rf k w :
  hst h n lk po sn rf k w -> (length (video_ptypes sdp) <= 15)%nat -> Forall (fun p => (0 <= p <= 127)%Z) (video_ptypes sdp) ->
  wp (make_rtx 128 h sdp) (fun _ => hst h n lk po sn rf k) w.
Proof.
  intros Hin Hlen Hall. unfold make_rtx. hstep hst_is_set as rtx w1 Hw1. hstep hst_get as v w2 [-> Hsn].
  destruct (stream v) as [s|]; [|by wp_steps]. destruct (_ && _); [|by wp_steps].
  destruct (rtx_table_runs (video_ptypes sdp) (video_ptypes sdp) ∅) as (tbl & -> & _); [done|done|done| |].
  { split; intros *; by rewrite lookup_empty. }
  eapply hst_update; [done|]. intros v' ? ? ?. by split_and!.
Qed.

Lemma hst_got_answer fuel n po sn rf k w :
  hst h n false po sn rf k w -> n < fuel -> wp (got_answer fuel h) (fun _ => hst h 0 false false sn rf k) w.
Proof.
  intros Hin Hn. unfold got_answer. hstep hst_lock. hstep (hst_clear h) as ? w1 Hw1.
  rewrite bool_decide_true, andb_false_r in Hw1 by done. hstep hst_drain. hstep hst_is_set. hstep hst_is_set as all w2 Hw2.
  apply wp_bind, (wp_mono _ (fun _ => hst h 0 true false sn rf k)); [|intros _ w3 Hw3; by apply hst_unlock].
  destruct (_ && _).
  - eapply wp_mono; [by apply hst_set|]. cbn beta. done.
  - hstep hst_get as v _ [-> _]. destruct (_ <? _)%Z; [|by wp_steps].
    hstep @hst_core; [apply remote_candidates_keep|]. by wp_steps.
Qed.

Lemma hst_late_datachannels sctp offer n lk po sn rf k w :
  hst h n lk po sn rf k w -> wp (late_datachannels sctp h offer) (fun _ => hst h n lk po sn rf k) w.
Proof.
  intros Hin. unfold late_datachannels. hstep hst_is_set. hstep hst_is_set. destruct (_ && _); [|by wp_steps].
  eapply hst_core; [done|]. apply datachannels_keep.
Qed.

(** What a run leaves: the mutex free; with a jsep for the event, the handle's local SDP is
    the one in it, and behind an answer nothing is pending; without, there is a reason. *)
Definition served (rf : Z) (k : list (loc * J)) (offer : bool) (sdp_type : string) (why : Prop) (r : option J) w : Prop :=
  exists n po sn, hst h n false po sn rf k w /\
    match r with
    | None => why
    | Some jsep =>
        (offer = false -> n = 0 /\ po = false) /\
        exists v sdp, handles w !! h = Some v /\ local_sdp v = Some sdp /\
          jsep = json_object [("type", json_string sdp_type); ("sdp", json_string sdp)]
    end.

Lemma served_none rf k offer sdp_type n po sn (why : Prop) w :
  hst h n false po sn rf k w -> why -> wp (mret None) (served rf k offer sdp_type why) w.
Proof. intros Hin Hw. by eexists _, _, _. Qed.
Hint Resolve served_none : core.

(** Janus cannot anonymize or merge the SDP. *)
Definition merge_fails (sdp : D) (offer : bool) : Prop :=
  ((janus_sdp_anonymize sdp).1 < 0)%Z \/ exists v x, (janus_sdp_merge (janus_sdp_anonymize sdp).2 offer v x).1 = None.

(** A call of the gateway, with its answer. *)
Lemma core_call_value {B : Type} (f : ice_handle J -> X -> B * (ice_handle J * X)) w v :
  handles w !! h = Some v -> wp (core_call h f) (fun b _ => exists v x, b = (f v x).1) w.
Proof.
  intros Hv. unfold core_call. apply wp_bind, (run_wp _ _ _ _ _ (get_handle_run h v w Hv)). wp_steps.
  destruct (f v (core w)) as [b [v' x']] eqn:Ef. wp_steps. exists v, (core w). by rewrite Ef.
Qed.

Lemma hst_merge fuel sctp offer updating restart sdp_type sdp n po sn rf k w :
  hst h n false po sn rf k w -> n < fuel -> (offer = false -> updating = false) ->
  (length (video_ptypes (janus_sdp_anonymize sdp).2) <= 15)%nat ->
  Forall (fun p => (0 <= p <= 127)%Z) (video_ptypes (janus_sdp_anonymize sdp).2) ->
  wp (merge_sdp fuel 128 sctp h offer updating restart sdp_type sdp) (served rf k offer sdp_type (merge_fails sdp offer)) w.
Proof.
  intros Hin Hn Hup Hlen Hall. unfold merge_sdp, merge_fails.
  destruct (janus_sdp_anonymize sdp) as [rc sdp']. cbn [fst snd] in *.
  destruct (Z.ltb_spec rc 0); [eauto|]. apply wp_bind, (wp_mono _ (fun _ => hst h n false po sn rf k)).
  { apply wp_when; [intros _|by intros _]. eapply hst_core; [done|]. apply restart_keeps. }
  intros _ w1 Hw1. hstep (hst_make_rtx sdp') as ? w1' Hw1'.
  apply wp_bind. eapply wp_mono.
  { apply wp_and; [eapply hst_core; [done|]; apply sdp_merge_keeps|].
    destruct Hw1' as (v & Hv & _). by eapply core_call_value. }
  cbn beta. intros merged w2 [Hw2 Hm]. destruct merged as [sdp_merged|]; [clear Hm|destruct Hm as (v & x & Hm); eapply served_none; eauto].
  apply wp_bind, (wp_mono _ (fun _ w' => exists n' po', hst h n' false po' sn rf k w' /\ (offer = false -> n' = 0 /\ po' = false))).
  { destruct updating; [wp_steps; exists n, po; split; [done|naive_solver]|]. destruct offer.
    - eapply wp_mono; [by apply hst_set|]. cbn beta; intros _ w3 Hw3. by eexists _, _.
    - eapply wp_mono; [by eapply hst_got_answer|]. cbn beta; intros _ w3 Hw3. by exists 0, false. }
  intros ? w3 (n' & po' & Hw3 & Hans). hstep hst_late_datachannels as ? w4 Hw4.
  apply wp_bind, (wp_mono _ (fun _ w' => hst h n' false po' sn rf k w' /\ exists v, handles w' !! h = Some v /\ local_sdp v = Some sdp_merged)).
  { apply wp_and; [eapply hst_update; [done|]; intros v ? ? ?; by split_and!|].
    destruct Hw4 as (v & Hv & _). apply (run_wp _ _ _ _ _ (update_handle_run h _ v w4 Hv)).
    eexists. split; [apply lookup_insert_eq|done]. }
  intros _ w5 (Hw5 & v & Hv & Hl). wp_steps. exists n', po', sn. split; [done|]. split; [done|]. by exists v, sdp_merged.
Qed.

(** The plugin's session [ps] is that of the handle. *)
Definition session_of (ps : loc) (x : X) : Prop :=
  bad_pointer ps = false /\ janus_plugin_session_is_alive ps x = true /\
  plugin_session_at ps x = Some (PluginSession false (Some h)).

Lemma in_use_run ps w : session_of ps (core w) -> in_use ps w = Done (true, w).
Proof.
  intros (Hps & Hal & Hat). unfold in_use, is_stopped. run eq_refl. rewrite Hps, Hal. cbn [orb negb].
  rewrite bind_assoc. run eq_refl. rewrite Hat. by run eq_refl.
Qed.

Lemma handle_of_run ps w : session_of ps (core w) -> handle_of ps w = Done (Some h, w).
Proof. intros (_ & _ & Hat). unfold handle_of. run eq_refl. rewrite Hat. by run eq_refl. Qed.

(** The payload types of a parsed SDP can be numbered. *)
Definition few_ptypes (sdp : D) : Prop :=
  (length (video_ptypes (janus_sdp_anonymize sdp).2) <= 15)%nat /\
  Forall (fun p => (0 <= p <= 127)%Z) (video_ptypes (janus_sdp_anonymize sdp).2).

Lemma hst_offer_setup avd n lk po sn rf k w :
  hst h n lk po sn rf k w -> wp (offer_setup h avd) (fun _ => hst h n lk po sn rf k) w.
Proof.
  intros Hin. unfold offer_setup. apply wp_bind. eapply wp_mono; [apply (hst_wait h 31 n 0); [done|lia|lia]|].
  cbn beta. intros ready w1 Hw1. destruct (negb ready); [by wp_steps|]. hstep hst_get as v w2 [-> _].
  destruct (agent v); [by wp_steps|]. wp_steps. apply (wp_mono _ (fun _ => hst h n lk po sn rf k)).
  - apply wp_when; [intros _|by intros _]. eapply wp_mono; [by apply hst_set|]. cbn beta.
    intros _ w3 Hw3. by rewrite bool_decide_false, orb_false_r in Hw3.
  - intros _ w3 Hw3. hstep @hst_core as rc w4 Hw4; [apply setup_local_keeps|]. by wp_steps.
Qed.

Lemma hst_answer_setup sdp n lk po rf k w :
  hst h n lk po true rf k w ->
  wp (answer_setup h sdp) (fun u w' => u = Some false /\ hst h n lk po true rf k w') w.
Proof.
  intros Hin. unfold answer_setup. hstep hst_get as v w1 [-> Hs]. destruct (stream v) as [s|] eqn:Es; [|by destruct Hs].
  apply wp_bind. eapply wp_deref; [done|]. cbn beta. apply wp_bind.
  eapply wp_mono; [eapply (hst_update h _ _ _ _ _ _ _ lk po true); [done|]|].
  - intros v' ? ? ?. by split_and!.
  - cbn beta. intros _ w2 Hw2. by wp_steps.
Qed.

Lemma hst_sdp_kind sdp_type n lk po sn rf k w :
  hst h n lk po sn rf k w -> wp (sdp_kind h sdp_type) (fun o w' => hst h n lk po sn rf k w' /\
    (o = Some false -> strcasecmp_eq sdp_type "answer" = true)) w.
Proof.
  intros Hin. unfold sdp_kind. destruct (strcasecmp_eq sdp_type "offer"); [|destruct (strcasecmp_eq sdp_type "answer") eqn:Ea].
  - hstep hst_set as ? w1 Hw1. hstep (hst_clear h) as ? w2 Hw2.
    rewrite !bool_decide_false, orb_false_r, andb_true_r in Hw2 by done. by wp_steps.
  - hstep hst_set as ? w1 Hw1. rewrite bool_decide_false, orb_false_r in Hw1 by done. by wp_steps.
  - by wp_steps.
Qed.


(** The handle behind the type and the extension of an answer are noted. *)
Definition answering (sdp : string) (s : ice_stream) (v : ice_handle J) : ice_handle J :=
  h_stream (fun _ => Some (st_transport_wide_cc_ext_id (fun _ => janus_rtp_header_extension_get_id (Some sdp))
                            (st_do_transport_wide_cc (fun _ => true) s)))
    (h_webrtc_flags (union {[WEBRTC_GOT_ANSWER]}) v).

(** C27: A plugin's answer that Janus can merge, on a handle whose candidates are gathered, makes
    the event's jsep, with the handle's new local SDP in it; PROCESSING_OFFER is clear and no
    trickle is left pending, so candidates are used as they come from then on; the mutex is
    free. *)
Theorem plugin_answer_served fuel waits sctp ps plugin t sdp restart parsed avd v s w :
  handles w !! h = Some v -> locked v = false -> session_of ps (core w) -> length (pending_trickles v) < fuel ->
  strcasecmp_eq t "offer" = false -> strcasecmp_eq t "answer" = true -> stream v = Some s -> (1 <= cdone v)%Z ->
  janus_sdp_preparse (Some sdp) (core w) = inr (parsed, avd) -> few_ptypes parsed -> ~ merge_fails parsed false ->
  exists w' v' local,
    janus_plugin_handle_sdp fuel (S waits) 128 sctp ps (Some plugin) (Some t) (Some sdp) restart w =
    Done (Some (json_object [("type", json_string t); ("sdp", json_string local)]), w') /\
    handles w' !! h = Some v' /\ local_sdp v' = Some local /\ locked v' = false /\
    WEBRTC_PROCESSING_OFFER ∉ webrtc_flags v' /\ pending_trickles v' = [] /\ sent w' = sent w.
Proof.
  intros Hv Hlk Hps Hn Hto Hta Hs Hcd Hparse [Hlen Hall] Hmerge. unfold janus_plugin_handle_sdp.
  run (in_use_run ps w Hps). run (handle_of_run ps w Hps). unfold sdp_kind, janus_flags_set. rewrite Hto, Hta, bind_assoc.
  run (update_handle_run h _ v w Hv). set (w1 := w_handles _ w).
  assert (Hv1 : handles w1 !! h = Some (h_webrtc_flags (union {[WEBRTC_GOT_ANSWER]}) v)) by apply lookup_insert_eq.
  run eq_refl. run eq_refl. change (core w1) with (core w). rewrite Hparse. unfold answer_setup.
  rewrite bind_assoc. run (get_handle_run h _ w1 Hv1). cbn [stream h_webrtc_flags]. rewrite Hs, bind_assoc. run eq_refl.
  rewrite bind_assoc. run (update_handle_run h _ _ w1 Hv1). fold (answering sdp s v). set (w2 := w_handles _ w1).
  assert (Hv2 : handles w2 !! h = Some (answering sdp s v)) by apply lookup_insert_eq.
  run eq_refl. cbn [wait_candidates]. rewrite bind_assoc. run (get_handle_run h _ w2 Hv2).
  cbn [answering cdone h_stream h_webrtc_flags]. rewrite (proj2 (Z.leb_le _ _) Hcd). run eq_refl. cbn [negb].
  assert (Hin : hst h (length (pending_trickles v)) false
    (bool_decide (WEBRTC_PROCESSING_OFFER ∈ webrtc_flags (answering sdp s v))) true (root_refs w) (sent w) w2).
  { exists (answering sdp s v). by split_and!. }
  destruct (wp_run _ _ _ (hst_merge fuel sctp false false restart t parsed _ _ _ _ _ _ Hin Hn (fun _ => eq_refl) Hlen Hall))
    as (r & w' & Hrun & n' & po' & sn' & Hw' & Hr). rewrite Hrun.
  destruct r as [jsep|]; [|done]. destruct Hr as (Hans & v' & local & Hv' & Hl & ->). destruct (Hans eq_refl) as [-> ->].
  exists w', v', local. destruct Hw' as (v2 & Hv'2 & Hlk' & Hpo' & _ & Hpt & _ & Hk). rewrite Hv' in Hv'2.
  injection Hv'2 as <-. apply bool_decide_eq_false in Hpo'. split_and!; try done.
  destruct (pending_trickles v'); [done|cbn in Hpt; lia].
Qed.
End Served.

(** ** Witnesses: a gateway that gathers candidates in one sleep *)

Section Witnesses.
Local Open Scope Z_scope.
Definition w_keep {B : Type} (b : B) (v : ice_handle json) (x : Z) : B * (ice_handle json * Z) := (b, (v, x)).

#[local] Instance w_sdp_janus : JanusCore Z string json := {|
  janus_plugin_session_is_alive := fun _ _ => true;
  janus_get_monotonic_time := fun x => x;
  other_threads := fun v x => (h_cdone (fun _ => 1) v, x + 100000);
  janus_sdp_preparse := fun s _ => match s with Some s => inr (s, (1, 1, 0)) | None => inl "no SDP" end;
  janus_ice_setup_local := fun _ _ _ v x => (0, (h_stream (fun _ => Some w_stream) v, x));
  janus_sdp_process := fun _ _ => w_keep 0;
  janus_ice_trickle_new := fun _ c x => Some (IceTrickle x c);
  janus_ice_trickle_parse := fun c => w_keep (if json_is_object c then 0 else -1);
  janus_ice_setup_remote_candidates := w_keep tt;
  janus_rtp_header_extension_get_id := fun _ => 5;
  nice_agent_set_remote_credentials := w_keep tt;
  janus_ice_restart := w_keep tt;
  janus_ice_is_full_trickle_enabled := fun _ => false;
  create_datachannels := w_keep tt;
  janus_sdp_anonymize := fun s => (0, s);
  janus_sdp_write := fun s => s;
  get_package := fun _ => "janus.plugin.echotest";
  handle_message := fun _ _ _ _ x => (None, x)
|}.
#[local] Instance w_sdp_janus_laws : JanusCoreLaws Z string json.
Proof. by split. Qed.

(** The session of the handle at 2 is at 5000. *)
#[local] Instance w_sdp : SdpCore Z string json := {|
  plugin_session_at := fun ps _ => if (ps =? 5000)%nat then Some (PluginSession false (Some 2%nat)) else None;
  janus_is_rfc4588_enabled := fun _ => true;
  video_ptypes := fun _ => [96; 98; 127];
  janus_sdp_merge := fun s _ => w_keep (Some s)
|}.
#[local] Instance w_sdp_laws : SdpCoreLaws Z string json.
Proof. by split. Qed.

Definition w_answering : ice_handle json :=
  IceHandle 7 None (Some 3%nat) (Some 5000%nat) {[WEBRTC_PROCESSING_OFFER; WEBRTC_RFC4588_RTX]} false true (Some w_stream)
    1 1 [Some (IceTrickle 0 (Some (JObject [])))] None None.
Definition w_sdp_world (v : ice_handle json) : jworld Z json := JWorld {[2%nat := v]} 0 1 [].

(** The answer of the plugin: the retransmission types are 97, 99 and 128. *)
Example answer_table :
  (fun w => (fun v => (fun s => map_to_list (default ∅ (rtx_payload_types s))) <$> stream v) <$> handles w !! 2%nat)
    <$> result_state (janus_plugin_handle_sdp (X := Z) (D := string) 2 1 128 true 5000 (Some 3%nat) (Some "answer") (Some "v=0") false
                        (w_sdp_world w_answering)) =
  Some (Some (Some [(127, 128); (98, 99); (96, 97)])).
Proof. vm_compute. reflexivity. Qed.

Lemma rtx_table_total_witness :
  exists tbl, rtx_table 128 [96; 97; 127] [96; 97; 127] ∅ = Some tbl /\ tbl !! 96 = Some 98 /\ dom tbl = {[96; 97; 127]}.
Proof.
  destruct (rtx_table_total [96; 97; 127]) as (tbl & Hrun & Hdom & _).
  - cbn. lia.
  - repeat constructor; lia.
  - exists tbl. split_and!; [done| |by rewrite Hdom; set_solver].
    vm_compute in Hrun. injection Hrun as <-. reflexivity.
Defined.

Lemma next_rtx_first_free_witness : next_rtx 32 [126; 127; 96] [97] 126 (126 + 1) = Some 98.
Proof. rewrite (next_rtx_first_free [126; 127; 96] [97] 126) by lia. reflexivity. Defined.

(** A line with the 33 payload types 95 to 127 hangs the server. *)
Lemma next_rtx_hangs_witness : forall fuel, next_rtx fuel (seqZ 95 33) [] 95 96 = None.
Proof.
  intros fuel. apply (next_rtx_hangs (seqZ 95 33) [] 95 96 fuel); [lia| |lia].
  intros q Hq [Hfree _]. apply Hfree, elem_of_seqZ. lia.
Defined.


Lemma plugin_answer_served_witness :
  exists w' v' local,
    janus_plugin_handle_sdp (X := Z) (D := string) 2 1 128 true 5000 (Some 3%nat) (Some "answer") (Some "v=0") false
      (w_sdp_world w_answering) =
    Done (Some (JObject [("type", JString "answer"); ("sdp", JString local)]), w') /\
    handles w' !! 2%nat = Some v' /\ local_sdp v' = Some local /\ locked v' = false /\
    WEBRTC_PROCESSING_OFFER ∉ webrtc_flags v' /\ pending_trickles v' = [] /\ sent w' = [].
Proof.
  unshelve epose proof (plugin_answer_served 2 2 0 true 5000 3 "answer" "v=0" false "v=0" (1, 1, 0) w_answering w_stream
    (w_sdp_world w_answering) _ _ _ _ _ _ _ _ _ _ _) as Hserved; try reflexivity.
  - by split_and!.
  - cbn. lia.
  - split; [cbn; lia|repeat constructor; lia].
  - intros [[=]|(v & x & [=])].
  - exact Hserved.
Defined.
End Witnesses.
End Sdp.
