(* ===== verification/Gateway.v ===== *)
(** * Sessions of the WebRTC gateway: websocket_10/src/websocket_10.c, helper.c

    A websocket gets a session, under a random number, when it connects; its messages name
    the session and go to the handler of their type, those with an SDP or a candidate to
    [Janus]; what a plugin sends comes back through the callbacks at the end of [Code], its
    SDP through [Sdp].  A session that is destroyed by its client, or by the watchdog when it
    has been idle, moves from [sessions] to [old_sessions] and is freed by a timer three
    seconds later.

    A handler is run from its start to its end; the threads of Janus act between.  GLib's hash
    tables are finite maps, walked in an order that is a parameter.  Handles, plugins and
    their sessions are Janus's: the class [GatewayCore].  A [g_atomic_int] that only is 0 or 1
    is a [bool].  Logging, and the memory of printed messages, is left out. *)

From S2P Require Import Prelude Jansson KoreNet WebsocketFrame Janus HandleSdp.
From Stdlib Require Import Ascii.

Local Open Scope c_scope.

Module Gw.
Import Janus Sdp.

(** ** Data *)

Record janus_session : Type := JanusSession {
  session_id : Z;
  last_activity : Z;  (* microseconds *)
  destroy : bool;  (* the atomic is not 0 *)
  timeout : bool;
  mutex : bool;  (* [mutex] is held *)
  ice_handles : option (gmap Z loc);
  source : option (option loc)  (* a request, with its transport *)
}.

Definition s_session_id (f : Z -> Z) (w : janus_session) : janus_session :=
  JanusSession (f (session_id w)) (last_activity w) (destroy w) (timeout w) (mutex w) (ice_handles w) (source w).
Definition s_last_activity (f : Z -> Z) (w : janus_session) : janus_session :=
  JanusSession (session_id w) (f (last_activity w)) (destroy w) (timeout w) (mutex w) (ice_handles w) (source w).
Definition s_destroy (f : bool -> bool) (w : janus_session) : janus_session :=
  JanusSession (session_id w) (last_activity w) (f (destroy w)) (timeout w) (mutex w) (ice_handles w) (source w).
Definition s_timeout (f : bool -> bool) (w : janus_session) : janus_session :=
  JanusSession (session_id w) (last_activity w) (destroy w) (f (timeout w)) (mutex w) (ice_handles w) (source w).
Definition s_mutex (f : bool -> bool) (w : janus_session) : janus_session :=
  JanusSession (session_id w) (last_activity w) (destroy w) (timeout w) (f (mutex w)) (ice_handles w) (source w).
Definition s_ice_handles (f : option (gmap Z loc) -> option (gmap Z loc)) (w : janus_session) : janus_session :=
  JanusSession (session_id w) (last_activity w) (destroy w) (timeout w) (mutex w) (f (ice_handles w)) (source w).
Definition s_source (f : option (option loc) -> option (option loc)) (w : janus_session) : janus_session :=
  JanusSession (session_id w) (last_activity w) (destroy w) (timeout w) (mutex w) (ice_handles w) (f (source w)).

Record ex : Type := Ex {
  id : Z;
  b : Z;
  sender_id : Z  (* the handle the connection attached *)
}.

Definition e_id (f : Z -> Z) (w : ex) : ex :=
  Ex (f (id w)) (b w) (sender_id w).
Definition e_b (f : Z -> Z) (w : ex) : ex :=
  Ex (id w) (f (b w)) (sender_id w).
Definition e_sender_id (f : Z -> Z) (w : ex) : ex :=
  Ex (id w) (b w) (f (sender_id w)).


Inductive relay_kind : Type := RelayData | RelayRtp (video : Z) | RelayRtcp (video : Z).

Inductive gevent : Type :=
| EmptyFrame (c : loc)  (* a reply that could not be printed *)
| Echo (c : loc) (op : Z) (data : string)
| Queued (c : loc) (frame : list Z)
| AllWorkers (frame : list Z)
| TransportTimeout (session : Z)
| SessionOver (session : Z) (timed_out : bool)
| SessionTimeout (session : Z)  (* to the event handlers, as the next two *)
| PluginEvent (session handle : Z) (plugin : loc)
| JsepEvent (session handle : Z)
| Relayed (handle : loc) (kind : relay_kind) (data : list Z).

Record gworld (X J : Type) : Type := GWorld {
  jw : jworld X J;  (* handles, Janus, the request in hand, what was sent *)
  heap : gmap loc janus_session;
  sessions : gmap Z loc;
  old_sessions : gmap Z loc;  (* destroyed, not yet freed *)
  sessions_mutex : bool;
  cleanups : list loc;  (* timers for [janus_cleanup_session], with their argument *)
  stop : Z;
  session_timeout : Z;  (* seconds *)
  plugins : option (gmap string loc);
  exs : gmap loc ex;
  hdlr_extra : gmap loc loc;  (* of the connections that have one *)
  connections : list (loc * bool);  (* with: is it a websocket? *)
  ab : Z;
  next : loc;  (* the next address to be given out *)
  event_refs : Z;  (* references to the event in hand *)
  sender_refs : Z;  (* and to its member sender *)
  glog : list gevent  (* newest first *)
}.
Arguments GWorld {X J}.
Arguments jw {X J}.
Arguments heap {X J}.
Arguments sessions {X J}.
Arguments old_sessions {X J}.
Arguments sessions_mutex {X J}.
Arguments cleanups {X J}.
Arguments stop {X J}.
Arguments session_timeout {X J}.
Arguments plugins {X J}.
Arguments exs {X J}.
Arguments hdlr_extra {X J}.
Arguments connections {X J}.
Arguments ab {X J}.
Arguments next {X J}.
Arguments event_refs {X J}.
Arguments sender_refs {X J}.
Arguments glog {X J}.

Definition g_jw {X J : Type} (f : jworld X J -> jworld X J) (w : gworld X J) : gworld X J :=
  GWorld (f (jw w)) (heap w) (sessions w) (old_sessions w) (sessions_mutex w) (cleanups w) (stop w) (session_timeout w) (plugins w) (exs w) (hdlr_extra w) (connections w) (ab w) (next w) (event_refs w) (sender_refs w) (glog w).
Definition g_heap {X J : Type} (f : gmap loc janus_session -> gmap loc janus_session) (w : gworld X J) : gworld X J :=
  GWorld (jw w) (f (heap w)) (sessions w) (old_sessions w) (sessions_mutex w) (cleanups w) (stop w) (session_timeout w) (plugins w) (exs w) (hdlr_extra w) (connections w) (ab w) (next w) (event_refs w) (sender_refs w) (glog w).
Definition g_sessions {X J : Type} (f : gmap Z loc -> gmap Z loc) (w : gworld X J) : gworld X J :=
  GWorld (jw w) (heap w) (f (sessions w)) (old_sessions w) (sessions_mutex w) (cleanups w) (stop w) (session_timeout w) (plugins w) (exs w) (hdlr_extra w) (connections w) (ab w) (next w) (event_refs w) (sender_refs w) (glog w).
Definition g_old_sessions {X J : Type} (f : gmap Z loc -> gmap Z loc) (w : gworld X J) : gworld X J :=
  GWorld (jw w) (heap w) (sessions w) (f (old_sessions w)) (sessions_mutex w) (cleanups w) (stop w) (session_timeout w) (plugins w) (exs w) (hdlr_extra w) (connections w) (ab w) (next w) (event_refs w) (sender_refs w) (glog w).
Definition g_sessions_mutex {X J : Type} (f : bool -> bool) (w : gworld X J) : gworld X J :=
  GWorld (jw w) (heap w) (sessions w) (old_sessions w) (f (sessions_mutex w)) (cleanups w) (stop w) (session_timeout w) (plugins w) (exs w) (hdlr_extra w) (connections w) (ab w) (next w) (event_refs w) (sender_refs w) (glog w).
Definition g_cleanups {X J : Type} (f : list loc -> list loc) (w : gworld X J) : gworld X J :=
  GWorld (jw w) (heap w) (sessions w) (old_sessions w) (sessions_mutex w) (f (cleanups w)) (stop w) (session_timeout w) (plugins w) (exs w) (hdlr_extra w) (connections w) (ab w) (next w) (event_refs w) (sender_refs w) (glog w).
Definition g_stop {X J : Type} (f : Z -> Z) (w : gworld X J) : gworld X J :=
  GWorld (jw w) (heap w) (sessions w) (old_sessions w) (sessions_mutex w) (cleanups w) (f (stop w)) (session_timeout w) (plugins w) (exs w) (hdlr_extra w) (connections w) (ab w) (next w) (event_refs w) (sender_refs w) (glog w).
Definition g_session_timeout {X J : Type} (f : Z -> Z) (w : gworld X J) : gworld X J :=
  GWorld (jw w) (heap w) (sessions w) (old_sessions w) (sessions_mutex w) (cleanups w) (stop w) (f (session_timeout w)) (plugins w) (exs w) (hdlr_extra w) (connections w) (ab w) (next w) (event_refs w) (sender_refs w) (glog w).
Definition g_plugins {X J : Type} (f : option (gmap string loc) -> option (gmap string loc)) (w : gworld X J) : gworld X J :=
  GWorld (jw w) (heap w) (sessions w) (old_sessions w) (sessions_mutex w) (cleanups w) (stop w) (session_timeout w) (f (plugins w)) (exs w) (hdlr_extra w) (connections w) (ab w) (next w) (event_refs w) (sender_refs w) (glog w).
Definition g_exs {X J : Type} (f : gmap loc ex -> gmap loc ex) (w : gworld X J) : gworld X J :=
  GWorld (jw w) (heap w) (sessions w) (old_sessions w) (sessions_mutex w) (cleanups w) (stop w) (session_timeout w) (plugins w) (f (exs w)) (hdlr_extra w) (connections w) (ab w) (next w) (event_refs w) (sender_refs w) (glog w).
Definition g_hdlr_extra {X J : Type} (f : gmap loc loc -> gmap loc loc) (w : gworld X J) : gworld X J :=
  GWorld (jw w) (heap w) (sessions w) (old_sessions w) (sessions_mutex w) (cleanups w) (stop w) (session_timeout w) (plugins w) (exs w) (f (hdlr_extra w)) (connections w) (ab w) (next w) (event_refs w) (sender_refs w) (glog w).
Definition g_connections {X J : Type} (f : list (loc * bool) -> list (loc * bool)) (w : gworld X J) : gworld X J :=
  GWorld (jw w) (heap w) (sessions w) (old_sessions w) (sessions_mutex w) (cleanups w) (stop w) (session_timeout w) (plugins w) (exs w) (hdlr_extra w) (f (connections w)) (ab w) (next w) (event_refs w) (sender_refs w) (glog w).
Definition g_ab {X J : Type} (f : Z -> Z) (w : gworld X J) : gworld X J :=
  GWorld (jw w) (heap w) (sessions w) (old_sessions w) (sessions_mutex w) (cleanups w) (stop w) (session_timeout w) (plugins w) (exs w) (hdlr_extra w) (connections w) (f (ab w)) (next w) (event_refs w) (sender_refs w) (glog w).
Definition g_next {X J : Type} (f : loc -> loc) (w : gworld X J) : gworld X J :=
  GWorld (jw w) (heap w) (sessions w) (old_sessions w) (sessions_mutex w) (cleanups w) (stop w) (session_timeout w) (plugins w) (exs w) (hdlr_extra w) (connections w) (ab w) (f (next w)) (event_refs w) (sender_refs w) (glog w).
Definition g_event_refs {X J : Type} (f : Z -> Z) (w : gworld X J) : gworld X J :=
  GWorld (jw w) (heap w) (sessions w) (old_sessions w) (sessions_mutex w) (cleanups w) (stop w) (session_timeout w) (plugins w) (exs w) (hdlr_extra w) (connections w) (ab w) (next w) (f (event_refs w)) (sender_refs w) (glog w).
Definition g_sender_refs {X J : Type} (f : Z -> Z) (w : gworld X J) : gworld X J :=
  GWorld (jw w) (heap w) (sessions w) (old_sessions w) (sessions_mutex w) (cleanups w) (stop w) (session_timeout w) (plugins w) (exs w) (hdlr_extra w) (connections w) (ab w) (next w) (event_refs w) (f (sender_refs w)) (glog w).
Definition g_glog {X J : Type} (f : list gevent -> list gevent) (w : gworld X J) : gworld X J :=
  GWorld (jw w) (heap w) (sessions w) (old_sessions w) (sessions_mutex w) (cleanups w) (stop w) (session_timeout w) (plugins w) (exs w) (hdlr_extra w) (connections w) (ab w) (next w) (event_refs w) (sender_refs w) (f (glog w)).

(** Two worlds with the same fields. *)
Lemma gworld_ext {X J : Type} (w1 w2 : gworld X J) :
  jw w1 = jw w2 ->
  heap w1 = heap w2 ->
  sessions w1 = sessions w2 ->
  old_sessions w1 = old_sessions w2 ->
  sessions_mutex w1 = sessions_mutex w2 ->
  cleanups w1 = cleanups w2 ->
  stop w1 = stop w2 ->
  session_timeout w1 = session_timeout w2 ->
  plugins w1 = plugins w2 ->
  exs w1 = exs w2 ->
  hdlr_extra w1 = hdlr_extra w2 ->
  connections w1 = connections w2 ->
  ab w1 = ab w2 ->
  next w1 = next w2 ->
  event_refs w1 = event_refs w2 ->
  sender_refs w1 = sender_refs w2 ->
  glog w1 = glog w2 -> w1 = w2.
Proof. destruct w1, w2. cbn. by intros; subst. Qed.

(** ** Janus *)

Class GatewayCore (X D J : Type) := {
  janus_random_uint64 : X -> Z * X;
  g_hash_table_iter : gmap Z loc -> list (Z * loc);
  (* each on the session at this address, with its handles *)
  janus_ice_handle_find : loc -> option (gmap Z loc) -> Z -> X -> option loc;
  janus_ice_handle_create : loc -> option (gmap Z loc) -> gmap loc (ice_handle J) -> X ->
    option loc * (option (gmap Z loc) * gmap loc (ice_handle J) * X);
  janus_ice_handle_attach_plugin : loc -> option (gmap Z loc) -> Z -> loc -> gmap loc (ice_handle J) -> X ->
    Z * (gmap loc (ice_handle J) * X);
  janus_ice_handle_destroy : loc -> option (gmap Z loc) -> Z -> gmap loc (ice_handle J) -> X ->
    Z * (gmap loc (ice_handle J) * X);
  janus_ice_webrtc_hangup : ice_handle J -> X -> unit * (ice_handle J * X);
  janus_events_is_enabled : X -> bool
}.

Class GatewayCoreLaws (X D J : Type) `{GatewayCore X D J} := {
  iter_all : forall t, g_hash_table_iter t ≡ₚ map_to_list t
}.

Section Code.
Context {X D J B : Type} `{JanusCore X D J} `{SdpCore X D J} `{GatewayCore X D J} `{Jansson J} `{KoreBuf B} `{KoreNet}.
Abbreviation m := (M (gworld X J)).

(** *** Access *)

Definition lift {A : Type} (f : M (jworld X J) A) : m A :=
  fun w => match f (jw w) with Done (a, j) => Done (a, g_jw (fun _ => j) w) | Crash e => Crash e end.

Definition get_session (s : loc) : m janus_session := hs ← gets heap; live (hs !! s).
Definition update_session (s : loc) (f : janus_session -> janus_session) : m unit :=
  v ← get_session s; modify (g_heap <[s := f v]>).

Definition sessions_lock : m unit :=
  l ← gets sessions_mutex; if (l : bool) then crash LockMisuse else modify (g_sessions_mutex (fun _ => true)).
Definition sessions_unlock : m unit :=
  l ← gets sessions_mutex; if (l : bool) then modify (g_sessions_mutex (fun _ => false)) else crash LockMisuse.
Definition session_lock (s : loc) : m unit :=
  v ← get_session s; if mutex v then crash LockMisuse else update_session s (s_mutex (fun _ => true)).
Definition session_unlock (s : loc) : m unit :=
  v ← get_session s; if mutex v then update_session s (s_mutex (fun _ => false)) else crash LockMisuse.

Definition log (e : gevent) : m unit := modify (g_glog (cons e)).
Definition core_of (w : gworld X J) : X := core (jw w).
Definition alloc : m loc := a ← gets next; modify (g_next S);; mret a.

(** A reply, printed and sent. *)
Definition ws_reply (c : loc) (reply : J) : m unit :=
  match json_dumps reply with
  | Some _ => modify (g_jw (w_sent (cons (c, reply))))
  | None => log (EmptyFrame c)
  end.

(** *** Signals *)

(** [exit] is behind the third. *)
Definition janus_handle_signal : m unit :=
  modify (g_stop (fun n => n + 1)%Z);;
  n ← gets stop;
  if (2 <? n)%Z then crash (Fatal "exit") else mret tt.
Definition janus_is_stopping : m Z := gets stop.

(** *** The table of sessions *)

Definition janus_session_find_destroyed (session_id : Z) : m (option loc) :=
  sessions_lock;;
  session ← gets (fun w => old_sessions w !! session_id);
  modify (g_old_sessions (delete session_id));;
  sessions_unlock;;
  mret session.

Definition janus_session_free (session : option loc) : m unit :=
  match session with
  | None => mret tt
  | Some s =>
      session_lock s;;
      update_session s (s_ice_handles (fun _ => None));;
      update_session s (s_source (fun _ => None));;
      session_unlock s;;
      modify (g_heap (delete s))
  end.

Definition janus_session_destroy (session_id : Z) : m Z :=
  session ← janus_session_find_destroyed session_id;
  match session with
  | None => mret (-1)%Z
  | Some s => janus_session_free (Some s);; mret 0%Z
  end.

Definition janus_cleanup_session (s : loc) : m bool :=
  v ← get_session s; janus_session_destroy (session_id v);; mret false.

Definition janus_session_find (session_id : Z) : m (option loc) :=
  sessions_lock;;
  session ← gets (fun w => sessions w !! session_id);
  sessions_unlock;;
  mret session.

(** [while(session_id == 0) { ... }] *)
Fixpoint draw_session_id (fuel : nat) : m Z :=
  match fuel with
  | O => crash Fuel
  | S fuel =>
      x ← gets core_of;
      let '(session_id, x) := janus_random_uint64 x in
      modify (g_jw (w_core (fun _ => x)));;
      session ← janus_session_find session_id;
      if bool_decide (is_Some session) || (session_id =? 0)%Z then draw_session_id fuel else mret session_id
  end.

Definition janus_session_create (fuel : nat) (session_id : Z) : m loc :=
  session_id ← (if (session_id =? 0)%Z then draw_session_id fuel else mret session_id);
  s ← alloc;
  x ← gets core_of;
  modify (g_heap <[s := JanusSession session_id (janus_get_monotonic_time x) false false false None None]>);;
  sessions_lock;;
  modify (g_sessions <[session_id := s]>);;
  sessions_unlock;;
  mret s.

(** *** Destruction *)

Definition ice_handle_destroy (s : loc) (handle_id : Z) : m Z :=
  v ← get_session s;
  j ← gets jw;
  let '(e, (hs, x)) := janus_ice_handle_destroy s (ice_handles v) handle_id (handles j) (core j) in
  modify (g_jw (fun j => w_core (fun _ => x) (w_handles (fun _ => hs) j)));; mret e.

Definition remove_handle (s : loc) (handle_id : Z) : m unit :=
  update_session s (s_ice_handles (fmap (delete handle_id))).

(** [while(g_hash_table_iter_next(&iter, NULL, &value))] *)
Fixpoint destroy_handles (s : loc) (l : list (Z * loc)) : m unit :=
  match l with
  | [] => mret tt
  | (k, h) :: l =>
      stop ← gets stop;
      (if (stop =? 0)%Z then
         v ← lift (get_handle h);
         ice_handle_destroy s (handle_id v);;
         remove_handle s k
       else mret tt);;
      destroy_handles s l
  end.

Definition janus_session_schedule_destruction (session : option loc) (lock_sessions remove_key notify_transport : bool) :
    m unit :=
  match session with
  | None => mret tt
  | Some s =>
      v ← get_session s;
      if destroy v then mret tt
      else
        update_session s (s_destroy (fun _ => true));;
        (if! lock_sessions then sessions_lock);;
        session_lock s;;
        v ← get_session s;
        match ice_handles v with Some hs => destroy_handles s (g_hash_table_iter hs) | None => mret tt end;;
        session_unlock s;;
        (if! remove_key then modify (g_sessions (delete (session_id v))));;
        modify (g_old_sessions <[session_id v := s]>);;
        modify (g_cleanups (fun l => l ++ [s]));;
        (if! lock_sessions then sessions_unlock);;
        v ← get_session s;
        match source v with
        | Some (Some _) => if! notify_transport then log (SessionOver (session_id v) false)
        | _ => mret tt
        end
  end.

(** The timeout of a session that was marked before. *)
Definition expire_session (k : Z) (s : loc) : m unit :=
  janus_session_schedule_destruction (Some s) false false false;;
  v ← get_session s;
  match source v with
  | Some transport =>
      deref transport;; log (TransportTimeout (session_id v));; log (SessionOver (session_id v) true)
  | None => mret tt
  end;;
  x ← gets core_of;
  (if! janus_events_is_enabled x then log (SessionTimeout (session_id v)));;
  modify (g_sessions (delete k));;
  modify (g_old_sessions <[session_id v := s]>).

(** The walk over [sessions]; [!compare_and_exchange(&session->timeout, 0, 1)] is true of a
    session that is marked already. *)
Fixpoint check_all (l : list (Z * loc)) : m unit :=
  match l with
  | [] => mret tt
  | (k, s) :: l =>
      v ← get_session s;
      (if destroy v then mret tt
       else
         now ← gets (fun w => janus_get_monotonic_time (core_of w));
         limit ← gets session_timeout;
         if (limit * 1000000 <=? now - last_activity v)%Z then
           if timeout v then expire_session k s else update_session s (s_timeout (fun _ => true))
         else mret tt);;
      check_all l
  end.

Definition janus_check_sessions : m bool :=
  limit ← gets session_timeout;
  if (limit <? 1)%Z then mret true
  else
    sessions_lock;;
    ss ← gets sessions;
    check_all (g_hash_table_iter ss);;
    sessions_unlock;;
    mret true.

(** *** Plugins *)

(** [session->ice_handles] and [plugins] are found by key. *)
Definition janus_plugin_find (package : string) : m (option loc) :=
  plugins ← gets plugins; mret (plugins ≫= lookup package).

(** The table is only filled when it is made. *)
Definition plug_fucker (pl : option (gmap string loc)) (plugin : loc) : m unit :=
  match pl with
  | None => modify (g_plugins (fun _ => Some {[get_package plugin := plugin]}))
  | Some _ => mret tt
  end.

(** A file of the plugins' directory, with what [dlopen], [dlsym], [create] and the plugin's
    own [init] come to. *)
Record dirent : Type := Dirent {
  d_name : string;
  dlopens : bool;
  has_create : bool;
  created : option loc;
  all_methods : bool;
  api_compatibility : Z;
  init_result : Z
}.

Definition has_suffix (d : string) : bool :=
  strcasecmp_eq (String.substring (String.length d - 3) 3 d) ".so".

Definition load_one (JANUS_PLUGIN_API_VERSION : Z) (d : dirent) : m unit :=
  if (String.length (d_name d) <? 4) || negb (has_suffix (d_name d)) || negb (dlopens d) || negb (has_create d) then mret tt
  else
    match created d with
    | None => mret tt
    | Some plugin =>
        if negb (all_methods d) || (api_compatibility d <? JANUS_PLUGIN_API_VERSION)%Z || (init_result d <? 0)%Z then mret tt
        else pl ← gets plugins; plug_fucker pl plugin
    end.

(** [while((pluginent = readdir(dir)))] *)
Fixpoint load_all (api : Z) (dir : list dirent) : m unit :=
  match dir with [] => mret tt | d :: dir => load_one api d;; load_all api dir end.

(** [dir] is what the path holds, [None] if it cannot be opened. *)
Definition load_plugin (api : Z) (dir : option (list dirent)) : m unit :=
  match dir with None => crash (Fatal "exit") | Some dir => load_all api dir end.

(** *** Events to the clients *)

Fixpoint target_send (to : Z) (frame : list Z) (conns : list (loc * bool)) : m unit :=
  match conns with
  | [] => mret tt
  | (c, websocket) :: conns =>
      extra ← gets (fun w => hdlr_extra w !! c);
      match extra with
      | Some e =>
          if (websocket : bool) then
            es ← gets exs; t ← live (es !! e); if! (sender_id t =? to)%Z then log (Queued c frame)
          else mret tt
      | None => mret tt
      end;;
      target_send to frame conns
  end.

Definition kore_websocket_broadcast_target (glob to op : Z) (data : list Z) (len scope : Z) : m unit :=
  let frame := frame_bytes (B := B) op data len in
  conns ← gets connections;
  target_send to frame conns;;
  if! (scope =? glob)%Z then log (AllWorkers frame).

(** The event's [json_t] and its member sender; [json_auto_t] gives the member back. *)
Definition sender_decref : m unit :=
  n ← gets sender_refs; if (n <=? 0)%Z then crash UseAfterFree else modify (g_sender_refs (fun n => n - 1)%Z).
Definition event_decref (sender : option J) : m unit :=
  n ← gets event_refs;
  if (n <=? 0)%Z then crash UseAfterFree
  else
    modify (g_event_refs (fun n => n - 1)%Z);;
    if! (n =? 1)%Z && bool_decide (is_Some sender) then sender_decref.

Definition WEBSOCKET_OP_TEXT : Z := 1.

(** A member that is an integer, as a [guint64]; else 0. *)
Definition get_uint64 (root : J) (key : string) : Z :=
  match json_object_get root key ≫= json_integer_value with Some n => u64 n | None => 0 end.

Definition janus_session_notify_event (glob : Z) (session : option loc) (event : J) : m unit :=
  match session with
  | None => mret tt
  | Some s =>
      v ← get_session s;
      if destroy v then mret tt
      else
        let hsessid := json_object_get event "sender" in
        let mmm := get_uint64 event "sender" in
        match json_dumps event with
        | None => mret tt
        | Some buf =>
            kore_websocket_broadcast_target glob mmm WEBSOCKET_OP_TEXT (string_bytes buf) (Z.of_nat (String.length buf)) 9;;
            event_decref hsessid
        end;;
        if! bool_decide (is_Some hsessid) then sender_decref
  end.

Inductive api_code : Type :=
| JANUS_OK | Failed (code : Z)
| JANUS_ERROR_SESSION_NOT_FOUND | JANUS_ERROR_HANDLE_NOT_FOUND | JANUS_ERROR_INVALID_JSON_OBJECT | JANUS_ERROR_JSEP_INVALID_SDP.

Definition plugin_event (session_id sender : Z) (transaction : option string) (package : string) (message : J)
    (jsep : option J) : J :=
  json_object ([("janus", json_string "event"); ("session_id", json_integer session_id); ("sender", json_integer sender)] ++
    match transaction with Some t => [("transaction", json_string t)] | None => [] end ++
    [("plugindata", json_object [("plugin", json_string package); ("data", message)])] ++
    match jsep with Some j => [("jsep", j)] | None => [] end).

Definition flag_set (h : loc) (f : webrtc_flag) : m bool := lift (janus_flags_is_set h f).

(** What follows when the session and the handle are there and the message is an object. *)
Definition push_merged (glob : Z) (s h plugin : loc) (transaction : option string) (message : J) (jsep merged : option J) :
    m api_code :=
  sv ← get_session s;
  hv ← lift (get_handle h);
  let event := plugin_event (session_id sv) (handle_id hv) transaction (get_package plugin) message merged in
  modify (g_event_refs (fun _ => 1)%Z);; modify (g_sender_refs (fun _ => 1)%Z);;
  janus_session_notify_event glob (Some s) event;;
  x ← gets core_of;
  (if! bool_decide (is_Some jsep) && janus_events_is_enabled x then log (JsepEvent (session_id sv) (handle_id hv)));;
  mret JANUS_OK.

Definition push_to_handle (fuel waits rounds : nat) (have_sctp : bool) (glob : Z) (ps h plugin : loc)
    (transaction : option string) (message : J) (jsep : option J) : m api_code :=
  stopping ← flag_set h WEBRTC_STOP;
  if (stopping : bool) then mret JANUS_ERROR_SESSION_NOT_FOUND
  else
    v ← lift (get_handle h);
    match session v with
    | None => mret JANUS_ERROR_SESSION_NOT_FOUND
    | Some s =>
        sv ← get_session s;
        if destroy sv then mret JANUS_ERROR_SESSION_NOT_FOUND
        else if negb (json_is_object message) then mret JANUS_ERROR_INVALID_JSON_OBJECT
        else
          let member k := jsep ≫= fun j => json_object_get j k in
          let sdp_type := member "type" ≫= json_string_value in
          let sdp := member "sdp" ≫= json_string_value in
          let restart := bool_decide (is_Some (member "sdp")) &&
            match member "restart" with Some r => json_is_true r | None => false end in
          if bool_decide (is_Some sdp_type) && bool_decide (is_Some sdp) then
            merged ← lift (janus_plugin_handle_sdp fuel waits rounds have_sctp ps (Some plugin) sdp_type sdp restart);
            match (merged : option J) with
            | Some _ => push_merged glob s h plugin transaction message jsep merged
            | None =>
                stop ← flag_set h WEBRTC_STOP;
                alert ← flag_set h WEBRTC_ALERT;
                mret (if (stop : bool) || alert then JANUS_ERROR_HANDLE_NOT_FOUND else JANUS_ERROR_JSEP_INVALID_SDP)
            end
          else push_merged glob s h plugin transaction message jsep None
    end.

Definition janus_plugin_push_event (fuel waits rounds : nat) (have_sctp : bool) (glob : Z) (ps : loc) (plugin : option loc)
    (transaction : option string) (message jsep : option J) : m api_code :=
  match plugin, message with
  | Some plugin, Some message =>
      ok ← lift (in_use ps);
      if negb (ok : bool) then mret (Failed (-2))
      else
        h ← lift (handle_of ps);
        match (h : option loc) with
        | None => mret JANUS_ERROR_SESSION_NOT_FOUND
        | Some h => push_to_handle fuel waits rounds have_sctp glob ps h plugin transaction message jsep
        end
  | _, _ => mret (Failed (-1))
  end.

(** *** The other calls of a plugin *)

Definition janus_plugin_end_session (ps : loc) : m unit :=
  ok ← lift (in_use ps);
  if negb (ok : bool) then mret tt
  else
    h ← lift (handle_of ps);
    match (h : option loc) with
    | None => mret tt
    | Some h =>
        v ← lift (get_handle h);
        match session v with
        | None => mret tt
        | Some s =>
            session_lock s;;
            ice_handle_destroy s (handle_id v);;
            v ← lift (get_handle h);
            remove_handle s (handle_id v);;
            session_unlock s
        end
    end.

Definition janus_plugin_close_pc (ps : loc) : m unit :=
  ok ← lift (in_use ps);
  if negb (ok : bool) then mret tt
  else
    h ← lift (handle_of ps);
    match (h : option loc) with
    | None => mret tt
    | Some h =>
        v ← lift (get_handle h);
        if bool_decide (WEBRTC_STOP ∈ webrtc_flags v) || bool_decide (WEBRTC_ALERT ∈ webrtc_flags v) then mret tt
        else match session v with None => mret tt | Some _ => lift (core_call h janus_ice_webrtc_hangup) end
    end.

(** [janus_plugin_relay_data], [_rtp] and [_rtcp]: a packet goes on if the peer connection is
    up; [data] is null or [len] bytes; without SCTP a data packet goes nowhere. *)
Definition relay (have_sctp : bool) (ps : loc) (kind : relay_kind) (buf : option (list Z)) (len : Z) : m unit :=
  if bad_pointer ps then mret tt
  else
    stopped ← lift (is_stopped ps);
    match buf with
    | Some data =>
        if (stopped : bool) || (len <? 1)%Z then mret tt
        else
          h ← lift (handle_of ps);
          match (h : option loc) with
          | None => mret tt
          | Some h =>
              v ← lift (get_handle h);
              if bool_decide (WEBRTC_STOP ∈ webrtc_flags v) || bool_decide (WEBRTC_ALERT ∈ webrtc_flags v) then mret tt
              else match kind with RelayData => if! have_sctp then log (Relayed h kind data) | _ => log (Relayed h kind data) end
          end
    | None => mret tt
    end.
Definition janus_plugin_relay_data (have_sctp : bool) (ps : loc) (buf : option (list Z)) (len : Z) : m unit :=
  relay have_sctp ps RelayData buf len.
Definition janus_plugin_relay_rtp (ps : loc) (video : Z) (buf : option (list Z)) (len : Z) : m unit :=
  relay true ps (RelayRtp video) buf len.
Definition janus_plugin_relay_rtcp (ps : loc) (video : Z) (buf : option (list Z)) (len : Z) : m unit :=
  relay true ps (RelayRtcp video) buf len.

(** [plugin_session] may be null here. *)
Definition janus_plugin_notify_event (plugin ps : option loc) (event : option J) : m unit :=
  match plugin, event with
  | Some plugin, Some event =>
      if negb (json_is_object event) then mret tt
      else
        ids ← match ps with
              | None => mret (Some (0, 0)%Z)
              | Some ps =>
                  ok ← lift (in_use ps);
                  if negb (ok : bool) then mret None
                  else
                    h ← lift (handle_of ps);
                    match (h : option loc) with
                    | None => mret None
                    | Some h =>
                        v ← lift (get_handle h);
                        match session v with
                        | None => mret None
                        | Some s => sv ← get_session s; mret (Some (session_id sv, handle_id v))
                        end
                    end
              end;
        x ← gets core_of;
        match ids with
        | Some (sid, hid) => if! janus_events_is_enabled x then log (PluginEvent sid hid plugin)
        | None => mret tt
        end
  | _, _ => mret tt
  end.

(** *** The websocket *)

Definition transi : string := "trans_janus".

Definition connect_reply (l : ex) (session_id : Z) : J :=
  json_object [("type", json_string "user_id"); ("msg", json_string "Hallo jason!"); ("id", json_integer (id l));
    ("b", json_integer (b l)); ("session_id", json_integer session_id); ("transaction", json_string transi)].

Definition websocket_connect (fuel : nat) (c : loc) : m unit :=
  modify (g_ab (fun n => n + 1)%Z);;
  n ← gets ab;
  l ← alloc;
  modify (g_exs <[l := Ex n 46 0]>);;
  modify (g_hdlr_extra <[c := l]>);;
  s ← janus_session_create fuel 0;
  v ← get_session s;
  (if! (0 <? session_id v)%Z then _ ← janus_session_find (session_id v); mret tt);;
  ws_reply c (connect_reply (Ex n 46 0) (session_id v)).

Definition websocket_disconnect (c : loc) : m unit :=
  extra ← gets (fun w => hdlr_extra w !! c);
  l ← deref extra;
  es ← gets exs;
  live (es !! l);;
  modify (g_ab (fun n => n - 1)%Z);;
  modify (g_exs (delete l));;
  modify (g_hdlr_extra (delete c)).

Definition find_handle (s : loc) (handle_id : Z) : m (option loc) :=
  if (handle_id =? 0)%Z then mret None
  else
    session_lock s;;
    v ← get_session s;
    x ← gets core_of;
    session_unlock s;;
    mret (janus_ice_handle_find s (ice_handles v) handle_id x).

Definition ice_handle_create (s : loc) : m (option loc) :=
  v ← get_session s;
  j ← gets jw;
  let '(h, (tbl, hs, x)) := janus_ice_handle_create s (ice_handles v) (handles j) (core j) in
  modify (g_jw (fun j => w_core (fun _ => x) (w_handles (fun _ => hs) j)));;
  update_session s (s_ice_handles (fun _ => tbl));; mret h.
Definition ice_handle_attach_plugin (s : loc) (handle_id : Z) (plugin : loc) : m Z :=
  v ← get_session s;
  j ← gets jw;
  let '(e, (hs, x)) := janus_ice_handle_attach_plugin s (ice_handles v) handle_id plugin (handles j) (core j) in
  modify (g_jw (fun j => w_core (fun _ => x) (w_handles (fun _ => hs) j)));; mret e.

Definition session_reply (type : string) (session_id : Z) : J :=
  json_object [("type", json_string type); ("session_id", json_integer session_id); ("transaction", json_string transi)].
Definition attach_reply (session_id handle_id : Z) : J :=
  json_object [("session_id", json_integer session_id); ("transaction", json_string transi);
    ("handle_id", json_integer handle_id); ("type", json_string "on_attach")].

(** What a request comes to: [None] is an early return, the request given back or not as it
    is there; [Some] says whether the message is answered ([send_to_clients]). *)
Definition drop_request : m (option bool) := lift root_decref;; mret None.

Definition on_attach (c s r : loc) (session_id : Z) (handle : option loc) : m (option bool) :=
  match handle with
  | Some _ => drop_request
  | None =>
      session_lock s;;
      h ← ice_handle_create s;
      match h with
      | None => session_unlock s;; drop_request
      | Some h =>
          v ← lift (get_handle h);
          let handle_id := handle_id v in
          es ← gets exs;
          e ← live (es !! r);
          modify (g_exs <[r := e_sender_id (fun _ => handle_id) e]>);;
          plugin_t ← janus_plugin_find "janus.plugin.echotest";
          match plugin_t with
          | None => drop_request
          | Some plugin_t =>
              error ← ice_handle_attach_plugin s handle_id plugin_t;
              if negb (error =? 0)%Z then
                ice_handle_destroy s handle_id;; remove_handle s handle_id;; session_unlock s;; drop_request
              else session_unlock s;; ws_reply c (attach_reply session_id handle_id);; mret (Some true)
          end
      end
  end.

Definition on_detach (c s : loc) (session_id handle_id : Z) (handle : option loc) : m (option bool) :=
  match handle with
  | None => mret None
  | Some h =>
      lift (get_handle h);;
      session_lock s;;
      ice_handle_destroy s handle_id;;
      remove_handle s handle_id;;
      session_unlock s;;
      ws_reply c (session_reply "on_detach" session_id);; mret (Some true)
  end.

Definition on_destroy (c s : loc) (session_id : Z) (handle : option loc) : m (option bool) :=
  match handle with
  | Some _ => drop_request
  | None =>
      janus_session_schedule_destruction (Some s) true true true;;
      ws_reply c (session_reply "on_destroy" session_id);; mret (Some true)
  end.

Definition dispatch (fuel : nat) (have_sctp : bool) (c s r : loc) (sid handle_id : Z) (handle : option loc) (root : J)
    (type : string) : m (option bool) :=
  if String.eqb type "message" || String.eqb type "login" then mret (Some false)
  else if String.eqb type "attach" then on_attach c s r sid handle
  else if String.eqb type "detach" then on_detach c s sid handle_id handle
  else if String.eqb type "destroy" then on_destroy c s sid handle
  else if String.eqb type "janus" then
    v ← get_session s;
    lift (incoming_message fuel have_sctp handle (Some (session_id v)) root sid c);; mret (Some true)
  else if String.eqb type "trickle" then lift (do_trickle handle root sid c);; mret (Some true)
  else mret (Some true).

Definition on_request (fuel : nat) (have_sctp : bool) (c r : loc) (op : Z) (data : string) (root : J) : m unit :=
  let session_id := get_uint64 root "session_id" in
  let handle_id := get_uint64 root "handle_id" in
  session ← janus_session_find session_id;
  match session with
  | None => lift root_decref
  | Some s =>
      x ← gets core_of;
      update_session s (s_last_activity (fun _ => janus_get_monotonic_time x));;
      handle ← find_handle s handle_id;
      t_txt ← deref (json_object_get root "type" ≫= json_string_value);
      send_to_clients ← dispatch fuel have_sctp c s r session_id handle_id handle root t_txt;
      match send_to_clients with
      | None => mret tt
      | Some answered => (if! negb answered then log (Echo c op data));; lift root_decref
      end
  end.

Definition websocket_message (fuel : nat) (have_sctp : bool) (c : loc) (op : Z) (data : option string) : m unit :=
  match data with
  | None => mret tt
  | Some data =>
      extra ← gets (fun w => hdlr_extra w !! c);
      r ← deref extra;
      es ← gets exs;
      live (es !! r);;
      match json_loads data with
      | None => mret tt
      | Some root => modify (g_jw (w_root_refs (fun _ => 1)%Z));; on_request fuel have_sctp c r op data root
      end
  end.
End Code.

(** A timer of [janus_session_schedule_destruction] goes off: GLib calls the function and
    removes the timer. *)
Section Timer.
Context {X D J : Type} `{JanusCore X D J}.

Definition fire_cleanup (i : nat) : M (gworld X J) unit :=
  l ← gets cleanups;
  s ← deref (l !! i);
  janus_cleanup_session s;;
  modify (g_cleanups (delete i)).
End Timer.

(** ** The directory of sessions, abstractly

    What the handlers do to the two tables and the timers comes down to three transitions. *)

Record directory : Type := Directory {
  d_ids : gmap loc (Z * bool);  (* the sessions in memory: number, destroyed *)
  d_sessions : gmap Z loc;
  d_old : gmap Z loc;
  d_timers : list loc
}.

Definition a_create (s : loc) (k : Z) (d : directory) : directory :=
  Directory (<[s := (k, false)]> (d_ids d)) (<[k := s]> (d_sessions d)) (d_old d) (d_timers d).
Definition a_retire (s : loc) (k : Z) (d : directory) : directory :=
  Directory (<[s := (k, true)]> (d_ids d)) (delete k (d_sessions d)) (<[k := s]> (d_old d)) (d_timers d ++ [s]).
Definition a_free (i : nat) (s : loc) (k : Z) (d : directory) : directory :=
  Directory (delete s (d_ids d)) (d_sessions d) (delete k (d_old d)) (delete i (d_timers d)).

Inductive astep : directory -> directory -> Prop :=
| astep_create s k d : d_ids d !! s = None -> d_sessions d !! k = None -> astep d (a_create s k d)
| astep_retire s k d : d_sessions d !! k = Some s -> d_ids d !! s = Some (k, false) -> astep d (a_retire s k d)
| astep_free i s k d : d_timers d !! i = Some s -> d_ids d !! s = Some (k, true) -> d_old d !! k = Some s ->
    astep d (a_free i s k d).

(** Every session in memory is in the table it belongs to, the only one of its number, and
    one timer waits for each destroyed one. *)
Record directory_ok (d : directory) : Prop := DirectoryOk {
  ok_sessions : forall s k, d_ids d !! s = Some (k, false) <-> d_sessions d !! k = Some s;
  ok_old : forall s k, d_ids d !! s = Some (k, true) <-> d_old d !! k = Some s;
  ok_apart : forall k, d_sessions d !! k = None \/ d_old d !! k = None;
  ok_timers : NoDup (d_timers d);
  ok_timer : forall s, s ∈ d_timers d <-> exists k, d_ids d !! s = Some (k, true)
}.

Lemma create_ok s k d :
  directory_ok d -> d_ids d !! s = None -> d_sessions d !! k = None -> d_old d !! k = None -> directory_ok (a_create s k d).
Proof.
  intros [Hs Ho Ha Ht Htm] Hfresh Hk Hko. split; cbn.
  - intros s' k'. rewrite !lookup_insert_Some, Hs. split.
    + intros [[<- [= <-]]|[Hne Hk']]; [by left|right]. split; [|done]. by intros <-; rewrite Hk in Hk'.
    + intros [[<- <-]|[Hne Hk']]; [by left|right]. split; [|done]. intros <-. by rewrite <- Hs, Hfresh in Hk'.
  - intros s' k'. rewrite lookup_insert_Some, <- Ho. split; [naive_solver|]. intros Hs'. right.
    split; [|done]. by intros <-; rewrite Hfresh in Hs'.
  - intros k'. destruct (decide (k = k')) as [<-|]; [by right|]. rewrite lookup_insert_ne by done. apply Ha.
  - done.
  - intros s'. rewrite Htm. split; intros [k' Hk']; exists k'.
    + rewrite lookup_insert_ne; [done|]. by intros <-; rewrite Hfresh in Hk'.
    + apply lookup_insert_Some in Hk'. naive_solver.
Qed.

Lemma retire_ok s k d :
  directory_ok d -> d_ids d !! s = Some (k, false) -> directory_ok (a_retire s k d).
Proof.
  intros [Hs Ho Ha Ht Htm] Hsk. pose proof (proj1 (Hs s k) Hsk) as Hk. destruct (Ha k) as [?|Hko]; [congruence|].
  assert (Hnt : s ∉ d_timers d) by (rewrite Htm; intros [k' Hk']; congruence).
  split; cbn.
  - intros s' k'. rewrite lookup_insert_Some, lookup_delete_Some, Hs. split.
    + intros [[? [=]]|[Hne Hk']]. split; [|done]. intros <-. by rewrite Hk in Hk'; injection Hk'.
    + intros [Hne Hk']. right. split; [|done]. intros <-. apply Hne. rewrite <- Hs, Hsk in Hk'. by injection Hk'.
  - intros s' k'. rewrite !lookup_insert_Some, Ho. split.
    + intros [[<- [= <-]]|[Hne Hk']]; [by left|right]. split; [|done]. by intros <-; rewrite Hko in Hk'.
    + intros [[<- <-]|[Hne Hk']]; [by left|right]. split; [|done]. intros <-. rewrite <- Ho in Hk'. congruence.
  - intros k'. destruct (decide (k = k')) as [<-|]; [left; apply lookup_delete_eq|].
    rewrite lookup_delete_ne, lookup_insert_ne by done. apply Ha.
  - apply NoDup_app. split_and!; [done| |apply NoDup_singleton]. by intros s' Hs' ->%list_elem_of_singleton.
  - intros s'. rewrite elem_of_app, list_elem_of_singleton, Htm. split.
    + intros [[k' Hk']| ->]; [|exists k; apply lookup_insert_eq]. exists k'. rewrite lookup_insert_ne; [done|].
      intros <-. congruence.
    + intros [k' [[<- _]|[_ Hk']]%lookup_insert_Some]; [by right|left; eauto].
Qed.

Lemma free_ok i s k d :
  directory_ok d -> d_timers d !! i = Some s -> d_ids d !! s = Some (k, true) -> directory_ok (a_free i s k d).
Proof.
  intros [Hs Ho Ha Ht Htm] Hi Hsk. pose proof (proj1 (Ho s k) Hsk) as Hk.
  assert (Hdel : d_timers d ≡ₚ s :: delete i (d_timers d)) by by apply delete_Permutation.
  assert (Hnd : s ∉ delete i (d_timers d) /\ NoDup (delete i (d_timers d))) by (apply NoDup_cons; by rewrite <- Hdel).
  split; cbn.
  - intros s' k'. rewrite lookup_delete_Some, Hs. split; [by intros []|]. intros Hk'. split; [|done].
    intros <-. rewrite <- Hs in Hk'. congruence.
  - intros s' k'. rewrite !lookup_delete_Some, Ho. split; intros [Hne Hk']; (split; [|done]); intros <-.
    + congruence.
    + apply Hne. rewrite <- Ho in Hk'. congruence.
  - intros k'. destruct (Ha k') as [|Hk']; [by left|right]. apply lookup_delete_None. by right.
  - apply Hnd.
  - intros s'. assert (Hel : s' ∈ d_timers d <-> s' = s \/ s' ∈ delete i (d_timers d)) by (rewrite <- elem_of_cons; by rewrite <- Hdel).
    rewrite Htm in Hel. split.
    + intros Hin. destruct (proj2 Hel (or_intror Hin)) as [k' Hk']. exists k'. apply lookup_delete_Some. split; [|done].
      intros <-. by apply (proj1 Hnd).
    + intros [k' [Hne Hk']%lookup_delete_Some]. destruct (proj1 Hel) as [->|]; [by exists k'|done|done].
Qed.

(** ** The handlers make those transitions, and no others *)

Section Refinement.
Context {X D J B : Type} `{JanusCore X D J} `{SdpCore X D J} `{GatewayCore X D J} `{Jansson J} `{KoreBuf B} `{KoreNet}.
Implicit Types (w : gworld X J) (d : directory).
Local Abbreviation m := (M (gworld X J)).

Definition dir w : directory :=
  Directory ((fun v => (session_id v, destroy v)) <$> heap w) (sessions w) (old_sessions w) (cleanups w).

(** The directory is [d], [sessions_mutex] is [b], and addresses to come are new. *)
Definition at_ d (b : bool) w : Prop :=
  dir w = d /\ sessions_mutex w = b /\ forall s, is_Some (d_ids d !! s) -> s < next w.

Lemma keep_lift {A : Type} (f : M (jworld X J) A) d b : preserves (at_ d b) (lift f).
Proof. intros w a w' Hw. unfold lift. destruct (f (jw w)) as [[a' j]|]; [|done]. by intros [= <- <-]. Qed.

Lemma keep_log e d b : preserves (at_ d b) (log (X := X) (J := J) e).
Proof. by apply preserves_modify. Qed.

Lemma keep_reply c r d b : preserves (at_ d b) (ws_reply c r).
Proof. unfold ws_reply. destruct (json_dumps r); [by apply preserves_modify|apply keep_log]. Qed.

Lemma keep_get_session s d b : preserves (at_ d b) (get_session (X := X) (J := J) s).
Proof. unfold get_session. solve_preserves. Qed.

(** What is written into a session here is not its number, and not whether it is destroyed. *)
Definition harmless (f : janus_session -> janus_session) : Prop :=
  forall v, session_id (f v) = session_id v /\ destroy (f v) = destroy v.

Lemma keep_update s f d b : harmless f -> preserves (at_ d b) (update_session (X := X) (J := J) s f).
Proof.
  intros Hf w [] w' (Hd & Hm & Hn) Hr. unfold update_session, get_session in Hr.
  rewrite bind_assoc in Hr. run eq_refl in Hr. destruct (heap w !! s) as [v|] eqn:Hv; [|done]. run eq_refl in Hr.
  injection Hr as <-. split_and!; [|done|done]. rewrite <- Hd. unfold dir. cbn. f_equal.
  destruct (Hf v) as [Hid Hdst]. rewrite fmap_insert, Hid, Hdst. apply insert_id. by rewrite lookup_fmap, Hv.
Qed.

Lemma keep_core_modify (f : jworld X J -> jworld X J) d b : preserves (at_ d b) (modify (g_jw f)).
Proof. by apply preserves_modify. Qed.
Lemma keep_exs f d b : preserves (at_ d b) (modify (@g_exs X J f)).
Proof. by apply preserves_modify. Qed.
Lemma keep_extra f d b : preserves (at_ d b) (modify (@g_hdlr_extra X J f)).
Proof. by apply preserves_modify. Qed.
Lemma keep_ab f d b : preserves (at_ d b) (modify (@g_ab X J f)).
Proof. by apply preserves_modify. Qed.
Lemma keep_event_refs f d b : preserves (at_ d b) (modify (@g_event_refs X J f)).
Proof. by apply preserves_modify. Qed.
Lemma keep_sender_refs f d b : preserves (at_ d b) (modify (@g_sender_refs X J f)).
Proof. by apply preserves_modify. Qed.

Lemma keep_alloc d b : preserves (at_ d b) (alloc (X := X) (J := J)).
Proof. intros w a w' (Hd & Hm & Hn) [= <- <-]. split_and!; [done|done|]. intros s Hs. cbn. specialize (Hn s Hs). lia. Qed.

Hint Resolve keep_lift keep_log keep_reply keep_get_session keep_core_modify keep_exs keep_extra keep_ab keep_event_refs
  keep_sender_refs keep_alloc : pres.
Hint Extern 2 (preserves (at_ _ _) (update_session _ _)) => apply keep_update; by intros [] : pres.

Lemma keep_session_lock s d b : preserves (at_ d b) (session_lock (X := X) (J := J) s).
Proof. unfold session_lock. solve_preserves. Qed.
Lemma keep_session_unlock s d b : preserves (at_ d b) (session_unlock (X := X) (J := J) s).
Proof. unfold session_unlock. solve_preserves. Qed.
Lemma keep_handle_destroy s k d b : preserves (at_ d b) (ice_handle_destroy s k).
Proof. unfold ice_handle_destroy. solve_preserves. Qed.
Lemma keep_remove_handle s k d b : preserves (at_ d b) (remove_handle (X := X) (J := J) s k).
Proof. unfold remove_handle. solve_preserves. Qed.
Hint Resolve keep_session_lock keep_session_unlock keep_handle_destroy keep_remove_handle : pres.

Lemma keep_destroy_handles s l d b : preserves (at_ d b) (destroy_handles s l).
Proof. induction l as [|[k h] l IH]; cbn [destroy_handles]; solve_preserves. Qed.
Lemma keep_handle_create s d b : preserves (at_ d b) (ice_handle_create s).
Proof. unfold ice_handle_create. solve_preserves. Qed.
Lemma keep_attach_plugin s k p d b : preserves (at_ d b) (ice_handle_attach_plugin s k p).
Proof. unfold ice_handle_attach_plugin. solve_preserves. Qed.
Lemma keep_find_handle s k d b : preserves (at_ d b) (find_handle s k).
Proof. unfold find_handle. solve_preserves. Qed.
Hint Resolve keep_destroy_handles keep_handle_create keep_attach_plugin keep_find_handle : pres.

(** The mutex of the tables. *)
Lemma lock_triple d b : triple (at_ d b) (sessions_lock (X := X) (J := J)) (fun _ => at_ d true).
Proof.
  intros w [] w' (Hd & Hm & Hn) Hr. unfold sessions_lock in Hr. run eq_refl in Hr.
  destruct (sessions_mutex w); [done|]. by injection Hr as <-.
Qed.
Lemma unlock_triple d b : triple (at_ d b) (sessions_unlock (X := X) (J := J)) (fun _ => at_ d false).
Proof.
  intros w [] w' (Hd & Hm & Hn) Hr. unfold sessions_unlock in Hr. run eq_refl in Hr.
  destruct (sessions_mutex w); [|done]. by injection Hr as <-.
Qed.

Lemma find_triple k d b : triple (at_ d b) (janus_session_find (X := X) (J := J) k)
  (fun r w => at_ d false w /\ r = d_sessions d !! k).
Proof.
  unfold janus_session_find. eapply triple_bind; [apply lock_triple|intros []; cbn beta]. apply triple_gets. intros r.
  intros w a w' [(Hd & Hm & Hn) ->] Hr. inv_bind Hr. eapply unlock_triple in Hrun; [|by split_and!].
  injection Hr as <- <-. split; [done|]. by rewrite <- Hd.
Qed.

Lemma get_triple s d b : triple (at_ d b) (get_session (X := X) (J := J) s)
  (fun v w => at_ d b w /\ d_ids d !! s = Some (session_id v, destroy v)).
Proof.
  intros w v w' Hw Hr. unfold get_session in Hr. run eq_refl in Hr. destruct (heap w !! s) as [v'|] eqn:Hv; [|done].
  injection Hr as <- <-. split; [done|]. destruct Hw as (<- & _). cbn. by rewrite lookup_fmap, Hv.
Qed.

(** A step of a handler in a proof about the directory. *)
Tactic Notation "tstep" open_constr(L) "as" simple_intropattern(a) := eapply triple_bind; [eapply L|intros a; cbn beta].
Ltac tdone := match goal with |- triple ?P ?m _ => change (preserves P m); solve_preserves end.
Ltac tkeep := eapply triple_keep; [solve [solve_preserves]|intros ?].

Lemma draw_triple fuel d b : triple (at_ d b) (draw_session_id fuel)
  (fun k w => at_ d false w /\ d_sessions d !! k = None /\ k <> 0%Z).
Proof.
  revert b. induction fuel as [|fuel IH]; intros b; cbn [draw_session_id]; [by intros w a w' _ [=]|].
  tkeep. destruct (janus_random_uint64 _) as [k x]. tkeep. tstep find_triple as r.
  apply triple_pure. intros ->. case_bool_decide as Hr; cbn [orb]; [apply IH|].
  destruct (Z.eqb_spec k 0); [apply IH|]. apply triple_ret. intros w Hw. split_and!; [done| |done].
  destruct (d_sessions d !! k) eqn:E; [by destruct Hr|done].
Qed.

Lemma create_triple fuel d b : triple (at_ d b) (janus_session_create fuel 0)
  (fun s w => exists k, d_ids d !! s = None /\ d_sessions d !! k = None /\ at_ (a_create s k d) false w).
Proof.
  unfold janus_session_create. change (0 =? 0)%Z with true. cbv iota. tstep draw_triple as k.
  intros w s w' [(Hd & Hm & Hn) [Hk Hk0]] Hr. set (s0 := next w).
  assert (Hs0 : d_ids d !! s0 = None).
  { apply eq_None_not_Some. intros Hs. specialize (Hn s0 Hs). subst s0. lia. }
  run eq_refl in Hr. run eq_refl in Hr. run eq_refl in Hr. set (w1 := g_heap _ _) in Hr.
  assert (Hw1 : at_ (Directory (<[s0 := (k, false)]> (d_ids d)) (d_sessions d) (d_old d) (d_timers d)) false w1).
  { split_and!; [|done|].
    - rewrite <- Hd. subst w1. unfold dir. cbn. by rewrite fmap_insert.
    - intros s1 Hs1. cbn in Hs1 |- *. subst s0. destruct (decide (next w = s1)) as [<-|]; [lia|].
      rewrite lookup_insert_ne in Hs1 by done. specialize (Hn s1 Hs1). lia. }
  inv_bind Hr. eapply lock_triple in Hrun as (Hd2 & Hm2 & Hn2); [|done]. run eq_refl in Hr. inv_bind Hr.
  eapply (unlock_triple (a_create s0 k d)) in Hrun; [|split_and!; [|done|exact Hn2]].
  - injection Hr as <- <-. eauto.
  - unfold dir in Hd2 |- *. cbn. injection Hd2 as -> -> -> ->. done.
Qed.

(** A write into the tables. *)
Lemma modify_triple (F : directory -> directory) (f : gworld X J -> gworld X J) d b :
  (forall w, dir (f w) = F (dir w)) -> (forall w, sessions_mutex (f w) = sessions_mutex w) -> (forall w, next (f w) = next w) ->
  (forall s, is_Some (d_ids (F d) !! s) -> is_Some (d_ids d !! s)) ->
  triple (at_ d b) (modify f) (fun _ => at_ (F d) b).
Proof.
  intros Hdir Hm Hn Hids. apply triple_modify. intros w (Hd & Hb & Hnext). split_and!; [by rewrite Hdir, Hd|by rewrite Hm|].
  intros s Hs. rewrite Hn. auto.
Qed.

(** The mark of a destroyed session. *)
Lemma destroy_triple s k e d b :
  d_ids d !! s = Some (k, e) ->
  triple (at_ d b) (update_session (X := X) (J := J) s (s_destroy (fun _ => true)))
    (fun _ => at_ (Directory (<[s := (k, true)]> (d_ids d)) (d_sessions d) (d_old d) (d_timers d)) b).
Proof.
  intros Hs w [] w' (Hd & Hm & Hn) Hr. unfold update_session in Hr. inv_bind Hr.
  eapply get_triple in Hrun as [(Hd1 & Hm1 & Hn1) Hv]; [|by split_and!]. injection Hr as <-.
  rewrite Hs in Hv. injection Hv as -> ->. split_and!; [|done|].
  - rewrite <- Hd1. unfold dir. cbn. by rewrite fmap_insert.
  - cbn. intros s' [x [[<- _]|[_ Hx]]%lookup_insert_Some]; apply Hn1; eauto.
Qed.

(** [janus_session_schedule_destruction]. *)
Definition scheduled (s : loc) (k : Z) (remove_key : bool) d : directory :=
  Directory (<[s := (k, true)]> (d_ids d)) (if remove_key then delete k (d_sessions d) else d_sessions d)
    (<[k := s]> (d_old d)) (d_timers d ++ [s]).

Lemma schedule_triple s k lock remove notify d b :
  d_ids d !! s = Some (k, false) ->
  triple (at_ d b) (janus_session_schedule_destruction (Some s) lock remove notify)
    (fun _ => at_ (scheduled s k remove d) (if lock then false else b)).
Proof.
  intros Hs. unfold janus_session_schedule_destruction. tstep get_triple as v0. apply triple_pure.
  rewrite Hs. intros [= _ <-]. tstep (destroy_triple s k false) as []; [done|].
  set (d1 := Directory _ _ _ _). eapply (triple_bind _ (fun _ => at_ d1 (lock || b))).
  { destruct lock; [apply lock_triple|by apply triple_ret]. }
  intros []. tkeep. tstep get_triple as v. apply triple_pure. intros Hv. unfold d1 in Hv. cbn in Hv.
  rewrite lookup_insert_eq in Hv. injection Hv as Hk _. rewrite <- Hk. clear Hk. tkeep. tkeep.
  eapply (triple_bind _ (fun _ => at_ (Directory (d_ids d1) (if remove then delete k (d_sessions d) else d_sessions d)
    (d_old d) (d_timers d)) (lock || b))).
  { destruct remove; [|by apply triple_ret]. by apply (modify_triple (fun d => Directory (d_ids d) (delete k (d_sessions d)) (d_old d) (d_timers d)) _ d1). }
  intros []. tstep (modify_triple (fun d => Directory (d_ids d) (d_sessions d) (<[k := s]> (d_old d)) (d_timers d))) as []; [done..|].
  tstep (modify_triple (fun d => Directory (d_ids d) (d_sessions d) (d_old d) (d_timers d ++ [s]))) as []; [done..|].
  cbn [d_ids d_sessions d_old d_timers]. fold (scheduled s k remove d).
  eapply (triple_bind _ (fun _ => at_ (scheduled s k remove d) (if lock then false else b))).
  { destruct lock; [apply unlock_triple|by apply triple_ret]. }
  intros []. tdone.
Qed.

Lemma expire_triple s k d :
  d_ids d !! s = Some (k, false) -> triple (at_ d true) (expire_session k s) (fun _ => at_ (a_retire s k d) true).
Proof.
  intros Hs. unfold expire_session. tstep (schedule_triple s k false false false) as []; [done|].
  tstep get_triple as v. apply triple_pure. cbn. rewrite lookup_insert_eq. intros [= <- _]. tkeep. tkeep. tkeep.
  tstep (modify_triple (fun d => Directory (d_ids d) (delete k (d_sessions d)) (d_old d) (d_timers d))) as []; [done..|].
  eapply triple_mono; [by apply (modify_triple (fun d => Directory (d_ids d) (d_sessions d) (<[k := s]> (d_old d)) (d_timers d)))|].
  intros [] w. cbn. rewrite insert_insert_eq. done.
Qed.

(** What a handler other than the one of a connection may leave of the directory [d]:
    sessions have been retired. *)
Definition retires d d' : Prop :=
  exists s k, d_sessions d !! k = Some s /\ d_ids d !! s = Some (k, false) /\ d' = a_retire s k d.
Definition reaches d (b : bool) w : Prop := exists d', rtc retires d d' /\ at_ d' b w.

Lemma reaches_refl d b w : at_ d b w -> reaches d b w.
Proof. intros Hw. exists d. split; [apply rtc_refl|done]. Qed.
Lemma reaches_retire s k d b w :
  d_sessions d !! k = Some s -> d_ids d !! s = Some (k, false) -> reaches (a_retire s k d) b w -> reaches d b w.
Proof.
  intros Hk Hs (d2 & Hd2 & Hw). exists d2. split; [|done]. eapply rtc_l; [|done]. by exists s, k.
Qed.
Lemma retires_ok d d' : rtc retires d d' -> directory_ok d -> rtc astep d d' /\ directory_ok d'.
Proof.
  induction 1 as [d|d d1 d2 (s & k & Hk & Hs & ->) _ IH]; intros Hok; [by split; [apply rtc_refl|]|].
  destruct IH as [Hsteps Hok2]; [by apply retire_ok|]. split; [|done]. eapply rtc_l; [by apply astep_retire|done].
Qed.

Lemma keep_reaches {A : Type} (f : m A) d b : preserves (at_ d b) f -> triple (at_ d b) f (fun _ => reaches d b).
Proof. intros Hf w a w' Hw Hr. apply reaches_refl. by eapply Hf. Qed.

(** Sessions of the table, walked; each is still there when it is its turn. *)
Lemma check_all_triple l d :
  directory_ok d -> NoDup l.*1 -> (forall k s, (k, s) ∈ l -> d_sessions d !! k = Some s) ->
  triple (at_ d true) (check_all l) (fun _ => reaches d true).
Proof.
  revert d. induction l as [|[k s] l IH]; intros d Hok Hnd Hl; cbn [check_all].
  { apply triple_ret. intros w. apply reaches_refl. }
  cbn in Hnd. apply NoDup_cons in Hnd as [Hk Hnd].
  assert (Hs : d_ids d !! s = Some (k, false)) by (apply Hok, Hl; by left).
  assert (Hrest : triple (at_ d true) (check_all l) (fun _ => reaches d true)).
  { apply IH; [done|done|]. intros k' s' Hks. apply Hl. by right. }
  tkeep. match goal with v : janus_session |- _ => destruct (destroy v) end; [tkeep; done|].
  eapply (triple_bind _ (fun _ w => at_ d true w \/ at_ (a_retire s k d) true w)).
  - tkeep. tkeep.
    destruct (_ <=? _)%Z; [|apply triple_ret; by left]. destruct (timeout _).
    + eapply triple_mono; [by apply expire_triple|]. cbn beta. by right.
    + intros w u w' Hw Hr. left. by eapply (keep_update s); [| |exact Hr]; [by intros []|].
  - intros []. intros w u w' [Hw|Hw] Hr; [by eapply Hrest|].
    apply (reaches_retire s k); [apply Hl; by left|done|].
    eapply (IH (a_retire s k d)); [by apply retire_ok|done| |done|done].
    intros k' s' Hks. cbn. rewrite lookup_delete_ne; [apply Hl; by right|].
    intros <-. apply Hk. apply list_elem_of_fmap. by exists (k, s').
Qed.

Lemma iter_pairs `{!GatewayCoreLaws X D J} (t : gmap Z loc) :
  NoDup (g_hash_table_iter t).*1 /\ forall k s, (k, s) ∈ g_hash_table_iter t <-> t !! k = Some s.
Proof.
  split; [|intros k s; by rewrite iter_all, elem_of_map_to_list].
  rewrite (fmap_Permutation fst _ _ (iter_all t)). apply NoDup_fst_map_to_list.
Qed.

Lemma check_triple `{!GatewayCoreLaws X D J} d :
  directory_ok d -> triple (at_ d false) janus_check_sessions (fun _ => reaches d false).
Proof.
  intros Hok. unfold janus_check_sessions. tkeep. destruct (_ <? 1)%Z; [apply triple_ret; intros w; apply reaches_refl|].
  tstep lock_triple as []. apply triple_gets. intros ss w r w' [Hw ->] Hr.
  destruct (iter_pairs (sessions w)) as [Hnd Hin]. pose proof Hw as (Hd & _).
  assert (Hchk : triple (at_ d true) (check_all (g_hash_table_iter (sessions w));; sessions_unlock;; mret true) (fun _ => reaches d false)).
  { eapply triple_bind; [apply check_all_triple; [done|done|]; intros k s Hks; rewrite <- Hd; by apply Hin|].
    intros [] w1 b w2 (d1 & Hd1 & Hw1) Hr1. inv_bind Hr1. apply (unlock_triple d1 true _ _ _ Hw1) in Hrun.
    injection Hr1 as <- <-. by exists d1. }
  by eapply Hchk.
Qed.

Lemma find_destroyed_triple k d b : triple (at_ d b) (janus_session_find_destroyed (X := X) (J := J) k)
  (fun r w => at_ (Directory (d_ids d) (d_sessions d) (delete k (d_old d)) (d_timers d)) false w /\ r = d_old d !! k).
Proof.
  unfold janus_session_find_destroyed. tstep lock_triple as []. apply triple_gets. intros r w a w' [Hw ->] Hr.
  inv_bind Hr. eapply (modify_triple (fun d => Directory (d_ids d) (d_sessions d) (delete k (d_old d)) (d_timers d)))
    in Hrun; [|done..]. inv_bind Hr. eapply unlock_triple in Hrun0; [|done]. injection Hr as <- <-.
  split; [done|]. by destruct Hw as (<- & _).
Qed.

Lemma free_triple s d b : triple (at_ d b) (janus_session_free (X := X) (J := J) (Some s))
  (fun _ => at_ (Directory (delete s (d_ids d)) (d_sessions d) (d_old d) (d_timers d)) b).
Proof.
  unfold janus_session_free. tkeep. tkeep. tkeep. tkeep.
  apply (modify_triple (fun d => Directory (delete s (d_ids d)) (d_sessions d) (d_old d) (d_timers d))).
  - intros w. unfold dir. cbn. by rewrite fmap_delete.
  - done.
  - done.
  - intros s' [x Hx]. cbn in Hx. apply lookup_delete_Some in Hx as [_ Hx]. eauto.
Qed.

Lemma fire_triple i d :
  directory_ok d -> triple (at_ d false) (fire_cleanup i)
    (fun _ w => exists s k, d_timers d !! i = Some s /\ d_ids d !! s = Some (k, true) /\ at_ (a_free i s k d) false w).
Proof.
  intros Hok. unfold fire_cleanup. apply triple_gets. intros l w a w' [Hw ->] Hr. pose proof Hw as (Hd & _).
  destruct (cleanups w !! i) as [s|] eqn:Hi; [|done]. run eq_refl in Hr.
  assert (Hti : d_timers d !! i = Some s) by by rewrite <- Hd.
  destruct (proj1 (ok_timer d Hok s)) as [k Hs]; [by eapply list_elem_of_lookup_2|].
  pose proof (proj1 (ok_old d Hok s k) Hs) as Hold.
  exists s, k. split_and!; [done|done|]. inv_bind Hr. unfold janus_cleanup_session in Hrun. inv_bind Hrun.
  eapply get_triple in Hrun0 as [Hw1 Hv]; [|done]. rewrite Hs in Hv. injection Hv as Hkv _.
  inv_bind Hrun. injection Hrun as _ <-. unfold janus_session_destroy in Hrun0. rewrite <- Hkv in Hrun0. inv_bind Hrun0.
  eapply find_destroyed_triple in Hrun as [Hw2 Hr2]; [|done]. rewrite Hr2, Hold in Hrun0. inv_bind Hrun0.
  eapply free_triple in Hrun; [|done]. injection Hrun0 as _ <-.
  eapply (modify_triple (fun d => Directory (d_ids d) (d_sessions d) (d_old d) (delete i (d_timers d)))) in Hr; [|done..|exact Hrun].
  done.
Qed.

Lemma connect_triple fuel c d b : triple (at_ d b) (websocket_connect fuel c)
  (fun _ w => exists s k, d_ids d !! s = None /\ d_sessions d !! k = None /\ at_ (a_create s k d) false w).
Proof.
  unfold websocket_connect. tkeep. tkeep. tkeep. tkeep. tkeep. tstep create_triple as s.
  intros w u w' (k & Hs & Hk & Hw) Hr. exists s, k. split_and!; [done|done|].
  match type of Hr with ?m w = _ => assert (Hrest : triple (at_ (a_create s k d) false) m (fun _ => at_ (a_create s k d) false)) end.
  2: by eapply Hrest.
  tkeep. eapply triple_keep; [|intros ?; tdone]. apply preserves_when, preserves_bind; [|intros r; apply preserves_ret].
  intros w1 r w2 Hw1 Hr1. by apply (find_triple _ _ _ _ _ _ Hw1) in Hr1 as [? _].
Qed.

Lemma keep_on_attach c s r k handle d b : preserves (at_ d b) (on_attach c s r k handle).
Proof.
  unfold on_attach, drop_request, janus_plugin_find. destruct handle as [h|]; [solve_preserves|].
  apply preserves_bind; [solve_preserves|intros _]. apply preserves_bind; [solve_preserves|intros h].
  destruct h as [h|]; [|solve_preserves]. apply preserves_bind; [solve_preserves|intros v].
  do 3 (apply preserves_bind; [solve_preserves|intros ?]). apply preserves_bind; [solve_preserves|intros p].
  destruct p as [p|]; [|solve_preserves]. apply preserves_bind; [solve_preserves|intros e]. solve_preserves.
Qed.
Lemma keep_on_detach c s k hid handle d b : preserves (at_ d b) (on_detach c s k hid handle).
Proof. unfold on_detach. solve_preserves. Qed.
Hint Resolve keep_on_attach keep_on_detach : pres.

Lemma dispatch_triple fuel sctp c s r k hid handle root type d :
  directory_ok d -> d_sessions d !! k = Some s ->
  triple (at_ d false) (dispatch fuel sctp c s r k hid handle root type) (fun _ => reaches d false).
Proof.
  intros Hok Hk. unfold dispatch. repeat (destruct (String.eqb type _); cbn [orb]);
    try (apply triple_ret; intros w; apply reaches_refl);
    try (apply keep_reaches; solve [solve_preserves]).
  unfold on_destroy. destruct handle; [apply keep_reaches; unfold drop_request; solve_preserves|].
  assert (Hs : d_ids d !! s = Some (k, false)) by by apply Hok.
  tstep (schedule_triple s k true true true) as []; [done|].
  intros w a w' Hw Hr. apply (reaches_retire s k); [done|done|]. apply reaches_refl.
  match type of Hr with ?m w = _ => assert (Hrest : preserves (at_ (a_retire s k d) false) m) by solve_preserves end.
  by eapply Hrest.
Qed.

Lemma message_triple fuel sctp c op data d :
  directory_ok d -> triple (at_ d false) (websocket_message fuel sctp c op data) (fun _ => reaches d false).
Proof.
  intros Hok. unfold websocket_message. destruct data as [data|]; [|apply triple_ret; intros w; apply reaches_refl].
  tkeep. tkeep. tkeep. tkeep. destruct (json_loads data) as [root|]; [|apply triple_ret; intros w; apply reaches_refl].
  tkeep. unfold on_request. tstep find_triple as session. apply triple_pure. intros ->.
  destruct (d_sessions d !! _) as [s|] eqn:Hk; [|apply keep_reaches; solve_preserves].
  tkeep. tkeep. tkeep. tkeep. eapply triple_bind; [by apply dispatch_triple|].
  intros answered w u w' (d' & Hd' & Hw) Hr. exists d'. split; [done|].
  match type of Hr with ?m w = _ => assert (Hrest : preserves (at_ d' false) m) by solve_preserves end.
  by eapply Hrest.
Qed.

(** *** The plugins' calls *)

Lemma keep_target_send to frame conns d b : preserves (at_ d b) (target_send (X := X) (J := J) to frame conns).
Proof. induction conns as [|[c websocket] conns IH]; cbn [target_send]; solve_preserves. Qed.
Hint Resolve keep_target_send : pres.
Lemma keep_broadcast glob to op data len scope d b :
  preserves (at_ d b) (kore_websocket_broadcast_target (X := X) (J := J) (B := B) glob to op data len scope).
Proof. unfold kore_websocket_broadcast_target. solve_preserves. Qed.
Lemma keep_event_decref sender d b : preserves (at_ d b) (event_decref (X := X) (J := J) sender).
Proof. unfold event_decref, sender_decref. solve_preserves. Qed.
Hint Resolve keep_broadcast keep_event_decref : pres.
Lemma keep_notify glob s event d b : preserves (at_ d b) (janus_session_notify_event (B := B) (X := X) glob s event).
Proof. unfold janus_session_notify_event, sender_decref. solve_preserves. Qed.
Lemma keep_flag h f d b : preserves (at_ d b) (flag_set h f).
Proof. apply keep_lift. Qed.
Hint Resolve keep_notify keep_flag : pres.
Lemma keep_push_merged glob s h p t msg jsep merged d b :
  preserves (at_ d b) (push_merged (B := B) glob s h p t msg jsep merged).
Proof. unfold push_merged. solve_preserves. Qed.
Hint Resolve keep_push_merged : pres.
Lemma keep_push fuel waits rounds sctp glob ps p t msg jsep d b :
  preserves (at_ d b) (janus_plugin_push_event (B := B) fuel waits rounds sctp glob ps p t msg jsep).
Proof. unfold janus_plugin_push_event, push_to_handle. solve_preserves. Qed.
Lemma keep_end_session ps d b : preserves (at_ d b) (janus_plugin_end_session ps).
Proof. unfold janus_plugin_end_session. solve_preserves. Qed.
Lemma keep_close_pc ps d b : preserves (at_ d b) (janus_plugin_close_pc ps).
Proof. unfold janus_plugin_close_pc. solve_preserves. Qed.
Lemma keep_relay sctp ps kind buf len d b : preserves (at_ d b) (relay (J := J) sctp ps kind buf len).
Proof. unfold relay. solve_preserves. Qed.
Lemma keep_notify_event p ps event d b : preserves (at_ d b) (janus_plugin_notify_event p ps event).
Proof. unfold janus_plugin_notify_event. solve_preserves. Qed.
Lemma keep_disconnect c d b : preserves (at_ d b) (websocket_disconnect (X := X) (J := J) c).
Proof. unfold websocket_disconnect. solve_preserves. Qed.
Lemma keep_signal d b : preserves (at_ d b) (janus_handle_signal (X := X) (J := J)).
Proof. unfold janus_handle_signal. apply preserves_bind; [by apply preserves_modify|]. solve_preserves. Qed.

(** *** A step of the server *)

Inductive gstep : gworld X J -> gworld X J -> Prop :=
| step_connect fuel c w w' :
    websocket_connect fuel c w = Done (tt, w') ->
    (* the number drawn is not one that waits to be freed *)
    (forall k, is_Some (sessions w' !! k) -> sessions w !! k = None -> old_sessions w !! k = None) ->
    gstep w w'
| step_message fuel sctp c op data w w' : websocket_message fuel sctp c op data w = Done (tt, w') -> gstep w w'
| step_disconnect c w w' : websocket_disconnect c w = Done (tt, w') -> gstep w w'
| step_watchdog w w' : janus_check_sessions w = Done (true, w') -> gstep w w'
| step_cleanup i w w' : fire_cleanup i w = Done (tt, w') -> gstep w w'
| step_push fuel waits rounds sctp glob ps p t msg jsep r w w' :
    janus_plugin_push_event (B := B) fuel waits rounds sctp glob ps p t msg jsep w = Done (r, w') -> gstep w w'
| step_end_session ps w w' : janus_plugin_end_session ps w = Done (tt, w') -> gstep w w'
| step_close_pc ps w w' : janus_plugin_close_pc ps w = Done (tt, w') -> gstep w w'
| step_relay sctp ps kind buf len w w' : relay sctp ps kind buf len w = Done (tt, w') -> gstep w w'
| step_notify p ps event w w' : janus_plugin_notify_event p ps event w = Done (tt, w') -> gstep w w'
| step_signal w w' : janus_handle_signal w = Done (tt, w') -> gstep w w'
| step_janus f w : gstep w (g_jw f w).  (* Janus's own threads *)

(** A state between handlers. *)
Definition gok w : Prop := at_ (dir w) false w /\ directory_ok (dir w).

Lemma gok_at d w : at_ d false w -> directory_ok d -> gok w.
Proof. intros (<- & Hm & Hn) Hok. by split. Qed.

Lemma gstep_ok `{!GatewayCoreLaws X D J} w w' : gok w -> gstep w w' -> gok w' /\ rtc astep (dir w) (dir w').
Proof.
  intros [Hw Hok] Hstep.
  assert (Hkeep : at_ (dir w) false w' -> gok w' /\ rtc astep (dir w) (dir w')).
  { intros Hw'. split; [by eapply gok_at|]. destruct Hw' as (-> & _). apply rtc_refl. }
  assert (Hreach : reaches (dir w) false w' -> gok w' /\ rtc astep (dir w) (dir w')).
  { intros (d' & [Hsteps Hok']%retires_ok & Hw'); [|done]. split; [by eapply gok_at|]. by destruct Hw' as (-> & _). }
  destruct Hstep as [fuel c w w' Hr Hfresh|fuel sctp c op data w w' Hr|c w w' Hr|w w' Hr|i w w' Hr|
    fuel waits rounds sctp glob ps p t msg jsep r w w' Hr|ps w w' Hr|ps w w' Hr|sctp ps kind buf len w w' Hr|
    p ps event w w' Hr|w w' Hr|f w].
  - eapply connect_triple in Hr as (s & k & Hs & Hk & Hw'); [|done]. pose proof Hw' as (Hd' & _).
    assert (Hok' : directory_ok (a_create s k (dir w))).
    { apply create_ok; [done|done|done|]. apply (Hfresh k); [|done].
      change (sessions w') with (d_sessions (dir w')). rewrite Hd'. exists s. apply lookup_insert_eq. }
    split; [by eapply gok_at|]. rewrite Hd'. by apply rtc_once, astep_create.
  - apply Hreach. by eapply message_triple.
  - apply Hkeep. by eapply keep_disconnect.
  - apply Hreach. by eapply check_triple.
  - eapply fire_triple in Hr as (s & k & Hi & Hs & Hw'); [|done|done]. split.
    + eapply gok_at; [done|]. by apply free_ok.
    + destruct Hw' as (-> & _). apply rtc_once, astep_free; [done|done|]. by apply Hok.
  - apply Hkeep. by eapply keep_push.
  - apply Hkeep. by eapply keep_end_session.
  - apply Hkeep. by eapply keep_close_pc.
  - apply Hkeep. by eapply keep_relay.
  - apply Hkeep. by eapply keep_notify_event.
  - apply Hkeep. by eapply keep_signal.
  - by apply Hkeep.
Qed.

(** The server before the first connection. *)
Definition started w : Prop :=
  heap w = ∅ /\ sessions w = ∅ /\ old_sessions w = ∅ /\ cleanups w = [] /\ sessions_mutex w = false.

Lemma started_ok w : started w -> gok w.
Proof.
  intros (Hh & Hs & Ho & Hc & Hm). assert (Hd : dir w = Directory ∅ ∅ ∅ []).
  { unfold dir. by rewrite Hh, Hs, Ho, Hc, fmap_empty. }
  unfold gok, at_. rewrite Hd. split_and!; [done|done| |].
  - intros s [x Hx]. cbn in Hx. by rewrite lookup_empty in Hx.
  - split; cbn; intros *; rewrite ?lookup_empty; try done; [by left|constructor|].
    split; [by intros ?%elem_of_nil|by intros [k Hk]].
Qed.

Lemma reachable_ok `{!GatewayCoreLaws X D J} w0 w : started w0 -> rtc gstep w0 w -> gok w.
Proof. intros Hstarted Hsteps. apply started_ok in Hstarted. induction Hsteps as [|w0 w1 w2 Hstep _ IH]; [done|]. apply IH. by eapply gstep_ok. Qed.
End Refinement.
End Gw.

(** ** A concrete gateway, for the witnesses

    Its state is the time; it draws the numbers 0, 5, 6, ...; a new handle is the one at 9,
    with the number 77; four messages can be read. *)

Module GwConcrete.
Import Janus Sdp Gw.
Local Open Scope Z_scope.

Definition c_message (type : string) (session handle : Z) : json :=
  JObject [("type", JString type); ("session_id", JInteger session); ("handle_id", JInteger handle)].

#[export] Instance c_json : Jansson json := {|
  json_object_get := json_object_get (Jansson := janssonTree);
  json_integer_value := json_integer_value (Jansson := janssonTree);
  json_string_value := json_string_value (Jansson := janssonTree);
  json_is_object := json_is_object (Jansson := janssonTree);
  json_is_true := json_is_true (Jansson := janssonTree);
  json_array_items := json_array_items (Jansson := janssonTree);
  json_object := json_object (Jansson := janssonTree);
  json_integer := JInteger; json_string := JString; json_true := JTrue;
  json_dumps := json_dumps (Jansson := janssonTree);
  json_loads := fun s => assoc s [("attach", c_message "attach" 5 0); ("destroy", c_message "destroy" 5 0);
    ("janus", c_message "janus" 5 0); ("detach", c_message "detach" 5 77); ("untyped", JObject [("session_id", JInteger 5)])]
|}.
#[export] Instance c_json_laws : JanssonLaws json.
Proof. by split. Qed.
#[export] Instance c_printable : PrintableReplies json.
Proof. by split. Qed.

Definition c_keep {B : Type} (b : B) (v : ice_handle json) (x : Z) : B * (ice_handle json * Z) := (b, (v, x)).
Definition c_handle : ice_handle json := IceHandle 77 (Some 1%nat) (Some 3%nat) (Some 5000%nat) ∅ false false None 0 0 [] None None.

#[export] Instance c_janus : JanusCore Z string json := {|
  janus_plugin_session_is_alive := fun _ _ => true;
  janus_get_monotonic_time := fun x => x;
  other_threads := fun v x => (v, x);
  janus_sdp_preparse := fun s _ => match s with Some s => inr (s, (1, 1, 0)) | None => inl "no SDP" end;
  janus_ice_setup_local := fun _ _ _ => c_keep 0;
  janus_sdp_process := fun _ _ => c_keep 0;
  janus_ice_trickle_new := fun _ c x => Some (IceTrickle x c);
  janus_ice_trickle_parse := fun c => c_keep 0;
  janus_ice_setup_remote_candidates := c_keep tt;
  janus_rtp_header_extension_get_id := fun _ => 5;
  nice_agent_set_remote_credentials := c_keep tt;
  janus_ice_restart := c_keep tt;
  janus_ice_is_full_trickle_enabled := fun _ => false;
  create_datachannels := c_keep tt;
  janus_sdp_anonymize := fun s => (0, s);
  janus_sdp_write := fun s => s;
  get_package := fun _ => "janus.plugin.echotest";
  handle_message := fun _ _ _ _ x => (None, x)
|}.

#[export] Instance c_sdp : SdpCore Z string json := {|
  plugin_session_at := fun ps _ => if (ps =? 5000)%nat then Some (PluginSession false (Some 9%nat)) else None;
  janus_is_rfc4588_enabled := fun _ => true;
  video_ptypes := fun _ => [];
  janus_sdp_merge := fun s _ => c_keep (Some s)
|}.

#[export] Instance c_gateway : GatewayCore Z string json := {|
  janus_random_uint64 := fun x => (if x =? 0 then 0 else x + 4, x + 1);
  g_hash_table_iter := map_to_list;
  janus_ice_handle_find := fun _ t k _ => t ≫= lookup k;
  janus_ice_handle_create := fun _ t hs x => (Some 9%nat, (Some (<[77 := 9%nat]> (default ∅ t)), <[9%nat := c_handle]> hs, x));
  janus_ice_handle_attach_plugin := fun _ _ _ _ hs x => (0, (hs, x));
  janus_ice_handle_destroy := fun _ _ _ hs x => (0, (hs, x));
  janus_ice_webrtc_hangup := c_keep tt;
  janus_events_is_enabled := fun _ => true
|}.
#[export] Instance c_gateway_laws : GatewayCoreLaws Z string json.
Proof. by split. Qed.

(** One session, number 5, used at time 0, of the websocket connection 3. *)
Definition c_session : janus_session := JanusSession 5 0 false false false None None.
Definition c_world (time : Z) (s : janus_session) (ps : option (gmap string loc)) : gworld Z json :=
  GWorld (JWorld {[9%nat := c_handle]} time 0 []) {[1%nat := s]} {[5 := 1%nat]} ∅ false [] 0 60 ps
    {[20%nat := Ex 1 46 0]} {[3%nat := 20%nat]} [(3%nat, true); (4%nat, false)] 1 100 0 0 [].
Definition c_empty (time : Z) : gworld Z json :=
  GWorld (JWorld ∅ time 0 []) ∅ ∅ ∅ false [] 0 60 None ∅ ∅ [(3%nat, true)] 0 1 0 0 [].

Lemma c_world_ok time s ps : session_id s = 5 -> destroy s = false -> gok (c_world time s ps).
Proof.
  intros Hid Hd. split.
  - split_and!; [done|done|]. intros s' [x Hx]. cbn in Hx |- *. rewrite map_fmap_singleton in Hx.
    apply lookup_singleton_Some in Hx as [<- _]. lia.
  - split; cbn; rewrite ?map_fmap_singleton, ?Hid, ?Hd.
    + intros s' k. rewrite !lookup_singleton_Some. naive_solver.
    + intros s' k. rewrite lookup_singleton_Some, lookup_empty. naive_solver.
    + intros k. by right.
    + constructor.
    + intros s'. rewrite elem_of_nil. split; [done|]. intros [k [_ [=]]%lookup_singleton_Some].
Qed.
End GwConcrete.
