(* ===== verification/GatewayConf.v ===== *)
(** * Configuration and life of the WebRTC gateway: websocket_10/src/helper.c

    The task of the gateway ([fuck_up]) reads its configuration, starts Janus with it and the
    watchdog of the sessions of [Gateway], loads the plugins, waits for a signal and takes
    everything down again.

    The configuration file and the lookup in it, the network functions and Janus's own
    functions are parameters ([GatewayBoot]); what is asked of them is listed in [calls].  The
    globals of the configuration are fields of [gateway] that hold their C types' values, the
    strings of the configuration by value (the code keeps pointers to them).  The build has
    HAVE_SCTP and not HAVE_LIBCURL.  [exit] is [Fatal].  Logging is left out, but for the two
    messages about an address, which are all that [test_private_address] does. *)

From S2P Require Import Prelude Jansson KoreNet WebsocketFrame Janus HandleSdp Gateway.
From Stdlib Require Import Ascii String.

Local Open Scope c_scope.

Module Conf.
Import Janus Sdp Gw.

(** ** Text *)

(** [strrchr] and the two strings it cuts the text into. *)
Fixpoint strrchr (c : ascii) (s : string) : option (string * string) :=
  match s with
  | EmptyString => None
  | String d r =>
      match strrchr c r with
      | Some (p, q) => Some (String d p, q)
      | None => if Ascii.eqb d c then Some (EmptyString, r) else None
      end
  end.

(** [g_strsplit(s, c, -1)]: the empty string has no parts. *)
Fixpoint pieces (c : ascii) (s : string) : list string :=
  match s with
  | EmptyString => [EmptyString]
  | String d r =>
      if Ascii.eqb d c then EmptyString :: pieces c r
      else match pieces c r with [] => [] | p :: ps => String d p :: ps end
  end.
Definition g_strsplit (s : string) (c : ascii) : list string :=
  match s with EmptyString => [] | _ => pieces c s end.

(** [atoi] as an [int]: the C library reads a [long], which stays at its bounds, and takes
    its low 32 bits. *)
Definition clamp_long (z : Z) : Z := Z.max (- 2 ^ 63) (Z.min (2 ^ 63 - 1) z).
Definition to_int (z : Z) : Z := ((z + 2 ^ 31) mod 2 ^ 32 - 2 ^ 31)%Z.
Definition atoi_int (s : string) : Z := to_int (clamp_long (atoi s)).

(** [%hu]: blanks, a sign, and at least one digit; what is behind them. *)
Definition is_digit (c : ascii) : bool :=
  let n := nat_of_ascii c in (48 <=? n) && (n <=? 57).
Fixpoint skip_digits (s : string) : string :=
  match s with EmptyString => EmptyString | String c r => if is_digit c then skip_digits r else s end.
Definition scan_digits (s : string) : option (Z * string) :=
  match s with
  | EmptyString => None
  | String c _ => if is_digit c then Some (digits_value 0 s, skip_digits s) else None
  end.
Fixpoint scan_hu (s : string) : option (Z * string) :=
  match s with
  | EmptyString => None
  | String c r =>
      if is_space c then scan_hu r
      else if (nat_of_ascii c =? 45) then '(z, r) ← scan_digits r; Some (u16 (- z), r)
      else if (nat_of_ascii c =? 43) then '(z, r) ← scan_digits r; Some (u16 z, r)
      else '(z, r) ← scan_digits s; Some (u16 z, r)
  end.

(** [sscanf(s, "%hu.%hu...", ...)] with [n] conversions: the values written, the first ones. *)
Fixpoint sscanf_hu (n : nat) (s : string) : list Z :=
  match n with
  | O => []
  | S n =>
      match scan_hu s with
      | None => []
      | Some (z, String c r) => if (nat_of_ascii c =? 46) then z :: sscanf_hu n r else [z]
      | Some (z, EmptyString) => [z]
      end
  end.

(** ** Data *)

Inductive family : Type := AF_INET | AF_INET6.

Inductive call : Type :=
| IgnoreInterface (name : string)
| EnforceInterface (name : string)
| IceEnableNat11
| IceInit (lite tcp trickle ipv6 : bool) (min max : Z)
| IceSetStun (server : option string) (port : Z)
| IceSetTurn (server : option string) (port : Z) (type user pwd : option string)
| IceDebugging
| InvalidAddress (ip : option string)  (* logged *)
| PrivateAddress (ip : option string)  (* logged *)
| SetMaxNack (n : Z)
| SetNoMedia (n : Z)
| SetRfc4588 (on : bool)
| DtlsInit (pem key password : option string)
| SetMtu (n : Z)
| SctpInit
| WatchdogStart
| WatchdogJoin
| ConfigDestroy
| DtlsCleanup
| SctpDeinit
| IceDeinit
| ClosePlugin (plugin : loc)
| EventsDeinit.

Record gateway (X : Type) (J : Type) (C : Type) : Type := Gateway {
  gw : gworld X J;  (* sessions, plugins and what Janus keeps *)
  config : option C;
  config_file : option string;
  local_ip : option string;
  public_ip : option string;
  stun_server : option string;
  stun_port : Z;
  turn_server : option string;
  turn_port : Z;
  turn_type : option string;
  turn_user : option string;
  turn_pwd : option string;
  turn_rest_api : option string;
  turn_rest_api_key : option string;
  nat_1_1_mapping : option string;
  rtp_min_port : Z;
  rtp_max_port : Z;
  ice_lite : bool;
  ice_tcp : bool;
  ipv6 : bool;
  full_trickle : bool;
  calls : list call  (* into Janus and the libraries, newest first *)
}.
Arguments Gateway {X J C}.
Arguments gw {X J C}.
Arguments config {X J C}.
Arguments config_file {X J C}.
Arguments local_ip {X J C}.
Arguments public_ip {X J C}.
Arguments stun_server {X J C}.
Arguments stun_port {X J C}.
Arguments turn_server {X J C}.
Arguments turn_port {X J C}.
Arguments turn_type {X J C}.
Arguments turn_user {X J C}.
Arguments turn_pwd {X J C}.
Arguments turn_rest_api {X J C}.
Arguments turn_rest_api_key {X J C}.
Arguments nat_1_1_mapping {X J C}.
Arguments rtp_min_port {X J C}.
Arguments rtp_max_port {X J C}.
Arguments ice_lite {X J C}.
Arguments ice_tcp {X J C}.
Arguments ipv6 {X J C}.
Arguments full_trickle {X J C}.
Arguments calls {X J C}.

Definition c_gw {X : Type} {J : Type} {C : Type} (f : gworld X J -> gworld X J) (w : gateway X J C) : gateway X J C :=
  Gateway (f (gw w)) (config w) (config_file w) (local_ip w) (public_ip w) (stun_server w) (stun_port w) (turn_server w) (turn_port w) (turn_type w) (turn_user w) (turn_pwd w) (turn_rest_api w) (turn_rest_api_key w) (nat_1_1_mapping w) (rtp_min_port w) (rtp_max_port w) (ice_lite w) (ice_tcp w) (ipv6 w) (full_trickle w) (calls w).
Definition c_config {X : Type} {J : Type} {C : Type} (f : option C -> option C) (w : gateway X J C) : gateway X J C :=
  Gateway (gw w) (f (config w)) (config_file w) (local_ip w) (public_ip w) (stun_server w) (stun_port w) (turn_server w) (turn_port w) (turn_type w) (turn_user w) (turn_pwd w) (turn_rest_api w) (turn_rest_api_key w) (nat_1_1_mapping w) (rtp_min_port w) (rtp_max_port w) (ice_lite w) (ice_tcp w) (ipv6 w) (full_trickle w) (calls w).
Definition c_config_file {X : Type} {J : Type} {C : Type} (f : option string -> option string) (w : gateway X J C) : gateway X J C :=
  Gateway (gw w) (config w) (f (config_file w)) (local_ip w) (public_ip w) (stun_server w) (stun_port w) (turn_server w) (turn_port w) (turn_type w) (turn_user w) (turn_pwd w) (turn_rest_api w) (turn_rest_api_key w) (nat_1_1_mapping w) (rtp_min_port w) (rtp_max_port w) (ice_lite w) (ice_tcp w) (ipv6 w) (full_trickle w) (calls w).
Definition c_local_ip {X : Type} {J : Type} {C : Type} (f : option string -> option string) (w : gateway X J C) : gateway X J C :=
  Gateway (gw w) (config w) (config_file w) (f (local_ip w)) (public_ip w) (stun_server w) (stun_port w) (turn_server w) (turn_port w) (turn_type w) (turn_user w) (turn_pwd w) (turn_rest_api w) (turn_rest_api_key w) (nat_1_1_mapping w) (rtp_min_port w) (rtp_max_port w) (ice_lite w) (ice_tcp w) (ipv6 w) (full_trickle w) (calls w).
Definition c_public_ip {X : Type} {J : Type} {C : Type} (f : option string -> option string) (w : gateway X J C) : gateway X J C :=
  Gateway (gw w) (config w) (config_file w) (local_ip w) (f (public_ip w)) (stun_server w) (stun_port w) (turn_server w) (turn_port w) (turn_type w) (turn_user w) (turn_pwd w) (turn_rest_api w) (turn_rest_api_key w) (nat_1_1_mapping w) (rtp_min_port w) (rtp_max_port w) (ice_lite w) (ice_tcp w) (ipv6 w) (full_trickle w) (calls w).
Definition c_stun_server {X : Type} {J : Type} {C : Type} (f : option string -> option string) (w : gateway X J C) : gateway X J C :=
  Gateway (gw w) (config w) (config_file w) (local_ip w) (public_ip w) (f (stun_server w)) (stun_port w) (turn_server w) (turn_port w) (turn_type w) (turn_user w) (turn_pwd w) (turn_rest_api w) (turn_rest_api_key w) (nat_1_1_mapping w) (rtp_min_port w) (rtp_max_port w) (ice_lite w) (ice_tcp w) (ipv6 w) (full_trickle w) (calls w).
Definition c_stun_port {X : Type} {J : Type} {C : Type} (f : Z -> Z) (w : gateway X J C) : gateway X J C :=
  Gateway (gw w) (config w) (config_file w) (local_ip w) (public_ip w) (stun_server w) (f (stun_port w)) (turn_server w) (turn_port w) (turn_type w) (turn_user w) (turn_pwd w) (turn_rest_api w) (turn_rest_api_key w) (nat_1_1_mapping w) (rtp_min_port w) (rtp_max_port w) (ice_lite w) (ice_tcp w) (ipv6 w) (full_trickle w) (calls w).
Definition c_turn_server {X : Type} {J : Type} {C : Type} (f : option string -> option string) (w : gateway X J C) : gateway X J C :=
  Gateway (gw w) (config w) (config_file w) (local_ip w) (public_ip w) (stun_server w) (stun_port w) (f (turn_server w)) (turn_port w) (turn_type w) (turn_user w) (turn_pwd w) (turn_rest_api w) (turn_rest_api_key w) (nat_1_1_mapping w) (rtp_min_port w) (rtp_max_port w) (ice_lite w) (ice_tcp w) (ipv6 w) (full_trickle w) (calls w).
Definition c_turn_port {X : Type} {J : Type} {C : Type} (f : Z -> Z) (w : gateway X J C) : gateway X J C :=
  Gateway (gw w) (config w) (config_file w) (local_ip w) (public_ip w) (stun_server w) (stun_port w) (turn_server w) (f (turn_port w)) (turn_type w) (turn_user w) (turn_pwd w) (turn_rest_api w) (turn_rest_api_key w) (nat_1_1_mapping w) (rtp_min_port w) (rtp_max_port w) (ice_lite w) (ice_tcp w) (ipv6 w) (full_trickle w) (calls w).
Definition c_turn_type {X : Type} {J : Type} {C : Type} (f : option string -> option string) (w : gateway X J C) : gateway X J C :=
  Gateway (gw w) (config w) (config_file w) (local_ip w) (public_ip w) (stun_server w) (stun_port w) (turn_server w) (turn_port w) (f (turn_type w)) (turn_user w) (turn_pwd w) (turn_rest_api w) (turn_rest_api_key w) (nat_1_1_mapping w) (rtp_min_port w) (rtp_max_port w) (ice_lite w) (ice_tcp w) (ipv6 w) (full_trickle w) (calls w).
Definition c_turn_user {X : Type} {J : Type} {C : Type} (f : option string -> option string) (w : gateway X J C) : gateway X J C :=
  Gateway (gw w) (config w) (config_file w) (local_ip w) (public_ip w) (stun_server w) (stun_port w) (turn_server w) (turn_port w) (turn_type w) (f (turn_user w)) (turn_pwd w) (turn_rest_api w) (turn_rest_api_key w) (nat_1_1_mapping w) (rtp_min_port w) (rtp_max_port w) (ice_lite w) (ice_tcp w) (ipv6 w) (full_trickle w) (calls w).
Definition c_turn_pwd {X : Type} {J : Type} {C : Type} (f : option string -> option string) (w : gateway X J C) : gateway X J C :=
  Gateway (gw w) (config w) (config_file w) (local_ip w) (public_ip w) (stun_server w) (stun_port w) (turn_server w) (turn_port w) (turn_type w) (turn_user w) (f (turn_pwd w)) (turn_rest_api w) (turn_rest_api_key w) (nat_1_1_mapping w) (rtp_min_port w) (rtp_max_port w) (ice_lite w) (ice_tcp w) (ipv6 w) (full_trickle w) (calls w).
Definition c_turn_rest_api {X : Type} {J : Type} {C : Type} (f : option string -> option string) (w : gateway X J C) : gateway X J C :=
  Gateway (gw w) (config w) (config_file w) (local_ip w) (public_ip w) (stun_server w) (stun_port w) (turn_server w) (turn_port w) (turn_type w) (turn_user w) (turn_pwd w) (f (turn_rest_api w)) (turn_rest_api_key w) (nat_1_1_mapping w) (rtp_min_port w) (rtp_max_port w) (ice_lite w) (ice_tcp w) (ipv6 w) (full_trickle w) (calls w).
Definition c_turn_rest_api_key {X : Type} {J : Type} {C : Type} (f : option string -> option string) (w : gateway X J C) : gateway X J C :=
  Gateway (gw w) (config w) (config_file w) (local_ip w) (public_ip w) (stun_server w) (stun_port w) (turn_server w) (turn_port w) (turn_type w) (turn_user w) (turn_pwd w) (turn_rest_api w) (f (turn_rest_api_key w)) (nat_1_1_mapping w) (rtp_min_port w) (rtp_max_port w) (ice_lite w) (ice_tcp w) (ipv6 w) (full_trickle w) (calls w).
Definition c_nat_1_1_mapping {X : Type} {J : Type} {C : Type} (f : option string -> option string) (w : gateway X J C) : gateway X J C :=
  Gateway (gw w) (config w) (config_file w) (local_ip w) (public_ip w) (stun_server w) (stun_port w) (turn_server w) (turn_port w) (turn_type w) (turn_user w) (turn_pwd w) (turn_rest_api w) (turn_rest_api_key w) (f (nat_1_1_mapping w)) (rtp_min_port w) (rtp_max_port w) (ice_lite w) (ice_tcp w) (ipv6 w) (full_trickle w) (calls w).
Definition c_rtp_min_port {X : Type} {J : Type} {C : Type} (f : Z -> Z) (w : gateway X J C) : gateway X J C :=
  Gateway (gw w) (config w) (config_file w) (local_ip w) (public_ip w) (stun_server w) (stun_port w) (turn_server w) (turn_port w) (turn_type w) (turn_user w) (turn_pwd w) (turn_rest_api w) (turn_rest_api_key w) (nat_1_1_mapping w) (f (rtp_min_port w)) (rtp_max_port w) (ice_lite w) (ice_tcp w) (ipv6 w) (full_trickle w) (calls w).
Definition c_rtp_max_port {X : Type} {J : Type} {C : Type} (f : Z -> Z) (w : gateway X J C) : gateway X J C :=
  Gateway (gw w) (config w) (config_file w) (local_ip w) (public_ip w) (stun_server w) (stun_port w) (turn_server w) (turn_port w) (turn_type w) (turn_user w) (turn_pwd w) (turn_rest_api w) (turn_rest_api_key w) (nat_1_1_mapping w) (rtp_min_port w) (f (rtp_max_port w)) (ice_lite w) (ice_tcp w) (ipv6 w) (full_trickle w) (calls w).
Definition c_ice_lite {X : Type} {J : Type} {C : Type} (f : bool -> bool) (w : gateway X J C) : gateway X J C :=
  Gateway (gw w) (config w) (config_file w) (local_ip w) (public_ip w) (stun_server w) (stun_port w) (turn_server w) (turn_port w) (turn_type w) (turn_user w) (turn_pwd w) (turn_rest_api w) (turn_rest_api_key w) (nat_1_1_mapping w) (rtp_min_port w) (rtp_max_port w) (f (ice_lite w)) (ice_tcp w) (ipv6 w) (full_trickle w) (calls w).
Definition c_ice_tcp {X : Type} {J : Type} {C : Type} (f : bool -> bool) (w : gateway X J C) : gateway X J C :=
  Gateway (gw w) (config w) (config_file w) (local_ip w) (public_ip w) (stun_server w) (stun_port w) (turn_server w) (turn_port w) (turn_type w) (turn_user w) (turn_pwd w) (turn_rest_api w) (turn_rest_api_key w) (nat_1_1_mapping w) (rtp_min_port w) (rtp_max_port w) (ice_lite w) (f (ice_tcp w)) (ipv6 w) (full_trickle w) (calls w).
Definition c_ipv6 {X : Type} {J : Type} {C : Type} (f : bool -> bool) (w : gateway X J C) : gateway X J C :=
  Gateway (gw w) (config w) (config_file w) (local_ip w) (public_ip w) (stun_server w) (stun_port w) (turn_server w) (turn_port w) (turn_type w) (turn_user w) (turn_pwd w) (turn_rest_api w) (turn_rest_api_key w) (nat_1_1_mapping w) (rtp_min_port w) (rtp_max_port w) (ice_lite w) (ice_tcp w) (f (ipv6 w)) (full_trickle w) (calls w).
Definition c_full_trickle {X : Type} {J : Type} {C : Type} (f : bool -> bool) (w : gateway X J C) : gateway X J C :=
  Gateway (gw w) (config w) (config_file w) (local_ip w) (public_ip w) (stun_server w) (stun_port w) (turn_server w) (turn_port w) (turn_type w) (turn_user w) (turn_pwd w) (turn_rest_api w) (turn_rest_api_key w) (nat_1_1_mapping w) (rtp_min_port w) (rtp_max_port w) (ice_lite w) (ice_tcp w) (ipv6 w) (f (full_trickle w)) (calls w).
Definition c_calls {X : Type} {J : Type} {C : Type} (f : list call -> list call) (w : gateway X J C) : gateway X J C :=
  Gateway (gw w) (config w) (config_file w) (local_ip w) (public_ip w) (stun_server w) (stun_port w) (turn_server w) (turn_port w) (turn_type w) (turn_user w) (turn_pwd w) (turn_rest_api w) (turn_rest_api_key w) (nat_1_1_mapping w) (rtp_min_port w) (rtp_max_port w) (ice_lite w) (ice_tcp w) (ipv6 w) (full_trickle w) (f (calls w)).

(** ** Janus, the network and the configuration file *)

Class GatewayBoot (C : Type) := {
  janus_config_parse : string -> option C;
  janus_config_create : string -> option C;
  janus_config_get_item_drilldown : C -> string -> string -> option (option string);  (* an item and its value *)
  janus_is_true : string -> bool;
  janus_network_detect_local_ip_as_string : option string;
  janus_network_string_is_valid_address : string -> bool;
  janus_network_string_to_address : option string -> option family;
  janus_network_lookup_interface : option (string -> option string);  (* [getifaddrs], then the interface's address *)
  janus_ice_set_stun_server : option string -> Z -> Z;
  janus_ice_set_turn_server : option string -> Z -> option string -> option string -> option string -> Z;
  janus_dtls_srtp_init : option string -> option string -> option string -> Z;
  janus_sctp_init : Z;
  g_thread_try_new : bool;
  opendir : string -> option (list dirent)
}.

Section Code.
Context {X D J B C : Type} `{JanusCore X D J} `{SdpCore X D J} `{GatewayCore X D J} `{Jansson J} `{KoreBuf B} `{KoreNet}
  `{!GatewayBoot C}.
Abbreviation m := (M (gateway X J C)).

Definition call_out (e : call) : m unit := modify (c_calls (cons e)).
Definition exit1 {A : Type} : m A := crash (Fatal "exit").
Definition in_gw {A : Type} (f : M (gworld X J) A) : m A :=
  fun w => match f (gw w) with Done (a, g) => Done (a, c_gw (fun _ => g) w) | Crash e => Crash e end.

(** [item && item->value] *)
Definition setting (section key : string) (w : gateway X J C) : option string :=
  c ← config w; mjoin (janus_config_get_item_drilldown c section key).
Definition value (section key : string) : m (option string) := gets (setting section key).

(** The value is acted on if there is one. *)
Definition on_value (section key : string) (f : string -> m unit) : m unit :=
  v ← value section key; match v with Some s => f s | None => mret tt end.

Definition is_true (section key : string) : m bool :=
  v ← value section key; mret (match v with Some s => janus_is_true s | None => false end).

(** ** The parts of the configuration *)

Definition janus_get_public_ip : m (option string) :=
  p ← gets public_ip; l ← gets local_ip; mret (match p with Some _ => p | None => l end).
Definition janus_set_public_ip (ip : option string) : m unit :=
  p ← gets public_ip;
  match ip, p with Some _, None => modify (c_public_ip (fun _ => ip)) | _, _ => mret tt end.

Definition select_local_ip : m (option string) :=
  match janus_network_detect_local_ip_as_string with
  | Some ip => modify (c_local_ip (fun _ => Some ip));; mret (Some ip)
  | None => modify (c_local_ip (fun _ => Some "127.0.0.1"));; mret (Some "127.0.0.1")
  end.

Definition conf_max_nack_queue : m unit :=
  on_value "media" "max_nack_queue" (fun s =>
    let mnq := atoi_int s in
    if (mnq <? 0)%Z then mret tt
    else if (0 <? mnq)%Z && (mnq <? 200)%Z then mret tt
    else call_out (SetMaxNack mnq)).

Definition conf_no_media_timer : m unit :=
  on_value "media" "no_media_timer" (fun s =>
    let nmt := atoi_int s in if (nmt <? 0)%Z then mret tt else call_out (SetNoMedia nmt)).

Definition conf_cert_pem : m (option string) := value "certificates" "cert_pem".
Definition conf_cert_key : m (option string) := value "certificates" "cert_key".

Definition conf_dtls_mtu : m unit := on_value "media" "dtls_mtu" (fun s => call_out (SetMtu (atoi_int s))).

(** The first two numbers of an address decide, the second one is only read for 172 and 192. *)
Definition private_ip {S : Type} (ip : list Z) : M S bool :=
  match ip with
  | [] => crash Indeterminate
  | a :: r =>
      if (a =? 10)%Z then mret true
      else if (a =? 172)%Z || (a =? 192)%Z then
        match r with
        | [] => crash Indeterminate
        | b :: _ =>
            mret (if (a =? 172)%Z && ((16 <=? b) && (b <=? 31))%Z then true
                  else (a =? 192)%Z && (b =? 168)%Z)
        end
      else mret false
  end.

Definition test_private_address : m unit :=
  w ← gets (fun w => w);
  match stun_server w, turn_server w with
  | None, None =>
      let test_ip := match nat_1_1_mapping w with Some ip => Some ip | None => local_ip w end in
      private ← (match janus_network_string_to_address test_ip with
                 | None => call_out (InvalidAddress test_ip);; mret false
                 | Some AF_INET => private_ip (sscanf_hu 4 (default EmptyString test_ip))
                 | Some AF_INET6 => mret false
                 end);
      if! private then call_out (PrivateAddress test_ip)
  | _, _ => mret tt
  end.

Definition conf_nice_debug : m unit :=
  on_value "nat" "nice_debug" (fun s => if! janus_is_true s then call_out IceDebugging).

(** [media/rtp_port_range] *)
Definition conf_ports : m unit :=
  on_value "media" "rtp_port_range" (fun s =>
    match strrchr "-" s with
    | Some (min, max) =>
        modify (c_rtp_min_port (fun _ => u16 (atoi_int min)));;
        modify (c_rtp_max_port (fun _ => u16 (atoi_int max)))
    | None => mret tt
    end;;
    min ← gets rtp_min_port;
    max ← gets rtp_max_port;
    (if! (max <? min)%Z then modify (c_rtp_min_port (fun _ => max));; modify (c_rtp_max_port (fun _ => min)));;
    max ← gets rtp_max_port;
    if! (max =? 0)%Z then modify (c_rtp_max_port (fun _ => 65535%Z))).

Definition conf_nat_1_1 : m unit :=
  on_value "nat" "nat_1_1_mapping" (fun s =>
    if janus_network_string_is_valid_address s then
      modify (c_nat_1_1_mapping (fun _ => Some s));;
      janus_set_public_ip (Some s);;
      call_out IceEnableNat11
    else mret tt).

Definition conf_servers : m unit :=
  on_value "nat" "turn_server" (fun s => modify (c_turn_server (fun _ => Some s)));;
  on_value "nat" "turn_port" (fun s => modify (c_turn_port (fun _ => u16 (atoi_int s))));;
  on_value "nat" "turn_type" (fun s => modify (c_turn_type (fun _ => Some s)));;
  on_value "nat" "turn_user" (fun s => modify (c_turn_user (fun _ => Some s)));;
  on_value "nat" "turn_pwd" (fun s => modify (c_turn_pwd (fun _ => Some s)));;
  on_value "nat" "turn_rest_api" (fun s => modify (c_turn_rest_api (fun _ => Some s)));;
  on_value "nat" "turn_rest_api_key" (fun s => modify (c_turn_rest_api_key (fun _ => Some s))).

(** The ICE stack is started with the globals. *)
Definition ice_start : m unit :=
  w ← gets (fun w => w);
  call_out (IceInit (ice_lite w) (ice_tcp w) (full_trickle w) (ipv6 w) (rtp_min_port w) (rtp_max_port w));;
  call_out (IceSetStun (stun_server w) (stun_port w));;
  if (janus_ice_set_stun_server (stun_server w) (stun_port w) <? 0)%Z then exit1
  else
    call_out (IceSetTurn (turn_server w) (turn_port w) (turn_type w) (turn_user w) (turn_pwd w));;
    if (janus_ice_set_turn_server (turn_server w) (turn_port w) (turn_type w) (turn_user w) (turn_pwd w) <? 0)%Z then exit1
    else mret tt.

Definition conf_turn : m unit :=
  conf_ports;;
  lite ← is_true "nat" "ice_lite"; modify (c_ice_lite (fun _ => lite));;
  tcp ← is_true "nat" "ice_tcp"; modify (c_ice_tcp (fun _ => tcp));;
  on_value "nat" "stun_server" (fun s => modify (c_stun_server (fun _ => Some s)));;
  on_value "nat" "stun_port" (fun s => modify (c_stun_port (fun _ => u16 (atoi_int s))));;
  conf_nat_1_1;;
  conf_servers;;
  ice_start.

Definition conf_session_timeout : m unit :=
  on_value "general" "session_timeout" (fun s =>
    let st := atoi_int s in
    if (st <? 0)%Z then mret tt else modify (c_gw (g_session_timeout (fun _ => st)))).

Definition conf_interface : m unit :=
  on_value "general" "interface" (fun s =>
    match janus_network_lookup_interface ≫= fun f => f s with
    | Some ip => modify (c_local_ip (fun _ => Some ip))
    | None => mret tt
    end).

(** [while(index != NULL)] *)
Fixpoint each_interface (f : string -> call) (l : list string) : m unit :=
  match l with
  | [] => mret tt
  | index :: l => (if! (0 <? String.length index) then call_out (f index));; each_interface f l
  end.

Definition conf_ice_ignore_list : m unit :=
  on_value "nat" "ice_ignore_list" (fun s => each_interface IgnoreInterface (g_strsplit s ",")).
Definition conf_ice_enforce_list : m unit :=
  on_value "nat" "ice_enforce_list" (fun s => each_interface EnforceInterface (g_strsplit s ",")).

Definition set_conf_file (cnfolder : string) : m unit :=
  let file := snprintf 255 (cnfolder ++ "/janus.cfg") in
  modify (c_config_file (fun _ => Some file));;
  match janus_config_parse file with
  | Some c => modify (c_config (fun _ => Some c))
  | None =>
      modify (c_config (fun _ => janus_config_create "janus.cfg"));;
      match janus_config_create "janus.cfg" with None => exit1 | Some _ => mret tt end
  end.

(** ** The gateway's task *)

(** Up to the sessions: the configuration and Janus's start. [media/ipv6] goes to a local
    variable of the task that hides the global, and the result of [janus_dtls_srtp_init] to an
    unsigned one. *)
Definition gateway_configure (CONFDIR : string) : m unit :=
  set_conf_file CONFDIR;;
  conf_ice_enforce_list;;
  conf_ice_ignore_list;;
  conf_interface;;
  ip ← gets local_ip;
  match ip with
  | Some _ => mret tt
  | None => ip ← select_local_ip; modify (c_local_ip (fun _ => ip))
  end;;
  conf_session_timeout;;
  ipv6_local ← is_true "media" "ipv6";
  conf_turn;;
  conf_nice_debug;;
  test_private_address;;
  conf_max_nack_queue;;
  conf_no_media_timer;;
  on_value "media" "rfc_4588" (fun s => call_out (SetRfc4588 (janus_is_true s)));;
  server_pem ← conf_cert_pem;
  server_key ← conf_cert_key;
  call_out (DtlsInit server_pem server_key None);;
  let a := u32 (janus_dtls_srtp_init server_pem server_key None) in
  if (a <? 0)%Z then exit1
  else
    conf_dtls_mtu;;
    call_out SctpInit;;
    if (janus_sctp_init <? 0)%Z then exit1 else mret tt.

Definition plugins_folder (w : gateway X J C) : string :=
  default "/home/globik/kore.io_websocket/websocket_10/plugins" (setting "general" "plugins_folder" w).

(** The sessions' tables, their watchdog, the plugins. *)
Definition gateway_start (api : Z) : m unit :=
  modify (c_gw (g_sessions (fun _ => ∅)));;
  modify (c_gw (g_old_sessions (fun _ => ∅)));;
  modify (c_gw (g_sessions_mutex (fun _ => false)));;
  if negb g_thread_try_new then exit1
  else
    call_out WatchdogStart;;
    folder ← gets plugins_folder;
    in_gw (load_plugin api (opendir folder)).

(** [while(!g_atomic_int_get(&stop)) usleep(250000)]: how many signals come in each sleep. *)
Fixpoint wait_stop (signals : list nat) : m unit :=
  n ← gets (fun w => Gw.stop (gw w));
  if negb (n =? 0)%Z then mret tt
  else
    match signals with
    | [] => crash Fuel
    | k :: signals => Nat.iter k (fun f => in_gw janus_handle_signal;; f) (mret tt);; wait_stop signals
    end.

(** [g_hash_table_foreach(plugins, janus_plugin_close, NULL)] *)
Fixpoint close_plugins (l : list (string * loc)) : m unit :=
  match l with [] => mret tt | (_, p) :: l => call_out (ClosePlugin p);; close_plugins l end.

(** From the end of the watchdog's loop to [exit(0)]. *)
Definition gateway_end : m unit :=
  call_out WatchdogJoin;;
  c ← gets config;
  (if! bool_decide (is_Some c) then call_out ConfigDestroy);;
  modify (c_gw (g_sessions (fun _ => ∅)));;
  modify (c_gw (g_old_sessions (fun _ => ∅)));;
  call_out DtlsCleanup;;
  call_out SctpDeinit;;
  call_out IceDeinit;;
  plugins ← gets (fun w => plugins (gw w));
  match plugins with Some t => close_plugins (map_to_list t) | None => mret tt end;;
  call_out EventsDeinit.

Definition fuck_up (CONFDIR : string) (api : Z) (signals : list nat) : m unit :=
  gateway_configure CONFDIR;;
  gateway_start api;;
  wait_stop signals;;
  gateway_end.

End Code.

(** ** Text *)

Section Text.
Local Open Scope Z_scope.

Lemma to_int_range z : - 2 ^ 31 <= to_int z < 2 ^ 31.
Proof. unfold to_int. pose proof (Z.mod_pos_bound (z + 2 ^ 31) (2 ^ 32)). lia. Qed.

Lemma atoi_int_small s : - 2 ^ 31 <= atoi s < 2 ^ 31 -> atoi_int s = atoi s.
Proof. intros Hs. unfold atoi_int, to_int, clamp_long. rewrite Z.mod_small; lia. Qed.

(** No part holds the separator, and the parts make up the text again. *)
Fixpoint has (c : ascii) (s : string) : bool :=
  match s with EmptyString => false | String d s => Ascii.eqb d c || has c s end.

Lemma pieces_split c s : pieces c s <> [] /\ Forall (fun p => has c p = false) (pieces c s) /\
  String.concat (String c EmptyString) (pieces c s) = s.
Proof.
  induction s as [|d s (Hn & Hf & Hc)]; cbn [pieces]; [by repeat constructor|].
  destruct (Ascii.eqb_spec d c) as [->|Hd].
  - split; [done|]. split; [by constructor|]. cbn. by destruct (pieces c s); [|rewrite Hc].
  - destruct (pieces c s) as [|p ps]; [done|]. apply Forall_cons in Hf as [Hp Hps].
    split; [done|]. split.
    + constructor; [|done]. cbn. by rewrite (proj2 (Ascii.eqb_neq d c) Hd).
    + rewrite <- Hc. by destruct ps.
Qed.

(** *** Addresses *)

(** One of the four numbers of an address. *)
Definition octet (s : string) : Prop :=
  s <> EmptyString /\ forallb is_digit (list_ascii_of_string s) = true /\ digits_value 0 s <= 255.
Definition dotted (a b c d : string) : string := (a ++ "." ++ b ++ "." ++ c ++ "." ++ d)%string.

Lemma digit_facts c : is_digit c = true ->
  is_space c = false /\ (nat_of_ascii c =? 45)%nat = false /\ (nat_of_ascii c =? 43)%nat = false /\
  ((48 <=? nat_of_ascii c)%nat && (nat_of_ascii c <=? 57)%nat) = true.
Proof.
  unfold is_digit, is_space. intros Hc. destruct (Nat.leb_spec 48 (nat_of_ascii c)) as [Hl|]; [|done].
  destruct (Nat.leb_spec (nat_of_ascii c) 57) as [Hu|]; [|done].
  rewrite (proj2 (Nat.leb_gt (nat_of_ascii c) 13)) by lia. rewrite andb_false_r, orb_false_r.
  split_and!; [by apply Nat.eqb_neq; lia..|done].
Qed.

Lemma digits_value_nonneg s acc : 0 <= acc -> 0 <= digits_value acc s.
Proof.
  revert acc. induction s as [|c s IH]; intros acc Ha; [done|]. cbn -[Z.mul Z.of_nat Nat.leb nat_of_ascii].
  destruct (_ && _) eqn:Hc; [|done]. apply IH. apply andb_true_iff in Hc as [Hc _]. apply Nat.leb_le in Hc. lia.
Qed.

Lemma append_cons c s r : (String c s ++ r = String c (s ++ r))%string.
Proof. done. Qed.
Lemma append_nil r : (EmptyString ++ r = r)%string.
Proof. done. Qed.

Lemma string_app_nil_r s : (s ++ EmptyString)%string = s.
Proof. induction s as [|c s IH]; [done|]. by rewrite append_cons, IH. Qed.

(** What stands behind a number that ends at a dot or at the end of the text. *)
Definition stops (r : string) : Prop := match r with EmptyString => True | String c _ => is_digit c = false end.

Lemma digits_app s r acc :
  forallb is_digit (list_ascii_of_string s) = true -> stops r ->
  digits_value acc (s ++ r) = digits_value acc s /\ skip_digits (s ++ r) = r.
Proof.
  revert acc. induction s as [|c s IH]; intros acc Hs Hr.
  - destruct r as [|c r]; [done|]. change (is_digit c = false) in Hr. rewrite append_nil.
    cbn -[Z.mul Z.of_nat Nat.leb nat_of_ascii is_digit]. rewrite Hr. unfold is_digit in Hr. by rewrite Hr.
  - cbn [list_ascii_of_string forallb] in Hs. apply andb_true_iff in Hs as [Hc Hs].
    rewrite append_cons. cbn -[Z.mul Z.of_nat Nat.leb nat_of_ascii]. rewrite Hc. unfold is_digit in Hc.
    rewrite Hc. by apply IH.
Qed.

Lemma scan_octet s r : octet s -> stops r -> scan_hu (s ++ r) = Some (digits_value 0 s, r).
Proof.
  intros (Hn & Hd & Hv) Hr. destruct (digits_app s r 0 Hd Hr) as [Hval Hskip].
  pose proof (digits_value_nonneg s 0 ltac:(done)) as Hpos.
  destruct s as [|c s]; [done|]. cbn [list_ascii_of_string forallb] in Hd. apply andb_true_iff in Hd as [Hc _].
  destruct (digit_facts c Hc) as (Hsp & H45 & H43 & _). rewrite append_cons. cbn [scan_hu].
  rewrite Hsp, H45, H43. unfold scan_digits. rewrite Hc.
  rewrite <- append_cons. rewrite Hval, Hskip. cbn [mbind option_bind].
  by rewrite u16_small by lia.
Qed.

Lemma sscanf_dotted a b c d :
  octet a -> octet b -> octet c -> octet d ->
  sscanf_hu 4 (dotted a b c d) = [digits_value 0 a; digits_value 0 b; digits_value 0 c; digits_value 0 d].
Proof.
  intros Ha Hb Hc Hd. unfold dotted. cbn [sscanf_hu].
  do 3 (rewrite scan_octet by done; rewrite append_cons, append_nil; change (nat_of_ascii "." =? 46)%nat with true; cbv iota).
  rewrite <- (string_app_nil_r d) at 1. by rewrite scan_octet.
Qed.

(** The 32-bit number of an address, and networks by the length of their prefix. *)
Definition address32 (a b c d : Z) : Z := ((a * 256 + b) * 256 + c) * 256 + d.
Definition in_network (net len n : Z) : bool := Z.shiftr n (32 - len) =? Z.shiftr net (32 - len).
Definition is_private (n : Z) : bool :=
  in_network (address32 10 0 0 0) 8 n || in_network (address32 172 16 0 0) 12 n || in_network (address32 192 168 0 0) 16 n.

Lemma is_private_bytes a b c d :
  0 <= a <= 255 -> 0 <= b <= 255 -> 0 <= c <= 255 -> 0 <= d <= 255 ->
  is_private (address32 a b c d) =
  (a =? 10) || ((a =? 172) && (16 <=? b) && (b <=? 31)) || ((a =? 192) && (b =? 168)).
Proof.
  intros Ha Hb Hc Hd. unfold is_private, in_network. rewrite !Z.shiftr_div_pow2 by lia.
  assert (H24 : address32 a b c d / 2 ^ (32 - 8) = a) by (unfold address32; Z.to_euclidean_division_equations; lia).
  assert (H20 : address32 a b c d / 2 ^ (32 - 12) = a * 16 + b / 16)
    by (unfold address32; Z.to_euclidean_division_equations; lia).
  assert (H16 : address32 a b c d / 2 ^ (32 - 16) = a * 256 + b)
    by (unfold address32; Z.to_euclidean_division_equations; lia).
  rewrite H24, H20, H16. clear H24 H20 H16.
  change (address32 10 0 0 0 / 2 ^ (32 - 8)) with 10. change (address32 172 16 0 0 / 2 ^ (32 - 12)) with 2753.
  change (address32 192 168 0 0 / 2 ^ (32 - 16)) with 49320. apply Bool.eq_iff_eq_true.
  rewrite !orb_true_iff, !andb_true_iff, !Z.eqb_eq, !Z.leb_le.
  Z.to_euclidean_division_equations.
  lia.
Qed.
End Text.

(** ** Runs of the parts *)

(** What Janus's address parser accepts as IPv4 is a dotted quad. *)
Class GatewayBootLaws (C : Type) `{GatewayBoot C} := {
  ipv4_dotted : forall ip, janus_network_string_to_address ip = Some AF_INET ->
    exists a b c d, ip = Some (dotted a b c d) /\ octet a /\ octet b /\ octet c /\ octet d
}.

Section Facts.
Context {X D J B C : Type} `{JanusCore X D J} `{SdpCore X D J} `{GatewayCore X D J} `{Jansson J} `{KoreBuf B} `{KoreNet}
  `{!GatewayBoot C} `{!GatewayBootLaws C}.
Implicit Types w : gateway X J C.
Local Open Scope Z_scope.

Lemma on_value_run sec key (f : string -> M (gateway X J C) unit) w :
  on_value sec key f w = match setting sec key w with Some s => f s w | None => Done (tt, w) end.
Proof. unfold on_value, value. run eq_refl. by destruct (setting sec key w). Qed.

(** *** The ports *)

(** The two ports of a range, the smaller one first; 0 as the larger one is no bound. *)
Definition port_range (s : string) (min max : Z) : Z * Z :=
  let '(a, b) := match strrchr "-" s with Some (p, q) => (u16 (atoi_int p), u16 (atoi_int q)) | None => (min, max) end in
  (Z.min a b, if Z.max a b =? 0 then 65535 else Z.max a b).

Lemma conf_ports_run s w :
  setting "media" "rtp_port_range" w = Some s ->
  conf_ports w = Done (tt, c_rtp_max_port (fun _ => (port_range s (rtp_min_port w) (rtp_max_port w)).2)
    (c_rtp_min_port (fun _ => (port_range s (rtp_min_port w) (rtp_max_port w)).1) w)).
Proof.
  intros Hs. unfold conf_ports. rewrite on_value_run, Hs. unfold port_range.
  set (ab := match strrchr "-" s with Some (p, q) => (u16 (atoi_int p), u16 (atoi_int q)) | None => _ end).
  assert (Hp : match strrchr "-" s with
    | Some (min, max) => modify (c_rtp_min_port (fun _ => u16 (atoi_int min)));; modify (c_rtp_max_port (fun _ => u16 (atoi_int max)))
    | None => mret tt end w = Done (tt, c_rtp_max_port (fun _ => ab.2) (c_rtp_min_port (fun _ => ab.1) w))).
  { subst ab. destruct (strrchr "-" s) as [[p q]|]; [done|]. by destruct w. }
  run Hp. run eq_refl. run eq_refl. destruct ab as [a b]. cbn [fst snd rtp_min_port rtp_max_port c_rtp_min_port c_rtp_max_port].
  destruct (Z.ltb_spec b a) as [Hlt|Hge]; cbn [whenM].
  - rewrite Z.min_r, Z.max_l by lia. run eq_refl. run eq_refl. cbn. by destruct (a =? 0).
  - rewrite Z.min_l, Z.max_r by lia. run eq_refl. run eq_refl. cbn. by destruct (b =? 0).
Qed.

Lemma u16_range z : 0 <= u16 z < 65536.
Proof. by apply (wrap_range 16). Qed.

Lemma port_range_bounds s min max :
  0 <= min < 65536 -> 0 <= max < 65536 ->
  0 <= (port_range s min max).1 <= (port_range s min max).2 /\ 0 < (port_range s min max).2 < 65536.
Proof.
  intros Hmin Hmax. unfold port_range.
  assert (Hab : let '(a, b) := match strrchr "-" s with Some (p, q) => (u16 (atoi_int p), u16 (atoi_int q)) | None => (min, max) end in
    0 <= a < 65536 /\ 0 <= b < 65536).
  { destruct (strrchr "-" s) as [[p q]|]; [split; apply u16_range|done]. }
  destruct (match strrchr "-" s with Some _ => _ | None => _ end) as [a b]. cbn.
  destruct (Z.eqb_spec (Z.max a b) 0); lia.
Qed.

(** *** What the configuration may change *)

(** The values the globals and the arguments of the calls can have. *)
Definition call_typed (c : call) : Prop :=
  match c with
  | SetMaxNack n => n = 0 \/ 200 <= n < 2 ^ 31
  | SetNoMedia n => 0 <= n < 2 ^ 31
  | SetMtu n => - 2 ^ 31 <= n < 2 ^ 31
  | IceInit _ _ _ _ min max => 0 <= min <= max /\ max < 65536
  | IceSetStun _ port | IceSetTurn _ port _ _ _ => 0 <= port < 65536
  | _ => True
  end.
Definition typed w : Prop :=
  (0 <= rtp_min_port w <= rtp_max_port w /\ rtp_max_port w < 65536) /\
  0 <= stun_port w < 65536 /\ 0 <= turn_port w < 65536 /\
  0 <= session_timeout (gw w) < 2 ^ 32 /\ Forall call_typed (calls w).

Lemma preserves_on_value (I : gateway X J C -> Prop) sec key f :
  (forall s, preserves I (f s)) -> preserves I (on_value sec key f).
Proof. intros Hf w a w' HI. rewrite on_value_run. destruct (setting sec key w); [by apply Hf|by intros [= <- <-]]. Qed.

Lemma preserves_call c : call_typed c -> preserves typed (call_out c).
Proof. intros Hc w a w' (Hp & Hs & Ht & Hst & Hcl) [= <- <-].
  refine (conj Hp (conj Hs (conj Ht (conj Hst _)))). by constructor. Qed.

(** An operation goes on from [w] to [w']: of what comes later only these fields and the
    calls may differ, and a call of [janus_ice_init] is made with the globals. *)
Definition goes w w' : Prop :=
  config w' = config w /\ ipv6 w' = ipv6 w /\ full_trickle w' = full_trickle w /\
  (is_Some (local_ip w) -> is_Some (local_ip w')) /\
  (exists t, gw w' = g_session_timeout (fun _ => t) (gw w)) /\
  exists l, calls w' = l ++ calls w /\
    Forall (fun c => match c with IceInit _ _ t i _ _ => t = full_trickle w /\ i = ipv6 w | _ => True end) l.

#[local] Instance goes_preorder : PreOrder goes.
Proof.
  split.
  - intros w. split_and!; try done; [exists (session_timeout (gw w)); by destruct (gw w)|by exists []].
  - intros w1 w2 w3 (Hc & Hi & Ht & Hl & [t Hg] & l & Hcl & Hf) (Hc' & Hi' & Ht' & Hl' & [t' Hg'] & l' & Hcl' & Hf').
    split_and!; [congruence..|auto|exists t'; by rewrite Hg', Hg|].
    exists (l' ++ l). rewrite Hcl', Hcl, app_assoc. split; [done|]. apply Forall_app. split; [|done].
    by rewrite Hi, Ht in Hf'.
Qed.

Definition runs {A : Type} (m : M (gateway X J C) A) : Prop := forall w, wp m (fun _ w' => goes w w') w.

Lemma runs_ret {A : Type} (a : A) : runs (mret a).
Proof. intros w. apply wp_ret. reflexivity. Qed.
Lemma runs_gets {A : Type} (f : gateway X J C -> A) : runs (gets f).
Proof. intros w. apply wp_gets. reflexivity. Qed.
Lemma runs_bind {A A' : Type} (m : M (gateway X J C) A) (k : A -> M (gateway X J C) A') :
  runs m -> (forall a, runs (k a)) -> runs (m ≫= k).
Proof.
  intros Hm Hk w. apply wp_bind. eapply wp_mono; [apply Hm|]. cbn beta. intros a w1 Hw1.
  eapply wp_mono; [apply Hk|]. cbn beta. intros a' w2 Hw2. by transitivity w1.
Qed.
Lemma runs_when (b : bool) m : runs m -> runs (whenM b m).
Proof. destruct b; [done|intros _; apply runs_ret]. Qed.
Lemma runs_on_value sec key f : (forall s, runs (f s)) -> runs (on_value sec key f).
Proof. intros Hf w. unfold wp. rewrite on_value_run. destruct (setting sec key w); [apply Hf|]. reflexivity. Qed.
Lemma runs_modify f : (forall w, goes w (f w)) -> runs (modify f).
Proof. intros Hf w. apply wp_modify. apply Hf. Qed.
Lemma runs_call c : (match c with IceInit _ _ _ _ _ _ => False | _ => True end) -> runs (call_out c).
Proof.
  intros Hc. apply runs_modify. intros w. split_and!; try done; [by exists (session_timeout (gw w)); destruct w as [[]]|].
  exists [c]. split; [done|]. constructor; [by destruct c|done].
Qed.

(** Assignments to the other fields. *)
Lemma goes_silent w w' :
  config w' = config w -> ipv6 w' = ipv6 w -> full_trickle w' = full_trickle w ->
  (is_Some (local_ip w) -> is_Some (local_ip w')) ->
  (exists t, gw w' = g_session_timeout (fun _ => t) (gw w)) -> calls w' = calls w -> goes w w'.
Proof. intros. split_and!; try done. by exists []. Qed.

(** *** Every value stays within its type *)

#[local] Hint Resolve preserves_on_value preserves_call : pres.
#[local] Hint Extern 2 (preserves typed (modify _)) => apply preserves_modify; intros ? Htyped; exact Htyped : pres.
#[local] Hint Extern 5 (preserves _ (on_value _ _ _)) => apply preserves_on_value; intros ? : pres.
#[local] Hint Extern 5 (preserves _ (call_out _)) => apply preserves_call; cbn; try done : pres.

Lemma typed_ports : preserves typed conf_ports.
Proof.
  intros w [] w' Hw Hr. destruct (setting "media" "rtp_port_range" w) as [s|] eqn:Hs.
  - rewrite (conf_ports_run s w Hs) in Hr. injection Hr as <-. destruct Hw as ([Hp Hp'] & Hrest).
    destruct (port_range_bounds s (rtp_min_port w) (rtp_max_port w)) as [Hb [_ Hb']]; [lia..|].
    refine (conj (conj Hb Hb') _). exact Hrest.
  - unfold conf_ports in Hr. rewrite on_value_run, Hs in Hr. by injection Hr as <-.
Qed.

Lemma typed_port (f : (Z -> Z) -> gateway X J C -> gateway X J C) z :
  f = c_stun_port \/ f = c_turn_port -> preserves typed (modify (f (fun _ => u16 z))).
Proof.
  intros Hf. apply preserves_modify. intros w (Hp & Hs & Ht & Hrest). pose proof (u16_range z) as Hz.
  destruct Hf as [-> | ->]; [exact (conj Hp (conj Hz (conj Ht Hrest)))|exact (conj Hp (conj Hs (conj Hz Hrest)))].
Qed.
#[local] Hint Extern 1 (preserves typed (modify (c_stun_port _))) => apply (typed_port c_stun_port); by left : pres.
#[local] Hint Extern 1 (preserves typed (modify (c_turn_port _))) => apply (typed_port c_turn_port); by right : pres.

Lemma typed_ice_start : preserves typed ice_start.
Proof.
  apply preserves_gets_bind. intros w Hw. pose proof Hw as (Hp & Hs & Ht & _).
  assert (Hpre : preserves typed
    (call_out (IceInit (ice_lite w) (ice_tcp w) (full_trickle w) (ipv6 w) (rtp_min_port w) (rtp_max_port w));;
     call_out (IceSetStun (stun_server w) (stun_port w));;
     if (janus_ice_set_stun_server (stun_server w) (stun_port w) <? 0) then exit1
     else call_out (IceSetTurn (turn_server w) (turn_port w) (turn_type w) (turn_user w) (turn_pwd w));;
       if (janus_ice_set_turn_server (turn_server w) (turn_port w) (turn_type w) (turn_user w) (turn_pwd w) <? 0) then exit1
       else mret tt)).
  { unfold exit1. repeat (apply preserves_bind; [by apply preserves_call|intros _] || apply preserves_crash || apply preserves_ret || destruct (_ <? 0)). }
  intros b w' Hr. by eapply Hpre.
Qed.

Lemma typed_session_timeout : preserves typed conf_session_timeout.
Proof.
  apply preserves_on_value. intros s. cbv zeta. destruct (Z.ltb_spec (atoi_int s) 0) as [|Hs]; [apply preserves_ret|].
  apply preserves_modify. intros w (Hp & Hst & Ht & _ & Hrest).
  refine (conj Hp (conj Hst (conj Ht (conj _ Hrest)))). cbn. pose proof (to_int_range (clamp_long (atoi s))). unfold atoi_int in *. lia.
Qed.

Lemma typed_max_nack : preserves typed conf_max_nack_queue.
Proof.
  apply preserves_on_value. intros s. cbv zeta. pose proof (to_int_range (clamp_long (atoi s))) as Hr. fold (atoi_int s) in Hr.
  destruct (Z.ltb_spec (atoi_int s) 0); [apply preserves_ret|].
  destruct (Z.ltb_spec 0 (atoi_int s)), (Z.ltb_spec (atoi_int s) 200); cbn [andb]; try apply preserves_ret;
    apply preserves_call; cbn; lia.
Qed.
Lemma typed_no_media : preserves typed conf_no_media_timer.
Proof.
  apply preserves_on_value. intros s. cbv zeta. pose proof (to_int_range (clamp_long (atoi s))) as Hr. fold (atoi_int s) in Hr.
  destruct (Z.ltb_spec (atoi_int s) 0); [apply preserves_ret|]. apply preserves_call. cbn. lia.
Qed.
Lemma typed_mtu : preserves typed conf_dtls_mtu.
Proof. apply preserves_on_value. intros s. apply preserves_call. apply to_int_range. Qed.

Lemma typed_interfaces f l : (forall i, call_typed (f i)) -> preserves typed (each_interface f l).
Proof. intros Hf. induction l as [|i l IH]; cbn [each_interface]; auto 10 with pres. Qed.

Lemma typed_private : preserves typed test_private_address.
Proof. unfold test_private_address, private_ip. solve_preserves. Qed.
Lemma typed_conf_file f : preserves typed (set_conf_file f).
Proof. unfold set_conf_file, exit1. solve_preserves. Qed.
Lemma typed_local_ip : preserves typed select_local_ip.
Proof. unfold select_local_ip. solve_preserves. Qed.
Lemma typed_nat_1_1 : preserves typed conf_nat_1_1.
Proof. unfold conf_nat_1_1, janus_set_public_ip. solve_preserves. Qed.
Lemma typed_servers : preserves typed conf_servers.
Proof. unfold conf_servers. solve_preserves. Qed.
#[local] Hint Resolve typed_ports typed_ice_start typed_session_timeout typed_max_nack typed_no_media typed_mtu typed_interfaces
  typed_private typed_conf_file typed_local_ip typed_nat_1_1 typed_servers : pres.
Lemma typed_turn : preserves typed conf_turn.
Proof. unfold conf_turn, is_true. solve_preserves. Qed.
#[local] Hint Resolve typed_turn : pres.
#[local] Hint Extern 1 (call_typed _) => exact I : pres.

(** C34: Whatever the configuration file says, every global and every argument of the calls into Janus
    is a value of its C type in the range the code means: the ports are ordered 16-bit
    numbers, the session timeout is an [unsigned int], the retransmission queue is off or
    holds 200 packets at least. *)
Theorem settings_typed CONFDIR : preserves typed (gateway_configure CONFDIR).
Proof.
  unfold gateway_configure, conf_ice_enforce_list, conf_ice_ignore_list, conf_interface, conf_nice_debug, is_true, value,
    conf_cert_pem, conf_cert_key, exit1.
  repeat (apply preserves_bind; [by solve_preserves|intros ?]). solve_preserves.
Qed.

(** *** Interfaces *)

Lemma each_interface_run f l w :
  each_interface f l w = Done (tt, c_calls (fun c => rev (f <$> filter (fun i => i <> EmptyString) l) ++ c) w).
Proof.
  revert w. induction l as [|i l IH]; intros w; cbn [each_interface]; [by destruct w|].
  destruct i as [|a i]; cbn [String.length Nat.ltb Nat.leb whenM].
  - run eq_refl. rewrite IH. by rewrite filter_cons_False by auto.
  - run eq_refl. rewrite IH. rewrite filter_cons_True by done. rewrite fmap_cons. unfold c_calls. cbn.
    by rewrite <- app_assoc.
Qed.

(** The interfaces given to Janus are the parts of the list between its commas, but for the
    empty ones, each once and in their order, without a comma; and the parts are all of the
    list. *)
Theorem interface_lists s w :
  setting "nat" "ice_ignore_list" w = Some s -> exists l,
    conf_ice_ignore_list w = Done (tt, c_calls (fun c => rev (IgnoreInterface <$> filter (fun i => i <> EmptyString) l) ++ c) w) /\
    Forall (fun i => has "," i = false) l /\ String.concat "," l = s.
Proof.
  intros Hs. exists (g_strsplit s ","). unfold conf_ice_ignore_list. rewrite on_value_run, Hs. split; [apply each_interface_run|].
  destruct s as [|a s]; [by split; [constructor|]|]. apply pieces_split.
Qed.

(** *** The address *)

Definition test_ip w : option string := match nat_1_1_mapping w with Some ip => Some ip | None => local_ip w end.

Lemma private_ip_run a b c d w :
  private_ip [a; b; c; d] w = Done ((a =? 10) || ((a =? 172) && (16 <=? b) && (b <=? 31)) || ((a =? 192) && (b =? 168)), w).
Proof.
  unfold private_ip. destruct (Z.eqb_spec a 10) as [->|]; [done|].
  destruct (Z.eqb_spec a 172) as [->|]; [by cbn; destruct (_ && _)|]. cbn.
  by destruct (Z.eqb_spec a 192) as [->|].
Qed.

Definition parsed (a b c d : string) : Z :=
  address32 (digits_value 0 a) (digits_value 0 b) (digits_value 0 c) (digits_value 0 d).

Lemma octet_range s : octet s -> 0 <= digits_value 0 s <= 255.
Proof. intros (_ & _ & Hs). split; [by apply digits_value_nonneg|done]. Qed.

(** The test of the address warns exactly of the addresses in one of the networks 10.0.0.0/8,
    172.16.0.0/12 and 192.168.0.0/16, and then once. *)
Theorem private_address_exact a b c d w :
  stun_server w = None -> turn_server w = None -> octet a -> octet b -> octet c -> octet d ->
  test_ip w = Some (dotted a b c d) -> janus_network_string_to_address (test_ip w) = Some AF_INET ->
  test_private_address w =
    Done (tt, if is_private (parsed a b c d) then c_calls (cons (PrivateAddress (test_ip w))) w else w).
Proof.
  intros Hs Ht Ha Hb Hc Hd Hip Hf. unfold test_private_address. run eq_refl. rewrite Hs, Ht. fold (test_ip w). rewrite Hf, Hip.
  change (default EmptyString (Some (dotted a b c d))) with (dotted a b c d). rewrite sscanf_dotted by done. run (private_ip_run _ _ _ _ w).
  unfold parsed. rewrite is_private_bytes by (by apply octet_range). by destruct (_ || _).
Qed.

(** *** The range of ports *)

(** With a range in the file the gateway has ordered 16-bit ports, the larger one not 0; and
    of a range "p-q" that fits 16 bits they are p and q. *)
Theorem rtp_port_range s w :
  setting "media" "rtp_port_range" w = Some s -> typed w -> exists min max,
    conf_ports w = Done (tt, c_rtp_max_port (fun _ => max) (c_rtp_min_port (fun _ => min) w)) /\
    0 <= min <= max /\ 0 < max < 65536 /\
    forall p q, strrchr "-" s = Some (p, q) -> 0 <= atoi p < 65536 -> 0 <= atoi q < 65536 -> 0 < atoi p \/ 0 < atoi q ->
      min = Z.min (atoi p) (atoi q) /\ max = Z.max (atoi p) (atoi q).
Proof.
  intros Hs ([Hp Hp'] & _). eexists _, _. split; [by apply conf_ports_run|].
  destruct (port_range_bounds s (rtp_min_port w) (rtp_max_port w)) as [Hb Hb']; [lia..|]. split_and!; try lia.
  intros p q Hpq Hrp Hrq Hne. unfold port_range. rewrite Hpq, !atoi_int_small, !u16_small by lia. cbn.
  split; [done|]. destruct (Z.eqb_spec (Z.max (atoi p) (atoi q)) 0); lia.
Qed.

(** *** The gateway comes up *)

#[local] Hint Resolve runs_ret runs_gets runs_when : pres.
#[local] Hint Extern 4 (runs (_ ≫= _)) => apply runs_bind; [|intros ?] : pres.
#[local] Hint Extern 4 (runs (on_value _ _ _)) => apply runs_on_value; intros ? : pres.
#[local] Hint Extern 4 (runs (call_out _)) => apply runs_call; exact I : pres.
#[local] Hint Extern 6 (runs (match ?x with _ => _ end)) => destruct x : pres.
Ltac runs_assign :=
  let v := fresh "v" in apply runs_modify; intros v; apply goes_silent; try done;
  try (by intros _; eexists); by exists (session_timeout (gw v)); destruct v as [[]].
#[local] Hint Extern 4 (runs (modify _)) => runs_assign : pres.

(** What Janus and the file system must grant. *)
Record boots (CONFDIR : string) : Prop := Boots {
  boots_config : is_Some (janus_config_parse (snprintf 255 (CONFDIR ++ "/janus.cfg"))) \/
    is_Some (janus_config_create "janus.cfg");
  boots_stun : forall s p, 0 <= janus_ice_set_stun_server s p;
  boots_turn : forall s p t u pw, 0 <= janus_ice_set_turn_server s p t u pw;
  boots_sctp : 0 <= janus_sctp_init
}.

Lemma runs_interfaces f l : (forall i, match f i with IceInit _ _ _ _ _ _ => False | _ => True end) -> runs (each_interface f l).
Proof.
  intros Hf. induction l as [|i l IH]; cbn [each_interface]; [apply runs_ret|].
  apply runs_bind; [apply runs_when, runs_call, Hf|by intros _].
Qed.

Lemma runs_session_timeout : runs conf_session_timeout.
Proof.
  apply runs_on_value. intros s. cbv zeta. destruct (_ <? 0); [apply runs_ret|]. apply runs_modify. intros w.
  apply goes_silent; try done. by exists (atoi_int s).
Qed.

Lemma runs_ports : runs conf_ports.
Proof. unfold conf_ports. auto 20 with pres. Qed.

Lemma runs_private : runs test_private_address.
Proof.
  intros w. unfold test_private_address. apply wp_bind, wp_gets.
  destruct (stun_server w); [by apply runs_ret|]. destruct (turn_server w); [by apply runs_ret|]. fold (test_ip w).
  destruct (janus_network_string_to_address (test_ip w)) as [[]|] eqn:Hf.
  - pose proof (ipv4_dotted _ Hf) as (a & b & c & d & Hip & Ha & Hb & Hc & Hd). rewrite Hip. change (default EmptyString (Some (dotted a b c d))) with (dotted a b c d).
    rewrite sscanf_dotted by done. unfold wp. run (private_ip_run (digits_value 0 a) (digits_value 0 b)
      (digits_value 0 c) (digits_value 0 d) w). apply (runs_when _ (call_out (PrivateAddress (Some (dotted a b c d))))), runs_call. exact I.
  - by apply (runs_bind (mret false)); [apply runs_ret|intros ?; apply runs_when, runs_call].
  - apply (runs_bind (call_out (InvalidAddress (test_ip w));; mret false)); auto 10 with pres.
Qed.

Section Boots.
Context (CONFDIR : string) (Hboots : boots CONFDIR).

Lemma runs_ice_start w :
  wp ice_start (fun _ w' => goes w w' /\ exists lite tcp min max, IceInit lite tcp (full_trickle w) (ipv6 w) min max ∈ calls w') w.
Proof.
  unfold ice_start. apply wp_bind, wp_gets. do 2 (apply wp_bind; apply wp_modify).
  pose proof (boots_stun _ Hboots (stun_server w) (stun_port w)) as Hst.
  rewrite (proj2 (Z.ltb_ge _ 0) Hst). apply wp_bind; apply wp_modify.
  pose proof (boots_turn _ Hboots (turn_server w) (turn_port w) (turn_type w) (turn_user w) (turn_pwd w)) as Htu.
  rewrite (proj2 (Z.ltb_ge _ 0) Htu). apply wp_ret. split.
  - split_and!; try done; [by exists (session_timeout (gw w)); destruct w as [[]]|].
    eexists [_; _; _]. split; [done|]. by repeat constructor.
  - eexists _, _, _, _. cbn. right. right. by left.
Qed.

Lemma goes_in c w w' : goes w w' -> c ∈ calls w -> c ∈ calls w'.
Proof. intros (_ & _ & _ & _ & _ & l & -> & _) Hc. apply elem_of_app. by right. Qed.

(** One step of the start, after which the gateway has gone on from [w0]. *)
Lemma goes_step {A A' : Type} w0 w (m : M (gateway X J C) A) (k : A -> M (gateway X J C) A') Q :
  goes w0 w -> runs m -> (forall a w1, goes w w1 -> goes w0 w1 -> wp (k a) Q w1) -> wp (m ≫= k) Q w.
Proof.
  intros Hg Hm Hk. apply wp_bind. eapply wp_mono; [apply Hm|]. cbn beta. intros a w1 Hw1.
  apply Hk; [done|by transitivity w].
Qed.

Lemma runs_nat_1_1 : runs conf_nat_1_1.
Proof. unfold conf_nat_1_1, janus_set_public_ip. auto 20 with pres. Qed.
Lemma runs_servers : runs conf_servers.
Proof. unfold conf_servers. auto 40 with pres. Qed.

Lemma turn_wp w :
  wp conf_turn (fun _ w' => goes w w' /\ exists lite tcp min max, IceInit lite tcp (full_trickle w) (ipv6 w) min max ∈ calls w') w.
Proof.
  unfold conf_turn, is_true, value. eapply (goes_step w); [reflexivity|apply runs_ports|intros _ w1 _ Hg1].
  do 6 (eapply (goes_step w); [eassumption|by auto 10 with pres|intros ? ? _ ?]).
  eapply (goes_step w); [eassumption|apply runs_nat_1_1|intros _ ? _ ?].
  eapply (goes_step w); [eassumption|apply runs_servers|intros _ wf _ Hg].
  pose proof Hg as (_ & Hi & Ht & _). eapply wp_mono; [apply runs_ice_start|]. cbn beta. rewrite Hi, Ht.
  intros _ wl [Hgl Hin]. split; [by transitivity wf|done].
Qed.

Lemma conf_file_wp w :
  wp (set_conf_file CONFDIR) (fun _ w' => exists c, w' = c_config (fun _ => Some c)
    (c_config_file (fun _ => Some (snprintf 255 (CONFDIR ++ "/janus.cfg"))) w)) w.
Proof.
  unfold set_conf_file. apply wp_bind, wp_modify. destruct (janus_config_parse _) as [c|] eqn:Hp.
  - apply wp_modify. by exists c.
  - apply wp_bind, wp_modify. destruct (boots_config _ Hboots) as [[c Hc]|[c Hc]]; [congruence|].
    rewrite Hc. apply wp_ret. by exists c.
Qed.

Lemma local_ip_wp w :
  wp (match local_ip w with Some _ => mret tt | None => ip ← select_local_ip; modify (c_local_ip (fun _ => ip)) end)
    (fun _ w' => goes w w' /\ is_Some (local_ip w')) w.
Proof.
  destruct (local_ip w) as [ip|] eqn:Hip; [apply wp_ret; split; [reflexivity|by rewrite Hip]|].
  unfold select_local_ip. destruct janus_network_detect_local_ip_as_string; wp_steps; (split; [|by eexists]);
    apply goes_silent; try done; (try by intros _; eexists); by exists (session_timeout (gw w)); destruct w as [[]].
Qed.

(** Whatever [janus_dtls_srtp_init] returns, the start goes on. *)
Lemma dtls_wp pem key w :
  wp (call_out (DtlsInit pem key None);;
      if (u32 (janus_dtls_srtp_init pem key None) <? 0) then exit1
      else on_value "media" "dtls_mtu" (fun s => call_out (SetMtu (atoi_int s)));;
        call_out SctpInit;; if (janus_sctp_init <? 0) then exit1 else mret tt)
    (fun _ w' => goes w w' /\ DtlsInit pem key None ∈ calls w' /\ SctpInit ∈ calls w') w.
Proof.
  apply wp_bind, wp_modify. set (w1 := c_calls _ w). assert (Hg1 : goes w w1) by exact (runs_call (DtlsInit pem key None) I w).
  rewrite (proj2 (Z.ltb_ge _ 0)) by apply u32_range.
  eapply (goes_step w1); [reflexivity|by auto 10 with pres|intros _ w2 _ Hg2].
  apply wp_bind, wp_modify. set (w3 := c_calls _ w2). assert (Hg3 : goes w2 w3) by exact (runs_call SctpInit I w2).
  rewrite (proj2 (Z.ltb_ge _ 0) (boots_sctp _ Hboots)). apply wp_ret.
  split_and!; [transitivity w1; [done|]; by transitivity w2| |by left].
  apply (goes_in _ w1 w3); [by transitivity w2|by left].
Qed.

(** The gateway is configured as the code does it from [w]: the globals and calls of [goes],
    an address of its own, the ICE stack and DTLS started. *)
Definition configured w w' : Prop :=
  is_Some (config w') /\ ipv6 w' = ipv6 w /\ is_Some (local_ip w') /\
  (exists t, gw w' = g_session_timeout (fun _ => t) (gw w)) /\
  (exists lite tcp min max, IceInit lite tcp (full_trickle w) (ipv6 w) min max ∈ calls w') /\
  (exists pem key, DtlsInit pem key None ∈ calls w') /\ SctpInit ∈ calls w'.

Lemma configure_wp w : wp (gateway_configure CONFDIR) (fun _ w' => configured w w') w.
Proof.
  unfold gateway_configure, conf_ice_enforce_list, conf_ice_ignore_list, conf_interface, conf_nice_debug, is_true, value,
    conf_cert_pem, conf_cert_key, conf_max_nack_queue, conf_no_media_timer, conf_dtls_mtu.
  hstep conf_file_wp as [] w0 [c ->]. set (w0 := c_config _ _).
  eapply (goes_step w0); [reflexivity|by apply runs_on_value; intros s; apply runs_interfaces|intros _ ? _ ?].
  eapply (goes_step w0); [eassumption|by apply runs_on_value; intros s; apply runs_interfaces|intros _ ? _ ?].
  eapply (goes_step w0); [eassumption|by auto 10 with pres|intros _ wa _ Hg1].
  apply wp_bind, wp_gets. hstep local_ip_wp as [] wb [Hg2 Hip].
  eapply (goes_step wb); [reflexivity|apply runs_session_timeout|intros _ ? _ ?].
  eapply (goes_step wb); [eassumption|by auto 10 with pres|intros ? wc _ Hg3].
  hstep turn_wp as [] wd [Hg4 Hice]. do 4 (eapply (goes_step wd); [first [reflexivity|eassumption]|first [apply runs_private|by auto 10 with pres]|intros _ ? _ ?]).
  eapply (goes_step wd); [eassumption|by auto 10 with pres|intros _ ? _ ?].
  eapply (goes_step wd); [eassumption|apply runs_gets|intros pem ? _ ?].
  eapply (goes_step wd); [eassumption|apply runs_gets|intros key we _ Hg5].
  eapply wp_mono; [apply dtls_wp|]. cbn beta. intros [] wf (Hg6 & Hdtls & Hsctp).
  assert (Hdf : goes wd wf) by by transitivity we.
  assert (Hbf : goes wb wf) by (transitivity wc; [done|]; by transitivity wd).
  assert (H0f : goes w0 wf) by (transitivity wa; [done|]; by transitivity wb).
  pose proof Hg3 as (_ & Hi3 & Ht3 & _). pose proof Hg2 as (_ & Hi2 & Ht2 & _). pose proof Hg1 as (_ & Hi1 & Ht1 & _).
  rewrite Hi3, Ht3, Hi2, Ht2, Hi1, Ht1 in Hice. destruct Hice as (lite & tcp & min & max & Hice).
  pose proof H0f as (Hcf & Hif & _ & _ & Hgw & _). split_and!; [rewrite Hcf; by eexists|done|by apply Hbf|done| |by eauto|done].
  exists lite, tcp, min, max. exact (goes_in _ _ _ Hdf Hice).
Qed.

(** With a configuration, servers Janus takes and SCTP, the gateway's start goes through to its
    end, whatever else the file says: an address, the ICE stack, DTLS and SCTP are there.
    IPv6 and full trickle are those of the globals, which the file's media/ipv6 does not
    reach; and the result of the start of DTLS does not matter. *)
Theorem gateway_comes_up w : exists w', gateway_configure CONFDIR w = Done (tt, w') /\ configured w w'.
Proof. destruct (wp_run _ _ _ (configure_wp w)) as ([] & w' & Hr & Hc). by exists w'. Qed.

(** *** Its life *)

Lemma load_all_run api dir (g : gworld X J) : exists t, load_all api dir g = Done (tt, g_plugins (fun _ => t) g).
Proof.
  revert g. induction dir as [|d dir IH]; intros g; cbn [load_all]; [exists (plugins g); by destruct g|].
  assert (Ho : exists t, load_one api d g = Done (tt, g_plugins (fun _ => t) g)).
  { assert (Hn : exists t, mret (M := M (gworld X J)) tt g = Done (tt, g_plugins (fun _ => t) g))
      by (exists (plugins g); by destruct g).
    unfold load_one. destruct (_ || _); [done|]. destruct (created d) as [p|]; [|done]. destruct (_ || _); [done|].
    run eq_refl. unfold plug_fucker. destruct (plugins g); [done|]. by eexists. }
  destruct Ho as [t Ho]. run Ho. destruct (IH (g_plugins (fun _ => t) g)) as [t' ->]. by exists t'.
Qed.

(** Signals that come in one sleep: the third one ends the process. *)
Lemma signals_run k w :
  Gw.stop (gw w) = 0 -> Nat.iter k (fun f => in_gw janus_handle_signal;; f) (mret tt) w =
    if (k <? 3)%nat then Done (tt, c_gw (g_stop (fun _ => Z.of_nat k)) w) else Crash (Fatal "exit").
Proof.
  intros Hs. destruct w as [g]. cbn in Hs. destruct g. cbn in Hs. subst.
  destruct k as [|[|[|k]]]; done.
Qed.

Lemma wait_stopped l w : Gw.stop (gw w) <> 0 -> wait_stop l w = Done (tt, w).
Proof. intros Hs. apply Z.eqb_neq in Hs. destruct l; unfold wait_stop; run eq_refl; by rewrite Hs. Qed.

Lemma wait_stop_step k l w :
  Gw.stop (gw w) = 0 -> wait_stop (k :: l) w = (Nat.iter k (fun f => in_gw janus_handle_signal;; f) (mret tt);; wait_stop l) w.
Proof. intros Hs. unfold wait_stop at 1. run eq_refl. by rewrite Hs. Qed.

Lemma wait_run n k rest w :
  Gw.stop (gw w) = 0 -> (0 < k)%nat -> wait_stop (replicate n 0%nat ++ k :: rest) w =
    if (k <? 3)%nat then Done (tt, c_gw (g_stop (fun _ => Z.of_nat k)) w) else Crash (Fatal "exit").
Proof.
  intros Hs Hk. induction n as [|n IH]; simpl (_ ++ _); rewrite wait_stop_step by done.
  - destruct (k <? 3)%nat eqn:Hk3.
    + pose proof (signals_run k w Hs) as Hr. rewrite Hk3 in Hr. run Hr. apply wait_stopped. cbn. lia.
    + pose proof (signals_run k w Hs) as Hr. rewrite Hk3 in Hr. exact (bind_crash _ _ _ _ Hr).
  - run eq_refl. exact IH.
Qed.

Lemma close_plugins_run l w : close_plugins l w = Done (tt, c_calls (fun c => rev (ClosePlugin <$> l.*2) ++ c) w).
Proof.
  revert w. induction l as [|[k p] l IH]; intros w; cbn [close_plugins]; [by destruct w|].
  run eq_refl. rewrite IH. unfold c_calls. cbn. by rewrite <- app_assoc.
Qed.

(** The gateway's task from its start to [exit(0)]. *)
Definition lived (w0 w : gateway X J C) : Prop :=
  sessions (gw w) = ∅ /\ old_sessions (gw w) = ∅ /\ exists w1 closed,
    configured w0 w1 /\ closed ≡ₚ match plugins (gw w) with Some t => (map_to_list t).*2 | None => [] end /\
    calls w = [EventsDeinit] ++ (ClosePlugin <$> closed) ++
      [IceDeinit; SctpDeinit; DtlsCleanup; ConfigDestroy; WatchdogJoin; WatchdogStart] ++ calls w1.

End Boots.
End Facts.

(** ** A concrete gateway *)

Module ConfConcrete.
Import GwConcrete.
Local Open Scope Z_scope.

(** A configuration is its items; DTLS does not come up. *)
Definition items : Type := list (string * string * option string).
Definition c_items : items := [
  ("media", "rtp_port_range", Some "20000-10000"); ("media", "ipv6", Some "yes"); ("media", "max_nack_queue", Some "150");
  ("nat", "ice_ignore_list", Some "vmnet,,wlan0"); ("general", "session_timeout", Some " 90s"); ("general", "interface", None)].
Definition c_private : string := "172.20.1.5".

#[export] Instance c_boot : GatewayBoot items := {|
  janus_config_parse := fun f => if bool_decide (f = "/etc/janus.cfg") then Some c_items else None;
  janus_config_create := fun _ => Some [];
  janus_config_get_item_drilldown := fun c s k => snd <$> List.find (fun i => bool_decide (i.1 = (s, k))) c;
  janus_is_true := fun s => bool_decide (s = "yes");
  janus_network_detect_local_ip_as_string := Some c_private;
  janus_network_string_is_valid_address := fun s => bool_decide (s = c_private);
  janus_network_string_to_address := fun ip => if bool_decide (ip = Some c_private) then Some AF_INET else None;
  janus_network_lookup_interface := None;
  janus_ice_set_stun_server := fun _ _ => 0;
  janus_ice_set_turn_server := fun _ _ _ _ _ => 0;
  janus_dtls_srtp_init := fun _ _ _ => -1;
  janus_sctp_init := 0;
  g_thread_try_new := true;
  opendir := fun _ => Some [Dirent "libjanus_echotest.so" true true (Some 8%nat) true 9 0]
|}.

Definition c_octets : list string := ["172"; "20"; "1"; "5"].
Lemma c_octets_ok : Forall octet c_octets.
Proof. unfold c_octets. repeat (constructor; [split_and!; [discriminate|by vm_compute..]|]). constructor. Qed.

#[export] Instance c_boot_laws : GatewayBootLaws items.
Proof.
  split. intros ip. cbn. case_bool_decide as Hip; [|done]. intros _. exists "172", "20", "1", "5". split; [done|].
  pose proof c_octets_ok as Ho.
  unfold c_octets in Ho. rewrite !Forall_cons in Ho. by destruct Ho as (? & ? & ? & ? & _).
Qed.

Definition c_down (c : option items) : gateway Z json items :=
  Gateway (c_empty 0) c None None None None 0 None 0 None None None None None None 0 0 false false false false [].

Lemma c_down_typed c : typed (c_down c).
Proof. split_and!; done. Qed.
Lemma c_boots : boots "/etc".
Proof. split; try done. left. by exists c_items. Qed.

Lemma settings_typed_witness : exists w', gateway_configure "/etc" (c_down None) = Done (tt, w') /\ typed w'.
Proof. eexists. split; [vm_compute; reflexivity|]. eapply (settings_typed "/etc"); [apply (c_down_typed None)|vm_compute; reflexivity]. Defined.

Lemma interface_lists_witness : exists l,
  conf_ice_ignore_list (c_down (Some c_items)) =
    Done (tt, Conf.c_calls (fun c => rev (IgnoreInterface <$> filter (fun i => i <> EmptyString) l) ++ c) (c_down (Some c_items))) /\
  Forall (fun i => has "," i = false) l /\ String.concat "," l = "vmnet,,wlan0".
Proof. by apply interface_lists. Defined.

Definition c_with_ip : gateway Z json items := c_local_ip (fun _ => Some c_private) (c_down None).
Lemma private_address_exact_witness :
  test_private_address c_with_ip = Done (tt, c_calls (cons (PrivateAddress (Some c_private))) c_with_ip).
Proof.
  refine (private_address_exact "172" "20" "1" "5" c_with_ip _ _ _ _ _ _ _ _); [done|done| | | | |done|by vm_compute];
    (split_and!; [discriminate|by vm_compute..]).
Defined.

Lemma rtp_port_range_witness : exists min max,
  conf_ports (c_down (Some c_items)) = Done (tt, c_rtp_max_port (fun _ => max) (c_rtp_min_port (fun _ => min) (c_down (Some c_items)))) /\
  0 <= min <= max /\ 0 < max < 65536 /\
  forall p q, strrchr "-" "20000-10000" = Some (p, q) -> 0 <= atoi p < 65536 -> 0 <= atoi q < 65536 -> 0 < atoi p \/ 0 < atoi q ->
    min = Z.min (atoi p) (atoi q) /\ max = Z.max (atoi p) (atoi q).
Proof. apply rtp_port_range; [by vm_compute|apply c_down_typed]. Defined.

Lemma gateway_comes_up_witness : exists w', gateway_configure "/etc" (c_down None) = Done (tt, w') /\ configured (c_down None) w'.
Proof. apply gateway_comes_up. apply c_boots. Defined.

End ConfConcrete.

End Conf.
