(* ===== verification/Watchdog.v ===== *)
(** * What becomes of a gateway session (websocket_10/src/helper.c)

    Theorems about the sessions of [Gateway]: the numbers drawn for them, the watchdog's
    walk, the timers that free them, and the whole life of a session that is left idle. *)

From S2P Require Import Prelude Jansson KoreNet Janus HandleSdp Gateway.

Local Open Scope c_scope.

Module Watchdog.
Import Janus Gw.

(** ** What the code relies on *)

(** The clock does not go back, and a handle that is destroyed stays allocated (the code reads
    its number afterwards). *)
Class DestroyLaws (X D J : Type) `{JanusCore X D J} `{GatewayCore X D J} := {
  destroy_clock : forall s t k hs (x : X),
    (janus_get_monotonic_time x <= janus_get_monotonic_time (janus_ice_handle_destroy s t k hs x).2.2)%Z;
  destroy_keeps : forall s t k hs (x : X) h,
    is_Some (hs !! h) -> is_Some ((janus_ice_handle_destroy s t k hs x).2.1 !! h)
}.

Section Facts.
Context {X D J : Type} `{JanusCore X D J} `{GatewayCore X D J} `{Jansson J}.
Implicit Types (w : gworld X J) (j : jworld X J).

Definition clock j : Z := janus_get_monotonic_time (core j).

(** Janus has gone on from [j] to [j']. *)
Definition later j j' : Prop :=
  (clock j <= clock j')%Z /\ (forall h, is_Some (handles j !! h) -> is_Some (handles j' !! h)) /\
  root_refs j' = root_refs j /\ sent j' = sent j.

#[local] Instance later_preorder : PreOrder later.
Proof.
  split.
  - intros j. split_and!; [lia|done..].
  - intros j1 j2 j3 (H12 & Hh12 & Hr12 & Hs12) (H23 & Hh23 & Hr23 & Hs23). split_and!; [lia|auto|congruence..].
Qed.

(** *** Single runs *)

Lemma get_session_run s v w : heap w !! s = Some v -> get_session s w = Done (v, w).
Proof. intros Hv. unfold get_session. run eq_refl. by rewrite Hv. Qed.
Lemma update_session_run s f v w :
  heap w !! s = Some v -> update_session s f w = Done (tt, g_heap <[s := f v]> w).
Proof. intros Hv. unfold update_session. by run (get_session_run s v w Hv). Qed.
Lemma session_lock_run s v w :
  heap w !! s = Some v -> mutex v = false -> session_lock s w = Done (tt, g_heap <[s := s_mutex (fun _ => true) v]> w).
Proof. intros Hv Hm. unfold session_lock. run (get_session_run s v w Hv). rewrite Hm. by apply update_session_run. Qed.
Lemma session_unlock_run s v w :
  heap w !! s = Some v -> mutex v = true -> session_unlock s w = Done (tt, g_heap <[s := s_mutex (fun _ => false) v]> w).
Proof. intros Hv Hm. unfold session_unlock. run (get_session_run s v w Hv). rewrite Hm. by apply update_session_run. Qed.
Lemma session_lock_stuck s v w : heap w !! s = Some v -> mutex v = true -> session_lock s w = Crash LockMisuse.
Proof. intros Hv Hm. unfold session_lock. run (get_session_run s v w Hv). by rewrite Hm. Qed.
Lemma sessions_lock_run w :
  sessions_mutex w = false -> sessions_lock w = Done (tt, g_sessions_mutex (fun _ => true) w).
Proof. intros Hm. unfold sessions_lock. run eq_refl. by rewrite Hm. Qed.
Lemma sessions_unlock_run w :
  sessions_mutex w = true -> sessions_unlock w = Done (tt, g_sessions_mutex (fun _ => false) w).
Proof. intros Hm. unfold sessions_unlock. run eq_refl. by rewrite Hm. Qed.
Lemma find_run k w :
  sessions_mutex w = false -> janus_session_find k w = Done (sessions w !! k, w).
Proof.
  intros Hm. unfold janus_session_find. run (sessions_lock_run w Hm). run eq_refl. run (sessions_unlock_run (g_sessions_mutex (fun _ => true) w) eq_refl).
  destruct w. cbn in Hm. by subst.
Qed.

(** ** Numbers for new sessions *)

(** The numbers Janus draws, one after the other. *)
Fixpoint draws (n : nat) (x : X) : list Z :=
  match n with O => [] | S n => let '(k, x) := janus_random_uint64 x in k :: draws n x end.

Definition takes w (k : Z) : Prop := k <> 0%Z /\ sessions w !! k = None.

(** A number is found with the first draw that is neither 0 nor in the table, and that is the
    number. *)
Theorem draw_ends n (x0 : X) k w :
  sessions_mutex w = false -> core_of w = x0 -> (exists pre, draws n x0 = pre ++ [k] /\ Forall (fun k => ~ takes w k) pre) ->
  takes w k -> exists w', draw_session_id n w = Done (k, w') /\ sessions w' = sessions w /\ heap w' = heap w.
Proof.
  revert x0 w. induction n as [|n IH]; intros x0 w Hm Hx (pre & Hpre & Hall) Hk; [by destruct pre|].
  cbn [draws draw_session_id] in *. run eq_refl. rewrite Hx. destruct (janus_random_uint64 x0) as [k1 x1] eqn:Hd.
  run eq_refl. set (w1 := g_jw _ w). run (find_run k1 w1 Hm). change (sessions w1) with (sessions w).
  destruct pre as [|p pre]; cbn in Hpre; injection Hpre as -> Hpre.
  - destruct Hk as [Hk0 Hk]. rewrite Hk. cbn. destruct (Z.eqb_spec k 0); [done|]. by exists w1.
  - apply Forall_cons in Hall as [Hp Hall].
    assert ((bool_decide (is_Some (sessions w !! p)) || (p =? 0)%Z) = true) as ->.
    { unfold takes in Hp. destruct (sessions w !! p) as [s|]; [done|]. cbn. destruct (Z.eqb_spec p 0); [done|].
      destruct Hp. done. }
    destruct (IH x1 w1) as (w' & Hr & Hs & Hh); [done|done|by exists pre|done|]. by exists w'.
Qed.

(** ** A timer frees its session *)

Lemma gok_heap s k e w :
  d_ids (dir w) !! s = Some (k, e) -> exists v, heap w !! s = Some v /\ session_id v = k /\ destroy v = e.
Proof.
  cbn. rewrite lookup_fmap. destruct (heap w !! s) as [v|] eqn:Hv; [|done]. intros [= <- <-]. by exists v.
Qed.
Lemma heap_ids s v w : heap w !! s = Some v -> d_ids (dir w) !! s = Some (session_id v, destroy v).
Proof. intros Hv. cbn. by rewrite lookup_fmap, Hv. Qed.

Lemma free_run s v w :
  heap w !! s = Some v -> mutex v = false -> janus_session_free (Some s) w = Done (tt, g_heap (delete s) w).
Proof.
  intros Hv Hm. unfold janus_session_free. run (session_lock_run s v w Hv Hm).
  set (v1 := s_mutex _ v). set (w1 := g_heap _ w). assert (Hv1 : heap w1 !! s = Some v1) by apply lookup_insert_eq.
  run (update_session_run s _ v1 w1 Hv1). set (v2 := s_ice_handles _ v1). set (w2 := g_heap _ w1).
  assert (Hv2 : heap w2 !! s = Some v2) by apply lookup_insert_eq.
  run (update_session_run s _ v2 w2 Hv2). set (v3 := s_source _ v2). set (w3 := g_heap _ w2).
  assert (Hv3 : heap w3 !! s = Some v3) by apply lookup_insert_eq.
  run (session_unlock_run s v3 w3 Hv3 eq_refl). subst w1 w2 w3.
  unfold modify, g_heap. cbn. by rewrite !delete_insert_eq.
Qed.

Lemma fire_cleanup_run i s w :
  gok w -> cleanups w !! i = Some s ->
  exists v, heap w !! s = Some v /\ destroy v = true /\ old_sessions w !! session_id v = Some s /\
    (mutex v = false ->
     fire_cleanup i w = Done (tt, g_cleanups (delete i) (g_heap (delete s) (g_old_sessions (delete (session_id v)) w)))).
Proof.
  intros [(_ & Hm & _) Hok] Hi. destruct (proj1 (ok_timer _ Hok s)) as [k Hs]; [by eapply list_elem_of_lookup_2|].
  pose proof (proj1 (ok_old _ Hok s k) Hs) as Hold. apply gok_heap in Hs as (v & Hv & <- & Hd).
  exists v. split_and!; [done..|]. intros Hmu. unfold fire_cleanup. run eq_refl. rewrite Hi. run eq_refl.
  unfold janus_cleanup_session. rewrite bind_assoc. run (get_session_run s v w Hv). unfold janus_session_destroy.
  rewrite !bind_assoc. unfold janus_session_find_destroyed. rewrite !bind_assoc. run (sessions_lock_run w Hm).
  rewrite !bind_assoc. run eq_refl. rewrite !bind_assoc. run eq_refl. rewrite !bind_assoc.
  run (sessions_unlock_run (g_old_sessions (delete (session_id v)) (g_sessions_mutex (fun _ => true) w)) eq_refl).
  run eq_refl. cbn [old_sessions g_sessions_mutex]. change (d_old (dir w)) with (old_sessions w) in Hold.
  rewrite Hold. set (w1 := g_sessions_mutex _ _). rewrite bind_assoc. run (free_run s v w1 Hv Hmu).
  run eq_refl. run eq_refl. subst w1. destruct w. cbn in Hm. subst. done.
Qed.

(** ** Destruction *)

Lemma destroy_handles_run s l v w `{!DestroyLaws X D J} :
  heap w !! s = Some v -> (forall k h, (k, h) ∈ l -> is_Some (handles (jw w) !! h)) ->
  exists tbl j, destroy_handles s l w = Done (tt, g_jw (fun _ => j) (g_heap <[s := s_ice_handles (fun _ => tbl) v]> w)) /\
    later (jw w) j.
Proof.
  revert v w. induction l as [|[k h] l IH]; intros v w Hv Hl; cbn [destroy_handles].
  { exists (ice_handles v), (jw w). split; [|reflexivity]. destruct v, w. unfold g_jw, g_heap. cbn in *.
    by rewrite insert_id. }
  run eq_refl. destruct (Gw.stop w =? 0)%Z.
  - destruct (Hl k h) as [hv Hh]; [by left|]. rewrite !bind_assoc.
    assert (Hget : lift (get_handle h) w = Done (hv, w))
      by (unfold lift; rewrite (get_handle_run h hv (jw w) Hh); by destruct w).
    run Hget.
    unfold ice_handle_destroy. rewrite !bind_assoc. run (get_session_run s v w Hv). rewrite !bind_assoc. run eq_refl.
    pose proof (destroy_clock s (ice_handles v) (handle_id hv) (handles (jw w)) (core (jw w))) as Hc.
    pose proof (destroy_keeps s (ice_handles v) (handle_id hv) (handles (jw w)) (core (jw w))) as Hk.
    destruct (janus_ice_handle_destroy s (ice_handles v) (handle_id hv) (handles (jw w)) (core (jw w))) as [e [hs x]].
    cbn in Hc, Hk. rewrite !bind_assoc. run eq_refl. run eq_refl. unfold remove_handle.
    set (j1 := w_core (fun _ => x) (w_handles (fun _ => hs) (jw w))). set (w1 := g_jw _ w).
    run (update_session_run s (s_ice_handles (fmap (delete k))) v w1 Hv). set (v1 := s_ice_handles _ v).
    destruct (IH v1 (g_heap <[s := v1]> w1)) as (tbl & j & Hr & Hj).
    + apply lookup_insert_eq.
    + intros k' h' Hin. apply Hk, (Hl k'). by right.
    + exists tbl, j. rewrite Hr. split; [|etransitivity; [|exact Hj]; by split_and!].
      unfold g_jw, g_heap. cbn. rewrite insert_insert_eq. done.
  - run eq_refl. apply IH; [done|]. intros k' h' Hin. apply (Hl k'). by right.
Qed.

(** A session is destroyed: [tbl] is what is left of its handles, [j] what Janus has come
    to, [lg] the log. *)
Definition retired (s : loc) (v : janus_session) (tbl : option (gmap Z loc)) j (lg : list gevent) w : gworld X J :=
  g_glog (fun _ => lg) (g_jw (fun _ => j) (g_cleanups (fun l => l ++ [s]) (g_old_sessions <[session_id v := s]>
    (g_sessions (delete (session_id v)) (g_heap <[s := s_ice_handles (fun _ => tbl) (s_destroy (fun _ => true) v)]> w))))).

(** The session [s] has the value [v] and can be destroyed. *)
Definition can_retire (s : loc) (v : janus_session) w : Prop :=
  heap w !! s = Some v /\ destroy v = false /\ mutex v = false /\ source v = None /\
  forall t k h, ice_handles v = Some t -> t !! k = Some h -> is_Some (handles (jw w) !! h).

Lemma lock_choice (lock : bool) w :
  (lock = true -> sessions_mutex w = false) ->
  (if! lock then sessions_lock) w = Done (tt, g_sessions_mutex (fun b => lock || b) w).
Proof. destruct lock; cbn [whenM]; intros Hm; [by apply sessions_lock_run, Hm|]. by destruct w. Qed.

Lemma schedule_run `{!DestroyLaws X D J} `{!GatewayCoreLaws X D J} s v (lock remove notify : bool) w :
  can_retire s v w -> (lock = true -> sessions_mutex w = false) ->
  exists tbl j, janus_session_schedule_destruction (Some s) lock remove notify w =
    Done (tt, g_jw (fun _ => j) (g_cleanups (fun l => l ++ [s]) (g_old_sessions <[session_id v := s]>
      (g_sessions (if remove then delete (session_id v) else fun t => t)
        (g_heap <[s := s_ice_handles (fun _ => tbl) (s_destroy (fun _ => true) v)]> w))))) /\ later (jw w) j.
Proof.
  intros (Hv & Hd & Hmu & Hsrc & Hh) Hm. unfold janus_session_schedule_destruction. run (get_session_run s v w Hv).
  rewrite Hd. run (update_session_run s _ v w Hv). set (v1 := s_destroy _ v). set (w1 := g_heap _ w).
  assert (Hv1 : heap w1 !! s = Some v1) by apply lookup_insert_eq. run (lock_choice lock w1 Hm). set (w2 := g_sessions_mutex _ w1).
  run (session_lock_run s v1 w2 Hv1 Hmu). set (v3 := s_mutex _ v1). set (w3 := g_heap _ w2).
  assert (Hv3 : heap w3 !! s = Some v3) by apply lookup_insert_eq. run (get_session_run s v3 w3 Hv3).
  assert (Hhs : exists tbl j, match ice_handles v3 with Some hs => destroy_handles s (g_hash_table_iter hs) | None => mret tt end w3 =
    Done (tt, g_jw (fun _ => j) (g_heap <[s := s_ice_handles (fun _ => tbl) v3]> w3)) /\ later (jw w) j).
  { change (ice_handles v3) with (ice_handles v). destruct (ice_handles v) as [t|] eqn:Ht.
    - apply (destroy_handles_run s _ v3 w3 Hv3). intros k h. rewrite iter_all, elem_of_map_to_list. by apply Hh.
    - apply (destroy_handles_run s [] v3 w3 Hv3). by intros k h ?%elem_of_nil. }
  destruct Hhs as (tbl & j & Hr & Hj). exists tbl, j. split; [|done]. run Hr. set (v4 := s_ice_handles _ v3).
  set (w4 := g_jw _ _). assert (Hv4 : heap w4 !! s = Some v4) by apply lookup_insert_eq.
  run (session_unlock_run s v4 w4 Hv4 eq_refl). set (v5 := s_mutex _ v4). set (w5 := g_heap _ w4).
  assert (Hv5 : heap w5 !! s = Some v5) by apply lookup_insert_eq. change (session_id v3) with (session_id v).
  assert (Hrm : (if! remove then modify (g_sessions (delete (session_id v)))) w5 =
    Done (tt, g_sessions (if remove then delete (session_id v) else fun t => t) w5)) by (destruct remove; by destruct w5).
  run Hrm. run eq_refl. run eq_refl.
  assert (Hun : forall w', sessions_mutex w' = lock || sessions_mutex w -> (if! lock then sessions_unlock) w' =
    Done (tt, g_sessions_mutex (fun _ => sessions_mutex w) w')).
  { intros w' Hw'. destruct lock; cbn [whenM orb] in *; [rewrite sessions_unlock_run by done; by rewrite Hm|]. destruct w'. cbn in *. by subst. }
  set (w6 := g_cleanups _ _). run (Hun w6 eq_refl). set (w7 := g_sessions_mutex _ w6).
  run (get_session_run s v5 w7 Hv5). change (source v5) with (source v). rewrite Hsrc.
  assert (Hv5' : v5 = s_ice_handles (fun _ => tbl) (s_destroy (fun _ => true) v)).
  { destruct v. cbn in Hmu. by subst. }
  unfold mret, M_ret. do 2 f_equal. apply gworld_ext; try reflexivity.
  change (heap w7) with (<[s := v5]> (<[s := v4]> (<[s := v3]> (<[s := v1]> (heap w))))). rewrite Hv5', !insert_insert_eq. done.
Qed.

Lemma expire_run `{!DestroyLaws X D J} `{!GatewayCoreLaws X D J} s v w :
  can_retire s v w ->
  exists tbl j lg, expire_session (session_id v) s w = Done (tt, retired s v tbl j lg w) /\ later (jw w) j.
Proof.
  intros Hc. destruct (schedule_run s v false false false w Hc) as (tbl & j & Hr & Hj); [done|].
  unfold expire_session. run Hr. set (w1 := g_jw _ _). set (v1 := s_ice_handles _ _) in w1.
  assert (Hv1 : heap w1 !! s = Some v1) by apply lookup_insert_eq. run (get_session_run s v1 w1 Hv1).
  change (source v1) with (source v). destruct Hc as (_ & _ & _ & -> & _). run eq_refl. run eq_refl.
  change (session_id v1) with (session_id v).
  exists tbl, j, (if janus_events_is_enabled (core_of w1) then SessionTimeout (session_id v) :: glog w else glog w).
  split; [|done]. destruct (janus_events_is_enabled _); cbn [whenM]; (run eq_refl; run eq_refl; unfold modify; do 2 f_equal;
    apply gworld_ext; try reflexivity; apply insert_insert_eq).
Qed.

(** ** One tick of the watchdog *)

(** What a tick makes of the session [s] with value [v]: nothing unless it has been idle for
    [session_timeout] when its turn comes; then it is marked, or if it was marked already it
    is retired, with a timer to free it. *)
Definition ticked (limit : Z) (j1 : jworld X J) (s : loc) (v : janus_session) w' : Prop :=
  exists now, (clock j1 <= now <= clock (jw w'))%Z /\
    if (limit * 1000000 <=? now - last_activity v)%Z then
      if timeout v then
        (exists tbl, heap w' !! s = Some (s_ice_handles (fun _ => tbl) (s_destroy (fun _ => true) v))) /\
        sessions w' !! session_id v = None /\ old_sessions w' !! session_id v = Some s /\ s ∈ cleanups w'
      else heap w' !! s = Some (s_timeout (fun _ => true) v) /\ sessions w' !! session_id v = Some s
    else heap w' !! s = Some v /\ sessions w' !! session_id v = Some s.

(** Nothing but what belongs to the sessions of [l] has changed. *)
Record only_these (l : list (Z * loc)) w w' : Prop := OnlyThese {
  only_heap : forall s, s ∉ l.*2 -> heap w' !! s = heap w !! s;
  only_sessions : forall k, k ∉ l.*1 -> sessions w' !! k = sessions w !! k;
  only_old : forall k, k ∉ l.*1 -> old_sessions w' !! k = old_sessions w !! k;
  only_timers : forall s, s ∈ cleanups w -> s ∈ cleanups w';
  only_later : later (jw w) (jw w');
  only_rest : sessions_mutex w' = sessions_mutex w /\ session_timeout w' = session_timeout w
}.

Lemma only_refl l w : only_these l w w.
Proof. by split. Qed.
Lemma only_cons k s l w w1 w2 :
  only_these [(k, s)] w w1 -> only_these l w1 w2 -> only_these ((k, s) :: l) w w2.
Proof.
  intros [Hh1 Hs1 Ho1 Ht1 Hl1 [Hm1 Hn1]] [Hh2 Hs2 Ho2 Ht2 Hl2 [Hm2 Hn2]].
  split; [..|by etransitivity|split; congruence]; cbn in *.
  - intros s' Hs'. rewrite Hh2, Hh1; [done| |]; set_solver.
  - intros k' Hk'. rewrite Hs2, Hs1; [done| |]; set_solver.
  - intros k' Hk'. rewrite Ho2, Ho1; [done| |]; set_solver.
  - auto.
Qed.

(** The walk's turn for one session. *)
Lemma check_one `{!DestroyLaws X D J} `{!GatewayCoreLaws X D J} s v l w :
  can_retire s v w -> sessions w !! session_id v = Some s ->
  exists w1, check_all ((session_id v, s) :: l) w = check_all l w1 /\ only_these [(session_id v, s)] w w1 /\
    ticked (session_timeout w) (jw w) s v w1.
Proof.
  intros Hc Hs. pose proof Hc as (Hv & Hd & _). cbn [check_all]. run (get_session_run s v w Hv). rewrite Hd.
  rewrite bind_assoc. run eq_refl. rewrite bind_assoc. run eq_refl. unfold ticked.
  set (now := janus_get_monotonic_time (core_of w)).
  destruct (session_timeout w * 1000000 <=? now - last_activity v)%Z eqn:Hlim; [destruct (timeout v)|].
  - destruct (expire_run s v w Hc) as (tbl & j & lg & Hr & Hj). run Hr. eexists. split; [done|]. split.
    + split; cbn; [| | | |done|done].
      * intros s' Hs'. rewrite lookup_insert_ne; [done|set_solver].
      * intros k' Hk'. rewrite lookup_delete_ne; [done|set_solver].
      * intros k' Hk'. rewrite lookup_insert_ne; [done|set_solver].
      * intros s' Hs'. apply elem_of_app. by left.
    + exists now. split; [split; [done|apply Hj]|]. rewrite Hlim. split_and!.
      * exists tbl. apply lookup_insert_eq.
      * apply lookup_delete_eq.
      * apply lookup_insert_eq.
      * cbn. apply elem_of_app. right. by left.
  - run (update_session_run s _ v w Hv). eexists. split; [done|]. split.
    + split; cbn; try done. intros s' Hs'. rewrite lookup_insert_ne; [done|set_solver].
    + exists now. split; [split; [done|]; by unfold now, clock, core_of|]. rewrite Hlim. split; [apply lookup_insert_eq|done].
  - run eq_refl. exists w. split; [done|]. split; [apply only_refl|].
    exists now. split; [split; [done|]; by unfold now, clock, core_of|]. by rewrite Hlim.
Qed.

Lemma ticked_weaken limit j0 j1 s v l w1 w2 :
  ticked limit j1 s v w1 -> (clock j0 <= clock j1)%Z -> only_these l w1 w2 -> s ∉ l.*2 -> session_id v ∉ l.*1 ->
  ticked limit j0 s v w2.
Proof.
  intros (now & Hnow & Ht) Hj [Hh Hs Ho Htm Hl _] Hsl Hkl. exists now. split; [destruct Hl; lia|].
  rewrite (Hh s Hsl), (Hs _ Hkl), (Ho _ Hkl). destruct (_ <=? _)%Z; [|done]. destruct (timeout v); [|done]. naive_solver.
Qed.

Lemma can_retire_later s v l w w1 : can_retire s v w -> only_these l w w1 -> s ∉ l.*2 -> can_retire s v w1.
Proof.
  intros (Hv & Hd & Hm & Hsrc & Hh) Ho Hs. unfold can_retire. rewrite (only_heap _ _ _ Ho s Hs). split_and!; try done.
  intros t k h Ht Hk. by eapply (only_later _ _ _ Ho), Hh.
Qed.

Lemma check_all_run `{!DestroyLaws X D J} `{!GatewayCoreLaws X D J} l w :
  NoDup l.*1 -> NoDup l.*2 ->
  (forall k s, (k, s) ∈ l -> exists v, can_retire s v w /\ session_id v = k /\ sessions w !! k = Some s) ->
  exists w', check_all l w = Done (tt, w') /\ only_these l w w' /\
    forall k s v, (k, s) ∈ l -> heap w !! s = Some v -> ticked (session_timeout w) (jw w) s v w'.
Proof.
  revert w. induction l as [|[k s] l IH]; intros w Hn1 Hn2 Hl.
  { exists w. split_and!; [done|apply only_refl|]. by intros k s v ?%elem_of_nil. }
  cbn in Hn1, Hn2. apply NoDup_cons in Hn1 as [Hk Hn1], Hn2 as [Hs Hn2].
  destruct (Hl k s) as (v & Hc & <- & Hsess); [by left|].
  destruct (check_one s v l w Hc Hsess) as (w1 & Hr1 & Ho1 & Ht1).
  assert (Hin : forall k' s', (k', s') ∈ l -> k' ∈ l.*1 /\ s' ∈ l.*2).
  { intros k' s' Hks. split; apply list_elem_of_fmap; by exists (k', s'). }
  destruct (IH w1) as (w' & Hr & Ho & Ht); [done|done| |].
  { intros k' s' Hks. destruct (Hl k' s') as (v' & Hc' & Hk' & Hs'); [by right|]. destruct (Hin _ _ Hks) as [Hink Hins].
    exists v'. split_and!; [|done|].
    - eapply can_retire_later; [done|done|]. cbn. intros ->%list_elem_of_singleton. done.
    - rewrite (only_sessions _ _ _ Ho1); [done|]. cbn. intros ->%list_elem_of_singleton. done. }
  exists w'. split_and!; [by rewrite Hr1|by eapply only_cons|].
  intros k' s' v' [[= -> ->]|Hks]%elem_of_cons Hv'.
  - destruct Hc as [Hv _]. rewrite Hv in Hv'. injection Hv' as <-. by eapply ticked_weaken.
  - destruct (Hin _ _ Hks) as [Hink Hins].
    assert (Hne : s' <> s) by (by intros ->). destruct (only_rest _ _ _ Ho1) as [_ Hlim]. rewrite <- Hlim.
    destruct (Ht k' s' v' Hks) as (now & Hnow & Htick).
    { rewrite (only_heap _ _ _ Ho1); [done|]. cbn. by intros ->%list_elem_of_singleton. }
    exists now. split; [|done]. destruct (only_later _ _ _ Ho1). lia.
Qed.

(** Every session of the table could be destroyed: no handler is at work on it. *)
Definition quiet w : Prop :=
  forall k s v, sessions w !! k = Some s -> heap w !! s = Some v -> can_retire s v w.

Lemma tick_run `{!DestroyLaws X D J} `{!GatewayCoreLaws X D J} w :
  gok w -> quiet w -> (1 <= session_timeout w)%Z ->
  exists w', janus_check_sessions w = Done (true, w') /\
    (forall s, (forall k, sessions w !! k <> Some s) -> heap w' !! s = heap w !! s) /\
    (forall k, sessions w !! k = None -> sessions w' !! k = None) /\ later (jw w) (jw w') /\
    session_timeout w' = session_timeout w /\
    forall k s v, sessions w !! k = Some s -> heap w !! s = Some v -> ticked (session_timeout w) (jw w) s v w'.
Proof.
  intros [(_ & Hm & _) Hok] Hq Hlim. unfold janus_check_sessions. run eq_refl.
  destruct (Z.ltb_spec (session_timeout w) 1); [lia|]. run (sessions_lock_run w Hm). set (w1 := g_sessions_mutex _ w).
  run eq_refl. change (sessions w1) with (sessions w).
  destruct (iter_pairs (sessions w)) as [Hnd Hin]. set (l := g_hash_table_iter (sessions w)) in *.
  assert (Hall : forall k s, (k, s) ∈ l -> exists v, can_retire s v w /\ session_id v = k /\ sessions w !! k = Some s).
  { intros k s Hks%Hin. pose proof (proj2 (ok_sessions _ Hok s k) Hks) as Hid. apply gok_heap in Hid as (v & Hv & Hk & _).
    exists v. split_and!; [by eapply Hq|done|done]. }
  assert (Hnd2 : NoDup l.*2).
  { apply NoDup_fmap_2_strong; [|by eapply NoDup_fmap_1]. intros [k1 s1] [k2 s2] Hx%Hin Hy%Hin. cbn. intros <-.
    apply Hok in Hx, Hy. rewrite Hx in Hy. by injection Hy as <-. }
  assert (Hnotin : forall s, (forall k, sessions w !! k <> Some s) -> s ∉ l.*2).
  { intros s Hs ([k s'] & -> & Hks%Hin)%list_elem_of_fmap. by eapply Hs. }
  assert (Hnotk : forall k, sessions w !! k = None -> k ∉ l.*1).
  { intros k Hk ([k' s'] & -> & Hks%Hin)%list_elem_of_fmap. cbn in Hk. congruence. }
  destruct (check_all_run l w1) as (w2 & Hr & Ho & Ht); [done|done|exact Hall|]. run Hr.
  assert (Hm2 : sessions_mutex w2 = true) by (by destruct (only_rest _ _ _ Ho) as [-> _]). run (sessions_unlock_run w2 Hm2).
  exists (g_sessions_mutex (fun _ => false) w2). split_and!; [done| | | |by apply (only_rest _ _ _ Ho)|].
  - intros s Hs. apply (only_heap _ _ _ Ho), Hnotin, Hs.
  - intros k Hk. cbn. rewrite (only_sessions _ _ _ Ho); [done|]. by apply Hnotk.
  - apply (only_later _ _ _ Ho).
  - intros k s v Hks Hv. by apply (Ht k s v); [apply Hin|].
Qed.

Lemma tick_ok `{!GatewayCoreLaws X D J} w w' : gok w -> janus_check_sessions w = Done (true, w') -> gok w'.
Proof.
  intros [Hw Hok] Hr. apply (check_triple _ Hok _ _ _ Hw) in Hr as (d' & Hd' & Hw'). eapply gok_at; [done|].
  by eapply retires_ok.
Qed.

Lemma ticked_cases limit j1 s v w' :
  ticked limit j1 s v w' -> sessions w' !! session_id v = Some s ->
  exists b, heap w' !! s = Some (s_timeout (fun _ => b) v).
Proof.
  intros (now & _ & Ht) Hs. destruct (_ <=? _)%Z.
  - destruct (timeout v); [|exists true; apply Ht]. destruct Ht as (_ & Hn & _). congruence.
  - exists (timeout v). destruct Ht as [-> _]. by destruct v.
Qed.

Lemma tick_quiet w w' :
  gok w -> quiet w -> (forall k, sessions w !! k = None -> sessions w' !! k = None) -> later (jw w) (jw w') ->
  (forall k s v, sessions w !! k = Some s -> heap w !! s = Some v -> ticked (session_timeout w) (jw w) s v w') -> quiet w'.
Proof.
  intros [_ Hok] Hq Hnone Hj Ht k s v' Hk Hv'. destruct (sessions w !! k) as [s1|] eqn:Hk1; [|by rewrite Hnone in Hk].
  pose proof (proj2 (ok_sessions _ Hok s1 k) Hk1) as Hid. apply gok_heap in Hid as (v & Hv & <- & _).
  pose proof (Ht _ _ _ Hk1 Hv) as Hticked. assert (s1 = s) as ->.
  { destruct Hticked as (now & _ & Hc). destruct (_ <=? _)%Z; [destruct (timeout v)|]; destruct Hc as [_ Hc];
      [destruct Hc|..]; congruence. }
  destruct (ticked_cases _ _ _ _ _ Hticked Hk) as [b Hb]. rewrite Hb in Hv'. injection Hv' as <-.
  destruct (Hq _ _ _ Hk1 Hv) as (_ & Hd & Hm & Hsrc & Hh). split_and!; try done.
  intros t k' h Htbl Hk'. by eapply Hj, Hh.
Qed.

(** ** Theorems *)

(** A timer that goes off finds its session: still there, marked as destroyed, under its
    number among the old ones; if the session's mutex is free it is freed, and the timer, the
    session's place among the old ones and its memory go, nothing else. *)
Theorem cleanup_frees i s w :
  gok w -> cleanups w !! i = Some s ->
  exists v, heap w !! s = Some v /\ destroy v = true /\ old_sessions w !! session_id v = Some s /\
    (mutex v = false ->
     fire_cleanup i w = Done (tt, g_cleanups (delete i) (g_heap (delete s) (g_old_sessions (delete (session_id v)) w)))).
Proof. apply fire_cleanup_run. Qed.

(** A tick of the watchdog, while no handler is at work: of every session in the table it
    makes what its idle time asks for, and no other session is touched: below the timeout
    nothing; at the first tick behind it, the session is marked; at the second, it moves to
    the old ones, its handles are destroyed and a timer waits to free it. *)
Theorem watchdog_tick `{!DestroyLaws X D J} `{!GatewayCoreLaws X D J} w :
  gok w -> quiet w -> (1 <= session_timeout w)%Z ->
  exists w', janus_check_sessions w = Done (true, w') /\
    (forall s, (forall k, sessions w !! k <> Some s) -> heap w' !! s = heap w !! s) /\
    forall k s v, sessions w !! k = Some s -> heap w !! s = Some v -> ticked (session_timeout w) (jw w) s v w'.
Proof. intros Hok Hq Hlim. destruct (tick_run w Hok Hq Hlim) as (w' & Hr & Hh & _ & _ & _ & Ht). by exists w'. Qed.

(** A session nobody uses is freed: two ticks behind its timeout and its timer, and nothing is
    left of it. *)
Theorem idle_session_freed `{!DestroyLaws X D J} `{!GatewayCoreLaws X D J} k s v w :
  gok w -> quiet w -> (1 <= session_timeout w)%Z -> sessions w !! k = Some s -> heap w !! s = Some v ->
  (session_timeout w * 1000000 <= clock (jw w) - last_activity v)%Z -> timeout v = false ->
  exists w1 w2 w3 i, janus_check_sessions w = Done (true, w1) /\ janus_check_sessions w1 = Done (true, w2) /\
    fire_cleanup i w2 = Done (tt, w3) /\
    heap w3 !! s = None /\ sessions w3 !! k = None /\ old_sessions w3 !! k = None.
Proof.
  intros Hok Hq Hlim Hk Hv Hidle Hto.
  destruct (tick_run w Hok Hq Hlim) as (w1 & Hr1 & _ & Hn1 & Hj1 & Hl1 & Ht1).
  pose proof (tick_ok w w1 Hok Hr1) as Hok1. pose proof (tick_quiet w w1 Hok Hq Hn1 Hj1 Ht1) as Hq1.
  pose proof (Hq _ _ _ Hk Hv) as (_ & _ & Hmu & _).
  assert (Hid : session_id v = k).
  { destruct Hok as [_ Hok]. apply Hok in Hk. rewrite (heap_ids s v w Hv) in Hk. by injection Hk. }
  destruct (Ht1 _ _ _ Hk Hv) as (now1 & Hnow1 & Htick1). rewrite Hto in Htick1.
  destruct (Z.leb_spec (session_timeout w * 1000000) (now1 - last_activity v)); [|lia]. destruct Htick1 as [Hv1 Hk1].
  rewrite Hid in Hk1. rewrite <- Hl1 in Hlim.
  destruct (tick_run w1 Hok1 Hq1 Hlim) as (w2 & Hr2 & _ & _ & _ & _ & Ht2).
  pose proof (tick_ok w1 w2 Hok1 Hr2) as Hok2. destruct (Ht2 _ _ _ Hk1 Hv1) as (now2 & Hnow2 & Htick2).
  cbn [timeout last_activity s_timeout session_id] in Htick2. rewrite Hl1 in Htick2. destruct Hj1 as [Hc1 _].
  destruct (Z.leb_spec (session_timeout w * 1000000) (now2 - last_activity v)); [|lia].
  destruct Htick2 as ([tbl Hv2] & Hs2 & Ho2 & Htm2). apply list_elem_of_lookup in Htm2 as [i Hi].
  destruct (fire_cleanup_run i s w2 Hok2 Hi) as (v2 & Hv2' & _ & _ & Hfire). rewrite Hv2 in Hv2'. injection Hv2' as <-.
  specialize (Hfire Hmu). exists w1, w2. eexists _, i. split_and!; [done|done|exact Hfire|..]; cbn.
  - apply lookup_delete_eq.
  - by rewrite <- Hid.
  - rewrite Hid. apply lookup_delete_eq.
Qed.
End Facts.

(** ** Witnesses *)

Section Witnesses.
Import GwConcrete.
Local Open Scope Z_scope.

#[local] Instance c_destroy_laws : DestroyLaws Z string json.
Proof. split; [intros *; cbn; lia|done]. Qed.

Definition w_idle : gworld Z json := c_world 60000000 c_session None.
Lemma w_idle_quiet : quiet w_idle.
Proof.
  intros k s v. cbn. rewrite !lookup_singleton_Some. intros [<- <-] [_ <-]. by split_and!.
Qed.

(** Draws are 0, then 5, which is taken, then 6. *)
Lemma draw_ends_witness :
  exists w', draw_session_id 3 (c_world 0 c_session None) = Done (6, w') /\
    sessions w' = sessions (c_world 0 c_session None) /\ heap w' = heap (c_world 0 c_session None).
Proof.
  apply (draw_ends 3 0 6 (c_world 0 c_session None)); try reflexivity.
  - exists [0; 5]. split; [reflexivity|]. repeat constructor; [by intros [[]]|by intros [_ [=]]].
  - by split.
Defined.

Lemma watchdog_tick_witness :
  exists w', janus_check_sessions w_idle = Done (true, w') /\ ticked 60 (jw w_idle) 1 c_session w'.
Proof.
  destruct (watchdog_tick w_idle) as (w' & Hr & _ & Ht).
  - by apply c_world_ok.
  - apply w_idle_quiet.
  - done.
  - exists w'. split; [exact Hr|]. by apply (Ht 5 1%nat c_session).
Defined.

Lemma idle_session_freed_witness :
  exists w1 w2 w3 i, janus_check_sessions w_idle = Done (true, w1) /\ janus_check_sessions w1 = Done (true, w2) /\
    fire_cleanup i w2 = Done (tt, w3) /\ heap w3 !! 1%nat = None /\ sessions w3 !! 5 = None /\ old_sessions w3 !! 5 = None.
Proof.
  apply (idle_session_freed 5 1%nat c_session w_idle); try done.
  - by apply c_world_ok.
  - apply w_idle_quiet.
Defined.

(** The session destroyed, its timer waiting. *)
Definition w_old : gworld Z json :=
  g_heap (fun _ => {[1%nat := s_destroy (fun _ => true) c_session]}) (g_sessions (fun _ => ∅)
    (g_old_sessions (fun _ => {[5 := 1%nat]}) (g_cleanups (fun _ => [1%nat]) (c_world 0 c_session None)))).

Lemma cleanup_frees_witness : exists v, heap w_old !! 1%nat = Some v /\ destroy v = true /\ mutex v = false.
Proof.
  destruct (cleanup_frees 0 1%nat w_old) as (v & Hv & Hd & _).
  - split.
    + split_and!; [done|done|]. intros s' [x Hx]. cbn in Hx |- *. rewrite map_fmap_singleton in Hx.
      apply lookup_singleton_Some in Hx as [<- _]. lia.
    + split; cbn; rewrite ?map_fmap_singleton.
      * intros s' k. rewrite lookup_singleton_Some, lookup_empty. naive_solver.
      * intros s' k. rewrite !lookup_singleton_Some. cbn. naive_solver.
      * intros k. by left.
      * apply NoDup_singleton.
      * intros s'. rewrite list_elem_of_singleton. split.
        -- intros ->. exists 5. apply lookup_singleton_eq.
        -- by intros [k [<- _]%lookup_singleton_Some].
  - done.
  - exists v. split_and!; [done|done|]. cbn in Hv. apply lookup_singleton_Some in Hv as [_ <-]. done.
Defined.
End Witnesses.
End Watchdog.
