(* ===== verification/Messages.v ===== *)
(** * Messages of the WebRTC gateway (websocket_10/src/websocket_10.c, helper.c)

    Theorems about the handlers of [Gateway]: the tables of sessions over every sequence of
    steps, the messages "attach" and "janus", and what the clients get of a plugin's events. *)

From S2P Require Import Prelude Jansson KoreNet WebsocketFrame Janus HandleSdp Gateway Watchdog.

Local Open Scope c_scope.

Module Messages.
Import Janus Sdp Gw Watchdog.

Section Theorems.
Context {X D J B : Type} `{JanusCore X D J} `{SdpCore X D J} `{GatewayCore X D J} `{Jansson J} `{KoreBuf B} `{KoreNet}.
Implicit Types (w : gworld X J).

(** ** The tables *)

(** The server, started in [w0], has come to [w]. *)
Definition runs_to w0 w : Prop := started w0 /\ rtc (gstep (B := B)) w0 w.

(** The extra data of every websocket is there. *)
Definition extras_there w : Prop := forall c r, (c, true) ∈ connections w -> hdlr_extra w !! c = Some r -> is_Some (exs w !! r).



(** ** A message, up to its type *)

(** The session of a message is known: its time is noted. *)
Definition touched (s : loc) (v : janus_session) w : gworld X J :=
  g_heap <[s := s_last_activity (fun _ => janus_get_monotonic_time (core_of w)) v]> (g_jw (w_root_refs (fun _ => 1%Z)) w).

(** The connection [c] has extra data [r], the text is JSON and names the session [s]. *)
Definition names (c r : loc) (e : ex) (data : string) (root : J) (s : loc) (v : janus_session) w : Prop :=
  hdlr_extra w !! c = Some r /\ exs w !! r = Some e /\ json_loads data = Some root /\ sessions_mutex w = false /\
  sessions w !! get_uint64 root "session_id" = Some s /\ heap w !! s = Some v.

Lemma message_run fuel sctp c op data r e root s v w :
  names c r e data root s v w ->
  websocket_message fuel sctp c op (Some data) w =
  (handle ← find_handle s (get_uint64 root "handle_id");
   t_txt ← deref (json_object_get root "type" ≫= json_string_value);
   send_to_clients ← dispatch fuel sctp c s r (get_uint64 root "session_id") (get_uint64 root "handle_id") handle root t_txt;
   match send_to_clients with
   | None => mret tt
   | Some answered => (if! negb answered then log (Echo c op data));; lift root_decref
   end) (touched s v w).
Proof.
  intros (Hc & Hr & Hl & Hm & Hs & Hv). unfold websocket_message. run eq_refl. rewrite Hc. run eq_refl. run eq_refl.
  rewrite Hr. run eq_refl. rewrite Hl. run eq_refl. unfold on_request. set (w1 := g_jw _ w).
  run (find_run (get_uint64 root "session_id") w1 Hm). change (sessions w1) with (sessions w). rewrite Hs. run eq_refl.
  run (update_session_run s _ v w1 Hv). done.
Qed.

Lemma touched_session s v w : heap (touched s v w) !! s =
  Some (s_last_activity (fun _ => janus_get_monotonic_time (core_of w)) v).
Proof. apply lookup_insert_eq. Qed.

Lemma no_handle_run s w : find_handle s 0 w = Done (None, w).
Proof. done. Qed.

(** A request without a type, or with one that is not a string, ends the server: strcmp of a
    null pointer. *)
Theorem untyped_message_crashes fuel sctp c op data r e root s v w :
  names c r e data root s v w -> get_uint64 root "handle_id" = 0%Z ->
  json_object_get root "type" ≫= json_string_value = None ->
  websocket_message fuel sctp c op (Some data) w = Crash NullDeref.
Proof.
  intros Hn Hh Ht. rewrite (message_run _ _ _ _ _ _ _ _ _ _ _ Hn), Hh, Ht. by run (no_handle_run s (touched s v w)).
Qed.

Lemma root_decref_last (j : jworld X J) : (root_refs j <= 0)%Z -> root_decref j = Crash UseAfterFree.
Proof. intros Hrf. unfold root_decref. run eq_refl. by destruct (Z.leb_spec (root_refs j) 0); [|lia]. Qed.

Lemma root_decref_one (j : jworld X J) : root_refs j = 1%Z -> root_decref j = Done (tt, w_root_refs (fun n => n - 1)%Z j).
Proof. intros Hrf. unfold root_decref. run eq_refl. by rewrite Hrf. Qed.

(** The answer to an error gives the request back, whether or not it can be printed. *)
Lemma process_e_gives_back cl grund (j : jworld X J) :
  root_refs j = 1%Z -> exists j', janus_process_e cl grund j = Done (tt, j') /\ root_refs j' = 0%Z.
Proof.
  intros Hrf. unfold janus_process_e, send_reply. destruct (json_dumps (error_reply grund)).
  - rewrite bind_assoc. run eq_refl. run eq_refl.
    rewrite (root_decref_one (w_sent (cons (cl, error_reply grund)) j)) by done.
    eexists. split; [done|]. cbn. by rewrite Hrf.
  - rewrite bind_assoc. run (root_decref_one j Hrf). eexists. split; [done|]. cbn. by rewrite Hrf.
Qed.

(** A "janus" message that is answered with an error is freed twice: by the answer, and by
    the handler of the websocket when it returns.  Here the one without a handle. *)
Theorem error_answer_frees_twice fuel sctp c op data r e root s v w :
  names c r e data root s v w -> get_uint64 root "handle_id" = 0%Z ->
  json_object_get root "type" ≫= json_string_value = Some "janus" ->
  websocket_message fuel sctp c op (Some data) w = Crash UseAfterFree.
Proof.
  intros Hn Hh Ht. rewrite (message_run _ _ _ _ _ _ _ _ _ _ _ Hn), Hh, Ht. run (no_handle_run s (touched s v w)).
  run eq_refl. unfold dispatch. cbn [String.eqb Ascii.eqb Bool.eqb orb]. rewrite bind_assoc.
  run (get_session_run s _ (touched s v w) (touched_session s v w)). rewrite bind_assoc. unfold incoming_message.
  destruct (process_e_gives_back c "Unhandled request at this path. Hndle is null." (jw (touched s v w))) as (j & Hr & Hj); [done|].
  assert (Hlift : lift (janus_process_e c "Unhandled request at this path. Hndle is null.") (touched s v w) =
    Done (tt, g_jw (fun _ => j) (touched s v w))) by (unfold lift; by rewrite Hr).
  run Hlift. run eq_refl. cbn [negb whenM]. run eq_refl. unfold lift. rewrite root_decref_last; [done|]. cbn. lia.
Qed.

(** ** Attaching a plugin *)

Lemma attach_start fuel sctp c op data r e root s v w h tbl hs x hv :
  names c r e data root s v w -> get_uint64 root "handle_id" = 0%Z ->
  json_object_get root "type" ≫= json_string_value = Some "attach" -> mutex v = false ->
  janus_ice_handle_create s (ice_handles v) (handles (jw w)) (core (jw w)) = (Some h, (tbl, hs, x)) -> hs !! h = Some hv ->
  exists w1, websocket_message fuel sctp c op (Some data) w =
    (send_to_clients ← (plugin_t ← janus_plugin_find "janus.plugin.echotest";
       match plugin_t with
       | None => drop_request
       | Some plugin_t =>
           error ← ice_handle_attach_plugin s (handle_id hv) plugin_t;
           if negb (error =? 0)%Z then
             ice_handle_destroy s (handle_id hv);; remove_handle s (handle_id hv);; session_unlock s;; drop_request
           else session_unlock s;; ws_reply c (attach_reply (get_uint64 root "session_id") (handle_id hv));; mret (Some true)
       end);
     match send_to_clients with
     | None => mret tt
     | Some answered => (if! negb answered then log (Echo c op data));; lift root_decref
     end) w1 /\
    heap w1 = <[s := s_ice_handles (fun _ => tbl) (s_mutex (fun _ => true)
                       (s_last_activity (fun _ => janus_get_monotonic_time (core_of w)) v))]> (heap w) /\
    exs w1 = <[r := e_sender_id (fun _ => handle_id hv) e]> (exs w) /\ plugins w1 = plugins w /\
    sessions w1 = sessions w /\ sessions_mutex w1 = false /\ hdlr_extra w1 = hdlr_extra w /\ connections w1 = connections w /\
    glog w1 = glog w /\ jw w1 = w_core (fun _ => x) (w_handles (fun _ => hs) (w_root_refs (fun _ => 1%Z) (jw w))).
Proof.
  intros Hn Hh Ht Hm Hcr Hhv. rewrite (message_run _ _ _ _ _ _ _ _ _ _ _ Hn), Hh, Ht.
  destruct Hn as (Hc & Hr & _ & Hmm & _ & Hv). run (no_handle_run s (touched s v w)). run eq_refl.
  unfold dispatch. cbn [String.eqb Ascii.eqb Bool.eqb orb]. unfold on_attach. rewrite bind_assoc.
  set (w0 := touched s v w). set (v0 := s_last_activity (fun _ => janus_get_monotonic_time (core_of w)) v).
  assert (Hv0 : heap w0 !! s = Some v0) by apply touched_session. run (session_lock_run s v0 w0 Hv0 Hm).
  set (v1 := s_mutex _ v0). set (w1 := g_heap _ w0). assert (Hv1 : heap w1 !! s = Some v1) by apply lookup_insert_eq.
  unfold ice_handle_create. rewrite !bind_assoc. run (get_session_run s v1 w1 Hv1). rewrite !bind_assoc. run eq_refl.
  change (janus_ice_handle_create s (ice_handles v1) (handles (jw w1)) (core (jw w1)))
    with (janus_ice_handle_create s (ice_handles v) (handles (jw w)) (core (jw w))). rewrite Hcr.
  rewrite !bind_assoc. run eq_refl. set (w2 := g_jw _ w1). assert (Hv2 : heap w2 !! s = Some v1) by done.
  rewrite !bind_assoc. run (update_session_run s (s_ice_handles (fun _ => tbl)) v1 w2 Hv2). run eq_refl.
  set (w3 := g_heap _ w2). assert (Hheap : heap w3 = <[s := s_ice_handles (fun _ => tbl) v1]> (heap w)).
  { change (heap w3) with (<[s := s_ice_handles (fun _ => tbl) v1]> (<[s := v1]> (<[s := v0]> (heap w)))).
    by rewrite !insert_insert_eq. }
  assert (Hget : lift (get_handle h) w3 = Done (hv, w3)).
  { unfold lift. rewrite (get_handle_run h hv (jw w3) Hhv). done. }
  rewrite !bind_assoc. run Hget. rewrite !bind_assoc. run eq_refl. change (exs w3) with (exs w). rewrite Hr.
  rewrite !bind_assoc. run eq_refl. rewrite !bind_assoc. run eq_refl. eexists. split; [rewrite bind_assoc; reflexivity|].
  by split_and!.
Qed.

(** An "attach" gets a handle and, with the plugin there and willing, one reply with the
    handle's number; the connection's [sender_id] becomes that number, the session's mutex is
    free again and the request is given back once. *)
Theorem attach_binds `{!PrintableReplies J} fuel sctp c op data r e root s v w h tbl hs x hv p hs2 x2 :
  names c r e data root s v w -> get_uint64 root "handle_id" = 0%Z ->
  json_object_get root "type" ≫= json_string_value = Some "attach" -> mutex v = false ->
  janus_ice_handle_create s (ice_handles v) (handles (jw w)) (core (jw w)) = (Some h, (tbl, hs, x)) -> hs !! h = Some hv ->
  plugins w ≫= lookup "janus.plugin.echotest" = Some p ->
  janus_ice_handle_attach_plugin s tbl (handle_id hv) p hs x = (0%Z, (hs2, x2)) ->
  exists w' v', websocket_message fuel sctp c op (Some data) w = Done (tt, w') /\
    exs w' !! r = Some (e_sender_id (fun _ => handle_id hv) e) /\
    heap w' !! s = Some v' /\ mutex v' = false /\ ice_handles v' = tbl /\ session_id v' = session_id v /\
    sent (jw w') = (c, attach_reply (get_uint64 root "session_id") (handle_id hv)) :: sent (jw w) /\
    root_refs (jw w') = 0%Z /\ connections w' = connections w /\ hdlr_extra w' = hdlr_extra w /\ glog w' = glog w.
Proof.
  intros Hn Hh Ht Hm Hcr Hhv Hp Hat.
  destruct (attach_start fuel sctp c op data r e root s v w h tbl hs x hv Hn Hh Ht Hm Hcr Hhv)
    as (w1 & -> & Hheap & Hexs & Hpl & _ & _ & Hex & Hco & Hlg & Hjw).
  unfold janus_plugin_find. rewrite !bind_assoc. run eq_refl. rewrite Hpl, Hp. run eq_refl.
  set (v1 := s_ice_handles _ _) in Hheap. assert (Hv1 : heap w1 !! s = Some v1) by (rewrite Hheap; apply lookup_insert_eq).
  unfold ice_handle_attach_plugin. rewrite !bind_assoc. run (get_session_run s v1 w1 Hv1). rewrite !bind_assoc. run eq_refl.
  change (ice_handles v1) with tbl. rewrite Hjw. cbn [handles core w_core w_handles w_root_refs]. rewrite Hat.
  rewrite !bind_assoc. run eq_refl. run eq_refl. cbn [Z.eqb negb]. rewrite !bind_assoc. set (w2 := g_jw _ w1).
  run (session_unlock_run s v1 w2 Hv1 eq_refl). set (v2 := s_mutex _ v1). set (w3 := g_heap _ w2).
  unfold ws_reply, attach_reply. destruct (json_dumps _) eqn:Hd; [|by apply object_printable in Hd].
  rewrite bind_assoc. run eq_refl. run eq_refl. cbn [negb whenM]. run eq_refl. unfold lift.
  rewrite root_decref_one by (cbn; by rewrite Hjw).
  eexists _, v2. split; [reflexivity|]. cbn. rewrite Hexs, Hjw. cbn. split_and!; try done; apply lookup_insert_eq.
Qed.

(** When the plugin is not there, "attach" returns with the session's mutex held and without
    a reply: the next message that names a handle of the session waits for ever. *)
Theorem attach_without_plugin_blocks fuel sctp c op data r e root s v w h tbl hs x hv data2 root2 :
  names c r e data root s v w -> get_uint64 root "handle_id" = 0%Z ->
  json_object_get root "type" ≫= json_string_value = Some "attach" -> mutex v = false ->
  janus_ice_handle_create s (ice_handles v) (handles (jw w)) (core (jw w)) = (Some h, (tbl, hs, x)) -> hs !! h = Some hv ->
  plugins w ≫= lookup "janus.plugin.echotest" = None ->
  json_loads data2 = Some root2 -> get_uint64 root2 "session_id" = get_uint64 root "session_id" ->
  get_uint64 root2 "handle_id" <> 0%Z ->
  exists w', websocket_message fuel sctp c op (Some data) w = Done (tt, w') /\ sent (jw w') = sent (jw w) /\
    websocket_message fuel sctp c op (Some data2) w' = Crash LockMisuse.
Proof.
  intros Hn Hh Ht Hm Hcr Hhv Hp Hl2 Hs2 Hh2. pose proof Hn as (Hc & _ & _ & Hmm & Hs & _).
  destruct (attach_start fuel sctp c op data r e root s v w h tbl hs x hv Hn Hh Ht Hm Hcr Hhv)
    as (w1 & -> & Hheap & Hexs & Hpl & Hse & Hmu & Hex & _ & _ & Hjw).
  unfold janus_plugin_find. rewrite !bind_assoc. run eq_refl. rewrite Hpl, Hp. run eq_refl.
  unfold drop_request. rewrite bind_assoc. set (v1 := s_ice_handles _ _) in Hheap.
  assert (Hdec : lift root_decref w1 = Done (tt, g_jw (fun _ => w_root_refs (fun n => n - 1)%Z (jw w1)) w1)).
  { unfold lift. by rewrite root_decref_one by (by rewrite Hjw). }
  run Hdec. run eq_refl. set (w2 := g_jw _ w1). exists w2. split; [done|]. split; [cbn; by rewrite Hjw|].
  assert (Hn2 : names c r (e_sender_id (fun _ => handle_id hv) e) data2 root2 s v1 w2).
  { split_and!; cbn; [by rewrite Hex|rewrite Hexs; apply lookup_insert_eq|done|done|by rewrite Hs2, Hse|].
    rewrite Hheap. apply lookup_insert_eq. }
  rewrite (message_run _ _ _ _ _ _ _ _ _ _ _ Hn2). apply bind_crash. unfold find_handle.
  destruct (Z.eqb_spec (get_uint64 root2 "handle_id") 0); [done|]. apply bind_crash.
  by apply (session_lock_stuck s _ _ (touched_session s v1 w2)).
Qed.

(** ** A plugin's events *)

(** The connection gets the events of the handle [to]. *)
Definition gets_events (to : Z) w (cw : loc * bool) : bool :=
  cw.2 && match hdlr_extra w !! cw.1 ≫= fun r => exs w !! r with Some t => (sender_id t =? to)%Z | None => false end.

Lemma target_send_run to frame conns w :
  (forall c r, (c, true) ∈ conns -> hdlr_extra w !! c = Some r -> is_Some (exs w !! r)) ->
  target_send to frame conns w =
  Done (tt, g_glog (fun l => reverse ((fun cw => Queued cw.1 frame) <$> filter (fun cw => gets_events to w cw = true) conns) ++ l) w).
Proof.
  revert w. induction conns as [|[c websocket] conns IH]; intros w Hx; cbn [target_send]; [by destruct w|].
  assert (Hone : match hdlr_extra w !! c with
      | Some e => if (websocket : bool) then
            es ← gets exs; t ← live (es !! e); if! (sender_id t =? to)%Z then log (Queued c frame)
          else mret tt
      | None => mret tt end w =
    Done (tt, g_glog (fun l => (if gets_events to w (c, websocket) then [Queued c frame] else []) ++ l) w)).
  { unfold gets_events. cbn [fst snd]. destruct (hdlr_extra w !! c) as [r|] eqn:Hr; cbn [mbind option_bind].
    - destruct websocket; cbn [andb]; [|by destruct w]. destruct (Hx c r) as [t Ht]; [by left|done|]. rewrite Ht.
      run eq_refl. rewrite Ht. run eq_refl. destruct (_ =? _)%Z; [done|by destruct w].
    - rewrite andb_false_r. by destruct w. }
  run eq_refl. run Hone. set (w1 := g_glog _ w). rewrite IH.
  - change (gets_events to w1) with (gets_events to w). unfold w1. destruct (gets_events to w (c, websocket)) eqn:Hg.
    + rewrite filter_cons_True by done. rewrite fmap_cons, reverse_cons. do 2 f_equal. apply gworld_ext; try done.
      cbn. by rewrite <- app_assoc.
    + rewrite filter_cons_False by (by rewrite Hg). done.
  - intros c' r Hin Hr. apply (Hx c' r); [by right|done].
Qed.

Lemma broadcast_run glob to op data len scope w :
  extras_there w ->
  kore_websocket_broadcast_target (B := B) glob to op data len scope w =
  Done (tt, g_glog (fun l => (if (scope =? glob)%Z then [AllWorkers (frame_bytes (B := B) op data len)] else []) ++
    reverse ((fun cw => Queued cw.1 (frame_bytes (B := B) op data len)) <$>
             filter (fun cw => gets_events to w cw = true) (connections w)) ++ l) w).
Proof.
  intros Hx. unfold kore_websocket_broadcast_target. run eq_refl. run (target_send_run to _ _ w Hx).
  by destruct (_ =? _)%Z.
Qed.

(** An event of the handle [to] is queued once on every websocket connection that attached
    it, in the order of the connection list, and on no other; with the scope the callers
    pass, 9, no other worker gets it. *)
Theorem event_recipients glob to op data len scope w :
  extras_there w -> scope <> glob ->
  exists w', kore_websocket_broadcast_target (B := B) glob to op data len scope w = Done (tt, w') /\
    glog w' = reverse ((fun cw => Queued cw.1 (frame_bytes (B := B) op data len)) <$>
                       filter (fun cw => gets_events to w cw = true) (connections w)) ++ glog w.
Proof.
  intros Hx Hg. eexists. split; [by apply broadcast_run|]. cbn. by destruct (Z.eqb_spec scope glob).
Qed.

(** The event has its sender, whatever else it has. *)
Lemma plugin_event_sender `{!JanssonLaws J} sid hid t package message jsep :
  json_object_get (plugin_event sid hid t package message jsep) "sender" = Some (json_integer hid).
Proof.
  unfold plugin_event. rewrite json_get_object_law; [done|].
  destruct t, jsep; cbn; repeat constructor; set_solver.
Qed.

Lemma notify_crashes `{!JanssonLaws J} `{!PrintableReplies J} glob s sv sid hid t package message jsep w :
  heap w !! s = Some sv -> destroy sv = false -> event_refs w = 1%Z -> sender_refs w = 1%Z ->
  extras_there w ->
  janus_session_notify_event (B := B) glob (Some s) (plugin_event sid hid t package message jsep) w = Crash UseAfterFree.
Proof.
  intros Hs Hd He Hsr Hx. unfold janus_session_notify_event. run (get_session_run s sv w Hs). rewrite Hd, plugin_event_sender.
  destruct (json_dumps _) as [buf|] eqn:Hp; [|by apply object_printable in Hp].
  rewrite bind_assoc. run (broadcast_run glob (get_uint64 (plugin_event sid hid t package message jsep) "sender")
    WEBSOCKET_OP_TEXT (string_bytes buf) (Z.of_nat (String.length buf)) 9 w Hx).
  set (w1 := g_glog _ w). unfold event_decref, sender_decref. rewrite bind_assoc. run eq_refl.
  change (event_refs w1) with (event_refs w). rewrite He. cbn [Z.leb Z.compare]. rewrite bind_assoc. run eq_refl.
  rewrite bool_decide_true by done. cbn [Z.eqb Pos.eqb andb whenM]. rewrite bind_assoc. run eq_refl.
  cbn [sender_refs g_event_refs]. change (sender_refs w1) with (sender_refs w). rewrite Hsr. cbn [Z.leb Z.compare].
  run eq_refl. run eq_refl. cbn. by rewrite Hsr.
Qed.

(** Every event a plugin pushes for a handle in use ends in a use of freed memory: the event's
    sender is declared [json_auto_t], but it belongs to the event, which is given back
    first. *)
Theorem push_event_uses_freed `{!JanssonLaws J} `{!PrintableReplies J} fuel waits rounds sctp glob ps plugin t message h hv s sv w :
  session_of h ps (core_of w) -> handles (jw w) !! h = Some hv -> WEBRTC_STOP ∉ webrtc_flags hv -> session hv = Some s ->
  heap w !! s = Some sv -> destroy sv = false -> json_is_object message = true ->
  extras_there w ->
  janus_plugin_push_event (B := B) fuel waits rounds sctp glob ps (Some plugin) t (Some message) None w = Crash UseAfterFree.
Proof.
  intros Hps Hh Hstop Hses Hs Hd Hobj Hx. unfold janus_plugin_push_event.
  assert (Hlift : forall A (f : M (jworld X J) A) a, f (jw w) = Done (a, jw w) -> lift f w = Done (a, w)).
  { intros A f a Hf. unfold lift. rewrite Hf. by destruct w. }
  run (Hlift _ _ _ (in_use_run h ps (jw w) Hps)). cbn [negb]. run (Hlift _ _ _ (handle_of_run h ps (jw w) Hps)).
  unfold push_to_handle, flag_set. run (Hlift _ _ _ (is_set_run h WEBRTC_STOP hv (jw w) Hh)).
  rewrite bool_decide_false by done. run (Hlift _ _ _ (get_handle_run h hv (jw w) Hh)). rewrite Hses.
  run (get_session_run s sv w Hs). rewrite Hd, Hobj. cbn [negb mbind option_bind].
  rewrite bool_decide_false by (by intros [? [=]]). cbn [andb]. unfold push_merged. run (get_session_run s sv w Hs).
  run (Hlift _ _ _ (get_handle_run h hv (jw w) Hh)). cbv zeta. run eq_refl. run eq_refl. apply bind_crash.
  by eapply notify_crashes.
Qed.

(** ** Destroying a session *)

(** A "destroy" moves the session from the table to the old ones, with a timer to free it,
    and is answered; both mutexes are free behind it. *)
Theorem destroy_retires `{!DestroyLaws X D J} `{!GatewayCoreLaws X D J} `{!PrintableReplies J} fuel sctp c op data r e root s v w :
  names c r e data root s v w -> can_retire s v w -> get_uint64 root "handle_id" = 0%Z ->
  json_object_get root "type" ≫= json_string_value = Some "destroy" ->
  exists w' v', websocket_message fuel sctp c op (Some data) w = Done (tt, w') /\
    dir w' = a_retire s (session_id v) (dir w) /\ heap w' !! s = Some v' /\ mutex v' = false /\ sessions_mutex w' = false /\
    sent (jw w') = (c, session_reply "on_destroy" (get_uint64 root "session_id")) :: sent (jw w) /\ root_refs (jw w') = 0%Z.
Proof.
  intros Hn Hc Hh Ht. rewrite (message_run _ _ _ _ _ _ _ _ _ _ _ Hn), Hh, Ht.
  destruct Hn as (_ & _ & _ & Hm & _ & Hv). run (no_handle_run s (touched s v w)). run eq_refl.
  unfold dispatch. cbn [String.eqb Ascii.eqb Bool.eqb orb]. unfold on_destroy. rewrite bind_assoc.
  set (w0 := touched s v w). set (v0 := s_last_activity (fun _ => janus_get_monotonic_time (core_of w)) v).
  assert (Hc0 : can_retire s v0 w0).
  { destruct Hc as (_ & Hd & Hmu & Hsrc & Hhs). split_and!; [apply touched_session|done..]. }
  destruct (schedule_run s v0 true true true w0 Hc0) as (tbl & j & Hr & Hj); [done|]. run Hr.
  set (w1 := g_jw (fun _ => j) _). rewrite bind_assoc. unfold ws_reply, session_reply.
  destruct (json_dumps _) eqn:Hd; [|by apply object_printable in Hd]. run eq_refl. run eq_refl. cbn [negb whenM]. run eq_refl.
  destruct Hj as (_ & _ & Hrf & Hsent). unfold lift. rewrite root_decref_one by (cbn; by rewrite Hrf).
  eexists _, _. split; [reflexivity|]. split_and!.
  - unfold dir, a_retire. cbn. f_equal. by rewrite !fmap_insert, insert_insert_eq.
  - apply lookup_insert_eq.
  - by destruct Hc as (_ & _ & Hmu & _).
  - done.
  - cbn. by rewrite Hsent.
  - cbn. by rewrite Hrf.
Qed.

(** ** Loading plugins *)

(** The plugin of a file, if it can be used. *)
Definition loadable (api : Z) (d : dirent) : option loc :=
  if (String.length (d_name d) <? 4) || negb (has_suffix (d_name d)) || negb (dlopens d) || negb (has_create d) ||
     negb (all_methods d) || (api_compatibility d <? api)%Z || (init_result d <? 0)%Z
  then None else created d.

Lemma load_one_run api d w :
  load_one api d w = Done (tt, match loadable api d with
    | Some p => g_plugins (fun pl => match pl with None => Some {[get_package p := p]} | Some pl => Some pl end) w
    | None => w end).
Proof.
  unfold load_one, loadable.
  destruct (_ <? 4); [done|]. destruct (has_suffix _); [|done]. destruct (dlopens d); [|done]. destruct (has_create d); [|done].
  cbn [negb orb]. destruct (created d) as [p|]; [|by destruct (all_methods d), (_ <? _)%Z, (_ <? _)%Z].
  destruct (all_methods d); [|done]. destruct (_ <? _)%Z; [done|]. destruct (_ <? 0)%Z; [done|]. cbn [negb orb].
  run eq_refl. unfold plug_fucker. destruct w as [? ? ? ? ? ? ? ? pl]. by destruct pl.
Qed.

(** Of all the plugins in the folder that can be used, and that are initialised, only the
    first is put into the table, so that only its package can be found. *)
Theorem load_plugin_first api dir w :
  plugins w = None ->
  load_plugin api (Some dir) w =
  Done (tt, g_plugins (fun _ => (fun p => {[get_package p := p]}) <$> head (omap (loadable api) dir)) w).
Proof.
  assert (Hfull : forall l w t, plugins w = Some t -> load_all api l w = Done (tt, w)).
  { intros l. induction l as [|d l IH]; intros w' t Ht; [done|]. cbn [load_all]. run (load_one_run api d w').
    destruct (loadable api d) as [p|]; [|by eapply IH].
    assert (g_plugins (fun pl => match pl with None => Some {[get_package p := p]} | Some pl => Some pl end) w' = w') as ->.
    { destruct w'. cbn in Ht. by subst. }
    by eapply IH. }
  unfold load_plugin. induction dir as [|d dir IH]; intros Hw; [by destruct w; cbn in *; subst|].
  cbn [load_all]. run (load_one_run api d w). cbn [omap list_omap]. destruct (loadable api d) as [p|]; [|by apply IH].
  rewrite (Hfull dir _ {[get_package p := p]}); [|cbn; by rewrite Hw]. cbn. unfold g_plugins. by rewrite Hw.
Qed.
End Theorems.

(** ** Witnesses *)

Section Witnesses.
Import GwConcrete.
Local Open Scope Z_scope.

#[local] Instance m_destroy_laws : DestroyLaws Z string json.
Proof. split; [intros *; cbn; lia|done]. Qed.

Definition w_new : gworld Z json := c_world 0 c_session None.
Definition w_plugin : gworld Z json := c_world 0 c_session (Some {["janus.plugin.echotest" := 8%nat]}).
Lemma w_names ps data root :
  json_loads data = Some root -> get_uint64 root "session_id" = 5 ->
  names 3 20 (Ex 1 46 0) data root 1 c_session (c_world 0 c_session ps).
Proof. intros Hl Hs. unfold names. rewrite Hs. by split_and!. Qed.

(** A connection's step, with the second number drawn. *)
Lemma w_connect : exists w', gstep (B := list Z) (c_empty 0) w' /\ sessions w' = {[5 := 2%nat]}.
Proof.
  destruct (websocket_connect 2 3 (c_empty 0)) as [[[] w']|] eqn:Hr; [|vm_compute in Hr; discriminate].
  exists w'. split; [|vm_compute in Hr; by injection Hr as <-].
  apply (step_connect 2 3 _ _ Hr). by intros k _ _.
Qed.

Lemma w_started : started (c_empty 0).
Proof. by split_and!. Qed.



Lemma untyped_message_crashes_witness : websocket_message 1 false 3 1 (Some "untyped") w_new = Crash NullDeref.
Proof.
  apply (untyped_message_crashes 1 false 3 1 "untyped" 20 (Ex 1 46 0) (JObject [("session_id", JInteger 5)]) 1 c_session w_new);
    [by apply w_names|done|done].
Defined.

Lemma error_answer_frees_twice_witness : websocket_message 1 false 3 1 (Some "janus") w_new = Crash UseAfterFree.
Proof.
  apply (error_answer_frees_twice 1 false 3 1 "janus" 20 (Ex 1 46 0) (c_message "janus" 5 0) 1 c_session w_new);
    [by apply w_names|done|done].
Defined.

Lemma attach_binds_witness :
  exists w' v', websocket_message 1 false 3 1 (Some "attach") w_plugin = Done (tt, w') /\
    exs w' !! 20%nat = Some (Ex 1 46 77) /\ heap w' !! 1%nat = Some v' /\ mutex v' = false.
Proof.
  destruct (attach_binds 1 false 3 1 "attach" 20 (Ex 1 46 0) (c_message "attach" 5 0) 1 c_session w_plugin 9
    (Some {[77 := 9%nat]}) {[9%nat := c_handle]} 0 c_handle 8 {[9%nat := c_handle]} 0) as (w' & v' & Hr & He & Hv & Hm & _);
    try reflexivity.
  - by apply w_names.
  - by exists w', v'.
Defined.

Lemma attach_without_plugin_blocks_witness :
  exists w', websocket_message 1 false 3 1 (Some "attach") w_new = Done (tt, w') /\
    sent (jw w') = [] /\ websocket_message 1 false 3 1 (Some "detach") w' = Crash LockMisuse.
Proof.
  apply (attach_without_plugin_blocks 1 false 3 1 "attach" 20 (Ex 1 46 0) (c_message "attach" 5 0) 1 c_session w_new 9
    (Some {[77 := 9%nat]}) {[9%nat := c_handle]} 0 c_handle "detach" (c_message "detach" 5 77)); try reflexivity.
  - by apply w_names.
  - done.
Defined.

Lemma w_extra : extras_there w_new.
Proof. intros c r _. cbn. rewrite lookup_singleton_Some. intros [_ <-]. by exists (Ex 1 46 0). Qed.

Lemma event_recipients_witness :
  exists w', kore_websocket_broadcast_target (B := list Z) 2 0 1 [7] 1 9 w_new = Done (tt, w') /\
    glog w' = [Queued 3 [129; 1; 7]].
Proof.
  destruct (event_recipients (B := list Z) 2 0 1 [7] 1 9 w_new w_extra) as (w' & Hr & Hl); [done|].
  exists w'. split; [exact Hr|]. rewrite Hl. by vm_compute.
Defined.

Lemma push_event_uses_freed_witness :
  janus_plugin_push_event (X := Z) (D := string) (B := list Z) 1 1 1 false 2 5000 (Some 8%nat) None (Some (JObject [])) None
    (g_jw (w_handles (fun _ => {[9%nat := h_session (fun _ => Some 1%nat) c_handle]})) w_new) = Crash UseAfterFree.
Proof.
  apply (push_event_uses_freed (B := list Z) 1 1 1 false 2 5000 8 None (JObject []) 9 (h_session (fun _ => Some 1%nat) c_handle) 1
    c_session); try done.
  exact w_extra.
Defined.

Lemma destroy_retires_witness :
  exists w' v', websocket_message 1 false 3 1 (Some "destroy") w_new = Done (tt, w') /\
    dir w' = a_retire 1 5 (dir w_new) /\ heap w' !! 1%nat = Some v' /\ mutex v' = false.
Proof.
  destruct (destroy_retires 1 false 3 1 "destroy" 20 (Ex 1 46 0) (c_message "destroy" 5 0) 1 c_session w_new)
    as (w' & v' & Hr & Hd & Hv & Hm & _).
  - by apply w_names.
  - split_and!; done.
  - done.
  - done.
  - by exists w', v'.
Defined.

Definition w_file (name : string) (p : loc) : dirent := Dirent name true true (Some p) true 9 0.
Lemma load_plugin_first_witness :
  exists w', load_plugin 9 (Some [w_file "a.txt" 7; w_file "libjanus_echotest.so" 8; w_file "libother.so" 9]) w_new = Done (tt, w') /\
    plugins w' = Some {["janus.plugin.echotest" := 8%nat]}.
Proof. eexists. split; [by apply load_plugin_first|by vm_compute]. Defined.
End Witnesses.
End Messages.
