(* ===== verification/EchoTest.v ===== *)
(** * The echo plug-in of the WebRTC gateway: websocket_10/plugins/janus_echotest.c

    A peer that is attached to the plug-in gets its own media back, filtered by the settings
    it sends as messages.  A session is made and destroyed by the gateway; a message is put
    into the queue [messages] and served by the plug-in's own thread, which sends the answer
    through the gateway's callbacks; a session that is destroyed stays in memory, in
    [old_sessions], until the watchdog has seen it there for five seconds.

    The callbacks, and what is written to recorders, are a trace, [calls].  The thread's turn
    has two halves, [handler_take] under [sessions_mutex] and [handler_serve] without it, so
    that other threads come between them.  SDP, RTP, RTCP and VP8 routines, recorders and the
    clock are Janus's: the classes [EchoCore] and [EchoSdp].  A session's member [rid] is not
    used by the code; JSON reference counts and logging are left out, the latter with the
    reads that are only made for it. *)

From stdpp Require Import pretty.
From S2P Require Import Prelude Jansson Janus.

Local Open Scope c_scope.

Module Echo.

(** ** Data *)

Record plugin_session : Type := PluginSession {
  plugin_handle : option loc;
  stopped : bool
}.

Record janus_echotest_message (J : Type) : Type := EchoMessage {
  msg_handle : option loc;
  transaction : option string;
  message : option J;
  jsep : option J
}.
Arguments EchoMessage {J}.
Arguments msg_handle {J}.
Arguments transaction {J}.
Arguments message {J}.
Arguments jsep {J}.

Record janus_echotest_session (K : Type) (V : Type) : Type := EchoSession {
  handle : loc;
  has_audio : bool;
  has_video : bool;
  has_data : bool;
  audio_active : bool;
  video_active : bool;
  acodec : option string;
  vcodec : option string;
  bitrate : Z;  (* 0: no limit *)
  peer_bitrate : Z;
  rtp_context : K;
  ssrc : list Z;
  rtpmapid_extmap_id : Z;
  substream : Z;
  substream_target : Z;
  templayer : Z;
  templayer_target : Z;
  last_relayed : Z;
  simulcast_context : V;
  arc : option loc;
  vrc : option loc;
  drc : option loc;
  rec_mutex : bool;
  slowlink_count : Z;
  hangingup : Z;
  destroyed : Z  (* the time, 0 before *)
}.
Arguments EchoSession {K V}.
Arguments handle {K V}.
Arguments has_audio {K V}.
Arguments has_video {K V}.
Arguments has_data {K V}.
Arguments audio_active {K V}.
Arguments video_active {K V}.
Arguments acodec {K V}.
Arguments vcodec {K V}.
Arguments bitrate {K V}.
Arguments peer_bitrate {K V}.
Arguments rtp_context {K V}.
Arguments ssrc {K V}.
Arguments rtpmapid_extmap_id {K V}.
Arguments substream {K V}.
Arguments substream_target {K V}.
Arguments templayer {K V}.
Arguments templayer_target {K V}.
Arguments last_relayed {K V}.
Arguments simulcast_context {K V}.
Arguments arc {K V}.
Arguments vrc {K V}.
Arguments drc {K V}.
Arguments rec_mutex {K V}.
Arguments slowlink_count {K V}.
Arguments hangingup {K V}.
Arguments destroyed {K V}.

Definition s_handle {K : Type} {V : Type} (f : loc -> loc) (w : janus_echotest_session K V) : janus_echotest_session K V :=
  EchoSession (f (handle w)) (has_audio w) (has_video w) (has_data w) (audio_active w) (video_active w) (acodec w) (vcodec w) (bitrate w) (peer_bitrate w) (rtp_context w) (ssrc w) (rtpmapid_extmap_id w) (substream w) (substream_target w) (templayer w) (templayer_target w) (last_relayed w) (simulcast_context w) (arc w) (vrc w) (drc w) (rec_mutex w) (slowlink_count w) (hangingup w) (destroyed w).
Definition s_has_audio {K : Type} {V : Type} (f : bool -> bool) (w : janus_echotest_session K V) : janus_echotest_session K V :=
  EchoSession (handle w) (f (has_audio w)) (has_video w) (has_data w) (audio_active w) (video_active w) (acodec w) (vcodec w) (bitrate w) (peer_bitrate w) (rtp_context w) (ssrc w) (rtpmapid_extmap_id w) (substream w) (substream_target w) (templayer w) (templayer_target w) (last_relayed w) (simulcast_context w) (arc w) (vrc w) (drc w) (rec_mutex w) (slowlink_count w) (hangingup w) (destroyed w).
Definition s_has_video {K : Type} {V : Type} (f : bool -> bool) (w : janus_echotest_session K V) : janus_echotest_session K V :=
  EchoSession (handle w) (has_audio w) (f (has_video w)) (has_data w) (audio_active w) (video_active w) (acodec w) (vcodec w) (bitrate w) (peer_bitrate w) (rtp_context w) (ssrc w) (rtpmapid_extmap_id w) (substream w) (substream_target w) (templayer w) (templayer_target w) (last_relayed w) (simulcast_context w) (arc w) (vrc w) (drc w) (rec_mutex w) (slowlink_count w) (hangingup w) (destroyed w).
Definition s_has_data {K : Type} {V : Type} (f : bool -> bool) (w : janus_echotest_session K V) : janus_echotest_session K V :=
  EchoSession (handle w) (has_audio w) (has_video w) (f (has_data w)) (audio_active w) (video_active w) (acodec w) (vcodec w) (bitrate w) (peer_bitrate w) (rtp_context w) (ssrc w) (rtpmapid_extmap_id w) (substream w) (substream_target w) (templayer w) (templayer_target w) (last_relayed w) (simulcast_context w) (arc w) (vrc w) (drc w) (rec_mutex w) (slowlink_count w) (hangingup w) (destroyed w).
Definition s_audio_active {K : Type} {V : Type} (f : bool -> bool) (w : janus_echotest_session K V) : janus_echotest_session K V :=
  EchoSession (handle w) (has_audio w) (has_video w) (has_data w) (f (audio_active w)) (video_active w) (acodec w) (vcodec w) (bitrate w) (peer_bitrate w) (rtp_context w) (ssrc w) (rtpmapid_extmap_id w) (substream w) (substream_target w) (templayer w) (templayer_target w) (last_relayed w) (simulcast_context w) (arc w) (vrc w) (drc w) (rec_mutex w) (slowlink_count w) (hangingup w) (destroyed w).
Definition s_video_active {K : Type} {V : Type} (f : bool -> bool) (w : janus_echotest_session K V) : janus_echotest_session K V :=
  EchoSession (handle w) (has_audio w) (has_video w) (has_data w) (audio_active w) (f (video_active w)) (acodec w) (vcodec w) (bitrate w) (peer_bitrate w) (rtp_context w) (ssrc w) (rtpmapid_extmap_id w) (substream w) (substream_target w) (templayer w) (templayer_target w) (last_relayed w) (simulcast_context w) (arc w) (vrc w) (drc w) (rec_mutex w) (slowlink_count w) (hangingup w) (destroyed w).
Definition s_acodec {K : Type} {V : Type} (f : option string -> option string) (w : janus_echotest_session K V) : janus_echotest_session K V :=
  EchoSession (handle w) (has_audio w) (has_video w) (has_data w) (audio_active w) (video_active w) (f (acodec w)) (vcodec w) (bitrate w) (peer_bitrate w) (rtp_context w) (ssrc w) (rtpmapid_extmap_id w) (substream w) (substream_target w) (templayer w) (templayer_target w) (last_relayed w) (simulcast_context w) (arc w) (vrc w) (drc w) (rec_mutex w) (slowlink_count w) (hangingup w) (destroyed w).
Definition s_vcodec {K : Type} {V : Type} (f : option string -> option string) (w : janus_echotest_session K V) : janus_echotest_session K V :=
  EchoSession (handle w) (has_audio w) (has_video w) (has_data w) (audio_active w) (video_active w) (acodec w) (f (vcodec w)) (bitrate w) (peer_bitrate w) (rtp_context w) (ssrc w) (rtpmapid_extmap_id w) (substream w) (substream_target w) (templayer w) (templayer_target w) (last_relayed w) (simulcast_context w) (arc w) (vrc w) (drc w) (rec_mutex w) (slowlink_count w) (hangingup w) (destroyed w).
Definition s_bitrate {K : Type} {V : Type} (f : Z -> Z) (w : janus_echotest_session K V) : janus_echotest_session K V :=
  EchoSession (handle w) (has_audio w) (has_video w) (has_data w) (audio_active w) (video_active w) (acodec w) (vcodec w) (f (bitrate w)) (peer_bitrate w) (rtp_context w) (ssrc w) (rtpmapid_extmap_id w) (substream w) (substream_target w) (templayer w) (templayer_target w) (last_relayed w) (simulcast_context w) (arc w) (vrc w) (drc w) (rec_mutex w) (slowlink_count w) (hangingup w) (destroyed w).
Definition s_peer_bitrate {K : Type} {V : Type} (f : Z -> Z) (w : janus_echotest_session K V) : janus_echotest_session K V :=
  EchoSession (handle w) (has_audio w) (has_video w) (has_data w) (audio_active w) (video_active w) (acodec w) (vcodec w) (bitrate w) (f (peer_bitrate w)) (rtp_context w) (ssrc w) (rtpmapid_extmap_id w) (substream w) (substream_target w) (templayer w) (templayer_target w) (last_relayed w) (simulcast_context w) (arc w) (vrc w) (drc w) (rec_mutex w) (slowlink_count w) (hangingup w) (destroyed w).
Definition s_rtp_context {K : Type} {V : Type} (f : K -> K) (w : janus_echotest_session K V) : janus_echotest_session K V :=
  EchoSession (handle w) (has_audio w) (has_video w) (has_data w) (audio_active w) (video_active w) (acodec w) (vcodec w) (bitrate w) (peer_bitrate w) (f (rtp_context w)) (ssrc w) (rtpmapid_extmap_id w) (substream w) (substream_target w) (templayer w) (templayer_target w) (last_relayed w) (simulcast_context w) (arc w) (vrc w) (drc w) (rec_mutex w) (slowlink_count w) (hangingup w) (destroyed w).
Definition s_ssrc {K : Type} {V : Type} (f : list Z -> list Z) (w : janus_echotest_session K V) : janus_echotest_session K V :=
  EchoSession (handle w) (has_audio w) (has_video w) (has_data w) (audio_active w) (video_active w) (acodec w) (vcodec w) (bitrate w) (peer_bitrate w) (rtp_context w) (f (ssrc w)) (rtpmapid_extmap_id w) (substream w) (substream_target w) (templayer w) (templayer_target w) (last_relayed w) (simulcast_context w) (arc w) (vrc w) (drc w) (rec_mutex w) (slowlink_count w) (hangingup w) (destroyed w).
Definition s_rtpmapid_extmap_id {K : Type} {V : Type} (f : Z -> Z) (w : janus_echotest_session K V) : janus_echotest_session K V :=
  EchoSession (handle w) (has_audio w) (has_video w) (has_data w) (audio_active w) (video_active w) (acodec w) (vcodec w) (bitrate w) (peer_bitrate w) (rtp_context w) (ssrc w) (f (rtpmapid_extmap_id w)) (substream w) (substream_target w) (templayer w) (templayer_target w) (last_relayed w) (simulcast_context w) (arc w) (vrc w) (drc w) (rec_mutex w) (slowlink_count w) (hangingup w) (destroyed w).
Definition s_substream {K : Type} {V : Type} (f : Z -> Z) (w : janus_echotest_session K V) : janus_echotest_session K V :=
  EchoSession (handle w) (has_audio w) (has_video w) (has_data w) (audio_active w) (video_active w) (acodec w) (vcodec w) (bitrate w) (peer_bitrate w) (rtp_context w) (ssrc w) (rtpmapid_extmap_id w) (f (substream w)) (substream_target w) (templayer w) (templayer_target w) (last_relayed w) (simulcast_context w) (arc w) (vrc w) (drc w) (rec_mutex w) (slowlink_count w) (hangingup w) (destroyed w).
Definition s_substream_target {K : Type} {V : Type} (f : Z -> Z) (w : janus_echotest_session K V) : janus_echotest_session K V :=
  EchoSession (handle w) (has_audio w) (has_video w) (has_data w) (audio_active w) (video_active w) (acodec w) (vcodec w) (bitrate w) (peer_bitrate w) (rtp_context w) (ssrc w) (rtpmapid_extmap_id w) (substream w) (f (substream_target w)) (templayer w) (templayer_target w) (last_relayed w) (simulcast_context w) (arc w) (vrc w) (drc w) (rec_mutex w) (slowlink_count w) (hangingup w) (destroyed w).
Definition s_templayer {K : Type} {V : Type} (f : Z -> Z) (w : janus_echotest_session K V) : janus_echotest_session K V :=
  EchoSession (handle w) (has_audio w) (has_video w) (has_data w) (audio_active w) (video_active w) (acodec w) (vcodec w) (bitrate w) (peer_bitrate w) (rtp_context w) (ssrc w) (rtpmapid_extmap_id w) (substream w) (substream_target w) (f (templayer w)) (templayer_target w) (last_relayed w) (simulcast_context w) (arc w) (vrc w) (drc w) (rec_mutex w) (slowlink_count w) (hangingup w) (destroyed w).
Definition s_templayer_target {K : Type} {V : Type} (f : Z -> Z) (w : janus_echotest_session K V) : janus_echotest_session K V :=
  EchoSession (handle w) (has_audio w) (has_video w) (has_data w) (audio_active w) (video_active w) (acodec w) (vcodec w) (bitrate w) (peer_bitrate w) (rtp_context w) (ssrc w) (rtpmapid_extmap_id w) (substream w) (substream_target w) (templayer w) (f (templayer_target w)) (last_relayed w) (simulcast_context w) (arc w) (vrc w) (drc w) (rec_mutex w) (slowlink_count w) (hangingup w) (destroyed w).
Definition s_last_relayed {K : Type} {V : Type} (f : Z -> Z) (w : janus_echotest_session K V) : janus_echotest_session K V :=
  EchoSession (handle w) (has_audio w) (has_video w) (has_data w) (audio_active w) (video_active w) (acodec w) (vcodec w) (bitrate w) (peer_bitrate w) (rtp_context w) (ssrc w) (rtpmapid_extmap_id w) (substream w) (substream_target w) (templayer w) (templayer_target w) (f (last_relayed w)) (simulcast_context w) (arc w) (vrc w) (drc w) (rec_mutex w) (slowlink_count w) (hangingup w) (destroyed w).
Definition s_simulcast_context {K : Type} {V : Type} (f : V -> V) (w : janus_echotest_session K V) : janus_echotest_session K V :=
  EchoSession (handle w) (has_audio w) (has_video w) (has_data w) (audio_active w) (video_active w) (acodec w) (vcodec w) (bitrate w) (peer_bitrate w) (rtp_context w) (ssrc w) (rtpmapid_extmap_id w) (substream w) (substream_target w) (templayer w) (templayer_target w) (last_relayed w) (f (simulcast_context w)) (arc w) (vrc w) (drc w) (rec_mutex w) (slowlink_count w) (hangingup w) (destroyed w).
Definition s_arc {K : Type} {V : Type} (f : option loc -> option loc) (w : janus_echotest_session K V) : janus_echotest_session K V :=
  EchoSession (handle w) (has_audio w) (has_video w) (has_data w) (audio_active w) (video_active w) (acodec w) (vcodec w) (bitrate w) (peer_bitrate w) (rtp_context w) (ssrc w) (rtpmapid_extmap_id w) (substream w) (substream_target w) (templayer w) (templayer_target w) (last_relayed w) (simulcast_context w) (f (arc w)) (vrc w) (drc w) (rec_mutex w) (slowlink_count w) (hangingup w) (destroyed w).
Definition s_vrc {K : Type} {V : Type} (f : option loc -> option loc) (w : janus_echotest_session K V) : janus_echotest_session K V :=
  EchoSession (handle w) (has_audio w) (has_video w) (has_data w) (audio_active w) (video_active w) (acodec w) (vcodec w) (bitrate w) (peer_bitrate w) (rtp_context w) (ssrc w) (rtpmapid_extmap_id w) (substream w) (substream_target w) (templayer w) (templayer_target w) (last_relayed w) (simulcast_context w) (arc w) (f (vrc w)) (drc w) (rec_mutex w) (slowlink_count w) (hangingup w) (destroyed w).
Definition s_drc {K : Type} {V : Type} (f : option loc -> option loc) (w : janus_echotest_session K V) : janus_echotest_session K V :=
  EchoSession (handle w) (has_audio w) (has_video w) (has_data w) (audio_active w) (video_active w) (acodec w) (vcodec w) (bitrate w) (peer_bitrate w) (rtp_context w) (ssrc w) (rtpmapid_extmap_id w) (substream w) (substream_target w) (templayer w) (templayer_target w) (last_relayed w) (simulcast_context w) (arc w) (vrc w) (f (drc w)) (rec_mutex w) (slowlink_count w) (hangingup w) (destroyed w).
Definition s_rec_mutex {K : Type} {V : Type} (f : bool -> bool) (w : janus_echotest_session K V) : janus_echotest_session K V :=
  EchoSession (handle w) (has_audio w) (has_video w) (has_data w) (audio_active w) (video_active w) (acodec w) (vcodec w) (bitrate w) (peer_bitrate w) (rtp_context w) (ssrc w) (rtpmapid_extmap_id w) (substream w) (substream_target w) (templayer w) (templayer_target w) (last_relayed w) (simulcast_context w) (arc w) (vrc w) (drc w) (f (rec_mutex w)) (slowlink_count w) (hangingup w) (destroyed w).
Definition s_slowlink_count {K : Type} {V : Type} (f : Z -> Z) (w : janus_echotest_session K V) : janus_echotest_session K V :=
  EchoSession (handle w) (has_audio w) (has_video w) (has_data w) (audio_active w) (video_active w) (acodec w) (vcodec w) (bitrate w) (peer_bitrate w) (rtp_context w) (ssrc w) (rtpmapid_extmap_id w) (substream w) (substream_target w) (templayer w) (templayer_target w) (last_relayed w) (simulcast_context w) (arc w) (vrc w) (drc w) (rec_mutex w) (f (slowlink_count w)) (hangingup w) (destroyed w).
Definition s_hangingup {K : Type} {V : Type} (f : Z -> Z) (w : janus_echotest_session K V) : janus_echotest_session K V :=
  EchoSession (handle w) (has_audio w) (has_video w) (has_data w) (audio_active w) (video_active w) (acodec w) (vcodec w) (bitrate w) (peer_bitrate w) (rtp_context w) (ssrc w) (rtpmapid_extmap_id w) (substream w) (substream_target w) (templayer w) (templayer_target w) (last_relayed w) (simulcast_context w) (arc w) (vrc w) (drc w) (rec_mutex w) (slowlink_count w) (f (hangingup w)) (destroyed w).
Definition s_destroyed {K : Type} {V : Type} (f : Z -> Z) (w : janus_echotest_session K V) : janus_echotest_session K V :=
  EchoSession (handle w) (has_audio w) (has_video w) (has_data w) (audio_active w) (video_active w) (acodec w) (vcodec w) (bitrate w) (peer_bitrate w) (rtp_context w) (ssrc w) (rtpmapid_extmap_id w) (substream w) (substream_target w) (templayer w) (templayer_target w) (last_relayed w) (simulcast_context w) (arc w) (vrc w) (drc w) (rec_mutex w) (slowlink_count w) (hangingup w) (f (destroyed w)).


(** The callbacks of the gateway, and the recorders' operations. *)
Inductive callback (J : Type) : Type :=
| PushEvent (handle : loc) (transaction : option string) (event : J) (jsep : option J)
| RelayRtp (handle : loc) (video : Z) (buf : list Z)
| RelayRtcp (handle : loc) (video : Z) (buf : list Z)
| RelayData (handle : loc) (buf : list Z)
| NotifyEvent (handle : loc) (info : J)
| SaveFrame (recorder : loc) (buf : list Z)
| RecorderClose (recorder : loc).
Arguments PushEvent {J}.
Arguments RelayRtp {J}.
Arguments RelayRtcp {J}.
Arguments RelayData {J}.
Arguments NotifyEvent {J}.
Arguments SaveFrame {J}.
Arguments RecorderClose {J}.

(** Where the thread of [janus_echotest_handler] is; [Serving]: with a message and a session. *)
Inductive thread : Type := NotStarted | Popping | Serving (msg session : loc) | Left.

Record eworld (X : Type) (J : Type) (K : Type) (V : Type) : Type := EWorld {
  initialized : bool;
  stopping : bool;
  notify_events : bool;
  gateway : bool;  (* it was given *)
  watchdog : bool;  (* the thread runs *)
  handler_thread : thread;
  messages : option (list (option loc));  (* [None] in it: [exit_message] *)
  msgs : gmap loc (janus_echotest_message J);
  heap : gmap loc (janus_echotest_session K V);
  sessions : option (gmap loc loc);  (* of a handle its session *)
  old_sessions : list loc;
  sessions_mutex : bool;
  handles : gmap loc plugin_session;  (* of Janus *)
  recorders : gmap loc (option string);  (* the open ones, with their file's name *)
  core : X;
  next : loc;  (* the next address to be given out *)
  calls : list (callback J)  (* newest first *)
}.
Arguments EWorld {X J K V}.
Arguments initialized {X J K V}.
Arguments stopping {X J K V}.
Arguments notify_events {X J K V}.
Arguments gateway {X J K V}.
Arguments watchdog {X J K V}.
Arguments handler_thread {X J K V}.
Arguments messages {X J K V}.
Arguments msgs {X J K V}.
Arguments heap {X J K V}.
Arguments sessions {X J K V}.
Arguments old_sessions {X J K V}.
Arguments sessions_mutex {X J K V}.
Arguments handles {X J K V}.
Arguments recorders {X J K V}.
Arguments core {X J K V}.
Arguments next {X J K V}.
Arguments calls {X J K V}.

Definition w_initialized {X : Type} {J : Type} {K : Type} {V : Type} (f : bool -> bool) (w : eworld X J K V) : eworld X J K V :=
  EWorld (f (initialized w)) (stopping w) (notify_events w) (gateway w) (watchdog w) (handler_thread w) (messages w) (msgs w) (heap w) (sessions w) (old_sessions w) (sessions_mutex w) (handles w) (recorders w) (core w) (next w) (calls w).
Definition w_stopping {X : Type} {J : Type} {K : Type} {V : Type} (f : bool -> bool) (w : eworld X J K V) : eworld X J K V :=
  EWorld (initialized w) (f (stopping w)) (notify_events w) (gateway w) (watchdog w) (handler_thread w) (messages w) (msgs w) (heap w) (sessions w) (old_sessions w) (sessions_mutex w) (handles w) (recorders w) (core w) (next w) (calls w).
Definition w_notify_events {X : Type} {J : Type} {K : Type} {V : Type} (f : bool -> bool) (w : eworld X J K V) : eworld X J K V :=
  EWorld (initialized w) (stopping w) (f (notify_events w)) (gateway w) (watchdog w) (handler_thread w) (messages w) (msgs w) (heap w) (sessions w) (old_sessions w) (sessions_mutex w) (handles w) (recorders w) (core w) (next w) (calls w).
Definition w_gateway {X : Type} {J : Type} {K : Type} {V : Type} (f : bool -> bool) (w : eworld X J K V) : eworld X J K V :=
  EWorld (initialized w) (stopping w) (notify_events w) (f (gateway w)) (watchdog w) (handler_thread w) (messages w) (msgs w) (heap w) (sessions w) (old_sessions w) (sessions_mutex w) (handles w) (recorders w) (core w) (next w) (calls w).
Definition w_watchdog {X : Type} {J : Type} {K : Type} {V : Type} (f : bool -> bool) (w : eworld X J K V) : eworld X J K V :=
  EWorld (initialized w) (stopping w) (notify_events w) (gateway w) (f (watchdog w)) (handler_thread w) (messages w) (msgs w) (heap w) (sessions w) (old_sessions w) (sessions_mutex w) (handles w) (recorders w) (core w) (next w) (calls w).
Definition w_handler_thread {X : Type} {J : Type} {K : Type} {V : Type} (f : thread -> thread) (w : eworld X J K V) : eworld X J K V :=
  EWorld (initialized w) (stopping w) (notify_events w) (gateway w) (watchdog w) (f (handler_thread w)) (messages w) (msgs w) (heap w) (sessions w) (old_sessions w) (sessions_mutex w) (handles w) (recorders w) (core w) (next w) (calls w).
Definition w_messages {X : Type} {J : Type} {K : Type} {V : Type} (f : option (list (option loc)) -> option (list (option loc))) (w : eworld X J K V) : eworld X J K V :=
  EWorld (initialized w) (stopping w) (notify_events w) (gateway w) (watchdog w) (handler_thread w) (f (messages w)) (msgs w) (heap w) (sessions w) (old_sessions w) (sessions_mutex w) (handles w) (recorders w) (core w) (next w) (calls w).
Definition w_msgs {X : Type} {J : Type} {K : Type} {V : Type} (f : gmap loc (janus_echotest_message J) -> gmap loc (janus_echotest_message J)) (w : eworld X J K V) : eworld X J K V :=
  EWorld (initialized w) (stopping w) (notify_events w) (gateway w) (watchdog w) (handler_thread w) (messages w) (f (msgs w)) (heap w) (sessions w) (old_sessions w) (sessions_mutex w) (handles w) (recorders w) (core w) (next w) (calls w).
Definition w_heap {X : Type} {J : Type} {K : Type} {V : Type} (f : gmap loc (janus_echotest_session K V) -> gmap loc (janus_echotest_session K V)) (w : eworld X J K V) : eworld X J K V :=
  EWorld (initialized w) (stopping w) (notify_events w) (gateway w) (watchdog w) (handler_thread w) (messages w) (msgs w) (f (heap w)) (sessions w) (old_sessions w) (sessions_mutex w) (handles w) (recorders w) (core w) (next w) (calls w).
Definition w_sessions {X : Type} {J : Type} {K : Type} {V : Type} (f : option (gmap loc loc) -> option (gmap loc loc)) (w : eworld X J K V) : eworld X J K V :=
  EWorld (initialized w) (stopping w) (notify_events w) (gateway w) (watchdog w) (handler_thread w) (messages w) (msgs w) (heap w) (f (sessions w)) (old_sessions w) (sessions_mutex w) (handles w) (recorders w) (core w) (next w) (calls w).
Definition w_old_sessions {X : Type} {J : Type} {K : Type} {V : Type} (f : list loc -> list loc) (w : eworld X J K V) : eworld X J K V :=
  EWorld (initialized w) (stopping w) (notify_events w) (gateway w) (watchdog w) (handler_thread w) (messages w) (msgs w) (heap w) (sessions w) (f (old_sessions w)) (sessions_mutex w) (handles w) (recorders w) (core w) (next w) (calls w).
Definition w_sessions_mutex {X : Type} {J : Type} {K : Type} {V : Type} (f : bool -> bool) (w : eworld X J K V) : eworld X J K V :=
  EWorld (initialized w) (stopping w) (notify_events w) (gateway w) (watchdog w) (handler_thread w) (messages w) (msgs w) (heap w) (sessions w) (old_sessions w) (f (sessions_mutex w)) (handles w) (recorders w) (core w) (next w) (calls w).
Definition w_handles {X : Type} {J : Type} {K : Type} {V : Type} (f : gmap loc plugin_session -> gmap loc plugin_session) (w : eworld X J K V) : eworld X J K V :=
  EWorld (initialized w) (stopping w) (notify_events w) (gateway w) (watchdog w) (handler_thread w) (messages w) (msgs w) (heap w) (sessions w) (old_sessions w) (sessions_mutex w) (f (handles w)) (recorders w) (core w) (next w) (calls w).
Definition w_recorders {X : Type} {J : Type} {K : Type} {V : Type} (f : gmap loc (option string) -> gmap loc (option string)) (w : eworld X J K V) : eworld X J K V :=
  EWorld (initialized w) (stopping w) (notify_events w) (gateway w) (watchdog w) (handler_thread w) (messages w) (msgs w) (heap w) (sessions w) (old_sessions w) (sessions_mutex w) (handles w) (f (recorders w)) (core w) (next w) (calls w).
Definition w_core {X : Type} {J : Type} {K : Type} {V : Type} (f : X -> X) (w : eworld X J K V) : eworld X J K V :=
  EWorld (initialized w) (stopping w) (notify_events w) (gateway w) (watchdog w) (handler_thread w) (messages w) (msgs w) (heap w) (sessions w) (old_sessions w) (sessions_mutex w) (handles w) (recorders w) (f (core w)) (next w) (calls w).
Definition w_next {X : Type} {J : Type} {K : Type} {V : Type} (f : loc -> loc) (w : eworld X J K V) : eworld X J K V :=
  EWorld (initialized w) (stopping w) (notify_events w) (gateway w) (watchdog w) (handler_thread w) (messages w) (msgs w) (heap w) (sessions w) (old_sessions w) (sessions_mutex w) (handles w) (recorders w) (core w) (f (next w)) (calls w).
Definition w_calls {X : Type} {J : Type} {K : Type} {V : Type} (f : list (callback J) -> list (callback J)) (w : eworld X J K V) : eworld X J K V :=
  EWorld (initialized w) (stopping w) (notify_events w) (gateway w) (watchdog w) (handler_thread w) (messages w) (msgs w) (heap w) (sessions w) (old_sessions w) (sessions_mutex w) (handles w) (recorders w) (core w) (next w) (f (calls w)).

(** ** Janus *)

Inductive mdirection : Type := JANUS_SDP_SENDRECV | JANUS_SDP_SENDONLY | JANUS_SDP_RECVONLY | JANUS_SDP_INACTIVE | OtherDirection.
#[export] Instance mdirection_eq_dec : EqDecision mdirection.
Proof. solve_decision. Defined.
Inductive media : Type := JANUS_SDP_AUDIO | JANUS_SDP_VIDEO | OtherMedia.
#[export] Instance media_eq_dec : EqDecision media.
Proof. solve_decision. Defined.

Record sdp_attribute : Type := SdpAttribute { value : option string; direction : mdirection }.
Record sdp_mline : Type := SdpMline { mtype : media; port : Z; attributes : list sdp_attribute }.

Class EchoSdp (D : Type) := {
  janus_sdp_parse : string -> string + D;  (* the error's text, or the SDP *)
  m_lines : D -> list sdp_mline;
  janus_sdp_generate_answer : D -> D;
  mline_direction : media -> D -> option mdirection;  (* of the first such line *)
  set_mline_direction : media -> mdirection -> D -> D;
  add_to_video_mline : string -> string -> D -> D;
  janus_sdp_get_codec_pt : D -> string -> Z;
  janus_sdp_find_first_codecs : D -> option string * option string -> option string * option string;
  janus_sdp_write : D -> string;
  JANUS_RTP_EXTMAP_RTP_STREAM_ID : string
}.

Class EchoCore (X K V : Type) := {
  janus_get_monotonic_time : X -> Z;
  janus_get_real_time : X -> Z;
  events_is_enabled : X -> bool;
  fmt_pointer : loc -> string;  (* printf's %p *)
  janus_recorder_create : X -> option string -> string -> option (option string);  (* with its file's name *)
  context_reset : K;
  v_base_seq_up : K -> K;  (* context.v_base_seq++ *)
  simulcast_context_reset : V;
  (* the header of a packet, in host order *)
  rtp_seq_number : list Z -> Z;
  rtp_timestamp : list Z -> Z;
  rtp_ssrc : list Z -> Z;
  set_rtp_seq_number : Z -> list Z -> list Z;
  set_rtp_timestamp : Z -> list Z -> list Z;
  janus_rtp_payload : list Z -> Z -> option (nat * Z);  (* where it starts, and its length *)
  janus_rtp_header_update : list Z -> K -> list Z * K;
  janus_vp8_parse_descriptor : list Z -> nat * Z -> option Z;  (* the temporal layer *)
  janus_vp8_simulcast_descriptor_update : list Z -> nat * Z -> V -> bool -> list Z * V;
  janus_rtcp_pli : list Z;
  janus_rtcp_remb_ssrcs : Z -> Z -> list Z;  (* of a bitrate and a number of SSRCs *)
  janus_rtcp_get_remb : list Z -> Z
}.

Section Code.
Context {X D J K V : Type} `{EchoCore X K V} `{EchoSdp D} `{Jansson J} `{!JanssonBool J}.
Abbreviation m := (M (eworld X J K V)).

(** *** Access *)

Definition get_session (s : loc) : m (janus_echotest_session K V) := hs ← gets heap; live (hs !! s).
Definition update_session (s : loc) (f : janus_echotest_session K V -> janus_echotest_session K V) : m unit :=
  v ← get_session s; modify (w_heap <[s := f v]>).
Definition get_handle (h : loc) : m plugin_session := hs ← gets handles; live (hs !! h).

Definition sessions_lock : m unit :=
  l ← gets sessions_mutex; if (l : bool) then crash LockMisuse else modify (w_sessions_mutex (fun _ => true)).
Definition sessions_unlock : m unit :=
  l ← gets sessions_mutex; if (l : bool) then modify (w_sessions_mutex (fun _ => false)) else crash LockMisuse.
Definition rec_lock (s : loc) : m unit :=
  v ← get_session s; if rec_mutex v then crash LockMisuse else update_session s (s_rec_mutex (fun _ => true)).
Definition rec_unlock (s : loc) : m unit :=
  v ← get_session s; if rec_mutex v then update_session s (s_rec_mutex (fun _ => false)) else crash LockMisuse.

Definition alloc : m loc := a ← gets next; modify (w_next S);; mret a.
Definition now : m Z := x ← gets core; mret (janus_get_monotonic_time x).

(** [stopping] is not set, and [initialized] is. *)
Definition running : m bool := i ← gets initialized; st ← gets stopping; mret (negb st && i).

Definition trace (c : callback J) : m unit := modify (w_calls (cons c)).
(** [gateway->...] *)
Definition call (c : callback J) : m unit := g ← gets gateway; if (g : bool) then trace c else crash NullDeref.
Definition echo_event (kvs : list (string * J)) : J := json_object (("echotest", json_string "event") :: kvs).
Definition json_bool (b : bool) : J := if b then json_true else json_false.

Definition ssrc_at (s : loc) (i : Z) : m Z :=
  v ← get_session s; match (if (i <? 0)%Z then None else ssrc v !! Z.to_nat i) with Some z => mret z | None => crash OutOfBounds end.

Definition send_pli (h : loc) : m unit := call (RelayRtcp h 1 janus_rtcp_pli).
(** A REMB for the session's bitrate. *)
Definition send_remb (h s : loc) : m unit :=
  v ← get_session s;
  s1 ← ssrc_at s 1;
  s2 ← ssrc_at s 2;
  let numssrc := (1 + (if s1 =? 0 then 0 else 1) + (if s2 =? 0 then 0 else 1))%Z in
  call (RelayRtcp h 1 (janus_rtcp_remb_ssrcs (bitrate v) numssrc)).

Definition janus_echotest_message_free (msg : option loc) : m unit :=
  match msg with
  | None => mret tt
  | Some a => ms ← gets msgs; live (ms !! a);; modify (w_msgs (delete a))
  end.

(** *** Recorders *)

Definition janus_recorder_save_frame (r : option loc) (buf : list Z) : m unit :=
  match r with
  | None => mret tt
  | Some r => rs ← gets recorders; live (rs !! r);; trace (SaveFrame r buf)
  end.

Definition close_recorder (r : option loc) : m unit :=
  match r with
  | None => mret tt
  | Some r => rs ← gets recorders; live (rs !! r);; trace (RecorderClose r);; modify (w_recorders (delete r))
  end.

(** [arc], [vrc] and [drc], in this order. *)
Definition close_recorders (s : loc) : m unit :=
  v ← get_session s; close_recorder (arc v);; update_session s (s_arc (fun _ => None));;
  v ← get_session s; close_recorder (vrc v);; update_session s (s_vrc (fun _ => None));;
  v ← get_session s; close_recorder (drc v);; update_session s (s_drc (fun _ => None)).

Definition recorder_file (r : option loc) : m (option string) :=
  match r with None => mret None | Some r => rs ← gets recorders; live (rs !! r) end.

(** The member recording, if there is a recorder. *)
Definition recording_info (v : janus_echotest_session K V) : m (list (string * J)) :=
  a ← recorder_file (arc v);
  vi ← recorder_file (vrc v);
  d ← recorder_file (drc v);
  let file (k : string) (f : option string) := match f with Some f => [(k, json_string f)] | None => [] end in
  mret (match arc v, vrc v, drc v with
        | None, None, None => []
        | _, _, _ => [("recording", json_object (file "audio" a ++ file "video" vi ++ file "data" d))]
        end).

(** *** The watchdog *)

(** [while(sl)]; what is left of [old_sessions]. *)
Fixpoint sweep (now : Z) (sl : list loc) : m (list loc) :=
  match sl with
  | [] => mret []
  | s :: sl =>
      v ← get_session s;
      if (5 * 1000000 <=? now - destroyed v)%Z then modify (w_heap (delete s));; sweep now sl
      else rest ← sweep now sl; mret (s :: rest)
  end.

(** One turn; the thread ends when the plug-in does. *)
Definition janus_echotest_watchdog : m bool :=
  ok ← running;
  if negb (ok : bool) then modify (w_watchdog (fun _ => false));; mret false
  else
    sessions_lock;;
    now ← now;
    sl ← gets old_sessions;
    rest ← sweep now sl;
    modify (w_old_sessions (fun _ => rest));;
    sessions_unlock;;
    mret true.

(** *** The plug-in *)

(** [events]: what the configuration says of general/events; the last two: could the threads
    be started? *)
Definition janus_echotest_init (callback config_path : bool) (events : option bool) (watchdog_starts handler_starts : bool) : m Z :=
  st ← gets stopping;
  if (st : bool) || negb callback || negb config_path then mret (-1)%Z
  else
    match events with Some e => modify (w_notify_events (fun _ => e)) | None => mret tt end;;
    modify (w_sessions (fun _ => Some ∅));;
    modify (w_messages (fun _ => Some []));;
    modify (w_gateway (fun _ => true));;
    modify (w_initialized (fun _ => true));;
    if negb watchdog_starts then modify (w_initialized (fun _ => false));; mret (-1)%Z
    else
      modify (w_watchdog (fun _ => true));;
      if negb handler_starts then modify (w_initialized (fun _ => false));; mret (-1)%Z
      else modify (w_handler_thread (fun _ => Popping));; mret 0%Z.

Definition janus_echotest_lookup_session (h : loc) : m (option loc) :=
  t ← gets sessions;
  t ← deref t;
  match t !! h with
  | Some _ => v ← get_handle h; mret (plugin_handle v)
  | None => mret None
  end.

Definition new_session (h : loc) : janus_echotest_session K V :=
  EchoSession h false false false true true None None 0 0 context_reset [0%Z; 0%Z; 0%Z] 0 (-1) 0 (-1) 0 0
    simulcast_context_reset None None None false 0 0 0.

(** The results are what [*error] is set to; 0: it is not. *)
Definition janus_echotest_create_session (h : loc) : m Z :=
  ok ← running;
  if negb (ok : bool) then mret (-1)%Z
  else
    s ← alloc;
    modify (w_heap <[s := new_session h]>);;
    v ← get_handle h;
    modify (w_handles <[h := PluginSession (Some s) (stopped v)]>);;
    sessions_lock;;
    modify (w_sessions (fmap <[h := s]>));;
    sessions_unlock;;
    mret 0%Z.

(** The controls, when the media is gone. *)
Definition reset_controls (v : janus_echotest_session K V) : janus_echotest_session K V :=
  EchoSession (handle v) false false false true true None None 0 0 (rtp_context v) [0%Z; 0%Z; 0%Z] (rtpmapid_extmap_id v) (-1) 0 (-1) 0 0
    (simulcast_context v) (arc v) (vrc v) (drc v) (rec_mutex v) (slowlink_count v) (hangingup v) (destroyed v).

Definition janus_echotest_hangup_media_internal (h : loc) : m unit :=
  ok ← running;
  if negb (ok : bool) then mret tt
  else
    session ← janus_echotest_lookup_session h;
    match session with
    | None => mret tt
    | Some s =>
        v ← get_session s;
        if negb (destroyed v =? 0)%Z then mret tt
        else
          update_session s (s_hangingup (fun n => n + 1)%Z);;
          if negb (hangingup v =? 0)%Z then mret tt
          else
            call (PushEvent h None (echo_event [("result", json_string "done")]) None);;
            rec_lock s;;
            close_recorders s;;
            rec_unlock s;;
            update_session s reset_controls
    end.

Definition janus_echotest_hangup_media (h : loc) : m unit :=
  sessions_lock;; janus_echotest_hangup_media_internal h;; sessions_unlock.

Definition janus_echotest_destroy_session (h : loc) : m Z :=
  ok ← running;
  if negb (ok : bool) then mret (-1)%Z
  else
    sessions_lock;;
    session ← janus_echotest_lookup_session h;
    match session with
    | None => sessions_unlock;; mret (-2)%Z
    | Some s =>
        v ← get_session s;
        (if! (destroyed v =? 0)%Z then
           janus_echotest_hangup_media_internal h;;
           now ← now;
           update_session s (s_destroyed (fun _ => now));;
           modify (w_sessions (fmap (delete h)));;
           modify (w_old_sessions (fun l => l ++ [s])));;
        sessions_unlock;;
        mret 0%Z
    end.

(** What the session tells about itself. *)
Definition session_info (v : janus_echotest_session K V) (recording : list (string * J)) : J :=
  let str (k : string) (o : option string) := match o with Some x => [(k, json_string x)] | None => [] end in
  json_object
    ([("audio_active", json_bool (audio_active v)); ("video_active", json_bool (video_active v))] ++
     str "audio_codec" (acodec v) ++ str "video_codec" (vcodec v) ++
     [("bitrate", json_integer (bitrate v)); ("peer-bitrate", json_integer (peer_bitrate v))] ++
     (if (default 0 (head (ssrc v)) =? 0)%Z then []
      else [("simulcast", json_true); ("substream", json_integer (substream v));
            ("substream-target", json_integer (substream_target v)); ("temporal-layer", json_integer (templayer v));
            ("temporal-layer-target", json_integer (templayer_target v))]) ++
     recording ++
     [("slowlink_count", json_integer (slowlink_count v)); ("destroyed", json_integer (destroyed v))]).

Definition janus_echotest_query_session (h : loc) : m (option J) :=
  ok ← running;
  if negb (ok : bool) then mret None
  else
    sessions_lock;;
    session ← janus_echotest_lookup_session h;
    match session with
    | None => sessions_unlock;; mret None
    | Some s =>
        v ← get_session s;
        recording ← recording_info v;
        sessions_unlock;;
        mret (Some (session_info v recording))
    end.

Definition janus_echotest_handle_message (h : option loc) (transaction : option string) (message jsep : option J) :
    m (Janus.plugin_result J) :=
  ok ← running;
  if negb (ok : bool) then
    st ← gets stopping;
    mret (Janus.PluginResult Janus.JANUS_PLUGIN_ERROR
            (Some (if (st : bool) then "Shutting down" else "Plugin not initialized")%string) None)
  else
    msg ← alloc;
    modify (w_msgs <[msg := EchoMessage h transaction message jsep]>);;
    q ← gets messages;
    deref q;;
    modify (w_messages (fmap (fun q => q ++ [Some msg])));;
    mret (Janus.PluginResult Janus.JANUS_PLUGIN_OK_WAIT (Some "I'm taking my time!"%string) None).

Definition janus_echotest_setup_media (h : loc) : m unit :=
  ok ← running;
  if negb (ok : bool) then mret tt
  else
    sessions_lock;;
    session ← janus_echotest_lookup_session h;
    match session with
    | None => sessions_unlock
    | Some s =>
        v ← get_session s;
        if negb (destroyed v =? 0)%Z then sessions_unlock
        else update_session s (s_hangingup (fun _ => 0%Z));; sessions_unlock
    end.

(** *** Media *)

(** The checks in front of media and data: who gets it, if anybody. *)
Definition media_session (handle : option loc) : m (option (loc * loc)) :=
  match handle with
  | None => mret None
  | Some h =>
      hv ← get_handle h;
      ok ← running;
      g ← gets gateway;
      if stopped hv || negb ok || negb (g : bool) then mret None
      else
        match plugin_handle hv with
        | None => mret None
        | Some s => v ← get_session s; mret (if (destroyed v =? 0)%Z then Some (h, s) else None)
        end
  end.

(** The substream is switched when a packet of the new one, or of the step towards it, comes. *)
Definition switch_substream (h s : loc) (pkt : Z) : m bool :=
  v ← get_session s;
  if (substream v =? substream_target v)%Z then mret false
  else
    let step := ((substream v <? 1) && (substream_target v =? 2))%Z in
    target ← ssrc_at s (substream_target v);
    hit ← (if (pkt =? target)%Z then mret true
           else if step then one ← ssrc_at s 1; mret (pkt =? one)%Z else mret false);
    if (hit : bool) then
      let now_on := (if pkt =? target then substream_target v else 1)%Z in
      update_session s (s_substream (fun _ => now_on));;
      call (PushEvent h None (echo_event [("substream", json_integer now_on)]) None);;
      mret true
    else mret false.

(** A quarter of a second without a relayed packet: one substream down. *)
Definition fall_back (h s : loc) : m unit :=
  v ← get_session s;
  now ← now;
  if (last_relayed v =? 0)%Z then update_session s (s_last_relayed (fun _ => now))
  else if (250000 <=? now - last_relayed v)%Z then
    update_session s (s_last_relayed (fun _ => now));;
    let sub := (if substream v - 1 <? 0 then 0 else substream v - 1)%Z in
    if! negb (substream v =? sub)%Z then
      update_session s (s_substream (fun _ => sub));;
      send_pli h;;
      call (PushEvent h None (echo_event [("substream", json_integer sub)]) None)
  else mret tt.

(** Is the packet of a temporal layer above the one wanted? *)
Definition temporal_drop (h s : loc) (tid : option Z) : m bool :=
  match tid with
  | None => mret false
  | Some tid =>
      v ← get_session s;
      (if! negb (templayer v =? templayer_target v)%Z then
         update_session s (s_templayer (fun _ => templayer_target v));;
         call (PushEvent h None (echo_event [("temporal", json_integer (templayer_target v))]) None));;
      v ← get_session s;
      if (templayer v <? tid)%Z then update_session s (s_rtp_context v_base_seq_up);; mret true else mret false
  end.

(** The packet goes back with a new header, and the caller's buffer gets its old one again. *)
Definition simulcast_relay (h s : loc) (video : Z) (payload : nat * Z) (switched : bool) (buf : list Z) : m (list Z) :=
  v ← get_session s;
  let '(out, ctx) := janus_rtp_header_update buf (rtp_context v) in
  let '(out, sim) := janus_vp8_simulcast_descriptor_update out payload (simulcast_context v) switched in
  update_session s (s_rtp_context (fun _ => ctx));;
  update_session s (s_simulcast_context (fun _ => sim));;
  janus_recorder_save_frame (vrc v) out;;
  call (RelayRtp h video out);;
  mret (set_rtp_seq_number (rtp_seq_number buf) (set_rtp_timestamp (rtp_timestamp buf) out)).

Definition incoming_simulcast (h s : loc) (video : Z) (buf : list Z) (len : Z) : m (list Z) :=
  match janus_rtp_payload buf len with
  | None => mret buf
  | Some payload =>
      switched ← switch_substream h s (rtp_ssrc buf);
      fall_back h s;;
      v ← get_session s;
      current ← ssrc_at s (substream v);
      if negb (rtp_ssrc buf =? current)%Z then mret buf
      else
        now ← now;
        update_session s (s_last_relayed (fun _ => now));;
        drop ← temporal_drop h s (janus_vp8_parse_descriptor buf payload);
        if (drop : bool) then mret buf else simulcast_relay h s video payload switched buf
  end.

(** The result is what the caller finds in [buf] behind the call. *)
Definition janus_echotest_incoming_rtp (handle : option loc) (video : Z) (buf : list Z) (len : Z) : m (list Z) :=
  t ← media_session handle;
  match t with
  | None => mret buf
  | Some (h, s) =>
      v ← get_session s;
      first ← ssrc_at s 0;
      if negb (video =? 0)%Z && video_active v && negb (first =? 0)%Z then incoming_simulcast h s video buf len
      else
        (if! (if (video =? 0)%Z then audio_active v else video_active v) then
           janus_recorder_save_frame (if (video =? 0)%Z then arc v else vrc v) buf;;
           call (RelayRtp h video buf));;
        mret buf
  end.

Definition janus_echotest_incoming_rtcp (handle : option loc) (video : Z) (buf : list Z) : m unit :=
  t ← media_session handle;
  match t with
  | None => mret tt
  | Some (h, s) =>
      let remb := janus_rtcp_get_remb buf in
      if (0 <? remb)%Z then
        update_session s (s_peer_bitrate (fun _ => remb));;
        v ← get_session s;
        if (0 <? bitrate v)%Z then send_remb h s else call (RelayRtcp h 1 buf)
      else call (RelayRtcp h video buf)
  end.

(** Up to the first zero. *)
Fixpoint c_text (l : list Z) : list Z :=
  match l with [] => [] | c :: l => if (c =? 0)%Z then [] else c :: c_text l end.

Definition echo_prefix : list Z := string_bytes "Janus EchoTest here! You wrote: ".

Definition janus_echotest_incoming_data (handle : option loc) (buf : option (list Z)) (len : Z) : m unit :=
  t ← media_session handle;
  match t, buf with
  | Some (h, s), Some buf =>
      if (len <=? 0)%Z then mret tt
      else if (Z.of_nat (length buf) <? len)%Z then crash OutOfBounds
      else
        let text := c_text (take (Z.to_nat len) buf) in
        v ← get_session s;
        janus_recorder_save_frame (drc v) text;;
        call (RelayData h (take (length echo_prefix + Z.to_nat len) (echo_prefix ++ text)))
  | _, _ => mret tt
  end.

(** Half the bitrate, not below 64 kbit/s; without a limit, half of 512. *)
Definition lower_bitrate (b : Z) : Z :=
  let b := (if 0 <? b then b else 512 * 1024)%Z in
  let b := (b / 2)%Z in
  if (b <? 64 * 1024)%Z then (64 * 1024)%Z else b.

Definition janus_echotest_slow_link (ps : option loc) (uplink video : bool) : m unit :=
  match ps with
  | None => mret tt
  | Some h =>
      hv ← get_handle h;
      ok ← running;
      if stopped hv || negb ok then mret tt
      else
        sessions_lock;;
        session ← janus_echotest_lookup_session h;
        match session with
        | None => sessions_unlock
        | Some s =>
            v ← get_session s;
            if negb (destroyed v =? 0)%Z then sessions_unlock
            else
              update_session s (s_slowlink_count (fun n => u16 (n + 1)));;
              (if (uplink && negb video && negb (audio_active v)) || (uplink && video && negb (video_active v)) then mret tt
               else if! video then
                 update_session s (s_bitrate lower_bitrate);;
                 send_remb h s;;
                 v ← get_session s;
                 call (PushEvent (handle v) None
                   (echo_event [("result", json_object [("status", json_string "slow_link"); ("bitrate", json_integer (bitrate v))])])
                   None));;
              sessions_unlock
        end
  end.

(** *** A message *)

Definition JANUS_ECHOTEST_ERROR_NO_MESSAGE : Z := 411.
Definition JANUS_ECHOTEST_ERROR_INVALID_JSON : Z := 412.
Definition JANUS_ECHOTEST_ERROR_INVALID_ELEMENT : Z := 413.
Definition JANUS_ECHOTEST_ERROR_INVALID_SDP : Z := 414.

(** A member that is there and not what it should be. *)
Definition invalid (o : option J) (ok : J -> bool) : bool := match o with Some j => negb (ok j) | None => false end.
Definition is_positive (j : J) : bool := json_is_integer j && (0 <=? json_int j)%Z.
Definition is_layer (j : J) : bool := json_is_integer j && (0 <=? json_int j)%Z && (json_int j <=? 2)%Z.

(** The first thing that is wrong with the members of a request. *)
Definition check_request (root : J) : option string :=
  let get := json_object_get root in
  if invalid (get "audio") json_is_boolean then Some "Invalid value (audio should be a boolean)"
  else if invalid (get "video") json_is_boolean then Some "Invalid value (video should be a boolean)"
  else if invalid (get "bitrate") is_positive then Some "Invalid value (bitrate should be a positive integer)"
  else if invalid (get "substream") is_layer then Some "Invalid value (substream should be 0, 1 or 2)"
  else if invalid (get "temporal") is_layer then Some "Invalid value (temporal should be 0, 1 or 2)"
  else if invalid (get "record") json_is_boolean then Some "Invalid value (record should be a boolean)"
  else if invalid (get "filename") json_is_string then Some "Invalid value (filename should be a string)"
  else None.

Definition set_simulcast (s : loc) (sim : option J) : m unit :=
  match sim with
  | None => mret tt
  | Some j =>
      let at_ k := u32 (match json_object_get j k with Some n => json_int n | None => 0%Z end) in
      update_session s (s_ssrc (fun _ => [at_ "ssrc-0"; at_ "ssrc-1"; at_ "ssrc-2"]));;
      update_session s (s_substream_target (fun _ => 2%Z));;
      update_session s (s_templayer_target (fun _ => 2%Z))
  end.

Definition set_audio (s : loc) (audio : option J) : m unit :=
  match audio with None => mret tt | Some j => update_session s (s_audio_active (fun _ => json_is_true j)) end.

Definition set_video (s : loc) (video : option J) : m unit :=
  match video with
  | None => mret tt
  | Some j =>
      v ← get_session s;
      (if! negb (video_active v) && json_is_true j then send_pli (handle v));;
      update_session s (s_video_active (fun _ => json_is_true j))
  end.

Definition set_bitrate (s : loc) (bitrate_ : option J) : m unit :=
  match bitrate_ with
  | None => mret tt
  | Some j =>
      update_session s (s_bitrate (fun _ => u32 (json_int j)));;
      v ← get_session s;
      if! (0 <? bitrate v)%Z then send_remb (handle v) s
  end.

(** The two layers: the target is set, and the client told at once or a key frame asked for. *)
Definition set_substream (s : loc) (o : option J) : m unit :=
  match o with
  | None => mret tt
  | Some j =>
      update_session s (s_substream_target (fun _ => json_int j));;
      v ← get_session s;
      if (substream_target v =? substream v)%Z
      then call (PushEvent (handle v) None (echo_event [("substream", json_integer (substream v))]) None)
      else send_pli (handle v)
  end.
Definition set_temporal (s : loc) (o : option J) : m unit :=
  match o with
  | None => mret tt
  | Some j =>
      update_session s (s_templayer_target (fun _ => json_int j));;
      v ← get_session s;
      if (templayer_target v =? templayer v)%Z
      then call (PushEvent (handle v) None (echo_event [("temporal", json_integer (templayer v))]) None)
      else send_pli (handle v)
  end.

Definition set_media (s : loc) (sdp : option string) : m unit :=
  match sdp with
  | None => mret tt
  | Some sdp =>
      update_session s (s_has_audio (fun _ => strstr sdp "m=audio"));;
      update_session s (s_has_video (fun _ => strstr sdp "m=video"));;
      update_session s (s_has_data (fun _ => strstr sdp "DTLS/SCTP"))
  end.

(** A recorder, its file named by the client or after the session and the time. *)
Definition open_recorder (s : loc) (base : option string) (codec : option string) (kind : string) : m (option loc) :=
  x ← gets core;
  let name := match base with
    | Some b => b ++ "-" ++ kind
    | None => "echotest-" ++ fmt_pointer s ++ "-" ++ pretty (janus_get_real_time x) ++ "-" ++ kind
    end%string in
  match janus_recorder_create x codec (snprintf 255 name) with
  | None => mret None
  | Some file => r ← alloc; modify (w_recorders <[r := file]>);; mret (Some r)
  end.

Definition start_recording (s : loc) (base : option string) : m unit :=
  v ← get_session s;
  (if! has_audio v then r ← open_recorder s base (acodec v) "audio"; update_session s (s_arc (fun _ => r)));;
  (if! has_video v then
     r ← open_recorder s base (vcodec v) "video";
     update_session s (s_vrc (fun _ => r));;
     send_pli (handle v));;
  (if! has_data v then r ← open_recorder s base (Some "text") "data"; update_session s (s_drc (fun _ => r))).

Definition set_record (s : loc) (record recfile : option J) (sdp : option string) : m unit :=
  match record with
  | None => mret tt
  | Some j =>
      set_media s sdp;;
      rec_lock s;;
      (if json_is_true j then start_recording s (recfile ≫= json_string_value) else close_recorders s);;
      rec_unlock s
  end.

(** *** The offer is answered *)

(** The first attribute that names the stream's id, of every line of video in use; the last
    line decides. *)
Definition rid_attribute (l : sdp_mline) : option sdp_attribute :=
  if bool_decide (mtype l = JANUS_SDP_VIDEO) && (0 <? port l)%Z then
    find (fun a => match value a with Some x => strstr x JANUS_RTP_EXTMAP_RTP_STREAM_ID | None => false end) (attributes l)
  else None.
Definition rid_extmap (lines : list sdp_mline) : Z * mdirection :=
  foldl (fun found l => match rid_attribute l with
                        | Some a => (atoi (default ""%string (value a)), direction a) | None => found end)
    ((-1)%Z, JANUS_SDP_SENDRECV) lines.

Definition deactivate (mt : media) (answer : D) : D :=
  if bool_decide (mline_direction mt answer = Some JANUS_SDP_SENDONLY) then set_mline_direction mt JANUS_SDP_INACTIVE answer else answer.

Definition crlf : string := String (Ascii.ascii_of_nat 13) (String (Ascii.ascii_of_nat 10) EmptyString).
Definition add_extmap (extmap : Z * mdirection) (answer : D) : D :=
  if (-1 <? extmap.1)%Z then
    let dir := match extmap.2 with
      | JANUS_SDP_SENDONLY => "/recvonly" | JANUS_SDP_RECVONLY | JANUS_SDP_INACTIVE => "/inactive" | _ => "" end%string in
    add_to_video_mline "extmap" (pretty extmap.1 ++ dir ++ " " ++ JANUS_RTP_EXTMAP_RTP_STREAM_ID ++ crlf)%string answer
  else answer.

Definition generate_answer (offer : D) : D :=
  add_extmap (rid_extmap (m_lines offer))
    (deactivate JANUS_SDP_VIDEO (deactivate JANUS_SDP_AUDIO (janus_sdp_generate_answer offer))).

(** What the negotiation leaves in the session. *)
Definition negotiate (s : loc) (offer : D) : m D :=
  update_session s (s_rtpmapid_extmap_id (fun _ => (rid_extmap (m_lines offer)).1));;
  let answer := generate_answer offer in
  (if! (janus_sdp_get_codec_pt answer "vp8" <? 0)%Z then update_session s (s_ssrc (fun _ => [0%Z; 0%Z; 0%Z])));;
  v ← get_session s;
  let '(a, vi) := janus_sdp_find_first_codecs answer (acodec v, vcodec v) in
  update_session s (s_acodec (fun _ => a));;
  update_session s (s_vcodec (fun _ => vi));;
  (if! bool_decide (a = None) then update_session s (s_has_audio (fun _ => false)));;
  (if! bool_decide (vi = None) then update_session s (s_has_video (fun _ => false)));;
  mret answer.

Definition ok_event : J := echo_event [("result", json_string "ok")].
Definition error_event (code : Z) (cause : string) : J :=
  echo_event [("error_code", json_integer code); ("error", json_string cause)].

Definition answer_jsep (answer : D) : J :=
  json_object [("type", json_string "answer"); ("sdp", json_string (janus_sdp_write answer))].

(** The event of a message that is served, or the error's code and cause. *)
Definition answer_message (s h : loc) (transaction : option string) (sdp : option string) : m (option (Z * string)) :=
  match sdp with
  | None => call (PushEvent h transaction ok_event None);; mret None
  | Some text =>
      match janus_sdp_parse text with
      | inl e => mret (Some (JANUS_ECHOTEST_ERROR_INVALID_SDP, snprintf 512 ("Error parsing offer: " ++ snprintf 512 e)%string))
      | inr offer =>
          answer ← negotiate s offer;
          update_session s (s_hangingup (fun _ => 0%Z));;
          call (PushEvent h transaction ok_event (Some (answer_jsep answer)));;
          mret None
      end
  end.

Definition no_attributes : string :=
  "Message error: no supported attributes (audio, video, bitrate, simulcast, temporal, record, jsep) found".

Definition enforce_request (s h : loc) (transaction : option string) (root : J) (sdp : option string) : m (option (Z * string)) :=
  let get := json_object_get root in
  set_audio s (get "audio");;
  set_video s (get "video");;
  set_bitrate s (get "bitrate");;
  set_substream s (get "substream");;
  set_temporal s (get "temporal");;
  set_record s (get "record") (get "filename") sdp;;
  set_media s sdp;;
  if forallb (fun o => negb (bool_decide (is_Some o)))
       [get "audio"; get "video"; get "bitrate"; get "substream"; get "temporal"; get "record"] && negb (bool_decide (is_Some sdp))
  then mret (Some (JANUS_ECHOTEST_ERROR_INVALID_ELEMENT, no_attributes))
  else answer_message s h transaction sdp.

(** The request's own part of a turn, up to the error it ends in. *)
Definition handle_request (s h : loc) (msg : janus_echotest_message J) : m (option (Z * string)) :=
  match message msg with
  | None => mret (Some (JANUS_ECHOTEST_ERROR_NO_MESSAGE, "No message??"%string))
  | Some root =>
      if negb (json_is_object root) then mret (Some (JANUS_ECHOTEST_ERROR_INVALID_JSON, "JSON error: not an object"%string))
      else
        set_simulcast s (json_get (jsep msg) "simulcast");;
        match check_request root with
        | Some cause => mret (Some (JANUS_ECHOTEST_ERROR_INVALID_ELEMENT, cause))
        | None => enforce_request s h (transaction msg) root (json_get (jsep msg) "sdp" ≫= json_string_value)
        end
  end.

(** The configuration, for the event handlers. *)
Definition config_info (v : janus_echotest_session K V) (recording : list (string * J)) : J :=
  let at_ (i : nat) := default 0%Z (ssrc v !! i) in
  json_object
    ([("audio_active", json_bool (audio_active v)); ("video_active", json_bool (video_active v));
      ("bitrate", json_integer (bitrate v))] ++
     (if negb (Z.eqb (at_ 0) 0) && negb (Z.eqb (at_ 1) 0) then
        [("simulcast", json_object
           [("ssrc-0", json_integer (at_ 0)); ("ssrc-1", json_integer (at_ 1)); ("ssrc-2", json_integer (at_ 2));
            ("substream", json_integer (substream v)); ("temporal-layer", json_integer (templayer v))])]
      else []) ++ recording).

Definition notify_config (s : loc) : m unit :=
  n ← gets notify_events;
  x ← gets core;
  if! n && events_is_enabled x then
    v ← get_session s;
    recording ← recording_info v;
    call (NotifyEvent (handle v) (config_info v recording)).

(** *** The handler's thread *)

Inductive turn : Type := Blocked | Idle | Took (msg session : loc) | Ended.

(** [g_async_queue_pop] and what follows it under the mutex. *)
Definition handler_take : m turn :=
  ok ← running;
  if negb (ok : bool) then mret Ended
  else
    q ← gets messages;
    q ← deref q;
    match q with
    | [] => mret Blocked
    | msg :: rest =>
        modify (w_messages (fun _ => Some rest));;
        match msg with
        | None => mret Ended
        | Some a =>
            ms ← gets msgs;
            msg ← live (ms !! a);
            match msg_handle msg with
            | None => janus_echotest_message_free (Some a);; mret Idle
            | Some h =>
                sessions_lock;;
                session ← janus_echotest_lookup_session h;
                match session with
                | None => sessions_unlock;; janus_echotest_message_free (Some a);; mret Idle
                | Some s =>
                    v ← get_session s;
                    if negb (destroyed v =? 0)%Z then
                      sessions_unlock;; janus_echotest_message_free (Some a);; mret Idle
                    else sessions_unlock;; mret (Took a s)
                end
            end
        end
    end.

Definition handler_serve (a s : loc) : m unit :=
  ms ← gets msgs;
  msg ← live (ms !! a);
  h ← deref (msg_handle msg);
  e ← handle_request s h msg;
  match e with
  | None => janus_echotest_message_free (Some a);; notify_config s
  | Some (code, cause) =>
      call (PushEvent h (transaction msg) (error_event code cause) None);;
      janus_echotest_message_free (Some a)
  end.

(** A step of the thread: one of the two halves. *)
Definition janus_echotest_handler : m unit :=
  t ← gets handler_thread;
  match t with
  | NotStarted | Left => mret tt
  | Popping =>
      r ← handler_take;
      match r with
      | Blocked | Idle => mret tt
      | Took a s => modify (w_handler_thread (fun _ => Serving a s))
      | Ended => modify (w_handler_thread (fun _ => Left))
      end
  | Serving a s => handler_serve a s;; modify (w_handler_thread (fun _ => Popping))
  end.

(** [g_thread_join(handler_thread)]: its steps until it has ended. *)
Fixpoint join_handler (fuel : nat) : m unit :=
  match fuel with
  | O => crash Fuel
  | S fuel =>
      t ← gets handler_thread;
      match t with NotStarted | Left => mret tt | _ => janus_echotest_handler;; join_handler fuel end
  end.

(** [g_async_queue_unref]: what is left is freed. *)
Fixpoint free_queue (q : list (option loc)) : m unit :=
  match q with [] => mret tt | msg :: q => janus_echotest_message_free msg;; free_queue q end.

Definition janus_echotest_destroy (fuel : nat) : m unit :=
  i ← gets initialized;
  if negb (i : bool) then mret tt
  else
    modify (w_stopping (fun _ => true));;
    q ← gets messages;
    deref q;;
    modify (w_messages (fmap (fun q => q ++ [None])));;
    join_handler fuel;;
    modify (w_handler_thread (fun _ => NotStarted));;
    w ← gets watchdog;
    (if! w then janus_echotest_watchdog;; mret tt);;
    sessions_lock;;
    t ← gets sessions;
    deref t;;
    sessions_unlock;;
    q ← gets messages;
    q ← deref q;
    free_queue q;;
    modify (w_messages (fun _ => None));;
    modify (w_sessions (fun _ => None));;
    modify (w_initialized (fun _ => false));;
    modify (w_stopping (fun _ => false)).
End Code.

End Echo.
