(* ===== verification/EchoSessions.v ===== *)
(** * The echo plug-in's sessions, threads and memory (websocket_10/plugins/janus_echotest.c)

    The invariant of the model of [EchoTest], kept by every operation without a fault under
    the gateway's contract ([allowed]), and what comes of it for messages, the watchdog and
    the end of the plug-in. *)

From S2P Require Import Prelude Jansson Janus EchoTest.

Local Open Scope c_scope.

Module EchoSessions.
Import Echo.

(** The clock is past 0, the mark of a session that is not destroyed. *)
Class EchoLaws (X K V : Type) `{EchoCore X K V} := {
  clock_pos : forall x, (0 < janus_get_monotonic_time x)%Z
}.

Section Invariant.
Context {X D J K V : Type} `{!EchoCore X K V} `{!EchoSdp D} `{!Jansson J} `{!JanssonBool J}.
Implicit Types (w : eworld X J K V) (v : janus_echotest_session K V).

(** ** A session by itself *)

Definition recs v : list loc := omap id [arc v; vrc v; drc v].

Record session_fine v : Prop := {
  fine_ssrc : length (ssrc v) = 3;
  fine_target : (0 <= substream_target v <= 2)%Z;
  fine_substream : (-1 <= substream v <= 2)%Z;
  fine_templayer : (0 <= templayer_target v <= 2)%Z;
  fine_bitrate : (0 <= bitrate v < 2 ^ 32)%Z;
  fine_slowlink : (0 <= slowlink_count v < 65536)%Z
}.

(** [lk] is the session whose recorders are locked, if one is. *)
Record recorders_ok (lk : option loc) w : Prop := {
  rec_locks : forall s v, heap w !! s = Some v -> rec_mutex v = bool_decide (lk = Some s);
  rec_open : forall s v r, heap w !! s = Some v -> r ∈ recs v -> is_Some (recorders w !! r);
  rec_own : forall s1 v1 s2 v2 r, heap w !! s1 = Some v1 -> heap w !! s2 = Some v2 -> r ∈ recs v1 -> r ∈ recs v2 -> s1 = s2;
  rec_once : forall s v, heap w !! s = Some v -> NoDup (recs v);
  rec_fresh : forall r, is_Some (recorders w !! r) -> r < next w
}.

(** ** What the settings do not touch *)

(** A session's handle and its time of destruction. *)
Definition ids w : gmap loc (loc * Z) := (fun v => (handle v, destroyed v)) <$> heap w.

(** The answers to messages: events with a transaction. *)
Definition is_answer (c : callback J) : bool := match c with PushEvent _ (Some _) _ _ => true | _ => false end.
Definition answers w : list (callback J) := List.filter is_answer (calls w).

(** [w] differs from [w0] in the settings and recorders of sessions, the trace and memory taken. *)
Record framed (w0 w : eworld X J K V) : Prop := {
  fr_ids : ids w = ids w0;
  fr_sessions : sessions w = sessions w0;
  fr_old : old_sessions w = old_sessions w0;
  fr_mutex : sessions_mutex w = sessions_mutex w0;
  fr_handles : handles w = handles w0;
  fr_messages : messages w = messages w0;
  fr_msgs : msgs w = msgs w0;
  fr_thread : handler_thread w = handler_thread w0;
  fr_init : initialized w = initialized w0;
  fr_stopping : stopping w = stopping w0;
  fr_gateway : gateway w = gateway w0;
  fr_notify : notify_events w = notify_events w0;
  fr_watchdog : watchdog w = watchdog w0;
  fr_core : core w = core w0;
  fr_next : next w0 <= next w;
  fr_answers : answers w = answers w0
}.

Lemma framed_refl w : framed w w.
Proof. by split. Qed.
Lemma framed_trans w1 w2 w3 : framed w1 w2 -> framed w2 w3 -> framed w1 w3.
Proof. intros [] []. split; try congruence. lia. Qed.

Record fine (lk : option loc) w : Prop := {
  fine_sessions : forall s v, heap w !! s = Some v -> session_fine v;
  fine_recorders : recorders_ok lk w
}.

Definition Fr (lk : option loc) (w0 w : eworld X J K V) : Prop := framed w0 w /\ fine lk w.

Lemma ids_heap w s v : heap w !! s = Some v -> ids w !! s = Some (handle v, destroyed v).
Proof. intros Hv. unfold ids. by rewrite lookup_fmap, Hv. Qed.
Lemma ids_live w s k : ids w !! s = Some k -> exists v, heap w !! s = Some v /\ k = (handle v, destroyed v).
Proof. unfold ids. rewrite lookup_fmap. intros (v & -> & ->)%fmap_Some. eauto. Qed.

Lemma ids_insert w s v v' : heap w !! s = Some v -> handle v' = handle v -> destroyed v' = destroyed v ->
  ids (w_heap <[s := v']> w) = ids w.
Proof.
  intros Hv Hh Hd. unfold ids. cbn [heap w_heap]. rewrite fmap_insert, Hh, Hd. apply insert_id. by rewrite lookup_fmap, Hv.
Qed.

(** ** Steps of a frame *)

Section Frame.
Context (w0 : eworld X J K V) (lk : option loc).

Lemma fr_get s w : Fr lk w0 w -> is_Some (ids w0 !! s) ->
  wp (get_session s) (fun v w' => w' = w /\ heap w !! s = Some v /\ session_fine v) w.
Proof.
  intros [Hf [Hs Hr]] [k Hk]. rewrite <- (fr_ids _ _ Hf) in Hk. apply ids_live in Hk as (v & Hv & _).
  unfold get_session. wp_steps. eapply wp_live; [done|]. split_and!; [done|done|by eapply Hs].
Qed.

(** A session keeps what the tables and recorders know of it. *)
Definition keeps_place (f : janus_echotest_session K V -> janus_echotest_session K V) : Prop :=
  forall v, handle (f v) = handle v /\ destroyed (f v) = destroyed v /\ rec_mutex (f v) = rec_mutex v /\
    arc (f v) = arc v /\ vrc (f v) = vrc v /\ drc (f v) = drc v.

Lemma insert_case (h : gmap loc (janus_echotest_session K V)) s v v1 s1 :
  <[s := v]> h !! s1 = Some v1 -> (s1 = s /\ v1 = v) \/ (s1 <> s /\ h !! s1 = Some v1).
Proof. rewrite lookup_insert_Some. naive_solver. Qed.

Lemma recorders_ok_update s v v' w :
  recorders_ok lk w -> heap w !! s = Some v -> rec_mutex v' = rec_mutex v -> recs v' = recs v ->
  recorders_ok lk (w_heap <[s := v']> w).
Proof.
  intros [Hl Ho Hw Hn Hf] Hv Hm Hr. split; cbn [heap w_heap recorders next]; [..|done].
  - intros s1 v1 [[-> ->]|[_ ?]]%insert_case; [rewrite Hm|]; by apply Hl.
  - intros s1 v1 r [[-> ->]|[_ ?]]%insert_case; [rewrite Hr|]; by eapply Ho.
  - intros s1 v1 s2 v2 r [[-> ->]|[_ ?]]%insert_case [[-> ->]|[_ ?]]%insert_case; rewrite ?Hr; try done; by eapply Hw.
  - intros s1 v1 [[-> ->]|[_ ?]]%insert_case; [rewrite Hr|]; by eapply Hn.
Qed.

Lemma fr_update s f w : Fr lk w0 w -> is_Some (ids w0 !! s) -> keeps_place f ->
  (forall v, heap w !! s = Some v -> session_fine v -> session_fine (f v)) ->
  wp (update_session s f) (fun _ w' => Fr lk w0 w' /\ exists v, heap w !! s = Some v /\ heap w' = <[s := f v]> (heap w)) w.
Proof.
  intros HF Hs Hk Hfine. unfold update_session. hstep fr_get as v ? (-> & Hv & Hfv). wp_steps.
  destruct HF as [Hf [Hss Hr]]. destruct (Hk v) as (Hh & Hd & Hm & Ha & Hvr & Hdr).
  assert (Hrecs : recs (f v) = recs v) by (unfold recs; by rewrite Ha, Hvr, Hdr). split; [split|eauto].
  - eapply framed_trans; [done|]. split; try done. by eapply ids_insert.
  - split; [|by eapply recorders_ok_update]. intros s1 v1 [[-> ->]|[_ ?]]%insert_case; [by apply Hfine|by eapply Hss].
Qed.

Lemma fr_keep s f w : Fr lk w0 w -> is_Some (ids w0 !! s) -> keeps_place f -> (forall v, session_fine v -> session_fine (f v)) ->
  wp (update_session s f) (fun _ w' => Fr lk w0 w') w.
Proof. intros. eapply wp_mono; [by apply fr_update; auto|]. by intros _ w' [? _]. Qed.

Lemma fr_trace c w : Fr lk w0 w -> is_answer c = false -> wp (trace c) (fun _ => Fr lk w0) w.
Proof.
  intros [Hf Hfi] Hc. unfold trace. wp_steps. split.
  - eapply framed_trans; [done|]. split; try done. unfold answers. cbn. by rewrite Hc.
  - destruct Hfi as [Hs [Hl Ho Hw Hn Hfr]]. split; [done|]. by split.
Qed.

Lemma fr_call c w : Fr lk w0 w -> gateway w0 = true -> is_answer c = false -> wp (call c) (fun _ => Fr lk w0) w.
Proof.
  intros HF Hg Hc. unfold call. wp_steps. rewrite (fr_gateway _ _ (proj1 HF)), Hg. by apply fr_trace.
Qed.

Lemma fr_ssrc s i w : Fr lk w0 w -> is_Some (ids w0 !! s) -> (0 <= i <= 2)%Z ->
  wp (ssrc_at s i) (fun z w' => w' = w) w.
Proof.
  intros HF Hs Hi. unfold ssrc_at. hstep fr_get as v ? (-> & Hv & Hfv).
  destruct (Z.ltb_spec i 0); [lia|]. destruct (lookup_lt_is_Some_2 (ssrc v) (Z.to_nat i)) as [z ->]; [rewrite (fine_ssrc _ Hfv); lia|done].
Qed.

Lemma fr_remb h s w : Fr lk w0 w -> is_Some (ids w0 !! s) -> gateway w0 = true -> wp (send_remb h s) (fun _ => Fr lk w0) w.
Proof.
  intros HF Hs Hg. unfold send_remb. hstep fr_get as v ? (-> & Hv & Hfv). hstep (fr_ssrc s 1) as z1 ? ->; [lia|].
  hstep (fr_ssrc s 2) as z2 ? ->; [lia|]. by apply fr_call.
Qed.

Lemma fr_pli h w : Fr lk w0 w -> gateway w0 = true -> wp (send_pli h) (fun _ => Fr lk w0) w.
Proof. intros. by apply fr_call. Qed.
End Frame.

(** ** Recorders *)

Ltac fine_tac := intros ? []; split; cbn in *; (assumption || lia || done).

Definition owns w (s : loc) (r : loc) : Prop := exists v, heap w !! s = Some v /\ r ∈ recs v.

Lemma fr_save_frame w0 lk r buf w : Fr lk w0 w -> (forall a, r = Some a -> exists s, owns w s a) ->
  wp (janus_recorder_save_frame r buf) (fun _ => Fr lk w0) w.
Proof.
  intros HF Hr. unfold janus_recorder_save_frame. destruct r as [a|]; [|by wp_steps]. wp_steps.
  destruct (Hr a eq_refl) as (s & v & Hv & Hin). destruct (rec_open _ _ (fine_recorders _ _ (proj2 HF)) _ _ _ Hv Hin) as [f Hf].
  eapply wp_live; [done|]. cbn beta. wp_steps. by apply fr_trace.
Qed.

(** A member with a recorder. *)
Inductive rec_kind : Type := Arc | Vrc | Drc.
Definition rec_of (k : rec_kind) v : option loc := match k with Arc => arc v | Vrc => vrc v | Drc => drc v end.
Definition s_rec (k : rec_kind) (f : option loc -> option loc) v : janus_echotest_session K V :=
  match k with Arc => s_arc f v | Vrc => s_vrc f v | Drc => s_drc f v end.

Lemma recs_split k v : recs v ≡ₚ option_list (rec_of k v) ++ recs (s_rec k (fun _ => None) v).
Proof. unfold recs. destruct k; cbn; destruct (arc v), (vrc v), (drc v); cbn; try done; solve_Permutation. Qed.
Lemma recs_set k v r : recs (s_rec k (fun _ => r) v) ≡ₚ option_list r ++ recs (s_rec k (fun _ => None) v).
Proof. unfold recs. destruct k; cbn; destruct r, (arc v), (vrc v), (drc v); cbn; try done; solve_Permutation. Qed.
Lemma s_rec_fine k f v : session_fine v -> session_fine (s_rec k f v).
Proof. intros []. destruct k; split; done. Qed.
Lemma s_rec_place k f v : handle (s_rec k f v) = handle v /\ destroyed (s_rec k f v) = destroyed v /\ rec_mutex (s_rec k f v) = rec_mutex v.
Proof. by destruct k. Qed.

(** The recorders behind a change of those of one session: [l] are the ones that remain, [new]
    the one that was opened. *)
Lemma recorders_ok_change lk s v v' w w' (new : option loc) :
  recorders_ok lk w -> heap w !! s = Some v -> heap w' = <[s := v']> (heap w) -> rec_mutex v' = rec_mutex v ->
  (exists l, recs v' ≡ₚ option_list new ++ l /\ (exists l', recs v ≡ₚ l' ++ l /\
     (forall r, r ∉ l' -> is_Some (recorders w !! r) -> is_Some (recorders w' !! r)))) ->
  (forall r, new = Some r -> next w <= r /\ is_Some (recorders w' !! r)) ->
  (forall r, is_Some (recorders w' !! r) -> r < next w') ->
  recorders_ok lk w'.
Proof.
  intros [Hl Ho Hw Hn Hf] Hv Hh Hm (l & Hl1 & l' & Hl2 & Hkeep) Hnew Hfresh.
  assert (Hopt : forall r, r ∈ option_list new <-> new = Some r).
  { intros r. destruct new as [a|]; cbn; rewrite ?list_elem_of_singleton, ?elem_of_nil; naive_solver. }
  assert (Hin : forall r, r ∈ recs v' -> new = Some r \/ (r ∈ l /\ r ∈ recs v)).
  { intros r. rewrite Hl1, elem_of_app, Hopt. intros [?|?]; [by left|right; split; [done|]].
    rewrite Hl2. set_solver. }
  assert (Hold : forall s1 v1 r, heap w !! s1 = Some v1 -> r ∈ recs v1 -> r < next w).
  { intros s1 v1 r H1 H2. apply Hf. by eapply Ho. }
  assert (Hnd : NoDup (l' ++ l)) by (rewrite <- Hl2; by eapply Hn).
  split; [..|done]; rewrite Hh.
  - intros s1 v1 [[-> ->]|[_ ?]]%insert_case; [rewrite Hm|]; by apply Hl.
  - intros s1 v1 r [[-> ->]|[Hne H1]]%insert_case Hr.
    + destruct (Hin r Hr) as [->|[Hrl Hrv]]; [by apply Hnew|]. apply Hkeep; [|by eapply Ho].
      intros Hr'. apply NoDup_app in Hnd as (_ & Hd & _). by eapply Hd.
    + apply Hkeep; [|by eapply Ho]. intros Hr'. apply Hne. symmetry. eapply (Hw s v s1 v1 r); try done. rewrite Hl2. set_solver.
  - assert (Hone : forall s1 v1 r, r ∈ recs v' -> s1 <> s -> heap w !! s1 = Some v1 -> r ∈ recs v1 -> False).
    { intros s1 v1 r Hr Hne H1 H2. destruct (Hin r Hr) as [Hr'|[_ Hr']].
      - destruct (Hnew r Hr') as [Hle _]. pose proof (Hold _ _ _ H1 H2). lia.
      - apply Hne. by eapply Hw. }
    intros s1 v1 s2 v2 r [[-> ->]|[? H1]]%insert_case [[-> ->]|[? H2]]%insert_case Hr1 Hr2; try done.
    + by destruct (Hone s2 v2 r).
    + by destruct (Hone s1 v1 r).
    + by eapply Hw.
  - intros s1 v1 [[-> ->]|[_ H1]]%insert_case; [|by eapply Hn]. rewrite Hl1. apply NoDup_app. split_and!.
    + destruct new; [apply NoDup_singleton|apply NoDup_nil_2].
    + intros r Hr Hrl. apply Hopt in Hr. destruct (Hnew r Hr) as [Hle _].
      assert (r < next w) by (eapply (Hold s v); [done|]; rewrite Hl2; set_solver). lia.
    + by apply NoDup_app in Hnd as (_ & _ & ?).
Qed.

(** The state behind a change of session [s]. *)
Lemma fr_change w0 lk s v v' w w' :
  Fr lk w0 w -> heap w !! s = Some v -> heap w' = <[s := v']> (heap w) -> handle v' = handle v -> destroyed v' = destroyed v ->
  session_fine v' -> recorders_ok lk w' -> framed (w_heap (fun _ => heap w') w) w' -> Fr lk w0 w'.
Proof.
  intros [Hf [Hs Hr]] Hv Hh Hhv Hd Hfv Hr' Hf'. split.
  - eapply framed_trans; [done|]. eapply framed_trans; [|done]. split; try done.
    rewrite Hh. by eapply (ids_insert w).
  - split; [|done]. rewrite Hh. intros s1 v1 [[-> ->]|[_ ?]]%insert_case; [done|by eapply Hs].
Qed.

Lemma fr_close w0 lk k s w : Fr lk w0 w -> is_Some (ids w0 !! s) ->
  wp (v ← get_session s; close_recorder (rec_of k v);; update_session s (s_rec k (fun _ => None))) (fun _ => Fr lk w0) w.
Proof.
  intros HF Hs. hstep fr_get as v ? (-> & Hv & Hfv). destruct (s_rec_place k (fun _ => None) v) as (Hh & Hd & Hm).
  pose proof (fine_recorders _ _ (proj2 HF)) as Hrec. pose proof (recs_split k v) as Hsp.
  unfold close_recorder. destruct (rec_of k v) as [r|] eqn:Hk.
  - assert (Hr : r ∈ recs v) by (rewrite Hsp; by left).
    destruct (rec_open _ _ Hrec _ _ _ Hv Hr) as [f Hf]. wp_steps. eapply wp_live; [done|]. cbn beta. unfold trace. wp_steps.
    unfold update_session, get_session. wp_steps. eapply wp_live; [done|]. cbn beta. wp_steps.
    eapply fr_change; [done|done|done|done|done|by apply s_rec_fine| |by split].
    eapply (recorders_ok_change lk s v _ w _ None); try done.
    + exists (recs (s_rec k (fun _ => None) v)). split; [done|]. exists [r]. split; [done|]. cbn. intros r' Hne Hr'.
      rewrite lookup_delete_ne by set_solver. done.
    + cbn. intros r' [? Hr']. apply lookup_delete_Some in Hr' as [_ Hr']. eapply rec_fresh; eauto.
  - wp_steps. unfold update_session, get_session. wp_steps. eapply wp_live; [done|]. cbn beta. wp_steps.
    eapply fr_change; [done|done|done|done|done|by apply s_rec_fine| |by split].
    eapply (recorders_ok_change lk s v _ w _ None); try done.
    + exists (recs (s_rec k (fun _ => None) v)). split; [done|]. by exists [].
    + intros r' Hr'. by apply (rec_fresh _ _ Hrec).
Qed.

Lemma fr_close_then w0 lk k s (k' : M (eworld X J K V) unit) w : Fr lk w0 w -> is_Some (ids w0 !! s) ->
  (forall w', Fr lk w0 w' -> wp k' (fun _ => Fr lk w0) w') ->
  wp (v ← get_session s; close_recorder (rec_of k v);; update_session s (s_rec k (fun _ => None));; k') (fun _ => Fr lk w0) w.
Proof.
  intros HF Hs Hk. pose proof (fr_close w0 lk k s w HF Hs) as Hc. unfold wp, mbind, M_bind in *.
  destruct (get_session s w) as [[v w1]|]; [|done]. destruct (close_recorder _ w1) as [[[] w2]|]; [|done].
  destruct (update_session s _ w2) as [[[] w3]|]; [|done]. by apply Hk.
Qed.

Lemma fr_close_recorders w0 lk s w : Fr lk w0 w -> is_Some (ids w0 !! s) -> wp (close_recorders s) (fun _ => Fr lk w0) w.
Proof.
  intros HF Hs. apply (fr_close_then w0 lk Arc s); [done|done|]. intros w1 HF1.
  apply (fr_close_then w0 lk Vrc s); [done|done|]. intros w2 HF2. by apply (fr_close w0 lk Drc s).
Qed.

Lemma fr_open w0 lk k s base codec kind w : Fr lk w0 w -> is_Some (ids w0 !! s) ->
  wp (r ← open_recorder s base codec kind; update_session s (s_rec k (fun _ => r))) (fun _ => Fr lk w0) w.
Proof.
  intros HF Hs. pose proof (fr_get w0 lk s w HF Hs) as (v & ? & Hg & -> & Hv & Hfv)%wp_run. clear Hg.
  destruct (s_rec_place k (fun _ => None) v) as (Hh & Hd & Hm). pose proof (fine_recorders _ _ (proj2 HF)) as Hrec.
  pose proof (recs_split k v) as Hsp.
  unfold open_recorder. wp_steps. destruct (janus_recorder_create _ _ _) as [file|].
  - unfold alloc. wp_steps. unfold update_session, get_session. wp_steps. eapply wp_live; [done|]. cbn beta. wp_steps.
    eapply (fr_change w0 lk s v); [done|done|done|by destruct k|by destruct k|by apply s_rec_fine| |by split; try done; cbn; lia].
    eapply (recorders_ok_change lk s v _ w _ (Some (next w))); try done.
    + by destruct k.
    + exists (recs (s_rec k (fun _ => None) v)). split; [apply recs_set|]. eexists. split; [exact Hsp|].
      cbn. intros r' _ Hr'. destruct (decide (r' = next w)) as [->|]; [by rewrite lookup_insert_eq|by rewrite lookup_insert_ne].
    + intros r' [= <-]. cbn. by rewrite lookup_insert_eq.
    + cbn. intros r' [f [[<- _]|[_ Hr']]%lookup_insert_Some]; [lia|]. assert (r' < next w) by by eapply rec_fresh. lia.
  - wp_steps. unfold update_session, get_session. wp_steps. eapply wp_live; [done|]. cbn beta. wp_steps.
    eapply (fr_change w0 lk s v); [done|done|done|by destruct k|by destruct k|by apply s_rec_fine| |by split].
    eapply (recorders_ok_change lk s v _ w _ None); try done.
    + exists (recs (s_rec k (fun _ => None) v)). split; [done|]. eexists. split; [exact Hsp|done].
    + intros r' Hr'. by apply (rec_fresh _ _ Hrec).
Qed.

(** The recorders of one session at a time are locked. *)
Lemma fr_lock w0 s w (lk lk' : option loc) (b : bool) : Fr lk w0 w -> is_Some (ids w0 !! s) ->
  b = bool_decide (lk' = Some s) -> (forall s', s' <> s -> bool_decide (lk = Some s') = bool_decide (lk' = Some s')) ->
  wp (update_session s (s_rec_mutex (fun _ => b))) (fun _ => Fr lk' w0) w.
Proof.
  intros HF Hs Hb Hlk. unfold update_session. hstep fr_get as v ? (-> & Hv & Hfv). wp_steps. destruct HF as [Hf [Hss [Hl Ho Hw Hn Hfr]]]. split.
  - eapply framed_trans; [done|]. split; try done. by eapply (ids_insert w).
  - split.
    + intros s1 v1 [[-> ->]|[_ ?]]%insert_case; [|by eapply Hss]. destruct Hfv. by split.
    + split; [..|done]; cbn [heap w_heap recorders].
      * intros s1 v1 [[-> ->]|[Hne ?]]%insert_case; [done|]. rewrite <- (Hlk s1) by done. by apply Hl.
      * intros s1 v1 r [[-> ->]|[_ ?]]%insert_case; [|by eapply Ho]. by apply (Ho s v).
      * intros s1 v1 s2 v2 r [[-> ->]|[_ ?]]%insert_case [[-> ->]|[_ ?]]%insert_case; try done.
        -- by apply (Hw s v s2 v2).
        -- by apply (Hw s1 v1 s v).
        -- by eapply Hw.
      * intros s1 v1 [[-> ->]|[_ ?]]%insert_case; [|by eapply Hn]. by apply (Hn s v).
Qed.

Lemma fr_rec_lock w0 s w : Fr None w0 w -> is_Some (ids w0 !! s) -> wp (rec_lock s) (fun _ => Fr (Some s) w0) w.
Proof.
  intros HF Hs. unfold rec_lock. hstep fr_get as v ? (-> & Hv & Hfv).
  rewrite (rec_locks _ _ (fine_recorders _ _ (proj2 HF)) _ _ Hv). cbn.
  eapply fr_lock; [done|done|by rewrite bool_decide_true|]. intros s' Hne. rewrite !bool_decide_false; [done|naive_solver|done].
Qed.

Lemma fr_rec_unlock w0 s w : Fr (Some s) w0 w -> is_Some (ids w0 !! s) -> wp (rec_unlock s) (fun _ => Fr None w0) w.
Proof.
  intros HF Hs. unfold rec_unlock. hstep fr_get as v ? (-> & Hv & Hfv).
  rewrite (rec_locks _ _ (fine_recorders _ _ (proj2 HF)) _ _ Hv), bool_decide_true by done.
  eapply fr_lock; [done|done|done|]. intros s' Hne. rewrite !bool_decide_false; [done|done|naive_solver].
Qed.

(** ** A request *)

Lemma fr_seq {A : Type} w0 lk lk' (m1 : M (eworld X J K V) unit) (m2 : M (eworld X J K V) A) (Q : A -> eworld X J K V -> Prop) w :
  wp m1 (fun _ => Fr lk w0) w -> (forall w', Fr lk w0 w' -> wp m2 Q w') -> lk' = lk -> wp (m1;; m2) Q w.
Proof. intros H1 H2 _. apply wp_bind. eapply wp_mono; [done|]. intros [] w' HF. by apply H2. Qed.

Ltac fseq := eapply fr_seq; [|intros ? ?|reflexivity].
Ltac fkeep := eapply fr_keep; [eassumption|eassumption|by intros ?|fine_tac].
Ltac fget v Hv Hfv := apply wp_bind; eapply wp_mono; [eapply fr_get; eassumption|cbn beta; intros v ? (-> & Hv & Hfv)].

Section Request.
Context (w0 : eworld X J K V) (s : loc) (Hlive : is_Some (ids w0 !! s)) (Hgate : gateway w0 = true).

Lemma fr_when lk b (m1 : M (eworld X J K V) unit) w :
  Fr lk w0 w -> (forall w', Fr lk w0 w' -> wp m1 (fun _ => Fr lk w0) w') -> wp (if! b then m1) (fun _ => Fr lk w0) w.
Proof. intros HF Hm. apply wp_when; auto. Qed.

Lemma fr_set_simulcast o w : Fr None w0 w -> wp (set_simulcast s o) (fun _ => Fr None w0) w.
Proof. intros HF. destruct o as [j|]; [|done]. unfold set_simulcast. cbv zeta. fseq; [fkeep|]. fseq; fkeep. Qed.

Lemma fr_set_audio o w : Fr None w0 w -> wp (set_audio s o) (fun _ => Fr None w0) w.
Proof. intros HF. destruct o as [j|]; [|done]. unfold set_audio. fkeep. Qed.

Lemma fr_set_video o w : Fr None w0 w -> wp (set_video s o) (fun _ => Fr None w0) w.
Proof.
  intros HF. destruct o as [j|]; [|done]. unfold set_video. fget v Hv Hfv.
  fseq; [apply fr_when; [done|]; intros; by apply fr_pli|]. fkeep.
Qed.

Lemma fr_set_bitrate o w : Fr None w0 w -> wp (set_bitrate s o) (fun _ => Fr None w0) w.
Proof.
  intros HF. destruct o as [j|]; [|done]. unfold set_bitrate. fseq.
  - eapply fr_keep; [done|done|by intros ?|]. intros ? []. split; cbn; try done. apply u32_range.
  - fget v Hv Hfv. apply fr_when; [done|]. intros. by apply fr_remb.
Qed.

Lemma fr_set_layer (f : (Z -> Z) -> janus_echotest_session K V -> janus_echotest_session K V) (target now_on : janus_echotest_session K V -> Z) key j w :
  Fr None w0 w -> is_layer j = true -> keeps_place (f (fun _ => json_int j)) ->
  (forall v, session_fine v -> (0 <= json_int j <= 2)%Z -> session_fine (f (fun _ => json_int j) v)) ->
  wp (update_session s (f (fun _ => json_int j));;
      v ← get_session s;
      if (target v =? now_on v)%Z then call (PushEvent (handle v) None (echo_event [(key, json_integer (now_on v))]) None)
      else send_pli (handle v)) (fun _ => Fr None w0) w.
Proof.
  intros HF Hj Hp Hfi. unfold is_layer in Hj. apply andb_prop in Hj as [[_ H1%Z.leb_le]%andb_prop H2%Z.leb_le].
  fseq; [eapply fr_keep; [done|done|done|]; auto|]. fget v Hv Hfv. destruct (_ =? _)%Z; [by apply fr_call|by apply fr_pli].
Qed.

Lemma valid_member (o : option J) ok j : invalid o ok = false -> o = Some j -> ok j = true.
Proof. intros Hi ->. cbn in Hi. by apply negb_false_iff in Hi. Qed.

Lemma fr_set_substream o w : Fr None w0 w -> invalid o is_layer = false -> wp (set_substream s o) (fun _ => Fr None w0) w.
Proof.
  intros HF Ho. destruct o as [j|]; [|done]. apply (fr_set_layer s_substream_target substream_target substream); [done| | |].
  - by eapply valid_member.
  - by intros ?.
  - intros v [] ?. by split.
Qed.

Lemma fr_set_temporal o w : Fr None w0 w -> invalid o is_layer = false -> wp (set_temporal s o) (fun _ => Fr None w0) w.
Proof.
  intros HF Ho. destruct o as [j|]; [|done]. apply (fr_set_layer s_templayer_target templayer_target templayer); [done| | |].
  - by eapply valid_member.
  - by intros ?.
  - intros v [] ?. by split.
Qed.

Lemma fr_set_media o w : Fr None w0 w -> wp (set_media s o) (fun _ => Fr None w0) w.
Proof. intros HF. destruct o as [sdp|]; [|done]. unfold set_media. fseq; [fkeep|]. fseq; fkeep. Qed.

Lemma fr_start_recording lk base w : Fr lk w0 w -> wp (start_recording s base) (fun _ => Fr lk w0) w.
Proof.
  intros HF. unfold start_recording. fget v Hv Hfv.
  fseq; [apply fr_when; [done|]; intros; by apply (fr_open w0 lk Arc)|].
  fseq; [apply fr_when; [done|]; intros|apply fr_when; [done|]; intros; by apply (fr_open w0 lk Drc)].
  assert (Hassoc : forall (f : option loc -> M (eworld X J K V) unit) Q u, wp ((r ← open_recorder s base (vcodec v) "video"; f r);; send_pli (handle v)) Q u ->
    wp (r ← open_recorder s base (vcodec v) "video"; f r;; send_pli (handle v)) Q u).
  { intros f Q u. unfold wp. by rewrite bind_assoc. }
  apply Hassoc. fseq; [by apply (fr_open w0 lk Vrc)|]. by apply fr_pli.
Qed.

Lemma fr_set_record record recfile sdp w : Fr None w0 w -> wp (set_record s record recfile sdp) (fun _ => Fr None w0) w.
Proof.
  intros HF. destruct record as [j|]; [|done]. unfold set_record. fseq; [by apply fr_set_media|]. fseq; [by apply fr_rec_lock|].
  fseq; [destruct (json_is_true j); [by apply fr_start_recording|by apply fr_close_recorders]|]. by apply fr_rec_unlock.
Qed.

Lemma fr_negotiate offer w : Fr None w0 w -> wp (negotiate s offer) (fun _ => Fr None w0) w.
Proof.
  intros HF. unfold negotiate. fseq; [fkeep|]. cbv zeta. fseq; [apply fr_when; [done|]; intros; fkeep|]. fget v Hv Hfv.
  destruct (janus_sdp_find_first_codecs _ _) as [a vi]. fseq; [fkeep|]. fseq; [fkeep|].
  fseq; [apply fr_when; [done|]; intros; fkeep|]. fseq; [apply fr_when; [done|]; intros; fkeep|]. by wp_steps.
Qed.

(** *** The answer *)

Lemma check_layers root : check_request root = None ->
  invalid (json_object_get root "substream") is_layer = false /\ invalid (json_object_get root "temporal") is_layer = false.
Proof.
  unfold check_request. cbv zeta.
  repeat match goal with |- (if ?b then _ else _) = None -> _ => destruct b eqn:?; [discriminate|] end.
  by intros _.
Qed.

Lemma answer_run h t ev js w : gateway w = true ->
  call (PushEvent h t ev js) w = Done (tt, w_calls (cons (PushEvent h t ev js)) w).
Proof. intros Hg. unfold call. run eq_refl. by rewrite Hg. Qed.

Lemma fr_enforce h t root sdp w : Fr None w0 w -> check_request root = None ->
  wp (enforce_request s h t root sdp)
    (fun e w' => match e with Some _ => Fr None w0 w' | None => exists js w1, Fr None w0 w1 /\
       w' = w_calls (cons (PushEvent h t ok_event js)) w1 end) w.
Proof.
  intros HF [Hsub Htem]%check_layers. unfold enforce_request. cbv zeta. fseq; [by apply fr_set_audio|]. fseq; [by apply fr_set_video|].
  fseq; [by apply fr_set_bitrate|]. fseq; [by apply fr_set_substream|]. fseq; [by apply fr_set_temporal|].
  fseq; [by apply fr_set_record|]. fseq; [by apply fr_set_media|]. destruct (forallb _ _ && _); [by wp_steps|].
  unfold answer_message.
  assert (Hsend : forall js u, Fr None w0 u -> wp (call (PushEvent h t ok_event js);; mret (None : option (Z * string)))
    (fun e w' => match e with Some _ => Fr None w0 w' | None => exists js w1, Fr None w0 w1 /\
       w' = w_calls (cons (PushEvent h t ok_event js)) w1 end) u).
  { intros js u HFu. unfold wp. rewrite (bind_step _ _ _ _ _ (answer_run h t ok_event js u ltac:(by rewrite (fr_gateway _ _ (proj1 HFu))))).
    cbn. eauto. }
  destruct sdp as [text|]; [|by apply Hsend]. destruct (janus_sdp_parse text) as [e|offer]; [by wp_steps|].
  apply wp_bind. eapply wp_mono; [by apply fr_negotiate|]. cbn beta. intros answer w2 HF2. fseq; [fkeep|]. by apply Hsend.
Qed.

(** ** A message gets one answer *)

Lemma fr_handle h msg w : Fr None w0 w ->
  wp (handle_request s h msg)
    (fun e w' => match e with Some _ => Fr None w0 w' | None => exists js w1, Fr None w0 w1 /\
       w' = w_calls (cons (PushEvent h (transaction msg) ok_event js)) w1 end) w.
Proof.
  intros HF. unfold handle_request. destruct (message msg) as [root|]; [|by wp_steps]. destruct (negb _); [by wp_steps|].
  fseq; [by apply fr_set_simulcast|]. destruct (check_request root) as [c|] eqn:Hc; [by wp_steps|]. by apply fr_enforce.
Qed.
End Request.

(** ** The invariant *)

Definition in_hand w : list loc := match handler_thread w with Serving a _ => [a] | _ => [] end.

(** The plug-in between [init] and the end of [destroy]; [st]: it is stopping; [lk]:
    [sessions_mutex] is held. *)
Record eokx (st lk : bool) w : Prop := {
  eok_fine : fine None w;
  eok_mutex : sessions_mutex w = lk;
  eok_running : initialized w = true /\ stopping w = st /\ gateway w = true;
  eok_queue : exists q, messages w = Some q /\ NoDup (omap id q ++ in_hand w) /\
    (forall a, is_Some (msgs w !! a) <-> a ∈ omap id q ++ in_hand w);
  eok_serving : forall a s, handler_thread w = Serving a s -> exists msg h, msgs w !! a = Some msg /\ msg_handle msg = Some h;
  eok_table : exists t, sessions w = Some t /\ (forall h s, t !! h = Some s <-> ids w !! s = Some (h, 0%Z)) /\
    (forall h s, t !! h = Some s -> exists st, handles w !! h = Some (PluginSession (Some s) st));
  eok_old : NoDup (old_sessions w) /\
    (forall s, s ∈ old_sessions w <-> exists h d, ids w !! s = Some (h, d) /\ d <> 0%Z);
  eok_next : (forall s, is_Some (ids w !! s) -> s < next w) /\ (forall a, is_Some (msgs w !! a) -> a < next w)
}.
Arguments eok_fine {st}.
Arguments eok_mutex {st}.
Arguments eok_running {st}.
Arguments eok_queue {st}.
Arguments eok_serving {st}.
Arguments eok_table {st}.
Arguments eok_old {st}.
Arguments eok_next {st}.
Definition eok (lk : bool) w : Prop := eokx false lk w.

Lemma eok_framed st lk w0 w : eokx st lk w0 -> Fr None w0 w -> eokx st lk w.
Proof.
  intros [Hf Hm Hr Hq Hs Ht Ho [Hn1 Hn2]] [Hfr Hfi]. destruct Hfr. unfold in_hand in *.
  split; unfold in_hand; rewrite ?fr_ids0, ?fr_sessions0, ?fr_old0, ?fr_mutex0, ?fr_handles0, ?fr_messages0, ?fr_msgs0, ?fr_thread0, ?fr_init0, ?fr_stopping0, ?fr_gateway0; try done.
  split; intros a Ha; [apply Hn1 in Ha|apply Hn2 in Ha]; lia.
Qed.

Lemma fr_start st lk w : eokx st lk w -> Fr None w w.
Proof. intros Hok. split; [apply framed_refl|apply Hok]. Qed.

Lemma eok_calls st lk c w : eokx st lk w -> eokx st lk (w_calls (cons c) w).
Proof. intros [Hf Hm Hr Hq Hs Ht Ho Hn]. split; try done. destruct Hf as [Hss [? ? ? ? ?]]. split; [done|]. by split. Qed.

Lemma running_run lk w : eok lk w -> running w = Done (true, w).
Proof. intros Hok. destruct (eok_running _ _ Hok) as (Hi & Hs & _). unfold running, gets, mbind, M_bind. cbn. by rewrite Hi, Hs. Qed.

Lemma elock_run w : sessions_mutex w = false -> sessions_lock w = Done (tt, w_sessions_mutex (fun _ => true) w).
Proof. intros Hm. unfold sessions_lock. run eq_refl. by rewrite Hm. Qed.
Lemma eunlock_run w : sessions_mutex w = true -> sessions_unlock w = Done (tt, w_sessions_mutex (fun _ => false) w).
Proof. intros Hm. unfold sessions_unlock. run eq_refl. by rewrite Hm. Qed.

Lemma eok_mutex_set b lk w : eok lk w -> eok b (w_sessions_mutex (fun _ => b) w).
Proof. intros [Hf Hm Hr Hq Hs Ht Ho Hn]. split; try done. destruct Hf as [Hss [? ? ? ? ?]]. split; [done|]. by split. Qed.

(** What is found for a handle is its entry of the table. *)
Lemma lookup_run lk w t h : eok lk w -> sessions w = Some t -> janus_echotest_lookup_session h w = Done (t !! h, w).
Proof.
  intros Hok Ht. destruct (eok_table _ _ Hok) as (t' & Ht' & _ & Hh). rewrite Ht in Ht'. injection Ht' as <-.
  unfold janus_echotest_lookup_session. run eq_refl. rewrite Ht. run eq_refl. destruct (t !! h) as [s|] eqn:Hs; [|done].
  destruct (Hh _ _ Hs) as [st Hst]. unfold get_handle. rewrite bind_assoc. run eq_refl. rewrite Hst. done.
Qed.

Lemma table_live lk w t h s : eok lk w -> sessions w = Some t -> t !! h = Some s ->
  exists v, heap w !! s = Some v /\ handle v = h /\ destroyed v = 0%Z.
Proof.
  intros Hok Ht Hs. destruct (eok_table _ _ Hok) as (t' & Ht' & Hi & _). rewrite Ht in Ht'. injection Ht' as <-.
  apply Hi in Hs. apply ids_live in Hs as (v & Hv & [= ? ?]). eauto.
Qed.

(** ** The operations *)

(** A call under [sessions_mutex], on the session of a handle. *)
Lemma locked_op {A : Type} h (none : M (eworld X J K V) A) (some : loc -> M (eworld X J K V) A) w :
  eok false w ->
  (forall u, eok true u -> framed (w_sessions_mutex (fun _ => true) w) u -> wp none (fun _ => eok false) u) ->
  (forall u s v, eok true u -> framed (w_sessions_mutex (fun _ => true) w) u -> heap u !! s = Some v -> handle v = h -> destroyed v = 0%Z ->
     ids u !! s = Some (h, 0%Z) -> wp (some s) (fun _ => eok false) u) ->
  wp (sessions_lock;; session ← janus_echotest_lookup_session h;
      match session with None => none | Some s => some s end) (fun _ => eok false) w.
Proof.
  intros Hok Hnone Hsome. unfold wp. run (elock_run w (eok_mutex _ _ Hok)).
  set (u := w_sessions_mutex _ w). assert (Hu : eok true u) by (by apply (eok_mutex_set true false)).
  destruct (eok_table _ _ Hu) as (t & Ht & Hi & _). run (lookup_run true u t h Hu Ht).
  destruct (t !! h) as [s|] eqn:Hs.
  - destruct (table_live true u t h s Hu Ht Hs) as (v & Hv & Hh & Hd). apply (Hsome u s v); [done|apply framed_refl|done|done|done|by apply Hi].
  - apply (Hnone u); [done|apply framed_refl].
Qed.

Lemma unlock_ok w : eok true w -> wp sessions_unlock (fun _ => eok false) w.
Proof. intros Hok. unfold wp. rewrite (eunlock_run w (eok_mutex _ _ Hok)). by apply (eok_mutex_set false true). Qed.

Lemma unlock_ret_ok {A : Type} (a : A) w : eok true w -> wp (sessions_unlock;; mret a) (fun _ => eok false) w.
Proof. intros Hok. apply wp_bind. eapply wp_mono; [by apply unlock_ok|]. by intros [] w' Hw. Qed.

Lemma fr_file w0 lk r s v w : Fr lk w0 w -> heap w !! s = Some v -> (forall a, r = Some a -> a ∈ recs v) ->
  wp (recorder_file r) (fun _ w' => w' = w) w.
Proof.
  intros HF Hv Hr. unfold recorder_file. destruct r as [a|]; [|by wp_steps]. wp_steps.
  destruct (rec_open _ _ (fine_recorders _ _ (proj2 HF)) _ _ _ Hv (Hr a eq_refl)) as [f Hf]. by eapply wp_live.
Qed.

Lemma rec_of_recs k v a : rec_of k v = Some a -> a ∈ recs v.
Proof. intros Hk. rewrite (recs_split k v), Hk. by left. Qed.

Lemma fr_recording_info w0 lk s v w : Fr lk w0 w -> heap w !! s = Some v ->
  wp (recording_info v) (fun _ w' => w' = w) w.
Proof.
  intros HF Hv. unfold recording_info.
  hstep (fr_file w0 lk (arc v) s v) as a ? ->; [intros ?; apply (rec_of_recs Arc)|].
  hstep (fr_file w0 lk (vrc v) s v) as b ? ->; [intros ?; apply (rec_of_recs Vrc)|].
  hstep (fr_file w0 lk (drc v) s v) as c ? ->; [intros ?; apply (rec_of_recs Drc)|]. by wp_steps.
Qed.

Ltac fwhen := apply fr_when; [eassumption|intros ? ?].

Lemma query_ok h w : eok false w -> wp (janus_echotest_query_session h) (fun _ => eok false) w.
Proof.
  intros Hok. unfold janus_echotest_query_session, wp. run (running_run _ _ Hok). cbn [negb].
  apply locked_op; [done| |].
  - intros u Hu _. by apply unlock_ret_ok.
  - intros u s v Hu _ Hv _ _ Hid. pose proof (fr_start _ _ _ Hu) as HF. assert (Hlive : is_Some (ids u !! s)) by eauto.
    fget v1 Hv1 Hfv1. hstep fr_recording_info as info ? ->. by apply unlock_ret_ok.
Qed.

Lemma setup_media_ok h w : eok false w -> wp (janus_echotest_setup_media h) (fun _ => eok false) w.
Proof.
  intros Hok. unfold janus_echotest_setup_media, wp. run (running_run _ _ Hok). cbn [negb].
  apply locked_op; [done| |].
  - intros u Hu _. by apply unlock_ok.
  - intros u s v Hu _ Hv _ _ Hid. pose proof (fr_start _ _ _ Hu) as HF. assert (Hlive : is_Some (ids u !! s)) by eauto.
    fget v1 Hv1 Hfv1. destruct (negb _); [by apply unlock_ok|]. fseq; [fkeep|]. apply unlock_ok. by eapply eok_framed.
Qed.

Lemma lower_bitrate_range b : (0 <= b < 2 ^ 32)%Z -> (65536 <= lower_bitrate b < 2 ^ 32)%Z.
Proof.
  intros Hb. unfold lower_bitrate. cbv zeta. destruct (Z.ltb_spec 0 b).
  - pose proof (Z.div_le_upper_bound b 2 b ltac:(lia) ltac:(lia)). destruct (Z.ltb_spec (b / 2) (64 * 1024)); lia.
  - by vm_compute.
Qed.

Lemma slow_link_ok ps uplink video w : eok false w -> (forall h, ps = Some h -> is_Some (handles w !! h)) ->
  wp (janus_echotest_slow_link ps uplink video) (fun _ => eok false) w.
Proof.
  intros Hok Hps. unfold janus_echotest_slow_link. destruct ps as [h|]; [|by wp_steps].
  destruct (Hps h eq_refl) as [hv Hhv]. unfold get_handle, wp. rewrite bind_assoc. run eq_refl. rewrite Hhv. run eq_refl.
  run (running_run _ _ Hok). rewrite orb_false_r. destruct (stopped hv); [done|]. apply locked_op; [done| |].
  - intros u Hu _. by apply unlock_ok.
  - intros u s v Hu _ Hv _ _ Hid. pose proof (fr_start _ _ _ Hu) as HF. assert (Hlive : is_Some (ids u !! s)) by eauto.
    assert (Hgate : gateway u = true) by apply (eok_running _ _ Hu).
    fget v1 Hv1 Hfv1. destruct (negb (_ =? _)%Z); [by apply unlock_ok|]. fseq; [eapply fr_keep; [done|done|by intros ?|]|].
    { intros ? []. split; cbn; try done. apply (wrap_range 16). lia. }
    assert (Hrest : forall u', Fr None u u' -> wp sessions_unlock (fun _ => eok false) u').
    { intros u' HF'. apply unlock_ok. by eapply eok_framed. }
    destruct (_ || _); [apply wp_bind; wp_steps; by apply Hrest|]. fseq; [|by apply Hrest]. fwhen.
    fseq; [eapply fr_keep; [done|done|by intros ?|]|].
    { intros v2 []. split; cbn; try done. pose proof (lower_bitrate_range (bitrate v2)). lia. }
    fseq; [by apply fr_remb|]. fget v2 Hv2 Hfv2. by apply fr_call.
Qed.

(** The media is gone: the controls are as in a new session. *)
Lemma fr_hangup lk h w : eok lk w -> wp (janus_echotest_hangup_media_internal h) (fun _ => Fr None w) w.
Proof.
  intros Hok. unfold janus_echotest_hangup_media_internal, wp. run (running_run _ _ Hok). cbn [negb].
  destruct (eok_table _ _ Hok) as (t & Ht & Hi & _). run (lookup_run lk w t h Hok Ht). pose proof (fr_start _ _ _ Hok) as HF.
  destruct (t !! h) as [s|] eqn:Hs; [|done]. apply Hi in Hs. assert (Hlive : is_Some (ids w !! s)) by eauto.
  assert (Hgate : gateway w = true) by apply (eok_running _ _ Hok).
  fget v Hv Hfv. destruct (negb (destroyed v =? 0)%Z); [done|]. fseq; [fkeep|]. destruct (negb _); [done|].
  fseq; [by apply fr_call|]. fseq; [by apply fr_rec_lock|]. fseq; [by apply fr_close_recorders|]. fseq; [by apply fr_rec_unlock|].
  eapply fr_keep; [done|done|by intros ?|]. intros v1 []. split; cbn; try done; lia.
Qed.

Lemma hangup_ok h w : eok false w -> wp (janus_echotest_hangup_media h) (fun _ => eok false) w.
Proof.
  intros Hok. unfold janus_echotest_hangup_media, wp. run (elock_run w (eok_mutex _ _ Hok)).
  assert (Hu : eok true (w_sessions_mutex (fun _ => true) w)) by (by apply (eok_mutex_set true false)).
  fseq; [by eapply fr_hangup|]. apply unlock_ok. by eapply eok_framed.
Qed.

(** *** Sessions come and go *)

Lemma fine_new_session s h lk w : fine lk w -> lk <> Some s -> fine lk (w_heap <[s := new_session h]> w).
Proof.
  intros [Hss [Hl Ho Hw Hn Hf]] Hlk. assert (Hnew : recs (new_session (K := K) (V := V) h) = []) by done. split; [|split; [..|done]]; cbn [heap w_heap recorders].
  - intros s1 v1 [[-> ->]|[_ ?]]%insert_case; [|by eapply Hss]. by split; cbn; lia.
  - intros s1 v1 [[-> ->]|[_ ?]]%insert_case; [by rewrite bool_decide_false|by apply Hl].
  - intros s1 v1 r [[-> ->]|[_ ?]]%insert_case; [by rewrite Hnew; intros ?%elem_of_nil|by eapply Ho].
  - intros s1 v1 s2 v2 r [[-> ->]|[_ ?]]%insert_case [[-> ->]|[_ ?]]%insert_case; try done.
    + by rewrite Hnew; intros ?%elem_of_nil.
    + by rewrite Hnew; intros ? ?%elem_of_nil.
    + by eapply Hw.
  - intros s1 v1 [[-> ->]|[_ ?]]%insert_case; [|by eapply Hn]. rewrite Hnew. apply NoDup_nil_2.
Qed.

Lemma fine_ext lk w w' : fine lk w -> heap w' = heap w -> recorders w' = recorders w -> next w <= next w' -> fine lk w'.
Proof.
  intros [Hss [Hl Ho Hw Hn Hf]] Hh Hr Hnx. split; [by rewrite Hh|]. split; rewrite ?Hh, ?Hr; try done. intros r Hrr. pose proof (Hf r Hrr). lia.
Qed.

Lemma create_session_ok h st w : eok false w -> handles w !! h = Some (PluginSession None st) ->
  wp (janus_echotest_create_session h) (fun e w' => e = 0%Z /\ eok false w') w.
Proof.
  intros Hok Hh. unfold janus_echotest_create_session, wp. run (running_run _ _ Hok). cbn [negb]. unfold alloc. rewrite bind_assoc.
  run eq_refl. rewrite bind_assoc. run eq_refl. run eq_refl. run eq_refl. unfold get_handle. rewrite bind_assoc. run eq_refl.
  cbn [handles w_heap w_next]. rewrite Hh. run eq_refl. run eq_refl.
  run (elock_run (w_handles _ (w_heap _ (w_next _ w))) (eok_mutex _ _ Hok)). run eq_refl. run (eunlock_run (w_sessions _ (w_sessions_mutex _ _)) eq_refl).
  cbn [stopped]. split; [done|]. destruct Hok as [Hf Hm Hr Hq Hs (t & Ht & Hi & Hhs) [Ho1 Ho2] [Hn1 Hn2]].
  assert (Hsn : ids w !! next w = None).
  { destruct (ids w !! next w) eqn:E; [|done]. assert (next w < next w) by (apply Hn1; eauto). lia. }
  assert (Hids : forall w', heap w' = <[next w := new_session h]> (heap w) -> ids w' = <[next w := (h, 0%Z)]> (ids w)).
  { intros w' E. unfold ids. by rewrite E, fmap_insert. }
  match goal with |- eok _ ?x => pose proof (Hids x eq_refl) as Hidx end.
  assert (Hth : t !! h = None).
  { destruct (t !! h) as [s|] eqn:E; [|done]. destruct (Hhs _ _ E) as [? E2]. rewrite Hh in E2. done. }
  split; try done.
  - eapply (fine_ext None (w_heap <[next w := new_session h]> w)); [by apply fine_new_session|done|done|cbn; lia].
  - cbn [sessions w_sessions w_sessions_mutex w_handles w_heap w_next]. rewrite Ht. eexists. split; [done|]. split.
    + intros h' s'. rewrite Hidx, !lookup_insert_Some, Hi. split.
      * intros [[<- <-]|[Hne Hl]]; [by left|]. right. split; [|done]. intros <-. by rewrite Hsn in Hl.
      * intros [[<- [= <-]]|[Hne Hl]]; [by left|]. right. split; [|done]. intros <-. apply Hi in Hl. by rewrite Hth in Hl.
    + intros h' s' [[<- <-]|[Hne Hl]]%lookup_insert_Some; cbn [handles w_sessions_mutex w_sessions w_handles w_heap].
      * rewrite lookup_insert_eq. eauto.
      * rewrite lookup_insert_ne by done. by apply Hhs.
  - split; [done|]. intros s'. cbn [old_sessions w_sessions w_sessions_mutex w_handles w_heap w_next]. rewrite Ho2, Hidx.
    split; intros (h' & d & Hl & Hd); exists h', d; (split; [|done]).
    + apply lookup_insert_Some. right. split; [|done]. intros <-. by rewrite Hsn in Hl.
    + apply lookup_insert_Some in Hl as [[_ [= <- <-]]|[_ ?]]; done.
  - rewrite Hidx. cbn [next w_sessions w_sessions_mutex w_handles w_heap w_next msgs]. split.
    + intros s' [k [[<- _]|[_ Hl]]%lookup_insert_Some]; [lia|]. assert (s' < next w) by (apply Hn1; eauto). lia.
    + intros a Ha. specialize (Hn2 a Ha). lia.
Qed.

(** A session of the table is marked and moved to the old ones. *)
Lemma eok_retire h s v d w : eok true w -> heap w !! s = Some v -> handle v = h -> destroyed v = 0%Z -> d <> 0%Z ->
  eok true (w_old_sessions (fun l => l ++ [s]) (w_sessions (fmap (delete h)) (w_heap <[s := s_destroyed (fun _ => d) v]> w))).
Proof.
  intros [Hf Hm Hr Hq Hs (t & Ht & Hi & Hhs) [Ho1 Ho2] [Hn1 Hn2]] Hv Hh Hd Hd'.
  assert (Hid : ids w !! s = Some (h, 0%Z)) by (rewrite (ids_heap _ _ _ Hv); by rewrite Hh, Hd).
  assert (Hids : forall w', heap w' = <[s := s_destroyed (fun _ => d) v]> (heap w) -> ids w' = <[s := (h, d)]> (ids w)).
  { intros w' E. unfold ids. rewrite E, fmap_insert. by subst h. }
  match goal with |- eok _ ?x => pose proof (Hids x eq_refl) as Hidx end.
  assert (Hnew : s ∉ old_sessions w).
  { intros (h' & d' & Hl & Hne)%Ho2. rewrite Hid in Hl. injection Hl as <- <-. done. }
  destruct Hf as [Hss Hrec]. split; try done.
  - eapply (fine_ext None (w_heap <[s := s_destroyed (fun _ => d) v]> w)); [|done|done|done].
    split; [|by apply (recorders_ok_update None s v _ w)]. intros s1 v1 [[-> ->]|[_ ?]]%insert_case; [|by eapply Hss].
    destruct (Hss _ _ Hv). by split.
  - cbn [sessions w_old_sessions w_sessions w_heap]. rewrite Ht. eexists. split; [done|]. split.
    + intros h' s'. rewrite Hidx, lookup_delete_Some, lookup_insert_Some, Hi. split.
      * intros [Hne Hl]. right. split; [|done]. intros <-. rewrite Hid in Hl. by injection Hl.
      * intros [[_ [= _ ?]]|[Hne Hl]]; [done|]. split; [|done]. intros <-. apply Hi in Hl, Hid. rewrite Hid in Hl. by injection Hl.
    + intros h' s' [_ Hl]%lookup_delete_Some. by apply Hhs.
  - cbn [old_sessions w_old_sessions w_sessions w_heap]. split.
    + apply NoDup_app. split_and!; [done| |apply NoDup_singleton]. intros s' ? ->%list_elem_of_singleton. done.
    + intros s'. rewrite elem_of_app, list_elem_of_singleton, Hidx, Ho2. split.
      * intros [(h' & d' & Hl & Hne)| ->]; [|exists h, d; by rewrite lookup_insert_eq].
        exists h', d'. rewrite lookup_insert_ne; [done|]. intros <-. rewrite Hid in Hl. injection Hl as <- <-. done.
      * intros (h' & d' & [[<- _]|[_ Hl]]%lookup_insert_Some & Hne); [by right|left; eauto].
  - rewrite Hidx. cbn [next w_old_sessions w_sessions w_heap msgs]. split; [|done].
    intros s' [k [[<- _]|[_ Hl]]%lookup_insert_Some]; apply Hn1; eauto.
Qed.

Lemma destroy_session_ok `{!EchoLaws X K V} h w : eok false w -> wp (janus_echotest_destroy_session h) (fun _ => eok false) w.
Proof.
  intros Hok. unfold janus_echotest_destroy_session, wp. run (running_run _ _ Hok). cbn [negb]. apply locked_op; [done| |].
  - intros u Hu _. by apply unlock_ret_ok.
  - intros u s v Hu _ Hv Hh Hd Hid. unfold get_session. wp_steps. eapply wp_live; [done|]. cbn beta. rewrite Hd. cbn [Z.eqb].
    cbn [whenM]. apply wp_bind, wp_bind. eapply wp_mono; [by eapply fr_hangup|]. cbn beta. intros [] u1 HF1.
    pose proof (eok_framed _ _ _ _ Hu HF1) as Hu1. assert (Hid1 : ids u1 !! s = Some (h, 0%Z)) by (by rewrite (fr_ids _ _ (proj1 HF1))).
    apply ids_live in Hid1 as (v1 & Hv1 & [= Hh1 Hd1]). unfold now, update_session, get_session. wp_steps.
    eapply wp_live; [done|]. cbn beta. wp_steps.
    apply unlock_ok. eapply (eok_retire h s v1); try done. pose proof (clock_pos (core u1)). lia.
Qed.

(** *** The watchdog *)

Lemma NoDup_filter_bool {A : Type} (f : A -> bool) (l : list A) : NoDup l -> NoDup (List.filter f l).
Proof.
  induction 1 as [|x l Hx Hnd IH]; cbn; [constructor|]. destruct (f x); [|done]. constructor; [|done].
  rewrite list_elem_of_In, filter_In, <- list_elem_of_In. by intros [].
Qed.

(** A session five seconds or more after its destruction. *)
Definition expired (now : Z) v : bool := (5 * 1000000 <=? now - destroyed v)%Z.

Lemma sweep_run now sl w : NoDup sl -> (forall s, s ∈ sl -> is_Some (heap w !! s)) ->
  exists hp rest, sweep now sl w = Done (rest, w_heap (fun _ => hp) w) /\
    (forall s, hp !! s = if bool_decide (s ∈ sl) && default false (expired now <$> heap w !! s) then None else heap w !! s) /\
    rest = List.filter (fun s => negb (default false (expired now <$> heap w !! s))) sl.
Proof.
  revert w. induction sl as [|s sl IH]; intros w Hnd Hlive.
  - exists (heap w), []. split_and!; [by destruct w|done|done].
  - apply NoDup_cons in Hnd as [Hs Hnd]. destruct (Hlive s) as [v Hv]; [by left|]. cbn [sweep]. unfold get_session.
    rewrite bind_assoc. run eq_refl. rewrite Hv. run eq_refl. fold (expired now v). destruct (expired now v) eqn:He.
    + run eq_refl. destruct (IH (w_heap (delete s) w)) as (hp & rest & Hr & Hhp & Hrest); [done| |].
      { intros s' Hs'. cbn. rewrite lookup_delete_ne by (intros ->; done). apply Hlive. by right. }
      exists hp, rest. rewrite Hr. split_and!; [done| |].
      * intros s'. rewrite Hhp. cbn. destruct (decide (s' = s)) as [->|Hne].
        -- rewrite lookup_delete_eq, (bool_decide_true (s ∈ s :: sl)) by (by left). rewrite Hv. cbn. rewrite He. by destruct (bool_decide _).
        -- rewrite lookup_delete_ne by done. erewrite (bool_decide_ext (s' ∈ s :: sl)); [done|set_solver].
      * rewrite Hrest. cbn. rewrite Hv. cbn. rewrite He. cbn. apply List.filter_ext_in. intros s' Hs'%list_elem_of_In.
        by rewrite lookup_delete_ne by (intros ->; done).
    + destruct (IH w) as (hp & rest & Hr & Hhp & Hrest); [done|intros s' Hs'; apply Hlive; by right|].
      run Hr. exists hp, (s :: rest). split_and!; [done| |].
      * intros s'. rewrite Hhp. destruct (decide (s' = s)) as [->|Hne].
        -- rewrite Hv. cbn. rewrite He. by rewrite !andb_false_r.
        -- erewrite (bool_decide_ext (s' ∈ s :: sl)); [done|set_solver].
      * cbn. rewrite Hv. cbn. rewrite He. cbn. by f_equal.
Qed.

Lemma old_live lk w s : eok lk w -> s ∈ old_sessions w -> is_Some (heap w !! s).
Proof. intros Hok (h & d & Hl & _)%(proj2 (eok_old _ _ Hok)). apply ids_live in Hl as (v & Hv & _). eauto. Qed.

(** What one turn of the watchdog does to memory and to the list. *)
Lemma watchdog_run w : eok false w ->
  exists hp, janus_echotest_watchdog w =
    Done (true, w_old_sessions (fun _ => List.filter (fun s => negb (default false (expired (janus_get_monotonic_time (core w)) <$> heap w !! s))) (old_sessions w))
                  (w_heap (fun _ => hp) w)) /\
    (forall s, hp !! s = if bool_decide (s ∈ old_sessions w) && default false (expired (janus_get_monotonic_time (core w)) <$> heap w !! s)
                         then None else heap w !! s).
Proof.
  intros Hok. unfold janus_echotest_watchdog. run (running_run _ _ Hok). cbn [negb]. run (elock_run w (eok_mutex _ _ Hok)).
  unfold now. rewrite bind_assoc. run eq_refl. run eq_refl. run eq_refl. set (u := w_sessions_mutex _ w).
  destruct (sweep_run (janus_get_monotonic_time (core u)) (old_sessions u) u) as (hp & rest & Hr & Hhp & Hrest).
  { apply (eok_old _ _ Hok). }
  { intros s Hs. by eapply (old_live false w). }
  run Hr. run eq_refl. run (eunlock_run (w_old_sessions _ (w_heap _ u)) eq_refl). exists hp. split; [|done]. rewrite Hrest.
  destruct w. cbn. pose proof (eok_mutex _ _ Hok) as Hm. cbn in Hm. by subst.
Qed.

Lemma recorders_ok_sub lk w hp : recorders_ok lk w -> (forall s v, hp !! s = Some v -> heap w !! s = Some v) ->
  recorders_ok lk (w_heap (fun _ => hp) w).
Proof. intros [Hl Ho Hw Hn Hf] Hsub. split; cbn [heap w_heap recorders next]; eauto. Qed.

Lemma watchdog_ok `{!EchoLaws X K V} w : eok false w -> wp janus_echotest_watchdog (fun _ => eok false) w.
Proof.
  intros Hok. destruct (watchdog_run w Hok) as (hp & Hr & Hhp). unfold wp. rewrite Hr. clear Hr.
  set (tm := janus_get_monotonic_time (core w)) in *.
  assert (Hsub : forall s v, hp !! s = Some v -> heap w !! s = Some v).
  { intros s v. rewrite Hhp. by destruct (_ && _). }
  destruct Hok as [[Hss Hrec] Hm Hr Hq Hs (t & Ht & Hi & Hhs) [Ho1 Ho2] [Hn1 Hn2]].
  match goal with |- eok _ ?x => set (u := x) end.
  assert (Hidu : forall s k, ids u !! s = Some k <->
    ids w !! s = Some k /\ (s ∈ old_sessions w -> exists v, heap w !! s = Some v /\ expired tm v = false)).
  { intros s k. unfold ids, u. cbn [heap w_old_sessions w_heap]. rewrite !lookup_fmap, Hhp.
    destruct (heap w !! s) as [v|] eqn:Hv; cbn; [|rewrite andb_false_r; split; [done|by intros []]].
    destruct (bool_decide_reflect (s ∈ old_sessions w)) as [Hin|Hin]; cbn; [|split; [by intros ->|by intros []]].
    destruct (expired tm v) eqn:He; cbn; (split; [|intros [Hk Hx]]).
    - done.
    - destruct (Hx Hin) as (v0 & [= <-] & Hv0). congruence.
    - intros ->. eauto.
    - done. }
  assert (Holdu : forall s, s ∈ old_sessions u <-> s ∈ old_sessions w /\ exists v, heap w !! s = Some v /\ expired tm v = false).
  { intros s. unfold u. cbn [old_sessions w_old_sessions]. rewrite list_elem_of_In, filter_In, <- list_elem_of_In.
    split; intros [Hin Hx]; (split; [done|]).
    - destruct (heap w !! s) as [v|] eqn:Hv; [|apply Ho2 in Hin as (? & ? & (v & Hv' & _)%ids_live & _); congruence].
      cbn in Hx. exists v. by rewrite <- negb_true_iff.
    - destruct Hx as (v & -> & He). cbn. by rewrite He. }
  split; try done.
  - split; [intros s v Hv; by eapply Hss, Hsub|]. eapply (fine_ext None (w_heap (fun _ => hp) w)); [|done|done|done].
    split; [intros s v Hv; by eapply Hss, Hsub|by apply recorders_ok_sub].
  - exists t. split; [done|]. split; [|done]. intros h s. rewrite Hidu, Hi. split; [|by intros []]. intros Hl. split; [done|].
    intros (h' & d & Hl' & Hd)%Ho2. rewrite Hl in Hl'. injection Hl' as <- <-. done.
  - split; [by apply NoDup_filter_bool|]. intros s. rewrite Holdu, Ho2. split.
    + intros [(h & d & Hl & Hd) Hx]. exists h, d. rewrite Hidu. done.
    + intros (h & d & [Hl Hx]%Hidu & Hd). split; [by eauto|]. apply Hx, Ho2. eauto.
  - split; [|done]. intros s [k [Hl _]%Hidu]. apply Hn1. eauto.
Qed.

(** *** Messages *)

Lemma handle_message_ok h t m j w : eok false w ->
  wp (janus_echotest_handle_message h t m j)
     (fun r w' => Janus.r_type r = Janus.JANUS_PLUGIN_OK_WAIT /\ eok false w' /\
        messages w' = (fun q => q ++ [Some (next w)]) <$> messages w /\
        msgs w' = <[next w := EchoMessage h t m j]> (msgs w)) w.
Proof.
  intros Hok. unfold janus_echotest_handle_message, wp. run (running_run _ _ Hok). cbn [negb]. unfold alloc. rewrite bind_assoc.
  run eq_refl. rewrite bind_assoc. run eq_refl. run eq_refl. run eq_refl. run eq_refl.
  destruct (eok_queue _ _ Hok) as (q & Hq & Hnd & Hms). cbn [messages w_msgs w_next]. rewrite Hq. run eq_refl. run eq_refl.
  split; [done|]. split; [|by cbn; rewrite Hq]. destruct Hok as [Hf Hm Hr _ Hs Ht Ho [Hn1 Hn2]].
  assert (Hfresh : next w ∉ omap id q ++ in_hand w).
  { intros Hin%Hms%Hn2. lia. }
  split; try done.
  - by eapply (fine_ext None w); [|done|done|cbn; lia].
  - exists (q ++ [Some (next w)]). split; [cbn; by rewrite Hq|]. unfold in_hand in *. cbn [handler_thread w_messages w_msgs w_next msgs].
    rewrite omap_app. cbn [omap list_omap id].
    assert (Hp : (omap id q ++ [next w]) ++ in_hand w ≡ₚ next w :: omap id q ++ in_hand w) by solve_Permutation.
    unfold in_hand in Hp. rewrite Hp. split; [by constructor|]. intros a. rewrite Hp, elem_of_cons, <- Hms. unfold is_Some.
    destruct (decide (a = next w)) as [->|Hne]; [rewrite lookup_insert_eq; split; [by left|eauto]|].
    rewrite lookup_insert_ne by done. split; [by right|by intros [|]].
  - intros a s Ha. destruct (Hs a s Ha) as (msg & h' & Hmsg & Hh'). exists msg, h'. split; [|done]. cbn.
    apply lookup_insert_Some. right. split; [|done]. intros <-. assert (next w < next w) by (apply Hn2; eauto). lia.
  - cbn [next w_messages w_msgs w_next msgs]. split.
    + intros s Hids. specialize (Hn1 s Hids). lia.
    + intros a [x [[<- _]|[_ Hx]]%lookup_insert_Some]; [lia|]. assert (a < next w) by (apply Hn2; eauto). lia.
Qed.

Lemma message_free_run a msg w : msgs w !! a = Some msg -> janus_echotest_message_free (Some a) w = Done (tt, w_msgs (delete a) w).
Proof. intros Hm. unfold janus_echotest_message_free. run eq_refl. rewrite Hm. by run eq_refl. Qed.

(** The queue is one shorter, and its first message freed or in hand. *)
Lemma eok_drop a rest w : eok false w -> messages w = Some (Some a :: rest) -> in_hand w = [] ->
  eok false (w_msgs (delete a) (w_messages (fun _ => Some rest) w)).
Proof.
  intros [Hf Hm Hr (q & Hq & Hnd & Hms) Hs Ht Ho [Hn1 Hn2]] Hq' Hth. rewrite Hq in Hq'. injection Hq' as ->.
  rewrite Hth, app_nil_r in Hnd, Hms. cbn in Hnd, Hms. apply NoDup_cons in Hnd as [Ha Hnd]. split; try done.
  - by eapply (fine_ext None w).
  - exists rest. split; [done|]. unfold in_hand in *. cbn [handler_thread w_messages w_msgs msgs]. rewrite Hth, app_nil_r. split; [done|].
    intros b. destruct (decide (b = a)) as [->|Hne]; [rewrite lookup_delete_eq; split; [by intros []|done]|].
    rewrite lookup_delete_ne by done. rewrite Hms. set_solver.
  - intros b s Hb. exfalso. cbn in Hb. unfold in_hand in Hth. by rewrite Hb in Hth.
  - split; [done|]. cbn. intros b [x [_ Hx]%lookup_delete_Some]. apply Hn2. eauto.
Qed.

Lemma eok_in_hand a rest s msg h w : eok false w -> messages w = Some (Some a :: rest) -> in_hand w = [] ->
  msgs w !! a = Some msg -> msg_handle msg = Some h ->
  eok false (w_handler_thread (fun _ => Serving a s) (w_messages (fun _ => Some rest) w)).
Proof.
  intros [Hf Hm Hr (q & Hq & Hnd & Hms) Hs Ht Ho Hn] Hq' Hth Hmsg Hh. rewrite Hq in Hq'. injection Hq' as ->.
  rewrite Hth, app_nil_r in Hnd, Hms. cbn in Hnd, Hms. apply NoDup_cons in Hnd as [Ha Hnd]. split; try done.
  - by eapply (fine_ext None w).
  - exists rest. split; [done|]. unfold in_hand. cbn [handler_thread w_handler_thread w_messages msgs].
    rewrite (Permutation_app_comm _ [a]). cbn. split; [by constructor|]. intros b. rewrite Hms. set_solver.
  - intros b s' [= <- <-]. eauto.
Qed.

Lemma eok_finish st a s w : eokx st false w -> handler_thread w = Serving a s ->
  eokx st false (w_handler_thread (fun _ => Popping) (w_msgs (delete a) w)).
Proof.
  intros [Hf Hm Hr (q & Hq & Hnd & Hms) Hs Ht Ho [Hn1 Hn2]] Hth. unfold in_hand in Hnd, Hms. rewrite Hth in Hnd, Hms.
  rewrite (Permutation_app_comm _ [a]) in Hnd. cbn in Hnd. apply NoDup_cons in Hnd as [Ha Hnd]. split; try done.
  - by eapply (fine_ext None w).
  - exists q. split; [done|]. unfold in_hand. cbn [handler_thread w_handler_thread msgs w_msgs]. rewrite app_nil_r. split; [done|].
    intros b. destruct (decide (b = a)) as [->|Hne]; [rewrite lookup_delete_eq; split; [by intros []|done]|].
    rewrite lookup_delete_ne by done. rewrite Hms, elem_of_app, list_elem_of_singleton. naive_solver.
  - split; [done|]. cbn. intros b [x [_ Hx]%lookup_delete_Some]. apply Hn2. eauto.
Qed.

Lemma framed_thread th w w' : framed w w' -> framed (w_handler_thread (fun _ => th) w) (w_handler_thread (fun _ => th) w').
Proof. intros []. by split. Qed.

(** The second half of a turn: the message is freed, and has had one event with its
    transaction: "ok", or an error. *)
Lemma served_ok st a s h msg w : eokx st false w -> handler_thread w = Serving a s -> msgs w !! a = Some msg -> msg_handle msg = Some h ->
  is_Some (heap w !! s) ->
  wp janus_echotest_handler (fun _ w' => eokx st false w' /\ handler_thread w' = Popping /\ msgs w' = delete a (msgs w) /\
    (sessions w' = sessions w /\ messages w' = messages w /\ ids w' = ids w) /\
    forall t, transaction msg = Some t -> exists ev js, answers w' = PushEvent h (Some t) ev js :: answers w /\
      (ev = ok_event \/ exists code cause, ev = error_event code cause /\ js = None)) w.
Proof.
  intros Hok Hth Hmsg Hh [v Hv]. pose proof (ids_heap _ _ _ Hv) as Hid. pose proof (fr_start _ _ _ Hok) as HF.
  assert (Hgate : gateway w = true) by apply (eok_running _ _ Hok).
  unfold janus_echotest_handler, wp. run eq_refl. rewrite Hth. unfold handler_serve. rewrite bind_assoc. run eq_refl. rewrite Hmsg.
  rewrite bind_assoc. run eq_refl. rewrite Hh, bind_assoc. run eq_refl. rewrite bind_assoc. apply wp_bind.
  eapply wp_mono; [eapply (fr_handle w s); eauto|]. cbn beta. intros e w1 Hpost.
  assert (Hanswer : forall ev js u, Fr None w u -> forall w', (w' = w_calls (cons (PushEvent h (transaction msg) ev js)) u) ->
    eokx st false w' /\ handler_thread w' = Serving a s /\ msgs w' = msgs w /\ gateway w' = true /\
    (sessions w' = sessions w /\ messages w' = messages w /\ ids w' = ids w) /\
    forall t, transaction msg = Some t -> answers w' = PushEvent h (Some t) ev js :: answers w).
  { intros ev js u HFu w' ->. pose proof HFu as [Hfr _]. split_and!; try apply Hfr.
    - apply eok_calls. by eapply eok_framed.
    - rewrite <- Hth. apply Hfr.
    - rewrite <- Hgate. apply Hfr.
    - intros t Ht. unfold answers. cbn. rewrite Ht. cbn. f_equal. apply Hfr. }
  destruct e as [[code cause]|].
  - destruct (Hanswer (error_event code cause) None w1 Hpost _ eq_refl) as (Hok2 & Hth2 & Hms2 & Hg2 & (Hse2 & Hme2 & Hid2) & Hans).
    assert (Hg1 : gateway w1 = true) by (rewrite <- Hgate; apply Hpost).
    unfold wp. rewrite bind_assoc. run (answer_run h (transaction msg) (error_event code cause) None w1 Hg1).
    set (w2 := w_calls _ w1) in *. run (message_free_run a msg w2 ltac:(by rewrite Hms2)). split_and!; [by eapply eok_finish|done|by rewrite <- Hms2|by rewrite <- Hse2|by rewrite <- Hme2|by rewrite <- Hid2|].
    intros t Ht. exists (error_event code cause), None. split; [apply (Hans t Ht)|right; eauto].
  - destruct Hpost as (js & w2 & HF2 & ->). destruct (Hanswer ok_event js w2 HF2 _ eq_refl) as (Hok2 & Hth2 & Hms2 & Hg2 & (Hse2 & Hme2 & Hid2) & Hans).
    set (w3 := w_calls _ w2) in *. unfold wp. rewrite bind_assoc. run (message_free_run a msg w3 ltac:(by rewrite Hms2)).
    pose proof (eok_finish st a s w3 Hok2 Hth2) as Hok4. set (w4 := w_msgs (delete a) w3) in *.
    assert (HF4 : Fr None w4 w4) by (split; [apply framed_refl|by eapply (fine_ext None w3); [apply Hok2|done..]]).
    assert (Hlive : is_Some (ids w4 !! s)).
    { change (ids w4) with (ids w2). rewrite (fr_ids _ _ (proj1 HF2)). eauto. }
    assert (Hnotify : wp (notify_config s) (fun _ => Fr None w4) w4).
    { unfold notify_config. wp_steps. fwhen. fget v5 Hv5 Hfv5. hstep fr_recording_info as info ? ->. by apply fr_call. }
    apply wp_bind. eapply wp_mono; [exact Hnotify|]. cbn beta. intros [] w5 HF5. wp_steps. split_and!.
    + eapply eok_framed; [exact Hok4|]. split; [by apply framed_thread; apply HF5|]. by eapply (fine_ext None w5); [apply HF5|done..].
    + done.
    + rewrite <- Hms2. apply (fr_msgs _ _ (proj1 HF5)).
    + rewrite <- Hse2. apply (fr_sessions _ _ (proj1 HF5)).
    + rewrite <- Hme2. apply (fr_messages _ _ (proj1 HF5)).
    + rewrite <- Hid2. apply (fr_ids _ _ (proj1 HF5)).
    + intros t Ht. exists ok_event, js. split; [|by left]. change (answers w5 = PushEvent h (Some t) ok_event js :: answers w).
      rewrite (fr_answers _ _ (proj1 HF5)). apply (Hans t Ht).
Qed.

Lemma thread_popping w : handler_thread w = Popping -> w_handler_thread (fun _ => Popping) w = w.
Proof. intros Hth. destruct w. cbn in *. by subst. Qed.

Lemma eok_exit rest w : eok false w -> messages w = Some (None :: rest) -> handler_thread w = Popping ->
  eok false (w_handler_thread (fun _ => Left) (w_messages (fun _ => Some rest) w)).
Proof.
  intros [Hf Hm Hr (q & Hq & Hnd & Hms) Hs Ht Ho Hn] Hq' Hth. rewrite Hq in Hq'. injection Hq' as ->. unfold in_hand in Hnd, Hms.
  rewrite Hth in Hnd, Hms. split; try done.
  - by eapply (fine_ext None w).
  - by exists rest.
Qed.

(** The first half: the next message is in hand if its session is there, else it is freed. *)
Lemma take_lookup w a rest msg h t : eok false w -> handler_thread w = Popping -> messages w = Some (Some a :: rest) ->
  msgs w !! a = Some msg -> msg_handle msg = Some h -> sessions w = Some t ->
  janus_echotest_handler w = Done (tt, match t !! h with
    | Some s => w_handler_thread (fun _ => Serving a s) (w_messages (fun _ => Some rest) w)
    | None => w_msgs (delete a) (w_messages (fun _ => Some rest) w) end).
Proof.
  intros Hok Hth Hq Hmsg Hh Ht. unfold janus_echotest_handler. run eq_refl. rewrite Hth. unfold handler_take. rewrite bind_assoc.
  run (running_run _ _ Hok). cbn [negb]. rewrite bind_assoc. run eq_refl. rewrite Hq, bind_assoc. run eq_refl.
  rewrite bind_assoc. run eq_refl. set (u := w_messages _ w). rewrite bind_assoc. run eq_refl.
  change (msgs u) with (msgs w). rewrite Hmsg, bind_assoc. run eq_refl. rewrite Hh.
  rewrite bind_assoc. run (elock_run u (eok_mutex _ _ Hok)). set (u1 := w_sessions_mutex _ u). rewrite bind_assoc.
  destruct (eok_table _ _ Hok) as (t' & Ht' & Hi & Hhs). rewrite Ht in Ht'. injection Ht' as <-.
  assert (Hlook : janus_echotest_lookup_session h u1 = Done (t !! h, u1)).
  { unfold janus_echotest_lookup_session. run eq_refl. change (sessions u1) with (sessions w). rewrite Ht. run eq_refl.
    destruct (t !! h) as [s|] eqn:Hs; [|done]. destruct (Hhs _ _ Hs) as [st Hst]. unfold get_handle. rewrite bind_assoc.
    run eq_refl. change (handles u1) with (handles w). by rewrite Hst. }
  assert (Hunlock : sessions_unlock u1 = Done (tt, u)).
  { rewrite (eunlock_run u1 eq_refl). pose proof (eok_mutex _ _ Hok) as Hm. unfold u1, u. destruct w. cbn in *. by subst. }
  run Hlook. destruct (t !! h) as [s|] eqn:Hs.
  - destruct (table_live false w t h s Hok Ht Hs) as (v & Hv & Hhv & Hd). rewrite bind_assoc. unfold get_session at 1.
    rewrite bind_assoc. run eq_refl. change (heap u1) with (heap w). rewrite Hv. run eq_refl. rewrite Hd. cbn [Z.eqb negb].
    rewrite bind_assoc. run Hunlock. by run eq_refl.
  - rewrite !bind_assoc. run Hunlock. rewrite bind_assoc. run (message_free_run a msg u Hmsg). by run eq_refl.
Qed.

Lemma take_ok w : eok false w -> handler_thread w = Popping -> wp janus_echotest_handler (fun _ => eok false) w.
Proof.
  intros Hok Hth. destruct (eok_queue _ _ Hok) as (q & Hq & Hnd & Hms). assert (Hhand : in_hand w = []) by (unfold in_hand; by rewrite Hth).
  destruct q as [|[a|] rest].
  - unfold janus_echotest_handler, wp. run eq_refl. rewrite Hth. unfold handler_take. rewrite bind_assoc. run (running_run _ _ Hok).
    cbn [negb]. rewrite bind_assoc. run eq_refl. by rewrite Hq.
  - assert (Ha : is_Some (msgs w !! a)) by (apply Hms; by left). destruct Ha as [msg Hmsg].
    pose proof (eok_drop a rest w Hok Hq Hhand) as Hdrop. destruct (msg_handle msg) as [h|] eqn:Hh.
    + destruct (eok_table _ _ Hok) as (t & Ht & _). unfold wp. rewrite (take_lookup w a rest msg h t Hok Hth Hq Hmsg Hh Ht).
      destruct (t !! h) as [s|]; [by eapply eok_in_hand|done].
    + unfold janus_echotest_handler, wp. run eq_refl. rewrite Hth. unfold handler_take. rewrite bind_assoc. run (running_run _ _ Hok).
      cbn [negb]. rewrite bind_assoc. run eq_refl. rewrite Hq, bind_assoc. run eq_refl. rewrite bind_assoc. run eq_refl. rewrite bind_assoc.
      run eq_refl. cbn [msgs w_messages]. rewrite Hmsg, bind_assoc. run eq_refl. rewrite Hh, bind_assoc.
      run (message_free_run a msg (w_messages _ w) Hmsg). by run eq_refl.
  - unfold janus_echotest_handler, wp. run eq_refl. rewrite Hth. unfold handler_take. rewrite bind_assoc. run (running_run _ _ Hok).
    cbn [negb]. rewrite bind_assoc. run eq_refl. rewrite Hq, bind_assoc. run eq_refl. rewrite bind_assoc. run eq_refl. run eq_refl.
    unfold modify. by apply eok_exit.
Qed.

(** *** Media *)

(** The session a handle's media go to is still in memory. *)
Definition media_live (handle : option loc) w : Prop :=
  match handle with
  | None => True
  | Some h => exists hv, handles w !! h = Some hv /\ forall s, plugin_handle hv = Some s -> is_Some (heap w !! s)
  end.

Lemma media_session_run handle w : eok false w -> media_live handle w ->
  exists r, media_session handle w = Done (r, w) /\ forall h s, r = Some (h, s) -> exists v, heap w !! s = Some v /\ destroyed v = 0%Z /\
    handle = Some h.
Proof.
  intros Hok Hl. unfold media_session. destruct handle as [h|]; [|exists None; done]. destruct Hl as (hv & Hhv & Hlive).
  unfold get_handle. rewrite bind_assoc. run eq_refl. rewrite Hhv. run eq_refl. run (running_run _ _ Hok). run eq_refl.
  rewrite (proj2 (proj2 (eok_running _ _ Hok))). rewrite !orb_false_r. destruct (stopped hv); [exists None; done|].
  destruct (plugin_handle hv) as [s|] eqn:Hs; [|exists None; done]. destruct (Hlive s eq_refl) as [v Hv]. unfold get_session.
  rewrite bind_assoc. run eq_refl. rewrite Hv. run eq_refl. eexists. split; [done|]. intros h' s'.
  destruct (Z.eqb_spec (destroyed v) 0) as [Hd|Hd]; [|done]. intros [= <- <-]. eauto.
Qed.

Lemma rtcp_ok handle video buf w : eok false w -> media_live handle w ->
  wp (janus_echotest_incoming_rtcp handle video buf) (fun _ => eok false) w.
Proof.
  intros Hok Hl. unfold janus_echotest_incoming_rtcp, wp. destruct (media_session_run handle w Hok Hl) as (r & Hr & Hlive).
  run Hr. destruct r as [[h s]|]; [|done]. destruct (Hlive h s eq_refl) as (v & Hv & _). pose proof (fr_start _ _ _ Hok) as HF.
  assert (Hid : is_Some (ids w !! s)) by (rewrite (ids_heap _ _ _ Hv); eauto).
  assert (Hgate : gateway w = true) by apply (eok_running _ _ Hok).
  eapply (wp_mono _ (fun _ => Fr None w)); [|intros [] w' HF'; exact (eok_framed _ false w w' Hok HF')]. destruct (0 <? _)%Z; [|by apply fr_call].
  fseq; [fkeep|]. fget v1 Hv1 Hfv1. destruct (0 <? _)%Z; [by apply fr_remb|by apply fr_call].
Qed.

Lemma data_ok handle buf len w : eok false w -> media_live handle w ->
  (forall b, buf = Some b -> (len <= Z.of_nat (length b))%Z) ->
  wp (janus_echotest_incoming_data handle buf len) (fun _ => eok false) w.
Proof.
  intros Hok Hl Hlen. unfold janus_echotest_incoming_data, wp. destruct (media_session_run handle w Hok Hl) as (r & Hr & Hlive).
  run Hr. destruct r as [[h s]|]; [|done]. destruct buf as [b|]; [|done]. specialize (Hlen b eq_refl).
  destruct (Hlive h s eq_refl) as (v & Hv & _). pose proof (fr_start _ _ _ Hok) as HF.
  assert (Hid : is_Some (ids w !! s)) by (rewrite (ids_heap _ _ _ Hv); eauto).
  assert (Hgate : gateway w = true) by apply (eok_running _ _ Hok).
  destruct (len <=? 0)%Z; [done|]. destruct (Z.ltb_spec (Z.of_nat (length b)) len); [lia|]. cbv zeta.
  eapply (wp_mono _ (fun _ => Fr None w)); [|intros [] w' HF'; exact (eok_framed _ false w w' Hok HF')]. fget v1 Hv1 Hfv1.
  fseq; [|by apply fr_call]. apply fr_save_frame; [done|]. intros r Hr'. exists s, v1. split; [done|]. by apply (rec_of_recs Drc).
Qed.

(** [P] of the session [s]. *)
Definition Fs (w0 : eworld X J K V) (s : loc) (P : janus_echotest_session K V -> Prop) w : Prop :=
  Fr None w0 w /\ forall v, heap w !! s = Some v -> P v.

Lemma fs_call w0 s P c w : Fs w0 s P w -> gateway w0 = true -> is_answer c = false -> wp (call c) (fun _ => Fs w0 s P) w.
Proof.
  intros [HF HP] Hg Hc. pose proof (fr_call w0 None c w HF Hg Hc) as Hw. unfold call, wp in *. revert Hw. run eq_refl.
  rewrite (fr_gateway _ _ (proj1 HF)), Hg. unfold trace, modify. done.
Qed.

Lemma fs_update w0 s P P' f w : Fs w0 s P w -> is_Some (ids w0 !! s) -> keeps_place f ->
  (forall v, session_fine v -> P v -> session_fine (f v) /\ P' (f v)) -> wp (update_session s f) (fun _ => Fs w0 s P') w.
Proof.
  intros [HF HP] Hs Hk Hf. eapply wp_mono.
  - apply (fr_update w0 None s f w HF Hs Hk). intros v Hv Hfv. by apply Hf; [|by apply HP].
  - intros [] w' [HF' (v & Hv & Hh)]. split; [done|]. rewrite Hh. intros v' Hv'. rewrite lookup_insert_eq in Hv'. injection Hv' as <-.
    apply Hf; [|by apply HP]. by eapply fine_sessions; [apply HF|].
Qed.

Lemma fs_seq {A : Type} w0 s P (m1 : M (eworld X J K V) unit) (m2 : M (eworld X J K V) A) (Q : A -> eworld X J K V -> Prop) w :
  wp m1 (fun _ => Fs w0 s P) w -> (forall w', Fs w0 s P w' -> wp m2 Q w') -> wp (m1;; m2) Q w.
Proof. intros Ha Hb. apply wp_bind. eapply wp_mono; [done|]. intros [] w' HF. by apply Hb. Qed.

Definition on_substream (v : janus_echotest_session K V) : Prop := (0 <= substream v)%Z.

Lemma fs_switch w0 s h pkt w : Fs w0 s on_substream w -> is_Some (ids w0 !! s) -> gateway w0 = true ->
  wp (switch_substream h s pkt) (fun _ => Fs w0 s on_substream) w.
Proof.
  intros HFs Hs Hg. pose proof (proj1 HFs) as HF. unfold switch_substream. fget v Hv Hfv. destruct (_ =? _)%Z; [done|]. cbv zeta.
  hstep (fr_ssrc w0 None s (substream_target v)) as z ? ->; [apply Hfv|].
  assert (Hhit : forall (b : bool), wp (if b then
      update_session s (s_substream (fun _ => (if (pkt =? z)%Z then substream_target v else 1)%Z));;
      call (PushEvent h None (echo_event [("substream", json_integer (if (pkt =? z)%Z then substream_target v else 1)%Z)]) None);;
      mret true else mret false) (fun _ => Fs w0 s on_substream) w).
  { intros [|]; [|done]. pose proof (fine_target _ Hfv) as Htg. apply (fs_seq w0 s on_substream); [eapply fs_update; [done|done|by intros ?|]|].
    - intros v2 [] Hon. split; [split; cbn; try done; destruct (pkt =? z)%Z; lia|]. unfold on_substream. cbn. destruct (pkt =? z)%Z; lia.
    - intros w2 HF2. apply (fs_seq w0 s on_substream); [by eapply fs_call|]. intros w3 HF3. exact HF3. }
  apply wp_bind. apply (wp_mono _ (fun _ w' => w' = w)); [|intros b ? ->; apply (Hhit b)].
  destruct (pkt =? z)%Z; [done|]. destruct (_ && _); [|done]. hstep (fr_ssrc w0 None s 1) as z1 ? ->; [lia|]. done.
Qed.

Lemma fs_fall_back w0 s h w : Fs w0 s on_substream w -> is_Some (ids w0 !! s) -> gateway w0 = true ->
  wp (fall_back h s) (fun _ => Fs w0 s on_substream) w.
Proof.
  intros HFs Hs Hg. pose proof (proj1 HFs) as HF. unfold fall_back. fget v Hv Hfv. unfold now. wp_steps.
  destruct (_ =? _)%Z; [eapply fs_update; [done|done|by intros ?|]; intros v2 [] ?; by split|].
  destruct (_ <=? _)%Z; [|done]. apply (fs_seq w0 s on_substream); [eapply fs_update; [done|done|by intros ?|]; intros v2 [] ?; by split|].
  intros w2 HF2. cbv zeta. set (sub := (if (substream v - 1 <? 0)%Z then 0%Z else (substream v - 1)%Z)).
  assert (Hsub : (0 <= sub <= 2)%Z) by (unfold sub; pose proof (fine_substream _ Hfv); destruct (Z.ltb_spec (substream v - 1) 0); lia).
  apply wp_when; [intros _|done]. apply (fs_seq w0 s on_substream); [eapply fs_update; [done|done|by intros ?|]|].
  - intros v2 [] ?. split; [split; cbn; try done; lia|]. unfold on_substream. cbn. lia.
  - intros w3 HF3. apply (fs_seq w0 s on_substream); [by eapply fs_call|]. intros w4 HF4. by eapply fs_call.
Qed.

Lemma fr_temporal w0 s h tid w : Fr None w0 w -> is_Some (ids w0 !! s) -> gateway w0 = true ->
  wp (temporal_drop h s tid) (fun _ => Fr None w0) w.
Proof.
  intros HF Hlive Hgate. unfold temporal_drop. destruct tid as [tid|]; [|done]. fget v Hv Hfv. fseq.
  - apply fr_when; [done|]. intros. fseq; [fkeep|]. by apply fr_call.
  - fget v2 Hv2 Hfv2. destruct (_ <? _)%Z; [|done]. fseq; [fkeep|]. by wp_steps.
Qed.

Lemma fr_simulcast_relay w0 s h video payload switched buf w : Fr None w0 w -> is_Some (ids w0 !! s) -> gateway w0 = true ->
  wp (simulcast_relay h s video payload switched buf) (fun _ => Fr None w0) w.
Proof.
  intros HF Hlive Hgate. unfold simulcast_relay. fget v Hv Hfv. destruct (janus_rtp_header_update _ _) as [o1 ctx].
  destruct (janus_vp8_simulcast_descriptor_update _ _ _ _) as [out sim].
  apply wp_bind. eapply wp_mono; [apply (fr_update w0 None s (s_rtp_context (fun _ => ctx)) w HF Hlive); [by intros ?|intros v1 _; revert v1; fine_tac]|].
  cbn beta. intros [] w1 [HF1 (v' & Hv' & Hh1)].
  apply wp_bind. eapply wp_mono; [apply (fr_update w0 None s (s_simulcast_context (fun _ => sim)) w1 HF1 Hlive); [by intros ?|intros v1 _; revert v1; fine_tac]|].
  cbn beta. intros [] w2 [HF2 (v2 & Hv2 & Hh2)]. rewrite Hv in Hv'. injection Hv' as <-.
  fseq; [apply fr_save_frame; [done|]|].
  - intros r Hr. exists s. eexists. split; [rewrite Hh2; apply lookup_insert_eq|]. rewrite Hh1, lookup_insert_eq in Hv2. injection Hv2 as <-.
    by apply (rec_of_recs Vrc).
  - fseq; [by apply fr_call|]. by wp_steps.
Qed.

(** Simulcast needs a substream that was chosen. *)
Definition rtp_ready (handle : option loc) w : Prop :=
  match handle with
  | None => True
  | Some h => forall hv s v, handles w !! h = Some hv -> plugin_handle hv = Some s -> heap w !! s = Some v ->
      ssrc v !! 0 = Some 0%Z \/ on_substream v
  end.

Lemma rtp_ok handle video buf len w : eok false w -> media_live handle w -> rtp_ready handle w ->
  wp (janus_echotest_incoming_rtp handle video buf len) (fun _ => eok false) w.
Proof.
  intros Hok Hl Hready. unfold janus_echotest_incoming_rtp.
  destruct (media_session_run handle w Hok Hl) as (r & Hr & Hlive). unfold wp. run Hr. destruct r as [[h s]|]; [|done].
  destruct (Hlive h s eq_refl) as (v & Hv & _ & ->). pose proof (fr_start _ _ _ Hok) as HF.
  assert (Hid : is_Some (ids w !! s)) by (rewrite (ids_heap _ _ _ Hv); eauto).
  assert (Hgate : gateway w = true) by apply (eok_running _ _ Hok).
  assert (Hsub : ssrc v !! 0 = Some 0%Z \/ on_substream v).
  { destruct Hl as (hv & Hhv & Hls). eapply Hready; [done| |done]. revert Hr. unfold media_session, get_handle. rewrite bind_assoc.
    run eq_refl. rewrite Hhv. run eq_refl. run (running_run _ _ Hok). run eq_refl. destruct (_ || _); [done|].
    destruct (plugin_handle hv) as [s'|]; [|done]. destruct (Hls s' eq_refl) as [v' Hv']. unfold get_session. rewrite bind_assoc. run eq_refl.
    rewrite Hv'. run eq_refl. destruct (_ =? _)%Z; [|done]. by intros [= ->]. }
  eapply (wp_mono _ (fun _ => Fr None w)); [|intros ? w' HF'; exact (eok_framed _ false w w' Hok HF')].
  fget v1 Hv1 Hfv1. rewrite Hv in Hv1. injection Hv1 as <-. unfold ssrc_at. apply wp_bind. fget v2 Hv2 Hfv2.
  rewrite Hv in Hv2. injection Hv2 as <-. cbn [Z.ltb Z.compare]. change (Z.to_nat 0) with 0. destruct (ssrc v !! 0) as [z|] eqn:Hz; [|by apply lookup_ge_None in Hz; rewrite (fine_ssrc _ Hfv1) in Hz; lia].
  wp_steps. destruct (_ && _ && negb (z =? 0)%Z) eqn:Hc.
  - destruct Hsub as [[= ->]|Hsub]; [by rewrite andb_false_r in Hc|]. unfold incoming_simulcast.
    destruct (janus_rtp_payload buf len) as [payload|]; [|done].
    assert (HFs : Fs w s on_substream w) by (split; [done|]; intros v' Hv'; rewrite Hv in Hv'; by injection Hv' as <-).
    hstep fs_switch as sw w2 HF2. apply (fs_seq w s on_substream); [by apply fs_fall_back|]. intros w3 HFs3. pose proof (proj1 HFs3) as HF3.
    fget v3 Hv3 Hfv3. hstep (fr_ssrc w None s (substream v3)) as z3 ? ->; [split; [by apply (proj2 HFs3)|apply Hfv3]|].
    destruct (negb (rtp_ssrc buf =? z3)%Z); [by wp_steps|]. unfold now. apply wp_bind, wp_bind, wp_gets, wp_ret. cbn beta. fseq; [fkeep|]. hstep fr_temporal as dr w5 HF5. destruct (dr : bool); [by wp_steps|].
    by apply fr_simulcast_relay.
  - fseq; [|by wp_steps]. apply wp_when; [intros _|done]. fseq; [apply fr_save_frame; [done|]|by apply fr_call].
    destruct (video =? 0)%Z; intros r Hr'; exists s, v; (split; [done|]); [by apply (rec_of_recs Arc)|by apply (rec_of_recs Vrc)].
Qed.
End Invariant.
End EchoSessions.
