(* ===== verification/EchoPlugin.v ===== *)
(** * The echo plug-in as a whole (websocket_10/plugins/janus_echotest.c)

    The system of its operations, in any order the gateway's contract allows, and the
    theorems about it: sessions and memory, messages and settings, media, the watchdog, the
    end of the plug-in. *)

From S2P Require Import Prelude Jansson Janus EchoTest EchoSessions.

Local Open Scope c_scope.

Module EchoPlugin.
Import Echo EchoSessions.

Section System.
Context {X D J K V : Type} `{!EchoCore X K V} `{!EchoSdp D} `{!Jansson J} `{!JanssonBool J}.
Implicit Types (w : eworld X J K V) (v : janus_echotest_session K V).

(** ** The system *)

Inductive op : Type :=
| Create (h : loc) | Destroy (h : loc) | Query (h : loc) | Setup (h : loc) | Hangup (h : loc)
| Message (h : option loc) (transaction : option string) (message jsep : option J)
| SlowLink (ps : option loc) (uplink video : bool)
| Rtp (ps : option loc) (video : Z) (buf : list Z) (len : Z)
| Rtcp (ps : option loc) (video : Z) (buf : list Z)
| Data (ps : option loc) (buf : option (list Z)) (len : Z)
| Watchdog | Handler.

Definition run_op (o : op) : M (eworld X J K V) unit :=
  match o with
  | Create h => janus_echotest_create_session h;; mret tt
  | Destroy h => janus_echotest_destroy_session h;; mret tt
  | Query h => janus_echotest_query_session h;; mret tt
  | Setup h => janus_echotest_setup_media h
  | Hangup h => janus_echotest_hangup_media h
  | Message h t m j => janus_echotest_handle_message h t m j;; mret tt
  | SlowLink ps u v => janus_echotest_slow_link ps u v
  | Rtp ps v b n => janus_echotest_incoming_rtp ps v b n;; mret tt
  | Rtcp ps v b => janus_echotest_incoming_rtcp ps v b
  | Data ps b n => janus_echotest_incoming_data ps b n
  | Watchdog => janus_echotest_watchdog;; mret tt
  | Handler => janus_echotest_handler
  end.

(** What the gateway keeps to: a session is made once for a handle, media are only given for
    handles whose session is still in memory; and what the code needs besides: simulcast
    media not before a substream is chosen, no message of a session that is freed in hand. *)
Definition allowed (o : op) w : Prop :=
  match o with
  | Create h => exists st, handles w !! h = Some (PluginSession None st)
  | SlowLink ps _ _ => forall h, ps = Some h -> is_Some (handles w !! h)
  | Rtp ps _ _ _ => media_live ps w /\ rtp_ready ps w
  | Rtcp ps _ _ => media_live ps w
  | Data ps buf len => media_live ps w /\ forall b, buf = Some b -> (len <= Z.of_nat (length b))%Z
  | Handler => forall a s, handler_thread w = Serving a s -> is_Some (heap w !! s)
  | _ => True
  end.

(** What Janus does besides: time passes, handles are made, stopped, and freed when they have
    no session. *)
Inductive janus_step w : eworld X J K V -> Prop :=
| step_core x : janus_step w (w_core (fun _ => x) w)
| step_attach h : handles w !! h = None -> janus_step w (w_handles <[h := PluginSession None false]> w)
| step_stop h p b : handles w !! h = Some (PluginSession p b) -> janus_step w (w_handles <[h := PluginSession p true]> w)
| step_free h t : sessions w = Some t -> t !! h = None -> janus_step w (w_handles (delete h) w).

Inductive estep w : eworld X J K V -> Prop :=
| step_op o w' : allowed o w -> run_op o w = Done (tt, w') -> estep w w'
| step_janus w' : janus_step w w' -> estep w w'.

(** The plug-in before [init], and started. *)
Definition unloaded (x : X) : eworld X J K V :=
  EWorld false false true false false NotStarted None ∅ ∅ None [] false ∅ ∅ x 0 [].
Definition started w : Prop :=
  exists x events, janus_echotest_init true true events true true (unloaded x) = Done (0%Z, w).

(** ** The invariant holds *)

Lemma plugin_started_ok w : started w -> eok false w.
Proof.
  intros (x & events & Hr). assert (w = w_notify_events (fun b => default b events)
    (EWorld true false true true true Popping (Some []) ∅ ∅ (Some ∅) [] false ∅ ∅ x 0 [])) as ->.
  { destruct events; cbn in Hr; by injection Hr as <-. }
  split; cbn.
  - split; [done|]. split; cbn; try done. by intros r [].
  - done.
  - done.
  - exists []. split_and!; [done|constructor|]. intros a. cbn. split; [by intros []|by intros ?%elem_of_nil].
  - done.
  - exists ∅. split_and!; [done| |done]. intros h s. unfold ids. cbn. by rewrite fmap_empty, lookup_empty.
  - split; [constructor|]. intros s. unfold ids. cbn. rewrite fmap_empty. split; [by intros ?%elem_of_nil|]. by intros (? & ? & ? & _).
  - unfold ids. cbn. rewrite fmap_empty. split; by intros ? [].
Qed.

Lemma wp_tt {A : Type} (m1 : M (eworld X J K V) A) Q w : wp m1 (fun _ => Q) w -> wp (m1;; mret tt) (fun _ => Q) w.
Proof. intros Hm. apply wp_bind. eapply wp_mono; [done|]. intros a w' HQ. exact HQ. Qed.

Lemma run_op_ok `{!EchoLaws X K V} o w : eok false w -> allowed o w -> wp (run_op o) (fun _ => eok false) w.
Proof.
  intros Hok Hal. destruct o; cbn [run_op allowed] in *; try apply wp_tt.
  - destruct Hal as [st Hst]. eapply wp_mono; [by eapply create_session_ok|]. by intros ? ? [].
  - by apply destroy_session_ok.
  - by apply query_ok.
  - by apply setup_media_ok.
  - by apply hangup_ok.
  - eapply wp_mono; [by apply handle_message_ok|]. by intros ? ? (_ & ? & _).
  - by apply slow_link_ok.
  - destruct Hal. by apply rtp_ok.
  - by apply rtcp_ok.
  - destruct Hal. by apply data_ok.
  - by apply watchdog_ok.
  - destruct (handler_thread w) as [| |a s|] eqn:Hth.
    + unfold janus_echotest_handler, wp. run eq_refl. by rewrite Hth.
    + by apply take_ok.
    + destruct (eok_serving _ _ _ Hok a s Hth) as (msg & h & Hm & Hh).
      eapply wp_mono; [eapply served_ok; eauto|]. by intros ? ? [].
    + unfold janus_echotest_handler, wp. run eq_refl. by rewrite Hth.
Qed.

Lemma janus_step_ok w w' : eok false w -> janus_step w w' -> eok false w'.
Proof.
  intros [Hf Hm Hr Hq Hs (t & Ht & Hi & Hhs) Ho Hn] Hst. destruct Hst as [x|h Hh|h p b Hh|h t' Ht' Hh]; split; try done;
    try (by eapply (fine_ext None w)); exists t; (split_and!; [done|done|]); intros h' s' Hl; destruct (Hhs _ _ Hl) as [st Hst]; cbn.
  - eauto.
  - rewrite lookup_insert_ne by congruence. eauto.
  - destruct (decide (h = h')) as [<-|Hne]; [|rewrite lookup_insert_ne by done; eauto]. rewrite lookup_insert_eq.
    rewrite Hh in Hst. injection Hst as -> ->. eauto.
  - rewrite Ht in Ht'. injection Ht' as <-. rewrite lookup_delete_ne by congruence. eauto.
Qed.

Definition reachable w : Prop := exists w0, started w0 /\ rtc estep w0 w.

Lemma plugin_reachable_ok `{!EchoLaws X K V} w : reachable w -> eok false w.
Proof.
  intros (w0 & Hst & Hsteps). apply plugin_started_ok in Hst. induction Hsteps as [|w1 w2 w3 Hstep _ IH]; [done|]. apply IH.
  destruct Hstep as [o w2 Hal Hr|w2 Hj]; [|by eapply janus_step_ok]. pose proof (run_op_ok o w1 Hst Hal) as Hw.
  unfold wp in Hw. by rewrite Hr in Hw.
Qed.

(** ** Sessions and memory *)


(** A session in memory is in the table, for its handle, which points to it, until it is
    destroyed, and then once in [old_sessions]; a message in memory is in the queue, once, or
    in the hands of the thread; the recorders of sessions are open and nobody else's. *)
Theorem echo_memory_accounted `{!EchoLaws X K V} w :
  reachable w ->
  sessions_mutex w = false /\
  (exists t, sessions w = Some t /\
    (forall s v, heap w !! s = Some v ->
       if (destroyed v =? 0)%Z then t !! handle v = Some s /\ s ∉ old_sessions w /\
         exists st, handles w !! handle v = Some (PluginSession (Some s) st)
       else s ∈ old_sessions w) /\
    (forall h s, t !! h = Some s -> exists v, heap w !! s = Some v /\ handle v = h) /\
    NoDup (old_sessions w) /\ (forall s, s ∈ old_sessions w -> is_Some (heap w !! s))) /\
  (exists q, messages w = Some q /\ NoDup (omap id q ++ in_hand w) /\
    forall a, is_Some (msgs w !! a) <-> a ∈ omap id q ++ in_hand w) /\
  (forall s1 v1 s2 v2 r, heap w !! s1 = Some v1 -> heap w !! s2 = Some v2 -> r ∈ recs v1 -> r ∈ recs v2 ->
     s1 = s2 /\ is_Some (recorders w !! r)).
Proof.
  intros Hok%plugin_reachable_ok. pose proof Hok as [[_ Hrec] Hm _ Hq _ (t & Ht & Hi & Hhs) [Ho1 Ho2] _]. split_and!; [done| |done|].
  - exists t. split_and!; [done| | |done|by intros s Hs; eapply old_live].
    + intros s v Hv. pose proof (ids_heap _ _ _ Hv) as Hid. destruct (Z.eqb_spec (destroyed v) 0) as [Hd|Hd].
      * rewrite Hd in Hid. apply Hi in Hid as Hl. split_and!; [done| |by apply Hhs]. intros (h & d & Hid' & Hne)%Ho2.
        rewrite Hid in Hid'. injection Hid' as <- <-. done.
      * apply Ho2. eauto.
    + intros h s Hl. apply Hi, ids_live in Hl as (v & Hv & [= -> _]). eauto.
  - intros s1 v1 s2 v2 r H1 H2 Hr1 Hr2. split; [by eapply (rec_own _ _ Hrec)|by eapply (rec_open _ _ Hrec)].
Qed.

(** C40: One turn of the watchdog: exactly the sessions that were destroyed five seconds ago or
    longer leave memory, and the list with them. *)
Theorem watchdog_frees_expired `{!EchoLaws X K V} w :
  reachable w ->
  let past v := (destroyed v <> 0 /\ 5000000 <= janus_get_monotonic_time (core w) - destroyed v)%Z in
  exists w', janus_echotest_watchdog w = Done (true, w') /\
    (forall s v, heap w' !! s = Some v <-> heap w !! s = Some v /\ ~ past v) /\
    (forall s, s ∈ old_sessions w' <-> s ∈ old_sessions w /\ is_Some (heap w' !! s)) /\
    sessions w' = sessions w /\ msgs w' = msgs w /\ calls w' = calls w.
Proof.
  intros Hok%plugin_reachable_ok past. destruct (watchdog_run w Hok) as (hp & Hr & Hhp). eexists. split; [exact Hr|].
  cbn [heap old_sessions sessions msgs calls w_old_sessions w_heap]. set (tm := janus_get_monotonic_time (core w)) in *.
  assert (Hold : forall s v, heap w !! s = Some v -> s ∈ old_sessions w <-> destroyed v <> 0%Z).
  { intros s v Hv. pose proof (ids_heap _ _ _ Hv) as Hid. rewrite (proj2 (eok_old _ _ _ Hok) s), Hid. split.
    - intros (h & d & [= <- <-] & Hd). done.
    - intros Hd. eauto. }
  assert (Hheap : forall s v, hp !! s = Some v <-> heap w !! s = Some v /\ ~ past v).
  { intros s v. rewrite Hhp. destruct (heap w !! s) as [v1|] eqn:Hv; cbn; [|rewrite andb_false_r; naive_solver].
    rewrite (bool_decide_ext _ _ (Hold s v1 Hv)). unfold past, expired. fold tm. destruct (bool_decide_reflect (destroyed v1 <> 0%Z)) as [Hd|Hd]; cbn.
    - destruct (Z.leb_spec (5 * 1000000) (tm - destroyed v1)).
      + split; [done|]. intros [[= ->] Hx]. exfalso. apply Hx. split; [done|lia].
      + split; [intros [= ->]; split; [done|lia]|by intros [[= ->] _]].
    - split; [intros [= ->]; split; [done|naive_solver]|by intros [[= ->] _]]. }
  split_and!; [done| |done|done|done]. intros s. rewrite list_elem_of_In, filter_In, <- list_elem_of_In.
  split; intros [Hs Hx]; (split; [done|]); destruct (old_live _ _ _ Hok Hs) as [v Hv].
  - exists v. apply Hheap. split; [done|]. rewrite Hv in Hx. cbn in Hx. apply negb_true_iff, Z.leb_gt in Hx. unfold past. fold tm. lia.
  - rewrite Hv. cbn. destruct Hx as [v' Hv']. apply Hheap in Hv' as [Hv' Hp]. rewrite Hv in Hv'. injection Hv' as <-.
    apply negb_true_iff, Z.leb_gt. apply (Hold s v Hv) in Hs. unfold past in Hp. fold tm in Hp. lia.
Qed.


(** ** Messages *)

Fixpoint handler_steps (n : nat) : M (eworld X J K V) unit :=
  match n with O => mret tt | S n => janus_echotest_handler;; handler_steps n end.

(** Whom the answers so far went to, with the transaction they answer; newest first. *)
Definition receipt (c : callback J) : option (loc * string) :=
  match c with PushEvent h (Some t) _ _ => Some (h, t) | _ => None end.
Definition receipts w : list (loc * string) := omap receipt (calls w).

Lemma receipts_answers w : receipts w = omap receipt (answers w).
Proof.
  unfold receipts, answers. induction (calls w) as [|c l IH]; [done|]. cbn.
  destruct c as [? [] ? ?| | | | | |]; cbn; by rewrite IH.
Qed.

(** A message of the queue: the handle its session is under, and its transaction. *)
Definition waits w (tb : gmap loc loc) (a : loc) (k : loc * string) : Prop :=
  exists msg, msgs w !! a = Some msg /\ msg_handle msg = Some k.1 /\ transaction msg = Some k.2 /\ is_Some (tb !! k.1).

Lemma Forall2_impl_in {A B : Type} (P Q : A -> B -> Prop) l k :
  Forall2 P l k -> (forall x y, x ∈ l -> P x y -> Q x y) -> Forall2 Q l k.
Proof.
  intros HF HI. induction HF as [|x y l k Hxy HF IH]; constructor; [apply HI; [by left|done]|].
  apply IH. intros x' y' Hx. apply HI. by right.
Qed.

Lemma serve_queue qs ks tb w : eok false w -> handler_thread w = Popping -> messages w = Some (Some <$> qs) -> sessions w = Some tb ->
  Forall2 (waits w tb) qs ks ->
  exists w', handler_steps (2 * length qs) w = Done (tt, w') /\ eok false w' /\ handler_thread w' = Popping /\
    messages w' = Some [] /\ receipts w' = reverse ks ++ receipts w.
Proof.
  revert ks w. induction qs as [|a qs IH]; intros ks w Hok Hth Hq Ht HF.
  - apply Forall2_nil_inv_l in HF as ->. exists w. by split_and!.
  - apply Forall2_cons_inv_l in HF as ([h t] & ks' & (msg & Hmsg & Hh & Htr & [s Hs]) & HF & ->). cbn [fst snd] in *.
    replace (2 * length (a :: qs)) with (S (S (2 * length qs))) by (cbn; lia). cbn [handler_steps].
    pose proof (take_lookup w a (fmap (M := list) Some qs) msg h tb Hok Hth Hq Hmsg Hh Ht) as Htake. rewrite Hs in Htake. run Htake.
    assert (Hhand : in_hand w = []) by (unfold in_hand; by rewrite Hth).
    pose proof (eok_in_hand a (fmap (M := list) Some qs) s msg h w Hok Hq Hhand Hmsg Hh) as Hok1. set (w1 := w_handler_thread _ _) in *.
    destruct (table_live false w tb h s Hok Ht Hs) as (v & Hv & _).
    destruct (wp_run _ _ _ (served_ok _ a s h msg w1 Hok1 eq_refl Hmsg Hh (mk_is_Some _ _ Hv))) as
      ([] & w2 & Hr2 & Hok2 & Hth2 & Hms2 & (Hse2 & Hme2 & _) & Hans). run Hr2.
    destruct (Hans t Htr) as (ev & js & Ha & _).
    destruct (eok_queue _ _ _ Hok) as (q & Hq' & Hnd & _). rewrite Hq in Hq'. injection Hq' as <-.
    assert (Haq : a ∉ qs).
    { cbn in Hnd. rewrite Hhand, app_nil_r in Hnd. apply NoDup_cons in Hnd as [Hna _]. intros Hin. apply Hna.
      apply list_elem_of_omap. exists (Some a). split; [apply list_elem_of_fmap; eauto|done]. }
    destruct (IH ks' w2) as (w' & Hr & Hok' & Hth' & Hm' & Hrc); [done|done|by rewrite Hme2|by rewrite Hse2| |].
    + eapply Forall2_impl_in; [exact HF|]. intros b k Hb (msg' & Hm1 & Hrest). exists msg'. split; [|done].
      rewrite Hms2. change (msgs w1) with (msgs w). rewrite lookup_delete_ne; [done|]. intros ->. done.
    + exists w'. split_and!; try done. rewrite Hrc, reverse_cons, !receipts_answers, Ha. cbn. by rewrite <- app_assoc.
Qed.


(** ** The end *)

Lemma not_running w : stopping w = true -> running w = Done (false, w).
Proof. intros Hs. unfold running. run eq_refl. run eq_refl. by rewrite Hs. Qed.

Lemma take_stopping w : stopping w = true -> handler_thread w = Popping ->
  janus_echotest_handler w = Done (tt, w_handler_thread (fun _ => Left) w).
Proof.
  intros Hs Hth. unfold janus_echotest_handler. run eq_refl. rewrite Hth. unfold handler_take. rewrite bind_assoc.
  by run (not_running w Hs).
Qed.

(** What the thread does when it is to end: it serves the message in hand. *)
Lemma join_ok w : eokx true false w -> (forall a s, handler_thread w = Serving a s -> is_Some (heap w !! s)) ->
  wp (join_handler 4) (fun _ w' => eokx true false w' /\ in_hand w' = [] /\ ids w' = ids w /\ messages w' = messages w) w.
Proof.
  assert (Hpop : forall fuel u, eokx true false u -> handler_thread u = Popping ->
    wp (join_handler (S (S fuel))) (fun _ w' => eokx true false w' /\ in_hand w' = [] /\ ids w' = ids u /\ messages w' = messages u) u).
  { intros fuel u Hu Hth. cbn [join_handler]. unfold wp. run eq_refl. rewrite Hth.
    run (take_stopping u (proj1 (proj2 (eok_running _ _ _ Hu))) Hth). run eq_refl. cbn [handler_thread w_handler_thread].
    split_and!; [|done|done|done]. destruct Hu as [Hf Hm Hr Hq Hs Ht Ho Hn]. unfold in_hand in Hq. rewrite Hth in Hq. split; try done.
    by eapply (fine_ext None u). }
  intros Hok Hlive. destruct (handler_thread w) as [| |a s|] eqn:Hth.
  - cbn [join_handler]. unfold wp. run eq_refl. rewrite Hth. by split_and!; [|unfold in_hand; rewrite Hth|..].
  - by apply Hpop.
  - cbn [join_handler]. unfold wp. run eq_refl. rewrite Hth. destruct (eok_serving _ _ _ Hok a s Hth) as (msg & h & Hmsg & Hh).
    apply wp_bind. eapply wp_mono; [by eapply served_ok; eauto|]. cbn beta.
    intros [] w2 (Hok2 & Hth2 & Hms2 & (Hse2 & Hme2 & Hid2) & _). eapply wp_mono; [by apply (Hpop 1)|]. cbn beta.
    intros [] w3 (H1 & H2 & H3 & H4). split_and!; [done|done|by rewrite H3|by rewrite H4].
  - cbn [join_handler]. unfold wp. run eq_refl. rewrite Hth. by split_and!; [|unfold in_hand; rewrite Hth|..].
Qed.

Lemma free_queue_run q w : NoDup (omap id q) -> (forall a, a ∈ omap id q -> is_Some (msgs w !! a)) ->
  exists ms, free_queue q w = Done (tt, w_msgs (fun _ => ms) w) /\
    forall a, ms !! a = if bool_decide (a ∈ omap id q) then None else msgs w !! a.
Proof.
  revert w. induction q as [|[a|] q IH]; intros w Hnd Hlive; cbn [free_queue].
  - exists (msgs w). split; [by destruct w|done].
  - cbn in Hnd. apply NoDup_cons in Hnd as [Ha Hnd]. destruct (Hlive a) as [msg Hmsg]; [by left|]. run (message_free_run a msg w Hmsg).
    destruct (IH (w_msgs (delete a) w)) as (ms & Hr & Hms); [done| |].
    + intros b Hb. cbn. rewrite lookup_delete_ne by (intros ->; done). apply Hlive. by right.
    + exists ms. split; [exact Hr|]. intros b. rewrite Hms. cbn [msgs w_msgs]. cbn. destruct (decide (b = a)) as [->|Hne].
      * rewrite lookup_delete_eq, (bool_decide_true (a ∈ a :: _)) by (by left). by destruct (bool_decide _).
      * rewrite lookup_delete_ne by done. erewrite (bool_decide_ext (b ∈ a :: _)); [done|]. rewrite elem_of_cons. naive_solver.
  - unfold janus_echotest_message_free at 1. run eq_refl. apply IH; [done|]. intros a Ha. by apply Hlive.
Qed.

(** [destroy] ends: the thread serves at most the message it has in hand, then both threads
    stop, and every message is freed, once.  The sessions stay in memory. *)
Theorem plugin_shutdown_ends `{!EchoLaws X K V} w :
  reachable w -> (forall a s, handler_thread w = Serving a s -> is_Some (heap w !! s)) ->
  exists w', janus_echotest_destroy 4 w = Done (tt, w') /\ initialized w' = false /\ stopping w' = false /\
    handler_thread w' = NotStarted /\ watchdog w' = false /\ messages w' = None /\ sessions w' = None /\ msgs w' = ∅ /\
    ids w' = ids w.
Proof.
  intros Hok%plugin_reachable_ok Hlive. unfold janus_echotest_destroy. run eq_refl. rewrite (proj1 (eok_running _ _ _ Hok)). cbn [negb].
  destruct (eok_queue _ _ _ Hok) as (q & Hq & Hnd & Hms). run eq_refl. run eq_refl. cbn [messages w_stopping]. rewrite Hq. run eq_refl. run eq_refl.
  set (u := w_messages _ _).
  assert (Hu : eokx true false u).
  { destruct Hok as [Hf Hm Hr _ Hs Ht Ho Hn]. split; try done.
    - by eapply (fine_ext None w).
    - destruct Hr as (? & _ & ?). by split_and!.
    - exists (q ++ [None]). cbn. rewrite Hq, omap_app. cbn. rewrite app_nil_r. done. }
  destruct (wp_run _ _ _ (join_ok u Hu Hlive)) as ([] & w1 & Hr1 & Hok1 & Hhand & Hids & Hmes). run Hr1. clear Hr1.
  run eq_refl. set (w2 := w_handler_thread _ w1). run eq_refl. change (watchdog w2) with (watchdog w1).
  assert (Hwd : (if! watchdog w1 then janus_echotest_watchdog;; mret tt) w2 = Done (tt, w_watchdog (fun _ => false) w2)).
  { destruct (watchdog w1) eqn:E; cbn [whenM]; [|unfold w2; destruct w1; cbn in *; by subst].
    unfold janus_echotest_watchdog. rewrite bind_assoc. run (not_running w2 (proj1 (proj2 (eok_running _ _ _ Hok1)))). by cbn [negb]. }
  run Hwd. set (w3 := w_watchdog _ w2). run (elock_run w3 (eok_mutex _ _ _ Hok1)). run eq_refl.
  destruct (eok_table _ _ _ Hok1) as (t & Ht & _). cbn [sessions w_sessions_mutex w3 w2 w_watchdog w_handler_thread]. rewrite Ht. run eq_refl.
  run (eunlock_run (w_sessions_mutex _ w3) eq_refl). set (w4 := w_sessions_mutex _ (w_sessions_mutex _ w3)). run eq_refl.
  change (messages w4) with (messages w1). destruct (eok_queue _ _ _ Hok1) as (q1 & Hq1 & Hnd1 & Hms1). rewrite Hq1. run eq_refl.
  rewrite Hhand, app_nil_r in Hnd1, Hms1. destruct (free_queue_run q1 w4 Hnd1) as (ms & Hfr & Hms'); [intros a Ha; by apply Hms1|].
  run Hfr. run eq_refl. run eq_refl. run eq_refl. eexists. split; [reflexivity|]. split_and!; try done.
  apply map_eq. intros a. cbn. rewrite Hms', lookup_empty. destruct (bool_decide_reflect (a ∈ omap id q1)) as [Ha|Ha]; [done|].
  change (msgs w4) with (msgs w1). destruct (msgs w1 !! a) eqn:E; [|done]. exfalso. apply Ha, Hms1. eauto.
Qed.
End System.
End EchoPlugin.

(** ** Witnesses *)

(** Janus, small: the state is the clock; packets are lists whose third number is the SSRC; an
    SDP is its text, without lines. *)
Module EchoConcrete.
Import Echo EchoSessions EchoPlugin.
Local Open Scope Z_scope.

#[export] Instance c_core : EchoCore Z Z unit := {|
  janus_get_monotonic_time := fun x => Z.max 1 x;
  janus_get_real_time := fun x => x;
  events_is_enabled := fun _ => true;
  fmt_pointer := fun _ => "0x1"%string;
  janus_recorder_create := fun _ _ name => Some (Some name);
  context_reset := 0;
  v_base_seq_up := fun k => k + 1;
  simulcast_context_reset := tt;
  rtp_seq_number := fun buf => nth 0 buf 0;
  rtp_timestamp := fun buf => nth 1 buf 0;
  rtp_ssrc := fun buf => nth 2 buf 0;
  set_rtp_seq_number := fun n buf => <[0%nat := n]> buf;
  set_rtp_timestamp := fun n buf => <[1%nat := n]> buf;
  janus_rtp_payload := fun _ len => Some (3%nat, len - 3);
  janus_rtp_header_update := fun buf k => (buf, k);
  janus_vp8_parse_descriptor := fun _ _ => None;
  janus_vp8_simulcast_descriptor_update := fun buf _ v _ => (buf, v);
  janus_rtcp_pli := [206];
  janus_rtcp_remb_ssrcs := fun b n => [143; b; n];
  janus_rtcp_get_remb := fun buf => nth 0 buf 0
|}.

#[export] Instance c_laws : EchoLaws Z Z unit.
Proof. split. intros x. cbn. lia. Qed.

#[export] Instance c_sdp : EchoSdp string := {|
  janus_sdp_parse := fun s => if decide (s = ""%string) then inl "empty"%string else inr s;
  m_lines := fun _ => [];
  janus_sdp_generate_answer := fun d => d;
  mline_direction := fun _ _ => None;
  set_mline_direction := fun _ _ d => d;
  add_to_video_mline := fun _ _ d => d;
  janus_sdp_get_codec_pt := fun _ _ => 96;
  janus_sdp_find_first_codecs := fun _ c => c;
  janus_sdp_write := fun d => d;
  JANUS_RTP_EXTMAP_RTP_STREAM_ID := "urn"%string
|}.

Abbreviation world := (eworld Z json Z unit).

Definition c_request : json := JObject [("audio"%string, JFalse); ("bitrate"%string, JInteger 128000)].

(** Started; a handle; its session; two messages for it, one of them refused. *)
Definition after (m : M world unit) (w : world) : world := default w (result_state (m w)).
Definition c_started : world := after (janus_echotest_init true true None true true;; mret tt) (unloaded 7).
Definition c_attached : world := w_handles <[1%nat := PluginSession None false]> c_started.
Definition c_session : world := after (run_op (Create 1)) c_attached.
Definition c_one : world := after (run_op (Message (Some 1%nat) (Some "a"%string) (Some c_request) None)) c_session.
Definition c_queue : world := after (run_op (Message (Some 1%nat) (Some "b"%string) (Some JTrue) None)) c_one.
Definition c_serving : world := after (run_op Handler) c_queue.
Definition c_gone : world := after (run_op (Destroy 1)) c_session.
Definition c_later : world := w_core (fun _ => 6000000) c_gone.

Lemma c_session_reachable : reachable c_session.
Proof.
  exists c_started. split; [exists 7, None; by vm_compute|]. eapply rtc_l; [apply step_janus, (step_attach _ 1); by vm_compute|].
  eapply rtc_l; [|apply rtc_refl]. apply (step_op _ (Create 1)); [exists false; by vm_compute|by vm_compute].
Qed.

Lemma c_step (o : op) (w : world) : reachable w -> allowed o w ->
  match run_op o w with Done _ => reachable (after (run_op o) w) | Crash _ => True end.
Proof.
  intros (w0 & Hs & Hr) Hal. unfold after. destruct (run_op o w) as [[[] w']|] eqn:E; [|done]. exists w0. split; [done|].
  eapply rtc_r; [done|]. by eapply step_op.
Qed.

Lemma c_queue_reachable : reachable c_queue.
Proof.
  assert (H1 : reachable c_one) by apply (c_step (Message _ _ _ _) _ c_session_reachable I).
  exact (c_step (Message _ _ _ _) _ H1 I).
Qed.

Lemma c_serving_reachable : reachable c_serving.
Proof. apply (c_step Handler _ c_queue_reachable). by intros a s [=]. Qed.

Lemma c_later_reachable : reachable c_later.
Proof.
  assert (H1 : reachable c_gone) by exact (c_step (Destroy 1) _ c_session_reachable I).
  destruct H1 as (w0 & Hs & Hr). exists w0. split; [done|]. eapply rtc_r; [done|]. apply step_janus. apply step_core.
Qed.


Lemma echo_memory_accounted_witness : sessions_mutex c_queue = false /\ messages c_queue = Some [Some 1%nat; Some 2%nat].
Proof. split; [apply (echo_memory_accounted c_queue c_queue_reachable)|by vm_compute]. Defined.

Lemma watchdog_frees_expired_witness :
  exists w', janus_echotest_watchdog c_later = Done (true, w') /\ is_Some (heap c_later !! 0%nat) /\ heap w' !! 0%nat = None.
Proof.
  destruct (watchdog_frees_expired c_later c_later_reachable) as (w' & Hr & Hh & _). exists w'. split; [exact Hr|].
  split; [eexists; by vm_compute|]. destruct (heap w' !! 0%nat) as [v|] eqn:E; [|done]. exfalso.
  apply Hh in E as [Hv Hp]. apply Hp. vm_compute in Hv. injection Hv as <-. vm_compute. split; congruence.
Defined.


Lemma plugin_shutdown_ends_witness :
  exists w', janus_echotest_destroy 4 c_serving = Done (tt, w') /\ msgs w' = ∅ /\ is_Some (ids w' !! 0%nat).
Proof.
  destruct (plugin_shutdown_ends c_serving c_serving_reachable) as (w' & Hr & _ & _ & _ & _ & _ & _ & Hm & Hi).
  - intros a s Hs. vm_compute in Hs. injection Hs as _ <-. eexists. by vm_compute.
  - exists w'. split_and!; [exact Hr|exact Hm|]. rewrite Hi. eexists. by vm_compute.
Defined.
End EchoConcrete.
