(* ===== verification/EchoMedia.v ===== *)
(** * Settings and media of the echo plug-in (websocket_10/plugins/janus_echotest.c)

    What a request changes and which events it causes, as functions of the request and the
    session; what is sent back of a peer's packets; what a slow link and a hang-up do; and the
    packets that end the server. *)

From S2P Require Import Prelude Jansson Janus EchoTest EchoSessions EchoPlugin.

Local Open Scope c_scope.

Module EchoMedia.
Import Echo EchoSessions EchoPlugin.

Section Media.
Context {X D J K V : Type} `{!EchoCore X K V} `{!EchoSdp D} `{!Jansson J} `{!JanssonBool J}.
Implicit Types (w : eworld X J K V) (v : janus_echotest_session K V).

(** A session of the plug-in, which has its gateway. *)
Definition serves (s : loc) v w : Prop := heap w !! s = Some v /\ gateway w = true /\ length (ssrc v) = 3.

(** The session changed to [v], and the calls [k] made, newest first. *)
Definition upd (s : loc) v (k : list (callback J)) w : eworld X J K V := w_heap <[s := v]> (w_calls (app k) w).

Lemma upd_upd s v1 v2 k1 k2 w : upd s v2 k2 (upd s v1 k1 w) = upd s v2 (k2 ++ k1) w.
Proof. unfold upd, w_heap, w_calls. cbn. by rewrite insert_insert_eq, app_assoc. Qed.
Lemma upd_id s v w : heap w !! s = Some v -> upd s v [] w = w.
Proof. intros Hv. unfold upd, w_heap, w_calls. cbn. rewrite insert_id by done. by destruct w. Qed.

Lemma serves_upd s v v' k w : serves s v w -> length (ssrc v') = 3 -> serves s v' (upd s v' k w).
Proof. intros (_ & Hg & _) Hl. split_and!; [apply lookup_insert_eq|done|done]. Qed.

Ltac serve := eapply serves_upd; [eassumption|]; match goal with Hs : serves _ _ _ |- _ => apply Hs end.

Lemma session_run s v w : serves s v w -> get_session s w = Done (v, w).
Proof. intros (Hv & _). unfold get_session. run eq_refl. by rewrite Hv. Qed.

Lemma change_run s f v w : serves s v w -> update_session s f w = Done (tt, upd s (f v) [] w).
Proof. intros Hv. unfold update_session. run (session_run s v w Hv). done. Qed.

Lemma call_run s v c w : serves s v w -> call c w = Done (tt, upd s v [c] w).
Proof.
  intros (Hv & Hg & _). unfold call. run eq_refl. rewrite Hg. unfold trace, modify, upd, w_heap, w_calls. cbn.
  by rewrite insert_id.
Qed.

Lemma ssrc_run s v i w : serves s v w -> (0 <= i <= 2)%Z -> ssrc_at s i w = Done (default 0%Z (ssrc v !! Z.to_nat i), w).
Proof.
  intros Hv Hi. unfold ssrc_at. run (session_run s v w Hv). destruct Hv as (_ & _ & Hl). destruct (Z.ltb_spec i 0); [lia|].
  destruct (lookup_lt_is_Some_2 (ssrc v) (Z.to_nat i)) as [z ->]; [lia|done].
Qed.

(** The REMB for the session's bitrate, and how many SSRCs it is for. *)
Definition numssrc v : Z := (1 + (if default 0 (ssrc v !! 1%nat) =? 0 then 0 else 1) + (if default 0 (ssrc v !! 2%nat) =? 0 then 0 else 1))%Z.
Definition remb h v : callback J := RelayRtcp h 1 (janus_rtcp_remb_ssrcs (bitrate v) (numssrc v)).

Lemma remb_run h s v w : serves s v w -> send_remb h s w = Done (tt, upd s v [remb h v] w).
Proof.
  intros Hv. unfold send_remb. run (session_run s v w Hv). run (ssrc_run s v 1 w Hv ltac:(lia)). run (ssrc_run s v 2 w Hv ltac:(lia)).
  cbv zeta. by rewrite (call_run s v _ w Hv).
Qed.

(** ** A request *)

(** The settings a request without SDP, recording and simulcast leaves. *)
Definition setting_bool (root : J) (k : string) (b : bool) : bool :=
  match json_object_get root k with Some j => json_is_true j | None => b end.
Definition setting_int (root : J) (k : string) (n : Z) : Z :=
  match json_object_get root k with Some j => json_int j | None => n end.

Definition with_audio root v := s_audio_active (fun b => setting_bool root "audio" b) v.
Definition with_video root v := s_video_active (fun b => setting_bool root "video" b) v.
Definition with_bitrate root v := s_bitrate (fun n => match json_object_get root "bitrate" with Some j => u32 (json_int j) | None => n end) v.
Definition with_substream root v := s_substream_target (fun n => setting_int root "substream" n) v.
Definition with_temporal root v := s_templayer_target (fun n => setting_int root "temporal" n) v.
Definition apply_settings root v : janus_echotest_session K V :=
  with_temporal root (with_substream root (with_bitrate root (with_video root (with_audio root v)))).

(** The calls they cause, oldest first: a key frame is asked for when video comes back, a
    bitrate is told to the peer at once, a layer that is already on is confirmed, another one
    needs a key frame. *)
Definition pli h : callback J := RelayRtcp h 1 janus_rtcp_pli.
Definition layer_call (root : J) (k : string) (on : Z) h : list (callback J) :=
  match json_object_get root k with
  | None => []
  | Some j => [if (json_int j =? on)%Z then PushEvent h None (echo_event [(k, json_integer on)]) None else pli h]
  end.
Definition video_calls root v : list (callback J) :=
  if negb (video_active v) && setting_bool root "video" false then [pli (handle v)] else [].
Definition bitrate_calls root v : list (callback J) :=
  match json_object_get root "bitrate" with
  | Some j => if (0 <? u32 (json_int j))%Z then [remb (handle v) (with_bitrate root v)] else []
  | None => []
  end.
Definition settings_calls root v : list (callback J) :=
  video_calls root v ++ bitrate_calls root v ++
  layer_call root "substream" (substream v) (handle v) ++ layer_call root "temporal" (templayer v) (handle v).

Lemma audio_run s root v w : serves s v w ->
  set_audio s (json_object_get root "audio") w = Done (tt, upd s (with_audio root v) [] w).
Proof.
  intros Hv. unfold set_audio, with_audio, setting_bool. destruct (json_object_get root "audio") as [j|]; [by rewrite (change_run s _ v w Hv)|].
  rewrite upd_id; [done|]. destruct Hv as (Hv & _). by destruct v.
Qed.

Lemma video_run s root v w : serves s v w ->
  set_video s (json_object_get root "video") w =
  Done (tt, upd s (with_video root v) (video_calls root v) w).
Proof.
  intros Hv. unfold set_video, with_video, video_calls, setting_bool. destruct (json_object_get root "video") as [j|].
  - run (session_run s v w Hv). destruct (_ && _); cbn [whenM].
    + unfold send_pli. run (call_run s v (pli (handle v)) w Hv). rewrite (change_run s _ v) by (serve).
      by rewrite upd_upd.
    + run eq_refl. by rewrite (change_run s _ v w Hv).
  - rewrite andb_false_r. rewrite upd_id; [done|]. destruct Hv as (Hv & _). by destruct v.
Qed.

Lemma bitrate_run s root v w : serves s v w ->
  set_bitrate s (json_object_get root "bitrate") w =
  Done (tt, upd s (with_bitrate root v) (bitrate_calls root v) w).
Proof.
  intros Hv. unfold set_bitrate, bitrate_calls. destruct (json_object_get root "bitrate") as [j|] eqn:Hj.
  - run (change_run s _ v w Hv). set (v1 := s_bitrate _ v). assert (Hv1 : serves s v1 (upd s v1 [] w)) by (serve).
    run (session_run s v1 _ Hv1). assert (with_bitrate root v = v1) as -> by (unfold with_bitrate; rewrite Hj; done).
    change (bitrate v1) with (u32 (json_int j)). destruct (0 <? u32 (json_int j))%Z; cbn [whenM]; [|done].
    rewrite (remb_run _ s v1 _ Hv1). by rewrite upd_upd.
  - unfold with_bitrate. rewrite Hj, upd_id; [done|]. destruct Hv as (Hv & _). by destruct v.
Qed.

Lemma layer_run s (get on : janus_echotest_session K V -> Z) (set : (Z -> Z) -> janus_echotest_session K V -> janus_echotest_session K V) root k v w :
  serves s v w -> (forall f u, get (set f u) = f (get u)) -> (forall f u, on (set f u) = on u /\ handle (set f u) = handle u /\ ssrc (set f u) = ssrc u) ->
  set (fun n => n) v = v ->
  match json_object_get root k with
  | None => mret tt
  | Some j =>
      update_session s (set (fun _ => json_int j));;
      v ← get_session s;
      if (get v =? on v)%Z then call (PushEvent (handle v) None (echo_event [(k, json_integer (on v))]) None) else send_pli (handle v)
  end w = Done (tt, upd s (set (fun n => setting_int root k n) v) (layer_call root k (on v) (handle v)) w).
Proof.
  intros Hv Hget Hon Hid. unfold setting_int, layer_call. destruct (json_object_get root k) as [j|].
  - run (change_run s _ v w Hv). set (v1 := set _ v). destruct (Hon (fun _ => json_int j) v) as (H1 & H2 & H3). fold v1 in H1, H2, H3.
    assert (Hv1 : serves s v1 (upd s v1 [] w)) by (eapply serves_upd; [eassumption|rewrite H3; apply Hv]).
    run (session_run s v1 _ Hv1). unfold v1 at 1. rewrite Hget, H1, H2. unfold send_pli.
    destruct (_ =? _)%Z; rewrite (call_run s v1 _ _ Hv1); by rewrite upd_upd.
  - rewrite upd_id; [done|]. rewrite Hid. by destruct Hv.
Qed.

(** A request without a JSEP part and recording, with at least one setting, is served: the
    session is that of [apply_settings], the calls are those of [settings_calls] and then the
    event "ok" for the message, and nothing else changes. *)
Theorem settings_applied s h t root v w :
  serves s v w -> json_is_object root = true -> check_request root = None -> json_object_get root "record" = None ->
  (exists k, k ∈ ["audio"; "video"; "bitrate"; "substream"; "temporal"]%string /\ is_Some (json_object_get root k)) ->
  handle_request s h (EchoMessage (Some h) t (Some root) None) w =
  Done (None, upd s (apply_settings root v) (PushEvent h t ok_event None :: reverse (settings_calls root v)) w).
Proof.
  intros Hv Hobj Hck Hrec (k & Hk & Hset). unfold handle_request. cbn [message jsep transaction json_get mbind option_bind]. rewrite Hobj. cbn [negb].
  run eq_refl. rewrite Hck. unfold enforce_request. cbv zeta. run (audio_run s root v w Hv).
  set (v1 := with_audio root v). assert (Hv1 : serves s v1 (upd s v1 [] w)) by (serve).
  run (video_run s root v1 _ Hv1). rewrite upd_upd, app_nil_r. set (k2 := video_calls _ _). set (v2 := with_video root v1).
  assert (Hv2 : serves s v2 (upd s v2 k2 w)) by (serve).
  run (bitrate_run s root v2 _ Hv2). rewrite upd_upd. set (k3 := bitrate_calls _ _).
  set (v3 := with_bitrate root v2). assert (Hv3 : serves s v3 (upd s v3 (k3 ++ k2) w)) by (serve).
  run (layer_run s substream_target substream s_substream_target root "substream" v3 _ Hv3 ltac:(done) ltac:(done) ltac:(by destruct v3)).
  rewrite upd_upd. set (v4 := with_substream root v3). set (k4 := layer_call root "substream" _ _).
  assert (Hv4 : serves s v4 (upd s v4 (k4 ++ k3 ++ k2) w)) by (serve).
  run (layer_run s templayer_target templayer s_templayer_target root "temporal" v4 _ Hv4 ltac:(done) ltac:(done) ltac:(by destruct v4)).
  rewrite upd_upd. set (v5 := with_temporal root v4). set (k5 := layer_call root "temporal" _ _).
  assert (Hv5 : serves s v5 (upd s v5 (k5 ++ k4 ++ k3 ++ k2) w)) by (serve).
  rewrite Hrec. run eq_refl. run eq_refl.
  assert (Hsome : forallb (fun o => negb (bool_decide (is_Some o)))
     [json_object_get root "audio"; json_object_get root "video"; json_object_get root "bitrate"; json_object_get root "substream";
      json_object_get root "temporal"; None] = false).
  { apply not_true_iff_false. rewrite forallb_forall. intros Hall. specialize (Hall (json_object_get root k)).
    rewrite bool_decide_true in Hall by done. discriminate Hall. cbn.
    repeat (apply elem_of_cons in Hk as [->|Hk]; [tauto|]). by apply elem_of_nil in Hk. }
  rewrite Hsome. cbn [andb]. unfold answer_message. run (call_run s v5 (PushEvent h t ok_event None) _ Hv5). rewrite upd_upd.
  unfold mret, M_ret. do 3 f_equal. cbn [app]. f_equal. unfold settings_calls. rewrite !reverse_app.
  assert (Hrev : forall (l : list (callback J)), length l <= 1 -> reverse l = l) by (intros [|c [|]]; cbn; intros; try done; lia).
  rewrite !Hrev; [by rewrite <- !app_assoc| | | |]; unfold video_calls, bitrate_calls, layer_call; repeat case_match; cbn; lia.
Qed.

(** ** Media *)

(** The session [s] of the handle [h] is in use. *)
Definition plays (h s : loc) v w : Prop :=
  handles w !! h = Some (PluginSession (Some s) false) /\ initialized w = true /\ stopping w = false /\ serves s v w /\
  destroyed v = 0%Z.

Lemma plays_serves h s v w : plays h s v w -> serves s v w.
Proof. by intros (_ & _ & _ & ? & _). Qed.

Lemma plays_running h s v w : plays h s v w -> running w = Done (true, w).
Proof. intros (_ & Hi & Hs & _). unfold running. run eq_refl. run eq_refl. by rewrite Hi, Hs. Qed.

Lemma media_run h s v w : plays h s v w -> media_session (Some h) w = Done (Some (h, s), w).
Proof.
  intros Hp. pose proof (plays_serves _ _ _ _ Hp) as Hv. unfold media_session, get_handle. rewrite bind_assoc. run eq_refl.
  rewrite (proj1 Hp). run eq_refl. run (plays_running _ _ _ _ Hp). run eq_refl. rewrite (proj1 (proj2 Hv)). cbn [stopped plugin_handle negb orb].
  run (session_run s v w Hv). destruct Hp as (_ & _ & _ & _ & Hd). by rewrite Hd.
Qed.

(** Without simulcast and recording, a packet goes back as it came if its kind is on, and
    nowhere if it is off. *)
Theorem echo_relays h s v video buf len w :
  plays h s v w -> ssrc v !! 0 = Some 0%Z -> arc v = None -> vrc v = None ->
  janus_echotest_incoming_rtp (Some h) video buf len w =
  Done (buf, if (if (video =? 0)%Z then audio_active v else video_active v) then w_calls (cons (RelayRtp h video buf)) w else w).
Proof.
  intros Hp H0 Ha Hvr. pose proof (plays_serves _ _ _ _ Hp) as Hv. unfold janus_echotest_incoming_rtp. run (media_run _ _ _ _ Hp).
  run (session_run s v w Hv). run (ssrc_run s v 0 w Hv ltac:(lia)). change (Z.to_nat 0) with 0. rewrite H0. cbn [default Z.eqb negb].
  rewrite andb_false_r, Ha, Hvr.
  assert (Hkind : forall b : bool, ((if! b then janus_recorder_save_frame (if (video =? 0)%Z then None else None) buf;;
      call (RelayRtp h video buf));; mret buf) w = Done (buf, if b then w_calls (cons (RelayRtp h video buf)) w else w)).
  { intros [|]; cbn [whenM]; [|done]. destruct (video =? 0)%Z; cbn [janus_recorder_save_frame]; rewrite bind_assoc; run eq_refl;
      run (call_run s v (RelayRtp h video buf) w Hv); unfold upd, w_heap, w_calls; cbn; by rewrite insert_id by apply Hv. }
  apply Hkind.
Qed.

Lemma c_text_length l : length (c_text l) <= length l.
Proof. induction l as [|c l IH]; [done|]. cbn. destruct (c =? 0)%Z; cbn; lia. Qed.

(** A text comes back behind the prefix, up to its first zero, whole. *)
Theorem echo_text h s v buf len w :
  plays h s v w -> drc v = None -> (0 < len <= Z.of_nat (length buf))%Z ->
  janus_echotest_incoming_data (Some h) (Some buf) len w =
  Done (tt, w_calls (cons (RelayData h (echo_prefix ++ c_text (take (Z.to_nat len) buf)))) w).
Proof.
  intros Hp Hd Hlen. pose proof (plays_serves _ _ _ _ Hp) as Hv. unfold janus_echotest_incoming_data. run (media_run _ _ _ _ Hp).
  destruct (Z.leb_spec len 0); [lia|]. destruct (Z.ltb_spec (Z.of_nat (length buf)) len); [lia|]. cbv zeta.
  run (session_run s v w Hv). rewrite Hd. run eq_refl. rewrite (call_run s v _ w Hv). unfold upd, w_heap, w_calls. cbn [app heap].
  rewrite insert_id by apply Hv. do 4 f_equal. rewrite take_ge; [done|]. rewrite length_app.
  pose proof (c_text_length (take (Z.to_nat len) buf)) as Hc. rewrite length_take in Hc. lia.
Qed.

(** A peer's bandwidth estimate is not capped but replaced: what goes back is the session's
    own bitrate, also when the peer asked for less. *)
Theorem remb_replaced h s v video buf w :
  plays h s v w -> (0 < bitrate v)%Z -> (0 < janus_rtcp_get_remb buf)%Z ->
  janus_echotest_incoming_rtcp (Some h) video buf w =
  Done (tt, upd s (s_peer_bitrate (fun _ => janus_rtcp_get_remb buf) v) [remb h v] w).
Proof.
  intros Hp Hb Hr. pose proof (plays_serves _ _ _ _ Hp) as Hv. unfold janus_echotest_incoming_rtcp. run (media_run _ _ _ _ Hp).
  cbv zeta. destruct (Z.ltb_spec 0 (janus_rtcp_get_remb buf)); [|lia]. run (change_run s (s_peer_bitrate (fun _ => janus_rtcp_get_remb buf)) v w Hv).
  set (v1 := s_peer_bitrate _ v). assert (Hv1 : serves s v1 (upd s v1 [] w)) by serve. run (session_run s v1 _ Hv1).
  change (bitrate v1) with (bitrate v). destruct (Z.ltb_spec 0 (bitrate v)); [|lia]. rewrite (remb_run h s v1 _ Hv1). by rewrite upd_upd.
Qed.

(** ** Slow links *)

Lemma lower_bitrate_lower b : (131072 <= b)%Z -> lower_bitrate b = (b / 2)%Z.
Proof.
  intros Hb. unfold lower_bitrate. destruct (Z.ltb_spec 0 b); [|lia]. cbv zeta. pose proof (Z.div_le_lower_bound b 2 65536 ltac:(lia) ltac:(lia)).
  destruct (Z.ltb_spec (b / 2) (64 * 1024)); lia.
Qed.
Lemma lower_bitrate_floor b : (0 < b < 131072)%Z -> lower_bitrate b = 65536%Z.
Proof.
  intros Hb. unfold lower_bitrate. destruct (Z.ltb_spec 0 b); [|lia]. cbv zeta. pose proof (Z.div_lt_upper_bound b 2 65536 ltac:(lia) ltac:(lia)).
  destruct (Z.ltb_spec (b / 2) (64 * 1024)); lia.
Qed.

Lemma lower_bitrate_iter n b : (0 < b < 65536 * 2 ^ Z.of_nat (S n))%Z -> Nat.iter (S n) lower_bitrate b = 65536%Z.
Proof.
  revert b. induction n as [|n IH]; intros b Hb; [by apply lower_bitrate_floor|]. rewrite Nat.iter_succ_r. apply IH.
  assert (65536 * 2 ^ Z.of_nat (S (S n)) = 2 * (65536 * 2 ^ Z.of_nat (S n)))%Z as Hpow.
  { rewrite (Nat2Z.inj_succ (S n)), Z.pow_succ_r by lia. lia. }
  assert (131072 <= 65536 * 2 ^ Z.of_nat (S n))%Z as Hmin.
  { rewrite (Nat2Z.inj_succ n), Z.pow_succ_r by lia. pose proof (Z.pow_pos_nonneg 2 (Z.of_nat n) ltac:(lia) ltac:(lia)). lia. }
  destruct (decide (b < 131072)%Z); [rewrite lower_bitrate_floor by lia; lia|]. rewrite lower_bitrate_lower by lia.
  split; [apply Z.div_str_pos; lia|apply Z.div_lt_upper_bound; lia].
Qed.

(** The bitrate behind [n] slow links. *)
Definition after_slow_links (n : nat) (b : Z) : Z := Nat.iter n lower_bitrate b.

(** The bitrate behind slow links is never below 64 kbit/s, and after at most sixteen of them
    it is there, whatever it was. *)
Theorem slow_links_settle b : (0 <= b < 2 ^ 32)%Z ->
  (forall n, (0 < n)%nat -> (65536 <= after_slow_links n b < 2 ^ 32)%Z) /\ after_slow_links 16 b = 65536%Z.
Proof.
  intros Hb. unfold after_slow_links. split.
  - intros n Hn. destruct n as [|n]; [lia|]. clear Hn. induction n as [|n IH]; [by apply lower_bitrate_range|].
    rewrite Nat.iter_succ. apply lower_bitrate_range. lia.
  - destruct (decide (b = 0)%Z) as [->|Hne]; [by vm_compute|]. apply (lower_bitrate_iter 15).
    change (65536 * 2 ^ Z.of_nat 16)%Z with (2 ^ 32)%Z. lia.
Qed.

(** The session of the handle is found, under the mutex. *)
Definition listed (h s : loc) v w : Prop :=
  plays h s v w /\ sessions_mutex w = false /\ exists t, sessions w = Some t /\ t !! h = Some s.

Lemma plays_mutex b h s v w : plays h s v w -> plays h s v (w_sessions_mutex (fun _ => b) w).
Proof. by intros (? & ? & ? & (? & ? & ?) & ?). Qed.
Lemma plays_upd h s v v' k w : plays h s v w -> length (ssrc v') = 3 -> destroyed v' = 0%Z -> plays h s v' (upd s v' k w).
Proof. intros (? & ? & ? & Hv & ?) Hl Hd. split_and!; try done. by eapply serves_upd. Qed.

Lemma listed_lookup h s v w b : listed h s v w ->
  janus_echotest_lookup_session h (w_sessions_mutex (fun _ => b) w) = Done (Some s, w_sessions_mutex (fun _ => b) w).
Proof.
  intros (Hp & _ & t & Ht & Hs). unfold janus_echotest_lookup_session. run eq_refl. cbn [sessions w_sessions_mutex]. rewrite Ht. run eq_refl.
  rewrite Hs. unfold get_handle. rewrite bind_assoc. run eq_refl. cbn [handles w_sessions_mutex]. by rewrite (proj1 Hp).
Qed.

Lemma unlock_upd s v' k w : sessions_mutex w = false ->
  w_sessions_mutex (fun _ => false) (upd s v' k (w_sessions_mutex (fun _ => true) w)) = upd s v' k w.
Proof. intros Hm. unfold upd, w_heap, w_calls, w_sessions_mutex. cbn. by rewrite <- Hm. Qed.

(** A slow link of video: the bitrate is lowered, the peer told so, and the client. *)
Theorem slow_link_lowers h s v uplink w :
  listed h s v w -> (uplink = true -> video_active v = true) ->
  let v1 := s_slowlink_count (fun n => u16 (n + 1)) v in
  let v2 := s_bitrate lower_bitrate v1 in
  janus_echotest_slow_link (Some h) uplink true w =
  Done (tt, upd s v2 [PushEvent (handle v) None (echo_event [("result", json_object
      [("status", json_string "slow_link"); ("bitrate", json_integer (lower_bitrate (bitrate v)))])]) None; remb h v2] w).
Proof.
  intros Hl Hup v1 v2. pose proof Hl as (Hp & Hm & _). unfold janus_echotest_slow_link, get_handle. rewrite bind_assoc. run eq_refl.
  rewrite (proj1 Hp). run eq_refl. run (plays_running _ _ _ _ Hp). cbn [stopped negb orb]. run (elock_run w Hm).
  run (listed_lookup h s v w true Hl). set (u := w_sessions_mutex _ w). pose proof (plays_mutex true h s v w Hp) as Hpu. fold u in Hpu.
  pose proof (plays_serves _ _ _ _ Hpu) as Hv. run (session_run s v u Hv).
  assert (Hd : (destroyed v =? 0)%Z = true) by (apply Z.eqb_eq; apply Hp). rewrite Hd. cbn [negb].
  run (change_run s (s_slowlink_count (fun n => u16 (n + 1))) v u Hv). fold v1. assert (Hv1 : serves s v1 (upd s v1 [] u)) by serve.
  assert (Hbr : (uplink && false && negb (audio_active v)) || (uplink && true && negb (video_active v)) = false).
  { destruct uplink; [by rewrite Hup|done]. }
  rewrite Hbr. cbn [whenM]. rewrite bind_assoc. run (change_run s (s_bitrate lower_bitrate) v1 _ Hv1). fold v2. rewrite upd_upd.
  assert (Hv2 : serves s v2 (upd s v2 [] u)) by serve. rewrite bind_assoc. run (remb_run h s v2 _ Hv2). rewrite upd_upd, bind_assoc.
  assert (Hv3 : serves s v2 (upd s v2 [remb h v2] u)) by serve. run (session_run s v2 _ Hv3). run (call_run s v2 _ _ Hv3). rewrite upd_upd.
  rewrite eunlock_run by done. unfold u. by rewrite unlock_upd.
Qed.

(** ** The media are gone *)

Definition done_event : J := echo_event [("result", json_string "done")].

Lemma reset_arc v : arc v = None -> s_arc (fun _ => None) v = v.
Proof. intros Ha. destruct v. cbn in *. by subst. Qed.
Lemma reset_vrc v : vrc v = None -> s_vrc (fun _ => None) v = v.
Proof. intros Ha. destruct v. cbn in *. by subst. Qed.
Lemma reset_drc v : drc v = None -> s_drc (fun _ => None) v = v.
Proof. intros Ha. destruct v. cbn in *. by subst. Qed.

Lemma close_none s v w : serves s v w -> arc v = None -> vrc v = None -> drc v = None -> close_recorders s w = Done (tt, w).
Proof.
  intros Hv Ha Hvr Hdr. assert (Hid : upd s v [] w = w) by (apply upd_id; apply Hv). unfold close_recorders.
  run (session_run s v w Hv). rewrite Ha. run eq_refl. run (change_run s (s_arc (fun _ => None)) v w Hv). rewrite reset_arc, Hid by done.
  run (session_run s v w Hv). rewrite Hvr. run eq_refl. run (change_run s (s_vrc (fun _ => None)) v w Hv). rewrite reset_vrc, Hid by done.
  run (session_run s v w Hv). rewrite Hdr. run eq_refl. rewrite (change_run s (s_drc (fun _ => None)) v w Hv). by rewrite reset_drc, Hid.
Qed.

(** The hang-up of a session without recorders: the first, and one that follows it. *)
Lemma hangup_run h s v w : listed h s v w -> arc v = None -> vrc v = None -> drc v = None -> rec_mutex v = false ->
  janus_echotest_hangup_media h w =
  Done (tt, if (hangingup v =? 0)%Z then upd s (reset_controls (s_hangingup (fun n => n + 1)%Z v)) [PushEvent h None done_event None] w
            else upd s (s_hangingup (fun n => n + 1)%Z v) [] w).
Proof.
  intros Hl Ha Hvr Hdr Hrm. pose proof Hl as (Hp & Hm & _). unfold janus_echotest_hangup_media. run (elock_run w Hm).
  set (x := w_sessions_mutex _ w). pose proof (plays_mutex true h s v w Hp) as Hpx. fold x in Hpx.
  pose proof (plays_serves _ _ _ _ Hpx) as Hv. unfold janus_echotest_hangup_media_internal. rewrite bind_assoc.
  run (plays_running _ _ _ _ Hpx). cbn [negb]. rewrite bind_assoc. run (listed_lookup h s v w true Hl). fold x. rewrite bind_assoc.
  run (session_run s v x Hv). assert (Hd : (destroyed v =? 0)%Z = true) by (apply Z.eqb_eq; apply Hp). rewrite Hd. cbn [negb].
  rewrite bind_assoc. run (change_run s (s_hangingup (fun n => n + 1)%Z) v x Hv). set (v1 := s_hangingup _ v).
  assert (Hv1 : forall k, serves s v1 (upd s v1 k x)) by (intros; serve). destruct (hangingup v =? 0)%Z; cbn [negb].
  - rewrite bind_assoc. run (call_run s v1 (PushEvent h None done_event None) _ (Hv1 [])). rewrite upd_upd. cbn [app].
    set (k := [PushEvent h None done_event None]). set (v2 := s_rec_mutex (fun _ => true) v1).
    assert (Hv2 : serves s v2 (upd s v2 k x)) by (eapply serves_upd; [exact Hv|apply Hv]).
    assert (Hlock : rec_lock s (upd s v1 k x) = Done (tt, upd s v2 k x)).
    { unfold rec_lock. run (session_run s v1 _ (Hv1 k)). change (rec_mutex v1) with (rec_mutex v). rewrite Hrm.
      rewrite (change_run s _ v1 _ (Hv1 k)). by rewrite upd_upd. }
    rewrite bind_assoc. run Hlock. rewrite bind_assoc. run (close_none s v2 _ Hv2 Ha Hvr Hdr).
    assert (Hunlock : rec_unlock s (upd s v2 k x) = Done (tt, upd s (s_rec_mutex (fun _ => false) v2) k x)).
    { unfold rec_unlock. run (session_run s v2 _ Hv2). cbn [rec_mutex v2 s_rec_mutex]. rewrite (change_run s _ v2 _ Hv2). by rewrite upd_upd. }
    rewrite bind_assoc. run Hunlock. set (v3 := s_rec_mutex _ v2).
    assert (Hv3 : serves s v3 (upd s v3 k x)) by (eapply serves_upd; [exact Hv|apply Hv]).
    run (change_run s reset_controls v3 _ Hv3). rewrite upd_upd. rewrite eunlock_run by done. unfold x. rewrite unlock_upd by done.
    do 3 f_equal. unfold v3, v2, v1. destruct v. cbn in Hrm. by subst.
  - run eq_refl. rewrite eunlock_run by done. unfold x. by rewrite unlock_upd.
Qed.

(** The client is told once; a second hang-up before the media are back only counts. *)
Theorem hangup_tells_once h s v w :
  listed h s v w -> hangingup v = 0%Z -> arc v = None -> vrc v = None -> drc v = None -> rec_mutex v = false ->
  let v1 := reset_controls (s_hangingup (fun n => n + 1)%Z v) in
  (janus_echotest_hangup_media h;; janus_echotest_hangup_media h) w =
  Done (tt, upd s (s_hangingup (fun n => n + 1)%Z v1) [PushEvent h None done_event None] w).
Proof.
  intros Hl Hh Ha Hvr Hdr Hrm v1. pose proof (hangup_run h s v w Hl Ha Hvr Hdr Hrm) as H1. rewrite Hh in H1. cbn [Z.eqb] in H1. run H1.
  fold v1. assert (Hl1 : listed h s v1 (upd s v1 [PushEvent h None done_event None] w)).
  { destruct Hl as (Hp & Hm & Ht). split_and!; [eapply plays_upd; [done|done|apply Hp]|done|done]. }
  rewrite (hangup_run h s v1 _ Hl1) by done. assert (Hn : (hangingup v1 =? 0)%Z = false) by (apply Z.eqb_neq; cbn; lia).
  rewrite Hn. by rewrite upd_upd.
Qed.

(** ** Packets that end the server *)

(** Simulcast starts without a substream: a first packet that is neither of the substream aimed
    at nor of the one in the middle is compared with [ssrc\[-1\]], which is no SSRC. *)
Theorem simulcast_start_crashes h s v z0 z1 z2 video buf len payload w :
  plays h s v w -> video <> 0%Z -> video_active v = true -> ssrc v = [z0; z1; z2] -> z0 <> 0%Z ->
  substream v = (-1)%Z -> substream_target v = 2%Z -> last_relayed v = 0%Z ->
  janus_rtp_payload buf len = Some payload -> rtp_ssrc buf <> z2 -> rtp_ssrc buf <> z1 ->
  janus_echotest_incoming_rtp (Some h) video buf len w = Crash OutOfBounds.
Proof.
  intros Hp Hvid Hact Hss Hz0 Hsub Htg Hlast Hpay Hn2 Hn1. pose proof (plays_serves _ _ _ _ Hp) as Hv.
  unfold janus_echotest_incoming_rtp. run (media_run _ _ _ _ Hp). run (session_run s v w Hv).
  run (ssrc_run s v 0 w Hv ltac:(lia)). rewrite Hss, Hact. change (default 0%Z ([z0; z1; z2] !! Z.to_nat 0)) with z0.
  destruct (Z.eqb_spec video 0) as [|_]; [done|]. destruct (Z.eqb_spec z0 0) as [|_]; [done|]. cbn [negb andb].
  unfold incoming_simulcast. rewrite Hpay. unfold switch_substream. rewrite bind_assoc. run (session_run s v w Hv). rewrite Hsub, Htg.
  cbn [Z.eqb Pos.eqb Z.ltb Z.compare andb]. cbv zeta. rewrite bind_assoc. run (ssrc_run s v 2 w Hv ltac:(lia)). rewrite Hss.
  change (default 0%Z ([z0; z1; z2] !! Z.to_nat 2)) with z2. destruct (Z.eqb_spec (rtp_ssrc buf) z2) as [|_]; [done|].
  rewrite !bind_assoc. run (ssrc_run s v 1 w Hv ltac:(lia)). rewrite Hss. change (default 0%Z ([z0; z1; z2] !! Z.to_nat 1)) with z1.
  destruct (Z.eqb_spec (rtp_ssrc buf) z1) as [|_]; [done|]. run eq_refl. run eq_refl. unfold fall_back. rewrite bind_assoc.
  run (session_run s v w Hv). unfold now. rewrite !bind_assoc. run eq_refl. run eq_refl. rewrite Hlast. cbn [Z.eqb].
  run (change_run s (s_last_relayed (fun _ => janus_get_monotonic_time (core w))) v w Hv). set (v1 := s_last_relayed _ v).
  assert (Hv1 : serves s v1 (upd s v1 [] w)) by serve. run (session_run s v1 _ Hv1). change (substream v1) with (substream v). rewrite Hsub.
  unfold ssrc_at. rewrite bind_assoc. by run (session_run s v1 _ Hv1).
Qed.

(** The session of the handle [h] was destroyed five seconds ago, and [h] points to it. *)
Definition left_behind (h s : loc) v w : Prop :=
  handles w !! h = Some (PluginSession (Some s) false) /\ heap w !! s = Some v /\ destroyed v <> 0%Z /\
  (5000000 <= janus_get_monotonic_time (core w) - destroyed v)%Z.

(** The handle of a destroyed session still points to it: when the watchdog has freed it, the
    next packet, text or report of the peer reads freed memory, unless the gateway has marked
    the handle before. *)
Theorem freed_session_is_used `{!EchoLaws X K V} h s v w :
  reachable w -> left_behind h s v w ->
  exists w', janus_echotest_watchdog w = Done (true, w') /\
    (forall video buf len, janus_echotest_incoming_rtp (Some h) video buf len w' = Crash UseAfterFree) /\
    (forall video buf, janus_echotest_incoming_rtcp (Some h) video buf w' = Crash UseAfterFree) /\
    (forall buf len, janus_echotest_incoming_data (Some h) buf len w' = Crash UseAfterFree).
Proof.
  intros Hok%plugin_reachable_ok (Hh & Hv & Hd & Hpast). destruct (watchdog_run w Hok) as (hp & Hr & Hhp). eexists. split; [exact Hr|].
  set (w' := w_old_sessions _ _). assert (Hgone : heap w' !! s = None).
  { cbn. rewrite Hhp, Hv. cbn. unfold expired. destruct (Z.leb_spec (5 * 1000000) (janus_get_monotonic_time (core w) - destroyed v)); [|lia].
    rewrite bool_decide_true; [done|]. apply (proj2 (eok_old _ _ _ Hok)). rewrite (ids_heap _ _ _ Hv). eauto. }
  assert (Hm : media_session (Some h) w' = Crash UseAfterFree).
  { destruct (eok_running _ _ _ Hok) as (Hi & Hst & Hg). unfold media_session, get_handle. rewrite bind_assoc. run eq_refl.
    change (handles w') with (handles w). rewrite Hh. run eq_refl. unfold running. rewrite bind_assoc. run eq_refl. rewrite bind_assoc.
    run eq_refl. change (initialized w') with (initialized w). change (stopping w') with (stopping w). rewrite Hi, Hst. run eq_refl.
    run eq_refl. change (gateway w') with (gateway w). rewrite Hg. cbn [stopped plugin_handle negb orb andb]. unfold get_session.
    rewrite bind_assoc. run eq_refl. by rewrite Hgone. }
  split_and!; intros.
  - unfold janus_echotest_incoming_rtp. by rewrite (bind_crash _ _ _ _ Hm).
  - unfold janus_echotest_incoming_rtcp. by rewrite (bind_crash _ _ _ _ Hm).
  - unfold janus_echotest_incoming_data. by rewrite (bind_crash _ _ _ _ Hm).
Qed.
End Media.

(** ** Witnesses *)

Section Witnesses.
Import EchoConcrete.
Local Open Scope Z_scope.

Definition c_v : janus_echotest_session Z unit := new_session 1.

Lemma c_plays v : length (ssrc v) = 3%nat -> destroyed v = 0 -> plays 1 0 v (upd 0 v [] c_session).
Proof. intros Hl Hd. split_and!; try done. Qed.

Lemma c_listed v : length (ssrc v) = 3%nat -> destroyed v = 0 -> listed 1 0 v (upd 0 v [] c_session).
Proof. intros Hl Hd. split_and!; try done. exists {[1%nat := 0%nat]}. by vm_compute. Qed.

Lemma settings_applied_witness :
  handle_request 0 1 (EchoMessage (Some 1%nat) (Some "a"%string) (Some c_request) None) (upd 0 c_v [] c_session) =
  Done (None, upd 0 (s_bitrate (fun _ => 128000) (s_audio_active (fun _ => false) c_v))
    [PushEvent 1 (Some "a"%string) ok_event None; RelayRtcp 1 1 [143; 128000; 1]] c_session).
Proof.
  rewrite (settings_applied 0 1 (Some "a"%string) c_request c_v (upd 0 c_v [] c_session)); [by vm_compute|by split_and!|done|done|done|].
  exists "audio"%string. split; [by left|by eexists].
Defined.

Lemma echo_relays_witness :
  janus_echotest_incoming_rtp (Some 1%nat) 1 [1; 2; 3] 3 (upd 0 c_v [] c_session) =
  Done ([1; 2; 3], w_calls (cons (RelayRtp 1 1 [1; 2; 3])) (upd 0 c_v [] c_session)).
Proof. by rewrite (echo_relays 1 0 c_v); [|apply c_plays|..]. Defined.

Lemma echo_text_witness :
  janus_echotest_incoming_data (Some 1%nat) (Some [104; 105; 0; 33]) 4 (upd 0 c_v [] c_session) =
  Done (tt, w_calls (cons (RelayData 1 (echo_prefix ++ [104; 105]))) (upd 0 c_v [] c_session)).
Proof. by rewrite (echo_text 1 0 c_v); [|apply c_plays|..]. Defined.

Lemma remb_replaced_witness :
  janus_echotest_incoming_rtcp (Some 1%nat) 1 [5000] (upd 0 (s_bitrate (fun _ => 9000) c_v) [] c_session) =
  Done (tt, upd 0 (s_peer_bitrate (fun _ => 5000) (s_bitrate (fun _ => 9000) c_v)) [RelayRtcp 1 1 [143; 9000; 1]] c_session).
Proof.
  rewrite (remb_replaced 1 0 (s_bitrate (fun _ => 9000) c_v)); [by rewrite upd_upd|by apply c_plays|by vm_compute|by vm_compute].
Defined.

Lemma slow_links_settle_witness : after_slow_links 16 30000 = 65536.
Proof. apply (slow_links_settle 30000). lia. Defined.

Lemma slow_link_lowers_witness :
  exists w', janus_echotest_slow_link (Some 1%nat) true true (upd 0 c_v [] c_session) = Done (tt, w') /\
    bitrate <$> heap w' !! 0%nat = Some 262144.
Proof.
  eexists. split; [apply (slow_link_lowers 1 0 c_v true); [by apply c_listed|done]|by vm_compute].
Defined.

Lemma hangup_tells_once_witness :
  exists w', (janus_echotest_hangup_media 1;; janus_echotest_hangup_media 1) (upd 0 c_v [] c_session) = Done (tt, w') /\
    calls w' = [PushEvent 1 None done_event None].
Proof.
  eexists. split; [apply (hangup_tells_once 1 0 c_v); [by apply c_listed|done..]|by vm_compute].
Defined.

(** Three substreams, aimed at the third: a packet of the first comes. *)
Definition c_simulcast : janus_echotest_session Z unit := s_substream_target (fun _ => 2) (s_ssrc (fun _ => [11; 12; 13]) c_v).
Lemma simulcast_start_crashes_witness :
  janus_echotest_incoming_rtp (Some 1%nat) 1 [1; 2; 11; 4] 4 (upd 0 c_simulcast [] c_session) = Crash OutOfBounds.
Proof.
  by apply (simulcast_start_crashes 1 0 c_simulcast 11 12 13 1 [1; 2; 11; 4] 4 (3%nat, 1)); [apply c_plays|..].
Defined.

Lemma freed_session_is_used_witness :
  exists w', janus_echotest_watchdog c_later = Done (true, w') /\
    janus_echotest_incoming_rtp (Some 1%nat) 0 [1; 2; 3] 3 w' = Crash UseAfterFree.
Proof.
  destruct (freed_session_is_used 1 0 (s_destroyed (fun _ => 7) (reset_controls (s_hangingup (fun _ => 1) c_v))) c_later c_later_reachable)
    as (w' & Hr & Hc & _).
  - split_and!; [by vm_compute|by vm_compute|done|by vm_compute].
  - exists w'. split; [exact Hr|apply Hc].
Defined.
End Witnesses.
End EchoMedia.
