(* ===== verification/Exchange.v ===== *)
(** * Messages over non-blocking sockets: mmap/seq/message.h and server.c

    A message is an array of 640 bytes.  A peer keeps the messages to send in a bounded
    buffer and the one under way with the number of its bytes that are sent, and collects
    what it receives in a buffer of its own; the server keeps ten peers and serves those that
    select reports.  The kernel's sockets are a parameter, with the bytes that are to be read
    and those taken over for sending as a view.  [handled] records the messages the handler is
    called with.  Of the printing, what reads a message of another process is modelled; the
    peers' addresses are only printed and left out. *)

From S2P Require Import Prelude.

Local Open Scope c_scope.

Module Mq.

(** ** The kernel *)

Inductive recv_result : Type := Received (bs : list Z) | RecvAgain | RecvFailed.
Inductive send_result : Type := SentBytes (n : nat) | SendAgain | SendFailed.

Class Sockets (K : Type) := {
  sock_recv : Z -> nat -> K -> recv_result * K;
  sock_send : Z -> list Z -> K -> send_result * K;
  sock_accept : Z -> K -> Z * K;
  sock_close : Z -> K -> K;
  stdin_read : nat -> K -> recv_result * K;
  incoming : Z -> K -> list Z;  (* to be received *)
  outgoing : Z -> K -> list Z  (* taken over for sending, ever *)
}.

Class SocketsLaws (K : Type) `{Sockets K} := {
  recv_law : forall fd n k r k', sock_recv fd n k = (r, k') ->
    match r with
    | Received bs => length bs <= n /\ incoming fd k = bs ++ incoming fd k'
    | _ => incoming fd k' = incoming fd k
    end;
  send_law : forall fd bs k r k', sock_send fd bs k = (r, k') ->
    match r with
    | SentBytes n => n <= length bs /\ outgoing fd k' = outgoing fd k ++ take n bs
    | _ => outgoing fd k' = outgoing fd k
    end;
  stdin_law : forall n k bs, (stdin_read n k).1 = Received bs -> length bs <= n
}.

(** ** Data *)

Definition MAX_SEND_SIZE : nat := 100.
Definition MAX_MESSAGES_BUFFER_SIZE : nat := 100.
Definition SENDER_MAXSIZE : nat := 128.
Definition DATA_MAXSIZE : nat := 512.
Definition MAX_CLIENTS : nat := 10.
Definition NO_SOCKET : Z := -1.
Definition STDIN_FILENO : Z := 0.

(** The bytes of a [message_t]: [sender], then [data]. *)
Definition message_t : Type := list Z.
Definition sizeof_message : nat := SENDER_MAXSIZE + DATA_MAXSIZE.
#[global] Arguments sizeof_message : simpl never.

Record message_queue_t : Type := Queue { size : nat; data : list message_t; current : nat }.

Record peer_t : Type := Peer {
  socket : Z;
  send_buffer : message_queue_t;
  sending_buffer : message_t;
  current_sending_byte : Z;  (* [size_t] *)
  receiving_buffer : message_t;
  current_receiving_byte : Z  (* [size_t] *)
}.

(** A peer at work: with the kernel, and the messages its handler was called with. *)
Record pworld (K : Type) : Type := PWorld { peer : peer_t; net : K; handled : list message_t }.
Arguments PWorld {K}.
Arguments peer {K}.
Arguments net {K}.
Arguments handled {K}.

Record server (K : Type) : Type := Server {
  listen_sock : Z;
  connection_list : list peer_t;
  s_net : K;
  s_handled : list message_t
}.
Arguments Server {K}.
Arguments listen_sock {K}.
Arguments connection_list {K}.
Arguments s_net {K}.
Arguments s_handled {K}.

(** ** Messages *)

(** The string in an array, [None] when no byte of it is 0. *)
Fixpoint cstr (bs : list Z) : option (list Z) :=
  match bs with
  | [] => None
  | b :: bs => if (b =? 0)%Z then Some [] else cons b <$> cstr bs
  end.

(** [memcpy(buf + off, bs, length bs)] *)
Definition write_at (off : nat) (bs buf : list Z) : list Z := take off buf ++ bs ++ drop (off + length bs) buf.

(** The two [sprintf]s, into what [message] held before. *)
Definition prepare_message (sender text : list Z) (message : message_t) : option message_t :=
  if decide (length sender < SENDER_MAXSIZE /\ length text < DATA_MAXSIZE)
  then Some (write_at SENDER_MAXSIZE (text ++ [0%Z]) (write_at 0 (sender ++ [0%Z]) message))
  else None.

(** ** The message queue *)

Definition zero_message : message_t := replicate sizeof_message 0%Z.
Definition create_message_queue (queue_size : nat) : message_queue_t :=
  Queue queue_size (replicate queue_size zero_message) 0.

Definition inside {S A : Type} (o : option A) : M S A :=
  match o with Some a => mret a | None => crash OutOfBounds end.

Definition enqueue (m : message_t) : M message_queue_t Z :=
  q ← gets id;
  if current q =? size q then mret (-1)%Z
  else
    inside (data q !! current q);;
    modify (fun q => Queue (size q) (<[current q := m]> (data q)) (current q + 1));; mret 0%Z.

(** [None]: the queue is empty; else the message copied out. *)
Definition dequeue : M message_queue_t (option message_t) :=
  q ← gets id;
  if current q =? 0 then mret None
  else
    m ← inside (data q !! (current q - 1));
    modify (fun q => Queue (size q) (data q) (current q - 1));; mret (Some m).

Definition dequeue_all (q : message_queue_t) : message_queue_t := Queue (size q) (data q) 0.

(** ** A peer *)

Definition create_peer (p : peer_t) : peer_t :=
  Peer (socket p) (create_message_queue MAX_MESSAGES_BUFFER_SIZE) (sending_buffer p) (u64 (-1)) (receiving_buffer p) 0.

Section Peer.
Context {K : Type} `{Sockets K}.
Abbreviation m := (M (pworld K)).

Definition set_peer (f : peer_t -> peer_t) : m unit := modify (fun w => PWorld (f (peer w)) (net w) (handled w)).
Definition set_sending (buf : message_t) (n : Z) : m unit :=
  set_peer (fun p => Peer (socket p) (send_buffer p) buf n (receiving_buffer p) (current_receiving_byte p)).
Definition set_receiving (buf : message_t) (n : Z) : m unit :=
  set_peer (fun p => Peer (socket p) (send_buffer p) (sending_buffer p) (current_sending_byte p) buf n).
Definition on_queue {A : Type} (op : M message_queue_t A) : m A := fun w =>
  let p := peer w in
  match op (send_buffer p) with
  | Done (a, q) =>
      Done (a, PWorld (Peer (socket p) q (sending_buffer p) (current_sending_byte p) (receiving_buffer p)
                 (current_receiving_byte p)) (net w) (handled w))
  | Crash f => Crash f
  end.
Definition net_call {A : Type} (f : K -> A * K) : m A := fun w =>
  let '(a, k) := f (net w) in Done (a, PWorld (peer w) k (handled w)).

Definition peer_add_to_send (msg : message_t) : m Z := on_queue (enqueue msg).

(** A handler that does no more than being called. *)
Definition record_message (msg : message_t) : m unit :=
  modify (fun w => PWorld (peer w) (net w) (handled w ++ [msg])).

(** [printf("%s: %s", sender, data)] *)
Definition print_message (msg : message_t) : m unit :=
  match cstr (take SENDER_MAXSIZE msg), cstr (drop SENDER_MAXSIZE msg) with
  | Some _, Some _ => mret tt
  | _, _ => crash Unterminated
  end.

Definition handle_received_message (msg : message_t) : m unit := print_message msg;; record_message msg.

Section Receive.
Context (message_handler : message_t -> m unit).

(** A message that is complete goes to the handler. *)
Definition complete_message : m unit :=
  p ← gets peer;
  if (Z.of_nat sizeof_message <=? current_receiving_byte p)%Z
  then message_handler (receiving_buffer p);; set_receiving (receiving_buffer p) 0
  else mret tt.

(** [do { ... } while (received_count > 0)] *)
Fixpoint receive_from_peer (n : nat) : m Z :=
  match n with
  | O => crash Fuel
  | S n =>
      complete_message;;
      p ← gets peer;
      let at_ := Z.to_nat (current_receiving_byte p) in
      let len_to_receive := Nat.min MAX_SEND_SIZE (sizeof_message - at_) in
      r ← net_call (sock_recv (socket p) len_to_receive);
      match r with
      | RecvFailed => mret (-1)%Z
      | RecvAgain => mret 0%Z
      | Received [] => mret (-1)%Z
      | Received bs =>
          set_receiving (write_at at_ bs (receiving_buffer p)) (u64 (current_receiving_byte p + Z.of_nat (length bs)));;
          receive_from_peer n
      end
  end.
End Receive.

(** The next message, when none is under way; [false]: there is none. *)
Definition next_message : m bool :=
  p ← gets peer;
  if (current_sending_byte p <? 0)%Z || (Z.of_nat sizeof_message <=? current_sending_byte p)%Z then
    o ← on_queue dequeue;
    match o with
    | None => set_sending (sending_buffer p) (u64 (-1));; mret false
    | Some msg => set_sending msg 0;; mret true
    end
  else mret true.

Fixpoint send_to_peer (n : nat) : m Z :=
  match n with
  | O => crash Fuel
  | S n =>
      more ← next_message;
      if negb more then mret 0%Z
      else
        p ← gets peer;
        let at_ := Z.to_nat (current_sending_byte p) in
        let len_to_send := Nat.min MAX_SEND_SIZE (sizeof_message - at_) in
        r ← net_call (sock_send (socket p) (take len_to_send (drop at_ (sending_buffer p))));
        match r with
        | SendFailed => mret (-1)%Z
        | SendAgain => mret 0%Z
        | SentBytes 0 => mret 0%Z
        | SentBytes c =>
            set_sending (sending_buffer p) (u64 (current_sending_byte p + Z.of_nat c));; send_to_peer n
        end
  end.
End Peer.

(** ** The terminal *)

Section Stdin.
Context {K : Type} `{Sockets K}.

(** [do { ... } while (read_count > 0)]: every read writes to the start of the buffer. *)
Fixpoint stdin_loop (n max_len : nat) (buf : list Z) (total_read : nat) : M K (option (list Z)) :=
  match n with
  | O => crash Fuel
  | S n =>
      r ← (fun k => Done (stdin_read max_len k));
      match r with
      | RecvFailed => mret None
      | RecvAgain | Received [] => mret (Some buf)
      | Received bs =>
          let buf := write_at 0 bs buf in
          let total_read := total_read + length bs in
          if max_len <? total_read then mret (Some buf) else stdin_loop n max_len buf total_read
      end
  end.

(** The string that is read, without a newline at its end. *)
Definition read_from_stdin (max_len : nat) : M K (option (list Z)) :=
  o ← stdin_loop (S (S max_len)) max_len (replicate max_len 0%Z) 0;
  match o with
  | None => mret None
  | Some buf =>
      s ← match cstr buf with Some s => mret s | None => crash Unterminated end;
      mret (Some (match last s with Some 10%Z => removelast s | _ => s end))
  end.
End Stdin.

(** ** The server *)

Section Server.
Context {K : Type} `{Sockets K}.
Abbreviation m := (M (server K)).

Definition conn (i : nat) : m peer_t := l ← gets connection_list; inside (l !! i).
Definition set_conn (i : nat) (p : peer_t) : m unit :=
  modify (fun w => Server (listen_sock w) (<[i := p]> (connection_list w)) (s_net w) (s_handled w)).
Definition s_call {A : Type} (f : K -> A * K) : m A := fun w =>
  let '(a, k) := f (s_net w) in Done (a, Server (listen_sock w) (connection_list w) k (s_handled w)).

Definition s_kernel {A : Type} (op : M K A) : m A := fun w =>
  match op (s_net w) with
  | Done (a, k) => Done (a, Server (listen_sock w) (connection_list w) k (s_handled w))
  | Crash f => Crash f
  end.

(** A peer's function, called on [&connection_list[i]]. *)
Definition at_peer {A : Type} (i : nat) (op : M (pworld K) A) (p : peer_t) : m A := fun w =>
  match op (PWorld p (s_net w) (s_handled w)) with
  | Done (a, s) => Done (a, Server (listen_sock w) (<[i := peer s]> (connection_list w)) (net s) (handled s))
  | Crash f => Crash f
  end.
Definition on_peer {A : Type} (i : nat) (op : M (pworld K) A) : m A := p ← conn i; at_peer i op p.

(** The two loops with turns enough: one for each byte and one more. *)
Definition receive_all : M (pworld K) Z := fun w =>
  receive_from_peer handle_received_message (S (length (incoming (socket (peer w)) (net w)))) w.
Definition send_all : M (pworld K) Z := fun w =>
  send_to_peer (S (sizeof_message * S (current (send_buffer (peer w))))) w.

Definition shutdown_properly : m unit := crash (Fatal "shutdown_properly").

(** What select is asked for: to read, to write, exceptions. *)
Definition connected (p : peer_t) : Prop := socket p <> NO_SOCKET.
Definition build_fd_sets (w : server K) : gset Z * gset Z * gset Z :=
  let all : gset Z := {[STDIN_FILENO; listen_sock w]} ∪ list_to_set (socket <$> filter connected (connection_list w)) in
  (all, list_to_set (socket <$> filter (fun p => connected p /\ 0 < current (send_buffer p)) (connection_list w)), all).

Definition handle_new_connection : m Z :=
  ls ← gets listen_sock;
  new_client_sock ← s_call (sock_accept ls);
  if (new_client_sock <? 0)%Z then mret (-1)%Z
  else
    l ← gets connection_list;
    match list_find (fun p => socket p = NO_SOCKET) l with
    | Some (i, p) =>
        set_conn i (Peer new_client_sock (send_buffer p) (sending_buffer p) (u64 (-1)) (receiving_buffer p) 0);; mret 0%Z
    | None => s_call (fun k => (tt, sock_close new_client_sock k));; mret (-1)%Z
    end.

Definition close_client_connection (i : nat) : m unit :=
  p ← conn i;
  s_call (fun k => (tt, sock_close (socket p) k));;
  set_conn i (Peer NO_SOCKET (dequeue_all (send_buffer p)) (sending_buffer p) (u64 (-1)) (receiving_buffer p) 0).

Fixpoint add_to_all (ids : list nat) (msg : message_t) : m unit :=
  match ids with
  | [] => mret tt
  | i :: ids =>
      p ← conn i;
      (if decide (connected p) then on_peer i (peer_add_to_send msg);; mret tt else mret tt);;
      add_to_all ids msg
  end.

Definition SERVER_NAME : list Z := [115; 101; 114; 118; 101; 114]%Z.

(** [garbage]: what the new message's place on the stack held. *)
Definition handle_read_from_stdin (garbage : message_t) : m Z :=
  o ← s_kernel (read_from_stdin DATA_MAXSIZE);
  match o with
  | None => mret (-1)%Z
  | Some text =>
      msg ← inside (prepare_message SERVER_NAME text garbage);
      add_to_all (seq 0 MAX_CLIENTS) msg;; mret 0%Z
  end.

(** One client, served for what select reported of it. *)
Definition serve_except (ex : gset Z) (i : nat) : m unit :=
  p ← conn i; if decide (connected p /\ socket p ∈ ex) then close_client_connection i else mret tt.
Definition serve_write (wr ex : gset Z) (i : nat) : m unit :=
  p ← conn i;
  if decide (connected p /\ socket p ∈ wr) then
    rc ← on_peer i send_all;
    if negb (rc =? 0)%Z then close_client_connection i else serve_except ex i
  else serve_except ex i.
Definition serve_client (rd wr ex : gset Z) (i : nat) : m unit :=
  p ← conn i;
  if decide (connected p /\ socket p ∈ rd) then
    rc ← on_peer i receive_all;
    if negb (rc =? 0)%Z then close_client_connection i else serve_write wr ex i
  else serve_write wr ex i.
Definition serve_clients (rd wr ex : gset Z) (ids : list nat) : m unit :=
  foldr (fun i k => serve_client rd wr ex i;; k) (mret tt) ids.

(** A turn of main's loop, behind select. *)
Definition server_turn (activity : Z) (rd wr ex : gset Z) (garbage : message_t) : m unit :=
  if decide (activity = -1 \/ activity = 0)%Z then shutdown_properly
  else
    ls ← gets listen_sock;
    (if! bool_decide (STDIN_FILENO ∈ rd) then
       (rc ← handle_read_from_stdin garbage; if! negb (rc =? 0)%Z then shutdown_properly));;
    (if! bool_decide (ls ∈ rd) then (handle_new_connection;; mret tt));;
    (if! bool_decide (STDIN_FILENO ∈ ex) then shutdown_properly);;
    (if! bool_decide (ls ∈ ex) then shutdown_properly);;
    serve_clients rd wr ex (seq 0 MAX_CLIENTS).

(** main, up to its loop: the peers are global, so zero. *)
Definition zero_peer : peer_t := Peer 0 (Queue 0 [] 0) zero_message 0 zero_message 0.
Definition initial_peer : peer_t :=
  create_peer (Peer NO_SOCKET (send_buffer zero_peer) (sending_buffer zero_peer) (current_sending_byte zero_peer)
    (receiving_buffer zero_peer) (current_receiving_byte zero_peer)).
Definition initial_server (ls : Z) (k : K) : server K := Server ls (replicate MAX_CLIENTS initial_peer) k [].
End Server.

(** ** A peer's streams *)

(** The part of the next message that has arrived. *)
Definition partial (p : peer_t) : list Z := take (Z.to_nat (current_receiving_byte p)) (receiving_buffer p).
(** What is left to send of the message under way. *)
Definition unsent (p : peer_t) : list Z :=
  if decide (current_sending_byte p < Z.of_nat sizeof_message)%Z
  then drop (Z.to_nat (current_sending_byte p)) (sending_buffer p) else [].
(** The messages to send, in the order [dequeue] takes them. *)
Definition queued (q : message_queue_t) : list message_t := rev (take (current q) (data q)).

Definition whole (m : message_t) : Prop := length m = sizeof_message.
Definition queue_ok (q : message_queue_t) : Prop :=
  length (data q) = size q /\ current q <= size q /\ Forall whole (data q).
Definition sending_ok (p : peer_t) : Prop :=
  queue_ok (send_buffer p) /\ whole (sending_buffer p) /\ (0 <= current_sending_byte p)%Z.
Definition receiving_ok (p : peer_t) : Prop :=
  whole (receiving_buffer p) /\ (0 <= current_receiving_byte p <= Z.of_nat sizeof_message)%Z.
Definition same_receiver (p p' : peer_t) : Prop :=
  socket p' = socket p /\ receiving_buffer p' = receiving_buffer p /\ current_receiving_byte p' = current_receiving_byte p.
Definition same_sender (p p' : peer_t) : Prop :=
  socket p' = socket p /\ send_buffer p' = send_buffer p /\ sending_buffer p' = sending_buffer p /\
  current_sending_byte p' = current_sending_byte p.

Lemma length_write_at off bs buf : off + length bs <= length buf -> length (write_at off bs buf) = length buf.
Proof. intros Hl. unfold write_at. rewrite !length_app, length_take, length_drop. lia. Qed.

Lemma take_write_at off bs buf :
  off + length bs <= length buf -> take (off + length bs) (write_at off bs buf) = take off buf ++ bs.
Proof.
  intros Hl. unfold write_at. rewrite (assoc_L (++)). apply take_app_length'.
  rewrite length_app, length_take. lia.
Qed.

Lemma sizeof_640 : sizeof_message = 640.
Proof. reflexivity. Qed.

(** *** The queue *)

Lemma queued_enqueue q x m :
  queue_ok q -> data q !! current q = Some x ->
  queued (Queue (size q) (<[current q := m]> (data q)) (current q + 1)) = m :: queued q.
Proof.
  intros _ Hx. unfold queued. cbn. rewrite Nat.add_1_r.
  assert (Hm : <[current q := m]> (data q) !! current q = Some m)
    by (apply list_lookup_insert_eq; exact (lookup_lt_Some _ _ _ Hx)).
  rewrite (take_S_r _ _ m Hm), rev_app_distr. cbn. by rewrite take_insert_ge by lia.
Qed.

Lemma queued_dequeue q m :
  queue_ok q -> data q !! (current q - 1) = Some m -> current q <> 0 ->
  queued q = m :: queued (Queue (size q) (data q) (current q - 1)).
Proof.
  intros _ Hm Hc. unfold queued. cbn. replace (current q) with (S (current q - 1)) at 1 by lia.
  by rewrite (take_S_r _ _ m), rev_app_distr by done.
Qed.

Lemma enqueue_spec m q :
  queue_ok q -> whole m ->
  wp (enqueue m) (fun rc q' => queue_ok q' /\ size q' = size q /\
    ((rc = (-1)%Z /\ current q = size q /\ q' = q) \/ (rc = 0%Z /\ queued q' = m :: queued q))) q.
Proof.
  intros (Hl & Hc & Hw) Hm. unfold enqueue. wp_steps. unfold id. destruct (Nat.eqb_spec (current q) (size q)) as [He|He].
  - wp_steps. split_and!; [done|done|]. by left.
  - destruct (data q !! current q) as [x|] eqn:Hx; [|apply lookup_ge_None in Hx; lia]. wp_steps.
    cbn. wp_steps. unfold queue_ok. cbn. rewrite length_insert. split_and!; try lia; [by apply Forall_insert|].
    right. split; [done|]. by eapply (queued_enqueue q x m).
Qed.

Lemma dequeue_spec q :
  queue_ok q ->
  wp dequeue (fun o q' => queue_ok q' /\ size q' = size q /\
    match o with
    | None => queued q = [] /\ q' = q
    | Some m => whole m /\ queued q = m :: queued q' /\ current q = S (current q')
    end) q.
Proof.
  intros (Hl & Hc & Hw). unfold dequeue. wp_steps. unfold id. destruct (Nat.eqb_spec (current q) 0) as [He|He].
  - wp_steps. split_and!; try done. unfold queued. by rewrite He.
  - destruct (data q !! (current q - 1)) as [x|] eqn:Hx; [|apply lookup_ge_None in Hx; lia]. wp_steps.
    cbn. wp_steps. unfold queue_ok. cbn. split_and!; try done; try lia; [by eapply Forall_lookup_1|].
    by apply queued_dequeue.
Qed.

(** *** Receiving *)

Section PeerProofs.
Context {K : Type} `{SocketsLaws K}.
Implicit Types w : pworld K.

(** From [w] to [w'] the bytes [read] were read off the peer's socket, and with those that had
    arrived before they are the messages [msgs], given to the handler in order, and the part
    that waits for the rest of its message. *)
Definition receives w w' (read : list Z) (msgs : list message_t) : Prop :=
  receiving_ok (peer w') /\ same_sender (peer w) (peer w') /\
  incoming (socket (peer w)) (net w) = read ++ incoming (socket (peer w)) (net w') /\
  handled w' = handled w ++ msgs /\ Forall whole msgs /\
  partial (peer w) ++ read = concat msgs ++ partial (peer w').

Lemma receives_refl w : receiving_ok (peer w) -> receives w w [] [].
Proof. intros Hok. unfold receives. rewrite !app_nil_r. by split_and!. Qed.

Lemma receives_trans w w1 w2 r1 r2 ms1 ms2 :
  receives w w1 r1 ms1 -> receives w1 w2 r2 ms2 -> receives w w2 (r1 ++ r2) (ms1 ++ ms2).
Proof.
  intros (_ & (Hs & ? & ? & ?) & Hi1 & Hh1 & Hm1 & Hp1) (Hok & (Hs2 & ? & ? & ?) & Hi2 & Hh2 & Hm2 & Hp2).
  rewrite Hs in Hi2. split_and!; [done|..].
  - unfold same_sender. split_and!; congruence.
  - by rewrite Hi1, Hi2, (assoc_L (++)).
  - by rewrite Hh2, Hh1, (assoc_L (++)).
  - by apply Forall_app.
  - by rewrite (assoc_L (++)), Hp1, <- (assoc_L (++)), Hp2, concat_app, (assoc_L (++)).
Qed.

Lemma complete_spec w :
  receiving_ok (peer w) ->
  wp (complete_message record_message) (fun _ w' => (current_receiving_byte (peer w') < Z.of_nat sizeof_message)%Z /\ net w' = net w /\
    exists msgs, receives w w' [] msgs) w.
Proof.
  pose proof sizeof_640. intros [Hw Hc]. unfold complete_message. wp_steps. destruct (Z.leb_spec (Z.of_nat sizeof_message) (current_receiving_byte (peer w))).
  - unfold record_message, set_receiving, set_peer. wp_steps. cbn. split_and!; [lia|done|].
    exists [receiving_buffer (peer w)]. unfold receives, receiving_ok, partial. cbn. split_and!; try done; try lia.
    + constructor; [done|constructor].
    + rewrite !app_nil_r, take_ge; [done|]. unfold whole in Hw. lia.
  - wp_steps. split_and!; [lia|done|]. exists []. by apply receives_refl.
Qed.

(** Bytes put behind the part that has arrived. *)
Lemma received_bytes w k bs at_ :
  receiving_ok (peer w) -> Z.of_nat at_ = current_receiving_byte (peer w) -> at_ + length bs <= sizeof_message ->
  incoming (socket (peer w)) (net w) = bs ++ incoming (socket (peer w)) k ->
  wp (set_receiving (write_at at_ bs (receiving_buffer (peer w)))
        (u64 (current_receiving_byte (peer w) + Z.of_nat (length bs))))
    (fun _ w' => net w' = k /\ receives w w' bs []) (PWorld (peer w) k (handled w)).
Proof.
  intros [Hw Hc] Hat Hl Hin. unfold set_receiving, set_peer. wp_steps. cbn. split; [done|].
  assert (Hsum : (current_receiving_byte (peer w) + Z.of_nat (length bs))%Z = Z.of_nat (at_ + length bs)) by lia.
  unfold whole in Hw. rewrite Hsum, u64_small by (rewrite sizeof_640 in Hl; lia).
  unfold receives, receiving_ok, partial, whole. cbn. rewrite length_write_at by lia. split_and!; try done; try lia.
  - by rewrite app_nil_r.
  - rewrite Nat2Z.id, take_write_at, <- Hat, Nat2Z.id by lia. done.
Qed.

Lemma wp_net_call {A : Type} (f : K -> A * K) Q w :
  (forall a k, f (net w) = (a, k) -> Q a (PWorld (peer w) k (handled w))) -> wp (net_call f) Q w.
Proof. intros HQ. unfold wp, net_call. destruct (f (net w)) as [a k]. by apply HQ. Qed.

Lemma receive_spec n w :
  receiving_ok (peer w) -> length (incoming (socket (peer w)) (net w)) < n ->
  wp (receive_from_peer record_message n) (fun rc w' => (rc = 0%Z \/ rc = (-1)%Z) /\
    (current_receiving_byte (peer w') < Z.of_nat sizeof_message)%Z /\ exists read msgs, receives w w' read msgs) w.
Proof.
  revert w. induction n as [|n IH]; intros w Hok Hn; [lia|]. cbn [receive_from_peer].
  apply wp_bind. eapply wp_mono; [by apply complete_spec|]. cbn beta. intros _ w1 (Hlt & Hnet & msgs & Hr1).
  wp_steps. pose proof Hr1 as ([Hw1 Hc1] & (Hsock & _) & _).
  set (at_ := Z.to_nat (current_receiving_byte (peer w1))).
  assert (Hat : Z.of_nat at_ = current_receiving_byte (peer w1)) by lia.
  apply wp_net_call. intros r k Hrecv. apply recv_law in Hrecv.
  assert (Hq : forall rc, (rc = 0 \/ rc = -1)%Z -> incoming (socket (peer w1)) k = incoming (socket (peer w1)) (net w1) ->
    wp (mret rc) (fun rc w' => (rc = 0%Z \/ rc = (-1)%Z) /\
      (current_receiving_byte (peer w') < Z.of_nat sizeof_message)%Z /\ exists read msgs, receives w w' read msgs)
      (PWorld (peer w1) k (handled w1))).
  { intros rc Hrc Hk. wp_steps. split_and!; [done|done|]. exists [], msgs.
    destruct Hr1 as (? & ? & Hi & ? & ? & ?). split_and!; try done. cbn. by rewrite Hi, <- Hsock, Hk. }
  destruct r as [[|b bs]| |]; [|..]; [apply Hq; naive_solver|  |apply Hq; naive_solver|apply Hq; naive_solver].
  destruct Hrecv as [Hlen Hin]. apply wp_bind. eapply wp_mono.
  { eapply (received_bytes w1 k (b :: bs) at_); [by split|done| |done]. lia. }
  cbn beta. intros _ w2 [<- Hr2]. pose proof (receives_trans _ _ _ _ _ _ _ Hr1 Hr2) as Hr.
  eapply wp_mono.
  - apply IH; [apply Hr|]. destruct Hr as (_ & (Hs & _) & Hi & _). rewrite Hs. rewrite Hi in Hn.
    rewrite length_app in Hn. cbn in Hn. lia.
  - cbn beta. intros rc w3 (? & ? & read & ms & Hr3). split_and!; [done|done|].
    eexists _, _. by eapply receives_trans.
Qed.

(** *** Sending *)

(** From [w] to [w'] the messages [taken] were taken out of the queue, and the bytes [sent]
    given to the socket are what was left of the message under way, then those messages, up to
    what is now left of the last of them. *)
Definition sends w w' (sent : list Z) (taken : list message_t) : Prop :=
  sending_ok (peer w') /\ same_receiver (peer w) (peer w') /\ handled w' = handled w /\
  size (send_buffer (peer w')) = size (send_buffer (peer w)) /\
  outgoing (socket (peer w)) (net w') = outgoing (socket (peer w)) (net w) ++ sent /\ Forall whole taken /\
  unsent (peer w) ++ concat taken = sent ++ unsent (peer w') /\
  queued (send_buffer (peer w)) = taken ++ queued (send_buffer (peer w')).

Lemma sends_refl w : sending_ok (peer w) -> sends w w [] [].
Proof. intros Hok. unfold sends. rewrite !app_nil_r. by split_and!. Qed.

Lemma sends_trans w w1 w2 s1 s2 t1 t2 :
  sends w w1 s1 t1 -> sends w1 w2 s2 t2 -> sends w w2 (s1 ++ s2) (t1 ++ t2).
Proof.
  intros (_ & (Hs & ? & ?) & Hh1 & Hz1 & Ho1 & Ht1 & Hu1 & Hq1) (Hok & (Hs2 & ? & ?) & Hh2 & Hz2 & Ho2 & Ht2 & Hu2 & Hq2).
  rewrite Hs in Ho2. split_and!; [done|..].
  - unfold same_receiver. split_and!; congruence.
  - congruence.
  - congruence.
  - by rewrite Ho2, Ho1, (assoc_L (++)).
  - by apply Forall_app.
  - by rewrite concat_app, (assoc_L (++)), Hu1, <- (assoc_L (++)), Hu2, (assoc_L (++)).
  - by rewrite Hq1, Hq2, (assoc_L (++)).
Qed.

(** The bytes still to send: what [send_to_peer] comes to the end of. *)
Definition backlog (p : peer_t) : nat := length (unsent p) + sizeof_message * current (send_buffer p).

Lemma backlog_bound p : sending_ok p -> backlog p <= sizeof_message * S (current (send_buffer p)).
Proof using Type.
  intros (_ & Hw & _). unfold whole in Hw. unfold backlog, unsent. case_decide; [rewrite length_drop; lia|cbn [length]; lia].
Qed.

Lemma wp_on_queue {A : Type} (op : M message_queue_t A) Q w :
  wp op (fun a q => let p := peer w in
    Q a (PWorld (Peer (socket p) q (sending_buffer p) (current_sending_byte p) (receiving_buffer p)
           (current_receiving_byte p)) (net w) (handled w))) (send_buffer (peer w)) ->
  wp (on_queue op) Q w.
Proof. unfold wp, on_queue. by destruct (op _) as [[a q]|f]. Qed.

Lemma next_message_spec w :
  sending_ok (peer w) ->
  wp next_message (fun more w' => exists taken, sends w w' [] taken /\ net w' = net w /\ backlog (peer w') = backlog (peer w) /\
    if more then (current_sending_byte (peer w') < Z.of_nat sizeof_message)%Z
    else unsent (peer w') = [] /\ queued (send_buffer (peer w')) = []) w.
Proof.
  pose proof sizeof_640 as H640. intros Hok. pose proof Hok as (Hq & Hw & Hc). unfold next_message. wp_steps.
  destruct (Z.ltb_spec (current_sending_byte (peer w)) 0); [lia|]. cbn [orb].
  destruct (Z.leb_spec (Z.of_nat sizeof_message) (current_sending_byte (peer w))) as [Hge|Hlt].
  - assert (Hu : unsent (peer w) = []) by (unfold unsent; rewrite decide_False by lia; done).
    apply wp_bind, wp_on_queue. eapply wp_mono; [by apply dequeue_spec|]. cbn beta zeta.
    intros o q (Hq' & Hsz & Ho). destruct o as [msg|]; unfold set_sending, set_peer; wp_steps.
    + destruct Ho as (Hmsg & Hqd & Hcur). exists [msg]. cbn.
      assert (Hb : forall p, sending_buffer p = msg -> current_sending_byte p = 0%Z -> unsent p = msg).
      { intros p Hp1 Hp2. unfold unsent. rewrite decide_True, Hp1, Hp2 by lia. done. }
      unfold sends, sending_ok, backlog. cbn. rewrite !(Hb (Peer _ _ _ _ _ _)), Hu, Hcur by done. unfold whole in Hmsg.
      split_and!; try done; try lia.
      * by rewrite app_nil_r.
      * by repeat constructor.
      * by rewrite app_nil_r.
      * rewrite Hmsg. cbn. lia.
    + destruct Ho as (Hqd & ->). exists []. cbn.
      assert (Hb : forall p, current_sending_byte p = u64 (-1) -> unsent p = []).
      { intros p Hp. unfold unsent. rewrite decide_False; [done|]. rewrite Hp, H640. by vm_compute. }
      unfold sends, sending_ok, backlog. cbn. rewrite !(Hb (Peer _ _ _ _ _ _)), Hu by done. rewrite app_nil_r.
      by split_and!.
  - wp_steps. exists []. split_and!; [by apply sends_refl|done..].
Qed.

(** Bytes the socket took. *)
Lemma sent_bytes w k c :
  sending_ok (peer w) -> (current_sending_byte (peer w) < Z.of_nat sizeof_message)%Z -> c <= length (unsent (peer w)) ->
  outgoing (socket (peer w)) k = outgoing (socket (peer w)) (net w) ++ take c (unsent (peer w)) ->
  wp (set_sending (sending_buffer (peer w)) (u64 (current_sending_byte (peer w) + Z.of_nat c)))
    (fun _ w' => net w' = k /\ sends w w' (take c (unsent (peer w))) [] /\ backlog (peer w') + c = backlog (peer w))
    (PWorld (peer w) k (handled w)).
Proof.
  pose proof sizeof_640 as H640. intros (Hq & Hw & Hc) Hlt Hcl Hout. unfold set_sending, set_peer. wp_steps. cbn.
  assert (Hun : unsent (peer w) = drop (Z.to_nat (current_sending_byte (peer w))) (sending_buffer (peer w)))
    by (unfold unsent; by rewrite decide_True).
  unfold whole in Hw. assert (Hcl' := Hcl). rewrite Hun, length_drop in Hcl'. rewrite u64_small by lia.
  set (p' := Peer _ _ _ _ _ _).
  assert (Hun' : unsent p' = drop c (unsent (peer w))).
  { rewrite Hun, drop_drop. unfold unsent. cbn. case_decide.
    - by replace (Z.to_nat (current_sending_byte (peer w) + Z.of_nat c))
        with (Z.to_nat (current_sending_byte (peer w)) + c) by lia.
    - symmetry. apply drop_ge. lia. }
  split_and!; [done| |].
  - unfold sends. cbn. rewrite Hun', app_nil_r, take_drop. unfold sending_ok. cbn. split_and!; try done; try lia.
  - unfold backlog. rewrite Hun', length_drop. subst p'. cbn. lia.
Qed.

Lemma send_spec n w :
  sending_ok (peer w) -> backlog (peer w) < n ->
  wp (send_to_peer n) (fun rc w' => (rc = 0%Z \/ rc = (-1)%Z) /\ exists sent taken, sends w w' sent taken) w.
Proof.
  revert w. induction n as [|n IH]; intros w Hok Hn; [lia|]. cbn [send_to_peer].
  apply wp_bind. eapply wp_mono; [by apply next_message_spec|]. cbn beta.
  intros more w1 (taken & Hs1 & Hnet & Hb1 & Hmore). destruct more; cbn [negb]; [|wp_steps; split; [by left|eauto]].
  wp_steps. pose proof Hs1 as (Hok1 & (Hsock & _) & _). apply wp_net_call. intros r k Hsend.
  assert (Hun : unsent (peer w1) = drop (Z.to_nat (current_sending_byte (peer w1))) (sending_buffer (peer w1)))
    by (unfold unsent; by rewrite decide_True).
  rewrite <- Hun in Hsend. apply send_law in Hsend.
  assert (Hq : forall rc, (rc = 0 \/ rc = -1)%Z -> outgoing (socket (peer w1)) k = outgoing (socket (peer w1)) (net w1) ->
    wp (mret rc) (fun rc w' => (rc = 0%Z \/ rc = (-1)%Z) /\ exists sent taken, sends w w' sent taken)
      (PWorld (peer w1) k (handled w1))).
  { intros rc Hrc Hk. wp_steps. split; [done|]. exists [], taken. destruct Hs1 as (? & ? & ? & ? & Ho & ? & ? & ?).
    split_and!; try done. cbn. by rewrite <- Hsock, Hk, Hsock, Ho. }
  destruct r as [c| |]; [|apply Hq; naive_solver|apply Hq; naive_solver]. destruct Hsend as [Hcl Hout].
  rewrite length_take in Hcl. rewrite take_take, Nat.min_l in Hout by lia.
  destruct c as [|c]; [apply Hq; [naive_solver|by rewrite app_nil_r in Hout]|].
  apply wp_bind. eapply wp_mono; [apply (sent_bytes w1 k (S c)); [done|done|lia|done]|]. cbn beta.
  intros _ w2 (_ & Hs2 & Hb2). pose proof (sends_trans _ _ _ _ _ _ _ Hs1 Hs2) as Hs.
  eapply wp_mono; [apply IH; [apply Hs|lia]|]. cbn beta. intros rc w3 (? & sent & tk & Hs3). split; [done|].
  eexists _, _. by eapply sends_trans.
Qed.
End PeerProofs.

(** ** The server's turns *)

(** The computation returns, with [Q], or stops the process, or dies of a string without end. *)
Definition ends {S A : Type} (c : M S A) (Q : A -> S -> Prop) (s : S) : Prop :=
  match c s with Done (a, s') => Q a s' | Crash (Fatal _) => True | Crash Unterminated => True | Crash _ => False
  end.

Section Ends.
Context {S : Type}.
Implicit Types s : S.

Lemma wp_ends {A : Type} (c : M S A) Q s : wp c Q s -> ends c Q s.
Proof. unfold wp, ends. by destruct (c s) as [[a s']|f]. Qed.

Lemma ends_bind {A B : Type} (c : M S A) (k : A -> M S B) Q s :
  ends c (fun a => ends (k a) Q) s -> ends (c ≫= k) Q s.
Proof. unfold ends, mbind, M_bind. destruct (c s) as [[a s']|[]]; done. Qed.

Lemma ends_mono {A : Type} (c : M S A) (Q R : A -> S -> Prop) s :
  ends c Q s -> (forall a s', Q a s' -> R a s') -> ends c R s.
Proof. unfold ends. destruct (c s) as [[a s']|[]]; naive_solver. Qed.

Lemma ends_when b (c : M S unit) (Q : unit -> S -> Prop) s : ends c Q s -> Q tt s -> ends (whenM b c) Q s.
Proof. by destruct b. Qed.
End Ends.

Section ServerProofs.
Context {K : Type} `{SocketsLaws K}.
Implicit Types w : server K.

Definition peer_ok (p : peer_t) : Prop :=
  sending_ok p /\ size (send_buffer p) = MAX_MESSAGES_BUFFER_SIZE /\ receiving_ok p.
Definition server_ok w : Prop := length (connection_list w) = MAX_CLIENTS /\ Forall peer_ok (connection_list w).

Lemma server_ok_insert w i p k hs :
  server_ok w -> peer_ok p -> server_ok (Server (listen_sock w) (<[i := p]> (connection_list w)) k hs).
Proof. intros [Hl Hp] Hok. split; cbn; [by rewrite length_insert|by apply Forall_insert]. Qed.

Lemma conn_ends w i Q : server_ok w -> i < MAX_CLIENTS -> (forall p, peer_ok p -> Q p w) -> wp (conn i) Q w.
Proof.
  intros [Hl Hp] Hi HQ. unfold conn. wp_steps. destruct (connection_list w !! i) as [p|] eqn:Hx;
    [|apply lookup_ge_None in Hx; lia]. cbn. apply HQ. by eapply Forall_lookup_1.
Qed.

(** A peer's function keeps the server in order, if it keeps the peer. *)
Lemma on_peer_ends {A : Type} w i (op : M (pworld K) A) :
  server_ok w -> i < MAX_CLIENTS ->
  (forall pw, peer_ok (peer pw) -> ends op (fun _ pw' => peer_ok (peer pw')) pw) ->
  ends (on_peer i op) (fun _ => server_ok) w.
Proof.
  intros Hok Hi Hop. unfold on_peer. apply ends_bind, wp_ends, conn_ends; [done..|]. intros p Hp.
  specialize (Hop (PWorld p (s_net w) (s_handled w)) Hp). unfold ends, at_peer in *.
  destruct (op _) as [[a s]|[]]; try done. by apply server_ok_insert.
Qed.

(** With the server's handler a receive does the same, unless it prints a message without end. *)
Lemma receive_print n (pw : pworld K) :
  receive_from_peer handle_received_message n pw = receive_from_peer record_message n pw \/
  receive_from_peer handle_received_message n pw = Crash Unterminated.
Proof using Type.
  revert pw. induction n as [|n IH]; intros pw; [by left|]. cbn [receive_from_peer].
  assert (Hc : complete_message handle_received_message pw = complete_message record_message pw \/
               complete_message handle_received_message pw = Crash Unterminated).
  { unfold complete_message, handle_received_message. run eq_refl. run eq_refl. destruct (_ <=? _)%Z; [|by left].
    rewrite bind_assoc. unfold print_message. destruct (cstr _); [|by right]. destruct (cstr _); [by left|by right]. }
  destruct Hc as [Hc|Hc]; [|right; by apply bind_crash].
  destruct (complete_message record_message pw) as [[[] w1]|f] eqn:Hr; [|left; by rewrite !(bind_crash _ _ _ f)].
  run Hc. run Hr. run eq_refl. run eq_refl. set (c := net_call _).
  destruct (c w1) as [[res w2]|f] eqn:Hn; [|left; by rewrite !(bind_crash _ _ _ f)].
  run Hn. run Hn. destruct res as [[|b bs]| |]; try by left. set (st := set_receiving _ _).
  destruct (st w2) as [[[] w3]|f] eqn:Hs; [|left; by rewrite !(bind_crash _ _ _ f)]. run Hs. run Hs. apply IH.
Qed.

Lemma receive_all_ok (pw : pworld K) : peer_ok (peer pw) -> ends receive_all (fun _ pw' => peer_ok (peer pw')) pw.
Proof.
  intros (Hs & Hz & Hr). unfold ends, receive_all. set (n := S _).
  destruct (receive_print n pw) as [->| ->]; [|done].
  change (ends (receive_from_peer record_message n) (fun _ pw' => peer_ok (peer pw')) pw).
  apply wp_ends. eapply wp_mono; [apply receive_spec; [done|lia]|]. cbn beta.
  intros _ w' (_ & _ & read & msgs & Hr' & (Hs1 & Hs2 & Hs3 & Hs4) & _).
  split_and!; [|by rewrite Hs2|done]. unfold sending_ok in *. by rewrite Hs2, Hs3, Hs4.
Qed.

Lemma send_all_ok (pw : pworld K) : peer_ok (peer pw) -> wp send_all (fun _ pw' => peer_ok (peer pw')) pw.
Proof.
  intros (Hs & Hz & Hr).
  change (wp (send_to_peer (S (sizeof_message * S (current (send_buffer (peer pw))))))
    (fun _ pw' => peer_ok (peer pw')) pw).
  eapply wp_mono.
  { apply send_spec; [done|]. pose proof (backlog_bound _ Hs). lia. }
  cbn beta. intros _ w' (_ & sent & taken & Hs' & (Hr1 & Hr2 & Hr3) & _ & Hz' & _).
  split_and!; [done|by rewrite Hz'|]. unfold receiving_ok in *. by rewrite Hr2, Hr3.
Qed.

Lemma add_ok (pw : pworld K) msg :
  whole msg -> peer_ok (peer pw) -> wp (peer_add_to_send msg) (fun _ pw' => peer_ok (peer pw')) pw.
Proof.
  intros Hm ((Hq & Hw & Hc) & Hz & Hr). unfold peer_add_to_send. apply wp_on_queue.
  eapply wp_mono; [by apply enqueue_spec|]. cbn. intros rc q (Hq' & Hsz & _). unfold peer_ok, sending_ok. cbn.
  split_and!; try done. congruence.
Qed.

(** A peer with nothing under way. *)
Lemma idle_peer_ok p fd :
  peer_ok p -> peer_ok (Peer fd (send_buffer p) (sending_buffer p) (u64 (-1)) (receiving_buffer p) 0).
Proof using Type.
  intros ((Hq & Hw & _) & Hz & [Hr _]). unfold peer_ok, sending_ok, receiving_ok. cbn.
  assert (0 <= u64 (-1))%Z by by vm_compute. assert (0 <= 0 <= Z.of_nat sizeof_message)%Z by lia. by split_and!.
Qed.

Lemma dequeue_all_ok q : queue_ok q -> queue_ok (dequeue_all q).
Proof using Type. intros (Hd & Hc & Hf). unfold queue_ok. cbn. split_and!; [done|lia|done]. Qed.

Lemma close_ok w i : server_ok w -> i < MAX_CLIENTS -> wp (close_client_connection i) (fun _ => server_ok) w.
Proof.
  intros Hok Hi. unfold close_client_connection. apply wp_bind, conn_ends; [done..|].
  intros p ((Hq & Hw & Hc) & Hz & Hr). unfold s_call, set_conn. apply wp_bind. unfold wp at 1.
  wp_steps. apply (server_ok_insert w i); [done|].
  apply (idle_peer_ok (Peer NO_SOCKET (dequeue_all (send_buffer p)) (sending_buffer p) (current_sending_byte p)
    (receiving_buffer p) (current_receiving_byte p))).
  pose proof (dequeue_all_ok _ Hq). by split_and!.
Qed.

Lemma serve_ok rd wr ex ids w :
  server_ok w -> Forall (fun i => i < MAX_CLIENTS) ids -> ends (serve_clients rd wr ex ids) (fun _ => server_ok) w.
Proof.
  intros Hok Hids. revert w Hok. induction Hids as [|i ids Hi _ IH]; intros w Hok; [done|].
  assert (Hex : forall w, server_ok w -> ends (serve_except ex i) (fun _ => server_ok) w).
  { intros w1 Hok1. unfold serve_except. apply ends_bind, wp_ends, conn_ends; [done..|]. intros p _.
    case_decide; [by apply wp_ends, close_ok|done]. }
  assert (Hwr : forall w, server_ok w -> ends (serve_write wr ex i) (fun _ => server_ok) w).
  { intros w1 Hok1. unfold serve_write. apply ends_bind, wp_ends, conn_ends; [done..|]. intros p _. case_decide; [|by apply Hex].
    apply ends_bind. eapply ends_mono; [apply on_peer_ends; [done..|intros; by apply wp_ends, send_all_ok]|]. cbn beta. intros rc w2 Hok2.
    destruct (negb _); [by apply wp_ends, close_ok|by apply Hex]. }
  cbn [serve_clients foldr]. apply ends_bind, (ends_mono _ (fun _ => server_ok)); [|intros _; apply IH].
  unfold serve_client. apply ends_bind, wp_ends, conn_ends; [done..|]. intros p _. case_decide; [|by apply Hwr].
  apply ends_bind. eapply ends_mono; [apply on_peer_ends; [done..|exact receive_all_ok]|]. cbn beta. intros rc w2 Hok2.
  destruct (negb _); [by apply wp_ends, close_ok|by apply Hwr].
Qed.

(** *** Input from the terminal *)

Lemma cstr_inside buf s : cstr buf = Some s -> length s < length buf.
Proof using Type.
  revert s. induction buf as [|b buf IH]; intros s Hs; [done|]. cbn in Hs. destruct (b =? 0)%Z.
  - injection Hs as <-. cbn. lia.
  - destruct (cstr buf) as [t|]; [|done]. injection Hs as <-. cbn. specialize (IH t eq_refl). lia.
Qed.

(** A call of the kernel leaves the server as it is. *)
Definition same_peers w w' : Prop := connection_list w' = connection_list w /\ listen_sock w' = listen_sock w.

Lemma wp_s_call {A : Type} (f : K -> A * K) Q w :
  (forall w', same_peers w w' -> Q (f (s_net w)).1 w') -> wp (s_call f) Q w.
Proof using Type. intros HQ. unfold wp, s_call. destruct (f (s_net w)) as [a k]. by apply HQ. Qed.

Lemma stdin_loop_ok n max_len buf total (k : K) :
  length buf = max_len -> max_len + 1 < n + total -> total <= max_len ->
  wp (stdin_loop n max_len buf total) (fun o _ => forall buf', o = Some buf' -> length buf' = max_len) k.
Proof.
  revert buf total k. induction n as [|n IH]; intros buf total k Hl Hn Ht; [lia|]. cbn [stdin_loop].
  apply wp_bind. unfold wp at 1. pose proof (fun bs => stdin_law max_len k bs) as Hs.
  destruct (stdin_read max_len k) as [[[|b bs]| |] k']; [wp_steps; naive_solver| |wp_steps; naive_solver..].
  specialize (Hs _ eq_refl).
  assert (Hb : length (write_at 0 (b :: bs) buf) = max_len) by (rewrite length_write_at; lia).
  cbn zeta. destruct (Nat.ltb_spec max_len (total + length (b :: bs))); [wp_steps; naive_solver|].
  apply IH; [done| |done]. cbn in *. lia.
Qed.

Lemma read_from_stdin_ok (k : K) :
  ends (read_from_stdin DATA_MAXSIZE) (fun o _ => forall s, o = Some s -> length s < DATA_MAXSIZE) k.
Proof.
  unfold read_from_stdin. apply ends_bind, wp_ends.
  eapply wp_mono; [apply stdin_loop_ok; [apply length_replicate|lia|lia]|].
  cbn beta. intros o w1 Hz. destruct o as [buf|]; [|apply wp_ends; wp_steps; naive_solver].
  destruct (cstr buf) as [s|] eqn:Hs; [|done]. apply cstr_inside in Hs. rewrite (Hz _ eq_refl) in Hs.
  intros s' [= <-].
  assert (length (removelast s) <= length s) by (rewrite removelast_firstn_len, length_take; lia).
  destruct (last s) as [z|]; [|lia]. repeat case_match; lia.
Qed.

Lemma ends_s_kernel {A : Type} (op : M K A) Q w :
  ends op (fun a _ => forall w', same_peers w w' -> Q a w') (s_net w) -> ends (s_kernel op) Q w.
Proof using Type. unfold ends, s_kernel. destruct (op (s_net w)) as [[a k]|[]]; try done. intros HQ. by apply HQ. Qed.

Lemma s_read_ok w :
  ends (s_kernel (read_from_stdin DATA_MAXSIZE)) (fun o w' => same_peers w w' /\ forall s, o = Some s -> length s < DATA_MAXSIZE) w.
Proof. apply ends_s_kernel. eapply ends_mono; [apply read_from_stdin_ok|]. cbn beta. naive_solver. Qed.

Lemma prepare_message_ok text garbage :
  length text < DATA_MAXSIZE -> whole garbage ->
  exists msg, prepare_message SERVER_NAME text garbage = Some msg /\ whole msg.
Proof using Type.
  intros Ht Hg. unfold prepare_message. rewrite decide_True by (split; [cbn; unfold SENDER_MAXSIZE; lia|done]).
  eexists. split; [done|]. unfold whole, sizeof_message, SENDER_MAXSIZE, DATA_MAXSIZE in *.
  rewrite !length_write_at; [done|..]; rewrite ?length_write_at; rewrite ?length_app; cbn; lia.
Qed.

Lemma add_to_all_ok ids msg w :
  server_ok w -> whole msg -> Forall (fun i => i < MAX_CLIENTS) ids -> ends (add_to_all ids msg) (fun _ => server_ok) w.
Proof.
  intros Hok Hm Hids. revert w Hok. induction Hids as [|i ids Hi _ IH]; intros w Hok; cbn [add_to_all]; [done|].
  apply ends_bind, wp_ends, conn_ends; [done..|]. intros p _. apply ends_bind, (ends_mono _ (fun _ => server_ok)); [|intros _; apply IH].
  case_decide; [|done]. apply ends_bind.
  eapply ends_mono; [apply on_peer_ends; [done..|intros; by apply wp_ends, add_ok]|]. done.
Qed.

Lemma server_ok_same w w' : server_ok w -> same_peers w w' -> server_ok w'.
Proof using Type. intros [Hl Hp] [Hc _]. unfold server_ok. by rewrite Hc. Qed.

Lemma handle_stdin_ok garbage w :
  server_ok w -> whole garbage -> ends (handle_read_from_stdin garbage) (fun _ => server_ok) w.
Proof.
  intros Hok Hg. unfold handle_read_from_stdin. apply ends_bind.
  eapply ends_mono; [by apply s_read_ok|]. cbn beta. intros o w1 [Hw1 Hs].
  pose proof (server_ok_same _ _ Hok Hw1) as Hok1. destruct o as [text|]; [|done].
  destruct (prepare_message_ok text garbage (Hs _ eq_refl) Hg) as (msg & -> & Hm).
  apply ends_bind. cbn [inside]. apply wp_ends, wp_ret, ends_bind.
  eapply ends_mono; [apply add_to_all_ok; [done|done|apply Forall_seq; lia]|]. done.
Qed.

Lemma handle_new_ok w : server_ok w -> wp handle_new_connection (fun _ => server_ok) w.
Proof.
  intros Hok. unfold handle_new_connection. wp_steps. apply wp_s_call. intros w1 Hw1.
  pose proof (server_ok_same _ _ Hok Hw1) as Hok1. destruct (_ <? _)%Z; [by wp_steps|]. wp_steps.
  destruct (list_find _ _) as [[i p]|] eqn:Hf.
  - apply list_find_Some in Hf as (Hi & _ & _). unfold set_conn. wp_steps. apply server_ok_insert; [done|].
    destruct Hok1 as [_ Hp]. by apply idle_peer_ok, (Forall_lookup_1 _ _ _ _ Hp Hi).
  - wp_steps. apply wp_s_call. intros w2 Hw2. wp_steps. by eapply server_ok_same.
Qed.

Lemma server_turn_ends activity rd wr ex garbage w :
  server_ok w -> whole garbage -> ends (server_turn activity rd wr ex garbage) (fun _ => server_ok) w.
Proof.
  intros Hok Hg. unfold server_turn. case_decide; [done|]. apply ends_bind, wp_ends, wp_gets.
  apply ends_bind, (ends_mono _ (fun _ => server_ok)).
  { apply ends_when; [|done]. apply ends_bind. eapply ends_mono; [by apply handle_stdin_ok|].
    cbn beta. intros rc w1 Hok1. by apply ends_when. }
  intros _ w1 Hok1. apply ends_bind, (ends_mono _ (fun _ => server_ok)).
  { apply ends_when; [|done]. apply wp_ends, wp_bind. eapply wp_mono; [by apply handle_new_ok|].
    intros rc w2 Hok2. by wp_steps. }
  intros _ w2 Hok2. apply ends_bind, ends_when; [done|]. apply ends_bind, ends_when; [done|].
  apply serve_ok; [done|]. apply Forall_seq. lia.
Qed.
End ServerProofs.

(** ** From peer to peer *)

Section EndToEnd.
Context {K : Type} `{SocketsLaws K}.
Implicit Types w : pworld K.

(** What is done with a sender between its creation and now; [run_sends] returns the messages
    the queue took. *)
Inductive send_op : Type := Add (msg : message_t) | Send (n : nat).
Definition run_send (op : send_op) : M (pworld K) (list message_t) :=
  match op with
  | Add msg => rc ← peer_add_to_send msg; mret (if (rc =? 0)%Z then [msg] else [])
  | Send n => send_to_peer n;; mret []
  end.
Fixpoint run_sends (ops : list send_op) : M (pworld K) (list message_t) :=
  match ops with
  | [] => mret []
  | op :: ops => acc ← run_send op; accs ← run_sends ops; mret (acc ++ accs)
  end.
Fixpoint run_receives (rs : list nat) : M (pworld K) unit :=
  match rs with [] => mret tt | n :: rs => receive_from_peer record_message n;; run_receives rs end.

(** Enough turns for the largest backlog there is. *)
Definition op_ok (op : send_op) : Prop :=
  match op with Add msg => whole msg | Send n => sizeof_message * S MAX_MESSAGES_BUFFER_SIZE < n end.

Definition fresh_sender (p : peer_t) : Prop :=
  send_buffer p = create_message_queue MAX_MESSAGES_BUFFER_SIZE /\ whole (sending_buffer p) /\
  current_sending_byte p = u64 (-1).
Definition fresh_receiver (p : peer_t) : Prop := whole (receiving_buffer p) /\ current_receiving_byte p = 0%Z.

Lemma created_queue_ok n : queue_ok (create_message_queue n).
Proof using Type.
  split_and!; [apply length_replicate|cbn; lia|]. apply Forall_replicate, length_replicate.
Qed.

Lemma fresh_sender_ok p :
  fresh_sender p -> sending_ok p /\ size (send_buffer p) = MAX_MESSAGES_BUFFER_SIZE /\ unsent p = [] /\ queued (send_buffer p) = [].
Proof using Type.
  intros (Hq & Hw & Hc). unfold sending_ok, unsent. rewrite Hq, Hc. split_and!; try done.
  apply created_queue_ok.
Qed.

(** From [w] to [w'] the queue took [acc], and the bytes [sent] are a run through [taken]. *)
Definition sender_ran w w' (acc : list message_t) (sent : list Z) (taken : list message_t) : Prop :=
  sending_ok (peer w') /\ size (send_buffer (peer w')) = size (send_buffer (peer w)) /\ socket (peer w') = socket (peer w) /\
  outgoing (socket (peer w)) (net w') = outgoing (socket (peer w)) (net w) ++ sent /\ Forall whole taken /\
  unsent (peer w) ++ concat taken = sent ++ unsent (peer w') /\
  taken ++ queued (send_buffer (peer w')) ≡ₚ queued (send_buffer (peer w)) ++ acc.

Lemma run_send_spec op w :
  sending_ok (peer w) -> size (send_buffer (peer w)) = MAX_MESSAGES_BUFFER_SIZE -> op_ok op ->
  wp (run_send op) (fun acc w' => exists sent taken, sender_ran w w' acc sent taken) w.
Proof.
  intros Hok Hz Hop. destruct op as [msg|n]; unfold run_send; apply wp_bind.
  - destruct Hok as (Hq & Hw & Hc). apply wp_on_queue. eapply wp_mono; [by apply enqueue_spec|]. cbn beta zeta.
    intros rc q (Hq' & Hsz & Hrc). wp_steps. exists [], []. unfold sender_ran, sending_ok. cbn. rewrite app_nil_r.
    split_and!; try done; [by rewrite app_nil_r|].
    destruct Hrc as [(-> & _ & ->)|[-> ->]]; cbn; [by rewrite app_nil_r|by rewrite Permutation_cons_append].
  - eapply wp_mono; [apply send_spec; [done|]|].
    { pose proof (backlog_bound _ Hok). destruct Hok as ((_ & Hc & _) & _). cbn in Hop. nia. }
    cbn beta. intros rc w' (_ & sent & taken & Ho & (Hs & _) & _ & Hsz & Hout & Ht & Hu & Hqd). wp_steps.
    exists sent, taken. unfold sender_ran. rewrite app_nil_r, Hqd. by split_and!.
Qed.

Lemma run_sends_spec ops w :
  sending_ok (peer w) -> size (send_buffer (peer w)) = MAX_MESSAGES_BUFFER_SIZE -> Forall op_ok ops ->
  wp (run_sends ops) (fun acc w' => exists sent taken, sender_ran w w' acc sent taken) w.
Proof.
  intros Hok Hz Hops. revert w Hok Hz. induction Hops as [|op ops Hop _ IH]; intros w Hok Hz; cbn [run_sends].
  - wp_steps. exists [], []. unfold sender_ran. rewrite !app_nil_r. by split_and!.
  - apply wp_bind. eapply wp_mono; [by apply run_send_spec|]. cbn beta.
    intros acc w1 (s1 & t1 & Hok1 & Hz1 & Hs1 & Ho1 & Ht1 & Hu1 & Hq1). apply wp_bind.
    eapply wp_mono; [apply IH; [done|congruence]|]. cbn beta.
    intros accs w2 (s2 & t2 & Hok2 & Hz2 & Hs2 & Ho2 & Ht2 & Hu2 & Hq2). wp_steps. rewrite Hs1 in Ho2.
    exists (s1 ++ s2), (t1 ++ t2). unfold sender_ran. split_and!; try done; try congruence.
    + by rewrite Ho2, Ho1, (assoc_L (++)).
    + by apply Forall_app.
    + by rewrite concat_app, (assoc_L (++)), Hu1, <- (assoc_L (++)), Hu2, (assoc_L (++)).
    + by rewrite <- (assoc_L (++)), Hq2, (assoc_L (++)), Hq1, <- (assoc_L (++)).
Qed.

Lemma run_receives_spec rs w :
  receiving_ok (peer w) -> Forall (fun n => length (incoming (socket (peer w)) (net w)) < n) rs ->
  wp (run_receives rs) (fun _ w' => exists read msgs, receives w w' read msgs /\
    (current_receiving_byte (peer w) < Z.of_nat sizeof_message ->
     current_receiving_byte (peer w') < Z.of_nat sizeof_message)%Z) w.
Proof.
  revert w. induction rs as [|n rs IH]; intros w Hok Hrs; cbn [run_receives].
  - wp_steps. exists [], []. split; [by apply receives_refl|done].
  - apply Forall_cons in Hrs as [Hn Hrs]. apply wp_bind. eapply wp_mono; [by apply receive_spec|]. cbn beta.
    intros _ w1 (_ & Hlt & r1 & ms1 & Hr1). pose proof Hr1 as (Hok1 & (Hs & _) & Hi & _).
    eapply wp_mono; [apply IH; [done|]|].
    + eapply Forall_impl; [done|]. cbn. intros k Hk. rewrite Hs. rewrite Hi, length_app in Hk. lia.
    + cbn beta. intros _ w2 (r2 & ms2 & Hr2 & Hlt2). eexists _, _. split; [by eapply receives_trans|]. auto.
Qed.

(** A stream cut into messages is cut one way. *)
Lemma blocks_agree (msgs taken : list message_t) part rest :
  Forall whole msgs -> Forall whole taken -> length part < sizeof_message -> concat msgs ++ part ++ rest = concat taken ->
  msgs = take (length (concat msgs ++ part) / sizeof_message) taken.
Proof using Type.
  intros Hm Ht Hp Heq.
  assert (Hlen : length (concat msgs ++ part) / sizeof_message = length msgs).
  { symmetry. apply (Nat.div_unique _ _ _ (length part)); [done|]. rewrite length_app. f_equal. clear -Hm.
    induction Hm as [|x l Hx _ IH]; [cbn; lia|]. cbn [concat]. rewrite length_app, IH, Hx. cbn [length]. lia. }
  rewrite Hlen. clear Hlen Hp. revert taken Ht Heq. induction Hm as [|x l Hx _ IH]; intros taken Ht Heq; [done|].
  unfold whole in Hx. pose proof sizeof_640. destruct Ht as [|y t Hy Ht].
  - exfalso. apply (f_equal length) in Heq. cbn [concat] in Heq. rewrite !length_app in Heq. cbn in Heq. lia.
  - cbn [concat length take] in *. rewrite <- !(assoc_L (++)) in Heq.
    apply app_inj_1 in Heq as [-> Heq]; [|by rewrite Hx, Hy]. f_equal. by apply IH.
Qed.

End EndToEnd.

(** ** The order of messages, and runs of the server *)

Section Order.
Context {K : Type} `{SocketsLaws K}.
Implicit Types w : pworld K.

Lemma length_queued q : queue_ok q -> length (queued q) = current q.
Proof using Type. intros (Hl & Hc & _). unfold queued. rewrite length_rev, length_take. lia. Qed.

(** A message queued where there is room. *)
Lemma add_spec msg w :
  whole msg -> sending_ok (peer w) -> size (send_buffer (peer w)) = MAX_MESSAGES_BUFFER_SIZE ->
  length (queued (send_buffer (peer w))) < MAX_MESSAGES_BUFFER_SIZE ->
  wp (run_send (Add msg)) (fun acc w' => acc = [msg] /\ sending_ok (peer w') /\
    size (send_buffer (peer w')) = MAX_MESSAGES_BUFFER_SIZE /\
    queued (send_buffer (peer w')) = msg :: queued (send_buffer (peer w)) /\
    unsent (peer w') = unsent (peer w) /\ net w' = net w /\ socket (peer w') = socket (peer w)) w.
Proof using Type.
  intros Hm (Hq & Hw & Hc) Hz Hlen. rewrite length_queued in Hlen by done. unfold run_send. apply wp_bind, wp_on_queue.
  eapply wp_mono; [by apply enqueue_spec|]. cbn beta zeta. intros rc q (Hq' & Hsz & [(_ & Hfull & _)|[-> Hqd]]); [lia|].
  wp_steps. unfold sending_ok. cbn. split_and!; try done. congruence.
Qed.

Lemma two_messages m1 m2 n w :
  fresh_sender (peer w) -> whole m1 -> whole m2 -> op_ok (Send n) ->
  wp (run_sends [Add m1; Add m2; Send n]) (fun acc w' => exists sent taken rest,
    acc = [m1; m2] /\ outgoing (socket (peer w)) (net w') = outgoing (socket (peer w)) (net w) ++ sent /\
    [m2; m1] = taken ++ rest /\ concat taken = sent ++ unsent (peer w')) w.
Proof.
  intros Hf H1 H2 Hn. destruct (fresh_sender_ok _ Hf) as (Hok & Hz & Hu0 & Hq0). cbn [run_sends].
  apply wp_bind. eapply wp_mono; [apply add_spec; try done; rewrite Hq0; cbn; unfold MAX_MESSAGES_BUFFER_SIZE; lia|].
  cbn beta. intros acc w1 (-> & Hok1 & Hz1 & Hq1 & Hu1 & Hn1 & Hs1). rewrite Hq0 in Hq1. apply wp_bind, wp_bind.
  eapply wp_mono; [apply add_spec; try done; rewrite Hq1; cbn; unfold MAX_MESSAGES_BUFFER_SIZE; lia|].
  cbn beta. intros acc w2 (-> & Hok2 & Hz2 & Hq2 & Hu2 & Hn2 & Hs2). rewrite Hq1 in Hq2. unfold run_send.
  apply wp_bind, wp_bind, wp_bind. eapply wp_mono.
  { apply send_spec; [done|]. pose proof (backlog_bound _ Hok2). destruct Hok2 as ((_ & Hc & _) & _). cbn in Hn. nia. }
  cbn beta. intros rc w3 (_ & sent & taken & _ & _ & _ & _ & Ho & _ & Hu & Hq). wp_steps.
  rewrite Hs2, Hs1, Hn2, Hn1 in Ho. rewrite Hu2, Hu1, Hu0 in Hu. rewrite Hq2 in Hq. eauto 10.
Qed.

(** The "queue" of messages is a stack: of two messages queued for a new peer and sent in
    one go, the second is on the wire first. *)
Theorem messages_reordered m1 m2 n w w' acc sent :
  fresh_sender (peer w) -> whole m1 -> whole m2 -> op_ok (Send n) ->
  run_sends [Add m1; Add m2; Send n] w = Done (acc, w') ->
  outgoing (socket (peer w)) (net w') = outgoing (socket (peer w)) (net w) ++ sent ->
  length sent = sizeof_message + sizeof_message -> acc = [m1; m2] /\ sent = m2 ++ m1.
Proof.
  intros Hf H1 H2 Hn Hrun Hout Hlen. pose proof (two_messages m1 m2 n w Hf H1 H2 Hn) as Hwp.
  unfold wp in Hwp. rewrite Hrun in Hwp. destruct Hwp as (sent' & taken & rest & -> & Hout' & Hsplit & Hcat).
  rewrite Hout in Hout'. apply app_inv_head in Hout' as <-. split; [done|].
  assert (Hall : concat (taken ++ rest) = m2 ++ m1) by (rewrite <- Hsplit; cbn; by rewrite app_nil_r).
  rewrite concat_app, Hcat in Hall. assert (Hl := f_equal length Hall). unfold whole in H1, H2.
  rewrite !length_app, Hlen, H1, H2 in Hl. rewrite <- Hall.
  assert (unsent (peer w') = []) as -> by (apply nil_length_inv; lia).
  assert (concat rest = []) as -> by (apply nil_length_inv; lia). by rewrite !app_nil_r.
Qed.
End Order.

Section Runs.
Context {K : Type} `{SocketsLaws K}.
Implicit Types w : server K.

(** What select reports, and what the stack holds, turn by turn. *)
Record turn : Type := Turn { activity : Z; rd : gset Z; wr : gset Z; ex : gset Z; garbage : message_t }.
Definition server_run (ts : list turn) : M (server K) unit :=
  foldr (fun t k => server_turn (activity t) (rd t) (wr t) (ex t) (garbage t);; k) (mret tt) ts.

Lemma initial_peer_ok : peer_ok initial_peer.
Proof using Type.
  assert (whole zero_message) by apply length_replicate.
  assert (0 <= u64 (-1))%Z by by vm_compute. assert (0 <= 0 <= Z.of_nat sizeof_message)%Z by lia.
  pose proof (created_queue_ok MAX_MESSAGES_BUFFER_SIZE). unfold initial_peer, create_peer. by split_and!.
Qed.

Lemma server_run_ends ts w :
  server_ok w -> Forall (fun t => whole (garbage t)) ts -> ends (server_run ts) (fun _ => server_ok) w.
Proof.
  intros Hok Hts. revert w Hok. induction Hts as [|t ts Ht _ IH]; intros w Hok; [done|].
  cbn [server_run foldr]. apply ends_bind. eapply ends_mono; [by apply server_turn_ends|]. cbn beta. intros _. apply IH.
Qed.

(** The server never leaves its arrays and never loses the bounds of its ten peers: from
    main's initial state, whatever select reports, the sockets do and clients send, every turn
    ends, or stops the process where the code means to, or dies of reading a string that has
    no terminator (a client's message when it is printed, a line that fills the buffer). *)
Theorem server_never_corrupts ts ls k :
  Forall (fun t => whole (garbage t)) ts ->
  match server_run ts (initial_server ls k) with
  | Done (_, w) => server_ok w
  | Crash f => f = Unterminated \/ exists msg, f = Fatal msg
  end.
Proof.
  intros Hts. assert (Hok : server_ok (initial_server ls k)).
  { split; [apply length_replicate|]. apply Forall_replicate, initial_peer_ok. }
  pose proof (server_run_ends ts _ Hok Hts) as He. unfold ends in He.
  destruct (server_run ts _) as [[u w]|[]]; naive_solver.
Qed.

(** A line of 512 bytes at the terminal is read without its end: the buffer holds no
    terminator, and strlen runs out of it. *)
Theorem full_line_overruns g w bs k1 k2 :
  stdin_read DATA_MAXSIZE (s_net w) = (Received bs, k1) -> length bs = DATA_MAXSIZE -> Forall (fun b => b <> 0%Z) bs ->
  stdin_read DATA_MAXSIZE k1 = (RecvAgain, k2) ->
  handle_read_from_stdin g w = Crash Unterminated.
Proof using Type.
  intros Hr Hl Hnz Hr2. unfold handle_read_from_stdin. apply bind_crash. unfold s_kernel.
  assert (Hrd : read_from_stdin DATA_MAXSIZE (s_net w) = Crash Unterminated); [|by rewrite Hrd].
  assert (Hc : cstr bs = None).
  { clear -Hnz. induction Hnz as [|b bs Hb _ IH]; [done|]. cbn. destruct (Z.eqb_spec b 0); [done|]. by rewrite IH. }
  unfold read_from_stdin. rewrite (bind_step _ _ _ (Some bs) k2); [by rewrite Hc|]. cbn [stdin_loop].
  rewrite (bind_step _ _ _ (Received bs) k1) by (by rewrite Hr).
  destruct bs as [|b bs']; [done|]. rewrite Hl, Nat.ltb_irrefl.
  assert (Hb : write_at 0 (b :: bs') (replicate DATA_MAXSIZE 0%Z) = b :: bs').
  { unfold write_at. rewrite take_0, app_nil_l, drop_ge, app_nil_r; [done|]. rewrite length_replicate. lia. }
  rewrite Hb. by rewrite (bind_step _ _ _ RecvAgain k2) by (by rewrite Hr2).
Qed.
End Runs.

(** ** A message that stays half sent *)

Section Stall.
Context {K : Type} `{Sockets K}.
Implicit Types w : server K.
Context (i : nat) (p : peer_t).

Definition keeps w : Prop := connection_list w !! i = Some p.

Lemma keeps_conn {A : Type} j (k : peer_t -> M (server K) A) :
  (forall q, (j = i -> q = p) -> preserves keeps (k q)) -> preserves keeps (conn j ≫= k).
Proof using Type.
  intros Hk. unfold conn. intros w a w' Hw. rewrite bind_assoc. intros Hr.
  run eq_refl in Hr. destruct (connection_list w !! j) as [q|] eqn:Hq; [|by rewrite (bind_crash _ _ _ OutOfBounds) in Hr].
  run eq_refl in Hr. eapply (Hk q); [|exact Hw|exact Hr]. intros ->. unfold keeps in Hw. congruence.
Qed.

Lemma keeps_set_conn j q : j <> i -> preserves keeps (set_conn (K := K) j q).
Proof using Type. intros Hj. apply preserves_modify. intros w Hw. unfold keeps. cbn. by rewrite list_lookup_insert_ne. Qed.

Lemma keeps_s_call {A : Type} (f : K -> A * K) : preserves keeps (s_call f).
Proof using Type. intros w a w' Hw Hr. unfold s_call in Hr. destruct (f (s_net w)). by injection Hr as _ <-. Qed.

Lemma keeps_s_kernel {A : Type} (op : M K A) : preserves keeps (s_kernel op).
Proof using Type. intros w a w' Hw Hr. unfold s_kernel in Hr. destruct (op (s_net w)) as [[b k]|]; [|done]. by injection Hr as _ <-. Qed.

Lemma keeps_on_peer {A : Type} j (op : M (pworld K) A) : j <> i -> preserves keeps (on_peer j op).
Proof using Type.
  intros Hj. apply keeps_conn. intros q _ w a w' Hw Hr. unfold at_peer in Hr. destruct (op _) as [[b s]|f]; [|done].
  injection Hr as _ <-. unfold keeps. cbn. by rewrite list_lookup_insert_ne.
Qed.

Lemma keeps_close j : j <> i -> preserves keeps (close_client_connection j).
Proof using Type.
  intros Hj. apply keeps_conn. intros q _. apply preserves_bind; [apply keeps_s_call|].
  intros _. by apply keeps_set_conn.
Qed.

Lemma keeps_new : connected p -> preserves keeps handle_new_connection.
Proof using Type.
  intros Hc. unfold handle_new_connection. apply preserves_bind; [apply preserves_gets|]. intros ls.
  apply preserves_bind; [apply keeps_s_call|]. intros fd. destruct (_ <? _)%Z; [apply preserves_ret|].
  apply preserves_gets_bind. intros w Hw a w' Hr. destruct (list_find _ _) as [[j q]|] eqn:Hf.
  - apply list_find_Some in Hf as (Hj & Hq & _).
    assert (Hne : j <> i) by (intros ->; unfold keeps in Hw; rewrite Hw in Hj; by injection Hj as ->).
    revert Hw Hr. apply preserves_bind; [by apply keeps_set_conn|]. intros _. apply preserves_ret.
  - revert Hw Hr. apply preserves_bind; [apply keeps_s_call|]. intros _. apply preserves_ret.
Qed.

Lemma keeps_serve rd wr ex ids :
  socket p ∉ rd -> socket p ∉ wr -> socket p ∉ ex -> preserves keeps (serve_clients rd wr ex ids).
Proof using Type.
  intros Hrd Hwr Hex.
  assert (He : forall j, preserves keeps (serve_except ex j)).
  { intros j. apply keeps_conn. intros q Hq. case_decide as Hd; [|apply preserves_ret]. apply keeps_close. naive_solver. }
  assert (Hw : forall j, preserves keeps (serve_write wr ex j)).
  { intros j. apply keeps_conn. intros q Hq. case_decide as Hd; [|apply He].
    apply preserves_bind; [apply keeps_on_peer; naive_solver|]. intros rc. destruct (negb _); [|apply He].
    apply keeps_close. naive_solver. }
  induction ids as [|j ids IH]; [apply preserves_ret|]. cbn [serve_clients foldr]. apply preserves_bind; [|done].
  apply keeps_conn. intros q Hq. case_decide as Hd; [|apply Hw].
  apply preserves_bind; [apply keeps_on_peer; naive_solver|]. intros rc. destruct (negb _); [|apply Hw].
  apply keeps_close. naive_solver.
Qed.

(** A message the socket took only a part of waits for the next one: a connection whose
    queue is empty is not among those select is asked to report for writing, so whatever turns
    follow without input for it or from the terminal, the rest of the message stays where it
    is. *)
Theorem partial_send_stalls activity rd wr ex garbage w w' u :
  connection_list w !! i = Some p -> connected p -> current (send_buffer p) = 0 ->
  (forall j q, connection_list w !! j = Some q -> socket q = socket p -> j = i) ->
  wr ⊆ (build_fd_sets w).1.2 -> STDIN_FILENO ∉ rd -> socket p ∉ rd -> socket p ∉ ex ->
  server_turn activity rd wr ex garbage w = Done (u, w') ->
  connection_list w' !! i = Some p.
Proof using Type.
  intros Hp Hc Hcur Huniq Hsub Hin Hrd Hex Hrun.
  assert (Hwr : socket p ∉ wr).
  { intros Hw%Hsub. cbn in Hw. apply elem_of_list_to_set, list_elem_of_fmap in Hw as (q & Hs & [[_ Hq] Hel]%list_elem_of_filter).
    apply list_elem_of_lookup in Hel as [j Hj]. assert (j = i) as -> by (by apply (Huniq j q)). simplify_eq. lia. }
  assert (Hsh : forall b, preserves keeps (if b : bool then shutdown_properly else mret tt : M (server K) unit))
    by (intros []; [apply preserves_crash|apply preserves_ret]).
  assert (Hpres : preserves keeps (server_turn activity rd wr ex garbage)); [|by eapply Hpres].
  unfold server_turn. case_decide; [apply preserves_crash|]. apply preserves_bind; [apply preserves_gets|]. intros ls.
  rewrite (bool_decide_false (STDIN_FILENO ∈ rd)) by done. apply preserves_bind; [apply preserves_ret|]. intros _.
  apply preserves_bind; [apply preserves_when, preserves_bind; [by apply keeps_new|intros _; apply preserves_ret]|].
  intros _. apply preserves_bind; [apply Hsh|]. intros _. apply preserves_bind; [apply Hsh|]. intros _.
  by apply keeps_serve.
Qed.
End Stall.

(** ** A kernel for the witnesses: one stream in, handed over in pieces, one stream out, and the
    lines typed *)

Section Witnesses.
Record pipe : Type := Pipe { k_in : list Z; k_out : list Z; k_lines : list (list Z) }.

Definition piece (n : nat) : nat := Nat.min 64 n.
#[local] Arguments piece : simpl never.

#[local] Instance pipe_sockets : Sockets pipe := {|
  sock_recv := fun _ n k =>
    match k_in k with
    | [] => (RecvAgain, k)
    | l => (Received (take (piece n) l), Pipe (drop (piece n) l) (k_out k) (k_lines k))
    end;
  sock_send := fun _ bs k => let c := piece (length bs) in (SentBytes c, Pipe (k_in k) (k_out k ++ take c bs) (k_lines k));
  sock_accept := fun _ k => (7%Z, k);
  sock_close := fun _ k => k;
  stdin_read := fun n k =>
    match k_lines k with
    | [] => (RecvAgain, k)
    | l :: ls => (Received (take n l), Pipe (k_in k) (k_out k) ls)
    end;
  incoming := fun _ k => k_in k;
  outgoing := fun _ k => k_out k
|}.

#[local] Instance pipe_laws : SocketsLaws pipe.
Proof.
  split.
  - intros fd n k r k'. cbn. destruct (k_in k) as [|b l] eqn:Hk; intros [= <- <-]; cbn; [done|].
    rewrite length_take, take_drop. unfold piece. split; [lia|done].
  - intros fd bs k r k' [= <- <-]. unfold piece. split; [lia|done].
  - intros n k bs. cbn. destruct (k_lines k) as [|l ls]; [done|]. intros [= <-]. rewrite length_take. lia.
Qed.

Definition w_message (b : Z) : message_t := replicate sizeof_message b.
Definition w_peer (q : message_queue_t) (n : Z) : peer_t := Peer 5 q zero_message n zero_message 0.
Definition w_sender : pworld pipe := PWorld (w_peer (create_message_queue MAX_MESSAGES_BUFFER_SIZE) (u64 (-1))) (Pipe [] [] []) [].
Definition w_receiver (bs : list Z) : pworld pipe := PWorld (w_peer (create_message_queue 0) (u64 (-1))) (Pipe bs [] []) [].
Definition w_turns : nat := S (sizeof_message * S MAX_MESSAGES_BUFFER_SIZE).

Lemma w_whole b : whole (w_message b).
Proof. apply length_replicate. Qed.
Lemma w_fresh : fresh_sender (peer w_sender).
Proof. split_and!; [done|apply length_replicate|done]. Qed.
Lemma w_enough : op_ok (Send w_turns).
Proof. unfold op_ok, w_turns. lia. Qed.

Definition bytes_sent (o : outcome (list message_t * pworld pipe)) : list Z :=
  match o with Done (_, w) => outgoing 5 (net w) | Crash _ => [] end.

(** Two messages sent, and received from a stream in pieces of 64 bytes. *)
Example two_messages_run :
  let o := run_sends [Add (w_message 1); Add (w_message 2); Send w_turns] w_sender in
  (fun r => handled r) <$> result_state (run_receives [2000] (w_receiver (bytes_sent o))) =
  Some [w_message 2; w_message 1].
Proof. vm_compute. reflexivity. Qed.


Lemma messages_reordered_witness :
  exists acc w', run_sends [Add (w_message 1); Add (w_message 2); Send w_turns] w_sender = Done (acc, w') /\
    acc = [w_message 1; w_message 2] /\ outgoing 5 (net w') = w_message 2 ++ w_message 1.
Proof.
  destruct (run_sends [Add (w_message 1); Add (w_message 2); Send w_turns] w_sender) as [[acc w']|f] eqn:Hr.
  - exists acc, w'. split; [reflexivity|].
    apply (messages_reordered (w_message 1) (w_message 2) w_turns w_sender w' acc (outgoing 5 (net w'))).
    + exact w_fresh.
    + apply w_whole.
    + apply w_whole.
    + exact w_enough.
    + exact Hr.
    + reflexivity.
    + change (length (bytes_sent (Done (acc, w'))) = sizeof_message + sizeof_message). rewrite <- Hr.
      vm_compute. reflexivity.
  - exfalso. apply (f_equal (fun o => length (bytes_sent o))) in Hr. revert Hr. vm_compute. discriminate.
Defined.

(** A line is typed, a client comes and its message is not terminated. *)
Lemma server_never_corrupts_witness :
  match server_run [Turn 1 {[0%Z; 3%Z]} ∅ ∅ zero_message; Turn 1 {[7%Z]} {[7%Z]} ∅ zero_message]
    (initial_server 3 (Pipe (w_message 1) [] [[65; 66; 10]%Z])) with
  | Done (_, w) => server_ok w
  | Crash f => f = Unterminated \/ exists msg, f = Fatal msg
  end.
Proof. apply server_never_corrupts. repeat constructor. Defined.

Lemma full_line_overruns_witness :
  handle_read_from_stdin zero_message (initial_server 3 (Pipe [] [] [replicate DATA_MAXSIZE 65%Z])) = Crash Unterminated.
Proof.
  eapply (full_line_overruns zero_message _ (replicate DATA_MAXSIZE 65%Z)).
  - reflexivity.
  - reflexivity.
  - apply Forall_replicate. discriminate.
  - reflexivity.
Defined.

(** A message of which 64 bytes are sent. *)
Definition w_half : peer_t := w_peer (create_message_queue MAX_MESSAGES_BUFFER_SIZE) 64.
Definition w_server : server pipe := Server 3 (w_half :: replicate 9 initial_peer) (Pipe [] [] []) [].

(** Another client connects; nothing more of the message is sent. *)
Lemma partial_send_stalls_witness :
  exists u w', server_turn 1 {[3%Z]} (build_fd_sets w_server).1.2 ∅ zero_message w_server = Done (u, w') /\
    connection_list w' !! 0 = Some w_half /\ unsent w_half = replicate 576 0%Z.
Proof.
  destruct (server_turn 1 {[3%Z]} (build_fd_sets w_server).1.2 ∅ zero_message w_server) as [[u w']|f] eqn:Hr.
  - exists u, w'. split; [reflexivity|]. split; [|vm_compute; reflexivity].
    apply (partial_send_stalls 0 w_half 1 {[3%Z]} (build_fd_sets w_server).1.2 ∅ zero_message w_server w' u).
    + reflexivity.
    + discriminate.
    + reflexivity.
    + intros [|j] q Hq Hs; [reflexivity|]. exfalso. cbn [connection_list w_server] in Hq.
      apply lookup_replicate_1 in Hq as [-> _]. discriminate.
    + done.
    + by intros H%elem_of_singleton.
    + by intros H%elem_of_singleton.
    + apply not_elem_of_empty.
    + exact Hr.
  - exfalso. apply (f_equal result_value) in Hr. revert Hr. vm_compute. discriminate.
Defined.
End Witnesses.
End Mq.
