(* ===== verification/Client.v ===== *)
(** * The client of the message exchange: mmap/seq/client.c

    A client is one peer of [Exchange], connected to the server: a line of the terminal becomes
    a message under the client's name and is queued for the server, and what the server sends
    is printed.  The peer and the terminal are those of message.h, modelled in [Exchange].
    The outcome of [socket] and [connect] is an argument; a signal ends the process. *)

From S2P Require Import Prelude Exchange.

Local Open Scope c_scope.

Module Client.
Import Mq.

(** ** The program *)

Definition NO_NAME : list Z := [110; 111; 32; 110; 97; 109; 101]%Z.  (* "no name" *)
Definition CLIENT_NAME_SIZE : nat := 256.

(** [strcpy] of the argument into [client_name]. *)
Definition get_client_name (arg : option (list Z)) : outcome (list Z) :=
  match arg with
  | None => Done NO_NAME
  | Some s => if length s <? CLIENT_NAME_SIZE then Done s else Crash OutOfBounds
  end.

Section Client.
Context {K : Type} `{Sockets K}.
Abbreviation m := (M (pworld K)).

Definition p_kernel {A : Type} (op : M K A) : m A := fun w =>
  match op (net w) with Done (a, k) => Done (a, PWorld (peer w) k (handled w)) | Crash f => Crash f end.

(** [delete_peer] and [exit]. *)
Definition shutdown_client : m unit := crash (Fatal "shutdown_properly").

(** [fd]: what [socket] and [connect] come to. *)
Definition connect_server (fd : option Z) : m Z :=
  match fd with
  | None => mret (-1)%Z
  | Some fd =>
      set_peer (fun p => Peer fd (send_buffer p) (sending_buffer p) (current_sending_byte p) (receiving_buffer p)
        (current_receiving_byte p));; mret 0%Z
  end.

Definition client_fd_sets (w : pworld K) : gset Z * gset Z * gset Z :=
  let all : gset Z := {[STDIN_FILENO; socket (peer w)]} in
  (all, if 0 <? current (send_buffer (peer w)) then {[socket (peer w)]} else ∅, all).

(** [garbage]: what the new message's place on the stack held. *)
Definition client_read_from_stdin (client_name : list Z) (garbage : message_t) : m Z :=
  o ← p_kernel (read_from_stdin DATA_MAXSIZE);
  match o with
  | None => mret (-1)%Z
  | Some text =>
      new_message ← inside (prepare_message client_name text garbage);
      print_message new_message;;
      peer_add_to_send new_message;; mret 0%Z
  end.

(** A turn of main's loop, behind select. *)
Definition client_turn (client_name : list Z) (activity : Z) (rd wr ex : gset Z) (garbage : message_t) : m unit :=
  if decide (activity = -1 \/ activity = 0)%Z then shutdown_client
  else
    (if! bool_decide (STDIN_FILENO ∈ rd) then
       (rc ← client_read_from_stdin client_name garbage; if! negb (rc =? 0)%Z then shutdown_client));;
    (if! bool_decide (STDIN_FILENO ∈ ex) then shutdown_client);;
    s ← gets (fun w => socket (peer w));
    (if! bool_decide (s ∈ rd) then (rc ← receive_all; if! negb (rc =? 0)%Z then shutdown_client));;
    (if! bool_decide (s ∈ wr) then (rc ← send_all; if! negb (rc =? 0)%Z then shutdown_client));;
    (if! bool_decide (s ∈ ex) then shutdown_client).

Definition client_run (client_name : list Z) (ts : list turn) : m unit :=
  foldr (fun t k => client_turn client_name (activity t) (rd t) (wr t) (ex t) (garbage t);; k) (mret tt) ts.

(** main: the global peer is zero. *)
Definition client_main (arg : option (list Z)) (fd : option Z) (ts : list turn) : m unit :=
  match get_client_name arg with
  | Crash f => crash f
  | Done name =>
      set_peer create_peer;;
      rc ← connect_server fd;
      (if! negb (rc =? 0)%Z then shutdown_client);;
      client_run name ts
  end.
End Client.

(** ** A message is its sender and its text *)

Lemma cstr_stop s rest : Forall (fun b => b <> 0%Z) s -> cstr (s ++ 0%Z :: rest) = Some s.
Proof.
  induction 1 as [|b s Hb _ IH]; [done|]. cbn. destruct (Z.eqb_spec b 0); [done|]. by rewrite IH.
Qed.

Lemma prepared name text g :
  length name < SENDER_MAXSIZE -> length text < DATA_MAXSIZE -> whole g ->
  exists msg, prepare_message name text g = Some msg /\ whole msg /\
    (exists r, take SENDER_MAXSIZE msg = name ++ 0%Z :: r) /\ (exists r, drop SENDER_MAXSIZE msg = text ++ 0%Z :: r).
Proof.
  intros Hn Ht Hg. unfold prepare_message. rewrite decide_True by done. eexists. split; [done|].
  unfold whole, sizeof_message, SENDER_MAXSIZE, DATA_MAXSIZE in *.
  set (m1 := write_at 0 _ g). assert (Hm1 : length m1 = 640) by (unfold m1; rewrite length_write_at; rewrite ?length_app; cbn; lia).
  split; [rewrite length_write_at; rewrite ?length_app; cbn; lia|]. unfold write_at. split.
  - rewrite take_app_le by (rewrite length_take; lia). rewrite take_take, Nat.min_id. unfold m1, write_at.
    rewrite take_0, app_nil_l, <- (assoc_L (++)). rewrite take_app_ge by lia. eexists. f_equal.
    replace (128 - length name) with (S (127 - length name)) by lia. reflexivity.
  - rewrite drop_app_ge by (rewrite length_take; lia). rewrite length_take, Hm1. rewrite <- (assoc_L (++)).
    by eexists.
Qed.

(** A message read back is the name and the text it was made of. *)
Lemma message_read_back name text g msg :
  Forall (fun b => b <> 0%Z) name -> Forall (fun b => b <> 0%Z) text -> whole g ->
  prepare_message name text g = Some msg ->
  whole msg /\ cstr (take SENDER_MAXSIZE msg) = Some name /\ cstr (drop SENDER_MAXSIZE msg) = Some text.
Proof.
  intros Hn Ht Hg Hp. assert (Hl : length name < SENDER_MAXSIZE /\ length text < DATA_MAXSIZE).
  { unfold prepare_message in Hp. by case_decide. }
  destruct (prepared name text g) as (msg' & Hp' & Hw & [r1 H1] & [r2 H2]); [apply Hl..|done|].
  rewrite Hp in Hp'. injection Hp' as <-. rewrite H1, H2. split; [done|]. split; by apply cstr_stop.
Qed.

(** ** The client's turns *)

Section Runs.
Context {K : Type} `{SocketsLaws K}.
Implicit Types w : pworld K.

Definition client_ok w : Prop := peer_ok (peer w).

Lemma print_ends msg w (Q : unit -> pworld K -> Prop) : Q tt w -> ends (print_message msg) Q w.
Proof using Type. intros HQ. unfold print_message. by repeat case_match. Qed.

Lemma ends_p_kernel {A : Type} (op : M K A) Q w :
  ends op (fun a k => Q a (PWorld (peer w) k (handled w))) (net w) -> ends (p_kernel op) Q w.
Proof using Type. unfold ends, p_kernel. by destruct (op (net w)) as [[a k]|[]]. Qed.

Lemma client_stdin_ok name g w :
  length name < SENDER_MAXSIZE -> whole g -> client_ok w ->
  ends (client_read_from_stdin name g) (fun _ => client_ok) w.
Proof.
  intros Hn Hg Hok. unfold client_read_from_stdin. apply ends_bind, ends_p_kernel.
  eapply ends_mono; [apply read_from_stdin_ok|]. cbn beta. intros o k Ho. destruct o as [text|]; [|by apply wp_ends, wp_ret].
  destruct (prepared name text g) as (msg & Hp & Hw & _ & _); [done|by apply Ho|done|].
  rewrite Hp. apply ends_bind, wp_ends, wp_ret, ends_bind, print_ends, ends_bind, wp_ends.
  eapply wp_mono; [by apply add_ok|]. cbn beta. intros rc w' Hw'. by apply wp_ends, wp_ret.
Qed.

Lemma client_turn_ends name act rd wr ex g w :
  length name < SENDER_MAXSIZE -> whole g -> client_ok w -> ends (client_turn name act rd wr ex g) (fun _ => client_ok) w.
Proof.
  intros Hn Hg Hok. unfold client_turn. case_decide; [done|].
  assert (Hrc : forall (rc : Z) v, client_ok v -> ends (if! negb (rc =? 0)%Z then shutdown_client) (fun _ => client_ok) v)
    by (intros rc v Hv; by apply ends_when).
  apply ends_bind, (ends_mono _ (fun _ => client_ok)).
  { apply ends_when; [|done]. apply ends_bind. eapply ends_mono; [by apply client_stdin_ok|]. auto. }
  intros _ w1 Hok1. apply ends_bind, ends_when; [done|]. apply ends_bind, wp_ends, wp_gets.
  apply ends_bind, (ends_mono _ (fun _ => client_ok)).
  { apply ends_when; [|done]. apply ends_bind. eapply ends_mono; [by apply receive_all_ok|]. auto. }
  intros _ w2 Hok2. apply ends_bind, (ends_mono _ (fun _ => client_ok)).
  { apply ends_when; [|done]. apply ends_bind, wp_ends. eapply wp_mono; [by apply send_all_ok|]. cbn beta. auto. }
  intros _ w3 Hok3. by apply ends_when.
Qed.

Lemma client_run_ends name ts w :
  length name < SENDER_MAXSIZE -> Forall (fun t => whole (garbage t)) ts -> client_ok w ->
  ends (client_run name ts) (fun _ => client_ok) w.
Proof.
  intros Hn Hts. revert w. induction Hts as [|t ts Ht _ IH]; intros w Hok; [by apply wp_ends, wp_ret|].
  cbn [client_run foldr]. apply ends_bind. eapply ends_mono; [by apply client_turn_ends|]. cbn beta. auto.
Qed.

Definition zero_world (k : K) : pworld K := PWorld zero_peer k [].

(** Under a name that fits a message the client keeps its buffers in order, whatever the
    terminal, the server and select do: a run goes on or ends by the client's own shutdown, or
    by printing a text without end, which only another process' message or a full line of the
    terminal is. *)
Theorem client_never_corrupts arg fd ts k :
  length (default NO_NAME arg) < SENDER_MAXSIZE -> Forall (fun t => whole (garbage t)) ts ->
  match client_main arg fd ts (zero_world k) with
  | Done (_, w) => client_ok w
  | Crash f => f = Unterminated \/ exists msg, f = Fatal msg
  end.
Proof.
  intros Hn Hts. unfold client_main. assert (Hg : get_client_name arg = Done (default NO_NAME arg)).
  { unfold get_client_name. destruct arg as [s|]; [|done]. change (default NO_NAME (Some s)) with s in *.
    rewrite (proj2 (Nat.ltb_lt _ _)); [done|]. unfold CLIENT_NAME_SIZE, SENDER_MAXSIZE in *. lia. }
  rewrite Hg. assert (He : ends (set_peer create_peer;; rc ← connect_server fd; (if! negb (rc =? 0)%Z then shutdown_client);;
    client_run (default NO_NAME arg) ts) (fun _ => client_ok) (zero_world k)).
  { apply ends_bind, wp_ends, wp_modify. destruct fd as [fd|]; [|done]. unfold connect_server, set_peer.
    apply ends_bind, wp_ends, wp_bind, wp_modify, wp_ret, ends_bind, wp_ends, wp_ret, client_run_ends; [done..|].
    exact (idle_peer_ok _ fd initial_peer_ok). }
  unfold ends in He. match type of He with match ?o with _ => _ end => destruct o as [[u w]|[]] end; naive_solver.
Qed.

(** [main] takes a name of up to 255 bytes, a message one of up to 127: the first line under a
    longer name is written over the end of the message's field. *)
Theorem long_name_overruns name g text w k1 :
  SENDER_MAXSIZE <= length name -> length name < CLIENT_NAME_SIZE ->
  read_from_stdin DATA_MAXSIZE (net w) = Done (Some text, k1) ->
  get_client_name (Some name) = Done name /\ client_read_from_stdin name g w = Crash OutOfBounds.
Proof using Type.
  intros Hn Hc Hr. split; [unfold get_client_name; by rewrite (proj2 (Nat.ltb_lt _ _) Hc)|].
  unfold client_read_from_stdin. rewrite (bind_step _ _ _ (Some text) (PWorld (peer w) k1 (handled w)))
    by (unfold p_kernel; by rewrite Hr).
  unfold prepare_message. rewrite decide_False by lia. done.
Qed.

(** *** A line's way to the other side *)

(** The line without the newline at its end. *)
Definition chomp (s : list Z) : list Z := match last s with Some 10%Z => removelast s | _ => s end.

Lemma read_line_run (k k1 k2 : K) line :
  stdin_read DATA_MAXSIZE k = (Received line, k1) -> stdin_read DATA_MAXSIZE k1 = (RecvAgain, k2) ->
  line <> [] -> length line < DATA_MAXSIZE -> Forall (fun b => b <> 0%Z) line ->
  read_from_stdin DATA_MAXSIZE k = Done (Some (chomp line), k2).
Proof using Type.
  intros Hr Hr2 Hne Hl Hnz. unfold read_from_stdin.
  assert (Hw : write_at 0 line (replicate DATA_MAXSIZE 0%Z) = line ++ 0%Z :: replicate (511 - length line) 0%Z).
  { unfold write_at. rewrite take_0, app_nil_l. f_equal. rewrite drop_replicate. unfold DATA_MAXSIZE in *.
    by replace (512 - (0 + length line)) with (S (511 - length line)) by lia. }
  rewrite (bind_step _ _ _ (Some (line ++ 0%Z :: replicate (511 - length line) 0%Z)) k2).
  - rewrite (cstr_stop line) by done. done.
  - cbn [stdin_loop]. rewrite (bind_step _ _ _ (Received line) k1) by (by rewrite Hr). destruct line as [|b line]; [done|].
    rewrite Hw. destruct (Nat.ltb_spec DATA_MAXSIZE (0 + length (b :: line))); [cbn in *; lia|].
    by rewrite (bind_step _ _ _ RecvAgain k2) by (by rewrite Hr2).
Qed.

(** A line typed at a new client is the only message in its queue. *)
Lemma stdin_queues name line g k1 k2 w :
  fresh_sender (peer w) -> whole g ->
  length name < SENDER_MAXSIZE -> Forall (fun b => b <> 0%Z) name ->
  stdin_read DATA_MAXSIZE (net w) = (Received line, k1) -> stdin_read DATA_MAXSIZE k1 = (RecvAgain, k2) ->
  line <> [] -> length line < DATA_MAXSIZE -> Forall (fun b => b <> 0%Z) line ->
  wp (client_read_from_stdin name g) (fun rc w' => rc = 0%Z /\ net w' = k2 /\ socket (peer w') = socket (peer w) /\
    sending_ok (peer w') /\ unsent (peer w') = [] /\ exists msg, queued (send_buffer (peer w')) = [msg] /\ whole msg /\
    cstr (take SENDER_MAXSIZE msg) = Some name /\ cstr (drop SENDER_MAXSIZE msg) = Some (chomp line)) w.
Proof using Type.
  intros Hf Hg Hn Hnz Hr Hr2 Hne Hl Hlz. destruct (fresh_sender_ok _ Hf) as ((Hq & Hw & Hc) & Hz & Hu & Hq0).
  assert (Hch : length (chomp line) < DATA_MAXSIZE /\ Forall (fun b => b <> 0%Z) (chomp line)).
  { assert (Hx : length (removelast line) <= length line) by (rewrite removelast_firstn_len, length_take; lia).
    assert (Hy : Forall (fun b => b <> 0%Z) (removelast line)) by (rewrite removelast_firstn_len; by apply Forall_take).
    unfold chomp. repeat case_match; split; (done || lia). }
  destruct Hch as [Hcl Hcz]. destruct (prepared name (chomp line) g Hn Hcl Hg) as (msg & Hp & Hm & _).
  destruct (message_read_back name (chomp line) g msg Hnz Hcz Hg Hp) as (_ & Hc1 & Hc2).
  unfold client_read_from_stdin. apply wp_bind. unfold wp at 1, p_kernel. rewrite (read_line_run _ k1 k2 line) by done.
  rewrite Hp. apply wp_bind, wp_ret, wp_bind. unfold print_message at 1. rewrite Hc1, Hc2. apply wp_ret, wp_bind, wp_on_queue.
  eapply wp_mono; [by apply enqueue_spec|]. cbn beta zeta. intros rc q (Hq' & Hsz & Hor). apply wp_ret. cbn.
  destruct Hor as [(_ & Hfull & _)|[_ Hqd]].
  { exfalso. destruct Hf as (Hb & _). cbn in Hfull. rewrite Hb in Hfull. done. }
  change (queued q = msg :: queued (send_buffer (peer w))) in Hqd. rewrite Hq0 in Hqd.
  split_and!; try done. by exists msg.
Qed.

(** A line is typed at a new client, and what the client sends is read by a peer of the other
    side: when the sockets carry the whole message, the peer's handler is called once, with a
    message whose sender is the client's name and whose text is the line. *)
Theorem typed_line_arrives name line g k1 k2 wc wr n :
  fresh_sender (peer wc) -> fresh_receiver (peer wr) -> whole g ->
  length name < SENDER_MAXSIZE -> Forall (fun b => b <> 0%Z) name ->
  stdin_read DATA_MAXSIZE (net wc) = (Received line, k1) -> stdin_read DATA_MAXSIZE k1 = (RecvAgain, k2) ->
  line <> [] -> length line < DATA_MAXSIZE -> Forall (fun b => b <> 0%Z) line ->
  length (incoming (socket (peer wr)) (net wr)) < n ->
  exists rc wc1 wc2 sent rc' wr',
    client_read_from_stdin name g wc = Done (0%Z, wc1) /\ send_all wc1 = Done (rc, wc2) /\
    outgoing (socket (peer wc)) (net wc2) = outgoing (socket (peer wc)) k2 ++ sent /\
    receive_from_peer record_message n wr = Done (rc', wr') /\
    (length sent = sizeof_message -> incoming (socket (peer wr)) (net wr) = sent -> incoming (socket (peer wr)) (net wr') = [] ->
     exists msg, handled wr' = handled wr ++ [msg] /\
       cstr (take SENDER_MAXSIZE msg) = Some name /\ cstr (drop SENDER_MAXSIZE msg) = Some (chomp line)).
Proof.
  intros Hf [Hrw Hrc] Hg Hn Hnz Hr Hr2 Hne Hl Hlz Hin.
  destruct (wp_run _ _ _ (stdin_queues name line g k1 k2 wc Hf Hg Hn Hnz Hr Hr2 Hne Hl Hlz))
    as (? & wc1 & Hrun & -> & Hnet & Hsock & Hok & Hu & msg & Hq & Hm & Hc1 & Hc2).
  assert (Hb : backlog (peer wc1) < S (sizeof_message * S (current (send_buffer (peer wc1)))))
    by (pose proof (backlog_bound _ Hok); lia).
  destruct (wp_run _ _ _ (send_spec _ wc1 Hok Hb)) as (rc & wc2 & Hsend & _ & sent & taken & Hs).
  destruct Hs as (_ & _ & _ & _ & Hout & Ht & Hcat & Hqt). rewrite Hsock, Hnet in Hout. rewrite Hu in Hcat. rewrite Hq in Hqt.
  assert (Hrok : receiving_ok (peer wr)) by (split; [done|rewrite Hrc; lia]).
  destruct (wp_run _ _ _ (receive_spec n wr Hrok Hin)) as (rc' & wr' & Hrecv & _ & Hlt & read & msgs & Hrs).
  destruct Hrs as (_ & _ & Hi & Hh & Hmw & Hp). unfold partial in Hp at 1. rewrite Hrc in Hp. change (read = concat msgs ++ partial (peer wr')) in Hp.
  exists rc, wc1, wc2, sent, rc', wr'. split_and!; [done..|]. intros Hls Hins He. rewrite He, app_nil_r, Hins in Hi. subst read.
  exists msg. split; [|done]. rewrite Hh. f_equal.
  assert (Htk : taken = [msg]).
  { destruct taken as [|t [|t' taken]]; [|by injection Hqt as <-|discriminate]. cbn in Hcat. symmetry in Hcat.
    apply app_nil in Hcat as [-> _]. done. }
  subst taken. cbn in Hcat. rewrite app_nil_r in Hcat.
  assert (unsent (peer wc2) = []) as Hu2.
  { apply nil_length_inv. apply (f_equal length) in Hcat. rewrite length_app, Hls in Hcat. unfold whole in Hm. lia. }
  rewrite Hu2, app_nil_r in Hcat. subst sent. pose proof sizeof_640 as H640.
  rewrite (blocks_agree msgs [msg] (partial (peer wr')) []); [|done|by repeat constructor| |by rewrite app_nil_r; cbn; rewrite app_nil_r].
  - rewrite <- Hp, Hls, Nat.div_same by lia. done.
  - unfold partial. rewrite length_take. lia.
Qed.
End Runs.

(** ** A concrete client *)

#[local] Existing Instance pipe_sockets.
#[local] Existing Instance pipe_laws.

Definition w_name : list Z := [103; 108; 111; 98; 105]%Z.
Definition w_line : list Z := [104; 105; 10]%Z.
Definition w_client : pworld pipe := PWorld (peer w_sender) (Pipe [] [] [w_line]) [].
Definition w_wire : list Z := default [] (prepare_message w_name [104; 105]%Z zero_message).
Definition w_both : gset Z := {[STDIN_FILENO; 5%Z]}.

Lemma client_never_corrupts_witness :
  match client_main (Some w_name) (Some 5%Z) [Turn 1 w_both ∅ ∅ zero_message; Turn 1 ∅ w_both ∅ zero_message]
    (zero_world (Pipe [] [] [w_line])) with
  | Done (_, w) => client_ok w
  | Crash f => f = Unterminated \/ exists msg, f = Fatal msg
  end.
Proof.
  apply client_never_corrupts; [apply Nat.ltb_lt; vm_compute; reflexivity|].
  repeat constructor; apply length_replicate.
Defined.

Lemma long_name_overruns_witness :
  get_client_name (Some (replicate 200 65%Z)) = Done (replicate 200 65%Z) /\
  client_read_from_stdin (replicate 200 65%Z) zero_message w_client = Crash OutOfBounds.
Proof.
  apply (long_name_overruns (replicate 200 65%Z) zero_message [104; 105]%Z w_client (Pipe [] [] []));
    [apply Nat.leb_le|apply Nat.ltb_lt|]; vm_compute; reflexivity.
Defined.

Definition w_reader : pworld pipe := w_receiver w_wire.

Lemma typed_line_arrives_witness :
  exists rc wc1 wc2 sent rc' wr',
    client_read_from_stdin w_name zero_message w_client = Done (0%Z, wc1) /\ send_all wc1 = Done (rc, wc2) /\
    outgoing (socket (peer w_client)) (net wc2) = outgoing (socket (peer w_client)) (Pipe [] [] []) ++ sent /\
    receive_from_peer record_message 641 w_reader = Done (rc', wr') /\
    (length sent = sizeof_message -> incoming (socket (peer w_reader)) (net w_reader) = sent ->
     incoming (socket (peer w_reader)) (net wr') = [] -> exists msg, handled wr' = handled w_reader ++ [msg] /\
       cstr (take SENDER_MAXSIZE msg) = Some w_name /\ cstr (drop SENDER_MAXSIZE msg) = Some (chomp w_line)).
Proof.
  apply (typed_line_arrives w_name w_line zero_message (Pipe [] [] []) (Pipe [] [] []) w_client w_reader 641);
    try done; try (apply length_replicate); try (by repeat constructor); try (apply Nat.ltb_lt; vm_compute; reflexivity);
    by split_and!.
Defined.
End Client.
