(* ===== verification/MediaRooms.v ===== *)
(** * Reference-counted media rooms: mediasoup_1/src/ref_counter.h, kore_media.c, mediasoup_1.c

    A media keeps rooms in a hash table; media and rooms carry a reference count and are freed
    with their last reference.  The module's clients are websockets, whose requests go to the
    media worker, and the worker, whose messages go to all websockets.

    The counters are GLib's atomic integers: increment and decrement-and-test are one step
    each.  The hash table is a finite map; an entry has the pointer to its key, which is the
    field [b] of the room it was first inserted for, and is read when the entry is found.  The
    reference counts of JSON values matter in [create_room], and only there: they are the class
    [JsonRefs].  [calloc] succeeds. *)

From S2P Require Import Prelude Jansson RandomId.

Local Open Scope c_scope.

Module Media.

(** ** Data *)

Record room : Type := Room { r_a : Z; r_b : Z; r_count : Z }.
Record media : Type := MediaObj {
  m_a : Z;
  rooms : option (gmap Z (loc * loc));  (* by key: the room the key points into, the room *)
  m_count : Z
}.

Inductive event : Type :=
| NewRoom (m : loc)  (* [on_new_room] *)
| Sent (c : loc) (data : string)
| Broadcast (data : string)
| UvStop.

Record mworld (R : Type) : Type := MWorld {
  media_heap : gmap loc media;
  room_heap : gmap loc room;
  medias : option loc;  (* the global *)
  vid : Z;
  next : loc;  (* the next address to be given out *)
  json_refs : R;  (* the JSON values of requests under construction *)
  draws : list Z;  (* the results of rand() to come *)
  buffers : gmap loc string;  (* messages of the media worker *)
  fired : list (option string);  (* what was fired at the worker, newest first *)
  log : list event  (* newest first *)
}.
Arguments MWorld {R}.
Arguments media_heap {R}.
Arguments room_heap {R}.
Arguments medias {R}.
Arguments vid {R}.
Arguments next {R}.
Arguments json_refs {R}.
Arguments draws {R}.
Arguments buffers {R}.
Arguments fired {R}.
Arguments log {R}.

Definition w_media_heap {R : Type} (f : gmap loc media -> gmap loc media) (w : mworld R) : mworld R :=
  MWorld (f (media_heap w)) (room_heap w) (medias w) (vid w) (next w) (json_refs w) (draws w) (buffers w) (fired w) (log w).
Definition w_room_heap {R : Type} (f : gmap loc room -> gmap loc room) (w : mworld R) : mworld R :=
  MWorld (media_heap w) (f (room_heap w)) (medias w) (vid w) (next w) (json_refs w) (draws w) (buffers w) (fired w) (log w).
Definition w_medias {R : Type} (f : option loc -> option loc) (w : mworld R) : mworld R :=
  MWorld (media_heap w) (room_heap w) (f (medias w)) (vid w) (next w) (json_refs w) (draws w) (buffers w) (fired w) (log w).
Definition w_vid {R : Type} (f : Z -> Z) (w : mworld R) : mworld R :=
  MWorld (media_heap w) (room_heap w) (medias w) (f (vid w)) (next w) (json_refs w) (draws w) (buffers w) (fired w) (log w).
Definition w_next {R : Type} (f : loc -> loc) (w : mworld R) : mworld R :=
  MWorld (media_heap w) (room_heap w) (medias w) (vid w) (f (next w)) (json_refs w) (draws w) (buffers w) (fired w) (log w).
Definition w_json_refs {R : Type} (f : R -> R) (w : mworld R) : mworld R :=
  MWorld (media_heap w) (room_heap w) (medias w) (vid w) (next w) (f (json_refs w)) (draws w) (buffers w) (fired w) (log w).
Definition w_draws {R : Type} (f : list Z -> list Z) (w : mworld R) : mworld R :=
  MWorld (media_heap w) (room_heap w) (medias w) (vid w) (next w) (json_refs w) (f (draws w)) (buffers w) (fired w) (log w).
Definition w_buffers {R : Type} (f : gmap loc string -> gmap loc string) (w : mworld R) : mworld R :=
  MWorld (media_heap w) (room_heap w) (medias w) (vid w) (next w) (json_refs w) (draws w) (f (buffers w)) (fired w) (log w).
Definition w_fired {R : Type} (f : list (option string) -> list (option string)) (w : mworld R) : mworld R :=
  MWorld (media_heap w) (room_heap w) (medias w) (vid w) (next w) (json_refs w) (draws w) (buffers w) (f (fired w)) (log w).
Definition w_log {R : Type} (f : list event -> list event) (w : mworld R) : mworld R :=
  MWorld (media_heap w) (room_heap w) (medias w) (vid w) (next w) (json_refs w) (draws w) (buffers w) (fired w) (f (log w)).

(** Reference counts of JSON values, as jansson documents them: a new value has one reference,
    [json_object_set_new] takes over the one of its argument, and a value whose last reference
    is dropped gives back those it has taken over.  [None]: freed memory is used. *)
Class JsonRefs (R : Type) := {
  json_view : R -> gmap loc (nat * list loc);  (* the references to a value, the values it holds *)
  json_new : R -> loc * R;  (* json_object, json_integer, json_string *)
  json_set_new : loc -> loc -> R -> R;
  json_drop : list loc -> R -> option R;  (* one reference to each *)
  json_text : loc -> R -> option string
}.
Definition json_decref {R : Type} `{JsonRefs R} (l : loc) (r : R) : option R := json_drop [l] r.

Class JsonRefsLaws (R : Type) `{JsonRefs R} := {
  json_new_law : forall r l r', json_new r = (l, r') -> json_view r !! l = None /\ json_view r' = <[l := (1, [])]> (json_view r);
  json_set_new_law : forall o v r n ms, json_view r !! o = Some (n, ms) ->
    json_view (json_set_new o v r) = <[o := (n, ms ++ [v])]> (json_view r);
  json_drop_nil : forall r, json_drop [] r = Some r;
  json_drop_dead : forall l ls r, json_view r !! l = None -> json_drop (l :: ls) r = None;
  json_drop_shared : forall l ls r n ms, json_view r !! l = Some (S (S n), ms) ->
    exists r', json_view r' = <[l := (S n, ms)]> (json_view r) /\ json_drop (l :: ls) r = json_drop ls r';
  json_drop_last : forall l ls r ms, json_view r !! l = Some (1, ms) ->
    exists r', json_view r' = delete l (json_view r) /\ json_drop (l :: ls) r = json_drop (ms ++ ls) r'
}.

(** The instance of the witnesses: the counts and members themselves. *)
Abbreviation refs := (gmap loc (nat * list loc)) (only parsing).
Definition refs_total (r : refs) : nat := map_fold (fun _ x n => x.1 + n) 0 r.
Fixpoint refs_drop (fuel : nat) (ls : list loc) (r : refs) : option refs :=
  match fuel, ls with
  | _, [] => Some r
  | O, _ => None
  | S fuel, l :: ls =>
      match r !! l with
      | None | Some (0, _) => None
      | Some (1, ms) => refs_drop fuel (ms ++ ls) (delete l r)
      | Some (S n, ms) => refs_drop fuel ls (<[l := (n, ms)]> r)
      end
  end.
#[export] Instance refs_json : JsonRefs refs := {|
  json_view := fun r => r;
  json_new := fun r => let l := fresh (dom r) in (l, <[l := (1, [])]> r);
  json_set_new := fun o v r => match r !! o with Some (n, ms) => <[o := (n, ms ++ [v])]> r | None => r end;
  json_drop := fun ls r => refs_drop (S (refs_total r)) ls r;
  json_text := fun _ _ => None
|}.

Section Code.
Context {R J : Type} `{JsonRefs R} `{Jansson J} (RAND_MAX : Z).
Abbreviation m := (M (mworld R)).

Definition get_media (a : loc) : m media := h ← gets media_heap; live (h !! a).
Definition get_room_at (a : loc) : m room := h ← gets room_heap; live (h !! a).
Definition alloc : m loc := a ← gets next; modify (w_next S);; mret a.
Definition emit (e : event) : m unit := modify (w_log (cons e)).

(** ** ref_counter.h *)

Definition room_count (a : loc) (f : Z -> Z) : m Z :=
  r ← get_room_at a;
  modify (w_room_heap <[a := Room (r_a r) (r_b r) (f (r_count r))]>);; mret (f (r_count r)).
Definition media_count (a : loc) (f : Z -> Z) : m Z :=
  v ← get_media a;
  modify (w_media_heap <[a := MediaObj (m_a v) (rooms v) (f (m_count v))]>);; mret (f (m_count v)).

Definition room_inc (a : loc) : m unit := room_count a (fun n => n + 1)%Z;; mret tt.
Definition media_inc (a : loc) : m unit := media_count a (fun n => n + 1)%Z;; mret tt.

(** ** kore_media.c *)

Definition destroy_room (a : loc) : m unit := get_room_at a;; modify (w_room_heap (delete a)).

(** [j_refcount_dec] of a room: [g_atomic_int_dec_and_test], then [destroy_room]. *)
Definition room_dec (a : loc) : m unit :=
  n ← room_count a (fun n => n - 1)%Z; if (n =? 0)%Z then destroy_room a else mret tt.

Definition on_room_remove (data : option loc) : m unit :=
  match data with None => mret tt | Some r => room_dec r end.

(** [g_hash_table_lookup]: the key of an entry that is found is read. *)
Definition table_lookup (t : gmap Z (loc * loc)) (key : Z) : m (option (loc * loc)) :=
  match t !! key with None => mret None | Some e => get_room_at e.1;; mret (Some e) end.

(** [g_hash_table_insert(m->rooms, &r->b, r)]: of an entry that is replaced the key stays and
    the value is given to [on_room_remove]. *)
Definition table_insert (ma r : loc) : m unit :=
  v ← get_media ma;
  o ← get_room_at r;
  let b := r_b o in
  let t := default ∅ (rooms v) in
  old ← table_lookup t b;
  modify (w_media_heap <[ma := MediaObj (m_a v) (Some (<[b := (default r (fst <$> old), r)]> t)) (m_count v)]>);;
  match old with None => mret tt | Some e => on_room_remove (Some e.2) end.

Definition add_room_to_media (ma r : option loc) : m unit :=
  match ma, r with
  | Some ma, Some r =>
      v ← get_media ma;
      (match rooms v with
       | None => modify (w_media_heap <[ma := MediaObj (m_a v) (Some ∅) (m_count v)]>)
       | Some _ => mret tt
       end);;
      table_insert ma r;;
      get_media ma;; emit (NewRoom ma)
  | _, _ => mret tt
  end.

Definition get_room (ma : option loc) (vint : Z) : m (option loc) :=
  if (vint =? 0)%Z then mret None
  else
    match ma with
    | None => mret None
    | Some ma =>
        v ← get_media ma;
        match rooms v with
        | None => mret None
        | Some t =>
            o ← table_lookup t vint;
            match o with None => mret None | Some e => get_room_at e.2;; mret (Some e.2) end
        end
    end.

Definition close_room (ma : option loc) (vint : Z) : m unit :=
  match ma with
  | None => mret tt
  | Some ma =>
      v ← get_media ma;
      match rooms v with
      | None => mret tt
      | Some t =>
          o ← table_lookup t vint;
          match o with
          | None => mret tt
          | Some e =>
              modify (w_media_heap <[ma := MediaObj (m_a v) (Some (delete vint t)) (m_count v)]>);;
              on_room_remove (Some e.2)
          end
      end
  end.

(** [g_hash_table_destroy] gives every value to [on_room_remove]. *)
Fixpoint remove_all (l : list (Z * (loc * loc))) : m unit :=
  match l with [] => mret tt | (_, e) :: l => on_room_remove (Some e.2);; remove_all l end.

Definition destroy_media (a : loc) : m unit :=
  v ← get_media a;
  match rooms v with None => mret tt | Some t => remove_all (map_to_list t) end;;
  modify (w_media_heap (delete a)).

Definition media_dec (a : loc) : m unit :=
  n ← media_count a (fun n => n - 1)%Z; if (n =? 0)%Z then destroy_media a else mret tt.

Definition media_new : m loc :=
  a ← alloc; modify (w_media_heap <[a := MediaObj 1 None 1]>);; mret a.
Definition room_new : m loc :=
  a ← alloc;
  modify (w_vid (fun n => n + 1)%Z);;
  v ← gets vid;
  modify (w_room_heap <[a := Room 10 v 1]>);; mret a.

(** *** create_room *)

Definition new_json : m loc :=
  r ← gets json_refs; let '(l, r) := json_new r in modify (w_json_refs (fun _ => r));; mret l.
Definition set_new (o v : loc) : m unit := modify (w_json_refs (json_set_new o v)).
Definition decref (l : loc) : m unit :=
  r ← gets json_refs;
  match json_decref l r with Some r => modify (w_json_refs (fun _ => r)) | None => crash UseAfterFree end.
Definition draw : m Z := fun w =>
  match random_u32_1 RAND_MAX (draws w) with
  | Done (n, ds) => Done (n, w_draws (fun _ => ds) w)
  | Crash f => Crash f
  end.

(** A member of an object, with a new value. *)
Definition member (o : loc) : m unit := v ← new_json; set_new o v.

(** At the end the two [json_auto_t] are given back, the later one first. *)
Definition create_room (ma : option loc) : m Z :=
  match ma with
  | None => mret (-1)%Z
  | Some _ =>
      draw;; draw;;
      repli ← new_json;
      member repli;;
      member repli;;
      repli_internal ← new_json;
      member repli_internal;;
      member repli_internal;;
      repli_data ← new_json;
      member repli_data;;
      set_new repli repli_internal;;
      set_new repli repli_data;;
      mbuf ← gets (fun w => json_text repli (json_refs w));
      modify (w_fired (cons mbuf));;
      decref repli_data;;
      decref repli;;
      mret 0%Z
  end.

(** ** mediasoup_1.c *)

Definition init : m unit := a ← media_new; modify (w_medias (fun _ => Some a)).

(** [delete_text], [dump_text] are the two literals. *)
Definition websocket_message (delete_text dump_text : string) (c : loc) (data : option string) : m unit :=
  match data with
  | None => mret tt
  | Some data =>
      match json_loads data with
      | None => mret tt
      | Some root =>
          type_str ← deref (json_object_get root "type" ≫= json_string_value);
          if bool_decide (type_str = "message") then emit (Sent c data)
          else if bool_decide (type_str = "create_room") then
            o ← gets medias;
            match o with
            | None => mret tt
            | Some a => get_media a;; create_room (Some a);; mret tt
            end
          else if bool_decide (type_str = "delete_room") then modify (w_fired (cons (Some delete_text)))
          else if bool_decide (type_str = "room_dump") then modify (w_fired (cons (Some dump_text)))
          else mret tt
      end
  end.

Definition websocket_connect (c : loc) : m unit :=
  match json_dumps (json_object [("type", json_string "ack"); ("msg", json_string "hello!")]) with
  | None => mret tt
  | Some buf => emit (Sent c buf)
  end.

(** A message of the worker is given to all websockets; it is freed if it was JSON. *)
Definition on_from_cpp (data : option loc) : m unit :=
  match data with
  | None => mret tt
  | Some a =>
      h ← gets buffers;
      s ← live (h !! a);
      if bool_decide (s = "exit") then emit UvStop
      else
        let duri := json_loads s in
        match json_dumps (json_object [("type", json_string "on_result"); ("msg", json_string s)]) with
        | None => mret tt
        | Some buf =>
            emit (Broadcast buf);;
            match duri with None => mret tt | Some _ => modify (w_buffers (delete a)) end
        end
  end.

(** The end of the worker's thread. *)
Definition m_destroy : m unit :=
  o ← gets medias; match o with None => mret tt | Some a => media_dec a end.
End Code.

(** ** References and who has them *)

(** How many references to each address somebody has. *)
Definition owns : Type := loc -> nat.
Definition give (a : loc) (f : owns) : owns := fun x => if decide (x = a) then S (f x) else f x.
Definition take (a : loc) (f : owns) : owns := fun x => if decide (x = a) then pred (f x) else f x.

Definition table_of (v : media) : gmap Z (loc * loc) := default ∅ (rooms v).
(** 1 if the room [r] is in the media's table, under the key [b]. *)
Definition in_table (b : Z) (r : loc) (v : media) : nat := if decide (table_of v !! b = Some (r, r)) then 1 else 0.
Definition entries (b : Z) (r : loc) (ms : gmap loc media) : nat := map_fold (fun _ v n => in_table b r v + n) 0 ms.

Section Proofs.
Context {R J : Type} `{JsonRefs R} `{Jansson J} (RAND_MAX : Z).
Implicit Types w : mworld R.

(** Every counter is the number of the references there are: those somebody has and, for a
    room, those of the tables; what has none is freed. *)
Record counted (om orr : owns) w : Prop := Counted {
  c_media : forall a v, media_heap w !! a = Some v -> m_count v = Z.of_nat (om a) /\ 0 < om a;
  c_media_gone : forall a, media_heap w !! a = None -> om a = 0;
  c_room : forall r o, room_heap w !! r = Some o ->
    r_count o = Z.of_nat (orr r + entries (r_b o) r (media_heap w)) /\ 0 < orr r + entries (r_b o) r (media_heap w);
  c_room_gone : forall r, room_heap w !! r = None -> orr r = 0;
  c_table : forall a v k e, media_heap w !! a = Some v -> table_of v !! k = Some e ->
    e.1 = e.2 /\ exists o, room_heap w !! e.2 = Some o /\ r_b o = k;
  c_keys : forall r o r' o', room_heap w !! r = Some o -> room_heap w !! r' = Some o' -> r_b o = r_b o' -> r = r';
  c_vid : forall r o, room_heap w !! r = Some o -> (r_b o <= vid w)%Z;
  c_next : forall a, next w <= a -> media_heap w !! a = None /\ room_heap w !! a = None
}.

(** *** Entries of the tables *)

Lemma entries_remove b r (ms : gmap loc media) a v :
  ms !! a = Some v -> entries b r ms = in_table b r v + entries b r (delete a ms).
Proof.
  intros Ha. unfold entries. rewrite (map_fold_delete_L _ _ a v ms); [done| |done]. intros. lia.
Qed.
Lemma entries_fresh b r (ms : gmap loc media) a v :
  ms !! a = None -> entries b r (<[a := v]> ms) = in_table b r v + entries b r ms.
Proof. intros Ha. unfold entries. rewrite map_fold_insert_L; [done| |done]. intros. lia. Qed.
Lemma entries_insert b r (ms : gmap loc media) a v v' :
  ms !! a = Some v -> entries b r (<[a := v']> ms) + in_table b r v = entries b r ms + in_table b r v'.
Proof.
  intros Ha. rewrite (entries_remove b r ms a v Ha). rewrite <- insert_delete_eq.
  rewrite entries_fresh by apply lookup_delete_eq. lia.
Qed.
Lemma entries_same b r (ms : gmap loc media) a v v' :
  ms !! a = Some v -> table_of v' = table_of v -> entries b r (<[a := v']> ms) = entries b r ms.
Proof. intros Ha Ht. pose proof (entries_insert b r ms a v v' Ha) as He. unfold in_table in *. rewrite Ht in He. lia. Qed.

(** *** Counters *)

Lemma get_room_run r o w : room_heap w !! r = Some o -> get_room_at r w = Done (o, w).
Proof. intros Hr. unfold get_room_at. run eq_refl. by rewrite Hr. Qed.
Lemma get_media_run a v w : media_heap w !! a = Some v -> get_media a w = Done (v, w).
Proof. intros Ha. unfold get_media. run eq_refl. by rewrite Ha. Qed.

(** Another number of owners of a live room, with its counter. *)
Lemma counted_room om orr orr' w r o n :
  counted om orr w -> room_heap w !! r = Some o -> 0 < orr' r + entries (r_b o) r (media_heap w) ->
  n = Z.of_nat (orr' r + entries (r_b o) r (media_heap w)) -> (forall x, x <> r -> orr' x = orr x) ->
  counted om orr' (w_room_heap <[r := Room (r_a o) (r_b o) n]> w).
Proof.
  intros [Hm Hmg Hr Hrg Ht Hk Hv Hn] Ho Hpos -> Hne.
  assert (Hlk : forall x y, (<[r := Room (r_a o) (r_b o) (Z.of_nat (orr' r + entries (r_b o) r (media_heap w)))]> (room_heap w)) !! x = Some y ->
    exists z, room_heap w !! x = Some z /\ r_b z = r_b y).
  { intros x y. destruct (decide (x = r)) as [->|Hx]; [rewrite lookup_insert_eq|rewrite lookup_insert_ne by done; by exists y].
    intros [= <-]. by exists o. }
  split; cbn; try done.
  - intros x y. destruct (decide (x = r)) as [->|Hx].
    + rewrite lookup_insert_eq. intros [= <-]. cbn. done.
    + rewrite lookup_insert_ne by done. rewrite Hne by done. apply Hr.
  - intros x. destruct (decide (x = r)) as [->|Hx]; [by rewrite lookup_insert_eq|].
    rewrite lookup_insert_ne by done. rewrite Hne by done. apply Hrg.
  - intros a v k [e1 e2] Ha He. destruct (Ht a v k _ Ha He) as (Heq & z & Hz & Hzk). cbn in *. split; [done|].
    destruct (decide (e2 = r)) as [->|Hx]; [|exists z; by rewrite lookup_insert_ne].
    rewrite lookup_insert_eq. eexists. split; [done|]. cbn. congruence.
  - intros x y x' y' (z & Hz & Hzb)%Hlk (z' & Hz' & Hzb')%Hlk Heq. apply (Hk x z x' z'); congruence.
  - intros x y (z & Hz & <-)%Hlk. by eapply Hv.
  - intros a Ha. destruct (Hn a Ha) as [H1 H2]. split; [done|]. rewrite lookup_insert_ne; [done|congruence].
Qed.

(** The last owner of a room that is in no table frees it. *)
Lemma counted_free om orr orr' w r o :
  counted om orr w -> room_heap w !! r = Some o -> orr' r = 0 -> entries (r_b o) r (media_heap w) = 0 ->
  (forall x, x <> r -> orr' x = orr x) -> counted om orr' (w_room_heap (delete r) w).
Proof.
  intros [Hm Hmg Hr Hrg Ht Hk Hv Hn] Ho Hz He Hne. split; cbn; try done.
  - intros x y [Hx Hy]%lookup_delete_Some. rewrite Hne by done. by apply Hr.
  - intros x. destruct (decide (x = r)) as [->|Hx]; [done|]. rewrite lookup_delete_ne by done. rewrite Hne by done. apply Hrg.
  - intros a v k [e1 e2] Ha Hk'. destruct (Ht a v k _ Ha Hk') as (Heq & z & Hz' & Hzk). cbn in *. split; [done|].
    exists z. split; [|done]. rewrite lookup_delete_ne; [done|]. intros <-. rewrite Ho in Hz'. injection Hz' as ->.
    rewrite (entries_remove _ _ _ a v Ha) in He. unfold in_table in He. rewrite decide_True in He; [lia|].
    rewrite Hzk, Hk'. by subst.
  - intros x y x' y' [_ Hy]%lookup_delete_Some [_ Hy']%lookup_delete_Some. by apply Hk.
  - intros x y [_ Hy]%lookup_delete_Some. by eapply Hv.
  - intros a Ha. destruct (Hn a Ha) as [H1 H2]. split; [done|]. apply lookup_delete_None. by right.
Qed.

Lemma owned_alive om orr w r : counted om orr w -> 0 < orr r -> exists o, room_heap w !! r = Some o.
Proof. intros Hc Hr. destruct (room_heap w !! r) as [o|] eqn:Ho; [by exists o|]. apply (c_room_gone _ _ _ Hc) in Ho. lia. Qed.
Lemma media_alive om orr w a : counted om orr w -> 0 < om a -> exists v, media_heap w !! a = Some v.
Proof. intros Hc Ha. destruct (media_heap w !! a) as [v|] eqn:Hv; [by exists v|]. apply (c_media_gone _ _ _ Hc) in Hv. lia. Qed.

(** *** The reference counter *)

Lemma room_inc_ok om orr w r :
  counted om orr w -> 0 < orr r -> wp (room_inc r) (fun _ => counted om (give r orr)) w.
Proof.
  intros Hc Hr. destruct (owned_alive _ _ _ _ Hc Hr) as [o Ho]. destruct (c_room _ _ _ Hc r o Ho) as [Hn Hpos].
  unfold room_inc, room_count. apply wp_bind, wp_bind. unfold wp at 1. rewrite (get_room_run r o w Ho). wp_steps.
  eapply counted_room; try done; unfold give; [..|intros x Hx; by rewrite decide_False]; rewrite decide_True by done; lia.
Qed.

(** A reference is given back: with the last one the room is freed. *)
Lemma room_dec_ok om orr w r :
  counted om orr w -> 0 < orr r ->
  wp (room_dec r) (fun _ w' => counted om (take r orr) w' /\ exists f, w' = w_room_heap f w) w.
Proof.
  intros Hc Hr. destruct (owned_alive _ _ _ _ Hc Hr) as [o Ho]. destruct (c_room _ _ _ Hc r o Ho) as [Hn Hpos].
  unfold room_dec, room_count. apply wp_bind, wp_bind. unfold wp at 1. rewrite (get_room_run r o w Ho). wp_steps.
  set (w1 := w_room_heap _ w).
  assert (Htk : take r orr r = pred (orr r)) by (unfold take; by rewrite decide_True).
  assert (Hne : forall x, x <> r -> take r orr x = orr x) by (intros x Hx; unfold take; by rewrite decide_False).
  destruct (Z.eqb_spec (r_count o - 1) 0) as [Hz|Hz].
  - unfold destroy_room. apply wp_bind. unfold wp at 1.
    rewrite (get_room_run r (Room (r_a o) (r_b o) (r_count o - 1)) w1) by apply lookup_insert_eq. apply wp_modify.
    assert (Hw : w_room_heap (delete r) w1 = w_room_heap (delete r) w) by (unfold w1, w_room_heap; cbn; by rewrite delete_insert_eq).
    rewrite Hw. split; [|by eexists]. eapply counted_free; [done|done| | |done]; lia.
  - apply wp_ret. split; [|by eexists]. unfold w1. eapply counted_room; [done|done| | |done]; lia.
Qed.

(** *** The tables *)

(** A media changes its table or its counter, and references pass between the table and those
    who have them. *)
Lemma counted_retable om om' orr orr' w a v v' :
  counted om orr w -> media_heap w !! a = Some v ->
  m_count v' = Z.of_nat (om' a) -> 0 < om' a -> (forall x, x <> a -> om' x = om x) ->
  (forall r o, room_heap w !! r = Some o -> orr r + in_table (r_b o) r v = orr' r + in_table (r_b o) r v') ->
  (forall r, room_heap w !! r = None -> orr' r = 0) ->
  (forall k e, table_of v' !! k = Some e -> e.1 = e.2 /\ exists o, room_heap w !! e.2 = Some o /\ r_b o = k) ->
  counted om' orr' (w_media_heap <[a := v']> w).
Proof.
  intros [Hm Hmg Hr Hrg Ht Hk Hv Hn] Ha Hcnt Hpos Hne Hmove Hgone Htab. split; cbn; try done.
  - intros x y. destruct (decide (x = a)) as [->|Hx].
    + rewrite lookup_insert_eq. by intros [= <-].
    + rewrite lookup_insert_ne by done. rewrite Hne by done. apply Hm.
  - intros x. destruct (decide (x = a)) as [->|Hx]; [by rewrite lookup_insert_eq|].
    rewrite lookup_insert_ne by done. rewrite Hne by done. apply Hmg.
  - intros r o Ho. specialize (Hmove r o Ho). destruct (Hr r o Ho) as [Hc Hp].
    pose proof (entries_insert (r_b o) r (media_heap w) a v v' Ha). lia.
  - intros x y k e. destruct (decide (x = a)) as [->|Hx].
    + rewrite lookup_insert_eq. intros [= <-]. apply Htab.
    + rewrite lookup_insert_ne by done. apply Ht.
  - intros x Hx. destruct (Hn x Hx) as [Hx1 Hx2]. split; [|done]. rewrite lookup_insert_ne; [done|congruence].
Qed.

(** The same without a change of the media's owners. *)
Lemma counted_table om orr orr' w a v t :
  counted om orr w -> media_heap w !! a = Some v ->
  (forall r o, room_heap w !! r = Some o -> orr r + in_table (r_b o) r v = orr' r + (if decide (t !! r_b o = Some (r, r)) then 1 else 0)) ->
  (forall r, room_heap w !! r = None -> orr' r = 0) ->
  (forall k e, t !! k = Some e -> e.1 = e.2 /\ exists o, room_heap w !! e.2 = Some o /\ r_b o = k) ->
  counted om orr' (w_media_heap <[a := MediaObj (m_a v) (Some t) (m_count v)]> w).
Proof.
  intros Hc Ha Hmove Hgone Htab. destruct (c_media _ _ _ Hc a v Ha) as [Hcnt Hpos].
  by apply (counted_retable om om orr orr' w a v _ Hc Ha).
Qed.

Lemma counted_ext om om' orr orr' w :
  counted om orr w -> (forall x, om x = om' x) -> (forall x, orr x = orr' x) -> counted om' orr' w.
Proof.
  intros [Hm Hmg Hr Hrg Ht Hk Hv Hn] Ho Hor. split; try done.
  - intros a v. rewrite <- Ho. apply Hm.
  - intros a. rewrite <- Ho. apply Hmg.
  - intros r o. rewrite <- Hor. apply Hr.
  - intros r. rewrite <- Hor. apply Hrg.
Qed.
Lemma take_give a (f : owns) x : take a (give a f) x = f x.
Proof. unfold take, give. by case_decide. Qed.

Lemma media_count_ok om orr w a f n :
  counted om orr w -> 0 < om a -> 0 < n -> (forall z, z = Z.of_nat (om a) -> f z = Z.of_nat n) ->
  wp (media_count a f) (fun c w' => c = Z.of_nat n /\ counted (fun x => if decide (x = a) then n else om x) orr w') w.
Proof.
  intros Hc Ha Hn Hf. destruct (media_alive _ _ _ _ Hc Ha) as [v Hv]. destruct (c_media _ _ _ Hc a v Hv) as [Hcnt _].
  unfold media_count. apply wp_bind. unfold wp at 1. rewrite (get_media_run a v w Hv). wp_steps. split; [by apply Hf|].
  eapply counted_retable; [done|done|cbn; rewrite decide_True by done; by apply Hf|by rewrite decide_True| |done| |].
  - intros x Hx. by rewrite decide_False.
  - apply (c_room_gone _ _ _ Hc).
  - intros k e He. by apply (c_table _ _ _ Hc a v).
Qed.

Lemma table_lookup_ok om orr w a v k :
  counted om orr w -> media_heap w !! a = Some v -> table_lookup (table_of v) k w = Done (table_of v !! k, w).
Proof.
  intros Hc Hv. unfold table_lookup. destruct (table_of v !! k) as [e|] eqn:He; [|done].
  destruct (c_table _ _ _ Hc a v k e Hv He) as (Heq & o & Ho & _). rewrite Heq. by rewrite (bind_step _ _ _ _ _ (get_room_run _ o w Ho)).
Qed.

Lemma get_room_ok om orr w a k :
  counted om orr w -> 0 < om a -> exists o, get_room (Some a) k w = Done (o, w) /\
    forall r, o = Some r -> is_Some (room_heap w !! r).
Proof.
  intros Hc Ha. destruct (media_alive _ _ _ _ Hc Ha) as [v Hv]. unfold get_room.
  destruct (k =? 0)%Z; [by exists None|]. run (get_media_run a v w Hv). destruct (rooms v) as [t|] eqn:Ht; [|by exists None].
  pose proof (table_lookup_ok _ _ _ _ _ k Hc Hv) as Hl. unfold table_of in Hl. rewrite Ht in Hl. run Hl. cbn.
  destruct (t !! k) as [e|] eqn:He; [|by exists None].
  destruct (c_table _ _ _ Hc a v k e Hv) as (_ & o & Ho & _); [unfold table_of; by rewrite Ht|].
  run (get_room_run _ o w Ho). exists (Some e.2). split; [done|]. intros r [= <-]. by rewrite Ho.
Qed.

(** Closing a room gives back the table's reference. *)
Lemma close_room_ok om orr w a k :
  counted om orr w -> 0 < om a -> wp (close_room (Some a) k) (fun _ => counted om orr) w.
Proof.
  intros Hc Ha. destruct (media_alive _ _ _ _ Hc Ha) as [v Hv]. unfold close_room. apply wp_bind. unfold wp at 1.
  rewrite (get_media_run a v w Hv). destruct (rooms v) as [t|] eqn:Ht; [|by apply wp_ret]. apply wp_bind. unfold wp at 1.
  pose proof (table_lookup_ok _ _ _ _ _ k Hc Hv) as Hl. unfold table_of in Hl. rewrite Ht in Hl. cbn in Hl. rewrite Hl.
  destruct (t !! k) as [[r0 r]|] eqn:He; [|by apply wp_ret]. apply wp_bind, wp_modify. cbn [snd].
  assert (Htv : table_of v = t) by (unfold table_of; by rewrite Ht).
  destruct (c_table _ _ _ Hc a v k (r0, r) Hv) as (Heq & o & Ho & Hk); [by rewrite Htv|]. cbn in Heq, Ho. subst r0.
  eapply wp_mono; [apply (room_dec_ok om (give r orr))|].
  - eapply counted_table; [done|done| | |].
    + intros x y Hy. unfold give, in_table. rewrite Htv. destruct (decide (x = r)) as [->|Hx].
      * assert (y = o) as -> by congruence. rewrite Hk, He, lookup_delete_eq. repeat case_decide; congruence || lia.
      * destruct (decide (r_b y = k)) as [Hyk|Hyk]; [|by rewrite lookup_delete_ne].
        rewrite Hyk, He, lookup_delete_eq. repeat case_decide; congruence.
    + intros x Hx. unfold give. rewrite decide_False by congruence. by apply (c_room_gone _ _ _ Hc).
    + intros k' e' [_ He']%lookup_delete_Some. apply (c_table _ _ _ Hc a v k' e' Hv). by rewrite Htv.
  - unfold give. rewrite decide_True by done. lia.
  - cbn beta. intros _ w' [Hw' _]. eapply counted_ext; [done|done|apply take_give].
Qed.

(** A room is put in a table; a room that was there under its key already (then it is the same
    room) gives up the reference the table had. *)
Lemma table_insert_ok om orr w a r v t :
  counted om orr w -> media_heap w !! a = Some v -> rooms v = Some t -> 0 < orr r ->
  wp (table_insert a r) (fun _ => counted om (take r orr)) w.
Proof.
  intros Hc Hv Ht Hr. destruct (owned_alive _ _ _ _ Hc Hr) as [o Ho].
  assert (Htv : table_of v = t) by (unfold table_of; by rewrite Ht).
  assert (Hgone : forall f x, room_heap w !! x = None -> x <> r -> take r f x = f x).
  { intros f x _ Hx. unfold take. by rewrite decide_False. }
  assert (Htab : forall k e, <[r_b o := (r, r)]> t !! k = Some e -> e.1 = e.2 /\ exists z, room_heap w !! e.2 = Some z /\ r_b z = k).
  { intros k e [[<- <-]|[_ He]]%lookup_insert_Some; [by split; [|exists o]|].
    apply (c_table _ _ _ Hc a v k e Hv). by rewrite Htv. }
  assert (Hother : forall x y, room_heap w !! x = Some y -> x <> r ->
    in_table (r_b y) x v = if decide (<[r_b o := (r, r)]> t !! r_b y = Some (x, x)) then 1 else 0).
  { intros x y Hy Hx. unfold in_table. rewrite Htv. rewrite lookup_insert_ne; [done|]. intros Hb. apply Hx.
    symmetry. by apply (c_keys _ _ _ Hc r o x y). }
  unfold table_insert. apply wp_bind. unfold wp at 1. rewrite (get_media_run a v w Hv).
  apply wp_bind. unfold wp at 1. rewrite (get_room_run r o w Ho). apply wp_bind. unfold wp at 1.
  pose proof (table_lookup_ok _ _ _ _ _ (r_b o) Hc Hv) as Hl. rewrite Htv in Hl. rewrite Ht. cbn [from_option id]. rewrite Hl.
  apply wp_bind, wp_modify. destruct (t !! r_b o) as [[r0 r1]|] eqn:He; cbn [fmap option_fmap option_map from_option id fst snd].
  - destruct (c_table _ _ _ Hc a v (r_b o) (r0, r1) Hv) as (Heq & z & Hz & Hzb); [by rewrite Htv|]. cbn in *. subst r0.
    assert (r1 = r) as -> by by apply (c_keys _ _ _ Hc r1 z r o).
    eapply wp_mono; [apply (room_dec_ok om orr)|by intros _ w' [Hw' _]]; [|done].
    rewrite (insert_id t _ _ He) in *. eapply counted_table; [done|done| | |]; [|apply (c_room_gone _ _ _ Hc)|done].
    intros x y Hy. unfold in_table. by rewrite Htv.
  - eapply counted_table; [done|done| | |done].
    + intros x y Hy. destruct (decide (x = r)) as [->|Hx]; [|unfold take; rewrite decide_False by done; by rewrite (Hother x y)].
      assert (y = o) as -> by congruence. unfold in_table, take. rewrite Htv, He, lookup_insert_eq.
      rewrite decide_False by done. rewrite !decide_True by done. lia.
    + intros x Hx. unfold take. rewrite decide_False by congruence. by apply (c_room_gone _ _ _ Hc).
Qed.

(** A room is put in a media's table, with the reference of who puts it there. *)
Lemma add_room_ok om orr w a r :
  counted om orr w -> 0 < om a -> 0 < orr r ->
  wp (add_room_to_media (Some a) (Some r)) (fun _ => counted om (take r orr)) w.
Proof.
  intros Hc Ha Hr. destruct (media_alive _ _ _ _ Hc Ha) as [v Hv]. destruct (owned_alive _ _ _ _ Hc Hr) as [o Ho].
  unfold add_room_to_media. apply wp_bind. unfold wp at 1. rewrite (get_media_run a v w Hv).
  set (v1 := MediaObj (m_a v) (Some (table_of v)) (m_count v)).
  set (w1 := w_media_heap <[a := v1]> w).
  assert (Hc1 : counted om orr w1).
  { apply (counted_table om orr); [done|done| | |].
    - intros x y Hy. done.
    - apply (c_room_gone _ _ _ Hc).
    - intros k e He. by apply (c_table _ _ _ Hc a v). }
  assert (Hfirst : match rooms v with None => modify (w_media_heap <[a := MediaObj (m_a v) (Some ∅) (m_count v)]>) | Some _ => mret tt end w
    = Done (tt, w1)).
  { unfold w1, v1, table_of. destruct (rooms v) as [t|] eqn:Ht; [|done]. cbn. unfold mret, M_ret, w_media_heap. rewrite insert_id; [by destruct w|].
    rewrite Hv. f_equal. destruct v. cbn in *. by subst. }
  apply wp_bind. unfold wp at 1. rewrite Hfirst. apply wp_bind.
  assert (Hv1 : media_heap w1 !! a = Some v1) by apply lookup_insert_eq.
  eapply wp_mono; [apply (table_insert_ok om orr w1 a r v1 (table_of v)); done|].
  cbn beta. intros _ w2 Hc2. destruct (media_alive _ _ _ _ Hc2 Ha) as [v2 Hv2]. apply wp_bind. unfold wp at 1.
  rewrite (get_media_run a v2 w2 Hv2). apply wp_modify. by destruct Hc2.
Qed.

(** New media and rooms have one reference, of who made them. *)
Lemma media_new_ok om orr w :
  counted om orr w -> wp media_new (fun a w' => counted (give a om) orr w' /\ a = next w) w.
Proof.
  intros [Hm Hmg Hr Hrg Ht Hk Hv Hn]. unfold media_new, alloc. apply wp_bind, wp_bind. wp_steps.
  destruct (Hn (next w)) as [Hfm Hfr]; [done|]. split; [|done]. split; cbn; try done.
  - intros x y [[<- <-]|[Hx Hy]]%lookup_insert_Some; unfold give.
    + rewrite decide_True by done. rewrite (Hmg _ Hfm). cbn. lia.
    + rewrite decide_False by done. by apply (Hm x y).
  - intros x [Hx Hne]%lookup_insert_None. unfold give. rewrite decide_False by congruence. by apply Hmg.
  - intros r o Ho. rewrite entries_fresh by done. unfold in_table, table_of. cbn. by apply Hr.
  - intros x y k e [[<- <-]|[Hx Hy]]%lookup_insert_Some; [done|]. by apply (Ht x y).
  - intros x Hx. destruct (Hn x) as [H1 H2]; [lia|]. split; [|done]. rewrite lookup_insert_ne; [done|lia].
Qed.

Lemma entries_none b r ms :
  (forall a v k e, ms !! a = Some v -> table_of v !! k = Some e -> e.2 <> r) -> entries b r ms = 0.
Proof.
  unfold entries. induction ms as [|a v ms Ha IH] using map_ind; intros Hne; [apply map_fold_empty|].
  rewrite map_fold_insert_L; [|intros; lia|done]. rewrite IH.
  - unfold in_table. case_decide as He; [|done]. destruct (Hne a v b (r, r)); [apply lookup_insert_eq|done|done].
  - intros a' v' k e Ha'. apply (Hne a' v'). rewrite lookup_insert_ne; [done|congruence].
Qed.

Lemma room_new_ok om orr w :
  counted om orr w -> wp room_new (fun a w' => counted om (give a orr) w' /\ a = next w) w.
Proof.
  intros Hc. pose proof Hc as [Hm Hmg Hr Hrg Ht Hk Hv Hn]. unfold room_new, alloc. apply wp_bind, wp_bind. wp_steps.
  destruct (Hn (next w)) as [Hfm Hfr]; [done|]. split; [|done].
  assert (Hnone : forall b, entries b (next w) (media_heap w) = 0).
  { intros b. apply entries_none. intros a v k e Ha He Heq. destruct (Ht a v k e Ha He) as (_ & z & Hz & _). congruence. }
  split; cbn; try done.
  - intros x y [[<- <-]|[Hx Hy]]%lookup_insert_Some; unfold give; cbn.
    + rewrite decide_True by done. rewrite (Hrg _ Hfr), Hnone. lia.
    + rewrite decide_False by done. by apply (Hr x y).
  - intros x [Hx Hne]%lookup_insert_None. unfold give. rewrite decide_False by congruence. by apply Hrg.
  - intros a v k e Ha He. destruct (Ht a v k e Ha He) as (Heq & z & Hz & Hzk). split; [done|].
    exists z. rewrite lookup_insert_ne; [done|congruence].
  - intros x y x' y' [[<- <-]|[Hx Hy]]%lookup_insert_Some [[<- <-]|[Hx' Hy']]%lookup_insert_Some; cbn; [done| | |by eapply Hk].
    + intros Heq. pose proof (Hv x' y' Hy'). lia.
    + intros Heq. pose proof (Hv x y Hy). lia.
  - intros x y [[<- <-]|[Hx Hy]]%lookup_insert_Some; cbn; [lia|]. pose proof (Hv x y Hy). lia.
  - intros x Hx. destruct (Hn x) as [H1 H2]; [lia|]. split; [done|]. rewrite lookup_insert_ne; [done|lia].
Qed.

(** *** The end of a media *)

(** The references of a list of table entries, as if somebody had them. *)
Fixpoint owed (l : list (Z * (loc * loc))) (f : owns) : owns :=
  match l with [] => f | (_, e) :: l => give e.2 (owed l f) end.

Lemma remove_all_ok om l : forall orr w,
  counted om (owed l orr) w -> wp (remove_all l) (fun _ w' => counted om orr w' /\ exists f, w' = w_room_heap f w) w.
Proof.
  induction l as [|[k [e0 e]] l IH]; intros orr w Hc; cbn [remove_all owed snd] in *.
  - apply wp_ret. split; [done|]. exists id. by destruct w.
  - apply wp_bind. eapply wp_mono; [apply (room_dec_ok om (give e (owed l orr))); [done|unfold give; rewrite decide_True by done; lia]|].
    cbn beta. intros _ w' [Hc' [f ->]]. eapply wp_mono; [apply (IH orr); eapply counted_ext; [done|done|apply take_give]|].
    cbn beta. intros _ w' [Hc'' [g ->]]. split; [done|]. by exists (fun h => g (f h)).
Qed.

Lemma owed_none l f r : (forall p, p ∈ l -> p.2.2 <> r) -> owed l f r = f r.
Proof.
  induction l as [|[k e] l IH]; intros Hn; cbn; [done|]. unfold give. rewrite decide_False.
  - apply IH. intros p Hp. apply Hn. by right.
  - intros Heq. apply (Hn (k, e)); [by left|done].
Qed.
Lemma owed_once l f b r :
  NoDup l.*1 -> (forall p, p ∈ l -> p.2.2 = r -> p = (b, (r, r))) ->
  owed l f r = f r + if decide ((b, (r, r)) ∈ l) then 1 else 0.
Proof.
  induction l as [|[k e] l IH]; intros Hnd Hl; cbn.
  - rewrite decide_False; [lia|]. by intros ?%not_elem_of_nil.
  - apply NoDup_cons in Hnd as [Hk Hnd]. unfold give. destruct (decide (r = e.2)) as [Heq|Hne].
    + assert (Hp : (k, e) = (b, (r, r))) by (apply Hl; [by left|done]). injection Hp as -> ->.
      rewrite owed_none; [rewrite decide_True; [lia|by left]|].
      intros [k' e'] Hp' Heq'. apply Hk. assert (Hp : (k', e') = (b, (r, r))) by (apply Hl; [by right|done]).
      rewrite Hp in Hp'. apply list_elem_of_fmap. by exists (b, (r, r)).
    + rewrite IH; [|done|intros p Hp; apply Hl; by right]. f_equal. apply decide_ext.
      split; [by right|]. intros [Heq|Hin]%elem_of_cons; [|done]. injection Heq as -> <-. done.
Qed.

(** What a media's table has, somebody may have instead. *)
Lemma counted_dissolve om orr w a v :
  counted om orr w -> media_heap w !! a = Some v ->
  counted (fun x => if decide (x = a) then 0 else om x) (owed (map_to_list (table_of v)) orr) (w_media_heap (delete a) w).
Proof.
  intros [Hm Hmg Hr Hrg Ht Hk Hv Hn] Ha.
  assert (Hmem : forall p, p ∈ map_to_list (table_of v) -> table_of v !! p.1 = Some p.2) by (intros [k e]; apply elem_of_map_to_list).
  split; cbn; try done.
  - intros x y [Hx Hy]%lookup_delete_Some. rewrite decide_False by done. by apply Hm.
  - intros x [Heq|Hx]%lookup_delete_None; [by rewrite decide_True|]. case_decide; [done|by apply Hmg].
  - intros r o Ho. specialize (Hr r o Ho). rewrite (entries_remove (r_b o) r _ a v Ha) in Hr.
    rewrite (owed_once _ orr (r_b o) r); [|apply NoDup_fst_map_to_list|].
    + unfold in_table in Hr. rewrite (decide_ext _ (table_of v !! r_b o = Some (r, r))) by apply elem_of_map_to_list.
      rewrite <- Nat.add_assoc. exact Hr.
    + intros [k [e1 e2]] Hp Heq. cbn in Heq. subst e2. destruct (Ht a v k _ Ha (Hmem _ Hp)) as (He & z & Hz & Hzk).
      cbn in *. congruence.
  - intros r Hg. rewrite owed_none; [by apply Hrg|]. intros [k e] Hp Heq.
    destruct (Ht a v k e Ha (Hmem _ Hp)) as (_ & z & Hz & _). cbn in Heq. congruence.
  - intros x y k e [_ Hy]%lookup_delete_Some. by apply (Ht x y).
  - intros x Hx. destruct (Hn x Hx) as [H1 H2]. split; [|done]. apply lookup_delete_None. by right.
Qed.

(** The removal of rooms does not see the media. *)
Lemma remove_all_frame g l : forall w,
  remove_all l (w_media_heap g w) =
    match remove_all l w with Done (x, w0) => Done (x, w_media_heap g w0) | Crash f => Crash f end.
Proof.
  assert (Hdec : forall r w, room_dec r (w_media_heap g w) =
    match room_dec r w with Done (x, w0) => Done (x, w_media_heap g w0) | Crash f => Crash f end).
  { intros r w. unfold room_dec, room_count, destroy_room, get_room_at, live, gets, modify, mbind, M_bind, mret, M_ret. cbn.
    destruct (room_heap w !! r) as [o|] eqn:Ho; cbn; [|done]. case_match; cbn; [|done]. by rewrite lookup_insert_eq. }
  induction l as [|[k e] l IH]; intros w; cbn [remove_all on_room_remove]; [done|].
  unfold mbind, M_bind. rewrite Hdec. destruct (room_dec e.2 w) as [[x w1]|f]; [apply IH|done].
Qed.

(** A reference to a media is given back: with the last one the media is freed, and the
    references its table has are given back. *)
Lemma media_dec_ok om orr w a :
  counted om orr w -> 0 < om a -> wp (media_dec a) (fun _ => counted (take a om) orr) w.
Proof.
  intros Hc Ha. destruct (media_alive _ _ _ _ Hc Ha) as [v Hv]. destruct (c_media _ _ _ Hc a v Hv) as [Hcnt _].
  unfold media_dec. apply wp_bind. destruct (decide (om a = 1)) as [H1|H1].
  - unfold media_count. apply wp_bind. unfold wp at 1. rewrite (get_media_run a v w Hv). wp_steps.
    rewrite Hcnt, H1. cbn [Z.of_nat Z.sub Z.eqb]. unfold destroy_media. apply wp_bind. unfold wp at 1.
    set (w1 := w_media_heap _ w). rewrite (get_media_run a (MediaObj (m_a v) (rooms v) 0) w1) by apply lookup_insert_eq.
    pose proof (remove_all_ok _ _ _ _ (counted_dissolve _ _ _ a v Hc Hv)) as Hall.
    apply wp_run in Hall as ([] & w2 & Hrun & Hc2 & _). rewrite remove_all_frame in Hrun.
    destruct (remove_all _ w) as [[[] w0]|f] eqn:Hall; [|done]. injection Hrun as <-.
    assert (Hrm : match rooms v with None => mret tt | Some t => remove_all (map_to_list t) end w1
      = Done (tt, w_media_heap <[a := MediaObj (m_a v) (rooms v) 0]> w0)).
    { unfold table_of in Hall. destruct (rooms v) as [t|]; cbn [from_option id] in Hall; unfold w1.
      - by rewrite remove_all_frame, Hall.
      - rewrite map_to_list_empty in Hall. cbn in Hall. by injection Hall as <-. }
    apply wp_bind. unfold wp at 1. cbn [rooms]. rewrite Hrm. apply wp_modify.
    assert (Hw : w_media_heap (delete a) (w_media_heap <[a := MediaObj (m_a v) (rooms v) 0]> w0) = w_media_heap (delete a) w0).
    { unfold w_media_heap. cbn. by rewrite delete_insert_eq. }
    rewrite Hw. eapply counted_ext; [exact Hc2| |done]. intros x. unfold take. case_decide; [subst; lia|done].
  - eapply wp_mono; [apply (media_count_ok om orr w a _ (pred (om a))); [done|done|lia|lia]|].
    cbn beta. intros c w' [-> Hc']. destruct (Z.eqb_spec (Z.of_nat (pred (om a))) 0); [lia|]. apply wp_ret.
    eapply counted_ext; [done|intros x; unfold take; case_decide; by subst|done].
Qed.

Lemma media_inc_ok om orr w a :
  counted om orr w -> 0 < om a -> wp (media_inc a) (fun _ => counted (give a om) orr) w.
Proof.
  intros Hc Ha. unfold media_inc. apply wp_bind.
  eapply wp_mono; [apply (media_count_ok om orr w a _ (S (om a))); [done|done|lia|lia]|].
  cbn beta. intros c w' [_ Hc']. apply wp_ret. eapply counted_ext; [done|intros x; unfold give; case_decide; by subst|done].
Qed.


(** *** Clients of the library *)

(** What a client of the library does; it gives back, hands over and passes on references it has. *)
Inductive op : Type :=
| MediaNew | RoomNew
| MediaInc (a : loc) | MediaDec (a : loc)
| RoomInc (r : loc) | RoomDec (r : loc)
| AddRoom (a r : loc)
| GetRoom (a : loc) (k : Z) | CloseRoom (a : loc) (k : Z).

(** The references of the client, to media and to rooms. *)
Definition purse : Type := owns * owns.
Definition empty_purse : purse := (fun _ => 0, fun _ => 0).

Definition may (o : op) (s : purse) : bool :=
  match o with
  | MediaNew | RoomNew => true
  | MediaInc a | MediaDec a | GetRoom a _ | CloseRoom a _ => 0 <? s.1 a
  | RoomInc r | RoomDec r => 0 <? s.2 r
  | AddRoom a r => (0 <? s.1 a) && (0 <? s.2 r)
  end.

Definition perform (o : op) (s : purse) : M (mworld R) purse :=
  match o with
  | MediaNew => a ← media_new; mret (give a s.1, s.2)
  | RoomNew => r ← room_new; mret (s.1, give r s.2)
  | MediaInc a => media_inc a;; mret (give a s.1, s.2)
  | MediaDec a => media_dec a;; mret (take a s.1, s.2)
  | RoomInc r => room_inc r;; mret (s.1, give r s.2)
  | RoomDec r => room_dec r;; mret (s.1, take r s.2)
  | AddRoom a r => add_room_to_media (Some a) (Some r);; mret (s.1, take r s.2)
  | GetRoom a k => get_room (Some a) k;; mret s
  | CloseRoom a k => close_room (Some a) k;; mret s
  end.

(** Any sequence of calls; those for which the client has no reference it does not make. *)
Fixpoint client (ops : list op) (s : purse) : M (mworld R) purse :=
  match ops with
  | [] => mret s
  | o :: ops => if may o s then s ← perform o s; client ops s else client ops s
  end.

Definition fresh_world (r : R) (ds : list Z) : mworld R := MWorld ∅ ∅ None 0 0 r ds ∅ [] [].

Lemma counted_fresh r ds : counted (fun _ => 0) (fun _ => 0) (fresh_world r ds).
Proof. split; try done; intros *; intros Hx; cbn in Hx; rewrite ?lookup_empty in Hx; done. Qed.

Lemma perform_ok o s w :
  counted s.1 s.2 w -> may o s = true -> wp (perform o s) (fun s' => counted s'.1 s'.2) w.
Proof.
  intros Hc Hmay. destruct o; cbn [may perform] in *; repeat rewrite ?andb_true_iff, ?Nat.ltb_lt in Hmay; apply wp_bind.
  - eapply wp_mono; [by apply (media_new_ok s.1 s.2)|]. cbn beta. intros a w' [Hw _]. by apply wp_ret.
  - eapply wp_mono; [by apply (room_new_ok s.1 s.2)|]. cbn beta. intros a w' [Hw _]. by apply wp_ret.
  - eapply wp_mono; [by apply (media_inc_ok s.1 s.2)|]. cbn beta. intros _ w' Hw. by apply wp_ret.
  - eapply wp_mono; [by apply (media_dec_ok s.1 s.2)|]. cbn beta. intros _ w' Hw. by apply wp_ret.
  - eapply wp_mono; [by apply (room_inc_ok s.1 s.2)|]. cbn beta. intros _ w' Hw. by apply wp_ret.
  - eapply wp_mono; [by apply (room_dec_ok s.1 s.2)|]. cbn beta. intros _ w' [Hw _]. by apply wp_ret.
  - eapply wp_mono; [by apply (add_room_ok s.1 s.2); destruct Hmay|]. cbn beta. intros _ w' Hw. by apply wp_ret.
  - destruct (get_room_ok _ _ _ a k Hc Hmay) as (x & Hx & _). unfold wp. rewrite Hx. done.
  - eapply wp_mono; [by apply (close_room_ok s.1 s.2)|]. cbn beta. intros _ w' Hw. by apply wp_ret.
Qed.

Lemma client_ok ops : forall s w, counted s.1 s.2 w -> wp (client ops s) (fun s' => counted s'.1 s'.2) w.
Proof.
  induction ops as [|o ops IH]; intros s w Hc; cbn [client]; [by apply wp_ret|].
  destruct (may o s) eqn:Hmay; [|by apply IH]. apply wp_bind.
  eapply wp_mono; [by apply perform_ok|]. intros s' w'. apply IH.
Qed.


(** A client that has given back all its references has freed every media and every room,
    also those that were in tables. *)
Theorem nothing_is_leaked r ds ops s w :
  client ops empty_purse (fresh_world r ds) = Done (s, w) ->
  (forall a, s.1 a = 0) -> (forall a, s.2 a = 0) -> media_heap w = ∅ /\ room_heap w = ∅.
Proof.
  intros Hrun Hm Hr. destruct (wp_run _ _ _ (client_ok ops empty_purse _ (counted_fresh r ds))) as (s' & w' & Hrun' & Hc).
  rewrite Hrun in Hrun'. injection Hrun' as <- <-.
  assert (He : media_heap w = ∅).
  { apply map_empty. intros a. destruct (media_heap w !! a) as [v|] eqn:Hv; [|done].
    destruct (c_media _ _ _ Hc a v Hv). rewrite Hm in *. lia. }
  split; [done|]. apply map_empty. intros a. destruct (room_heap w !! a) as [o|] eqn:Ho; [|done].
  destruct (c_room _ _ _ Hc a o Ho) as [_ Hpos]. rewrite He, Hr in Hpos. by apply Nat.lt_irrefl in Hpos.
Qed.

(** *** The module *)

Lemma new_json_run `{!JsonRefsLaws R} w : exists l w',
  new_json w = Done (l, w') /\ json_view (json_refs w) !! l = None /\
  json_view (json_refs w') = <[l := (1, [])]> (json_view (json_refs w)).
Proof.
  unfold new_json. run eq_refl. destruct (json_new (json_refs w)) as [l r] eqn:Hn. apply json_new_law in Hn as [Hf Hv].
  by eexists l, _.
Qed.
Lemma set_new_run `{!JsonRefsLaws R} o v w n ms :
  json_view (json_refs w) !! o = Some (n, ms) -> exists w',
  set_new o v w = Done (tt, w') /\ json_view (json_refs w') = <[o := (n, ms ++ [v])]> (json_view (json_refs w)).
Proof. intros Ho. eexists. split; [done|]. by apply json_set_new_law. Qed.
Lemma member_run `{!JsonRefsLaws R} o w n ms :
  json_view (json_refs w) !! o = Some (n, ms) -> exists v w',
  member o w = Done (tt, w') /\ json_view (json_refs w) !! v = None /\
  json_view (json_refs w') = <[o := (n, ms ++ [v])]> (<[v := (1, [])]> (json_view (json_refs w))).
Proof.
  intros Ho. unfold member. destruct (new_json_run w) as (v & w1 & H1 & Hf & Hv). run H1.
  destruct (set_new_run o v w1 n ms) as (w2 & H2 & Hv2); [rewrite Hv, lookup_insert_ne; [done|congruence]|].
  exists v, w2. by rewrite <- Hv.
Qed.

(** Lookups in a map built by insertions of addresses that are known to be new. *)
Ltac fresh_facts :=
  repeat match goal with
  | Hf : <[_ := _]> _ !! _ = None |- _ => apply lookup_insert_None in Hf as [? ?]
  end.
Ltac look :=
  repeat first [rewrite lookup_insert_eq | rewrite lookup_insert_ne by congruence
    | rewrite lookup_delete_eq | rewrite lookup_delete_ne by congruence]; reflexivity.
(** The next value of the list is freed; [V] is what its heap's view is known to be. *)
Ltac drop_last V :=
  match goal with
  | |- context [json_drop (?l :: ?ls) ?r] =>
      let r' := fresh "r" in let V' := fresh "V" in let E' := fresh "E" in
      edestruct (json_drop_last l ls r) as (r' & V' & E'); [rewrite V; look|];
      rewrite E', V in *; clear E' V; rename V' into V; cbn [app]
  end.

(** [create_room] gives the reference to the room's data back twice, once as a member of the
    request and once at the end of its scope: it uses freed memory, whatever the request. *)
Theorem create_room_crashes `{!JsonRefsLaws R} a w n1 n2 w1 w2 :
  draw RAND_MAX w = Done (n1, w1) -> draw RAND_MAX w1 = Done (n2, w2) ->
  create_room RAND_MAX (Some a) w = Crash UseAfterFree.
Proof.
  intros H1 H2. unfold create_room. run H1. run H2. clear H1 H2.
  destruct (new_json_run w2) as (re & w3 & E3 & F3 & V3). run E3.
  destruct (member_run re w3 1 []) as (x1 & w4 & E4 & F4 & V4); [rewrite V3; look|]. run E4. rewrite V3 in *.
  destruct (member_run re w4 1 [x1]) as (x2 & w5 & E5 & F5 & V5); [rewrite V4; look|]. run E5. rewrite V4 in *.
  destruct (new_json_run w5) as (ri & w6 & E6 & F6 & V6). run E6. rewrite V5 in *.
  destruct (member_run ri w6 1 []) as (y1 & w7 & E7 & F7 & V7); [rewrite V6; look|]. run E7. rewrite V6 in *.
  destruct (member_run ri w7 1 [y1]) as (y2 & w8 & E8 & F8 & V8); [rewrite V7; look|]. run E8. rewrite V7 in *.
  destruct (new_json_run w8) as (rd & w9 & E9 & F9 & V9). run E9. rewrite V8 in *.
  destruct (member_run rd w9 1 []) as (z & w10 & E10 & F10 & V10); [rewrite V9; look|]. run E10. rewrite V9 in *.
  clear V3 V4 V5 V6 V7 V8 V9. cbn [app] in *. fresh_facts.
  destruct (set_new_run re ri w10 1 [x1; x2]) as (w11 & E11 & V11); [rewrite V10; look|]. run E11. rewrite V10 in *.
  destruct (set_new_run re rd w11 1 [x1; x2; ri]) as (w12 & E12 & V12); [rewrite V11; look|]. run E12. rewrite V11 in *.
  clear V10 V11. cbn [app] in *. run eq_refl. run eq_refl.
  unfold decref, json_decref. rewrite !bind_assoc. run eq_refl. cbn [json_refs w_fired].
  do 2 drop_last V12. rewrite json_drop_nil.
  run eq_refl. rewrite bind_assoc. run eq_refl. cbn [json_refs w_json_refs].
  do 6 drop_last V12. rewrite json_drop_dead; [done|]. rewrite V12. look.
Qed.

(** The thread's end gives back the module's reference to its media, and the global keeps its
    address: a client's message that comes after it uses freed memory. *)
Theorem destroyed_media_is_used w a v c data root td tdump :
  medias w = Some a -> media_heap w !! a = Some v -> m_count v = 1%Z -> rooms v = None ->
  json_loads (J := J) data = Some root -> (json_object_get root "type" ≫= json_string_value) = Some "create_room" ->
  (m_destroy;; websocket_message RAND_MAX (J := J) td tdump c (Some data)) w = Crash UseAfterFree.
Proof.
  intros Hm Hv Hc Hr Hl Ht. unfold m_destroy, media_dec, media_count.
  rewrite !bind_assoc. run eq_refl. rewrite Hm, !bind_assoc. run (get_media_run a v w Hv).
  run eq_refl. rewrite Hc. change (1 - 1 =? 0)%Z with true. unfold destroy_media. cbn beta iota.
  rewrite !bind_assoc.
  erewrite bind_step; [|apply get_media_run, lookup_insert_eq]. cbn [rooms]. rewrite Hr, !bind_assoc, ret_bind.
  run eq_refl. unfold websocket_message. rewrite Hl, Ht. cbn [deref]. rewrite ret_bind.
  rewrite (bool_decide_false ("create_room" = "message")), (bool_decide_true ("create_room" = "create_room")) by done.
  run eq_refl. cbn [medias w_media_heap]. rewrite Hm. unfold get_media. rewrite bind_assoc. run eq_refl.
  cbn [media_heap w_media_heap]. by rewrite lookup_delete_eq.
Qed.
End Proofs.

Lemma refs_total_insert (r : refs) l x : r !! l = None -> refs_total (<[l := x]> r) = x.1 + refs_total r.
Proof. intros Hl. unfold refs_total. rewrite map_fold_insert_L; [done| |done]. intros. lia. Qed.
Lemma refs_total_delete (r : refs) l x : r !! l = Some x -> refs_total r = x.1 + refs_total (delete l r).
Proof. intros Hl. unfold refs_total. rewrite (map_fold_delete_L _ _ l x r); [done| |done]. intros. lia. Qed.

#[export] Instance refs_json_laws : JsonRefsLaws refs.
Proof.
  split; cbn [json_new json_set_new json_drop json_view refs_json].
  - intros r l r' [= <- <-]. split; [|done]. apply not_elem_of_dom, is_fresh.
  - intros o v r n ms Hr. by rewrite Hr.
  - intros r. by destruct (refs_total r).
  - intros l ls r Hl. cbn [refs_drop]. by rewrite Hl.
  - intros l ls r n ms Hl. eexists. split; [reflexivity|]. cbn [refs_drop]. rewrite Hl. f_equal.
    rewrite (refs_total_delete _ _ _ Hl), (refs_total_delete (<[l := (S n, ms)]> r) l (S n, ms)) by apply lookup_insert_eq.
    by rewrite delete_insert_eq.
  - intros l ls r ms Hl. eexists. split; [reflexivity|]. cbn [refs_drop]. rewrite Hl. f_equal. by rewrite (refs_total_delete _ _ _ Hl).
Qed.

(** A media with a room in its table; the room's reference is the table's. *)
Definition sample_ops : list op := [MediaNew; RoomNew; AddRoom 0 1; GetRoom 0 1; MediaInc 0; MediaDec 0; MediaDec 0].
Lemma nothing_is_leaked_witness :
  exists s w, client sample_ops empty_purse (fresh_world (∅ : refs) []) = Done (s, w) /\ media_heap w = ∅ /\ room_heap w = ∅.
Proof.
  set (r := client sample_ops empty_purse (fresh_world (∅ : refs) [])).
  assert (Hm : forall a, match r with Done (s, _) => s.1 a | Crash _ => 1 end = 0) by (intros [|[|a]]; vm_compute; reflexivity).
  assert (Hr : forall a, match r with Done (s, _) => s.2 a | Crash _ => 1 end = 0) by (intros [|[|a]]; vm_compute; reflexivity).
  destruct r as [[s w]|f] eqn:Hrun; [|by specialize (Hm 0)].
  exists s, w. split; [done|]. exact (nothing_is_leaked (∅ : refs) [] sample_ops s w Hrun Hm Hr).
Defined.

Definition module_world : mworld refs := w_draws (fun _ => [20000000; 30000000]%Z) (w_medias (fun _ => Some 0)
  (w_media_heap <[0 := MediaObj 1 None 1]> (fresh_world ∅ []))).
Lemma create_room_crashes_witness : create_room 2147483647 (Some 0) module_world = Crash UseAfterFree.
Proof. eapply create_room_crashes; [apply refs_json_laws|vm_compute; reflexivity|vm_compute; reflexivity]. Defined.

(** JSON for the witness: a request has a type. *)
#[local] Instance request_json : Jansson string := {|
  json_object_get := fun j k => if decide (k = "type") then Some j else None;
  json_integer_value := fun _ => None;
  json_string_value := fun j => Some j;
  json_is_object := fun _ => true;
  json_is_true := fun _ => false;
  json_array_items := fun _ => None;
  json_object := fun _ => "";
  json_integer := fun _ => "";
  json_string := fun s => s;
  json_true := "";
  json_dumps := Some;
  json_loads := Some
|}.
Lemma destroyed_media_is_used_witness :
  (m_destroy;; websocket_message 2147483647 (J := string) "" "" 7 (Some "create_room")) module_world = Crash UseAfterFree.
Proof. eapply destroyed_media_is_used; vm_compute; reflexivity. Defined.

End Media.
