(* ===== verification/RoomEcho.v ===== *)
(** * The room echo application: websocket_9/src/websocket_9.c, helper.c, websocket_9/plugin

    Every websocket connection gets a [struct ex] of its own as its room, and its messages go
    to the room ([WebsocketFrame]).  A task loads plug-ins and waits for a signal; the echo
    plug-in serves a queue of messages in a thread of its own.

    [App] is the websocket side and the task; the echo plug-in with its thread is [RoomPlugin],
    which calls back [j_plugin_push_event].  Heap addresses are positive numbers, the null pointer is 0, and the literal
    "alice" has an address of its own.  The texts of the log, the pages and the watchdog's
    tick (it only prints) are not modelled. *)

From S2P Require Import Prelude KoreNet WebsocketFrame Jansson Janus.

Local Open Scope c_scope.

Module App.

(** ** Data *)

Record ex : Type := Ex { ex_id : Z; ex_b : Z }.

(** What the task does, newest first. *)
Inductive task_event : Type :=
| Loaded (p : nat) | Unloaded (p : nat) | PluginInit (p : nat) | PluginDestroy (p : nat) | WatchdogEnd.

(** An entry of the plug-ins' folder: its name and, if it can be opened, the library. *)
Record library : Type := Library {
  has_create : bool;  (* dlsym finds plugin_create *)
  creates : bool;  (* which returns a plug-in *)
  has_init : bool;
  has_destroy : bool;
  has_handle : bool;
  init_fails : bool
}.
Definition entry : Type := string * option library.

Record echo_app : Type := AppWorld {
  connections : list connection;
  exs : gmap Z ex;
  next : Z;  (* the next heap address *)
  ab : Z;
  net : list net_event;  (* in order *)
  stop : Z;
  stop_signal : Z;
  janus_plugin : option nat;  (* the index of the library it came from *)
  open_libs : gmap nat library;
  task_log : list task_event
}.

Definition a_connections (f : list connection -> list connection) (w : echo_app) : echo_app :=
  AppWorld (f (connections w)) (exs w) (next w) (ab w) (net w) (stop w) (stop_signal w) (janus_plugin w) (open_libs w) (task_log w).
Definition a_exs (f : gmap Z ex -> gmap Z ex) (w : echo_app) : echo_app :=
  AppWorld (connections w) (f (exs w)) (next w) (ab w) (net w) (stop w) (stop_signal w) (janus_plugin w) (open_libs w) (task_log w).
Definition a_next (f : Z -> Z) (w : echo_app) : echo_app :=
  AppWorld (connections w) (exs w) (f (next w)) (ab w) (net w) (stop w) (stop_signal w) (janus_plugin w) (open_libs w) (task_log w).
Definition a_ab (f : Z -> Z) (w : echo_app) : echo_app :=
  AppWorld (connections w) (exs w) (next w) (f (ab w)) (net w) (stop w) (stop_signal w) (janus_plugin w) (open_libs w) (task_log w).
Definition a_net (f : list net_event -> list net_event) (w : echo_app) : echo_app :=
  AppWorld (connections w) (exs w) (next w) (ab w) (f (net w)) (stop w) (stop_signal w) (janus_plugin w) (open_libs w) (task_log w).
Definition a_stop (f : Z -> Z) (w : echo_app) : echo_app :=
  AppWorld (connections w) (exs w) (next w) (ab w) (net w) (f (stop w)) (stop_signal w) (janus_plugin w) (open_libs w) (task_log w).
Definition a_stop_signal (f : Z -> Z) (w : echo_app) : echo_app :=
  AppWorld (connections w) (exs w) (next w) (ab w) (net w) (stop w) (f (stop_signal w)) (janus_plugin w) (open_libs w) (task_log w).
Definition a_janus_plugin (f : option nat -> option nat) (w : echo_app) : echo_app :=
  AppWorld (connections w) (exs w) (next w) (ab w) (net w) (stop w) (stop_signal w) (f (janus_plugin w)) (open_libs w) (task_log w).
Definition a_open_libs (f : gmap nat library -> gmap nat library) (w : echo_app) : echo_app :=
  AppWorld (connections w) (exs w) (next w) (ab w) (net w) (stop w) (stop_signal w) (janus_plugin w) (f (open_libs w)) (task_log w).
Definition a_task_log (f : list task_event -> list task_event) (w : echo_app) : echo_app :=
  AppWorld (connections w) (exs w) (next w) (ab w) (net w) (stop w) (stop_signal w) (janus_plugin w) (open_libs w) (f (task_log w)).

(** The address of the literal "alice". *)
Definition ALICE : Z := -1.
Definition WEBSOCKET_OP_TEXT : Z := 1.

(** The bytes of a string, and of one with its terminator. *)
Definition chars (s : string) : list Z := (fun c => Z.of_nat (Ascii.nat_of_ascii c)) <$> String.list_ascii_of_string s.

Section Code.
Context {B J : Type} `{KoreBuf B} `{KoreNet} `{Jansson J}.
Context (WEBSOCKET_BROADCAST_GLOBAL : Z).
Abbreviation m := (M echo_app).

Definition find_conn (c : nat) : m connection :=
  cs ← gets connections; live (list_find (fun x => c_id x = c) cs ≫= fun p => Some p.2).
(** [c->hdlr_extra = p] *)
Definition set_extra (c : nat) (p : Z) : m unit :=
  find_conn c;;
  modify (a_connections (fmap (fun x => if decide (c_id x = c) then Build_connection c p (c_proto x) else x))).
Definition get_ex (p : Z) : m ex :=
  if (p =? 0)%Z then crash NullDeref else (h ← gets exs; live (h !! p)).
Definition net_out (es : list net_event) : m unit := modify (a_net (fun l => l ++ es)).

(** *** Websockets *)

(** [kore_malloc(0)] ends the process. *)
Definition websocket_connect (c : nat) : m unit :=
  modify (a_ab (fun n => n + 1)%Z);;
  l ← gets next;
  n ← gets ab;
  modify (a_next (fun a => a + 1)%Z);;
  modify (a_exs <[l := Ex n 46]>);;
  set_extra c l;;
  match json_dumps (json_object [("type", json_string "user_id"); ("msg", json_string "Hallo jason!");
      ("id", json_integer n); ("b", json_integer 46)]) with
  | None => crash (Fatal "kore_malloc(): zero size")
  | Some buf => net_out [WebsocketSend c 1 (chars buf)]
  end.

Definition websocket_message (c : nat) (op : Z) (data : option (list Z)) : m unit :=
  match data with
  | None => mret tt
  | Some data =>
      v ← find_conn c;
      get_ex (hdlr_extra v);;
      cs ← gets connections;
      net_out (kore_websocket_broadcast_room (B := B) WEBSOCKET_BROADCAST_GLOBAL cs v op data (Z.of_nat (length data)) 1)
  end.

Definition websocket_disconnect (c : nat) : m unit :=
  v ← find_conn c;
  get_ex (hdlr_extra v);;
  modify (a_ab (fun n => n - 1)%Z);;
  modify (a_exs (delete (hdlr_extra v)));;
  set_extra c 0.

(** What kore does around them: a connection is upgraded, and removed after it is closed. *)
Definition upgrade (c : nat) : m unit :=
  modify (a_connections (fun l => l ++ [Build_connection c 0 CONN_PROTO_WEBSOCKET]));; websocket_connect c.
Definition closed (c : nat) : m unit :=
  websocket_disconnect c;; modify (a_connections (filter (fun x => c_id x <> c))).

(** The plug-in's callback. *)
Definition j_plugin_push_event (plugin : option unit) (transaction : string) : m Z :=
  match plugin with
  | None => mret (-1)%Z
  | Some _ =>
      cs ← gets connections;
      net_out (kore_websocket_broadcast_room_char (B := B) WEBSOCKET_BROADCAST_GLOBAL cs ALICE WEBSOCKET_OP_TEXT
        (chars "papa" ++ [0%Z]) 5 WEBSOCKET_BROADCAST_GLOBAL);;
      net_out (kore_websocket_broadcast_room_char (B := B) WEBSOCKET_BROADCAST_GLOBAL cs ALICE WEBSOCKET_OP_TEXT
        (chars transaction) (Z.of_nat (length (chars transaction))) WEBSOCKET_BROADCAST_GLOBAL);;
      mret 0%Z
  end.

(** *** The task *)

Definition j_handle_signal (signum : Z) : m unit :=
  modify (a_stop_signal (fun _ => signum));;
  modify (a_stop (fun n => n + 1)%Z);;
  n ← gets stop;
  if (2 <? n)%Z then crash (Fatal "exit") else mret tt.

Definition note (e : task_event) : m unit := modify (a_task_log (cons e)).

(** [strcasecmp(name + len - 3, ".so")], of a name of four characters or more. *)
Definition is_library (name : string) : bool :=
  (4 <=? String.length name) && Janus.strcasecmp_eq (String.substring (String.length name - 3) 3 name) ".so".

(** The body of [while((pluginent = readdir(dir)))]; [i] counts the entries. *)
Definition load_entry (i : nat) (e : entry) : m unit :=
  if negb (is_library e.1) then mret tt
  else
    match e.2 with
    | None => mret tt
    | Some lib =>
        modify (a_open_libs <[i := lib]>);;
        note (Loaded i);;
        if negb (has_create lib) then mret tt
        else
          modify (a_janus_plugin (fun _ => if creates lib then Some i else None));;
          if negb (creates lib) then mret tt
          else if negb (has_init lib && has_destroy lib && has_handle lib) then mret tt
          else
            note (PluginInit i);;
            if init_fails lib then modify (a_open_libs (delete i));; note (Unloaded i) else mret tt
    end.

Fixpoint load_entries (i : nat) (es : list entry) : m unit :=
  match es with [] => mret tt | e :: es => load_entry i e;; load_entries (S i) es end.

(** [while(!g_atomic_int_get(&stop)) usleep(250000);]: the signals of each sleep. *)
Fixpoint wait_stop (sleeps : list (list Z)) : m unit :=
  n ← gets stop;
  if negb (n =? 0)%Z then mret tt
  else match sleeps with
       | [] => crash Fuel
       | ss :: sleeps => foldr (fun s k => j_handle_signal s;; k) (mret tt) ss;; wait_stop sleeps
       end.

(** [janus_plugin->destroy()] *)
Definition destroy_plugin : m unit :=
  p ← gets janus_plugin;
  match p with
  | None => mret tt
  | Some i =>
      libs ← gets open_libs;
      lib ← live (libs !! i);
      if negb (has_destroy lib) then crash NullDeref else note (PluginDestroy i)
  end.

(** [thread]: the watchdog's thread was made.  [dir]: the entries of the plug-ins' folder. *)
Definition rtc_loop (thread : bool) (dir : option (list entry)) (sleeps : list (list Z)) : m unit :=
  if negb thread then mret tt
  else
    match dir with
    | None => crash (Fatal "exit")
    | Some es =>
        load_entries 0 es;;
        wait_stop sleeps;;
        note WatchdogEnd;;
        destroy_plugin
    end.
End Code.

(** ** Rooms *)

Section Rooms.
Context {B J : Type} `{KoreBuf B} `{KoreNet} `{Jansson J}.
Context (glob : Z).
Context (Hdumps : forall j : J, is_Some (json_dumps j)).
Implicit Types w : echo_app.

(** Every connection has a room of its own, which is allocated. *)
Record rooms_ok w : Prop := RoomsOk {
  ro_ids : NoDup (c_id <$> connections w);
  ro_own : NoDup (hdlr_extra <$> connections w);
  ro_live : forall c, c ∈ connections w -> c_proto c = CONN_PROTO_WEBSOCKET /\ (0 < hdlr_extra c < next w)%Z /\ is_Some (exs w !! hdlr_extra c);
  ro_next : (0 < next w)%Z
}.

(** What happens to the worker. *)
Inductive astep w : echo_app -> Prop :=
| a_upgrade c w' : c ∉ c_id <$> connections w -> upgrade (J := J) c w = Done (tt, w') -> astep w w'
| a_message c op data w' : websocket_message (B := B) glob c op data w = Done (tt, w') -> astep w w'
| a_closed c w' : closed c w = Done (tt, w') -> astep w w'
| a_push p t rc w' : j_plugin_push_event (B := B) glob p t w = Done (rc, w') -> astep w w'
| a_signal s w' : j_handle_signal s w = Done (tt, w') -> astep w w'.

Definition initial_app : echo_app := AppWorld [] ∅ 1 0 [] 0 0 None ∅ [].
Definition reachable : echo_app -> Prop := rtc astep initial_app.

Lemma find_conn_run c v w :
  NoDup (c_id <$> connections w) -> v ∈ connections w -> c_id v = c -> find_conn c w = Done (v, w).
Proof.
  intros Hnd Hin Hc. unfold find_conn. run eq_refl.
  destruct (list_find_elem_of (fun x => c_id x = c) (connections w) v Hin Hc) as [[i x] Hf]. rewrite Hf. cbn.
  apply list_find_Some in Hf as (Hx & Hxc & _). apply list_elem_of_lookup in Hin as [j Hj].
  assert (i = j) as ->; [|by rewrite Hj in Hx; injection Hx as ->].
  eapply (NoDup_lookup _ i j c Hnd); rewrite list_lookup_fmap; [by rewrite Hx; cbn; f_equal|by rewrite Hj; cbn; f_equal].
Qed.
Lemma find_conn_in c v w : find_conn c w = Done (v, w) -> v ∈ connections w /\ c_id v = c.
Proof.
  unfold find_conn. run eq_refl. destruct (list_find _ _) as [[i x]|] eqn:Hf; [|done]. cbn. intros [= ->].
  apply list_find_Some in Hf as (Hx & Hxc & _). split; [by eapply list_elem_of_lookup_2|done].
Qed.
Lemma find_conn_state c v w w' : find_conn c w = Done (v, w') -> w' = w.
Proof. unfold find_conn. run eq_refl. destruct (list_find _ _) as [[i x]|]; [|done]. by intros [= _ ->]. Qed.
Lemma get_ex_state p v w w' : get_ex p w = Done (v, w') -> w' = w /\ exs w !! p = Some v.
Proof.
  unfold get_ex. destruct (p =? 0)%Z; [done|]. run eq_refl. destruct (exs w !! p); [|done]. by intros [= -> ->].
Qed.

(** The room of connection [c] becomes [p]. *)
Definition moved (c : nat) (p : Z) (x : connection) : connection :=
  if decide (c_id x = c) then Build_connection c p (c_proto x) else x.
Lemma moved_ids c p (l : list connection) : c_id <$> (moved c p <$> l) = c_id <$> l.
Proof. rewrite <- list_fmap_compose. apply list_fmap_ext. intros i x _. unfold moved, compose. by case_decide. Qed.
Lemma moved_other c p (l : list connection) : c ∉ c_id <$> l -> moved c p <$> l = l.
Proof.
  intros Hc. rewrite <- (list_fmap_id l) at 2. apply list_fmap_ext. intros i x Hx. unfold moved.
  rewrite decide_False; [done|]. intros <-. apply Hc. apply list_elem_of_fmap_2. by eapply list_elem_of_lookup_2.
Qed.

Lemma upgrade_run c w :
  c ∉ c_id <$> connections w -> exists buf,
  upgrade (J := J) c w = Done (tt, a_net (fun l => l ++ [WebsocketSend c 1 buf])
    (a_connections (fun l => l ++ [Build_connection c (next w) CONN_PROTO_WEBSOCKET])
      (a_exs <[next w := Ex (ab w + 1) 46]> (a_next (fun a => a + 1)%Z (a_ab (fun n => n + 1)%Z w))))).
Proof.
  intros Hc. unfold upgrade, websocket_connect, set_extra.
  destruct (Hdumps (json_object [("type", json_string "user_id"); ("msg", json_string "Hallo jason!");
      ("id", json_integer (ab w + 1)); ("b", json_integer 46)])) as [buf Hb].
  exists (chars buf). do 6 run eq_refl. rewrite bind_assoc.
  erewrite bind_step; [|unfold find_conn; run eq_refl; cbn; rewrite list_find_app_r; [|apply list_find_None, Forall_forall;
    intros x Hx Hxc; apply Hc; rewrite <- Hxc; by apply list_elem_of_fmap_2]; cbn; rewrite decide_True by done; cbn; done].
  run eq_refl. cbn [ab a_ab a_connections a_exs a_next]. rewrite Hb. unfold net_out, modify. f_equal. f_equal.
  unfold a_net, a_connections, a_exs, a_next, a_ab. cbn. f_equal.
  rewrite fmap_app. f_equal; [by apply moved_other|]. cbn. by rewrite decide_True.
Qed.

Lemma closed_run c w w' :
  closed c w = Done (tt, w') -> exists v, v ∈ connections w /\ c_id v = c /\
    connections w' = filter (fun x => c_id x <> c) (connections w) /\ exs w' = delete (hdlr_extra v) (exs w) /\ next w' = next w.
Proof.
  unfold closed, websocket_disconnect, set_extra. intros Hrun.
  apply bind_Done in Hrun as ([] & w1 & Hq1 & [= <-]). apply bind_Done in Hq1 as (v & w2 & Hf & Hq1).
  pose proof (find_conn_state _ _ _ _ Hf) as ->. apply find_conn_in in Hf as [Hin Hid].
  apply bind_Done in Hq1 as (e & w3 & He & Hq1). apply get_ex_state in He as [-> He].
  apply bind_Done in Hq1 as ([] & w4 & [= <-] & Hq1). apply bind_Done in Hq1 as ([] & w5 & [= <-] & Hq1).
  apply bind_Done in Hq1 as (v2 & w6 & Hf2 & [= <-]). apply find_conn_state in Hf2 as ->.
  exists v. split_and!; try done. cbn [connections a_connections a_exs a_ab].
  fold (moved c 0 <$> connections w). clear. induction (connections w) as [|x l IH]; [done|]. rewrite fmap_cons, !filter_cons, IH.
  unfold moved. destruct (decide (c_id x = c)) as [Hx|Hx]; [|by rewrite !decide_True].
  rewrite !decide_False; [done|by intros []|by intros []].
Qed.

Lemma quiet_step w w' : rooms_ok w -> connections w' = connections w -> exs w' = exs w -> next w' = next w -> rooms_ok w'.
Proof. intros [Hq1 Hq2 Hq3 Hq4] Hc He Hn. split; rewrite ?Hc, ?He, ?Hn; done. Qed.

Lemma rooms_step w w' : rooms_ok w -> astep w w' -> rooms_ok w'.
Proof.
  intros Hok Hst. pose proof Hok as [Hids Hown Hlive Hnext]. inversion Hst as [c w1 Hc Hrun|c op data w1 Hrun|c w1 Hrun|p t rc w1 Hrun|s w1 Hrun]; subst.
  - destruct (upgrade_run c w Hc) as [buf Hr]. rewrite Hrun in Hr. injection Hr as ->. split; cbn.
    + rewrite fmap_app. apply NoDup_app. split_and!; [done| |apply NoDup_singleton]. intros x Hx Hx'. apply list_elem_of_singleton in Hx'. cbn in Hx'. by subst.
    + rewrite fmap_app. apply NoDup_app. split_and!; [done| |apply NoDup_singleton]. intros x (y & -> & Hy)%list_elem_of_fmap Hx'.
      apply list_elem_of_singleton in Hx'. cbn in Hx'. destruct (Hlive y Hy) as (_ & ? & _). lia.
    + intros x [Hx|Hx]%elem_of_app.
      * destruct (Hlive x Hx) as (? & ? & ?). split_and!; [done|lia|lia|]. rewrite lookup_insert_ne by lia. done.
      * apply list_elem_of_singleton in Hx as ->. cbn. split_and!; [done|lia|lia|]. by rewrite lookup_insert_eq.
    + lia.
  - unfold websocket_message in Hrun. destruct data as [data|]; [|by injection Hrun as <-].
    apply bind_Done in Hrun as (v & w2 & Hf & Hrun). apply find_conn_state in Hf as ->.
    apply bind_Done in Hrun as (e & w3 & He & Hrun). apply get_ex_state in He as [-> _].
    apply bind_Done in Hrun as (cs & w4 & [= <- <-] & [= <-]). by apply (quiet_step w).
  - apply closed_run in Hrun as (v & Hv & Hvc & Hcs & Hes & Hnx). split; rewrite ?Hcs, ?Hes, ?Hnx; [..|done].
    + by eapply sublist_NoDup; [|apply fmap_sublist, sublist_filter].
    + by eapply sublist_NoDup; [|apply fmap_sublist, sublist_filter].
    + intros x [Hxc Hx]%list_elem_of_filter. destruct (Hlive x Hx) as (? & ? & ?). split_and!; try done; try lia.
      rewrite lookup_delete_ne; [done|]. intros Heq. apply Hxc. rewrite <- Hvc. f_equal.
      apply list_elem_of_lookup in Hx as [i Hi]. apply list_elem_of_lookup in Hv as [j Hj].
      assert (i = j) as ->; [|congruence].
      eapply (NoDup_lookup _ i j (hdlr_extra x) Hown); rewrite list_lookup_fmap; [by rewrite Hi|rewrite Hj; cbn; by f_equal].
  - unfold j_plugin_push_event in Hrun. destruct p; [|by injection Hrun as <- <-].
    apply bind_Done in Hrun as (cs & w4 & [= <- <-] & Hrun). apply bind_Done in Hrun as ([] & w5 & [= <-] & Hrun).
    apply bind_Done in Hrun as ([] & w6 & [= <-] & [= _ <-]). by apply (quiet_step w).
  - unfold j_handle_signal in Hrun. apply bind_Done in Hrun as ([] & w4 & [= <-] & Hrun). apply bind_Done in Hrun as ([] & w5 & [= <-] & Hrun).
    apply bind_Done in Hrun as (n & w6 & [= <- <-] & Hrun). destruct (2 <? _)%Z; [done|]. injection Hrun as <-. by apply (quiet_step w).
Qed.

Lemma rooms_reachable w : reachable w -> rooms_ok w.
Proof.
  intros Hr. unfold reachable in Hr. remember initial_app as w0 eqn:Hw0. assert (rooms_ok w0) as Hok.
  { subst. split; cbn; [constructor|constructor|by intros c ?%not_elem_of_nil|done]. }
  clear Hw0. induction Hr as [|w1 w2 w3 Hs _ IH]; [done|]. apply IH. by eapply rooms_step.
Qed.

Lemma foreach_nobody sel frame l : (forall c, c ∈ l -> sel c = false) -> foreach_send sel frame l = [].
Proof.
  induction l as [|c l IH]; intros Hs; [done|]. cbn. rewrite Hs by by left. apply IH. intros x Hx. apply Hs. by right.
Qed.
Lemma foreach_one sel frame l v :
  NoDup l -> v ∈ l -> sel v = true -> (forall c, c ∈ l -> sel c = true -> c = v) ->
  foreach_send sel frame l = [NetSendQueue (c_id v) frame; NetSendFlush (c_id v)].
Proof.
  induction l as [|c l IH]; intros Hnd Hin Hv Hone; [by apply not_elem_of_nil in Hin|]. apply NoDup_cons in Hnd as [Hc Hnd]. cbn.
  destruct (sel c) eqn:Hs.
  - assert (c = v) as -> by (apply Hone; [by left|done]). rewrite foreach_nobody; [done|].
    intros x Hx. destruct (sel x) eqn:Hsx; [|done]. exfalso. apply Hc. rewrite <- (Hone x); [done|by right|done].
  - apply elem_of_cons in Hin as [->|Hin]; [congruence|]. apply IH; try done. intros x Hx. apply Hone. by right.
Qed.


(** What the plug-in pushes goes to no connection of the worker: nobody's room is the literal. *)
Theorem push_reaches_nobody w t :
  reachable w -> exists w' f1 f2,
  j_plugin_push_event (B := B) glob (Some tt) t w = Done (0%Z, w') /\ net w' = net w ++ [KoreMsgSend f1; KoreMsgSend f2].
Proof.
  intros Hr. destruct (rooms_reachable w Hr) as [_ _ Hlive _].
  assert (Hnone : forall frame, foreach_send (same_room ALICE) frame (connections w) = []).
  { intros frame. apply foreach_nobody. intros c Hc. unfold same_room. destruct (Hlive c Hc) as (_ & Hpos & _).
    destruct (Z.eqb_spec (hdlr_extra c) ALICE); [unfold ALICE in *; lia|done]. }
  unfold j_plugin_push_event. run eq_refl. run eq_refl. run eq_refl. do 3 eexists. split; [done|]. cbn.
  unfold kore_websocket_broadcast_room_char, broadcast_global. rewrite !Hnone, Z.eqb_refl. by rewrite <- app_assoc.
Qed.
End Rooms.

(** ** The task *)

Section Task.
Implicit Types w : echo_app.

(** A library that has all it should and starts. *)
Definition sound (l : library) : bool :=
  has_create l && creates l && has_init l && has_destroy l && has_handle l && negb (init_fails l).
Definition good (e : entry) : bool := match e.2 with Some l => sound l | None => false end.

(** The libraries of the folder, by their place. *)
Fixpoint libraries (i : nat) (es : list entry) : list nat :=
  match es with [] => [] | e :: es => (if is_library e.1 then [i] else []) ++ libraries (S i) es end.

Lemma is_closed_run (es : list entry) : forall i w,
  Forall (fun e => is_library e.1 = true -> good e = true) es ->
  (forall p, janus_plugin w = Some p -> exists l, open_libs w !! p = Some l /\ has_destroy l = true) ->
  exists w', load_entries i es w = Done (tt, w') /\ stop w' = stop w /\
    task_log w' = rev (libraries i es ≫= fun p => [Loaded p; PluginInit p]) ++ task_log w /\
    janus_plugin w' = default (janus_plugin w) (Some <$> last (libraries i es)) /\
    (forall p, janus_plugin w' = Some p -> exists l, open_libs w' !! p = Some l /\ has_destroy l = true).
Proof.
  induction es as [|[name o] es IH]; intros i w Hgood Hp; cbn [load_entries libraries]; [by exists w|].
  apply Forall_cons in Hgood as [Hg Hgood]. unfold load_entry. cbn [fst snd] in *.
  destruct (is_library name) eqn:Hn; cbn [negb].
  - specialize (Hg eq_refl). unfold good, sound in Hg. cbn in Hg. destruct o as [l|]; [|done].
    rewrite !andb_true_iff, negb_true_iff in Hg. destruct Hg as (((((Hc & Hcr) & Hi) & Hd) & Hh) & Hf).
    rewrite Hc, Hcr, Hi, Hd, Hh, Hf. cbn [negb andb]. run eq_refl.
    set (w1 := a_task_log (cons (PluginInit i)) (a_janus_plugin (fun _ => Some i) (a_task_log (cons (Loaded i)) (a_open_libs <[i := l]> w)))).
    destruct (IH (S i) w1) as (w2 & Hrun & Hs & Hlog & Hj & Ho); [done| |].
    + cbn. intros p [= <-]. exists l. by rewrite lookup_insert_eq.
    + exists w2. split; [exact Hrun|]. split_and!; [done| | |done].
      * rewrite Hlog. cbn. by rewrite <- !app_assoc.
      * rewrite Hj. change ([i] ++ libraries (S i) es) with (i :: libraries (S i) es). rewrite last_cons. cbn. by destruct (last _).
  - run eq_refl. destruct (IH (S i) w) as (w2 & Hrun & Hrest); [done|done|]. by exists w2.
Qed.

Lemma wait_stop_ok sleeps w : (0 < stop w)%Z -> wait_stop sleeps w = Done (tt, w).
Proof. intros Hs. destruct sleeps; unfold wait_stop; run eq_refl; by destruct (Z.eqb_spec (stop w) 0); [lia|]. Qed.
Lemma wait_stop_quiet n s sleeps w :
  stop w = 0%Z -> wait_stop (replicate n [] ++ [s] :: sleeps) w = Done (tt, a_stop (fun n => n + 1)%Z (a_stop_signal (fun _ => s) w)).
Proof.
  intros Hs. induction n as [|n IH]; cbn [replicate app wait_stop]; run eq_refl; rewrite Hs; cbn [Z.eqb negb foldr].
  - assert (Hsig : j_handle_signal s w = Done (tt, a_stop (fun n => n + 1)%Z (a_stop_signal (fun _ => s) w))).
    { unfold j_handle_signal. run eq_refl. run eq_refl. run eq_refl. cbn [stop a_stop a_stop_signal]. by rewrite Hs. }
    rewrite bind_assoc. run Hsig. rewrite ret_bind. apply wait_stop_ok. cbn. lia.
  - rewrite ret_bind. apply IH.
Qed.

(** Sound plug-ins are all loaded and initialised, in the folder's order; when the signal
    comes the watchdog's thread is ended, and of the plug-ins the last one, and no other, is
    told to go. *)
Theorem task_life es n s sleeps w :
  stop w = 0%Z -> janus_plugin w = None -> Forall (fun e => is_library e.1 = true -> good e = true) es -> exists w',
  rtc_loop true (Some es) (replicate n [] ++ [s] :: sleeps) w = Done (tt, w') /\
  task_log w' = match last (libraries 0 es) with Some p => [PluginDestroy p] | None => [] end ++
    WatchdogEnd :: rev (libraries 0 es ≫= fun p => [Loaded p; PluginInit p]) ++ task_log w.
Proof.
  intros Hs Hj Hg. unfold rtc_loop. cbn [negb].
  destruct (is_closed_run es 0 w Hg) as (w1 & Hrun & Hs1 & Hlog & Hj1 & Ho); [by rewrite Hj|]. run Hrun.
  rewrite Hs in Hs1. run (wait_stop_quiet n s sleeps w1 Hs1). run eq_refl. unfold destroy_plugin. run eq_refl.
  cbn [janus_plugin a_task_log a_stop a_stop_signal]. rewrite Hj1, Hj. destruct (last (libraries 0 es)) as [p|] eqn:Hl; cbn.
  - destruct (Ho p) as (l & Hlib & Hd); [by rewrite Hj1, Hj|]. run eq_refl. cbn [open_libs a_task_log a_stop a_stop_signal].
    rewrite Hlib. erewrite bind_step; [|done]. rewrite Hd. cbn [negb]. eexists. split; [done|]. cbn. by rewrite Hlog.
  - eexists. split; [done|]. cbn. by rewrite Hlog.
Qed.

(** A plug-in that could not be initialised is unloaded and stays the one that is told to go:
    its code is called when it is no longer there. *)
Theorem unloaded_plugin_is_called es name l n s sleeps w :
  stop w = 0%Z -> janus_plugin w = None -> Forall (fun e => is_library e.1 = true -> good e = true) es ->
  is_library name = true -> init_fails l = true -> has_create l && creates l && has_init l && has_destroy l && has_handle l = true ->
  rtc_loop true (Some (es ++ [(name, Some l)])) (replicate n [] ++ [s] :: sleeps) w = Crash UseAfterFree.
Proof.
  intros Hs Hj Hg Hn Hf Hl. rewrite !andb_true_iff in Hl. destruct Hl as ((((Hc & Hcr) & Hi) & Hd) & Hh).
  unfold rtc_loop. cbn [negb].
  destruct (is_closed_run es 0 w Hg) as (w1 & Hrun & Hs1 & Hlog & Hj1 & Ho); [by rewrite Hj|].
  assert (Happ : forall es' i w0 w2, load_entries i es' w0 = Done (tt, w2) ->
    load_entries i (es' ++ [(name, Some l)]) w0 = load_entries (i + length es') [(name, Some l)] w2).
  { intros es'. induction es' as [|e es' IH]; intros i w0 w2 Hrun'; [injection Hrun' as ->; by rewrite Nat.add_0_r|].
    cbn [load_entries app] in *. apply bind_Done in Hrun' as ([] & w3 & H1 & H2). run H1. rewrite (IH _ _ _ H2).
    cbn [length]. by rewrite Nat.add_succ_r. }
  set (p := 0 + length es).
  assert (Hlast : load_entries p [(name, Some l)] w1 = Done (tt, a_task_log (cons (Unloaded p)) (a_open_libs (delete p)
    (a_task_log (cons (PluginInit p)) (a_janus_plugin (fun _ => Some p) (a_task_log (cons (Loaded p)) (a_open_libs <[p := l]> w1))))))).
  { cbn [load_entries]. unfold load_entry. cbn [fst snd]. rewrite Hn, Hc, Hcr, Hi, Hd, Hh, Hf. done. }
  assert (Hall : load_entries 0 (es ++ [(name, Some l)]) w = load_entries p [(name, Some l)] w1) by exact (Happ _ _ _ _ Hrun).
  rewrite Hlast in Hall. run Hall.
  erewrite bind_step; [|apply wait_stop_quiet; cbn; congruence]. run eq_refl. unfold destroy_plugin. run eq_refl.
  cbn [janus_plugin a_janus_plugin a_task_log a_stop a_stop_signal a_open_libs]. run eq_refl.
  cbn [open_libs a_janus_plugin a_task_log a_stop a_stop_signal a_open_libs]. by rewrite lookup_delete_eq.
Qed.
End Task.

(** ** Concrete runs *)

#[local] Existing Instance koreBufBytes.
#[local] Existing Instance koreNetBE.
#[local] Existing Instance janssonTree.

(** Two clients come, the first goes, a third comes: it gets the second one's id, since the
    counter also counts down. *)
Example ids_collide :
  match (upgrade (J := json) 1;; upgrade (J := json) 2;; closed 1;; upgrade (J := json) 3) initial_app with
  | Done (_, w) => ex_id <$> (omap (fun c => exs w !! hdlr_extra c) (connections w)) = [2; 2]%Z
  | Crash _ => False
  end.
Proof. vm_compute. reflexivity. Qed.

Definition two_clients : echo_app :=
  default initial_app (result_state ((upgrade (J := json) 1;; upgrade (J := json) 2) initial_app)).
Lemma two_clients_reachable : reachable (B := list Z) (J := json) 2 two_clients.
Proof.
  eapply rtc_l; [apply (a_upgrade 2 _ 1); [by apply not_elem_of_nil|vm_compute; reflexivity]|].
  eapply rtc_l; [apply (a_upgrade 2 _ 2); [|vm_compute; reflexivity]|vm_compute; apply rtc_refl].
  cbn. intros Hin. apply list_elem_of_singleton in Hin. done.
Qed.


Definition a_library : library := Library true true true true true false.
Definition bad_library : library := Library true true true true true true.

Lemma task_life_witness : exists w',
  rtc_loop true (Some [("libecho.so", Some a_library); ("README", None); ("libtwo.so", Some a_library)]) [[]; [2%Z]] initial_app = Done (tt, w') /\
  task_log w' = [PluginDestroy 2; WatchdogEnd; PluginInit 2; Loaded 2; PluginInit 0; Loaded 0].
Proof.
  apply (task_life [("libecho.so", Some a_library); ("README", None); ("libtwo.so", Some a_library)] 1 2 [] initial_app);
    [done|done|repeat constructor; intros; vm_compute in *; done].
Defined.

Lemma unloaded_plugin_is_called_witness :
  rtc_loop true (Some ([("libecho.so", Some a_library)] ++ [("libtwo.so", Some bad_library)])) [[2%Z]] initial_app = Crash UseAfterFree.
Proof.
  apply (unloaded_plugin_is_called [("libecho.so", Some a_library)] "libtwo.so" bad_library 0 2 [] initial_app);
    try done; repeat constructor; done.
Defined.
End App.
