(* ===== verification/RoomPlugin.v ===== *)
(** * The echo plug-in: websocket_9/plugin/echo.c, plugin.c

    Callers put messages into a queue, and the plug-in's thread answers each with the same
    text through [push_event].  The thread and the callers run at the same time: a step is what
    happens between two operations on what they share.  A caller that has passed the test of
    the two flags puts its message into the queue later.  GLib's queue of null is an error
    that is only logged. *)

From S2P Require Import Prelude.

Local Open Scope c_scope.

Module Plugin.

(** ** Data *)

(** The thread: before the test of the loop and before the pop, with its variable [msg]. *)
Inductive thread : Type := TNone | TCheck (msg : option loc) | TPop (msg : option loc) | TEnded.

Inductive plugin_res : Type := J_PLUGIN_ERROR (text : string) | J_PLUGIN_OK_WAIT (text : string).

Record plugin : Type := PluginWorld {
  initialized : bool;
  stopping : bool;
  gw : bool;  (* the callbacks are set *)
  messages : option (list (option loc));  (* a null entry is [exit_message] *)
  heap : gmap loc (option string);  (* the messages, with their transaction *)
  next : loc;
  thr : thread;
  handler_thread : bool;
  calling : list loc;  (* messages between the flags' test and the queue *)
  destroying : bool;  (* [plugin_destroy] waits for the thread *)
  pushed : list string;  (* what [gw->push_event] got *)
  results : list plugin_res  (* newest first *)
}.

Definition p_initialized (f : bool -> bool) (w : plugin) : plugin :=
  PluginWorld (f (initialized w)) (stopping w) (gw w) (messages w) (heap w) (next w) (thr w) (handler_thread w) (calling w) (destroying w) (pushed w) (results w).
Definition p_stopping (f : bool -> bool) (w : plugin) : plugin :=
  PluginWorld (initialized w) (f (stopping w)) (gw w) (messages w) (heap w) (next w) (thr w) (handler_thread w) (calling w) (destroying w) (pushed w) (results w).
Definition p_gw (f : bool -> bool) (w : plugin) : plugin :=
  PluginWorld (initialized w) (stopping w) (f (gw w)) (messages w) (heap w) (next w) (thr w) (handler_thread w) (calling w) (destroying w) (pushed w) (results w).
Definition p_messages (f : option (list (option loc)) -> option (list (option loc))) (w : plugin) : plugin :=
  PluginWorld (initialized w) (stopping w) (gw w) (f (messages w)) (heap w) (next w) (thr w) (handler_thread w) (calling w) (destroying w) (pushed w) (results w).
Definition p_heap (f : gmap loc (option string) -> gmap loc (option string)) (w : plugin) : plugin :=
  PluginWorld (initialized w) (stopping w) (gw w) (messages w) (f (heap w)) (next w) (thr w) (handler_thread w) (calling w) (destroying w) (pushed w) (results w).
Definition p_next (f : loc -> loc) (w : plugin) : plugin :=
  PluginWorld (initialized w) (stopping w) (gw w) (messages w) (heap w) (f (next w)) (thr w) (handler_thread w) (calling w) (destroying w) (pushed w) (results w).
Definition p_thr (f : thread -> thread) (w : plugin) : plugin :=
  PluginWorld (initialized w) (stopping w) (gw w) (messages w) (heap w) (next w) (f (thr w)) (handler_thread w) (calling w) (destroying w) (pushed w) (results w).
Definition p_handler_thread (f : bool -> bool) (w : plugin) : plugin :=
  PluginWorld (initialized w) (stopping w) (gw w) (messages w) (heap w) (next w) (thr w) (f (handler_thread w)) (calling w) (destroying w) (pushed w) (results w).
Definition p_calling (f : list loc -> list loc) (w : plugin) : plugin :=
  PluginWorld (initialized w) (stopping w) (gw w) (messages w) (heap w) (next w) (thr w) (handler_thread w) (f (calling w)) (destroying w) (pushed w) (results w).
Definition p_destroying (f : bool -> bool) (w : plugin) : plugin :=
  PluginWorld (initialized w) (stopping w) (gw w) (messages w) (heap w) (next w) (thr w) (handler_thread w) (calling w) (f (destroying w)) (pushed w) (results w).
Definition p_pushed (f : list string -> list string) (w : plugin) : plugin :=
  PluginWorld (initialized w) (stopping w) (gw w) (messages w) (heap w) (next w) (thr w) (handler_thread w) (calling w) (destroying w) (f (pushed w)) (results w).
Definition p_results (f : list plugin_res -> list plugin_res) (w : plugin) : plugin :=
  PluginWorld (initialized w) (stopping w) (gw w) (messages w) (heap w) (next w) (thr w) (handler_thread w) (calling w) (destroying w) (pushed w) (f (results w)).

Definition ANSWER : string := "FUCKER_Fucker_AS_ANSWER_FROM_ECHO_PLUGIN".

Abbreviation m := (M plugin).

(** [j_plugin_res_new] *)
Definition j_plugin_res_new (r : plugin_res) : m unit := modify (p_results (cons r)).

(** Of null and of [exit_message] nothing. *)
Definition plugin_message_free (msg : option loc) : m unit :=
  match msg with
  | None => mret tt
  | Some l => h ← gets heap; live (h !! l);; modify (p_heap (delete l))
  end.

Definition plugin_init (cbs thread_made : bool) : m Z :=
  s ← gets stopping;
  if (s : bool) then mret (-1)%Z
  else if negb cbs then mret (-1)%Z
  else
    modify (p_messages (fun _ => Some []));;
    modify (p_gw (fun _ => true));;
    modify (p_initialized (fun _ => true));;
    if negb thread_made then modify (p_initialized (fun _ => false));; mret (-1)%Z
    else modify (p_thr (fun _ => TCheck None));; modify (p_handler_thread (fun _ => true));; mret 0%Z.

(** [g_async_queue_push]; of a null queue it only complains. *)
Definition queue_push (i : option loc) : m unit := modify (p_messages (fmap (fun q => q ++ [i]))).

(** [plugin_handle_message], up to the push. *)
Definition handle_begin (transaction : option string) : m unit :=
  s ← gets stopping;
  i ← gets initialized;
  if (s || negb i)%bool then
    s ← gets stopping;
    j_plugin_res_new (J_PLUGIN_ERROR (if (s : bool) then "shutting down" else "plugin not initialized"))
  else
    l ← gets next;
    modify (p_next S);;
    modify (p_heap <[l := transaction]>);;
    modify (p_calling (fun c => c ++ [l])).
(** From the push on, of the caller with the message [l]. *)
Definition handle_end (l : loc) : m unit :=
  queue_push (Some l);;
  modify (p_calling (filter (fun x => x <> l)));;
  j_plugin_res_new (J_PLUGIN_OK_WAIT "i'm taking my time").
Definition plugin_handle_message (transaction : option string) : m unit :=
  n ← gets next;
  handle_begin transaction;;
  c ← gets calling;
  if bool_decide (n ∈ c) then handle_end n else mret tt.

(** [gw->push_event(&p_m, ...)] *)
Definition push_event (text : string) : m unit :=
  g ← gets gw;
  if (g : bool) then modify (p_pushed (fun l => l ++ [text])) else crash NullDeref.

(** A step of [plugin_handler]; [None]: it waits for the queue, or there is no thread. *)
Definition plugin_handler : m (option unit) :=
  t ← gets thr;
  match t with
  | TNone | TEnded => mret None
  | TCheck msg =>
      i ← gets initialized;
      s ← gets stopping;
      (if (i && negb s)%bool then modify (p_thr (fun _ => TPop msg))
       else plugin_message_free msg;; modify (p_thr (fun _ => TEnded)));;
      mret (Some tt)
  | TPop _ =>
      q ← gets messages;
      match q with
      | None => crash NullDeref
      | Some [] => mret None
      | Some (i :: q) =>
          modify (p_messages (fun _ => Some q));;
          (match i with
           | None => plugin_message_free None;; modify (p_thr (fun _ => TEnded))
           | Some l =>
               h ← gets heap;
               o ← live (h !! l);
               (match o with
                | None => plugin_message_free (Some l)
                | Some _ => push_event ANSWER
                end);;
               modify (p_thr (fun _ => TCheck (Some l)))
           end);;
          mret (Some tt)
      end
  end.

(** [plugin_destroy] up to the join, and behind it: [g_async_queue_unref] gives what is left to
    [plugin_message_free]. *)
Definition destroy_begin : m unit :=
  i ← gets initialized;
  if! i then
    (modify (p_stopping (fun _ => true));; queue_push None;; modify (p_destroying (fun _ => true))).
Fixpoint free_all (q : list (option loc)) : m unit :=
  match q with [] => mret tt | i :: q => plugin_message_free i;; free_all q end.
Definition destroy_end : m unit :=
  modify (p_handler_thread (fun _ => false));;
  q ← gets messages;
  free_all (default [] q);;
  modify (p_messages (fun _ => None));;
  modify (p_initialized (fun _ => false));;
  modify (p_stopping (fun _ => false));;
  modify (p_destroying (fun _ => false)).

(** All of it, when nothing else happens: the thread's steps until it has ended. *)
Fixpoint run_handler (fuel : nat) : m unit :=
  match fuel with
  | O => mret tt
  | S fuel => r ← plugin_handler; match r with Some _ => run_handler fuel | None => mret tt end
  end.
Definition plugin_destroy (fuel : nat) : m unit :=
  i ← gets initialized;
  if! i then (destroy_begin;; run_handler fuel;; destroy_end).

(** ** Steps *)

Implicit Types w : plugin.

(** The callers give a transaction; the plug-in is initialised when it has no thread. *)
Inductive pstep w : plugin -> Prop :=
| p_init w' : handler_thread w = false -> plugin_init true true w = Done (0%Z, w') -> pstep w w'
| p_call t w' : handle_begin (Some t) w = Done (tt, w') -> pstep w w'
| p_call_end l w' : l ∈ calling w -> handle_end l w = Done (tt, w') -> pstep w w'
| p_thread w' : plugin_handler w = Done (Some tt, w') -> pstep w w'
| p_destroy w' : destroying w = false -> destroy_begin w = Done (tt, w') -> pstep w w'
| p_joined w' : destroying w = true -> thr w = TEnded -> destroy_end w = Done (tt, w') -> pstep w w'.

Definition initial_plugin : plugin := PluginWorld false false false None ∅ 0 TNone false [] false [] [].
Definition reachable : plugin -> Prop := rtc pstep initial_plugin.

(** The messages in the queue, and the thread's. *)
Definition queued w : list loc := omap id (default [] (messages w)).
Definition thread_msg w : option loc := match thr w with TCheck o | TPop o => o | _ => None end.
Definition running w : Prop := match thr w with TCheck _ | TPop _ => True | _ => False end.
Definition waiting w : list loc := queued w ++ calling w.

Record plugin_ok w : Prop := PluginOk {
  po_nodup : NoDup (waiting w);
  po_waiting : forall l, l ∈ waiting w -> exists t, heap w !! l = Some (Some t);
  po_thread : forall l, thread_msg w = Some l -> is_Some (heap w !! l) /\ l ∉ waiting w;
  po_running : running w -> gw w = true /\ is_Some (messages w) /\ handler_thread w = true /\ initialized w = true;
  po_next : forall l, next w <= l -> heap w !! l = None;
  po_stop : destroying w = stopping w;
  po_queue : destroying w = true -> running w -> exists q, messages w = Some q /\ (None ∈ q \/ exists o, thr w = TCheck o);
  po_exit : destroying w = false -> None ∉ default [] (messages w)
}.

Lemma omap_snoc (q : list (option loc)) i : omap id (q ++ [i]) = omap id q ++ match i with Some l => [l] | None => [] end.
Proof. rewrite omap_app. by destruct i. Qed.

Lemma free_all_ok q : forall w,
  NoDup (omap id q) -> (forall l, l ∈ omap id q -> is_Some (heap w !! l)) ->
  exists h, free_all q w = Done (tt, p_heap (fun _ => h) w) /\ (forall l, l ∉ omap id q -> h !! l = heap w !! l).
Proof.
  induction q as [|[l|] q IH]; intros w Hnd Hl; cbn [free_all].
  - exists (heap w). split; [by destruct w|done].
  - change (omap id (Some l :: q)) with (l :: omap id q) in *. apply NoDup_cons in Hnd as [Hnl Hnd].
    destruct (Hl l) as [x Hx]; [by left|].
    assert (Hfree : plugin_message_free (Some l) w = Done (tt, p_heap (delete l) w)).
    { unfold plugin_message_free. run eq_refl. by rewrite Hx. }
    run Hfree. destruct (IH (p_heap (delete l) w)) as (h & Hrun & Hh); [done| |].
    + intros l' Hl'. cbn. rewrite lookup_delete_ne; [apply Hl; by right|]. by intros <-.
    + exists h. split; [exact Hrun|]. intros l' Hl'. apply not_elem_of_cons in Hl' as [Hne Hl'].
      rewrite Hh by done. cbn. by rewrite lookup_delete_ne.
  - destruct (IH w) as (h & Hrun & Hh); [done|done|]. exists h. split; [|done]. by run eq_refl.
Qed.

(** The thread's step never fails. *)
Lemma handler_ok w : plugin_ok w -> exists r w', plugin_handler w = Done (r, w') /\ plugin_ok w'.
Proof.
  intros Hok. pose proof Hok as [Hnd Hw Ht Hrun Hn Hst Hq He]. unfold plugin_handler. run eq_refl. destruct (thr w) as [|msg|msg|] eqn:Hthr.
  - by exists None, w.
  - assert (Hr : running w) by (unfold running; by rewrite Hthr). destruct (Hrun Hr) as (Hg & Hm & Hh & Hi).
    run eq_refl. run eq_refl. rewrite Hi. cbn [andb]. destruct (stopping w) eqn:Hs; cbn [negb].
    + destruct msg as [l|].
      * unfold thread_msg in Ht. rewrite Hthr in Ht. destruct (Ht l eq_refl) as [[x Hx] Hnw].
        exists (Some tt), (p_thr (fun _ => TEnded) (p_heap (delete l) w)). split.
        { unfold plugin_message_free. rewrite !bind_assoc. run eq_refl. rewrite Hx. done. }
        split; cbn; try done.
        -- intros l' Hl'. rewrite lookup_delete_ne; [by apply Hw|]. intros <-. by apply Hnw.
        -- intros l' Hl'. apply lookup_delete_None. right. by apply Hn.
        -- congruence.
      * exists (Some tt), (p_thr (fun _ => TEnded) w). split; [done|]. split; cbn; try done. congruence.
    + exists (Some tt), (p_thr (fun _ => TPop msg) w). split; [done|]. split; cbn; try done; try congruence.
      * unfold thread_msg in *. cbn. by rewrite Hthr in Ht.
  - assert (Hr : running w) by (unfold running; by rewrite Hthr). destruct (Hrun Hr) as (Hg & [q Hm] & Hh & Hi).
    run eq_refl. rewrite Hm. destruct q as [|i q]; [by exists None, w|]. run eq_refl.
    assert (Hqd : queued w = match i with Some l => [l] | None => [] end ++ omap id q).
    { unfold queued. rewrite Hm. by destruct i. }
    unfold waiting in *. rewrite Hqd in *. destruct i as [l|].
    + destruct (Hw l) as [t Hl]; [by left|]. cbn in Hnd. apply NoDup_cons in Hnd as [Hnl Hnd].
      exists (Some tt), (p_thr (fun _ => TCheck (Some l)) (p_pushed (fun p => p ++ [ANSWER]) (p_messages (fun _ => Some q) w))). split.
      { rewrite !bind_assoc. run eq_refl. cbn [heap p_messages]. rewrite Hl. rewrite bind_assoc. run eq_refl.
        unfold push_event. rewrite !bind_assoc. run eq_refl. cbn [gw p_messages]. rewrite Hg. done. }
      split; cbn; try done.
      * intros l' Hl'. apply Hw. by right.
      * intros l' [= <-]. split; [by rewrite Hl|done].
      * intros _ _. exists q. split; [done|]. right. by eexists.
      * intros Hd Hin. apply (He Hd). rewrite Hm. by right.
    + exists (Some tt), (p_thr (fun _ => TEnded) (p_messages (fun _ => Some q) w)). split; [done|]. split; cbn; try done.
      intros Hd Hin. apply (He Hd). rewrite Hm. by right.
  - by exists None, w.
Qed.

Lemma end_ok w : plugin_ok w -> thr w = TEnded -> exists w', destroy_end w = Done (tt, w') /\ plugin_ok w' /\
  initialized w' = false /\ stopping w' = false /\ messages w' = None /\ thr w' = TEnded /\
  (forall l, l ∉ queued w -> heap w' !! l = heap w !! l) /\ calling w' = calling w.
Proof.
  intros [Hnd Hw Ht Hrun Hn Hst Hq He] Hthr. unfold destroy_end. run eq_refl. run eq_refl.
  set (w1 := p_handler_thread (fun _ => false) w).
  unfold waiting in *. apply NoDup_app in Hnd as (Hndq & Hdis & Hndc).
  destruct (free_all_ok (default [] (messages w)) w1) as (h & Hfree & Hh); [done| |].
  { intros l Hl. destruct (Hw l) as [t Hx]; [apply elem_of_app; by left|]. exists (Some t). exact Hx. }
  run Hfree. eexists. split; [done|]. split_and!; try done. split; cbn; try done.
  - intros l Hl. rewrite Hh; [apply Hw, elem_of_app; by right|]. intros Hin. by apply (Hdis l).
  - unfold thread_msg. cbn. by rewrite Hthr.
  - unfold running. cbn. by rewrite Hthr.
  - intros l Hl. destruct (decide (l ∈ queued w)) as [Hin|Hin].
    + destruct (Hw l) as [t Hx]; [apply elem_of_app; by left|]. rewrite Hn in Hx by done. done.
    + rewrite Hh by done. by apply Hn.
  - intros _. apply not_elem_of_nil.
Qed.

Lemma pstep_ok w w' : plugin_ok w -> pstep w w' -> plugin_ok w'.
Proof.
  intros Hok Hst. pose proof Hok as [Hnd Hw Ht Hrun Hn Hs Hq He].
  inversion Hst as [w1 Hh Hr|t w1 Hr|l w1 Hl Hr|w1 Hr|w1 Hd Hr|w1 Hd Hthr Hr]; subst.
  - assert (Hnr : ~ running w) by (intros Hrn; destruct (Hrun Hrn) as (_ & _ & Hx & _); congruence).
    unfold plugin_init in Hr. apply bind_Done in Hr as (s & w2 & [= <- <-] & Hr). destruct (stopping w) eqn:Hsw; [done|].
    injection Hr as <-. split; cbn; try done.
    + unfold waiting in Hnd. by apply NoDup_app in Hnd as (_ & _ & Hc).
    + intros l Hl. apply Hw, elem_of_app. by right.
    + congruence.
    + intros _ _. exists []. split; [done|]. right. by eexists.
    + intros _. apply not_elem_of_nil.
  - unfold handle_begin in Hr. apply bind_Done in Hr as (s & w2 & [= <- <-] & Hr). apply bind_Done in Hr as (i & w2 & [= <- <-] & Hr).
    destruct (stopping w || negb (initialized w))%bool; [by injection Hr as <-|]. injection Hr as <-.
    assert (Hwait : forall w0, waiting (p_calling (fun c => c ++ [next w]) w0) = waiting w0 ++ [next w]) by (intros w0; unfold waiting; cbn; by rewrite app_assoc).
    assert (Hfr : next w ∉ waiting w) by (intros Hin; destruct (Hw _ Hin) as [x Hx]; rewrite Hn in Hx by done; done).
    split; rewrite ?Hwait; cbn; try done.
    + apply NoDup_app. split_and!; [done| |apply NoDup_singleton]. intros x Hx ->%list_elem_of_singleton. done.
    + intros l [Hl| ->%list_elem_of_singleton]%elem_of_app; [|rewrite lookup_insert_eq; by eexists].
      rewrite lookup_insert_ne; [by apply Hw|]. intros <-. by apply Hfr.
    + intros l Hl. destruct (Ht l Hl) as [[x Hx] Hnw]. assert (l <> next w) by (intros ->; rewrite Hn in Hx; done).
      rewrite lookup_insert_ne by done. split; [by rewrite Hx|]. intros [Hin|Hin%list_elem_of_singleton]%elem_of_app; done.
    + intros l Hl. rewrite lookup_insert_ne by lia. apply Hn. lia.
  - unfold handle_end, queue_push in Hr. injection Hr as <-.
    assert (Hin : l ∈ waiting w) by (apply elem_of_app; by right). unfold waiting in Hnd. apply NoDup_app in Hnd as (Hndq & Hdis & Hndc).
    set (wn := p_results _ _).
    assert (Hsub : forall x, x ∈ waiting wn -> x ∈ waiting w).
    { unfold waiting, queued. cbn. intros x [Hx|Hx]%elem_of_app; apply elem_of_app.
      - destruct (messages w) as [q|]; cbn in *; [|by apply not_elem_of_nil in Hx]. rewrite omap_snoc in Hx. apply elem_of_app in Hx as [Hx|Hx]; [by left|].
        apply list_elem_of_singleton in Hx as ->. by right.
      - right. by apply list_elem_of_filter in Hx as [_ Hx]. }
    split; try done.
    + unfold waiting, queued. cbn. apply NoDup_app. split_and!.
      * destruct (messages w) as [q|] eqn:Hm; cbn; [|constructor]. rewrite omap_snoc. unfold queued in *. rewrite Hm in *. cbn in *.
        apply NoDup_app. split_and!; [done| |apply NoDup_singleton]. intros x Hx ->%list_elem_of_singleton. by apply (Hdis l).
      * intros x Hx [Hne Hx']%list_elem_of_filter. destruct (messages w) as [q|] eqn:Hm; cbn in *; [|by apply not_elem_of_nil in Hx].
        rewrite omap_snoc in Hx. apply elem_of_app in Hx as [Hx|Hx%list_elem_of_singleton]; [|done]. apply (Hdis x); [|done].
        unfold queued. by rewrite Hm.
      * by apply NoDup_filter.
    + intros x Hx. by apply Hw, Hsub.
    + intros x Hx. destruct (Ht x Hx) as [Hx1 Hx2]. split; [done|]. intros Hin'. by apply Hx2, Hsub.
    + intros Hr. destruct (Hrun Hr) as (? & [q Hm] & ? & ?). cbn. rewrite Hm. by split_and!.
    + intros Hd Hr. destruct (Hq Hd Hr) as (q & Hm & Hor). cbn. rewrite Hm. eexists. split; [done|].
      destruct Hor as [Hor|Hor]; [left; apply elem_of_app; by left|by right].
    + intros Hd. specialize (He Hd). cbn. destruct (messages w) as [q|]; cbn in *; [|done].
      intros [Hx|Hx%list_elem_of_singleton]%elem_of_app; done.
  - destruct (handler_ok w Hok) as (r & w2 & Hr' & Hok'). rewrite Hr in Hr'. by injection Hr' as _ <-.
  - unfold destroy_begin in Hr. apply bind_Done in Hr as (i & w2 & [= <- <-] & Hr).
    destruct (initialized w) eqn:Hi; [|by injection Hr as <-]. injection Hr as <-. set (wn := p_destroying _ _).
    assert (Hwt : waiting wn = waiting w).
    { unfold waiting, queued. cbn. destruct (messages w) as [q|]; [|done]. cbn. by rewrite omap_snoc, app_nil_r. }
    split; rewrite ?Hwt; try done.
    + intros Hr. destruct (Hrun Hr) as (? & [q Hm] & ? & ?). cbn. rewrite Hm. by split_and!.
    + intros _ Hr. destruct (Hrun Hr) as (_ & [q Hm] & _). cbn. rewrite Hm. eexists. split; [done|]. left. apply elem_of_app. right. by left.
  - destruct (end_ok w Hok Hthr) as (w2 & Hr' & Hok' & _). rewrite Hr in Hr'. by injection Hr' as <-.
Qed.

Lemma reachable_plugin_ok w : reachable w -> plugin_ok w.
Proof.
  unfold reachable. intros Hr. remember initial_plugin as w0 eqn:Hw0. assert (plugin_ok w0) as Hok.
  { subst. split; cbn; try done; [constructor|by intros l ?%not_elem_of_nil|intros _; apply not_elem_of_nil]. }
  clear Hw0. induction Hr as [|w1 w2 w3 Hs _ IH]; [done|]. apply IH. by eapply pstep_ok.
Qed.

(** ** What the plug-in does *)

Lemma pstep_sound w : plugin_ok w -> (exists r w', plugin_handler w = Done (r, w')) /\
  (thr w = TEnded -> exists w', destroy_end w = Done (tt, w')).
Proof.
  intros Hok. split; [destruct (handler_ok w Hok) as (r & w' & Hr & _); by exists r, w'|].
  intros Ht. destruct (end_ok w Hok Ht) as (w' & Hr & _). by exists w'.
Qed.


(** One message: it is answered, and the thread is back. *)
Lemma serve_one o l q w :
  plugin_ok w -> stopping w = false -> thr w = TPop o -> messages w = Some (Some l :: q) ->
  (plugin_handler;; plugin_handler) w =
    Done (Some tt, p_thr (fun _ => TPop (Some l)) (p_pushed (fun p => p ++ [ANSWER]) (p_messages (fun _ => Some q) w))).
Proof.
  intros [Hnd Hw Ht Hrun Hn Hst Hq He] Hs Hthr Hm.
  assert (Hr : running w) by (unfold running; by rewrite Hthr). destruct (Hrun Hr) as (Hg & _ & _ & Hi).
  destruct (Hw l) as [t Hl]; [unfold waiting, queued; rewrite Hm; by left|].
  assert (H1 : plugin_handler w = Done (Some tt, p_thr (fun _ => TCheck (Some l)) (p_pushed (fun p => p ++ [ANSWER]) (p_messages (fun _ => Some q) w)))).
  { unfold plugin_handler. run eq_refl. rewrite Hthr. run eq_refl. rewrite Hm. run eq_refl. rewrite !bind_assoc. run eq_refl.
    cbn [heap p_messages]. rewrite Hl. rewrite bind_assoc. run eq_refl. unfold push_event. rewrite !bind_assoc. run eq_refl.
    cbn [gw p_messages]. by rewrite Hg. }
  run H1. unfold plugin_handler. run eq_refl. cbn [thr p_thr]. run eq_refl. run eq_refl. cbn. by rewrite Hi, Hs.
Qed.

Lemma serve_all n : forall o q w,
  plugin_ok w -> stopping w = false -> thr w = TPop o -> messages w = Some q -> length q = n ->
  exists w', run_handler (S (2 * n)) w = Done (tt, w') /\ messages w' = Some [] /\
    pushed w' = pushed w ++ replicate n ANSWER /\ heap w' = heap w.
Proof.
  induction n as [|n IH]; intros o q w Hok Hs Hthr Hm Hl.
  - apply nil_length_inv in Hl as ->. exists w. split; [|by rewrite app_nil_r].
    cbn [run_handler Nat.mul]. unfold plugin_handler. rewrite bind_assoc. run eq_refl. rewrite Hthr, bind_assoc. run eq_refl. by rewrite Hm.
  - destruct q as [|[l|] q]; [done| |].
    + pose proof (serve_one o l q w Hok Hs Hthr Hm) as Hone. apply bind_Done in Hone as (r1 & w1 & H1 & H2).
      destruct (handler_ok w Hok) as (r & w1' & H1' & Hok1). rewrite H1 in H1'. injection H1' as <- <-.
      destruct (handler_ok w1 Hok1) as (r' & w2' & H2' & Hok2). rewrite H2 in H2'. injection H2' as <- <-.
      destruct (IH (Some l) q _ Hok2) as (w' & Hrun & Hm' & Hp & Hh); [done|done|done|by injection Hl|].
      exists w'. split_and!; [|done| |done].
      * replace (S (2 * S n)) with (S (S (S (2 * n)))) by lia. cbn [run_handler].
        assert (r1 = Some tt) as ->.
        { destruct r1 as [[]|]; [done|]. exfalso. revert H1. unfold plugin_handler. run eq_refl. rewrite Hthr. run eq_refl. rewrite Hm. run eq_refl.
          intros H1. by apply bind_Done in H1 as (? & ? & _ & [=]). }
        run H1. run H2. exact Hrun.
      * rewrite Hp. cbn. by rewrite <- app_assoc.
    + exfalso. apply (po_exit w Hok); [by rewrite (po_stop w Hok)|]. rewrite Hm. by left.
Qed.

(** Left alone, the thread answers every message that waits, once each, and then waits. *)
Theorem queue_is_served w o q :
  reachable w -> stopping w = false -> thr w = TCheck o -> messages w = Some q -> exists w',
  run_handler (2 + 2 * length q) w = Done (tt, w') /\ messages w' = Some [] /\ pushed w' = pushed w ++ replicate (length q) ANSWER.
Proof.
  intros Hr Hs Hthr Hm. pose proof (reachable_plugin_ok w Hr) as Hok.
  assert (Hrn : running w) by (unfold running; by rewrite Hthr). destruct (po_running w Hok Hrn) as (_ & _ & _ & Hi).
  assert (H1 : plugin_handler w = Done (Some tt, p_thr (fun _ => TPop o) w)).
  { unfold plugin_handler. run eq_refl. rewrite Hthr. run eq_refl. run eq_refl. by rewrite Hi, Hs. }
  destruct (handler_ok w Hok) as (r & w1 & H1' & Hok1). rewrite H1 in H1'. injection H1' as <- <-.
  destruct (serve_all (length q) o q _ Hok1) as (w' & Hrun & Hm' & Hp & _); [done..|].
  exists w'. split_and!; [|done|done]. cbn [Nat.add]. cbn [run_handler]. by run H1.
Qed.

(** *** Messages that are lost *)

(** Nobody has the message [l], and it is not freed. *)
Definition lost (l : loc) w : Prop := is_Some (heap w !! l) /\ l ∉ waiting w /\ thread_msg w <> Some l.

Lemma lost_handler l w r w' : plugin_ok w -> lost l w -> plugin_handler w = Done (r, w') -> lost l w'.
Proof.
  intros Hok Hlost. pose proof Hlost as (Hl & Hw & Ht). unfold plugin_handler. run eq_refl.
  destruct (thr w) as [|o|o|] eqn:Hthr; [by intros [= _ <-]| | |by intros [= _ <-]]; unfold thread_msg in Ht; rewrite Hthr in Ht.
  - run eq_refl. run eq_refl. destruct (initialized w && negb (stopping w))%bool.
    + intros [= _ <-]. by split_and!.
    + rewrite bind_assoc. destruct o as [x|]; [|intros [= _ <-]; by split_and!].
      unfold plugin_message_free. rewrite bind_assoc. run eq_refl. destruct (heap w !! x) as [y|] eqn:Hx; [|done].
      intros [= _ <-]. split_and!; [|done|done]. cbn. rewrite lookup_delete_ne; [done|congruence].
  - run eq_refl. destruct (messages w) as [[|i q]|] eqn:Hm; [by intros [= _ <-]| |done]. run eq_refl.
    assert (Hqd : queued w = match i with Some l => [l] | None => [] end ++ omap id q) by (unfold queued; rewrite Hm; by destruct i).
    unfold waiting in Hw. rewrite Hqd, <- app_assoc in Hw. destruct i as [x|].
    + rewrite bind_assoc. run eq_refl. cbn [heap p_messages].
      destruct (po_waiting w Hok x) as [t Hx]; [unfold waiting; rewrite Hqd; by left|]. rewrite Hx. rewrite bind_assoc. run eq_refl.
      unfold push_event. rewrite !bind_assoc. run eq_refl. cbn [gw p_messages]. destruct (gw w); [|done].
      intros [= _ <-]. cbn in Hw. apply not_elem_of_cons in Hw as [Hne Hw]. split_and!; [done|done|]. cbn. congruence.
    + intros [= _ <-]. by split_and!.
Qed.

Lemma lost_step l w w' : plugin_ok w -> lost l w -> pstep w w' -> lost l w'.
Proof.
  intros Hok Hlost Hst. pose proof Hlost as (Hl & Hw & Ht).
  inversion Hst as [w1 Hh Hr|t w1 Hr|k w1 Hk Hr|w1 Hr|w1 Hd Hr|w1 Hd Hthr Hr]; subst.
  - unfold plugin_init in Hr. apply bind_Done in Hr as (s & w2 & [= <- <-] & Hr). destruct (stopping w); [done|].
    injection Hr as <-. split_and!; [done| |done]. unfold waiting in *. intros Hin. apply Hw, elem_of_app. by right.
  - unfold handle_begin in Hr. apply bind_Done in Hr as (s & w2 & [= <- <-] & Hr). apply bind_Done in Hr as (i & w2 & [= <- <-] & Hr).
    destruct (stopping w || negb (initialized w))%bool; [by injection Hr as <-|]. injection Hr as <-.
    assert (l <> next w) by (intros ->; destruct Hl as [x Hx]; rewrite (po_next w Hok) in Hx by done; done).
    split_and!; [|unfold waiting in *|done]; cbn; [by rewrite lookup_insert_ne|].
    rewrite app_assoc. by intros [Hx|Hx%list_elem_of_singleton]%elem_of_app.
  - unfold handle_end, queue_push in Hr. injection Hr as <-. split_and!; [done| |done].
    unfold waiting, queued in *. cbn. intros [Hx|[_ Hx]%list_elem_of_filter]%elem_of_app; [|apply Hw, elem_of_app; by right].
    destruct (messages w) as [q|]; cbn in *; [|by apply not_elem_of_nil in Hx]. rewrite omap_snoc in Hx.
    apply elem_of_app in Hx as [Hx| ->%list_elem_of_singleton]; apply Hw, elem_of_app; [by left|by right].
  - by eapply lost_handler.
  - unfold destroy_begin in Hr. apply bind_Done in Hr as (i & w2 & [= <- <-] & Hr).
    destruct (initialized w); [|by injection Hr as <-]. injection Hr as <-. split_and!; [done| |done].
    unfold waiting, queued in *. cbn. destruct (messages w) as [q|]; [|done]. cbn. by rewrite omap_snoc, app_nil_r.
  - destruct (end_ok w Hok Hthr) as (w2 & Hr' & Hok' & _ & _ & Hm & Ht2 & Hh & Hc). rewrite Hr in Hr'. injection Hr' as <-.
    unfold waiting in *. assert (l ∉ queued w) by (intros Hin; apply Hw, elem_of_app; by left).
    split_and!; [by rewrite Hh| |unfold thread_msg; by rewrite Ht2].
    unfold waiting, queued. rewrite Hm, Hc. cbn. intros Hin. apply Hw, elem_of_app. by right.
Qed.

(** A message that was answered is never freed once the next one is taken from the queue. *)
Theorem answered_message_is_leaked w l l' q :
  reachable w -> stopping w = false -> thr w = TPop (Some l) -> messages w = Some (Some l' :: q) -> exists w2,
  (plugin_handler;; plugin_handler) w = Done (Some tt, w2) /\ forall w3, rtc pstep w2 w3 -> is_Some (heap w3 !! l).
Proof.
  intros Hr Hs Hthr Hm. pose proof (reachable_plugin_ok w Hr) as Hok.
  pose proof (serve_one _ l' q w Hok Hs Hthr Hm) as Hone. eexists. split; [exact Hone|].
  apply bind_Done in Hone as (r1 & w1 & H1 & H2).
  destruct (handler_ok w Hok) as (r & w1' & H1' & Hok1). rewrite H1 in H1'. injection H1' as <- <-.
  destruct (handler_ok w1 Hok1) as (r' & w2' & H2' & Hok2). rewrite H2 in H2'. injection H2' as <- <-.
  destruct (po_thread w Hok l) as [Hl Hnw]; [unfold thread_msg; by rewrite Hthr|].
  assert (Hqd : waiting w = l' :: omap id q ++ calling w) by (unfold waiting, queued; by rewrite Hm).
  rewrite Hqd in Hnw. apply not_elem_of_cons in Hnw as [Hne Hnw].
  set (w2 := p_thr _ _) in *. assert (Hlost : lost l w2) by (split_and!; [done|done|cbn; congruence]). clearbody w2.
  intros w3 Hst. clear -Hst Hok2 Hlost. induction Hst as [|x y z Hxy _ IH]; [apply Hlost|].
  apply IH; [by eapply pstep_ok|by eapply lost_step].
Qed.

(** *** The end *)

Lemma ended_waits n w : thr w = TEnded -> run_handler n w = Done (tt, w).
Proof. intros Ht. destruct n; [done|]. cbn [run_handler]. unfold plugin_handler. rewrite bind_assoc. run eq_refl. by rewrite Ht. Qed.

Lemma stopped_check w o : plugin_ok w -> thr w = TCheck o -> stopping w = true ->
  exists w', plugin_handler w = Done (Some tt, w') /\ plugin_ok w' /\ thr w' = TEnded.
Proof.
  intros Hok Ht Hs. destruct (handler_ok w Hok) as (r & w' & Hrun & Hok').
  assert (r = Some tt /\ thr w' = TEnded) as [-> ?]; [|by exists w'].
  revert Hrun. unfold plugin_handler. run eq_refl. rewrite Ht. run eq_refl. run eq_refl. rewrite Hs, andb_false_r, bind_assoc.
  intros (x & w4 & Hf & Hend)%bind_Done. by injection Hend as <- <-.
Qed.

Lemma stopped_pop w o q : plugin_ok w -> thr w = TPop o -> messages w = Some (q ++ [None]) ->
  exists w', plugin_handler w = Done (Some tt, w') /\ plugin_ok w' /\ stopping w' = stopping w /\
    (thr w' = TEnded \/ exists l, thr w' = TCheck (Some l)).
Proof.
  intros Hok Ht Hm. destruct (handler_ok w Hok) as (r & w' & Hrun & Hok').
  assert (r = Some tt /\ stopping w' = stopping w /\ (thr w' = TEnded \/ exists l, thr w' = TCheck (Some l))) as (-> & ? & ?); [|by exists w'].
  revert Hrun. unfold plugin_handler. run eq_refl. rewrite Ht. run eq_refl. rewrite Hm. destruct q as [|[x|] q]; cbn [app]; run eq_refl.
  - intros [= <- <-]. split_and!; try done. by left.
  - intros ([] & w4 & Hin & [= <- <-])%bind_Done. apply bind_Done in Hin as (h & w5 & [= <- <-] & Hin).
    apply bind_Done in Hin as (y & w5 & Hlv & Hin). revert Hlv. cbn.
    destruct (po_waiting w Hok x) as [t Hx]; [unfold waiting, queued; rewrite Hm; by left|]. rewrite Hx. intros [= <- <-].
    apply bind_Done in Hin as ([] & w6 & Hp & [= <-]). unfold push_event in Hp. apply bind_Done in Hp as (g & w7 & [= <- <-] & Hp).
    destruct (gw _); [|done]. injection Hp as <-. split_and!; try done. right. by exists x.
  - intros [= <- <-]. split_and!; try done. by left.
Qed.

(** Two steps after the exit message is queued the thread has ended. *)
Lemma stopped_ends w : plugin_ok w -> stopping w = true -> running w ->
  (exists q, messages w = Some (q ++ [None])) -> exists w', run_handler 2 w = Done (tt, w') /\ plugin_ok w' /\ thr w' = TEnded.
Proof.
  intros Hok Hs Hrn [q Hm].
  assert (Hstep : forall n w0 w1, plugin_handler w0 = Done (Some tt, w1) -> run_handler (S n) w0 = run_handler n w1).
  { intros n w0 w1 H1. cbn [run_handler]. by run H1. }
  unfold running in Hrn. destruct (thr w) as [|o|o|] eqn:Ht; [done| | |done].
  - destruct (stopped_check w o Hok Ht Hs) as (w' & H1 & Hok' & Ht'). exists w'. rewrite (Hstep _ _ _ H1). by rewrite ended_waits.
  - destruct (stopped_pop w o q Hok Ht Hm) as (w' & H1 & Hok' & Hs' & [Ht'|[l Ht']]); rewrite (Hstep _ _ _ H1).
    + exists w'. by rewrite ended_waits.
    + destruct (stopped_check w' (Some l) Hok' Ht') as (w2 & H2 & Hok2 & Ht2); [congruence|]. exists w2. by rewrite (Hstep _ _ _ H2).
Qed.

(** [plugin_destroy] comes to its end, at whatever moment of the thread it is called, and
    leaves the plug-in as it was before it was initialised. *)
Theorem plugin_destroy_ends w :
  reachable w -> destroying w = false -> running w -> exists w',
  plugin_destroy 2 w = Done (tt, w') /\ initialized w' = false /\ stopping w' = false /\ messages w' = None /\ thr w' = TEnded.
Proof.
  intros Hr Hd Hrn. pose proof (reachable_plugin_ok w Hr) as Hok. destruct (po_running w Hok Hrn) as (_ & [q Hm] & _ & Hi).
  unfold plugin_destroy. run eq_refl. rewrite Hi. cbn [whenM].
  set (w1 := p_destroying (fun _ => true) (p_messages (fun _ => Some (q ++ [None])) (p_stopping (fun _ => true) w))).
  assert (Hb : destroy_begin w = Done (tt, w1)).
  { unfold destroy_begin. run eq_refl. rewrite Hi. cbn [whenM]. run eq_refl. unfold queue_push. run eq_refl.
    unfold w1, modify, p_messages, p_stopping, p_destroying. cbn. by rewrite Hm. }
  assert (Hok1 : plugin_ok w1) by (eapply pstep_ok; [exact Hok|by eapply p_destroy]).
  run Hb. destruct (stopped_ends w1 Hok1) as (w2 & Hrun & Hok2 & Ht2); [done|done|by exists q|].
  run Hrun. destruct (end_ok w2 Hok2 Ht2) as (w3 & He & _ & ? & ? & ? & ? & _). exists w3. by split_and!.
Qed.

(** A message without a transaction is freed at once, and again if the plug-in is told to end
    before the next one comes. *)
Theorem empty_message_is_freed_twice w o l q :
  thr w = TPop o -> messages w = Some (Some l :: q) -> heap w !! l = Some None -> initialized w = true ->
  (plugin_handler;; destroy_begin;; plugin_handler) w = Crash UseAfterFree.
Proof.
  intros Ht Hm Hl Hi.
  assert (H1 : plugin_handler w = Done (Some tt, p_thr (fun _ => TCheck (Some l)) (p_heap (delete l) (p_messages (fun _ => Some q) w)))).
  { unfold plugin_handler. run eq_refl. rewrite Ht. run eq_refl. rewrite Hm. run eq_refl. rewrite !bind_assoc. run eq_refl.
    cbn [heap p_messages]. rewrite Hl. rewrite bind_assoc. run eq_refl. unfold plugin_message_free. rewrite !bind_assoc. run eq_refl.
    cbn [heap p_messages]. by rewrite Hl. }
  run H1. erewrite bind_step; [|unfold destroy_begin; run eq_refl; cbn [initialized p_thr p_heap p_messages]; rewrite Hi; done].
  unfold plugin_handler. run eq_refl. cbn [thr p_thr p_destroying p_messages p_stopping p_heap]. run eq_refl. run eq_refl. cbn -[plugin_message_free].
  rewrite andb_false_r. unfold plugin_message_free, mbind, M_bind, gets, live. cbn. by rewrite lookup_delete_eq.
Qed.

(** ** Concrete runs *)

Definition started : plugin := default initial_plugin (result_state (plugin_init true true initial_plugin)).
Definition with_message : plugin := default initial_plugin (result_state (plugin_handle_message (Some "hello") started)).
Definition with_two : plugin :=
  default initial_plugin (result_state ((plugin_handle_message (Some "hello");; plugin_handle_message (Some "again")) started)).

Definition begun (t : string) w : plugin := default initial_plugin (result_state (handle_begin (Some t) w)).
Lemma called_reachable t w w1 w2 l :
  reachable w -> handle_begin (Some t) w = Done (tt, w1) -> l ∈ calling w1 -> handle_end l w1 = Done (tt, w2) -> reachable w2.
Proof.
  intros Hr H1 Hl H2. unfold reachable in *. etrans; [exact Hr|]. eapply rtc_l; [by eapply p_call|]. eapply rtc_l; [by eapply p_call_end|]. apply rtc_refl.
Qed.
Lemma started_reachable : reachable started.
Proof. eapply rtc_l; [apply (p_init _ started); reflexivity|apply rtc_refl]. Qed.
Lemma with_message_reachable : reachable with_message.
Proof.
  apply (called_reachable "hello" started (begun "hello" started) _ 0); [apply started_reachable|vm_compute; reflexivity|by left|vm_compute; reflexivity].
Qed.
Lemma with_two_reachable : reachable with_two.
Proof.
  apply (called_reachable "again" with_message (begun "again" with_message) _ 1);
    [apply with_message_reachable|vm_compute; reflexivity|by left|vm_compute; reflexivity].
Qed.


Lemma queue_is_served_witness : exists w',
  run_handler 6 with_two = Done (tt, w') /\ messages w' = Some [] /\ pushed w' = [ANSWER; ANSWER].
Proof. apply (queue_is_served with_two None [Some 0; Some 1]); [apply with_two_reachable|done..]. Defined.

Definition served : plugin := default initial_plugin (result_state ((plugin_handler;; plugin_handler;; plugin_handler) with_two)).
Lemma answered_message_is_leaked_witness : exists w2,
  (plugin_handler;; plugin_handler) served = Done (Some tt, w2) /\ forall w3, rtc pstep w2 w3 -> is_Some (heap w3 !! 0).
Proof.
  apply (answered_message_is_leaked served 0 1 []); [|done..].
  unfold reachable. etrans; [apply with_two_reachable|].
  do 3 (eapply rtc_l; [apply p_thread; vm_compute; reflexivity|]). vm_compute. apply rtc_refl.
Defined.

Lemma plugin_destroy_ends_witness : exists w',
  plugin_destroy 2 with_two = Done (tt, w') /\ initialized w' = false /\ stopping w' = false /\ messages w' = None /\ thr w' = TEnded.
Proof. apply plugin_destroy_ends; [apply with_two_reachable|done..]. Defined.

Definition empty_message : plugin :=
  default initial_plugin (result_state ((plugin_handle_message None;; plugin_handler) started)).
Lemma empty_message_is_freed_twice_witness : (plugin_handler;; destroy_begin;; plugin_handler) empty_message = Crash UseAfterFree.
Proof. by apply (empty_message_is_freed_twice empty_message None 0 []). Defined.
End Plugin.
