(* ===== verification/Listen.v ===== *)
(** * Notifications of the database: the task of websocket_11/src/websocket_11.c

    A task of its own connects to the database, listens, and writes every notification into its
    channel; the worker reads them there ([Events]).  The connection is polled and the socket
    waited for with select(2), in a set that is never cleared: what the set's memory held before
    is an argument.  A signal handler of the process may run while the task waits.

    libpq is the class of [LibPq], with the operations of an asynchronous connection; the model
    keeps the connections that are not finished, so that one that is used after [PQfinish]
    shows.  Logging is not modelled. *)

From S2P Require Import Prelude LibPq.

Local Open Scope c_scope.

Module Listen.

Class PqAsync (P : Type) := { PQconnectStartParams : list (string * string) -> P -> option nat * P }.

Record lworld (P : Type) : Type := LWorld {
  pq : P;
  alive : gset nat;  (* connections that were made and not finished *)
  conn : option nat;  (* the global *)
  done : Z;
  konnikov : Z;
  channel : list string  (* what was written, in order *)
}.
Arguments LWorld {P}.
Arguments pq {P}.
Arguments alive {P}.
Arguments conn {P}.
Arguments done {P}.
Arguments konnikov {P}.
Arguments channel {P}.

Definition l_pq {P : Type} (f : P -> P) (w : lworld P) : lworld P :=
  LWorld (f (pq w)) (alive w) (conn w) (done w) (konnikov w) (channel w).
Definition l_alive {P : Type} (f : gset nat -> gset nat) (w : lworld P) : lworld P :=
  LWorld (pq w) (f (alive w)) (conn w) (done w) (konnikov w) (channel w).
Definition l_conn {P : Type} (f : option nat -> option nat) (w : lworld P) : lworld P :=
  LWorld (pq w) (alive w) (f (conn w)) (done w) (konnikov w) (channel w).
Definition l_done {P : Type} (f : Z -> Z) (w : lworld P) : lworld P :=
  LWorld (pq w) (alive w) (conn w) (f (done w)) (konnikov w) (channel w).
Definition l_konnikov {P : Type} (f : Z -> Z) (w : lworld P) : lworld P :=
  LWorld (pq w) (alive w) (conn w) (done w) (f (konnikov w)) (channel w).
Definition l_channel {P : Type} (f : list string -> list string) (w : lworld P) : lworld P :=
  LWorld (pq w) (alive w) (conn w) (done w) (konnikov w) (f (channel w)).

(** What happens while select waits: signals, and then an error or the descriptors that are ready. *)
Record turn : Type := Turn { signals : nat; ready : option (gset Z) }.

Definition LISTEN : string := "LISTEN revents;LISTEN on_coders".

Section Code.
Context {P R : Type} `{LibPq P R} `{PqAsync P}.
Abbreviation m := (M (lworld P)).
(** The bound of the loops over results and notifications. *)
Context (fuel : nat).

Definition usable (h : nat) : m unit :=
  a ← gets alive; if bool_decide (h ∈ a) then mret tt else crash UseAfterFree.
Definition call {B : Type} (h : nat) (f : P -> B * P) : m B :=
  usable h;; p ← gets pq; let '(b, p) := f p in modify (l_pq (fun _ => p));; mret b.
Definition finish (o : option nat) : m unit :=
  match o with
  | None => mret tt
  | Some h => usable h;; modify (l_pq (PQfinish h));; modify (l_alive (fun a => a ∖ {[h]}))
  end.
Definition kore_task_channel_write (s : string) : m unit := modify (l_channel (fun c => c ++ [s])).

(** The parameter hides the global [conn]: it is only finished, and only if nothing has ended yet. *)
Definition exitclean (c : option nat) : m unit :=
  d ← gets done;
  (if! (d =? 0)%Z then finish c);;
  modify (l_done (fun _ => 1%Z)).

(** The handler of SIGUSR1. *)
Definition foo : m unit :=
  k ← gets konnikov;
  if (k =? 0)%Z then mret tt
  else
    c ← gets conn;
    modify (l_done (fun _ => 1%Z));;
    (match c with Some h => finish (Some h);; modify (l_conn (fun _ => None)) | None => mret tt end);;
    modify (l_konnikov (fun _ => 0%Z)).

(** What the worker runs when it exits; the signal it raises is handled at once. *)
Definition handler : m unit := modify (l_done (fun _ => 1%Z));; foo.

Definition initlisten (h : nat) : m unit :=
  usable h;; call h (PQsendQuery h LISTEN);; mret tt.

(** [while((res=PQgetResult(conn)) != NULL)]; [false]: the function returns from inside. *)
Fixpoint result_loop (n : nat) (h : nat) : m bool :=
  match n with
  | O => crash Fuel
  | S n =>
      r ← call h (PQgetResult h);
      match r with
      | None => mret true
      | Some r => if bool_decide (PQresultStatus (Some r) = PGRES_COMMAND_OK) then result_loop n h else mret false
      end
  end.

(** [while(notify=PQnotifies(conn))] *)
Fixpoint notify_loop (n : nat) (h : nat) : m unit :=
  match n with
  | O => crash Fuel
  | S n =>
      nt ← call h (PQnotifies h);
      match nt with
      | None => mret tt
      | Some nt => kore_task_channel_write nt.1;; notify_loop n h
      end
  end.

Definition handlepgread (h : nat) : m unit :=
  ok ← call h (PQconsumeInput h);
  if negb ok then mret tt
  else
    ok ← result_loop fuel h;
    if! ok then notify_loop fuel h.

(** The part of a turn before select: the set and [connected] behind it. *)
Definition poll_part (h : nat) (sock : Z) (connected : bool) (rfds : gset Z) : m (bool * gset Z) :=
  if connected then mret (true, rfds)
  else
    s ← call h (PQconnectPoll h);
    match s with
    | PGRES_POLLING_FAILED => modify (l_done (fun _ => 1%Z));; exitclean (Some h);; mret (false, rfds)
    | PGRES_POLLING_WRITING => mret (false, rfds)
    | PGRES_POLLING_READING => mret (false, {[sock]} ∪ rfds)
    | PGRES_POLLING_OK => modify (l_konnikov (fun _ => 1%Z));; initlisten h;; mret (true, rfds)
    end.

(** select, and the switch on what it returns. *)
Definition select_part (h : nat) (sock : Z) (t : turn) (connected : bool) (rfds : gset Z) : m (bool * gset Z) :=
  Nat.iter (signals t) (fun k => foo;; k) (mret tt);;
  match ready t with
  | None => modify (l_done (fun _ => 1%Z));; mret (false, rfds)
  | Some fds =>
      let rfds := rfds ∩ fds in
      (if! negb (bool_decide (rfds = ∅)) && connected && bool_decide (sock ∈ rfds) then handlepgread h);;
      mret (connected, rfds)
  end.

(** [while(!done)]; with no more turns the task waits. *)
Fixpoint main_while (h : nat) (sock : Z) (ts : list turn) (connected : bool) (rfds : gset Z) : m unit :=
  d ← gets done;
  if negb (d =? 0)%Z then mret tt
  else
    s ← poll_part h sock connected rfds;
    match ts with
    | [] => crash Fuel
    | t :: ts => s ← select_part h sock t s.1 s.2; main_while h sock ts s.1 s.2
    end.

Definition mainloop (h : nat) (rfds : gset Z) (ts : list turn) : m unit :=
  usable h;;
  p ← gets pq;
  let sock := PQsocket h p in
  (if! (sock <? 0)%Z then exitclean (Some h));;
  main_while h sock ts false rfds.

Definition do_loop (rfds : gset Z) (ts : list turn) : m unit :=
  kore_task_channel_write "mama";;
  p ← gets pq;
  let '(c, p) := PQconnectStartParams [("dbname", "postgres")] p in
  modify (l_pq (fun _ => p));;
  modify (l_conn (fun _ => c));;
  (match c with Some h => modify (l_alive (fun a => {[h]} ∪ a)) | None => mret tt end);;
  match c with
  | None => exitclean None
  | Some h =>
      p ← gets pq;
      if PQstatus_bad h p then exitclean (Some h)
      else
        mainloop h rfds ts;;
        c ← gets conn;
        finish c;;
        modify (l_conn (fun _ => None))
  end.
End Code.

(** ** The task's end *)

Section Runs.
Context {P R : Type} `{LibPqLaws P R} `{PqAsync P}.
Implicit Types w : lworld P.
Context (fuel : nat).

(** [m] ends in [Q], or its bound was too small (the task waits). *)
Definition settles {A : Type} (m : M (lworld P) A) (Q : A -> lworld P -> Prop) w : Prop :=
  match m w with Done (a, w') => Q a w' | Crash f => f = Fuel end.

Lemma settles_bind {A B : Type} (m : M (lworld P) A) (k : A -> M (lworld P) B) Q w :
  settles m (fun a w' => settles (k a) Q w') w -> settles (m ≫= k) Q w.
Proof. unfold settles, mbind, M_bind. by destruct (m w) as [[a w']|f]. Qed.
Lemma settles_mono {A : Type} (m : M (lworld P) A) (Q Q' : A -> lworld P -> Prop) w :
  settles m Q w -> (forall a w', Q a w' -> Q' a w') -> settles m Q' w.
Proof. unfold settles. destruct (m w) as [[a w']|f]; auto. Qed.

(** The global is the one connection there is, or everything has ended. *)
Definition tidy (h : nat) w : Prop :=
  (conn w = Some h /\ alive w = {[h]}) \/ (conn w = None /\ alive w = ∅ /\ done w = 1%Z).

Definition holds (h : nat) w : Prop := conn w = Some h /\ alive w = {[h]}.

Lemma settles_call {B : Type} h (f : P -> B * P) (Q : B -> lworld P -> Prop) w :
  h ∈ alive w -> (forall b p, Q b (l_pq (fun _ => p) w)) -> settles (call h f) Q w.
Proof.
  intros Ha HQ. unfold settles, call, usable. rewrite bind_assoc. run eq_refl. rewrite bool_decide_true by done.
  rewrite ret_bind. run eq_refl. destruct (f (pq w)) as [b p]. run eq_refl. apply HQ.
Qed.

Lemma holds_pq h w p : holds h w -> holds h (l_pq (fun _ => p) w).
Proof. done. Qed.
Lemma holds_in h w : holds h w -> h ∈ alive w.
Proof. intros [_ ->]. set_solver. Qed.

Lemma result_loop_ok n h : forall w, holds h w -> settles (result_loop n h) (fun _ => holds h) w.
Proof.
  induction n as [|n IH]; intros w Hw; [done|]. cbn [result_loop]. apply settles_bind, settles_call; [by apply holds_in|].
  intros [r|] p; [|done]. case_bool_decide; [by apply IH|done].
Qed.
Lemma notify_loop_ok n h : forall w, holds h w -> settles (notify_loop n h) (fun _ => holds h) w.
Proof.
  induction n as [|n IH]; intros w Hw; [done|]. cbn [notify_loop]. apply settles_bind, settles_call; [by apply holds_in|].
  intros [nt|] p; [|done]. apply settles_bind. by apply IH.
Qed.
Lemma handlepgread_ok h w : holds h w -> settles (handlepgread fuel h) (fun _ => holds h) w.
Proof.
  intros Hw. unfold handlepgread. apply settles_bind, settles_call; [by apply holds_in|]. intros [] p; [|done]. cbn [negb].
  apply settles_bind. eapply settles_mono; [by apply result_loop_ok|]. cbn beta. intros [] w' Hw'; cbn [whenM]; [by apply notify_loop_ok|done].
Qed.

Lemma poll_part_ok h sock c rfds w : holds h w -> settles (poll_part h sock c rfds) (fun _ => holds h) w.
Proof.
  intros Hw. unfold poll_part. destruct c; [done|]. apply settles_bind, settles_call; [by apply holds_in|]. intros [] p; try done.
  apply settles_bind. unfold settles at 1. cbn. apply settles_bind. unfold initlisten. apply settles_bind.
  unfold settles at 1, usable. run eq_refl. rewrite bool_decide_true by by apply holds_in. cbn.
  apply settles_bind, settles_call; [by apply holds_in|]. by intros b p'.
Qed.

Lemma foo_ok h w : tidy h w -> exists w', foo w = Done (tt, w') /\ tidy h w'.
Proof.
  intros Hw. unfold foo. run eq_refl. destruct (konnikov w =? 0)%Z; [by exists w|]. run eq_refl. run eq_refl.
  destruct Hw as [[Hc Ha]|(Hc & Ha & Hd)]; rewrite Hc.
  - cbn [finish]. rewrite !bind_assoc. unfold usable. rewrite bind_assoc. run eq_refl. cbn [alive l_done]. rewrite Ha, bool_decide_true by set_solver.
    rewrite ret_bind, bind_assoc. run eq_refl. run eq_refl. run eq_refl. eexists. split; [done|]. right. cbn. rewrite Ha. split_and!; [done|set_solver|done].
  - run eq_refl. eexists. split; [done|]. right. by rewrite <- Hc, <- Ha.
Qed.
Lemma exit_handler_ok h w : tidy h w -> exists w', handler w = Done (tt, w') /\ tidy h w'.
Proof. intros Hw. unfold handler. run eq_refl. apply foo_ok. by destruct Hw as [[Hc Ha]|(Hc & Ha & Hd)]; [left|right]. Qed.
Lemma signals_ok n h : forall w, tidy h w -> exists w', Nat.iter n (fun k => foo;; k) (mret tt) w = Done (tt, w') /\ tidy h w'.
Proof.
  induction n as [|n IH]; intros w Hw; [by exists w|]. destruct (foo_ok h w Hw) as (w1 & Hr1 & Hw1).
  destruct (IH w1 Hw1) as (w2 & Hr2 & Hw2). exists w2. split; [|done]. change (Nat.iter (S n) ?f ?x) with (f (Nat.iter n f x)). cbn beta. by run Hr1.
Qed.

(** Signals that come interrupt select. *)
Definition interrupting (t : turn) : Prop := 0 < signals t -> ready t = None.

Lemma main_while_ok h sock ts : forall c rfds w,
  Forall interrupting ts -> holds h w -> settles (main_while fuel h sock ts c rfds) (fun _ => tidy h) w.
Proof.
  induction ts as [|t ts IH]; intros c rfds w Ht Hw; cbn [main_while]; apply settles_bind; unfold settles at 1, gets;
    (destruct (done w =? 0)%Z; [cbn [negb]|by left]); apply settles_bind; (eapply settles_mono; [by apply poll_part_ok|]); cbn beta; intros [c1 r1] w1 Hw1.
  - done.
  - apply Forall_cons in Ht as [Ht Hts]. apply settles_bind. unfold select_part. apply settles_bind.
    destruct (signals_ok (signals t) h w1) as (w2 & Hr2 & Hw2); [by left|]. unfold settles at 1. rewrite Hr2.
    destruct (ready t) as [fds|] eqn:Hr.
    + assert (signals t = 0) as Hs by (unfold interrupting in Ht; destruct (signals t); [done|specialize (Ht ltac:(lia)); congruence]).
      rewrite Hs in Hr2. injection Hr2 as <-. cbn [fst snd]. apply settles_bind. destruct (_ && _)%bool; cbn [whenM].
      * eapply settles_mono; [by apply handlepgread_ok|]. cbn beta. intros [] w3 Hw3. unfold settles at 1. cbn. by apply IH.
      * unfold settles at 1 2. cbn. by apply IH.
    + apply settles_bind. unfold settles at 1 2. cbn. cbn [fst snd].
      assert (Hd : main_while fuel h sock ts false r1 (l_done (fun _ => 1%Z) w2) = Done (tt, l_done (fun _ => 1%Z) w2)) by (destruct ts; by cbn).
      unfold settles. rewrite Hd. destruct Hw2 as [[Hc Ha]|(Hc & Ha & _)]; [by left|by right].
Qed.

(** C9: When signals only come while the task waits, and interrupt the wait, the task uses its
    connection only while it has it, finishes it once, and leaves none behind; the only other
    outcome is that it still waits. *)
Theorem interrupted_task_is_clean rfds ts w :
  alive w = ∅ -> done w = 0%Z -> konnikov w = 0%Z -> Forall interrupting ts ->
  (forall h p, PQconnectStartParams [("dbname", "postgres")] (pq w) = (Some h, p) -> (0 <= PQsocket h p)%Z) ->
  settles (do_loop fuel rfds ts) (fun _ w' => alive w' = ∅) w.
Proof.
  intros Ha Hd Hk Ht Hsock. unfold do_loop. apply settles_bind. unfold settles at 1. cbn. apply settles_bind. unfold settles at 1, gets. cbn.
  destruct (PQconnectStartParams _ (pq w)) as [[h|] p] eqn:Hstart.
  - specialize (Hsock h p eq_refl). repeat (apply settles_bind; unfold settles at 1, gets, modify; cbn).
    set (w1 := l_alive _ _). assert (Hw1 : holds h w1) by (split; [done|unfold w1; cbn; rewrite Ha; set_solver]).
    destruct (PQstatus_bad h p).
    + unfold exitclean. apply settles_bind. unfold settles at 1, gets. cbn [done w1 l_alive l_conn l_pq l_channel]. cbn. rewrite Hd. cbn.
      unfold settles, finish, usable, mbind, M_bind, gets, modify. cbn. rewrite Ha, bool_decide_true by set_solver. cbn. rewrite Ha. set_solver.
    + apply settles_bind. unfold mainloop, usable. apply settles_bind. unfold settles at 1. run eq_refl.
      rewrite bool_decide_true by by apply holds_in. cbn beta iota. unfold mret at 1, M_ret. apply settles_bind. unfold settles at 1, gets.
      change (pq w1) with p. cbn zeta. destruct (Z.ltb_spec (PQsocket h p) 0); [lia|]. cbn [whenM]. apply settles_bind. unfold settles at 1, mret, M_ret.
      eapply settles_mono; [by apply main_while_ok|]. cbn beta. intros _ w2 [[Hc Ha2]|(Hc & Ha2 & _)]; apply settles_bind; unfold settles at 1, gets.
      * rewrite Hc. unfold settles, finish, usable, mbind, M_bind, gets, modify. cbn. rewrite Ha2, bool_decide_true by set_solver. cbn. rewrite Ha2. set_solver.
      * rewrite Hc. unfold settles. cbn. done.
  - repeat (apply settles_bind; unfold settles at 1, gets, modify; cbn). unfold settles, exitclean, mbind, M_bind, gets, modify. cbn. rewrite Hd. cbn. done.
Qed.

(** ** Notifications *)

(** What libpq hands out when it is asked until it has nothing more; results that are all fine. *)
Inductive drained (h : nat) : P -> list string -> P -> Prop :=
| drained_none p p' : PQnotifies h p = (None, p') -> drained h p [] p'
| drained_some p n p1 es p' : PQnotifies h p = (Some n, p1) -> drained h p1 es p' -> drained h p (n.1 :: es) p'.
Inductive commands_ok (h : nat) : P -> P -> Prop :=
| commands_end p p' : PQgetResult h p = (None, p') -> commands_ok h p p'
| commands_next p r p1 p' : PQgetResult h p = (Some r, p1) -> PQresultStatus (Some r) = PGRES_COMMAND_OK ->
    commands_ok h p1 p' -> commands_ok h p p'.

Lemma pq_call_alive {B : Type} h (f : P -> B * P) w b p :
  h ∈ alive w -> f (pq w) = (b, p) -> call h f w = Done (b, l_pq (fun _ => p) w).
Proof.
  intros Ha Hf. unfold call, usable. rewrite bind_assoc. run eq_refl. rewrite bool_decide_true by done. rewrite ret_bind. run eq_refl. by rewrite Hf.
Qed.

Lemma result_loop_run h p p' : commands_ok h p p' -> forall n w,
  h ∈ alive w -> pq w = p -> results_left h p < n -> result_loop n h w = Done (true, l_pq (fun _ => p') w).
Proof.
  induction 1 as [p p' Hg|p r p1 p' Hg Hs _ IH]; intros n w Ha Hp Hn; (destruct n as [|n]; [lia|]); cbn [result_loop].
  - by run (pq_call_alive h _ w None p' Ha ltac:(by rewrite Hp)).
  - run (pq_call_alive h _ w (Some r) p1 Ha ltac:(by rewrite Hp)). rewrite bool_decide_true by done.
    rewrite IH; [by unfold l_pq|done|done|]. apply PQgetResult_law in Hg. lia.
Qed.

Lemma notify_loop_run h n : forall w, h ∈ alive w -> notifies_left h (pq w) < n -> exists es p',
  drained h (pq w) es p' /\ notify_loop n h w = Done (tt, l_channel (fun c => c ++ es) (l_pq (fun _ => p') w)).
Proof.
  induction n as [|n IH]; intros w Ha Hn; [lia|]. cbn [notify_loop]. destruct (PQnotifies h (pq w)) as [[nt|] p1] eqn:Hg.
  - run (pq_call_alive h _ w _ _ Ha Hg). run eq_refl. pose proof (PQnotifies_law _ _ _ _ Hg) as [Hlt _].
    destruct (IH (l_channel (fun c => c ++ [nt.1]) (l_pq (fun _ => p1) w))) as (es & p' & Hdr & Hrun); [done|cbn; lia|].
    exists (nt.1 :: es), p'. split; [by eapply drained_some|]. etransitivity; [exact Hrun|]. unfold l_channel, l_pq. cbn. by rewrite <- app_assoc.
  - exists [], p1. split; [by apply drained_none|]. run (pq_call_alive h _ w _ _ Ha Hg). unfold l_channel, l_pq, mret, M_ret. cbn. by rewrite app_nil_r.
Qed.

Lemma forwarded_run h sock fds rfds w p1 p2 :
  h ∈ alive w -> sock ∈ rfds -> sock ∈ fds -> PQconsumeInput h (pq w) = (true, p1) -> commands_ok h p1 p2 ->
  results_left h p1 < fuel -> notifies_left h p2 < fuel -> exists es p3 w',
  drained h p2 es p3 /\ select_part fuel h sock (Turn 0 (Some fds)) true rfds w = Done ((true, rfds ∩ fds), w') /\
  channel w' = channel w ++ es.
Proof.
  intros Ha Hr Hf Hc Hok Hfr Hfn. unfold select_part. run eq_refl. cbn [ready].
  rewrite bool_decide_false by set_solver. rewrite bool_decide_true by set_solver. cbn [negb andb whenM].
  assert (Hl : notifies_left h (pq (l_pq (fun _ => p2) (l_pq (fun _ => p1) w))) < fuel) by done.
  destruct (notify_loop_run h fuel (l_pq (fun _ => p2) (l_pq (fun _ => p1) w)) Ha Hl) as (es & p3 & Hd & Hrun).
  exists es, p3, (l_channel (fun c => c ++ es) (l_pq (fun _ => p3) w)). split; [exact Hd|]. split; [|done].
  erewrite bind_step; [done|]. unfold handlepgread. run (pq_call_alive h _ w true p1 Ha Hc). cbn [negb].
  run (result_loop_run h p1 p2 Hok fuel (l_pq (fun _ => p1) w) Ha eq_refl Hfr). cbn [whenM]. exact Hrun.
Qed.

(** When the server has something for the socket that is waited for, and its results are fine,
    every notification that libpq has is written into the channel, once each and in order. *)
Theorem notifications_forwarded h sock fds rfds n w p1 p2 :
  h ∈ alive w -> sock ∈ rfds -> sock ∈ fds -> PQconsumeInput h (pq w) = (true, p1) -> commands_ok h p1 p2 ->
  results_left h p1 < fuel -> notifies_left h p2 < fuel -> n = 0 -> exists es p3 w',
  drained h p2 es p3 /\ select_part fuel h sock (Turn n (Some fds)) true rfds w = Done ((true, rfds ∩ fds), w') /\
  channel w' = channel w ++ es.
Proof. intros Ha Hr Hf Hc Hok Hfr Hfn ->. by apply (forwarded_run h sock fds rfds w p1 p2). Qed.

(** *** What is no longer heard *)

Lemma foo_channel w w' : foo w = Done (tt, w') -> channel w' = channel w.
Proof.
  unfold foo. intros Hr. apply bind_Done in Hr as (k & w1 & [= <- <-] & Hr). destruct (konnikov w =? 0)%Z; [by injection Hr as <-|].
  apply bind_Done in Hr as (c & w1 & [= <- <-] & Hr). apply bind_Done in Hr as ([] & w1 & [= <-] & Hr).
  apply bind_Done in Hr as ([] & w2 & Hm & [= <-]). cbn. destruct (conn w) as [h|]; [|by injection Hm as <-].
  apply bind_Done in Hm as ([] & w3 & Hf & [= <-]). cbn. unfold finish, usable in Hf. rewrite bind_assoc in Hf.
  apply bind_Done in Hf as (a & w4 & [= <- <-] & Hf). case_bool_decide; [|done]. rewrite ret_bind in Hf. by injection Hf as <-.
Qed.
Lemma signals_channel n : forall w w', Nat.iter n (fun k => foo;; k) (mret tt) w = Done (tt, w') -> channel w' = channel w.
Proof.
  induction n as [|n IH]; intros w w' Hr; [by injection Hr as <-|].
  change (Nat.iter (S n) ?f ?x) with (f (Nat.iter n f x)) in Hr. apply bind_Done in Hr as ([] & w1 & Hf & Hr).
  rewrite (IH _ _ Hr). by apply foo_channel.
Qed.

Lemma deaf_while h sock ts : forall rfds w w',
  sock ∉ rfds -> main_while fuel h sock ts true rfds w = Done (tt, w') -> channel w' = channel w.
Proof.
  induction ts as [|t ts IH]; intros rfds w w' Hs Hr; cbn [main_while] in Hr;
    apply bind_Done in Hr as (d & w1 & [= <- <-] & Hr); (destruct (done w =? 0)%Z; [cbn [negb] in Hr|by injection Hr as <-]).
  - done.
  - cbn [poll_part] in Hr. rewrite ret_bind in Hr. cbn [fst snd] in Hr. apply bind_Done in Hr as ([c r] & w2 & Hsel & Hr).
    unfold select_part in Hsel. apply bind_Done in Hsel as ([] & w3 & Hsig & Hsel). apply signals_channel in Hsig.
    destruct (ready t) as [fds|] eqn:Hrd.
    2: { injection Hsel as <- <- <-. rewrite <- Hsig. cbn [fst snd] in Hr.
      destruct ts; cbn [main_while] in Hr; unfold mbind, M_bind, gets in Hr; cbn in Hr; by injection Hr as <-. }
    rewrite (bool_decide_false (sock ∈ rfds ∩ fds)) in Hsel by set_solver. rewrite andb_false_r in Hsel. cbn [whenM] in Hsel.
    rewrite ret_bind in Hsel. injection Hsel as <- <- <-. rewrite <- Hsig. apply (IH (rfds ∩ fds)); [set_solver|exact Hr].
Qed.

(** The set is given to select as select left it: once the socket is not in it (because
    another descriptor was ready alone, or because the connection was made at the first poll,
    which puts nothing into it), no notification is ever forwarded again. *)
Theorem lost_socket_is_deaf h sock ts rfds w w' :
  sock ∉ rfds -> main_while fuel h sock ts true rfds w = Done (tt, w') -> channel w' = channel w.
Proof. apply deaf_while. Qed.

(** *** Crashes *)

(** A signal whose handler runs while select returns with a message finishes the connection the
    message is then read from. *)
Theorem signal_frees_connection_in_use h sock fds rfds n w :
  holds h w -> konnikov w <> 0%Z -> sock ∈ rfds -> sock ∈ fds -> 0 < n ->
  select_part fuel h sock (Turn n (Some fds)) true rfds w = Crash UseAfterFree.
Proof.
  intros [Hc Ha] Hk Hr Hf Hn. destruct n as [|n]; [lia|]. unfold select_part. cbn [signals ready].
  assert (Hfoo : foo w = Done (tt, l_konnikov (fun _ => 0%Z) (l_conn (fun _ => None) (l_alive (fun a => a ∖ {[h]}) (l_pq (PQfinish h) (l_done (fun _ => 1%Z) w)))))).
  { unfold foo. run eq_refl. apply Z.eqb_neq in Hk as ->. run eq_refl. run eq_refl. rewrite Hc. cbn [finish]. rewrite !bind_assoc.
    unfold usable. rewrite bind_assoc. run eq_refl. cbn [alive l_done]. rewrite Ha, bool_decide_true by set_solver. by rewrite ret_bind. }
  set (w1 := l_konnikov _ _) in Hfoo.
  assert (Hsig : Nat.iter (S n) (fun k => foo;; k) (mret tt) w = Done (tt, w1)).
  { change (Nat.iter (S n) ?f ?x) with (f (Nat.iter n f x)). cbn beta. run Hfoo. clear. induction n as [|n IH]; [done|].
    change (Nat.iter (S n) ?f ?x) with (f (Nat.iter n f x)). cbn beta. erewrite bind_step; [exact IH|]. done. }
  run Hsig. rewrite bool_decide_false by set_solver. rewrite bool_decide_true by set_solver. cbn [negb andb whenM].
  unfold handlepgread, call, usable. rewrite !bind_assoc. run eq_refl. cbn [alive w1 l_konnikov l_conn l_alive l_pq l_done].
  rewrite Ha. by rewrite bool_decide_false by set_solver.
Qed.

(** A connection without a socket is finished twice. *)
Theorem bad_socket_finishes_twice rfds ts w h p :
  alive w = ∅ -> done w = 0%Z -> PQconnectStartParams [("dbname", "postgres")] (pq w) = (Some h, p) ->
  PQstatus_bad h p = false -> (PQsocket h p < 0)%Z -> do_loop fuel rfds ts w = Crash UseAfterFree.
Proof.
  intros Ha Hd Hst Hb Hs. unfold do_loop, kore_task_channel_write. run eq_refl. run eq_refl. cbn [pq l_channel]. rewrite Hst.
  run eq_refl. run eq_refl. run eq_refl. run eq_refl. cbn [pq l_channel l_pq l_conn l_alive]. rewrite Hb.
  set (w1 := l_alive _ _). assert (Hw1 : holds h w1) by (split; [done|unfold w1; cbn; rewrite Ha; set_solver]).
  assert (Hd1 : done w1 = 0%Z) by done. assert (Hp1 : pq w1 = p) by done. clearbody w1. destruct Hw1 as [Hc1 Ha1].
  unfold mainloop. rewrite bind_assoc. erewrite bind_step; [|unfold usable; run eq_refl; by rewrite Ha1, bool_decide_true by set_solver].
  rewrite bind_assoc. run eq_refl. rewrite Hp1. cbn zeta. destruct (Z.ltb_spec (PQsocket h p) 0); [|lia]. cbn [whenM]. rewrite bind_assoc.
  assert (He : exitclean (Some h) w1 = Done (tt, l_done (fun _ => 1%Z) (l_alive (fun a => a ∖ {[h]}) (l_pq (PQfinish h) w1)))).
  { unfold exitclean. run eq_refl. rewrite Hd1. cbn [Z.eqb whenM finish]. rewrite bind_assoc. unfold usable. rewrite bind_assoc. run eq_refl.
    rewrite Ha1, bool_decide_true by set_solver. by rewrite ret_bind. }
  run He. erewrite bind_step; [|by destruct ts]. run eq_refl. cbn [conn l_done l_alive l_pq]. rewrite Hc1. cbn [finish].
  unfold usable. rewrite !bind_assoc. run eq_refl. cbn [alive l_done l_alive l_pq]. rewrite Ha1. by rewrite bool_decide_false by set_solver.
Qed.
End Runs.

(** ** Concrete runs *)

#[global] Instance server_async : PqAsync pq_server := {|
  PQconnectStartParams := fun _ p => (Some (next_handle p), PqServer (accepts p) (S (next_handle p)) (to_send p) (to_notify p) (busy p))
|}.

Definition a_server : pq_server := PqServer true 5 [PGRES_COMMAND_OK] [("hello", "revents"); ("again", "on_coders")] true.
Definition a_world : lworld pq_server := LWorld a_server ∅ None 0 0 [].
Definition heard : turn := Turn 0 (Some {[5%Z]}).
Definition interrupted : turn := Turn 1 None.

(** The whole life of a task: it connects, hears two notifications and is told to go. *)
Example a_task :
  match do_loop 10 ∅ [heard; heard; interrupted] a_world with
  | Done (_, w) => channel w = ["mama"; "hello"; "again"] /\ alive w = ∅
  | Crash _ => False
  end.
Proof. vm_compute. by split. Qed.

Lemma interrupted_task_is_clean_witness :
  settles (do_loop 10 ∅ [heard; heard; interrupted]) (fun _ w' => alive w' = ∅) a_world.
Proof.
  apply interrupted_task_is_clean; [done|done|done| |].
  - repeat constructor; unfold interrupting; cbn; (done || intros Hs; by apply Nat.lt_irrefl in Hs).
  - intros h p [= <- <-]. done.
Defined.

Definition connected_world : lworld pq_server :=
  LWorld (PqServer true 6 [PGRES_COMMAND_OK] [("hello", "revents"); ("again", "on_coders")] false) {[5]} (Some 5) 0 1 ["mama"].

Lemma notifications_forwarded_witness : exists es p3 w',
  drained 5 (PqServer true 6 [] [("hello", "revents"); ("again", "on_coders")] false) es p3 /\
  select_part 10 5 5%Z (Turn 0 (Some {[5%Z]})) true {[5%Z]} connected_world = Done ((true, {[5%Z]} ∩ {[5%Z]}), w') /\
  channel w' = channel connected_world ++ es.
Proof.
  apply (notifications_forwarded 10 5 5%Z {[5%Z]} {[5%Z]} 0 connected_world (pq connected_world)
    (PqServer true 6 [] [("hello", "revents"); ("again", "on_coders")] false)).
  - by apply elem_of_singleton.
  - by apply elem_of_singleton.
  - by apply elem_of_singleton.
  - reflexivity.
  - eapply commands_next; [reflexivity|reflexivity|]. by apply commands_end.
  - vm_compute. lia.
  - vm_compute. lia.
  - reflexivity.
Defined.

Definition other_ready : turn := Turn 0 (Some {[3%Z]}).
Definition other_and_signal : turn := Turn 1 (Some {[3%Z]}).
Lemma lost_socket_is_deaf_witness :
  match main_while 10 5 5%Z [other_ready; other_and_signal] true {[3%Z]} connected_world with
  | Done (_, w') => channel w' = channel connected_world
  | Crash _ => False
  end.
Proof.
  destruct (main_while 10 5 5%Z [other_ready; other_and_signal] true {[3%Z]} connected_world) as [[[] w']|f] eqn:Hr; [|by vm_compute in Hr].
  apply (lost_socket_is_deaf 10 5 5%Z [other_ready; other_and_signal] {[3%Z]} connected_world w'); [|exact Hr].
  by intros Hin%elem_of_singleton.
Defined.

Lemma signal_frees_connection_in_use_witness :
  select_part 10 5 5%Z (Turn 1 (Some {[5%Z]})) true {[5%Z]} connected_world = Crash UseAfterFree.
Proof.
  apply (signal_frees_connection_in_use 10 5 5%Z); [by split|done|by apply elem_of_singleton|by apply elem_of_singleton|by apply Nat.ltb_lt].
Defined.
End Listen.
