(* ===== verification/Events.v ===== *)
(** * Events of the database for browsers: websocket_11/src/websocket_11.c

    Pages run an update in the database and answer when it is done; browsers subscribe to
    server-sent events or open a websocket, each of which has a query of its own; what the task
    of [Listen] writes into its channel is sent to all of them.  The database layer is [Pgsql],
    whose callback 0 is [db_state_change]; kore's requests are [KoreHttp], and the function that
    runs a table of request states is an argument.  kore's connections have one field for the
    application, which holds the timer of a subscriber or the query of a websocket: both are
    addresses, and the code does not tell them apart.  Logging is not modelled. *)

From stdpp Require Import pretty.
From S2P Require Import Prelude KoreNet LibPq Pgsql KoreHttp Auth2 Sse Listen.
Import Pg.

Local Open Scope c_scope.

Module Events.

(** ** Data *)

Record connection : Type := Connection {
  hdlr_extra : option loc;
  disconnect : bool;  (* [sse_disconnect] is set *)
  read_block : bool;  (* CONN_READ_BLOCK *)
  websocket : bool  (* the connection speaks the websocket protocol *)
}.
Definition c_hdlr_extra (f : option loc -> option loc) (w : connection) : connection :=
  Connection (f (hdlr_extra w)) (disconnect w) (read_block w) (websocket w).
Definition c_disconnect (f : bool -> bool) (w : connection) : connection :=
  Connection (hdlr_extra w) (f (disconnect w)) (read_block w) (websocket w).
Definition c_read_block (f : bool -> bool) (w : connection) : connection :=
  Connection (hdlr_extra w) (disconnect w) (f (read_block w)) (websocket w).

Record request : Type := Request {
  method : http_method;
  fsm_state : Z;
  owner : loc;
  req_extra : option loc;  (* [req->hdlr_extra] *)
  no_length : bool  (* HTTP_REQUEST_NO_CONTENT_LENGTH *)
}.
Definition r_fsm_state (f : Z -> Z) (w : request) : request :=
  Request (method w) (f (fsm_state w)) (owner w) (req_extra w) (no_length w).
Definition r_no_length (f : bool -> bool) (w : request) : request :=
  Request (method w) (fsm_state w) (owner w) (req_extra w) (f (no_length w)).

Record events (T H : Type) : Type := EventsApp {
  http : H;
  hreqs : gmap loc request;
  rstates : gmap loc Z;  (* each [rstate]'s [cnt]; its [sql] is at the same address in [Pgsql] *)
  clients : gmap loc connection;
  connections : list loc;  (* kore's list, from TAILQ_FIRST on *)
  sse_states : gmap loc nat;  (* each [sse_state]'s timer *)
  timers : T;
  out : list (loc * string);  (* what was queued with [net_send_queue], in order *)
  ws_out : list (loc * string);  (* [kore_websocket_send], in order *)
  dropped : list loc;  (* [kore_connection_disconnect], newest first *)
  sent : list (loc * http_call)  (* newest first *)
}.
Arguments EventsApp {T H}.
Arguments http {T H}.
Arguments hreqs {T H}.
Arguments rstates {T H}.
Arguments clients {T H}.
Arguments connections {T H}.
Arguments sse_states {T H}.
Arguments timers {T H}.
Arguments out {T H}.
Arguments ws_out {T H}.
Arguments dropped {T H}.
Arguments sent {T H}.

Definition ev_http {T H : Type} (f : H -> H) (w : events T H) : events T H :=
  EventsApp (f (http w)) (hreqs w) (rstates w) (clients w) (connections w) (sse_states w) (timers w) (out w) (ws_out w) (dropped w) (sent w).
Definition ev_hreqs {T H : Type} (f : gmap loc request -> gmap loc request) (w : events T H) : events T H :=
  EventsApp (http w) (f (hreqs w)) (rstates w) (clients w) (connections w) (sse_states w) (timers w) (out w) (ws_out w) (dropped w) (sent w).
Definition ev_rstates {T H : Type} (f : gmap loc Z -> gmap loc Z) (w : events T H) : events T H :=
  EventsApp (http w) (hreqs w) (f (rstates w)) (clients w) (connections w) (sse_states w) (timers w) (out w) (ws_out w) (dropped w) (sent w).
Definition ev_clients {T H : Type} (f : gmap loc connection -> gmap loc connection) (w : events T H) : events T H :=
  EventsApp (http w) (hreqs w) (rstates w) (f (clients w)) (connections w) (sse_states w) (timers w) (out w) (ws_out w) (dropped w) (sent w).
Definition ev_connections {T H : Type} (f : list loc -> list loc) (w : events T H) : events T H :=
  EventsApp (http w) (hreqs w) (rstates w) (clients w) (f (connections w)) (sse_states w) (timers w) (out w) (ws_out w) (dropped w) (sent w).
Definition ev_sse_states {T H : Type} (f : gmap loc nat -> gmap loc nat) (w : events T H) : events T H :=
  EventsApp (http w) (hreqs w) (rstates w) (clients w) (connections w) (f (sse_states w)) (timers w) (out w) (ws_out w) (dropped w) (sent w).
Definition ev_timers {T H : Type} (f : T -> T) (w : events T H) : events T H :=
  EventsApp (http w) (hreqs w) (rstates w) (clients w) (connections w) (sse_states w) (f (timers w)) (out w) (ws_out w) (dropped w) (sent w).
Definition ev_out {T H : Type} (f : list (loc * string) -> list (loc * string)) (w : events T H) : events T H :=
  EventsApp (http w) (hreqs w) (rstates w) (clients w) (connections w) (sse_states w) (timers w) (f (out w)) (ws_out w) (dropped w) (sent w).
Definition ev_ws_out {T H : Type} (f : list (loc * string) -> list (loc * string)) (w : events T H) : events T H :=
  EventsApp (http w) (hreqs w) (rstates w) (clients w) (connections w) (sse_states w) (timers w) (out w) (f (ws_out w)) (dropped w) (sent w).
Definition ev_dropped {T H : Type} (f : list loc -> list loc) (w : events T H) : events T H :=
  EventsApp (http w) (hreqs w) (rstates w) (clients w) (connections w) (sse_states w) (timers w) (out w) (ws_out w) (f (dropped w)) (sent w).
Definition ev_sent {T H : Type} (f : list (loc * http_call) -> list (loc * http_call)) (w : events T H) : events T H :=
  EventsApp (http w) (hreqs w) (rstates w) (clients w) (connections w) (sse_states w) (timers w) (out w) (ws_out w) (dropped w) (f (sent w)).

(** The size of [pipe_data_available]'s buffer. *)
Definition BUFSIZ : nat := 8192.
Definition ping : string := "event:ping" ++ Sse.nl ++ "data:" ++ Sse.nl ++ Sse.nl.
Definition hello : string := "event:join" ++ Sse.nl ++ "data: client" ++ Sse.nl ++ Sse.nl.
Definition leaving : string := "event: leave" ++ Sse.nl ++ "data: client" ++ Sse.nl ++ Sse.nl.
Definition leav : string := "event: leave" ++ Sse.nl ++ "data: ".

Section Code.
Context {P R T H : Type} `{LibPq P R} `{KoreTimers T} `{KoreHttp H} `{PgVersion}.
Abbreviation m := (M (pg_world P R (events T H))).
Context (run_cb : nat -> loc -> loc -> m unit).
Context (count_bits : Z) (fuel : nat).
(** kore's [http_state_run]. *)
Context (http_state_run : list (loc -> m Auth.http_state_result) -> loc -> m Z).

(** *** Access *)

Definition ev_get {A : Type} (f : events T H -> A) : m A := gets (fun w => f (app w)).
Definition ev_mod (f : events T H -> events T H) : m unit := modify (set_app f).
Definition get_hreq (r : loc) : m request := q ← ev_get hreqs; live (q !! r).
Definition update_hreq (r : loc) (f : request -> request) : m unit :=
  v ← get_hreq r; ev_mod (ev_hreqs <[r := f v]>).
Definition set_fsm (r : loc) (s : Z) : m unit := update_hreq r (r_fsm_state (fun _ => s)).
Definition get_client (c : loc) : m connection := h ← ev_get clients; live (h !! c).
Definition update_client (c : loc) (f : connection -> connection) : m unit :=
  v ← get_client c; ev_mod (ev_clients <[c := f v]>).
Definition http_response (r : loc) (code : Z) (b : body) : m unit := ev_mod (ev_sent (cons (r, Response code b))).
Definition http_response_header (r : loc) (n v : string) : m unit := ev_mod (ev_sent (cons (r, ResponseHeader n v))).
Definition kore_timer_add (a : loc) : m nat := fun w =>
  let '(t, ts) := timer_add a (timers (app w)) in Done (t, set_app (ev_timers (fun _ => ts)) w).
Definition kore_websocket_send (c : loc) (s : string) : m unit := ev_mod (ev_ws_out (fun o => o ++ [(c, s)])).
Definition state_addr (r : loc) : m loc := o ← ev_get (fun h => http_state_get r (http h)); deref o.
(** [state->cnt], which is logged. *)
Definition get_rstate (l : loc) : m Z := u ← ev_get rstates; live (u !! l).
Definition state_cleanup (r l : loc) : m unit :=
  ev_mod (ev_http (http_state_cleanup r));;
  ev_mod (ev_rstates (delete l));;
  modify (set_pgsqls (delete l)).

(** *** The two tables of request states *)

(** The same text twice, for [ranger] and for [page]. *)
Definition request_perform_init (r : loc) : m Auth.http_state_result :=
  o ← ev_get (fun h => http_state_get r (http h));
  st ← match o with
       | Some st => mret st
       | None =>
           l ← new_addr;
           ev_mod (ev_http (http_state_create r l));;
           ev_mod (ev_rstates <[l := 20%Z]>);;
           kore_pgsql_init l;;
           kore_pgsql_bind_request l r;;
           mret l
       end;
  ok ← kore_pgsql_setup run_cb count_bits fuel st "db" KORE_PGSQL_ASYNC;
  if (ok =? 0)%Z then
    v ← get_pgsql st;
    if bool_decide (state v = KORE_PGSQL_STATE_INIT) then
      set_fsm r Auth.REQ_STATE_INIT;; mret Auth.HTTP_STATE_RETRY
    else kore_pgsql_logerror st;; set_fsm r Auth.REQ_STATE_ERROR;; mret Auth.HTTP_STATE_CONTINUE
  else set_fsm r Auth.REQ_STATE_QUERY;; mret Auth.HTTP_STATE_CONTINUE.
Definition request_perform_init2 : loc -> m Auth.http_state_result := request_perform_init.

Definition perform_query (query : string) (r : loc) : m Auth.http_state_result :=
  st ← state_addr r;
  get_rstate st;;
  set_fsm r Auth.REQ_STATE_DB_WAIT;;
  ok ← kore_pgsql_query run_cb st query;
  if (ok =? 0)%Z then mret Auth.HTTP_STATE_CONTINUE else mret Auth.HTTP_STATE_RETRY.
Definition request_perform_query : loc -> m Auth.http_state_result := perform_query "update banners set alt='feodor'".
Definition request_perform_query2 : loc -> m Auth.http_state_result := perform_query "update coders set name='Linux'".

Definition request_db_wait (r : loc) : m Auth.http_state_result :=
  st ← state_addr r;
  v ← get_pgsql st;
  match state v with
  | KORE_PGSQL_STATE_WAIT => mret Auth.HTTP_STATE_RETRY
  | KORE_PGSQL_STATE_COMPLETE => set_fsm r Auth.REQ_STATE_DONE;; mret Auth.HTTP_STATE_CONTINUE
  | KORE_PGSQL_STATE_ERROR =>
      set_fsm r Auth.REQ_STATE_ERROR;; kore_pgsql_logerror st;; mret Auth.HTTP_STATE_CONTINUE
  | KORE_PGSQL_STATE_RESULT => set_fsm r Auth.REQ_STATE_DB_READ;; mret Auth.HTTP_STATE_CONTINUE
  | _ => kore_pgsql_continue run_cb count_bits fuel st;; mret Auth.HTTP_STATE_CONTINUE
  end.

Definition request_db_read (r : loc) : m Auth.http_state_result :=
  st ← state_addr r;
  kore_pgsql_continue run_cb count_bits fuel st;;
  set_fsm r Auth.REQ_STATE_DB_WAIT;;
  mret Auth.HTTP_STATE_CONTINUE.
Definition request_db_read2 (r : loc) : m Auth.http_state_result :=
  st ← state_addr r; get_rstate st;; request_db_read r.

Definition request_error (r : loc) : m Auth.http_state_result :=
  st ← state_addr r;
  kore_pgsql_cleanup run_cb fuel st;;
  state_cleanup r st;;
  http_response r 500 NoBody;;
  mret Auth.HTTP_STATE_COMPLETE.
Definition request_error2 : loc -> m Auth.http_state_result := request_error.

Definition request_done (r : loc) : m Auth.http_state_result :=
  st ← state_addr r;
  ev_mod (ev_http (http_populate_get r));;
  h ← ev_get http;
  let b1 := match http_argument_get_string r "id" h with
            | Some sid => ("id as a string: '" ++ sid ++ "'" ++ Sse.nl)%string | None => EmptyString end in
  let b2 := match http_argument_get_uint16 r "id" h with
            | Some id => ("id as an u_int16_t: " ++ pretty id ++ Sse.nl)%string | None => EmptyString end in
  http_response r 200 (Text (b1 ++ b2)%string);;
  kore_pgsql_cleanup run_cb fuel st;;
  state_cleanup r st;;
  mret Auth.HTTP_STATE_COMPLETE.

Definition request_done2 (r : loc) : m Auth.http_state_result :=
  st ← state_addr r;
  http_response r 200 (Text "pagedone");;
  kore_pgsql_cleanup run_cb fuel st;;
  state_cleanup r st;;
  mret Auth.HTTP_STATE_COMPLETE.

Definition mystates : list (loc -> m Auth.http_state_result) :=
  [request_perform_init; request_perform_query; request_db_wait; request_db_read; request_error; request_done].
Definition mystates2 : list (loc -> m Auth.http_state_result) :=
  [request_perform_init2; request_perform_query2; request_db_wait; request_db_read2; request_error2; request_done2].

(** *** Pages *)

(** [for(;;)] over [http_body_read]: what it returns each time; [None]: an error. *)
Fixpoint read_body (reads : list (option string)) (buf : string) : option string :=
  match reads with
  | [] => Some buf
  | None :: _ => None
  | Some d :: reads => if bool_decide (d = EmptyString) then Some buf else read_body reads (buf ++ d)
  end.

Definition page (reads : list (option string)) (r : loc) : m Z :=
  q ← get_hreq r;
  if negb (bool_decide (method q = HTTP_METHOD_POST)) then
    http_response r 405 (Text "ono");; mret KORE_RESULT_OK
  else
    match read_body reads EmptyString with
    | None => http_response r 500 (Text "nob");; mret KORE_RESULT_OK
    | Some _ => http_state_run mystates2 r
    end.

Definition ranger (r : loc) : m Z := http_state_run mystates r.

Definition only_get (r : loc) (k : m Z) : m Z :=
  q ← get_hreq r;
  if bool_decide (method q = HTTP_METHOD_GET) then k
  else http_response_header r "allow" "get";; http_response r 405 NoBody;; mret KORE_RESULT_OK.

Definition dpage (r : loc) : m Z :=
  only_get r (http_response_header r "content-type" "text/html";;
              http_response r 200 (Asset "index.html");; mret KORE_RESULT_OK).

Definition check_header (r : loc) (name value : string) : m Z :=
  h ← ev_get http;
  match http_request_header r name h with
  | None => http_response r 400 NoBody;; mret KORE_RESULT_ERROR
  | Some hdr =>
      if bool_decide (hdr = value) then mret KORE_RESULT_OK
      else http_response r 400 NoBody;; mret KORE_RESULT_ERROR
  end.

(** *** Server-sent events *)

Definition sse_send (c : loc) (data : string) : m unit :=
  v ← get_client c;
  match hdlr_extra v with
  | None => mret tt
  | Some _ => ev_mod (ev_out (fun o => o ++ [(c, data)]))
  end.

Fixpoint send_each (src : option loc) (data : string) (cs : list loc) : m unit :=
  match cs with
  | [] => mret tt
  | c :: cs => (if decide (Some c = src) then mret tt else sse_send c data);; send_each src data cs
  end.
Definition sse_broadcast (src : loc) (data : string) : m unit := cs ← ev_get connections; send_each (Some src) data cs.
Definition brod (data : string) : m unit := cs ← ev_get connections; send_each None data cs.

Definition sse_ping (c : loc) : m unit := sse_send c ping.

Definition sse_disconnect (c : loc) : m unit :=
  v ← get_client c;
  sse_broadcast c leaving;;
  st ← deref (hdlr_extra v);
  ss ← ev_get sse_states;
  t ← live (ss !! st);
  ev_mod (ev_timers (timer_remove t));;
  ev_mod (ev_sse_states (delete st));;
  update_client c (fun v => c_disconnect (fun _ => false) (c_hdlr_extra (fun _ => None) v)).

Definition subscribe (r : loc) : m Z :=
  q ← get_hreq r;
  if bool_decide (req_extra q <> None) then http_response r 500 NoBody;; mret KORE_RESULT_OK
  else
    only_get r
      (ok ← check_header r "accept" "text/event-stream";
       if (ok =? 0)%Z then mret KORE_RESULT_OK
       else
         let c := owner q in
         update_hreq r (r_no_length (fun _ => true));;
         sse_broadcast c hello;;
         update_client c (c_disconnect (fun _ => true));;
         update_client c (c_read_block (fun _ => true));;
         st ← new_addr;
         update_client c (c_hdlr_extra (fun _ => Some st));;
         t ← kore_timer_add c;
         ev_mod (ev_sse_states <[st := t]>);;
         http_response_header r "content-type" "text/event-stream";;
         http_response r 200 NoBody;;
         mret KORE_RESULT_OK).

(** A message of the task: its bytes up to the terminator, which [buf] is printed up to. *)
Definition pipe_data_available (finished : bool) (msg : string) : m unit :=
  if finished then mret tt
  else if BUFSIZ <? S (String.length msg) then crash Unterminated
  else brod (leav ++ msg ++ Sse.nl ++ Sse.nl).

(** *** Websockets *)

Definition db_init (l : loc) : m unit :=
  ok ← kore_pgsql_setup run_cb count_bits fuel l "db" KORE_PGSQL_ASYNC;
  if (ok =? 0)%Z then
    v ← get_pgsql l;
    if bool_decide (state v = KORE_PGSQL_STATE_INIT) then mret tt
    else kore_pgsql_logerror l;; mret tt
  else
    ok ← kore_pgsql_query run_cb l "select * from coders";
    if (ok =? 0)%Z then kore_pgsql_logerror l;; mret tt else mret tt.

Definition connection_new (c : loc) : m unit :=
  l ← new_addr;
  kore_pgsql_init l;;
  kore_pgsql_bind_callback l 0 c;;
  update_client c (c_hdlr_extra (fun _ => Some l)).

Definition connection_del (c : loc) : m unit :=
  v ← get_client c;
  (match hdlr_extra v with
   | Some l => kore_pgsql_cleanup run_cb fuel l;; modify (set_pgsqls (delete l))
   | None => mret tt
   end);;
  update_client c (c_hdlr_extra (fun _ => None)).

(** [name] of a loop over no rows was never set. *)
Fixpoint last_name (l : loc) (i : Z) (rows : nat) (name : option string) : m (option string) :=
  match rows with
  | O => mret name
  | S rows => v ← kore_pgsql_getvalue l i 0; last_name l (i + 1) rows (Some v)
  end.

Definition db_results (l c : loc) : m unit :=
  rows ← kore_pgsql_ntuples l;
  name ← last_name l 0 (Z.to_nat rows) None;
  match name with
  | None => crash Indeterminate
  | Some name => kore_websocket_send c name;; kore_pgsql_continue run_cb count_bits fuel l
  end.

Definition db_state_change (l c : loc) : m unit :=
  v ← get_pgsql l;
  match state v with
  | KORE_PGSQL_STATE_INIT => db_init l
  | KORE_PGSQL_STATE_WAIT => mret tt
  | KORE_PGSQL_STATE_COMPLETE => get_client c;; kore_pgsql_cleanup run_cb fuel l
  | KORE_PGSQL_STATE_ERROR => kore_pgsql_logerror l;; ev_mod (ev_dropped (cons c))
  | KORE_PGSQL_STATE_RESULT => db_results l c
  | _ => kore_pgsql_continue run_cb count_bits fuel l
  end.

Definition websocket_connect (c : loc) : m unit := connection_new c.
Definition websocket_disconnect (c : loc) : m unit := connection_del c.
Definition websocket_message (c : loc) (data : string) : m unit :=
  v ← get_client c;
  l ← deref (hdlr_extra v);
  db_init l;;
  kore_websocket_send c data.

Definition init : m Z := kore_pgsql_register "db" "dbname=postgres";; mret KORE_RESULT_OK.
End Code.

(** ** The knot: callback 0 is [db_state_change] *)

Section Knot.
Context {P R T H : Type} `{LibPq P R} `{KoreTimers T} `{KoreHttp H} `{PgVersion}.
Context (count_bits : Z) (fuel : nat).

Fixpoint run_cb (depth : nat) (k : nat) (l c : loc) : M (pg_world P R (events T H)) unit :=
  match depth with
  | O => crash Fuel
  | S depth => db_state_change (run_cb depth) count_bits fuel l c
  end.
End Knot.

(** ** Answers *)

#[export] Instance http_state_result_eq_dec : EqDecision Auth.http_state_result.
Proof. solve_decision. Defined.

Section Answers.
Context {P R T H : Type} `{LibPq P R} `{KoreTimers T} `{KoreHttp H} `{PgVersion}.
Implicit Types w : pg_world P R (events T H).
Context (count_bits : Z) (fuel : nat) (r : loc).

(** The responses the request [r] has got. *)
Definition responses (a : events T H) : nat := length (filter (fun x => x.1 = r /\ is_response x.2 = true) (sent a)).

Section Kept.
Context (I : events T H -> Prop) (HI : forall a b, sent a = sent b -> I a -> I b).
Abbreviation keeps := (preserves (fun w : pg_world P R (events T H) => I (app w))).
Context (cbs : nat -> loc -> loc -> M (pg_world P R (events T H)) unit) (Hcbs : forall k l a, keeps (cbs k l a)).

Lemma keeps_ev_mod f : (forall a, sent (f a) = sent a) -> keeps (ev_mod f).
Proof. intros Hf. apply preserves_modify. intros [] Hw. cbn in *. eapply HI; [|exact Hw]. symmetry. apply Hf. Qed.
Lemma keeps_ev_get {A : Type} (f : events T H -> A) : keeps (ev_get f).
Proof. apply preserves_gets. Qed.
Create HintDb ev.
#[local] Hint Resolve preserves_ret preserves_gets preserves_crash preserves_live preserves_deref preserves_when Hcbs
  keeps_ev_get keeps_get_pgsql keeps_new_addr keeps_cleanup keeps_query keeps_init keeps_logerror
  keeps_setup keeps_continue keeps_bind_callback : ev.
#[local] Hint Extern 2 (preserves _ (ev_mod _)) => (apply keeps_ev_mod; done) : ev.
#[local] Hint Extern 3 (preserves _ (modify _)) => (apply preserves_modify; intros [] ?; assumption) : ev.
#[local] Hint Extern 4 (preserves _ (_ ≫= _)) => (apply preserves_bind; [|intros ?]) : ev.
#[local] Hint Extern 5 (preserves _ (match ?x with _ => _ end)) => destruct x : ev.
Ltac kev := intros; eauto 60 with ev.

Lemma keeps_set_fsm q s : keeps (set_fsm q s).
Proof. unfold set_fsm, update_hreq, get_hreq. kev. Qed.
Lemma keeps_state_addr q : keeps (state_addr q).
Proof. unfold state_addr. kev. Qed.
Lemma keeps_get_rstate l : keeps (get_rstate l).
Proof. unfold get_rstate. kev. Qed.
Lemma keeps_state_cleanup q l : keeps (state_cleanup q l).
Proof. unfold state_cleanup. kev. Qed.
Lemma keeps_bind_request l q : keeps (kore_pgsql_bind_request l q).
Proof. unfold kore_pgsql_bind_request, update_pgsql, get_pgsql. kev. Qed.
#[local] Hint Resolve keeps_set_fsm keeps_state_addr keeps_get_rstate keeps_state_cleanup keeps_bind_request : ev.

Lemma keeps_state_change l c : keeps (db_state_change cbs count_bits fuel l c).
Proof.
  unfold db_state_change, db_init, db_results, kore_websocket_send, get_client, kore_pgsql_ntuples.
  assert (Hln : forall rows l i nm, keeps (last_name l i rows nm)).
  { intros rows. induction rows as [|rows IH]; intros; cbn [last_name]; unfold kore_pgsql_getvalue; kev. }
  kev.
Qed.

Lemma keeps_before_answer n step q :
  mystates cbs count_bits fuel !! n = Some step \/ mystates2 cbs count_bits fuel !! n = Some step ->
  n < 4 -> keeps (step q).
Proof.
  intros Hs Hn.
  assert (Hd : keeps (request_db_read cbs count_bits fuel q)) by (unfold request_db_read; kev).
  do 4 (destruct n as [|n]; [destruct Hs as [[= <-]|[= <-]];
    unfold request_perform_init2, request_perform_init, request_perform_query, request_perform_query2, perform_query,
      request_db_wait, request_db_read2; kev|]). lia.
Qed.

Lemma keeps_freed q l : keeps (kore_pgsql_cleanup cbs fuel l;; state_cleanup q l).
Proof. kev. Qed.
End Kept.

Lemma keeps_run_cb (I : events T H -> Prop) (HI : forall a b, sent a = sent b -> I a -> I b) depth k l a :
  preserves (fun w => I (app w)) (run_cb (P := P) (R := R) count_bits fuel depth k l a).
Proof.
  revert k l a. induction depth as [|d IH]; intros; cbn [run_cb]; [apply preserves_crash|by apply keeps_state_change].
Qed.

(** [unfinished c]: no run of [c] ends with [HTTP_STATE_COMPLETE]. *)
Definition unfinished (c : M (pg_world P R (events T H)) Auth.http_state_result) : Prop :=
  forall w res w', c w = Done (res, w') -> res <> Auth.HTTP_STATE_COMPLETE.
Lemma unfinished_bind {B : Type} (c : M (pg_world P R (events T H)) B) k :
  (forall b, unfinished (k b)) -> unfinished (c ≫= k).
Proof. intros Hk w res w' (b & w1 & _ & Hr)%bind_Done. by eapply Hk. Qed.
Lemma unfinished_ret res : res <> Auth.HTTP_STATE_COMPLETE -> unfinished (mret res).
Proof. intros Hres w a w' [= <- <-]. done. Qed.

Lemma unfinished_before_answer cbs n step q :
  mystates cbs count_bits fuel !! n = Some step \/ mystates2 cbs count_bits fuel !! n = Some step ->
  n < 4 -> unfinished (step q).
Proof.
  intros Hs Hn.
  do 4 (destruct n as [|n]; [destruct Hs as [[= <-]|[= <-]];
    unfold request_perform_init2, request_perform_init, request_perform_query, request_perform_query2, perform_query,
      request_db_wait, request_db_read2, request_db_read;
    repeat first [apply unfinished_bind; intros ? | apply unfinished_ret; done | case_match]|]). lia.
Qed.

Lemma responses_response q code b a :
  responses (ev_sent (cons (q, Response code b)) a) = responses a + (if decide (q = r) then 1 else 0).
Proof.
  unfold responses. cbn [sent ev_sent]. rewrite filter_cons. cbn [fst snd is_response].
  case_decide as Hd; case_decide; subst; cbn; [lia|naive_solver|naive_solver|lia].
Qed.

Lemma http_response_adds q code b w u w' :
  http_response q code b w = Done (u, w') -> responses (app w') = responses (app w) + (if decide (q = r) then 1 else 0).
Proof. intros [= <- <-]. apply responses_response. Qed.

(** What follows the answer, and what precedes it, sends none. *)
Lemma kept_responses {B : Type} (c : M (pg_world P R (events T H)) B) w b w' :
  (forall I : events T H -> Prop, (forall a b, sent a = sent b -> I a -> I b) -> preserves (fun w => I (app w)) c) ->
  c w = Done (b, w') -> responses (app w') = responses (app w).
Proof.
  intros Hc Hr. refine (Hc (fun a => responses a = responses (app w)) _ w b w' eq_refl Hr).
  intros a a' Ha. unfold responses. by rewrite Ha.
Qed.

Lemma request_error_answers depth q w res w' :
  request_error (run_cb count_bits fuel depth) fuel q w = Done (res, w') ->
  res = Auth.HTTP_STATE_COMPLETE /\ responses (app w') = responses (app w) + (if decide (q = r) then 1 else 0).
Proof.
  unfold request_error. intros (st & w1 & H1' & Hr)%bind_Done.
  apply bind_Done in Hr as ([] & w2 & H2' & Hr). apply bind_Done in Hr as ([] & w3 & H3' & Hr).
  apply bind_Done in Hr as ([] & w4 & H4' & Hr). injection Hr as <- <-. split; [done|].
  rewrite (http_response_adds _ _ _ _ _ _ H4'). f_equal.
  assert (Hf : (kore_pgsql_cleanup (run_cb count_bits fuel depth) fuel st;; state_cleanup q st) w1 = Done (tt, w3))
    by (by rewrite (bind_step _ _ _ _ _ H2')).
  rewrite (kept_responses _ _ _ _ (fun I HI => keeps_freed I HI _ (keeps_run_cb I HI depth) q st) Hf).
  by rewrite (kept_responses _ _ _ _ (fun I HI => keeps_state_addr I q) H1').
Qed.

Lemma done_answers depth q st code b w w' res :
  (http_response q code b;; kore_pgsql_cleanup (run_cb count_bits fuel depth) fuel st;; state_cleanup q st;;
   mret Auth.HTTP_STATE_COMPLETE) w = Done (res, w') ->
  res = Auth.HTTP_STATE_COMPLETE /\ responses (app w') = responses (app w) + (if decide (q = r) then 1 else 0).
Proof.
  intros ([] & w1 & H1' & Hr)%bind_Done. rewrite <- (http_response_adds _ _ _ _ _ _ H1').
  apply bind_Done in Hr as ([] & w2 & H2' & Hr). apply bind_Done in Hr as ([] & w3 & H3' & [= <- <-]). split; [done|].
  assert (Hf : (kore_pgsql_cleanup (run_cb count_bits fuel depth) fuel st;; state_cleanup q st) w1 = Done (tt, w3))
    by (by rewrite (bind_step _ _ _ _ _ H2')).
  apply (kept_responses _ _ _ _ (fun I HI => keeps_freed I HI _ (keeps_run_cb I HI depth) q st) Hf).
Qed.

Lemma request_done_answers depth q w res w' :
  request_done (run_cb count_bits fuel depth) fuel q w = Done (res, w') ->
  res = Auth.HTTP_STATE_COMPLETE /\ responses (app w') = responses (app w) + (if decide (q = r) then 1 else 0).
Proof.
  unfold request_done. intros (st & w1 & H1' & Hr)%bind_Done.
  apply bind_Done in Hr as ([] & w2 & H2' & Hr). apply bind_Done in Hr as (h & w3 & H3' & Hr).
  apply done_answers in Hr as [Hres Hr]. split; [done|]. rewrite Hr. f_equal.
  injection H3' as <- <-. injection H2' as <-. cbn [app set_app]. change (responses (ev_http _ ?a)) with (responses a).
  by rewrite (kept_responses _ _ _ _ (fun I HI => keeps_state_addr I q) H1').
Qed.

Lemma request_done2_answers depth q w res w' :
  request_done2 (run_cb count_bits fuel depth) fuel q w = Done (res, w') ->
  res = Auth.HTTP_STATE_COMPLETE /\ responses (app w') = responses (app w) + (if decide (q = r) then 1 else 0).
Proof.
  unfold request_done2. intros (st & w1 & H1' & Hr)%bind_Done.
  apply done_answers in Hr as [Hres Hr]. split; [done|]. rewrite Hr. f_equal.
  by rewrite (kept_responses _ _ _ _ (fun I HI => keeps_state_addr I q) H1').
Qed.

(** C23: a request of either table is answered exactly when its state machine completes: a step that
    ends with COMPLETE has sent one response to its own request and none to another, a step that
    ends otherwise has sent none, whatever callbacks of the database ran meanwhile. *)
Theorem answered_when_complete depth n step q w res w' :
  mystates (run_cb count_bits fuel depth) count_bits fuel !! n = Some step \/
  mystates2 (run_cb count_bits fuel depth) count_bits fuel !! n = Some step ->
  step q w = Done (res, w') ->
  responses (app w') =
  responses (app w) + (if decide (res = Auth.HTTP_STATE_COMPLETE /\ q = r) then 1 else 0).
Proof.
  intros Hs Hr. destruct (decide (n < 4)) as [Hn|Hn].
  - rewrite decide_False; [|intros [Hres _]; by eapply unfinished_before_answer].
    rewrite Nat.add_0_r. eapply kept_responses; [|exact Hr]. intros I HI.
    by eapply keeps_before_answer; [exact HI|apply keeps_run_cb|exact Hs|].
  - assert (Hend : res = Auth.HTTP_STATE_COMPLETE /\
      responses (app w') = responses (app w) + (if decide (q = r) then 1 else 0)).
    { do 4 (destruct n as [|n]; [lia|]). destruct n as [|[|n]]; [| |by destruct Hs].
      - destruct Hs as [[= <-]|[= <-]]; by eapply request_error_answers.
      - destruct Hs as [[= <-]|[= <-]]; [by eapply request_done_answers|by eapply request_done2_answers]. }
    destruct Hend as [-> ->]. f_equal. repeat case_decide; naive_solver.
Qed.
End Answers.

(** ** Notifications *)

Section Broadcast.
Context {P R T H : Type} `{LibPq P R} `{KoreTimers T} `{KoreHttp H} `{PgVersion}.
Implicit Types w : pg_world P R (events T H).
Context (count_bits : Z) (fuel : nat).

(** The connections whose field for the application is set. *)
Definition hears (a : events T H) (c : loc) : Prop := exists v, clients a !! c = Some v /\ hdlr_extra v <> None.
#[global] Instance hears_dec a c : Decision (hears a c).
Proof.
  destruct (clients a !! c) as [v|] eqn:Hv.
  - destruct (hdlr_extra v) eqn:He; [left; exists v|right; intros (v' & Hv' & He')]; [by rewrite He|].
    rewrite Hv in Hv'. by injection Hv' as <-.
  - right. intros (v & Hv' & _). by rewrite Hv in Hv'.
Defined.

Definition all_live (a : events T H) : Prop := Forall (fun c => is_Some (clients a !! c)) (connections a).

(** What a broadcast queues: the text once for each connection that hears it, in the order of
    kore's list. *)
Definition heard (src : option loc) (data : string) (a : events T H) (cs : list loc) : list (loc * string) :=
  (fun c => (c, data)) <$> filter (fun c => Some c <> src /\ hears a c) cs.

Lemma ev_out_nil (w : pg_world P R (events T H)) : set_app (ev_out (fun o => o ++ [])) w = w.
Proof. destruct w as [? ? ? ? ? ? ? ? ? ? ? []]. unfold set_app, ev_out. cbn. by rewrite app_nil_r. Qed.

Lemma sse_send_text w c data :
  is_Some (clients (app w) !! c) ->
  sse_send c data w = Done (tt, set_app (ev_out (fun o => o ++ heard None data (app w) [c])) w).
Proof.
  intros [v Hv]. unfold sse_send, get_client. rewrite bind_assoc. run eq_refl. rewrite Hv. run eq_refl.
  unfold heard. rewrite filter_cons, filter_nil. destruct (hdlr_extra v) as [st|] eqn:He.
  - rewrite decide_True; [done|]. split; [done|]. exists v. by rewrite He.
  - rewrite decide_False; [by rewrite ev_out_nil|]. intros [_ (v' & Hv' & He')]. congruence.
Qed.

Lemma send_each_run src data cs w :
  Forall (fun c => is_Some (clients (app w) !! c)) cs ->
  send_each src data cs w = Done (tt, set_app (ev_out (fun o => o ++ heard src data (app w) cs)) w).
Proof.
  revert w. induction cs as [|c cs IH]; intros w Hcs; [by rewrite ev_out_nil|].
  apply Forall_cons in Hcs as [Hc Hcs]. cbn [send_each]. unfold heard. rewrite filter_cons.
  case_decide as Hsrc.
  - run eq_refl. rewrite decide_False by (by intros []). by apply IH.
  - run (sse_send_text _ _ data Hc). rewrite IH by done. unfold heard. rewrite filter_cons, filter_nil.
    do 2 f_equal. destruct w as [? ? ? ? ? ? ? ? ? ? ? a]. unfold set_app, ev_out. cbn. f_equal.
    do 2 case_decide; cbn; by rewrite <- ?app_assoc; cbn; try naive_solver.
Qed.

Definition event_text (msg : string) : string := leav ++ msg ++ Sse.nl ++ Sse.nl.

Lemma notification_run w msg :
  all_live (app w) -> S (String.length msg) <= BUFSIZ ->
  pipe_data_available false msg w =
  Done (tt, set_app (ev_out (fun o => o ++ heard None (event_text msg) (app w) (connections (app w)))) w).
Proof.
  intros Ha Hl. unfold pipe_data_available. rewrite (proj2 (Nat.ltb_ge _ _)) by done. unfold brod. run eq_refl.
  by apply send_each_run.
Qed.

(** a notification that fits the buffer is queued once for every connection whose field for the
    application is set, in the order of kore's list, and nothing else happens. *)
Theorem notification_reaches_clients w msg :
  all_live (app w) ->
  pipe_data_available false msg w =
  if decide (String.length msg < BUFSIZ)
  then Done (tt, set_app (ev_out (fun o => o ++ heard None (event_text msg) (app w) (connections (app w)))) w)
  else Crash Unterminated.
Proof.
  intros Ha. case_decide as Hl; [by apply notification_run; [|lia]|].
  unfold pipe_data_available. by rewrite (proj2 (Nat.ltb_lt _ _)) by lia.
Qed.

(** The worker's side of a task's channel: what was written, message by message. *)
Definition deliver (msgs : list string) : M (pg_world P R (events T H)) unit :=
  foldr (fun msg k => pipe_data_available false msg;; k) (mret tt) msgs.

Definition heard_all (msgs : list string) (a : events T H) : list (loc * string) :=
  concat ((fun msg => heard None (event_text msg) a (connections a)) <$> msgs).

Lemma heard_ev_out src data f (a : events T H) cs : heard src data (ev_out f a) cs = heard src data a cs.
Proof. done. Qed.

Lemma deliver_run msgs w :
  all_live (app w) -> Forall (fun msg => String.length msg < BUFSIZ) msgs ->
  deliver msgs w = Done (tt, set_app (ev_out (fun o => o ++ heard_all msgs (app w))) w).
Proof.
  revert w. induction msgs as [|msg msgs IH]; intros w Ha Hm; [by rewrite ev_out_nil|].
  apply Forall_cons in Hm as [Hmsg Hm]. cbn [deliver foldr]. run (notification_run w msg Ha ltac:(lia)).
  change (foldr _ _ msgs) with (deliver msgs). rewrite IH by done.
  unfold heard_all. cbn [fmap list_fmap concat]. do 2 f_equal. unfold set_app, ev_out. cbn. by rewrite <- app_assoc.
Qed.

(** C6: the way of a notification, from the database to the browsers: what libpq has for the task
    when its socket is readable is written into the task's channel, and the worker that reads
    the channel queues each of them for every connection that hears it, in order. *)
Theorem notifications_reach_browsers `{!LibPqLaws P R} `{!Listen.PqAsync P} n (lw : Listen.lworld P) w h sock fds rfds p1 p2 :
  h ∈ Listen.alive lw -> sock ∈ rfds -> sock ∈ fds ->
  PQconsumeInput h (Listen.pq lw) = (true, p1) -> Listen.commands_ok h p1 p2 ->
  results_left h p1 < n -> notifies_left h p2 < n -> all_live (app w) ->
  exists es p3 lw', Listen.drained h p2 es p3 /\
    Listen.select_part n h sock (Listen.Turn 0 (Some fds)) true rfds lw = Done ((true, rfds ∩ fds), lw') /\
    Listen.channel lw' = Listen.channel lw ++ es /\
    (Forall (fun msg => String.length msg < BUFSIZ) es ->
     deliver es w = Done (tt, set_app (ev_out (fun o => o ++ heard_all es (app w))) w)).
Proof.
  intros Ha Hr Hf Hc Hok Hn1 Hn2 Hl.
  destruct (Listen.forwarded_run n h sock fds rfds lw p1 p2) as (es & p3 & lw' & Hd & Hrun & Hch); try done.
  exists es, p3, lw'. split_and!; [done|done|done|]. intros Hes. by apply deliver_run.
Qed.

(** The query a websocket gets when it is opened. *)
Definition bound_query (c : loc) : kore_pgsql R :=
  pg_set_arg (fun _ => c) (pg_set_cb (fun _ => Some 0) (pg_set_state (fun _ => KORE_PGSQL_STATE_INIT) zero_pgsql)).

Lemma connection_new_run w c v :
  clients (app w) !! c = Some v ->
  connection_new c w = Done (tt, set_app (ev_clients <[c := c_hdlr_extra (fun _ => Some (fresh_addr w)) v]>)
    (set_pgsqls <[fresh_addr w := bound_query c]> (set_fresh_addr S w))).
Proof.
  intros Hv. unfold connection_new, new_addr. rewrite bind_assoc. run eq_refl. rewrite bind_assoc. run eq_refl. run eq_refl. run eq_refl.
  unfold kore_pgsql_bind_callback. rewrite bind_assoc. run (get_pgsql_again (set_fresh_addr S w) (fresh_addr w) _).
  rewrite !bool_decide_false by (cbn; by intros []). run (update_pgsql_again (set_fresh_addr S w) (fresh_addr w) _ _).
  unfold update_client, get_client. rewrite bind_assoc. run eq_refl. cbn [app set_pgsqls set_fresh_addr]. rewrite Hv. by run eq_refl.
Qed.

(** The reserved bits of the first byte a websocket client reads (RFC 6455, 5.2). *)
Definition reserved_bits (s : string) : option (bool * bool * bool) :=
  match s with
  | EmptyString => None
  | String.String a _ => let b := Z.of_nat (Ascii.nat_of_ascii a) in Some (Z.testbit b 6, Z.testbit b 5, Z.testbit b 4)
  end.

(** a browser that has only opened a websocket is sent the notification too, as it is: the
    first byte of the text is read as the head of a frame, with the reserved bits 1, 1 and 0. *)
Theorem websocket_gets_raw_event w c msg w1 :
  all_live (app w) -> websocket_connect c w = Done (tt, w1) -> c ∈ connections (app w) -> String.length msg < BUFSIZ ->
  exists evs s, pipe_data_available false msg w1 = Done (tt, set_app (ev_out (fun o => o ++ evs)) w1) /\
    (c, s) ∈ evs /\ reserved_bits s = Some (true, true, false) /\ ws_out (app w1) = ws_out (app w).
Proof.
  intros Ha Hc Hin Hl. destruct (proj1 (Forall_forall _ _) Ha c Hin) as [v Hv].
  unfold websocket_connect in Hc. rewrite (connection_new_run w c v Hv) in Hc. injection Hc as <-.
  set (w1 := set_app _ _).
  assert (Hlive : all_live (app w1)).
  { apply Forall_forall. intros d Hd. cbn. destruct (decide (d = c)) as [->|Hne]; [by rewrite lookup_insert_eq|].
    rewrite lookup_insert_ne by done. by apply (proj1 (Forall_forall _ _) Ha). }
  eexists _, (event_text msg). split; [apply notification_run; [exact Hlive|lia]|]. split_and!; [|done|done].
  apply list_elem_of_fmap. exists c. split; [done|]. apply list_elem_of_filter. split; [|done].
  split; [done|]. eexists. split; [apply lookup_insert_eq|done].
Qed.
End Broadcast.

(** ** The query of a websocket *)

Section Query.
Context {P R T H : Type} `{LibPqLaws P R} `{KoreTimers T} `{KoreHttp H} `{PgVersion}.
Implicit Types w : pg_world P R (events T H).
Context (count_bits : Z) (fuel : nat).

(** The browser [c] has the query [l], which may be asked for a connection. *)
Definition ws_query w (c l : loc) (v : kore_pgsql R) : Prop :=
  (exists k, clients (app w) !! c = Some k /\ hdlr_extra k = Some l) /\
  pgsqls w !! l = Some v /\ cb v = Some 0 /\ arg v = c /\ req v = None /\
  has (flags v) KORE_PGSQL_SYNC = false.

(** The first free connection is one to the application's database. *)
Definition ready_conn w (x : loc) (xv : pgsql_conn) (h : nat) (rest : list loc) : Prop :=
  (exists d, find_db "db" (pgsql_db_conn_strings w) = Some d) /\
  pgsql_conn_free w = x :: rest /\ NoDup (pgsql_conn_free w) /\ free_conn w x xv /\ c_name xv = "db" /\
  c_db xv = Some h /\ PQtransactionStatus h (pq w) <> PQTRANS_INERROR.

Lemma run_cb_wait d k w l c v :
  pgsqls w !! l = Some v -> state v = KORE_PGSQL_STATE_WAIT ->
  run_cb count_bits fuel (S d) k l c w = Done (tt, w).
Proof. intros Hl Hs. cbn [run_cb]. unfold db_state_change. run (get_pgsql_run _ _ _ Hl). by rewrite Hs. Qed.

Lemma has_or_async f b : has (Z.lor f KORE_PGSQL_ASYNC) b = has f b || has KORE_PGSQL_ASYNC b.
Proof.
  unfold has. rewrite Z.land_lor_distr_l. destruct (Z.eqb_spec (Z.land f b) 0) as [->|Hf]; cbn [negb orb].
  - by rewrite Z.lor_0_l.
  - destruct (Z.eqb_spec (Z.lor (Z.land f b) (Z.land KORE_PGSQL_ASYNC b)) 0) as [Hz|]; [|done].
    by apply Z.lor_eq_0_iff in Hz as [? _].
Qed.

(** What a message leaves when there is a connection for its query. *)
Definition query_out w (c l x : loc) (xv : pgsql_conn) (v : kore_pgsql R) (h : nat) (rest : list loc) (data : string) (p : P) :
    pg_world P R (events T H) :=
  let vw := pg_set_flags (Z.lor KORE_PGSQL_SCHEDULED) (pg_set_state (fun _ => KORE_PGSQL_STATE_WAIT)
    (pg_set_conn (fun _ => Some x) (pg_set_flags (fun f => Z.lor f KORE_PGSQL_ASYNC) v))) in
  set_app (ev_ws_out (fun o => o ++ [(c, data)]))
    (set_pgsqls <[l := vw]> (set_reads (union {[PQsocket h p]}) (set_pq (fun _ => p)
      (set_conns <[x := conn_set_c_job (fun _ => Some l) (conn_set_c_flags (clear_flag PGSQL_CONN_FREE) xv)]>
        (set_pgsql_conn_free (fun _ => rest) w))))).

Lemma websocket_message_run d w c l v x xv h rest data p :
  ws_query w c l v -> ready_conn w x xv h rest -> PQsendQuery h "select * from coders" (pq w) = (true, p) ->
  (0 <= PQsocket h p)%Z -> 1 <= fuel ->
  websocket_message (run_cb count_bits fuel (S d)) count_bits fuel c data w =
  Done (tt, query_out w c l x xv v h rest data p).
Proof.
  intros ((k & Hk & He) & Hl & Hcb & Harg & Hr & Hns) ((db & Hdb) & Hfr & Hnd & Hfc & Hnm & Hh & Ht) Hs Hso Hf.
  unfold websocket_message, get_client. rewrite bind_assoc. run eq_refl. rewrite Hk. run eq_refl. rewrite He. run eq_refl.
  erewrite bind_step; [unfold kore_websocket_send; reflexivity|]. unfold db_init.
  run (setup_reuses_run count_bits (run_cb count_bits fuel (S d)) fuel w l v "db" db [] x rest xv h Hl
    ltac:(right; by rewrite Hcb) Hdb Hfr Hnd (Forall_nil_2 _) Hfc Hnm Hh Ht Hf ltac:(rewrite has_or_async; apply orb_true_r)).
  cbn [Z.eqb KORE_RESULT_OK app]. cbv iota. set (v1 := pg_set_conn _ _). set (w1 := set_conns _ _).
  run (query_sent (run_cb count_bits fuel (S d)) w1 l v1 x _ h "select * from coders" p 0 (lookup_insert_eq _ _ _) eq_refl
    (lookup_insert_eq _ _ _) Hh ltac:(subst v1; cbn [flags pg_set_conn pg_set_flags]; by rewrite has_or_async, Hns) Hs Hso Hr Hcb
    ltac:(eapply run_cb_wait; [apply lookup_insert_eq|done])).
  cbn [Z.eqb KORE_RESULT_OK]. cbv iota. unfold mret, M_ret, w1, set_conns, set_pgsqls, set_reads, set_pq. cbn.
  by rewrite insert_insert_eq.
Qed.

(** a message that comes while the query of the one before is still out takes another
    connection of the pool for it, and the first is lost: it stays marked as in use and is not
    free, and no query has it any more that could give it back. *)
Theorem second_message_loses_connection d w c l v old ov x xv h rest data p :
  ws_query w c l v -> state v = KORE_PGSQL_STATE_WAIT -> conn v = Some old ->
  conns w !! old = Some ov -> has (c_flags ov) PGSQL_CONN_FREE = false ->
  (forall l' v', pgsqls w !! l' = Some v' -> conn v' = Some old -> l' = l) ->
  Forall (fun y => exists yv, free_conn w y yv) (pgsql_conn_free w) ->
  ready_conn w x xv h rest -> PQsendQuery h "select * from coders" (pq w) = (true, p) ->
  (0 <= PQsocket h p)%Z -> 1 <= fuel ->
  exists w', websocket_message (run_cb count_bits fuel (S d)) count_bits fuel c data w = Done (tt, w') /\
    conns w' !! old = Some ov /\ old ∉ pgsql_conn_free w' /\
    (forall l' v', pgsqls w' !! l' = Some v' -> conn v' <> Some old) /\
    exists v', pgsqls w' !! l = Some v' /\ conn v' = Some x.
Proof.
  intros Hq Hst Hc Hov Hnf Hown Hall Hrc Hs Hso Hf. exists (query_out w c l x xv v h rest data p).
  split; [by apply websocket_message_run|]. destruct Hrc as (_ & Hfr & Hnd & _).
  assert (Hold : old ∉ pgsql_conn_free w).
  { intros Hin. apply (proj1 (Forall_forall _ _) Hall) in Hin as (yv & Hy & Hyf). rewrite Hov in Hy. injection Hy as <-. congruence. }
  rewrite Hfr in Hold. apply not_elem_of_cons in Hold as [Hne Hrest]. split_and!.
  - cbn. by rewrite lookup_insert_ne.
  - done.
  - intros l' v' Hl'. cbn in Hl'. destruct (decide (l' = l)) as [->|Hne'].
    + rewrite lookup_insert_eq in Hl'. injection Hl' as <-. cbn. congruence.
    + rewrite lookup_insert_ne in Hl' by done. intros Hc'. by apply Hne', (Hown l' v').
  - eexists. split; [apply lookup_insert_eq|done].
Qed.
End Query.

(** ** Rows for a websocket *)

Section Rows.
Context {P R T H : Type} `{LibPqLaws P R} `{KoreTimers T} `{KoreHttp H} `{PgVersion}.
Implicit Types w : pg_world P R (events T H).
Context (count_bits : Z) (fuel : nat).

(** The query [l] of the browser [c] is served by the connection [x]. *)
Definition served w (c l x : loc) (v : kore_pgsql R) (h : nat) : Prop :=
  is_Some (clients (app w) !! c) /\ pgsql_wait_queue w = [] /\
  pgsqls w !! l = Some v /\ conn v = Some x /\ cb v = Some 0 /\ arg v = c /\ req v = None /\
  exists xv, conns w !! x = Some xv /\ c_db xv = Some h /\ c_job xv = Some l.

Lemma serves_of w c l x v h : served w c l x v h -> serves w l v x h.
Proof. intros (_ & _ & Hl & Hc & _ & _ & _ & xv & Hx & Hh & _). split_and!; [done|done|by exists xv]. Qed.

(** A query that is DONE is continued: its connection is free again, its callback is told, and
    its record no longer has a connection. *)
Lemma continue_frees d w c l x v h p :
  served w c l x v h -> state v = KORE_PGSQL_STATE_DONE -> PQgetResult h (pq w) = (None, p) -> 1 <= fuel ->
  exists w' v', kore_pgsql_continue (run_cb count_bits fuel (S d)) count_bits fuel l w = Done (tt, w') /\
    app w' = app w /\ pgsqls w' !! l = Some v' /\ conn v' = None /\ pgsql_conn_free w' = pgsql_conn_free w ++ [x].
Proof.
  intros ([k Hk] & Hq & Hl & Hc & Hcb & Harg & Hreq & xv & Hx & Hh & Hj) Hs Hg Hf. unfold kore_pgsql_continue.
  run (update_pgsql_run _ _ _ _ Hl). set (v0 := pg_set_result _ _). set (w0 := set_pgsqls _ w).
  run (get_pgsql_run w0 l v0 (lookup_insert_eq _ _ _)). change (state v0) with (state v). rewrite Hs.
  unfold with_req. change (req v0) with (req v). rewrite Hreq. run eq_refl.
  destruct (release_done_run (run_cb count_bits fuel (S d)) fuel w0 l v0 x xv h p 0 (lookup_insert_eq _ _ _) Hc Hx Hh
    Hs Hg Hf Hcb) as (rs & ->).
  set (v1 := pg_set_state _ _). set (w1 := set_pgsqls _ _). change (arg v0) with (arg v). rewrite Harg.
  assert (Hl1 : pgsqls w1 !! l = Some v1) by apply lookup_insert_eq.
  destruct (cleanup_idle_run (run_cb count_bits fuel d) fuel w1 l v1 Hl1 eq_refl Hreq) as (v2 & Hcl & Hc2 & _).
  { unfold w1. cbn. rewrite Hq. apply not_elem_of_nil. }
  exists (set_pgsqls <[l := v2]> w1), v2. split_and!; [|done|apply lookup_insert_eq|done|done].
  assert (Hcl' : run_cb count_bits fuel (S d) 0 l c w1 = Done (tt, set_pgsqls <[l := v2]> w1)).
  { cbn [run_cb]. unfold db_state_change. run (get_pgsql_run _ _ _ Hl1). change (state v1) with KORE_PGSQL_STATE_COMPLETE. cbv iota.
    unfold get_client. rewrite bind_assoc. run eq_refl. change (app w1) with (app w). rewrite Hk. by run eq_refl. }
  run Hcl'. unfold pgsql_queue_wakeup. run eq_refl. change (pgsql_wait_queue (set_pgsqls _ w1)) with (pgsql_wait_queue w). by rewrite Hq.
Qed.

(** The layer's handler when the server has nothing more to say about the query. *)
Lemma drained_finishes d w c l x v h p1 p2 p3 p4 :
  served w c l x v h -> state v = KORE_PGSQL_STATE_RESULT ->
  PQconsumeInput h (pq w) = (true, p1) -> PQisBusy h p1 = false -> PQnotifies h p1 = (None, p2) ->
  PQgetResult h p2 = (None, p3) -> PQgetResult h p3 = (None, p4) -> 1 <= fuel ->
  exists w' v', kore_pgsql_handle (run_cb count_bits fuel (S (S d))) count_bits fuel x false w = Done (tt, w') /\
    app w' = app w /\ pgsqls w' !! l = Some v' /\ conn v' = None /\ pgsql_conn_free w' = pgsql_conn_free w ++ [x].
Proof.
  intros Hse Hs Hci Hb Hn Hg1 Hg2 Hf. pose proof Hse as (Hk & Hq & Hl & Hc & Hcb & Harg & Hreq & xv & Hx & Hh & Hj).
  assert (Hf' : exists n, fuel = S n) by (exists (pred fuel); lia). destruct Hf' as (n & Hfn).
  unfold kore_pgsql_handle. run (get_conn_run _ _ _ Hx). rewrite Hj. run eq_refl. rewrite Hh. run eq_refl.
  run (pq_call_run _ _ _ _ Hci). cbn [negb]. cbv iota. set (w1 := set_pq _ w).
  assert (Hse1 : serves w1 l v x h) by (split_and!; [done|done|by exists xv]).
  rewrite (read_result_bind _ _ w1 l v x _ Hl Hc). unfold read_results. rewrite !bind_assoc. run (db_handle_run w1 _ _ _ Hx Hh). rewrite bind_assoc. run eq_refl. change (pq w1) with p1. rewrite Hb. cbv iota.
  rewrite bind_assoc, Hfn. run (notify_loop_none _ n w1 l v x h p2 Hse1 Hn). set (w2 := set_pq _ w1).
  rewrite bind_assoc. erewrite bind_step; [|rewrite (result_loop_step _ n w2 l v x h None p3); [reflexivity|split_and!; [done|done|by exists xv]|done]].
  cbv iota. set (w3 := set_pgsqls _ _). set (v3 := pg_set_result _ v) in w3.
  rewrite bind_assoc. run (get_pgsql_run w3 l v3 (lookup_insert_eq _ _ _)). change (state v3) with (state v). rewrite Hs.
  rewrite bool_decide_false by done. rewrite bool_decide_true by done. unfold set_state.
  run (update_pgsql_run w3 l v3 _ (lookup_insert_eq _ _ _)). set (v4 := pg_set_state _ v3). set (w4 := set_pgsqls _ w3).
  run (get_pgsql_run w4 l v4 (lookup_insert_eq _ _ _)). rewrite bool_decide_false by done.
  unfold with_req. change (req v4) with (req v). rewrite Hreq. run eq_refl.
  unfold call_cb. run (get_pgsql_run w4 l v4 (lookup_insert_eq _ _ _)). change (cb v4) with (cb v). rewrite Hcb.
  change (arg v4) with (arg v). rewrite Harg. cbn [run_cb]. unfold db_state_change.
  run (get_pgsql_run w4 l v4 (lookup_insert_eq _ _ _)). change (state v4) with KORE_PGSQL_STATE_DONE. cbv iota.
  rewrite <- Hfn.
  destruct (continue_frees d w4 c l x v4 h p4) as (w' & v' & Hrun & Ha & Hl' & Hc' & Hfr); [|done|done|done|].
  { unfold served. split_and!; try done; [apply lookup_insert_eq|by exists xv]. }
  exists w', v'. split_and!; [exact Hrun|by rewrite Ha|done|done|by rewrite Hfr].
Qed.

Lemma ev_last_name_run w l v res rows i name :
  pgsqls w !! l = Some v -> result v = Some res ->
  last_name l i rows name w = Done (match rows with
    | O => name | S n => Some (PQgetvalue res (i + Z.of_nat n) 0) end, w).
Proof.
  intros Hl Hres. revert i name. induction rows as [|rows IH]; intros i name; [done|]. cbn [last_name].
  unfold kore_pgsql_getvalue. rewrite bind_assoc. run (get_pgsql_run _ _ _ Hl). rewrite Hres, bind_assoc.
  run eq_refl. run eq_refl. rewrite IH. destruct rows as [|n]; do 4 f_equal; lia.
Qed.

(** The rows of a result: the first column of the last one is sent to the browser. *)
Lemma row_sent w l c v res cbs :
  pgsqls w !! l = Some v -> result v = Some res -> (0 < PQntuples res)%Z ->
  db_results cbs count_bits fuel l c w = kore_pgsql_continue cbs count_bits fuel l
    (set_app (ev_ws_out (fun o => o ++ [(c, PQgetvalue res (PQntuples res - 1) 0)])) w).
Proof.
  intros Hl Hres Hn. unfold db_results, kore_pgsql_ntuples. rewrite bind_assoc. run (get_pgsql_run _ _ _ Hl). rewrite Hres.
  rewrite bind_assoc. run eq_refl. run eq_refl. run (ev_last_name_run _ _ _ _ (Z.to_nat (PQntuples res)) 0 None Hl Hres).
  destruct (Z.to_nat (PQntuples res)) as [|n] eqn:En; [lia|]. unfold kore_websocket_send. run eq_refl.
  by replace (0 + Z.of_nat n)%Z with (PQntuples res - 1)%Z by lia.
Qed.

(** every answer to a websocket's query brings the worker down.  A table without rows: the name
    that is sent was never set.  A table with rows: the last name is sent, and the query is
    continued from inside the layer's loop over the results; there is nothing more, so the query
    ends and gives its connection back, and the loop, when it goes on, reads the connection the
    query no longer has. *)
Theorem rows_bring_worker_down d w c l x v h res p1 p2 p3 p4 p5 p6 p7 :
  served w c l x v h ->
  PQconsumeInput h (pq w) = (true, p1) -> PQisBusy h p1 = false -> PQnotifies h p1 = (None, p2) ->
  PQgetResult h p2 = (Some res, p3) -> PQresultStatus (Some res) = PGRES_TUPLES_OK -> (0 <= PQntuples res)%Z ->
  PQconsumeInput h p3 = (true, p4) -> PQisBusy h p4 = false -> PQnotifies h p4 = (None, p5) ->
  PQgetResult h p5 = (None, p6) -> PQgetResult h p6 = (None, p7) -> 2 <= fuel ->
  kore_pgsql_handle (run_cb count_bits fuel (S (S (S d)))) count_bits fuel x false w =
  Crash (if decide (0 < PQntuples res)%Z then NullDeref else Indeterminate).
Proof.
  intros Hse Hci Hb Hn Hg Hst Hrows Hci2 Hb2 Hn2 Hg2 Hg3 Hf. pose proof Hse as (Hk & Hq & Hl & Hc & Hcb & Harg & Hreq & xv & Hx & Hh & Hj).
  assert (Hf' : exists n, fuel = S (S n)) by (exists (fuel - 2); lia). destruct Hf' as (n & Hfn).
  unfold kore_pgsql_handle. run (get_conn_run _ _ _ Hx). rewrite Hj. run eq_refl. rewrite Hh. run eq_refl.
  run (pq_call_run _ _ _ _ Hci). cbn [negb]. cbv iota. set (w1 := set_pq _ w).
  assert (Hse1 : serves w1 l v x h) by (split_and!; [done|done|by exists xv]).
  rewrite (read_result_bind _ _ w1 l v x _ Hl Hc). unfold read_results. rewrite !bind_assoc. run (db_handle_run w1 _ _ _ Hx Hh). rewrite bind_assoc. run eq_refl. change (pq w1) with p1. rewrite Hb. cbv iota.
  rewrite bind_assoc, Hfn. run (notify_loop_none _ (S n) w1 l v x h p2 Hse1 Hn). set (w2 := set_pq _ w1).
  set (cbs := run_cb count_bits (S (S n)) (S (S (S d)))).
  apply bind_crash, bind_crash. rewrite (result_loop_step cbs (S n) w2 l v x h (Some res) p3); [|split_and!; [done|done|by exists xv]|done].
  set (v3 := pg_set_result _ v). set (w3 := set_pgsqls _ _). unfold one_result. rewrite Hst. unfold set_state. rewrite bind_assoc.
  run (update_pgsql_run w3 l v3 _ (lookup_insert_eq _ _ _)). set (v4 := pg_set_state _ v3). set (w4 := set_pgsqls _ w3).
  assert (Hl4 : pgsqls w4 !! l = Some v4) by apply lookup_insert_eq.
  rewrite bind_assoc. run (get_pgsql_run w4 l v4 Hl4). change (req v4) with (req v). rewrite Hreq, bool_decide_false by (by intros []).
  assert (Hcall : call_cb cbs l w4 = db_results (run_cb count_bits (S (S n)) (S (S d))) count_bits (S (S n)) l c w4).
  { unfold call_cb. run (get_pgsql_run _ _ _ Hl4). change (cb v4) with (cb v). rewrite Hcb. change (arg v4) with (arg v). rewrite Harg.
    cbn [cbs run_cb]. unfold db_state_change. by run (get_pgsql_run _ _ _ Hl4). }
  case_decide as Hpos.
  2: { apply bind_crash, bind_crash. rewrite Hcall. unfold db_results, kore_pgsql_ntuples. rewrite bind_assoc. run (get_pgsql_run _ _ _ Hl4).
    rewrite bind_assoc. run eq_refl. run eq_refl. by replace (PQntuples res) with 0%Z by lia. }
  rewrite <- Hfn in Hcall.
  rewrite (row_sent w4 l c v4 res _ Hl4 eq_refl Hpos) in Hcall. unfold kore_pgsql_continue in Hcall. set (w5 := set_app _ w4) in Hcall.
  run (update_pgsql_run w5 l v4 _ Hl4) in Hcall. set (v6 := pg_set_result _ _) in Hcall. set (w6 := set_pgsqls _ w5) in Hcall.
  run (get_pgsql_run w6 l v6 (lookup_insert_eq _ _ _)) in Hcall. change (state v6) with KORE_PGSQL_STATE_RESULT in Hcall. cbv iota in Hcall.
  change (conn v6) with (conn v) in Hcall. rewrite Hc in Hcall. run eq_refl in Hcall.
  destruct (drained_finishes d w6 c l x v6 h p4 p5 p6 p7) as (w7 & v7 & Hrun & _ & Hl7 & Hc7 & _); [|done|done|done|done|done|done|lia|].
  { unfold served. split_and!; try done.
    all: first [by apply lookup_insert_eq|by exists xv]. }
  rewrite Hrun in Hcall. rewrite bind_assoc. run Hcall. rewrite bind_assoc. run (update_pgsql_run _ _ _ _ Hl7). run eq_refl. cbv iota.
  cbn [result_loop]. run (get_pgsql_again w7 l _). cbn [conn pg_set_result]. rewrite Hc7. done.
Qed.
End Rows.

(** ** The theorems at concrete states *)

Abbreviation ex_W := (pg_world pq_table (list string) (events (gmap nat loc) http_store)).

#[local] Instance ex_version : PgVersion := {| the_version := root_pgsql; stack_rfds := ∅ |}.

Definition ex_pool : list pgsql_db := [PgsqlDb "db" (Some "dbname=postgres") 2 2].
(** A subscriber (2), a websocket (3) and a connection that is neither (4). *)
Definition ex_app : events (gmap nat loc) http_store :=
  EventsApp (HttpStore (fun _ => []) (fun _ => []) (fun _ => []) {[1 := 60]})
    {[1 := Request HTTP_METHOD_GET Auth.REQ_STATE_ERROR 4 None false]} {[60 := 20%Z]}
    {[2 := Connection (Some 50) true true false; 3 := Connection (Some 51) false false true;
      4 := Connection None false false false]}
    [2; 3; 4] {[50 := 0]} {[0 := 2]} [] [] [] [].
Definition ex_conn (fl : Z) (h : nat) (job : option loc) : pgsql_conn := PgsqlConn fl "db" (Some h) job.
Definition ex_query (s : pg_state) (c : option loc) : kore_pgsql (list string) :=
  KorePgsql s 2 None None c None (Some 0) 3 None.
Definition ex_failed : kore_pgsql (list string) := KorePgsql KORE_PGSQL_STATE_ERROR 0 (Some "gone") None None None None 0 None.
(** The websocket's query is out on connection 20; connection 21 is free. *)
Definition ex_world : ex_W :=
  PgWorld (PqTable ["Linux"] [["Linus"; "Linux"]])
    {[51 := ex_query KORE_PGSQL_STATE_WAIT (Some 20); 60 := ex_failed]}
    {[20 := ex_conn 0 0 (Some 51); 21 := ex_conn 1 1 None]} [21] [] 0 ex_pool ∅ ∅ [] 100 ex_app.

(** The same browsers, with the server of [Listen]. *)
Definition ex_told : pg_world pq_server exec_status (events (gmap nat loc) http_store) :=
  PgWorld (Listen.pq Listen.connected_world) ∅ ∅ [] [] 0 ex_pool ∅ ∅ [] 100 ex_app.

Lemma ex_live : all_live ex_app.
Proof. by repeat (constructor; [by eexists|]). Qed.

Lemma answered_when_complete_witness :
  match request_error (run_cb 16 10 1) 10 1 ex_world with
  | Done (res, w') => responses 1 (app w') = responses 1 (app ex_world) +
      (if decide (res = Auth.HTTP_STATE_COMPLETE /\ 1 = 1) then 1 else 0) /\ responses 1 (app w') = 1
  | Crash _ => False
  end.
Proof.
  destruct (request_error (run_cb 16 10 1) 10 1 ex_world) as [[res w']|f] eqn:Hr; [|by vm_compute in Hr].
  split.
  - exact (answered_when_complete 16 10 1 1 4 (request_error (run_cb 16 10 1) 10) 1 ex_world res w' (or_introl eq_refl) Hr).
  - vm_compute in Hr. injection Hr as _ <-. by vm_compute.
Defined.

Lemma notification_reaches_clients_witness :
  pipe_data_available false "hello" ex_world =
  if decide (String.length "hello" < BUFSIZ)
  then Done (tt, set_app (ev_out (fun o => o ++ heard None (event_text "hello") ex_app (connections ex_app))) ex_world)
  else Crash Unterminated.
Proof. apply (notification_reaches_clients ex_world "hello"). exact ex_live. Defined.

Example two_are_told :
  heard None (event_text "hello") ex_app (connections ex_app) = [(2, event_text "hello"); (3, event_text "hello")].
Proof. by vm_compute. Qed.

Lemma notifications_reach_browsers_witness : exists es p3 lw',
  Listen.drained 5 (PqServer true 6 [] [("hello", "revents"); ("again", "on_coders")] false) es p3 /\
  Listen.select_part 10 5 5%Z (Listen.Turn 0 (Some {[5%Z]})) true {[5%Z]} Listen.connected_world =
    Done ((true, {[5%Z]} ∩ {[5%Z]}), lw') /\
  Listen.channel lw' = Listen.channel Listen.connected_world ++ es /\
  (Forall (fun msg => String.length msg < BUFSIZ) es ->
   deliver es ex_told = Done (tt, set_app (ev_out (fun o => o ++ heard_all es ex_app)) ex_told)).
Proof.
  apply (notifications_reach_browsers 10 Listen.connected_world ex_told 5 5%Z {[5%Z]} {[5%Z]} (Listen.pq Listen.connected_world)
    (PqServer true 6 [] [("hello", "revents"); ("again", "on_coders")] false)).
  - by apply elem_of_singleton.
  - by apply elem_of_singleton.
  - by apply elem_of_singleton.
  - reflexivity.
  - eapply Listen.commands_next; [reflexivity|reflexivity|]. by apply Listen.commands_end.
  - vm_compute. lia.
  - vm_compute. lia.
  - exact ex_live.
Defined.

Lemma websocket_gets_raw_event_witness :
  exists w1 evs s, websocket_connect 4 ex_world = Done (tt, w1) /\
    pipe_data_available false "hello" w1 = Done (tt, set_app (ev_out (fun o => o ++ evs)) w1) /\
    (4, s) ∈ evs /\ reserved_bits s = Some (true, true, false).
Proof.
  destruct (websocket_connect 4 ex_world) as [[[] w1]|f] eqn:Hr; [|by vm_compute in Hr].
  destruct (websocket_gets_raw_event ex_world 4 "hello" w1) as (evs & s & Hrun & Hin & Hb & _);
    [exact ex_live|exact Hr|by repeat constructor|by apply Nat.ltb_lt|].
  exists w1, evs, s. split; [reflexivity|]. split; [exact Hrun|]. split; [exact Hin|exact Hb].
Defined.

Lemma ex_ws_query : ws_query ex_world 3 51 (ex_query KORE_PGSQL_STATE_WAIT (Some 20)).
Proof. split; [by eexists|]. by split_and!. Qed.
Lemma ex_ready : ready_conn ex_world 21 (ex_conn 1 1 None) 1 [].
Proof.
  split; [by eexists|]. split_and!; try done. apply NoDup_singleton.
Qed.

Lemma second_message_loses_connection_witness :
  exists w', websocket_message (run_cb 16 10 1) 16 10 3 "again" ex_world = Done (tt, w') /\
    20 ∉ pgsql_conn_free w' /\ (forall l' v', pgsqls w' !! l' = Some v' -> conn v' <> Some 20).
Proof.
  destruct (second_message_loses_connection 16 10 0 ex_world 3 51 (ex_query KORE_PGSQL_STATE_WAIT (Some 20)) 20
    (ex_conn 0 0 (Some 51)) 21 (ex_conn 1 1 None) 1 [] "again" (PqTable ["Linux"] [["Linus"; "Linux"]]))
    as (w' & Hr & _ & Hfree & Hown & _); try done.
  - exact ex_ws_query.
  - intros l' v' Hl' Hc. change (pgsqls ex_world) with
      ({[51 := ex_query KORE_PGSQL_STATE_WAIT (Some 20); 60 := ex_failed]} : gmap loc (kore_pgsql (list string))) in Hl'.
    destruct (decide (l' = 51)) as [->|Hne]; [done|]. rewrite lookup_insert_ne in Hl' by done.
    apply lookup_singleton_Some in Hl' as [_ <-]. done.
  - constructor; [|done]. eexists. by split.
  - exact ex_ready.
  - lia.
  - exists w'. split; [exact Hr|]. split; [exact Hfree|exact Hown].
Defined.

Lemma rows_bring_worker_down_witness :
  kore_pgsql_handle (run_cb 16 10 3) 16 10 20 false ex_world = Crash NullDeref.
Proof.
  exact (rows_bring_worker_down 16 10 0 ex_world 3 51 20 (ex_query KORE_PGSQL_STATE_WAIT (Some 20)) 0 ["Linus"; "Linux"]
    (PqTable ["Linux"] [["Linus"; "Linux"]]) (PqTable ["Linux"] [["Linus"; "Linux"]]) (PqTable ["Linux"] []) (PqTable ["Linux"] [])
    (PqTable ["Linux"] []) (PqTable ["Linux"] []) (PqTable ["Linux"] [])
    ltac:(split_and!; [by eexists|done|done|done|done|done|done|by eexists]) eq_refl eq_refl eq_refl eq_refl eq_refl
    ltac:(done) eq_refl eq_refl eq_refl eq_refl eq_refl ltac:(lia)).
Defined.
End Events.
