(* ===== verification/JanusServer.v ===== *)
(** * Janus in a kore server: sessions and handles (janus/src/pjanus.c, janus.h, janus.c)

    The author's port of the Janus gateway's core to kore: a websocket's requests create
    sessions and attach handles of plug-ins to them.  Sessions and handles are counted: who
    has found one holds a reference, and the last one frees it.  This file has the data, the
    tables, the watchdog, the answers and the websocket's handlers' part of it; the requests
    are in [JanusRequests], the invariant of the counters in [JanusCounted].

    ICE, plug-ins, tokens and transports are Janus's and parameters (class [ServerCore]); what
    they do to the core's counters and tables they say as a list of [core_request]s, which the
    core's own functions execute.  A handle's data is that of [Janus], with its counter beside
    it ([exts]).  GLib's tables are finite maps, walked in an order that is a parameter; a
    [g_atomic_int] that is only 0 or 1 is a [bool].  A handler is run from its start to its
    end; other threads act between.  Allocation succeeds. *)

From stdpp Require Import pretty.
From S2P Require Import Prelude Jansson KoreNet WebsocketFrame MediaRooms Janus.

Local Open Scope c_scope.

Module Srv.
Import Janus.

(** ** Data *)

Record usi : Type := Usi {
  sid : Z;  (* the session the connection created *)
  hid : Z;  (* the first handle it attached *)
  aw : Z  (* 1: its requests are the administrator's *)
}.

Definition u_sid (f : Z -> Z) (w : usi) : usi :=
  Usi (f (sid w)) (hid w) (aw w).
Definition u_hid (f : Z -> Z) (w : usi) : usi :=
  Usi (sid w) (f (hid w)) (aw w).
Definition u_aw (f : Z -> Z) (w : usi) : usi :=
  Usi (sid w) (hid w) (f (aw w)).

Record janus_request : Type := JanusRequest {
  transport : option loc;
  instance : loc;
  request_id : option loc;
  admin : bool
}.

Definition q_transport (f : option loc -> option loc) (w : janus_request) : janus_request :=
  JanusRequest (f (transport w)) (instance w) (request_id w) (admin w).
Definition q_instance (f : loc -> loc) (w : janus_request) : janus_request :=
  JanusRequest (transport w) (f (instance w)) (request_id w) (admin w).
Definition q_request_id (f : option loc -> option loc) (w : janus_request) : janus_request :=
  JanusRequest (transport w) (instance w) (f (request_id w)) (admin w).
Definition q_admin (f : bool -> bool) (w : janus_request) : janus_request :=
  JanusRequest (transport w) (instance w) (request_id w) (f (admin w)).

Record janus_session : Type := JanusSession {
  session_id : Z;
  ice_handles : option (gmap Z loc);  (* null until there is one *)
  last_activity : Z;  (* microseconds *)
  source : option loc;  (* a request *)
  timeout : bool;
  transport_gone : bool;
  mutex : bool;  (* is held *)
  destroyed : bool;
  ref : Z
}.

Definition s_session_id (f : Z -> Z) (w : janus_session) : janus_session :=
  JanusSession (f (session_id w)) (ice_handles w) (last_activity w) (source w) (timeout w) (transport_gone w) (mutex w) (destroyed w) (ref w).
Definition s_ice_handles (f : option (gmap Z loc) -> option (gmap Z loc)) (w : janus_session) : janus_session :=
  JanusSession (session_id w) (f (ice_handles w)) (last_activity w) (source w) (timeout w) (transport_gone w) (mutex w) (destroyed w) (ref w).
Definition s_last_activity (f : Z -> Z) (w : janus_session) : janus_session :=
  JanusSession (session_id w) (ice_handles w) (f (last_activity w)) (source w) (timeout w) (transport_gone w) (mutex w) (destroyed w) (ref w).
Definition s_source (f : option loc -> option loc) (w : janus_session) : janus_session :=
  JanusSession (session_id w) (ice_handles w) (last_activity w) (f (source w)) (timeout w) (transport_gone w) (mutex w) (destroyed w) (ref w).
Definition s_timeout (f : bool -> bool) (w : janus_session) : janus_session :=
  JanusSession (session_id w) (ice_handles w) (last_activity w) (source w) (f (timeout w)) (transport_gone w) (mutex w) (destroyed w) (ref w).
Definition s_transport_gone (f : bool -> bool) (w : janus_session) : janus_session :=
  JanusSession (session_id w) (ice_handles w) (last_activity w) (source w) (timeout w) (f (transport_gone w)) (mutex w) (destroyed w) (ref w).
Definition s_mutex (f : bool -> bool) (w : janus_session) : janus_session :=
  JanusSession (session_id w) (ice_handles w) (last_activity w) (source w) (timeout w) (transport_gone w) (f (mutex w)) (destroyed w) (ref w).
Definition s_destroyed (f : bool -> bool) (w : janus_session) : janus_session :=
  JanusSession (session_id w) (ice_handles w) (last_activity w) (source w) (timeout w) (transport_gone w) (mutex w) (f (destroyed w)) (ref w).
Definition s_ref (f : Z -> Z) (w : janus_session) : janus_session :=
  JanusSession (session_id w) (ice_handles w) (last_activity w) (source w) (timeout w) (transport_gone w) (mutex w) (destroyed w) (f (ref w)).

Record handle_ext : Type := HandleExt {
  h_ref : Z;
  opaque_id : option string;
  text2pcap : option loc;  (* where its packets are dumped *)
  dump_packets : bool
}.

Definition x_h_ref (f : Z -> Z) (w : handle_ext) : handle_ext :=
  HandleExt (f (h_ref w)) (opaque_id w) (text2pcap w) (dump_packets w).
Definition x_opaque_id (f : option string -> option string) (w : handle_ext) : handle_ext :=
  HandleExt (h_ref w) (f (opaque_id w)) (text2pcap w) (dump_packets w).
Definition x_text2pcap (f : option loc -> option loc) (w : handle_ext) : handle_ext :=
  HandleExt (h_ref w) (opaque_id w) (f (text2pcap w)) (dump_packets w).
Definition x_dump_packets (f : bool -> bool) (w : handle_ext) : handle_ext :=
  HandleExt (h_ref w) (opaque_id w) (text2pcap w) (f (dump_packets w)).

Record globals : Type := Globals {
  api_secret : option string;
  admin_api_secret : option string;
  session_timeout : Z;  (* seconds, as the next two *)
  reclaim_session_timeout : Z;
  candidates_timeout : Z;
  accept_new_sessions : bool;
  janus_log_level : Z;
  janus_log_timestamps : bool;
  janus_log_colors : bool;
  lock_debug : bool;
  refcount_debug : bool
}.

Definition c_api_secret (f : option string -> option string) (w : globals) : globals :=
  Globals (f (api_secret w)) (admin_api_secret w) (session_timeout w) (reclaim_session_timeout w) (candidates_timeout w) (accept_new_sessions w) (janus_log_level w) (janus_log_timestamps w) (janus_log_colors w) (lock_debug w) (refcount_debug w).
Definition c_admin_api_secret (f : option string -> option string) (w : globals) : globals :=
  Globals (api_secret w) (f (admin_api_secret w)) (session_timeout w) (reclaim_session_timeout w) (candidates_timeout w) (accept_new_sessions w) (janus_log_level w) (janus_log_timestamps w) (janus_log_colors w) (lock_debug w) (refcount_debug w).
Definition c_session_timeout (f : Z -> Z) (w : globals) : globals :=
  Globals (api_secret w) (admin_api_secret w) (f (session_timeout w)) (reclaim_session_timeout w) (candidates_timeout w) (accept_new_sessions w) (janus_log_level w) (janus_log_timestamps w) (janus_log_colors w) (lock_debug w) (refcount_debug w).
Definition c_reclaim_session_timeout (f : Z -> Z) (w : globals) : globals :=
  Globals (api_secret w) (admin_api_secret w) (session_timeout w) (f (reclaim_session_timeout w)) (candidates_timeout w) (accept_new_sessions w) (janus_log_level w) (janus_log_timestamps w) (janus_log_colors w) (lock_debug w) (refcount_debug w).
Definition c_candidates_timeout (f : Z -> Z) (w : globals) : globals :=
  Globals (api_secret w) (admin_api_secret w) (session_timeout w) (reclaim_session_timeout w) (f (candidates_timeout w)) (accept_new_sessions w) (janus_log_level w) (janus_log_timestamps w) (janus_log_colors w) (lock_debug w) (refcount_debug w).
Definition c_accept_new_sessions (f : bool -> bool) (w : globals) : globals :=
  Globals (api_secret w) (admin_api_secret w) (session_timeout w) (reclaim_session_timeout w) (candidates_timeout w) (f (accept_new_sessions w)) (janus_log_level w) (janus_log_timestamps w) (janus_log_colors w) (lock_debug w) (refcount_debug w).
Definition c_janus_log_level (f : Z -> Z) (w : globals) : globals :=
  Globals (api_secret w) (admin_api_secret w) (session_timeout w) (reclaim_session_timeout w) (candidates_timeout w) (accept_new_sessions w) (f (janus_log_level w)) (janus_log_timestamps w) (janus_log_colors w) (lock_debug w) (refcount_debug w).
Definition c_janus_log_timestamps (f : bool -> bool) (w : globals) : globals :=
  Globals (api_secret w) (admin_api_secret w) (session_timeout w) (reclaim_session_timeout w) (candidates_timeout w) (accept_new_sessions w) (janus_log_level w) (f (janus_log_timestamps w)) (janus_log_colors w) (lock_debug w) (refcount_debug w).
Definition c_janus_log_colors (f : bool -> bool) (w : globals) : globals :=
  Globals (api_secret w) (admin_api_secret w) (session_timeout w) (reclaim_session_timeout w) (candidates_timeout w) (accept_new_sessions w) (janus_log_level w) (janus_log_timestamps w) (f (janus_log_colors w)) (lock_debug w) (refcount_debug w).
Definition c_lock_debug (f : bool -> bool) (w : globals) : globals :=
  Globals (api_secret w) (admin_api_secret w) (session_timeout w) (reclaim_session_timeout w) (candidates_timeout w) (accept_new_sessions w) (janus_log_level w) (janus_log_timestamps w) (janus_log_colors w) (f (lock_debug w)) (refcount_debug w).
Definition c_refcount_debug (f : bool -> bool) (w : globals) : globals :=
  Globals (api_secret w) (admin_api_secret w) (session_timeout w) (reclaim_session_timeout w) (candidates_timeout w) (accept_new_sessions w) (janus_log_level w) (janus_log_timestamps w) (janus_log_colors w) (lock_debug w) (f (refcount_debug w)).

(** What waits to be run by the watchdog's thread, with the plug-in's session it is about. *)
Inductive timer : Type := ClosePc (ps : loc) | EndSession (ps : loc).

Inductive relay_kind : Type := RelayRtp (video : Z) | RelayRtcp (video : Z) | RelayData.

Inductive sevent : Type :=
| Reply (c : loc) (text : string)  (* [kore_websocket_send] of an answer *)
| Echo (c : loc) (op : Z) (data : string)
| Queued (c : loc) (frame : list Z)
| SessionEvent (session_id : Z) (what : string)  (* to the event handlers, as the next three *)
| JsepEvent (session_id handle_id : Z)
| PluginEvent (session_id handle_id : Z) (plugin : loc)
| ExternalEvent (schema : option string)
| Relayed (h : loc) (kind : relay_kind) (data : list Z).

Record world (X : Type) (R : Type) (J : Type) : Type := World {
  jw : jworld X J;  (* the handles, and Janus *)
  exts : gmap loc handle_ext;  (* the rest of each handle *)
  heap : gmap loc janus_session;
  sessions : gmap Z loc;
  sessions_mutex : bool;  (* is held *)
  conf : globals;
  plugins : gmap string loc;
  eventhandlers : gmap string loc;
  requests : gmap loc janus_request;
  instances : gmap loc Z;  (* references to the transports' sessions *)
  timers : list timer;  (* attached to the watchdog's context *)
  usis : gmap loc usi;
  hdlr_extra : gmap loc loc;  (* of the connections that have one *)
  connections : list (loc * bool);  (* with: is it a websocket? *)
  stop : Z;
  saka : Z;  (* how often the worker was torn down *)
  jrefs : R;  (* references of the JSON values of an error *)
  next : loc;  (* the next address to be given out *)
  slog : list sevent  (* newest first *)
}.
Arguments World {X R J}.
Arguments jw {X R J}.
Arguments exts {X R J}.
Arguments heap {X R J}.
Arguments sessions {X R J}.
Arguments sessions_mutex {X R J}.
Arguments conf {X R J}.
Arguments plugins {X R J}.
Arguments eventhandlers {X R J}.
Arguments requests {X R J}.
Arguments instances {X R J}.
Arguments timers {X R J}.
Arguments usis {X R J}.
Arguments hdlr_extra {X R J}.
Arguments connections {X R J}.
Arguments stop {X R J}.
Arguments saka {X R J}.
Arguments jrefs {X R J}.
Arguments next {X R J}.
Arguments slog {X R J}.

Definition w_jw {X : Type} {R : Type} {J : Type} (f : jworld X J -> jworld X J) (w : world X R J) : world X R J :=
  World (f (jw w)) (exts w) (heap w) (sessions w) (sessions_mutex w) (conf w) (plugins w) (eventhandlers w) (requests w) (instances w) (timers w) (usis w) (hdlr_extra w) (connections w) (stop w) (saka w) (jrefs w) (next w) (slog w).
Definition w_exts {X : Type} {R : Type} {J : Type} (f : gmap loc handle_ext -> gmap loc handle_ext) (w : world X R J) : world X R J :=
  World (jw w) (f (exts w)) (heap w) (sessions w) (sessions_mutex w) (conf w) (plugins w) (eventhandlers w) (requests w) (instances w) (timers w) (usis w) (hdlr_extra w) (connections w) (stop w) (saka w) (jrefs w) (next w) (slog w).
Definition w_heap {X : Type} {R : Type} {J : Type} (f : gmap loc janus_session -> gmap loc janus_session) (w : world X R J) : world X R J :=
  World (jw w) (exts w) (f (heap w)) (sessions w) (sessions_mutex w) (conf w) (plugins w) (eventhandlers w) (requests w) (instances w) (timers w) (usis w) (hdlr_extra w) (connections w) (stop w) (saka w) (jrefs w) (next w) (slog w).
Definition w_sessions {X : Type} {R : Type} {J : Type} (f : gmap Z loc -> gmap Z loc) (w : world X R J) : world X R J :=
  World (jw w) (exts w) (heap w) (f (sessions w)) (sessions_mutex w) (conf w) (plugins w) (eventhandlers w) (requests w) (instances w) (timers w) (usis w) (hdlr_extra w) (connections w) (stop w) (saka w) (jrefs w) (next w) (slog w).
Definition w_sessions_mutex {X : Type} {R : Type} {J : Type} (f : bool -> bool) (w : world X R J) : world X R J :=
  World (jw w) (exts w) (heap w) (sessions w) (f (sessions_mutex w)) (conf w) (plugins w) (eventhandlers w) (requests w) (instances w) (timers w) (usis w) (hdlr_extra w) (connections w) (stop w) (saka w) (jrefs w) (next w) (slog w).
Definition w_conf {X : Type} {R : Type} {J : Type} (f : globals -> globals) (w : world X R J) : world X R J :=
  World (jw w) (exts w) (heap w) (sessions w) (sessions_mutex w) (f (conf w)) (plugins w) (eventhandlers w) (requests w) (instances w) (timers w) (usis w) (hdlr_extra w) (connections w) (stop w) (saka w) (jrefs w) (next w) (slog w).
Definition w_plugins {X : Type} {R : Type} {J : Type} (f : gmap string loc -> gmap string loc) (w : world X R J) : world X R J :=
  World (jw w) (exts w) (heap w) (sessions w) (sessions_mutex w) (conf w) (f (plugins w)) (eventhandlers w) (requests w) (instances w) (timers w) (usis w) (hdlr_extra w) (connections w) (stop w) (saka w) (jrefs w) (next w) (slog w).
Definition w_eventhandlers {X : Type} {R : Type} {J : Type} (f : gmap string loc -> gmap string loc) (w : world X R J) : world X R J :=
  World (jw w) (exts w) (heap w) (sessions w) (sessions_mutex w) (conf w) (plugins w) (f (eventhandlers w)) (requests w) (instances w) (timers w) (usis w) (hdlr_extra w) (connections w) (stop w) (saka w) (jrefs w) (next w) (slog w).
Definition w_requests {X : Type} {R : Type} {J : Type} (f : gmap loc janus_request -> gmap loc janus_request) (w : world X R J) : world X R J :=
  World (jw w) (exts w) (heap w) (sessions w) (sessions_mutex w) (conf w) (plugins w) (eventhandlers w) (f (requests w)) (instances w) (timers w) (usis w) (hdlr_extra w) (connections w) (stop w) (saka w) (jrefs w) (next w) (slog w).
Definition w_instances {X : Type} {R : Type} {J : Type} (f : gmap loc Z -> gmap loc Z) (w : world X R J) : world X R J :=
  World (jw w) (exts w) (heap w) (sessions w) (sessions_mutex w) (conf w) (plugins w) (eventhandlers w) (requests w) (f (instances w)) (timers w) (usis w) (hdlr_extra w) (connections w) (stop w) (saka w) (jrefs w) (next w) (slog w).
Definition w_timers {X : Type} {R : Type} {J : Type} (f : list timer -> list timer) (w : world X R J) : world X R J :=
  World (jw w) (exts w) (heap w) (sessions w) (sessions_mutex w) (conf w) (plugins w) (eventhandlers w) (requests w) (instances w) (f (timers w)) (usis w) (hdlr_extra w) (connections w) (stop w) (saka w) (jrefs w) (next w) (slog w).
Definition w_usis {X : Type} {R : Type} {J : Type} (f : gmap loc usi -> gmap loc usi) (w : world X R J) : world X R J :=
  World (jw w) (exts w) (heap w) (sessions w) (sessions_mutex w) (conf w) (plugins w) (eventhandlers w) (requests w) (instances w) (timers w) (f (usis w)) (hdlr_extra w) (connections w) (stop w) (saka w) (jrefs w) (next w) (slog w).
Definition w_hdlr_extra {X : Type} {R : Type} {J : Type} (f : gmap loc loc -> gmap loc loc) (w : world X R J) : world X R J :=
  World (jw w) (exts w) (heap w) (sessions w) (sessions_mutex w) (conf w) (plugins w) (eventhandlers w) (requests w) (instances w) (timers w) (usis w) (f (hdlr_extra w)) (connections w) (stop w) (saka w) (jrefs w) (next w) (slog w).
Definition w_connections {X : Type} {R : Type} {J : Type} (f : list (loc * bool) -> list (loc * bool)) (w : world X R J) : world X R J :=
  World (jw w) (exts w) (heap w) (sessions w) (sessions_mutex w) (conf w) (plugins w) (eventhandlers w) (requests w) (instances w) (timers w) (usis w) (hdlr_extra w) (f (connections w)) (stop w) (saka w) (jrefs w) (next w) (slog w).
Definition w_stop {X : Type} {R : Type} {J : Type} (f : Z -> Z) (w : world X R J) : world X R J :=
  World (jw w) (exts w) (heap w) (sessions w) (sessions_mutex w) (conf w) (plugins w) (eventhandlers w) (requests w) (instances w) (timers w) (usis w) (hdlr_extra w) (connections w) (f (stop w)) (saka w) (jrefs w) (next w) (slog w).
Definition w_saka {X : Type} {R : Type} {J : Type} (f : Z -> Z) (w : world X R J) : world X R J :=
  World (jw w) (exts w) (heap w) (sessions w) (sessions_mutex w) (conf w) (plugins w) (eventhandlers w) (requests w) (instances w) (timers w) (usis w) (hdlr_extra w) (connections w) (stop w) (f (saka w)) (jrefs w) (next w) (slog w).
Definition w_jrefs {X : Type} {R : Type} {J : Type} (f : R -> R) (w : world X R J) : world X R J :=
  World (jw w) (exts w) (heap w) (sessions w) (sessions_mutex w) (conf w) (plugins w) (eventhandlers w) (requests w) (instances w) (timers w) (usis w) (hdlr_extra w) (connections w) (stop w) (saka w) (f (jrefs w)) (next w) (slog w).
Definition w_next {X : Type} {R : Type} {J : Type} (f : loc -> loc) (w : world X R J) : world X R J :=
  World (jw w) (exts w) (heap w) (sessions w) (sessions_mutex w) (conf w) (plugins w) (eventhandlers w) (requests w) (instances w) (timers w) (usis w) (hdlr_extra w) (connections w) (stop w) (saka w) (jrefs w) (f (next w)) (slog w).
Definition w_slog {X : Type} {R : Type} {J : Type} (f : list sevent -> list sevent) (w : world X R J) : world X R J :=
  World (jw w) (exts w) (heap w) (sessions w) (sessions_mutex w) (conf w) (plugins w) (eventhandlers w) (requests w) (instances w) (timers w) (usis w) (hdlr_extra w) (connections w) (stop w) (saka w) (jrefs w) (next w) (f (slog w)).

(** ** JSON parameters *)

Inductive json_type : Type := JSON_STRING | JSON_INTEGER | JSON_OBJECT | JSON_ARRAY | JANUS_JSON_BOOL.
Record janus_json_parameter : Type := JsonParameter {
  p_name : string;
  p_type : json_type;
  p_required : bool;
  p_positive : bool
}.

Definition incoming_request_parameters : list janus_json_parameter :=
  [JsonParameter "transaction" JSON_STRING true false; JsonParameter "janus" JSON_STRING true false;
   JsonParameter "id" JSON_INTEGER false true].
Definition attach_parameters : list janus_json_parameter :=
  [JsonParameter "plugin" JSON_STRING true false; JsonParameter "opaque_id" JSON_STRING false false].
Definition body_parameters : list janus_json_parameter := [JsonParameter "body" JSON_OBJECT true false].
Definition jsep_parameters : list janus_json_parameter :=
  [JsonParameter "type" JSON_STRING true false; JsonParameter "trickle" JANUS_JSON_BOOL false false;
   JsonParameter "sdp" JSON_STRING true false].

(** ** Janus *)

(** What a function of Janus does to the core's counters and tables. *)
Inductive core_request : Type :=
| InitHandle (h : loc) (opaque : option string)  (* a new handle, its counter at one *)
| TakeHandle (h : loc)
| DropHandle (h : loc)
| TakeSession (s : loc)
| InsertHandle (s h : loc).  (* [janus_session_handles_insert] *)

(** The codes of apierror.h. *)
Inductive api_error : Type :=
| JANUS_ERROR_UNAUTHORIZED | JANUS_ERROR_UNAUTHORIZED_PLUGIN | JANUS_ERROR_UNKNOWN | JANUS_ERROR_UNKNOWN_REQUEST
| JANUS_ERROR_INVALID_JSON | JANUS_ERROR_INVALID_JSON_OBJECT | JANUS_ERROR_MISSING_MANDATORY_ELEMENT
| JANUS_ERROR_INVALID_REQUEST_PATH | JANUS_ERROR_SESSION_NOT_FOUND | JANUS_ERROR_HANDLE_NOT_FOUND
| JANUS_ERROR_PLUGIN_NOT_FOUND | JANUS_ERROR_PLUGIN_ATTACH | JANUS_ERROR_PLUGIN_MESSAGE | JANUS_ERROR_PLUGIN_DETACH
| JANUS_ERROR_JSEP_UNKNOWN_TYPE | JANUS_ERROR_JSEP_INVALID_SDP | JANUS_ERROR_INVALID_ELEMENT_TYPE
| JANUS_ERROR_SESSION_CONFLICT | JANUS_ERROR_UNEXPECTED_ANSWER | JANUS_ERROR_TOKEN_NOT_FOUND
| JANUS_ERROR_WEBRTC_STATE | JANUS_ERROR_NOT_ACCEPTING_SESSIONS.

(** A function of ICE gets the handles and its own state. *)
Definition ice_fun (X J A : Type) : Type :=
  gmap loc (ice_handle J) -> X -> A * (gmap loc (ice_handle J) * X * list core_request).

Class ServerCore (X D J : Type) := {
  janus_random_uint64 : X -> Z * X;
  g_hash_table_iter : gmap Z loc -> list (Z * loc);
  g_hash_table_names : gmap string loc -> list (string * loc);
  (* [None]: valid; else the error's code and cause *)
  JANUS_VALIDATE_JSON_OBJECT : J -> list janus_json_parameter -> option (Z * string);
  error_code : api_error -> Z;
  janus_get_api_error : Z -> string;
  janus_strcmp_const_time : string -> string -> bool;
  janus_auth_is_enabled : X -> bool;
  janus_auth_check_token : string -> X -> bool;
  janus_auth_check_plugin : string -> loc -> X -> bool;
  janus_events_is_enabled : X -> bool;
  (* the session and its table, the opaque id; the new handle *)
  janus_ice_handle_create : loc -> option (gmap Z loc) -> option string -> ice_fun X J (option loc);
  (* the session, the handle, the plug-in *)
  janus_ice_handle_attach_plugin : loc -> loc -> loc -> ice_fun X J Z;
  janus_ice_handle_destroy : loc -> loc -> ice_fun X J Z;
  janus_ice_webrtc_hangup : loc -> ice_fun X J unit;
  janus_ice_resend_trickles : loc -> ice_fun X J unit;
  (* the last reference of a handle is gone: the session whose reference it gives back *)
  janus_ice_free : ice_handle J -> X -> option loc * X;
  transport_session_free : loc -> X -> X;
  trickle_error : Z -> string;  (* the text with a result of [janus_ice_trickle_parse] *)
  (* [janus_sdp_preparse] here has the handle *)
  janus_handle_sdp_preparse : ice_handle J -> string -> X -> string + D * (Z * Z * Z);
  plugin_stopped : loc -> X -> bool;
  gateway_handle : loc -> X -> option loc;
  plugin_session_increase : loc -> X -> X;
  plugin_session_decrease : loc -> X -> X
}.

Section Code.
Context {X D R J B : Type} `{JanusCore X D J} `{ServerCore X D J} `{Media.JsonRefs R} `{Jansson J} `{JanssonBool J}
  `{KoreBuf B} `{KoreNet}.
Abbreviation m := (M (world X R J)).

(** *** Access *)

Definition lift {A : Type} (f : M (jworld X J) A) : m A :=
  fun w => match f (jw w) with Done (a, j) => Done (a, w_jw (fun _ => j) w) | Crash e => Crash e end.

Definition get_session (s : loc) : m janus_session := hs ← gets heap; live (hs !! s).
Definition update_session (s : loc) (f : janus_session -> janus_session) : m unit :=
  v ← get_session s; modify (w_heap <[s := f v]>).
Definition get_ext (h : loc) : m handle_ext := hs ← gets exts; live (hs !! h).
Definition update_ext (h : loc) (f : handle_ext -> handle_ext) : m unit :=
  v ← get_ext h; modify (w_exts <[h := f v]>).

Definition sessions_lock : m unit :=
  l ← gets sessions_mutex; if (l : bool) then crash LockMisuse else modify (w_sessions_mutex (fun _ => true)).
Definition sessions_unlock : m unit :=
  l ← gets sessions_mutex; if (l : bool) then modify (w_sessions_mutex (fun _ => false)) else crash LockMisuse.
Definition session_lock (s : loc) : m unit :=
  v ← get_session s; if mutex v then crash LockMisuse else update_session s (s_mutex (fun _ => true)).
Definition session_unlock (s : loc) : m unit :=
  v ← get_session s; if mutex v then update_session s (s_mutex (fun _ => false)) else crash LockMisuse.

Definition log (e : sevent) : m unit := modify (w_slog (cons e)).
Definition core_of (w : world X R J) : X := core (jw w).
Definition set_core (x : X) : m unit := modify (w_jw (w_core (fun _ => x))).
Definition alloc : m loc := a ← gets next; modify (w_next S);; mret a.

(** [for] or [while] over what a table held, [k] an element's body. *)
Fixpoint foreach {A : Type} (k : A -> m unit) (l : list A) : m unit :=
  match l with [] => mret tt | a :: l => k a;; foreach k l end.

(** *** Signals *)

Definition janus_is_stopping : m Z := gets stop.

(** [exit] is behind the third. *)
Definition janus_handle_signal : m unit :=
  modify (w_stop (fun n => n + 1)%Z);;
  n ← gets stop;
  if (2 <? n)%Z then crash (Fatal "exit") else mret tt.

(** *** Messages and their answers *)

(** A [guint64] where jansson takes a signed number. *)
Definition s64 (n : Z) : Z := if (n <? 2 ^ 63)%Z then n else (n - 2 ^ 64)%Z.

(** The members a message starts with. *)
Definition janus_create_message (status : string) (session_id : Z) (transaction : option string) : list (string * J) :=
  [("janus", json_string status)] ++
  (if (0 <? session_id)%Z then [("session_id", json_integer (s64 session_id))] else []) ++
  match transaction with Some t => [("transaction", json_string t)] | None => [] end.

Definition janus_process_success (request : option loc) (payload : J) : m Z :=
  match request with
  | None => mret (-1)%Z
  | Some c =>
      match json_dumps payload with
      | None => mret (-1)%Z
      | Some buf => log (Reply c buf);; mret 0%Z
      end
  end.

(** The references of the values of an error: each constructor gives one, [_set_new] takes it. *)
Definition json_new : m loc :=
  r ← gets jrefs; let '(l, r) := Media.json_new r in modify (w_jrefs (fun _ => r));; mret l.
Definition json_set_new (o v : loc) : m unit := modify (w_jrefs (Media.json_set_new o v)).
Definition json_decref (l : loc) : m unit :=
  r ← gets jrefs;
  match Media.json_decref l r with
  | Some r => modify (w_jrefs (fun _ => r))
  | None => crash UseAfterFree
  end.

Definition error_message (session_id : Z) (transaction : option string) (error : Z) (error_string : string) : J :=
  json_object (janus_create_message "error" session_id transaction ++
    [("error", json_object [("code", json_integer error); ("reason", json_string error_string)])]).

Definition janus_process_error_string (request : option loc) (session_id : Z) (transaction : option string) (error : Z)
    (error_string : string) : m Z :=
  match request with
  | None => mret (-1)%Z
  | Some c =>
      reply ← json_new;
      error_data ← json_new;
      code ← json_new;
      json_set_new error_data code;;
      reason ← json_new;
      json_set_new error_data reason;;
      json_set_new reply error_data;;
      match json_dumps (error_message session_id transaction error error_string) with
      | None => json_decref error_data;; json_decref reply;; mret (-1)%Z
      | Some buf => json_decref error_data;; json_decref reply;; log (Reply c buf);; mret 0%Z
      end
  end.

(** [format] is the message printed, [None] the null pointer. *)
Definition janus_process_error (request : option loc) (session_id : Z) (transaction : option string) (error : Z)
    (format : option string) : m Z :=
  match request with
  | None => mret (-1)%Z
  | Some _ =>
      let error_string := match format with None => janus_get_api_error error | Some s => snprintf 512 s end in
      janus_process_error_string request session_id transaction error error_string
  end.

(** *** Reference counters *)

Inductive counted : Type := OfSession (s : loc) | OfHandle (h : loc).

Definition janus_refcount_increase (o : counted) : m unit :=
  match o with
  | OfSession s => update_session s (s_ref (fun n => n + 1)%Z)
  | OfHandle h => update_ext h (x_h_ref (fun n => n + 1)%Z)
  end.

Definition instance_decrease (i : loc) : m unit :=
  counts ← gets instances;
  n ← live (counts !! i);
  if (n =? 1)%Z then
    x ← gets core_of; set_core (transport_session_free i x);; modify (w_instances (delete i))
  else modify (w_instances <[i := (n - 1)%Z]>).

(** The message of a request is jansson's and left out. *)
Definition janus_request_destroy (request : option loc) : m unit :=
  match request with
  | None => mret tt
  | Some r =>
      qs ← gets requests;
      q ← live (qs !! r);
      instance_decrease (instance q);;
      modify (w_requests (delete r))
  end.

Section Free.
Context (decrease : counted -> m unit).

Definition janus_ice_handle_dereference (handle : option loc) : m unit :=
  match handle with Some h => decrease (OfHandle h) | None => mret tt end.

Definition janus_session_free (s : loc) : m unit :=
  v ← get_session s;
  (match ice_handles v with
   | Some t =>
       update_session s (s_ice_handles (fun _ => Some ∅));;
       foreach (fun kh => janus_ice_handle_dereference (Some kh.2)) (g_hash_table_iter t);;
       update_session s (s_ice_handles (fun _ => None))
   | None => mret tt
   end);;
  v ← get_session s;
  (match source v with
   | Some r => janus_request_destroy (Some r);; update_session s (s_source (fun _ => None))
   | None => mret tt
   end);;
  modify (w_heap (delete s)).

(** Janus's function for handles, run when the counter of one is zero. *)
Definition ice_handle_free (h : loc) : m unit :=
  v ← lift (get_handle h);
  x ← gets core_of;
  let '(s, x) := janus_ice_free v x in
  modify (w_jw (w_handles (delete h)));; modify (w_exts (delete h));; set_core x;;
  match s with Some s => decrease (OfSession s) | None => mret tt end.
End Free.

Fixpoint refcount_decrease (depth : nat) (o : counted) : m unit :=
  match depth with
  | O => crash Fuel
  | S depth =>
      match o with
      | OfSession s =>
          update_session s (s_ref (fun n => n - 1)%Z);;
          v ← get_session s;
          if (ref v =? 0)%Z then janus_session_free (refcount_decrease depth) s else mret tt
      | OfHandle h =>
          update_ext h (x_h_ref (fun n => n - 1)%Z);;
          v ← get_ext h;
          if (h_ref v =? 0)%Z then ice_handle_free (refcount_decrease depth) h else mret tt
      end
  end.
(** A handle frees its session, and a session has no handles left by then. *)
Definition janus_refcount_decrease (o : counted) : m unit := refcount_decrease 3 o.

(** *** The handles of a session *)

Definition janus_session_handles_find (session : option loc) (handle_id : Z) : m (option loc) :=
  match session with
  | None => mret None
  | Some s =>
      session_lock s;;
      v ← get_session s;
      let handle := ice_handles v ≫= fun t => t !! handle_id in
      (match handle with Some h => janus_refcount_increase (OfHandle h) | None => mret tt end);;
      session_unlock s;;
      mret handle
  end.

(** [g_hash_table_remove], [g_hash_table_iter_remove]: the table's reference goes with the entry. *)
Definition table_remove (s : loc) (handle_id : Z) : m unit :=
  v ← get_session s;
  match ice_handles v ≫= fun t => t !! handle_id with
  | None => mret tt
  | Some h =>
      update_session s (s_ice_handles (fmap (delete handle_id)));;
      janus_ice_handle_dereference janus_refcount_decrease (Some h)
  end.

(** [g_hash_table_insert] gives the reference of a value it replaces back. *)
Definition janus_session_handles_insert (s h : loc) : m unit :=
  session_lock s;;
  v ← get_session s;
  (if! bool_decide (ice_handles v = None) then update_session s (s_ice_handles (fun _ => Some ∅)));;
  janus_refcount_increase (OfHandle h);;
  hv ← lift (get_handle h);
  table_remove s (handle_id hv);;
  update_session s (s_ice_handles (fmap <[handle_id hv := h]>));;
  session_unlock s.

(** *** Functions of ICE *)

Definition run_call (k : core_request) : m unit :=
  match k with
  | InitHandle h o => modify (w_exts <[h := HandleExt 1 o None false]>)
  | TakeHandle h => janus_refcount_increase (OfHandle h)
  | DropHandle h => janus_refcount_decrease (OfHandle h)
  | TakeSession s => janus_refcount_increase (OfSession s)
  | InsertHandle s h => janus_session_handles_insert s h
  end.

Definition ice_call {A : Type} (f : ice_fun X J A) : m A :=
  j ← gets jw;
  let '(a, (hs, x, calls)) := f (handles j) (core j) in
  modify (w_jw (fun j => w_core (fun _ => x) (w_handles (fun _ => hs) j)));;
  foreach run_call calls;;
  mret a.

(** *** Handles taken off a session *)

Definition janus_session_handles_remove (s h : loc) : m Z :=
  session_lock s;;
  error ← ice_call (janus_ice_handle_destroy s h);
  v ← lift (get_handle h);
  table_remove s (handle_id v);;
  session_unlock s;;
  mret error.

Definition janus_session_handles_clear (s : loc) : m unit :=
  session_lock s;;
  v ← get_session s;
  (match ice_handles v with
   | Some t =>
       foreach (fun kh : Z * loc => ice_call (janus_ice_handle_destroy s kh.2);; table_remove s kh.1) (g_hash_table_iter t)
   | None => mret tt
   end);;
  session_unlock s.

(** *** Sessions *)

Definition janus_session_destroy (s : loc) : m Z :=
  v ← get_session s;
  if destroyed v then mret 0%Z
  else
    update_session s (s_destroyed (fun _ => true));;
    janus_session_handles_clear s;;
    janus_refcount_decrease (OfSession s);;
    mret 0%Z.

Definition janus_session_find (session_id : Z) : m (option loc) :=
  sessions_lock;;
  session ← gets (fun w => sessions w !! session_id);
  (match session with Some s => janus_refcount_increase (OfSession s) | None => mret tt end);;
  sessions_unlock;;
  mret session.

(** [while(session_id == 0) { ... }] *)
Fixpoint draw_session_id (fuel : nat) : m Z :=
  match fuel with
  | O => crash Fuel
  | S fuel =>
      x ← gets core_of;
      let '(session_id, x) := janus_random_uint64 x in
      set_core x;;
      session ← janus_session_find session_id;
      match session with
      | Some s => janus_refcount_decrease (OfSession s);; draw_session_id fuel
      | None => if (session_id =? 0)%Z then draw_session_id fuel else mret session_id
      end
  end.

Definition janus_session_create (fuel : nat) (session_id : Z) : m loc :=
  session_id ← (if (session_id =? 0)%Z then draw_session_id fuel else mret session_id);
  s ← alloc;
  x ← gets core_of;
  modify (w_heap <[s := JanusSession session_id None (janus_get_monotonic_time x) None false false false false 1]>);;
  sessions_lock;;
  modify (w_sessions <[session_id := s]>);;
  sessions_unlock;;
  mret s.

(** *** To the clients *)

(** As in websocket_9, but for [<=]. *)
Definition websocket_frame_build (frame : B) (op : Z) (data : list Z) (len : Z) : B :=
  let len_1 :=
    if (WEBSOCKET_PAYLOAD_SINGLE <? len)%Z
    then if (len <=? USHRT_MAX)%Z then WEBSOCKET_PAYLOAD_EXTEND_1 else WEBSOCKET_PAYLOAD_EXTEND_2
    else u8 len in
  let op := u8 (Z.lor op (Z.shiftl 1 7)) in
  let frame := kore_buf_append frame [op] in
  let len_1 := u8 (Z.land len_1 (Z.lnot (Z.shiftl 1 7))) in
  let frame := kore_buf_append frame [len_1] in
  let frame :=
    if (WEBSOCKET_PAYLOAD_SINGLE <? len_1)%Z
    then if (len_1 =? WEBSOCKET_PAYLOAD_EXTEND_1)%Z then kore_buf_append frame (net_write16 (u16 len))
         else if (len_1 =? WEBSOCKET_PAYLOAD_EXTEND_2)%Z then kore_buf_append frame (net_write64 (u64 len))
         else frame
    else frame in
  kore_buf_append frame (take (Z.to_nat len) data).

(** [TAILQ_FOREACH], up to the first connection that is the session's. *)
Fixpoint target_send (sessid : Z) (frame : list Z) (conns : list (loc * bool)) : m unit :=
  match conns with
  | [] => mret tt
  | (c, websocket) :: conns =>
      if (websocket : bool) then
        extra ← gets (fun w => hdlr_extra w !! c);
        u ← deref extra;
        us ← gets usis;
        us ← live (us !! u);
        if (sid us =? sessid)%Z && (aw us =? 0)%Z then log (Queued c frame) else target_send sessid frame conns
      else target_send sessid frame conns
  end.

Definition kore_websocket_target (sessid op : Z) (data : list Z) (len : Z) : m unit :=
  let frame := kore_buf_data (websocket_frame_build (kore_buf_alloc len : B) op data len) in
  conns ← gets connections;
  target_send sessid frame conns.

Definition WEBSOCKET_OP_TEXT : Z := 1.

Definition janus_session_notify_event (session : option loc) (event : J) : m unit :=
  match session with
  | None => mret tt
  | Some s =>
      v ← get_session s;
      if destroyed v then mret tt
      else
        let buf := default EmptyString (json_dumps event) in
        kore_websocket_target (session_id v) WEBSOCKET_OP_TEXT (string_bytes buf) (Z.of_nat (String.length buf))
  end.

(** *** The watchdog *)

(** [g_atomic_int_compare_and_exchange(&session->timeout, 0, 1)] *)
Definition exchange_timeout (s : loc) : m bool :=
  v ← get_session s;
  if timeout v then mret false else update_session s (s_timeout (fun _ => true));; mret true.

(** The condition, with the exchanges it makes on its way. *)
Definition session_over (now : Z) (s : loc) : m bool :=
  v ← get_session s;
  g ← gets conf;
  idle ← (if (session_timeout g * 1000000 <=? now - last_activity v)%Z then ok ← exchange_timeout s; mret (negb ok)
          else mret false);
  if (idle : bool) then mret true
  else if transport_gone v && (reclaim_session_timeout g * 1000000 <=? now - last_activity v)%Z then
    ok ← exchange_timeout s; mret (negb ok)
  else mret false.

Definition expire_session (k : Z) (s : loc) : m unit :=
  janus_session_handles_clear s;;
  v ← get_session s;
  (match json_dumps (json_object (janus_create_message "timeout" (session_id v) None)) with
   | Some buf =>
       kore_websocket_target (session_id v) WEBSOCKET_OP_TEXT (string_bytes buf) (Z.of_nat (String.length buf))
   | None => mret tt
   end);;
  x ← gets core_of;
  (if! janus_events_is_enabled x then log (SessionEvent (session_id v) "timeout"));;
  modify (w_sessions (delete k));;
  _ ← janus_session_destroy s; mret tt.

Definition check_session (ks : Z * loc) : m unit :=
  v ← get_session ks.2;
  if destroyed v then mret tt
  else
    x ← gets core_of;
    over ← session_over (janus_get_monotonic_time x) ks.2;
    if! over then expire_session ks.1 ks.2.

Definition janus_check_sessions : m bool :=
  g ← gets conf;
  if (session_timeout g <? 1)%Z then mret true
  else
    sessions_lock;;
    t ← gets sessions;
    foreach check_session (g_hash_table_iter t);;
    sessions_unlock;;
    mret true.

(** *** Who may *)

(** [0], or the code of [JANUS_ERROR_UNAUTHORIZED]. *)
Definition janus_request_check_secret (root : J) : m Z :=
  g ← gets conf;
  x ← gets core_of;
  if bool_decide (api_secret g = None) && negb (janus_auth_is_enabled x) then mret 0%Z
  else
    let secret_authorized :=
      match api_secret g, json_object_get root "apisecret" ≫= json_string_value with
      | Some api_secret, Some secret => janus_strcmp_const_time secret api_secret
      | _, _ => false
      end in
    let token_authorized :=
      janus_auth_is_enabled x &&
      match json_object_get root "token" ≫= json_string_value with
      | Some token => janus_auth_check_token token x
      | None => false
      end in
    mret (if secret_authorized || token_authorized then 0%Z else error_code JANUS_ERROR_UNAUTHORIZED).

(** *** A client that is gone *)

Definition del_sess (sessid : Z) : m unit :=
  session ← janus_session_find sessid;
  match session with
  | None => mret tt
  | Some s =>
      sessions_lock;;
      v ← get_session s;
      modify (w_sessions (delete (session_id v)));;
      sessions_unlock;;
      _ ← janus_session_destroy s; mret tt
  end.

Definition del_han (hid sid : Z) : m Z :=
  session ← janus_session_find sid;
  match session with
  | None => mret 1%Z
  | Some s =>
      handle ← janus_session_handles_find (Some s) hid;
      match handle with
      | None => mret 1%Z
      | Some h =>
          error ← janus_session_handles_remove s h;
          if negb (error =? 0)%Z then mret 1%Z
          else
            sessions_lock;;
            v ← get_session s;
            modify (w_sessions (delete (session_id v)));;
            sessions_unlock;;
            janus_session_destroy s;;
            mret 0%Z
      end
  end.
End Code.
End Srv.
