(* ===== verification/JanusRequests.v ===== *)
(** * Requests to Janus: [janus_process_incoming_request] (janus/src/pjanus.c) and the websocket (janus.c)

    A client's message creates a session, attaches a handle to a plug-in, sends a message with
    or without an SDP to it, or a candidate, and takes both down again.  Each [goto jsondone]
    of the source is a call of [jsondone] here, with what the function has found by then.
    The functions on a handle are those of [Janus] where the source has the same text. *)

From stdpp Require Import pretty.
From S2P Require Import Prelude Jansson KoreNet MediaRooms Janus JanusServer.

Local Open Scope c_scope.

Module Req.
Import Janus Srv.

(** ** What the server says of itself *)

(** What Janus knows: the build, the log, ICE. *)
Record core_info : Type := CoreInfo {
  i_name : string;
  i_version : Z;
  i_version_string : string;
  i_author : string;
  i_build_git_sha : string;
  i_build_git_time : string;
  i_log_to_stdout : bool;
  i_log_path : option string;  (* of the log's file, if there is one *)
  i_data_channels : bool;  (* HAVE_SCTP *)
  i_server_name : string;
  i_local_ip : string;
  i_public_ip : option string;
  i_ipv6 : bool;
  i_ice_lite : bool;
  i_ice_tcp : bool;
  i_full_trickle : bool;
  i_rfc4588 : bool;
  i_stun_server : option (string * Z);
  i_turn_server : option (string * Z);
  i_static_event_loops : Z;
  i_event_handlers : bool
}.
(** And of a plug-in or event handler. *)
Record module_info : Type := ModuleInfo {
  m_package : string;
  m_name : string;
  m_author : string;
  m_description : string;
  m_version_string : string;
  m_version : Z
}.

Class ServerInfo (X : Type) := {
  core_info_of : X -> core_info;
  module_info_of : loc -> module_info
}.

Section Code.
Context {X D R J B : Type} `{JanusCore X D J} `{ServerCore X D J} `{ServerInfo X} `{Media.JsonRefs R} `{Jansson J} `{JanssonBool J}
  `{KoreBuf B} `{KoreNet}.
Abbreviation m := (M (world X R J)).

(** ** Answers of a handle's peer *)

Section Handles.
Abbreviation mj := (M (jworld X J)).

(** As [Janus.one_trickle], the age a candidate may have being a setting. *)
Definition pending_trickle (timeout : Z) (h : loc) (t : option (ice_trickle J)) : mj unit :=
  match t with
  | None => mret tt
  | Some t =>
      x ← gets core;
      if (timeout <? janus_get_monotonic_time x - received t)%Z then mret tt
      else
        match candidate t with
        | None => mret tt
        | Some c =>
            if json_is_object c then core_call h (janus_ice_trickle_parse c);; mret tt
            else match json_array_items c with Some cs => parse_all h cs | None => mret tt end
        end
  end.

(** [while(handle->pending_trickles)] *)
Fixpoint drain_pending (fuel : nat) (timeout : Z) (h : loc) : mj unit :=
  match fuel with
  | O => crash Fuel
  | S fuel =>
      v ← get_handle h;
      match pending_trickles v with
      | [] => mret tt
      | t :: ts =>
          update_handle h (h_pending_trickles (fun _ => ts));; pending_trickle timeout h t;; drain_pending fuel timeout h
      end
  end.

Definition ice_handle_answer (fuel : nat) (timeout : Z) (h : loc) : mj unit :=
  janus_flags_clear h WEBRTC_PROCESSING_OFFER;;
  drain_pending fuel timeout h;;
  trickle ← janus_flags_is_set h WEBRTC_TRICKLE;
  all ← janus_flags_is_set h WEBRTC_ALL_TRICKLES;
  if trickle && negb all then janus_flags_set h WEBRTC_START else core_call h janus_ice_setup_remote_candidates.
End Handles.

Definition janus_request_ice_handle_answer (fuel : nat) (h : loc) : m unit :=
  g ← gets conf;
  lift (ice_handle_answer fuel (candidates_timeout g * 1000000) h).

(** ** The end of every request *)

Definition jsondone (session handle : option loc) (ret : Z) : m Z :=
  (match handle with Some h => janus_refcount_decrease (OfHandle h) | None => mret tt end);;
  (match session with Some s => janus_refcount_decrease (OfSession s) | None => mret tt end);;
  mret ret.

(** ** What all its parts know: who asks, of which session and in which transaction *)

Section Request.
Context (request : option loc) (session_no : Z) (transaction : option string).

Definition fail (e : api_error) (format : option string) : m Z :=
  janus_process_error request session_no transaction (error_code e) format.

(** A part that is only reached with valid parameters. *)
Definition validated (json : J) (parameters : list janus_json_parameter) (k : m Z) : m Z :=
  match JANUS_VALIDATE_JSON_OBJECT json parameters with
  | Some (error, cause) => janus_process_error_string request session_no transaction error cause
  | None => k
  end.

Definition succeed (status : string) (session_no : Z) (members : list (string * J)) : m Z :=
  janus_process_success request (json_object (janus_create_message status session_no transaction ++ members)).

Definition unhandled (message : string) : m Z :=
  fail JANUS_ERROR_INVALID_REQUEST_PATH (Some ("Unhandled request '" +:+ message +:+ "' at this path")).

(** [us->...], if the connection has one. *)
Definition update_usi (f : usi -> usi) : m unit :=
  c ← deref request;
  extra ← gets (fun w => hdlr_extra w !! c);
  match extra with
  | None => mret tt
  | Some u => us ← gets usis; v ← live (us !! u); modify (w_usis <[u := f v]>)
  end.

Definition janus_plugin_find (package : option string) : m (option loc) :=
  ps ← gets plugins; mret (package ≫= fun name => ps !! name).

Definition notify_session (session_no : Z) (what : string) : m unit :=
  x ← gets core_of; if! janus_events_is_enabled x then log (SessionEvent session_no what).

(** *** An SDP in a message *)

(** The two orders in which a failure under the handle's mutex is dealt with. *)
Definition jsep_fail_first (h : loc) (e : api_error) (format : option string) : m Z :=
  ret ← fail e format;
  lift (janus_flags_clear h WEBRTC_PROCESSING_OFFER);; lift (janus_mutex_unlock h);; mret ret.
Definition jsep_fail (h : loc) (e : api_error) (format : string) : m Z :=
  lift (janus_flags_clear h WEBRTC_PROCESSING_OFFER);;
  ret ← fail e (Some format);
  lift (janus_mutex_unlock h);; mret ret.

(** The first SDP of a handle; [Some]: it failed, with the function's result. *)
Definition new_media (fuel : nat) (h : loc) (offer : bool) (jsep_sdp : string) (sdp : D) (avd : Z * Z * Z)
    (do_trickle : bool) : m (option Z) :=
  v ← lift (get_handle h);
  failed ← (if offer then
              rc ← lift (core_call h (janus_ice_setup_local true avd do_trickle));
              if (rc <? 0)%Z then ret ← jsep_fail h JANUS_ERROR_UNKNOWN "Error setting ICE locally"; mret (Some ret)
              else mret None
            else if negb (agent v) then
              ret ← jsep_fail h JANUS_ERROR_UNEXPECTED_ANSWER "Unexpected ANSWER (did we offer?)"; mret (Some ret)
            else mret None);
  match failed with
  | Some ret => mret (Some ret)
  | None =>
      rc ← lift (core_call h (janus_sdp_process sdp false));
      if (rc <? 0)%Z then ret ← jsep_fail h JANUS_ERROR_JSEP_INVALID_SDP "Error processing SDP"; mret (Some ret)
      else if negb offer then
        lift (if do_trickle then janus_flags_set h WEBRTC_TRICKLE else janus_flags_clear h WEBRTC_TRICKLE);;
        janus_request_ice_handle_answer fuel h;;
        mret None
      else
        let ext_id := janus_rtp_header_extension_get_id (Some jsep_sdp) in
        v ← lift (get_handle h);
        s ← deref (stream v);
        lift (update_handle h (h_stream (fun _ =>
          Some (st_transport_wide_cc_ext_id (fun _ => ext_id) (st_do_transport_wide_cc (fun _ => 0 <? ext_id)%Z s)))));;
        mret None
  end.

(** A later one. *)
Definition update_media (have_sctp : bool) (h : loc) (offer : bool) (sdp : D) : m (option Z) :=
  rc ← lift (core_call h (janus_sdp_process sdp true));
  if (rc <? 0)%Z then ret ← jsep_fail h JANUS_ERROR_UNEXPECTED_ANSWER "Error processing SDP"; mret (Some ret)
  else
    lift (restart ← janus_flags_is_set h WEBRTC_ICE_RESTART;
          if (restart : bool) then
            v ← get_handle h;
            (if! bool_decide (stream v <> None) then core_call h nice_agent_set_remote_credentials);;
            (if offer then core_call h janus_ice_restart else janus_flags_clear h WEBRTC_ICE_RESTART);;
            full ← gets (fun w => janus_ice_is_full_trickle_enabled (core w));
            if! full then janus_flags_set h WEBRTC_RESEND_TRICKLES
          else mret tt);;
    lift (if have_sctp && negb offer then
            dc ← janus_flags_is_set h WEBRTC_DATA_CHANNELS; if! dc then core_call h create_datachannels
          else mret tt);;
    mret None.

(** The handle's mutex is held. *)
Definition with_jsep_type (fuel : nat) (have_sctp : bool) (h : loc) (handle_no : Z) (jsep : J) (jsep_type : string)
    (do_trickle : bool) : m (Z + jsep_ok) :=
  kind ← lift (jsep_kind h jsep_type);
  match kind with
  | None =>
      ret ← jsep_fail_first h JANUS_ERROR_JSEP_UNKNOWN_TYPE
              (Some ("JSEP error: unknown message type '" +:+ jsep_type +:+ "'"));
      mret (inl ret)
  | Some offer =>
      jsep_sdp ← deref (json_object_get jsep "sdp" ≫= json_string_value);
      v ← lift (get_handle h);
      x ← gets core_of;
      match janus_handle_sdp_preparse v jsep_sdp x with
      | inl error_str =>
          ret ← janus_process_error_string request session_no transaction (error_code JANUS_ERROR_JSEP_INVALID_SDP) error_str;
          lift (janus_flags_clear h WEBRTC_PROCESSING_OFFER);; lift (janus_mutex_unlock h);; mret (inl ret)
      | inr (sdp, avd) =>
          (if! janus_events_is_enabled x then log (JsepEvent session_no handle_no));;
          let fresh := negb (bool_decide (WEBRTC_READY ∈ webrtc_flags v)) || bool_decide (WEBRTC_ALERT ∈ webrtc_flags v) in
          failed ← (if fresh then new_media fuel h offer jsep_sdp sdp avd do_trickle
                    else update_media have_sctp h offer sdp);
          match failed with
          | Some ret => mret (inl ret)
          | None =>
              lift (update_handle h (h_remote_sdp (fun _ => Some jsep_sdp)));;
              lift (janus_mutex_unlock h);;
              let '(rc, sdp) := janus_sdp_anonymize sdp in
              if (rc <? 0)%Z then
                ret ← fail JANUS_ERROR_JSEP_INVALID_SDP (Some "JSEP error: invalid SDP");
                lift (janus_flags_clear h WEBRTC_PROCESSING_OFFER);; mret (inl ret)
              else
                lift (janus_flags_clear h WEBRTC_PROCESSING_OFFER);;
                mret (inr (JsepOk jsep_type (janus_sdp_write sdp) (negb fresh)))
          end
      end
  end.

(** [inl]: [goto jsondone] with this result. *)
Definition take_jsep (fuel : nat) (have_sctp : bool) (h : loc) (handle_no : Z) (jsep : J) : m (Z + jsep_ok) :=
  if negb (json_is_object jsep) then
    ret ← fail JANUS_ERROR_INVALID_JSON_OBJECT (Some "Invalid jsep object"); mret (inl ret)
  else
    match JANUS_VALIDATE_JSON_OBJECT jsep jsep_parameters with
    | Some (error, cause) =>
        ret ← janus_process_error_string request session_no transaction error cause; mret (inl ret)
    | None =>
        let jsep_type := json_object_get jsep "type" ≫= json_string_value in
        let do_trickle := match json_object_get jsep "trickle" with Some t => json_is_true t | None => true end in
        ready ← lift (wait_cleaning 31 h 0);
        if negb ready then ret ← fail JANUS_ERROR_WEBRTC_STATE (Some "Still cleaning a previous session"); mret (inl ret)
        else
          lift (janus_mutex_lock h);;
          jsep_type ← deref jsep_type;
          with_jsep_type fuel have_sctp h handle_no jsep jsep_type do_trickle
    end.

(** *** A message for the plug-in *)

(** Is there a plug-in, and its session alive? *)
Definition plugin_alive (v : ice_handle J) (x : X) : option loc :=
  match app v, app_handle v with
  | Some _, Some ah => if janus_plugin_session_is_alive ah x then Some ah else None
  | _, _ => None
  end.

Definition answer_plugin (s h plugin : loc) (result : option (plugin_result J)) : m Z :=
  match result with
  | None => fail JANUS_ERROR_PLUGIN_MESSAGE (Some "Plugin didn't give a result")
  | Some res =>
      match r_type res with
      | JANUS_PLUGIN_OK =>
          match r_content res with
          | None =>
              fail JANUS_ERROR_PLUGIN_MESSAGE (Some "Plugin didn't provide any content for this synchronous response")
          | Some content =>
              if negb (json_is_object content) then
                fail JANUS_ERROR_PLUGIN_MESSAGE (Some "Plugin returned an invalid JSON response")
              else
                sv ← get_session s;
                v ← lift (get_handle h);
                succeed "success" (session_id sv)
                  [("sender", json_integer (s64 (handle_id v)));
                   ("plugindata", json_object [("plugin", json_string (get_package plugin)); ("data", content)])]
          end
      | JANUS_PLUGIN_OK_WAIT =>
          succeed "ack" session_no (match r_text res with Some t => [("hint", json_string t)] | None => [] end)
      | JANUS_PLUGIN_ERROR =>
          janus_process_error_string request session_no transaction (error_code JANUS_ERROR_PLUGIN_MESSAGE)
            (default "Plugin returned a severe (unknown) error" (r_text res))
      end
  end.

Definition send_plugin (s h plugin : loc) (body : option J) (j : option jsep_ok) : m Z :=
  v ← lift (get_handle h);
  x ← gets core_of;
  match plugin_alive v x with
  | None =>
      ret ← fail JANUS_ERROR_PLUGIN_MESSAGE (Some "No plugin to handle this message");
      lift (janus_flags_clear h WEBRTC_PROCESSING_OFFER);; mret ret
  | Some ah =>
      let '(result, x) := handle_message plugin ah body (body_jsep v <$> j) x in
      set_core x;;
      answer_plugin s h plugin result
  end.

Definition on_message (fuel : nat) (have_sctp : bool) (s : loc) (handle : option loc) (handle_no : Z) (root : J)
    (message : string) : m Z :=
  match handle with
  | None => unhandled message
  | Some h =>
      v ← lift (get_handle h);
      match app v, app_handle v with
      | Some plugin, Some _ =>
          validated root body_parameters
            (let body := json_object_get root "body" in
             match json_object_get root "jsep" with
             | None => send_plugin s h plugin body None
             | Some jsep =>
                 j ← take_jsep fuel have_sctp h handle_no jsep;
                 match j with
                 | inl ret => mret ret
                 | inr j => send_plugin s h plugin body (Some j)
                 end
             end)
      | _, _ => fail JANUS_ERROR_PLUGIN_MESSAGE (Some "No plugin to handle this message")
      end
  end.

(** *** A candidate *)

Definition ack_trickle : m Z := succeed "ack" session_no [].

Definition queue_candidate (h : loc) (c : option J) : m unit :=
  v ← lift (get_handle h);
  x ← gets core_of;
  lift (update_handle h (h_pending_trickles (fun l => l ++ [janus_ice_trickle_new v c x]))).

(** [Some]: it failed, and the mutex is released. *)
Definition parse_candidates (h : loc) (candidate candidates : option J) : m (option Z) :=
  match candidate, candidates with
  | Some c, _ =>
      error ← lift (core_call h (janus_ice_trickle_parse c));
      if negb (error =? 0)%Z then
        ret ← janus_process_error request session_no transaction error (Some (trickle_error error));
        lift (janus_mutex_unlock h);; mret (Some ret)
      else mret None
  | None, cs =>
      match cs ≫= json_array_items with
      | None =>
          ret ← fail JANUS_ERROR_INVALID_ELEMENT_TYPE (Some "candidates is not an array");
          lift (janus_mutex_unlock h);; mret (Some ret)
      | Some cs => lift (parse_all h cs);; mret None
      end
  end.

Definition take_candidates (h : loc) (candidate candidates : option J) : m Z :=
  lift (janus_mutex_lock h);;
  lift (support_trickle h);;
  v ← lift (get_handle h);
  let either := match candidate with Some c => Some c | None => candidates end in
  let busy := bool_decide (WEBRTC_PROCESSING_OFFER ∈ webrtc_flags v) ||
    negb (bool_decide (WEBRTC_GOT_OFFER ∈ webrtc_flags v)) || negb (bool_decide (WEBRTC_GOT_ANSWER ∈ webrtc_flags v)) in
  failed ← (if bool_decide (stream v = None) || busy then queue_candidate h either;; mret None
            else parse_candidates h candidate candidates);
  match failed with
  | Some ret => mret ret
  | None => lift (janus_mutex_unlock h);; ack_trickle
  end.

Definition on_trickle (handle : option loc) (root : J) (message : string) : m Z :=
  match handle with
  | None => unhandled message
  | Some h =>
      v ← lift (get_handle h);
      x ← gets core_of;
      match plugin_alive v x, json_object_get root "candidate", json_object_get root "candidates" with
      | None, _, _ => fail JANUS_ERROR_PLUGIN_MESSAGE (Some "No plugin to handle this trickle candidate")
      | Some _, None, None =>
          fail JANUS_ERROR_MISSING_MANDATORY_ELEMENT (Some "Missing mandatory element (candidate|candidates)")
      | Some _, Some _, Some _ => fail JANUS_ERROR_INVALID_JSON (Some "Can't have both candidate and candidates")
      | Some _, candidate, candidates =>
          if bool_decide (WEBRTC_CLEANING ∈ webrtc_flags v) then
            fail JANUS_ERROR_WEBRTC_STATE (Some "Still cleaning a previous session")
          else take_candidates h candidate candidates
      end
  end.

(** *** Sessions and handles *)

Definition id_member (n : Z) : list (string * J) := [("data", json_object [("id", json_integer (s64 n))])].

(** [create], once nothing speaks against it: the result and the session. *)
Definition create_session (fuel : nat) (id : Z) : m (Z * loc) :=
  s ← janus_session_create fuel id;
  v ← get_session s;
  let session_no := session_id v in
  janus_refcount_increase (OfSession s);;
  update_session s (s_source (fun _ => None));;
  update_usi (u_sid (fun _ => session_no));;
  ret ← succeed "success" 0 (id_member session_no);
  mret (ret, s).

(** A token may be kept from a plug-in. *)
Definition token_refused (root : J) (plugin : loc) (x : X) : bool :=
  janus_auth_is_enabled x &&
  match json_object_get root "token" ≫= json_string_value with
  | Some token => negb (janus_auth_check_plugin token plugin x)
  | None => false
  end.

(** The handle is made and attached. *)
Definition attach_handle (s plugin : loc) (opaque : option string) : m (Z * option loc) :=
  sv ← get_session s;
  handle ← ice_call (janus_ice_handle_create s (ice_handles sv) opaque);
  match handle with
  | None => ret ← fail JANUS_ERROR_UNKNOWN (Some "Memory error"); mret (ret, None)
  | Some h =>
      v ← lift (get_handle h);
      let handle_no := handle_id v in
      update_usi (fun us => if (hid us =? 0)%Z then u_hid (fun _ => handle_no) us else us);;
      janus_refcount_increase (OfHandle h);;
      error ← ice_call (janus_ice_handle_attach_plugin s h plugin);
      if negb (error =? 0)%Z then
        janus_session_handles_remove s h;;
        ret ← fail JANUS_ERROR_PLUGIN_ATTACH (Some ("Couldn't attach to plugin: error '" +:+ pretty error +:+ "'"));
        mret (ret, Some h)
      else
        ret ← succeed "success" session_no (id_member handle_no);
        mret (ret, Some h)
  end.

Definition on_attach (s : loc) (handle : option loc) (root : J) (message : string) : m (Z * option loc) :=
  match handle with
  | Some _ => ret ← unhandled message; mret (ret, handle)
  | None =>
      match JANUS_VALIDATE_JSON_OBJECT root attach_parameters with
      | Some (error, cause) =>
          ret ← janus_process_error_string request session_no transaction error cause; mret (ret, None)
      | None =>
          let plugin_text := json_object_get root "plugin" ≫= json_string_value in
          plugin_t ← janus_plugin_find plugin_text;
          match plugin_t with
          | None =>
              ret ← fail JANUS_ERROR_PLUGIN_NOT_FOUND
                      (Some ("No such plugin '" +:+ default EmptyString plugin_text +:+ "'"));
              mret (ret, None)
          | Some plugin =>
              x ← gets core_of;
              if token_refused root plugin x then
                ret ← fail JANUS_ERROR_UNAUTHORIZED_PLUGIN
                        (Some ("Provided token can't access plugin '" +:+ default EmptyString plugin_text +:+ "'"));
                mret (ret, None)
              else attach_handle s plugin (json_object_get root "opaque_id" ≫= json_string_value)
          end
      end
  end.

Definition on_destroy (s : loc) (handle : option loc) (message : string) : m Z :=
  match handle with
  | Some _ => unhandled message
  | None =>
      sessions_lock;;
      v ← get_session s;
      modify (w_sessions (delete (session_id v)));;
      sessions_unlock;;
      update_usi (u_sid (fun _ => 0%Z));;
      janus_session_destroy s;;
      ret ← succeed "success" session_no [];
      notify_session session_no "destroyed";;
      mret ret
  end.

(** Is there a plug-in at the handle? *)
Definition attached (h : loc) : m bool :=
  v ← lift (get_handle h); mret (bool_decide (is_Some (app v)) && bool_decide (is_Some (app_handle v))).

Definition on_detach (s : loc) (handle : option loc) (message : string) : m Z :=
  match handle with
  | None => unhandled message
  | Some h =>
      ok ← attached h;
      if negb ok then fail JANUS_ERROR_PLUGIN_DETACH (Some "No plugin to detach from")
      else
        error ← janus_session_handles_remove s h;
        if negb (error =? 0)%Z then
          fail JANUS_ERROR_PLUGIN_DETACH (Some ("Couldn't detach from plugin: error '" +:+ pretty error +:+ "'"))
        else
          update_usi (u_hid (fun _ => 0%Z));;
          succeed "success" session_no []
  end.

Definition on_hangup (handle : option loc) (message : string) : m Z :=
  match handle with
  | None => unhandled message
  | Some h =>
      ok ← attached h;
      if negb ok then fail JANUS_ERROR_PLUGIN_DETACH (Some "No plugin attached")
      else
        ice_call (janus_ice_webrtc_hangup h);;
        succeed "success" session_no []
  end.

Definition on_claim (s : loc) : m Z :=
  session_lock s;;
  v ← get_session s;
  (match source v with
   | Some r => janus_request_destroy (Some r);; update_session s (s_source (fun _ => None))
   | None => mret tt
   end);;
  update_session s (s_transport_gone (fun _ => false));;
  session_unlock s;;
  janus_process_success request (json_object
    ([("janus", json_string "success"); ("session_id", json_integer (s64 session_no))] ++
     match transaction with Some t => [("transaction", json_string t)] | None => [] end)).

(** *** What is this? *)

(** Behind the checks; the session and the handle are found. *)
Definition dispatch (fuel : nat) (have_sctp : bool) (s : loc) (handle : option loc) (handle_no : Z) (root : J)
    (message : string) : m Z :=
  let done ret := jsondone (Some s) handle ret in
  if strcasecmp_eq message "keepalive" then succeed "ack" session_no [] ≫= done
  else if strcasecmp_eq message "attach" then
    rh ← on_attach s handle root message; jsondone (Some s) rh.2 rh.1
  else if strcasecmp_eq message "destroy" then on_destroy s handle message ≫= done
  else if strcasecmp_eq message "detach" then on_detach s handle message ≫= done
  else if strcasecmp_eq message "hangup" then on_hangup handle message ≫= done
  else if strcasecmp_eq message "claim" then on_claim s ≫= done
  else if strcasecmp_eq message "message" then
    on_message fuel have_sctp s handle handle_no root message ≫= done
  else if strcasecmp_eq message "trickle" then on_trickle handle root message ≫= done
  else fail JANUS_ERROR_UNKNOWN_REQUEST (Some ("Unknown request '" +:+ message +:+ "'")) ≫= done.
End Request.

(** *** Info *)

Definition json_bool (b : bool) : J := if b then json_true else json_false.

Definition module_member (mo : loc) : string * J :=
  let i := module_info_of mo in
  (m_package i, json_object
     [("name", json_string (m_name i)); ("author", json_string (m_author i)); ("description", json_string (m_description i));
      ("version_string", json_string (m_version_string i)); ("version", json_integer (m_version i))]).
Definition module_members (t : gmap string loc) : list (string * J) :=
  (fun km => module_member km.2) <$> g_hash_table_names t.

Definition server_member (key : string) (server : option (string * Z)) : list (string * J) :=
  match server with
  | Some (ip, port) => [(key, json_string (snprintf 255 (ip +:+ ":" +:+ pretty port)))]
  | None => []
  end.

(** No transport is loaded in this port. *)
Definition janus_info (transaction : option string) (x : X) (g : globals) (plugins eventhandlers : gmap string loc) : J :=
  let i := core_info_of x in
  json_object (janus_create_message "server_info" 0 transaction ++
    [("name", json_string (i_name i)); ("version", json_integer (i_version i));
     ("version_string", json_string (i_version_string i)); ("author", json_string (i_author i));
     ("commit-hash", json_string (i_build_git_sha i)); ("compile-time", json_string (i_build_git_time i));
     ("log-to-stdout", json_bool (i_log_to_stdout i)); ("log-to-file", json_bool (bool_decide (is_Some (i_log_path i))))] ++
    match i_log_path i with Some p => [("log-path", json_string p)] | None => [] end ++
    [("data_channels", json_bool (i_data_channels i)); ("accepting-new-sessions", json_bool (accept_new_sessions g));
     ("session-timeout", json_integer (session_timeout g));
     ("reclaim-session-timeout", json_integer (reclaim_session_timeout g));
     ("candidates-timeout", json_integer (candidates_timeout g)); ("server-name", json_string (i_server_name i));
     ("local-ip", json_string (i_local_ip i))] ++
    match i_public_ip i with Some p => [("public-ip", json_string p)] | None => [] end ++
    [("ipv6", json_bool (i_ipv6 i)); ("ice-lite", json_bool (i_ice_lite i)); ("ice-tcp", json_bool (i_ice_tcp i));
     ("full-trickle", json_bool (i_full_trickle i)); ("rfc-4588", json_bool (i_rfc4588 i))] ++
    server_member "stun-server" (i_stun_server i) ++ server_member "turn-server" (i_turn_server i) ++
    [("static-event-loops", json_integer (i_static_event_loops i));
     ("api_secret", json_bool (bool_decide (is_Some (api_secret g)))); ("auth_token", json_bool (janus_auth_is_enabled x));
     ("event_handlers", json_bool (i_event_handlers i)); ("transports", json_object []);
     ("events", json_object (module_members eventhandlers)); ("plugins", json_object (module_members plugins))]).

(** *** Requests of no session *)

Definition on_ping (request : option loc) (transaction : option string) : m Z :=
  succeed request transaction "pong" 0 [].

(** [session_id] and [handle_id] are zero here. *)
Definition on_create (fuel : nat) (request : option loc) (transaction : option string) (root : J) : m Z :=
  g ← gets conf;
  if negb (accept_new_sessions g) then
    fail request 0 transaction JANUS_ERROR_NOT_ACCEPTING_SESSIONS None ≫= jsondone None None
  else
    ret ← janus_request_check_secret root;
    if negb (ret =? 0)%Z then fail request 0 transaction JANUS_ERROR_UNAUTHORIZED None ≫= jsondone None None
    else
      let id := match json_object_get root "id" with Some id => u64 (json_int id) | None => 0%Z end in
      taken ← (if (0 <? id)%Z then janus_session_find id else mret None);
      match taken with
      | Some s =>
          fail request id transaction JANUS_ERROR_SESSION_CONFLICT (Some "Session ID already in use") ≫=
            jsondone (Some s) None
      | None =>
          rs ← create_session request transaction fuel id;
          jsondone (Some rs.2) None rs.1
      end.

(** *** A request of a session *)

Definition session_request (fuel : nat) (have_sctp : bool) (request : option loc) (session_no handle_no : Z)
    (transaction : option string) (root : J) (message : string) : m Z :=
  ret ← janus_request_check_secret root;
  if negb (ret =? 0)%Z then fail request session_no transaction JANUS_ERROR_UNAUTHORIZED None ≫= jsondone None None
  else
    session ← janus_session_find session_no;
    match session with
    | None =>
        fail request session_no transaction JANUS_ERROR_SESSION_NOT_FOUND
          (Some ("No such session " +:+ pretty session_no)) ≫= jsondone None None
    | Some s =>
        x ← gets core_of;
        update_session s (s_last_activity (fun _ => janus_get_monotonic_time x));;
        handle ← (if (0 <? handle_no)%Z then janus_session_handles_find (Some s) handle_no else mret None);
        if (0 <? handle_no)%Z && bool_decide (handle = None) then
          fail request session_no transaction JANUS_ERROR_HANDLE_NOT_FOUND
            (Some ("No such handle " +:+ pretty handle_no +:+ " in session " +:+ pretty session_no)) ≫=
            jsondone (Some s) None
        else dispatch request session_no transaction fuel have_sctp s handle handle_no root message
    end.

(** A member that is an integer, as a [guint64]; else 0. *)
Definition get_uint64 (root : J) (key : string) : Z :=
  match json_object_get root key ≫= json_integer_value with Some n => u64 n | None => 0%Z end.

Definition janus_process_incoming_request (fuel : nat) (have_sctp : bool) (request : option loc) (root : J) : m Z :=
  let session_no := get_uint64 root "session_id" in
  let handle_no := get_uint64 root "handle_id" in
  match JANUS_VALIDATE_JSON_OBJECT root incoming_request_parameters with
  | Some (error, cause) =>
      janus_process_error_string request session_no None error cause ≫= jsondone None None
  | None =>
      let transaction := json_object_get root "transaction" ≫= json_string_value in
      message ← deref (json_object_get root "janus" ≫= json_string_value);
      if (session_no =? 0)%Z && (handle_no =? 0)%Z then
        if strcasecmp_eq message "info" then
          x ← gets core_of; g ← gets conf; ps ← gets plugins; es ← gets eventhandlers;
          janus_process_success request (janus_info transaction x g ps es) ≫= jsondone None None
        else if strcasecmp_eq message "ping" then on_ping request transaction ≫= jsondone None None
        else if negb (strcasecmp_eq message "create") then
          unhandled request session_no transaction message ≫= jsondone None None
        else on_create fuel request transaction root
      else if (session_no <? 1)%Z then
        fail request session_no transaction JANUS_ERROR_SESSION_NOT_FOUND None ≫= jsondone None None
      else if bool_decide (is_Some (json_object_get root "handle_id")) && (handle_no <? 1)%Z then
        fail request session_no transaction JANUS_ERROR_SESSION_NOT_FOUND None ≫= jsondone None None
      else session_request fuel have_sctp request session_no handle_no transaction root message
  end.
End Code.
End Req.
