(* ===== verification/JanusSummary.v ===== *)
(** * What the administrator sees of a handle (janus/src/pjanus.c)

    The summary of a handle, of its stream and of the stream's component: JSON of what ICE,
    RTP and DTLS keep, which is Janus's ([SummaryCore]).  The plug-in is asked for its part
    under the handle's mutex. *)

From S2P Require Import Prelude Jansson KoreNet MediaRooms Janus JanusServer JanusRequests.

Local Open Scope c_scope.

Module Sum.
Import Janus Srv Req.

(** ** What Janus keeps *)

Record rtcp_info : Type := RtcpInfo {
  rc_tb : Z;
  rc_rtt : Z;
  rc_lost : Z;
  rc_lost_by_remote : Z;
  rc_jitter_local : Z;
  rc_jitter_remote : Z;
  rc_in_link_quality : Z;
  rc_in_media_link_quality : Z;
  rc_out_link_quality : Z;
  rc_out_media_link_quality : Z
}.

Record media_stats : Type := MediaStats { ms_packets : Z; ms_bytes : Z; ms_bytes_lastsec : Z; ms_nacks : Z }.
Record all_stats : Type := AllStats { as_audio : media_stats; as_video : list media_stats; as_data : media_stats }.

Record dtls_info : Type := DtlsInfo {
  dt_fingerprint : string;
  dt_remote_fingerprint : option string;
  dt_remote_hashing : option string;
  dt_role : string;
  dt_state : string;
  dt_retransmissions : Z;
  dt_srtp_valid : bool;
  dt_srtp_profile : option string;
  dt_ready : bool;
  dt_started : Z;
  dt_connected : Z;
  dt_sctp : option bool  (* [None]: compiled without SCTP *)
}.

Record component_info : Type := ComponentInfo {
  cp_id : Z;
  cp_state : string;
  cp_icefailed_detected : Z;
  cp_icestate_source : bool;
  cp_connected : Z;
  cp_local_candidates : list string;
  cp_remote_candidates : list string;
  cp_selected_pair : option string;
  cp_dtls : option dtls_info;
  cp_do_audio_nacks : bool;
  cp_do_video_nacks : bool;
  cp_in_stats : all_stats;
  cp_out_stats : all_stats
}.

Record stream_info : Type := StreamInfo {
  st_cdone : Z;
  st_audio_ssrc : Z;
  st_video_ssrc : Z;
  st_video_ssrc_rtx : Z;
  st_audio_ssrc_peer : Z;
  st_video_ssrc_peer_rtx : Z * Z * Z;
  st_rid : option string * option string * option string;
  st_audio_send : bool;
  st_audio_recv : bool;
  st_video_send : bool;
  st_video_recv : bool;
  st_audio_payload_type : Z;
  st_video_payload_type : Z;
  st_video_rtx_payload_type : Z;
  st_audio_codec : option string;
  st_video_codec : option string;
  st_component : option component_info;
  st_audio_rtcp : option rtcp_info;
  st_video_rtcp : list (option rtcp_info)  (* three *)
}.

Record handle_info : Type := HandleInfo {
  hi_loop_running : bool;
  hi_created : Z;
  hi_agent_created : Z;
  hi_controlling : bool;
  hi_rtp_profile : option string;
  hi_queued_packets : option Z
}.

Class SummaryCore (X J : Type) := {
  handle_info_of : loc -> X -> handle_info;
  stream_info_of : loc -> X -> stream_info;  (* of the handle *)
  dump_info_of : loc -> X -> bool * string;  (* a dump: is it text, its file *)
  transport_package : loc -> string;
  query_session : loc -> option (loc -> X -> option J * X)  (* of the plug-in, if it has one *)
}.

Section Summary.
Context {J : Type} `{Jansson J} `{JanssonBool J} `{JanssonArray J}.
Abbreviation members := (list (string * J)).

(** A member that is only there if its condition is. *)
Definition only (b : bool) (kvs : members) : members := if b then kvs else [].
Definition int_if (key : string) (n : Z) : members := only (negb (n =? 0)%Z) [(key, json_integer n)].
Definition int_pos (key : string) (n : Z) : members := only (0 <? n)%Z [(key, json_integer n)].
Definition str_if (key : string) (o : option string) : members :=
  match o with Some t => [(key, json_string t)] | None => [] end.
Definition int (key : string) (n : Z) : string * J := (key, json_integer n).
Definition bool_ (key : string) (b : bool) : string * J := (key, json_bool b).

(** ** A component *)

Definition dtls_members (i : dtls_info) (stream : bool) : members :=
  [("fingerprint", json_string (dt_fingerprint i))] ++
  only stream (str_if "remote-fingerprint" (dt_remote_fingerprint i) ++
    str_if "remote-fingerprint-hash" (dt_remote_hashing i) ++ [("dtls-role", json_string (dt_role i))]) ++
  [("dtls-state", json_string (dt_state i)); int "retransmissions" (dt_retransmissions i); bool_ "valid" (dt_srtp_valid i);
   ("srtp-profile", json_string (default "none" (dt_srtp_profile i))); bool_ "ready" (dt_ready i)] ++
  int_pos "handshake-started" (dt_started i) ++ int_pos "connected" (dt_connected i).

Definition audio_members (s : media_stats) : members :=
  [int "audio_packets" (ms_packets s); int "audio_bytes" (ms_bytes s); int "audio_bytes_lastsec" (ms_bytes_lastsec s)].
Definition video_members (s : media_stats) : members :=
  [int "video_packets" (ms_packets s); int "video_bytes" (ms_bytes s); int "video_bytes_lastsec" (ms_bytes_lastsec s)].
Definition data_members (s : media_stats) : members := [int "data_packets" (ms_packets s); int "data_bytes" (ms_bytes s)].

(** The video streams received: the first one's members, and an object for each further one
    with a source. *)
Definition in_video (i : component_info) (peer : Z * Z * Z) : members :=
  let nacks s := only (cp_do_video_nacks i) [int "video_nacks" (ms_nacks s)] in
  match as_video (cp_in_stats i) with
  | s0 :: s1 :: s2 :: _ =>
      video_members s0 ++ [bool_ "do_video_nacks" (cp_do_video_nacks i)] ++ nacks s0 ++
      only (negb (peer.1.2 =? 0)%Z) [("video-simulcast-1", json_object (video_members s1 ++ nacks s1))] ++
      only (negb (peer.2 =? 0)%Z) [("video-simulcast-2", json_object (video_members s2 ++ nacks s2))]
  | _ => []
  end.
Definition in_members (i : component_info) (flags : gset webrtc_flag) (peer : Z * Z * Z) : members :=
  only (bool_decide (WEBRTC_HAS_AUDIO ∈ flags))
    (audio_members (as_audio (cp_in_stats i)) ++ [bool_ "do_audio_nacks" (cp_do_audio_nacks i)] ++
     only (cp_do_audio_nacks i) [int "audio_nacks" (ms_nacks (as_audio (cp_in_stats i)))]) ++
  only (bool_decide (WEBRTC_HAS_VIDEO ∈ flags)) (in_video i peer) ++
  data_members (as_data (cp_in_stats i)).
Definition out_members (i : component_info) (flags : gset webrtc_flag) : members :=
  let out := cp_out_stats i in
  only (bool_decide (WEBRTC_HAS_AUDIO ∈ flags)) (audio_members (as_audio out) ++ [int "audio_nacks" (ms_nacks (as_audio out))]) ++
  only (bool_decide (WEBRTC_HAS_VIDEO ∈ flags))
    (match as_video out with s :: _ => video_members s ++ [int "video_nacks" (ms_nacks s)] | [] => [] end) ++
  data_members (as_data out).

Definition strings (l : list string) : J := json_array (json_string <$> l).

(** Its stream is there, and the stream's handle with these flags. *)
Definition janus_admin_component_summary (i : component_info) (flags : gset webrtc_flag) (peer : Z * Z * Z) : J :=
  json_object
    ([int "id" (cp_id i); ("state", json_string (cp_state i))] ++
     only (negb (cp_icefailed_detected i =? 0)%Z)
       [int "failed-detected" (cp_icefailed_detected i); bool_ "icetimer-started" (cp_icestate_source i)] ++
     int_pos "connected" (cp_connected i) ++
     only (negb (bool_decide (cp_local_candidates i = []))) [("local-candidates", strings (cp_local_candidates i))] ++
     only (negb (bool_decide (cp_remote_candidates i = []))) [("remote-candidates", strings (cp_remote_candidates i))] ++
     str_if "selected-pair" (cp_selected_pair i) ++
     match cp_dtls i with
     | Some d =>
         [("dtls", json_object (dtls_members d true ++
             match dt_sctp d with Some sctp => [bool_ "sctp-association" sctp] | None => [] end));
          ("in_stats", json_object (in_members i flags peer)); ("out_stats", json_object (out_members i flags))]
     | None => [("dtls", json_object []); ("in_stats", json_object []); ("out_stats", json_object [])]
     end).

(** ** A stream *)

Definition ssrc_members (i : stream_info) (peer : Z * Z * Z) : members :=
  let '(p0, p1, p2) := peer in
  let '(r0, r1, r2) := st_video_ssrc_peer_rtx i in
  int_if "audio" (st_audio_ssrc i) ++ int_if "video" (st_video_ssrc i) ++ int_if "video-rtx" (st_video_ssrc_rtx i) ++
  int_if "audio-peer" (st_audio_ssrc_peer i) ++
  int_if "video-peer" p0 ++ int_if "video-peer-sim-1" p1 ++ int_if "video-peer-sim-2" p2 ++
  int_if "video-peer-rtx" r0 ++ int_if "video-peer-sim-1-rtx" r1 ++ int_if "video-peer-sim-2-rtx" r2 ++
  match st_rid i with
  | (Some rid0, rid1, rid2) =>
      (* the third follows the second's condition, and an array takes no null *)
      [("rid", json_array ([json_string rid0] ++
         match rid1 with
         | Some rid1 => json_string rid1 :: match rid2 with Some rid2 => [json_string rid2] | None => [] end
         | None => []
         end))]
  | _ => []
  end.

Definition codec_members (i : stream_info) : members :=
  let pt key n := only (-1 <? n)%Z [int key n] in
  only ((-1 <? st_audio_payload_type i) || (-1 <? st_video_payload_type i))%Z
    [("codecs", json_object
       (pt "audio-pt" (st_audio_payload_type i) ++ str_if "audio-codec" (st_audio_codec i) ++
        pt "video-pt" (st_video_payload_type i) ++ pt "video-rtx-pt" (st_video_rtx_payload_type i) ++
        str_if "video-codec" (st_video_codec i)))].

Definition rtcp_members (rtt : bool) (r : rtcp_info) : J :=
  json_object ([int "base" (rc_tb r)] ++ only rtt [int "rtt" (rc_rtt r)] ++
    [int "lost" (rc_lost r); int "lost-by-remote" (rc_lost_by_remote r); int "jitter-local" (rc_jitter_local r);
     int "jitter-remote" (rc_jitter_remote r); int "in-link-quality" (rc_in_link_quality r);
     int "in-media-link-quality" (rc_in_media_link_quality r); int "out-link-quality" (rc_out_link_quality r);
     int "out-media-link-quality" (rc_out_media_link_quality r)]).
Definition rtcp_stats (i : stream_info) : members :=
  let one key rtt o := match o with Some r => [(key, rtcp_members rtt r)] | None => [] end in
  one "audio" true (st_audio_rtcp i) ++
  match st_video_rtcp i with
  | [v0; v1; v2] => one "video" true v0 ++ one "video-sim1" false v1 ++ one "video-sim2" false v2
  | _ => []
  end.

Definition janus_admin_stream_summary (s : ice_stream) (i : stream_info) (flags : gset webrtc_flag) : J :=
  json_object
    ([int "id" (s_id s); int "ready" (st_cdone i); ("ssrc", json_object (ssrc_members i (video_ssrc_peer s)));
      ("direction", json_object [bool_ "audio-send" (st_audio_send i); bool_ "audio-recv" (st_audio_recv i);
         bool_ "video-send" (st_video_send i); bool_ "video-recv" (st_video_recv i)])] ++
     codec_members i ++
     [("bwe", json_object (bool_ "twcc" (do_transport_wide_cc s) ::
         only (0 <=? transport_wide_cc_ext_id s)%Z [int "twcc-ext-id" (transport_wide_cc_ext_id s)]))] ++
     only (negb (bool_decide ((rtcp_stats i).*1 = []))) [("rtcp_stats", json_object (rtcp_stats i))] ++
     [("components", json_array
         match st_component i with Some c => [janus_admin_component_summary c flags (video_ssrc_peer s)] | None => [] end)]).
End Summary.

(** ** A handle *)

Section Code.
Context {X D R J B : Type} `{JanusCore X D J} `{ServerCore X D J} `{ServerInfo X} `{SummaryCore X J} `{Media.JsonRefs R}
  `{Jansson J} `{JanssonBool J} `{JanssonArray J} `{KoreBuf B} `{KoreNet}.
Abbreviation m := (M (world X R J)).

Definition flag_members (flags : gset webrtc_flag) : list (string * J) :=
  let flag key f := (key, json_bool (bool_decide (f ∈ flags))) in
  [flag "got-offer" WEBRTC_GOT_OFFER; flag "got-answer" WEBRTC_GOT_ANSWER; flag "processing-offer" WEBRTC_PROCESSING_OFFER;
   flag "starting" WEBRTC_START; flag "ice-restart" WEBRTC_ICE_RESTART; flag "ready" WEBRTC_READY; flag "stopped" WEBRTC_STOP;
   flag "alert" WEBRTC_ALERT; flag "trickle" WEBRTC_TRICKLE; flag "all-trickles" WEBRTC_ALL_TRICKLES;
   flag "resend-trickles" WEBRTC_RESEND_TRICKLES; flag "trickle-synced" WEBRTC_TRICKLE_SYNCED;
   flag "data-channels" WEBRTC_DATA_CHANNELS; flag "has-audio" WEBRTC_HAS_AUDIO; flag "has-video" WEBRTC_HAS_VIDEO;
   flag "new-datachan-sdp" WEBRTC_NEW_DATACHAN_SDP; flag "rfc4588-rtx" WEBRTC_RFC4588_RTX; flag "cleaning" WEBRTC_CLEANING].

(** The plug-in's part: its package, and what it says of its session if that is an object. *)
Definition plugin_members (v : ice_handle J) : m (list (string * J)) :=
  x ← gets core_of;
  match app v, app_handle v with
  | Some plugin, Some ah =>
      if janus_plugin_session_is_alive ah x then
        query ← match query_session plugin with
                | Some f => let '(query, x) := f ah x in set_core x;; mret query
                | None => mret None
                end;
        mret (("plugin", json_string (get_package plugin)) ::
              match query with
              | Some q => if json_is_object q then [("plugin_specific", q)] else []
              | None => []
              end)
      else mret []
  | _, _ => mret []
  end.

Definition dump_members (e : handle_ext) (x : X) : list (string * J) :=
  match text2pcap e with
  | Some dump =>
      let '(text, filename) := dump_info_of dump x in
      if dump_packets e then
        if text then [bool_ "dump-to-text2pcap" true; ("text2pcap-file", json_string filename)]
        else [bool_ "dump-to-pcap" true; ("pcap-file", json_string filename)]
      else []
  | None => []
  end.

(** Of the session: its last activity, and its request's transport. *)
Definition transport_member (v : janus_session) : m (list (string * J)) :=
  match source v with
  | Some r =>
      qs ← gets requests;
      q ← live (qs !! r);
      mret (match transport q with Some t => [("session_transport", json_string (transport_package t))] | None => [] end)
  | None => mret []
  end.

Definition handle_members (session_no handle_no : Z) (s h : loc) : m (list (string * J)) :=
  sv ← get_session s;
  transport ← transport_member sv;
  v ← lift (get_handle h);
  e ← get_ext h;
  x ← gets core_of;
  plugin ← plugin_members v;
  let i := handle_info_of h x in
  mret ([int "session_id" (s64 session_no); int "session_last_activity" (last_activity sv)] ++ transport ++
        [int "handle_id" (s64 handle_no)] ++ str_if "opaque_id" (opaque_id e) ++
        [bool_ "loop-running" (hi_loop_running i); int "created" (hi_created i);
         int "current_time" (janus_get_monotonic_time x)] ++ plugin ++
        [("flags", json_object (flag_members (webrtc_flags v)))] ++
        only (agent v)
          [int "agent-created" (hi_agent_created i);
           ("ice-mode", json_string (if i_ice_lite (core_info_of x) then "lite" else "full"));
           ("ice-role", json_string (if hi_controlling i then "controlling" else "controlled"))] ++
        [("sdps", json_object (str_if "profile" (hi_rtp_profile i) ++ str_if "local" (local_sdp v) ++
            str_if "remote" (remote_sdp v)))] ++
        int_pos "pending-trickles" (Z.of_nat (length (pending_trickles v))) ++
        match hi_queued_packets i with Some n => [int "queued-packets" n] | None => [] end ++
        dump_members e x ++
        [("streams", json_array match stream v with
                                | Some st => [janus_admin_stream_summary st (stream_info_of h x) (webrtc_flags v)]
                                | None => [] end)]).

Definition on_handle_info (request : option loc) (session_no handle_no : Z) (transaction : option string) (s h : loc) : m Z :=
  lift (janus_mutex_lock h);;
  info ← handle_members session_no handle_no s h;
  lift (janus_mutex_unlock h);;
  succeed request transaction "success" session_no [int "handle_id" (s64 handle_no); ("info", json_object info)].
End Code.
End Sum.
