(* ===== verification/JanusAdmin.v ===== *)
(** * The administrator's requests, and the websocket (janus/src/pjanus.c, janus.c)

    Requests about no session change settings, manage tokens and list sessions, behind the
    administrator's secret; requests about one list its handles, dump a handle's packets and
    show its summary ([JanusSummary]).  A connection's messages go to the clients' requests or to these, as its last message with
    [adtype] said. *)

From stdpp Require Import pretty.
From S2P Require Import Prelude Jansson KoreNet MediaRooms Janus JanusServer JanusRequests JanusSummary.

Local Open Scope c_scope.

Module Adm.
Import Janus Srv Req Sum.

(** ** Parameters of the requests *)

Definition add_token_parameters : list janus_json_parameter :=
  [JsonParameter "token" JSON_STRING true false; JsonParameter "plugins" JSON_ARRAY false false].
Definition token_parameters : list janus_json_parameter := [JsonParameter "token" JSON_STRING true false].
Definition admin_parameters : list janus_json_parameter :=
  [JsonParameter "transaction" JSON_STRING true false; JsonParameter "janus" JSON_STRING true false].
Definition debug_parameters : list janus_json_parameter := [JsonParameter "debug" JANUS_JSON_BOOL true false].
Definition timeout_parameters : list janus_json_parameter := [JsonParameter "timeout" JSON_INTEGER true true].
Definition level_parameters : list janus_json_parameter := [JsonParameter "level" JSON_INTEGER true true].
Definition timestamps_parameters : list janus_json_parameter := [JsonParameter "timestamps" JANUS_JSON_BOOL true false].
Definition colors_parameters : list janus_json_parameter := [JsonParameter "colors" JANUS_JSON_BOOL true false].
Definition mnq_parameters : list janus_json_parameter := [JsonParameter "max_nack_queue" JSON_INTEGER true true].
Definition nmt_parameters : list janus_json_parameter := [JsonParameter "no_media_timer" JSON_INTEGER true true].
Definition ans_parameters : list janus_json_parameter := [JsonParameter "accept" JANUS_JSON_BOOL true false].
Definition queryhandler_parameters : list janus_json_parameter :=
  [JsonParameter "handler" JSON_STRING true false; JsonParameter "request" JSON_OBJECT false false].
Definition customevent_parameters : list janus_json_parameter :=
  [JsonParameter "schema" JSON_STRING true false; JsonParameter "data" JSON_OBJECT true false].
Definition text2pcap_parameters : list janus_json_parameter :=
  [JsonParameter "folder" JSON_STRING false false; JsonParameter "filename" JSON_STRING false false;
   JsonParameter "truncate" JSON_INTEGER false true].

(** ** Janus: tokens, settings of ICE, event handlers, dumps *)

Class AdminCore (X J : Type) := {
  LOG_NONE : Z;
  LOG_MAX : Z;
  janus_auth_is_stored_mode : X -> bool;
  janus_auth_list_plugins : string -> X -> list (option loc);
  janus_auth_list_tokens : X -> list (option string);
  janus_auth_add_token : string -> X -> bool * X;
  janus_auth_remove_token : string -> X -> bool * X;
  janus_auth_allow_plugin : string -> option loc -> X -> bool * X;
  janus_auth_disallow_plugin : string -> option loc -> X -> bool * X;
  janus_ice_is_ice_debugging_enabled : X -> bool;
  janus_ice_debugging_set : bool -> X -> X;  (* [_enable] and [_disable] *)
  janus_get_max_nack_queue : X -> Z;
  janus_set_max_nack_queue : Z -> X -> X;
  janus_get_no_media_timer : X -> Z;
  janus_set_no_media_timer : Z -> X -> X;
  (* of the event handler: [None], it has no [handle_request]; its answer may be null *)
  handle_request : loc -> option (option J -> X -> option J * X);
  janus_text2pcap_create : option string -> option string -> Z -> bool -> X -> option loc * X;
  janus_text2pcap_close : loc -> X -> X  (* and [_free] *)
}.

Section Code.
Context {X D R J B : Type} `{JanusCore X D J} `{ServerCore X D J} `{ServerInfo X} `{AdminCore X J} `{SummaryCore X J} `{Media.JsonRefs R}
  `{Jansson J} `{JanssonBool J} `{JanssonArray J} `{KoreBuf B} `{KoreNet}.
Abbreviation m := (M (world X R J)).

(** An [int] taken of a number of jansson's. *)
Definition s32 (z : Z) : Z := let n := u32 z in if (n <? 2 ^ 31)%Z then n else (n - 2 ^ 32)%Z.
(** [json_integer_value] and the like of a member that may be missing. *)
Definition member_int (root : J) (key : string) : Z := from_option json_int 0%Z (json_object_get root key).
Definition member_string (root : J) (key : string) : option string := json_object_get root key ≫= json_string_value.
Definition member_true (root : J) (key : string) : bool := from_option json_is_true false (json_object_get root key).

(** ** Tokens *)

Definition janus_json_token_plugin_list (token_value : string) (x : X) : list J :=
  (fun p => json_string (get_package p)) <$> omap id (janus_auth_list_plugins token_value x).
Definition janus_json_token_plugin_array (token_value : string) (x : X) : J :=
  json_array (janus_json_token_plugin_list token_value x).

Section Request.
Context (request : option loc) (session_no : Z) (transaction : option string).
Abbreviation fail := (fail request session_no transaction).
Abbreviation validated := (validated request session_no transaction).
(** Replies of requests about no session have no number. *)
Abbreviation reply := (succeed request transaction "success" 0%Z).
Abbreviation unhandled := (unhandled request session_no transaction).

Definition janus_json_list_token_plugins (token_value : string) (x : X) : list (string * J) :=
  [("data", json_object [("plugins", janus_json_token_plugin_array token_value x)])].

(** The first walk over the plug-ins named: may the request go on? *)
Fixpoint plugins_ok (add : bool) (ps : gmap string loc) (allowed : list J) : bool :=
  match allowed with
  | [] => true
  | p :: allowed =>
      match json_string_value p ≫= fun name => ps !! name with
      | Some _ => plugins_ok add ps allowed
      | None => if add then plugins_ok add ps allowed else false
      end
  end.

(** The second: a failure for one is only logged. *)
Definition limit_plugin (token_value : string) (allow : bool) (p : J) : m unit :=
  plugin_t ← janus_plugin_find (json_string_value p);
  x ← gets core_of;
  set_core (if allow then janus_auth_allow_plugin token_value plugin_t x
            else janus_auth_disallow_plugin token_value plugin_t x).2.

Definition allow_plugin (token_value : string) (np : string * loc) : m unit :=
  x ← gets core_of; set_core (janus_auth_allow_plugin token_value (Some np.2) x).2.

(** Behind the checks: the token is there. *)
Definition limit_token (token_value : string) (allow add : bool) (allowed : list J) : m Z :=
  ps ← gets plugins;
  if bool_decide (allowed <> []) && negb (plugins_ok add ps allowed) then
    fail JANUS_ERROR_INVALID_ELEMENT_TYPE (Some "Invalid element type (some of the provided plugins are invalid)")
  else
    (match allowed with
     | [] => foreach (allow_plugin token_value) (g_hash_table_names ps)
     | _ => foreach (limit_plugin token_value allow) allowed
     end);;
    x ← gets core_of;
    reply (janus_json_list_token_plugins token_value x).

Definition janus_request_allow_token (allow add : bool) (root : J) : m Z :=
  x ← gets core_of;
  if negb (janus_auth_is_stored_mode x) then
    fail JANUS_ERROR_UNKNOWN (Some "Stored-Token based authentication disabled")
  else
    validated root add_token_parameters
      (let allowed := default [] (json_object_get root "plugins" ≫= json_array_items) in
       if negb add && bool_decide (allowed = []) then
         janus_process_error_string request session_no transaction (error_code JANUS_ERROR_INVALID_ELEMENT_TYPE)
           "Invalid element type (plugins should be a non-empty array)"
       else
         token_value ← deref (member_string root "token");
         if add then
           let '(ok, x) := janus_auth_add_token token_value x in
           set_core x;;
           if negb ok then fail JANUS_ERROR_UNKNOWN (Some "Error adding token")
           else limit_token token_value allow add allowed
         else if negb (janus_auth_check_token token_value x) then
           fail JANUS_ERROR_TOKEN_NOT_FOUND (Some ("Token " +:+ token_value +:+ " not found"))
         else limit_token token_value allow add allowed).

Definition token_entry (x : X) (token : string) : option J :=
  match janus_json_token_plugin_list token x with
  | [] => None
  | ps => Some (json_object [("token", json_string token); ("allowed_plugins", json_array ps)])
  end.

Definition list_tokens : m Z :=
  x ← gets core_of;
  if negb (janus_auth_is_stored_mode x) then
    fail JANUS_ERROR_UNKNOWN (Some "Stored-Token based authentication disabled")
  else
    reply [("data", json_object [("tokens", json_array (omap (token_entry x) (omap id (janus_auth_list_tokens x))))])].

Definition remove_token (root : J) : m Z :=
  x ← gets core_of;
  if negb (janus_auth_is_stored_mode x) then
    fail JANUS_ERROR_UNKNOWN (Some "Stored-Token based authentication disabled")
  else
    validated root token_parameters
      (token_value ← deref (member_string root "token");
       let '(ok, x) := janus_auth_remove_token token_value x in
       set_core x;;
       if negb ok then fail JANUS_ERROR_UNKNOWN (Some "Error removing token") else reply []).

(** ** Settings *)

Definition setting (key : string) (v : J) : m Z := reply [(key, v)].
Definition set_conf (f : globals -> globals) : m unit := modify (w_conf f).

Definition get_status : m Z :=
  g ← gets conf;
  x ← gets core_of;
  reply [("status", json_object
    [("token_auth", json_bool (janus_auth_is_enabled x)); ("session_timeout", json_integer (session_timeout g));
     ("reclaim_session_timeout", json_integer (reclaim_session_timeout g));
     ("candidates_timeout", json_integer (candidates_timeout g)); ("log_level", json_integer (janus_log_level g));
     ("log_timestamps", json_bool (janus_log_timestamps g)); ("log_colors", json_bool (janus_log_colors g));
     ("locking_debug", json_bool (lock_debug g)); ("refcount_debug", json_bool (refcount_debug g));
     ("libnice_debug", json_bool (janus_ice_is_ice_debugging_enabled x));
     ("max_nack_queue", json_integer (janus_get_max_nack_queue x));
     ("no_media_timer", json_integer (janus_get_no_media_timer x))])].

Definition set_session_timeout (root : J) : m Z :=
  validated root timeout_parameters
    (let timeout_num := s32 (member_int root "timeout") in
     if (timeout_num <? 0)%Z then
       fail JANUS_ERROR_INVALID_ELEMENT_TYPE (Some "Invalid element type (timeout should be a positive integer)")
     else set_conf (c_session_timeout (fun _ => timeout_num));; setting "timeout" (json_integer timeout_num)).

Definition set_log_level (root : J) : m Z :=
  validated root level_parameters
    (let level_num := s32 (member_int root "level") in
     if (level_num <? LOG_NONE)%Z || (LOG_MAX <? level_num)%Z then
       fail JANUS_ERROR_INVALID_ELEMENT_TYPE (Some ("Invalid element type (level should be between " +:+
         pretty LOG_NONE +:+ " and " +:+ pretty LOG_MAX +:+ ")"))
     else set_conf (c_janus_log_level (fun _ => level_num));; setting "level" (json_integer level_num)).

Definition set_locking_debug (root : J) : m Z :=
  validated root debug_parameters
    (let debug := member_true root "debug" in
     set_conf (c_lock_debug (fun _ => debug));; setting "locking_debug" (json_bool debug)).
Definition set_refcount_debug (root : J) : m Z :=
  validated root debug_parameters
    (let debug := member_true root "debug" in
     set_conf (c_refcount_debug (fun _ => debug));; setting "refcount_debug" (json_bool debug)).
Definition set_log_timestamps (root : J) : m Z :=
  validated root timestamps_parameters
    (let timestamps := member_true root "timestamps" in
     set_conf (c_janus_log_timestamps (fun _ => timestamps));; setting "log_timestamps" (json_bool timestamps)).
Definition set_log_colors (root : J) : m Z :=
  validated root colors_parameters
    (let colors := member_true root "colors" in
     set_conf (c_janus_log_colors (fun _ => colors));; setting "log_colors" (json_bool colors)).

Definition set_libnice_debug (root : J) : m Z :=
  validated root debug_parameters
    (x ← gets core_of;
     set_core (janus_ice_debugging_set (member_true root "debug") x);;
     x ← gets core_of;
     setting "libnice_debug" (json_bool (janus_ice_is_ice_debugging_enabled x))).

Definition set_max_nack_queue (root : J) : m Z :=
  validated root mnq_parameters
    (let mnq_num := s32 (member_int root "max_nack_queue") in
     if (mnq_num <? 0)%Z || ((0 <? mnq_num) && (mnq_num <? 200))%Z then
       fail JANUS_ERROR_INVALID_ELEMENT_TYPE
         (Some "Invalid element type (max_nack_queue, if provided, should be greater than 200)")
     else
       x ← gets core_of;
       set_core (janus_set_max_nack_queue mnq_num x);;
       x ← gets core_of;
       setting "max_nack_queue" (json_integer (janus_get_max_nack_queue x))).

Definition set_no_media_timer (root : J) : m Z :=
  validated root nmt_parameters
    (x ← gets core_of;
     set_core (janus_set_no_media_timer (s32 (member_int root "no_media_timer")) x);;
     x ← gets core_of;
     setting "no_media_timer" (json_integer (janus_get_no_media_timer x))).

Definition set_accept_new_sessions (root : J) : m Z :=
  validated root ans_parameters
    (let accept := member_true root "accept" in
     set_conf (c_accept_new_sessions (fun _ => accept));; setting "accept" (json_bool accept)).

(** ** Event handlers *)

Definition query_eventhandler (root : J) : m Z :=
  validated root queryhandler_parameters
    (handler ← deref (member_string root "handler");
     es ← gets eventhandlers;
     match es !! handler with
     | None =>
         janus_process_error_string request session_no transaction (error_code JANUS_ERROR_PLUGIN_NOT_FOUND)
           "Invalid event handler"
     | Some evh =>
         match handle_request evh with
         | None =>
             janus_process_error_string request session_no transaction (error_code JANUS_ERROR_UNKNOWN)
               "Event handler doesn't support queries"
         | Some f =>
             x ← gets core_of;
             let '(response, x) := f (json_object_get root "request") x in
             set_core x;;
             reply [("response", default (json_object []) response)]
         end
     end).

Definition custom_event (root : J) : m Z :=
  validated root customevent_parameters
    (x ← gets core_of;
     (if! janus_events_is_enabled x then log (ExternalEvent (member_string root "schema")));;
     reply []).

(** ** Sessions, handles *)

Definition session_number (ks : Z * loc) : m J := v ← get_session ks.2; mret (json_integer (s64 (session_id v))).
Fixpoint session_numbers (l : list (Z * loc)) : m (list J) :=
  match l with
  | [] => mret []
  | ks :: l => n ← session_number ks; ns ← session_numbers l; mret (n :: ns)
  end.

Definition list_sessions : m Z :=
  t ← gets sessions;
  list ← (if bool_decide (t = ∅) then mret []
          else sessions_lock;; ns ← session_numbers (g_hash_table_iter t); sessions_unlock;; mret ns);
  reply [("sessions", json_array list)].

Definition handle_number (kh : Z * loc) : m J := v ← lift (get_handle kh.2); mret (json_integer (s64 (handle_id v))).
Fixpoint handle_numbers (l : list (Z * loc)) : m (list J) :=
  match l with
  | [] => mret []
  | kh :: l => n ← handle_number kh; ns ← handle_numbers l; mret (n :: ns)
  end.
Definition janus_session_handles_list_json (s : loc) : m J :=
  session_lock s;;
  v ← get_session s;
  list ← handle_numbers (default [] (g_hash_table_iter <$> ice_handles v));
  session_unlock s;;
  mret (json_array list).

Definition start_dump (h : loc) (root : J) (message : string) : m Z :=
  validated root text2pcap_parameters
    (let text := strcasecmp_eq message "start_text2pcap" in
     e ← get_ext h;
     if bool_decide (is_Some (text2pcap e)) then
       fail JANUS_ERROR_UNKNOWN (Some (if text then "text2pcap already started" else "pcap already started"))
     else
       x ← gets core_of;
       let '(dump, x) := janus_text2pcap_create (member_string root "folder") (member_string root "filename")
                           (s32 (member_int root "truncate")) text x in
       set_core x;;
       update_ext h (x_text2pcap (fun _ => dump));;
       if bool_decide (dump = None) then
         fail JANUS_ERROR_UNKNOWN (Some (if text then "Error starting text2pcap dump" else "Error starting pcap dump"))
       else update_ext h (x_dump_packets (fun _ => true));; reply []).

Definition stop_dump (h : loc) : m Z :=
  e ← get_ext h;
  match text2pcap e with
  | None => fail JANUS_ERROR_UNKNOWN (Some "Capture not started")
  | Some dump =>
      (if dump_packets e then
         update_ext h (x_dump_packets (fun _ => false));;
         x ← gets core_of;
         set_core (janus_text2pcap_close dump x);;
         update_ext h (x_text2pcap (fun _ => None))
       else mret tt);;
      reply []
  end.

(** ** Which request is it? *)

Definition server_dispatch (root : J) (message : string) : m Z :=
  let named := strcasecmp_eq message in
  if named "get_status" then get_status
  else if named "set_session_timeout" then set_session_timeout root
  else if named "set_log_level" then set_log_level root
  else if named "set_locking_debug" then set_locking_debug root
  else if named "set_refcount_debug" then set_refcount_debug root
  else if named "set_log_timestamps" then set_log_timestamps root
  else if named "set_log_colors" then set_log_colors root
  else if named "set_libnice_debug" then set_libnice_debug root
  else if named "set_max_nack_queue" then set_max_nack_queue root
  else if named "set_no_media_timer" then set_no_media_timer root
  else if named "accept_new_sessions" then set_accept_new_sessions root
  else if named "query_eventhandler" then query_eventhandler root
  else if named "custom_event" then custom_event root
  else if named "list_sessions" then list_sessions
  else if named "add_token" then janus_request_allow_token true true root
  else if named "list_tokens" then list_tokens
  else if named "allow_token" then janus_request_allow_token true false root
  else if named "disallow_token" then janus_request_allow_token false false root
  else if named "remove_token" then remove_token root
  else unhandled message.

End Request.

(** ** The whole request *)

(** Does the request carry the administrator's secret? *)
Definition admin_authorized (root : J) (g : globals) : bool :=
  match admin_api_secret g with
  | None => true
  | Some admin_api_secret =>
      match member_string root "admin_secret" with
      | Some secret => janus_strcmp_const_time secret admin_api_secret
      | None => false
      end
  end.

Definition handle_dispatch (request : option loc) (session_no handle_no : Z)
    (transaction : option string) (s : loc) (handle : option loc) (root : J) (message : string) : m Z :=
  match handle with
  | None =>
      if negb (strcasecmp_eq message "list_handles") then
        unhandled request session_no transaction message ≫= jsondone (Some s) None
      else
        list ← janus_session_handles_list_json s;
        succeed request transaction "success" session_no [("handles", list)] ≫= jsondone (Some s) None
  | Some h =>
      if strcasecmp_eq message "start_pcap" || strcasecmp_eq message "start_text2pcap" then
        start_dump request session_no transaction h root message ≫= jsondone (Some s) handle
      else if strcasecmp_eq message "stop_pcap" || strcasecmp_eq message "stop_text2pcap" then
        stop_dump request session_no transaction h ≫= jsondone (Some s) handle
      else if negb (strcasecmp_eq message "handle_info") then
        unhandled request session_no transaction message ≫= jsondone (Some s) handle
      else on_handle_info request session_no handle_no transaction s h ≫= jsondone (Some s) handle
  end.

Definition admin_session_request (request : option loc) (session_no handle_no : Z)
    (transaction : option string) (root : J) (message : string) : m Z :=
  g ← gets conf;
  if negb (admin_authorized root g) then
    fail request session_no transaction JANUS_ERROR_UNAUTHORIZED None ≫= jsondone None None
  else
    session ← janus_session_find session_no;
    match session with
    | None =>
        fail request session_no transaction JANUS_ERROR_SESSION_NOT_FOUND
          (Some ("No such session " +:+ pretty session_no)) ≫= jsondone None None
    | Some s =>
        handle ← (if (0 <? handle_no)%Z then janus_session_handles_find (Some s) handle_no else mret None);
        if (0 <? handle_no)%Z && bool_decide (handle = None) then
          fail request session_no transaction JANUS_ERROR_HANDLE_NOT_FOUND
            (Some ("No such handle " +:+ pretty handle_no +:+ " in session " +:+ pretty session_no)) ≫=
            jsondone (Some s) None
        else handle_dispatch request session_no handle_no transaction s handle root message
    end.

Definition janus_process_incoming_admin_request (request : option loc) (root : J) : m Z :=
  if bool_decide (request = None) then mret (-1)%Z
  else
    let session_no := get_uint64 root "session_id" in
    let handle_no := get_uint64 root "handle_id" in
    match JANUS_VALIDATE_JSON_OBJECT root admin_parameters with
    | Some (error, cause) =>
        janus_process_error_string request session_no None error cause ≫= jsondone None None
    | None =>
        let transaction := member_string root "transaction" in
        message ← deref (member_string root "janus");
        if (session_no =? 0)%Z && (handle_no =? 0)%Z then
          x ← gets core_of; g ← gets conf; ps ← gets plugins; es ← gets eventhandlers;
          if strcasecmp_eq message "info" then
            janus_process_success request (janus_info transaction x g ps es) ≫= jsondone None None
          else if negb (admin_authorized root g) then
            fail request session_no transaction JANUS_ERROR_UNAUTHORIZED None ≫= jsondone None None
          else server_dispatch request session_no transaction root message ≫= jsondone None None
        else if (session_no <? 1)%Z then
          fail request session_no transaction JANUS_ERROR_SESSION_NOT_FOUND None ≫= jsondone None None
        else if bool_decide (is_Some (json_object_get root "handle_id")) && (handle_no <? 1)%Z then
          fail request session_no transaction JANUS_ERROR_SESSION_NOT_FOUND None ≫= jsondone None None
        else admin_session_request request session_no handle_no transaction root message
    end.

(** ** The websocket's handlers (janus.c) *)

Definition websocket_connect (c : loc) : m unit :=
  extra ← gets (fun w => hdlr_extra w !! c);
  match extra with
  | Some _ => mret tt
  | None =>
      u ← alloc;
      modify (w_usis <[u := Usi 0 0 0]>);;
      modify (w_hdlr_extra <[c := u]>)
  end.

Definition websocket_disconnect (c : loc) : m unit :=
  extra ← gets (fun w => hdlr_extra w !! c);
  match extra with
  | None => mret tt
  | Some u =>
      us ← gets usis;
      v ← live (us !! u);
      torn ← gets saka;
      (if (torn =? 0)%Z then
         (if! (0 <? sid v)%Z && (hid v =? 0)%Z then del_sess (sid v));;
         (if! (0 <? sid v)%Z && (0 <? hid v)%Z then del_han (hid v) (sid v);; mret tt)
       else mret tt);;
      modify (w_usis (delete u));;
      modify (w_hdlr_extra (delete c))
  end.

Definition websocket_message (fuel : nat) (have_sctp : bool) (c : loc) (op : Z)
    (data : string) : m unit :=
  extra ← gets (fun w => hdlr_extra w !! c);
  match json_loads data with
  | None => log (Echo c op data)
  | Some root =>
      match json_object_get root "adtype" ≫= json_integer_value with
      | Some abba_id =>
          match extra with
          | Some u =>
              us ← gets usis; v ← live (us !! u); modify (w_usis <[u := u_aw (fun _ => s32 abba_id) v]>)
          | None => mret tt
          end
      | None =>
          u ← deref extra;
          us ← gets usis;
          v ← live (us !! u);
          if (aw v =? 0)%Z then _ ← janus_process_incoming_request fuel have_sctp (Some c) root; mret tt
          else if (aw v =? 1)%Z then _ ← janus_process_incoming_admin_request (Some c) root; mret tt
          else mret tt
      end
  end.

(** The worker's end: the gateway is told to stop. *)
Definition kore_worker_teardown : m unit :=
  modify (w_stop (fun n => n + 1)%Z);; modify (w_saka (fun n => n + 1)%Z).
End Code.
End Adm.
