(* ===== verification/JanusPlugins.v ===== *)
(** * What plug-ins call (janus/src/pjanus.c)

    A plug-in pushes an event, whose SDP is completed with the handle's ICE details, relays
    packets, and asks for its peer connection or its handle to be taken down, which the
    watchdog's thread then does.  The retransmission numbers are searched as in [HandleSdp],
    but for where the search starts. *)

From S2P Require Import Prelude Jansson KoreNet MediaRooms Janus HandleSdp JanusServer JanusRequests.

Local Open Scope c_scope.

Module Plug.
Import Janus Srv Req.

(** ** Payload types for retransmission *)

(** [rtx_ptype = ptype+1; if(rtx_ptype > 127) rtx_ptype = 96;], and on from there. *)
Fixpoint rtx_numbers (fuel : nat) (ptypes todo : list Z) (tbl : gmap Z Z) : option (gmap Z Z) :=
  match todo with
  | [] => Some tbl
  | ptype :: todo =>
      rtx_ptype ← Sdp.next_rtx fuel ptypes (Sdp.rtx_values tbl) ptype (Sdp.rtx_step ptype);
      rtx_numbers fuel ptypes todo (if (0 <? rtx_ptype)%Z then <[ptype := rtx_ptype]> tbl else tbl)
  end.

Section Code.
Context {X D R J B : Type} `{JanusCore X D J} `{ServerCore X D J} `{ServerInfo X} `{Sdp.SdpCore X D J} `{Media.JsonRefs R}
  `{Jansson J} `{JanssonBool J} `{KoreBuf B} `{KoreNet}.
Abbreviation m := (M (world X R J)).

(** ** The SDP of an event *)

(** The offer adds what the stream does not have yet; the sources, clocks and names set along
    with the flags are ICE's. *)
Definition add_media (h : loc) (avd : Z * Z * Z) : m unit :=
  v ← lift (get_handle h);
  let '(audio, video, _) := avd in
  if bool_decide (stream v = None) then mret tt
  else
    (if! negb (audio =? 0)%Z then lift (janus_flags_set h WEBRTC_HAS_AUDIO));;
    if! negb (video =? 0)%Z then lift (janus_flags_set h WEBRTC_HAS_VIDEO).

(** The offer's half; [None]: give up, else [updating]. *)
Definition setup_offer (h : loc) (avd : Z * Z * Z) : m (option bool) :=
  ready ← lift (wait_cleaning 31 h 0);
  if negb ready then mret None
  else
    v ← lift (get_handle h);
    if agent v then add_media h avd;; mret (Some true)
    else
      x ← gets core_of;
      (if! Sdp.janus_is_rfc4588_enabled x then lift (janus_flags_set h WEBRTC_RFC4588_RTX));;
      rc ← lift (core_call h (janus_ice_setup_local false avd true));
      mret (if (rc <? 0)%Z then None else Some false).

(** The numbers for retransmission, if the stream needs them. *)
Definition make_rtx (rounds : nat) (h : loc) (s : ice_stream) (sdp : D) : m unit :=
  rtx ← lift (janus_flags_is_set h WEBRTC_RFC4588_RTX);
  if (rtx : bool) && bool_decide (rtx_payload_types s = None) && negb (bool_decide (Sdp.video_ptypes sdp = [])) then
    match rtx_numbers rounds (Sdp.video_ptypes sdp) (Sdp.video_ptypes sdp) ∅ with
    | Some tbl => lift (update_handle h (h_stream (fun _ => Some (st_rtx_payload_types (fun _ => Some tbl) s))))
    | None => crash Fuel
    end
  else mret tt.

(** Under the handle's mutex. *)
Definition merge_sdp (fuel rounds : nat) (have_sctp : bool) (h : loc) (offer updating : bool) (sdp_type : string)
    (sdp : D) : m (option J) :=
  v ← lift (get_handle h);
  match stream v with
  | None => lift (janus_mutex_unlock h);; mret None
  | Some s =>
      make_rtx rounds h s sdp;;
      merged ← lift (core_call h (Sdp.janus_sdp_merge sdp offer));
      match merged with
      | None => lift (janus_mutex_unlock h);; mret None
      | Some sdp_merged =>
          (if updating then mret tt
           else if offer then lift (janus_flags_set h WEBRTC_PROCESSING_OFFER)
           else janus_request_ice_handle_answer fuel h);;
          lift (Sdp.late_datachannels have_sctp h offer);;
          lift (update_handle h (h_local_sdp (fun _ => Some sdp_merged)));;
          lift (janus_mutex_unlock h);;
          mret (Some (json_object [("type", json_string sdp_type); ("sdp", json_string sdp_merged)]))
      end
  end.

Definition finish_sdp (fuel rounds : nat) (have_sctp : bool) (h : loc) (offer updating restart : bool) (sdp_type : string)
    (sdp : D) : m (option J) :=
  let '(rc, sdp) := janus_sdp_anonymize sdp in
  if (rc <? 0)%Z then mret None
  else
    (if! offer && restart then lift (core_call h janus_ice_restart));;
    lift (janus_mutex_lock h);;
    merge_sdp fuel rounds have_sctp h offer updating sdp_type sdp.

Definition janus_plugin_handle_sdp (fuel waits rounds : nat) (have_sctp : bool) (ps : loc) (sdp_type sdp : string)
    (restart : bool) : m (option J) :=
  x ← gets core_of;
  if negb (janus_plugin_session_is_alive ps x) then mret None
  else
    match gateway_handle ps x with
    | None => mret None
    | Some h =>
        kind ← lift (Sdp.sdp_kind h sdp_type);
        v ← lift (get_handle h);
        match (kind : option bool), janus_handle_sdp_preparse v sdp x with
        | Some offer, inr (parsed_sdp, avd) =>
            updating ← (if offer then setup_offer h avd else mret (Some false));
            match (updating : option bool) with
            | None => mret None
            | Some updating =>
                x ← gets core_of;
                done ← (if updating || janus_ice_is_full_trickle_enabled x then mret true
                        else lift (Sdp.wait_candidates waits h));
                if negb done then mret None
                else finish_sdp fuel rounds have_sctp h offer updating restart sdp_type parsed_sdp
            end
        | _, _ => mret None
        end
    end.

(** ** Events *)

(** [0], a negative number, or a code of apierror.h. *)
Inductive push_result : Type := PushOk | PushInvalid | PushGone | PushError (e : api_error).

Definition flag_set (h : loc) (f : webrtc_flag) : m bool := lift (janus_flags_is_set h f).
Definition plugin_session_take (ps : loc) : m unit := x ← gets core_of; set_core (plugin_session_increase ps x).
Definition plugin_session_drop (ps : loc) : m unit := x ← gets core_of; set_core (plugin_session_decrease ps x).

(** The end of [push_event] once it holds the handle. *)
Definition push_done (ps h : loc) (r : push_result) : m push_result :=
  plugin_session_drop ps;; janus_refcount_decrease (OfHandle h);; mret r.

Definition event_message (session_no handle_no : Z) (transaction : option string) (package : string) (message : J)
    (jsep : option J) : J :=
  json_object (janus_create_message "event" session_no transaction ++
    [("sender", json_integer (s64 handle_no));
     ("plugindata", json_object [("plugin", json_string package); ("data", message)])] ++
    match jsep with Some j => [("jsep", j)] | None => [] end).

(** The message goes out, with its SDP if there is one. *)
Definition push_merged (s h plugin : loc) (transaction : option string) (message : J) (jsep merged : option J)
    (restart : bool) : m unit :=
  sv ← get_session s;
  hv ← lift (get_handle h);
  janus_session_notify_event (B := B) (Some s)
    (event_message (session_id sv) (handle_id hv) transaction (get_package plugin) message merged);;
  resend ← flag_set h WEBRTC_RESEND_TRICKLES;
  x ← gets core_of;
  (if! (restart || resend) && janus_ice_is_full_trickle_enabled x then ice_call (janus_ice_resend_trickles h));;
  x ← gets core_of;
  if! bool_decide (is_Some jsep) && janus_events_is_enabled x then log (JsepEvent (session_id sv) (handle_id hv)).

(** The SDP failed: because the handle is on its way out, or because it is no good. *)
Definition sdp_error (h : loc) : m push_result :=
  stop ← flag_set h WEBRTC_STOP;
  alert ← flag_set h WEBRTC_ALERT;
  mret (PushError (if (stop : bool) || alert then JANUS_ERROR_HANDLE_NOT_FOUND else JANUS_ERROR_JSEP_INVALID_SDP)).

(** The handle is held. *)
Definition push_to_handle (fuel waits rounds : nat) (have_sctp : bool) (ps h plugin : loc) (transaction : option string)
    (message : J) (jsep : option J) : m push_result :=
  v ← lift (get_handle h);
  match session v with
  | None => mret (PushError JANUS_ERROR_SESSION_NOT_FOUND)
  | Some s =>
      sv ← get_session s;
      if destroyed sv then mret (PushError JANUS_ERROR_SESSION_NOT_FOUND)
      else if negb (json_is_object message) then mret (PushError JANUS_ERROR_INVALID_JSON_OBJECT)
      else
        let member k := jsep ≫= fun j => json_object_get j k in
        let restart := bool_decide (is_Some (member "sdp")) && from_option json_is_true false (member "restart") in
        match member "type" ≫= json_string_value, member "sdp" ≫= json_string_value with
        | Some sdp_type, Some sdp =>
            merged ← janus_plugin_handle_sdp fuel waits rounds have_sctp ps sdp_type sdp restart;
            match (merged : option J) with
            | None => sdp_error h
            | Some _ => push_merged s h plugin transaction message jsep merged restart;; mret PushOk
            end
        | _, _ => push_merged s h plugin transaction message jsep None restart;; mret PushOk
        end
  end.

Definition janus_plugin_push_event (fuel waits rounds : nat) (have_sctp : bool) (ps : loc) (plugin : option loc)
    (transaction : option string) (message jsep : option J) : m push_result :=
  match plugin, message with
  | Some plugin, Some message =>
      x ← gets core_of;
      if negb (janus_plugin_session_is_alive ps x) then mret PushGone
      else
        plugin_session_take ps;;
        x ← gets core_of;
        stop ← match gateway_handle ps x with Some h => flag_set h WEBRTC_STOP | None => mret true end;
        match gateway_handle ps x, (stop : bool) with
        | Some h, false =>
            janus_refcount_increase (OfHandle h);;
            r ← push_to_handle fuel waits rounds have_sctp ps h plugin transaction message jsep;
            push_done ps h r
        | _, _ => plugin_session_drop ps;; mret (PushError JANUS_ERROR_SESSION_NOT_FOUND)
        end
  | _, _ => mret PushInvalid
  end.

(** ** Packets *)

(** [janus_plugin_relay_rtp], [_rtcp] and [_data]; [buf] is null or [len] bytes. *)
Definition relay (have_sctp : bool) (ps : loc) (kind : relay_kind) (buf : option (list Z)) (len : Z) : m unit :=
  if Sdp.bad_pointer ps then mret tt
  else
    x ← gets core_of;
    match buf, gateway_handle ps x with
    | Some data, Some h =>
        if plugin_stopped ps x || (len <? 1)%Z then mret tt
        else
          stop ← flag_set h WEBRTC_STOP;
          alert ← flag_set h WEBRTC_ALERT;
          if (stop : bool) || alert then mret tt
          else match kind with RelayData => if! have_sctp then log (Relayed h kind data) | _ => log (Relayed h kind data) end
    | _, _ => mret tt
    end.
Definition janus_plugin_relay_rtp (ps : loc) (video : Z) (buf : option (list Z)) (len : Z) : m unit :=
  relay true ps (RelayRtp video) buf len.
Definition janus_plugin_relay_rtcp (ps : loc) (video : Z) (buf : option (list Z)) (len : Z) : m unit :=
  relay true ps (RelayRtcp video) buf len.
Definition janus_plugin_relay_data (have_sctp : bool) (ps : loc) (buf : option (list Z)) (len : Z) : m unit :=
  relay have_sctp ps RelayData buf len.

(** ** Taking down, on the watchdog's thread *)

(** Up to the checks both timers share; [k] gets the handle, which is held. *)
Definition with_handle (ps : loc) (k : loc -> m unit) : m unit :=
  x ← gets core_of;
  match gateway_handle ps x with
  | None => plugin_session_drop ps
  | Some h =>
      janus_refcount_increase (OfHandle h);;
      stop ← flag_set h WEBRTC_STOP;
      alert ← flag_set h WEBRTC_ALERT;
      if (stop : bool) || alert then plugin_session_drop ps;; janus_refcount_decrease (OfHandle h) else k h
  end.

Definition janus_plugin_close_pc_internal (ps : loc) : m unit :=
  with_handle ps (fun h =>
    ice_call (janus_ice_webrtc_hangup h);;
    plugin_session_drop ps;;
    janus_refcount_decrease (OfHandle h)).

Definition janus_plugin_end_session_internal (ps : loc) : m unit :=
  with_handle ps (fun h =>
    v ← lift (get_handle h);
    match session v with
    | None => plugin_session_drop ps;; janus_refcount_decrease (OfHandle h)
    | Some s =>
        _ ← janus_session_handles_remove s h;
        plugin_session_drop ps
    end).

Definition add_timer (ps : loc) (t : timer) : m unit :=
  x ← gets core_of;
  if negb (janus_plugin_session_is_alive ps x) then mret tt
  else plugin_session_take ps;; modify (w_timers (fun l => l ++ [t])).
Definition janus_plugin_close_pc (ps : loc) : m unit := add_timer ps (ClosePc ps).
Definition janus_plugin_end_session (ps : loc) : m unit := add_timer ps (EndSession ps).

(** The watchdog's loop runs one of the timers. *)
Definition run_timer (i : nat) : m unit :=
  l ← gets timers;
  t ← deref (l !! i);
  modify (w_timers (delete i));;
  match t with
  | ClosePc ps => janus_plugin_close_pc_internal ps
  | EndSession ps => janus_plugin_end_session_internal ps
  end.

(** ** Notifications *)

(** The plug-in's session may be null here; [None]: dropped. *)
Definition event_ids (ps : option loc) : m (option (Z * Z)) :=
  match ps with
  | None => mret (Some (0, 0)%Z)
  | Some ps =>
      x ← gets core_of;
      if negb (janus_plugin_session_is_alive ps x) then mret None
      else
        match gateway_handle ps x with
        | None => mret None
        | Some h =>
            v ← lift (get_handle h);
            match session v with
            | None => mret None
            | Some s => sv ← get_session s; mret (Some (session_id sv, handle_id v))
            end
        end
  end.

Definition janus_plugin_notify_event (plugin ps : option loc) (event : option J) : m unit :=
  match plugin, event with
  | Some plugin, Some event =>
      if negb (json_is_object event) then mret tt
      else
        ids ← event_ids ps;
        x ← gets core_of;
        match ids with
        | Some (sid, hid) => if! janus_events_is_enabled x then log (PluginEvent sid hid plugin)
        | None => mret tt
        end
  | _, _ => mret tt
  end.
End Code.
End Plug.
