(* ===== verification/JanusCounted.v ===== *)
(** * Every reference of a session and of a handle has an owner

    The invariant [inv] of the counters of [JanusServer]: a session's counter is one for its
    not being destroyed, one for each handle it has, and what runs or was forgotten holds; a
    handle's is one for its place in the session's table, what ICE holds, and the rest.  Every
    operation keeps it, with the references it takes or forgets itself. *)

From S2P Require Import Prelude Jansson KoreNet MediaRooms Janus HandleSdp JanusServer JanusRequests.

Local Open Scope c_scope.

Module Cnt.
Import Janus Srv Req.

(** ** What the counters should be *)

Section Counts.
Local Open Scope Z_scope.

(** A handle's session and number. *)
Abbreviation hids := (gmap loc (option loc * Z)) (only parsing).

Definition bump (f : loc -> nat) (a : loc) : loc -> nat := fun b => if decide (b = a) then S (f b) else f b.

Definition own (v : janus_session) : Z := if destroyed v then 0 else 1.
Definition holders (ids : hids) (s : loc) : gset loc := dom (filter (fun kv => kv.2.1 = Some s) ids).
Definition hcount (ids : hids) (s : loc) : Z := Z.of_nat (size (holders ids s)).
(** Is the handle in its session's table? *)
Definition tabled (hp : gmap loc janus_session) (ids : hids) (h : loc) : Z :=
  match ids !! h with
  | Some (Some s, k) => if decide ((v ← hp !! s; t ← ice_handles v; t !! k) = Some h) then 1 else 0
  | _ => 0
  end.

(** The table of sessions and the heap.  [d]: a session out of the table and not yet
    destroyed; [al]: one known not to be; [ks]: numbers of sessions. *)
Record listed (d al : option loc) (ks : list (Z * loc)) (hp : gmap loc janus_session) (ss : gmap Z loc) (n : loc) : Prop :=
  Listed {
  l_fresh : forall s, (n <= s)%nat -> hp !! s = None;
  l_sound : forall k s, ss !! k = Some s -> exists v, hp !! s = Some v /\ session_id v = k /\ destroyed v = false;
  l_complete : forall s v, hp !! s = Some v -> destroyed v = false -> d <> Some s -> ss !! session_id v = Some s;
  l_out : forall s k, d = Some s -> ss !! k <> Some s;
  l_alive : forall s, al = Some s -> exists v, hp !! s = Some v /\ destroyed v = false;
  l_number : forall k s v, (k, s) ∈ ks -> hp !! s = Some v -> session_id v = k
}.

(** [e] and [eh]: who holds a session, a handle, besides those named. *)
Record inv (d al : option loc) (ks : list (Z * loc)) (e eh : loc -> nat) (hp : gmap loc janus_session) (ids : hids)
    (xs : gmap loc handle_ext) (held : loc -> nat) (ss : gmap Z loc) (n : loc) : Prop := Inv {
  i_session : forall s v, hp !! s = Some v -> ref v = own v + hcount ids s + Z.of_nat (e s) /\ 0 < ref v /\ source v = None;
  i_handle : forall h x, xs !! h = Some x ->
    h_ref x = tabled hp ids h + Z.of_nat (held h) + Z.of_nat (eh h) /\ 0 < h_ref x;
  i_dom : forall h, xs !! h = None <-> ids !! h = None;
  i_table : forall s v t k h, hp !! s = Some v -> ice_handles v = Some t -> t !! k = Some h -> ids !! h = Some (Some s, k);
  i_gone : forall s, hp !! s = None -> e s = 0%nat /\ hcount ids s = 0;
  i_hgone : forall h, xs !! h = None -> eh h = 0%nat;
  i_listed : listed d al ks hp ss n
}.

Lemma bump_eq f a : bump f a a = S (f a).
Proof. unfold bump. by rewrite decide_True. Qed.
Lemma bump_ne f a b : b <> a -> bump f a b = f b.
Proof. intros. unfold bump. by rewrite decide_False. Qed.

Lemma elem_of_holders ids s h : h ∈ holders ids s <-> exists k, ids !! h = Some (Some s, k).
Proof.
  unfold holders. rewrite elem_of_dom. unfold is_Some. setoid_rewrite map_lookup_filter_Some. split.
  - intros ([o k] & Hh & Ho). cbn in Ho. subst. eauto.
  - intros [k Hh]. by exists (Some s, k).
Qed.

Lemma hcount_none ids s h k : hcount ids s = 0 -> ids !! h <> Some (Some s, k).
Proof.
  unfold hcount. intros Hz Hh. assert (Hin : h ∈ holders ids s) by (apply elem_of_holders; eauto).
  assert (Hs : size (holders ids s) = 0%nat) by lia. apply size_empty_inv in Hs. set_solver.
Qed.

Lemma hcount_nonneg ids s : 0 <= hcount ids s.
Proof. unfold hcount. lia. Qed.

Lemma hcount_insert ids s h k s' :
  ids !! h = None -> hcount (<[h := (Some s, k)]> ids) s' = hcount ids s' + if decide (s' = s) then 1 else 0.
Proof.
  intros Hh. unfold hcount. case_decide as Hs.
  - subst. assert (Heq : holders (<[h := (Some s, k)]> ids) s = {[h]} ∪ holders ids s).
    { apply set_eq. intros h'. rewrite elem_of_union, elem_of_singleton, !elem_of_holders. split.
      - intros [k' [[<- _]|[_ ?]]%lookup_insert_Some]; [by left|right; eauto].
      - intros [->|[k' Hk']]; [exists k; apply lookup_insert_eq|]. exists k'. rewrite lookup_insert_ne; [done|by intros <-; rewrite Hh in Hk']. }
    rewrite Heq, size_union, size_singleton; [lia|]. apply disjoint_singleton_l. rewrite elem_of_holders. intros [k' ?]. congruence.
  - assert (Heq : holders (<[h := (Some s, k)]> ids) s' = holders ids s'); [|by rewrite Heq; lia].
    apply set_eq. intros h'. rewrite !elem_of_holders. split.
    + intros [k' [[<- [= ? ?]]|[_ ?]]%lookup_insert_Some]; [congruence|eauto].
    + intros [k' Hk']. exists k'. rewrite lookup_insert_ne; [done|by intros <-; rewrite Hh in Hk'].
Qed.

Lemma hcount_delete ids s h k s' :
  ids !! h = Some (s, k) -> hcount (delete h ids) s' = hcount ids s' - if decide (s = Some s') then 1 else 0.
Proof.
  intros Hh. unfold hcount. assert (Heq : holders (delete h ids) s' = holders ids s' ∖ {[h]}).
  { apply set_eq. intros h'. rewrite elem_of_difference, elem_of_singleton, !elem_of_holders. split.
    - intros [k' [? ?]%lookup_delete_Some]. split; [eauto|done].
    - intros [[k' ?] ?]. exists k'. by rewrite lookup_delete_ne. }
  rewrite Heq. case_decide as Hs.
  - subst. assert (Hin : {[h]} ⊆ holders ids s') by (apply singleton_subseteq_l, elem_of_holders; eauto).
    pose proof (subseteq_size _ _ Hin) as Hle. rewrite size_singleton in Hle.
    rewrite size_difference by done. rewrite size_singleton. lia.
  - rewrite difference_disjoint; [lia|]. apply disjoint_singleton_r. rewrite elem_of_holders. intros [k' ?]. congruence.
Qed.

Lemma tabled_cases hp ids h : tabled hp ids h = 0 \/ tabled hp ids h = 1.
Proof. unfold tabled. destruct (ids !! h) as [[[s|] k]|]; [|by left|by left]. case_decide; auto. Qed.

(** A session changed, its table not. *)
Lemma tabled_update hp ids s v v' h :
  hp !! s = Some v -> ice_handles v' = ice_handles v -> tabled (<[s := v']> hp) ids h = tabled hp ids h.
Proof.
  intros Hs Ht. unfold tabled. destruct (ids !! h) as [[[s'|] k]|]; [|done|done].
  destruct (decide (s = s')) as [<-|]; [|by rewrite lookup_insert_ne]. rewrite lookup_insert_eq, Hs. cbn. by rewrite Ht.
Qed.

Lemma tabled_other hp hp' ids h :
  (forall s k, ids !! h = Some (Some s, k) -> hp' !! s = hp !! s) -> tabled hp' ids h = tabled hp ids h.
Proof. intros Hs. unfold tabled. destruct (ids !! h) as [[[s|] k]|] eqn:Hh; [|done|done]. by rewrite (Hs s k). Qed.

(** *** The steps *)

Context (d al : option loc) (ks : list (Z * loc)) (e eh : loc -> nat) (hp : gmap loc janus_session) (ids : hids)
  (xs : gmap loc handle_ext) (held : loc -> nat) (ss : gmap Z loc) (n : loc).

Lemma inv_ext e' eh' held' :
  inv d al ks e eh hp ids xs held ss n -> (forall a, e' a = e a) -> (forall a, eh' a = eh a) -> (forall a, held' a = held a) ->
  inv d al ks e' eh' hp ids xs held' ss n.
Proof.
  intros [] He Heh Hh. split; try done; intros; try rewrite He; try rewrite Heh; try rewrite Hh; auto.
Qed.

(** A session changed, its number and its being destroyed not. *)
Lemma listed_update s v v' :
  listed d al ks hp ss n -> hp !! s = Some v -> destroyed v' = destroyed v -> session_id v' = session_id v ->
  listed d al ks (<[s := v']> hp) ss n.
Proof.
  intros [] Hs Hd Hid.
  assert (Hwas : forall s' w, <[s := v']> hp !! s' = Some w -> exists w0, hp !! s' = Some w0 /\
    destroyed w = destroyed w0 /\ session_id w = session_id w0).
  { intros s' w [[<- <-]|[_ Hw]]%lookup_insert_Some; eauto. }
  assert (Hnow : forall s' w0, hp !! s' = Some w0 -> exists w, <[s := v']> hp !! s' = Some w /\
    destroyed w = destroyed w0 /\ session_id w = session_id w0).
  { intros s' w0 Hw. destruct (decide (s = s')) as [<-|]; [rewrite lookup_insert_eq|rewrite lookup_insert_ne by done]; [|eauto].
    exists v'. by rewrite Hs in Hw; injection Hw as <-. }
  split; try done.
  - intros s' Hn. apply lookup_insert_None. split; [by apply l_fresh0|]. intros ->. by rewrite l_fresh0 in Hs.
  - intros k s' (w0 & Hw0 & ? & ?)%l_sound0. destruct (Hnow _ _ Hw0) as (w & ? & ? & ?). exists w. split_and!; congruence.
  - intros s' w (w0 & Hw0 & Hwd & Hwi)%Hwas Hd' Hne. rewrite Hwi. apply l_complete0; congruence.
  - intros s' (w0 & Hw0 & ?)%l_alive0. destruct (Hnow _ _ Hw0) as (w & ? & ? & ?). exists w. split; congruence.
  - intros k s' w Hks (w0 & Hw0 & Hwd & Hwi)%Hwas. rewrite Hwi. by eapply l_number0.
Qed.

(** A session changed, with what holds it; its place in the tables is the same. *)
Lemma inv_replace s v v' e' :
  inv d al ks e eh hp ids xs held ss n -> hp !! s = Some v ->
  destroyed v' = destroyed v -> source v' = source v -> session_id v' = session_id v ->
  (forall k h, (t ← ice_handles v'; t !! k) = Some h <-> (t ← ice_handles v; t !! k) = Some h) ->
  (forall s', s' <> s -> e' s' = e s') -> ref v' - Z.of_nat (e' s) = ref v - Z.of_nat (e s) -> 0 < ref v' ->
  inv d al ks e' eh (<[s := v']> hp) ids xs held ss n.
Proof.
  intros [] Hs Hd Hsrc Hid Ht He Hr Hpos.
  assert (Htab : forall h, tabled (<[s := v']> hp) ids h = tabled hp ids h).
  { intros h. unfold tabled. destruct (ids !! h) as [[[s'|] k]|]; [|done|done].
    destruct (decide (s = s')) as [<-|]; [|by rewrite lookup_insert_ne]. rewrite lookup_insert_eq, Hs. cbn.
    specialize (Ht k h). destruct (decide _) as [H1|H1], (decide _) as [H2|H2]; [done| | |done]; tauto. }
  split; [| |done| | |done|by eapply listed_update].
  - intros s' w [[<- <-]|[? Hw]]%lookup_insert_Some; [|rewrite He by done; by apply i_session0].
    destruct (i_session0 _ _ Hs) as (? & ? & ?). unfold own in *. rewrite Hd, Hsrc. split_and!; [lia|done|done].
  - intros h x Hx. rewrite Htab. by apply i_handle0.
  - intros s' w t k h [[<- <-]|[_ Hw]]%lookup_insert_Some Hti Hk; [|by eapply i_table0].
    assert (Hk' : (t ← ice_handles v; t !! k) = Some h) by (apply Ht; by rewrite Hti).
    destruct (ice_handles v) as [t'|] eqn:Hv; [|done]. by eapply i_table0.
  - intros s' [? ?]%lookup_insert_None. rewrite He by done. by apply i_gone0.
Qed.

(** Fields of a session that do not count. *)
Lemma inv_session s v v' :
  inv d al ks e eh hp ids xs held ss n -> hp !! s = Some v ->
  ref v' = ref v -> destroyed v' = destroyed v -> source v' = source v -> session_id v' = session_id v ->
  (forall k h, (t ← ice_handles v'; t !! k) = Some h <-> (t ← ice_handles v; t !! k) = Some h) ->
  inv d al ks e eh (<[s := v']> hp) ids xs held ss n.
Proof.
  intros Hinv Hs Hr. intros. eapply inv_replace; try done; [lia|]. rewrite Hr. by destruct (i_session _ _ _ _ _ _ _ _ _ _ _ Hinv _ _ Hs) as (? & ? & ?).
Qed.

Lemma inv_take_session s v :
  inv d al ks e eh hp ids xs held ss n -> hp !! s = Some v ->
  inv d al ks (bump e s) eh (<[s := s_ref (fun n => n + 1) v]> hp) ids xs held ss n.
Proof.
  intros Hinv Hs. eapply inv_replace; try done; [by apply bump_ne|rewrite bump_eq; cbn [ref s_ref]; lia|cbn [ref s_ref]].
  destruct (i_session _ _ _ _ _ _ _ _ _ _ _ Hinv _ _ Hs) as (? & ? & ?). lia.
Qed.
End Counts.

Section Steps.
Local Open Scope Z_scope.
Abbreviation hids := (gmap loc (option loc * Z)) (only parsing).
Context (d al : option loc) (ks : list (Z * loc)) (e eh : loc -> nat) (hp : gmap loc janus_session) (ids : hids)
  (xs : gmap loc handle_ext) (held : loc -> nat) (ss : gmap Z loc) (n : loc).

Lemma inv_drop_session s v :
  inv d al ks (bump e s) eh hp ids xs held ss n -> hp !! s = Some v -> ref v <> 1 ->
  inv d al ks e eh (<[s := s_ref (fun n => n - 1) v]> hp) ids xs held ss n.
Proof.
  intros Hinv Hs Hr. eapply inv_replace; try done; [intros; by rewrite bump_ne|rewrite bump_eq; cbn [ref s_ref]; lia|cbn [ref s_ref]].
  destruct (i_session _ _ _ _ _ _ _ _ _ _ _ Hinv _ _ Hs) as (? & ? & ?). lia.
Qed.

(** The last reference: nothing is left in the session's table. *)
Lemma inv_last_session s v :
  inv d al ks (bump e s) eh hp ids xs held ss n -> hp !! s = Some v -> ref v = 1 ->
  destroyed v = true /\ hcount ids s = 0 /\ e s = 0%nat /\ (forall t, ice_handles v = Some t -> t = ∅).
Proof.
  intros [] Hs Hr. destruct (i_session0 _ _ Hs) as (Href & _ & _). rewrite bump_eq in Href.
  pose proof (hcount_nonneg ids s). unfold own in Href. destruct (destroyed v); [|lia].
  split_and!; [done|lia|lia|]. intros t Ht. apply map_empty. intros k.
  destruct (t !! k) as [h|] eqn:Hk; [|done]. exfalso. eapply (hcount_none ids s h k); [lia|]. by eapply i_table0.
Qed.

Lemma listed_free s v : listed d al ks hp ss n -> hp !! s = Some v -> destroyed v = true -> listed d al ks (delete s hp) ss n.
Proof.
  intros [] Hs Hd. split; try done.
  - intros s' Hn. apply lookup_delete_None. right. by apply l_fresh0.
  - intros k s' (w & Hw & ? & ?)%l_sound0. exists w. rewrite lookup_delete_ne; [done|]. intros <-. congruence.
  - intros s' w [? Hw]%lookup_delete_Some. by apply l_complete0.
  - intros s' (w & Hw & ?)%l_alive0. exists w. rewrite lookup_delete_ne; [done|]. intros <-. congruence.
  - intros k s' w Hks [? Hw]%lookup_delete_Some. by eapply l_number0.
Qed.

Lemma inv_free_session s v :
  inv d al ks (bump e s) eh hp ids xs held ss n -> hp !! s = Some v -> ref v = 1 ->
  inv d al ks e eh (delete s hp) ids xs held ss n.
Proof.
  intros Hinv Hs Hr. destruct (inv_last_session s v Hinv Hs Hr) as (Hd & Hc & He & Ht). destruct Hinv.
  split; [| |done| | |done|by eapply listed_free].
  - intros s' w [? Hw]%lookup_delete_Some. rewrite <- (bump_ne e s s') by done. by apply i_session0.
  - intros h x Hx. rewrite (tabled_other hp); [by apply i_handle0|]. intros s' k Hh. rewrite lookup_delete_ne; [done|].
    intros <-. by eapply hcount_none.
  - intros s' w t k h [? Hw]%lookup_delete_Some. by apply i_table0.
  - intros s' Hs'. destruct (decide (s = s')) as [<-|]; [done|]. rewrite lookup_delete_ne in Hs' by done.
    rewrite <- (bump_ne e s s') by done. by apply i_gone0.
Qed.

(** *** Handles *)

Lemma inv_take_handle h x :
  inv d al ks e eh hp ids xs held ss n -> xs !! h = Some x ->
  inv d al ks e (bump eh h) hp ids (<[h := x_h_ref (fun n => n + 1) x]> xs) held ss n.
Proof.
  intros [] Hh. split; try done.
  - intros h' y [[<- <-]|[? Hy]]%lookup_insert_Some; [|rewrite bump_ne by done; by apply i_handle0].
    rewrite bump_eq. destruct (i_handle0 _ _ Hh). cbn [h_ref x_h_ref]. lia.
  - intros h'. rewrite lookup_insert_None, i_dom0. split; [tauto|]. intros Hn. split; [done|]. intros <-.
    rewrite <- i_dom0 in Hn. congruence.
  - intros h' [? ?]%lookup_insert_None. rewrite bump_ne by done. by apply i_hgone0.
Qed.

Lemma inv_drop_handle h x :
  inv d al ks e (bump eh h) hp ids xs held ss n -> xs !! h = Some x -> h_ref x <> 1 ->
  inv d al ks e eh hp ids (<[h := x_h_ref (fun n => n - 1) x]> xs) held ss n.
Proof.
  intros [] Hh Hr. split; try done.
  - intros h' y [[<- <-]|[? Hy]]%lookup_insert_Some; [|rewrite <- (bump_ne eh h h') by done; by apply i_handle0].
    destruct (i_handle0 _ _ Hh) as [Href Hpos]. rewrite bump_eq in Href. cbn [h_ref x_h_ref]. lia.
  - intros h'. rewrite lookup_insert_None, i_dom0. split; [tauto|]. intros Hn. split; [done|]. intros <-.
    rewrite <- i_dom0 in Hn. congruence.
  - intros h' [? ?]%lookup_insert_None. rewrite <- (bump_ne eh h h') by done. by apply i_hgone0.
Qed.

(** A field that does not count. *)
Lemma inv_ext_field h x x' :
  inv d al ks e eh hp ids xs held ss n -> xs !! h = Some x -> h_ref x' = h_ref x ->
  inv d al ks e eh hp ids (<[h := x']> xs) held ss n.
Proof.
  intros [] Hh Hr. split; try done.
  - intros h' y [[<- <-]|[? Hy]]%lookup_insert_Some; [rewrite Hr|]; by apply i_handle0.
  - intros h'. rewrite lookup_insert_None, i_dom0. split; [tauto|]. intros Hn. split; [done|]. intros <-.
    rewrite <- i_dom0 in Hn. congruence.
  - intros h' [? ?]%lookup_insert_None. by apply i_hgone0.
Qed.

(** The last reference of a handle: it gives its session's back. *)
Lemma inv_free_handle h x o k :
  inv d al ks e (bump eh h) hp ids xs held ss n -> xs !! h = Some x -> h_ref x = 1 -> ids !! h = Some (o, k) ->
  inv d al ks (match o with Some s => bump e s | None => e end) eh hp (delete h ids) (delete h xs) held ss n.
Proof.
  intros Hinv Hh Hr Hk. pose proof (i_handle _ _ _ _ _ _ _ _ _ _ _ Hinv _ _ Hh) as [Href _]. rewrite bump_eq in Href.
  pose proof (tabled_cases hp ids h) as Htab. destruct Hinv. split; try done.
  - intros s v Hv. rewrite (hcount_delete ids _ _ _ s Hk). destruct (i_session0 _ _ Hv) as (? & ? & ?).
    destruct o as [s'|]; [|rewrite decide_False by done; split_and!; [lia|done|done]].
    destruct (decide (s = s')) as [<-|]; [rewrite bump_eq, decide_True by done|rewrite bump_ne, decide_False by congruence];
      split_and!; try done; lia.
  - intros h' y [? Hy]%lookup_delete_Some. rewrite <- (bump_ne eh h h') by done. unfold tabled.
    rewrite lookup_delete_ne by done. by apply i_handle0.
  - intros h'. destruct (decide (h = h')) as [<-|]; [by rewrite !lookup_delete_eq|]. by rewrite !lookup_delete_ne.
  - intros s v t k' h' Hv Ht Hk'. rewrite lookup_delete_ne; [by eapply i_table0|]. intros <-.
    pose proof (i_table0 _ _ _ _ _ Hv Ht Hk') as Hids. unfold tabled in Href. rewrite Hids, Hv in Href.
    cbn in Href. rewrite Ht in Href. cbn in Href. rewrite decide_True in Href by done. lia.
  - intros s Hs. destruct (i_gone0 s Hs) as [He Hc]. rewrite (hcount_delete ids _ _ _ s Hk).
    destruct o as [s'|]; [|rewrite decide_False by done; split; [done|lia]].
    assert (s <> s') by (intros ->; by eapply hcount_none). rewrite bump_ne, decide_False by congruence. split; [done|lia].
  - intros h' [Hh'|Hh']%lookup_delete_None; [subst; destruct Htab; lia|]. destruct (decide (h = h')) as [<-|]; [congruence|].
    rewrite <- (bump_ne eh h h') by done. by apply i_hgone0.
Qed.

Lemma inv_create s v h k o held' :
  inv d al ks e eh hp ids xs held ss n -> hp !! s = Some v -> ids !! h = None -> (forall a, held' a = bump held h a) ->
  held h = 0%nat ->
  inv d al ks e eh (<[s := s_ref (fun n => n + 1) v]> hp) (<[h := (Some s, k)]> ids)
    (<[h := HandleExt 1 o None false]> xs) held' ss n.
Proof.
  intros Hinv Hs Hh Hheld Hheld0. pose proof (inv_take_session _ _ _ _ _ _ _ _ _ _ _ s v Hinv Hs) as Ht.
  pose proof (i_dom _ _ _ _ _ _ _ _ _ _ _ Hinv h) as Hd. pose proof (i_hgone _ _ _ _ _ _ _ _ _ _ _ Hinv h) as Hg.
  destruct Ht. split; try done.
  - intros s' w Hw. rewrite hcount_insert by done. destruct (i_session0 _ _ Hw) as (? & ? & ?). split_and!; [|done|done].
    destruct (decide (s' = s)) as [->|]; [rewrite bump_eq in *; lia|]. rewrite bump_ne in * by done. lia.
  - intros h' y [[<- <-]|[? Hy]]%lookup_insert_Some.
    + unfold tabled. rewrite lookup_insert_eq, lookup_insert_eq, Hheld, bump_eq, Hg, Hheld0 by tauto. cbn [h_ref].
      rewrite decide_False; [split; lia|]. cbn. destruct (ice_handles v) as [t|] eqn:Hv; [|done]. cbn. intros Hk.
      assert (Hids : ids !! h = Some (Some s, k)); [|congruence]. eapply i_table0; [apply lookup_insert_eq|done|done].
    + unfold tabled. rewrite lookup_insert_ne, Hheld, bump_ne by done. by apply i_handle0.
  - intros h'. destruct (decide (h = h')) as [<-|]; [by rewrite !lookup_insert_eq|]. by rewrite !lookup_insert_ne.
  - intros s' w t k' h' Hw Hwt Hk'. rewrite lookup_insert_ne; [by eapply i_table0|].
    intros <-. pose proof (i_table0 _ _ _ _ _ Hw Hwt Hk'). congruence.
  - intros s' Hs'. destruct (i_gone0 _ Hs') as [He Hc]. apply lookup_insert_None in Hs' as [? ?].
    rewrite hcount_insert, decide_False by done. rewrite bump_ne in He by done. split; [done|lia].
  - intros h' [? ?]%lookup_insert_None. by apply i_hgone0.
Qed.

Lemma inv_table_insert s v t h k :
  inv d al ks e (bump eh h) hp ids xs held ss n -> hp !! s = Some v -> ids !! h = Some (Some s, k) ->
  ice_handles v = Some t -> t !! k = None ->
  inv d al ks e eh (<[s := s_ice_handles (fun _ => Some (<[k := h]> t)) v]> hp) ids xs held ss n.
Proof.
  intros [] Hs Hh Ht Hk. set (v' := s_ice_handles _ v).
  assert (Htab : forall h', tabled (<[s := v']> hp) ids h' = tabled hp ids h' + if decide (h' = h) then 1 else 0).
  { intros h'. unfold tabled. destruct (decide (h' = h)) as [->|Hne].
    - rewrite Hh, lookup_insert_eq, Hs. cbn. rewrite Ht. cbn. rewrite lookup_insert_eq, Hk. by rewrite decide_True, decide_False by done.
    - rewrite Z.add_0_r. destruct (ids !! h') as [[[s'|] k']|] eqn:Hh'; [|done|done].
      destruct (decide (s = s')) as [<-|]; [|by rewrite lookup_insert_ne]. rewrite lookup_insert_eq, Hs. cbn. rewrite Ht. cbn.
      destruct (decide (k = k')) as [<-|]; [|by rewrite lookup_insert_ne]. rewrite lookup_insert_eq, Hk.
      rewrite !decide_False by congruence. done. }
  split; [| |done| | | |by eapply listed_update].
  - intros s' w [[<- <-]|[? Hw]]%lookup_insert_Some; [exact (i_session0 _ _ Hs)|by apply i_session0].
  - intros h' x Hx. rewrite Htab. destruct (i_handle0 _ _ Hx) as [Hr ?]. split; [|done].
    destruct (decide (h' = h)) as [->|]; [rewrite bump_eq in Hr; lia|]. rewrite bump_ne in Hr by done. lia.
  - intros s' w t' k' h' [[<- <-]|[_ Hw]]%lookup_insert_Some Hti Hk'; [|by eapply i_table0].
    injection Hti as <-. apply lookup_insert_Some in Hk' as [[<- <-]|[_ Hk']]; [done|]. by eapply i_table0.
  - intros s' [? ?]%lookup_insert_None. by apply i_gone0.
  - intros h' Hh'. pose proof (i_hgone0 _ Hh') as Hg. destruct (decide (h' = h)) as [->|]; [by rewrite bump_eq in Hg|].
    by rewrite bump_ne in Hg.
Qed.

Lemma inv_table_delete s v t h k :
  inv d al ks e eh hp ids xs held ss n -> hp !! s = Some v -> ice_handles v = Some t -> t !! k = Some h ->
  inv d al ks e (bump eh h) (<[s := s_ice_handles (fun _ => Some (delete k t)) v]> hp) ids xs held ss n.
Proof.
  intros [] Hs Ht Hk. set (v' := s_ice_handles _ v). pose proof (i_table0 _ _ _ _ _ Hs Ht Hk) as Hh.
  assert (Htab : forall h', tabled (<[s := v']> hp) ids h' = tabled hp ids h' - if decide (h' = h) then 1 else 0).
  { intros h'. unfold tabled. destruct (decide (h' = h)) as [->|Hne].
    - rewrite Hh, lookup_insert_eq, Hs. cbn. rewrite Ht. cbn. rewrite lookup_delete_eq, Hk. by rewrite decide_False, decide_True by done.
    - rewrite Z.sub_0_r. destruct (ids !! h') as [[[s'|] k']|] eqn:Hh'; [|done|done].
      destruct (decide (s = s')) as [<-|]; [|by rewrite lookup_insert_ne]. rewrite lookup_insert_eq, Hs. cbn. rewrite Ht. cbn.
      destruct (decide (k = k')) as [<-|]; [|by rewrite lookup_delete_ne]. rewrite lookup_delete_eq, Hk.
      rewrite !decide_False by congruence. done. }
  split; [| |done| | | |by eapply listed_update].
  - intros s' w [[<- <-]|[? Hw]]%lookup_insert_Some; [exact (i_session0 _ _ Hs)|by apply i_session0].
  - intros h' x Hx. rewrite Htab. destruct (i_handle0 _ _ Hx) as [Hr ?]. split; [|done].
    destruct (decide (h' = h)) as [->|]; [rewrite bump_eq; lia|]. rewrite bump_ne by done. lia.
  - intros s' w t' k' h' [[<- <-]|[_ Hw]]%lookup_insert_Some Hti Hk'; [|by eapply i_table0].
    injection Hti as <-. apply lookup_delete_Some in Hk' as [_ Hk']. by eapply i_table0.
  - intros s' [? ?]%lookup_insert_None. by apply i_gone0.
  - intros h' Hh'. rewrite bump_ne; [by apply i_hgone0|]. intros ->. apply i_dom0 in Hh'. congruence.
Qed.

(** *** Sessions come and go *)

Lemma inv_new_session v :
  inv None al [] e eh hp ids xs held ss n -> ref v = 1 -> destroyed v = false -> source v = None -> ice_handles v = None ->
  inv (Some n) al [] e eh (<[n := v]> hp) ids xs held ss (S n).
Proof.
  intros [] Hr Hd Hsrc Ht. destruct i_listed0. pose proof (l_fresh0 n (Nat.le_refl n)) as Hn.
  destruct (i_gone0 _ Hn) as [He Hc].
  assert (Htab : forall h, tabled (<[n := v]> hp) ids h = tabled hp ids h).
  { intros h. apply tabled_other. intros s k Hh. rewrite lookup_insert_ne; [done|]. intros <-. by eapply hcount_none. }
  split; [| |done| | |done|split].
  - intros s w [[<- <-]|[? Hw]]%lookup_insert_Some; [|by apply i_session0]. unfold own. rewrite Hd, Hr, He, Hc, Hsrc. done.
  - intros h x Hx. rewrite Htab. by apply i_handle0.
  - intros s w t k h [[<- <-]|[_ Hw]]%lookup_insert_Some Hwt; [congruence|by eapply i_table0].
  - intros s [? ?]%lookup_insert_None. by apply i_gone0.
  - intros s Hs. rewrite lookup_insert_ne by lia. apply l_fresh0. lia.
  - intros k s (w & Hw & ? & ?)%l_sound0. exists w. rewrite lookup_insert_ne; [done|]. intros <-. congruence.
  - intros s w [[<- <-]|[? Hw]]%lookup_insert_Some Hwd Hne; [done|]. by apply l_complete0.
  - intros s k [= <-] (w & Hw & ? & ?)%l_sound0. congruence.
  - intros s (w & Hw & ?)%l_alive0. exists w. rewrite lookup_insert_ne; [done|]. intros <-. congruence.
  - intros k s w Hks. by apply elem_of_nil in Hks.
Qed.

Lemma inv_register s v :
  inv (Some s) al ks e eh hp ids xs held ss n -> hp !! s = Some v -> destroyed v = false -> ss !! session_id v = None ->
  inv None al ks e eh hp ids xs held (<[session_id v := s]> ss) n.
Proof.
  intros [] Hs Hd Hss. destruct i_listed0. split; [done..|]. split; try done.
  - intros k s' [[<- <-]|[? Hk]]%lookup_insert_Some; [by exists v|by apply l_sound0].
  - intros s' w Hw Hwd _. destruct (decide (s' = s)) as [->|Hne].
    + rewrite Hs in Hw. injection Hw as <-. apply lookup_insert_eq.
    + assert (Hl : ss !! session_id w = Some s') by (apply l_complete0; [done|done|congruence]).
      rewrite lookup_insert_ne; [done|]. intros Heq. congruence.
Qed.

Lemma inv_unregister s v :
  inv None al ks e eh hp ids xs held ss n -> hp !! s = Some v -> destroyed v = false ->
  inv (Some s) al ks e eh hp ids xs held (delete (session_id v) ss) n.
Proof.
  intros [] Hs Hd. destruct i_listed0. assert (Hl : ss !! session_id v = Some s) by by apply l_complete0.
  split; [done..|]. split; try done.
  - intros k s' [? Hk]%lookup_delete_Some. by apply l_sound0.
  - intros s' w Hw Hwd Hne. assert (Hl' : ss !! session_id w = Some s') by by apply l_complete0.
    rewrite lookup_delete_ne; [done|]. intros Heq. congruence.
  - intros s' k [= <-] [Hne (w & Hw & Hwk & ?)%l_sound0]%lookup_delete_Some. congruence.
Qed.

Lemma inv_destroy s v :
  inv (Some s) al ks e eh hp ids xs held ss n -> hp !! s = Some v -> destroyed v = false ->
  inv None None ks (bump e s) eh (<[s := s_destroyed (fun _ => true) v]> hp) ids xs held ss n.
Proof.
  intros [] Hs Hd. destruct i_listed0. set (v' := s_destroyed _ v).
  assert (Htab : forall h, tabled (<[s := v']> hp) ids h = tabled hp ids h) by (intros h; by eapply tabled_update).
  split; [| |done| | |done|split; [| | |done|done|]].
  - intros s' w [[<- <-]|[? Hw]]%lookup_insert_Some.
    + destruct (i_session0 _ _ Hs) as (Hr & ? & ?). rewrite bump_eq. unfold own in *. cbn. rewrite Hd in Hr. split_and!; [lia|done|done].
    + rewrite bump_ne by done. by apply i_session0.
  - intros h x Hx. rewrite Htab. by apply i_handle0.
  - intros s' w t k h [[<- <-]|[_ Hw]]%lookup_insert_Some Hti Hk; by eapply i_table0.
  - intros s' [? ?]%lookup_insert_None. rewrite bump_ne by done. by apply i_gone0.
  - intros s' Hn. apply lookup_insert_None. split; [by apply l_fresh0|]. intros ->. by rewrite l_fresh0 in Hs.
  - intros k s' Hk. destruct (l_sound0 _ _ Hk) as (w & Hw & ? & ?). exists w. rewrite lookup_insert_ne; [done|].
    intros <-. by eapply l_out0.
  - intros s' w [[<- <-]|[? Hw]]%lookup_insert_Some Hwd _; [done|]. apply l_complete0; congruence.
  - intros k s' w Hks [[<- <-]|[_ Hw]]%lookup_insert_Some; [exact (l_number0 _ _ _ Hks Hs)|by eapply l_number0].
Qed.

(** ICE takes a reference over, or hands one on. *)
Lemma inv_held h : inv d al ks e (bump eh h) hp ids xs held ss n <-> inv d al ks e eh hp ids xs (bump held h) ss n /\ xs !! h <> None.
Proof.
  split.
  - intros []. assert (Hx : xs !! h <> None) by (intros Hn; apply i_hgone0 in Hn; by rewrite bump_eq in Hn).
    split; [|done]. split; [done| |done|done|done| |done].
    + intros h' x Hh'. destruct (i_handle0 _ _ Hh') as [Hr ?]. split; [|done]. destruct (decide (h' = h)) as [->|].
      * rewrite bump_eq in *. lia.
      * by rewrite bump_ne in *.
    + intros h' Hh'. assert (h' <> h) by congruence. rewrite <- (bump_ne eh h h') by done. by apply i_hgone0.
  - intros [[] Hx]. split; [done| |done|done|done| |done].
    + intros h' x Hh'. destruct (i_handle0 _ _ Hh') as [Hr ?]. split; [|done]. destruct (decide (h' = h)) as [->|].
      * rewrite bump_eq in *. lia.
      * by rewrite bump_ne in *.
    + intros h' Hh'. assert (h' <> h) by congruence. rewrite bump_ne by done. by apply i_hgone0.
Qed.

(** What is known may be forgotten, and known again. *)
Lemma inv_forget : inv d al ks e eh hp ids xs held ss n -> inv d None [] e eh hp ids xs held ss n.
Proof. intros []. destruct i_listed0. split; [done..|]. split; try done. intros k s v Hks. by apply elem_of_nil in Hks. Qed.
Lemma inv_know s v :
  inv d al ks e eh hp ids xs held ss n -> hp !! s = Some v -> destroyed v = false ->
  inv d (Some s) ks e eh hp ids xs held ss n.
Proof. intros [] Hs Hd. destruct i_listed0. split; [done..|]. split; try done. intros s' [= <-]. by exists v. Qed.
Lemma inv_number ks' :
  inv d al ks e eh hp ids xs held ss n -> (forall k s v, (k, s) ∈ ks' -> hp !! s = Some v -> session_id v = k) ->
  inv d al ks' e eh hp ids xs held ss n.
Proof. intros [] Hks. destruct i_listed0. split; [done..|]. by split. Qed.
End Steps.
(** ** What is relied on of Janus

    ICE says which references of handles it holds, and gives back only those; other functions
    take none.  Nothing changes a handle's number or session.  A new handle holds its session,
    is in its table, and is held by ICE; when it is freed it gives its session back. *)

Section Laws.
Context {X J : Type}.

Definition handle_ids (hs : gmap loc (ice_handle J)) : gmap loc (option loc * Z) := (fun v => (session v, handle_id v)) <$> hs.
Definition same_ids (v v' : ice_handle J) : Prop := session v' = session v /\ handle_id v' = handle_id v.
Definition quiet (held : X -> loc -> nat) (x x' : X) : Prop := forall h, held x' h = held x h.
Definition quiet_on (held : X -> loc -> nat) (v : ice_handle J) (x : X) (r : ice_handle J * X) : Prop :=
  same_ids v r.1 /\ quiet held x r.2.

(** At most one reference of the handle is taken or given back. *)
Definition moves (held : X -> loc -> nat) (h : loc) (hs : gmap loc (ice_handle J)) (x : X)
    (r : gmap loc (ice_handle J) * X * list core_request) : Prop :=
  let '(hs', x', calls) := r in
  handle_ids hs' = handle_ids hs /\
  ((calls = [] /\ quiet held x x') \/
   (calls = [TakeHandle h] /\ forall a, held x' a = bump (held x) h a) \/
   (calls = [DropHandle h] /\ forall a, held x a = bump (held x') h a)).

Definition creates (held : X -> loc -> nat) (s : loc) (t : option (gmap Z loc)) (o : option string) (hs : gmap loc (ice_handle J)) (x : X)
    (r : option loc * (gmap loc (ice_handle J) * X * list core_request)) : Prop :=
  let '(new, (hs', x', calls)) := r in
  match new with
  | None => handle_ids hs' = handle_ids hs /\ quiet held x x' /\ calls = []
  | Some h =>
      exists v, hs !! h = None /\ session v = Some s /\ t ≫= lookup (handle_id v) = None /\ hs' = <[h := v]> hs /\ held x h = 0 /\
        (forall a, held x' a = bump (held x) h a) /\ calls = [InitHandle h o; TakeSession s; InsertHandle s h]
  end.
End Laws.

Class CountedLaws (X D J : Type) `{JanusCore X D J} `{ServerCore X D J} := {
  held : X -> loc -> nat;
  other_threads_quiet : forall v x, quiet_on held v x (other_threads v x);
  setup_local_quiet : forall o a t v x, quiet_on held v x (janus_ice_setup_local o a t v x).2;
  sdp_process_quiet : forall d b v x, quiet_on held v x (janus_sdp_process d b v x).2;
  trickle_parse_quiet : forall c v x, quiet_on held v x (janus_ice_trickle_parse c v x).2;
  remote_candidates_quiet : forall v x, quiet_on held v x (janus_ice_setup_remote_candidates v x).2;
  credentials_quiet : forall v x, quiet_on held v x (nice_agent_set_remote_credentials v x).2;
  restart_quiet : forall v x, quiet_on held v x (janus_ice_restart v x).2;
  datachannels_quiet : forall v x, quiet_on held v x (create_datachannels v x).2;
  handle_message_quiet : forall p a b j x, quiet held x (handle_message p a b j x).2;
  random_quiet : forall x, quiet held x (janus_random_uint64 x).2;
  increase_quiet : forall ps x, quiet held x (plugin_session_increase ps x);
  decrease_quiet : forall ps x, quiet held x (plugin_session_decrease ps x);
  create_law : forall s t o hs x, creates held s t o hs x (janus_ice_handle_create s t o hs x);
  attach_law : forall s h p hs x, moves held h hs x (janus_ice_handle_attach_plugin s h p hs x).2;
  destroy_law : forall s h hs x, moves held h hs x (janus_ice_handle_destroy s h hs x).2;
  hangup_law : forall h hs x, moves held h hs x (janus_ice_webrtc_hangup h hs x).2;
  resend_law : forall h hs x, moves held h hs x (janus_ice_resend_trickles h hs x).2;
  free_law : forall v x, (janus_ice_free v x).1 = session v /\ quiet held x (janus_ice_free v x).2;
  iter_all : forall t, g_hash_table_iter t ≡ₚ map_to_list t
}.

(** ** Operations on handles only *)

Section Quiet.
Context {X D R J : Type} `{CountedLaws X D J} `{!Jansson J}.
Implicit Types j : jworld X J.

Definition quiet_at (ids : gmap loc (option loc * Z)) (hl : loc -> nat) j : Prop :=
  handle_ids (handles j) = ids /\ forall h, held (core j) h = hl h.

Lemma quiet_insert (hs : gmap loc (ice_handle J)) h v v' :
  hs !! h = Some v -> same_ids v v' -> handle_ids (<[h := v']> hs) = handle_ids hs.
Proof.
  intros Hh [Hs Hi]. unfold handle_ids. rewrite fmap_insert, Hs, Hi. apply insert_id. by rewrite lookup_fmap, Hh.
Qed.

Lemma quiet_get_handle ids hl h : preserves (quiet_at ids hl) (get_handle h).
Proof. unfold get_handle. solve_preserves. Qed.

Lemma quiet_update_handle ids hl h (f : ice_handle J -> ice_handle J) :
  (forall v, same_ids v (f v)) -> preserves (quiet_at ids hl) (update_handle h f).
Proof.
  intros Hf j a j' [Hids Hhl] Hr. unfold update_handle, get_handle in Hr. rewrite bind_assoc in Hr. run eq_refl in Hr.
  destruct (handles j !! h) as [v|] eqn:Hv; [|done]. injection Hr as <- <-. split; [|done]. rewrite <- Hids.
  by apply (quiet_insert _ _ _ _ Hv).
Qed.

Lemma quiet_core_call {A : Type} ids hl h (f : ice_handle J -> X -> A * (ice_handle J * X)) :
  (forall v x, quiet_on held v x (f v x).2) -> preserves (quiet_at ids hl) (core_call h f).
Proof.
  intros Hf j a j' [Hids Hhl] Hr. unfold core_call, get_handle in Hr. rewrite bind_assoc in Hr. run eq_refl in Hr.
  destruct (handles j !! h) as [v|] eqn:Hv; [|done]. cbn in Hr. do 2 run eq_refl in Hr. specialize (Hf v (core j)).
  destruct (f v (core j)) as [b [v' x']]. injection Hr as <- <-. destruct Hf as [Hs Hq]. split.
  - rewrite <- Hids. by apply (quiet_insert _ _ _ _ Hv).
  - intros a'. rewrite <- Hhl. apply Hq.
Qed.

#[local] Hint Resolve quiet_get_handle : pres.
#[local] Hint Extern 3 (preserves _ (update_handle _ _)) => apply quiet_update_handle; by split : pres.

Lemma quiet_flags_set ids hl h f : preserves (quiet_at ids hl) (janus_flags_set h f).
Proof. unfold janus_flags_set. solve_preserves. Qed.
Lemma quiet_flags_clear ids hl h f : preserves (quiet_at ids hl) (janus_flags_clear h f).
Proof. unfold janus_flags_clear. solve_preserves. Qed.
Lemma quiet_flags_is_set ids hl h f : preserves (quiet_at ids hl) (janus_flags_is_set h f).
Proof. unfold janus_flags_is_set. solve_preserves. Qed.
Lemma quiet_lock ids hl h : preserves (quiet_at ids hl) (janus_mutex_lock h).
Proof. unfold janus_mutex_lock. solve_preserves. Qed.
Lemma quiet_unlock ids hl h : preserves (quiet_at ids hl) (janus_mutex_unlock h).
Proof. unfold janus_mutex_unlock. solve_preserves. Qed.
#[local] Hint Resolve quiet_flags_set quiet_flags_clear quiet_flags_is_set quiet_lock quiet_unlock : pres.

Lemma quiet_parse_all ids hl h cs : preserves (quiet_at ids hl) (parse_all h cs).
Proof.
  induction cs as [|c cs IH]; cbn [parse_all]; [solve_preserves|].
  apply preserves_bind; [apply quiet_core_call; intros; apply trickle_parse_quiet|done].
Qed.
#[local] Hint Resolve quiet_parse_all : pres.

Lemma quiet_pending ids hl timeout h t : preserves (quiet_at ids hl) (pending_trickle timeout h t).
Proof.
  unfold pending_trickle. destruct t as [t|]; [|solve_preserves]. apply preserves_bind; [solve_preserves|intros x].
  destruct (_ <? _)%Z; [solve_preserves|]. destruct (candidate t) as [c|]; [|solve_preserves].
  destruct (json_is_object c); [|solve_preserves].
  apply preserves_bind; [apply quiet_core_call; intros; apply trickle_parse_quiet|solve_preserves].
Qed.
#[local] Hint Resolve quiet_pending : pres.

Lemma quiet_drain ids hl fuel timeout h : preserves (quiet_at ids hl) (drain_pending fuel timeout h).
Proof.
  induction fuel as [|fuel IH]; cbn [drain_pending]; [solve_preserves|].
  apply preserves_bind; [solve_preserves|intros v]. destruct (pending_trickles v); solve_preserves.
Qed.
#[local] Hint Resolve quiet_drain : pres.

Lemma quiet_answer ids hl fuel timeout h : preserves (quiet_at ids hl) (ice_handle_answer fuel timeout h).
Proof.
  unfold ice_handle_answer. repeat (apply preserves_bind; [solve_preserves|intros ?]). case_match; [solve_preserves|].
  apply quiet_core_call. intros. apply remote_candidates_quiet.
Qed.

Lemma quiet_wait ids hl n h waited : preserves (quiet_at ids hl) (wait_cleaning n h waited).
Proof.
  revert waited. induction n as [|n IH]; intros waited; cbn [wait_cleaning]; [solve_preserves|].
  apply preserves_bind; [solve_preserves|intros c]. destruct (negb c); [solve_preserves|].
  apply preserves_bind; [apply quiet_core_call; intros; apply other_threads_quiet|intros _]. case_match; solve_preserves.
Qed.

Lemma quiet_kind ids hl h t : preserves (quiet_at ids hl) (jsep_kind h t).
Proof. unfold jsep_kind. solve_preserves. Qed.
Lemma quiet_support ids hl h : preserves (quiet_at ids hl) (support_trickle h).
Proof. unfold support_trickle. solve_preserves. Qed.
End Quiet.
(** ** The invariant of the core *)

Section Counted.
Context {X D R J B : Type} `{CountedLaws X D J} `{ServerInfo X} `{Media.JsonRefs R} `{!Media.JsonRefsLaws R} `{!Jansson J}
  `{!JanssonBool J} `{KoreBuf B} `{KoreNet}.
Implicit Types w : world X R J.
Implicit Types e eh : loc -> nat.

Definition inv_at (d al : option loc) (ks : list (Z * loc)) (e eh : loc -> nat) (w : world X R J) : Prop :=
  inv d al ks e eh (heap w) (handle_ids (handles (jw w))) (exts w) (held (core_of w)) (sessions w) (next w).

Lemma p_modify d al ks e eh (f : world X R J -> world X R J) :
  (forall w, heap (f w) = heap w /\ handle_ids (handles (jw (f w))) = handle_ids (handles (jw w)) /\ exts (f w) = exts w /\
     (forall h, held (core_of (f w)) h = held (core_of w) h) /\ sessions (f w) = sessions w /\ next (f w) = next w) ->
  preserves (inv_at d al ks e eh) (modify f).
Proof.
  intros Hf. apply preserves_modify. intros w Hw. destruct (Hf w) as (H1' & H2' & H3' & H4' & H5' & H6').
  unfold inv_at. rewrite H1', H2', H3', H5', H6'. by eapply inv_ext.
Qed.
#[local] Hint Extern 3 (preserves (inv_at _ _ _ _ _) (modify _)) => apply p_modify; by repeat split : pres.

Lemma p_log d al ks e eh ev : preserves (inv_at d al ks e eh) (log ev).
Proof. unfold log. solve_preserves. Qed.

(** A quiet step of Janus. *)
Lemma p_core d al ks e eh {A C : Type} (g : X -> A * X) (k : A -> M (world X R J) C) :
  (forall x, quiet held x (g x).2) -> (forall a, preserves (inv_at d al ks e eh) (k a)) ->
  preserves (inv_at d al ks e eh) (x ← gets core_of; let '(a, x) := g x in set_core x;; k a).
Proof.
  intros Hg Hk w a w' Hw Hr. run eq_refl in Hr. specialize (Hg (core_of w)). destruct (g (core_of w)) as [b x'].
  unfold set_core in Hr. run eq_refl in Hr. eapply Hk; [|done]. unfold inv_at in *. by eapply inv_ext.
Qed.

Lemma p_lift d al ks e eh {A : Type} (f : M (jworld X J) A) :
  (forall ids hl, preserves (quiet_at ids hl) f) -> preserves (inv_at d al ks e eh) (lift f).
Proof.
  intros Hf w a w' Hw Hr. unfold lift in Hr. destruct (f (jw w)) as [[b j']|] eqn:Hj; [|done]. injection Hr as <- <-.
  destruct (Hf _ (held (core (jw w))) _ _ _ (conj eq_refl (fun h => eq_refl)) Hj) as [Hids Hhl].
  unfold inv_at in *. cbn [heap jw exts sessions next core_of w_jw]. rewrite Hids. by eapply inv_ext.
Qed.

(** What was read, and what was written, of a run that went on. *)
Lemma get_session_inv s w v w' : get_session s w = Done (v, w') -> w' = w /\ heap w !! s = Some v.
Proof.
  unfold get_session. intros Hr. run eq_refl in Hr. destruct (heap w !! s) as [v0|]; [|done]. by injection Hr as -> ->.
Qed.
Lemma update_session_inv s f w u w' :
  update_session s f w = Done (u, w') -> exists v, heap w !! s = Some v /\ w' = w_heap <[s := f v]> w.
Proof.
  unfold update_session. intros Hr. inv_bind Hr. apply get_session_inv in Hrun as [-> Hv]. injection Hr as _ <-. eauto.
Qed.
Lemma get_ext_inv h w v w' : get_ext h w = Done (v, w') -> w' = w /\ exts w !! h = Some v.
Proof.
  unfold get_ext. intros Hr. run eq_refl in Hr. destruct (exts w !! h) as [v0|]; [|done]. by injection Hr as -> ->.
Qed.
Lemma update_ext_inv h f w u w' :
  update_ext h f w = Done (u, w') -> exists v, exts w !! h = Some v /\ w' = w_exts <[h := f v]> w.
Proof.
  unfold update_ext. intros Hr. inv_bind Hr. apply get_ext_inv in Hrun as [-> Hv]. injection Hr as _ <-. eauto.
Qed.
Lemma get_handle_inv h w v w' : lift (get_handle h) w = Done (v, w') -> w' = w /\ handles (jw w) !! h = Some v.
Proof.
  unfold lift, get_handle. intros Hr. run eq_refl in Hr. destruct (handles (jw w) !! h) as [v0|]; [|done].
  injection Hr as -> <-. split; [|done]. by destruct w.
Qed.

Lemma t_update_session (P : world X R J -> Prop) (Q : unit -> world X R J -> Prop) s f :
  (forall w v, P w -> heap w !! s = Some v -> Q tt (w_heap <[s := f v]> w)) -> triple P (update_session s f) Q.
Proof. intros Hf w [] w' HP (v & Hv & ->)%update_session_inv. by apply Hf. Qed.
Lemma t_update_ext (P : world X R J -> Prop) (Q : unit -> world X R J -> Prop) h f :
  (forall w v, P w -> exts w !! h = Some v -> Q tt (w_exts <[h := f v]> w)) -> triple P (update_ext h f) Q.
Proof. intros Hf w [] w' HP (v & Hv & ->)%update_ext_inv. by apply Hf. Qed.
(** What is read is there. *)
Lemma t_get_session {A : Type} (P : world X R J -> Prop) (Q : A -> world X R J -> Prop) s (k : janus_session -> M _ A) :
  (forall v, triple (fun w => P w /\ heap w !! s = Some v) (k v) Q) -> triple P (v ← get_session s; k v) Q.
Proof. intros Hk w a w' HP Hr. inv_bind Hr. apply get_session_inv in Hrun as [-> Hv]. by eapply Hk. Qed.

(** *** Counters *)

Lemma t_take_session d al ks e eh s :
  triple (inv_at d al ks e eh) (janus_refcount_increase (OfSession s)) (fun _ => inv_at d al ks (bump e s) eh).
Proof. apply t_update_session. intros w v Hw Hv. by apply inv_take_session. Qed.
Lemma t_take_handle d al ks e eh h :
  triple (inv_at d al ks e eh) (janus_refcount_increase (OfHandle h)) (fun _ => inv_at d al ks e (bump eh h)).
Proof. apply t_update_ext. intros w v Hw Hv. by apply inv_take_handle. Qed.

(** A session without handles is freed. *)
Lemma session_free_run decrease s v w w' :
  heap w !! s = Some v -> source v = None -> (forall t, ice_handles v = Some t -> t = ∅) ->
  janus_session_free decrease s w = Done (tt, w') -> w' = w_heap (delete s) w.
Proof.
  intros Hs Hsrc Ht Hr. unfold janus_session_free in Hr. inv_bind Hr. apply get_session_inv in Hrun as [-> Hv].
  rewrite Hs in Hv. injection Hv as <-. inv_bind Hr.
  assert (Hmid : exists v1, source v1 = None /\ s0 = w_heap <[s := v1]> w).
  { destruct (ice_handles v) as [t|] eqn:Hice.
    - rewrite (Ht t eq_refl) in Hrun. pose proof (iter_all ∅) as Hnil. rewrite map_to_list_empty in Hnil.
      apply Permutation_nil_r in Hnil. rewrite Hnil in Hrun. inv_bind Hrun.
      apply update_session_inv in Hrun0 as (v0 & Hv0 & ->). inv_bind Hrun. injection Hrun0 as _ <-.
      apply update_session_inv in Hrun as (v1 & Hv1 & ->). cbn [heap w_heap] in Hv1. rewrite lookup_insert_eq in Hv1.
      injection Hv1 as <-. rewrite Hs in Hv0. injection Hv0 as <-. exists (s_ice_handles (fun _ => None) (s_ice_handles (fun _ => Some ∅) v)). split; [exact Hsrc|].
      destruct w. unfold w_heap. cbn. f_equal. by rewrite insert_insert_eq.
    - injection Hrun as _ <-. exists v. split; [done|]. destruct w. unfold w_heap. cbn in *. f_equal. by rewrite insert_id. }
  destruct Hmid as (v1 & Hsrc1 & ->). inv_bind Hr. apply get_session_inv in Hrun0 as [-> Hv1]. cbn [heap w_heap] in Hv1.
  rewrite lookup_insert_eq in Hv1. injection Hv1 as <-. rewrite Hsrc1 in Hr. run eq_refl in Hr. injection Hr as <-.
  destruct w. unfold w_heap. cbn. f_equal. by rewrite delete_insert_eq.
Qed.

Lemma decrease_session_step n d al ks e eh s :
  triple (inv_at d al ks (bump e s) eh) (refcount_decrease (S n) (OfSession s)) (fun _ => inv_at d al ks e eh).
Proof.
  intros w [] w' Hw Hr. cbn [refcount_decrease] in Hr. inv_bind Hr. apply update_session_inv in Hrun as (v & Hv & ->).
  inv_bind Hr. apply get_session_inv in Hrun as [-> Hv1]. cbn [heap w_heap] in Hv1. rewrite lookup_insert_eq in Hv1.
  injection Hv1 as <-. cbn [ref s_ref] in Hr. destruct (Z.eqb_spec (ref v - 1) 0) as [Hz|Hz].
  - assert (Hr1 : ref v = 1%Z) by lia. destruct (inv_last_session _ _ _ _ _ _ _ _ _ _ _ _ _ Hw Hv Hr1) as (_ & _ & _ & Ht).
    destruct (i_session _ _ _ _ _ _ _ _ _ _ _ Hw _ _ Hv) as (_ & _ & Hsrc).
    eapply session_free_run in Hr as ->; [|apply lookup_insert_eq|done|done].
    unfold inv_at. cbn [heap jw exts sessions next core_of w_heap]. rewrite delete_insert_eq. by eapply inv_free_session.
  - injection Hr as <-. apply inv_drop_session; [done|done|lia].
Qed.

Lemma decrease_handle_step n d al ks e eh h :
  (forall e' s, triple (inv_at d al ks (bump e' s) eh) (refcount_decrease n (OfSession s)) (fun _ => inv_at d al ks e' eh)) ->
  triple (inv_at d al ks e (bump eh h)) (refcount_decrease (S n) (OfHandle h)) (fun _ => inv_at d al ks e eh).
Proof.
  intros IH w [] w' Hw Hr. cbn [refcount_decrease] in Hr. inv_bind Hr. apply update_ext_inv in Hrun as (x & Hx & ->).
  inv_bind Hr. apply get_ext_inv in Hrun as [-> Hx1]. cbn [exts w_exts] in Hx1. rewrite lookup_insert_eq in Hx1.
  injection Hx1 as <-. cbn [h_ref x_h_ref] in Hr. destruct (Z.eqb_spec (h_ref x - 1) 0) as [Hz|Hz].
  - unfold ice_handle_free in Hr. inv_bind Hr. apply get_handle_inv in Hrun as [-> Hh]. cbn [jw w_exts] in Hh.
    run eq_refl in Hr. destruct (free_law a0 (core (jw w))) as [Hs Hq].
    change (core_of (w_exts <[h := x_h_ref (fun n => (n - 1)%Z) x]> w)) with (core (jw w)) in Hr.
    destruct (janus_ice_free a0 (core (jw w))) as [o x']. cbn in Hs, Hq. do 3 run eq_refl in Hr.
    assert (Hi : handle_ids (handles (jw w)) !! h = Some (o, handle_id a0)) by
      (unfold handle_ids; rewrite lookup_fmap, Hh; by rewrite Hs).
    pose proof (inv_free_handle _ _ _ _ _ _ _ _ _ _ _ _ _ _ _ Hw Hx ltac:(lia) Hi) as Hf.
    assert (Hend : forall e1, inv d al ks e1 eh (heap w) (delete h (handle_ids (handles (jw w)))) (delete h (exts w))
        (held (core_of w)) (sessions w) (next w) ->
      inv_at d al ks e1 eh (w_jw (w_core (fun _ => x')) (w_exts (delete h) (w_jw (w_handles (delete h))
        (w_exts <[h := x_h_ref (fun n => n - 1)%Z x]> w))))).
    { intros e1 He1. unfold inv_at. cbn [heap jw exts sessions next core_of w_jw w_exts w_core w_handles handles core].
      rewrite delete_insert_eq. unfold handle_ids at 1. rewrite fmap_delete. by eapply inv_ext. }
    destruct o as [s|]; [eapply IH; [|exact Hr]; by apply Hend|]. injection Hr as <-. by apply Hend.
  - injection Hr as <-. apply inv_drop_handle; [done|done|lia].
Qed.

Lemma t_decrease n :
  (forall d al ks e eh s,
     triple (inv_at d al ks (bump e s) eh) (refcount_decrease n (OfSession s)) (fun _ => inv_at d al ks e eh)) /\
  (forall d al ks e eh h,
     triple (inv_at d al ks e (bump eh h)) (refcount_decrease n (OfHandle h)) (fun _ => inv_at d al ks e eh)).
Proof.
  induction n as [|n [IHs IHh]]; [by split; intros * w a w' _ [=]|]. split; intros *.
  - apply decrease_session_step.
  - apply decrease_handle_step. intros. apply IHs.
Qed.

Lemma t_drop_session d al ks e eh s :
  triple (inv_at d al ks (bump e s) eh) (janus_refcount_decrease (OfSession s)) (fun _ => inv_at d al ks e eh).
Proof. apply t_decrease. Qed.
Lemma t_drop_handle d al ks e eh h :
  triple (inv_at d al ks e (bump eh h)) (janus_refcount_decrease (OfHandle h)) (fun _ => inv_at d al ks e eh).
Proof. apply t_decrease. Qed.
End Counted.
End Cnt.
