(* ===== verification/JanusKept.v ===== *)
(** * What every operation of the gateway's server keeps

    The invariant [inv_at] of [JanusCounted], through the operations of [JanusServer] and the
    requests of [JanusRequests].  An error is never answered ([error_crashes]), so the paths
    behind one keep everything. *)

From S2P Require Import Prelude Jansson KoreNet MediaRooms Janus HandleSdp JanusServer JanusRequests JanusCounted.

Local Open Scope c_scope.

Module Kept.
Import Janus Srv Req Cnt.

(** A run, by what is known of the program. *)
Lemma run_triple {S A : Type} (P : S -> Prop) (m : M S A) (Q : A -> S -> Prop) s a s' :
  P s -> m s = Done (a, s') -> triple P m Q -> Q a s'.
Proof. intros HP Hr Hm. by eapply Hm. Qed.

(** ** Errors *)

Section Errors.
Context {X D R J B : Type} `{JanusCore X D J} `{ServerCore X D J} `{Media.JsonRefs R} `{!Media.JsonRefsLaws R}
  `{!Jansson J} `{!JanssonBool J} `{KoreBuf B} `{KoreNet}.
Implicit Types w : world X R J.

Lemma json_new_run w : exists l w', json_new w = Done (l, w') /\
  Media.json_view (jrefs w) !! l = None /\ Media.json_view (jrefs w') = <[l := (1, [])]> (Media.json_view (jrefs w)).
Proof.
  unfold json_new. run eq_refl. destruct (Media.json_new (jrefs w)) as [l r] eqn:Hn.
  exists l, (w_jrefs (fun _ => r) w). split; [done|]. by apply Media.json_new_law.
Qed.

Lemma json_set_run o v w n ms : Media.json_view (jrefs w) !! o = Some (n, ms) -> exists w', json_set_new o v w = Done (tt, w') /\
  Media.json_view (jrefs w') = <[o := (n, ms ++ [v])]> (Media.json_view (jrefs w)).
Proof. intros Ho. eexists. split; [reflexivity|]. by apply Media.json_set_new_law. Qed.

(** The object's members are freed with it. *)
Lemma decref_leaves l l1 l2 w :
  Media.json_view (jrefs w) !! l = Some (1, [l1; l2]) -> Media.json_view (jrefs w) !! l1 = Some (1, []) ->
  Media.json_view (jrefs w) !! l2 = Some (1, []) -> l <> l1 -> l <> l2 -> l1 <> l2 ->
  exists w', json_decref l w = Done (tt, w') /\
    Media.json_view (jrefs w') = delete l2 (delete l1 (delete l (Media.json_view (jrefs w)))).
Proof.
  intros Hl Hl1 Hl2 ???. destruct (Media.json_drop_last _ [] _ _ Hl) as (r1 & Hr1 & Hd1).
  destruct (Media.json_drop_last l1 [l2] r1 []) as (r2 & Hr2 & Hd2); [by rewrite Hr1, lookup_delete_ne|].
  destruct (Media.json_drop_last l2 [] r2 []) as (r3 & Hr3 & Hd3); [by rewrite Hr2, Hr1, !lookup_delete_ne|].
  exists (w_jrefs (fun _ => r3) w). split; [|by cbn [jrefs w_jrefs]; rewrite Hr3, Hr2, Hr1].
  unfold json_decref. run eq_refl. unfold Media.json_decref. cbn in Hd1, Hd2, Hd3.
  by rewrite Hd1, Hd2, Hd3, Media.json_drop_nil.
Qed.

Lemma decref_dangling l l1 w :
  Media.json_view (jrefs w) !! l = Some (1, [l1]) -> Media.json_view (jrefs w) !! l1 = None -> l <> l1 ->
  json_decref l w = Crash UseAfterFree.
Proof.
  intros Hl Hl1 ?. destruct (Media.json_drop_last _ [] _ _ Hl) as (r1 & Hr1 & Hd1). unfold json_decref. run eq_refl.
  unfold Media.json_decref. cbn in Hd1. rewrite Hd1, Media.json_drop_dead; [done|]. by rewrite Hr1, lookup_delete_ne.
Qed.

(** The members of an error are freed, and then the object they are members of. *)
Lemma error_string_crashes c session_no transaction error error_string w :
  janus_process_error_string (Some c) session_no transaction error error_string w = Crash UseAfterFree.
Proof.
  unfold janus_process_error_string.
  destruct (json_new_run w) as (l1 & w1 & Hr1 & Hn1 & Hv1). run Hr1.
  destruct (json_new_run w1) as (l2 & w2 & Hr2 & Hn2 & Hv2). run Hr2.
  destruct (json_new_run w2) as (l3 & w3 & Hr3 & Hn3 & Hv3). run Hr3.
  rewrite Hv1 in Hn2, Hv2. apply lookup_insert_None in Hn2 as [Hn2 H12].
  rewrite Hv2 in Hn3, Hv3. apply lookup_insert_None in Hn3 as [[Hn3 H13]%lookup_insert_None H23].
  destruct (json_set_run l2 l3 w3 1 []) as (w4 & Hr4 & Hv4); [by rewrite Hv3, lookup_insert_ne, lookup_insert_eq|]. run Hr4.
  destruct (json_new_run w4) as (l4 & w5 & Hr5 & Hn5 & Hv5). run Hr5.
  rewrite Hv3 in Hv4. rewrite Hv4 in Hn5, Hv5.
  apply lookup_insert_None in Hn5 as [[[[_ H14]%lookup_insert_None H24]%lookup_insert_None H34]%lookup_insert_None _].
  destruct (json_set_run l2 l4 w5 1 [l3]) as (w6 & Hr6 & Hv6); [by rewrite Hv5, lookup_insert_ne, lookup_insert_eq|]. run Hr6.
  rewrite Hv5 in Hv6.
  destruct (json_set_run l1 l2 w6 1 []) as (w7 & Hr7 & Hv7).
  { rewrite Hv6, lookup_insert_ne, lookup_insert_ne, lookup_insert_ne, lookup_insert_ne, lookup_insert_ne, lookup_insert_eq by congruence. done. }
  run Hr7. rewrite Hv6 in Hv7.
  destruct (decref_leaves l2 l3 l4 w7) as (w8 & Hr8 & Hv8); try congruence; rewrite ?Hv7; simplify_map_eq; try done.
  assert (Hcrash : json_decref l1 w8 = Crash UseAfterFree).
  { apply (decref_dangling l1 l2); rewrite ?Hv8, ?Hv7; simplify_map_eq; done. }
  destruct (json_dumps _); run Hr8; by rewrite (bind_crash _ _ _ _ Hcrash).
Qed.

Lemma error_crashes c session_no transaction error format w :
  janus_process_error (Some c) session_no transaction error format w = Crash UseAfterFree.
Proof. apply error_string_crashes. Qed.

Lemma p_error_string (I : world X R J -> Prop) request session_no transaction error error_string :
  preserves I (janus_process_error_string request session_no transaction error error_string).
Proof.
  destruct request as [c|]; [|apply preserves_ret]. intros w a w' _ Hr. by rewrite error_string_crashes in Hr.
Qed.
Lemma p_error (I : world X R J -> Prop) request session_no transaction error format :
  preserves I (janus_process_error request session_no transaction error format).
Proof. destruct request as [c|]; [|apply preserves_ret]. apply p_error_string. Qed.
End Errors.

(** ** Sessions, handles and their tables *)

Section Steps.
Context {X D R J B : Type} `{CountedLaws X D J} `{ServerInfo X} `{Media.JsonRefs R} `{!Media.JsonRefsLaws R} `{!Jansson J}
  `{!JanssonBool J} `{KoreBuf B} `{KoreNet}.
Implicit Types w : world X R J.
Implicit Types e eh : loc -> nat.
Context (d al : option loc) (ks : list (Z * loc)).
Abbreviation kept e eh := (inv_at (X := X) (R := R) (J := J) d al ks e eh).

Lemma p_foreach {A : Type} (I : world X R J -> Prop) (k : A -> M (world X R J) unit) l :
  (forall a, preserves I (k a)) -> preserves I (foreach k l).
Proof. intros Hk. induction l as [|a l IH]; cbn [foreach]; [apply preserves_ret|]. by apply preserves_bind. Qed.

(** A field of a session that does not count; the request it came from is null, and stays so. *)
Definition harmless (f : janus_session -> janus_session) : Prop := forall v,
  ref (f v) = ref v /\ destroyed (f v) = destroyed v /\ session_id (f v) = session_id v /\
  ice_handles (f v) = ice_handles v /\ (source (f v) = source v \/ source (f v) = None).

Lemma p_update_session e eh s f : harmless f -> preserves (kept e eh) (update_session s f).
Proof.
  intros Hf w [] w' Hw (v & Hv & ->)%update_session_inv. destruct (Hf v) as (? & ? & ? & Ht & Hsrc).
  destruct (i_session _ _ _ _ _ _ _ _ _ _ _ Hw _ _ Hv) as (_ & _ & Hnull).
  apply inv_session with v; try done; [destruct Hsrc; congruence|]. intros. by rewrite Ht.
Qed.
#[local] Hint Extern 3 (preserves _ (update_session _ _)) => apply p_update_session; intros ?; cbn; by split_and!; auto : pres.
#[local] Hint Extern 3 (preserves _ (modify _)) => apply p_modify; by repeat split : pres.
#[local] Hint Resolve p_log : pres.

Lemma p_get_session e eh s : preserves (kept e eh) (get_session s).
Proof. unfold get_session. solve_preserves. Qed.
Lemma p_get_handle e eh h : preserves (kept e eh) (lift (get_handle h)).
Proof. apply p_lift. intros. apply quiet_get_handle. Qed.
#[local] Hint Resolve p_get_session p_get_handle : pres.

Lemma p_sessions_lock e eh : preserves (kept e eh) sessions_lock.
Proof. unfold sessions_lock. solve_preserves. Qed.
Lemma p_sessions_unlock e eh : preserves (kept e eh) sessions_unlock.
Proof. unfold sessions_unlock. solve_preserves. Qed.
Lemma p_session_lock e eh s : preserves (kept e eh) (session_lock s).
Proof. unfold session_lock. solve_preserves. Qed.
Lemma p_session_unlock e eh s : preserves (kept e eh) (session_unlock s).
Proof. unfold session_unlock. solve_preserves. Qed.

(** Who looks a handle up holds it. *)
Lemma t_handles_find e eh s k :
  triple (kept e eh) (janus_session_handles_find (Some s) k)
    (fun o => match o with Some h => kept e (bump eh h) | None => kept e eh end).
Proof.
  unfold janus_session_handles_find. eapply triple_keep; [apply p_session_lock|intros ?].
  eapply triple_keep; [apply p_get_session|intros v]. destruct (ice_handles v ≫= fun t => t !! k) as [h|].
  - eapply triple_bind; [apply t_take_handle|intros ?]. eapply triple_keep; [apply p_session_unlock|intros ?]. by apply triple_ret.
  - eapply triple_keep; [apply preserves_ret|intros ?]. eapply triple_keep; [apply p_session_unlock|intros ?]. by apply triple_ret.
Qed.

(** The table's reference goes with the entry. *)
Lemma p_table_remove e eh s k : preserves (kept e eh) (table_remove s k).
Proof.
  intros w [] w' Hw Hr. unfold table_remove in Hr. inv_bind Hr. apply get_session_inv in Hrun as [-> Hv].
  destruct (ice_handles a) as [t|] eqn:Ht; [|by injection Hr as <-]. cbn in Hr.
  destruct (t !! k) as [h|] eqn:Hk; [|by injection Hr as <-]. inv_bind Hr.
  apply update_session_inv in Hrun as (v & Hv' & ->). rewrite Hv in Hv'. injection Hv' as <-.
  eapply t_drop_handle; [|exact Hr]. unfold inv_at. cbn [heap jw exts sessions next core_of w_heap].
  replace (s_ice_handles (fmap (delete k)) a) with (s_ice_handles (fun _ => Some (delete k t)) a)
    by (unfold s_ice_handles; by rewrite Ht). by eapply inv_table_delete.
Qed.

(** *** Functions of ICE *)

(** A function that changes no handle's number or session, and holds what it held, but for one reference. *)
Lemma p_ice_moves e eh h {A : Type} (f : ice_fun X J A) :
  (forall hs x, moves held h hs x (f hs x).2) -> preserves (kept e eh) (ice_call f).
Proof.
  intros Hf w b w' Hw Hr. unfold ice_call in Hr. run eq_refl in Hr. specialize (Hf (handles (jw w)) (core (jw w))).
  destruct (f _ _) as [a [[hs x] calls]]. destruct Hf as [Hids Hcalls]. run eq_refl in Hr. inv_bind Hr. injection Hr as _ <-.
  set (w1 := w_jw _ w) in Hrun.
  assert (Hat : forall eh', inv d al ks e eh' (heap w) (handle_ids (handles (jw w))) (exts w) (held x) (sessions w) (next w) ->
    inv_at d al ks e eh' w1) by (intros eh' Hi; unfold inv_at, core_of; cbn [heap jw exts sessions next w1 w_jw w_core w_handles handles core]; by rewrite Hids).
  destruct Hcalls as [[-> Hq]|[[-> Hq]|[-> Hq]]]; cbn [foreach run_call] in Hrun.
  - injection Hrun as _ <-. apply Hat. by eapply inv_ext.
  - inv_bind Hrun. injection Hrun as <- <-. apply update_ext_inv in Hrun0 as (v & Hv & ->). cbn [exts w1 w_jw] in Hv.
    pose proof (inv_take_handle _ _ _ _ _ _ _ _ _ _ _ _ _ Hw Hv) as Hi. apply inv_held in Hi as [Hi _].
    unfold inv_at, core_of. cbn [heap jw exts sessions next w1 w_jw w_exts w_core w_handles handles core]. rewrite Hids. by eapply inv_ext.
  - inv_bind Hrun. injection Hrun as <- <-. eapply t_drop_handle; [|exact Hrun0]. apply Hat.
    apply inv_held. split; [by eapply inv_ext|]. unfold janus_refcount_decrease in Hrun0. cbn [refcount_decrease] in Hrun0.
    inv_bind Hrun0. apply update_ext_inv in Hrun as (v & Hv & _). cbn [exts w1 w_jw] in Hv. by rewrite Hv.
Qed.

(** *** A new handle *)

(** The table is made when there is none. *)
Lemma make_table_kept e eh s sv w w' :
  kept e eh w -> heap w !! s = Some sv ->
  (if! bool_decide (ice_handles sv = None) then update_session s (s_ice_handles (fun _ => Some ∅))) w = Done (tt, w') ->
  kept e eh w' /\ jw w' = jw w /\
  exists sv' t, heap w' !! s = Some sv' /\ ice_handles sv' = Some t /\ forall k, t !! k = ice_handles sv ≫= lookup k.
Proof.
  intros Hw Hv Hr. case_bool_decide as Hn; cbn [whenM] in Hr.
  - apply update_session_inv in Hr as (v & Hv' & ->). rewrite Hv in Hv'. injection Hv' as <-. split_and!; [|done|].
    + apply inv_session with sv; try done. intros k h. rewrite Hn. cbn. by rewrite lookup_empty.
    + eexists _, ∅. split_and!; [apply lookup_insert_eq|done|]. intros k. rewrite Hn. cbn. by rewrite lookup_empty.
  - injection Hr as <-. split_and!; [done|done|]. destruct (ice_handles sv) as [t|] eqn:Ht; [|done]. by exists sv, t.
Qed.

Lemma insert_kept e eh s h v sv w u w' :
  kept e eh w -> heap w !! s = Some sv -> handles (jw w) !! h = Some v -> session v = Some s ->
  ice_handles sv ≫= lookup (handle_id v) = None -> janus_session_handles_insert s h w = Done (u, w') -> kept e eh w'.
Proof.
  intros Hw Hsv Hh Hs Hfree Hr. unfold janus_session_handles_insert in Hr. inv_bind Hr. assert (H1' := p_session_lock _ _ _ _ _ _ Hw Hrun).
  assert (Hw1 : s0 = w_heap <[s := s_mutex (fun _ => true) sv]> w).
  { unfold session_lock in Hrun. inv_bind Hrun. apply get_session_inv in Hrun0 as [-> Hv]. rewrite Hsv in Hv. injection Hv as <-.
    destruct (mutex sv); [done|]. apply update_session_inv in Hrun as (v' & Hv' & ->). congruence. }
  inv_bind Hr. apply get_session_inv in Hrun0 as [-> Hv]. rewrite Hw1 in Hv. cbn [heap w_heap] in Hv. rewrite lookup_insert_eq in Hv.
  injection Hv as <-. inv_bind Hr. destruct a0.
  apply (make_table_kept e eh s _ _ _ H1') in Hrun0 as (H2' & Hj & sv2 & t & Hsv2 & Ht & Hlook);
    [|rewrite Hw1; apply lookup_insert_eq].
  cbn [ice_handles s_mutex] in Hlook. inv_bind Hr. destruct a0. apply (t_take_handle d al ks e eh h) in Hrun0 as H3'; [|done].
  apply update_ext_inv in Hrun0 as (x & Hx & ->). inv_bind Hr. apply get_handle_inv in Hrun0 as [-> Hv2].
  cbn [jw w_exts] in Hv2. rewrite Hj, Hw1 in Hv2. cbn [jw w_heap] in Hv2. rewrite Hh in Hv2. injection Hv2 as <-.
  assert (Hrem : table_remove s (handle_id v) (w_exts <[h := x_h_ref (fun n => n + 1)%Z x]> s1) =
    Done (tt, w_exts <[h := x_h_ref (fun n => n + 1)%Z x]> s1)).
  { unfold table_remove, get_session. rewrite bind_assoc. run eq_refl. cbn [heap w_exts]. rewrite Hsv2. run eq_refl. rewrite Ht.
    cbn. by rewrite Hlook, Hfree. }
  run Hrem in Hr. inv_bind Hr. apply update_session_inv in Hrun0 as (sv3 & Hsv3 & ->). cbn [heap w_exts] in Hsv3.
  rewrite Hsv2 in Hsv3. injection Hsv3 as <-. eapply p_session_unlock; [|exact Hr]. clear Hr Hrun.
  replace (s_ice_handles (fmap <[handle_id v:=h]>) sv2) with (s_ice_handles (fun _ => Some (<[handle_id v := h]> t)) sv2)
    by (unfold s_ice_handles; by rewrite Ht).
  eapply (inv_table_insert d al ks e eh (heap s1)); [exact H3'|done| |done|by rewrite Hlook].
  unfold handle_ids. cbn [jw w_exts w_heap]. rewrite lookup_fmap, Hj, Hw1. cbn [jw w_heap]. rewrite Hh. cbn. by rewrite Hs.
Qed.

Lemma t_ice_create e eh s t o :
  triple (fun w => kept e eh w /\ exists v, heap w !! s = Some v /\ ice_handles v = t) (ice_call (janus_ice_handle_create s t o))
    (fun _ => kept e eh).
Proof.
  intros w b w' [Hw (sv & Hsv & Ht)] Hr. unfold ice_call in Hr. run eq_refl in Hr.
  pose proof (create_law s t o (handles (jw w)) (core (jw w))) as Hl. unfold creates in Hl.
  destruct (janus_ice_handle_create _ _ _ _ _) as [new [[hs x] calls]]. run eq_refl in Hr. inv_bind Hr. injection Hr as _ <-.
  destruct new as [h|].
  - destruct Hl as (v & Hfresh & Hs & Hfree & -> & Hz & Hq & ->). cbn [foreach run_call] in Hrun. run eq_refl in Hrun.
    inv_bind Hrun. apply update_session_inv in Hrun0 as (sv' & Hsv' & ->). cbn [heap w_exts w_jw] in Hsv'. rewrite Hsv in Hsv'.
    injection Hsv' as <-. inv_bind Hrun. injection Hrun as <- <-.
    eapply (insert_kept e eh s h v (s_ref (fun n => n + 1)%Z sv)); [| | |done| |exact Hrun0]; cycle 1.
    1, 2: cbn [heap jw w_jw w_exts w_heap w_core w_handles handles]; apply lookup_insert_eq.
    1: cbn [ice_handles s_ref]; by rewrite Ht.
    unfold inv_at, core_of. cbn [heap jw exts sessions next w_jw w_exts w_heap w_core w_handles handles core].
    unfold handle_ids. rewrite fmap_insert, Hs. eapply inv_create; try done. by rewrite lookup_fmap, Hfresh.
  - destruct Hl as (Hids & Hq & ->). injection Hrun as _ <-. unfold inv_at, core_of.
    cbn [heap jw exts sessions next w_jw w_core w_handles handles core]. rewrite Hids. by eapply inv_ext.
Qed.

(** *** Handles taken off *)

Lemma p_ice_destroy e eh s h : preserves (kept e eh) (ice_call (janus_ice_handle_destroy s h)).
Proof. apply (p_ice_moves e eh h). intros. apply destroy_law. Qed.
Lemma p_ice_attach e eh s h p : preserves (kept e eh) (ice_call (janus_ice_handle_attach_plugin s h p)).
Proof. apply (p_ice_moves e eh h). intros. apply attach_law. Qed.
Lemma p_ice_hangup e eh h : preserves (kept e eh) (ice_call (janus_ice_webrtc_hangup h)).
Proof. apply (p_ice_moves e eh h). intros. apply hangup_law. Qed.
Lemma p_ice_resend e eh h : preserves (kept e eh) (ice_call (janus_ice_resend_trickles h)).
Proof. apply (p_ice_moves e eh h). intros. apply resend_law. Qed.
#[local] Hint Resolve p_session_lock p_session_unlock p_sessions_lock p_sessions_unlock p_table_remove p_ice_destroy : pres.

Lemma p_handles_remove e eh s h : preserves (kept e eh) (janus_session_handles_remove s h).
Proof. unfold janus_session_handles_remove. solve_preserves. Qed.
Lemma p_handles_clear e eh s : preserves (kept e eh) (janus_session_handles_clear s).
Proof.
  unfold janus_session_handles_clear. apply preserves_bind; [solve_preserves|intros _].
  apply preserves_bind; [solve_preserves|intros v]. apply preserves_bind; [|solve_preserves].
  destruct (ice_handles v); [|solve_preserves]. apply p_foreach. solve_preserves.
Qed.

(** *** To the clients *)

Lemma p_target_send e eh n frame conns : preserves (kept e eh) (target_send n frame conns).
Proof. induction conns as [|[c ws] conns IH]; cbn [target_send]; solve_preserves. Qed.
#[local] Hint Resolve p_target_send : pres.
Lemma p_target e eh n op data len : preserves (kept e eh) (kore_websocket_target n op data len).
Proof. unfold kore_websocket_target. solve_preserves. Qed.
#[local] Hint Resolve p_target : pres.
Lemma p_notify_event e eh s ev : preserves (kept e eh) (janus_session_notify_event s ev).
Proof. unfold janus_session_notify_event. solve_preserves. Qed.
Lemma p_success e eh request payload : preserves (kept e eh) (janus_process_success request payload).
Proof. unfold janus_process_success. solve_preserves. Qed.
Lemma p_check_secret e eh root : preserves (kept e eh) (janus_request_check_secret root).
Proof. unfold janus_request_check_secret. solve_preserves. Qed.

End Steps.

#[export] Hint Extern 3 (preserves (inv_at _ _ _ _ _) (update_session _ _)) => apply p_update_session; intros ?; cbn; by split_and!; auto : pres.
#[export] Hint Extern 3 (preserves (inv_at _ _ _ _ _) (modify _)) => apply p_modify; by repeat split : pres.
#[export] Hint Resolve p_log p_get_session p_get_handle p_session_lock p_session_unlock p_sessions_lock p_sessions_unlock
  p_table_remove p_ice_destroy p_ice_attach p_ice_hangup p_ice_resend p_handles_remove p_handles_clear p_target p_notify_event
  p_success p_check_secret p_error_string p_error : pres.

(** ** Sessions come and go *)

Section Sessions.
Context {X D R J B : Type} `{CountedLaws X D J} `{ServerInfo X} `{Media.JsonRefs R} `{!Media.JsonRefsLaws R} `{!Jansson J}
  `{!JanssonBool J} `{KoreBuf B} `{KoreNet}.
Implicit Types w : world X R J.
Implicit Types e eh : loc -> nat.
Abbreviation rest e eh := (inv_at (X := X) (R := R) (J := J) None None [] e eh).

Lemma forget d al ks e eh w : inv_at d al ks e eh w -> inv_at d None [] e eh w.
Proof. apply inv_forget. Qed.

(** Who finds a session holds it, and knows its number. *)
Lemma t_find d al ks e eh n :
  triple (inv_at d al ks e eh) (janus_session_find n : M (world X R J) _)
    (fun o => match o with
              | Some s => inv_at d (Some s) [(n, s)] (bump e s) eh
              | None => fun w => inv_at d al ks e eh w /\ sessions w !! n = None
              end).
Proof.
  intros w o w' Hw Hr. unfold janus_session_find in Hr. inv_bind Hr. apply (p_sessions_lock d al ks e eh) in Hrun; [|done].
  run eq_refl in Hr. destruct (sessions s !! n) as [a1|] eqn:Hn.
  - destruct (l_sound _ _ _ _ _ _ (i_listed _ _ _ _ _ _ _ _ _ _ _ Hrun) _ _ Hn) as (v & Hv & Hid & Hd).
    assert (Hk : inv_at d (Some a1) [(n, a1)] e eh s).
    { apply inv_number with ks.
      - by eapply inv_know.
      - intros k s' v' [= -> ->]%list_elem_of_singleton Hv'. congruence. }
    inv_bind Hr. apply (t_take_session d (Some a1) [(n, a1)] e eh) in Hrun0; [|exact Hk].
    inv_bind Hr. apply (p_sessions_unlock d (Some a1) [(n, a1)] (bump e a1) eh) in Hrun1; [|done]. by injection Hr as <- <-.
  - run eq_refl in Hr. inv_bind Hr. apply (p_sessions_unlock d al ks e eh) in Hrun0 as Hu; [|done]. injection Hr as <- <-.
    split; [done|]. unfold sessions_unlock in Hrun0. run eq_refl in Hrun0. destruct (sessions_mutex s); [|done].
    by injection Hrun0 as _ <-.
Qed.

Lemma unregister s ks e eh w v :
  inv_at None (Some s) ks e eh w -> heap w !! s = Some v ->
  inv_at (Some s) (Some s) ks e eh (w_sessions (delete (session_id v)) w).
Proof.
  intros Hw Hv. destruct (l_alive _ _ _ _ _ _ (i_listed _ _ _ _ _ _ _ _ _ _ _ Hw) s eq_refl) as (v' & Hv' & Hd).
  rewrite Hv in Hv'. injection Hv' as <-. by apply inv_unregister.
Qed.

(** The one out of the table is destroyed. *)
Lemma t_destroy s ks e eh :
  triple (inv_at (Some s) (Some s) ks e eh) (janus_session_destroy s : M (world X R J) _) (fun _ => inv_at None None ks e eh).
Proof.
  intros w b w' Hw Hr. destruct (l_alive _ _ _ _ _ _ (i_listed _ _ _ _ _ _ _ _ _ _ _ Hw) s eq_refl) as (v & Hv & Hd).
  unfold janus_session_destroy in Hr. inv_bind Hr. apply get_session_inv in Hrun as [-> Hv']. rewrite Hv in Hv'. injection Hv' as <-.
  rewrite Hd in Hr. inv_bind Hr. apply update_session_inv in Hrun as (v' & Hv' & ->). rewrite Hv in Hv'. injection Hv' as <-.
  assert (Hs : inv_at None None ks (bump e s) eh (w_heap <[s := s_destroyed (fun _ => true) v]> w)) by by apply inv_destroy with (Some s).
  inv_bind Hr. apply (p_handles_clear None None ks (bump e s) eh) in Hrun; [|done].
  inv_bind Hr. apply (t_drop_session None None ks e eh) in Hrun0; [|done]. by injection Hr as _ <-.
Qed.

(** A number no session has. *)
Lemma t_draw fuel e eh :
  triple (rest e eh) (draw_session_id fuel) (fun n w => rest e eh w /\ sessions w !! n = None).
Proof.
  induction fuel as [|fuel IH]; cbn [draw_session_id]; [by intros w a w' _ [=]|]. intros w a w' Hw Hr.
  run eq_refl in Hr. pose proof (random_quiet (core_of w)) as Hq. destruct (janus_random_uint64 (core_of w)) as [n x].
  inv_bind Hr. injection Hrun as _ <-. inv_bind Hr. apply (t_find None None [] e eh) in Hrun; [|by eapply inv_ext].
  destruct a1 as [s'|].
  - inv_bind Hr. apply (t_drop_session None (Some s') [(n, s')] e eh) in Hrun0; [|done]. eapply IH; [|exact Hr]. by eapply forget.
  - destruct Hrun as [H1' H2']. destruct (n =? 0)%Z; [by eapply IH|]. by injection Hr as <- <-.
Qed.

Lemma t_create fuel e eh n :
  triple (fun w => rest e eh w /\ (n <> 0%Z -> sessions w !! n = None)) (janus_session_create fuel n)
    (fun s w => inv_at None (Some s) [] e eh w).
Proof.
  intros w s w' [Hw Hn] Hr. unfold janus_session_create in Hr. inv_bind Hr.
  assert (Hk : rest e eh s0 /\ sessions s0 !! a = None).
  { destruct (Z.eqb_spec n 0); [by eapply t_draw|]. injection Hrun as <- <-. auto. }
  destruct Hk as [Hw0 Ha]. do 3 run eq_refl in Hr. set (v := JanusSession _ _ _ _ _ _ _ _ _) in Hr.
  pose proof (inv_new_session _ _ _ _ _ _ _ _ _ v Hw0 eq_refl eq_refl eq_refl eq_refl) as H1'.
  inv_bind Hr. unfold sessions_lock in Hrun0. run eq_refl in Hrun0.
  destruct (sessions_mutex _); [done|]. injection Hrun0 as _ <-. run eq_refl in Hr. inv_bind Hr. injection Hr as <- <-.
  apply (p_sessions_unlock None (Some (next s0)) [] e eh) in Hrun0; [done|].
  eapply inv_know; [|apply lookup_insert_eq|done].
  apply (inv_register _ _ _ _ _ _ _ _ _ _ (next s0) v); [|apply lookup_insert_eq|done|done]. exact H1'.
Qed.
End Sessions.

(** ** Requests *)

#[export] Hint Resolve quiet_get_handle quiet_flags_set quiet_flags_clear quiet_flags_is_set quiet_lock quiet_unlock
  quiet_parse_all quiet_wait quiet_kind quiet_support quiet_answer : pres.
#[export] Hint Extern 3 (preserves _ (update_handle _ _)) => apply quiet_update_handle; by split : pres.
#[export] Hint Extern 3 (preserves (quiet_at _ _) (core_call _ _)) => apply quiet_core_call; intros;
  first [apply other_threads_quiet|apply setup_local_quiet|apply sdp_process_quiet|apply trickle_parse_quiet|
         apply remote_candidates_quiet|apply credentials_quiet|apply restart_quiet|apply datachannels_quiet] : pres.

(** Through the program's constructors, down to the hints. *)
Ltac pres_step :=
  lazymatch goal with
  | |- preserves _ (_ ≫= _) => apply preserves_bind; [|intros ?]
  | |- preserves _ (mret _) => apply preserves_ret
  | |- preserves _ (gets _) => apply preserves_gets
  | |- preserves _ (crash _) => apply preserves_crash
  | |- preserves _ (whenM _ _) => apply preserves_when
  | |- preserves _ (match ?x with _ => _ end) => destruct x
  | |- preserves (inv_at _ _ _ _ _) (lift _) => apply p_lift; intros ? ?
  | |- _ => solve [auto 2 with pres nocore]
  end.
Ltac pres := cbv zeta; repeat pres_step.

Section Requests.
Context {X D R J B : Type} `{CountedLaws X D J} `{ServerInfo X} `{Media.JsonRefs R} `{!Media.JsonRefsLaws R} `{!Jansson J}
  `{!JanssonBool J} `{KoreBuf B} `{KoreNet}.
Implicit Types w : world X R J.
Implicit Types e eh : loc -> nat.
Context (request : option loc) (session_no : Z) (transaction : option string).
Context (d al : option loc) (ks : list (Z * loc)) (e eh : loc -> nat).
Abbreviation kept := (inv_at (X := X) (R := R) (J := J) d al ks e eh).

Lemma p_fail er format : preserves kept (fail request session_no transaction er format).
Proof. apply p_error. Qed.
Lemma p_succeed status n members : preserves kept (succeed request transaction status n members).
Proof. apply p_success. Qed.
Lemma p_unhandled message : preserves kept (unhandled request session_no transaction message).
Proof. apply p_fail. Qed.
#[local] Hint Resolve p_fail p_succeed p_unhandled : pres.
Lemma p_validated json ps k : preserves kept k -> preserves kept (validated request session_no transaction json ps k).
Proof. intros Hk. unfold validated. pres. Qed.
Lemma p_update_usi f : preserves kept (update_usi request f).
Proof. unfold update_usi. pres. Qed.
Lemma p_plugin_find package : preserves kept (janus_plugin_find package).
Proof. unfold janus_plugin_find. pres. Qed.
Lemma p_notify_session n what : preserves kept (notify_session n what).
Proof. unfold notify_session. pres. Qed.
#[local] Hint Resolve p_update_usi p_plugin_find p_notify_session : pres.

Lemma p_handle_answer fuel h : preserves kept (janus_request_ice_handle_answer fuel h).
Proof. unfold janus_request_ice_handle_answer. pres. Qed.
Lemma p_jsep_fail_first h er format : preserves kept (jsep_fail_first request session_no transaction h er format).
Proof. unfold jsep_fail_first. pres. Qed.
Lemma p_jsep_fail h er format : preserves kept (jsep_fail request session_no transaction h er format).
Proof. unfold jsep_fail. pres. Qed.
#[local] Hint Resolve p_handle_answer p_jsep_fail_first p_jsep_fail : pres.
Lemma p_new_media fuel h offer jsep_sdp sdp avd do_trickle :
  preserves kept (new_media request session_no transaction fuel h offer jsep_sdp sdp avd do_trickle).
Proof. unfold new_media. pres. Qed.
Lemma p_update_media have_sctp h offer sdp : preserves kept (update_media request session_no transaction have_sctp h offer sdp).
Proof. unfold update_media. pres. Qed.
#[local] Hint Resolve p_new_media p_update_media : pres.
Lemma p_with_jsep_type fuel have_sctp h handle_no jsep jsep_type do_trickle :
  preserves kept (with_jsep_type request session_no transaction fuel have_sctp h handle_no jsep jsep_type do_trickle).
Proof. unfold with_jsep_type. pres. Qed.
#[local] Hint Resolve p_with_jsep_type : pres.
Lemma p_take_jsep fuel have_sctp h handle_no jsep :
  preserves kept (take_jsep request session_no transaction fuel have_sctp h handle_no jsep).
Proof. unfold take_jsep. pres. Qed.
Lemma p_answer_plugin s h plugin result : preserves kept (answer_plugin request session_no transaction s h plugin result).
Proof. unfold answer_plugin. pres. Qed.
#[local] Hint Resolve p_take_jsep p_answer_plugin : pres.

Lemma p_send_plugin s h plugin body j : preserves kept (send_plugin request session_no transaction s h plugin body j).
Proof.
  unfold send_plugin. apply preserves_bind; [pres|intros v]. intros w a w' Hw Hr. run eq_refl in Hr.
  destruct (plugin_alive v (core_of w)) as [ah|].
  - pose proof (handle_message_quiet plugin ah body (body_jsep v <$> j) (core_of w)) as Hq.
    destruct (handle_message _ _ _ _ _) as [result x]. run eq_refl in Hr. eapply p_answer_plugin; [|exact Hr].
    by eapply inv_ext.
  - revert Hr. apply (fun P : preserves kept _ => P w a w' Hw). pres.
Qed.
#[local] Hint Resolve p_send_plugin p_validated : pres.
Lemma p_on_message fuel have_sctp s handle handle_no root message :
  preserves kept (on_message request session_no transaction fuel have_sctp s handle handle_no root message).
Proof. unfold on_message. pres. apply p_validated. pres. Qed.

Lemma p_queue_candidate h c : preserves kept (queue_candidate h c).
Proof. unfold queue_candidate. pres. Qed.
Lemma p_parse_candidates h candidate candidates :
  preserves kept (parse_candidates request session_no transaction h candidate candidates).
Proof. unfold parse_candidates. pres. Qed.
#[local] Hint Resolve p_queue_candidate p_parse_candidates : pres.
Lemma p_take_candidates h candidate candidates :
  preserves kept (take_candidates request session_no transaction h candidate candidates).
Proof. unfold take_candidates, ack_trickle. pres. Qed.
#[local] Hint Resolve p_take_candidates : pres.
Lemma p_on_trickle handle root message : preserves kept (on_trickle request session_no transaction handle root message).
Proof. unfold on_trickle. pres. Qed.

Lemma p_attached h : preserves kept (attached h).
Proof. unfold attached. pres. Qed.
#[local] Hint Resolve p_attached : pres.
Lemma p_on_detach s handle message : preserves kept (on_detach request session_no transaction s handle message).
Proof. unfold on_detach. pres. Qed.
Lemma p_on_hangup handle message : preserves kept (on_hangup request session_no transaction handle message).
Proof. unfold on_hangup. pres. Qed.

(** No session has a request it came from. *)
Lemma p_on_claim s : preserves kept (on_claim request session_no transaction s).
Proof.
  unfold on_claim. apply preserves_bind; [pres|intros _]. intros w a w' Hw Hr. inv_bind Hr.
  apply get_session_inv in Hrun as [-> Hv]. destruct (i_session _ _ _ _ _ _ _ _ _ _ _ Hw _ _ Hv) as (_ & _ & Hsrc).
  rewrite Hsrc in Hr. revert Hw Hr. match goal with |- _ -> ?m w = _ -> _ => assert (Hp : preserves kept m) by pres end.
  intros. by eapply Hp.
Qed.

End Requests.

#[export] Hint Resolve p_fail p_succeed p_unhandled p_update_usi p_plugin_find p_notify_session p_on_message p_on_trickle
  p_on_detach p_on_hangup p_on_claim p_handle_answer : pres.

(** ** Requests that take references *)

Section Attach.
Context {X D R J B : Type} `{CountedLaws X D J} `{ServerInfo X} `{Media.JsonRefs R} `{!Media.JsonRefsLaws R} `{!Jansson J}
  `{!JanssonBool J} `{KoreBuf B} `{KoreNet}.
Implicit Types w : world X R J.
Implicit Types e eh : loc -> nat.
Context (request : option loc) (session_no : Z) (transaction : option string).


Definition with_handle (eh : loc -> nat) (handle : option loc) : loc -> nat :=
  match handle with Some h => bump eh h | None => eh end.

Lemma t_attach_handle d al ks e eh s plugin opaque :
  triple (inv_at d al ks e eh) (attach_handle (D := D) (R := R) request session_no transaction s plugin opaque)
    (fun rh => inv_at d al ks e (with_handle eh rh.2)).
Proof.
  unfold attach_handle. intros w b w' Hw Hr. inv_bind Hr. apply get_session_inv in Hrun as [-> Hv].
  inv_bind Hr. apply (t_ice_create d al ks e eh) in Hrun; [|eauto]. destruct a0 as [h|].
  - apply (run_triple _ _ (fun rh => inv_at d al ks e (with_handle eh rh.2)) _ _ _ Hrun Hr). eapply triple_keep; [pres|intros hv]. cbv zeta.
    eapply triple_keep; [pres|intros _]. eapply triple_bind; [apply t_take_handle|intros []].
    eapply triple_keep; [pres|intros error]. destruct (negb _).
    + eapply triple_keep; [pres|intros _]. eapply triple_keep; [pres|intros ret]. by apply triple_ret.
    + eapply triple_keep; [pres|intros ret]. by apply triple_ret.
  - apply (run_triple _ _ (fun rh => inv_at d al ks e (with_handle eh rh.2)) _ _ _ Hrun Hr). eapply triple_keep; [pres|intros ret]. by apply triple_ret.
Qed.

Lemma t_on_attach d al ks e eh s handle root message :
  triple (inv_at d al ks e (with_handle eh handle)) (on_attach (D := D) (R := R) request session_no transaction s handle root message)
    (fun rh => inv_at d al ks e (with_handle eh rh.2)).
Proof.
  unfold on_attach. destruct handle as [h|]; cbn [with_handle].
  - eapply triple_keep; [pres|intros ret]. by apply triple_ret.
  - destruct (JANUS_VALIDATE_JSON_OBJECT _ _) as [[error cause]|].
    + eapply triple_keep; [pres|intros ret]. by apply triple_ret.
    + eapply triple_keep; [pres|intros [plugin|]].
      * eapply triple_keep; [pres|intros x]. destruct (token_refused _ _ _); [|apply t_attach_handle].
        eapply triple_keep; [pres|intros ret]. by apply triple_ret.
      * eapply triple_keep; [pres|intros ret]. by apply triple_ret.
Qed.

(** *** Destroy: the session goes out of the table and is destroyed *)

Lemma t_on_destroy n s e eh message :
  triple (inv_at None (Some s) [(n, s)] e eh) (on_destroy (D := D) (R := R) request session_no transaction s None message)
    (fun _ => inv_at None None [] e eh).
Proof.
  unfold on_destroy. eapply triple_keep; [pres|intros _]. apply t_get_session. intros v w ret w' [Hw Hv] Hr.
  run eq_refl in Hr. pose proof (unregister _ _ _ _ _ _ Hw Hv) as Hu.
  apply (run_triple (inv_at (Some s) (Some s) [(n, s)] e eh) _ (fun _ => inv_at None None [] e eh) _ _ _ Hu Hr).
  do 2 (eapply triple_keep; [pres|intros _]). eapply triple_bind; [apply t_destroy|intros rc].
  do 2 (eapply triple_keep; [pres|intros ?]). apply triple_ret. intros ?. apply forget.
Qed.

Lemma t_jsondone d al ks e eh session handle ret :
  triple (inv_at d al ks (match session with Some s => bump e s | None => e end) (with_handle eh handle))
    (jsondone (X := X) (R := R) (J := J) session handle ret) (fun _ => inv_at d al ks e eh).
Proof.
  unfold jsondone. destruct handle as [h|], session as [s|]; cbn [with_handle].
  - eapply triple_bind; [apply t_drop_handle|intros []]. eapply triple_bind; [apply t_drop_session|intros []]. by apply triple_ret.
  - eapply triple_bind; [apply t_drop_handle|intros []]. eapply triple_keep; [pres|intros _]. by apply triple_ret.
  - eapply triple_keep; [pres|intros _]. eapply triple_bind; [apply t_drop_session|intros []]. by apply triple_ret.
  - do 2 (eapply triple_keep; [pres|intros _]). by apply triple_ret.
Qed.

(** A request that keeps its own references, and gives them back at its end. *)
Lemma t_done s n e eh handle (m : M (world X R J) Z) :
  preserves (inv_at None (Some s) [(n, s)] (bump e s) (with_handle eh handle)) m ->
  triple (inv_at None (Some s) [(n, s)] (bump e s) (with_handle eh handle)) (m ≫= jsondone (Some s) handle)
    (fun _ => inv_at None None [] e eh).
Proof.
  intros Hm. eapply triple_keep; [exact Hm|intros ret].
  eapply triple_mono; [apply (t_jsondone None (Some s) [(n, s)] e eh (Some s) handle)|]. intros ? ?. apply forget.
Qed.

Lemma t_dispatch fuel have_sctp s n e eh handle handle_no root message :
  triple (inv_at None (Some s) [(n, s)] (bump e s) (with_handle eh handle))
    (dispatch (D := D) (R := R) request session_no transaction fuel have_sctp s handle handle_no root message)
    (fun _ => inv_at None None [] e eh).
Proof.
  unfold dispatch. cbv zeta. destruct (strcasecmp_eq message "keepalive"); [apply t_done; pres|].
  destruct (strcasecmp_eq message "attach").
  { eapply triple_bind; [apply t_on_attach|intros rh].
    eapply triple_mono; [apply (t_jsondone None (Some s) [(n, s)] e eh (Some s) rh.2)|]. intros ? ?. apply forget. }
  destruct (strcasecmp_eq message "destroy").
  { destruct handle as [h|]; [apply t_done; unfold on_destroy; pres|]. eapply triple_bind; [apply t_on_destroy|intros ret].
    apply (t_jsondone None None [] e eh (Some s) None). }
  repeat (case_match; [apply t_done; pres|]). apply t_done. pres.
Qed.

(** Nothing was found yet. *)
Lemma p_nothing d al ks e eh (m : M (world X R J) Z) :
  preserves (inv_at d al ks e eh) m -> preserves (inv_at d al ks e eh) (m ≫= jsondone None None).
Proof. intros Hm. apply preserves_bind; [done|intros ret]. apply (t_jsondone d al ks e eh None None). Qed.

(** The handle of a request, if it names one, is held. *)
Lemma t_lookup d al ks e eh s handle_no :
  triple (inv_at d al ks e eh)
    ((if (0 <? handle_no)%Z then janus_session_handles_find (Some s) handle_no else mret None) : M (world X R J) _)
    (fun handle => inv_at d al ks e (with_handle eh handle)).
Proof.
  destruct (0 <? handle_no)%Z; [|by apply triple_ret]. eapply triple_mono; [apply t_handles_find|]. by intros [h|].
Qed.

Lemma p_session_request fuel have_sctp e eh handle_no root message :
  preserves (inv_at None None [] e eh)
    (session_request (D := D) (R := R) fuel have_sctp request session_no handle_no transaction root message).
Proof.
  unfold session_request. apply preserves_bind; [pres|intros rc]. destruct (negb _); [apply p_nothing; pres|].
  eapply triple_bind; [apply t_find|intros [s|]].
  - eapply triple_keep; [pres|intros x]. eapply triple_keep; [pres|intros _].
    eapply triple_bind; [apply t_lookup|]. intros handle. destruct (_ && _) eqn:Hnone; [|apply t_dispatch].
    apply andb_true_iff in Hnone as [_ ->%bool_decide_eq_true]. apply t_done. pres.
  - intros w a w' [Hw _] Hr. revert Hw Hr. apply p_nothing. pres.
Qed.

(** *** Create: the session is the table's, and the request's until its end *)

Lemma t_create_session fuel e eh n :
  triple (fun w => inv_at None None [] e eh w /\ (n <> 0%Z -> sessions w !! n = None))
    (create_session (D := D) (R := R) request transaction fuel n) (fun rs => inv_at None (Some rs.2) [] (bump e rs.2) eh).
Proof.
  unfold create_session. eapply triple_bind; [apply t_create|intros s]. eapply triple_keep; [pres|intros v]. cbv zeta.
  eapply triple_bind; [apply t_take_session|intros []]. do 3 (eapply triple_keep; [pres|intros ?]). by apply triple_ret.
Qed.

Lemma p_on_create fuel e eh root :
  preserves (inv_at None None [] e eh) (on_create (D := D) (R := R) fuel request transaction root).
Proof.
  unfold on_create. apply preserves_bind; [pres|intros g]. destruct (negb _); [apply p_nothing; pres|].
  apply preserves_bind; [pres|intros rc]. destruct (negb _); [apply p_nothing; pres|]. cbv zeta.
  set (n := match json_object_get root "id" with Some id => _ | None => _ end).
  eapply (triple_bind _ (fun o => match o with
    | Some s => inv_at None (Some s) [(n, s)] (bump e s) eh
    | None => fun w => inv_at None None [] e eh w /\ (n <> 0%Z -> sessions w !! n = None) end)).
  { destruct (Z.ltb_spec 0 n); [|apply triple_ret].
    - eapply triple_mono; [apply t_find|]. intros [s|] w; [done|]. naive_solver.
    - intros w Hw. split; [done|]. intros Hn. exfalso. apply Hn. unfold n in *. destruct (json_object_get root "id"); [|done].
      pose proof (wrap_range 64 (json_int j)). unfold u64 in *. lia. }
  intros [s|]; [apply t_done with (handle := None); pres|].
  eapply triple_bind; [apply t_create_session|intros [ret s]]. eapply triple_mono; [apply (t_jsondone _ _ _ _ _ (Some s) None)|].
  intros ? ?. apply forget.
Qed.
End Attach.

Section Whole.
Context {X D R J B : Type} `{CountedLaws X D J} `{ServerInfo X} `{Media.JsonRefs R} `{!Media.JsonRefsLaws R} `{!Jansson J}
  `{!JanssonBool J} `{KoreBuf B} `{KoreNet}.
Implicit Types w : world X R J.
Implicit Types e eh : loc -> nat.

Lemma p_incoming fuel have_sctp e eh request root :
  preserves (inv_at None None [] e eh) (janus_process_incoming_request (D := D) (R := R) fuel have_sctp request root).
Proof.
  unfold janus_process_incoming_request. cbv zeta.
  destruct (JANUS_VALIDATE_JSON_OBJECT _ _) as [[error cause]|]; [apply p_nothing; pres|].
  apply preserves_bind; [apply preserves_deref|intros message]. destruct (_ && _).
  - destruct (strcasecmp_eq message "info").
    { do 4 (apply preserves_bind; [pres|intros ?]). apply p_nothing. pres. }
    destruct (strcasecmp_eq message "ping"); [apply p_nothing; unfold on_ping; pres|].
    destruct (negb _); [apply p_nothing; pres|apply p_on_create].
  - destruct (_ <? 1)%Z; [apply p_nothing; pres|]. destruct (_ && _); [apply p_nothing; pres|apply p_session_request].
Qed.
End Whole.
End Kept.
