(* ===== verification/JanusModel.v ===== *)
(** * A small Janus, for the witnesses

    Its state [mj] is the time, the last number drawn, and who ICE holds; it makes handles at
    the first free address with the first free number, attaches plug-ins, and gives its own
    reference of a handle back when the handle is destroyed.  JSON is the trees of [Jansson],
    some texts of which can be read. *)

From S2P Require Import Prelude Jansson KoreNet MediaRooms Janus HandleSdp JanusServer JanusRequests JanusSummary JanusAdmin.
From S2P Require Import JanusCounted.

Local Open Scope c_scope.

Module Model.
Import Janus Srv Req Sum Adm Cnt.

Record mj : Type := Mj { mj_now : Z; mj_drawn : Z; mj_held : gmap loc nat }.
Definition mj_holds (x : mj) (h : loc) : nat := default 0 (mj_held x !! h).
Definition mj_take (h : loc) (x : mj) : mj := Mj (mj_now x) (mj_drawn x) (<[h := S (mj_holds x h)]> (mj_held x)).
Definition mj_drop (h : loc) (x : mj) : mj := Mj (mj_now x) (mj_drawn x) (<[h := pred (mj_holds x h)]> (mj_held x)).

Definition msg (members : list (string * json)) : json := JObject (("transaction", JString "t") :: members).
Definition m_messages : list (string * json) :=
  [("create", msg [("janus", JString "create")]);
   ("attach", msg [("janus", JString "attach"); ("session_id", JInteger 1); ("plugin", JString "echo")]);
   ("detach", msg [("janus", JString "detach"); ("session_id", JInteger 1); ("handle_id", JInteger 1)]);
   ("destroy", msg [("janus", JString "destroy"); ("session_id", JInteger 1)]);
   ("keepalive", msg [("janus", JString "keepalive"); ("session_id", JInteger 1)]);
   ("status", msg [("janus", JString "get_status")]);
   ("status, with the secret", msg [("janus", JString "get_status"); ("admin_secret", JString "s")]);
   ("unknown", msg [("janus", JString "unknown")]);
   ("admin", JObject [("adtype", JInteger 1)])].

#[export] Instance m_json : Jansson json := {|
  json_object_get := json_object_get (Jansson := janssonTree);
  json_integer_value := json_integer_value (Jansson := janssonTree);
  json_string_value := json_string_value (Jansson := janssonTree);
  json_is_object := json_is_object (Jansson := janssonTree);
  json_is_true := json_is_true (Jansson := janssonTree);
  json_array_items := json_array_items (Jansson := janssonTree);
  json_object := JObject;
  json_integer := JInteger; json_string := JString; json_true := JTrue;
  json_dumps := json_dumps (Jansson := janssonTree);
  json_loads := fun s => assoc s m_messages
|}.

(** A member that must be there is. *)
Definition m_valid (j : json) (p : janus_json_parameter) : bool :=
  negb (p_required p) || bool_decide (is_Some (json_object_get j (p_name p))).

Definition m_keep {A : Type} (a : A) (v : ice_handle json) (x : mj) : A * (ice_handle json * mj) := (a, (v, x)).

#[export] Instance m_janus : JanusCore mj string json := {|
  janus_plugin_session_is_alive := fun _ _ => true;
  janus_get_monotonic_time := mj_now;
  other_threads := fun v x => (v, x);
  janus_sdp_preparse := fun s _ => match s with Some s => inr (s, (1, 1, 0)%Z) | None => inl "no SDP" end;
  janus_ice_setup_local := fun _ _ _ => m_keep 0%Z;
  janus_sdp_process := fun _ _ => m_keep 0%Z;
  janus_ice_trickle_new := fun _ c x => Some (IceTrickle (mj_now x) c);
  janus_ice_trickle_parse := fun c => m_keep 0%Z;
  janus_ice_setup_remote_candidates := m_keep tt;
  janus_rtp_header_extension_get_id := fun _ => 5%Z;
  nice_agent_set_remote_credentials := m_keep tt;
  janus_ice_restart := m_keep tt;
  janus_ice_is_full_trickle_enabled := fun _ => false;
  create_datachannels := m_keep tt;
  janus_sdp_anonymize := fun s => (0%Z, s);
  janus_sdp_write := fun s => s;
  get_package := fun _ => "janus.plugin.echotest";
  handle_message := fun _ _ _ _ x => (None, x)
|}.

Definition m_new_handle (s : loc) (n : Z) : ice_handle json :=
  IceHandle n (Some s) None None ∅ false false None 0 0 [] None None.
Definition m_create (s : loc) (t : option (gmap Z loc)) (o : option string) : ice_fun mj json (option loc) := fun hs x =>
  let h : loc := fresh (dom hs ∪ dom (mj_held x)) in
  let n : Z := fresh ({[0%Z]} ∪ dom (default ∅ t)) in
  (Some h, (<[h := m_new_handle s n]> hs, mj_take h x, [InitHandle h o; TakeSession s; InsertHandle s h])).
Definition m_attach (s h p : loc) : ice_fun mj json Z := fun hs x =>
  (0%Z, (alter (fun v => h_app (fun _ => Some p) (h_app_handle (fun _ => Some 5000) v)) h hs, x, [])).
Definition m_destroy (s h : loc) : ice_fun mj json Z := fun hs x =>
  (0%Z, if decide (mj_holds x h = 0) then (hs, x, []) else (hs, mj_drop h x, [DropHandle h])).

#[export] Instance m_server : ServerCore mj string json := {|
  janus_random_uint64 := fun x => ((mj_drawn x + 1)%Z, Mj (mj_now x) (mj_drawn x + 1)%Z (mj_held x));
  g_hash_table_iter := map_to_list;
  g_hash_table_names := map_to_list;
  JANUS_VALIDATE_JSON_OBJECT := fun j ps => if forallb (m_valid j) ps then None else Some (456%Z, "missing");
  error_code := fun _ => 490%Z;
  janus_get_api_error := fun _ => "error";
  janus_strcmp_const_time := String.eqb;
  janus_auth_is_enabled := fun _ => false;
  janus_auth_check_token := fun _ _ => false;
  janus_auth_check_plugin := fun _ _ _ => true;
  janus_events_is_enabled := fun _ => false;
  janus_ice_handle_create := m_create;
  janus_ice_handle_attach_plugin := m_attach;
  janus_ice_handle_destroy := m_destroy;
  janus_ice_webrtc_hangup := fun _ hs x => (tt, (hs, x, []));
  janus_ice_resend_trickles := fun _ hs x => (tt, (hs, x, []));
  janus_ice_free := fun v x => (session v, x);
  transport_session_free := fun _ x => x;
  trickle_error := fun _ => "trickle";
  janus_handle_sdp_preparse := fun _ s _ => inr (s, (1, 1, 0)%Z);
  plugin_stopped := fun _ _ => false;
  gateway_handle := fun ps x => if decide (ps = 5000) then head (elements (dom (mj_held x))) else None;
  plugin_session_increase := fun _ x => x;
  plugin_session_decrease := fun _ x => x
|}.

#[export] Instance m_info : ServerInfo mj := {|
  core_info_of := fun _ => CoreInfo "Janus" 73 "0.7.3" "a" "b" "c" true None true "s" "127.0.0.1" None false false false false true None None 0 false;
  module_info_of := fun _ => ModuleInfo "janus.plugin.echotest" "n" "a" "d" "1" 1
|}.

#[export] Instance m_admin : AdminCore mj json := {|
  LOG_NONE := 0%Z; LOG_MAX := 7%Z;
  janus_auth_is_stored_mode := fun _ => false;
  janus_auth_list_plugins := fun _ _ => [];
  janus_auth_list_tokens := fun _ => [];
  janus_auth_add_token := fun _ x => (true, x);
  janus_auth_remove_token := fun _ x => (true, x);
  janus_auth_allow_plugin := fun _ _ x => (true, x);
  janus_auth_disallow_plugin := fun _ _ x => (true, x);
  janus_ice_is_ice_debugging_enabled := fun _ => false;
  janus_ice_debugging_set := fun _ x => x;
  janus_get_max_nack_queue := fun _ => 300%Z;
  janus_set_max_nack_queue := fun _ x => x;
  janus_get_no_media_timer := fun _ => 1%Z;
  janus_set_no_media_timer := fun _ x => x;
  handle_request := fun _ => None;
  janus_text2pcap_create := fun _ _ _ _ x => (None, x);
  janus_text2pcap_close := fun _ x => x
|}.

Definition m_stream : stream_info := StreamInfo 0 0 0 0 0 (0, 0, 0)%Z (None, None, None) false false false false 0 0 0 None None None None [].
#[export] Instance m_summary : SummaryCore mj json := {|
  handle_info_of := fun _ _ => HandleInfo true 0 0 true None None;
  stream_info_of := fun _ _ => m_stream;
  dump_info_of := fun _ _ => (false, "f");
  transport_package := fun _ => "t";
  query_session := fun _ => None
|}.

#[export] Instance m_sdp : Sdp.SdpCore mj string json := {|
  Sdp.plugin_session_at := fun _ _ => None;
  Sdp.janus_is_rfc4588_enabled := fun _ => true;
  Sdp.video_ptypes := fun _ => [];
  Sdp.janus_sdp_merge := fun s _ => m_keep (Some s)
|}.

(** ** It is as relied on *)

Lemma m_take_holds h x a : mj_holds (mj_take h x) a = bump (mj_holds x) h a.
Proof.
  unfold mj_holds at 1, mj_take. cbn [mj_held]. destruct (decide (a = h)) as [->|].
  - by rewrite lookup_insert_eq, bump_eq.
  - by rewrite lookup_insert_ne, bump_ne.
Qed.
Lemma m_drop_holds h x a : mj_holds x h <> 0 -> mj_holds x a = bump (mj_holds (mj_drop h x)) h a.
Proof.
  intros Hh. destruct (decide (a = h)) as [->|].
  - rewrite bump_eq. unfold mj_holds at 2, mj_drop. cbn [mj_held]. rewrite lookup_insert_eq. cbn. lia.
  - rewrite bump_ne by done. unfold mj_holds at 2, mj_drop. cbn [mj_held]. by rewrite lookup_insert_ne.
Qed.

#[export, refine] Instance m_counted : CountedLaws mj string json := {| held := mj_holds |}.
Proof.
  all: try done; try by split.
  - intros s t o hs x. unfold creates. cbn. set (h := fresh _ : loc). set (n := fresh _ : Z).
    assert (Hh : h ∉ dom hs ∪ dom (mj_held x)) by apply is_fresh. apply not_elem_of_union in Hh as [Hh Hx].
    exists (m_new_handle s n). split_and!; try done.
    + by apply not_elem_of_dom.
    + cbn. assert (Hn : n ∉ {[0%Z]} ∪ dom (default ∅ t)) by apply is_fresh. apply not_elem_of_union in Hn as [_ Hn].
      destruct t as [t|]; [|done]. cbn. by apply not_elem_of_dom.
    + unfold mj_holds. apply not_elem_of_dom in Hx. by rewrite Hx.
    + intros a. apply m_take_holds.
  - intros s h p hs x. unfold moves. cbn. split; [|by left]. unfold handle_ids. apply map_eq. intros h'.
    rewrite !lookup_fmap. destruct (decide (h = h')) as [<-|]; [rewrite lookup_alter_eq|by rewrite lookup_alter_ne].
    by destruct (hs !! h).
  - intros s h hs x. unfold moves, m_destroy. cbn. destruct (decide (mj_holds x h = 0)) as [Hz|Hz].
    + split; [done|]. by left.
    + split; [done|]. right. right. split; [done|]. intros a. by apply m_drop_holds.
  - intros h hs x. unfold moves. cbn. split; [done|]. by left.
  - intros h hs x. unfold moves. cbn. split; [done|]. by left.
Defined.

(** ** A server that has just started *)

Definition m_conf (admin_secret : option string) : globals := Globals None admin_secret 60 0 45 true 4 false false false false.
Definition m_world (admin_secret : option string) (now : Z) : world mj (gmap loc (nat * list loc)) json :=
  World (JWorld ∅ (Mj now 0 ∅) 0 []) ∅ ∅ ∅ false (m_conf admin_secret) {["echo" := 40]} ∅ ∅ ∅ [] ∅ ∅ [(3, true)] 0 0 ∅ 100 [].

Abbreviation m_state := (world mj (gmap loc (nat * list loc)) json).
#[local] Existing Instance Media.refs_json.

(** What it is after the runs of some of the handlers; the first state, if one crashes. *)
Definition after {A : Type} (f : M m_state A) (w : m_state) : m_state := default w (result_state (f w)).
Definition say (c : loc) (text : string) : M m_state unit := websocket_message (D := string) 10 false c 1 text.

(** The connection 3 opens, creates a session, attaches the echo test and is closed. *)
Definition m_connected : m_state := after (websocket_connect 3) (m_world None 0).
Definition m_created : m_state := after (say 3 "create") m_connected.
Definition m_attached : m_state := after (say 3 "attach") m_created.
Definition m_gone : m_state := after (websocket_disconnect 3) m_attached.
End Model.
