(* ===== verification/JanusLife.v ===== *)
(** * The gateway's server over time

    The steps a server makes: what its websockets do, what the administrator asks, what the
    plug-ins call, the watchdog and the threads of ICE.  Each keeps every reference accounted
    for; who leaves without giving a reference back is said by [disconnect_lost] and
    [timer_lost]. *)

From S2P Require Import Prelude Jansson KoreNet MediaRooms Janus HandleSdp JanusServer JanusRequests JanusSummary JanusAdmin.
From S2P Require Import JanusPlugins JanusCounted JanusKept JanusModel.

Local Open Scope c_scope.

Module Life.
Import Janus Srv Req Sum Adm Cnt Kept.

(** ** The administrator's requests *)

(** Tokens, settings, event handlers, dumps and queries take no references of handles. *)
Class AdminLaws (X D J : Type) `{CountedLaws X D J} `{AdminCore X J} `{SummaryCore X J} := {
  add_token_quiet : forall t x, quiet held x (janus_auth_add_token t x).2;
  remove_token_quiet : forall t x, quiet held x (janus_auth_remove_token t x).2;
  allow_plugin_quiet : forall t p x, quiet held x (janus_auth_allow_plugin t p x).2;
  disallow_plugin_quiet : forall t p x, quiet held x (janus_auth_disallow_plugin t p x).2;
  debugging_quiet : forall b x, quiet held x (janus_ice_debugging_set b x);
  nack_queue_quiet : forall n x, quiet held x (janus_set_max_nack_queue n x);
  media_timer_quiet : forall n x, quiet held x (janus_set_no_media_timer n x);
  query_handler_quiet : forall evh f q x, handle_request evh = Some f -> quiet held x (f q x).2;
  dump_create_quiet : forall d f t b x, quiet held x (janus_text2pcap_create d f t b x).2;
  dump_close_quiet : forall l x, quiet held x (janus_text2pcap_close l x);
  query_session_quiet : forall p f ah x, query_session p = Some f -> quiet held x (f ah x).2
}.

Section Admin.
Context {X D R J B : Type} `{AdminLaws X D J} `{ServerInfo X} `{Media.JsonRefs R} `{!Media.JsonRefsLaws R} `{!Jansson J}
  `{!JanssonBool J} `{!JanssonArray J} `{KoreBuf B} `{KoreNet}.
Implicit Types w : world X R J.
Implicit Types e eh : loc -> nat.

(** [set_core], by a quiet function. *)
Lemma p_set_core d al ks e eh (f : X -> X) :
  (forall x, quiet held x (f x)) ->
  preserves (inv_at (R := R) (J := J) d al ks e eh) (x ← gets core_of; set_core (f x)).
Proof. intros Hf w a w' Hw Hr. run eq_refl in Hr. injection Hr as _ <-. eapply inv_ext; [exact Hw|done|done|]. intros h. apply Hf. Qed.

Lemma p_set_core_bind d al ks e eh (f : X -> X) {A : Type} (k : M (world X R J) A) :
  (forall x, quiet held x (f x)) -> preserves (inv_at d al ks e eh) k ->
  preserves (inv_at d al ks e eh) (x ← gets core_of; set_core (f x);; k).
Proof.
  intros Hf Hk w a w' Hw Hr. run eq_refl in Hr. run eq_refl in Hr. eapply Hk; [|exact Hr].
  eapply inv_ext; [exact Hw|done|done|]. intros h. apply Hf.
Qed.

Context (request : option loc) (session_no : Z) (transaction : option string).
Context (d al : option loc) (ks : list (Z * loc)) (e eh : loc -> nat).
Abbreviation kept := (inv_at (X := X) (R := R) (J := J) d al ks e eh).

Lemma p_limit_token token_value allow add allowed :
  preserves kept (limit_token request session_no transaction token_value allow add allowed).
Proof.
  unfold limit_token. apply preserves_bind; [pres|intros ps]. destruct (_ && _); [pres|].
  apply preserves_bind; [|intros _; pres]. destruct allowed as [|p allowed]; apply p_foreach.
  - intros np. unfold allow_plugin. apply p_set_core. intros. apply allow_plugin_quiet.
  - intros p'. unfold limit_plugin. apply preserves_bind; [pres|intros pl]. apply p_set_core. intros x.
    destruct allow; [apply allow_plugin_quiet|apply disallow_plugin_quiet].
Qed.
#[local] Hint Resolve p_limit_token : pres.

Lemma p_allow_token allow add root : preserves kept (janus_request_allow_token request session_no transaction allow add root).
Proof.
  unfold janus_request_allow_token. intros w a w' Hw Hr. run eq_refl in Hr.
  destruct (negb (janus_auth_is_stored_mode _)); [revert Hw Hr; apply p_fail|]. revert Hr. unfold validated.
  destruct (JANUS_VALIDATE_JSON_OBJECT _ _) as [[error cause]|]; intros Hr; [revert Hw Hr; apply p_error_string|]. cbv zeta in Hr.
  destruct (negb add && _); [revert Hw Hr; apply p_error_string|]. inv_bind Hr. destruct (member_string root "token") as [token|]; [|done].
  injection Hrun as <- <-. destruct add.
  - pose proof (add_token_quiet token (core_of w)) as Hq. destruct (janus_auth_add_token _ _) as [ok x]. run eq_refl in Hr.
    assert (Hw1 : kept (w_jw (w_core (fun _ => x)) w)) by by eapply inv_ext.
    destruct (negb ok); [revert Hw1 Hr; apply p_fail|revert Hw1 Hr; apply p_limit_token].
  - destruct (negb _); [revert Hw Hr; apply p_fail|revert Hw Hr; apply p_limit_token].
Qed.

Lemma p_list_tokens : preserves kept (list_tokens request session_no transaction).
Proof. unfold list_tokens. pres. Qed.

Lemma p_remove_token root : preserves kept (remove_token request session_no transaction root).
Proof.
  unfold remove_token. intros w a w' Hw Hr. run eq_refl in Hr.
  destruct (negb (janus_auth_is_stored_mode _)); [revert Hw Hr; apply p_fail|]. revert Hr. unfold validated.
  destruct (JANUS_VALIDATE_JSON_OBJECT _ _) as [[error cause]|]; intros Hr; [revert Hw Hr; apply p_error_string|].
  inv_bind Hr. destruct (member_string root "token") as [token|]; [|done]. injection Hrun as <- <-.
  pose proof (remove_token_quiet token (core_of w)) as Hq. destruct (janus_auth_remove_token _ _) as [ok x]. run eq_refl in Hr.
  assert (Hw1 : kept (w_jw (w_core (fun _ => x)) w)) by by eapply inv_ext.
  destruct (negb ok); [revert Hw1 Hr; apply p_fail|revert Hw1 Hr; apply p_succeed].
Qed.

Lemma p_query_eventhandler root : preserves kept (query_eventhandler request session_no transaction root).
Proof.
  unfold query_eventhandler. apply p_validated. apply preserves_bind; [apply preserves_deref|intros handler].
  apply preserves_bind; [pres|intros es]. destruct (es !! handler) as [evh|]; [|pres].
  destruct (handle_request evh) as [f|] eqn:Hf; [|pres]. intros w a w' Hw Hr. run eq_refl in Hr.
  pose proof (query_handler_quiet evh f (json_object_get root "request") (core_of w) Hf) as Hq.
  destruct (f _ _) as [response x]. run eq_refl in Hr. eapply p_succeed; [|exact Hr]. by eapply inv_ext.
Qed.

(** A setting of the core's, one of Janus's, and their answers. *)
Lemma p_set_conf f : preserves kept (set_conf f).
Proof. unfold set_conf. pres. Qed.
#[local] Hint Resolve p_set_conf : pres.
Lemma p_setting key v : preserves kept (setting request transaction key v).
Proof. apply p_succeed. Qed.
#[local] Hint Resolve p_setting : pres.
Lemma p_conf_setting root ps f key v :
  preserves kept (validated request session_no transaction root ps (set_conf f;; setting request transaction key v)).
Proof. apply p_validated. pres. Qed.

Lemma p_set_session_timeout root : preserves kept (set_session_timeout request session_no transaction root).
Proof. unfold set_session_timeout. apply p_validated. pres. Qed.
Lemma p_set_log_level root : preserves kept (set_log_level request session_no transaction root).
Proof. unfold set_log_level. apply p_validated. pres. Qed.
Lemma p_set_libnice_debug root : preserves kept (set_libnice_debug request session_no transaction root).
Proof. unfold set_libnice_debug. apply p_validated, p_set_core_bind; [intros; apply debugging_quiet|pres]. Qed.
Lemma p_set_max_nack_queue root : preserves kept (set_max_nack_queue request session_no transaction root).
Proof.
  unfold set_max_nack_queue. apply p_validated. cbv zeta. destruct (_ || _); [pres|].
  apply p_set_core_bind; [intros; apply nack_queue_quiet|pres].
Qed.
Lemma p_set_no_media_timer root : preserves kept (set_no_media_timer request session_no transaction root).
Proof. unfold set_no_media_timer. apply p_validated, p_set_core_bind; [intros; apply media_timer_quiet|pres]. Qed.

Lemma p_session_numbers l : preserves kept (session_numbers l).
Proof. induction l as [|ks' l IH]; cbn [session_numbers]; unfold session_number; pres. Qed.
#[local] Hint Resolve p_session_numbers : pres.
Lemma p_list_sessions : preserves kept (list_sessions (D := D) request transaction).
Proof. unfold list_sessions. pres. Qed.
Lemma p_handle_numbers l : preserves kept (handle_numbers l).
Proof. induction l as [|kh l IH]; cbn [handle_numbers]; unfold handle_number; pres. Qed.
#[local] Hint Resolve p_handle_numbers : pres.
Lemma p_list_handles s : preserves kept (janus_session_handles_list_json (D := D) s).
Proof. unfold janus_session_handles_list_json. pres. Qed.

Lemma p_server_dispatch root message : preserves kept (server_dispatch (D := D) request session_no transaction root message).
Proof.
  unfold server_dispatch. cbv zeta.
  repeat (case_match; [first [apply p_allow_token|apply p_list_tokens|apply p_remove_token|apply p_query_eventhandler|
    apply p_set_session_timeout|apply p_set_log_level|apply p_set_libnice_debug|apply p_set_max_nack_queue|
    apply p_set_no_media_timer|apply p_list_sessions|apply p_conf_setting|apply p_validated; pres|unfold get_status; pres]|]). pres.
Qed.

(** *** Dumps and a handle's summary *)

Lemma p_update_ext h f : (forall x, h_ref (f x) = h_ref x) -> preserves kept (update_ext h f).
Proof. intros Hf w [] w' Hw (x & Hx & ->)%update_ext_inv. by eapply inv_ext_field. Qed.
#[local] Hint Extern 3 (preserves _ (update_ext _ _)) => by apply p_update_ext : pres.
Lemma p_get_ext h : preserves kept (get_ext h).
Proof. unfold get_ext. pres. Qed.
#[local] Hint Resolve p_get_ext : pres.

Lemma p_start_dump h root message : preserves kept (start_dump request session_no transaction h root message).
Proof.
  unfold start_dump. apply p_validated. cbv zeta. apply preserves_bind; [pres|intros ext]. destruct (bool_decide _); [pres|].
  apply p_core; [intros; apply dump_create_quiet|intros dump; pres].
Qed.
Lemma p_stop_dump h : preserves kept (stop_dump request session_no transaction h).
Proof.
  unfold stop_dump. apply preserves_bind; [pres|intros ext]. destruct (text2pcap ext) as [dump|]; [|pres].
  apply preserves_bind; [|intros _; pres]. destruct (dump_packets ext); [|pres]. apply preserves_bind; [pres|intros _].
  apply p_set_core_bind; [intros; apply dump_close_quiet|pres].
Qed.

Lemma p_plugin_members v : preserves kept (plugin_members v).
Proof.
  unfold plugin_members. apply preserves_gets_bind. intros w Hw l w' Hr.
  destruct (app v) as [plugin|], (app_handle v) as [ah|]; try by injection Hr as _ <-.
  destruct (janus_plugin_session_is_alive ah _); [|by injection Hr as _ <-].
  destruct (query_session plugin) as [f|] eqn:Hf.
  - pose proof (query_session_quiet plugin f ah (core_of w) Hf) as Hq. destruct (f ah (core_of w)) as [q x]. inv_bind Hr.
    injection Hrun as _ <-. injection Hr as _ <-. by eapply inv_ext.
  - run eq_refl in Hr. by injection Hr as _ <-.
Qed.
#[local] Hint Resolve p_plugin_members : pres.
Lemma p_transport_member v : preserves kept (transport_member v).
Proof. unfold transport_member. pres. Qed.
#[local] Hint Resolve p_transport_member : pres.
Lemma p_handle_members handle_no s h : preserves kept (handle_members session_no handle_no s h).
Proof. unfold handle_members. pres. Qed.
#[local] Hint Resolve p_handle_members : pres.
Lemma p_on_handle_info handle_no s h : preserves kept (on_handle_info request session_no handle_no transaction s h).
Proof. unfold on_handle_info. pres. Qed.
End Admin.

#[export] Hint Resolve p_list_handles : pres.

Section AdminWhole.
Context {X D R J B : Type} `{AdminLaws X D J} `{ServerInfo X} `{Media.JsonRefs R} `{!Media.JsonRefsLaws R} `{!Jansson J}
  `{!JanssonBool J} `{!JanssonArray J} `{KoreBuf B} `{KoreNet}.
Implicit Types w : world X R J.
Implicit Types e eh : loc -> nat.
Context (request : option loc) (session_no : Z) (transaction : option string).

Lemma t_handle_dispatch e eh handle_no s handle root message :
  triple (inv_at None (Some s) [(session_no, s)] (bump e s) (with_handle eh handle))
    (handle_dispatch (D := D) (R := R) request session_no handle_no transaction s handle root message)
    (fun _ => inv_at None None [] e eh).
Proof.
  unfold handle_dispatch. destruct handle as [h|].
  - repeat (case_match; [apply t_done; first [apply p_start_dump|apply p_stop_dump|pres]|]). apply t_done. apply p_on_handle_info.
  - destruct (negb _); [apply t_done with (handle := None); pres|]. eapply triple_keep; [pres|intros list].
    apply t_done with (handle := None). pres.
Qed.

Lemma p_admin_session e eh handle_no root message :
  preserves (inv_at None None [] e eh)
    (admin_session_request (D := D) (R := R) request session_no handle_no transaction root message).
Proof.
  unfold admin_session_request. apply preserves_bind; [pres|intros g]. destruct (negb _); [apply p_nothing; pres|].
  eapply triple_bind; [apply t_find|intros [s|]].
  - eapply triple_bind; [apply t_lookup|]. intros handle. destruct (_ && _) eqn:Hnone; [|apply t_handle_dispatch].
    apply andb_true_iff in Hnone as [_ ->%bool_decide_eq_true]. apply t_done. pres.
  - intros w a w' [Hw _] Hr. revert Hw Hr. apply p_nothing. pres.
Qed.
End AdminWhole.

Lemma p_admin {X D R J B : Type} `{AdminLaws X D J} `{ServerInfo X} `{Media.JsonRefs R} `{!Media.JsonRefsLaws R} `{!Jansson J}
  `{!JanssonBool J} `{!JanssonArray J} `{KoreBuf B} `{KoreNet} e eh request root :
  preserves (inv_at None None [] e eh) (janus_process_incoming_admin_request (D := D) (R := R) request root).
Proof.
  unfold janus_process_incoming_admin_request. destruct (bool_decide _); [pres|]. cbv zeta.
  destruct (JANUS_VALIDATE_JSON_OBJECT _ _) as [[error cause]|]; [apply p_nothing; pres|].
  apply preserves_bind; [apply preserves_deref|intros message]. destruct (_ && _).
  - do 4 (apply preserves_bind; [pres|intros ?]). repeat (case_match; [apply p_nothing; pres|]). apply p_nothing. apply p_server_dispatch.
  - repeat (case_match; [apply p_nothing; pres|]). apply p_admin_session.
Qed.

(** ** The watchdog *)

Section Watchdog.
Context {X D R J B : Type} `{CountedLaws X D J} `{ServerInfo X} `{Media.JsonRefs R} `{!Media.JsonRefsLaws R} `{!Jansson J}
  `{!JanssonBool J} `{KoreBuf B} `{KoreNet}.
Implicit Types w : world X R J.
Implicit Types e eh : loc -> nat.

Lemma p_foreach_in {A : Type} (I : world X R J -> Prop) (k : A -> M (world X R J) unit) l :
  (forall a, a ∈ l -> preserves I (k a)) -> preserves I (foreach k l).
Proof.
  induction l as [|a l IH]; intros Hk; cbn [foreach]; [apply preserves_ret|].
  apply preserves_bind; [apply Hk; by left|intros _]. apply IH. intros a' Ha. apply Hk. by right.
Qed.

Lemma p_session_over d al ks e eh now s : preserves (inv_at d al ks e eh) (session_over now s : M (world X R J) _).
Proof. unfold session_over, exchange_timeout. pres. Qed.

(** What is known of a session may be forgotten, its number kept. *)
Lemma forget_alive d al ks e eh w : inv_at d al ks e eh w -> inv_at d None ks e eh w.
Proof.
  intros Hw. apply inv_number with []; [by eapply inv_forget|]. exact (l_number _ _ _ _ _ _ (i_listed _ _ _ _ _ _ _ _ _ _ _ Hw)).
Qed.
Lemma unregister_number k s ks e eh w :
  inv_at None (Some s) ks e eh w -> (k, s) ∈ ks -> inv_at (Some s) (Some s) ks e eh (w_sessions (delete k) w).
Proof.
  intros Hw Hks. pose proof (i_listed _ _ _ _ _ _ _ _ _ _ _ Hw) as Hl.
  destruct (l_alive _ _ _ _ _ _ Hl s eq_refl) as (v & Hv & _).
  rewrite <- (l_number _ _ _ _ _ _ Hl _ _ _ Hks Hv). by apply unregister.
Qed.

(** The session that is over goes out of the table and is destroyed. *)
Lemma t_expire ks k s e eh :
  (k, s) ∈ ks -> triple (inv_at None (Some s) ks e eh) (expire_session k s : M (world X R J) _) (fun _ => inv_at None None ks e eh).
Proof.
  intros Hks. unfold expire_session. do 3 (eapply triple_keep; [pres|intros ?]). do 2 (eapply triple_keep; [pres|intros ?]).
  eapply triple_bind; [|intros ?; eapply triple_bind; [apply t_destroy|intros ?; by apply triple_ret]].
  apply triple_modify. intros w Hw. by apply unregister_number.
Qed.

Lemma p_check_session ks k s e eh :
  (k, s) ∈ ks -> preserves (inv_at None None ks e eh) (check_session (k, s) : M (world X R J) _).
Proof.
  intros Hks. unfold check_session. cbn [fst snd]. apply t_get_session. intros v w a w' [Hw Hv] Hr.
  destruct (destroyed v) eqn:Hd; [by injection Hr as _ <-|]. pose proof (inv_know _ _ _ _ _ _ _ _ _ _ _ _ _ Hw Hv Hd) as Hk.
  apply (run_triple (inv_at None (Some s) ks e eh) _ (fun _ => inv_at None None ks e eh) _ _ _ Hk Hr).
  eapply triple_keep; [pres|intros x]. eapply triple_keep; [apply p_session_over|intros over].
  destruct over; [by apply t_expire|]. apply triple_ret. intros w0. apply forget_alive.
Qed.

Lemma p_check_sessions e eh : preserves (inv_at None None [] e eh) (janus_check_sessions : M (world X R J) _).
Proof.
  unfold janus_check_sessions. apply preserves_bind; [pres|intros g]. destruct (_ <? 1)%Z; [pres|].
  apply preserves_bind; [pres|intros _]. apply preserves_gets_bind. intros w Hw b w' Hr.
  assert (Hk : inv_at None None (g_hash_table_iter (sessions w)) e eh w).
  { apply inv_number with []; [done|]. intros k s v Hin Hv. rewrite iter_all, elem_of_map_to_list in Hin.
    destruct (l_sound _ _ _ _ _ _ (i_listed _ _ _ _ _ _ _ _ _ _ _ Hw) _ _ Hin) as (v' & Hv' & Hid & _). congruence. }
  apply (run_triple (inv_at None None (g_hash_table_iter (sessions w)) e eh) _ (fun _ => inv_at None None [] e eh) _ _ _ Hk Hr).
  eapply triple_keep; [apply p_foreach_in; intros [k s]; apply p_check_session|intros _].
  eapply triple_keep; [pres|intros _]. apply triple_ret. intros ?. apply forget.
Qed.
End Watchdog.

(** ** What plug-ins call *)

Class PluginLaws (X D J : Type) `{CountedLaws X D J} `{Sdp.SdpCore X D J} := {
  merge_quiet : forall sdp o v x, quiet_on held v x (Sdp.janus_sdp_merge sdp o v x).2
}.

Section Plugins.
Context {X D R J B : Type} `{PluginLaws X D J} `{ServerInfo X} `{Media.JsonRefs R} `{!Media.JsonRefsLaws R} `{!Jansson J}
  `{!JanssonBool J} `{KoreBuf B} `{KoreNet}.
Implicit Types w : world X R J.
Implicit Types e eh : loc -> nat.

Lemma quiet_sdp_kind ids hl h t : preserves (quiet_at ids hl) (Sdp.sdp_kind h t).
Proof. unfold Sdp.sdp_kind. pres. Qed.
Lemma quiet_late ids hl have_sctp h offer : preserves (quiet_at ids hl) (Sdp.late_datachannels have_sctp h offer).
Proof. unfold Sdp.late_datachannels. pres. Qed.
Lemma quiet_candidates ids hl n h : preserves (quiet_at ids hl) (Sdp.wait_candidates n h).
Proof. induction n as [|n IH]; cbn [Sdp.wait_candidates]; pres. Qed.
Lemma quiet_merge ids hl h sdp offer : preserves (quiet_at ids hl) (core_call h (Sdp.janus_sdp_merge sdp offer)).
Proof. apply quiet_core_call. intros. apply merge_quiet. Qed.
#[local] Hint Resolve quiet_sdp_kind quiet_late quiet_candidates : pres.

Context (d al : option loc) (ks : list (Z * loc)) (e eh : loc -> nat).
Abbreviation kept := (inv_at (X := X) (R := R) (J := J) d al ks e eh).

Lemma p_make_rtx rounds h s sdp : preserves kept (Plug.make_rtx rounds h s sdp).
Proof. unfold Plug.make_rtx. pres. Qed.
#[local] Hint Resolve p_make_rtx : pres.
Lemma p_merge_sdp fuel rounds have_sctp h offer updating sdp_type sdp :
  preserves kept (Plug.merge_sdp fuel rounds have_sctp h offer updating sdp_type sdp).
Proof. unfold Plug.merge_sdp. pres; apply quiet_merge. Qed.
Lemma p_finish_sdp fuel rounds have_sctp h offer updating restart sdp_type sdp :
  preserves kept (Plug.finish_sdp fuel rounds have_sctp h offer updating restart sdp_type sdp).
Proof. unfold Plug.finish_sdp. pres. apply p_merge_sdp. Qed.
Lemma p_add_media h avd : preserves kept (Plug.add_media h avd).
Proof. unfold Plug.add_media. pres. Qed.
#[local] Hint Resolve p_add_media : pres.
Lemma p_setup_offer h avd : preserves kept (Plug.setup_offer h avd).
Proof. unfold Plug.setup_offer. pres. Qed.
#[local] Hint Resolve p_setup_offer : pres.
Lemma p_plugin_sdp fuel waits rounds have_sctp ps sdp_type sdp restart :
  preserves kept (Plug.janus_plugin_handle_sdp fuel waits rounds have_sctp ps sdp_type sdp restart).
Proof. unfold Plug.janus_plugin_handle_sdp. pres; apply p_finish_sdp. Qed.

Lemma p_flag_set h f : preserves kept (Plug.flag_set h f).
Proof. unfold Plug.flag_set. pres. Qed.
#[local] Hint Resolve p_flag_set : pres.
Lemma p_plugin_take ps : preserves kept (Plug.plugin_session_take ps).
Proof. unfold Plug.plugin_session_take. apply p_set_core. intros. apply increase_quiet. Qed.
Lemma p_plugin_drop ps : preserves kept (Plug.plugin_session_drop ps).
Proof. unfold Plug.plugin_session_drop. apply p_set_core. intros. apply decrease_quiet. Qed.
#[local] Hint Resolve p_plugin_take p_plugin_drop : pres.
Lemma p_push_merged s h plugin transaction message jsep merged restart :
  preserves kept (Plug.push_merged s h plugin transaction message jsep merged restart).
Proof. unfold Plug.push_merged. pres. Qed.
Lemma p_push_to_handle fuel waits rounds have_sctp ps h plugin transaction message jsep :
  preserves kept (Plug.push_to_handle fuel waits rounds have_sctp ps h plugin transaction message jsep).
Proof. unfold Plug.push_to_handle, Plug.sdp_error. pres; first [apply p_plugin_sdp|apply p_push_merged]. Qed.

Lemma p_relay have_sctp ps kind buf len : preserves kept (Plug.relay have_sctp ps kind buf len).
Proof. unfold Plug.relay. pres. Qed.
Lemma p_add_timer ps t : preserves kept (Plug.add_timer ps t).
Proof. unfold Plug.add_timer. pres. Qed.
Lemma p_plugin_event plugin ps event : preserves kept (Plug.janus_plugin_notify_event plugin ps event).
Proof. unfold Plug.janus_plugin_notify_event, Plug.event_ids. pres. Qed.
End Plugins.

Section Handlers.
Context {X D R J B : Type} `{AdminLaws X D J} `{!Sdp.SdpCore X D J} `{!PluginLaws X D J} `{ServerInfo X} `{Media.JsonRefs R}
  `{!Media.JsonRefsLaws R} `{!Jansson J} `{!JanssonBool J} `{!JanssonArray J} `{KoreBuf B} `{KoreNet}.
Implicit Types w : world X R J.
Implicit Types e eh : loc -> nat.
Abbreviation rest e eh := (inv_at (X := X) (R := R) (J := J) None None [] e eh).

Lemma p_push_event fuel waits rounds have_sctp ps plugin transaction message jsep e eh :
  preserves (rest e eh) (Plug.janus_plugin_push_event (R := R) fuel waits rounds have_sctp ps plugin transaction message jsep).
Proof.
  unfold Plug.janus_plugin_push_event. destruct plugin as [plugin|], message as [message|]; [|pres..].
  apply preserves_bind; [pres|intros x]. destruct (negb _); [pres|]. apply preserves_bind; [apply p_plugin_take|intros _].
  apply preserves_bind; [pres|intros x1]. apply preserves_bind; [destruct (gateway_handle _ _); [apply p_flag_set|pres]|intros stop].
  assert (Hgone : preserves (rest e eh) (Plug.plugin_session_drop ps;; mret (Plug.PushError JANUS_ERROR_SESSION_NOT_FOUND)))
    by (apply preserves_bind; [apply p_plugin_drop|intros ?; pres]).
  destruct (gateway_handle _ _) as [h|], stop; try exact Hgone.
  eapply triple_bind; [apply t_take_handle|intros ?]. eapply triple_keep; [apply p_push_to_handle|intros r].
  unfold Plug.push_done. eapply triple_keep; [apply p_plugin_drop|intros ?].
  eapply triple_bind; [apply t_drop_handle|intros ?]. by apply triple_ret.
Qed.

(** *** Timers *)

(** The handle whose reference [janus_plugin_end_session_internal] does not give back. *)
Definition timer_lost (i : nat) w : option loc :=
  t ← timers w !! i;
  match t with
  | ClosePc _ => None
  | EndSession ps =>
      h ← gateway_handle ps (core_of w);
      v ← handles (jw w) !! h;
      if bool_decide (WEBRTC_STOP ∈ webrtc_flags v) || bool_decide (WEBRTC_ALERT ∈ webrtc_flags v) then None
      else _ ← session v; Some h
  end.

Lemma flag_set_inv h f w (b : bool) w' :
  Plug.flag_set h f w = Done (b, w') ->
  w' = w /\ exists v, handles (jw w) !! h = Some v /\ b = bool_decide (f ∈ webrtc_flags v).
Proof.
  unfold Plug.flag_set, lift, janus_flags_is_set, get_handle. rewrite bind_assoc. intros Hr.
  rewrite (bind_step _ _ (jw w) _ _ eq_refl) in Hr. destruct (handles (jw w) !! h) as [v|] eqn:Hv; [|done].
  injection Hr as <- <-. split; [by destruct w|]. eauto.
Qed.

(** Both timers' start: the handle is held, and given back at once when it is on its way out. *)
Lemma with_handle_run ps (k : loc -> M (world X R J) unit) e eh w w' :
  rest e eh w -> Plug.with_handle ps k w = Done (tt, w') ->
  (rest e eh w' /\ forall h v, gateway_handle ps (core_of w) = Some h -> handles (jw w) !! h = Some v ->
     bool_decide (WEBRTC_STOP ∈ webrtc_flags v) || bool_decide (WEBRTC_ALERT ∈ webrtc_flags v) = true) \/
  exists h v w1, gateway_handle ps (core_of w) = Some h /\ handles (jw w) !! h = Some v /\
    bool_decide (WEBRTC_STOP ∈ webrtc_flags v) || bool_decide (WEBRTC_ALERT ∈ webrtc_flags v) = false /\
    rest e (bump eh h) w1 /\ handles (jw w1) = handles (jw w) /\ k h w1 = Done (tt, w').
Proof.
  intros Hw Hr. unfold Plug.with_handle in Hr. run eq_refl in Hr. destruct (gateway_handle ps _) as [h|] eqn:Hg.
  2:{ left. split; [revert Hw Hr; apply p_plugin_drop|done]. }
  inv_bind Hr. destruct a. assert (H1' := t_take_handle _ _ _ _ _ _ _ _ _ Hw Hrun).
  apply update_ext_inv in Hrun as (x & Hx & ->). inv_bind Hr. apply flag_set_inv in Hrun as (-> & v & Hv & ->).
  inv_bind Hr. apply flag_set_inv in Hrun as (-> & v1 & Hv1 & ->). cbn [jw w_exts] in Hv, Hv1.
  assert (v1 = v) as -> by congruence. destruct (_ || _) eqn:Hf.
  - left. split; [|intros h' v' Hh Hv'; assert (h' = h) as -> by congruence; assert (v' = v) as -> by congruence; exact Hf].
    apply (run_triple (rest e (bump eh h)) _ (fun _ => rest e eh) _ _ _ H1' Hr).
    eapply triple_keep; [apply p_plugin_drop|intros ?; apply t_drop_handle].
  - right. by exists h, v, (w_exts <[h := x_h_ref (fun n => n + 1)%Z x]> w).
Qed.

Lemma run_timer_kept i e eh w u w' :
  rest e eh w -> Plug.run_timer i w = Done (u, w') -> rest e (Kept.with_handle eh (timer_lost i w)) w'.
Proof.
  intros Hw Hr. unfold Plug.run_timer in Hr. run eq_refl in Hr. unfold timer_lost.
  destruct (timers w !! i) as [t|]; [|done]. do 2 run eq_refl in Hr. cbn [mbind option_bind]. destruct u.
  assert (H1' : rest e eh (w_timers (delete i) w)) by exact Hw. destruct t as [ps|ps]; cbn [Kept.with_handle].
  - apply (with_handle_run _ _ _ _ _ _ H1') in Hr as [[? _]|(h & v & w1 & _ & _ & _ & H2' & _ & Hr)]; [done|].
    apply (run_triple (rest e (bump eh h)) _ (fun _ => rest e eh) _ _ _ H2' Hr).
    eapply triple_keep; [pres|intros ?]. eapply triple_keep; [apply p_plugin_drop|intros ?]. apply t_drop_handle.
  - apply (with_handle_run _ _ _ _ _ _ H1') in Hr as [[H2' Hno]|(h & v & w1 & Hg & Hv & Hf & H2' & Hj & Hr)].
    + cbn [jw w_timers] in Hno. unfold core_of in *. cbn [jw w_timers] in Hno.
      destruct (gateway_handle ps _) as [h|] eqn:Hg; [|done]. cbn. destruct (handles (jw w) !! h) as [v|] eqn:Hv; [|done].
      cbn. by rewrite (Hno h v eq_refl Hv).
    + unfold core_of in *. cbn [jw w_timers] in Hg, Hv, Hj. rewrite Hg. cbn. rewrite Hv. cbn. rewrite Hf.
      inv_bind Hr. apply get_handle_inv in Hrun as [-> Hv1]. rewrite Hj, Hv in Hv1. injection Hv1 as <-.
      destruct (session v) as [s|]; cbn.
      * apply (run_triple (rest e (bump eh h)) _ (fun _ => rest e (bump eh h)) _ _ _ H2' Hr).
        eapply triple_keep; [pres|intros ?]. apply p_plugin_drop.
      * apply (run_triple (rest e (bump eh h)) _ (fun _ => rest e eh) _ _ _ H2' Hr).
        eapply triple_keep; [apply p_plugin_drop|intros ?]. apply t_drop_handle.
Qed.

(** *** A websocket that is closed *)

(** The session and the handle whose references [del_sess] and [del_han] take and do not give back. *)
Definition disconnect_lost (c : loc) w : option loc * option loc :=
  match hdlr_extra w !! c ≫= fun u => usis w !! u with
  | Some us =>
      if (saka w =? 0)%Z && (0 <? sid us)%Z && (0 <=? hid us)%Z then
        match sessions w !! sid us with
        | Some s => (Some s, if (hid us =? 0)%Z then None else v ← heap w !! s; t ← ice_handles v; t !! hid us)
        | None => (None, None)
        end
      else (None, None)
  | None => (None, None)
  end.
Definition with_session (e : loc -> nat) (session : option loc) : loc -> nat :=
  match session with Some s => bump e s | None => e end.

Lemma find_result n w o w' :
  janus_session_find n w = Done (o, w') -> o = sessions w !! n /\
  forall s, o = Some s -> exists v v', heap w !! s = Some v /\ heap w' !! s = Some v' /\ ice_handles v' = ice_handles v.
Proof.
  unfold janus_session_find. intros Hr. inv_bind Hr. unfold sessions_lock in Hrun. run eq_refl in Hrun.
  destruct (sessions_mutex w); [done|]. injection Hrun as _ <-. run eq_refl in Hr. cbn [sessions w_sessions_mutex] in Hr.
  inv_bind Hr. inv_bind Hr. injection Hr as <- <-. unfold sessions_unlock in Hrun0. run eq_refl in Hrun0.
  destruct (sessions_mutex s); [|done]. injection Hrun0 as _ <-. split; [done|]. intros s0 Hs. rewrite Hs in Hrun.
  apply update_session_inv in Hrun as (v & Hv & ->). cbn [heap w_sessions_mutex] in Hv.
  exists v, (s_ref (fun n => n + 1)%Z v). split_and!; [done|apply lookup_insert_eq|done].
Qed.

Lemma handles_find_result s k w o w' :
  janus_session_handles_find (Some s) k w = Done (o, w') -> exists v, heap w !! s = Some v /\ o = (t ← ice_handles v; t !! k).
Proof.
  unfold janus_session_handles_find. intros Hr. inv_bind Hr. unfold session_lock in Hrun. inv_bind Hrun.
  apply get_session_inv in Hrun0 as [-> Hv]. destruct (mutex a0); [done|]. apply update_session_inv in Hrun as (v & Hv1 & ->).
  inv_bind Hr. apply get_session_inv in Hrun as [-> Hv2]. cbn [heap w_heap] in Hv2. rewrite lookup_insert_eq in Hv2.
  injection Hv2 as <-. inv_bind Hr. inv_bind Hr. injection Hr as <- _. by exists v.
Qed.

(** The session, which is in the table, goes out of it and is destroyed. *)
Lemma t_remove_session {A : Type} s ks e eh (r : A) :
  triple (inv_at None (Some s) ks e eh)
    (v ← get_session s; modify (w_sessions (delete (session_id v)));; sessions_unlock;; _ ← janus_session_destroy s; mret r)
    (fun _ => rest e eh).
Proof.
  apply t_get_session. intros v. eapply (triple_bind _ (fun _ => inv_at (Some s) (Some s) ks e eh)).
  - apply triple_modify. intros w [Hw Hv]. by apply unregister.
  - intros ?. eapply triple_keep; [pres|intros ?]. eapply triple_bind; [apply t_destroy|intros ?].
    apply triple_ret. intros ?. apply forget.
Qed.

Lemma del_sess_kept n e eh w u w' :
  rest e eh w -> del_sess n w = Done (u, w') -> rest (with_session e (sessions w !! n)) eh w'.
Proof.
  intros Hw Hr. unfold del_sess in Hr. inv_bind Hr. apply find_result in Hrun as Ho. destruct Ho as [<- _].
  apply (t_find None None [] e eh) in Hrun; [|done]. destruct a as [s1|]; [|by destruct Hrun as [? _]; injection Hr as _ <-].
  apply (run_triple (inv_at None (Some s1) [(n, s1)] (bump e s1) eh) _ (fun _ => rest (bump e s1) eh) _ _ _ Hrun Hr).
  eapply triple_keep; [pres|intros ?]. apply t_remove_session.
Qed.

Lemma t_drop_nothing {A : Type} s ks e eh (r : A) :
  triple (inv_at None (Some s) ks e eh) (mret r : M (world X R J) A) (fun _ => rest e eh).
Proof. apply triple_ret. intros ?. apply forget. Qed.

Lemma del_han_kept hn n e eh w u w' :
  rest e eh w -> del_han hn n w = Done (u, w') ->
  rest (with_session e (sessions w !! n))
    (Kept.with_handle eh (s ← sessions w !! n; v ← heap w !! s; t ← ice_handles v; t !! hn)) w'.
Proof.
  intros Hw Hr. unfold del_han in Hr. inv_bind Hr. apply find_result in Hrun as Ho. destruct Ho as [<- Hheap].
  apply (t_find None None [] e eh) in Hrun; [|done]. destruct a as [s1|]; [|by destruct Hrun as [? _]; injection Hr as _ <-].
  destruct (Hheap s1 eq_refl) as (v & v1 & Hv & Hv1 & Hice). cbn [mbind option_bind]. rewrite Hv. cbn. rewrite <- Hice.
  inv_bind Hr. pose proof Hrun0 as Hfound. apply handles_find_result in Hfound as (v2 & Hv2 & Ho). rewrite Hv1 in Hv2.
  injection Hv2 as <-. rewrite <- Ho. apply (t_handles_find None (Some s1) [(n, s1)] (bump e s1) eh) in Hrun0; [|done].
  destruct a as [h|]; cbn [Kept.with_handle].
  - apply (run_triple (inv_at None (Some s1) [(n, s1)] (bump e s1) (bump eh h)) _ (fun _ => rest (bump e s1) (bump eh h)) _ _ _ Hrun0 Hr).
    eapply triple_keep; [pres|intros error]. destruct (negb _); [apply t_drop_nothing|].
    eapply triple_keep; [pres|intros ?]. apply t_remove_session.
  - injection Hr as _ <-. by eapply forget.
Qed.

Lemma p_alloc e eh : preserves (rest e eh) alloc.
Proof.
  unfold alloc. apply preserves_bind; [pres|intros a]. apply preserves_bind; [|intros ?; apply preserves_ret].
  apply preserves_modify. intros w [? ? ? ? ? ? []]. split; [done..|]. split; try done. intros s Hs. apply l_fresh0. cbn in Hs. lia.
Qed.

Lemma p_connect c e eh : preserves (rest e eh) (websocket_connect c).
Proof. unfold websocket_connect. pres. apply p_alloc. Qed.

Lemma disconnect_kept c e eh w u w' :
  rest e eh w -> websocket_disconnect c w = Done (u, w') ->
  rest (with_session e (disconnect_lost c w).1) (Kept.with_handle eh (disconnect_lost c w).2) w'.
Proof.
  intros Hw Hr. unfold websocket_disconnect in Hr. run eq_refl in Hr. unfold disconnect_lost.
  destruct (hdlr_extra w !! c) as [ul|]; cbn [mbind option_bind]; [|by injection Hr as _ <-]. run eq_refl in Hr.
  destruct (usis w !! ul) as [us|]; [|done]. do 2 run eq_refl in Hr. inv_bind Hr.
  assert (Hrest : forall e' eh', rest e' eh' s -> rest e' eh' w').
  { intros e' eh' Hs. revert Hs Hr. match goal with |- _ -> ?m s = _ -> _ => assert (Hp : preserves (rest e' eh') m) by pres end.
    intros. by eapply Hp. }
  apply Hrest. clear Hr Hrest. destruct (saka w =? 0)%Z; cbn [andb]; [|by injection Hrun as _ <-].
  inv_bind Hrun. destruct (Z.ltb_spec 0 (sid us)), (Z.eqb_spec (hid us) 0) as [Hz|], (Z.ltb_spec 0 (hid us)), (Z.leb_spec 0 (hid us));
    try lia; cbn [andb whenM fst snd Kept.with_handle with_session] in *.
  all: try (injection Hrun0 as _ <-; injection Hrun as _ <-; done).
  - injection Hrun as _ <-. apply (del_sess_kept _ e eh) in Hrun0; [|done]. by destruct (sessions w !! sid us).
  - injection Hrun0 as _ <-. inv_bind Hrun. injection Hrun as _ <-. apply (del_han_kept _ _ e eh) in Hrun0; [|done].
    by destruct (sessions w !! sid us).
Qed.

Lemma p_teardown e eh : preserves (rest e eh) kore_worker_teardown.
Proof. unfold kore_worker_teardown. pres. Qed.

Lemma p_message fuel have_sctp c op data e eh :
  preserves (rest e eh) (websocket_message (D := D) fuel have_sctp c op data).
Proof.
  unfold websocket_message. apply preserves_bind; [pres|intros extra]. destruct (json_loads data) as [root|]; [|pres].
  destruct (_ ≫= _) as [n|]; [pres|]. apply preserves_bind; [pres|intros u]. apply preserves_bind; [pres|intros us].
  apply preserves_bind; [pres|intros v]. destruct (_ =? 0)%Z; [apply preserves_bind; [apply p_incoming|intros ?; pres]|].
  destruct (_ =? 1)%Z; [apply preserves_bind; [apply p_admin|intros ?; pres]|pres].
Qed.
End Handlers.

(** ** The server's steps *)

(** The references that are given back no more, session by session and handle by handle. *)
Record lost : Type := Lost { of_session : loc -> nat; of_handle : loc -> nat }.
Definition no_loss : lost := Lost (fun _ => 0) (fun _ => 0).
Definition lose (o : option loc * option loc) (l : lost) : lost :=
  Lost (with_session (of_session l) o.1) (Kept.with_handle (of_handle l) o.2).

Section Steps.
Context {X D R J B : Type} `{AdminLaws X D J} `{!Sdp.SdpCore X D J} `{!PluginLaws X D J} `{ServerInfo X} `{Media.JsonRefs R}
  `{!Jansson J} `{!JanssonBool J} `{!JanssonArray J} `{KoreBuf B} `{KoreNet}.
Implicit Types w : world X R J.
Implicit Types l : lost.

(** One step, of whoever makes it, from its start to its end.  A crash ends the process. *)
Inductive server_step : world X R J * lost -> world X R J * lost -> Prop :=
| step_connect c w w' l : websocket_connect c w = Done (tt, w') -> server_step (w, l) (w', l)
| step_message fuel have_sctp c op data w w' l :
    websocket_message (D := D) fuel have_sctp c op data w = Done (tt, w') -> server_step (w, l) (w', l)
| step_disconnect c w w' l :
    websocket_disconnect c w = Done (tt, w') -> server_step (w, l) (w', lose (disconnect_lost c w) l)
| step_watchdog w b w' l : janus_check_sessions w = Done (b, w') -> server_step (w, l) (w', l)
| step_push fuel waits rounds have_sctp ps plugin transaction message jsep w r w' l :
    Plug.janus_plugin_push_event fuel waits rounds have_sctp ps plugin transaction message jsep w = Done (r, w') ->
    server_step (w, l) (w', l)
| step_relay have_sctp ps kind buf len w w' l :
    Plug.relay have_sctp ps kind buf len w = Done (tt, w') -> server_step (w, l) (w', l)
| step_notify plugin ps event w w' l :
    Plug.janus_plugin_notify_event plugin ps event w = Done (tt, w') -> server_step (w, l) (w', l)
| step_add_timer ps t w w' l : Plug.add_timer ps t w = Done (tt, w') -> server_step (w, l) (w', l)
| step_timer i w w' l : Plug.run_timer i w = Done (tt, w') -> server_step (w, l) (w', lose (None, timer_lost i w) l)
| step_ice h (f : ice_fun X J unit) w w' l :  (* a thread of ICE *)
    (forall hs x, moves held h hs x (f hs x).2) -> ice_call f w = Done (tt, w') -> server_step (w, l) (w', l)
| step_kore cs w l : server_step (w, l) (w_connections (fun _ => cs) w, l)
| step_teardown w w' l : kore_worker_teardown w = Done (tt, w') -> server_step (w, l) (w', l).

(** Nothing was asked yet. *)
Definition started w : Prop :=
  heap w = ∅ /\ handles (jw w) = ∅ /\ exts w = ∅ /\ sessions w = ∅ /\ forall h, held (core_of w) h = 0.

Definition accounted (wl : world X R J * lost) : Prop :=
  inv_at None None [] (of_session wl.2) (of_handle wl.2) wl.1.
End Steps.

Section Reachable.
Context {X D R J B : Type} `{AdminLaws X D J} `{!Sdp.SdpCore X D J} `{!PluginLaws X D J} `{ServerInfo X} `{Media.JsonRefs R}
  `{!Media.JsonRefsLaws R} `{!Jansson J} `{!JanssonBool J} `{!JanssonArray J} `{KoreBuf B} `{KoreNet}.
Implicit Types w : world X R J.
Implicit Types l : lost.

Lemma started_accounted w : started w -> accounted (w, no_loss).
Proof.
  intros (Hh & Hj & Hx & Hs & Hl). unfold accounted, inv_at. cbn [fst snd]. rewrite Hh, Hj, Hx, Hs.
  assert (Hc : forall s, hcount ∅ s = 0%Z).
  { intros s. unfold hcount, holders. by rewrite map_filter_empty, dom_empty_L, size_empty. }
  split.
  - intros s v Hv. by rewrite lookup_empty in Hv.
  - intros h x Hv. by rewrite lookup_empty in Hv.
  - intros h. unfold handle_ids. by rewrite fmap_empty, !lookup_empty.
  - intros s v t k h Hv. by rewrite lookup_empty in Hv.
  - intros s _. split; [done|]. unfold handle_ids. rewrite fmap_empty. apply Hc.
  - done.
  - split.
    + intros s _. apply lookup_empty.
    + intros k s Hk. by rewrite lookup_empty in Hk.
    + intros s v Hv. by rewrite lookup_empty in Hv.
    + done.
    + done.
    + intros k s v Hk. by apply elem_of_nil in Hk.
Qed.

Lemma step_accounted wl wl' : server_step wl wl' -> accounted wl -> accounted wl'.
Proof.
  intros Hstep Hw. unfold accounted in *. destruct Hstep; cbn [fst snd lose of_session of_handle] in *.
  - by eapply p_connect.
  - by eapply p_message.
  - by eapply disconnect_kept.
  - by eapply p_check_sessions.
  - by eapply p_push_event.
  - by eapply p_relay.
  - by eapply p_plugin_event.
  - by eapply p_add_timer.
  - by eapply run_timer_kept.
  - by eapply p_ice_moves.
  - by eapply (p_modify None None [] _ _ (w_connections (fun _ => cs))).
  - by eapply p_teardown.
Qed.

Lemma steps_accounted wl wl' : rtc server_step wl wl' -> accounted wl -> accounted wl'.
Proof. induction 1; eauto using step_accounted. Qed.

(** C2: Every counter is the number of those who hold: at any time, a session's is one for its
    not being destroyed, one for each of its handles, and what was lost; a handle's is one for
    its session's table, what ICE holds, and what was lost.  No counter is zero. *)
Theorem references_accounted w0 w l :
  started w0 -> rtc server_step (w0, no_loss) (w, l) ->
  (forall s v, heap w !! s = Some v ->
     ref v = (own v + hcount (handle_ids (handles (jw w))) s + Z.of_nat (of_session l s))%Z /\ (0 < ref v)%Z) /\
  (forall h x, exts w !! h = Some x ->
     h_ref x = (tabled (heap w) (handle_ids (handles (jw w))) h + Z.of_nat (held (core_of w) h) + Z.of_nat (of_handle l h))%Z /\
     (0 < h_ref x)%Z).
Proof.
  intros H0' Hr. destruct (steps_accounted _ _ Hr (started_accounted _ H0')). split; [|exact i_handle0].
  intros s v Hv. by destruct (i_session0 _ _ Hv) as (? & ? & _).
Qed.

(** C4: The table of sessions is exactly those not destroyed, each under its own number. *)
Theorem sessions_exact w0 w l k s :
  started w0 -> rtc server_step (w0, no_loss) (w, l) ->
  sessions w !! k = Some s <-> exists v, heap w !! s = Some v /\ session_id v = k /\ destroyed v = false.
Proof.
  intros H0' Hr. destruct (i_listed _ _ _ _ _ _ _ _ _ _ _ (steps_accounted _ _ Hr (started_accounted _ H0'))). split; [apply l_sound0|].
  intros (v & Hv & <- & Hd). by apply l_complete0.
Qed.

(** A session that is still in memory can be found, has handles, or was lost by a client that
    left: nothing else keeps one. *)
Theorem no_other_leak w0 w l s v :
  started w0 -> rtc server_step (w0, no_loss) (w, l) -> heap w !! s = Some v ->
  sessions w !! session_id v = Some s \/ (exists h k, handle_ids (handles (jw w)) !! h = Some (Some s, k)) \/ 0 < of_session l s.
Proof.
  intros H0' Hr Hv. pose proof (steps_accounted _ _ Hr (started_accounted _ H0')) as Hi.
  destruct (i_session _ _ _ _ _ _ _ _ _ _ _ Hi _ _ Hv) as (Href & Hpos & _). destruct (destroyed v) eqn:Hd.
  - right. unfold own in Href. rewrite Hd in Href. destruct (decide (holders (handle_ids (handles (jw w))) s = ∅)) as [He|He].
    + right. unfold hcount in Href. cbn [fst snd] in Href. rewrite He, size_empty in Href. cbn [fst snd] in *. lia.
    + left. apply set_choose_L in He as [h Hh]. apply elem_of_holders in Hh as [k Hk]. eauto.
  - left. by apply (i_listed _ _ _ _ _ _ _ _ _ _ _ Hi).
Qed.

Lemma lost_stays wl wl' s : rtc server_step wl wl' -> 0 < of_session wl.2 s -> 0 < of_session wl'.2 s.
Proof.
  induction 1 as [|a b c Hstep _ IH]; [done|]. intros Hs. apply IH.
  assert (Hb : forall o, 0 < with_session (of_session a.2) o s).
  { intros [s'|]; cbn; [|done]. destruct (decide (s = s')) as [->|]; [rewrite bump_eq|rewrite bump_ne by done]; lia. }
  destruct Hstep; first [exact Hs|apply Hb].
Qed.

(** C8: A client that is closed before it destroyed its session leaves it in memory for ever. *)
Theorem gone_client_leaks w0 w l c w1 s w2 l2 :
  started w0 -> rtc server_step (w0, no_loss) (w, l) -> websocket_disconnect c w = Done (tt, w1) ->
  (disconnect_lost c w).1 = Some s -> rtc server_step (w1, lose (disconnect_lost c w) l) (w2, l2) -> heap w2 !! s <> None.
Proof.
  intros H0' Hr Hd Hl Hr2 Hn. assert (Ha1 : accounted (w1, lose (disconnect_lost c w) l)).
  { eapply step_accounted; [by apply step_disconnect|]. by eapply steps_accounted, started_accounted. }
  pose proof (steps_accounted _ _ Hr2 Ha1) as Ha2. destruct (i_gone _ _ _ _ _ _ _ _ _ _ _ Ha2 _ Hn) as [Hz _].
  pose proof (lost_stays _ _ s Hr2) as Hstay. cbn [fst snd] in *. rewrite Hz in Hstay. cbn in Hstay. rewrite Hl in Hstay.
  cbn in Hstay. rewrite bump_eq in Hstay. lia.
Qed.
End Reachable.

(** ** At work *)

Section Examples.
Import Model.
#[local] Existing Instances Media.refs_json Media.refs_json_laws.

#[local] Instance m_admin_laws : AdminLaws mj string json.
Proof. by split. Qed.
#[local] Instance m_plugin_laws : PluginLaws mj string json.
Proof. by split. Qed.

Lemma m_started : started (D := string) (m_world None 0).
Proof. by split_and!. Qed.
Lemma m_steps : rtc server_step (m_world None 0, no_loss) (m_attached, no_loss).
Proof.
  eapply rtc_l; [apply (step_connect 3 _ m_connected); by vm_compute|].
  eapply rtc_l; [apply (step_message 10 false 3 1 "create" _ m_created); by vm_compute|].
  eapply rtc_l; [apply (step_message 10 false 3 1 "attach" _ m_attached); by vm_compute|]. apply rtc_refl.
Qed.

(** The session of the connection, with one handle. *)
Definition m_session : janus_session := JanusSession 1 (Some {[1%Z := 0]}) 0 None false false false false 2.
Lemma m_attached_session : heap m_attached !! 101 = Some m_session.
Proof. by vm_compute. Qed.

Lemma references_accounted_witness :
  ref m_session = (own m_session + hcount (handle_ids (handles (jw m_attached))) 101 + Z.of_nat (of_session no_loss 101))%Z.
Proof. by apply (references_accounted _ _ _ m_started m_steps). Defined.

Lemma sessions_exact_witness : exists v, heap m_attached !! 101 = Some v /\ session_id v = 1%Z /\ destroyed v = false.
Proof. apply (sessions_exact _ _ _ 1%Z 101 m_started m_steps). by vm_compute. Defined.

Lemma no_other_leak_witness :
  sessions m_attached !! session_id m_session = Some 101 \/
  (exists h k, handle_ids (handles (jw m_attached)) !! h = Some (Some 101, k)) \/ 0 < of_session no_loss 101.
Proof. exact (no_other_leak _ _ _ 101 m_session m_started m_steps m_attached_session). Defined.

Lemma gone_client_leaks_witness : heap m_gone !! 101 <> None.
Proof.
  apply (gone_client_leaks _ _ no_loss 3 m_gone 101 m_gone (lose (disconnect_lost 3 m_attached) no_loss) m_started m_steps);
    [by vm_compute|by vm_compute|apply rtc_refl].
Defined.
End Examples.
End Life.
