(* ===== verification/JanusAnswers.v ===== *)
(** * What a client is answered, and when its session ends

    The branches of the requests that matter to a client: an error is never answered, the
    administrator's secret is asked for, a session is made, found again and freed, and the
    watchdog takes one that is idle away in two of its rounds. *)

From S2P Require Import Prelude Jansson KoreNet MediaRooms Janus HandleSdp JanusServer JanusRequests JanusSummary JanusAdmin.
From S2P Require Import JanusCounted JanusKept JanusModel.

Local Open Scope c_scope.

Module Ans.
Import Janus Srv Req Sum Adm Kept.

(** ** Errors *)

Section Errors.
Context {X D R J B : Type} `{JanusCore X D J} `{ServerCore X D J} `{ServerInfo X} `{AdminCore X J} `{SummaryCore X J} `{Media.JsonRefs R}
  `{!Media.JsonRefsLaws R} `{!Jansson J} `{!JanssonBool J} `{!JanssonArray J} `{KoreBuf B} `{KoreNet}.
Implicit Types w : world X R J.

Lemma fail_crashes c session_no transaction er format w :
  fail (Some c) session_no transaction er format w = Crash UseAfterFree.
Proof. apply error_crashes. Qed.

(** The requests a server takes without a session. *)
Definition sessionless (message : string) : bool :=
  strcasecmp_eq message "info" || strcasecmp_eq message "ping" || strcasecmp_eq message "create".

(** C7: Whoever is connected can end the server: a request of another name, or one that is not
    well formed, makes it use the error it has just freed. *)
Theorem bad_request_crashes fuel have_sctp c op data root u us w :
  hdlr_extra w !! c = Some u -> usis w !! u = Some us -> aw us = 0%Z -> json_loads data = Some root ->
  json_object_get root "adtype" ≫= json_integer_value = None ->
  get_uint64 root "session_id" = 0%Z -> get_uint64 root "handle_id" = 0%Z ->
  (JANUS_VALIDATE_JSON_OBJECT root incoming_request_parameters <> None \/
   exists message, json_object_get root "janus" ≫= json_string_value = Some message /\ sessionless message = false) ->
  websocket_message (D := D) fuel have_sctp c op data w = Crash UseAfterFree.
Proof.
  intros Hc Hu Haw Hl Had Hs Hh Hbad. unfold websocket_message. run eq_refl. rewrite Hl, Had, Hc. do 2 run eq_refl. rewrite Hu.
  run eq_refl. rewrite Haw. apply bind_crash. unfold janus_process_incoming_request. rewrite Hs, Hh. cbv zeta.
  destruct (JANUS_VALIDATE_JSON_OBJECT _ _) as [[error cause]|]; [apply bind_crash, error_string_crashes|].
  destruct Hbad as [|(message & Hm & Hno)]; [done|]. rewrite Hm. run eq_refl. cbn [Z.eqb andb].
  unfold sessionless in Hno. apply orb_false_iff in Hno as [[-> ->]%orb_false_iff ->]. cbn [negb].
  apply bind_crash, fail_crashes.
Qed.

(** ** The administrator *)

(** The request carries the secret. *)
Definition carries_secret (root : J) (admin_secret : string) : Prop :=
  exists secret, json_object_get root "admin_secret" ≫= json_string_value = Some secret /\ janus_strcmp_const_time secret admin_secret = true.

(** C16: A run that ends is of a request that carried the secret, or only asked who the server is. *)
Theorem admin_needs_secret c root w ret w' admin_secret :
  admin_api_secret (conf w) = Some admin_secret ->
  janus_process_incoming_admin_request (D := D) (Some c) root w = Done (ret, w') ->
  carries_secret root admin_secret \/
  (get_uint64 root "session_id" = 0%Z /\ get_uint64 root "handle_id" = 0%Z /\
   exists message, json_object_get root "janus" ≫= json_string_value = Some message /\ strcasecmp_eq message "info" = true).
Proof.
  unfold janus_process_incoming_admin_request. rewrite bool_decide_false by done. cbv zeta. intros Hconf Hr.
  destruct (admin_authorized root (conf w)) eqn:Ha; [left|right].
  { unfold admin_authorized, member_string in Ha. rewrite Hconf in Ha.
    unfold carries_secret. destruct (json_object_get root "admin_secret" ≫= json_string_value) as [secret|]; [eauto|done]. }
  destruct (JANUS_VALIDATE_JSON_OBJECT _ _) as [[error cause]|].
  { inv_bind Hr. by rewrite error_string_crashes in Hrun. }
  unfold member_string in Hr. destruct (json_object_get root "janus" ≫= json_string_value) as [message|] eqn:Hm; [|done].
  run eq_refl in Hr. destruct (Z.eqb_spec (get_uint64 root "session_id") 0) as [Hs|Hs]; cbn [andb] in Hr.
  - destruct (Z.eqb_spec (get_uint64 root "handle_id") 0) as [Hh|Hh].
    + do 4 run eq_refl in Hr. destruct (strcasecmp_eq message "info") eqn:Hi; [eauto 6|]. rewrite Ha in Hr. cbn [negb] in Hr.
      inv_bind Hr. by rewrite fail_crashes in Hrun.
    + rewrite Hs in Hr. change (0 <? 1)%Z with true in Hr. inv_bind Hr. by rewrite fail_crashes in Hrun.
  - destruct (_ <? 1)%Z; [inv_bind Hr; by rewrite fail_crashes in Hrun|].
    destruct (_ && _); [inv_bind Hr; by rewrite fail_crashes in Hrun|]. unfold admin_session_request in Hr.
    run eq_refl in Hr. rewrite Ha in Hr. cbn [negb] in Hr. inv_bind Hr. by rewrite fail_crashes in Hrun.
Qed.
End Errors.

(** ** A session's beginning and end *)

Section Sessions.
Context {X D R J B : Type} `{JanusCore X D J} `{ServerCore X D J} `{ServerInfo X} `{Media.JsonRefs R}
  `{!Jansson J} `{!JanssonBool J} `{KoreBuf B} `{KoreNet}.
Implicit Types w : world X R J.

(** The mutexes' pairs, and a session found under one. *)
Lemma sessions_locked {A : Type} w (k : M (world X R J) A) :
  sessions_mutex w = false -> (sessions_lock;; k) w = k (w_sessions_mutex (fun _ => true) w).
Proof. intros Hm. unfold sessions_lock. rewrite bind_assoc. run eq_refl. by rewrite Hm. Qed.

Lemma find_absent n w : sessions_mutex w = false -> sessions w !! n = None -> janus_session_find n w = Done (None, w).
Proof.
  intros Hm Hn. unfold janus_session_find. rewrite sessions_locked by done. run eq_refl.
  cbn [sessions w_sessions_mutex]. rewrite Hn. run eq_refl. unfold sessions_unlock. rewrite bind_assoc. run eq_refl.
  cbn [sessions_mutex w_sessions_mutex]. destruct w; cbn in *. by rewrite Hm.
Qed.

Lemma srv_update_session_run s f w v : heap w !! s = Some v -> update_session s f w = Done (tt, w_heap <[s := f v]> w).
Proof. intros Hv. unfold update_session, get_session. rewrite bind_assoc. run eq_refl. by rewrite Hv. Qed.
Lemma srv_get_session_run s w v : heap w !! s = Some v -> get_session s w = Done (v, w).
Proof. intros Hv. unfold get_session. run eq_refl. by rewrite Hv. Qed.

Lemma drop_session_run s w v :
  heap w !! s = Some v -> ref v <> 1%Z ->
  janus_refcount_decrease (OfSession s) w = Done (tt, w_heap <[s := s_ref (fun n => n - 1)%Z v]> w).
Proof.
  intros Hv Hr. unfold janus_refcount_decrease. cbn [refcount_decrease]. run (srv_update_session_run _ _ _ _ Hv).
  rewrite (bind_step _ _ _ _ _ (srv_get_session_run _ _ _ (lookup_insert_eq _ _ _))). cbn [ref s_ref].
  by destruct (Z.eqb_spec (ref v - 1) 0); [lia|].
Qed.

(** *** The watchdog *)

(** The session was not used for too long. *)
Definition idle (v : janus_session) w : bool :=
  (session_timeout (conf w) * 1000000 <=? janus_get_monotonic_time (core_of w) - last_activity v)%Z.


(** *** Destroy *)

Lemma clear_run s w v :
  heap w !! s = Some v -> mutex v = false -> ice_handles v = None -> janus_session_handles_clear s w = Done (tt, w).
Proof.
  intros Hv Hm Ht. unfold janus_session_handles_clear, session_lock. rewrite bind_assoc. run (srv_get_session_run _ _ _ Hv).
  rewrite Hm. run (srv_update_session_run _ _ _ _ Hv). run (srv_get_session_run _ _ _ (lookup_insert_eq _ _ _)).
  cbn [ice_handles s_mutex]. rewrite Ht. run eq_refl. unfold session_unlock.
  run (srv_get_session_run _ _ _ (lookup_insert_eq _ _ _)). cbn [mutex s_mutex].
  rewrite (srv_update_session_run _ _ _ _ (lookup_insert_eq _ _ _)). do 2 f_equal. destruct w as [? h]. unfold w_heap. f_equal.
  cbn [heap] in *. rewrite insert_insert_eq. apply insert_id. rewrite Hv. f_equal. destruct v; cbn in *. by rewrite Hm.
Qed.

(** The last reference of a session that has no handles: it is freed. *)
Lemma srv_free_run s w v :
  heap w !! s = Some v -> ref v = 1%Z -> ice_handles v = None -> source v = None ->
  janus_refcount_decrease (OfSession s) w = Done (tt, w_heap (delete s) w).
Proof.
  intros Hv Hr Ht Hs. unfold janus_refcount_decrease. cbn [refcount_decrease]. run (srv_update_session_run _ _ _ _ Hv).
  run (srv_get_session_run _ _ _ (lookup_insert_eq _ _ _)). cbn [ref s_ref]. rewrite Hr. change (1 - 1 =? 0)%Z with true. cbv iota.
  unfold janus_session_free. run (srv_get_session_run _ _ _ (lookup_insert_eq _ _ _)). cbn [ice_handles s_ref]. rewrite Ht.
  run eq_refl. run (srv_get_session_run _ _ _ (lookup_insert_eq _ _ _)). cbn [source s_ref]. rewrite Hs. run eq_refl.
  unfold modify, w_heap. cbn [heap]. do 2 f_equal. f_equal. apply delete_insert_eq.
Qed.

(** Nobody but the request that found it uses the session, and it has no handles. *)
Definition disused (v : janus_session) : Prop :=
  ref v = 2%Z /\ destroyed v = false /\ mutex v = false /\ ice_handles v = None /\ source v = None.

(** C18: A client that destroys its session, which has no handles left: its number is free again,
    its memory given back, the connection is of no session, and it is told so once. *)
Theorem destroy_frees fuel have_sctp c u us transaction root n s v w text :
  heap w !! s = Some v -> session_id v = n -> disused v -> sessions_mutex w = false -> janus_events_is_enabled (core_of w) = false ->
  hdlr_extra w !! c = Some u -> usis w !! u = Some us ->
  json_dumps (json_object (janus_create_message "success" n transaction)) = Some text ->
  exists w', dispatch (D := D) (Some c) n transaction fuel have_sctp s None 0 root "destroy" w = Done (0%Z, w') /\
    sessions w' = delete n (sessions w) /\ heap w' = delete s (heap w) /\
    usis w' = <[u := u_sid (fun _ => 0%Z) us]> (usis w) /\ slog w' = Reply c text :: slog w.
Proof.
  intros Hv Hn (Hr & Hd & Hmu & Ht & Hso) Hm Hev Hc Hu Htx. unfold dispatch.
  change (strcasecmp_eq "destroy" "keepalive") with false. change (strcasecmp_eq "destroy" "attach") with false.
  change (strcasecmp_eq "destroy" "destroy") with true. cbv iota zeta. unfold on_destroy. rewrite !bind_assoc.
  rewrite sessions_locked by done. rewrite !bind_assoc. run (srv_get_session_run _ (w_sessions_mutex (fun _ => true) w) _ Hv).
  rewrite !bind_assoc. run eq_refl. unfold sessions_unlock. rewrite !bind_assoc. run eq_refl.
  cbn [sessions_mutex w_sessions_mutex w_sessions]. run eq_refl. unfold update_usi. rewrite !bind_assoc. run eq_refl.
  rewrite !bind_assoc. run eq_refl. cbn [hdlr_extra w_sessions_mutex w_sessions]. rewrite Hc.
  rewrite !bind_assoc. run eq_refl. cbn [usis w_sessions_mutex w_sessions]. rewrite Hu, !bind_assoc. do 2 run eq_refl.
  unfold janus_session_destroy. rewrite ?bind_assoc. erewrite bind_step by (apply srv_get_session_run; exact Hv).
  rewrite Hd. rewrite ?bind_assoc. erewrite bind_step by (apply srv_update_session_run; exact Hv). rewrite ?bind_assoc.
  erewrite bind_step by (eapply clear_run; [apply lookup_insert_eq|done..]). rewrite ?bind_assoc.
  erewrite bind_step by (apply drop_session_run; [apply lookup_insert_eq|cbn; lia]). rewrite ?bind_assoc. run eq_refl.
  unfold succeed, janus_process_success. rewrite app_nil_r, Htx, ?bind_assoc. do 2 run eq_refl.
  unfold notify_session. rewrite ?bind_assoc. run eq_refl. cbn [core_of jw w_slog w_heap w_usis w_sessions w_sessions_mutex].
  unfold core_of in Hev |- *. cbn [jw w_slog w_heap w_usis w_sessions w_sessions_mutex]. rewrite Hev. do 2 run eq_refl.
  unfold jsondone. run eq_refl. erewrite bind_step.
  2: { eapply srv_free_run; [apply lookup_insert_eq| |done..]. cbn. lia. }
  eexists. split; [reflexivity|]. cbn. rewrite Hn. split_and!; try done.
  by rewrite insert_insert_eq, delete_insert_eq.
Qed.

(** *** Create *)

Lemma draw_run fuel n x w :
  janus_random_uint64 (core_of w) = (n, x) -> n <> 0%Z -> sessions_mutex w = false -> sessions w !! n = None ->
  draw_session_id (S fuel) w = Done (n, w_jw (w_core (fun _ => x)) w).
Proof.
  intros Hx Hn Hm Hs. cbn [draw_session_id]. run eq_refl. rewrite Hx. unfold set_core. run eq_refl.
  rewrite (bind_step _ _ _ _ _ (find_absent n (w_jw (w_core (fun _ => x)) w) Hm Hs)). by destruct (Z.eqb_spec n 0).
Qed.

(** As it is made: one reference, its own. *)
Definition new_session (n : Z) (x : X) : janus_session :=
  JanusSession n None (janus_get_monotonic_time x) None false false false false 1.

Lemma create_run fuel n x w :
  janus_random_uint64 (core_of w) = (n, x) -> n <> 0%Z -> sessions_mutex w = false -> sessions w !! n = None ->
  exists w', janus_session_create (S fuel) 0 w = Done (next w, w') /\
    heap w' = <[next w := new_session n x]> (heap w) /\
    sessions w' = <[n := next w]> (sessions w) /\ usis w' = usis w /\ hdlr_extra w' = hdlr_extra w /\ slog w' = slog w /\
    sessions_mutex w' = false.
Proof.
  intros Hx Hn Hm Hs. unfold janus_session_create. cbn [Z.eqb]. run (draw_run fuel n x w Hx Hn Hm Hs).
  do 3 run eq_refl. rewrite sessions_locked by exact Hm. run eq_refl. unfold sessions_unlock. rewrite bind_assoc. run eq_refl.
  cbn [sessions_mutex w_sessions_mutex w_sessions]. run eq_refl. eexists. split; [reflexivity|]. by split_and!.
Qed.

(** C17: A client that asks for a session gets one under the number drawn, which is its connection's
    from then on, and is told so once. *)
Theorem create_registers fuel c u us transaction root n x text w :
  accept_new_sessions (conf w) = true -> api_secret (conf w) = None -> janus_auth_is_enabled (core_of w) = false ->
  json_object_get root "id" = None -> sessions_mutex w = false ->
  janus_random_uint64 (core_of w) = (n, x) -> n <> 0%Z -> sessions w !! n = None ->
  hdlr_extra w !! c = Some u -> usis w !! u = Some us ->
  json_dumps (json_object (janus_create_message "success" 0 transaction ++ id_member n)) = Some text ->
  exists w', on_create (D := D) (S fuel) (Some c) transaction root w = Done (0%Z, w') /\
    sessions w' = <[n := next w]> (sessions w) /\
    heap w' = <[next w := new_session n x]> (heap w) /\
    usis w' = <[u := u_sid (fun _ => n) us]> (usis w) /\ slog w' = Reply c text :: slog w.
Proof.
  intros Hacc Hsec Hauth Hid Hm Hx Hn Hs Hc Hu Ht. unfold on_create. run eq_refl. rewrite Hacc. cbn [negb].
  unfold janus_request_check_secret. rewrite bind_assoc. run eq_refl. rewrite bind_assoc. run eq_refl.
  rewrite Hsec, bool_decide_true, Hauth by done. run eq_refl. cbn [Z.eqb negb]. rewrite Hid. cbv zeta. run eq_refl.
  unfold create_session. rewrite bind_assoc.
  destruct (create_run fuel n x w Hx Hn Hm Hs) as (w1 & Hr & Hh & Hss & Hus & Hex & Hlog & Hm1).
  unfold new_session in *. run Hr. assert (Hv : heap w1 !! next w = Some (JanusSession n None (janus_get_monotonic_time x) None false false false false 1))
    by (rewrite Hh; apply lookup_insert_eq).
  rewrite bind_assoc. run (srv_get_session_run _ _ _ Hv). cbv zeta. unfold janus_refcount_increase. rewrite bind_assoc.
  run (srv_update_session_run _ _ _ _ Hv). rewrite bind_assoc.
  rewrite (bind_step _ _ _ _ _ (srv_update_session_run _ _ _ _ (lookup_insert_eq _ _ _))). rewrite bind_assoc.
  unfold update_usi at 1. rewrite bind_assoc. run eq_refl. rewrite bind_assoc. run eq_refl.
  cbn [hdlr_extra w_heap]. rewrite Hex, Hc. rewrite bind_assoc. run eq_refl. cbn [usis w_heap]. rewrite Hus, Hu.
  rewrite bind_assoc. do 2 run eq_refl. unfold succeed, janus_process_success. cbn [session_id]. rewrite Ht. rewrite bind_assoc, bind_assoc.
  do 3 run eq_refl. unfold jsondone. run eq_refl. cbn [fst snd].
  erewrite bind_step; [|apply drop_session_run; [apply lookup_insert_eq|done]].
  eexists. split; [reflexivity|].
  cbn [sessions heap usis slog w_heap w_usis w_slog]. rewrite !insert_insert_eq, Hh, insert_insert_eq. split_and!; [done..|by rewrite Hus|by rewrite Hlog].
Qed.
End Sessions.

(** ** At work *)

Section Examples.
Import Model.
#[local] Existing Instances Media.refs_json Media.refs_json_laws.

Lemma bad_request_crashes_witness : say 3 "unknown" m_connected = Crash UseAfterFree.
Proof.
  eapply (bad_request_crashes 10 false 3 1 "unknown" _ 100); try by vm_compute. right. exists "unknown". by vm_compute.
Defined.

(** The secret is asked for: with it the server answers. *)
Definition m_admin_world : m_state := after (websocket_connect 3) (m_world (Some "s") 0).
Definition status_request : json := msg [("janus", JString "get_status"); ("admin_secret", JString "s")].
Definition m_told : m_state := after (janus_process_incoming_admin_request (D := string) (Some 3) status_request) m_admin_world.
Lemma m_status_run : janus_process_incoming_admin_request (D := string) (Some 3) status_request m_admin_world = Done (0%Z, m_told).
Proof. by vm_compute. Qed.
Lemma m_secret : admin_api_secret (conf m_admin_world) = Some "s".
Proof. by vm_compute. Qed.
Lemma admin_needs_secret_witness :
  (exists secret, json_object_get status_request "admin_secret" ≫= json_string_value = Some secret /\ String.eqb secret "s" = true) \/
  (get_uint64 status_request "session_id" = 0%Z /\ get_uint64 status_request "handle_id" = 0%Z /\
   exists message, json_object_get status_request "janus" ≫= json_string_value = Some message /\ strcasecmp_eq message "info" = true).
Proof. exact (admin_needs_secret 3 status_request m_admin_world 0%Z m_told "s" m_secret m_status_run). Defined.

(** A minute later. *)
Definition m_late : m_state := w_jw (w_core (fun x => Mj 60000000 (mj_drawn x) (mj_held x))) m_created.

Lemma create_registers_witness : exists w' text,
  on_create (D := string) 10 (Some 3) (Some "t") (msg [("janus", JString "create")]) m_connected = Done (0%Z, w') /\
  sessions w' = {[1%Z := 101]} /\ slog w' = Reply 3 text :: slog m_connected.
Proof.
  destruct (create_registers (D := string) 9 3 100 (Usi 0 0 0) (Some "t") (msg [("janus", JString "create")]) 1
    (Mj 0 1 ∅) (default "" (json_dumps (json_object (janus_create_message "success" 0 (Some "t") ++ id_member 1)))) m_connected)
    as (w' & Hr & Hs & Hh & Hu & Hl); try by vm_compute.
  exists w', (default "" (json_dumps (json_object (janus_create_message "success" 0 (Some "t") ++ id_member 1)))).
  split; [exact Hr|]. split; [rewrite Hs; by vm_compute|exact Hl].
Defined.

Definition m_found : m_state := after (janus_session_find 1) m_created.
Lemma destroy_frees_witness : exists w' text,
  dispatch (D := string) (Some 3) 1 (Some "t") 10 false 101 None 0 (msg [("janus", JString "destroy")]) "destroy" m_found =
    Done (0%Z, w') /\
  sessions w' = ∅ /\ heap w' = ∅ /\ slog w' = Reply 3 text :: slog m_found.
Proof.
  destruct (destroy_frees (D := string) 10 false 3 100 (Usi 1 0 0) (Some "t") (msg [("janus", JString "destroy")]) 1 101
    (JanusSession 1 None 0 None false false false false 2) m_found
    (default "" (json_dumps (json_object (janus_create_message "success" 1 (Some "t")))))) as (w' & Hr & Hs & Hh & Hu & Hl);
    try by vm_compute.
  eexists w', _. split; [exact Hr|]. split; [rewrite Hs; by vm_compute|]. split; [rewrite Hh; by vm_compute|exact Hl].
Defined.
End Examples.
End Ans.
