(* ===== verification/JanusConfig.v ===== *)
(** * Janus's configuration files

    The parser of the files and the container of their items are Janus's and not part of the
    repository.  [janus_config_get c section key] is the item's value; [Some None] an item
    without one, [None] no item. *)

From S2P Require Import Prelude.

Class JanusConfig (C : Type) := {
  janus_config_parse : string -> option C;
  janus_config_create : string -> option C;
  janus_config_get : C -> string -> string -> option (option string);
  janus_config_add : string -> string -> string -> C -> C;  (* section, key, value *)
  janus_is_true : string -> bool
}.

(** An item that is added takes the place of one of its name, and the others stay. *)
Class JanusConfigLaws (C : Type) `{JanusConfig C} := {
  config_add_law : forall section key v c, janus_config_get (janus_config_add section key v c) section key = Some (Some v);
  config_add_other_law : forall section key v c section' key', (section', key') <> (section, key) ->
    janus_config_get (janus_config_add section key v c) section' key' = janus_config_get c section' key'
}.

(** [item && item->value] *)
Definition config_value {C : Type} `{JanusConfig C} (c : C) (section key : string) : option string :=
  mjoin (janus_config_get c section key).
Definition config_true {C : Type} `{JanusConfig C} (c : C) (section key : string) : bool :=
  match config_value c section key with Some v => janus_is_true v | None => false end.

Section Facts.
Context {C : Type} `{JanusConfigLaws C}.

Lemma value_added c section key v : config_value (janus_config_add section key v c) section key = Some v.
Proof. unfold config_value. by rewrite config_add_law. Qed.

Lemma value_other c section key v section' key' :
  (section', key') <> (section, key) ->
  config_value (janus_config_add section key v c) section' key' = config_value c section' key'.
Proof. intros Hn. unfold config_value. by rewrite config_add_other_law. Qed.
End Facts.

(** ** The instance of the witnesses: a finite map, and one file *)

Abbreviation config_map := (gmap (string * string) string) (only parsing).

Definition map_config (file : string) (items : config_map) : JanusConfig config_map := {|
  janus_config_parse := fun f => if decide (f = file) then Some items else None;
  janus_config_create := fun _ => Some ∅;
  janus_config_get := fun c s k => Some <$> c !! (s, k);
  janus_config_add := fun s k v c => <[(s, k) := v]> c;
  janus_is_true := fun s => bool_decide (s = "yes" \/ s = "true")
|}.

Lemma map_config_laws file items : @JanusConfigLaws _ (map_config file items).
Proof.
  split.
  - intros. cbn. by rewrite lookup_insert_eq.
  - intros s k v c s' k' Hn. cbn. by rewrite lookup_insert_ne.
Qed.
