(* ===== verification/SampleEvents.v ===== *)
(** * The sample event handler: janus/event/kore_msg.c

    A plug-in of Janus that is given every event of the server, queues it, and has a thread
    send it to another worker of kore.  The core's calls ([janus_sampleevh_incoming_event],
    [janus_sampleevh_handle_request]) come from any of its threads and are steps of their own;
    between two turns of the thread's inner loop the others do what [others] says.  The events
    and the array they are grouped in are values with reference counts ([MediaRooms.JsonRefs]).

    The configuration ([JanusConfig]), the mask of events, the check of a request's parameters
    and the texts of values are Janus's and jansson's and are parameters ([EvhCore],
    [EvhRefs]).  What is behind the comments (the POST to a web server) is not compiled and
    not modelled; with it go the readers of the retransmissions and of the backend. *)

From Stdlib Require Import ZArith.
From S2P Require Import Prelude Jansson KoreNet MediaRooms Janus JanusConfig JanusServer GatewayConf.

Local Open Scope c_scope.

Module Evh.
Import Media Janus.

(** ** Data *)

Inductive item : Type := Event (l : loc) | ExitEvent.
Inductive format : Type := Indented | Plain | Compact.
(** A string of the heap, by what its pointer is. *)
Inductive text : Type := Null | Text (s : string) | Freed.

Record evh (R : Type) : Type := Evh {
  initialized : bool;
  stopping : bool;
  handler_thread : bool;  (* was started and not joined *)
  waiting : bool;  (* the thread is in [g_async_queue_pop] *)
  events : option (list item);  (* the queue, oldest first *)
  group_events : bool;
  json_format : format;
  max_retransmissions : Z;
  retransmissions_backoff : Z;
  backend : text;
  backend_user : text;
  backend_pwd : text;
  events_mask : Z;
  evh_mutex : bool;  (* is held *)
  jrefs : R;  (* the references of the events *)
  msgs : list string  (* sent to the other worker, newest first *)
}.
Arguments Evh {R}.
Arguments initialized {R}.
Arguments stopping {R}.
Arguments handler_thread {R}.
Arguments waiting {R}.
Arguments events {R}.
Arguments group_events {R}.
Arguments json_format {R}.
Arguments max_retransmissions {R}.
Arguments retransmissions_backoff {R}.
Arguments backend {R}.
Arguments backend_user {R}.
Arguments backend_pwd {R}.
Arguments events_mask {R}.
Arguments evh_mutex {R}.
Arguments jrefs {R}.
Arguments msgs {R}.

Definition e_initialized {R : Type} (f : bool -> bool) (w : evh R) : evh R :=
  Evh (f (initialized w)) (stopping w) (handler_thread w) (waiting w) (events w) (group_events w) (json_format w) (max_retransmissions w) (retransmissions_backoff w) (backend w) (backend_user w) (backend_pwd w) (events_mask w) (evh_mutex w) (jrefs w) (msgs w).
Definition e_stopping {R : Type} (f : bool -> bool) (w : evh R) : evh R :=
  Evh (initialized w) (f (stopping w)) (handler_thread w) (waiting w) (events w) (group_events w) (json_format w) (max_retransmissions w) (retransmissions_backoff w) (backend w) (backend_user w) (backend_pwd w) (events_mask w) (evh_mutex w) (jrefs w) (msgs w).
Definition e_handler_thread {R : Type} (f : bool -> bool) (w : evh R) : evh R :=
  Evh (initialized w) (stopping w) (f (handler_thread w)) (waiting w) (events w) (group_events w) (json_format w) (max_retransmissions w) (retransmissions_backoff w) (backend w) (backend_user w) (backend_pwd w) (events_mask w) (evh_mutex w) (jrefs w) (msgs w).
Definition e_waiting {R : Type} (f : bool -> bool) (w : evh R) : evh R :=
  Evh (initialized w) (stopping w) (handler_thread w) (f (waiting w)) (events w) (group_events w) (json_format w) (max_retransmissions w) (retransmissions_backoff w) (backend w) (backend_user w) (backend_pwd w) (events_mask w) (evh_mutex w) (jrefs w) (msgs w).
Definition e_events {R : Type} (f : option (list item) -> option (list item)) (w : evh R) : evh R :=
  Evh (initialized w) (stopping w) (handler_thread w) (waiting w) (f (events w)) (group_events w) (json_format w) (max_retransmissions w) (retransmissions_backoff w) (backend w) (backend_user w) (backend_pwd w) (events_mask w) (evh_mutex w) (jrefs w) (msgs w).
Definition e_group_events {R : Type} (f : bool -> bool) (w : evh R) : evh R :=
  Evh (initialized w) (stopping w) (handler_thread w) (waiting w) (events w) (f (group_events w)) (json_format w) (max_retransmissions w) (retransmissions_backoff w) (backend w) (backend_user w) (backend_pwd w) (events_mask w) (evh_mutex w) (jrefs w) (msgs w).
Definition e_json_format {R : Type} (f : format -> format) (w : evh R) : evh R :=
  Evh (initialized w) (stopping w) (handler_thread w) (waiting w) (events w) (group_events w) (f (json_format w)) (max_retransmissions w) (retransmissions_backoff w) (backend w) (backend_user w) (backend_pwd w) (events_mask w) (evh_mutex w) (jrefs w) (msgs w).
Definition e_max_retransmissions {R : Type} (f : Z -> Z) (w : evh R) : evh R :=
  Evh (initialized w) (stopping w) (handler_thread w) (waiting w) (events w) (group_events w) (json_format w) (f (max_retransmissions w)) (retransmissions_backoff w) (backend w) (backend_user w) (backend_pwd w) (events_mask w) (evh_mutex w) (jrefs w) (msgs w).
Definition e_retransmissions_backoff {R : Type} (f : Z -> Z) (w : evh R) : evh R :=
  Evh (initialized w) (stopping w) (handler_thread w) (waiting w) (events w) (group_events w) (json_format w) (max_retransmissions w) (f (retransmissions_backoff w)) (backend w) (backend_user w) (backend_pwd w) (events_mask w) (evh_mutex w) (jrefs w) (msgs w).
Definition e_backend {R : Type} (f : text -> text) (w : evh R) : evh R :=
  Evh (initialized w) (stopping w) (handler_thread w) (waiting w) (events w) (group_events w) (json_format w) (max_retransmissions w) (retransmissions_backoff w) (f (backend w)) (backend_user w) (backend_pwd w) (events_mask w) (evh_mutex w) (jrefs w) (msgs w).
Definition e_backend_user {R : Type} (f : text -> text) (w : evh R) : evh R :=
  Evh (initialized w) (stopping w) (handler_thread w) (waiting w) (events w) (group_events w) (json_format w) (max_retransmissions w) (retransmissions_backoff w) (backend w) (f (backend_user w)) (backend_pwd w) (events_mask w) (evh_mutex w) (jrefs w) (msgs w).
Definition e_backend_pwd {R : Type} (f : text -> text) (w : evh R) : evh R :=
  Evh (initialized w) (stopping w) (handler_thread w) (waiting w) (events w) (group_events w) (json_format w) (max_retransmissions w) (retransmissions_backoff w) (backend w) (backend_user w) (f (backend_pwd w)) (events_mask w) (evh_mutex w) (jrefs w) (msgs w).
Definition e_events_mask {R : Type} (f : Z -> Z) (w : evh R) : evh R :=
  Evh (initialized w) (stopping w) (handler_thread w) (waiting w) (events w) (group_events w) (json_format w) (max_retransmissions w) (retransmissions_backoff w) (backend w) (backend_user w) (backend_pwd w) (f (events_mask w)) (evh_mutex w) (jrefs w) (msgs w).
Definition e_evh_mutex {R : Type} (f : bool -> bool) (w : evh R) : evh R :=
  Evh (initialized w) (stopping w) (handler_thread w) (waiting w) (events w) (group_events w) (json_format w) (max_retransmissions w) (retransmissions_backoff w) (backend w) (backend_user w) (backend_pwd w) (events_mask w) (f (evh_mutex w)) (jrefs w) (msgs w).
Definition e_jrefs {R : Type} (f : R -> R) (w : evh R) : evh R :=
  Evh (initialized w) (stopping w) (handler_thread w) (waiting w) (events w) (group_events w) (json_format w) (max_retransmissions w) (retransmissions_backoff w) (backend w) (backend_user w) (backend_pwd w) (events_mask w) (evh_mutex w) (f (jrefs w)) (msgs w).
Definition e_msgs {R : Type} (f : list string -> list string) (w : evh R) : evh R :=
  Evh (initialized w) (stopping w) (handler_thread w) (waiting w) (events w) (group_events w) (json_format w) (max_retransmissions w) (retransmissions_backoff w) (backend w) (backend_user w) (backend_pwd w) (events_mask w) (evh_mutex w) (jrefs w) (f (msgs w)).

(** The static variables as they begin. *)
Definition evh_static {R : Type} (r : R) : evh R :=
  Evh false false false false None true Indented 5 100 Null Null Null 0 false r [].

Definition request_parameters : list Srv.janus_json_parameter := [Srv.JsonParameter "request" Srv.JSON_STRING true false].
Definition tweak_parameters : list Srv.janus_json_parameter :=
  [Srv.JsonParameter "events" Srv.JSON_STRING false false; Srv.JsonParameter "grouping" Srv.JANUS_JSON_BOOL false false;
   Srv.JsonParameter "backend" Srv.JSON_STRING false false; Srv.JsonParameter "backend_user" Srv.JSON_STRING false false;
   Srv.JsonParameter "backend_pwd" Srv.JSON_STRING false false; Srv.JsonParameter "max_retransmissions" Srv.JSON_INTEGER false true;
   Srv.JsonParameter "retransmissions_backoff" Srv.JSON_INTEGER false true].

Definition JANUS_SAMPLEEVH_ERROR_INVALID_REQUEST : Z := 411.
Definition JANUS_SAMPLEEVH_ERROR_MISSING_ELEMENT : Z := 412.
Definition JANUS_SAMPLEEVH_ERROR_INVALID_ELEMENT : Z := 413.
Definition JANUS_SAMPLEEVH_PACKAGE : string := "janus.eventhandler.samplekoremsg".

(** ** Janus and jansson *)

Class EvhCore (J : Type) := {
  (* the object, its parameters, the codes of a missing and of an invalid one; [None]: valid *)
  validate : J -> list Srv.janus_json_parameter -> Z -> Z -> option (Z * string);
  janus_events_edit_events_mask : string -> Z -> Z;
  g_thread_try_new : bool
}.

Class EvhRefs (R : Type) `{JsonRefs R} := {
  json_incref : loc -> R -> R;
  json_dumps_as : format -> loc -> R -> option string
}.
Class EvhRefsLaws (R : Type) `{EvhRefs R} := {
  json_incref_law : forall l r n ms, json_view r !! l = Some (n, ms) -> json_view (json_incref l r) = <[l := (S n, ms)]> (json_view r);
  json_drop_stays_law : forall ls r r' l, json_view r !! l = None -> json_drop ls r = Some r' -> json_view r' !! l = None
}.

Section Code.
Context {R J C : Type} `{EvhRefs R} `{Jansson J} `{!EvhCore J} `{JanusConfig C}.
Abbreviation m := (M (evh R)).

Definition drop (ls : list loc) : m unit :=
  r ← gets jrefs; r ← live (json_drop ls r); modify (e_jrefs (fun _ => r)).
(** An access of a value. *)
Definition touch (l : loc) : m unit := r ← gets jrefs; _ ← live (json_view r !! l); mret tt.

(** ** The configuration *)

Definition janus_sampleevh_event_free (event : item) : m unit :=
  match event with ExitEvent => mret tt | Event l => drop [l] end.

(** [g_async_queue_unref], of the last reference. *)
Fixpoint free_queue (q : list item) : m unit :=
  match q with [] => mret tt | i :: q => janus_sampleevh_event_free i;; free_queue q end.

(** [strstr(s, "http") == s] *)
Definition http (s : string) : bool := String.prefix "http" s.

(** [config_path/package.jcfg], or else [.cfg] *)
Definition sampleevh_config (config_path : string) : option C :=
  match janus_config_parse (snprintf 255 (config_path +:+ "/" +:+ JANUS_SAMPLEEVH_PACKAGE +:+ ".jcfg")) with
  | Some c => Some c
  | None => janus_config_parse (snprintf 255 (config_path +:+ "/" +:+ JANUS_SAMPLEEVH_PACKAGE +:+ ".cfg"))
  end.

Definition item_text (o : option string) : text := match o with Some s => Text s | None => Null end.

(** What the file says about the format; [None]: nothing. *)
Definition json_option (s : string) : format :=
  if strcasecmp_eq s "indented" then Indented
  else if strcasecmp_eq s "plain" then Plain
  else if strcasecmp_eq s "compact" then Compact
  else Indented.

Definition general (c : C) (key : string) : option string := config_value c "general" key.

(** Behind the checks: every setting the file has. *)
Definition sampleevh_settings (c : C) (b : string) (w : evh R) : evh R :=
  let mr := Conf.atoi_int <$> general c "max_retransmissions" in
  let rb := Conf.atoi_int <$> general c "retransmissions_backoff" in
  Evh (initialized w) (stopping w) (handler_thread w) (waiting w) (events w)
    (match general c "grouping" with Some s => janus_is_true s | None => group_events w end)
    (match general c "json" with Some s => json_option s | None => json_format w end)
    (match mr with Some n => if (n <? 0)%Z then max_retransmissions w else n | None => max_retransmissions w end)
    (match rb with Some n => if (n <=? 0)%Z then retransmissions_backoff w else n | None => retransmissions_backoff w end)
    (Text b) (item_text (general c "backend_user")) (item_text (general c "backend_pwd"))
    (match general c "events" with Some s => janus_events_edit_events_mask s (events_mask w) | None => events_mask w end)
    (evh_mutex w) (jrefs w) (msgs w).

(** [enabled] behind the configuration. *)
Definition sampleevh_configure (config : option C) : m bool :=
  match config with
  | None => mret false
  | Some c =>
      if negb (match general c "enabled" with Some s => janus_is_true s | None => false end) then mret false
      else
        match general c "backend" with
        | Some b => if http b then modify (sampleevh_settings c b);; mret true else mret false
        | None => mret false
        end
  end.

Definition janus_sampleevh_init (config_path : option string) : m Z :=
  s ← gets stopping;
  if (s : bool) then mret (-1)%Z
  else
    match config_path with
    | None => mret (-1)%Z
    | Some path =>
        enabled ← sampleevh_configure (sampleevh_config path);
        if negb enabled then mret (-1)%Z
        else
          modify (e_events (fun _ => Some []));;
          modify (e_evh_mutex (fun _ => false));;
          modify (e_initialized (fun _ => true));;
          if g_thread_try_new then modify (e_handler_thread (fun _ => true));; modify (e_waiting (fun _ => false));; mret 0%Z
          else modify (e_initialized (fun _ => false));; mret (-1)%Z
    end.

(** ** Events *)

Definition closing (w : evh R) : bool := stopping w || negb (initialized w).

(** [g_async_queue_push] *)
Definition push (i : item) : m unit :=
  q ← gets events; _ ← deref q; modify (e_events (fmap (fun q => q ++ [i]))).

Definition janus_sampleevh_incoming_event (event : loc) : m unit :=
  c ← gets closing;
  if (c : bool) then mret tt
  else
    touch event;;
    modify (fun w => e_jrefs (json_incref event) w);;
    push (Event event).

(** ** Requests of the administrator *)

Definition response (error : option (Z * string)) : J :=
  match error with
  | None => json_object [("result", json_integer 200)]
  | Some (error_code, error_cause) =>
      json_object [("error_code", json_integer error_code); ("error", json_string error_cause)]
  end.

Definition replace (t : text) (s : option string) : m text :=
  match s, t with
  | None, _ => mret t
  | Some _, Freed => crash UseAfterFree
  | Some s, _ => mret (Text s)
  end.

(** The backend's strings, under the mutex. *)
Definition tweak_backend (req_backend req_backend_user req_backend_pwd : option string) : m unit :=
  match req_backend, req_backend_user, req_backend_pwd with
  | None, None, None => mret tt
  | _, _, _ =>
      l ← gets evh_mutex;
      if (l : bool) then crash LockMisuse
      else
        modify (e_evh_mutex (fun _ => true));;
        b ← gets backend; b ← replace b req_backend; modify (e_backend (fun _ => b));;
        u ← gets backend_user; u ← replace u req_backend_user; modify (e_backend_user (fun _ => u));;
        p ← gets backend_pwd; p ← replace p req_backend_pwd; modify (e_backend_pwd (fun _ => p));;
        modify (e_evh_mutex (fun _ => false))
  end.

Definition member_string (request : J) (key : string) : option string := json_object_get request key ≫= json_string_value.
(** [-1] where the member is missing *)
Definition member_int (request : J) (key : string) : Z :=
  match json_object_get request key with Some j => Conf.to_int (json_int j) | None => (-1)%Z end.

(** "If we got here, we can enforce" *)
Definition tweak (request : J) : m unit :=
  (match member_string request "events" with
   | Some s => modify (fun w => e_events_mask (janus_events_edit_events_mask s) w)
   | None => mret tt
   end);;
  (match json_object_get request "grouping" with
   | Some j => modify (e_group_events (fun _ => json_is_true j))
   | None => mret tt
   end);;
  tweak_backend (member_string request "backend") (member_string request "backend_user") (member_string request "backend_pwd");;
  (if! (-1 <? member_int request "max_retransmissions")%Z then
     modify (e_max_retransmissions (fun _ => member_int request "max_retransmissions")));;
  if! (-1 <? member_int request "retransmissions_backoff")%Z then
    modify (e_retransmissions_backoff (fun _ => member_int request "retransmissions_backoff")).

Definition tweak_error (request : J) : option (Z * string) :=
  match validate request tweak_parameters JANUS_SAMPLEEVH_ERROR_MISSING_ELEMENT JANUS_SAMPLEEVH_ERROR_INVALID_ELEMENT with
  | Some e => Some e
  | None =>
      match member_string request "backend" with
      | Some b =>
          if http b then None
          else Some (JANUS_SAMPLEEVH_ERROR_INVALID_ELEMENT, snprintf 512 ("Invalid HTTP URI '" +:+ b +:+ "'"))
      | None => None
      end
  end.

Definition janus_sampleevh_handle_request (request : J) : m (option J) :=
  c ← gets closing;
  if (c : bool) then mret None
  else
    match validate request request_parameters JANUS_SAMPLEEVH_ERROR_MISSING_ELEMENT JANUS_SAMPLEEVH_ERROR_INVALID_ELEMENT with
    | Some e => mret (Some (response (Some e)))
    | None =>
        request_text ← deref (member_string request "request");
        if negb (strcasecmp_eq request_text "tweak") then
          mret (Some (response (Some (JANUS_SAMPLEEVH_ERROR_INVALID_REQUEST,
            snprintf 512 ("Unknown request '" +:+ request_text +:+ "'")))))
        else
          match tweak_error request with
          | Some e => mret (Some (response (Some e)))
          | None => tweak request;; mret (Some (response None))
          end
    end.

(** ** The thread *)

(** The event goes to the end of the array, which is made for the first. *)
Definition put_event (event : loc) (output : option loc) : m loc :=
  output ← (match output with
            | Some o => mret o
            | None => r ← gets jrefs; let '(o, r) := json_new r in modify (e_jrefs (fun _ => r));; mret o
            end);
  modify (fun w => e_jrefs (json_set_new output event) w);;
  mret output.

Inductive round : Type := Waits | Left | Again.

Section Thread.
(** What the other threads do before the thread's inner loop turns the [n]th time, [max] being
    how often it may still. *)
Context (others : nat -> evh R -> evh R).

(** [while(TRUE)]: the event is looked at, and sent alone or with those that wait. [turns]
    counts down from [max], which was read when the thread started. *)
Fixpoint gather (turns : nat) (event : loc) (output : option loc) : m loc :=
  modify (others turns);;
  touch event;;
  g ← gets group_events;
  if negb g then mret event
  else
    output ← put_event event output;
    match turns with
    | O | S O => mret output
    | S turns =>
        q ← gets events; q ← deref q;
        match q with
        | [] => mret output
        | ExitEvent :: q => modify (e_events (fun _ => Some q));; mret output
        | Event event :: q => modify (e_events (fun _ => Some q));; gather turns event (Some output)
        end
    end.

(** The rest of a round: the text is sent to the other worker and freed, and the output given
    back, twice. *)
Definition send_output (output : loc) : m unit :=
  r ← gets jrefs; f ← gets json_format;
  event_text ← deref (json_dumps_as f output r);
  modify (e_msgs (cons event_text));;
  drop [output];;
  drop [output].

Definition handler_pop (max : nat) : m round :=
  q ← gets events; q ← deref q;
  match q with
  | [] => modify (e_waiting (fun _ => true));; mret Waits
  | ExitEvent :: q =>
      modify (e_waiting (fun _ => false));; modify (e_events (fun _ => Some q));; mret Left
  | Event event :: q =>
      modify (e_waiting (fun _ => false));; modify (e_events (fun _ => Some q));;
      output ← gather max event None;
      send_output output;; mret Again
  end.

(** One round; a thread that waits for an event goes on where it waited. *)
Definition janus_sampleevh_handler (max : nat) : m round :=
  wt ← gets waiting;
  c ← gets closing;
  if negb wt && c then mret Left else handler_pop max.

(** [g_thread_join]: until the thread has left. *)
Fixpoint join (fuel max : nat) : m unit :=
  match fuel with
  | O => crash Fuel
  | S fuel =>
      r ← janus_sampleevh_handler max;
      match r with Left => mret tt | Again => join fuel max | Waits => crash Fuel end
  end.

(** [max] is 100, or 1 for a thread that was started without grouping. *)
Definition janus_sampleevh_destroy (fuel max : nat) : m unit :=
  i ← gets initialized;
  if negb i then mret tt
  else
    modify (e_stopping (fun _ => true));;
    push ExitEvent;;
    t ← gets handler_thread;
    (if! t then join fuel max;; modify (e_handler_thread (fun _ => false)));;
    q ← gets events; q ← deref q;
    free_queue q;;
    modify (e_events (fun _ => None));;
    b ← gets backend;
    (match b with Freed => crash UseAfterFree | Text _ => modify (e_backend (fun _ => Freed)) | Null => mret tt end);;
    modify (e_initialized (fun _ => false));;
    modify (e_stopping (fun _ => false)).
End Thread.

Definition group_max (w : evh R) : nat := if group_events w then 100 else 1.
End Code.

(** ** The events that are grouped *)

(** Up to [n] events from the front of the queue, and what is left; an exit event ends the
    group and is taken out. *)
Fixpoint taken (n : nat) (q : list item) : list loc * list item :=
  match n, q with
  | S n, Event e :: q => (e :: (taken n q).1, (taken n q).2)
  | S _, ExitEvent :: q => ([], q)
  | _, _ => ([], q)
  end.

(** The queue's events, in order. *)
Definition queued (q : list item) : list loc := omap (fun i => match i with Event l => Some l | ExitEvent => None end) q.

Lemma taken_queued n q : (taken n q).1 ++ queued (taken n q).2 = queued q.
Proof.
  revert n. induction q as [|[e|] q IH]; intros [|n]; try done. cbn. f_equal. apply IH.
Qed.
Lemma taken_length n q : length (taken n q).1 <= n.
Proof. revert n. induction q as [|[e|] q IH]; intros [|n]; cbn; try lia. specialize (IH n). lia. Qed.

Section Laws.
Context {R J C : Type} `{EvhRefsLaws R} `{!JsonRefsLaws R} `{Jansson J} `{!EvhCore J} `{JanusConfig C}.
Implicit Types w : evh R.
Implicit Types r : R.

(** *** A group *)

(** The array so far: it has one reference, and these members. *)
Definition array_of (r : R) (output : option loc) (ms : list loc) : Prop :=
  match output with Some o => json_view r !! o = Some (1, ms) | None => ms = [] end.

Lemma put_run event output ms w :
  array_of (jrefs w) output ms ->
  exists o r, put_event event output w = Done (o, e_jrefs (fun _ => r) w) /\
    json_view r = <[o := (1, ms ++ [event])]> (json_view (jrefs w)) /\
    match output with Some o' => o = o' | None => json_view (jrefs w) !! o = None end.
Proof.
  intros Ha. unfold put_event. destruct output as [o|]; cbn [array_of] in Ha.
  - exists o, (json_set_new o event (jrefs w)). split; [done|]. split; [|done]. by apply json_set_new_law.
  - subst ms. destruct (json_new (jrefs w)) as [o r] eqn:Hn. destruct (json_new_law _ _ _ Hn) as [Hf Hv].
    exists o, (json_set_new o event r). split; [rewrite bind_assoc; run eq_refl; by rewrite Hn|]. split; [|done].
    rewrite (json_set_new_law _ _ _ 1 []) by (rewrite Hv; apply lookup_insert_eq). by rewrite Hv, insert_insert_eq.
Qed.

Section Group.
Context (others : nat -> evh R -> evh R).

(** The other threads leave alone what the thread reads, and values as they are. *)
Definition calm : Prop := forall n w,
  group_events (others n w) = group_events w /\ json_view (jrefs (others n w)) = json_view (jrefs w) /\
  (is_Some (events w) -> is_Some (events (others n w))).

Lemma touch_run {A : Type} l (k : M (evh R) A) w :
  (touch l;; k) w = match json_view (jrefs w) !! l with Some _ => k w | None => Crash UseAfterFree end.
Proof. unfold touch. rewrite bind_assoc. run eq_refl. by destruct (json_view (jrefs w) !! l). Qed.

(** The array of a group has one reference, or there is a freed event in the group. *)
Lemma gather_array turns : forall event output ms w,
  calm -> group_events w = true -> is_Some (events w) -> array_of (jrefs w) output ms ->
  gather others turns event output w = Crash UseAfterFree \/
  exists o w' ms, gather others turns event output w = Done (o, w') /\ json_view (jrefs w') !! o = Some (1, ms).
Proof.
  induction turns as [|turns IH]; intros event output ms w Hc Hg Hq Ha.
  all: match goal with |- gather _ ?n _ _ _ = _ \/ _ => destruct (Hc n w) as (Hg1 & Hv1 & Hq1) end; specialize (Hq1 Hq); cbn [gather]; run eq_refl.
  all: rewrite touch_run; destruct (json_view _ !! event) eqn:He; [|by left]; run eq_refl; rewrite Hg1, Hg; cbn [negb].
  all: edestruct (put_run event output ms) as (o & r & Hp & Hr & _);
    [destruct output; cbn [array_of] in *; [by rewrite Hv1|done]|]; run Hp.
  - right. do 3 eexists. split; [done|]. cbn. rewrite Hr. apply lookup_insert_eq.
  - assert (Hend : json_view r !! o = Some (1, ms ++ [event])) by (rewrite Hr; apply lookup_insert_eq).
    destruct turns as [|turns]; [right; by do 3 eexists|]. run eq_refl. destruct Hq1 as [q Hq1]. cbn [events e_jrefs]. rewrite Hq1.
    run eq_refl. destruct q as [|[e|] q]; [right; by do 3 eexists| |right; by do 3 eexists].
    run eq_refl. apply (IH _ (Some o) (ms ++ [event])); [done|cbn; congruence|by eexists|done].
Qed.

(** ... and they bring no events. *)
Definition quiet : Prop := calm /\ forall n w, events (others n w) = events w.

Lemma gather_run turns : forall event output ms q w,
  quiet -> group_events w = true -> events w = Some q -> array_of (jrefs w) output ms ->
  Forall (fun l => is_Some (json_view (jrefs w) !! l)) (event :: (taken (pred turns) q).1) ->
  exists o w', gather others turns event output w = Done (o, w') /\
    json_view (jrefs w') = <[o := (1, ms ++ event :: (taken (pred turns) q).1)]> (json_view (jrefs w)) /\
    events w' = Some (taken (pred turns) q).2 /\
    match output with Some o' => o = o' | None => json_view (jrefs w) !! o = None end.
Proof.
  induction turns as [|turns IH]; intros event output ms q w [Hc Hq] Hg He Ha Hl.
  all: match goal with |- context [gather _ ?n _ _ _] => destruct (Hc n w) as (Hg1 & Hv1 & _); specialize (Hq n w) as Hq1 end.
  all: cbn [gather]; run eq_refl; rewrite touch_run, Hv1; pose proof (Forall_inv Hl) as [x Hx]; rewrite Hx; run eq_refl.
  all: rewrite Hg1, Hg; cbn [negb].
  all: edestruct (put_run event output ms) as (o & r & Hp & Hr & Hof);
    [destruct output; cbn [array_of] in *; [by rewrite Hv1|done]|]; run Hp; rewrite Hv1 in Hr.
  - exists o, (e_jrefs (fun _ => r) (others 0 w)). split; [done|]. split; [done|]. split; [cbn; by rewrite Hq1|].
    by destruct output; [|rewrite <- Hv1].
  - assert (Hend : json_view r !! o = Some (1, ms ++ [event])) by (rewrite Hr; apply lookup_insert_eq).
    cbn [pred] in *. destruct turns as [|turns].
    { exists o, (e_jrefs (fun _ => r) (others 1 w)). split; [done|]. split; [done|]. split; [cbn; by rewrite Hq1|].
      by destruct output; [|rewrite <- Hv1]. }
    run eq_refl. cbn [events e_jrefs]. rewrite Hq1, He. run eq_refl. apply Forall_cons in Hl as [_ Hl]. destruct q as [|[e|] q].
    + eexists o, _. split; [done|]. split; [done|]. split; [cbn; by rewrite Hq1|]. by destruct output; [|rewrite <- Hv1].
    + run eq_refl. destruct (IH e (Some o) (ms ++ [event]) q (e_events (fun _ => Some q) (e_jrefs (fun _ => r) (others (S (S turns)) w))))
        as (o' & w' & Hrun & Hv & Hev & ->); [done|cbn; congruence|done|done| |].
      { cbn [jrefs e_events e_jrefs pred taken fst] in *. rewrite Hr. eapply Forall_impl; [done|]. cbn. intros l Hs.
        destruct (decide (l = o)) as [->|]; [by rewrite lookup_insert_eq|by rewrite lookup_insert_ne]. }
      exists o, w'. split; [done|]. cbn [jrefs e_events e_jrefs pred] in *. rewrite Hv, Hr, insert_insert_eq, <- app_assoc.
      split; [done|]. split; [done|]. by destruct output; [|rewrite <- Hv1].
    + run eq_refl. eexists o, _. split; [done|]. split; [done|]. split; [done|]. by destruct output; [|rewrite <- Hv1].
Qed.

(** C33: The thread groups the events that wait, in the order they came, up to its maximum: they
    become the members of a new array, in the place of their references, and leave the queue;
    the end of the group is an empty queue, the exit event or the maximum. *)
Theorem events_grouped max event q w :
  quiet -> group_events w = true -> events w = Some q ->
  Forall (fun l => is_Some (json_view (jrefs w) !! l)) (event :: (taken (pred max) q).1) ->
  exists o w', gather others max event None w = Done (o, w') /\ json_view (jrefs w) !! o = None /\
    json_view (jrefs w') = <[o := (1, event :: (taken (pred max) q).1)]> (json_view (jrefs w)) /\
    events w' = Some (taken (pred max) q).2 /\
    (taken (pred max) q).1 ++ queued (taken (pred max) q).2 = queued q /\ length (taken (pred max) q).1 <= pred max.
Proof.
  intros Hq Hg He Hl. destruct (gather_run max event None [] q w Hq Hg He eq_refl Hl) as (o & w' & Hr & Hv & Hev & Ho).
  exists o, w'. split_and!; [done..|apply taken_queued|apply taken_length].
Qed.

(** *** What becomes of it *)

Lemma drop_shared l n ms w :
  json_view (jrefs w) !! l = Some (S (S n), ms) ->
  exists r, drop [l] w = Done (tt, e_jrefs (fun _ => r) w) /\ json_view r = <[l := (S n, ms)]> (json_view (jrefs w)).
Proof.
  intros Hl. destruct (json_drop_shared l [] (jrefs w) n ms Hl) as (r & Hv & Hd). exists r. split; [|done].
  unfold drop. run eq_refl. by rewrite Hd, json_drop_nil.
Qed.

Lemma drop_last l ms w w' : json_view (jrefs w) !! l = Some (1, ms) -> drop [l] w = Done (tt, w') -> json_view (jrefs w') !! l = None.
Proof.
  intros Hl Hd. unfold drop in Hd. run eq_refl in Hd. destruct (json_drop_last l [] (jrefs w) ms Hl) as (r' & Hv & Heq). rewrite Heq in Hd.
  destruct (json_drop (ms ++ []) r') as [r|] eqn:Hr; [|done]. run eq_refl in Hd. injection Hd as <-. cbn.
  eapply json_drop_stays_law; [|exact Hr]. rewrite Hv. apply lookup_delete_eq.
Qed.

Lemma drop_outcome l w : (exists w', drop [l] w = Done (tt, w')) \/ drop [l] w = Crash UseAfterFree.
Proof. unfold drop, mbind, M_bind. cbn. destruct (json_drop [l] (jrefs w)) as [r|]; [left; by eexists|by right]. Qed.

Lemma drop_dead l w : json_view (jrefs w) !! l = None -> drop [l] w = Crash UseAfterFree.
Proof. intros Hl. unfold drop. run eq_refl. by rewrite (json_drop_dead _ _ _ Hl). Qed.

Lemma dropped_twice l ms w : json_view (jrefs w) !! l = Some (1, ms) -> (drop [l];; drop [l]) w = Crash UseAfterFree.
Proof.
  intros Hl. destruct (drop_outcome l w) as [[w' Hd]|Hd]; [|by apply bind_crash]. run Hd. by eapply drop_dead, drop_last.
Qed.

Definition printable : Prop := forall f l r, is_Some (json_view r !! l) -> is_Some (json_dumps_as f l r).

Lemma evh_send_run o w :
  printable -> is_Some (json_view (jrefs w) !! o) ->
  exists t, send_output o w = (drop [o];; drop [o]) (e_msgs (cons t) w).
Proof.
  intros Hp Ho. destruct (Hp (json_format w) o (jrefs w) Ho) as [t Ht]. exists t. unfold send_output. do 2 run eq_refl. rewrite Ht.
  by do 2 run eq_refl.
Qed.

Lemma output_crashes o ms w :
  printable -> json_view (jrefs w) !! o = Some (1, ms) -> send_output o w = Crash UseAfterFree.
Proof. intros Hp Ho. destruct (evh_send_run o w Hp) as [t ->]; [by eexists|]. by apply (dropped_twice o ms). Qed.

(** A thread that groups uses the array it has freed, with the first event it is given. *)
Theorem first_event_crashes max event q w :
  calm -> printable -> group_events w = true -> events w = Some (Event event :: q) -> (waiting w = true \/ closing w = false) ->
  janus_sampleevh_handler others max w = Crash UseAfterFree.
Proof.
  intros Hc Hp Hg He Hgo. unfold janus_sampleevh_handler. do 2 run eq_refl.
  replace (negb (waiting w) && closing w) with false by (destruct Hgo as [-> | ->]; by rewrite ?andb_false_r).
  unfold handler_pop. run eq_refl. rewrite He. do 3 run eq_refl.
  set (w1 := e_events _ _). destruct (gather_array max event None [] w1 Hc Hg) as [Hr|(o & w' & ms & Hr & Ho)]; [by eexists|done|..].
  - by apply bind_crash.
  - run Hr. apply bind_crash. by apply (output_crashes o ms).
Qed.

(** Without grouping the thread gives the event back twice: it uses what it has freed when the
    event is nobody else's, frees it under a second owner, and takes away somebody's reference
    when there are more. *)
Theorem lone_event_lost_twice max event q n ms w :
  calm -> printable -> group_events w = false -> events w = Some (Event event :: q) -> (waiting w = true \/ closing w = false) ->
  json_view (jrefs w) !! event = Some (n, ms) ->
  (n = 1 -> janus_sampleevh_handler others max w = Crash UseAfterFree) /\
  (n = 2 -> forall x w', janus_sampleevh_handler others max w = Done (x, w') -> json_view (jrefs w') !! event = None) /\
  (forall k, n = S (S (S k)) -> exists w', janus_sampleevh_handler others max w = Done (Again, w') /\
     json_view (jrefs w') = <[event := (S k, ms)]> (json_view (jrefs w))).
Proof.
  intros Hc Hp Hg He Hgo Hv. destruct (Hc max (e_events (fun _ => Some q) (e_waiting (fun _ => false) w))) as (Hg1 & Hv1 & _).
  set (w1 := others max _) in *. cbn [jrefs group_events e_events e_waiting] in Hg1, Hv1.
  assert (Hrun : janus_sampleevh_handler others max w = (send_output event;; mret Again) w1).
  { unfold janus_sampleevh_handler. do 2 run eq_refl.
    replace (negb (waiting w) && closing w) with false by (destruct Hgo as [-> | ->]; by rewrite ?andb_false_r).
    unfold handler_pop. run eq_refl. rewrite He. do 3 run eq_refl.
    erewrite bind_step; [done|]. destruct max; cbn [gather]; run eq_refl; fold w1; by rewrite touch_run, Hv1, Hv; run eq_refl; rewrite Hg1, Hg. }
  rewrite Hrun. rewrite <- Hv1 in Hv. clear Hrun. split_and!.
  - intros ->. apply bind_crash. by apply (output_crashes event ms).
  - intros -> x w' Hr. destruct (evh_send_run event w1 Hp) as [t Ht]; [by eexists|]. inv_bind Hr. rewrite Ht in Hrun.
    destruct (drop_shared event 0 ms (e_msgs (cons t) w1) Hv) as (r & Hd & Hrv). rewrite (bind_step _ _ _ _ _ Hd) in Hrun.
    destruct a. apply (drop_last event ms) in Hrun; [|cbn; rewrite Hrv; apply lookup_insert_eq]. by injection Hr as <- <-.
  - intros k ->. destruct (evh_send_run event w1 Hp) as [t Ht]; [by eexists|].
    destruct (drop_shared event _ ms (e_msgs (cons t) w1) Hv) as (r & Hd & Hrv). 
    destruct (drop_shared event k ms (e_jrefs (fun _ => r) (e_msgs (cons t) w1))) as (r2 & Hd2 & Hrv2);
      [cbn; rewrite Hrv; apply lookup_insert_eq|].
    eexists. split; [erewrite bind_step; [done|rewrite Ht; run Hd; exact Hd2]|]. cbn in *. by rewrite Hrv2, Hrv, insert_insert_eq, Hv1.
Qed.
(** ** The end *)

(** Told to end while its thread waits for events, the plug-in ends: the thread has left, the
    queue is gone, the flags are as before its start, and events that come later are ignored.
    The backend's address is freed and its pointer stays; the credentials are not freed. *)
Theorem destroy_ends max w :
  initialized w = true -> handler_thread w = true -> waiting w = true -> events w = Some [] -> backend w <> Freed ->
  exists w', janus_sampleevh_destroy others 1 max w = Done (tt, w') /\
    initialized w' = false /\ stopping w' = false /\ handler_thread w' = false /\ waiting w' = false /\ events w' = None /\
    backend w' = (match backend w with Null => Null | _ => Freed end) /\ backend_user w' = backend_user w /\
    backend_pwd w' = backend_pwd w /\ jrefs w' = jrefs w /\ msgs w' = msgs w /\
    forall e, janus_sampleevh_incoming_event e w' = Done (tt, w').
Proof.
  intros Hi Ht Hw He Hb. destruct w as [i st t wt ev g f mr rb b u p k mu r ms]; cbn in *; subst.
  destruct b; [..|done]; (eexists; split; [reflexivity|]); by split_and!.
Qed.
End Group.

(** ** Events in *)

(** An event is queued last, with a reference of the queue's. *)
Theorem event_queued e q n ms w :
  closing w = false -> events w = Some q -> json_view (jrefs w) !! e = Some (n, ms) ->
  exists r, janus_sampleevh_incoming_event e w = Done (tt, e_events (fun _ => Some (q ++ [Event e])) (e_jrefs (fun _ => r) w)) /\
    json_view r = <[e := (S n, ms)]> (json_view (jrefs w)).
Proof.
  intros Hc Hq Hv. exists (json_incref e (jrefs w)). split; [|by apply json_incref_law].
  unfold janus_sampleevh_incoming_event. run eq_refl. rewrite Hc, touch_run, Hv. run eq_refl. unfold push. run eq_refl.
  cbn [events e_jrefs]. rewrite Hq. run eq_refl. unfold modify, e_events. cbn. by rewrite Hq.
Qed.
End Laws.

(** ** The administrator's requests *)

Section Admin.
Context {R J C : Type} `{EvhRefs R} `{Jansson J} `{!EvhCore J} `{JanusConfig C}.
Implicit Types w : evh R.

(** What is wrong with a request. *)
Definition request_error (request : J) : option (Z * string) :=
  match validate request request_parameters 412 413 with
  | Some e => Some e
  | None =>
      let text := default EmptyString (member_string request "request") in
      if strcasecmp_eq text "tweak" then tweak_error request
      else Some (411%Z, snprintf 512 ("Unknown request '" +:+ text +:+ "'"))
  end.

Definition or_text (o : option string) (t : text) : text := match o with Some s => Text s | None => t end.
Definition or_int (n old : Z) : Z := if (-1 <? n)%Z then n else old.

(** Every setting the request names, and no other. *)
Definition tweaked (request : J) (w : evh R) : evh R :=
  Evh (initialized w) (stopping w) (handler_thread w) (waiting w) (events w)
    (match json_object_get request "grouping" with Some j => json_is_true j | None => group_events w end)
    (json_format w)
    (or_int (member_int request "max_retransmissions") (max_retransmissions w))
    (or_int (member_int request "retransmissions_backoff") (retransmissions_backoff w))
    (or_text (member_string request "backend") (backend w))
    (or_text (member_string request "backend_user") (backend_user w))
    (or_text (member_string request "backend_pwd") (backend_pwd w))
    (match member_string request "events" with Some s => janus_events_edit_events_mask s (events_mask w) | None => events_mask w end)
    (evh_mutex w) (jrefs w) (msgs w).

(** The strings can be freed, and the mutex taken. *)
Definition settled (w : evh R) : Prop :=
  evh_mutex w = false /\ backend w <> Freed /\ backend_user w <> Freed /\ backend_pwd w <> Freed.

Lemma replace_run (o : option string) t (w : evh R) : t <> Freed -> replace t o w = Done (or_text o t, w).
Proof. by destruct o, t. Qed.

Lemma tweak_run request w : settled w -> tweak request w = Done (tt, tweaked request w).
Proof.
  intros (Hm & Hb & Hu & Hp). destruct w as [i st t wt ev g f mr rb b u p k mu r ms]; cbn in *; subst.
  unfold tweak, tweaked, or_int. cbn. set (eb := member_string request "backend"). set (eu := member_string request "backend_user").
  set (ep := member_string request "backend_pwd").
  destruct (member_string request "events"), (json_object_get request "grouping"), eb, eu, ep, b, u, p; try done;
    cbn; by destruct (_ <? _)%Z, (_ <? _)%Z.
Qed.

(** C36: A request is applied whole or not at all, and the answer says which. *)
Theorem tweak_all_or_nothing request w :
  closing w = false -> settled w ->
  (validate request request_parameters 412 413 = None -> is_Some (member_string request "request")) ->
  janus_sampleevh_handle_request request w =
    Done (Some (response (request_error request)), match request_error request with None => tweaked request w | Some _ => w end).
Proof.
  intros Hc Hs Hr. unfold janus_sampleevh_handle_request, request_error. run eq_refl. rewrite Hc.
  unfold JANUS_SAMPLEEVH_ERROR_MISSING_ELEMENT, JANUS_SAMPLEEVH_ERROR_INVALID_ELEMENT.
  destruct (validate request request_parameters 412 413) as [e|]; [done|]. destruct (Hr eq_refl) as [t Ht]. rewrite Ht. run eq_refl.
  change (default EmptyString (Some t)) with t. destruct (strcasecmp_eq t "tweak"); cbn [negb]; [|done].
  destruct (tweak_error request) as [e|]; [done|]. by run (tweak_run request w Hs).
Qed.

(** ** The start *)

Definition configured (c : C) : bool :=
  match general c "enabled" with Some s => janus_is_true s | None => false end &&
  match general c "backend" with Some b => http b | None => false end.

Definition in_range (w : evh R) : Prop := (0 <= max_retransmissions w)%Z /\ (0 < retransmissions_backoff w)%Z.

Lemma settings_range c b w : in_range w -> in_range (sampleevh_settings c b w).
Proof.
  intros [Hm Hb]. unfold in_range. cbn. split.
  - destruct (Conf.atoi_int <$> general c "max_retransmissions") as [n|]; [|done]. by destruct (Z.ltb_spec n 0).
  - destruct (Conf.atoi_int <$> general c "retransmissions_backoff") as [n|]; [|done]. by destruct (Z.leb_spec n 0).
Qed.

Lemma configure_run o w :
  (exists c b, o = Some c /\ configured c = true /\ http b = true /\
     sampleevh_configure o w = Done (true, sampleevh_settings c b w)) \/
  ((forall c, o = Some c -> configured c = false) /\ sampleevh_configure o w = Done (false, w)).
Proof.
  unfold configured, sampleevh_configure. destruct o as [c|]; [|by right].
  destruct (match general c "enabled" with Some s => janus_is_true s | None => false end) eqn:He; cbn [negb].
  - destruct (general c "backend") as [b|] eqn:Hb.
    + destruct (http b) eqn:Hh; [left; exists c, b; by rewrite He, Hb, Hh|right]. split; [|done]. intros c' [= <-]. by rewrite He, Hb, Hh.
    + right. split; [|done]. intros c' [= <-]. by rewrite He, Hb.
  - right. split; [|done]. intros c' [= <-]. by rewrite He.
Qed.

(** The plug-in starts if and only if its file enables it with an address of the web, and the
    thread can be made; retransmissions and their step stay in their ranges whatever the file
    says. *)
Theorem init_exact path w :
  stopping w = false -> in_range w ->
  exists n w', janus_sampleevh_init (Some path) w = Done (n, w') /\ in_range w' /\
    (n = 0%Z <-> (exists c, sampleevh_config path = Some c /\ configured c = true) /\ g_thread_try_new = true) /\
    (n = 0%Z -> closing w' = false /\ handler_thread w' = true /\ events w' = Some [] /\ exists b, backend w' = Text b /\ http b = true) /\
    (n <> 0%Z -> n = (-1)%Z /\ (initialized w = false -> initialized w' = false)).
Proof.
  intros Hs Hi. unfold janus_sampleevh_init. run eq_refl. rewrite Hs.
  destruct (configure_run (sampleevh_config path) w) as [(c & b & Hc & Hok & Hh & Hr)|[Hn Hr]]; run Hr; cbn [negb].
  - pose proof (settings_range c b w Hi) as Hi'. set (w1 := sampleevh_settings c b w) in *. do 3 run eq_refl.
    destruct g_thread_try_new; (do 2 eexists; split; [reflexivity|]; split; [exact Hi'|]; split_and!); try done.
    + split; [eauto|done].
    + intros _. split_and!; try done; [|by exists b]. unfold closing. cbn. by rewrite Hs.
    + by split; [|intros [_ [=]]].
  - exists (-1)%Z, w. split_and!; try done. split; [done|]. intros [(c & Hc & Hok) _]. by rewrite (Hn c Hc) in Hok.
Qed.
End Admin.

(** ** At work *)

Section Examples.

#[local] Instance x_refs : EvhRefs refs := {|
  json_incref := fun l r => alter (fun x => (S x.1, x.2)) l r;
  json_dumps_as := fun _ l r => (fun _ => "[]") <$> r !! l
|}.
Lemma refs_drop_stays fuel : forall ls (r r' : refs) l, r !! l = None -> refs_drop fuel ls r = Some r' -> r' !! l = None.
Proof.
  induction fuel as [|fuel IH]; intros ls r r' l Hl Hd.
  - destruct ls; [|done]. by injection Hd as <-.
  - destruct ls as [|a ls]; [by injection Hd as <-|]. cbn [refs_drop] in Hd. destruct (r !! a) as [[[|[|n]] ms]|] eqn:Ha; [done|..|done].
    + apply (IH _ _ _ l) in Hd; [done|]. destruct (decide (l = a)) as [->|]; [apply lookup_delete_eq|by rewrite lookup_delete_ne].
    + apply (IH _ _ _ l) in Hd; [done|]. rewrite lookup_insert_ne; [done|]. congruence.
Qed.
#[local] Instance x_refs_laws : EvhRefsLaws refs.
Proof.
  split.
  - intros l r n ms Hl. cbn in *. apply map_eq. intros k. destruct (decide (k = l)) as [->|].
    + by rewrite lookup_alter_eq, lookup_insert_eq, Hl.
    + by rewrite lookup_alter_ne, lookup_insert_ne.
  - intros ls r r' l. apply (refs_drop_stays (S (refs_total r))).
Qed.

#[local] Instance x_core : EvhCore json := {|
  validate := fun j ps missing _ =>
    if forallb (fun p => negb (Srv.p_required p) || bool_decide (is_Some (json_object_get j (Srv.p_name p)))) ps then None
    else Some (missing, "Missing element");
  janus_events_edit_events_mask := fun s n => if decide (s = "all") then 255%Z else n;
  g_thread_try_new := true
|}.
Definition x_items : config_map :=
  {[("general", "enabled") := "yes"; ("general", "events") := "all"; ("general", "backend") := "http://127.0.0.1:8888/testEvent";
    ("general", "max_retransmissions") := "-3"]}.
#[local] Instance x_config : JanusConfig config_map := map_config "conf/janus.eventhandler.samplekoremsg.cfg" x_items.

(** Two events of the core, which has a reference to each. *)
Definition x_off : evh refs := evh_static {[7 := (1, []); 8 := (1, [])]}.
Definition x_run {A : Type} (f : M (evh refs) A) (w : evh refs) : evh refs := default w (result_state (f w)).
Definition x_on : evh refs := x_run (janus_sampleevh_init (J := json) (Some "conf")) x_off.
Definition x_idle : evh refs := x_run (janus_sampleevh_handler (fun _ w => w) 100) x_on.
Definition x_busy : evh refs := x_run (janus_sampleevh_incoming_event 7;; janus_sampleevh_incoming_event 8) x_idle.

Lemma init_exact_witness :
  exists n w', janus_sampleevh_init (J := json) (Some "conf") x_off = Done (n, w') /\ n = 0%Z /\ in_range w'.
Proof.
  destruct (init_exact (J := json) "conf" x_off eq_refl) as (n & w' & Hr & Hi & Hn & _); [by vm_compute|].
  exists n, w'. split; [exact Hr|]. split; [|exact Hi]. apply Hn. split; [|done]. exists x_items. split; vm_compute; reflexivity.
Defined.

Lemma x_calm : calm (R := refs) (fun _ w => w).
Proof. done. Qed.
Lemma x_printable : printable (R := refs).
Proof. intros f l r [x Hx]. cbn in *. rewrite Hx. by eexists. Qed.

Lemma events_grouped_witness :
  exists o w', gather (fun _ w => w) 100 7 None (e_events (fun _ => Some [Event 8]) x_busy) = Done (o, w') /\
    json_view (jrefs w') !! o = Some (1, [7; 8]) /\ events w' = Some [].
Proof.
  destruct (events_grouped (R := refs) (fun _ w => w) 100 7 [Event 8] (e_events (fun _ => Some [Event 8]) x_busy)) as (o & w' & Hr & Ho & Hv & He & _);
    [by split|by vm_compute|done|by vm_compute; repeat constructor; eauto|].
  exists o, w'. split; [exact Hr|]. rewrite Hv. split; [apply lookup_insert_eq|exact He].
Defined.

Lemma first_event_crashes_witness : janus_sampleevh_handler (fun _ w => w) 100 x_busy = Crash UseAfterFree.
Proof. apply (first_event_crashes (fun _ w => w) 100 7 [Event 8]); [exact x_calm|exact x_printable|by vm_compute|by vm_compute|by left]. Defined.

Lemma lone_event_lost_twice_witness :
  forall x w', janus_sampleevh_handler (fun _ w => w) 1 (e_group_events (fun _ => false) x_busy) = Done (x, w') ->
    json_view (jrefs w') !! 7 = None.
Proof.
  apply (lone_event_lost_twice (fun _ w => w) 1 7 [Event 8] 2 [] (e_group_events (fun _ => false) x_busy) x_calm x_printable eq_refl);
    [by vm_compute|by left|by vm_compute|done].
Defined.

Lemma destroy_ends_witness : exists w', janus_sampleevh_destroy (fun _ w => w) 1 100 x_idle = Done (tt, w') /\ backend w' = Freed.
Proof.
  destruct (destroy_ends (R := refs) (fun _ w => w) 100 x_idle) as (w' & Hr & _ & _ & _ & _ & _ & Hb & _); [by vm_compute..|].
  exists w'. split; [exact Hr|]. rewrite Hb. by vm_compute.
Defined.

Lemma event_queued_witness : exists r,
  janus_sampleevh_incoming_event 7 x_idle = Done (tt, e_events (fun _ => Some [Event 7]) (e_jrefs (fun _ => r) x_idle)) /\
  json_view r !! 7 = Some (2, []).
Proof.
  destruct (event_queued (R := refs) 7 [] 1 [] x_idle) as (r & Hr & Hv); [by vm_compute..|].
  exists r. split; [exact Hr|]. rewrite Hv. apply lookup_insert_eq.
Defined.

Definition x_tweak : json :=
  JObject [("request", JString "tweak"); ("grouping", JFalse); ("max_retransmissions", JInteger 2); ("backend", JString "https://b")].
Lemma tweak_all_or_nothing_witness :
  janus_sampleevh_handle_request x_tweak x_idle = Done (Some (response None), tweaked x_tweak x_idle) /\
  backend (tweaked x_tweak x_idle) = Text "https://b" /\ group_events (tweaked x_tweak x_idle) = false.
Proof.
  split; [|by vm_compute]. etransitivity; [apply (tweak_all_or_nothing x_tweak x_idle); [by vm_compute| |by eauto]|by vm_compute].
  by vm_compute.
Defined.
End Examples.
End Evh.
