(* ===== verification/JanusMain.v ===== *)
(** * The server's task from its start to its end: [Janusmain] of janus/src/pjanus.c

    The command line overrides the configuration file; the globals are set from what remains;
    Janus's libraries are started with it, then the watchdog of the sessions, the event
    handlers and the plug-ins; the task waits until it is told to stop and takes all down.

    The parser of the command line, the files, the network, the dynamic loader, the processes
    and Janus's libraries are parameters ([Boot]); each call of a library is listed in [calls]
    and does to Janus's state what [library] says.  [Some n] as a result of a part is an early
    [return n].  The build has no HAVE_TURNRESTAPI; HAVE_SCTP is [have_sctp].  Logging and the
    frees of strings are left out, and of the parent of a daemon that it prints the child's
    code. *)

From Stdlib Require Import Ascii.
From stdpp Require Import pretty.
From S2P Require Import Prelude Jansson KoreNet MediaRooms Janus HandleSdp JanusConfig GatewayConf JanusServer JanusRequests.
From S2P Require Import JanusSummary JanusAdmin.

Local Open Scope c_scope.

Module Start.
Import Janus Srv Req Sum Adm.

(** ** Data *)

(** What the command line gives. *)
Record args_info : Type := ArgsInfo {
  config_arg : option string;
  configs_folder_arg : option string;
  log_file_arg : option string;
  pid_file_arg : option string;
  server_name_arg : option string;
  interface_arg : option string;
  plugins_folder_arg : option string;
  apisecret_arg : option string;
  token_auth_secret_arg : option string;
  cert_pem_arg : option string;
  cert_key_arg : option string;
  cert_pwd_arg : option string;
  stun_server_arg : option string;
  nat_1_1_arg : option string;
  ice_enforce_list_arg : option string;
  ice_ignore_list_arg : option string;
  rtp_port_range_arg : option string;
  debug_level_arg : option Z;
  session_timeout_arg : option Z;
  reclaim_session_timeout_arg : option Z;
  max_nack_queue_arg : option Z;
  no_media_timer_arg : option Z;
  disable_stdout_given : bool;
  daemon_given : bool;
  debug_timestamps_given : bool;
  disable_colors_given : bool;
  debug_locks_given : bool;
  token_auth_given : bool;
  libnice_debug_given : bool;
  full_trickle_given : bool;
  ice_lite_given : bool;
  ice_tcp_given : bool;
  ipv6_candidates_given : bool;
  rfc_4588_given : bool;
  event_handlers_given : bool
}.

(** The locals of the ICE stack. *)
Record ice_settings : Type := IceSettings {
  stun_server : option string;
  stun_port : Z;
  turn_server : option string;
  turn_port : Z;
  turn_type : option string;
  turn_user : option string;
  turn_pwd : option string;
  rtp_min_port : Z;
  rtp_max_port : Z;
  ice_lite : bool;
  ice_tcp : bool;
  full_trickle : bool;
  ipv6 : bool
}.

Inductive call (J : Type) : Type :=
| LogInit (daemonize use_stdout : bool) (logfile : option string)
| PidfileCreate (pidfile : option string)
| EnforceInterface (name : string)
| IgnoreInterface (name : string)
| AuthInit (enabled : bool) (secret : option string)
| RecorderInit (ext : option string)
| EventLoops (n : Z)
| IceInit (s : ice_settings)
| IceSetStun (server : option string) (port : Z)
| IceSetTurn (server : option string) (port : Z) (type user pwd : option string)
| IceEnableNat11
| IceDebugging
| InvalidAddress (ip : option string)  (* logged *)
| PrivateAddress (ip : option string)  (* logged *)
| SetMaxNack (n : Z)
| SetNoMedia (n : Z)
| SetRfc4588 (on : bool)
| DtlsInit (pem key password : option string) (timeout : Z)
| SetMtu (n : Z)
| SctpInit
| WatchdogStart
| StatsPeriod (n : Z)
| EventHandlerInit (e : loc) (configs_folder : option string)
| EventsInit (server_name : string)
| PluginInit (p : loc) (configs_folder : option string)
| PluginClosed (so : loc)  (* dlclose *)
| Started (info : J)  (* the event handlers are told *)
| WatchdogJoin
| ConfigDestroy
| SessionsDestroy
| IceDeinit
| DtlsCleanup
| SctpDeinit
| AuthDeinit
| ClosePlugin (p : loc)
| EventsDeinit
| CloseEventHandler (e : loc)
| RecorderDeinit
| StopEventLoops.
Arguments LogInit {J}.
Arguments PidfileCreate {J}.
Arguments EnforceInterface {J}.
Arguments IgnoreInterface {J}.
Arguments AuthInit {J}.
Arguments RecorderInit {J}.
Arguments EventLoops {J}.
Arguments IceInit {J}.
Arguments IceSetStun {J}.
Arguments IceSetTurn {J}.
Arguments IceEnableNat11 {J}.
Arguments IceDebugging {J}.
Arguments InvalidAddress {J}.
Arguments PrivateAddress {J}.
Arguments SetMaxNack {J}.
Arguments SetNoMedia {J}.
Arguments SetRfc4588 {J}.
Arguments DtlsInit {J}.
Arguments SetMtu {J}.
Arguments SctpInit {J}.
Arguments WatchdogStart {J}.
Arguments StatsPeriod {J}.
Arguments EventHandlerInit {J}.
Arguments EventsInit {J}.
Arguments PluginInit {J}.
Arguments PluginClosed {J}.
Arguments Started {J}.
Arguments WatchdogJoin {J}.
Arguments ConfigDestroy {J}.
Arguments SessionsDestroy {J}.
Arguments IceDeinit {J}.
Arguments DtlsCleanup {J}.
Arguments SctpDeinit {J}.
Arguments AuthDeinit {J}.
Arguments ClosePlugin {J}.
Arguments EventsDeinit {J}.
Arguments CloseEventHandler {J}.
Arguments RecorderDeinit {J}.
Arguments StopEventLoops {J}.

Record boot (X : Type) (R : Type) (J : Type) (C : Type) : Type := Boot {
  srv : world X R J;  (* the server, its globals among them *)
  config : option C;
  config_fileD : option string;
  configs_folder : option string;
  daemonize : bool;
  local_ip : option string;
  public_ip : option string;
  server_name : option string;
  plugins_so : gmap string loc;
  eventhandlers_so : gmap string loc;
  watchdog : bool;  (* its thread is there *)
  calls : list (call J)  (* into Janus and the libraries, newest first *)
}.
Arguments Boot {X R J C}.
Arguments srv {X R J C}.
Arguments config {X R J C}.
Arguments config_fileD {X R J C}.
Arguments configs_folder {X R J C}.
Arguments daemonize {X R J C}.
Arguments local_ip {X R J C}.
Arguments public_ip {X R J C}.
Arguments server_name {X R J C}.
Arguments plugins_so {X R J C}.
Arguments eventhandlers_so {X R J C}.
Arguments watchdog {X R J C}.
Arguments calls {X R J C}.

Definition b_srv {X : Type} {R : Type} {J : Type} {C : Type} (f : world X R J -> world X R J) (w : boot X R J C) : boot X R J C :=
  Boot (f (srv w)) (config w) (config_fileD w) (configs_folder w) (daemonize w) (local_ip w) (public_ip w) (server_name w) (plugins_so w) (eventhandlers_so w) (watchdog w) (calls w).
Definition b_config {X : Type} {R : Type} {J : Type} {C : Type} (f : option C -> option C) (w : boot X R J C) : boot X R J C :=
  Boot (srv w) (f (config w)) (config_fileD w) (configs_folder w) (daemonize w) (local_ip w) (public_ip w) (server_name w) (plugins_so w) (eventhandlers_so w) (watchdog w) (calls w).
Definition b_config_fileD {X : Type} {R : Type} {J : Type} {C : Type} (f : option string -> option string) (w : boot X R J C) : boot X R J C :=
  Boot (srv w) (config w) (f (config_fileD w)) (configs_folder w) (daemonize w) (local_ip w) (public_ip w) (server_name w) (plugins_so w) (eventhandlers_so w) (watchdog w) (calls w).
Definition b_configs_folder {X : Type} {R : Type} {J : Type} {C : Type} (f : option string -> option string) (w : boot X R J C) : boot X R J C :=
  Boot (srv w) (config w) (config_fileD w) (f (configs_folder w)) (daemonize w) (local_ip w) (public_ip w) (server_name w) (plugins_so w) (eventhandlers_so w) (watchdog w) (calls w).
Definition b_daemonize {X : Type} {R : Type} {J : Type} {C : Type} (f : bool -> bool) (w : boot X R J C) : boot X R J C :=
  Boot (srv w) (config w) (config_fileD w) (configs_folder w) (f (daemonize w)) (local_ip w) (public_ip w) (server_name w) (plugins_so w) (eventhandlers_so w) (watchdog w) (calls w).
Definition b_local_ip {X : Type} {R : Type} {J : Type} {C : Type} (f : option string -> option string) (w : boot X R J C) : boot X R J C :=
  Boot (srv w) (config w) (config_fileD w) (configs_folder w) (daemonize w) (f (local_ip w)) (public_ip w) (server_name w) (plugins_so w) (eventhandlers_so w) (watchdog w) (calls w).
Definition b_public_ip {X : Type} {R : Type} {J : Type} {C : Type} (f : option string -> option string) (w : boot X R J C) : boot X R J C :=
  Boot (srv w) (config w) (config_fileD w) (configs_folder w) (daemonize w) (local_ip w) (f (public_ip w)) (server_name w) (plugins_so w) (eventhandlers_so w) (watchdog w) (calls w).
Definition b_server_name {X : Type} {R : Type} {J : Type} {C : Type} (f : option string -> option string) (w : boot X R J C) : boot X R J C :=
  Boot (srv w) (config w) (config_fileD w) (configs_folder w) (daemonize w) (local_ip w) (public_ip w) (f (server_name w)) (plugins_so w) (eventhandlers_so w) (watchdog w) (calls w).
Definition b_plugins_so {X : Type} {R : Type} {J : Type} {C : Type} (f : gmap string loc -> gmap string loc) (w : boot X R J C) : boot X R J C :=
  Boot (srv w) (config w) (config_fileD w) (configs_folder w) (daemonize w) (local_ip w) (public_ip w) (server_name w) (f (plugins_so w)) (eventhandlers_so w) (watchdog w) (calls w).
Definition b_eventhandlers_so {X : Type} {R : Type} {J : Type} {C : Type} (f : gmap string loc -> gmap string loc) (w : boot X R J C) : boot X R J C :=
  Boot (srv w) (config w) (config_fileD w) (configs_folder w) (daemonize w) (local_ip w) (public_ip w) (server_name w) (plugins_so w) (f (eventhandlers_so w)) (watchdog w) (calls w).
Definition b_watchdog {X : Type} {R : Type} {J : Type} {C : Type} (f : bool -> bool) (w : boot X R J C) : boot X R J C :=
  Boot (srv w) (config w) (config_fileD w) (configs_folder w) (daemonize w) (local_ip w) (public_ip w) (server_name w) (plugins_so w) (eventhandlers_so w) (f (watchdog w)) (calls w).
Definition b_calls {X : Type} {R : Type} {J : Type} {C : Type} (f : list (call J) -> list (call J)) (w : boot X R J C) : boot X R J C :=
  Boot (srv w) (config w) (config_fileD w) (configs_folder w) (daemonize w) (local_ip w) (public_ip w) (server_name w) (plugins_so w) (eventhandlers_so w) (watchdog w) (f (calls w)).

Class BootCore (X J : Type) := {
  cmdline_parser : list string -> option args_info;
  LOG_INFO : Z;
  JANUS_PLUGIN_API_VERSION : Z;
  JANUS_EVENTHANDLER_API_VERSION : Z;
  (* processes, files, threads *)
  pipe_made : bool; fork : Z; setsid : Z; chdir : Z;
  g_thread_try_new : bool;
  opendir : string -> option (list string);
  (* the network *)
  janus_network_detect_local_ip_as_string : option string;
  janus_network_string_is_valid_address : string -> bool;
  janus_network_string_to_address : option string -> option Conf.family;
  janus_network_lookup_interface : option (string -> option string);  (* [getifaddrs], then the interface's address *)
  (* shared objects: their handle; [create]; what it makes; the version of its interface *)
  dlopen : string -> option loc;
  dlsym_create : loc -> option (option loc);
  complete : loc -> bool;  (* all that is mandatory is implemented *)
  get_api_compatibility : loc -> Z;
  (* what a call does to Janus, and its result; of most it is not looked at *)
  library : call J -> X -> Z * X;
  janus_ice_get_static_event_loops : X -> Z
}.

Section Code.
Context {X D R J B C : Type} `{JanusCore X D J} `{ServerCore X D J} `{ServerInfo X} `{AdminCore X J} `{SummaryCore X J} `{Media.JsonRefs R}
  `{!Jansson J} `{!JanssonBool J} `{!JanssonArray J} `{KoreBuf B} `{KoreNet} `{!BootCore X J} `{JanusConfig C}.
Abbreviation m := (M (boot X R J C)).

(** A call of a library, and its result. *)
Definition call_out (e : call J) : m Z :=
  x ← gets (fun w => core_of (srv w));
  let '(n, x) := library e x in
  modify (b_srv (w_jw (w_core (fun _ => x))));; modify (b_calls (cons e));; mret n.
Definition just (e : call J) : m unit := _ ← call_out e; mret tt.

Definition set_conf (f : globals -> globals) : m unit := modify (b_srv (w_conf f)).

(** One part after the other, until one returns. *)
Fixpoint parts (l : list (m (option Z))) : m (option Z) :=
  match l with
  | [] => mret None
  | p :: l => r ← p; match r with Some n => mret (Some n) | None => parts l end
  end.
Definition always (f : m unit) : m (option Z) := f;; mret None.
(** [if(... < 0) return n] *)
Definition unless_negative (f : m Z) (n : Z) : m (option Z) := r ← f; mret (if (r <? 0)%Z then Some n else None).

(** [item && item->value] *)
Definition value (section key : string) : m (option string) := gets (fun w => c ← config w; config_value c section key).
Definition on_value (section key : string) (f : string -> m unit) : m unit :=
  v ← value section key; match v with Some s => f s | None => mret tt end.
Definition is_true (section key : string) : m bool := gets (fun w => match config w with Some c => config_true c section key | None => false end).
Definition add_items (l : list (string * string * string)) : m unit :=
  modify (b_config (fmap (fun c => foldl (fun c i => janus_config_add i.1.1 i.1.2 i.2 c) c l))).

(** ** Addresses *)

Definition janus_get_public_ip (w : boot X R J C) : option string :=
  match public_ip w with Some ip => Some ip | None => local_ip w end.
Definition janus_set_public_ip (ip : option string) : m unit :=
  modify (b_public_ip (fun p => match ip, p with Some _, None => ip | _, _ => p end)).

(** ** The command line *)

Definition item_given (section key : string) (o : option string) : list (string * string * string) :=
  match o with Some v => [(section, key, v)] | None => [] end.
Definition int_given (section key : string) (n : nat) (o : option Z) : list (string * string * string) :=
  item_given section key ((fun z : Z => snprintf n (pretty z)) <$> o).
Definition flag_given (section key v : string) (b : bool) : list (string * string * string) :=
  if b then [(section, key, v)] else [].

Definition clamp_level (n : Z) : Z := if (n <? LOG_NONE)%Z then 0%Z else if (LOG_MAX <? n)%Z then LOG_MAX else n.

(** A server and its port, 3478 without one. *)
Definition stun_items (o : option string) : list (string * string * string) :=
  match o with
  | None => []
  | Some s =>
      match Conf.strrchr ":" s with
      | Some (server, stunport) => [("nat", "stun_server", server); ("nat", "stun_port", stunport)]
      | None => [("nat", "stun_server", s); ("nat", "stun_port", "3478")]
      end
  end.

(** What is added to the configuration before the log is opened, with the file of the process
    id, and then. *)
Definition log_items (a : args_info) : list (string * string * string) :=
  flag_given "general" "log_to_stdout" "no" (disable_stdout_given a) ++
  item_given "general" "log_to_file" ((fun _ => "no") <$> log_file_arg a) ++
  flag_given "general" "daemonize" "yes" (daemon_given a).
Definition pid_items (a : args_info) : list (string * string * string) := item_given "general" "pid_file" (pid_file_arg a).
Definition override_items (a : args_info) : list (string * string * string) :=
  flag_given "general" "debug_timestamps" "yes" (debug_timestamps_given a) ++
  flag_given "general" "debug_colors" "no" (disable_colors_given a) ++
  flag_given "general" "debug_locks" "yes" (debug_locks_given a) ++
  item_given "general" "server_name" (server_name_arg a) ++
  int_given "general" "session_timeout" 20 (session_timeout_arg a) ++
  int_given "general" "reclaim_session_timeout" 20 (reclaim_session_timeout_arg a) ++
  item_given "general" "interface" (interface_arg a) ++
  item_given "general" "configs_folder" (configs_folder_arg a) ++
  item_given "general" "plugins_folder" (plugins_folder_arg a) ++
  item_given "general" "api_secret" (apisecret_arg a) ++
  flag_given "general" "token_auth" "yes" (token_auth_given a) ++
  item_given "general" "token_auth_secret" (token_auth_secret_arg a) ++
  item_given "certificates" "cert_pem" (cert_pem_arg a) ++
  item_given "certificates" "cert_key" (cert_key_arg a) ++
  item_given "certificates" "cert_pwd" (cert_pwd_arg a) ++
  stun_items (stun_server_arg a) ++
  item_given "nat" "nat_1_1_mapping" (nat_1_1_arg a) ++
  item_given "nat" "ice_enforce_list" (ice_enforce_list_arg a) ++
  item_given "nat" "ice_ignore_list" (ice_ignore_list_arg a) ++
  flag_given "nat" "nice_debug" "true" (libnice_debug_given a) ++
  flag_given "nat" "full_trickle" "true" (full_trickle_given a) ++
  flag_given "nat" "ice_lite" "true" (ice_lite_given a) ++
  flag_given "nat" "ice_tcp" "true" (ice_tcp_given a) ++
  flag_given "media" "ipv6" "true" (ipv6_candidates_given a) ++
  int_given "media" "max_nack_queue" 20 (max_nack_queue_arg a) ++
  int_given "media" "no_media_timer" 20 (no_media_timer_arg a) ++
  flag_given "media" "rfc_4588" "yes" (rfc_4588_given a) ++
  item_given "media" "rtp_port_range" (rtp_port_range_arg a) ++
  flag_given "events" "broadcast" "yes" (event_handlers_given a).

(** The configuration file: the one given, or [janus.jcfg] of the folder, or else [janus.cfg]
    of the folder; a default is made when no file was asked for. *)
Definition main_config (a : args_info) : m (option Z) :=
  modify (b_configs_folder (fun _ => Some (default "/usr/local/etc/janus" (configs_folder_arg a))));;
  folder ← gets (fun w => default EmptyString (configs_folder w));
  let file := match config_arg a with Some f => f | None => snprintf 255 (folder +:+ "/janus.jcfg") end in
  modify (b_config_fileD (fun _ => Some file));;
  match janus_config_parse file with
  | Some c => modify (b_config (fun _ => Some c));; mret None
  | None =>
      let file := snprintf 255 (folder +:+ "/janus.cfg") in
      modify (b_config_fileD (fun _ => Some file));;
      match janus_config_parse file with
      | Some c => modify (b_config (fun _ => Some c));; mret None
      | None =>
          modify (b_config (fun _ => None));;
          if bool_decide (is_Some (config_arg a)) then mret (Some 1%Z)
          else
            match janus_config_create "janus.cfg" with
            | None => mret (Some 1%Z)
            | Some c => modify (b_config (fun _ => Some c));; mret None
            end
      end
  end.

(** The log, and the life as a daemon: the parent and a child that cannot have a session of
    its own return. *)
Definition main_log (a : args_info) : m (option Z) :=
  silent ← gets (fun w => match config w ≫= fun c => config_value c "general" "log_to_stdout" with
                          | Some v => negb (janus_is_true v) | None => false end);
  file ← value "general" "log_to_file";
  daemon ← is_true "general" "daemonize";
  let use_stdout := negb (disable_stdout_given a || silent) in
  let logfile := match log_file_arg a with Some f => Some f | None => file end in
  add_items (log_items a);;
  (if! daemon_given a || daemon then modify (b_daemonize (fun _ => true)));;
  d ← gets daemonize;
  if (d : bool) && bool_decide (logfile = None) then mret (Some 1%Z)
  else if d && (negb pipe_made || (fork <? 0) || (0 <? fork) || (setsid <? 0) || (chdir <? 0))%Z then mret (Some 1%Z)
  else unless_negative (call_out (LogInit d (use_stdout && negb d) logfile)) 1.

Definition set_level (n : Z) : m unit := set_conf (c_janus_log_level (fun _ => n)).

Definition main_pid (a : args_info) : m (option Z) :=
  set_level LOG_INFO;;
  set_conf (c_janus_log_timestamps (fun _ => false));;
  set_conf (c_janus_log_colors (fun _ => true));;
  (match debug_level_arg a with Some n => set_level (clamp_level n) | None => mret tt end);;
  v ← value "general" "pid_file";
  add_items (pid_items a);;
  unless_negative (call_out (PidfileCreate (match pid_file_arg a with Some f => Some f | None => v end))) 1.

Definition main_level (a : args_info) : m unit :=
  match debug_level_arg a with
  | Some n => add_items [("general", "debug_level", snprintf 5 (pretty (clamp_level n)))]
  | None =>
      on_value "general" "debug_level" (fun s =>
        let temp_level := Conf.atoi_int s in
        if (temp_level =? 0)%Z && negb (String.eqb s "0") then mret tt else set_level (clamp_level temp_level))
  end.

(** ** The globals *)

Definition main_debug : m unit :=
  on_value "general" "debug_timestamps" (fun s => set_conf (c_janus_log_timestamps (fun _ => janus_is_true s)));;
  on_value "general" "debug_colors" (fun s => set_conf (c_janus_log_colors (fun _ => janus_is_true s)));;
  on_value "general" "debug_locks" (fun s => set_conf (c_lock_debug (fun _ => janus_is_true s))).

(** [while(index != NULL)] *)
Fixpoint each_interface (f : string -> call J) (l : list string) : m unit :=
  match l with
  | [] => mret tt
  | index :: l => (if! (0 <? String.length index) then just (f index));; each_interface f l
  end.
Definition main_interfaces : m unit :=
  on_value "nat" "ice_enforce_list" (fun s => each_interface EnforceInterface (Conf.g_strsplit s ","));;
  on_value "nat" "ice_ignore_list" (fun s => each_interface IgnoreInterface (Conf.g_strsplit s ",")).

Definition main_local_ip : m unit :=
  on_value "general" "interface" (fun s =>
    match janus_network_lookup_interface ≫= fun f => f s with
    | Some ip => modify (b_local_ip (fun _ => Some ip))
    | None => mret tt
    end);;
  ip ← gets local_ip;
  match ip with
  | Some _ => mret tt
  | None => modify (b_local_ip (fun _ => Some (default "127.0.0.1" janus_network_detect_local_ip_as_string)))
  end.

(** A number that is taken if it is at least [low]. *)
Definition on_int (section key : string) (low : Z) (f : Z -> m unit) : m unit :=
  on_value section key (fun s => let n := Conf.atoi_int s in if (n <? low)%Z then mret tt else f n).

Definition main_globals : m unit :=
  on_value "general" "server_name" (fun s => modify (b_server_name (fun _ => Some s)));;
  on_int "general" "session_timeout" 0 (fun n => set_conf (c_session_timeout (fun _ => n)));;
  on_int "general" "reclaim_session_timeout" 0 (fun n => set_conf (c_reclaim_session_timeout (fun _ => n)));;
  on_int "general" "candidates_timeout" 1 (fun n => set_conf (c_candidates_timeout (fun _ => n)));;
  secret ← value "general" "api_secret"; set_conf (c_api_secret (fun _ => secret));;
  admin ← value "general" "admin_secret"; set_conf (c_admin_api_secret (fun _ => admin));;
  auth_enabled ← is_true "general" "token_auth";
  auth_secret ← value "general" "token_auth_secret";
  just (AuthInit auth_enabled auth_secret);;
  ext ← value "general" "recordings_tmp_ext";
  just (RecorderInit ext).

(** ** The libraries *)

(** "min-max": in order, and up to 65535 without an upper end. *)
Definition port_range (o : option string) : Z * Z :=
  match o with
  | None => (0, 0)%Z
  | Some s =>
      let '(min, max) := match Conf.strrchr "-" s with
                         | Some (min, max) => (u16 (Conf.atoi_int min), u16 (Conf.atoi_int max))
                         | None => (0, 0)%Z
                         end in
      let '(min, max) := if (max <? min)%Z then (max, min) else (min, max) in
      (min, if (max =? 0)%Z then 65535%Z else max)
  end.

(** The locals, from the configuration. *)
Definition ice_settings_of (c : C) : ice_settings :=
  let '(min, max) := port_range (config_value c "media" "rtp_port_range") in
  let port key := match config_value c "nat" key with Some s => u16 (Conf.atoi_int s) | None => 0%Z end in
  IceSettings (config_value c "nat" "stun_server") (port "stun_port") (config_value c "nat" "turn_server") (port "turn_port")
    (config_value c "nat" "turn_type") (config_value c "nat" "turn_user") (config_value c "nat" "turn_pwd") min max
    (config_true c "nat" "ice_lite") (config_true c "nat" "ice_tcp") (config_true c "nat" "full_trickle")
    (config_true c "media" "ipv6").

(** The mapping, if it is an address. *)
Definition main_nat_1_1 : m (option string) :=
  v ← value "nat" "nat_1_1_mapping";
  match v with
  | Some s =>
      if janus_network_string_is_valid_address s then
        janus_set_public_ip (Some s);; just IceEnableNat11;; mret (Some s)
      else mret None
  | None => mret None
  end.

Definition main_private_address (s : ice_settings) (nat_1_1_mapping : option string) : m unit :=
  match stun_server s, turn_server s with
  | None, None =>
      local ← gets local_ip;
      let test_ip := match nat_1_1_mapping with Some ip => Some ip | None => local end in
      private ← (match janus_network_string_to_address test_ip with
                 | None => just (InvalidAddress test_ip);; mret false
                 | Some Conf.AF_INET => Conf.private_ip (Conf.sscanf_hu 4 (default EmptyString test_ip))
                 | Some Conf.AF_INET6 => mret false
                 end);
      if! private then just (PrivateAddress test_ip)
  | _, _ => mret tt
  end.

Definition main_ice : m (option Z) :=
  c ← gets config; c ← deref c;
  let s := ice_settings_of c in
  nat_1_1_mapping ← main_nat_1_1;
  parts [
    always (on_value "general" "event_loops" (fun v => just (EventLoops (Conf.atoi_int v)));; just (IceInit s));
    unless_negative (call_out (IceSetStun (stun_server s) (stun_port s))) 0;
    unless_negative (call_out (IceSetTurn (turn_server s) (turn_port s) (turn_type s) (turn_user s) (turn_pwd s))) 0;
    always (on_value "nat" "nice_debug" (fun v => if! janus_is_true v then just IceDebugging);;
            main_private_address s nat_1_1_mapping)
  ].

Definition main_media : m unit :=
  on_int "media" "max_nack_queue" 0 (fun n => if (0 <? n)%Z && (n <? 200)%Z then mret tt else just (SetMaxNack n));;
  on_int "media" "no_media_timer" 0 (fun n => just (SetNoMedia n));;
  on_value "media" "rfc_4588" (fun v => just (SetRfc4588 (janus_is_true v))).

Definition main_dtls (have_sctp : bool) : m (option Z) :=
  server_pem ← value "certificates" "cert_pem";
  server_key ← value "certificates" "cert_key";
  password ← value "certificates" "cert_pwd";
  timeout ← value "media" "dtls_timeout";
  let dtls_timeout := match timeout with Some v => u32 (Conf.atoi_int v) | None => 1000%Z end in
  parts [
    unless_negative (call_out (DtlsInit server_pem server_key password dtls_timeout)) 1;
    always (on_value "media" "dtls_mtu" (fun v => just (SetMtu (Conf.atoi_int v))));
    if have_sctp then unless_negative (call_out SctpInit) 1 else mret None
  ].

Definition main_sessions : m (option Z) :=
  modify (b_srv (w_sessions (fun _ => ∅)));;
  modify (b_srv (w_sessions_mutex (fun _ => false)));;
  if negb g_thread_try_new then mret (Some 1%Z)
  else modify (b_watchdog (fun _ => true));; just WatchdogStart;; mret None.

(** ** Shared objects *)

Definition so_name (d_name : string) : bool :=
  let len := String.length d_name in
  (4 <=? len) && strcasecmp_eq (String.substring (len - 3) 3 d_name) ".so".

Fixpoint skip_spaces (s : string) : string :=
  match s with String c r => if is_space c then skip_spaces r else s | EmptyString => EmptyString end.
(** Is the file in the list of what is to be left out? *)
Definition disabled (list : option string) (d_name : string) : bool :=
  match list with
  | None => false
  | Some l => existsb (fun index => negb (String.eqb (skip_spaces index) EmptyString) && String.eqb (skip_spaces index) d_name) (Conf.g_strsplit l ",")
  end.

(** The file's object and what its [create] makes, if it can be used. *)
Definition load_object (version : Z) (path d_name : string) : option (loc * loc) :=
  so ← dlopen (snprintf 1024 (path +:+ "/" +:+ d_name));
  created ← dlsym_create so;
  p ← created;
  if complete p && negb (get_api_compatibility p <? version)%Z then Some (so, p) else None.

Definition package_of (p : loc) : string := m_package (module_info_of p).

Definition load_eventhandler (path : string) (disable : option string) (d_name : string) : m unit :=
  if negb (so_name d_name) || disabled disable d_name then mret tt
  else
    match load_object JANUS_EVENTHANDLER_API_VERSION path d_name with
    | None => mret tt
    | Some (so, e) =>
        folder ← gets configs_folder;
        just (EventHandlerInit e folder);;
        modify (b_srv (w_eventhandlers <[package_of e := e]>));;
        modify (b_eventhandlers_so <[package_of e := so]>)
    end.

Definition load_plugin (path : string) (disable : option string) (d_name : string) : m unit :=
  if negb (so_name d_name) || disabled disable d_name then mret tt
  else
    match load_object JANUS_PLUGIN_API_VERSION path d_name with
    | None => mret tt
    | Some (so, p) =>
        folder ← gets configs_folder;
        r ← call_out (PluginInit p folder);
        if (r <? 0)%Z then just (PluginClosed so)
        else
          modify (b_srv (w_plugins <[package_of p := p]>));;
          modify (b_plugins_so <[package_of p := so]>)
    end.

(** [while((ent = readdir(dir)))] *)
Fixpoint each (f : string -> m unit) (l : list string) : m unit :=
  match l with [] => mret tt | d_name :: l => f d_name;; each f l end.

Definition JANUS_SERVER_NAME : string := "MyJanusInstance".

Definition main_eventhandlers : m (option Z) :=
  enable_events ← is_true "events" "broadcast";
  if negb enable_events then mret None
  else
    folder ← value "general" "events_folder";
    let path := default "/usr/local/lib/janus/events" folder in
    (match opendir path with
     | None => mret tt
     | Some dir =>
         on_int "events" "stats_period" 0 (fun n => just (StatsPeriod n));;
         disable ← value "events" "disable";
         each (load_eventhandler path disable) dir
     end);;
    name ← gets server_name;
    unless_negative (call_out (EventsInit (default JANUS_SERVER_NAME name))) 1.

Definition main_plugins : m (option Z) :=
  folder ← value "general" "plugins_folder";
  let path := default "/usr/local/lib/janus/plugins" folder in
  match opendir path with
  | None => mret (Some 1%Z)
  | Some dir =>
      disable ← value "plugins" "disable";
      each (load_plugin path disable) dir;;
      mret None
  end.

(** ** Its life *)

Definition main_started : m unit :=
  w ← gets (fun w => srv w);
  if! janus_events_is_enabled (core_of w) then
    just (Started (json_object [("status", json_string "started");
                                ("info", janus_info None (core_of w) (conf w) (plugins w) (eventhandlers w))])).

(** [while(!g_atomic_int_get(&stop)) usleep(250000)]: what the other threads do in each sleep. *)
Fixpoint wait_stop (others : list (world X R J -> world X R J)) : m unit :=
  n ← gets (fun w => stop (srv w));
  if negb (n =? 0)%Z then mret tt
  else
    match others with
    | [] => crash Fuel
    | f :: others => modify (b_srv f);; wait_stop others
    end.

(** [g_hash_table_foreach] *)
Fixpoint close_all (f : loc -> call J) (l : list (string * loc)) : m unit :=
  match l with [] => mret tt | (_, p) :: l => just (f p);; close_all f l end.

Definition main_end (have_sctp : bool) : m unit :=
  just WatchdogJoin;;
  modify (b_watchdog (fun _ => false));;
  c ← gets config;
  (if! bool_decide (is_Some c) then just ConfigDestroy);;
  just SessionsDestroy;;
  modify (b_srv (w_sessions (fun _ => ∅)));;
  just IceDeinit;;
  just DtlsCleanup;;
  (if! have_sctp then just SctpDeinit);;
  just AuthDeinit;;
  ps ← gets (fun w => g_hash_table_names (plugins (srv w)));
  close_all ClosePlugin ps;;
  just EventsDeinit;;
  es ← gets (fun w => g_hash_table_names (eventhandlers (srv w)));
  close_all CloseEventHandler es;;
  just RecorderDeinit;;
  modify (b_local_ip (fun _ => None));;
  x ← gets (fun w => core_of (srv w));
  if! (0 <? janus_ice_get_static_event_loops x)%Z then just StopEventLoops.

(** From the command line to the plug-ins. *)
Definition main_libraries (have_sctp : bool) : m (option Z) :=
  parts [
    always (main_debug;; main_interfaces;; main_local_ip;; main_globals);
    main_ice;
    always main_media;
    main_dtls have_sctp;
    main_sessions;
    main_eventhandlers;
    main_plugins
  ].
Definition main_start (have_sctp : bool) (a : args_info) : m (option Z) :=
  parts [
    main_config a;
    main_log a;
    main_pid a;
    always (main_level a;; add_items (override_items a));
    main_libraries have_sctp
  ].

Definition Janusmain (have_sctp : bool) (argv : list string) (others : list (world X R J -> world X R J)) : m Z :=
  match cmdline_parser argv with
  | None => mret 1%Z
  | Some a =>
      r ← main_start have_sctp a;
      match r with
      | Some n => mret n
      | None => main_started;; wait_stop others;; main_end have_sctp;; mret 0%Z
      end
  end.
End Code.
End Start.
