(* ===== verification/JanusStart.v ===== *)
(** * What a start of the server leaves, and its end

    The command line's settings win over the file's; behind a start the server has no session
    and no handle, its timeouts are in their ranges, its watchdog is there, and every plug-in
    and event handler in the tables is complete and new enough; told to stop, the task takes
    down what it started. *)

From Stdlib Require Import Ascii.
From stdpp Require Import pretty.
From S2P Require Import Prelude Jansson KoreNet MediaRooms Janus HandleSdp JanusConfig GatewayConf JanusServer JanusRequests.
From S2P Require Import JanusSummary JanusAdmin JanusCounted JanusModel JanusLife JanusMain.

Local Open Scope c_scope.

Module Boots.
Import Janus Srv Req Sum Adm Cnt Life Start.

(** ** The command line *)

Section CommandLine.
Context {X J C : Type} `{AdminCore X J} `{!BootCore X J} `{JanusConfigLaws C}.

Definition level_items (a : args_info) : list (string * string * string) :=
  match debug_level_arg a with Some n => [("general", "debug_level", snprintf 5 (pretty (clamp_level n)))] | None => [] end.
Definition all_items (a : args_info) : list (string * string * string) :=
  log_items a ++ pid_items a ++ level_items a ++ override_items a.
Definition with_items (c : C) (l : list (string * string * string)) : C :=
  foldl (fun c i => janus_config_add i.1.1 i.1.2 i.2 c) c l.

(** The names of the items, in the order of the code. *)
Definition item_keys : list (string * string) :=
  [("general", "log_to_stdout"); ("general", "log_to_file"); ("general", "daemonize"); ("general", "pid_file");
   ("general", "debug_level"); ("general", "debug_timestamps"); ("general", "debug_colors"); ("general", "debug_locks");
   ("general", "server_name"); ("general", "session_timeout"); ("general", "reclaim_session_timeout"); ("general", "interface");
   ("general", "configs_folder"); ("general", "plugins_folder"); ("general", "api_secret"); ("general", "token_auth");
   ("general", "token_auth_secret"); ("certificates", "cert_pem"); ("certificates", "cert_key"); ("certificates", "cert_pwd");
   ("nat", "stun_server"); ("nat", "stun_port"); ("nat", "nat_1_1_mapping"); ("nat", "ice_enforce_list");
   ("nat", "ice_ignore_list"); ("nat", "nice_debug"); ("nat", "full_trickle"); ("nat", "ice_lite"); ("nat", "ice_tcp");
   ("media", "ipv6"); ("media", "max_nack_queue"); ("media", "no_media_timer"); ("media", "rfc_4588");
   ("media", "rtp_port_range"); ("events", "broadcast")].

Lemma keys_item section key o r ks : r.*1 `sublist_of` ks -> (item_given section key o ++ r).*1 `sublist_of` ((section, key) :: ks).
Proof. intros Hr. destruct o; cbn; by constructor. Qed.
Lemma keys_int section key n o r ks : r.*1 `sublist_of` ks -> (int_given section key n o ++ r).*1 `sublist_of` ((section, key) :: ks).
Proof. apply keys_item. Qed.
Lemma keys_flag section key v (b : bool) r ks : r.*1 `sublist_of` ks -> (flag_given section key v b ++ r).*1 `sublist_of` ((section, key) :: ks).
Proof. intros Hr. destruct b; cbn; by constructor. Qed.
Lemma keys_stun o r ks :
  r.*1 `sublist_of` ks -> (stun_items o ++ r).*1 `sublist_of` (("nat", "stun_server") :: ("nat", "stun_port") :: ks).
Proof.
  intros Hr. unfold stun_items. destruct o as [s|]; [|by cbn; do 2 constructor].
  destruct (Conf.strrchr ":" s) as [[]|]; cbn; by do 2 constructor.
Qed.

Lemma keys_all a : (all_items a).*1 `sublist_of` item_keys.
Proof.
  unfold all_items, log_items, pid_items, override_items, item_keys. rewrite <- !app_assoc.
  assert (Hlevel : forall r ks, r.*1 `sublist_of` ks -> (level_items a ++ r).*1 `sublist_of` (("general", "debug_level") :: ks)).
  { intros r ks Hr. unfold level_items. destruct (debug_level_arg a); cbn; by constructor. }
  repeat first [apply keys_stun | apply keys_int | apply keys_item | apply keys_flag | apply Hlevel].
  all: by destruct (event_handlers_given a); cbn; repeat constructor.
Qed.

Lemma keys_distinct a : NoDup (all_items a).*1.
Proof. eapply sublist_NoDup; [|apply keys_all]. by apply (bool_decide_unpack _); vm_compute. Qed.

Lemma with_items_other l : forall c section key, (section, key) ∉ l.*1 -> config_value (with_items c l) section key = config_value c section key.
Proof.
  induction l as [|[[s k] v] l IH]; intros c section key Hn; [done|]. cbn in Hn. apply not_elem_of_cons in Hn as [Hne Hn].
  cbn [with_items foldl]. change (config_value (with_items (janus_config_add s k v c) l) section key = config_value c section key).
  rewrite IH by done. by apply value_other.
Qed.

Lemma with_items_in l : forall c section key v, NoDup l.*1 -> (section, key, v) ∈ l -> config_value (with_items c l) section key = Some v.
Proof.
  induction l as [|[[s k] u] l IH]; intros c section key v Hd Hin; [by apply not_elem_of_nil in Hin|].
  cbn in Hd. apply NoDup_cons in Hd as [Hn Hd]. cbn [with_items foldl].
  change (config_value (with_items (janus_config_add s k u c) l) section key = Some v).
  apply elem_of_cons in Hin as [[= -> -> ->]|Hin]; [|by apply IH]. rewrite with_items_other by done. apply value_added.
Qed.
End CommandLine.

(** A start makes no handle, whatever it asks of Janus. *)
Class BootLaws (X D J : Type) `{CountedLaws X D J} `{!BootCore X J} := {
  library_law : forall e x h, held x h = 0 -> held (library e x).2 h = 0
}.

(** ** The state a start leaves *)

Section Starts.
Context {X D R J B C : Type} `{AdminLaws X D J} `{ServerInfo X} `{Media.JsonRefs R}
  `{!Jansson J} `{!JanssonBool J} `{!JanssonArray J} `{KoreBuf B} `{KoreNet} `{!BootCore X J} `{!BootLaws X D J} `{JanusConfigLaws C}.
Implicit Types w : boot X R J C.

Definition timeouts_ok (g : globals) : Prop :=
  (0 <= session_timeout g /\ 0 <= reclaim_session_timeout g /\ 0 < candidates_timeout g)%Z.
(** Everything mandatory is there, for this version of the interface or a later one. *)
Definition checked (version : Z) (name : string) (p : loc) : Prop :=
  package_of p = name /\ complete p = true /\ (version <= get_api_compatibility p)%Z.

Record clean w : Prop := Clean {
  cl_started : started (srv w);
  cl_timeouts : timeouts_ok (conf (srv w));
  cl_plugins : map_Forall (checked JANUS_PLUGIN_API_VERSION) (plugins (srv w));
  cl_handlers : map_Forall (checked JANUS_EVENTHANDLER_API_VERSION) (eventhandlers (srv w))
}.
(** With this configuration. *)
Definition booting (c : option C) w : Prop := config w = c /\ clean w.

Lemma k_call c e : preserves (booting c) (call_out e).
Proof.
  intros w n w' [Hc [Hs Ht Hp He]] Hr. unfold call_out in Hr. run eq_refl in Hr.
  pose proof (library_law e (core_of (srv w))) as Hlaw. destruct (library e (core_of (srv w))) as [k x].
  do 2 run eq_refl in Hr. injection Hr as <- <-. split; [done|]. split; [|done..].
  destruct Hs as (? & ? & ? & ? & Hheld). split_and!; try done. intros h. by apply Hlaw, Hheld.
Qed.
Lemma k_just c e : preserves (booting c) (just e).
Proof. apply preserves_bind; [apply k_call|intros ?; apply preserves_ret]. Qed.

(** A global that is no timeout, and what is outside the server. *)
Lemma k_set_conf c f : (forall g, timeouts_ok g -> timeouts_ok (f g)) -> preserves (booting c) (set_conf f).
Proof. intros Hf. apply preserves_modify. intros w [Hc [Hs Ht Hp He]]. split; [done|]. split; try done. cbn. by apply Hf. Qed.
Lemma k_outside c (f : boot X R J C -> boot X R J C) :
  (forall w, config (f w) = config w /\ srv (f w) = srv w) -> preserves (booting c) (modify f).
Proof.
  intros Hf. apply preserves_modify. intros w [Hc [Hs Ht Hp He]]. destruct (Hf w) as [Hfc Hfs].
  split; [congruence|]. by split; rewrite Hfs.
Qed.

#[local] Hint Resolve k_call k_just : pres.
#[local] Hint Extern 3 (preserves _ (set_conf _)) => apply k_set_conf; intros ? ?; done : pres.
#[local] Hint Extern 3 (preserves _ (modify _)) => apply k_outside; intros ?; done : pres.

Lemma k_on_value c section key f : (forall s, preserves (booting c) (f s)) -> preserves (booting c) (on_value section key f).
Proof. intros Hf. unfold on_value, value. auto 10 with pres. Qed.

Lemma k_on_int c section key low f :
  (forall n, (low <= n)%Z -> preserves (booting c) (f n)) -> preserves (booting c) (on_int section key low f).
Proof. intros Hf. apply k_on_value. intros s. cbv zeta. destruct (Z.ltb_spec (Conf.atoi_int s) low); [apply preserves_ret|by apply Hf]. Qed.

#[local] Hint Resolve k_on_value : pres.

Lemma k_always c f : preserves (booting c) f -> preserves (booting c) (always f).
Proof. intros Hf. unfold always. auto with pres. Qed.
Lemma k_unless c f n : preserves (booting c) f -> preserves (booting c) (unless_negative f n).
Proof. intros Hf. unfold unless_negative. auto with pres. Qed.
Ltac each_part := repeat (apply Forall_cons; split); try by apply Forall_nil.
Lemma k_parts c l : Forall (preserves (booting c)) l -> preserves (booting c) (parts l).
Proof. induction 1; cbn [parts]; auto 10 with pres. Qed.
#[local] Hint Resolve k_always k_unless : pres.

Lemma k_each_interface c f l : preserves (booting c) (each_interface f l).
Proof. induction l; cbn [each_interface]; auto 10 with pres. Qed.

Lemma k_main_debug c : preserves (booting c) main_debug.
Proof. unfold main_debug. auto 10 with pres. Qed.
Lemma k_main_interfaces c : preserves (booting c) main_interfaces.
Proof. unfold main_interfaces. auto using k_each_interface with pres. Qed.
Lemma k_main_local_ip c : preserves (booting c) main_local_ip.
Proof. unfold main_local_ip. auto 10 with pres. Qed.

Lemma k_main_globals c : preserves (booting c) main_globals.
Proof.
  unfold main_globals, value, is_true. apply preserves_bind; [by auto 10 with pres|intros _].
  do 3 (apply preserves_bind;
    [apply k_on_int; intros n Hn; apply k_set_conf; intros g (? & ? & ?); unfold timeouts_ok; cbn; lia|intros _]).
  auto 20 with pres.
Qed.

Lemma k_private c (i : ice_settings) o : preserves (booting c) (main_private_address i o).
Proof. unfold main_private_address, Conf.private_ip. auto 20 with pres. Qed.
Lemma k_nat_1_1 c : preserves (booting c) main_nat_1_1.
Proof. unfold main_nat_1_1, value, janus_set_public_ip. auto 20 with pres. Qed.

Lemma k_main_ice c : preserves (booting c) main_ice.
Proof.
  unfold main_ice. apply preserves_bind; [auto with pres|intros o]. apply preserves_bind; [auto with pres|intros c'].
  apply preserves_bind; [apply k_nat_1_1|intros nat]. apply k_parts. each_part; auto 20 using k_private with pres.
Qed.
Lemma k_main_media c : preserves (booting c) main_media.
Proof.
  unfold main_media. apply preserves_bind; [apply k_on_int; intros; auto with pres|intros _].
  apply preserves_bind; [apply k_on_int; intros; auto with pres|intros _]. auto 10 with pres.
Qed.
Lemma k_main_dtls c b : preserves (booting c) (main_dtls b).
Proof.
  unfold main_dtls, value. do 4 (apply preserves_bind; [auto with pres|intros ?]). apply k_parts. each_part; auto 20 with pres.
Qed.

Lemma k_main_sessions c : preserves (booting c) main_sessions.
Proof.
  unfold main_sessions. apply preserves_bind.
  { apply preserves_modify. intros w [Hc [Hs Ht Hp He]]. split; [done|]. split; try done. by destruct Hs as (? & ? & ? & ? & ?). }
  intros _. apply preserves_bind; [|intros _; auto 10 with pres].
  apply preserves_modify. intros w [Hc [Hs Ht Hp He]]. by split.
Qed.

(** *** Shared objects *)

Lemma loaded_checked version path d_name so p :
  load_object version path d_name = Some (so, p) -> checked version (package_of p) p.
Proof.
  unfold load_object. destruct (dlopen _) as [so'|]; [|done]. cbn. destruct (dlsym_create so') as [[p'|]|]; cbn; try done.
  destruct (complete p') eqn:Hc; cbn [andb]; [|done]. destruct (Z.ltb_spec (get_api_compatibility p') version); cbn [negb]; [done|].
  intros [= <- <-]. by split_and!.
Qed.

Lemma k_load_eventhandler c path disable d_name : preserves (booting c) (load_eventhandler path disable d_name).
Proof.
  unfold load_eventhandler. destruct (_ || _); [apply preserves_ret|]. destruct (load_object _ _ _) as [[so e]|] eqn:Hl; [|apply preserves_ret].
  apply loaded_checked in Hl. apply preserves_bind; [auto with pres|intros ?]. apply preserves_bind; [auto with pres|intros _].
  apply preserves_bind; [|intros _; auto with pres].
  apply preserves_modify. intros w [Hc [Hs Ht Hp He]]. split; [done|]. split; try done. cbn. by apply map_Forall_insert_2.
Qed.
Lemma k_load_plugin c path disable d_name : preserves (booting c) (load_plugin path disable d_name).
Proof.
  unfold load_plugin. destruct (_ || _); [apply preserves_ret|]. destruct (load_object _ _ _) as [[so p]|] eqn:Hl; [|apply preserves_ret].
  apply loaded_checked in Hl. apply preserves_bind; [auto with pres|intros ?]. apply preserves_bind; [auto with pres|intros r].
  destruct (_ <? 0)%Z; [auto with pres|]. apply preserves_bind; [|intros _; auto with pres].
  apply preserves_modify. intros w [Hc [Hs Ht Hp He]]. split; [done|]. split; try done. cbn. by apply map_Forall_insert_2.
Qed.
Lemma k_each c f l : (forall d_name, preserves (booting c) (f d_name)) -> preserves (booting c) (each f l).
Proof. intros Hf. induction l; cbn [each]; auto with pres. Qed.

Lemma k_main_eventhandlers c : preserves (booting c) main_eventhandlers.
Proof.
  unfold main_eventhandlers, is_true, value. apply preserves_bind; [auto with pres|intros on]. destruct (negb on); [apply preserves_ret|].
  apply preserves_bind; [auto with pres|intros folder]. cbv zeta. apply preserves_bind; [|intros _; auto 10 with pres].
  destruct (opendir _); [|apply preserves_ret]. apply preserves_bind; [apply k_on_int; intros; auto with pres|intros _].
  apply preserves_bind; [auto with pres|intros ?]. apply k_each. apply k_load_eventhandler.
Qed.
Lemma k_main_plugins c : preserves (booting c) main_plugins.
Proof.
  unfold main_plugins, value. apply preserves_bind; [auto with pres|intros folder]. cbv zeta. destruct (opendir _); [|apply preserves_ret].
  apply preserves_bind; [auto with pres|intros ?]. apply preserves_bind; [apply k_each, k_load_plugin|intros _; apply preserves_ret].
Qed.

(** *** The configuration *)

Lemma t_add_items c l : triple (booting (Some c)) (add_items l) (fun _ => booting (Some (with_items c l))).
Proof. apply triple_modify. intros w [Hc [Hs Ht Hp He]]. split; [cbn; by rewrite Hc|]. by split. Qed.

(** The file that was read, or the default. *)
Definition config_base (a : args_info) (c : C) : Prop :=
  (exists file, janus_config_parse file = Some c) \/ (config_arg a = None /\ janus_config_create "janus.cfg" = Some c).

Definition ended {A : Type} (P : boot X R J C -> Prop) (r : option A) w : Prop := r = None -> P w.

Lemma t_main_config a : triple clean (main_config a) (ended (fun w => exists c, config_base a c /\ booting (Some c) w)).
Proof.
  intros w r w' Hw Hr Hn. subst r. unfold main_config in Hr. do 3 run eq_refl in Hr. cbv zeta in Hr.
  destruct (janus_config_parse (match config_arg a with Some f => f | None => _ end)) as [c|] eqn:Hp1.
  { run eq_refl in Hr. injection Hr as <-. exists c. split; [left; by eexists|]. by split; destruct Hw. }
  run eq_refl in Hr. destruct (janus_config_parse _) as [c|] eqn:Hp2 in Hr.
  { run eq_refl in Hr. injection Hr as <-. exists c. split; [left; by eexists|]. by split; destruct Hw. }
  run eq_refl in Hr. case_bool_decide as Ha; [done|]. destruct (janus_config_create _) as [c|] eqn:Hc; [|done].
  run eq_refl in Hr. injection Hr as <-. exists c. split; [right; split; [|done]|by split; destruct Hw].
  destruct (config_arg a); [destruct Ha; by eexists|done].
Qed.

(** How far the command line was followed. *)
Definition stage (a : args_info) (l : list (string * string * string)) w : Prop :=
  exists c, config_base a c /\ booting (Some (with_items c l)) w.

Lemma stage_keep {A : Type} a l (f : M (boot X R J C) A) : (forall c, preserves (booting c) f) -> preserves (stage a l) f.
Proof. intros Hf w r w' (c & Hb & Hw) Hr. exists c. split; [done|]. by eapply Hf. Qed.

Lemma t_stage a l l' : triple (stage a l) (add_items l') (fun _ => stage a (l ++ l')).
Proof.
  intros w [] w' (c & Hb & Hw) Hr. exists c. split; [done|]. unfold with_items. rewrite foldl_app.
  apply (t_add_items (with_items c l) l' w tt w' Hw Hr).
Qed.

Lemma t_part (P Q S : boot X R J C -> Prop) p l :
  triple P p (ended Q) -> triple Q (parts l) (ended S) -> triple P (parts (p :: l)) (ended S).
Proof.
  intros Hp Hl. cbn [parts]. apply triple_bind with (1 := Hp). intros [n|].
  - apply triple_ret. done.
  - intros w r w' Hq. apply Hl. by apply Hq.
Qed.
Lemma t_keep {A : Type} P (f : M (boot X R J C) (option A)) : preserves P f -> triple P f (ended P).
Proof. intros Hf w r w' Hw Hr _. by eapply Hf. Qed.

Lemma t_main_log a : triple (stage a []) (main_log a) (ended (stage a (log_items a))).
Proof.
  unfold main_log, value, is_true. do 3 (apply triple_keep; [apply stage_keep; auto with pres|intros ?]). cbv zeta.
  apply triple_bind with (1 := t_stage a [] (log_items a)). intros _. apply t_keep, stage_keep. intros c. auto 20 with pres.
Qed.

Lemma t_main_pid a : triple (stage a (log_items a)) (main_pid a) (ended (stage a (log_items a ++ pid_items a))).
Proof.
  unfold main_pid, value, set_level. do 5 (apply triple_keep; [apply stage_keep; auto with pres|intros ?]).
  apply triple_bind with (1 := t_stage a (log_items a) (pid_items a)). intros _. apply t_keep, stage_keep. intros c. auto 20 with pres.
Qed.

Lemma t_main_level a :
  triple (stage a (log_items a ++ pid_items a)) (main_level a) (fun _ => stage a (log_items a ++ pid_items a ++ level_items a)).
Proof.
  unfold main_level, level_items. destruct (debug_level_arg a) as [n|].
  - rewrite app_assoc. apply t_stage.
  - rewrite app_nil_r. intros w r w' Hw Hr. revert Hw Hr. apply stage_keep. intros c. unfold set_level. auto 10 with pres.
Qed.

Lemma t_override a :
  triple (stage a (log_items a ++ pid_items a)) (always (main_level a;; add_items (override_items a))) (ended (stage a (all_items a))).
Proof.
  unfold always. apply triple_bind with (Q := fun _ => stage a (all_items a)); [|intros _; apply triple_ret; by intros w Hw _].
  apply triple_bind with (1 := t_main_level a). intros _. unfold all_items.
  replace (log_items a ++ pid_items a ++ level_items a ++ override_items a)
    with ((log_items a ++ pid_items a ++ level_items a) ++ override_items a) by by rewrite <- !app_assoc.
  apply t_stage.
Qed.

Lemma k_libraries c have_sctp : preserves (booting c) (main_libraries have_sctp).
Proof.
  apply k_parts. each_part; auto using k_main_ice, k_main_media, k_main_dtls, k_main_sessions, k_main_eventhandlers, k_main_plugins with pres.
  apply k_always. do 3 (apply preserves_bind; [auto using k_main_debug, k_main_interfaces, k_main_local_ip|intros _]). apply k_main_globals.
Qed.

Lemma t_main_start have_sctp a : triple clean (main_start have_sctp a) (ended (stage a (all_items a))).
Proof.
  unfold main_start. apply (t_part _ (stage a [])); [exact (t_main_config a)|].
  apply (t_part _ (stage a (log_items a))); [apply t_main_log|].
  apply (t_part _ (stage a (log_items a ++ pid_items a))); [apply t_main_pid|].
  apply (t_part _ (stage a (all_items a))); [apply t_override|].
  apply (t_part _ (stage a (all_items a))); [apply t_keep, stage_keep; intros c; apply k_libraries|].
  cbn [parts]. apply triple_ret. by intros w Hw _.
Qed.


(** C29: Behind a start nobody has a session or a handle yet, so that every state the server then
    reaches is accounted for; the timeouts are in their ranges whatever the file and the
    command line say; and each plug-in and event handler is found under its own package, is
    complete, and was made for this version or a later one. *)
Theorem start_is_clean have_sctp a w w' :
  clean w -> main_start have_sctp a w = Done (None, w') ->
  started (srv w') /\ timeouts_ok (conf (srv w')) /\
  (forall name p, plugins (srv w') !! name = Some p -> checked JANUS_PLUGIN_API_VERSION name p) /\
  (forall name e, eventhandlers (srv w') !! name = Some e -> checked JANUS_EVENTHANDLER_API_VERSION name e).
Proof. intros Hw Hr. by destruct (t_main_start _ _ _ _ _ Hw Hr eq_refl) as (c & _ & _ & []). Qed.

(** ** The end *)

(** These calls were made, the last first, and Janus is [x]. *)
Definition says (l : list (call J)) (x : X) w : boot X R J C := b_calls (fun c => l ++ c) (b_srv (w_jw (w_core (fun _ => x))) w).

Lemma just_run e w : exists x, just e w = Done (tt, says [e] x w).
Proof.
  unfold just, call_out. destruct (library e (core_of (srv w))) as [n x] eqn:Hl. exists x. rewrite bind_assoc. run eq_refl. by rewrite Hl.
Qed.
Lemma says_says l l' x x' w : says l x (says l' x' w) = says (l ++ l') x w.
Proof. unfold says, b_calls, b_srv, w_jw, w_core. cbn. by rewrite app_assoc. Qed.

Lemma when_run (b : bool) e w : exists x, (if! b then just e) w = Done (tt, says (if b then [e] else []) x w).
Proof.
  destruct b; [apply just_run|]. exists (core_of (srv w)). cbn. do 2 f_equal. destruct w as [v]. by destruct v as [[]].
Qed.
Lemma close_all_run f l w : exists x, close_all f l w = Done (tt, says (rev (f <$> l.*2)) x w).
Proof.
  revert w. induction l as [|[k p] l IH]; intros w; cbn [close_all].
  - destruct (when_run false WatchdogJoin w) as [x Hx]. by exists x.
  - destruct (just_run (f p) w) as [x Hx]. run Hx. destruct (IH (says [f p] x w)) as [x' ->]. exists x'. rewrite says_says. by cbn.
Qed.

(** What is called at the end, in this order. *)
Definition end_calls (have_sctp : bool) (w : boot X R J C) (loops : bool) : list (call J) :=
  [WatchdogJoin] ++ (if bool_decide (is_Some (config w)) then [ConfigDestroy] else []) ++ [SessionsDestroy; IceDeinit; DtlsCleanup] ++
  (if have_sctp then [SctpDeinit] else []) ++ [AuthDeinit] ++ (ClosePlugin <$> (g_hash_table_names (plugins (srv w))).*2) ++
  [EventsDeinit] ++ (CloseEventHandler <$> (g_hash_table_names (eventhandlers (srv w))).*2) ++ [RecorderDeinit] ++
  (if loops then [StopEventLoops] else []).

Lemma rev_if {A : Type} (b : bool) (e : A) : rev (if b then [e] else []) = if b then [e] else [].
Proof. by destruct b. Qed.

Ltac say L := let x := fresh "x" in let Hx := fresh "Hx" in edestruct L as [x Hx]; run Hx; clear Hx.

Lemma main_end_run have_sctp w :
  exists w' loops, main_end have_sctp w = Done (tt, w') /\ calls w' = rev (end_calls have_sctp w loops) ++ calls w /\
    sessions (srv w') = ∅ /\ watchdog w' = false /\ local_ip w' = None.
Proof.
  unfold main_end. say just_run. do 2 run eq_refl. say (when_run (bool_decide (is_Some (config w)))). say just_run. run eq_refl.
  say just_run. say just_run. say (when_run have_sctp). say just_run. run eq_refl. say close_all_run. say just_run. run eq_refl.
  say close_all_run. say just_run. do 2 run eq_refl.
  match goal with |- exists _ _, whenM ?b _ ?w1 = _ /\ _ => destruct (when_run b StopEventLoops w1) as [y ->]; exists (says (if b then [StopEventLoops] else []) y w1), b end.
  split; [reflexivity|]. split; [|by split_and!].
  cbn [calls says b_calls b_srv b_local_ip b_watchdog]. unfold end_calls. rewrite !rev_app_distr, <- !app_assoc.
  by rewrite !rev_if.
Qed.

(** How the waiting ends: some thread stops the server. *)
Lemma main_wait_run others : forall w,
  Exists (fun k => stop (foldl (fun s f => f s) (srv w) (take k others)) <> 0%Z) (seq 0 (S (length others))) ->
  exists s, wait_stop others w = Done (tt, b_srv (fun _ => s) w).
Proof.
  induction others as [|f others IH]; intros w Hs; cbn [wait_stop]; run eq_refl; destruct (Z.eqb_spec (stop (srv w)) 0) as [Hz|Hz]; cbn [negb].
  - apply Exists_cons in Hs as [Hs|Hs]; [done|by apply Exists_nil in Hs].
  - exists (srv w). by destruct w.
  - run eq_refl. destruct (IH (b_srv f w)) as [s Hr]; [|exists s; by rewrite Hr; destruct w].
    apply Exists_cons in Hs as [Hs|Hs]; [done|]. apply Exists_exists in Hs as (k & Hk & Hs). apply Exists_exists.
    apply elem_of_seq in Hk. cbn [length] in Hk. destruct k as [|k]; [lia|]. exists k. split; [apply elem_of_seq; lia|exact Hs].
  - exists (srv w). by destruct w.
Qed.

Lemma started_run w : exists l x, main_started w = Done (tt, says l x w).
Proof.
  unfold main_started. run eq_refl. cbv zeta.
  match goal with |- exists _ _, whenM ?b (just ?e) _ = _ => destruct (when_run b e w) as [x Hx]; by exists (if b then [e] else []), x end.
Qed.

End Starts.

(** ** At work *)

Section Examples.
Import Model.
#[local] Existing Instances Media.refs_json Media.refs_json_laws.

#[local] Instance s_admin_laws : AdminLaws mj string json.
Proof. by split. Qed.

(** [janus --apisecret=secret --session-timeout=30], a plug-in in its folder, and a file. *)
Definition s_args : args_info := {|
  config_arg := None; configs_folder_arg := None; log_file_arg := None; pid_file_arg := None; server_name_arg := None;
  interface_arg := None; plugins_folder_arg := None; apisecret_arg := Some "secret"; token_auth_secret_arg := None;
  cert_pem_arg := None; cert_key_arg := None; cert_pwd_arg := None; stun_server_arg := None; nat_1_1_arg := None;
  ice_enforce_list_arg := None; ice_ignore_list_arg := None; rtp_port_range_arg := None; debug_level_arg := None;
  session_timeout_arg := Some 30%Z; reclaim_session_timeout_arg := None; max_nack_queue_arg := None;
  no_media_timer_arg := None; disable_stdout_given := false; daemon_given := false; debug_timestamps_given := false;
  disable_colors_given := false; debug_locks_given := false; token_auth_given := false; libnice_debug_given := false;
  full_trickle_given := false; ice_lite_given := false; ice_tcp_given := false; ipv6_candidates_given := false;
  rfc_4588_given := false; event_handlers_given := false
|}.
#[local] Instance s_boot : BootCore mj json := {|
  cmdline_parser := fun argv => match argv with [] => Some s_args | _ => None end;
  LOG_INFO := 4%Z; JANUS_PLUGIN_API_VERSION := 13%Z; JANUS_EVENTHANDLER_API_VERSION := 3%Z;
  pipe_made := true; fork := 0%Z; setsid := 0%Z; chdir := 0%Z;
  g_thread_try_new := true;
  opendir := fun _ => Some ["."; "libjanus_echotest.so"; "README"];
  janus_network_detect_local_ip_as_string := Some "192.168.1.5";
  janus_network_string_is_valid_address := fun _ => true;
  janus_network_string_to_address := fun _ => Some Conf.AF_INET;
  janus_network_lookup_interface := None;
  dlopen := fun _ => Some 900; dlsym_create := fun _ => Some (Some 40); complete := fun _ => true;
  get_api_compatibility := fun _ => 13%Z;
  library := fun _ x => (0%Z, x);
  janus_ice_get_static_event_loops := fun _ => 0%Z
|}.
#[local] Instance s_laws : BootLaws mj string json.
Proof. by split. Qed.

Definition s_items : config_map :=
  {[("general", "session_timeout") := "90"; ("general", "candidates_timeout") := "-4"; ("media", "rtp_port_range") := "20000-10000"]}.
#[local] Instance s_config : JanusConfig config_map := map_config "/usr/local/etc/janus/janus.jcfg" s_items.
#[local] Instance s_config_laws : JanusConfigLaws config_map := map_config_laws _ _.

Definition s_off : boot mj (gmap loc (nat * list loc)) json config_map :=
  Boot (w_plugins (fun _ => ∅) (m_world None 0)) None None None false None None None ∅ ∅ false [].
Definition s_on : boot mj (gmap loc (nat * list loc)) json config_map :=
  default s_off (result_state (main_start true s_args s_off)).

Lemma s_clean : clean (D := string) s_off.
Proof. split; [by split_and!|by split_and!|by apply map_Forall_empty|by apply map_Forall_empty]. Qed.
Lemma s_run : main_start true s_args s_off = Done (None, s_on).
Proof.
  assert (Hn : result_value (main_start true s_args s_off) = Some None) by by vm_compute.
  unfold s_on. destruct (main_start true s_args s_off) as [[o w]|f]; [|done]. by injection Hn as ->.
Qed.


Lemma start_is_clean_witness : started (D := string) (srv s_on) /\ session_timeout (conf (srv s_on)) = 30%Z /\
  plugins (srv s_on) !! "janus.plugin.echotest" = Some 40 /\ checked JANUS_PLUGIN_API_VERSION "janus.plugin.echotest" 40.
Proof.
  destruct (start_is_clean (D := string) true s_args s_off s_on s_clean s_run) as (Hs & _ & Hp & _).
  split; [exact Hs|]. split; [by vm_compute|]. split; [by vm_compute|]. apply Hp. by vm_compute.
Defined.

(** The worker is torn down in the third sleep. *)
Definition s_others : list (world mj (gmap loc (nat * list loc)) json -> world mj (gmap loc (nat * list loc)) json) :=
  [id; id; after kore_worker_teardown].
End Examples.
End Boots.
